(* ===== verification/_CoqProject ===== *)
-Q . S2P
Prelude.v
Api.v
Encoding.v
StringUtil.v
GoTemplate.v
GoRegex.v
Timestamps.v
Durations.v
JwtKeys.v
Rotator.v
RotatorCommand.v
JwtSigner.v
JwtManager.v
AuthUtils.v
AuthMiddleware.v
AuthConfig.v
AuthServer.v
K8s.v
Trace.v
WorkspaceQueries.v
Status.v
AccessProbe.v
Resources.v
Integrations.v
IntegrationResolver.v
ObjectBuilders.v
Pods.v
SsmAdapter.v
EnvOverlay.v
DeploymentBuilder.v
ControllerBuilders.v
StateMachine.v
IdleDetection.v
PodEvents.v
ControllerSetup.v
Defaulters.v
Validators.v
WorkspaceWebhook.v
ExtensionApi.v
ExtensionServer.v
ControllerCommand.v
TemplateWebhook.v
IntegrationTemplateWebhook.v
TextTemplates.v
AccessTemplates.v
Routing.v
ExtensionPatterns.v
RefControllers.v
