(* ===== verification/Prelude.v ===== *)
(** * A verification of jupyter-k8s

    jupyter-k8s is a Kubernetes operator, written in Go, that runs notebook
    workspaces.  A Workspace custom resource names what is wanted; the controller
    turns it into a deployment, a service, a volume claim and the access resources
    of an access strategy, and reports on its status; admission webhooks default and
    validate what users write against a WorkspaceTemplate; an authentication
    middleware in front of the workspaces turns an identity into a signed session
    cookie and checks it on every request; the keys that sign the cookies live in a
    Secret that a rotator job renews and every pod watches.

    This library models those parts as executable definitions that follow the Go
    functions one by one, with their names, and proves what makes them correct.

    ** How the code is modelled

    - Pure functions are functions.  A Go [(T, error)] is [result T]; an error is the
      call that built it ([Errorf], [Wrapf], [ApiError] ...), so that errors.Is and
      IsNotFound are functions on it.  A method that reads and writes the cluster is a
      computation of the state-and-error monad [ST W]: the state reached before an
      error stays, as Go keeps the mutations made before a [return err].  A panic and
      log.Fatalf are errors too, named as such.
    - The cluster is a type variable [W]; the Kubernetes client is a record of
      operations on it (K8s.v: [Client], [Crud]; WorkspaceQueries.v: [RefClient];
      Rotator.v: [SecretClient]; Pods.v: [PodClient]; ExtensionApi.v: [ExtClient]).  Its
      answers are arbitrary: calls may fail, conflict or answer with old objects.  What
      a theorem needs of it beyond that is a class it names ([StatusClient],
      [CleanupClient], [DeletionClient], [VolumesAside], [AccessBuilder], [RefReads],
      [PureReads], [PodReads], [SecretReads], [Stores], [ListsWorkspaces]) or a
      hypothesis of its statement.  Each class has an instance, an in-memory
      cluster that only witnesses and examples run on.  A signer owes its clients
      [SignerContract], which the standard signer discharges.  Theorems on which
      calls are made, in which order (Trace.v), are about the log of a client that
      answers as the given one and writes its calls down.
    - The order of a Go map and the ties of an unstable sort are those of an arbitrary
      [GoRuntime]; theorems hold for each.  Time is nanoseconds; time.Now() draws from a
      clock, a sequence of readings.  Durations, int32 counters, int64 products and
      float64 quotients keep their width.  What the code uses of the standard library
      is modelled: base32, base64, decimal numbers, JSON strings, RFC 3339, durations,
      path and host escaping of net/url, ServeMux, text/template (GoTemplate.v: scanner,
      parser and evaluator) and regexp (GoRegex.v: parser and leftmost-first match),
      the last two on a fragment of their languages.  The components that render
      templates or match patterns take the engine as a parameter ([TemplateEngine],
      [ObjectLibs], [GoRegexp]); TextTemplates, AccessTemplates and Routing build
      those engines from the fragments, with an arbitrary engine for texts outside
      them.
    - Code outside the repository is a parameter: golang-jwt ([JwtLib], with the laws
      [JwtLaws] of its documentation and a toy instance), go-oidc ([OidcLib]), JSONPath
      ([TemplateEngine]), YAML, SetControllerReference, encoding/json of arbitrary documents and ParseFloat
      ([IdleLibs]), the exec stream of a pod, HTTP clients, the plugin client, the
      managers and multiplexers of controller-runtime and the API server library.
    - Aliasing that matters is kept: the deployment builder shares a slice with the
      workspace it builds from (DeploymentBuilder.v).  Concurrency is a transition
      system: Secret events on a key ring (JwtSigner.v), the goroutines of the
      auth middleware (AuthServer.v).
    - Loops over maps and slices are structural recursion on the list visited, counted
      loops recursion on the count.  Fuel appears only where a loop consumes a string
      (AuthUtils, StringUtil, Pods.utf8_valid, Durations.parse_loop, the blank test of
      WorkspaceWebhook), the items of a template (GoTemplate.itemList, with lemma
      itemList_fuel) or a pattern (GoRegex.parse_seq), or repeats a pattern
      (GoRegex.star, with lemma matches_leads); it is the length of the input, which
      every iteration shortens, so it never runs out.

    ** The files

    - Prelude: errors, monads, integers, strings, decimal parsing, nondeterminism,
      tactics.  Api: the resource types of api/v1alpha1 and api/connection/v1alpha1.
      StringUtil (internal/stringutil, package strings), Timestamps and Durations
      (package time), Encoding (internal/workspace/encoding.go), GoTemplate (package
      text/template), GoRegex (package regexp).
    - Keys and tokens: JwtKeys (internal/jwt/keys.go), Rotator (internal/rotator),
      RotatorCommand (cmd/rotator), JwtSigner (standard_signer.go, secret_watch.go),
      JwtManager (handler.go and the signer factories).
    - Auth middleware (internal/authmiddleware): AuthUtils (group headers), AuthMiddleware
      (cookies, path extraction, the routes /auth, /bearer-auth and /verify), AuthConfig
      (the environment), AuthServer (OIDC verifier, set-up, routing, start and
      shutdown, cmd/authmiddleware), Routing (which workspace a request is for, under
      the default patterns).
    - Kubernetes: K8s (objects, client, the state of a reconcile, frames [respects R m]
      and success of reads [accepts]), Trace (the calls a computation makes, [traces]),
      WorkspaceQueries (internal/workspace: references,
      labels, finalizers, template resolution).
    - Controller (internal/controller): Status (conditions and status writes),
      AccessProbe (the access startup probe), Resources (creation, update and cleanup
      of what a workspace owns), IntegrationResolver and Integrations (templates
      rendered live, frozen and replayed, and their probes), ObjectBuilders, EnvOverlay
      and DeploymentBuilder (the objects built), ControllerBuilders (the builders behind
      the resource manager), Pods (exec, status probes, containers), SsmAdapter
      (internal/awsadapter, internal/pluginadapters), StateMachine (the reconcile of
      running, stopped and deleted workspaces), IdleDetection (idle checks over exec
      and network), PodEvents (pod and preemption events, the pod exec webhook),
      ControllerSetup (wiring, watches, access strategy events), ControllerCommand
      (cmd/main.go).
    - Admission (internal/webhook/v1alpha1): Defaulters, Validators, WorkspaceWebhook,
      TemplateWebhook, IntegrationTemplateWebhook; TextTemplates (what the validation
      and the resolution of integration templates say about the texts).
    - Extension API (internal/extensionapi): ExtensionApi (who may connect, connection
      URLs, reviews), AccessTemplates (the URL templates of access strategies,
      renderBearerAuthURL, plain URLs of net/url), ExtensionServer (configuration,
      routing, signer factory, set-up), ExtensionPatterns (its regular expressions).
    - Reference protection: RefControllers (the template and access strategy
      controllers, their calls and watches).

    ** What is proved

    - Keys and tokens: key names and tokens round-trip; a signer accepts only tokens
      of a key it holds, for its issuer and audience, in time; the ring invariant
      over any sequence of Secret events; the cool-off and the choice of the newest
      usable key; one rotation keeps the newest keys and never overwrites; how long a
      key stays under repeated rotation, and that the derived number of keys covers a
      token's life; the composite signer does not depend on map order; what signing
      is set up to by the extension API server.
    - Sessions: the verify route grants exactly what the claims allow; a session keeps
      its identity and ends a bounded time after login, over rotations and refreshes;
      a cookie is only set after authorization; the configuration is exactly what the
      environment says and every configuration can be written down; a request is only
      served by a process whose keys and verifier are ready.
    - Connections: a connection token is scoped to the workspace its user may connect
      to; the access review grants exactly what RBAC and the workspace allow; a
      bootstrap token is exchanged for a session of the same identity and scope;
      under the path template of the bearer route the scope is the workspace's own path.
      Under the default patterns the middleware reads a request as the workspace its
      path names, a session is for the workspace that was reviewed, and the rendered
      URLs lead back to their workspace.  The matcher of regular expressions finds a
      match exactly when the text has one.
    - Controller: exactly one phase in the conditions; availability only behind a
      passed startup probe, with bounded probes and retries that end in one of the two
      final answers; a second reconcile of an unchanged workspace writes no deployment
      or service unless the API server changed what it was sent; which containers and
      volumes the pod has, and where a clash of names can come from; the strategy's
      variables win; access resources converge to the strategy;
      cleanup is complete before the finalizer goes; a stop leaves the volume
      claims alone unless an access resource is one; integrations stay frozen and a frozen value replays; an idle stop rests on a
      reported activity older than the timeout, and the idle probe stays on its host;
      at most one registration per event, and none for an incarnation of a sidecar whose
      completed record is read back; which events count as
      preemption; a changed strategy reaches its workspaces; labels follow the
      references.
    - Admission: defaults keep the user's choices and are idempotent; a workspace is
      accepted exactly when it conforms to its template and to the namespace, volume,
      reserved-key and service-account rules; ownership over any history of requests;
      a template is admitted exactly when it is consistent and its strategy is in an
      allowed namespace; the documented template expressions stand for the values
      they name, and are admitted exactly when these are declared; an admitted
      integration template without branches resolves.
    - Reference protection: in every reconcile of the two controllers, whatever the
      cluster answers, a protection finalizer is taken off only by a write that follows
      a label query showing no user, nothing else of the object changes, and a reconcile
      that succeeds leaves the finalizers in line with the queries it made.  A user is
      what the label query finds; a workspace on a template of the shared namespace is
      labelled with its own namespace and escapes it.

    ** What is not modelled

    Transport and process: sockets, TLS, leader election, the drain of open requests,
    logging, metrics, flag parsing (its outcome is a value), the scheme.  Generated
    code (zz_generated.deepcopy.go: values of the model are immutable, so a copy is
    the value itself).  The text of the discovery answer of the extension API and the
    test helpers under test/.  Kubernetes structs the program only copies or compares
    are opaque values in Api. *)

(** ** Prelude: the Go fragments every component shares

    Errors as values, the result and state-error monads, machine-width
    integers, [time.Time]/[time.Duration] arithmetic, the string functions of
    package [strings], decimal printing and [strconv.ParseInt], the
    nondeterminism of the Go runtime (map iteration order, unstable sort), and
    the tactics and hint database of the development. *)

From stdpp Require Export base gmap strings list sorting.
From Stdlib Require Export ZArith Lia Ascii.
From Stdlib Require Import DecimalString DecimalZ DecimalPos.

#[global] Open Scope Z_scope.
#[global] Open Scope stdpp_scope.

(** ** Errors

    A Go [error] is kept as the call that built it: [Errorf fmt args] for
    [fmt.Errorf] without a wrapped error, [Wrapf fmt args e] for a format with
    [%w], [Sentinel] for a package-level [errors.New] value, and [ApiError] for
    a Kubernetes [StatusError] with its reason. *)
Inductive StatusReason :=
| ReasonNotFound
| ReasonAlreadyExists
| ReasonConflict
| ReasonOther (code : string).

#[global] Instance StatusReason_eq_dec : EqDecision StatusReason.
Proof. solve_decision. Defined.

Inductive error :=
| Errorf (fmt : string) (args : list string)
| Wrapf (fmt : string) (args : list string) (inner : error)
| Sentinel (name : string)
| ApiError (reason : StatusReason).

#[global] Instance error_eq_dec : EqDecision error.
Proof. solve_decision. Defined.

(** [errors.As] for a [StatusError]: the reason found along the wrap chain. *)
Fixpoint ReasonForError (e : error) : option StatusReason :=
  match e with
  | ApiError r => Some r
  | Wrapf _ _ e' => ReasonForError e'
  | _ => None
  end.

Definition IsNotFound (e : error) : bool :=
  bool_decide (ReasonForError e = Some ReasonNotFound).
Definition IsAlreadyExists (e : error) : bool :=
  bool_decide (ReasonForError e = Some ReasonAlreadyExists).
Definition IsConflict (e : error) : bool :=
  bool_decide (ReasonForError e = Some ReasonConflict).

(** [errors.Is] against a sentinel. *)
Fixpoint ErrorIs (e : error) (sentinel : string) : bool :=
  match e with
  | Sentinel n => bool_decide (n = sentinel)
  | Wrapf _ _ e' => ErrorIs e' sentinel
  | _ => false
  end.

(** [err.Error()]: the format with its verbs replaced in order, [%w] by the text
    of the wrapped error; a [StatusError] prints its reason. *)
Fixpoint format (fmt : string) (args : list string) (wrapped : string) : string :=
  match fmt with
  | String "%" (String v rest) =>
      if Ascii.eqb v "w" then wrapped +:+ format rest args wrapped
      else if Ascii.eqb v "%" then String "%" (format rest args wrapped)
      else
        let arg := hd "" args in
        let q := if Ascii.eqb v "q" then String "034" "" else "" in
        q +:+ arg +:+ q +:+ format rest (tl args) wrapped
  | String c rest => String c (format rest args wrapped)
  | EmptyString => EmptyString
  end.

Fixpoint Error (e : error) : string :=
  match e with
  | Errorf fmt args => format fmt args ""
  | Wrapf fmt args inner => format fmt args (Error inner)
  | Sentinel name => name
  | ApiError ReasonNotFound => "not found"
  | ApiError ReasonAlreadyExists => "already exists"
  | ApiError ReasonConflict => "conflict"
  | ApiError (ReasonOther code) => code
  end.

(** ** The result monad: a Go [(T, error)] of which only one is meaningful *)
Inductive result (A : Type) :=
| Ok (a : A)
| Fail (e : error).
Arguments Ok {A} a.
Arguments Fail {A} e.

#[global] Instance result_eq_dec {A} `{EqDecision A} : EqDecision (result A).
Proof. solve_decision. Defined.

#[global] Instance result_ret : MRet result := fun A a => Ok a.
#[global] Instance result_bind : MBind result := fun A B f r =>
  match r with Ok a => f a | Fail e => Fail e end.

Definition is_ok {A} (r : result A) : bool :=
  match r with Ok _ => true | Fail _ => false end.

(** [if err != nil { return fmt.Errorf("...: %w", err) }] *)
Definition wrap_err {A} (fmt : string) (args : list string) (r : result A) : result A :=
  match r with Ok a => Ok a | Fail e => Fail (Wrapf fmt args e) end.

Lemma result_bind_Ok {A B} (f : A -> result B) (r : result A) b :
  (a ← r; f a) = Ok b <-> exists a, r = Ok a /\ f a = Ok b.
Proof.
  destruct r; cbn; split; [eauto | by intros (? & [= <-] & ?) | done | by intros (? & ? & _)].
Qed.

Lemma wrap_err_Ok {A} fmt args (r : result A) a :
  wrap_err fmt args r = Ok a <-> r = Ok a.
Proof. by destruct r. Qed.

Lemma is_ok_true {A} (r : result A) : is_ok r = true <-> exists a, r = Ok a.
Proof. destruct r; cbn; split; [eauto | done | done | by intros []]. Qed.

(** ** The state-error monad

    A method that mutates its receiver and the cluster and may fail: the state
    reached before the error is kept, as Go keeps the mutations made before a
    [return err]. *)
Definition ST (S A : Type) : Type := S -> result A * S.

Definition st_ret {S A} (a : A) : ST S A := fun s => (Ok a, s).
Definition st_fail {S A} (e : error) : ST S A := fun s => (Fail e, s).
Definition st_bind {S A B} (m : ST S A) (f : A -> ST S B) : ST S B := fun s =>
  match m s with
  | (Ok a, s') => f a s'
  | (Fail e, s') => (Fail e, s')
  end.
(** [x, err := m()]: the error is a value the caller inspects. *)
Definition st_try {S A} (m : ST S A) : ST S (result A) := fun s =>
  let (r, s') := m s in (Ok r, s').
Definition st_get {S} : ST S S := fun s => (Ok s, s).
Definition st_modify {S} (f : S -> S) : ST S unit := fun s => (Ok tt, f s).
Definition st_lift {S A} (r : result A) : ST S A := fun s => (r, s).
Definition st_wrap {S A} (fmt : string) (args : list string) (m : ST S A) : ST S A :=
  fun s => let (r, s') := m s in (wrap_err fmt args r, s').

Declare Scope go_scope.
Delimit Scope go_scope with go.
Notation "x <- m ;; k" := (st_bind m (fun x => k))
  (at level 100, m at next level, right associativity) : go_scope.
Notation "m ;; k" := (st_bind m (fun _ => k))
  (at level 100, right associativity) : go_scope.

(** ** Machine integers, times and durations *)
Definition minInt64 : Z := - 2 ^ 63.
Definition maxInt64 : Z := 2 ^ 63 - 1.
Definition int64_ok (z : Z) : bool := (minInt64 <=? z) && (z <=? maxInt64).

(** Two's-complement reduction of an [int32] / [int64] operation. *)
Definition wrap32 (z : Z) : Z := (z + 2 ^ 31) mod 2 ^ 32 - 2 ^ 31.
Definition wrap64 (z : Z) : Z := (z + 2 ^ 63) mod 2 ^ 64 - 2 ^ 63.

Lemma wrap32_id z : - 2 ^ 31 <= z < 2 ^ 31 -> wrap32 z = z.
Proof. intros. unfold wrap32. rewrite Z.mod_small; lia. Qed.

Lemma wrap64_id z : - 2 ^ 63 <= z < 2 ^ 63 -> wrap64 z = z.
Proof. intros. unfold wrap64. rewrite Z.mod_small; lia. Qed.

Lemma wrap32_range z : - 2 ^ 31 <= wrap32 z < 2 ^ 31.
Proof. unfold wrap32. pose proof (Z.mod_pos_bound (z + 2 ^ 31) (2 ^ 32)). lia. Qed.

(** [time.Time] is nanoseconds since the epoch, [time.Duration] an [int64] of
    nanoseconds; [Sub] saturates at the ends of the [Duration] range. *)
Definition Time := Z.
Definition Duration := Z.
Definition Second : Duration := 1000000000.
Definition Millisecond : Duration := 1000000.
Definition Minute : Duration := 60 * Second.

Definition time_Sub (t u : Time) : Duration := Z.max minInt64 (Z.min maxInt64 (t - u)).
Definition time_Add (t : Time) (d : Duration) : Time := t + d.
Definition time_Unix (t : Time) : Z := t / Second.

Lemma time_Sub_exact t u : minInt64 <= t - u <= maxInt64 -> time_Sub t u = t - u.
Proof. unfold time_Sub. lia. Qed.

(** ** Package [strings] *)
Definition HasPrefix (s p : string) : bool := String.prefix p s.

Fixpoint drop_chars (n : nat) (s : string) : string :=
  match n, s with
  | O, _ => s
  | S n, String _ s' => drop_chars n s'
  | S _, EmptyString => EmptyString
  end.

Definition TrimPrefix (s p : string) : string :=
  if HasPrefix s p then drop_chars (String.length p) s else s.

(** Go compares strings bytewise, lexicographically. *)
Definition string_gt (a b : string) : bool := String.ltb b a.

Lemma prefix_cons c p d s :
  String.prefix (String c p) (String d s) = if ascii_dec c d then String.prefix p s else false.
Proof. reflexivity. Qed.

Lemma append_cons c p s : String c p +:+ s = String c (p +:+ s).
Proof. reflexivity. Qed.

Lemma string_app_assoc a b c : (a +:+ b) +:+ c = a +:+ b +:+ c.
Proof. induction a as [|x a IH]; [done|]. rewrite !append_cons. by f_equal. Qed.

Lemma string_length_app s t : String.length (s +:+ t) = (String.length s + String.length t)%nat.
Proof.
  induction s as [|c s IH]; [done|].
  change (String c s +:+ t) with (String c (s +:+ t)). cbn. by rewrite IH.
Qed.

Lemma HasPrefix_app p s : HasPrefix (p +:+ s) p = true.
Proof.
  unfold HasPrefix. induction p as [|c p IH]; [by destruct s|].
  rewrite append_cons, prefix_cons. by destruct (ascii_dec c c).
Qed.

Lemma TrimPrefix_app p s : TrimPrefix (p +:+ s) p = s.
Proof. unfold TrimPrefix. rewrite HasPrefix_app. by induction p. Qed.

Lemma HasPrefix_spec s p : HasPrefix s p = true <-> exists t, s = p +:+ t.
Proof.
  split; [|intros [t ->]; apply HasPrefix_app].
  revert s. unfold HasPrefix. induction p as [|c p IH]; intros s Hp.
  - by exists s.
  - destruct s as [|d s]; [done|]. rewrite prefix_cons in Hp.
    destruct (ascii_dec c d); [subst|done].
    destruct (IH s Hp) as [t ->]. by exists t.
Qed.

Lemma TrimPrefix_inj s1 s2 p :
  HasPrefix s1 p = true -> HasPrefix s2 p = true ->
  TrimPrefix s1 p = TrimPrefix s2 p -> s1 = s2.
Proof.
  intros [t1 ->]%HasPrefix_spec [t2 ->]%HasPrefix_spec.
  rewrite !TrimPrefix_app. by intros ->.
Qed.

Lemma app_string_inj_l p s t : p +:+ s = p +:+ t -> s = t.
Proof. intros E. rewrite <- (TrimPrefix_app p s), E. apply TrimPrefix_app. Qed.

(** The order is a strict total order. *)
Lemma ascii_compare_lt_trans a b c :
  Ascii.compare a b = Lt -> Ascii.compare b c = Lt -> Ascii.compare a c = Lt.
Proof. unfold Ascii.compare. rewrite !N.compare_lt_iff. lia. Qed.

Lemma ascii_compare_refl a : Ascii.compare a a = Eq.
Proof. unfold Ascii.compare. apply N.compare_refl. Qed.

Lemma string_compare_refl a : String.compare a a = Eq.
Proof. induction a as [|c a IH]; cbn; [done|]. by rewrite ascii_compare_refl. Qed.

Lemma string_compare_lt_trans a b c :
  String.compare a b = Lt -> String.compare b c = Lt -> String.compare a c = Lt.
Proof.
  revert b c. induction a as [|x a IH]; intros [|y b] [|z c]; cbn; try done.
  destruct (Ascii.compare x y) eqn:Exy; destruct (Ascii.compare y z) eqn:Eyz; try done;
    repeat match goal with
    | H : Ascii.compare ?u ?v = Eq |- _ => apply Ascii.compare_eq_iff in H; subst
    end.
  - rewrite ascii_compare_refl. apply IH.
  - by rewrite Eyz.
  - by rewrite Exy.
  - by rewrite (ascii_compare_lt_trans _ _ _ Exy Eyz).
Qed.

Lemma string_gt_iff a b : string_gt a b = true <-> String.compare b a = Lt.
Proof. unfold string_gt, String.ltb. by destruct (String.compare b a). Qed.

Lemma string_gt_irrefl a : string_gt a a = false.
Proof. unfold string_gt, String.ltb. by rewrite string_compare_refl. Qed.

Lemma string_gt_trans a b c :
  string_gt a b = true -> string_gt b c = true -> string_gt a c = true.
Proof. rewrite !string_gt_iff. eauto using string_compare_lt_trans. Qed.

Lemma string_gt_asym a b : string_gt a b = true -> string_gt b a = false.
Proof.
  intros Hab. destruct (string_gt b a) eqn:Hba; [|done].
  pose proof (string_gt_trans _ _ _ Hab Hba) as Haa. by rewrite string_gt_irrefl in Haa.
Qed.

Lemma string_gt_antisym a b : string_gt a b = false -> string_gt b a = false -> a = b.
Proof.
  unfold string_gt, String.ltb. intros Hab Hba. apply String.compare_eq_iff.
  rewrite (String.compare_antisym b a) in Hab. destruct (String.compare a b); done.
Qed.

(** "Not greater than" is transitive: the step of a running maximum. *)
Lemma string_ngt_trans a b c :
  string_gt a b = false -> string_gt b c = false -> string_gt a c = false.
Proof.
  intros Hab Hbc. destruct (string_gt a c) eqn:Hac; [|done].
  destruct (string_gt c b) eqn:Hcb.
  - by rewrite (string_gt_trans _ _ _ Hac Hcb) in Hab.
  - rewrite (string_gt_antisym _ _ Hbc Hcb) in Hab. congruence.
Qed.

(** sort.Strings. *)
Definition string_le (a b : string) : Prop := string_gt a b = false.
#[global] Instance string_le_dec : RelDecision string_le.
Proof. intros a b. unfold string_le. apply _. Defined.
#[global] Instance string_le_total : Total string_le.
Proof.
  intros a b. unfold string_le. destruct (string_gt a b) eqn:E; [right|by left].
  by apply string_gt_asym.
Qed.
#[global] Instance string_le_trans : Transitive string_le.
Proof. intros a b c. apply string_ngt_trans. Qed.

(** ** Decimal integers: [fmt.Sprintf("%d", n)] and [strconv.ParseInt(s, 10, 64)] *)
Definition Sprint_int (z : Z) : string := NilZero.string_of_int (Z.to_int z).

(** [strconv.ParseInt] base 10: one optional sign, then one or more decimal
    digits, then the range check of the 64-bit type. *)
Definition ParseInt64 (s : string) : result Z :=
  let finish (z : Z) :=
    if int64_ok z then Ok z else Fail (Errorf "strconv.ParseInt: value out of range" [s]) in
  let syntax := Fail (Errorf "strconv.ParseInt: invalid syntax" [s]) in
  match s with
  | EmptyString => syntax
  | String c s' =>
      let '(neg, digits) :=
        if Ascii.eqb c "-"%char then (true, s')
        else if Ascii.eqb c "+"%char then (false, s') else (false, s) in
      match NilZero.uint_of_string digits with
      | None => syntax
      | Some u => finish (if (neg : bool) then - Z.of_uint u else Z.of_uint u)
      end
  end.

Lemma to_uint_nonnil p : Pos.to_uint p <> Decimal.Nil.
Proof. apply Unsigned.to_uint_nonnil. Qed.

Lemma Sprint_int_first_digit d s :
  NilEmpty.uint_of_string s = Some d -> d <> Decimal.Nil ->
  exists c s', s = String c s' /\ Ascii.eqb c "-"%char = false /\ Ascii.eqb c "+"%char = false.
Proof.
  intros Hs Hd. destruct s as [|c s']; cbn in Hs; [congruence|].
  exists c, s'. split; [done|].
  destruct (NilEmpty.uint_of_string s') as [u|]; cbn in Hs.
  - apply uint_of_char_spec in Hs. destruct_or!; destruct Hs as [-> _]; done.
  - destruct c as [[] [] [] [] [] [] [] []]; discriminate.
Qed.

Lemma ParseInt64_digits u s :
  NilZero.uint_of_string s = Some u -> int64_ok (Z.of_uint u) = true ->
  ParseInt64 s = Ok (Z.of_uint u).
Proof.
  intros Hs Hr. destruct s as [|c s']; [done|].
  destruct (Sprint_int_first_digit u (String c s')) as (c' & s'' & [= -> ->] & E1 & E2).
  - exact Hs.
  - intros ->. by apply NilZero.uint_of_string_nonnil in Hs.
  - cbn [ParseInt64]. rewrite E1, E2, Hs. cbn. by rewrite Hr.
Qed.

(** Printing then parsing a 64-bit integer gives it back. *)
Lemma ParseInt64_Sprint z : int64_ok z = true -> ParseInt64 (Sprint_int z) = Ok z.
Proof.
  intros Hz. destruct z as [|p|p]; [done| |];
    assert (Hu : NilZero.uint_of_string (NilZero.string_of_uint (Pos.to_uint p))
             = Some (Pos.to_uint p)) by (apply NilZero.usu, to_uint_nonnil);
    assert (Hv : Z.of_uint (Pos.to_uint p) = Z.pos p)
      by (unfold Z.of_uint; by rewrite Unsigned.of_to).
  - change (Sprint_int (Z.pos p)) with (NilZero.string_of_uint (Pos.to_uint p)).
    rewrite (ParseInt64_digits _ _ Hu); rewrite Hv; done.
  - change (Sprint_int (Z.neg p)) with (String "-" (NilZero.string_of_uint (Pos.to_uint p))).
    unfold ParseInt64. change (Ascii.eqb "-" "-") with true. cbv iota beta.
    rewrite Hu, Hv. change (- Z.pos p) with (Z.neg p). by rewrite Hz.
Qed.

Lemma ParseInt64_range s z : ParseInt64 s = Ok z -> int64_ok z = true.
Proof.
  unfold ParseInt64. destruct s as [|c s']; [done|].
  repeat (case_match; try done); intros; simplify_eq/=; done.
Qed.

Lemma ParseInt64_nonempty s z : ParseInt64 s = Ok z -> s <> "".
Proof. by destruct s. Qed.

(** Lexicographic and numeric order agree on decimals of one length: the value
    of a digit string after the prefix value [n] has been read. *)
Fixpoint digits_acc (d : Decimal.uint) (n : N) : N :=
  match d with
  | Decimal.Nil => n
  | Decimal.D0 d => digits_acc d (10 * n)
  | Decimal.D1 d => digits_acc d (10 * n + 1)
  | Decimal.D2 d => digits_acc d (10 * n + 2)
  | Decimal.D3 d => digits_acc d (10 * n + 3)
  | Decimal.D4 d => digits_acc d (10 * n + 4)
  | Decimal.D5 d => digits_acc d (10 * n + 5)
  | Decimal.D6 d => digits_acc d (10 * n + 6)
  | Decimal.D7 d => digits_acc d (10 * n + 7)
  | Decimal.D8 d => digits_acc d (10 * n + 8)
  | Decimal.D9 d => digits_acc d (10 * n + 9)
  end.

Lemma digits_acc_pos d p : N.pos (Pos.of_uint_acc d p) = digits_acc d (N.pos p).
Proof.
  revert p. induction d; intros p; cbn [Pos.of_uint_acc digits_acc]; try reflexivity;
    rewrite IHd; f_equal; lia.
Qed.

Lemma digits_acc_of_uint d : Pos.of_uint d = digits_acc d 0.
Proof. induction d; cbn [Pos.of_uint digits_acc]; try done; apply digits_acc_pos. Qed.

Lemma digits_acc_bounds d n :
  (n * 10 ^ N.of_nat (Decimal.nb_digits d) <= digits_acc d n <
   (n + 1) * 10 ^ N.of_nat (Decimal.nb_digits d))%N.
Proof.
  revert n. induction d; intros n; cbn [digits_acc Decimal.nb_digits];
    [rewrite N.pow_0_r; lia|..];
    rewrite Nat2N.inj_succ, N.pow_succ_r';
    match goal with |- context [digits_acc d ?m] => specialize (IHd m) end; nia.
Qed.

Lemma digits_acc_lt d1 d2 a b :
  Decimal.nb_digits d1 = Decimal.nb_digits d2 -> (a < b)%N ->
  (digits_acc d1 a < digits_acc d2 b)%N.
Proof.
  intros Hn Hab. pose proof (digits_acc_bounds d1 a). pose proof (digits_acc_bounds d2 b).
  rewrite Hn in *. nia.
Qed.

Lemma string_of_uint_length d : String.length (NilEmpty.string_of_uint d) = Decimal.nb_digits d.
Proof. by induction d; cbn; f_equal. Qed.

Lemma digits_compare d1 d2 n :
  Decimal.nb_digits d1 = Decimal.nb_digits d2 ->
  String.compare (NilEmpty.string_of_uint d1) (NilEmpty.string_of_uint d2) =
  N.compare (digits_acc d1 n) (digits_acc d2 n).
Proof.
  revert d2 n. induction d1; intros d2 n Hn; destruct d2; cbn in Hn; simplify_eq;
    cbn [NilEmpty.string_of_uint String.compare digits_acc];
    first
      [ by rewrite N.compare_refl
      | rewrite ascii_compare_refl; by apply IHd1
      | change (Ascii.compare _ _) with Lt; symmetry; apply N.compare_lt_iff;
        apply digits_acc_lt; [done|lia]
      | change (Ascii.compare _ _) with Gt; symmetry; apply N.compare_gt_iff;
        apply digits_acc_lt; [done|lia] ].
Qed.

Lemma to_uint_digits p : digits_acc (Pos.to_uint p) 0 = N.pos p.
Proof. by rewrite <- digits_acc_of_uint, Unsigned.of_to. Qed.

Lemma Sprint_int_pos p : Sprint_int (Z.pos p) = NilEmpty.string_of_uint (Pos.to_uint p).
Proof.
  unfold Sprint_int. cbn. pose proof (to_uint_nonnil p). by destruct (Pos.to_uint p).
Qed.

Lemma Sprint_int_gt a b :
  0 < a -> 0 < b -> String.length (Sprint_int a) = String.length (Sprint_int b) ->
  string_gt (Sprint_int a) (Sprint_int b) = (b <? a).
Proof.
  intros Ha Hb. destruct a as [|a|], b as [|b|]; try lia.
  rewrite !Sprint_int_pos, !string_of_uint_length. intros Hl.
  unfold string_gt, String.ltb. rewrite (digits_compare _ _ 0) by done.
  rewrite !to_uint_digits. unfold Z.ltb. cbn. by destruct (b ?= a)%positive.
Qed.

(** ** The nondeterminism of the Go runtime

    [range] over a map visits every entry exactly once, in an order the
    language does not fix; [sort.Slice] returns a permutation sorted by the
    comparison, equal elements in an order it does not fix.  Theorems quantify
    over every instance. *)
Class GoRuntime := {
  range : forall {V : Type}, gmap string V -> list (string * V);
  range_spec : forall {V} (m : gmap string V), range m ≡ₚ map_to_list m;
  sort_by : forall {A : Type}, (A -> Z) -> list A -> list A;
  sort_by_perm : forall {A} (key : A -> Z) l, sort_by key l ≡ₚ l;
  sort_by_sorted : forall {A} (key : A -> Z) l,
    StronglySorted (fun a b => key a <= key b) (sort_by key l);
}.

Section runtime_lemmas.
Context `{GoRuntime}.

Lemma elem_of_range {V} (m : gmap string V) k v :
  (k, v) ∈ range m <-> m !! k = Some v.
Proof. rewrite range_spec. apply elem_of_map_to_list. Qed.

Lemma range_keys_NoDup {V} (m : gmap string V) : NoDup (range m).*1.
Proof. rewrite range_spec. apply NoDup_fst_map_to_list. Qed.

Lemma range_length {V} (m : gmap string V) : length (range m) = size m.
Proof. by rewrite range_spec, length_map_to_list. Qed.
End runtime_lemmas.

(** The runtime that visits maps in [map_to_list] order and sorts stably, for
    evaluating the definitions on concrete inputs. *)
Definition key_le {A} (key : A -> Z) : relation A := fun a b => key a <= key b.

#[global] Instance key_le_dec {A} (key : A -> Z) : RelDecision (key_le key).
Proof. intros a b. unfold key_le. apply _. Defined.
#[global] Instance key_le_total {A} (key : A -> Z) : Total (key_le key).
Proof. intros a b. unfold key_le. lia. Qed.
#[global] Instance key_le_trans {A} (key : A -> Z) : Transitive (key_le key).
Proof. intros a b c. unfold key_le. lia. Qed.

Definition canonical_runtime : GoRuntime := {|
  range := fun V m => map_to_list m;
  range_spec := fun V m => reflexivity _;
  sort_by := fun A key l => merge_sort (key_le key) l;
  sort_by_perm := fun A key l => merge_sort_Permutation (key_le key) l;
  sort_by_sorted := fun A key l => StronglySorted_merge_sort (key_le key) l;
|}.

(** ** Regular expressions

    Package [regexp] on patterns given by configuration or by users: whether a
    pattern compiles and the text of the error if not, the submatches of the leftmost match (the whole match
    first; none without a match), and whether there is a match. *)
Class GoRegexp := {
  re_compiles : string -> bool;
  re_error : string -> string;
  re_FindStringSubmatch : string -> string -> list string;
  re_MatchString : string -> string -> bool;
}.

(** An engine that accepts every pattern and matches nothing, for evaluation. *)
Definition no_regexp : GoRegexp :=
  Build_GoRegexp (fun _ => true) (fun _ => "") (fun _ _ => []) (fun _ _ => false).

(** ** Lists *)
Lemma StronglySorted_take_drop {A} (R : relation A) n l x y :
  StronglySorted R l -> x ∈ take n l -> y ∈ drop n l -> R x y.
Proof.
  intros Hs Hx Hy. rewrite <- (take_drop n l) in Hs.
  by eapply StronglySorted_app_1_elem_of.
Qed.

Lemma NoDup_take_drop {A} n (l : list A) x :
  NoDup l -> x ∈ take n l -> x ∈ drop n l -> False.
Proof.
  intros Hn Hx Hy. rewrite <- (take_drop n l) in Hn.
  apply NoDup_app in Hn as (_ & Hd & _). by apply (Hd x).
Qed.

(** ** Automation *)
Create HintDb gok8s.
Create Rewrite HintDb gok8s.
#[export] Hint Rewrite @result_bind_Ok @wrap_err_Ok @is_ok_true : gok8s.
#[export] Hint Resolve HasPrefix_app ParseInt64_range : gok8s.

(** Case analysis on the scrutinee of every [match] in the goal and hypotheses,
    closing the contradictory branches. *)
Ltac go_cases := repeat (case_match; simplify_eq/=; try done).

(** Turn boolean conditions of the code into propositions. *)
Ltac bool_to_prop :=
  repeat match goal with
  | H : bool_decide _ = true |- _ => apply bool_decide_eq_true in H
  | H : bool_decide _ = false |- _ => apply bool_decide_eq_false in H
  | H : (_ && _) = true |- _ => apply andb_true_iff in H as [? ?]
  | H : (_ && _) = false |- _ => apply andb_false_iff in H
  | H : (_ || _) = true |- _ => apply orb_true_iff in H
  | H : (_ || _) = false |- _ => apply orb_false_iff in H as [? ?]
  | H : negb _ = true |- _ => apply negb_true_iff in H
  | H : negb _ = false |- _ => apply negb_false_iff in H
  end.
