(* ===== verification/Api.v ===== *)
(** * Api: the resource types of api/v1alpha1 and api/connection/v1alpha1

    One record per struct, with every field of the source; a pointer is an
    [option], a slice a [list], a map a [gmap] (nil and empty are one value, except
    where the code tests for nil: there the slice or map is an [option]).
    Field [F] of struct [T] is the projection [<prefix>_F].  Kubernetes structs
    the program only copies and compares are carried as [Opaque]: the value up
    to reflect.DeepEqual.  [set_<prefix>_F] assigns one field. *)

From S2P Require Import Prelude.

(** A Kubernetes value this program does not look into. *)
Definition Opaque := string.

(** [resource.Quantity]: its value in nano-units and its canonical text. *)
Record Quantity := mkQuantity { q_value : Z; q_text : string }.
#[global] Instance Quantity_eq_dec : EqDecision Quantity.
Proof. solve_decision. Defined.

Definition Quantity_Cmp (a b : Quantity) : comparison := (q_value a ?= q_value b).
Definition Quantity_IsZero (a : Quantity) : bool := q_value a =? 0.


(** ** Kubernetes metadata and core types, the fields the program reads or writes *)


(** [metav1.OwnerReference]. *)
Record OwnerReference := mkOwnerReference {
  or_APIVersion : string;
  or_Kind : string;
  or_Name : string;
  or_UID : string;
  or_Controller : option bool;
  or_BlockOwnerDeletion : option bool;
}.
#[global] Instance OwnerReference_eq_dec : EqDecision OwnerReference.
Proof. solve_decision. Defined.

(** [metav1.ObjectMeta]. *)
Record ObjectMeta := mkObjectMeta {
  om_Name : string;
  om_Namespace : string;
  om_UID : string;
  om_ResourceVersion : string;
  om_Generation : Z;
  om_CreationTimestamp : Time;
  om_DeletionTimestamp : option Time;
  om_Labels : gmap string string;
  om_Annotations : gmap string string;
  om_OwnerReferences : list OwnerReference;
  om_Finalizers : list string;
}.
#[global] Instance ObjectMeta_eq_dec : EqDecision ObjectMeta.
Proof. solve_decision. Defined.
Definition set_om_ResourceVersion (v : string) (x : ObjectMeta) : ObjectMeta := mkObjectMeta
  (om_Name x) (om_Namespace x) (om_UID x) v (om_Generation x) (om_CreationTimestamp x)
  (om_DeletionTimestamp x) (om_Labels x) (om_Annotations x) (om_OwnerReferences x) (om_Finalizers
  x).
Definition set_om_Labels (v : gmap string string) (x : ObjectMeta) : ObjectMeta := mkObjectMeta
  (om_Name x) (om_Namespace x) (om_UID x) (om_ResourceVersion x) (om_Generation x)
  (om_CreationTimestamp x) (om_DeletionTimestamp x) v (om_Annotations x) (om_OwnerReferences x)
  (om_Finalizers x).
Definition set_om_Annotations (v : gmap string string) (x : ObjectMeta) : ObjectMeta :=
  mkObjectMeta (om_Name x) (om_Namespace x) (om_UID x) (om_ResourceVersion x) (om_Generation x)
  (om_CreationTimestamp x) (om_DeletionTimestamp x) (om_Labels x) v (om_OwnerReferences x)
  (om_Finalizers x).
Definition set_om_OwnerReferences (v : list OwnerReference) (x : ObjectMeta) : ObjectMeta :=
  mkObjectMeta (om_Name x) (om_Namespace x) (om_UID x) (om_ResourceVersion x) (om_Generation x)
  (om_CreationTimestamp x) (om_DeletionTimestamp x) (om_Labels x) (om_Annotations x) v
  (om_Finalizers x).
Definition set_om_Finalizers (v : list string) (x : ObjectMeta) : ObjectMeta := mkObjectMeta
  (om_Name x) (om_Namespace x) (om_UID x) (om_ResourceVersion x) (om_Generation x)
  (om_CreationTimestamp x) (om_DeletionTimestamp x) (om_Labels x) (om_Annotations x)
  (om_OwnerReferences x) v.
Definition set_om_DeletionTimestamp (v : option Time) (x : ObjectMeta) : ObjectMeta :=
  mkObjectMeta (om_Name x) (om_Namespace x) (om_UID x) (om_ResourceVersion x) (om_Generation x)
  (om_CreationTimestamp x) v (om_Labels x) (om_Annotations x) (om_OwnerReferences x)
  (om_Finalizers x).
Definition set_om_Namespace (v : string) (x : ObjectMeta) : ObjectMeta := mkObjectMeta (om_Name x)
  v (om_UID x) (om_ResourceVersion x) (om_Generation x) (om_CreationTimestamp x)
  (om_DeletionTimestamp x) (om_Labels x) (om_Annotations x) (om_OwnerReferences x) (om_Finalizers
  x).
Definition set_om_Name (v : string) (x : ObjectMeta) : ObjectMeta := mkObjectMeta v (om_Namespace
  x) (om_UID x) (om_ResourceVersion x) (om_Generation x) (om_CreationTimestamp x)
  (om_DeletionTimestamp x) (om_Labels x) (om_Annotations x) (om_OwnerReferences x) (om_Finalizers
  x).

(** [metav1.Condition]; [Status] is "True", "False" or "Unknown". *)
Record Condition := mkCondition {
  cond_Type : string;
  cond_Status : string;
  cond_ObservedGeneration : Z;
  cond_LastTransitionTime : Time;
  cond_Reason : string;
  cond_Message : string;
}.
#[global] Instance Condition_eq_dec : EqDecision Condition.
Proof. solve_decision. Defined.

(** [corev1.EnvVar]. *)
Record EnvVar := mkEnvVar {
  env_Name : string;
  env_Value : string;
  env_ValueFrom : option Opaque;
}.
#[global] Instance EnvVar_eq_dec : EqDecision EnvVar.
Proof. solve_decision. Defined.

(** [corev1.ResourceRequirements].  Whether the requests are nil matters to the
    deployment builder; [rr_Requests] reads them as a map, as indexing a nil map does. *)
Record ResourceRequirements := mkResourceRequirements {
  rr_Limits : gmap string Quantity;
  rr_RequestList : option (gmap string Quantity);
  rr_Claims : list Opaque;
}.
#[global] Instance ResourceRequirements_eq_dec : EqDecision ResourceRequirements.
Proof. solve_decision. Defined.
Definition set_rr_Limits (v : gmap string Quantity) (x : ResourceRequirements) :
  ResourceRequirements := mkResourceRequirements v (rr_RequestList x) (rr_Claims x).
Definition set_rr_Requests (v : gmap string Quantity) (x : ResourceRequirements) :
  ResourceRequirements := mkResourceRequirements (rr_Limits x) (Some v) (rr_Claims x).
Definition rr_Requests (x : ResourceRequirements) : gmap string Quantity := default ∅ (rr_RequestList x).

(** [corev1.VolumeMount]. *)
Record VolumeMount := mkVolumeMount {
  vm_Name : string;
  vm_MountPath : string;
  vm_SubPath : string;
  vm_SubPathExpr : string;
  vm_ReadOnly : bool;
  vm_Rest : option Opaque;
}.
#[global] Instance VolumeMount_eq_dec : EqDecision VolumeMount.
Proof. solve_decision. Defined.

(** [corev1.VolumeSource]: the two sources the program builds, and any other. *)
Inductive VolumeSource :=
| PersistentVolumeClaimSource (claimName : string) (readOnly : bool)
| EmptyDirSource (emptyDir : Opaque)
| OtherSource (source : Opaque).
#[global] Instance VolumeSource_eq_dec : EqDecision VolumeSource.
Proof. solve_decision. Defined.

(** [corev1.Volume]. *)
Record Volume := mkVolume {
  vol_Name : string;
  vol_Source : VolumeSource;
}.
#[global] Instance Volume_eq_dec : EqDecision Volume.
Proof. solve_decision. Defined.

(** [corev1.ContainerPort]; [ContainerPort] is an int32. *)
Record ContainerPort := mkContainerPort {
  cp_Name : string;
  cp_ContainerPort : Z;
  cp_Protocol : string;
  cp_Rest : option Opaque;
}.
#[global] Instance ContainerPort_eq_dec : EqDecision ContainerPort.
Proof. solve_decision. Defined.

(** [corev1.Container]; [Rest] holds the fields the program does not set. *)
Record Container := mkContainer {
  ctr_Name : string;
  ctr_Image : string;
  ctr_Command : list string;
  ctr_Args : list string;
  ctr_WorkingDir : string;
  ctr_Env : list EnvVar;
  ctr_Ports : list ContainerPort;
  ctr_VolumeMounts : list VolumeMount;
  ctr_Resources : ResourceRequirements;
  ctr_ImagePullPolicy : string;
  ctr_Lifecycle : option Opaque;
  ctr_ReadinessProbe : option Opaque;
  ctr_SecurityContext : option Opaque;
  ctr_Rest : option Opaque;
}.
#[global] Instance Container_eq_dec : EqDecision Container.
Proof. solve_decision. Defined.
Definition set_ctr_Image (v : string) (x : Container) : Container := mkContainer (ctr_Name x) v
  (ctr_Command x) (ctr_Args x) (ctr_WorkingDir x) (ctr_Env x) (ctr_Ports x) (ctr_VolumeMounts x)
  (ctr_Resources x) (ctr_ImagePullPolicy x) (ctr_Lifecycle x) (ctr_ReadinessProbe x)
  (ctr_SecurityContext x) (ctr_Rest x).
Definition set_ctr_Command (v : list string) (x : Container) : Container := mkContainer
  (ctr_Name x) (ctr_Image x) v (ctr_Args x) (ctr_WorkingDir x) (ctr_Env x) (ctr_Ports x)
  (ctr_VolumeMounts x) (ctr_Resources x) (ctr_ImagePullPolicy x) (ctr_Lifecycle x)
  (ctr_ReadinessProbe x) (ctr_SecurityContext x) (ctr_Rest x).
Definition set_ctr_Args (v : list string) (x : Container) : Container := mkContainer (ctr_Name x)
  (ctr_Image x) (ctr_Command x) v (ctr_WorkingDir x) (ctr_Env x) (ctr_Ports x)
  (ctr_VolumeMounts x) (ctr_Resources x) (ctr_ImagePullPolicy x) (ctr_Lifecycle x)
  (ctr_ReadinessProbe x) (ctr_SecurityContext x) (ctr_Rest x).
Definition set_ctr_WorkingDir (v : string) (x : Container) : Container := mkContainer (ctr_Name x)
  (ctr_Image x) (ctr_Command x) (ctr_Args x) v (ctr_Env x) (ctr_Ports x) (ctr_VolumeMounts x)
  (ctr_Resources x) (ctr_ImagePullPolicy x) (ctr_Lifecycle x) (ctr_ReadinessProbe x)
  (ctr_SecurityContext x) (ctr_Rest x).
Definition set_ctr_Env (v : list EnvVar) (x : Container) : Container := mkContainer (ctr_Name x)
  (ctr_Image x) (ctr_Command x) (ctr_Args x) (ctr_WorkingDir x) v (ctr_Ports x)
  (ctr_VolumeMounts x) (ctr_Resources x) (ctr_ImagePullPolicy x) (ctr_Lifecycle x)
  (ctr_ReadinessProbe x) (ctr_SecurityContext x) (ctr_Rest x).
Definition set_ctr_VolumeMounts (v : list VolumeMount) (x : Container) : Container := mkContainer
  (ctr_Name x) (ctr_Image x) (ctr_Command x) (ctr_Args x) (ctr_WorkingDir x) (ctr_Env x)
  (ctr_Ports x) v (ctr_Resources x) (ctr_ImagePullPolicy x) (ctr_Lifecycle x)
  (ctr_ReadinessProbe x) (ctr_SecurityContext x) (ctr_Rest x).
Definition set_ctr_Resources (v : ResourceRequirements) (x : Container) : Container := mkContainer
  (ctr_Name x) (ctr_Image x) (ctr_Command x) (ctr_Args x) (ctr_WorkingDir x) (ctr_Env x)
  (ctr_Ports x) (ctr_VolumeMounts x) v (ctr_ImagePullPolicy x) (ctr_Lifecycle x)
  (ctr_ReadinessProbe x) (ctr_SecurityContext x) (ctr_Rest x).

(** [corev1.HTTPGetAction]; [Port] is the text of the IntOrString. *)
Record HTTPGetAction := mkHTTPGetAction {
  hga_Path : string;
  hga_Port : string;
  hga_Host : string;
  hga_Scheme : string;
  hga_HTTPHeaders : list Opaque;
}.
#[global] Instance HTTPGetAction_eq_dec : EqDecision HTTPGetAction.
Proof. solve_decision. Defined.

(** ** Workspace, api/v1alpha1/workspace_types.go *)


(** VolumeSpec defines a volume to mount from an existing PVC or an emptyDir. *)
Record VolumeSpec := mkVolumeSpec {
  vs_Name : string;
  vs_MountPath : string;
  vs_PersistentVolumeClaimName : string;
  vs_EmptyDir : option Opaque;
}.
#[global] Instance VolumeSpec_eq_dec : EqDecision VolumeSpec.
Proof. solve_decision. Defined.

(** ContainerConfig defines container command and args configuration. *)
Record ContainerConfig := mkContainerConfig {
  cc_Command : list string;
  cc_Args : list string;
}.
#[global] Instance ContainerConfig_eq_dec : EqDecision ContainerConfig.
Proof. solve_decision. Defined.

(** StorageSpec defines the storage configuration for Workspace. *)
Record StorageSpec := mkStorageSpec {
  ss_StorageClassName : option string;
  ss_Size : Quantity;
  ss_MountPath : string;
}.
#[global] Instance StorageSpec_eq_dec : EqDecision StorageSpec.
Proof. solve_decision. Defined.
Definition set_ss_StorageClassName (v : option string) (x : StorageSpec) : StorageSpec :=
  mkStorageSpec v (ss_Size x) (ss_MountPath x).
Definition set_ss_Size (v : Quantity) (x : StorageSpec) : StorageSpec := mkStorageSpec
  (ss_StorageClassName x) v (ss_MountPath x).
Definition set_ss_MountPath (v : string) (x : StorageSpec) : StorageSpec := mkStorageSpec
  (ss_StorageClassName x) (ss_Size x) v.

(** AccessStrategyRef defines a reference to a WorkspaceAccessStrategy. *)
Record AccessStrategyRef := mkAccessStrategyRef {
  asr_Name : string;
  asr_Namespace : string;
}.
#[global] Instance AccessStrategyRef_eq_dec : EqDecision AccessStrategyRef.
Proof. solve_decision. Defined.

(** TemplateRef defines a reference to a WorkspaceTemplate. *)
Record TemplateRef := mkTemplateRef {
  tr_Name : string;
  tr_Namespace : string;
}.
#[global] Instance TemplateRef_eq_dec : EqDecision TemplateRef.
Proof. solve_decision. Defined.

(** IdleLastActivityTimestampSpec says where the last activity is in the response. *)
Record IdleLastActivityTimestampSpec := mkIdleLastActivityTimestampSpec {
  ilat_ResponseBodyPath : string;
  ilat_Format : string;
}.
#[global] Instance IdleLastActivityTimestampSpec_eq_dec : EqDecision IdleLastActivityTimestampSpec.
Proof. solve_decision. Defined.

(** IdleHTTPGetAction: the inlined HTTPGetAction and the fields added. *)
Record IdleHTTPGetAction := mkIdleHTTPGetAction {
  ihga_HTTPGetAction : HTTPGetAction;
  ihga_Transport : string;
  ihga_LastActivityTimestamp : option IdleLastActivityTimestampSpec;
}.
#[global] Instance IdleHTTPGetAction_eq_dec : EqDecision IdleHTTPGetAction.
Proof. solve_decision. Defined.

(** IdleDetectionSpec defines idle detection methods. *)
Record IdleDetectionSpec := mkIdleDetectionSpec {
  ids_HTTPGet : option IdleHTTPGetAction;
}.
#[global] Instance IdleDetectionSpec_eq_dec : EqDecision IdleDetectionSpec.
Proof. solve_decision. Defined.

(** IdleShutdownSpec defines idle shutdown configuration. *)
Record IdleShutdownSpec := mkIdleShutdownSpec {
  is_Enabled : bool;
  is_IdleTimeoutInMinutes : Z;
  is_Detection : IdleDetectionSpec;
}.
#[global] Instance IdleShutdownSpec_eq_dec : EqDecision IdleShutdownSpec.
Proof. solve_decision. Defined.

(** IntegrationParameter is one name/value of a template reference. *)
Record IntegrationParameter := mkIntegrationParameter {
  ip_Name : string;
  ip_Value : string;
}.
#[global] Instance IntegrationParameter_eq_dec : EqDecision IntegrationParameter.
Proof. solve_decision. Defined.

(** IntegrationTemplateRef references a WorkspaceIntegrationTemplate. *)
Record IntegrationTemplateRef := mkIntegrationTemplateRef {
  itr_Name : string;
  itr_Namespace : string;
  itr_Parameters : list IntegrationParameter;
}.
#[global] Instance IntegrationTemplateRef_eq_dec : EqDecision IntegrationTemplateRef.
Proof. solve_decision. Defined.

(** WorkspaceSpec defines the desired state of Workspace. *)
Record WorkspaceSpec := mkWorkspaceSpec {
  sp_DisplayName : string;
  sp_Image : string;
  sp_DesiredStatus : string;
  sp_OwnershipType : string;
  sp_AccessType : string;
  sp_Resources : option ResourceRequirements;
  sp_Storage : option StorageSpec;
  sp_Volumes : list VolumeSpec;
  sp_ContainerConfig : option ContainerConfig;
  sp_Env : list EnvVar;
  sp_NodeSelector : option (gmap string string);
  sp_Affinity : option Opaque;
  sp_Tolerations : option (list Opaque);
  sp_Lifecycle : option Opaque;
  sp_ReadinessProbe : option Opaque;
  sp_AccessStrategy : option AccessStrategyRef;
  sp_TemplateRef : option TemplateRef;
  sp_IdleShutdown : option IdleShutdownSpec;
  sp_AppType : string;
  sp_ServiceAccountName : string;
  sp_PodSecurityContext : option Opaque;
  sp_ContainerSecurityContext : option Opaque;
  sp_InitContainers : list Container;
  sp_IntegrationTemplateRefs : list IntegrationTemplateRef;
}.
#[global] Instance WorkspaceSpec_eq_dec : EqDecision WorkspaceSpec.
Proof. solve_decision. Defined.
Definition set_sp_Image (v : string) (x : WorkspaceSpec) : WorkspaceSpec := mkWorkspaceSpec
  (sp_DisplayName x) v (sp_DesiredStatus x) (sp_OwnershipType x) (sp_AccessType x) (sp_Resources
  x) (sp_Storage x) (sp_Volumes x) (sp_ContainerConfig x) (sp_Env x) (sp_NodeSelector x)
  (sp_Affinity x) (sp_Tolerations x) (sp_Lifecycle x) (sp_ReadinessProbe x) (sp_AccessStrategy x)
  (sp_TemplateRef x) (sp_IdleShutdown x) (sp_AppType x) (sp_ServiceAccountName x)
  (sp_PodSecurityContext x) (sp_ContainerSecurityContext x) (sp_InitContainers x)
  (sp_IntegrationTemplateRefs x).
Definition set_sp_DesiredStatus (v : string) (x : WorkspaceSpec) : WorkspaceSpec :=
  mkWorkspaceSpec (sp_DisplayName x) (sp_Image x) v (sp_OwnershipType x) (sp_AccessType x)
  (sp_Resources x) (sp_Storage x) (sp_Volumes x) (sp_ContainerConfig x) (sp_Env x)
  (sp_NodeSelector x) (sp_Affinity x) (sp_Tolerations x) (sp_Lifecycle x) (sp_ReadinessProbe x)
  (sp_AccessStrategy x) (sp_TemplateRef x) (sp_IdleShutdown x) (sp_AppType x)
  (sp_ServiceAccountName x) (sp_PodSecurityContext x) (sp_ContainerSecurityContext x)
  (sp_InitContainers x) (sp_IntegrationTemplateRefs x).
Definition set_sp_OwnershipType (v : string) (x : WorkspaceSpec) : WorkspaceSpec :=
  mkWorkspaceSpec (sp_DisplayName x) (sp_Image x) (sp_DesiredStatus x) v (sp_AccessType x)
  (sp_Resources x) (sp_Storage x) (sp_Volumes x) (sp_ContainerConfig x) (sp_Env x)
  (sp_NodeSelector x) (sp_Affinity x) (sp_Tolerations x) (sp_Lifecycle x) (sp_ReadinessProbe x)
  (sp_AccessStrategy x) (sp_TemplateRef x) (sp_IdleShutdown x) (sp_AppType x)
  (sp_ServiceAccountName x) (sp_PodSecurityContext x) (sp_ContainerSecurityContext x)
  (sp_InitContainers x) (sp_IntegrationTemplateRefs x).
Definition set_sp_AccessType (v : string) (x : WorkspaceSpec) : WorkspaceSpec := mkWorkspaceSpec
  (sp_DisplayName x) (sp_Image x) (sp_DesiredStatus x) (sp_OwnershipType x) v (sp_Resources x)
  (sp_Storage x) (sp_Volumes x) (sp_ContainerConfig x) (sp_Env x) (sp_NodeSelector x) (sp_Affinity
  x) (sp_Tolerations x) (sp_Lifecycle x) (sp_ReadinessProbe x) (sp_AccessStrategy x)
  (sp_TemplateRef x) (sp_IdleShutdown x) (sp_AppType x) (sp_ServiceAccountName x)
  (sp_PodSecurityContext x) (sp_ContainerSecurityContext x) (sp_InitContainers x)
  (sp_IntegrationTemplateRefs x).
Definition set_sp_Resources (v : option ResourceRequirements) (x : WorkspaceSpec) : WorkspaceSpec
  := mkWorkspaceSpec (sp_DisplayName x) (sp_Image x) (sp_DesiredStatus x) (sp_OwnershipType x)
  (sp_AccessType x) v (sp_Storage x) (sp_Volumes x) (sp_ContainerConfig x) (sp_Env x)
  (sp_NodeSelector x) (sp_Affinity x) (sp_Tolerations x) (sp_Lifecycle x) (sp_ReadinessProbe x)
  (sp_AccessStrategy x) (sp_TemplateRef x) (sp_IdleShutdown x) (sp_AppType x)
  (sp_ServiceAccountName x) (sp_PodSecurityContext x) (sp_ContainerSecurityContext x)
  (sp_InitContainers x) (sp_IntegrationTemplateRefs x).
Definition set_sp_Storage (v : option StorageSpec) (x : WorkspaceSpec) : WorkspaceSpec :=
  mkWorkspaceSpec (sp_DisplayName x) (sp_Image x) (sp_DesiredStatus x) (sp_OwnershipType x)
  (sp_AccessType x) (sp_Resources x) v (sp_Volumes x) (sp_ContainerConfig x) (sp_Env x)
  (sp_NodeSelector x) (sp_Affinity x) (sp_Tolerations x) (sp_Lifecycle x) (sp_ReadinessProbe x)
  (sp_AccessStrategy x) (sp_TemplateRef x) (sp_IdleShutdown x) (sp_AppType x)
  (sp_ServiceAccountName x) (sp_PodSecurityContext x) (sp_ContainerSecurityContext x)
  (sp_InitContainers x) (sp_IntegrationTemplateRefs x).
Definition set_sp_Volumes (v : list VolumeSpec) (x : WorkspaceSpec) : WorkspaceSpec :=
  mkWorkspaceSpec (sp_DisplayName x) (sp_Image x) (sp_DesiredStatus x) (sp_OwnershipType x)
  (sp_AccessType x) (sp_Resources x) (sp_Storage x) v (sp_ContainerConfig x) (sp_Env x)
  (sp_NodeSelector x) (sp_Affinity x) (sp_Tolerations x) (sp_Lifecycle x) (sp_ReadinessProbe x)
  (sp_AccessStrategy x) (sp_TemplateRef x) (sp_IdleShutdown x) (sp_AppType x)
  (sp_ServiceAccountName x) (sp_PodSecurityContext x) (sp_ContainerSecurityContext x)
  (sp_InitContainers x) (sp_IntegrationTemplateRefs x).
Definition set_sp_ContainerConfig (v : option ContainerConfig) (x : WorkspaceSpec) : WorkspaceSpec
  := mkWorkspaceSpec (sp_DisplayName x) (sp_Image x) (sp_DesiredStatus x) (sp_OwnershipType x)
  (sp_AccessType x) (sp_Resources x) (sp_Storage x) (sp_Volumes x) v (sp_Env x) (sp_NodeSelector
  x) (sp_Affinity x) (sp_Tolerations x) (sp_Lifecycle x) (sp_ReadinessProbe x) (sp_AccessStrategy
  x) (sp_TemplateRef x) (sp_IdleShutdown x) (sp_AppType x) (sp_ServiceAccountName x)
  (sp_PodSecurityContext x) (sp_ContainerSecurityContext x) (sp_InitContainers x)
  (sp_IntegrationTemplateRefs x).
Definition set_sp_Env (v : list EnvVar) (x : WorkspaceSpec) : WorkspaceSpec := mkWorkspaceSpec
  (sp_DisplayName x) (sp_Image x) (sp_DesiredStatus x) (sp_OwnershipType x) (sp_AccessType x)
  (sp_Resources x) (sp_Storage x) (sp_Volumes x) (sp_ContainerConfig x) v (sp_NodeSelector x)
  (sp_Affinity x) (sp_Tolerations x) (sp_Lifecycle x) (sp_ReadinessProbe x) (sp_AccessStrategy x)
  (sp_TemplateRef x) (sp_IdleShutdown x) (sp_AppType x) (sp_ServiceAccountName x)
  (sp_PodSecurityContext x) (sp_ContainerSecurityContext x) (sp_InitContainers x)
  (sp_IntegrationTemplateRefs x).
Definition set_sp_NodeSelector (v : option (gmap string string)) (x : WorkspaceSpec) : WorkspaceSpec :=
  mkWorkspaceSpec (sp_DisplayName x) (sp_Image x) (sp_DesiredStatus x) (sp_OwnershipType x)
  (sp_AccessType x) (sp_Resources x) (sp_Storage x) (sp_Volumes x) (sp_ContainerConfig x) (sp_Env
  x) v (sp_Affinity x) (sp_Tolerations x) (sp_Lifecycle x) (sp_ReadinessProbe x)
  (sp_AccessStrategy x) (sp_TemplateRef x) (sp_IdleShutdown x) (sp_AppType x)
  (sp_ServiceAccountName x) (sp_PodSecurityContext x) (sp_ContainerSecurityContext x)
  (sp_InitContainers x) (sp_IntegrationTemplateRefs x).
Definition set_sp_Affinity (v : option Opaque) (x : WorkspaceSpec) : WorkspaceSpec :=
  mkWorkspaceSpec (sp_DisplayName x) (sp_Image x) (sp_DesiredStatus x) (sp_OwnershipType x)
  (sp_AccessType x) (sp_Resources x) (sp_Storage x) (sp_Volumes x) (sp_ContainerConfig x) (sp_Env
  x) (sp_NodeSelector x) v (sp_Tolerations x) (sp_Lifecycle x) (sp_ReadinessProbe x)
  (sp_AccessStrategy x) (sp_TemplateRef x) (sp_IdleShutdown x) (sp_AppType x)
  (sp_ServiceAccountName x) (sp_PodSecurityContext x) (sp_ContainerSecurityContext x)
  (sp_InitContainers x) (sp_IntegrationTemplateRefs x).
Definition set_sp_Tolerations (v : option (list Opaque)) (x : WorkspaceSpec) : WorkspaceSpec :=
  mkWorkspaceSpec (sp_DisplayName x) (sp_Image x) (sp_DesiredStatus x) (sp_OwnershipType x)
  (sp_AccessType x) (sp_Resources x) (sp_Storage x) (sp_Volumes x) (sp_ContainerConfig x) (sp_Env
  x) (sp_NodeSelector x) (sp_Affinity x) v (sp_Lifecycle x) (sp_ReadinessProbe x)
  (sp_AccessStrategy x) (sp_TemplateRef x) (sp_IdleShutdown x) (sp_AppType x)
  (sp_ServiceAccountName x) (sp_PodSecurityContext x) (sp_ContainerSecurityContext x)
  (sp_InitContainers x) (sp_IntegrationTemplateRefs x).
Definition set_sp_Lifecycle (v : option Opaque) (x : WorkspaceSpec) : WorkspaceSpec :=
  mkWorkspaceSpec (sp_DisplayName x) (sp_Image x) (sp_DesiredStatus x) (sp_OwnershipType x)
  (sp_AccessType x) (sp_Resources x) (sp_Storage x) (sp_Volumes x) (sp_ContainerConfig x) (sp_Env
  x) (sp_NodeSelector x) (sp_Affinity x) (sp_Tolerations x) v (sp_ReadinessProbe x)
  (sp_AccessStrategy x) (sp_TemplateRef x) (sp_IdleShutdown x) (sp_AppType x)
  (sp_ServiceAccountName x) (sp_PodSecurityContext x) (sp_ContainerSecurityContext x)
  (sp_InitContainers x) (sp_IntegrationTemplateRefs x).
Definition set_sp_ReadinessProbe (v : option Opaque) (x : WorkspaceSpec) : WorkspaceSpec :=
  mkWorkspaceSpec (sp_DisplayName x) (sp_Image x) (sp_DesiredStatus x) (sp_OwnershipType x)
  (sp_AccessType x) (sp_Resources x) (sp_Storage x) (sp_Volumes x) (sp_ContainerConfig x) (sp_Env
  x) (sp_NodeSelector x) (sp_Affinity x) (sp_Tolerations x) (sp_Lifecycle x) v (sp_AccessStrategy
  x) (sp_TemplateRef x) (sp_IdleShutdown x) (sp_AppType x) (sp_ServiceAccountName x)
  (sp_PodSecurityContext x) (sp_ContainerSecurityContext x) (sp_InitContainers x)
  (sp_IntegrationTemplateRefs x).
Definition set_sp_AccessStrategy (v : option AccessStrategyRef) (x : WorkspaceSpec) :
  WorkspaceSpec := mkWorkspaceSpec (sp_DisplayName x) (sp_Image x) (sp_DesiredStatus x)
  (sp_OwnershipType x) (sp_AccessType x) (sp_Resources x) (sp_Storage x) (sp_Volumes x)
  (sp_ContainerConfig x) (sp_Env x) (sp_NodeSelector x) (sp_Affinity x) (sp_Tolerations x)
  (sp_Lifecycle x) (sp_ReadinessProbe x) v (sp_TemplateRef x) (sp_IdleShutdown x) (sp_AppType x)
  (sp_ServiceAccountName x) (sp_PodSecurityContext x) (sp_ContainerSecurityContext x)
  (sp_InitContainers x) (sp_IntegrationTemplateRefs x).
Definition set_sp_TemplateRef (v : option TemplateRef) (x : WorkspaceSpec) : WorkspaceSpec :=
  mkWorkspaceSpec (sp_DisplayName x) (sp_Image x) (sp_DesiredStatus x) (sp_OwnershipType x)
  (sp_AccessType x) (sp_Resources x) (sp_Storage x) (sp_Volumes x) (sp_ContainerConfig x) (sp_Env
  x) (sp_NodeSelector x) (sp_Affinity x) (sp_Tolerations x) (sp_Lifecycle x) (sp_ReadinessProbe x)
  (sp_AccessStrategy x) v (sp_IdleShutdown x) (sp_AppType x) (sp_ServiceAccountName x)
  (sp_PodSecurityContext x) (sp_ContainerSecurityContext x) (sp_InitContainers x)
  (sp_IntegrationTemplateRefs x).
Definition set_sp_IdleShutdown (v : option IdleShutdownSpec) (x : WorkspaceSpec) : WorkspaceSpec
  := mkWorkspaceSpec (sp_DisplayName x) (sp_Image x) (sp_DesiredStatus x) (sp_OwnershipType x)
  (sp_AccessType x) (sp_Resources x) (sp_Storage x) (sp_Volumes x) (sp_ContainerConfig x) (sp_Env
  x) (sp_NodeSelector x) (sp_Affinity x) (sp_Tolerations x) (sp_Lifecycle x) (sp_ReadinessProbe x)
  (sp_AccessStrategy x) (sp_TemplateRef x) v (sp_AppType x) (sp_ServiceAccountName x)
  (sp_PodSecurityContext x) (sp_ContainerSecurityContext x) (sp_InitContainers x)
  (sp_IntegrationTemplateRefs x).
Definition set_sp_AppType (v : string) (x : WorkspaceSpec) : WorkspaceSpec := mkWorkspaceSpec
  (sp_DisplayName x) (sp_Image x) (sp_DesiredStatus x) (sp_OwnershipType x) (sp_AccessType x)
  (sp_Resources x) (sp_Storage x) (sp_Volumes x) (sp_ContainerConfig x) (sp_Env x)
  (sp_NodeSelector x) (sp_Affinity x) (sp_Tolerations x) (sp_Lifecycle x) (sp_ReadinessProbe x)
  (sp_AccessStrategy x) (sp_TemplateRef x) (sp_IdleShutdown x) v (sp_ServiceAccountName x)
  (sp_PodSecurityContext x) (sp_ContainerSecurityContext x) (sp_InitContainers x)
  (sp_IntegrationTemplateRefs x).
Definition set_sp_ServiceAccountName (v : string) (x : WorkspaceSpec) : WorkspaceSpec :=
  mkWorkspaceSpec (sp_DisplayName x) (sp_Image x) (sp_DesiredStatus x) (sp_OwnershipType x)
  (sp_AccessType x) (sp_Resources x) (sp_Storage x) (sp_Volumes x) (sp_ContainerConfig x) (sp_Env
  x) (sp_NodeSelector x) (sp_Affinity x) (sp_Tolerations x) (sp_Lifecycle x) (sp_ReadinessProbe x)
  (sp_AccessStrategy x) (sp_TemplateRef x) (sp_IdleShutdown x) (sp_AppType x) v
  (sp_PodSecurityContext x) (sp_ContainerSecurityContext x) (sp_InitContainers x)
  (sp_IntegrationTemplateRefs x).
Definition set_sp_PodSecurityContext (v : option Opaque) (x : WorkspaceSpec) : WorkspaceSpec :=
  mkWorkspaceSpec (sp_DisplayName x) (sp_Image x) (sp_DesiredStatus x) (sp_OwnershipType x)
  (sp_AccessType x) (sp_Resources x) (sp_Storage x) (sp_Volumes x) (sp_ContainerConfig x) (sp_Env
  x) (sp_NodeSelector x) (sp_Affinity x) (sp_Tolerations x) (sp_Lifecycle x) (sp_ReadinessProbe x)
  (sp_AccessStrategy x) (sp_TemplateRef x) (sp_IdleShutdown x) (sp_AppType x)
  (sp_ServiceAccountName x) v (sp_ContainerSecurityContext x) (sp_InitContainers x)
  (sp_IntegrationTemplateRefs x).
Definition set_sp_ContainerSecurityContext (v : option Opaque) (x : WorkspaceSpec) : WorkspaceSpec
  := mkWorkspaceSpec (sp_DisplayName x) (sp_Image x) (sp_DesiredStatus x) (sp_OwnershipType x)
  (sp_AccessType x) (sp_Resources x) (sp_Storage x) (sp_Volumes x) (sp_ContainerConfig x) (sp_Env
  x) (sp_NodeSelector x) (sp_Affinity x) (sp_Tolerations x) (sp_Lifecycle x) (sp_ReadinessProbe x)
  (sp_AccessStrategy x) (sp_TemplateRef x) (sp_IdleShutdown x) (sp_AppType x)
  (sp_ServiceAccountName x) (sp_PodSecurityContext x) v (sp_InitContainers x)
  (sp_IntegrationTemplateRefs x).
Definition set_sp_InitContainers (v : list Container) (x : WorkspaceSpec) : WorkspaceSpec :=
  mkWorkspaceSpec (sp_DisplayName x) (sp_Image x) (sp_DesiredStatus x) (sp_OwnershipType x)
  (sp_AccessType x) (sp_Resources x) (sp_Storage x) (sp_Volumes x) (sp_ContainerConfig x) (sp_Env
  x) (sp_NodeSelector x) (sp_Affinity x) (sp_Tolerations x) (sp_Lifecycle x) (sp_ReadinessProbe x)
  (sp_AccessStrategy x) (sp_TemplateRef x) (sp_IdleShutdown x) (sp_AppType x)
  (sp_ServiceAccountName x) (sp_PodSecurityContext x) (sp_ContainerSecurityContext x) v
  (sp_IntegrationTemplateRefs x).

(** AccessResourceStatus identifies one access resource created for the workspace. *)
Record AccessResourceStatus := mkAccessResourceStatus {
  ars_Kind : string;
  ars_APIVersion : string;
  ars_Name : string;
  ars_Namespace : string;
}.
#[global] Instance AccessResourceStatus_eq_dec : EqDecision AccessResourceStatus.
Proof. solve_decision. Defined.

(** ResolvedIntegration is the frozen resolution of one integration. *)
Record ResolvedIntegration := mkResolvedIntegration {
  ri_Name : string;
  ri_ParametersHash : string;
  ri_ObservedIntegrationTemplateVersion : string;
  ri_Values : gmap string string;
}.
#[global] Instance ResolvedIntegration_eq_dec : EqDecision ResolvedIntegration.
Proof. solve_decision. Defined.

(** IntegrationStatus reports the state of one integration. *)
Record IntegrationStatus := mkIntegrationStatus {
  ist_Name : string;
  ist_State : string;
  ist_Conditions : list Condition;
}.
#[global] Instance IntegrationStatus_eq_dec : EqDecision IntegrationStatus.
Proof. solve_decision. Defined.

(** WorkspaceStatus defines the observed state of Workspace. *)
Record WorkspaceStatus := mkWorkspaceStatus {
  st_DeploymentName : string;
  st_ServiceName : string;
  st_AccessURL : string;
  st_ApplicationBasePath : string;
  st_AccessResourceSelector : string;
  st_AccessResources : list AccessResourceStatus;
  st_ObservedAccessStrategyVersion : string;
  st_AccessStartupProbeSucceeded : bool;
  st_AccessStartupProbeFailures : option Z;
  st_EarliestNextProbeTime : option Time;
  st_Conditions : list Condition;
  st_IntegrationStatuses : list IntegrationStatus;
  st_ResolvedIntegrations : list ResolvedIntegration;
}.
#[global] Instance WorkspaceStatus_eq_dec : EqDecision WorkspaceStatus.
Proof. solve_decision. Defined.
Definition set_st_DeploymentName (v : string) (x : WorkspaceStatus) : WorkspaceStatus :=
  mkWorkspaceStatus v (st_ServiceName x) (st_AccessURL x) (st_ApplicationBasePath x)
  (st_AccessResourceSelector x) (st_AccessResources x) (st_ObservedAccessStrategyVersion x)
  (st_AccessStartupProbeSucceeded x) (st_AccessStartupProbeFailures x) (st_EarliestNextProbeTime
  x) (st_Conditions x) (st_IntegrationStatuses x) (st_ResolvedIntegrations x).
Definition set_st_ServiceName (v : string) (x : WorkspaceStatus) : WorkspaceStatus :=
  mkWorkspaceStatus (st_DeploymentName x) v (st_AccessURL x) (st_ApplicationBasePath x)
  (st_AccessResourceSelector x) (st_AccessResources x) (st_ObservedAccessStrategyVersion x)
  (st_AccessStartupProbeSucceeded x) (st_AccessStartupProbeFailures x) (st_EarliestNextProbeTime
  x) (st_Conditions x) (st_IntegrationStatuses x) (st_ResolvedIntegrations x).
Definition set_st_AccessURL (v : string) (x : WorkspaceStatus) : WorkspaceStatus :=
  mkWorkspaceStatus (st_DeploymentName x) (st_ServiceName x) v (st_ApplicationBasePath x)
  (st_AccessResourceSelector x) (st_AccessResources x) (st_ObservedAccessStrategyVersion x)
  (st_AccessStartupProbeSucceeded x) (st_AccessStartupProbeFailures x) (st_EarliestNextProbeTime
  x) (st_Conditions x) (st_IntegrationStatuses x) (st_ResolvedIntegrations x).
Definition set_st_ApplicationBasePath (v : string) (x : WorkspaceStatus) : WorkspaceStatus :=
  mkWorkspaceStatus (st_DeploymentName x) (st_ServiceName x) (st_AccessURL x) v
  (st_AccessResourceSelector x) (st_AccessResources x) (st_ObservedAccessStrategyVersion x)
  (st_AccessStartupProbeSucceeded x) (st_AccessStartupProbeFailures x) (st_EarliestNextProbeTime
  x) (st_Conditions x) (st_IntegrationStatuses x) (st_ResolvedIntegrations x).
Definition set_st_AccessResourceSelector (v : string) (x : WorkspaceStatus) : WorkspaceStatus :=
  mkWorkspaceStatus (st_DeploymentName x) (st_ServiceName x) (st_AccessURL x)
  (st_ApplicationBasePath x) v (st_AccessResources x) (st_ObservedAccessStrategyVersion x)
  (st_AccessStartupProbeSucceeded x) (st_AccessStartupProbeFailures x) (st_EarliestNextProbeTime
  x) (st_Conditions x) (st_IntegrationStatuses x) (st_ResolvedIntegrations x).
Definition set_st_AccessResources (v : list AccessResourceStatus) (x : WorkspaceStatus) :
  WorkspaceStatus := mkWorkspaceStatus (st_DeploymentName x) (st_ServiceName x) (st_AccessURL x)
  (st_ApplicationBasePath x) (st_AccessResourceSelector x) v (st_ObservedAccessStrategyVersion x)
  (st_AccessStartupProbeSucceeded x) (st_AccessStartupProbeFailures x) (st_EarliestNextProbeTime
  x) (st_Conditions x) (st_IntegrationStatuses x) (st_ResolvedIntegrations x).
Definition set_st_ObservedAccessStrategyVersion (v : string) (x : WorkspaceStatus) :
  WorkspaceStatus := mkWorkspaceStatus (st_DeploymentName x) (st_ServiceName x) (st_AccessURL x)
  (st_ApplicationBasePath x) (st_AccessResourceSelector x) (st_AccessResources x) v
  (st_AccessStartupProbeSucceeded x) (st_AccessStartupProbeFailures x) (st_EarliestNextProbeTime
  x) (st_Conditions x) (st_IntegrationStatuses x) (st_ResolvedIntegrations x).
Definition set_st_AccessStartupProbeSucceeded (v : bool) (x : WorkspaceStatus) : WorkspaceStatus
  := mkWorkspaceStatus (st_DeploymentName x) (st_ServiceName x) (st_AccessURL x)
  (st_ApplicationBasePath x) (st_AccessResourceSelector x) (st_AccessResources x)
  (st_ObservedAccessStrategyVersion x) v (st_AccessStartupProbeFailures x)
  (st_EarliestNextProbeTime x) (st_Conditions x) (st_IntegrationStatuses x)
  (st_ResolvedIntegrations x).
Definition set_st_AccessStartupProbeFailures (v : option Z) (x : WorkspaceStatus) :
  WorkspaceStatus := mkWorkspaceStatus (st_DeploymentName x) (st_ServiceName x) (st_AccessURL x)
  (st_ApplicationBasePath x) (st_AccessResourceSelector x) (st_AccessResources x)
  (st_ObservedAccessStrategyVersion x) (st_AccessStartupProbeSucceeded x) v
  (st_EarliestNextProbeTime x) (st_Conditions x) (st_IntegrationStatuses x)
  (st_ResolvedIntegrations x).
Definition set_st_EarliestNextProbeTime (v : option Time) (x : WorkspaceStatus) : WorkspaceStatus
  := mkWorkspaceStatus (st_DeploymentName x) (st_ServiceName x) (st_AccessURL x)
  (st_ApplicationBasePath x) (st_AccessResourceSelector x) (st_AccessResources x)
  (st_ObservedAccessStrategyVersion x) (st_AccessStartupProbeSucceeded x)
  (st_AccessStartupProbeFailures x) v (st_Conditions x) (st_IntegrationStatuses x)
  (st_ResolvedIntegrations x).
Definition set_st_Conditions (v : list Condition) (x : WorkspaceStatus) : WorkspaceStatus :=
  mkWorkspaceStatus (st_DeploymentName x) (st_ServiceName x) (st_AccessURL x)
  (st_ApplicationBasePath x) (st_AccessResourceSelector x) (st_AccessResources x)
  (st_ObservedAccessStrategyVersion x) (st_AccessStartupProbeSucceeded x)
  (st_AccessStartupProbeFailures x) (st_EarliestNextProbeTime x) v (st_IntegrationStatuses x)
  (st_ResolvedIntegrations x).
Definition set_st_IntegrationStatuses (v : list IntegrationStatus) (x : WorkspaceStatus) :
  WorkspaceStatus := mkWorkspaceStatus (st_DeploymentName x) (st_ServiceName x) (st_AccessURL x)
  (st_ApplicationBasePath x) (st_AccessResourceSelector x) (st_AccessResources x)
  (st_ObservedAccessStrategyVersion x) (st_AccessStartupProbeSucceeded x)
  (st_AccessStartupProbeFailures x) (st_EarliestNextProbeTime x) (st_Conditions x) v
  (st_ResolvedIntegrations x).
Definition set_st_ResolvedIntegrations (v : list ResolvedIntegration) (x : WorkspaceStatus) :
  WorkspaceStatus := mkWorkspaceStatus (st_DeploymentName x) (st_ServiceName x) (st_AccessURL x)
  (st_ApplicationBasePath x) (st_AccessResourceSelector x) (st_AccessResources x)
  (st_ObservedAccessStrategyVersion x) (st_AccessStartupProbeSucceeded x)
  (st_AccessStartupProbeFailures x) (st_EarliestNextProbeTime x) (st_Conditions x)
  (st_IntegrationStatuses x) v.

(** Workspace is the Schema for the workspaces API. *)
Record Workspace := mkWorkspace {
  ws_ObjectMeta : ObjectMeta;
  ws_Spec : WorkspaceSpec;
  ws_Status : WorkspaceStatus;
}.
#[global] Instance Workspace_eq_dec : EqDecision Workspace.
Proof. solve_decision. Defined.
Definition set_ws_ObjectMeta (v : ObjectMeta) (x : Workspace) : Workspace := mkWorkspace v
  (ws_Spec x) (ws_Status x).
Definition set_ws_Spec (v : WorkspaceSpec) (x : Workspace) : Workspace := mkWorkspace
  (ws_ObjectMeta x) v (ws_Status x).
Definition set_ws_Status (v : WorkspaceStatus) (x : Workspace) : Workspace := mkWorkspace
  (ws_ObjectMeta x) (ws_Spec x) v.

(** ** WorkspaceTemplate, api/v1alpha1/workspacetemplate_types.go *)


(** TemplateLabel is a label a template adds. *)
Record TemplateLabel := mkTemplateLabel {
  tl_Key : string;
  tl_Value : string;
}.
#[global] Instance TemplateLabel_eq_dec : EqDecision TemplateLabel.
Proof. solve_decision. Defined.

(** LabelRequirement constrains one label. *)
Record LabelRequirement := mkLabelRequirement {
  lr_Key : string;
  lr_Required : option bool;
  lr_Regex : string;
}.
#[global] Instance LabelRequirement_eq_dec : EqDecision LabelRequirement.
Proof. solve_decision. Defined.

(** EnvRequirement constrains one environment variable. *)
Record EnvRequirement := mkEnvRequirement {
  er_Name : string;
  er_Required : option bool;
  er_Regex : string;
}.
#[global] Instance EnvRequirement_eq_dec : EqDecision EnvRequirement.
Proof. solve_decision. Defined.

(** ResourceRange is an inclusive range of quantities. *)
Record ResourceRange := mkResourceRange {
  rg_Min : Quantity;
  rg_Max : Quantity;
}.
#[global] Instance ResourceRange_eq_dec : EqDecision ResourceRange.
Proof. solve_decision. Defined.

(** ResourceBounds maps resource names to their ranges. *)
Record ResourceBounds := mkResourceBounds {
  rb_Resources : gmap string ResourceRange;
}.
#[global] Instance ResourceBounds_eq_dec : EqDecision ResourceBounds.
Proof. solve_decision. Defined.

(** StorageConfig defines storage defaults and bounds. *)
Record StorageConfig := mkStorageConfig {
  sc_DefaultSize : Quantity;
  sc_MinSize : option Quantity;
  sc_MaxSize : option Quantity;
  sc_DefaultStorageClassName : option string;
  sc_DefaultMountPath : string;
}.
#[global] Instance StorageConfig_eq_dec : EqDecision StorageConfig.
Proof. solve_decision. Defined.

(** IdleShutdownOverridePolicy says what a workspace may override. *)
Record IdleShutdownOverridePolicy := mkIdleShutdownOverridePolicy {
  isop_Allow : option bool;
  isop_MinIdleTimeoutInMinutes : option Z;
  isop_MaxIdleTimeoutInMinutes : option Z;
}.
#[global] Instance IdleShutdownOverridePolicy_eq_dec : EqDecision IdleShutdownOverridePolicy.
Proof. solve_decision. Defined.

(** WorkspaceTemplateSpec defines the desired state of WorkspaceTemplate. *)
Record WorkspaceTemplateSpec := mkWorkspaceTemplateSpec {
  ts_DisplayName : string;
  ts_Description : string;
  ts_DefaultImage : string;
  ts_AllowedImages : list string;
  ts_AllowCustomImages : option bool;
  ts_DefaultResources : option ResourceRequirements;
  ts_ResourceBounds : option ResourceBounds;
  ts_PrimaryStorage : option StorageConfig;
  ts_DefaultContainerConfig : option ContainerConfig;
  ts_BaseEnv : list EnvVar;
  ts_EnvRequirements : list EnvRequirement;
  ts_AllowSecondaryStorages : option bool;
  ts_DefaultVolumes : list VolumeSpec;
  ts_DefaultNodeSelector : option (gmap string string);
  ts_DefaultAffinity : option Opaque;
  ts_DefaultTolerations : option (list Opaque);
  ts_DefaultOwnershipType : string;
  ts_BaseLabels : list TemplateLabel;
  ts_LabelRequirements : list LabelRequirement;
  ts_DefaultIdleShutdown : option IdleShutdownSpec;
  ts_IdleShutdownOverrides : option IdleShutdownOverridePolicy;
  ts_DefaultAccessType : string;
  ts_DefaultAccessStrategy : option AccessStrategyRef;
  ts_DefaultLifecycle : option Opaque;
  ts_DefaultReadinessProbe : option Opaque;
  ts_DefaultPodSecurityContext : option Opaque;
  ts_DefaultContainerSecurityContext : option Opaque;
  ts_DefaultInitContainers : list Container;
  ts_AllowCustomInitContainers : option bool;
  ts_AppType : string;
}.
#[global] Instance WorkspaceTemplateSpec_eq_dec : EqDecision WorkspaceTemplateSpec.
Proof. solve_decision. Defined.

(** WorkspaceTemplateStatus defines the observed state of WorkspaceTemplate. *)
Record WorkspaceTemplateStatus := mkWorkspaceTemplateStatus {
  tst_ObservedGeneration : Z;
}.
#[global] Instance WorkspaceTemplateStatus_eq_dec : EqDecision WorkspaceTemplateStatus.
Proof. solve_decision. Defined.

(** WorkspaceTemplate is the Schema for the workspacetemplates API. *)
Record WorkspaceTemplate := mkWorkspaceTemplate {
  wt_ObjectMeta : ObjectMeta;
  wt_Spec : WorkspaceTemplateSpec;
  wt_Status : WorkspaceTemplateStatus;
}.
#[global] Instance WorkspaceTemplate_eq_dec : EqDecision WorkspaceTemplate.
Proof. solve_decision. Defined.
Definition set_wt_ObjectMeta (v : ObjectMeta) (x : WorkspaceTemplate) : WorkspaceTemplate :=
  mkWorkspaceTemplate v (wt_Spec x) (wt_Status x).
Definition set_wt_Spec (v : WorkspaceTemplateSpec) (x : WorkspaceTemplate) : WorkspaceTemplate :=
  mkWorkspaceTemplate (wt_ObjectMeta x) v (wt_Status x).
Definition set_wt_Status (v : WorkspaceTemplateStatus) (x : WorkspaceTemplate) : WorkspaceTemplate
  := mkWorkspaceTemplate (wt_ObjectMeta x) (wt_Spec x) v.

(** ** WorkspaceAccessStrategy, api/v1alpha1/workspaceaccessstrategy_types.go *)


(** AccessResourceTemplate is a Kubernetes resource to create for each workspace. *)
Record AccessResourceTemplate := mkAccessResourceTemplate {
  art_Kind : string;
  art_ApiVersion : string;
  art_NamePrefix : string;
  art_Template : string;
}.
#[global] Instance AccessResourceTemplate_eq_dec : EqDecision AccessResourceTemplate.
Proof. solve_decision. Defined.

(** AccessEnvTemplate is an environment variable with a templated value. *)
Record AccessEnvTemplate := mkAccessEnvTemplate {
  aet_Name : string;
  aet_ValueTemplate : string;
}.
#[global] Instance AccessEnvTemplate_eq_dec : EqDecision AccessEnvTemplate.
Proof. solve_decision. Defined.

(** PrimaryContainerModifications: mounts and environment of the main container. *)
Record PrimaryContainerModifications := mkPrimaryContainerModifications {
  pcm_VolumeMounts : list VolumeMount;
  pcm_MergeEnv : list AccessEnvTemplate;
}.
#[global] Instance PrimaryContainerModifications_eq_dec : EqDecision PrimaryContainerModifications.
Proof. solve_decision. Defined.

(** PodModifications: what a strategy or integration adds to the pod. *)
Record PodModifications := mkPodModifications {
  pm_AdditionalContainers : list Container;
  pm_ExposedPorts : list string;
  pm_Volumes : list Volume;
  pm_InitContainers : list Container;
  pm_PrimaryContainerModifications : option PrimaryContainerModifications;
}.
#[global] Instance PodModifications_eq_dec : EqDecision PodModifications.
Proof. solve_decision. Defined.

(** DeploymentModifications wraps the pod modifications. *)
Record DeploymentModifications := mkDeploymentModifications {
  dm_PodModifications : option PodModifications;
}.
#[global] Instance DeploymentModifications_eq_dec : EqDecision DeploymentModifications.
Proof. solve_decision. Defined.

(** AccessHTTPGetProbe: the URL probed and the extra success codes. *)
Record AccessHTTPGetProbe := mkAccessHTTPGetProbe {
  ahp_URLTemplate : string;
  ahp_AdditionalSuccessStatusCodes : list Z;
}.
#[global] Instance AccessHTTPGetProbe_eq_dec : EqDecision AccessHTTPGetProbe.
Proof. solve_decision. Defined.

(** AccessStartupProbe: the probe of the access URL; int32 fields, 0 means default. *)
Record AccessStartupProbe := mkAccessStartupProbe {
  asp_HTTPGet : option AccessHTTPGetProbe;
  asp_InitialDelaySeconds : Z;
  asp_PeriodSeconds : Z;
  asp_TimeoutSeconds : Z;
  asp_FailureThreshold : Z;
}.
#[global] Instance AccessStartupProbe_eq_dec : EqDecision AccessStartupProbe.
Proof. solve_decision. Defined.

(** WorkspaceAccessStrategySpec defines the desired state of WorkspaceAccessStrategy. *)
Record WorkspaceAccessStrategySpec := mkWorkspaceAccessStrategySpec {
  asps_DisplayName : string;
  asps_AccessResourceTemplates : list AccessResourceTemplate;
  asps_AccessURLTemplate : string;
  asps_ApplicationBasePathTemplate : string;
  asps_BearerAuthURLTemplate : string;
  asps_WebSocketURLTemplate : string;
  asps_CreateConnectionHandler : string;
  asps_CreateConnectionHandlerMap : gmap string string;
  asps_PodEventsHandler : string;
  asps_CreateConnectionContext : gmap string string;
  asps_PodEventsContext : gmap string string;
  asps_DeploymentModifications : option DeploymentModifications;
  asps_AccessStartupProbe : option AccessStartupProbe;
}.
#[global] Instance WorkspaceAccessStrategySpec_eq_dec : EqDecision WorkspaceAccessStrategySpec.
Proof. solve_decision. Defined.

(** WorkspaceAccessStrategyStatus defines the observed state. *)
Record WorkspaceAccessStrategyStatus := mkWorkspaceAccessStrategyStatus {
  asst_Conditions : list Condition;
}.
#[global] Instance WorkspaceAccessStrategyStatus_eq_dec : EqDecision WorkspaceAccessStrategyStatus.
Proof. solve_decision. Defined.

(** WorkspaceAccessStrategy is the Schema for the workspaceaccessstrategies API. *)
Record WorkspaceAccessStrategy := mkWorkspaceAccessStrategy {
  was_ObjectMeta : ObjectMeta;
  was_Spec : WorkspaceAccessStrategySpec;
  was_Status : WorkspaceAccessStrategyStatus;
}.
#[global] Instance WorkspaceAccessStrategy_eq_dec : EqDecision WorkspaceAccessStrategy.
Proof. solve_decision. Defined.
Definition set_was_ObjectMeta (v : ObjectMeta) (x : WorkspaceAccessStrategy) :
  WorkspaceAccessStrategy := mkWorkspaceAccessStrategy v (was_Spec x) (was_Status x).

(** ** WorkspaceIntegrationTemplate, api/v1alpha1/workspaceintegrationtemplate_types.go *)


(** ResourceRefMetadata names the referenced object, possibly by a template. *)
Record ResourceRefMetadata := mkResourceRefMetadata {
  rrm_Name : string;
}.
#[global] Instance ResourceRefMetadata_eq_dec : EqDecision ResourceRefMetadata.
Proof. solve_decision. Defined.

(** ResourceRef references a cluster object by kind and name. *)
Record ResourceRef := mkResourceRef {
  rref_Name : string;
  rref_APIVersion : string;
  rref_Kind : string;
  rref_Metadata : ResourceRefMetadata;
}.
#[global] Instance ResourceRef_eq_dec : EqDecision ResourceRef.
Proof. solve_decision. Defined.

(** IntegrationTemplateParameter declares a parameter. *)
Record IntegrationTemplateParameter := mkIntegrationTemplateParameter {
  itp_Name : string;
}.
#[global] Instance IntegrationTemplateParameter_eq_dec : EqDecision IntegrationTemplateParameter.
Proof. solve_decision. Defined.

(** IntegrationStatusProbe: the exec probe of an integration. *)
Record IntegrationStatusProbe := mkIntegrationStatusProbe {
  isp_Exec : option (list string);
  isp_TimeoutSeconds : Z;
}.
#[global] Instance IntegrationStatusProbe_eq_dec : EqDecision IntegrationStatusProbe.
Proof. solve_decision. Defined.

(** WorkspaceIntegrationTemplateSpec defines what an integration adds. *)
Record WorkspaceIntegrationTemplateSpec := mkWorkspaceIntegrationTemplateSpec {
  wits_DisplayName : string;
  wits_Parameters : list IntegrationTemplateParameter;
  wits_ResourceRefs : list ResourceRef;
  wits_ShareProcessNamespace : option bool;
  wits_DeploymentModifications : option DeploymentModifications;
  wits_StatusProbe : option IntegrationStatusProbe;
}.
#[global] Instance WorkspaceIntegrationTemplateSpec_eq_dec : EqDecision WorkspaceIntegrationTemplateSpec.
Proof. solve_decision. Defined.

(** WorkspaceIntegrationTemplate is the Schema for the integration templates API. *)
Record WorkspaceIntegrationTemplate := mkWorkspaceIntegrationTemplate {
  wit_ObjectMeta : ObjectMeta;
  wit_Spec : WorkspaceIntegrationTemplateSpec;
}.
#[global] Instance WorkspaceIntegrationTemplate_eq_dec : EqDecision WorkspaceIntegrationTemplate.
Proof. solve_decision. Defined.

(** ** Connection reviews, api/connection/v1alpha1 *)


(** BearerTokenReviewUser: the identity carried by a bearer token. *)
Record BearerTokenReviewUser := mkBearerTokenReviewUser {
  btu_Username : string;
  btu_UID : string;
  btu_Groups : list string;
  btu_Extra : gmap string (list string);
}.
#[global] Instance BearerTokenReviewUser_eq_dec : EqDecision BearerTokenReviewUser.
Proof. solve_decision. Defined.

(** BearerTokenReviewStatus: the result of a bearer token review. *)
Record BearerTokenReviewStatus := mkBearerTokenReviewStatus {
  bts_Authenticated : bool;
  bts_Path : string;
  bts_Domain : string;
  bts_User : BearerTokenReviewUser;
  bts_Error : string;
}.
#[global] Instance BearerTokenReviewStatus_eq_dec : EqDecision BearerTokenReviewStatus.
Proof. solve_decision. Defined.

(** ConnectionAccessReviewSpec: whose access to which workspace. *)
Record ConnectionAccessReviewSpec := mkConnectionAccessReviewSpec {
  cars_WorkspaceName : string;
  cars_Groups : list string;
  cars_UID : string;
  cars_User : string;
  cars_Extra : gmap string (list string);
}.
#[global] Instance ConnectionAccessReviewSpec_eq_dec : EqDecision ConnectionAccessReviewSpec.
Proof. solve_decision. Defined.

(** ConnectionAccessReviewStatus: the verdict. *)
Record ConnectionAccessReviewStatus := mkConnectionAccessReviewStatus {
  cast_Allowed : bool;
  cast_NotFound : bool;
  cast_Reason : string;
}.
#[global] Instance ConnectionAccessReviewStatus_eq_dec : EqDecision ConnectionAccessReviewStatus.
Proof. solve_decision. Defined.

(** WorkspaceConnectionRequestSpec: the workspace and the connection type. *)
Record WorkspaceConnectionRequestSpec := mkWorkspaceConnectionRequestSpec {
  wcr_WorkspaceName : string;
  wcr_WorkspaceConnectionType : string;
}.
#[global] Instance WorkspaceConnectionRequestSpec_eq_dec : EqDecision WorkspaceConnectionRequestSpec.
Proof. solve_decision. Defined.

(** WorkspaceConnectionResponseStatus: the connection URL. *)
Record WorkspaceConnectionResponseStatus := mkWorkspaceConnectionResponseStatus {
  wcs_WorkspaceConnectionType : string;
  wcs_WorkspaceConnectionURL : string;
}.
#[global] Instance WorkspaceConnectionResponseStatus_eq_dec : EqDecision WorkspaceConnectionResponseStatus.
Proof. solve_decision. Defined.

(** ParametersMap: later parameters of one name win. *)
Definition ParametersMap (r : IntegrationTemplateRef) : gmap string string :=
  fold_left (fun m p => <[ip_Name p := ip_Value p]> m) (itr_Parameters r) ∅.

Definition ConnectionTypeWebUI : string := "web-ui".
Definition ConnectionTypeWebSocket : string := "ssh-over-websocket".
