(* ===== verification/Encoding.v ===== *)
(** * Encoding: namespaces in subdomains, internal/workspace/encoding.go

    Base 32 (RFC 4648 alphabet, no padding, lower case) as [encoding/base32]
    implements it, on bytes given by their bits. *)

From S2P Require Import Prelude.

(** Five bits, most significant first. *)
Record quint := mkQuint { b4 : bool; b3 : bool; b2 : bool; b1 : bool; b0 : bool }.

(** The standard alphabet A-Z2-7, and its decode map. *)
Definition quint_value (q : quint) : nat :=
  (if b4 q then 16 else 0) + (if b3 q then 8 else 0) + (if b2 q then 4 else 0) +
  (if b1 q then 2 else 0) + (if b0 q then 1 else 0).
Definition encode_char (q : quint) : ascii :=
  let v := quint_value q in
  if (v <? 26)%nat then ascii_of_nat (65 + v) else ascii_of_nat (50 + (v - 26)).
Definition quint_of (v : nat) : quint :=
  mkQuint (Nat.testbit v 4) (Nat.testbit v 3) (Nat.testbit v 2) (Nat.testbit v 1) (Nat.testbit v 0).
Definition decode_char (c : ascii) : option quint :=
  let n := nat_of_ascii c in
  if (65 <=? n)%nat && (n <=? 90)%nat then Some (quint_of (n - 65))
  else if (50 <=? n)%nat && (n <=? 55)%nat then Some (quint_of (n - 24))
  else None.

(** The quintets of a block of one to five bytes; a missing byte is zero. *)
Definition quints (b1 b2 b3 b4 b5 : ascii) : list quint :=
  let '(Ascii a0 a1 a2 a3 a4 a5 a6 a7) := b1 in
  let '(Ascii c0 c1 c2 c3 c4 c5 c6 c7) := b2 in
  let '(Ascii d0 d1 d2 d3 d4 d5 d6 d7) := b3 in
  let '(Ascii e0 e1 e2 e3 e4 e5 e6 e7) := b4 in
  let '(Ascii f0 f1 f2 f3 f4 f5 f6 f7) := b5 in
  [mkQuint a7 a6 a5 a4 a3; mkQuint a2 a1 a0 c7 c6; mkQuint c5 c4 c3 c2 c1;
   mkQuint c0 d7 d6 d5 d4; mkQuint d3 d2 d1 d0 e7; mkQuint e6 e5 e4 e3 e2;
   mkQuint e1 e0 f7 f6 f5; mkQuint f4 f3 f2 f1 f0].

Definition encode_block (n : nat) (b1 b2 b3 b4 b5 : ascii) : list ascii :=
  encode_char <$> take n (quints b1 b2 b3 b4 b5).

(** base32 EncodeToString without padding. *)
Fixpoint b32_encode (l : list ascii) : list ascii :=
  match l with
  | [] => []
  | [a] => encode_block 2 a zero zero zero zero
  | [a; b] => encode_block 4 a b zero zero zero
  | [a; b; c] => encode_block 5 a b c zero zero
  | [a; b; c; d] => encode_block 7 a b c d zero
  | a :: b :: c :: d :: e :: rest => encode_block 8 a b c d e ++ b32_encode rest
  end.

(** The bytes of a block of quintets: a missing quintet is zero, and a block of
    1, 3 or 6 quintets matches no case of the decoder's switch and writes nothing. *)
Definition byte1 (p q : quint) : ascii :=
  Ascii (b2 q) (b3 q) (b4 q) (b0 p) (b1 p) (b2 p) (b3 p) (b4 p).
Definition byte2 (p q r : quint) : ascii :=
  Ascii (b4 r) (b0 q) (b1 q) (b2 q) (b3 q) (b4 q) (b0 p) (b1 p).
Definition byte3 (p q : quint) : ascii :=
  Ascii (b1 q) (b2 q) (b3 q) (b4 q) (b0 p) (b1 p) (b2 p) (b3 p).
Definition byte4 (p q r : quint) : ascii :=
  Ascii (b3 r) (b4 r) (b0 q) (b1 q) (b2 q) (b3 q) (b4 q) (b0 p).
Definition byte5 (p q : quint) : ascii :=
  Ascii (b0 q) (b1 q) (b2 q) (b3 q) (b4 q) (b0 p) (b1 p) (b2 p).

Fixpoint b32_bytes (l : list quint) : list ascii :=
  match l with
  | q0 :: q1 :: q2 :: q3 :: q4 :: q5 :: q6 :: q7 :: rest =>
      byte1 q0 q1 :: byte2 q1 q2 q3 :: byte3 q3 q4 :: byte4 q4 q5 q6 :: byte5 q6 q7 ::
      b32_bytes rest
  | [q0; q1; q2; q3; q4; q5; q6] =>
      [byte1 q0 q1; byte2 q1 q2 q3; byte3 q3 q4; byte4 q4 q5 q6]
  | [q0; q1; q2; q3; q4] => [byte1 q0 q1; byte2 q1 q2 q3; byte3 q3 q4]
  | [q0; q1; q2; q3] => [byte1 q0 q1; byte2 q1 q2 q3]
  | [q0; q1] => [byte1 q0 q1]
  | _ => []
  end.

(** base32 DecodeString without padding: new lines are dropped, any character
    outside the alphabet is a CorruptInputError. *)
Definition b32_decode (l : list ascii) : result (list ascii) :=
  let kept := List.filter (fun c => negb (Ascii.eqb c "010" || Ascii.eqb c "013")) l in
  match mapM decode_char kept with
  | Some qs => Ok (b32_bytes qs)
  | None => Fail (Errorf "illegal base32 data at input byte" [])
  end.

(** strings.ToLower on ASCII. *)
Definition ascii_ToLower (c : ascii) : ascii :=
  let n := nat_of_ascii c in
  if (65 <=? n)%nat && (n <=? 90)%nat then ascii_of_nat (n + 32) else c.

Definition ascii_ToUpper (c : ascii) : ascii :=
  let n := nat_of_ascii c in
  if (97 <=? n)%nat && (n <=? 122)%nat then ascii_of_nat (n - 32) else c.

(** strings.ToUpper, up to the characters the decoder refuses anyway: two
    non-ASCII letters have an ASCII upper case, U+0131 (I) and U+017F (S). *)
Fixpoint ToUpper (l : list ascii) : list ascii :=
  match l with
  | "196"%char :: "177"%char :: rest => "I"%char :: ToUpper rest
  | "197"%char :: "191"%char :: rest => "S"%char :: ToUpper rest
  | c :: rest => ascii_ToUpper c :: ToUpper rest
  | [] => []
  end.

(** EncodeNamespaceB32 encodes a namespace string to base32 for use in subdomains. *)
Definition EncodeNamespaceB32 (namespace : string) : string :=
  String.string_of_list_ascii
    (ascii_ToLower <$> b32_encode (String.list_ascii_of_string namespace)).

(** DecodeNamespaceB32 decodes a base32 encoded namespace string. *)
Definition DecodeNamespaceB32 (encoded : string) : result string :=
  match b32_decode (ToUpper (String.list_ascii_of_string encoded)) with
  | Fail err => Fail err
  | Ok decoded => Ok (String.string_of_list_ascii decoded)
  end.

(** ** The codec *)

Lemma decode_encode_char q : decode_char (encode_char q) = Some q.
Proof. by destruct q as [[] [] [] [] []]. Qed.

Lemma encode_char_not_newline q :
  negb (Ascii.eqb (encode_char q) "010" || Ascii.eqb (encode_char q) "013") = true.
Proof. by destruct q as [[] [] [] [] []]. Qed.

(** Blocks of five bytes: the induction the encoder follows. *)
Lemma list_ind5 {A} (P : list A -> Prop) :
  P [] -> (forall a, P [a]) -> (forall a b, P [a; b]) -> (forall a b c, P [a; b; c]) ->
  (forall a b c d, P [a; b; c; d]) ->
  (forall a b c d e l, P l -> P (a :: b :: c :: d :: e :: l)) -> forall l, P l.
Proof.
  intros H0 H1 H2 H3 H4 H5. fix IH 1.
  intros [|a [|b [|c [|d [|e l]]]]]; [apply H0|apply H1|apply H2|apply H3|apply H4|].
  apply H5, IH.
Qed.

(** The encoder's output as quintets. *)
Definition block_quints (n : nat) (b1 b2 b3 b4 b5 : ascii) : list quint :=
  take n (quints b1 b2 b3 b4 b5).

Lemma b32_encode_quints l : exists qs, b32_encode l = encode_char <$> qs /\ b32_bytes qs = l.
Proof.
  induction l as [|a|a b|a b c|a b c d|a b c d e l (qs & E1 & E2)] using list_ind5.
  1: by exists [].
  1: exists (block_quints 2 a zero zero zero zero).
  2: exists (block_quints 4 a b zero zero zero).
  3: exists (block_quints 5 a b c zero zero).
  4: exists (block_quints 7 a b c d zero).
  5: exists (block_quints 8 a b c d e ++ qs).
  5: rewrite <- E2.
  all: split;
    [first [reflexivity|cbn [b32_encode]; rewrite E2, fmap_app, E1; reflexivity]
    |destruct a; try destruct b; try destruct c; try destruct d; try destruct e; reflexivity].
Qed.

Lemma b32_decode_quints qs : b32_decode (encode_char <$> qs) = Ok (b32_bytes qs).
Proof.
  unfold b32_decode.
  assert (E : List.filter (fun c => negb (Ascii.eqb c "010" || Ascii.eqb c "013"))
                (encode_char <$> qs) = encode_char <$> qs).
  { induction qs as [|q qs IH]; [done|]. cbn [fmap list_fmap List.filter].
    rewrite encode_char_not_newline. by f_equal. }
  by rewrite E, (mapM_fmap_Some decode_char encode_char qs decode_encode_char).
Qed.

(** The lower-case alphabet, which is safe in a DNS label. *)
Definition dns_b32 (c : ascii) : bool :=
  let n := nat_of_ascii c in
  ((97 <=? n)%nat && (n <=? 122)%nat) || ((50 <=? n)%nat && (n <=? 55)%nat).

Lemma encode_char_lower_dns q : dns_b32 (ascii_ToLower (encode_char q)) = true.
Proof. by destruct q as [[] [] [] [] []]. Qed.

Lemma ToUpper_lower qs :
  ToUpper (ascii_ToLower <$> (encode_char <$> qs)) = encode_char <$> qs.
Proof.
  induction qs as [|q qs IH]; [done|].
  rewrite !fmap_cons. transitivity (encode_char q :: ToUpper (ascii_ToLower <$> (encode_char <$> qs)));
    [|by rewrite IH].
  by destruct q as [[] [] [] [] []].
Qed.

Lemma EncodeNamespaceB32_quints namespace :
  exists qs, EncodeNamespaceB32 namespace =
      String.string_of_list_ascii (ascii_ToLower <$> (encode_char <$> qs)) /\
    DecodeNamespaceB32 (EncodeNamespaceB32 namespace) = Ok namespace.
Proof.
  unfold DecodeNamespaceB32, EncodeNamespaceB32.
  rewrite String.list_ascii_of_string_of_list_ascii.
  destruct (b32_encode_quints (String.list_ascii_of_string namespace)) as (qs & -> & E).
  exists qs. split; [done|].
  by rewrite ToUpper_lower, b32_decode_quints, E, String.string_of_list_ascii_of_string.
Qed.

Lemma DecodeNamespaceB32_encode namespace :
  DecodeNamespaceB32 (EncodeNamespaceB32 namespace) = Ok namespace.
Proof. by destruct (EncodeNamespaceB32_quints namespace) as (qs & _ & ?). Qed.

Lemma EncodeNamespaceB32_dns namespace :
  forallb dns_b32 (String.list_ascii_of_string (EncodeNamespaceB32 namespace)) = true.
Proof.
  destruct (EncodeNamespaceB32_quints namespace) as (qs & -> & _).
  rewrite String.list_ascii_of_string_of_list_ascii.
  induction qs as [|q qs IH]; [done|]. cbn [fmap list_fmap forallb].
  by rewrite encode_char_lower_dns.
Qed.

(** Namespaces survive the subdomain: decoding an encoded namespace gives
    it back for every byte string, and the encoding uses only the lower-case
    letters and digits 2-7 a DNS label allows. *)
Theorem namespace_b32_roundtrip (namespace : string) :
  DecodeNamespaceB32 (EncodeNamespaceB32 namespace) = Ok namespace /\
  forallb dns_b32 (String.list_ascii_of_string (EncodeNamespaceB32 namespace)) = true.
Proof. auto using DecodeNamespaceB32_encode, EncodeNamespaceB32_dns. Qed.

(** The decoder also accepts text no namespace encodes to: a lone letter is
    dropped, so distinct encodings name one namespace. *)
Lemma b32_decode_not_injective :
  DecodeNamespaceB32 "mq" = Ok "d" /\ DecodeNamespaceB32 "mr" = Ok "d" /\
  DecodeNamespaceB32 "a" = Ok "".
Proof. split_and!; reflexivity. Qed.
