(* ===== verification/StringUtil.v ===== *)
(** * StringUtil: user names in annotations, and package strings

    internal/stringutil/string.go: SanitizeUsername, the body of the JSON string
    that json.Marshal (Go 1.22 and later, HTML escaping on) makes of a name.  The
    functions of package strings that several components call. *)

From S2P Require Import Prelude.

Definition byte (c : ascii) : Z := Z.of_nat (Ascii.nat_of_ascii c).
Definition chr (n : Z) : ascii := Ascii.ascii_of_nat (Z.to_nat n).

(** utf8.DecodeRune on a non-ASCII lead byte: the length of the encoding at the
    head of the input, 1 with [false] when it is not valid. *)
Definition cont (lo hi b : Z) : bool := (lo <=? b) && (b <=? hi).
Definition rune_len (s : list ascii) : Z * bool :=
  let bs := byte <$> s in
  let at' i := default 0 (bs !! i) in
  let c i := cont 128 191 (at' i) in
  let b0 := at' 0%nat in
  let b1 := at' 1%nat in
  if cont 194 223 b0 && c 1%nat then (2, true)
  else if ((b0 =? 224) && cont 160 191 b1 || cont 225 236 b0 && c 1%nat ||
           (b0 =? 237) && cont 128 159 b1 || cont 238 239 b0 && c 1%nat) && c 2%nat then (3, true)
  else if ((b0 =? 240) && cont 144 191 b1 || cont 241 243 b0 && c 1%nat ||
           (b0 =? 244) && cont 128 143 b1) && c 2%nat && c 3%nat then (4, true)
  else (1, false).

Definition hex_digit (n : Z) : ascii := if n <? 10 then chr (48 + n) else chr (87 + n).
Definition text (s : string) : list ascii := String.list_ascii_of_string s.

(** The escape of one ASCII byte. *)
Definition escape_ascii (b : ascii) : list ascii :=
  let n := byte b in
  if (n =? 34) || (n =? 92) then ["092"%char; b]
  else if n =? 8 then text "\b"
  else if n =? 12 then text "\f"
  else if n =? 10 then text "\n"
  else if n =? 13 then text "\r"
  else if n =? 9 then text "\t"
  else if (n <? 32) || (n =? 60) || (n =? 62) || (n =? 38)
  then text "\u00" ++ [hex_digit (n / 16); hex_digit (n mod 16)]
  else [b].

(** The string encoder of encoding/json; [fuel] bounds the bytes left. *)
Fixpoint json_escape (fuel : nat) (s : list ascii) : list ascii :=
  match fuel, s with
  | S fuel, b :: rest =>
      if byte b <? 128 then escape_ascii b ++ json_escape fuel rest
      else
      let '(len, ok) := rune_len s in
      if negb ok then text "\ufffd" ++ json_escape fuel rest
      else
        let rune := take (Z.to_nat len) s in
        (if bool_decide (byte <$> rune = [226; 128; 168]) then text "\u2028"
         else if bool_decide (byte <$> rune = [226; 128; 169]) then text "\u2029"
         else rune) ++ json_escape fuel (drop (Z.to_nat len) s)
  | _, _ => []
  end.

Definition SanitizeUsername (username : string) : string :=
  let s := text username in
  String.string_of_list_ascii (json_escape (length s) s).

(** A name of printable ASCII characters other than the escaped ones. *)
Definition plain (c : ascii) : bool :=
  let n := byte c in
  (32 <=? n) && (n <? 128) && negb ((n =? 34) || (n =? 92) || (n =? 60) || (n =? 62) || (n =? 38)).

(** Such a name is stored as it is. *)
Lemma SanitizeUsername_plain u :
  forallb plain (text u) = true -> SanitizeUsername u = u.
Proof.
  unfold SanitizeUsername, text. intros Hp.
  rewrite <- (String.string_of_list_ascii_of_string u) at 3. f_equal.
  revert Hp. generalize (String.list_ascii_of_string u). intros l.
  induction l as [|c l IH]; cbn [forallb length json_escape]; [done|].
  intros [Hc Hl]%andb_true_iff. rewrite IH by done. unfold plain in Hc. cbv zeta in Hc.
  rewrite !andb_true_iff, negb_true_iff, !orb_false_iff in Hc.
  destruct Hc as [[H1 H2] [[[[H3 H4] H5] H6] H7]]. rewrite H2.
  unfold escape_ascii. cbv zeta. rewrite H3, H4, H5, H6, H7. cbn [orb].
  apply Z.leb_le in H1.
  repeat match goal with
  | |- context [byte c =? ?n] => rewrite (proj2 (Z.eqb_neq (byte c) n)) by lia
  | |- context [byte c <? ?n] => rewrite (proj2 (Z.ltb_ge (byte c) n)) by lia
  end. done.
Qed.

(** ** Package strings *)

(** The UTF-8 encodings of the space characters strings.TrimSpace removes. *)
Definition spaces : list (list Z) :=
  [[9]; [10]; [11]; [12]; [13]; [32]; [194; 133]; [194; 160]; [225; 154; 128]; [226; 128; 128];
   [226; 128; 129]; [226; 128; 130]; [226; 128; 131]; [226; 128; 132]; [226; 128; 133];
   [226; 128; 134]; [226; 128; 135]; [226; 128; 136]; [226; 128; 137]; [226; 128; 138];
   [226; 128; 168]; [226; 128; 169]; [226; 128; 175]; [226; 129; 159]; [227; 128; 128]].

(** strings.TrimSpace; [fuel] bounds the bytes left to trim. *)
Definition leading_space (s : list ascii) : option nat :=
  length <$> List.find (fun sp => bool_decide (take (length sp) (byte <$> s) = sp)) spaces.
Definition trailing_space (s : list ascii) : option nat :=
  length <$> List.find (fun sp =>
    (length sp <=? length s)%nat && bool_decide (drop (length s - length sp) (byte <$> s) = sp)) spaces.
Fixpoint trim_left (fuel : nat) (s : list ascii) : list ascii :=
  match fuel with
  | O => s
  | S fuel => match leading_space s with Some n => trim_left fuel (drop n s) | None => s end
  end.
Fixpoint trim_right (fuel : nat) (s : list ascii) : list ascii :=
  match fuel with
  | O => s
  | S fuel =>
      match trailing_space s with
      | Some n => trim_right fuel (take (length s - n) s)
      | None => s
      end
  end.
Definition TrimSpace (s : string) : string :=
  let l := text s in
  let l := trim_left (length l) l in
  String.string_of_list_ascii (trim_right (length l) l).

(** strings.Contains. *)
Fixpoint Contains (s sub : string) : bool :=
  HasPrefix s sub || match s with String _ rest => Contains rest sub | EmptyString => false end.

(** strings.Split with a separator of one character, and strings.Join. *)
Fixpoint Split (s : string) (sep : ascii) : list string :=
  match s with
  | EmptyString => [""]
  | String c rest =>
      if Ascii.eqb c sep then "" :: Split rest sep
      else match Split rest sep with
           | first :: others => String c first :: others
           | [] => [String c ""]
           end
  end.
Fixpoint Join (parts : list string) (sep : string) : string :=
  match parts with
  | [] => ""
  | [p] => p
  | p :: rest => p +:+ sep +:+ Join rest sep
  end.

(** strings.TrimLeft and strings.TrimRight with a cutset of one character. *)
Fixpoint TrimLeft (s : string) (c : ascii) : string :=
  match s with
  | String d rest => if Ascii.eqb d c then TrimLeft rest c else s
  | EmptyString => ""
  end.
Fixpoint TrimRight (s : string) (c : ascii) : string :=
  match s with
  | EmptyString => ""
  | String d rest =>
      match TrimRight rest c with
      | EmptyString => if Ascii.eqb d c then "" else String d ""
      | trimmed => String d trimmed
      end
  end.

(** ** Lemmas on strings and their characters *)

Lemma text_app s t : text (s +:+ t) = text s ++ text t.
Proof.
  induction s as [|c s IH]; [done|].
  change (String c s +:+ t) with (String c (s +:+ t)). unfold text in *. cbn. by rewrite IH.
Qed.
Lemma text_of_list l : text (String.string_of_list_ascii l) = l.
Proof. apply String.list_ascii_of_string_of_list_ascii. Qed.
Lemma string_of_text s : String.string_of_list_ascii (text s) = s.
Proof. apply String.string_of_list_ascii_of_string. Qed.

Lemma text_length s : length (text s) = String.length s.
Proof. unfold text. induction s; cbn; congruence. Qed.
Lemma string_of_text_length l : String.length (String.string_of_list_ascii l) = length l.
Proof. induction l; cbn; congruence. Qed.
Lemma Split_app a b sep : Split (a +:+ String sep b) sep = Split a sep ++ Split b sep.
Proof.
  induction a as [|c a IH].
  - change ("" +:+ String sep b) with (String sep b). cbn [Split]. by rewrite Ascii.eqb_refl.
  - change (String c a +:+ String sep b) with (String c (a +:+ String sep b)). cbn [Split].
    rewrite IH. destruct (Ascii.eqb c sep); [done|].
    destruct (Split a sep) as [|first others] eqn:E; [|done].
    exfalso. destruct a; cbn in E; repeat case_match; done.
Qed.

Lemma Split_none s sep : Forall (fun c => Ascii.eqb c sep = false) (text s) -> Split s sep = [s].
Proof.
  unfold text. induction s as [|c s IH]; [done|]. cbn [String.list_ascii_of_string].
  rewrite Forall_cons. intros [Hc Hs]. cbn [Split]. by rewrite Hc, IH.
Qed.

Lemma Join_Split s sep : Join (Split s sep) (String sep "") = s.
Proof.
  induction s as [|c s IH]; [done|]. cbn [Split]. destruct (Ascii.eqb_spec c sep) as [->|Hc].
  - destruct (Split s sep) as [|first others] eqn:E; [by destruct s; cbn in E; repeat case_match|].
    change (Join ("" :: first :: others) (String sep ""))
      with (String sep (Join (first :: others) (String sep ""))). by rewrite IH.
  - destruct (Split s sep) as [|first others] eqn:E; [by destruct s; cbn in E; repeat case_match|].
    destruct others as [|second others]; cbn [Join] in *; [by rewrite IH|].
    change (String c first +:+ ?x) with (String c (first +:+ x)). by rewrite IH.
Qed.

(** The longest prefix of characters with a property, and the rest. *)
Fixpoint span (f : ascii -> bool) (l : list ascii) : list ascii * list ascii :=
  match l with
  | c :: l' => if f c then let '(a, b) := span f l' in (c :: a, b) else ([], l)
  | [] => ([], [])
  end.

Lemma span_app f l r :
  forallb f l = true -> match r with c :: _ => f c = false | [] => True end -> span f (l ++ r) = (l, r).
Proof.
  intros Hl Hr. induction l as [|c l IH]; cbn in *.
  - destruct r as [|c r]; [done|]. cbn. by rewrite Hr.
  - apply andb_true_iff in Hl as [-> Hl]. by rewrite IH.
Qed.

Lemma span_spec f l :
  let '(a, b) := span f l in
  l = a ++ b /\ forallb f a = true /\ match b with c :: _ => f c = false | [] => True end.
Proof.
  induction l as [|c l IH]; [done|]. cbn. destruct (f c) eqn:Hc; [|done].
  destruct (span f l) as [a b]. destruct IH as (-> & Ha & Hb). cbn. by rewrite Hc.
Qed.
