(* ===== verification/GoTemplate.v ===== *)
(** * GoTemplate: package text/template, as far as this program's templates go

    Access strategies and integration templates carry Go templates.  This file
    holds the scanner, the parser and the evaluator of text/template for a fragment
    of the language: text, comments, trim markers, [if]/[else if]/[else]/[end],
    pipelines of fields, quoted and raw strings, booleans, the functions of the
    template's FuncMap (all of them from strings to strings) and the builtins
    [index], [not], [and] and [or].  The parser answers [None] for a text outside the
    fragment, well formed or not; what text/template makes of such a text is a
    parameter of the definitions that use it (TextTemplates.v).  Error values stand
    for the messages, which in Go also carry positions. *)

From S2P Require Import Prelude StringUtil.

(** ** Characters *)

Definition dquote : ascii := "034"%char.
Definition isSpace (c : ascii) : bool :=
  Ascii.eqb c " " || Ascii.eqb c "009" || Ascii.eqb c "013" || Ascii.eqb c "010".
Definition between (lo hi : nat) (c : ascii) : bool :=
  (lo <=? nat_of_ascii c)%nat && (nat_of_ascii c <=? hi)%nat.
Definition isDigit (c : ascii) : bool := between 48 57 c.

(** isAlphaNumeric, on ASCII: a word with other letters is outside the fragment. *)
Definition isAlphaNumeric (c : ascii) : bool :=
  Ascii.eqb c "_" || between 65 90 c || between 97 122 c || isDigit c.
Definition isPrint (c : ascii) : bool := between 32 126 c.

(** ** The scanner (lex.go) *)

Inductive item :=
| IText (text : string)
| ILeft | IRight | ISpace | IPipe | IDot
| IField (name : string)
| IIdent (word : string)
| IString (value : string)
| IBool (value : bool)
| IIf | IElse | IEnd.
#[global] Instance item_eq_dec : EqDecision item.
Proof. solve_decision. Defined.

(** The state functions lexText, lexComment, lexInsideAction, lexField,
    lexIdentifier, lexQuote and lexRawQuote, with the characters read so far, last
    first.  [MTrim] is the start of a text after a delimiter with a trim marker. *)
Inductive mode :=
| MText (read : list ascii)
| MTrim
| MComment
| MAction
| MField (read : list ascii)
| MIdent (read : list ascii)
| MQuote (read : list ascii)
| MRaw (read : list ascii).

(** HasPrefix on the rest of the input. *)
Fixpoint starts (p l : list ascii) : bool :=
  match p, l with
  | [], _ => true
  | c :: p, d :: l => Ascii.eqb c d && starts p l
  | _ :: _, [] => false
  end.
Definition leftDelim : list ascii := ["{"; "{"]%char.
Definition rightDelim : list ascii := ["}"; "}"]%char.
Definition leftComment : list ascii := ["/"; "*"]%char.
Definition rightComment : list ascii := ["*"; "/"]%char.

(** hasLeftTrimMarker, and atRightDelim with and without a trim marker. *)
Definition hasLeftTrimMarker (l : list ascii) : bool :=
  match l with c :: d :: _ => Ascii.eqb c "-" && isSpace d | _ => false end.
Definition at_trim_close (l : list ascii) : bool :=
  match l with c :: l => isSpace c && starts ("-"%char :: rightDelim) l | [] => false end.
Definition at_close (l : list ascii) : bool := starts rightDelim l.

(** atTerminator: what may follow a word. *)
Definition atTerminator (l : list ascii) : bool :=
  match l with
  | [] => true
  | c :: _ => isSpace c || Ascii.eqb c "." || Ascii.eqb c "," || Ascii.eqb c "|" ||
              Ascii.eqb c ":" || Ascii.eqb c ")" || Ascii.eqb c "(" || at_close l
  end.

Definition text_of (read : list ascii) : string := String.string_of_list_ascii (rev read).
Definition text_item (read : list ascii) : list item :=
  match read with [] => [] | _ => [IText (text_of read)] end.
Fixpoint drop_spaces (read : list ascii) : list ascii :=
  match read with c :: r => if isSpace c then drop_spaces r else read | [] => [] end.

(** The item of a word; the other keywords are outside the fragment. *)
Definition word_item (w : string) : option item :=
  if bool_decide (w = "if") then Some IIf
  else if bool_decide (w = "else") then Some IElse
  else if bool_decide (w = "end") then Some IEnd
  else if bool_decide (w = "true") then Some (IBool true)
  else if bool_decide (w = "false") then Some (IBool false)
  else if bool_decide (w ∈ ["block"; "break"; "continue"; "define"; "nil"; "range"; "template";
                            "with"]) then None
  else Some (IIdent w).

(** The escapes of a quoted string that are in the fragment. *)
Definition unescape (c : ascii) : option ascii :=
  if Ascii.eqb c dquote || Ascii.eqb c "\" then Some c
  else if Ascii.eqb c "n" then Some "010"%char
  else if Ascii.eqb c "t" then Some "009"%char
  else None.

(** One step on the first character [c] of the input [l = c :: rest]: the items
    emitted, how many more characters it takes, and the next state. *)
Definition step_text (read l : list ascii) (c : ascii) : option (list item * nat * mode) :=
  if starts leftDelim l then
    let rest := drop 2 l in
    let trim := hasLeftTrimMarker rest in
    let items := text_item (if trim then drop_spaces read else read) in
    let marker := if trim then 2%nat else 0%nat in
    if starts leftComment (drop marker rest) then Some (items, (3 + marker)%nat, MComment)
    else Some (items ++ [ILeft], (1 + marker)%nat, MAction)
  else Some ([], 0%nat, MText (c :: read)).

(** A character of a field name or an identifier; [emit] is the item of the word. *)
Definition step_word (emit : string -> option item) (more : list ascii -> mode)
    (read : list ascii) (c : ascii) (rest : list ascii) : option (list item * nat * mode) :=
  match rest with
  | d :: _ => if isAlphaNumeric d then Some ([], 0%nat, more (c :: read))
              else if atTerminator rest then
                (fun i => ([i], 0%nat, MAction)) <$> emit (text_of (c :: read))
              else None
  | [] => (fun i => ([i], 0%nat, MAction)) <$> emit (text_of (c :: read))
  end.

Definition step_action (l : list ascii) (c : ascii) (rest : list ascii)
    : option (list item * nat * mode) :=
  if at_trim_close l then Some ([IRight], 3%nat, MTrim)
  else if at_close l then Some ([IRight], 1%nat, MText [])
  else if isSpace c then Some ([ISpace], 0%nat, MAction)
  else if Ascii.eqb c "|" then Some ([IPipe], 0%nat, MAction)
  else if Ascii.eqb c dquote then Some ([], 0%nat, MQuote [])
  else if Ascii.eqb c "`" then Some ([], 0%nat, MRaw [])
  else if Ascii.eqb c "." then
    match rest with
    | d :: _ => if isDigit d then None
                else if isAlphaNumeric d then Some ([], 0%nat, MField [])
                else if atTerminator rest then Some ([IDot], 0%nat, MAction) else None
    | [] => None
    end
  else if isDigit c then None
  else if isAlphaNumeric c then step_word word_item MIdent [] c rest
  else None.

Definition step (m : mode) (l : list ascii) (c : ascii) (rest : list ascii)
    : option (list item * nat * mode) :=
  match m with
  | MText read => step_text read l c
  | MTrim => if isSpace c then Some ([], 0%nat, MTrim) else step_text [] l c
  | MComment =>
      if starts rightComment l then
        if at_trim_close (drop 2 l) then Some ([], 5%nat, MTrim)
        else if at_close (drop 2 l) then Some ([], 3%nat, MText [])
        else None
      else Some ([], 0%nat, MComment)
  | MAction => step_action l c rest
  | MField read => step_word (fun w => Some (IField w)) MField read c rest
  | MIdent read => step_word word_item MIdent read c rest
  | MQuote read =>
      if Ascii.eqb c "\" then
        match rest with
        | d :: _ => (fun x => ([], 1%nat, MQuote (x :: read))) <$> unescape d
        | [] => None
        end
      else if Ascii.eqb c dquote then Some ([IString (text_of read)], 0%nat, MAction)
      else if isPrint c then Some ([], 0%nat, MQuote (c :: read))
      else None
  | MRaw read =>
      if Ascii.eqb c "`" then Some ([IString (text_of read)], 0%nat, MAction)
      else if isPrint c then Some ([], 0%nat, MRaw (c :: read))
      else None
  end.

(** The run of the scanner; [skip] characters belong to the last step.  The end of
    the input inside an action is an error. *)
Fixpoint lex (skip : nat) (m : mode) (l : list ascii) : option (list item) :=
  match l with
  | [] => match m with
          | MText read => Some (text_item read)
          | MTrim => Some []
          | _ => None
          end
  | c :: rest =>
      match skip with
      | S skip => lex skip m rest
      | O => match step m l c rest with
             | Some (items, k, m') => (fun more => items ++ more) <$> lex k m' rest
             | None => None
             end
      end
  end.

(** ** The parser (parse.go) *)

Inductive operand :=
| ODot
| OField (path : list string)
| OString (s : string)
| OBool (b : bool)
| OFunc (name : string).
Notation command := (list operand).
Notation pipeline := (list command).

(** A list of nodes, each with the nodes after it. *)
Inductive tmpl :=
| TDone
| TText (text : string) (next : tmpl)
| TAction (pipe : pipeline) (next : tmpl)
| TIf (pipe : pipeline) (list elseList next : tmpl).

(** Tree.operand for one item. *)
Definition operand_of (i : item) : option operand :=
  match i with
  | IDot => Some ODot
  | IField f => Some (OField [f])
  | IString s => Some (OString s)
  | IBool b => Some (OBool b)
  | IIdent w => Some (OFunc w)
  | _ => None
  end.

(** Tree.pipeline and Tree.command up to the right delimiter: [cmd] holds the
    operands of the current command, last first; [glued] says that no space
    followed the last one, where only a field may stand, which extends it. *)
Fixpoint parse_pipeline (items : list item) (cmds : list command) (cmd : command) (glued : bool)
    : option (pipeline * list item) :=
  match items with
  | [] => None
  | ISpace :: r => parse_pipeline r cmds cmd false
  | IPipe :: r => if bool_decide (cmd = []) then None
                  else parse_pipeline r (cmds ++ [rev cmd]) [] false
  | IRight :: r => if bool_decide (cmd = []) then None else Some (cmds ++ [rev cmd], r)
  | i :: r =>
      if glued then
        match i, cmd with
        | IField f, OField p :: cmd' => parse_pipeline r cmds (OField (p ++ [f]) :: cmd') true
        | _, _ => None
        end
      else match operand_of i with
           | Some o => parse_pipeline r cmds (o :: cmd) true
           | None => None
           end
  end.

Fixpoint skip_spaces (items : list item) : list item :=
  match items with ISpace :: r => skip_spaces r | _ => items end.

(** What ended a list of nodes. *)
Inductive stop := AtEOF | AtEnd | AtElse | AtElseIf.

(** Tree.itemList and Tree.parseControl; every call takes an item, so the number of
    items is fuel enough. *)
Fixpoint itemList (fuel : nat) (items : list item) : option (tmpl * stop * list item) :=
  match fuel with
  | O => None
  | S fuel =>
      match items with
      | [] => Some (TDone, AtEOF, [])
      | IText s :: r =>
          '(t, st, r) ← itemList fuel r; Some (TText s t, st, r)
      | ILeft :: r =>
          match skip_spaces r with
          | IEnd :: r =>
              match skip_spaces r with IRight :: r => Some (TDone, AtEnd, r) | _ => None end
          | IElse :: r =>
              match skip_spaces r with
              | IRight :: r => Some (TDone, AtElse, r)
              | IIf :: r => Some (TDone, AtElseIf, r)
              | _ => None
              end
          | IIf :: r =>
              '(p, a, b, r) ← ifControl fuel r;
              '(t, st, r) ← itemList fuel r; Some (TIf p a b t, st, r)
          | r =>
              '(p, r) ← parse_pipeline r [] [] false;
              '(t, st, r) ← itemList fuel r; Some (TAction p t, st, r)
          end
      | _ => None
      end
  end
with ifControl (fuel : nat) (items : list item) : option (pipeline * tmpl * tmpl * list item) :=
  match fuel with
  | O => None
  | S fuel =>
      '(p, r) ← parse_pipeline items [] [] false;
      '(a, st, r) ← itemList fuel r;
      match st with
      | AtEnd => Some (p, a, TDone, r)
      | AtElse => '(b, st, r) ← itemList fuel r;
                  match st with AtEnd => Some (p, a, b, r) | _ => None end
      | AtElseIf => '(p', a', b', r) ← ifControl fuel r; Some (p, a, TIf p' a' b' TDone, r)
      | AtEOF => None
      end
  end.

(** What a use of the package fixes: the FuncMap (names and numbers of arguments),
    whether the option is missingkey=error, and which references to the data are in
    the fragment. *)
Record Dialect := mkDialect {
  d_funcs : list (string * nat);
  d_missingkey_error : bool;
  d_refers : operand -> bool;
}.

(** The first entry of a key. *)
Fixpoint assoc {A} (k : string) (l : list (string * A)) : option A :=
  match l with
  | [] => None
  | (k', x) :: l => if bool_decide (k' = k) then Some x else assoc k l
  end.

Definition builtins : list string := ["index"; "not"; "and"; "or"].

(** Functions stand in front only; a later command of a pipeline may not start with
    a value (checkPipeline); [index] has its two arguments in place. *)
Definition argument_ok (d : Dialect) (o : operand) : bool :=
  match o with OFunc _ => false | o => d_refers d o end.
Definition command_ok (d : Dialect) (first : bool) (cmd : command) : bool :=
  match cmd with
  | [] => false
  | o :: args =>
      forallb (argument_ok d) args &&
      match o with
      | OFunc f =>
          if bool_decide (f = "index") then first && (length args =? 2)%nat
          else bool_decide (f ∈ builtins) || bool_decide (is_Some (assoc f (d_funcs d)))
      | OField _ => d_refers d o
      | _ => first && d_refers d o
      end
  end.
Definition pipeline_ok (d : Dialect) (p : pipeline) : bool :=
  match p with
  | [] => false
  | cmd :: cmds => command_ok d true cmd && forallb (command_ok d false) cmds
  end.
Fixpoint tmpl_ok (d : Dialect) (t : tmpl) : bool :=
  match t with
  | TDone => true
  | TText _ t => tmpl_ok d t
  | TAction p t => pipeline_ok d p && tmpl_ok d t
  | TIf p a b t => pipeline_ok d p && tmpl_ok d a && tmpl_ok d b && tmpl_ok d t
  end.

(** Template.Parse on the fragment. *)
Definition Parse (d : Dialect) (text : string) : option tmpl :=
  items ← lex 0 (MText []) (String.list_ascii_of_string text);
  '(t, st, _) ← itemList (S (length items)) items;
  match st with
  | AtEOF => if tmpl_ok d t then Some t else None
  | _ => None
  end.

(** ** The evaluator (exec.go) *)

(** The values a template sees: strings, booleans, a map[string]string, a struct (or
    the pointer to it) by its fields, a map[string]interface{} by its entries in the
    order of their keys, and the invalid value. *)
Inductive gval :=
| VString (s : string)
| VBool (b : bool)
| VMap (m : gmap string string)
| VStruct (fields : list (string * gval))
| VAny (entries : list (string * gval))
| VNone.

(** An evaluation: a value, an error, or a call of a function of the FuncMap with
    the rest waiting for its answer. *)
Inductive Eval (A : Type) :=
| Done (a : A)
| Failed (err : error)
| Call (f : string) (args : list string) (next : string -> Eval A).
Arguments Done {A}.
Arguments Failed {A}.
Arguments Call {A}.

Fixpoint ebind {A B} (m : Eval A) (k : A -> Eval B) : Eval B :=
  match m with
  | Done a => k a
  | Failed err => Failed err
  | Call f args next => Call f args (fun v => ebind (next v) k)
  end.

(** fmt.Fprint of a value: a map in the order of its keys. *)
Definition join (l : list string) : string :=
  match l with [] => "" | s :: l => foldl (fun a b => a +:+ " " +:+ b) s l end.
Definition fmt_map (m : gmap string string) : string :=
  let keys := merge_sort string_le (map_to_list m).*1 in
  "map[" +:+ join ((fun k => k +:+ ":" +:+ default "" (m !! k)) <$> keys) +:+ "]".
Fixpoint fmt_value (v : gval) : string :=
  match v with
  | VString s => s
  | VBool b => if b then "true" else "false"
  | VMap m => fmt_map m
  | VStruct fields => "{" +:+ join (map (fun f => fmt_value f.2) fields) +:+ "}"
  | VAny entries => "map[" +:+ join (map (fun e => e.1 +:+ ":" +:+ fmt_value e.2) entries) +:+ "]"
  | VNone => "<nil>"
  end.

(** printValue. *)
Definition print_value (v : gval) : string :=
  match v with VNone => "<no value>" | v => fmt_value v end.

(** isTrue. *)
Definition truth (v : gval) : bool :=
  match v with
  | VString s => negb (bool_decide (s = ""))
  | VBool b => b
  | VMap m => negb (bool_decide (m = ∅))
  | VStruct _ => true
  | VAny entries => negb (bool_decide (length entries = 0%nat))
  | VNone => false
  end.

Definition exec_error (what : string) : error := Errorf "template: executing: %s" [what].

Section exec.
Context (d : Dialect).

(** A key that a map does not have. *)
Definition missing_key (name : string) : Eval gval :=
  if d_missingkey_error d then Failed (exec_error ("map has no entry for key " +:+ name))
  else Done VNone.

(** evalField: [hasArgs] when it is given arguments it cannot take. *)
Definition evalField (receiver : gval) (name : string) (hasArgs : bool) : Eval gval :=
  match receiver with
  | VNone => missing_key name
  | VStruct fields =>
      match assoc name fields with
      | Some v => if hasArgs then Failed (exec_error (name +:+ " has arguments but cannot be invoked as function"))
                  else Done v
      | None => Failed (exec_error ("cannot evaluate field " +:+ name))
      end
  | VMap m =>
      if hasArgs then Failed (exec_error (name +:+ " is not a method but has arguments"))
      else match m !! name with Some s => Done (VString s) | None => missing_key name end
  | VAny entries =>
      if hasArgs then Failed (exec_error (name +:+ " is not a method but has arguments"))
      else match assoc name entries with Some v => Done v | None => missing_key name end
  | VString _ | VBool _ => Failed (exec_error ("cannot evaluate field " +:+ name))
  end.

(** evalFieldChain: the last field gets the arguments. *)
Fixpoint evalFieldChain (receiver : gval) (path : list string) (hasArgs : bool) : Eval gval :=
  match path with
  | [] => Done receiver
  | [name] => evalField receiver name hasArgs
  | name :: path => ebind (evalField receiver name false) (fun v => evalFieldChain v path hasArgs)
  end.

(** evalArg for an argument of any type. *)
Definition evalArg (dot : gval) (o : operand) : Eval gval :=
  match o with
  | ODot => Done dot
  | OField path => evalFieldChain dot path false
  | OString s => Done (VString s)
  | OBool b => Done (VBool b)
  | OFunc f => Failed (exec_error f)
  end.

(** validateType for a string. *)
Definition as_string (v : gval) : Eval string :=
  match v with
  | VString s => Done s
  | _ => Failed (exec_error "wrong type for value; expected string")
  end.

(** The arguments of a function of the FuncMap, in their order. *)
Fixpoint string_args (dot : gval) (args : list operand) (final : option gval) : Eval (list string) :=
  match args with
  | [] => match final with
          | Some v => ebind (as_string v) (fun s => Done [s])
          | None => Done []
          end
  | o :: args =>
      ebind (evalArg dot o) (fun v => ebind (as_string v) (fun s =>
      ebind (string_args dot args final) (fun ss => Done (s :: ss))))
  end.

(** The builtins [and] and [or], which stop at the first argument that decides. *)
Fixpoint and_or (is_or : bool) (dot last : gval) (args : list operand) (final : option gval)
    : Eval gval :=
  match args with
  | [] => Done (default last final)
  | o :: args => ebind (evalArg dot o) (fun v =>
      if bool_decide (truth v = is_or) then Done v else and_or is_or dot v args final)
  end.

(** The builtin [index] with one key: an unknown key of a map of strings gives the
    empty string. *)
Definition index1 (item key : gval) : Eval gval :=
  match item, key with
  | VMap m, VString k => Done (VString (default "" (m !! k)))
  | VAny entries, VString k => Done (default VNone (assoc k entries))
  | VNone, _ => Failed (exec_error "index of untyped nil")
  | _, _ => Failed (exec_error "cannot index item")
  end.

Definition wrong_number (f : string) : error :=
  exec_error ("wrong number of args for " +:+ f).

(** evalFunction and evalCall. *)
Definition evalFunction (dot : gval) (f : string) (args : list operand) (final : option gval)
    : Eval gval :=
  let numIn := (length args + match final with Some _ => 1 | None => 0 end)%nat in
  match assoc f (d_funcs d) with
  | Some n =>
      if negb (numIn =? n)%nat then Failed (wrong_number f)
      else ebind (string_args dot args final) (fun ss => Call f ss (fun s => Done (VString s)))
  | None =>
      if bool_decide (f = "index") then
        match args with
        | [item; key] => ebind (evalArg dot item) (fun v => ebind (evalArg dot key) (index1 v))
        | _ => Failed (wrong_number f)
        end
      else if bool_decide (f = "not") then
        match args, final with
        | [o], None => ebind (evalArg dot o) (fun v => Done (VBool (negb (truth v))))
        | [], Some v => Done (VBool (negb (truth v)))
        | _, _ => Failed (wrong_number f)
        end
      else if (numIn =? 0)%nat then Failed (wrong_number f)
      else and_or (bool_decide (f = "or")) dot VNone args final
  end.

(** evalCommand: [final] is the value of the command before it. *)
Definition evalCommand (dot : gval) (cmd : command) (final : option gval) : Eval gval :=
  match cmd with
  | [] => Failed (exec_error "empty command")
  | o :: args =>
      let hasArgs := negb (bool_decide (args = [])) || bool_decide (is_Some final) in
      match o with
      | OFunc f => evalFunction dot f args final
      | OField path => evalFieldChain dot path hasArgs
      | o => if hasArgs then Failed (exec_error "cannot give argument to non-function")
             else evalArg dot o
      end
  end.

(** evalPipeline: each value is the last argument of the next command. *)
Fixpoint evalPipeline (dot : gval) (cmds : pipeline) (value : option gval) : Eval gval :=
  match cmds with
  | [] => Done (default VNone value)
  | cmd :: cmds => ebind (evalCommand dot cmd value) (fun v => evalPipeline dot cmds (Some v))
  end.

(** Template.Execute into a buffer: the text printed. *)
Fixpoint Execute (dot : gval) (t : tmpl) : Eval string :=
  match t with
  | TDone => Done ""
  | TText s t => ebind (Execute dot t) (fun rest => Done (s +:+ rest))
  | TAction p t =>
      ebind (evalPipeline dot p None) (fun v =>
      ebind (Execute dot t) (fun rest => Done (print_value v +:+ rest)))
  | TIf p a b t =>
      ebind (evalPipeline dot p None) (fun v =>
      ebind (if truth v then Execute dot a else Execute dot b) (fun s =>
      ebind (Execute dot t) (fun rest => Done (s +:+ rest))))
  end.
End exec.

(** ** The fuel of the parser is enough *)

Lemma parse_pipeline_shrinks items cmds cmd glued p r :
  parse_pipeline items cmds cmd glued = Some (p, r) -> (length r < length items)%nat.
Proof.
  revert cmds cmd glued. induction items as [|i items IH]; intros cmds cmd glued; [done|].
  cbn. intros H. destruct i, glued; cbn in H;
    repeat (case_bool_decide || case_match || simplify_eq); try done;
    try (apply IH in H; cbn; lia); cbn; lia.
Qed.

#[local] Arguments parse_pipeline : simpl never.

Lemma skip_spaces_shrinks items : (length (skip_spaces items) <= length items)%nat.
Proof. induction items as [|[] items IH]; cbn; lia. Qed.

(** A list of nodes ends no later than it starts, an [if] after its keyword. *)
Lemma itemList_shrinks fuel :
  (forall items t st r, itemList fuel items = Some (t, st, r) -> (length r <= length items)%nat) /\
  (forall items p a b r, ifControl fuel items = Some (p, a, b, r) -> (length r < length items)%nat).
Proof.
  induction fuel as [|fuel [IH1 IH2]]; [split; done|]. split.
  - intros [|i items] t st r H; cbn in H; [by simplify_eq|].
    pose proof (skip_spaces_shrinks items) as Hs.
    destruct i; try done; cbn in *.
    + apply bind_Some in H as ([[t' st'] r'] & H1 & [= <- <- <-]). apply IH1 in H1. lia.
    + destruct (skip_spaces items) as [|i r0] eqn:E; cbn in *.
      * done.
      * pose proof (skip_spaces_shrinks r0) as Hr.
        destruct i;
          try (repeat case_match; simplify_eq; cbn in *; lia);
          try (apply bind_Some in H as ([p' r1] & H1%parse_pipeline_shrinks & H);
               apply bind_Some in H as ([[t' st'] r2] & H2%IH1 & [= <- <- <-]); cbn in *; lia).
        apply bind_Some in H as ([[[p' a'] b'] r1] & H1%IH2 & H).
        apply bind_Some in H as ([[t' st'] r2] & H2%IH1 & [= <- <- <-]). lia.
  - intros items p a b r H; cbn in H.
    apply bind_Some in H as ([p' r0] & H0%parse_pipeline_shrinks & H).
    apply bind_Some in H as ([[a' st] r1] & H1%IH1 & H).
    destruct st; simplify_eq; [lia|..].
    + apply bind_Some in H as ([[b' st] r2] & H2%IH1 & H). destruct st; simplify_eq. lia.
    + apply bind_Some in H as ([[[p2 a2] b2] r2] & H2%IH2 & [= <- <- <- <-]). lia.
Qed.

Lemma itemList_fuel n :
  (forall m items, (length items < n)%nat -> (length items < m)%nat ->
     itemList n items = itemList m items) /\
  (forall m items, (length items < n)%nat -> (length items < m)%nat ->
     ifControl n items = ifControl m items).
Proof.
  induction n as [|n [IH1 IH2]]; [split; intros; lia|].
  split; intros [|m] items Hn Hm; [lia| |lia|].
  - destruct items as [|i items]; [done|]. pose proof (skip_spaces_shrinks items) as Hs.
    destruct i; try done; cbn in *.
    + by rewrite (IH1 m) by lia.
    + destruct (skip_spaces items) as [|i r0] eqn:E; [done|]. cbn in Hs.
      destruct i; try done.
      all: try (destruct (parse_pipeline _ _ _ _) as [[p r1]|] eqn:Ep; [|done]; cbn;
        apply parse_pipeline_shrinks in Ep; cbn in Ep; by rewrite (IH1 m) by lia).
      rewrite (IH2 m) by lia.
      destruct (ifControl m r0) as [[[[p a] b] r1]|] eqn:Ei; [|done]. cbn.
      apply itemList_shrinks in Ei. by rewrite (IH1 m) by lia.
  - cbn. destruct (parse_pipeline _ _ _ _) as [[p r1]|] eqn:Ep; [|done]. cbn.
    apply parse_pipeline_shrinks in Ep. rewrite (IH1 m) by lia.
    destruct (itemList m r1) as [[[a st] r2]|] eqn:Ei; [|done]. cbn.
    apply itemList_shrinks in Ei. destruct st; try done; [by rewrite (IH1 m) by lia|].
    by rewrite (IH2 m) by lia.
Qed.

(** Any other amount of fuel that covers the items gives the same tree. *)
Lemma Parse_fuel fuel items :
  (length items < fuel)%nat -> itemList fuel items = itemList (S (length items)) items.
Proof. intros H. apply itemList_fuel; lia. Qed.

(** ** Printing the documented expressions *)

(** What the documentation of the templates shows: text, [{{ .A.B }}] and
    [{{ f "x" "y" }}]. *)
Inductive piece :=
| PText (text : string)
| PField (path : list string)
| PCall (f : string) (args : list string).

Definition escape (c : ascii) : list ascii :=
  if Ascii.eqb c dquote || Ascii.eqb c "\" then ["\"%char; c] else [c].
Definition quote (s : string) : list ascii := dquote :: (text s ≫= escape) ++ [dquote].
Definition print_piece (p : piece) : list ascii :=
  match p with
  | PText s => text s
  | PField path => text "{{ " ++ (path ≫= fun w => "."%char :: text w) ++ text " }}"
  | PCall f args => text "{{ " ++ text f ++ (args ≫= fun a => " "%char :: quote a) ++ text " }}"
  end.
Definition print_pieces (ps : list piece) : string :=
  String.string_of_list_ascii (ps ≫= print_piece).

(** Words, literals and texts that can be written so: a text without a left
    delimiter, even followed by one. *)
Definition word_ok (w : string) : bool :=
  match text w with
  | [] => false
  | c :: cs => isAlphaNumeric c && negb (isDigit c) && forallb isAlphaNumeric cs
  end.
Definition literal_ok (s : string) : bool := forallb isPrint (text s).
Fixpoint no_open (l : list ascii) : bool :=
  match l with
  | [] => true
  | c :: l => negb (starts leftDelim (c :: l ++ ["{"%char])) && no_open l
  end.
Definition piece_ok (d : Dialect) (p : piece) : bool :=
  match p with
  | PText s => no_open (text s)
  | PField path => negb (bool_decide (path = [])) && forallb word_ok path && d_refers d (OField path)
  | PCall f args =>
      word_ok f && bool_decide (word_item f = Some (IIdent f)) && forallb literal_ok args &&
      forallb (fun a => d_refers d (OString a)) args &&
      bool_decide (assoc f (d_funcs d) = Some (length args)) && negb (bool_decide (f = "index"))
  end.

(** The items of a printed piece other than text. *)
Definition piece_items (p : piece) : list item :=
  match p with
  | PText _ => []
  | PField path => [ILeft; ISpace] ++ (IField <$> path) ++ [ISpace; IRight]
  | PCall f args =>
      [ILeft; ISpace; IIdent f] ++ (args ≫= fun a => [ISpace; IString a]) ++ [ISpace; IRight]
  end.
Fixpoint print_items (read : list ascii) (ps : list piece) : list item :=
  match ps with
  | [] => text_item read
  | PText s :: ps => print_items (rev (text s) ++ read) ps
  | p :: ps => text_item read ++ piece_items p ++ print_items [] ps
  end.

Lemma alnum_facts c :
  isAlphaNumeric c = true ->
  isSpace c = false /\ Ascii.eqb c "}" = false /\ Ascii.eqb c "|" = false /\
  Ascii.eqb c dquote = false /\ Ascii.eqb c "`" = false /\ Ascii.eqb c "." = false /\
  Ascii.eqb c "-" = false.
Proof. by destruct c as [[] [] [] [] [] [] [] []]. Qed.

Lemma lex_step m c rest :
  lex 0 m (c :: rest) =
  match step m (c :: rest) c rest with
  | Some (items, k, m') => (fun more => items ++ more) <$> lex k m' rest
  | None => None
  end.
Proof. reflexivity. Qed.

(** A word in front of a terminator. *)
Lemma lex_word emit more read w rest :
  (forall r l c t, step (more r) l c t = step_word emit more r c t) ->
  w <> [] -> forallb isAlphaNumeric w = true ->
  atTerminator rest = true -> match rest with d :: _ => isAlphaNumeric d = false | [] => True end ->
  lex 0 (more read) (w ++ rest) =
    (i ← emit (text_of (rev w ++ read)); (fun its => i :: its) <$> lex 0 MAction rest).
Proof.
  intros Hstep Hw Hall Ht Hr. revert read Hw. induction w as [|c w IH]; intros read Hw; [done|].
  cbn in Hall. apply andb_true_iff in Hall as [Hc Hall]. cbn [app lex]. rewrite Hstep.
  unfold step_word. destruct w as [|c' w].
  - cbn [app rev]. destruct rest as [|d rest].
    + by destruct (emit _).
    + rewrite Hr, Ht. by destruct (emit _).
  - cbn [app]. pose proof Hall as Hc'. cbn in Hc'. apply andb_true_iff in Hc' as [-> _].
    rewrite <- app_comm_cons in IH. rewrite IH by done.
    cbn [rev]. rewrite <- !app_assoc. cbn. by destruct (emit _); [destruct (lex _ _ _)|].
Qed.

Lemma lex_text read s rest :
  no_open s = true -> lex 0 (MText read) (s ++ rest) = lex 0 (MText (rev s ++ read)) rest.
Proof.
  revert read. induction s as [|c s IH]; intros read Hs; [done|].
  cbn [no_open] in Hs. apply andb_true_iff in Hs as [Hc Hs].
  assert (Ho : starts leftDelim (c :: s ++ rest) = false).
  { apply negb_true_iff in Hc. unfold leftDelim in *. cbn [starts] in *.
    destruct (Ascii.eqb "{" c); [|done]. by destruct s as [|d s]. }
  cbn [app lex step]. unfold step_text. rewrite Ho. rewrite IH by done.
  cbn [rev]. rewrite <- app_assoc. cbn. by destruct (lex _ _ _).
Qed.

(** The items before those of the rest. *)
Notation "its <++> m" := ((fun more => its ++ more) <$> m) (at level 60, right associativity).

Lemma fmap_app_items (a b : list item) (m : option (list item)) : a <++> b <++> m = (a ++ b) <++> m.
Proof. destruct m; cbn; by rewrite <- ?app_assoc. Qed.

Lemma fmap_no_items (m : option (list item)) : [] <++> m = m.
Proof. by destruct m. Qed.

(** A space inside an action, unless it opens a trimming delimiter. *)
Definition no_dash (rest : list ascii) : Prop :=
  match rest with c :: _ => Ascii.eqb c "-" = false | [] => True end.
Lemma lex_space rest :
  no_dash rest -> lex 0 MAction (" "%char :: rest) = [ISpace] <++> lex 0 MAction rest.
Proof.
  intros Hr. cbn [lex step]. unfold step_action.
  replace (at_trim_close (" "%char :: rest)) with false; [done|].
  unfold at_trim_close. destruct rest as [|c rest]; [done|]. cbn [starts]. unfold no_dash in Hr.
  by rewrite (Ascii.eqb_sym "-" c), Hr.
Qed.

Lemma lex_open read rest :
  no_dash rest ->
  lex 0 (MText read) (text "{{ " ++ rest) =
    (text_item read ++ [ILeft; ISpace]) <++> lex 0 MAction rest.
Proof.
  intros Hr. change (text "{{ " ++ rest) with ("{" :: "{" :: " " :: rest)%char.
  transitivity ((text_item read ++ [ILeft]) <++> lex 0 MAction (" "%char :: rest));
    [by destruct rest|].
  rewrite lex_space by done. by rewrite fmap_app_items, <- app_assoc.
Qed.

Lemma lex_close rest :
  lex 0 MAction (text " }}" ++ rest) = [ISpace; IRight] <++> lex 0 (MText []) rest.
Proof. cbn. by destruct (lex _ _ _). Qed.

Lemma word_ok_chars w :
  word_ok w = true -> exists c cs, text w = c :: cs /\ isAlphaNumeric c = true /\
    isDigit c = false /\ forallb isAlphaNumeric (c :: cs) = true.
Proof.
  unfold word_ok. destruct (text w) as [|c cs]; [done|].
  intros [[Hc Hd]%andb_true_iff Hcs]%andb_true_iff. apply negb_true_iff in Hd.
  exists c, cs. cbn. by rewrite Hc.
Qed.

Lemma text_of_chars w : text_of (rev (text w) ++ []) = w.
Proof.
  unfold text_of. rewrite app_nil_r, rev_involutive. apply String.string_of_list_ascii_of_string.
Qed.

(** What may follow a word in a printed action. *)
Definition word_end (rest : list ascii) : Prop :=
  match rest with c :: _ => Ascii.eqb c " " = true \/ Ascii.eqb c "." = true | [] => False end.
Lemma word_end_terminates rest :
  word_end rest -> atTerminator rest = true /\
  match rest with d :: _ => isAlphaNumeric d = false | [] => True end.
Proof. destruct rest as [|c rest]; [done|]. by intros [->%Ascii.eqb_eq| ->%Ascii.eqb_eq]. Qed.

Lemma lex_field w rest :
  word_ok w = true -> word_end rest ->
  lex 0 MAction ("."%char :: text w ++ rest) = [IField w] <++> lex 0 MAction rest.
Proof.
  intros (c & cs & E & Hc & Hd & Hall)%word_ok_chars [Ht Hr]%word_end_terminates.
  pose proof (text_of_chars w) as Hw. rewrite E in *. cbn [app]. rewrite lex_step.
  cbn -[lex isDigit isAlphaNumeric]. rewrite Hd, Hc.
  change (c :: cs ++ rest) with ((c :: cs) ++ rest).
  rewrite (lex_word (fun w => Some (IField w)) MField) by done.
  rewrite Hw. cbn. by destruct (lex _ _ _).
Qed.

Lemma lex_ident f rest :
  word_ok f = true -> word_item f = Some (IIdent f) -> word_end rest ->
  lex 0 MAction (text f ++ rest) = [IIdent f] <++> lex 0 MAction rest.
Proof.
  intros (c & cs & E & Hc & Hd & Hall)%word_ok_chars Hi [Ht Hr]%word_end_terminates.
  pose proof (text_of_chars f) as Hw. rewrite E in *.
  pose proof (lex_word word_item MIdent [] (c :: cs) rest) as Hlex.
  rewrite Hw, Hi in Hlex. cbn [app mbind option_bind] in Hlex.
  transitivity (lex 0 (MIdent []) (c :: cs ++ rest)); [|by rewrite Hlex].
  cbn [app]. rewrite !lex_step. cbn [step].
  destruct (alnum_facts c Hc) as (Hs & Hb & Hp & Hq & Hraw & Hdot & _).
  unfold step_action, at_close, at_trim_close, rightDelim. cbn [starts].
  by rewrite (Ascii.eqb_sym "}" c), Hs, Hb, Hp, Hq, Hraw, Hdot, Hd, Hc.
Qed.

Lemma lex_quoted read s rest :
  forallb isPrint s = true ->
  lex 0 (MQuote read) ((s ≫= escape) ++ dquote :: rest) =
    [IString (text_of (rev s ++ read))] <++> lex 0 MAction rest.
Proof.
  revert read. induction s as [|c s IH]; intros read Hs; [done|].
  cbn in Hs. apply andb_true_iff in Hs as [Hc Hs]. rewrite bind_cons, <- app_assoc.
  transitivity (lex 0 (MQuote (c :: read)) ((s ≫= escape) ++ dquote :: rest));
    [|rewrite IH by done; cbn [rev]; by rewrite <- app_assoc].
  unfold escape at 1. destruct (Ascii.eqb c dquote || Ascii.eqb c "\") eqn:E.
  - cbn -[unescape]. unfold unescape. rewrite E. apply fmap_no_items.
  - apply orb_false_iff in E as [E1 E2]. cbn -[isPrint]. rewrite E2, E1, Hc. apply fmap_no_items.
Qed.

Lemma lex_quote a rest :
  literal_ok a = true -> lex 0 MAction (quote a ++ rest) = [IString a] <++> lex 0 MAction rest.
Proof.
  intros Ha. unfold quote. cbn [app]. rewrite <- app_assoc, lex_step.
  transitivity ([] <++> lex 0 (MQuote []) ((text a ≫= escape) ++ dquote :: rest)); [done|].
  by rewrite fmap_no_items, lex_quoted, text_of_chars.
Qed.

Lemma lex_path path rest :
  forallb word_ok path = true ->
  lex 0 MAction ((path ≫= fun w => "."%char :: text w) ++ text " }}" ++ rest) =
    ((IField <$> path) ++ [ISpace; IRight]) <++> lex 0 (MText []) rest.
Proof.
  induction path as [|w path IH]; intros Hp; [apply lex_close|].
  cbn in Hp. apply andb_true_iff in Hp as [Hw Hp]. rewrite bind_cons, <- app_assoc. cbn [app].
  rewrite lex_field, IH, fmap_app_items; [done..|]. destruct path; cbn; auto.
Qed.

Lemma lex_args args rest :
  forallb literal_ok args = true ->
  lex 0 MAction ((args ≫= fun a => " "%char :: quote a) ++ text " }}" ++ rest) =
    ((args ≫= fun a => [ISpace; IString a]) ++ [ISpace; IRight]) <++> lex 0 (MText []) rest.
Proof.
  induction args as [|a args IH]; intros Ha; [apply lex_close|].
  cbn in Ha. apply andb_true_iff in Ha as [Hw Ha]. rewrite !bind_cons, <- app_assoc. cbn [app].
  rewrite lex_space, lex_quote, IH, !fmap_app_items; done.
Qed.

Lemma no_dash_path path rest :
  path <> [] -> no_dash ((path ≫= fun w => "."%char :: text w) ++ rest).
Proof. by destruct path. Qed.
Lemma no_dash_word w rest : word_ok w = true -> no_dash (text w ++ rest).
Proof.
  intros (c & cs & -> & Hc & _)%word_ok_chars. cbn. by destruct (alnum_facts c Hc) as (_&_&_&_&_&_&?).
Qed.

(** A printed action. *)
Lemma lex_piece d p read rest :
  piece_ok d p = true -> match p with PText _ => False | _ => True end ->
  lex 0 (MText read) (print_piece p ++ rest) =
    (text_item read ++ piece_items p) <++> lex 0 (MText []) rest.
Proof.
  destruct p as [s|path|f args]; cbn [piece_ok print_piece piece_items];
    rewrite ?andb_true_iff, ?negb_true_iff, ?bool_decide_eq_true, ?bool_decide_eq_false.
  - done.
  - intros ((Hne & Hp) & _) _. rewrite <- !app_assoc, lex_open by (by apply no_dash_path).
    rewrite lex_path, fmap_app_items by done. by rewrite <- !app_assoc.
  - intros (((((Hf & Hi) & Ha) & _) & _) & _) _. rewrite <- !app_assoc.
    rewrite lex_open by (by apply no_dash_word).
    rewrite lex_ident, lex_args, !fmap_app_items; [|done..|by destruct args; left].
    by rewrite <- !app_assoc.
Qed.

Lemma lex_pieces d ps read :
  forallb (piece_ok d) ps = true ->
  lex 0 (MText read) (ps ≫= print_piece) = Some (print_items read ps).
Proof.
  revert read. induction ps as [|p ps IH]; intros read Hok; [done|].
  cbn [forallb] in Hok. apply andb_true_iff in Hok as [Hp Hok]. rewrite bind_cons.
  destruct p as [s|path|f args].
  - cbn [print_piece print_items]. rewrite lex_text by done. by apply IH.
  - rewrite (lex_piece d), IH by done. cbn [print_items]. cbn. by rewrite <- app_assoc.
  - rewrite (lex_piece d), IH by done. cbn [print_items]. cbn. by rewrite <- app_assoc.
Qed.

(** ** The tree of a printed template *)

Definition text_node (read : list ascii) (t : tmpl) : tmpl :=
  match read with [] => t | _ => TText (text_of read) t end.
Definition piece_command (p : piece) : command :=
  match p with
  | PText _ => []
  | PField path => [OField path]
  | PCall f args => OFunc f :: (OString <$> args)
  end.
Fixpoint print_tree (read : list ascii) (ps : list piece) : tmpl :=
  match ps with
  | [] => text_node read TDone
  | PText s :: ps => print_tree (rev (text s) ++ read) ps
  | p :: ps => text_node read (TAction [piece_command p] (print_tree [] ps))
  end.

Lemma parse_fields path p r :
  parse_pipeline ((IField <$> path) ++ [ISpace; IRight] ++ r) [] [OField p] true =
    Some ([[OField (p ++ path)]], r).
Proof.
  revert p. induction path as [|w path IH]; intros p; cbn; [by rewrite app_nil_r|].
  unfold parse_pipeline in *. rewrite IH. by rewrite <- app_assoc.
Qed.

Lemma parse_args args cmd glued r :
  cmd <> [] ->
  parse_pipeline ((args ≫= fun a => [ISpace; IString a]) ++ [ISpace; IRight] ++ r) [] cmd glued =
    Some ([rev cmd ++ (OString <$> args)], r).
Proof.
  revert cmd glued. induction args as [|a args IH]; intros cmd glued Hc.
  - unfold parse_pipeline. cbn. rewrite bool_decide_false by done. by rewrite app_nil_r.
  - rewrite bind_cons, <- app_assoc.
    transitivity (parse_pipeline ((args ≫= fun a => [ISpace; IString a]) ++ [ISpace; IRight] ++ r) []
      (OString a :: cmd) true); [done|].
    rewrite IH by done. cbn. by rewrite <- app_assoc.
Qed.

(** The parser on a whole list of items. *)
Definition parse_items (items : list item) : option (tmpl * stop * list item) :=
  itemList (S (length items)) items.

Lemma parse_items_text read items t st r :
  parse_items items = Some (t, st, r) ->
  parse_items (text_item read ++ items) = Some (text_node read t, st, r).
Proof.
  intros H. destruct read as [|c read]; [done|]. unfold parse_items in *.
  cbn [text_item text_node app length]. cbn in *. by rewrite H.
Qed.

Lemma parse_items_action items p r t st r' :
  match skip_spaces items with IEnd :: _ | IElse :: _ | IIf :: _ => False | _ => True end ->
  parse_pipeline (skip_spaces items) [] [] false = Some (p, r) ->
  parse_items r = Some (t, st, r') ->
  parse_items (ILeft :: items) = Some (TAction p t, st, r').
Proof.
  intros Hkw Hp Hr. unfold parse_items in *.
  assert (Hl : (length r < length (ILeft :: items))%nat).
  { apply parse_pipeline_shrinks in Hp. pose proof (skip_spaces_shrinks items). cbn. lia. }
  rewrite <- (Parse_fuel _ _ Hl) in Hr. cbn -[itemList] in *. 
  remember (S (length items)) as n. cbn [itemList].
  destruct (skip_spaces items) as [|i l]; [done|].
  destruct i; try done; rewrite Hp; cbn [mbind option_bind]; by rewrite Hr.
Qed.

Lemma parse_piece d p rest t r :
  piece_ok d p = true -> match p with PText _ => False | _ => True end ->
  parse_items rest = Some (t, AtEOF, r) ->
  parse_items (piece_items p ++ rest) = Some (TAction [piece_command p] t, AtEOF, r).
Proof.
  destruct p as [s|path|f args]; cbn [piece_ok piece_items piece_command];
    rewrite ?andb_true_iff, ?negb_true_iff, ?bool_decide_eq_false; [done|..].
  - intros ((Hne & _) & _) _ Hr. destruct path as [|w path]; [done|].
    rewrite <- !app_assoc. apply (parse_items_action _ _ rest); [done| |done].
    cbn [fmap list_fmap app skip_spaces].
    transitivity (parse_pipeline ((IField <$> path) ++ [ISpace; IRight] ++ rest) [] [OField [w]] true);
      [done|apply parse_fields].
  - intros _ _ Hr. rewrite <- !app_assoc. apply (parse_items_action _ _ rest); [done| |done].
    cbn [app skip_spaces].
    transitivity (parse_pipeline ((args ≫= fun a => [ISpace; IString a]) ++ [ISpace; IRight] ++ rest)
      [] [OFunc f] true); [done|by rewrite parse_args].
Qed.

Lemma parse_pieces d ps read :
  forallb (piece_ok d) ps = true ->
  parse_items (print_items read ps) = Some (print_tree read ps, AtEOF, []).
Proof.
  revert read. induction ps as [|p ps IH]; intros read Hok.
  - cbn. rewrite <- (app_nil_r (text_item read)). by apply parse_items_text.
  - cbn [forallb] in Hok. apply andb_true_iff in Hok as [Hp Hok].
    destruct p as [s|path|f args]; cbn [print_items print_tree]; [by apply IH|..];
      by apply parse_items_text, (parse_piece d), IH.
Qed.

Lemma tmpl_ok_pieces d ps read :
  forallb (piece_ok d) ps = true -> tmpl_ok d (print_tree read ps) = true.
Proof.
  assert (Ht : forall r t, tmpl_ok d t = true -> tmpl_ok d (text_node r t) = true) by by intros [].
  revert read. induction ps as [|p ps IH]; intros read Hok; [by apply Ht|].
  cbn [forallb] in Hok. apply andb_true_iff in Hok as [Hp Hok].
  destruct p as [s|path|f args]; cbn [print_tree]; [by apply IH|..]; apply Ht; cbn [tmpl_ok];
    rewrite (IH [] Hok), andb_true_r; cbn [piece_ok] in Hp;
    rewrite ?andb_true_iff, ?negb_true_iff, ?bool_decide_eq_true, ?bool_decide_eq_false in Hp.
  - destruct Hp as (_ & Hd). cbn. by rewrite Hd.
  - destruct Hp as ((((_ & _) & Hd) & Hf) & Hi). cbn -[forallb]. rewrite andb_true_r.
    apply andb_true_iff. split.
    + rewrite forallb_forall in Hd |- *. intros o Ho. apply list_elem_of_In, list_elem_of_fmap in Ho
        as (a & -> & Ha%list_elem_of_In). by apply Hd.
    + rewrite bool_decide_false by done. rewrite (bool_decide_true (is_Some _)) by (by rewrite Hf).
      apply orb_true_r.
Qed.

(** A printed template parses to its tree. *)
Lemma Parse_print d ps :
  forallb (piece_ok d) ps = true -> Parse d (print_pieces ps) = Some (print_tree [] ps).
Proof.
  intros Hok. unfold Parse, print_pieces.
  rewrite String.list_ascii_of_string_of_list_ascii, (lex_pieces d) by done. cbn [mbind option_bind].
  pose proof (parse_pieces d ps [] Hok) as Hp. unfold parse_items in Hp. rewrite Hp.
  cbn [mbind option_bind]. by rewrite tmpl_ok_pieces.
Qed.

(** ** Running an evaluation *)

Section run.
Context {S : Type} (call : string -> list string -> ST S string).
Local Open Scope go_scope.

(** The evaluation with the functions of the FuncMap supplied. *)
Fixpoint run {A} (m : Eval A) : ST S A :=
  match m with
  | Done a => st_ret a
  | Failed err => st_fail err
  | Call f args next => v <- call f args ;; run (next v)
  end.

Lemma run_bind {A B} (m : Eval A) (k : A -> Eval B) c :
  run (ebind m k) c = (x <- run m ;; run (k x)) c.
Proof.
  revert c. induction m as [a|err|f args next IH]; intros c; [done..|].
  cbn. unfold st_bind. destruct (call f args c) as [[v|err] c']; [|done].
  specialize (IH v c'). unfold st_bind in IH. exact IH.
Qed.

(** What the pieces of a template print, one after the other. *)
Fixpoint render_pieces (d : Dialect) (dot : gval) (ps : list piece) : ST S string :=
  match ps with
  | [] => st_ret ""
  | PText s :: ps => rest <- render_pieces d dot ps ;; st_ret (s +:+ rest)
  | PField path :: ps =>
      v <- run (evalFieldChain d dot path false) ;;
      rest <- render_pieces d dot ps ;; st_ret (print_value v +:+ rest)
  | PCall f args :: ps =>
      v <- call f args ;; rest <- render_pieces d dot ps ;; st_ret (v +:+ rest)
  end.

Lemma string_args_literals d dot args :
  string_args d dot (OString <$> args) None = Done args.
Proof. induction args as [|a args IH]; [done|]. cbn. by rewrite IH. Qed.

Lemma run_text_node d dot read t c :
  run (Execute d dot (text_node read t)) c =
    (rest <- run (Execute d dot t) ;; st_ret (text_of read +:+ rest)) c.
Proof.
  destruct read as [|x read]; cbn [text_node Execute].
  - unfold st_bind, st_ret. cbn. by destruct (run _ _) as [[]].
  - by rewrite run_bind.
Qed.

Lemma text_of_app read s : text_of (rev (text s) ++ read) = text_of read +:+ s.
Proof.
  unfold text_of. rewrite rev_app_distr, rev_involutive.
  rewrite <- (String.string_of_list_ascii_of_string s) at 2. unfold text.
  induction (rev read) as [|c l IH]; [done|]. cbn. by rewrite IH.
Qed.

Lemma run_action d dot cmd t c :
  run (Execute d dot (TAction [cmd] t)) c =
    (v <- run (evalCommand d dot cmd None) ;;
     rest <- run (Execute d dot t) ;; st_ret (print_value v +:+ rest)) c.
Proof.
  cbn [Execute evalPipeline]. rewrite run_bind. unfold st_bind at 1. rewrite run_bind.
  unfold st_bind. destruct (run _ c) as [[v|err] c']; [|done]. cbn. by rewrite run_bind.
Qed.

(** A printed template prints its pieces. *)
Lemma run_print_tree d dot ps read c :
  forallb (piece_ok d) ps = true ->
  run (Execute d dot (print_tree read ps)) c =
    (rest <- render_pieces d dot ps ;; st_ret (text_of read +:+ rest)) c.
Proof.
  revert read c. induction ps as [|p ps IH]; intros read c Hok; [apply run_text_node|].
  cbn [forallb] in Hok. apply andb_true_iff in Hok as [Hp Hok].
  destruct p as [s|path|f args]; cbn [print_tree render_pieces].
  - rewrite IH, text_of_app by done. unfold st_bind, st_ret.
    destruct (render_pieces _ _ _ _) as [[rest|] c']; [|done]. by rewrite string_app_assoc.
  - rewrite run_text_node. unfold st_bind at 1 2. rewrite run_action. cbn [piece_command evalCommand].
    unfold st_bind. cbn. destruct (run _ c) as [[v|err] c']; [|done].
    rewrite IH by done. unfold st_bind. by destruct (render_pieces _ _ _ _) as [[]].
  - rewrite run_text_node. unfold st_bind at 1 2. rewrite run_action. cbn [piece_command evalCommand].
    cbn [piece_ok] in Hp. rewrite !andb_true_iff, !bool_decide_eq_true in Hp.
    destruct Hp as ((_ & Hf) & _). unfold evalFunction.
    rewrite Hf, length_fmap, Nat.add_0_r, Nat.eqb_refl, string_args_literals. cbn [negb ebind run].
    unfold st_bind, st_ret. destruct (call f args c) as [[v|err] c']; [|done].
    rewrite IH by done. unfold st_bind. by destruct (render_pieces _ _ _ _) as [[]].
Qed.
End run.

(** ** Templates without branches

    A straight template prints one value after the other; it calls the functions
    of the FuncMap on literals only. *)

Definition is_literal (o : operand) : bool := match o with OString _ => true | _ => false end.
Definition straight_command (d : Dialect) (cmd : command) : bool :=
  match cmd with
  | OFunc f :: args =>
      match assoc f (d_funcs d) with
      | Some _ => forallb is_literal args
      | None => bool_decide (f = "not") ||
          (bool_decide (f = "index") && match args with [_; OString _] => true | _ => false end)
      end
  | [_] => true
  | _ => false
  end.
Fixpoint straight (d : Dialect) (t : tmpl) : bool :=
  match t with
  | TDone => true
  | TText _ t => straight d t
  | TAction [cmd] t => straight_command d cmd && straight d t
  | TAction _ _ | TIf _ _ _ _ => false
  end.

(** Values of one shape: other strings and booleans, and maps with more keys. *)
Inductive agrees : gval -> gval -> Prop :=
| agrees_string s s' : agrees (VString s) (VString s')
| agrees_bool b b' : agrees (VBool b) (VBool b')
| agrees_map m m' : dom m ⊆ dom m' -> agrees (VMap m) (VMap m')
| agrees_struct fs fs' :
    Forall2 (fun f f' => f.1 = f'.1 /\ agrees f.2 f'.2) fs fs' -> agrees (VStruct fs) (VStruct fs')
| agrees_any es es' :
    Forall2 (fun e e' => e.1 = e'.1 /\ agrees e.2 e'.2) es es' -> agrees (VAny es) (VAny es')
| agrees_none : agrees VNone VNone.
#[global] Hint Constructors agrees : core.

(** An evaluation that fails, or does what the other does: the same calls in the
    same order, whatever the answers, and results that are related. *)
Inductive evals {A} (R : A -> A -> Prop) : Eval A -> Eval A -> Prop :=
| evals_failed err m : evals R (Failed err) m
| evals_done a a' : R a a' -> evals R (Done a) (Done a')
| evals_call f args next next' :
    (forall v v', evals R (next v) (next' v')) -> evals R (Call f args next) (Call f args next').
#[global] Hint Constructors evals : core.

Lemma evals_bind {A B} (R : A -> A -> Prop) (Q : B -> B -> Prop) m m' k k' :
  evals R m m' -> (forall a a', R a a' -> evals Q (k a) (k' a')) ->
  evals Q (ebind m k) (ebind m' k').
Proof. intros Hm Hk. induction Hm; cbn; auto. Qed.

Lemma assoc_agrees name fs fs' :
  Forall2 (fun f f' => f.1 = f'.1 /\ agrees f.2 f'.2) fs fs' ->
  match assoc name fs, assoc name fs' with
  | Some v, Some v' => agrees v v'
  | None, None => True
  | _, _ => False
  end.
Proof.
  induction 1 as [|[n v] [n' v'] fs fs' [Hn Hv] _ IH]; [done|]. cbn in *. subst.
  by case_bool_decide.
Qed.

Section straight.
Context (d : Dialect) (Hmiss : d_missingkey_error d = true).

Lemma evalField_agrees v v' name hasArgs :
  agrees v v' -> evals agrees (evalField d v name hasArgs) (evalField d v' name hasArgs).
Proof.
  destruct 1 as [| |m m' Hm|fs fs' Hf|fs fs' Hf|]; cbn [evalField]; unfold missing_key;
    rewrite ?Hmiss; auto.
  - destruct hasArgs; [auto|]. destruct (m !! name) as [s|] eqn:E; [|auto].
    apply elem_of_dom_2, Hm, elem_of_dom in E as [s' ->]. auto.
  - apply (assoc_agrees name) in Hf. repeat case_match; done || auto.
  - destruct hasArgs; [auto|]. apply (assoc_agrees name) in Hf. repeat case_match; done || auto.
Qed.

Lemma evalFieldChain_agrees v v' path hasArgs :
  agrees v v' -> evals agrees (evalFieldChain d v path hasArgs) (evalFieldChain d v' path hasArgs).
Proof.
  revert v v'. induction path as [|name [|name' path] IH]; intros v v' Hv; cbn;
    [auto|by apply evalField_agrees|].
  eapply evals_bind; [by apply evalField_agrees|]. intros w w' Hw. by apply IH.
Qed.

Lemma evalArg_agrees v v' o : agrees v v' -> evals agrees (evalArg d v o) (evalArg d v' o).
Proof. intros Hv. destruct o; cbn; auto. by apply evalFieldChain_agrees. Qed.

Lemma evalCommand_agrees v v' cmd :
  agrees v v' -> straight_command d cmd = true ->
  evals agrees (evalCommand d v cmd None) (evalCommand d v' cmd None).
Proof.
  intros Hv. destruct cmd as [|o args]; [done|]. cbn [straight_command evalCommand].
  destruct o as [|path|s|b|f]; cbn; try (destruct args; [|done]; intros _; cbn; auto;
    by apply evalFieldChain_agrees).
  intros Hs. unfold evalFunction. destruct (assoc f (d_funcs d)) as [n|].
  - case_match; [auto|]. eapply (evals_bind eq); [|intros ss _ <-; auto].
    clear -Hs. induction args as [|[] args IH]; cbn in *; try done; [auto|].
    eapply evals_bind; [by apply IH|]. intros ss _ <-. auto.
  - destruct (decide (f = "index")) as [->|Hi].
    + cbn in *. destruct args as [|o [|[| |k| |] [|]]]; try done.
      eapply evals_bind; [by apply evalArg_agrees|]. intros w w' Hw. cbn.
      destruct Hw as [| | | |es es' He|]; cbn; auto. apply (assoc_agrees k) in He.
      repeat case_match; done || (cbn; auto).
    + rewrite (bool_decide_false (f = "index")) in Hs |- * by done.
      rewrite orb_false_r, bool_decide_eq_true in Hs. subst f.
      rewrite (bool_decide_true (_ = "not")) by done.
      destruct args as [|o []]; auto. eapply evals_bind; [by apply evalArg_agrees|]. auto.
Qed.

(** A straight template makes the same calls on any data of the shape. *)
Lemma Execute_agrees v v' t :
  agrees v v' -> straight d t = true ->
  evals (fun _ _ => True) (Execute d v t) (Execute d v' t).
Proof.
  intros Hv. induction t as [|s t IH|p t IH|p a _ b _ t _]; cbn [straight Execute]; [auto|..].
  - intros Hs. eapply evals_bind; [by apply IH|]. auto.
  - destruct p as [|cmd [|]]; try done. intros [Hc Hs]%andb_true_iff. cbn [evalPipeline].
    eapply (evals_bind agrees).
    { eapply evals_bind; [by apply evalCommand_agrees|]. cbn. auto. }
    intros w w' _. eapply evals_bind; [by apply IH|]. auto.
  - done.
Qed.
End straight.
