(* ===== verification/GoRegex.v ===== *)
(** * GoRegex: package regexp, as far as this program's own patterns go

    The parser of regexp/syntax and the leftmost-first match of package regexp on a
    fragment: literals, [.], character classes of single characters and ranges,
    capturing and non-capturing groups, the greedy operators [*], [+] and [?], and
    the anchors [^] and [$] of the whole text.  A pattern outside the
    fragment, or a text that is not ASCII (package regexp works on runes), goes to a
    given engine ([go_regexp]).  Repetition is in the fragment where its argument
    takes at least a character, so that the number of characters left bounds the
    iterations. *)

From S2P Require Import Prelude StringUtil.

(** ** Syntax *)

Inductive regex :=
| REmpty
| RClass (has : ascii -> bool)
| RBegin
| REnd
| RSeq (r1 r2 : regex)
| RAlt (r1 r2 : regex)
| RStar (r : regex)
| RCap (index : nat) (r : regex).

Definition lit (c : ascii) : regex := RClass (Ascii.eqb c).
Definition anyCharNotNL : regex := RClass (fun c => negb (Ascii.eqb c "010")).
Definition plus (r : regex) : regex := RSeq r (RStar r).
Definition opt (r : regex) : regex := RAlt r REmpty.

(** Whether a regular expression matches the empty text somewhere. *)
Fixpoint nullable (r : regex) : bool :=
  match r with
  | REmpty | RBegin | REnd | RStar _ => true
  | RClass _ => false
  | RSeq r1 r2 => nullable r1 && nullable r2
  | RAlt r1 r2 => nullable r1 || nullable r2
  | RCap _ r => nullable r
  end.

(** The repetitions of the fragment. *)
Fixpoint progresses (r : regex) : bool :=
  match r with
  | REmpty | RClass _ | RBegin | REnd => true
  | RSeq r1 r2 | RAlt r1 r2 => progresses r1 && progresses r2
  | RStar r => negb (nullable r) && progresses r
  | RCap _ r => progresses r
  end.

(** Characters that stand for themselves. *)
Definition is_alnum (c : ascii) : bool :=
  let n := nat_of_ascii c in
  ((48 <=? n) && (n <=? 57) || (65 <=? n) && (n <=? 90) || (97 <=? n) && (n <=? 122))%nat.
Definition plain_char (c : ascii) : bool :=
  is_alnum c || existsb (Ascii.eqb c) ["/"; "-"; "_"; ","; ":"; ";"; "="; "@"; "%"; "~"; " "]%char.

(** The members of a class up to its bracket: characters and ranges in order, none
    of them an escape, a bracket or a caret. *)
Fixpoint class_items (l : list ascii) : option ((ascii -> bool) * list ascii) :=
  match l with
  | [] => None
  | c :: rest =>
      if Ascii.eqb c "]" then Some (fun _ => false, rest)
      else if negb (plain_char c || Ascii.eqb c ".") || Ascii.eqb c "-" then None
      else match rest with
           | d :: e :: rest' =>
               if Ascii.eqb d "-" then
                 if negb (is_alnum e) || (nat_of_ascii e <? nat_of_ascii c)%nat then None
                 else '(has, r) ← class_items rest';
                      Some (fun x => ((nat_of_ascii c <=? nat_of_ascii x) &&
                                      (nat_of_ascii x <=? nat_of_ascii e))%nat || has x, r)
               else '(has, r) ← class_items rest; Some (fun x => Ascii.eqb c x || has x, r)
           | _ => '(has, r) ← class_items rest; Some (fun x => Ascii.eqb c x || has x, r)
           end
  end.

(** A class after its opening bracket: an empty one is not a class.  A dash stands
    for itself right after the bracket or the caret. *)
Definition class_body (l : list ascii) : option ((ascii -> bool) * list ascii) :=
  match l with
  | "]"%char :: _ => None
  | "-"%char :: rest =>
      match rest with
      | "-"%char :: _ => None
      | _ => '(has, r) ← class_items rest; Some (fun x => Ascii.eqb "-" x || has x, r)
      end
  | _ => class_items l
  end.
Definition class (l : list ascii) : option (regex * list ascii) :=
  match l with
  | "^"%char :: rest => '(has, r) ← class_body rest; Some (RClass (fun x => negb (has x)), r)
  | _ => '(has, r) ← class_body l; Some (RClass has, r)
  end.

(** The repetition operator after an atom; a second one is not in the fragment. *)
Definition is_repeat (c : ascii) : bool := existsb (Ascii.eqb c) ["*"; "+"; "?"; "{"]%char.
Definition repeat_of (r : regex) (l : list ascii) : option (regex * list ascii) :=
  match l with
  | c :: rest =>
      if is_repeat c then
        if match rest with d :: _ => is_repeat d | [] => false end then None
        else if Ascii.eqb c "*" then Some (RStar r, rest)
        else if Ascii.eqb c "+" then Some (plus r, rest)
        else if Ascii.eqb c "?" then Some (opt r, rest)
        else None
      else Some (r, l)
  | [] => Some (r, l)
  end.

(** A concatenation; [n] is the index of the next group.  Every call takes a
    character, so the length of the pattern is fuel enough. *)
Fixpoint parse_seq (fuel : nat) (n : nat) (l : list ascii) : option (regex * nat * list ascii) :=
  match fuel with
  | O => None
  | S fuel =>
      match l with
      | [] => Some (REmpty, n, [])
      | c :: rest =>
          if Ascii.eqb c ")" then Some (REmpty, n, l) else
          '(atom, n, l) ←
            (if Ascii.eqb c "^" then Some (RBegin, n, rest)
             else if Ascii.eqb c "$" then Some (REnd, n, rest)
             else if Ascii.eqb c "." then Some (anyCharNotNL, n, rest)
             else if Ascii.eqb c "[" then '(r, l) ← class rest; Some (r, n, l)
             else if Ascii.eqb c "\" then
               match rest with
               | d :: rest => if is_alnum d || (128 <=? nat_of_ascii d)%nat || (nat_of_ascii d <? 33)%nat
                              then None else Some (lit d, n, rest)
               | [] => None
               end
             else if Ascii.eqb c "(" then
               match rest with
               | "?"%char :: ":"%char :: rest =>
                   '(r, n, l) ← parse_seq fuel n rest;
                   match l with ")"%char :: l => Some (r, n, l) | _ => None end
               | "?"%char :: _ => None
               | _ =>
                   '(r, m, l) ← parse_seq fuel (S n) rest;
                   match l with ")"%char :: l => Some (RCap n r, m, l) | _ => None end
               end
             else if plain_char c then Some (lit c, n, rest)
             else None);
          '(atom, l) ← repeat_of atom l;
          '(r, n, l) ← parse_seq fuel n l;
          Some (RSeq atom r, n, l)
      end
  end.

(** syntax.Parse on the fragment: the expression and its number of groups. *)
Definition parse_regex (pattern : string) : option (regex * nat) :=
  '(r, n, l) ← parse_seq (S (String.length pattern)) 1 (text pattern);
  match l with
  | [] => if progresses r then Some (r, (n - 1)%nat) else None
  | _ => None
  end.

(** ** Matching *)

Notation captures := (gmap nat string).

Section match_at.
Context (total : nat).

(** The text between two rests of the input. *)
Definition taken (from to : list ascii) : string :=
  String.string_of_list_ascii (take (length from - length to) from).

(** Repetition: another iteration first, then what follows. *)
Fixpoint star (body : (list ascii -> captures -> option captures) -> list ascii -> captures ->
    option captures) (k : list ascii -> captures -> option captures) (n : nat) (l : list ascii)
    (cs : captures) : option captures :=
  match n with
  | O => k l cs
  | S n =>
      match body (fun l' cs' => star body k n l' cs') l cs with
      | Some out => Some out
      | None => k l cs
      end
  end.

(** The preferred match from [l] on, with [k] for what follows. *)
Fixpoint matches (r : regex) (k : list ascii -> captures -> option captures) (l : list ascii)
    (cs : captures) : option captures :=
  match r with
  | REmpty => k l cs
  | RClass has => match l with c :: l => if has c then k l cs else None | [] => None end
  | RBegin => if (length l =? total)%nat then k l cs else None
  | REnd => match l with [] => k l cs | _ => None end
  | RSeq r1 r2 => matches r1 (matches r2 k) l cs
  | RAlt r1 r2 => match matches r1 k l cs with Some out => Some out | None => matches r2 k l cs end
  | RStar r => star (matches r) k (length l) l cs
  | RCap i r => matches r (fun l' cs' => k l' (<[i := taken l l']> cs')) l cs
  end.

(** The whole match is group 0. *)
Definition match_here (r : regex) (l : list ascii) : option captures :=
  matches (RCap 0 r) (fun _ cs => Some cs) l ∅.

(** The leftmost match. *)
Fixpoint search (r : regex) (l : list ascii) : option captures :=
  match match_here r l with
  | Some cs => Some cs
  | None => match l with [] => None | _ :: l => search r l end
  end.
End match_at.

Definition is_ascii (s : string) : bool := forallb (fun c => nat_of_ascii c <? 128)%nat (text s).

(** The groups of a match in order, an unset one empty. *)
Definition submatches (r : regex) (groups : nat) (s : string) : list string :=
  match search (String.length s) r (text s) with
  | Some cs => (fun i => default "" (cs !! i)) <$> seq 0 (S groups)
  | None => []
  end.

(** Package regexp: the fragment, and the given engine for the rest. *)
Definition go_regexp (other : GoRegexp) : GoRegexp := {|
  re_compiles := fun p => bool_decide (is_Some (parse_regex p)) || @re_compiles other p;
  re_error := @re_error other;
  re_FindStringSubmatch := fun p s =>
    match parse_regex p with
    | Some (r, groups) => if is_ascii s then submatches r groups s else @re_FindStringSubmatch other p s
    | None => @re_FindStringSubmatch other p s
    end;
  re_MatchString := fun p s =>
    match parse_regex p with
    | Some (r, groups) => if is_ascii s then bool_decide (submatches r groups s <> [])
                          else @re_MatchString other p s
    | None => @re_MatchString other p s
    end;
|}.

(** ** Matching literals, classes and anchors *)

(** A literal text in front of an expression. *)
Definition lits (s : string) (r : regex) : regex := foldr (fun c r => RSeq (lit c) r) r (text s).
Fixpoint strip (p l : list ascii) : option (list ascii) :=
  match p, l with
  | [], _ => Some l
  | c :: p, d :: l => if Ascii.eqb c d then strip p l else None
  | _ :: _, [] => None
  end.

Lemma strip_Some p l r : strip p l = Some r <-> l = p ++ r.
Proof.
  revert l. induction p as [|c p IH]; intros l; cbn; [split; congruence|].
  destruct l as [|d l]; [done|]. destruct (Ascii.eqb_spec c d) as [->|Hn].
  - rewrite IH. split; [by intros ->|congruence].
  - split; [done|congruence].
Qed.

Lemma matches_lits total s r k l cs :
  matches total (lits s r) k l cs =
  match strip (text s) l with Some l' => matches total r k l' cs | None => None end.
Proof.
  unfold lits. revert l. induction (text s) as [|c p IH]; intros l; [done|]. cbn.
  destruct l as [|d l]; [done|]. destruct (Ascii.eqb c d); [apply IH|done].
Qed.

Lemma matches_lit total c r k d l cs :
  matches total (RSeq (lit c) r) k (d :: l) cs =
    if Ascii.eqb c d then matches total r k l cs else None.
Proof. reflexivity. Qed.

(** No class member in front. *)
Definition stops (has : ascii -> bool) (l : list ascii) : Prop :=
  match l with c :: _ => has c = false | [] => True end.

Section class.
Context (total : nat) (has : ascii -> bool).

(** The greedy run is tried first. *)
Lemma star_class_greedy k w rest cs n out :
  forallb has w = true -> stops has rest -> (length w <= n)%nat -> k rest cs = Some out ->
  star (matches total (RClass has)) k n (w ++ rest) cs = Some out.
Proof.
  intros Hw Hr Hn Hk. revert n Hn. induction w as [|c w IH]; intros [|n] Hn; cbn in *; try lia; try done.
  - destruct rest as [|d rest]; [done|]. cbn in Hr. by rewrite Hr.
  - apply andb_true_iff in Hw as [-> Hw]. rewrite IH; [done|done|lia].
Qed.

(** When nothing can follow a shorter run, it is the only one. *)
Lemma star_class_only k w rest cs n :
  forallb has w = true -> stops has rest -> (length w <= n)%nat ->
  (forall c l, has c = true -> k (c :: l) cs = None) ->
  star (matches total (RClass has)) k n (w ++ rest) cs = k rest cs.
Proof.
  intros Hw Hr Hn Hk. revert n Hn. induction w as [|c w IH]; intros [|n] Hn; cbn in *; try lia; try done.
  - destruct rest as [|d rest]; cbn in *; [by destruct (k [] cs)|]. rewrite Hr. by destruct (k _ cs).
  - apply andb_true_iff in Hw as [Hc Hw]. rewrite Hc, IH by (done || lia).
    destruct (k rest cs); [done|]. by apply Hk.
Qed.

Lemma plus_class_greedy k w rest cs out :
  w <> [] -> forallb has w = true -> stops has rest -> k rest cs = Some out ->
  matches total (plus (RClass has)) k (w ++ rest) cs = Some out.
Proof.
  intros Hne Hw Hr Hk. destruct w as [|c w]; [done|]. cbn in *.
  apply andb_true_iff in Hw as [-> Hw]. apply star_class_greedy; try done. rewrite length_app. lia.
Qed.
Lemma plus_class_only k w rest cs :
  w <> [] -> forallb has w = true -> stops has rest ->
  (forall c l, has c = true -> k (c :: l) cs = None) ->
  matches total (plus (RClass has)) k (w ++ rest) cs = k rest cs.
Proof.
  intros Hne Hw Hr Hk. destruct w as [|c w]; [done|]. cbn in *.
  apply andb_true_iff in Hw as [-> Hw]. apply star_class_only; try done. rewrite length_app. lia.
Qed.
Lemma plus_class_none k rest cs :
  stops has rest -> matches total (plus (RClass has)) k rest cs = None.
Proof. destruct rest as [|c rest]; [done|]. cbn. by intros ->. Qed.
End class.

(** An anchored expression matches at the start or not at all. *)
Lemma match_here_anchored total r l :
  match_here total (RSeq RBegin r) l =
    if (length l =? total)%nat
    then matches total r (fun l' cs => Some (<[0%nat := taken l l']> cs)) l ∅ else None.
Proof. reflexivity. Qed.

Lemma search_late total r l :
  (length l < total)%nat -> search total (RSeq RBegin r) l = None.
Proof.
  induction l as [|c l IH]; intros Hl; cbn [search]; rewrite match_here_anchored.
  - by rewrite (proj2 (Nat.eqb_neq _ _)) by lia.
  - rewrite (proj2 (Nat.eqb_neq _ _)) by lia. apply IH. cbn in Hl. lia.
Qed.
Lemma search_anchored r l :
  search (length l) (RSeq RBegin r) l =
    matches (length l) r (fun l' cs => Some (<[0%nat := taken l l']> cs)) l ∅.
Proof.
  destruct l as [|c l]; cbn [search]; rewrite match_here_anchored, Nat.eqb_refl.
  - by destruct (matches _ _ _ _ _).
  - destruct (matches _ _ _ _ _); [done|]. apply search_late. cbn. lia.
Qed.

(** ** What a match means *)

(** The rests a regular expression can lead to from a rest of a text of [total]
    characters: the usual denotation, with repetition as the reflexive and
    transitive closure. *)
Fixpoint leads (total : nat) (r : regex) (l l' : list ascii) : Prop :=
  match r with
  | REmpty => l' = l
  | RClass has => exists c, l = c :: l' /\ has c = true
  | RBegin => l' = l /\ length l = total
  | REnd => l' = l /\ l = []
  | RSeq r1 r2 => exists m, leads total r1 l m /\ leads total r2 m l'
  | RAlt r1 r2 => leads total r1 l l' \/ leads total r2 l l'
  | RStar r => rtc (leads total r) l l'
  | RCap _ r => leads total r l l'
  end.

Lemma rtc_length (R : list ascii -> list ascii -> Prop) l l' :
  (forall a b, R a b -> (length b <= length a)%nat) -> rtc R l l' -> (length l' <= length l)%nat.
Proof. intros HR. induction 1 as [|x y z Hxy _ IH]; [lia|]. specialize (HR _ _ Hxy). lia. Qed.

Lemma leads_length total r l l' :
  leads total r l l' ->
  (length l' <= length l)%nat /\ (nullable r = false -> (length l' < length l)%nat).
Proof.
  revert l l'. induction r as [|has| | |r1 IH1 r2 IH2|r1 IH1 r2 IH2|r IH|i r IH]; intros l l'; cbn.
  - by intros ->.
  - intros (c & -> & _). cbn. lia.
  - by intros [-> _].
  - by intros [-> _].
  - intros (m & [H1 H1']%IH1 & [H2 H2']%IH2). rewrite andb_false_iff. split; [lia|].
    intros [H|H]; [specialize (H1' H)|specialize (H2' H)]; lia.
  - rewrite orb_false_iff. intros [H%IH1|H%IH2]; split; [lia|intros []; tauto|lia|intros []; tauto].
  - intros H. split; [|done]. eapply rtc_length; [|exact H]. intros a b Hab. by apply IH.
  - apply IH.
Qed.

(** Repetition, given the same of its argument. *)
Lemma star_leads total r (k : list ascii -> captures -> option captures) (K : list ascii -> Prop) n l cs :
  nullable r = false ->
  (forall k K l cs, (forall l' cs, leads total r l l' -> is_Some (k l' cs) <-> K l') ->
     is_Some (matches total r k l cs) <-> exists l', leads total r l l' /\ K l') ->
  (length l <= n)%nat ->
  (forall l' cs, rtc (leads total r) l l' -> is_Some (k l' cs) <-> K l') ->
  is_Some (star (matches total r) k n l cs) <-> exists l', rtc (leads total r) l l' /\ K l'.
Proof.
  intros Hnull IH. revert l cs. induction n as [|n IHn]; intros l cs Hn Hk; cbn [star].
  - rewrite Hk by apply rtc_refl. split; [intros; exists l; by split; [apply rtc_refl|]|].
    intros (l' & Hr & HK). destruct Hr as [|x y z Hxy _]; [done|].
    apply leads_length in Hxy as [_ Hlt]. specialize (Hlt Hnull). lia.
  - specialize (IH (fun l' cs' => star (matches total r) k n l' cs')
      (fun m => exists l', rtc (leads total r) m l' /\ K l') l cs).
    destruct IH as [IH1 IH2].
    { intros m cs' Hm. apply IHn.
      - apply leads_length in Hm as [_ Hlt]. specialize (Hlt Hnull). lia.
      - intros l' cs'' Hl. apply Hk. by eapply rtc_l. }
    destruct (matches total r _ l cs) as [out|].
    + destruct IH1 as (m & Hm & l' & Hl & HK); [done|]. split; [|done].
      intros _. exists l'. split; [by eapply rtc_l|done].
    + rewrite Hk by apply rtc_refl. split; [intros; exists l; by split; [apply rtc_refl|]|].
      intros (l' & Hr & HK). destruct Hr as [|x m z Hxy Hr]; [done|].
      destruct IH2 as [? [=]]. eauto.
Qed.

(** The match succeeds exactly when the expression leads to a rest from which
    what follows succeeds: backtracking misses nothing, and no iteration is cut off. *)
Lemma matches_leads total r (k : list ascii -> captures -> option captures) (K : list ascii -> Prop) l cs :
  progresses r = true -> (forall l' cs, leads total r l l' -> is_Some (k l' cs) <-> K l') ->
  is_Some (matches total r k l cs) <-> exists l', leads total r l l' /\ K l'.
Proof.
  revert k K l cs. induction r as [|has| | |r1 IH1 r2 IH2|r1 IH1 r2 IH2|r IH|i r IH];
    intros k K l cs Hp Hk; cbn [matches leads progresses] in *.
  - rewrite Hk by done. naive_solver.
  - destruct l as [|c l]; [split; [by intros []|naive_solver]|].
    destruct (has c) eqn:Hc; [rewrite Hk by eauto; naive_solver|].
    split; [by intros []|]. intros (l' & (d & [= <- <-] & Hd) & _). congruence.
  - destruct (Nat.eqb_spec (length l) total) as [E|E]; [rewrite Hk by done; naive_solver|].
    split; [by intros []|naive_solver].
  - destruct l; [rewrite Hk by done; naive_solver|]. split; [by intros []|naive_solver].
  - apply andb_true_iff in Hp as [Hp1 Hp2].
    rewrite (IH1 _ (fun m => exists l', leads total r2 m l' /\ K l')); [naive_solver|done|].
    intros m cs' Hm. apply IH2; [done|]. eauto.
  - apply andb_true_iff in Hp as [Hp1 Hp2].
    specialize (IH1 k K l cs Hp1 ltac:(eauto)). specialize (IH2 k K l cs Hp2 ltac:(eauto)).
    destruct (matches total r1 k l cs) as [out|]; [naive_solver|].
    rewrite IH2. split; [naive_solver|]. intros (l' & [H|H] & HK); [|eauto].
    destruct (proj2 IH1) as [? [=]]; eauto.
  - apply andb_true_iff in Hp as [Hnull%negb_true_iff Hp].
    apply star_leads; auto.
  - apply IH; [done|]. intros l' cs' Hl. by apply Hk.
Qed.

Lemma search_leads total r l :
  progresses r = true ->
  is_Some (search total r l) <-> exists pre m m', l = pre ++ m /\ leads total r m m'.
Proof.
  intros Hp. assert (Hm : forall l, is_Some (match_here total r l) <-> exists l', leads total r l l').
  { intros m. unfold match_here. rewrite (matches_leads total (RCap 0 r) _ (fun _ => True)); [naive_solver|done|].
    intros; split; [done|by eexists]. }
  induction l as [|c l IH]; cbn [search].
  - destruct (match_here total r []) eqn:E.
    + split; [|done]. intros _. destruct (proj1 (Hm [])) as [l' Hl]; [by rewrite E|]. by exists [], [], l'.
    + split; [by intros []|]. intros (pre & m & m' & Hl & Hd).
      symmetry in Hl. apply app_nil in Hl as [-> ->].
      destruct (proj2 (Hm [])) as [? Ho]; [by eexists|]. congruence.
  - destruct (match_here total r (c :: l)) eqn:E.
    + split; [|done]. intros _. destruct (proj1 (Hm (c :: l))) as [l' Hl]; [by rewrite E|].
      by exists [], (c :: l), l'.
    + rewrite IH. split.
      * intros (pre & m & m' & -> & Hd). by exists (c :: pre), m, m'.
      * intros ([|d pre] & m & m' & Hl & Hd); cbn in Hl; simplify_eq.
        -- destruct (proj2 (Hm (c :: l))) as [? Ho]; [by eexists|]. congruence.
        -- by exists pre, m, m'.
Qed.

Lemma parse_regex_progresses p r groups : parse_regex p = Some (r, groups) -> progresses r = true.
Proof.
  unfold parse_regex. intros ([[r' n] l] & _ & H)%bind_Some. destruct l; [|done].
  destruct (progresses r') eqn:E; [|done]. by injection H as <- _.
Qed.

(** MatchString: some part of the text is in the language of the expression. *)
Lemma MatchString_leads (other : GoRegexp) p s r groups :
  parse_regex p = Some (r, groups) -> is_ascii s = true ->
  @re_MatchString (go_regexp other) p s = true <->
  exists pre m m', text s = pre ++ m /\ leads (String.length s) r m m'.
Proof.
  intros Hp Ha. unfold re_MatchString, go_regexp. rewrite Hp, Ha, bool_decide_eq_true.
  rewrite <- search_leads; [|by eapply parse_regex_progresses].
  unfold submatches. destruct (search _ _ _); [|by split; intros []].
  split; [by eexists|]. by intros _.
Qed.
