(* ===== verification/Timestamps.v ===== *)
(** * Timestamps: time.Parse with the RFC 3339 layout

    What internal/controller/idle_detectors.go uses of package time: the civil
    calendar behind time.Date and time.Parse("2006-01-02T15:04:05Z07:00", _), with
    the latitude of Go's parser (an hour of one digit, a comma before the fraction,
    offsets up to 24:60). *)

From S2P Require Import Prelude.

(** ** The calendar *)

Definition isLeap (year : Z) : bool :=
  (year mod 4 =? 0) && (negb (year mod 100 =? 0) || (year mod 400 =? 0)).

Definition daysIn (month year : Z) : Z :=
  if month =? 2 then (if isLeap year then 29 else 28)
  else if (month =? 4) || (month =? 6) || (month =? 9) || (month =? 11) then 30
  else 31.

(** The days before a month of its year, and before a year since year 0. *)
Definition days_before_month (month year : Z) : Z :=
  let upto m days := if m <? month then days else 0 in
  upto 1 31 + upto 2 (daysIn 2 year) + upto 3 31 + upto 4 30 + upto 5 31 + upto 6 30 +
  upto 7 31 + upto 8 31 + upto 9 30 + upto 10 31 + upto 11 30.
Definition days_before_year (year : Z) : Z :=
  365 * year + (year + 3) / 4 - (year + 99) / 100 + (year + 399) / 400.

(** A civil date and time, without a zone. *)
Record Civil := mkCivil {
  cv_year : Z; cv_month : Z; cv_day : Z;
  cv_hour : Z; cv_minute : Z; cv_second : Z; cv_nanosecond : Z;
}.

(** The day number of a date; 1970-01-01 is day 0. *)
Definition day_number (year month day : Z) : Z :=
  days_before_year year + days_before_month month year + (day - 1) - 719528.

(** time.Date in UTC. *)
Definition time_Date (c : Civil) : Time :=
  (((day_number (cv_year c) (cv_month c) (cv_day c) * 24 + cv_hour c) * 60 + cv_minute c) * 60
   + cv_second c) * Second + cv_nanosecond c.

(** ** The parser *)

Definition digit (c : ascii) : option Z :=
  let n := Z.of_nat (Ascii.nat_of_ascii c) in
  if (48 <=? n) && (n <=? 57) then Some (n - 48) else None.
Definition isDigit (c : ascii) : bool := bool_decide (is_Some (digit c)).

(** getnum reads one or two digits, exactly two when [fixed]. *)
Definition getnum (s : string) (fixed : bool) : option (Z * string) :=
  match s with
  | String a rest =>
      d ← digit a;
      match rest with
      | String b rest' =>
          match digit b with
          | Some e => Some (d * 10 + e, rest')
          | None => if fixed then None else Some (d, rest)
          end
      | EmptyString => if fixed then None else Some (d, rest)
      end
  | EmptyString => None
  end.

(** A character of the layout. *)
Definition skip (c : ascii) (s : string) : option string :=
  match s with
  | String d rest => if Ascii.eqb d c then Some rest else None
  | EmptyString => None
  end.

Definition guard_range (lo hi n : Z) : option unit :=
  if (lo <=? n) && (n <=? hi) then Some tt else None.

Definition parse_year (s : string) : option (Z * string) :=
  match s with
  | String a (String b (String c (String d rest))) =>
      a ← digit a; b ← digit b; c ← digit c; d ← digit d;
      Some (((a * 10 + b) * 10 + c) * 10 + d, rest)
  | _ => None
  end.

(** The digits at the head of a string, and what follows. *)
Fixpoint span_digits (s : string) : list Z * string :=
  match s with
  | String c rest =>
      match digit c with
      | Some d => let '(ds, rest') := span_digits rest in (d :: ds, rest')
      | None => ([], s)
      end
  | EmptyString => ([], s)
  end.

(** parseNanoseconds: nine digits count. *)
Fixpoint nanoseconds (scale : nat) (ds : list Z) : Z :=
  match scale, ds with
  | S scale, d :: rest => d * 10 ^ Z.of_nat scale + nanoseconds scale rest
  | _, _ => 0
  end.
Definition parse_fraction (s : string) : Z * string :=
  match s with
  | String p rest =>
      if Ascii.eqb p "." || Ascii.eqb p "," then
        match span_digits rest with
        | ([], _) => (0, s)
        | (ds, rest') => (nanoseconds 9 ds, rest')
        end
      else (0, s)
  | EmptyString => (0, s)
  end.

(** The zone: Z, or a signed offset in seconds. *)
Definition parse_zone (s : string) : option (Z * string) :=
  match s with
  | String z rest =>
      if Ascii.eqb z "Z" then Some (0, rest)
      else
      '(hr, rest) ← getnum rest true;
      rest ← skip ":" rest;
      '(mm, rest) ← getnum rest true;
      _ ← guard_range 0 24 hr;
      _ ← guard_range 0 60 mm;
      let offset := (hr * 60 + mm) * 60 in
      if Ascii.eqb z "+" then Some (offset, rest)
      else if Ascii.eqb z "-" then Some (- offset, rest)
      else None
  | EmptyString => None
  end.

(** time.Parse(time.RFC3339, s). *)
Definition parse_RFC3339 (s : string) : option Time :=
  '(year, s) ← parse_year s;
  s ← skip "-" s;
  '(month, s) ← getnum s true;
  _ ← guard_range 1 12 month;
  s ← skip "-" s;
  '(day, s) ← getnum s true;
  s ← skip "T" s;
  '(hour, s) ← getnum s false;
  _ ← guard_range 0 23 hour;
  s ← skip ":" s;
  '(minute, s) ← getnum s true;
  _ ← guard_range 0 59 minute;
  s ← skip ":" s;
  '(second, s) ← getnum s true;
  _ ← guard_range 0 59 second;
  let '(nsec, s) := parse_fraction s in
  '(offset, s) ← parse_zone s;
  match s with
  | EmptyString =>
      _ ← guard_range 1 (daysIn month year) day;
      Some (time_Date (mkCivil year month day hour minute second nsec) - offset * Second)
  | _ => None
  end.

Example parse_epoch : parse_RFC3339 "1970-01-01T00:00:00Z" = Some 0.
Proof. reflexivity. Qed.
Example parse_offset : parse_RFC3339 "2024-02-29T23:59:59.5+05:30" = Some 1709231399500000000.
Proof. reflexivity. Qed.
Example parse_no_leap : parse_RFC3339 "2023-02-29T00:00:00Z" = None.
Proof. reflexivity. Qed.

(** ** The calendar counts days *)

Definition valid_date (year month day : Z) : Prop :=
  0 <= year <= 9999 /\ 1 <= month <= 12 /\ 1 <= day <= daysIn month year.

(** The day after. *)
Definition next_day (year month day : Z) : Z * Z * Z :=
  if day <? daysIn month year then (year, month, day + 1)
  else if month <? 12 then (year, month + 1, 1)
  else (year + 1, 1, 1).

Lemma days_before_next_year year :
  days_before_year (year + 1) = days_before_year year + (if isLeap year then 366 else 365).
Proof.
  unfold days_before_year, isLeap.
  destruct (Z.eqb_spec (year mod 4) 0), (Z.eqb_spec (year mod 100) 0),
    (Z.eqb_spec (year mod 400) 0); cbn [andb orb negb]; Z.to_euclidean_division_equations; lia.
Qed.

Lemma days_in_year year :
  days_before_month 12 year + 31 = if isLeap year then 366 else 365.
Proof. unfold days_before_month, daysIn. cbn. destruct (isLeap year); reflexivity. Qed.

Lemma days_before_next_month month year :
  1 <= month < 12 -> days_before_month (month + 1) year = days_before_month month year + daysIn month year.
Proof.
  intros Hm. assert (Hc : month = 1 \/ month = 2 \/ month = 3 \/ month = 4 \/ month = 5 \/ month = 6 \/
    month = 7 \/ month = 8 \/ month = 9 \/ month = 10 \/ month = 11) by lia.
  unfold days_before_month.
  repeat destruct Hc as [->|Hc]; try subst month; cbn; destruct (isLeap year); reflexivity.
Qed.

(** Consecutive dates have consecutive numbers: with day 0 on 1970-01-01, this
    determines the numbering. *)
Lemma day_number_next year month day :
  valid_date year month day ->
  let '(y, m, d) := next_day year month day in day_number y m d = day_number year month day + 1.
Proof.
  intros (Hy & Hm & Hd). unfold next_day.
  destruct (Z.ltb_spec day (daysIn month year)) as [Hlt|Hge]; [unfold day_number; lia|].
  destruct (Z.ltb_spec month 12) as [Hlt|Hge']; unfold day_number.
  - rewrite days_before_next_month by lia. lia.
  - assert (month = 12) as -> by lia. rewrite days_before_next_year.
    pose proof (days_in_year year) as Hyr. change (daysIn 12 year) with 31 in *.
    change (days_before_month 1 (year + 1)) with 0. lia.
Qed.
Example day_number_epoch : day_number 1970 1 1 = 0.
Proof. reflexivity. Qed.

(** ** What a server prints is read back *)

(** Digits, before the rest of the text. *)
Definition dchar (d : Z) : ascii := Ascii.ascii_of_nat (48 + Z.to_nat d).
Definition two (n : Z) (rest : string) : string :=
  String (dchar (n / 10)) (String (dchar (n mod 10)) rest).
Definition four (n : Z) (rest : string) : string := two (n / 100) (two (n mod 100) rest).
Fixpoint digits (ds : list Z) (rest : string) : string :=
  match ds with [] => rest | d :: ds => String (dchar d) (digits ds rest) end.

(** The RFC 3339 text of a UTC time, with the digits of its fraction. *)
Definition rfc3339_text (c : Civil) (fraction : list Z) : string :=
  four (cv_year c) (String "-" (two (cv_month c) (String "-" (two (cv_day c) (String "T"
    (two (cv_hour c) (String ":" (two (cv_minute c) (String ":" (two (cv_second c)
      (match fraction with
       | [] => "Z"
       | _ => String "." (digits fraction "Z")
       end))))))))))).

Definition valid_civil (c : Civil) : Prop :=
  valid_date (cv_year c) (cv_month c) (cv_day c) /\
  0 <= cv_hour c <= 23 /\ 0 <= cv_minute c <= 59 /\ 0 <= cv_second c <= 59.

Lemma digit_dchar d : 0 <= d <= 9 -> digit (dchar d) = Some d.
Proof.
  intros Hd. assert (Hc : d = 0 \/ d = 1 \/ d = 2 \/ d = 3 \/ d = 4 \/ d = 5 \/ d = 6 \/ d = 7 \/
    d = 8 \/ d = 9) by lia.
  repeat destruct Hc as [->|Hc]; try subst d; reflexivity.
Qed.

Lemma getnum_two n rest fixed : 0 <= n <= 99 -> getnum (two n rest) fixed = Some (n, rest).
Proof.
  intros Hn. unfold getnum, two.
  rewrite !digit_dchar by (Z.to_euclidean_division_equations; lia). cbn.
  do 2 f_equal. Z.to_euclidean_division_equations; lia.
Qed.

Lemma parse_year_four n rest : 0 <= n <= 9999 -> parse_year (four n rest) = Some (n, rest).
Proof.
  intros Hn. unfold parse_year, four, two.
  rewrite !digit_dchar by (Z.to_euclidean_division_equations; lia). cbn.
  do 2 f_equal. Z.to_euclidean_division_equations; lia.
Qed.

Lemma span_digits_digits ds rest :
  Forall (fun d => 0 <= d <= 9) ds -> span_digits rest = ([], rest) ->
  span_digits (digits ds rest) = (ds, rest).
Proof.
  intros Hds Hr. induction Hds as [|d ds Hd _ IH]; [done|].
  cbn [digits span_digits]. by rewrite digit_dchar, IH.
Qed.

Lemma guard_range_ok lo hi n : lo <= n <= hi -> guard_range lo hi n = Some tt.
Proof. intros H. unfold guard_range. by rewrite (proj2 (Z.leb_le _ _)), (proj2 (Z.leb_le _ _)) by lia. Qed.

Local Arguments getnum : simpl never.
Local Arguments two : simpl never.
Local Arguments guard_range : simpl never.
Local Arguments parse_fraction : simpl never.
Local Arguments time_Date : simpl never.
(** The text of a UTC time is read as that time. *)
Lemma parse_RFC3339_text c fraction :
  valid_civil c -> Forall (fun d => 0 <= d <= 9) fraction ->
  cv_nanosecond c = nanoseconds 9 fraction ->
  parse_RFC3339 (rfc3339_text c fraction) = Some (time_Date c).
Proof.
  intros ((Hy & Hm & Hd) & Hh & Hmi & Hs) Hf Hn.
  assert (Hd31 : daysIn (cv_month c) (cv_year c) <= 31)
    by (unfold daysIn; repeat case_match; lia).
  unfold parse_RFC3339, rfc3339_text. rewrite parse_year_four by done. cbn.
  rewrite getnum_two by lia. cbn. rewrite guard_range_ok by done. cbn.
  rewrite getnum_two by lia. cbn. rewrite getnum_two by lia. cbn. rewrite guard_range_ok by done. cbn.
  rewrite getnum_two by lia. cbn. rewrite guard_range_ok by done. cbn.
  rewrite getnum_two by lia. cbn. rewrite guard_range_ok by done. cbn.
  assert (Hfr : parse_fraction (match fraction with [] => "Z" | _ => String "." (digits fraction "Z") end)
    = (cv_nanosecond c, "Z")).
  { rewrite Hn. destruct fraction as [|d ds]; [done|]. unfold parse_fraction.
    cbn [Ascii.eqb Bool.eqb orb]. rewrite span_digits_digits by done. done. }
  rewrite Hfr. cbn. rewrite guard_range_ok by done. cbn. f_equal.
  destruct c. cbn. lia.
Qed.
