(* ===== verification/Durations.v ===== *)
(** * Durations: time.ParseDuration, Duration.String, strconv.Atoi and ParseBool

    What internal/authmiddleware/config.go and cmd/rotator/main.go use of packages
    time and strconv to read their environment: the duration syntax with its units,
    fractions through float64 and overflow checks on uint64, the text of a duration,
    and decimal and boolean values.  [parse_loop] has fuel, the length of the text;
    every iteration consumes a unit, so it never runs out ([parse_loop_fuel]). *)

From S2P Require Import Prelude Timestamps.
From Stdlib Require Import SpecFloat DecimalString DecimalPos.

(** ** binary64 *)

(** int64(f) and uint64(f), towards zero; [None] where the language leaves the result
    open. *)
Definition float_trunc (f : spec_float) : option Z :=
  match f with
  | S754_zero _ => Some 0
  | S754_finite neg m e =>
      let n := if 0 <=? e then Z.pos m * 2 ^ e else Z.pos m / 2 ^ (- e) in
      Some (if neg then - n else n)
  | _ => None
  end.

(** float64(n). *)
Definition float64_of_int64 (n : Z) : spec_float := binary_normalize 53 1024 n 0 false.

(** ** time.ParseDuration *)

(** leadingInt consumes [0-9]*; the accumulator may reach 1<<63. *)
Fixpoint leadingInt (x : Z) (s : string) : option (Z * string) :=
  match s with
  | String c rest =>
      match digit c with
      | None => Some (x, s)
      | Some d =>
          if 2 ^ 63 / 10 <? x then None
          else if 2 ^ 63 <? x * 10 + d then None
          else leadingInt (x * 10 + d) rest
      end
  | EmptyString => Some (x, s)
  end.

(** leadingFraction consumes [0-9]*; digits past the precision of int64 are skipped. *)
Fixpoint leadingFraction (x : Z) (scale : spec_float) (overflow : bool) (s : string)
    : Z * spec_float * string :=
  match s with
  | String c rest =>
      match digit c with
      | None => (x, scale, s)
      | Some d =>
          if overflow then leadingFraction x scale true rest
          else if (2 ^ 63 - 1) / 10 <? x then leadingFraction x scale true rest
          else if 2 ^ 63 <? x * 10 + d then leadingFraction x scale true rest
          else leadingFraction (x * 10 + d)
                 (SFmul 53 1024 scale (float64_of_int64 10)) false rest
      end
  | EmptyString => (x, scale, s)
  end.

Definition number_char (c : ascii) : bool := Ascii.eqb c "." || isDigit c.

(** The unit: everything up to the next digit or dot. *)
Fixpoint span_unit (s : string) : string * string :=
  match s with
  | String c rest =>
      if number_char c then ("", s)
      else let '(u, rest') := span_unit rest in (String c u, rest')
  | EmptyString => ("", "")
  end.

Definition Microsecond : Duration := 1000.
Definition Hour : Duration := 60 * Minute.

(** The micro sign, and the Greek letter mu, in UTF-8. *)
Definition micro_sign : string := String "194" (String "181" "").
Definition greek_mu : string := String "206" (String "188" "").

Definition unitMap (u : string) : option Z :=
  if bool_decide (u = "ns") then Some 1
  else if bool_decide (u = "us" \/ u = micro_sign +:+ "s" \/ u = greek_mu +:+ "s")
  then Some Microsecond
  else if bool_decide (u = "ms") then Some Millisecond
  else if bool_decide (u = "s") then Some Second
  else if bool_decide (u = "m") then Some Minute
  else if bool_decide (u = "h") then Some Hour
  else None.

(** The fraction, if there is a dot: its digits, their scale, and whether there was
    any. *)
Definition optional_fraction (s : string) : Z * spec_float * bool * string :=
  match s with
  | String "." s' =>
      let '(f, scale, rest) := leadingFraction 0 (float64_of_int64 1) false s' in
      (f, scale, negb (String.length rest =? String.length s')%nat, rest)
  | _ => (0, float64_of_int64 1, false, s)
  end.

(** One element, digits with an optional fraction and a unit: its nanoseconds, and
    what follows. *)
Definition parse_element (orig s : string) : result (Z * string) :=
  let invalid := Fail (Errorf "time: invalid duration %q" [orig]) in
  match s with
  | EmptyString => invalid
  | String c _ =>
      if negb (number_char c) then invalid
      else
      match leadingInt 0 s with
      | None => invalid
      | Some (v, s1) =>
          let pre := negb (String.length s1 =? String.length s)%nat in
          let '(f, scale, post, s2) := optional_fraction s1 in
          if negb pre && negb post then invalid
          else
          let '(u, s3) := span_unit s2 in
          if bool_decide (u = "") then Fail (Errorf "time: missing unit in duration %q" [orig])
          else
          match unitMap u with
          | None => Fail (Errorf "time: unknown unit %q in duration %q" [u; orig])
          | Some unit =>
              if 2 ^ 63 / unit <? v then invalid
              else
              if 0 <? f then
                let part := SFmul 53 1024 (float64_of_int64 f)
                              (SFdiv 53 1024 (float64_of_int64 unit) scale) in
                let v := v * unit + default 0 (float_trunc part) in
                if 2 ^ 63 <? v then invalid else Ok (v, s3)
              else Ok (v * unit, s3)
          end
      end
  end.

Fixpoint parse_loop (fuel : nat) (orig : string) (d : Z) (s : string) : result Z :=
  match s, fuel with
  | EmptyString, _ => Ok d
  | _, O => Fail (Errorf "time: invalid duration %q" [orig])
  | _, S fuel =>
      '(v, s) ← parse_element orig s;
      if 2 ^ 63 <? d + v then Fail (Errorf "time: invalid duration %q" [orig])
      else parse_loop fuel orig (d + v) s
  end.

(** [+-]?, and the rest. *)
Definition signed (s : string) : bool * string :=
  match s with
  | String "-" rest => (true, rest)
  | String "+" rest => (false, rest)
  | _ => (false, s)
  end.

Definition ParseDuration (orig : string) : result Duration :=
  let '(neg, s) := signed orig in
  let invalid := Fail (Errorf "time: invalid duration %q" [orig]) in
  if bool_decide (s = "0") then Ok 0
  else if bool_decide (s = "") then invalid
  else
    d ← parse_loop (String.length s) orig 0 s;
    if (neg : bool) then Ok (- d)
    else if 2 ^ 63 - 1 <? d then invalid else Ok d.

(** ** strconv *)

(** strconv.Atoi on a 64-bit platform: ParseInt with its own name in the errors. *)
Definition Atoi (s : string) : result Z :=
  match ParseInt64 s with
  | Ok n => Ok n
  | Fail e =>
      Fail (Errorf (if bool_decide (e = Errorf "strconv.ParseInt: value out of range" [s])
                    then "strconv.Atoi: parsing %q: value out of range"
                    else "strconv.Atoi: parsing %q: invalid syntax") [s])
  end.

(** strconv.ParseBool. *)
Definition ParseBool (s : string) : result bool :=
  if bool_decide (s ∈ ["1"; "t"; "T"; "true"; "TRUE"; "True"]) then Ok true
  else if bool_decide (s ∈ ["0"; "f"; "F"; "false"; "FALSE"; "False"]) then Ok false
  else Fail (Errorf "strconv.ParseBool: parsing %q: invalid syntax" [s]).

(** ** Duration.String *)

(** fmtFrac: the last [prec] digits of [v] as a fraction without trailing zeros, and
    the integer part. *)
Fixpoint fmtFrac (prec : nat) (v : Z) (frac : string) : string * Z :=
  match prec with
  | O => (if bool_decide (frac = "") then "" else String "." frac, v)
  | S prec =>
      let digit := v mod 10 in
      fmtFrac prec (v / 10)
        (if bool_decide (frac = "") && (digit =? 0) then ""
         else Sprint_int digit +:+ frac)
  end.

Definition below_second (u : Z) : string :=
  if u =? 0 then "0s"
  else
    let '(prec, suffix) :=
      if u <? Microsecond then (0%nat, "ns")
      else if u <? Millisecond then (3%nat, micro_sign +:+ "s") else (6%nat, "ms") in
    let '(frac, v) := fmtFrac prec u "" in
    Sprint_int v +:+ frac +:+ suffix.

Definition from_second (u : Z) : string :=
  let '(frac, secs) := fmtFrac 9 u "" in
  let s := Sprint_int (secs mod 60) +:+ frac +:+ "s" in
  let mins := secs / 60 in
  if mins =? 0 then s
  else
    let ms := Sprint_int (mins mod 60) +:+ "m" +:+ s in
    let hours := mins / 60 in
    if hours =? 0 then ms else Sprint_int hours +:+ "h" +:+ ms.

Definition Duration_String (d : Duration) : string :=
  let u := Z.abs d in
  let text := if u <? Second then below_second u else from_second u in
  if d <? 0 then String "-" text else text.

Example durations_read :
  map ParseDuration ["1h15m30.918273645s"; "-.5h"; "1.000000001s"; "2562048h"; "5"; "1d"; ""]
  = [Ok 4530918273645; Ok (-1800000000000); Ok 1000000001;
     Fail (Errorf "time: invalid duration %q" ["2562048h"]);
     Fail (Errorf "time: missing unit in duration %q" ["5"]);
     Fail (Errorf "time: unknown unit %q in duration %q" ["d"; "1d"]);
     Fail (Errorf "time: invalid duration %q" [""])].
Proof. vm_compute. reflexivity. Qed.

Example durations_shown :
  map Duration_String [0; 900; 1500000; 4530918273645; -3600000000000; minInt64]
  = ["0s"; "900ns"; "1.5ms"; "1h15m30.918273645s"; "-1h0m0s"; "-2562047h47m16.854775808s"].
Proof. vm_compute. reflexivity. Qed.

(** ** What the parser promises *)

Lemma leadingInt_spec s : forall x v rest,
  leadingInt x s = Some (v, rest) -> 0 <= x -> x <= v /\ (String.length rest <= String.length s)%nat.
Proof.
  induction s as [|c s IH]; intros x v rest; cbn [leadingInt String.length];
    [by intros [= <- <-]|].
  destruct (digit c) as [d|] eqn:Hd; [|intros [= <- <-] _; cbn [String.length]; lia].
  assert (0 <= d) by (unfold digit in Hd; case_match eqn:E; simplify_eq; bool_to_prop; lia).
  destruct (_ <? x); [done|]. destruct (_ <? _); [done|].
  intros Hl Hx. apply IH in Hl as [??]; lia.
Qed.

Lemma leadingFraction_length s : forall x sc o,
  (String.length (leadingFraction x sc o s).2 <= String.length s)%nat.
Proof.
  induction s as [|c s IH]; intros x sc o; cbn [leadingFraction String.length]; [done|].
  destruct (digit c); [|cbn; lia].
  destruct o; [specialize (IH x sc true); lia|].
  repeat (case_match; [specialize (IH x sc true); lia|]).
  match goal with |- context [leadingFraction ?a ?b false s] => specialize (IH a b false) end. lia.
Qed.

Lemma span_unit_length s u rest :
  span_unit s = (u, rest) -> String.length s = (String.length u + String.length rest)%nat.
Proof.
  revert u rest. induction s as [|c s IH]; intros u rest; cbn [span_unit]; [by intros [= <- <-]|].
  case_match; [by intros [= <- <-]|].
  destruct (span_unit s) as [u' rest'] eqn:E. intros [= <- <-].
  cbn [String.length]. by rewrite (IH _ _ eq_refl).
Qed.

(** Signs of float64 products and quotients. *)
Definition sf_nonneg (f : spec_float) : bool :=
  match f with
  | S754_zero s | S754_infinity s | S754_finite s _ _ => negb s
  | S754_nan => true
  end.

Lemma binary_round_aux_nonneg m e l : sf_nonneg (binary_round_aux 53 1024 false m e l) = true.
Proof. unfold binary_round_aux. repeat (case_match; try done). Qed.

Lemma SFmul_nonneg f g :
  sf_nonneg f = true -> sf_nonneg g = true -> sf_nonneg (SFmul 53 1024 f g) = true.
Proof.
  destruct f as [[]|[]| |[]], g as [[]|[]| |[]]; try done. intros _ _.
  cbn [SFmul xorb]. apply binary_round_aux_nonneg.
Qed.

Lemma SFdiv_nonneg f g :
  sf_nonneg f = true -> sf_nonneg g = true -> sf_nonneg (SFdiv 53 1024 f g) = true.
Proof.
  destruct f as [[]|[]| |[]], g as [[]|[]| |[]]; try done. intros _ _.
  cbn [SFdiv xorb]. destruct (SFdiv_core_binary _ _ _ _ _ _) as [[??]?].
  apply binary_round_aux_nonneg.
Qed.

Lemma float64_of_int64_nonneg n : 0 <= n -> sf_nonneg (float64_of_int64 n) = true.
Proof.
  unfold float64_of_int64, binary_normalize, binary_round. destruct n; [done| |lia]. intros _.
  destruct (shl_align _ _ _). apply binary_round_aux_nonneg.
Qed.

Lemma float_trunc_nonneg f n : sf_nonneg f = true -> float_trunc f = Some n -> 0 <= n.
Proof.
  destruct f as [| | |[] m e]; intros Hs; try done; [by intros [= <-]|].
  unfold float_trunc. intros [= <-]. case_match; [|apply Z.div_pos]; lia.
Qed.

Lemma leadingFraction_nonneg s : forall x sc o,
  sf_nonneg sc = true -> sf_nonneg (leadingFraction x sc o s).1.2 = true.
Proof.
  induction s as [|c s IH]; intros x sc o Hs; cbn [leadingFraction]; [done|].
  destruct (digit c); [|done]. destruct o; [by apply IH|].
  repeat (case_match; [by apply IH|]). apply IH, SFmul_nonneg; [done|].
  by apply float64_of_int64_nonneg.
Qed.

Lemma optional_fraction_spec s f scale post rest :
  optional_fraction s = (f, scale, post, rest) ->
  sf_nonneg scale = true /\ (String.length rest <= String.length s)%nat.
Proof.
  assert (sf_nonneg (float64_of_int64 1) = true) as H1 by done.
  unfold optional_fraction. destruct s as [|c s']; [by intros [= <- <- <- <-]|].
  destruct (Ascii.eqb_spec c "."); [subst|repeat (case_match; simplify_eq); by intros; simplify_eq].
  pose proof (leadingFraction_length s' 0 (float64_of_int64 1) false) as Hl.
  pose proof (leadingFraction_nonneg s' 0 (float64_of_int64 1) false H1) as Hs.
  destruct (leadingFraction _ _ _ _) as [[f' sc] rest']. intros; simplify_eq.
  cbn [fst snd String.length] in *. split; [done|lia].
Qed.

Lemma unitMap_pos u unit : unitMap u = Some unit -> 0 < unit.
Proof.
  unfold unitMap. repeat (case_bool_decide; [by intros [= <-]|]). done.
Qed.

Lemma parse_element_spec orig s v rest :
  parse_element orig s = Ok (v, rest) ->
  0 <= v <= 2 ^ 63 /\ (String.length rest < String.length s)%nat.
Proof.
  unfold parse_element. destruct s as [|c s']; [done|]. set (s := String c s').
  destruct (negb (number_char c)); [done|].
  destruct (leadingInt 0 s) as [[v0 s1]|] eqn:Hi; [|done].
  destruct (optional_fraction s1) as [[[f scale] post] s2] eqn:Hf.
  destruct (_ && _); [done|]. destruct (span_unit s2) as [u s3] eqn:Hu.
  case_bool_decide as Hne; [done|]. destruct (unitMap u) as [unit|] eqn:Hm; [|done].
  apply leadingInt_spec in Hi as [Hv Hl1]; [|done].
  apply optional_fraction_spec in Hf as [Hs Hl2]. apply span_unit_length in Hu.
  apply unitMap_pos in Hm. assert (String.length u <> 0%nat) by (by destruct u).
  destruct (2 ^ 63 / unit <? v0) eqn:Hb; [done|]. apply Z.ltb_ge in Hb.
  assert (v0 * unit <= 2 ^ 63)
    by (pose proof (Z.mul_div_le (2 ^ 63) unit Hm); nia).
  destruct (0 <? f) eqn:Hf0; [|intros [= <- <-]; split; [split; [nia|done]|lia]].
  destruct (2 ^ 63 <? _) eqn:Hr; [done|]. apply Z.ltb_ge in Hr. apply Z.ltb_lt in Hf0.
  intros [= <- <-]. split; [|lia]. split; [|done].
  apply Z.add_nonneg_nonneg; [nia|].
  destruct (float_trunc _) as [n|] eqn:Hn; [|done]. apply float_trunc_nonneg in Hn; [done|].
  apply SFmul_nonneg; [apply float64_of_int64_nonneg; lia|].
  apply SFdiv_nonneg; [apply float64_of_int64_nonneg; lia|done].
Qed.

(** The fuel is enough: more of it changes nothing. *)
Lemma parse_loop_fuel orig fuel : forall n s d,
  (String.length s <= n)%nat -> (n <= fuel)%nat -> parse_loop fuel orig d s = parse_loop n orig d s.
Proof.
  induction fuel as [|fuel IH]; intros n s d Hs Hn; [by replace n with 0%nat by lia|].
  destruct s as [|c s']; [by destruct n|]. destruct n as [|n]; [cbn in Hs; lia|].
  cbn [parse_loop]. destruct (parse_element orig (String c s')) as [[v rest]|e] eqn:He; [|done].
  apply parse_element_spec in He as [_ Hl]. unfold mbind, result_bind.
  destruct (_ <? _); [done|]. apply IH; lia.
Qed.

Lemma parse_loop_range orig fuel : forall s d x,
  parse_loop fuel orig d s = Ok x -> 0 <= d <= 2 ^ 63 -> 0 <= x <= 2 ^ 63.
Proof.
  induction fuel as [|fuel IH]; intros s d x; [by destruct s; intros [= <-]|].
  destruct s as [|c s']; [by intros [= <-]|]. cbn [parse_loop].
  destruct (parse_element orig (String c s')) as [[v rest]|e] eqn:He; [|done].
  apply parse_element_spec in He as [Hv _]. unfold mbind, result_bind.
  destruct (_ <? _) eqn:Hb; [done|]. apply Z.ltb_ge in Hb. intros Hx ?.
  apply (IH _ _ _ Hx). lia.
Qed.

Lemma ParseDuration_range s d : ParseDuration s = Ok d -> int64_ok d = true.
Proof.
  unfold ParseDuration. destruct (signed s) as [neg s'].
  case_bool_decide; [by intros [= <-]|]. case_bool_decide; [done|].
  destruct (parse_loop _ _ _ _) as [x|e] eqn:Hl; [|done]. apply parse_loop_range in Hl; [|done].
  unfold mbind, result_bind, int64_ok, minInt64, maxInt64.
  destruct neg; [|destruct (_ <? x) eqn:Hx; [done|]; apply Z.ltb_ge in Hx];
    intros [= <-]; apply andb_true_iff; split; apply Z.leb_le; lia.
Qed.

Lemma ParseDuration_nonempty s d : ParseDuration s = Ok d -> s <> "".
Proof. by intros H ->. Qed.

(** ** A text for every duration

    A count of nanoseconds is read back exactly. *)

Lemma leadingInt_step x c d s :
  digit c = Some d -> x * 10 + d <= 2 ^ 63 -> 0 <= d -> leadingInt x (String c s) = leadingInt (x * 10 + d) s.
Proof.
  intros Hd Hx Hd0. cbn [leadingInt]. rewrite Hd.
  assert (2 ^ 63 / 10 <? x = false) as -> by (apply Z.ltb_ge, Z.div_le_lower_bound; lia).
  by assert (2 ^ 63 <? x * 10 + d = false) as -> by (apply Z.ltb_ge; lia).
Qed.

Lemma leadingInt_digits u rest :
  (forall x, leadingInt x rest = Some (x, rest)) -> forall n : N,
  (digits_acc u n <= 2 ^ 63)%N ->
  leadingInt (Z.of_N n) (NilEmpty.string_of_uint u +:+ rest) = Some (Z.of_N (digits_acc u n), rest).
Proof.
  intros Hrest. induction u; intros n Hn; [apply Hrest|..];
    cbn [NilEmpty.string_of_uint digits_acc] in *; rewrite append_cons;
    (match goal with |- leadingInt _ (String ?c _) = Some (Z.of_N (digits_acc _ ?m), _) =>
      pose proof (digits_acc_bounds u m) as [Hm _];
      assert (10 ^ N.of_nat (Decimal.nb_digits u) <> 0)%N by (by apply N.pow_nonzero);
      let d := eval vm_compute in (digit c) in
      match d with Some ?d => rewrite (leadingInt_step _ c d) by (done || nia) end;
      rewrite <- (IHu m) by done; f_equal; lia end).
Qed.

(** The text of a count of nanoseconds. *)
Definition in_nanoseconds (d : Duration) : string := Sprint_int d +:+ "ns".

Lemma parse_element_ns orig p :
  Z.pos p <= 2 ^ 63 ->
  parse_element orig (NilEmpty.string_of_uint (Pos.to_uint p) +:+ "ns") = Ok (Z.pos p, "").
Proof.
  intros Hp.
  pose proof (leadingInt_digits (Pos.to_uint p) "ns" (fun _ => eq_refl) 0) as Hi.
  rewrite to_uint_digits in Hi. specialize (Hi ltac:(lia)). change (Z.of_N 0) with 0 in Hi.
  pose proof (to_uint_nonnil p) as Hn.
  set (digits := NilEmpty.string_of_uint (Pos.to_uint p)) in *.
  assert (exists c s, digits = String c s /\ number_char c = true) as (c & s & Hd & Hc)
    by (unfold digits; destruct (Pos.to_uint p); [done|..]; cbn; eauto).
  assert (String.length (digits +:+ "ns") = 2 + String.length digits)%nat as Hl
    by (rewrite string_length_app; cbn; lia).
  unfold parse_element. rewrite Hi, Hl. rewrite Hd at 1. rewrite append_cons, Hc.
  cbn [negb optional_fraction String.length Nat.eqb Nat.add andb].
  change (span_unit "ns") with ("ns", ""). cbv beta iota. rewrite bool_decide_false by done.
  change (unitMap "ns") with (Some 1). cbn [Z.of_N]. rewrite Z.div_1_r.
  assert (2 ^ 63 <? Z.pos p = false) as -> by (apply Z.ltb_ge; lia).
  by rewrite Z.mul_1_r, Hd.
Qed.

Definition sign_of (neg : bool) (s : string) : string := if neg then String "-" s else s.

Lemma in_nanoseconds_pos (neg : bool) p :
  sign_of neg (NilEmpty.string_of_uint (Pos.to_uint p) +:+ "ns")
  = in_nanoseconds (if neg then Z.neg p else Z.pos p).
Proof.
  unfold in_nanoseconds. destruct neg; [|by rewrite Sprint_int_pos].
  unfold Sprint_int. cbn. pose proof (to_uint_nonnil p). by destruct (Pos.to_uint p).
Qed.

Lemma ParseDuration_digits (neg : bool) p :
  Z.pos p <= 2 ^ 63 - (if neg then 0 else 1) ->
  ParseDuration (sign_of neg (NilEmpty.string_of_uint (Pos.to_uint p) +:+ "ns"))
  = Ok (if neg then Z.neg p else Z.pos p).
Proof.
  intros Hp. set (orig := sign_of _ _).
  pose proof (parse_element_ns orig p ltac:(destruct neg; lia)) as He.
  set (s := _ +:+ "ns") in *.
  assert (signed orig = (neg, s)) as Hs.
  { unfold orig, s. pose proof (to_uint_nonnil p).
    destruct neg; [done|]. by destruct (Pos.to_uint p). }
  assert (s <> "" /\ s <> "0") as [Hne Hn0].
  { unfold s. pose proof (to_uint_nonnil p).
    destruct (Pos.to_uint p) as [|[]|[]|[]|[]|[]|[]|[]|[]|[]|[]]; done. }
  unfold ParseDuration. rewrite Hs, !bool_decide_false by done.
  assert (parse_loop (String.length s) orig 0 s = Ok (Z.pos p)) as ->.
  { destruct s as [|c t] eqn:Ht; [done|]. cbn [String.length parse_loop]. rewrite He.
    unfold mbind, result_bind. rewrite Z.add_0_l.
    assert (2 ^ 63 <? Z.pos p = false) as -> by (apply Z.ltb_ge; destruct neg; lia).
    by destruct (String.length t). }
  unfold mbind, result_bind. destruct neg; [done|].
  by assert (2 ^ 63 - 1 <? Z.pos p = false) as -> by (apply Z.ltb_ge; lia).
Qed.

Lemma ParseDuration_nanoseconds d : int64_ok d = true -> ParseDuration (in_nanoseconds d) = Ok d.
Proof.
  unfold int64_ok, minInt64, maxInt64. intros [Hlo Hhi]%andb_true_iff.
  apply Z.leb_le in Hlo, Hhi. destruct d as [|p|p]; [done|..].
  - rewrite <- (in_nanoseconds_pos false p). by rewrite ParseDuration_digits by lia.
  - by rewrite <- (in_nanoseconds_pos true p), ParseDuration_digits by lia.
Qed.
