(* ===== verification/JwtKeys.v ===== *)
(** * JwtKeys: the signing-key codec of internal/jwt/keys.go

    Key names ([jwt-signing-key-<unix seconds>]), their timestamps, and the
    extraction of the key ring and of its latest key id from a Secret.  The
    Secret's [Data] map is iterated in the order the runtime chooses.  The text
    a key is displayed by, which shows at most its first twelve bytes. *)

From S2P Require Import Prelude.

(** A Go [[]byte]: [None] is the nil slice. *)
Abbreviation bytes := (option string).

(** [corev1.Secret], the fields the key code reads; [None] is a nil map. *)
Record Secret := mkSecret {
  secret_Name : string;
  secret_Namespace : string;
  secret_Data : option (gmap string bytes);
}.

Definition KeyPrefix : string := "jwt-signing-key-".
Definition KeySizeBytes : nat := 48.

(** BuildKeyName creates a key name with the given timestamp. *)
Definition BuildKeyName (timestamp : Z) : string := KeyPrefix +:+ Sprint_int timestamp.

(** ParseKeyTimestamp extracts the timestamp from a key name. *)
Definition ParseKeyTimestamp (keyName : string) : result Z :=
  if negb (HasPrefix keyName KeyPrefix) then
    Fail (Errorf "key name %s does not have prefix %s" [keyName; KeyPrefix])
  else
    let timestampStr := TrimPrefix keyName KeyPrefix in
    match ParseInt64 timestampStr with
    | Fail err => Fail (Wrapf "failed to parse timestamp from %s: %w" [keyName] err)
    | Ok timestamp => Ok timestamp
    end.

(** The loop of ParseSigningKeysFromSecret over the entries of [secret.Data]. *)
Fixpoint parse_keys_loop (entries : list (string * bytes))
    (signingKeys : gmap string bytes) (latestTimestamp : Z) (latestKid : string)
    : result (gmap string bytes * string) :=
  match entries with
  | [] => Ok (signingKeys, latestKid)
  | (name, value) :: rest =>
      if negb (HasPrefix name KeyPrefix) then
        parse_keys_loop rest signingKeys latestTimestamp latestKid
      else
        match ParseKeyTimestamp name with
        | Fail err => Fail (Wrapf "invalid key format %s: %w" [name] err)
        | Ok timestamp =>
            let kid := TrimPrefix name KeyPrefix in
            let signingKeys := <[kid := value]> signingKeys in
            if latestTimestamp <? timestamp then
              parse_keys_loop rest signingKeys timestamp kid
            else parse_keys_loop rest signingKeys latestTimestamp latestKid
        end
  end.

(** ParseSigningKeysFromSecret returns the map of kid to key and the latest kid. *)
Definition ParseSigningKeysFromSecret `{GoRuntime} (secret : Secret)
    : result (gmap string bytes * string) :=
  match secret_Data secret with
  | None => Fail (Errorf "secret has no data" [])
  | Some data =>
      match parse_keys_loop (range data) ∅ 0 "" with
      | Fail err => Fail err
      | Ok (signingKeys, latestKid) =>
          if bool_decide (signingKeys = ∅) then
            Fail (Errorf "no signing keys found in secret" [])
          else Ok (signingKeys, latestKid)
      end
  end.

(** ** Key names *)

Lemma ParseKeyTimestamp_prefix name ts :
  ParseKeyTimestamp name = Ok ts -> HasPrefix name KeyPrefix = true.
Proof. unfold ParseKeyTimestamp. by destruct (HasPrefix name KeyPrefix). Qed.

Lemma ParseKeyTimestamp_app kid :
  is_ok (ParseKeyTimestamp (KeyPrefix +:+ kid)) = is_ok (ParseInt64 kid).
Proof.
  unfold ParseKeyTimestamp. rewrite HasPrefix_app, TrimPrefix_app. cbn [negb].
  by destruct (ParseInt64 kid).
Qed.

Lemma ParseKeyTimestamp_app_Ok kid ts :
  ParseKeyTimestamp (KeyPrefix +:+ kid) = Ok ts <-> ParseInt64 kid = Ok ts.
Proof.
  unfold ParseKeyTimestamp. rewrite HasPrefix_app, TrimPrefix_app. cbn [negb].
  by destruct (ParseInt64 kid).
Qed.

(** A parseable name is the prefix followed by its kid. *)
Lemma ParseKeyTimestamp_split name ts :
  ParseKeyTimestamp name = Ok ts ->
  exists kid, name = KeyPrefix +:+ kid /\ ParseInt64 kid = Ok ts /\ kid <> "".
Proof.
  intros Hp. destruct (proj1 (HasPrefix_spec _ _) (ParseKeyTimestamp_prefix _ _ Hp)) as [kid ->].
  apply ParseKeyTimestamp_app_Ok in Hp. eauto using ParseInt64_nonempty.
Qed.

Lemma ParseKeyTimestamp_BuildKeyName ts :
  int64_ok ts = true -> ParseKeyTimestamp (BuildKeyName ts) = Ok ts.
Proof. intros Hz. apply ParseKeyTimestamp_app_Ok, ParseInt64_Sprint, Hz. Qed.

Lemma BuildKeyName_prefix ts : HasPrefix (BuildKeyName ts) KeyPrefix = true.
Proof. apply HasPrefix_app. Qed.

#[export] Hint Resolve ParseKeyTimestamp_BuildKeyName BuildKeyName_prefix : gok8s.

(** ** The parsing loop *)

(** [latest_inv m ts kid]: the running maximum of the loop. *)
Definition latest_inv (m : gmap string bytes) (ts : Z) (kid : string) : Prop :=
  0 <= ts /\
  (forall k, is_Some (m !! k) -> exists t, ParseInt64 k = Ok t /\ t <= ts) /\
  ((kid = "" /\ ts = 0) \/ (is_Some (m !! kid) /\ ParseInt64 kid = Ok ts /\ 0 < ts)).

Lemma latest_inv_insert m ts kid k v t :
  ParseInt64 k = Ok t -> latest_inv m ts kid ->
  if ts <? t then latest_inv (<[k := v]> m) t k else latest_inv (<[k := v]> m) ts kid.
Proof.
  intros Hk (H0 & Hall & Hor). destruct (Z.ltb_spec ts t).
  - repeat split; [lia| |right; rewrite lookup_insert_eq; eauto with lia].
    intros k' Hk'. destruct (decide (k = k')) as [<-|Hne]; [eauto with lia|].
    rewrite lookup_insert_ne in Hk' by done. destruct (Hall k' Hk') as (u & ? & ?). eauto with lia.
  - repeat split; [done| |].
    + intros k' Hk'. destruct (decide (k = k')) as [<-|Hne]; [eauto|].
      rewrite lookup_insert_ne in Hk' by done. eauto.
    + destruct Hor as [?|(Hs & ? & ?)]; [by left|right]. split_and!; [|done..].
      rewrite lookup_insert. case_decide; eauto.
Qed.

Lemma parse_keys_loop_latest entries m ts kid m' kid' :
  latest_inv m ts kid -> parse_keys_loop entries m ts kid = Ok (m', kid') ->
  exists ts', latest_inv m' ts' kid'.
Proof.
  revert m ts kid. induction entries as [|[name v] rest IH]; intros m ts kid Hinv; cbn.
  - intros [= <- <-]. eauto.
  - destruct (HasPrefix name KeyPrefix) eqn:Hp; cbn; [|eauto].
    destruct (ParseKeyTimestamp name) as [t|] eqn:Ht; [|done].
    destruct (ParseKeyTimestamp_split _ _ Ht) as (k & -> & Hk & _).
    rewrite TrimPrefix_app. pose proof (latest_inv_insert m ts kid k v t Hk Hinv) as Hi.
    destruct (ts <? t); eauto.
Qed.

(** What the loop collects: every prefixed entry, under its kid. *)
Lemma parse_keys_loop_lookup entries m ts kid m' kid' k v :
  parse_keys_loop entries m ts kid = Ok (m', kid') ->
  NoDup entries.*1 -> (forall k, is_Some (m !! k) -> KeyPrefix +:+ k ∉ entries.*1) ->
  m' !! k = Some v <-> m !! k = Some v \/ (KeyPrefix +:+ k, v) ∈ entries.
Proof.
  revert m ts kid. induction entries as [|[name w] rest IH]; intros m ts kid Hl Hnd Hfr.
  { cbn in Hl. simplify_eq. set_solver. }
  cbn [fmap list_fmap] in *. apply NoDup_cons in Hnd as [Hnin Hnd]. cbn in Hl.
  destruct (HasPrefix name KeyPrefix) eqn:Hp; cbn in Hl; last first.
  { rewrite (IH _ _ _ Hl Hnd) by set_solver. rewrite elem_of_cons.
    split; [naive_solver|intros [?|[E|?]]; [by left| |by right]].
    simplify_eq. by rewrite HasPrefix_app in Hp. }
  destruct (ParseKeyTimestamp name) as [t|] eqn:Ht; [|done].
  destruct (ParseKeyTimestamp_split _ _ Ht) as (n & -> & _ & _). rewrite TrimPrefix_app in Hl.
  assert (Hstep : m' !! k = Some v <->
            <[n := w]> m !! k = Some v \/ (KeyPrefix +:+ k, v) ∈ rest).
  { assert (Hfr' : forall k, is_Some (<[n := w]> m !! k) -> KeyPrefix +:+ k ∉ rest.*1).
    { intros k'. rewrite lookup_insert. case_decide; [by subst|]. set_solver. }
    destruct (ts <? t); exact (IH _ _ _ Hl Hnd Hfr'). }
  rewrite Hstep, elem_of_cons, lookup_insert.
  destruct (decide (n = k)) as [<-|Hne].
  - assert (m !! n = None) as ->.
    { apply eq_None_not_Some. intros Hs. apply (Hfr n Hs). set_solver. }
    assert ((KeyPrefix +:+ n, v) ∉ rest) by (intros Hin; apply Hnin; set_solver).
    naive_solver.
  - split; [naive_solver|]. intros [?|[E|?]]; [by left| |by right]. by simplify_eq.
Qed.

Section secret_parsing.
Context `{GoRuntime}.

(** Success of the loop is exactly: every prefixed name parses. *)
Lemma parse_keys_loop_ok entries m ts kid :
  is_ok (parse_keys_loop entries m ts kid) = true <->
  forall name v, (name, v) ∈ entries -> HasPrefix name KeyPrefix = true ->
    is_ok (ParseKeyTimestamp name) = true.
Proof.
  revert m ts kid. induction entries as [|[name v] rest IH]; intros m ts kid; cbn.
  { split; [|done]. by intros _ name v ?%elem_of_nil. }
  assert (Hcons : forall P : string -> Prop,
    (forall n w, (n, w) ∈ (name, v) :: rest -> P n) <->
    P name /\ forall n w, (n, w) ∈ rest -> P n).
  { intros P. setoid_rewrite elem_of_cons. naive_solver. }
  setoid_rewrite (Hcons (fun n => HasPrefix n KeyPrefix = true -> _ = true)).
  destruct (HasPrefix name KeyPrefix) eqn:Hp; cbn; [|rewrite IH; naive_solver].
  destruct (ParseKeyTimestamp name) as [t|] eqn:Ht; cbn; [|naive_solver].
  destruct (ts <? t); rewrite IH; naive_solver.
Qed.

Lemma parse_keys_range (data m : gmap string bytes) kid k :
  parse_keys_loop (range data) ∅ 0 "" = Ok (m, kid) ->
  m !! k = data !! (KeyPrefix +:+ k).
Proof.
  intros Hl. apply option_eq. intros v.
  rewrite (parse_keys_loop_lookup _ _ _ _ _ _ k v Hl (range_keys_NoDup data)).
  - rewrite lookup_empty, elem_of_range. split; [by intros [?|?]|by right].
  - intros k'. rewrite lookup_empty. by intros [? ?].
Qed.

Lemma ParseSigningKeysFromSecret_Ok secret m kid :
  ParseSigningKeysFromSecret secret = Ok (m, kid) ->
  exists data, secret_Data secret = Some data /\
    parse_keys_loop (range data) ∅ 0 "" = Ok (m, kid) /\ m <> ∅.
Proof.
  unfold ParseSigningKeysFromSecret. destruct (secret_Data secret) as [data|]; [|done].
  destruct (parse_keys_loop _ _ _ _) as [[m' kid']|] eqn:E; [|done].
  case_bool_decide; [done|]. intros [= <- <-]. eauto.
Qed.

(** What a successful parse returns: the key ring indexed by kid, and a
    latest kid of maximal positive timestamp, or the empty kid when no
    timestamp is positive. *)
Lemma ParseSigningKeysFromSecret_spec secret data m kid :
  secret_Data secret = Some data ->
  ParseSigningKeysFromSecret secret = Ok (m, kid) ->
  (forall k, m !! k = data !! (KeyPrefix +:+ k)) /\
  m <> ∅ /\ exists ts, latest_inv m ts kid.
Proof.
  intros Hd (data' & ? & Hl & Hne)%ParseSigningKeysFromSecret_Ok. simplify_eq.
  split_and!; [|done|].
  - intros k. by eapply parse_keys_range.
  - eapply parse_keys_loop_latest; [|exact Hl].
    repeat split; [done| |by left]. intros k. rewrite lookup_empty. by intros [].
Qed.

(** A parse succeeds exactly on a Secret with data in which some name carries
    the key prefix and every name that does has a 64-bit decimal timestamp. *)
Lemma ParseSigningKeysFromSecret_is_ok secret :
  is_ok (ParseSigningKeysFromSecret secret) = true <->
  exists data, secret_Data secret = Some data /\
    (forall kid v, data !! (KeyPrefix +:+ kid) = Some v -> is_ok (ParseInt64 kid) = true) /\
    (exists kid, is_Some (data !! (KeyPrefix +:+ kid))).
Proof.
  unfold ParseSigningKeysFromSecret. destruct (secret_Data secret) as [data|]; cbn;
    [|by split; [|intros (? & ? & _)]].
  assert (Hok := parse_keys_loop_ok (range data) ∅ 0 "").
  assert (Hall : is_ok (parse_keys_loop (range data) ∅ 0 "") = true <->
    forall kid v, data !! (KeyPrefix +:+ kid) = Some v -> is_ok (ParseInt64 kid) = true).
  { rewrite Hok. split.
    - intros Ha kid v Hv. rewrite <- ParseKeyTimestamp_app.
      apply (Ha _ v); [by apply elem_of_range|apply HasPrefix_app].
    - intros Ha name v Hin [kid ->]%HasPrefix_spec. rewrite ParseKeyTimestamp_app.
      eapply Ha. by apply elem_of_range. }
  destruct (parse_keys_loop (range data) ∅ 0 "") as [[m kid]|e] eqn:E; cbn in *.
  - pose proof (fun k => parse_keys_range data m kid k E) as Hm.
    case_bool_decide as Hem; cbn; (split; [intros ?; try done|]).
    + intros (? & [= <-] & _ & k & [v Hv]). rewrite <- Hm, Hem in Hv. done.
    + exists data. split_and!; [done|tauto|].
      apply map_choose in Hem as (k & v & Hkv). exists k. rewrite <- Hm. eauto.
    + done.
  - split; [done|]. intros (? & [= <-] & Ha & _). tauto.
Qed.
End secret_parsing.

(** ** FormatKeyForDisplay *)

(** encoding/base64, StdEncoding: six bits to a character, and a block of one
    to three bytes to four characters, padded with [=]. *)
Definition base64_char (v : N) : ascii :=
  if (v <? 26)%N then ascii_of_N (65 + v)
  else if (v <? 52)%N then ascii_of_N (71 + v)
  else if (v <? 62)%N then ascii_of_N (v - 4)
  else if (v =? 62)%N then "+"%char else "/"%char.

(** The four sextets of three bytes, most significant first. *)
Definition base64_sextets (a b c : ascii) : list ascii :=
  let v := (N.shiftl (N_of_ascii a) 16 + N.shiftl (N_of_ascii b) 8 + N_of_ascii c)%N in
  (fun k => base64_char (N.land (N.shiftr v k) 63)) <$> [18; 12; 6; 0]%N.

Fixpoint base64_encode (l : list ascii) : list ascii :=
  match l with
  | [] => []
  | [a] => take 2 (base64_sextets a zero zero) ++ ["="; "="]%char
  | [a; b] => take 3 (base64_sextets a b zero) ++ ["="]%char
  | a :: b :: c :: rest => base64_sextets a b c ++ base64_encode rest
  end.

(** FormatKeyForDisplay formats a key value for safe display. *)
Definition FormatKeyForDisplay (key : bytes) : string :=
  let key := String.list_ascii_of_string (default "" key) in
  if (length key =? 0)%nat then "<empty>"
  else
    let encoded := base64_encode key in
    if (16 <? length encoded)%nat then
      String.string_of_list_ascii (take 16 encoded) +:+ "..."
    else String.string_of_list_ascii encoded.

Example FormatKeyForDisplay_tests :
  FormatKeyForDisplay None = "<empty>" /\
  FormatKeyForDisplay (Some "test") = "dGVzdA==" /\
  FormatKeyForDisplay (Some "this is a very long key that should be truncated")
    = "dGhpcyBpcyBhIHZl...".
Proof. by vm_compute. Qed.

Lemma base64_encode_nonempty l : l <> [] -> (4 <= length (base64_encode l))%nat.
Proof. destruct l as [|a [|b [|c l]]]; cbn; [done|lia..]. Qed.

(** Twelve bytes fill sixteen characters, whatever follows them. *)
Lemma base64_encode_12 head tail :
  length head = 12%nat -> take 16 (base64_encode (head ++ tail)) = base64_encode head /\
  length (base64_encode (head ++ tail)) = (16 + length (base64_encode tail))%nat.
Proof. intros Hl. do 13 (destruct head as [|? head]; try done). Qed.

(** What a displayed key gives away: a key of more than 12 bytes is shown by
    its first 12 bytes alone, so two keys that agree on those are shown alike;
    the signing keys, of [KeySizeBytes], are such keys. *)
Lemma FormatKeyForDisplay_hides_tail (head tail tail' : list ascii) :
  length head = 12%nat -> tail <> [] -> tail' <> [] ->
  FormatKeyForDisplay (Some (String.string_of_list_ascii (head ++ tail))) =
  FormatKeyForDisplay (Some (String.string_of_list_ascii (head ++ tail'))).
Proof.
  intros Hh Ht Ht'. unfold FormatKeyForDisplay, default, id.
  rewrite !String.list_ascii_of_string_of_list_ascii, !length_app, Hh.
  destruct (base64_encode_12 head tail Hh) as [-> ->].
  destruct (base64_encode_12 head tail' Hh) as [-> ->].
  apply base64_encode_nonempty in Ht, Ht'. cbn [Nat.eqb Nat.add].
  by rewrite !(proj2 (Nat.ltb_lt 16 _)) by lia.
Qed.

#[local] Existing Instance canonical_runtime.

(** Key names round-trip: the name built for a 64-bit Unix
    timestamp parses back to that timestamp, and distinct timestamps get
    distinct names. *)
Theorem key_name_roundtrip (ts ts' : Z) :
  int64_ok ts = true -> int64_ok ts' = true ->
  ParseKeyTimestamp (BuildKeyName ts) = Ok ts /\
  (BuildKeyName ts = BuildKeyName ts' -> ts = ts').
Proof.
  intros Hts Hts'. split; [by apply ParseKeyTimestamp_BuildKeyName|].
  intros E. apply (f_equal ParseKeyTimestamp) in E.
  rewrite !ParseKeyTimestamp_BuildKeyName in E by done. congruence.
Qed.

Lemma key_name_roundtrip_witness :
  ParseKeyTimestamp (BuildKeyName 1700000000) = Ok 1700000000 /\
  (BuildKeyName 1700000000 = BuildKeyName (-5) -> 1700000000 = -5).
Proof. apply key_name_roundtrip; vm_compute; reflexivity. Defined.

(** ParseSigningKeysFromSecret, for every map iteration order: it
    succeeds exactly when the Secret has data, some name with the key prefix,
    and a 64-bit decimal timestamp behind every such prefix; and on success the
    returned ring maps each kid to the Secret entry of that key name, and the
    latest kid is a key of maximal (positive) timestamp, or empty when every
    timestamp is zero or negative. *)
Theorem ParseSigningKeysFromSecret_correct `{GoRuntime} (secret : Secret) :
  (is_ok (ParseSigningKeysFromSecret secret) = true <->
    exists data, secret_Data secret = Some data /\
      (forall kid v, data !! (KeyPrefix +:+ kid) = Some v -> is_ok (ParseInt64 kid) = true) /\
      (exists kid, is_Some (data !! (KeyPrefix +:+ kid)))) /\
  (forall data m latestKid, secret_Data secret = Some data ->
    ParseSigningKeysFromSecret secret = Ok (m, latestKid) ->
    (forall kid, m !! kid = data !! (KeyPrefix +:+ kid)) /\
    (exists latest, 0 <= latest /\
      (forall kid, is_Some (m !! kid) -> exists t, ParseInt64 kid = Ok t /\ t <= latest) /\
      ((latestKid = "" /\ latest = 0) \/
       (is_Some (m !! latestKid) /\ ParseInt64 latestKid = Ok latest /\ 0 < latest)))).
Proof.
  split; [apply ParseSigningKeysFromSecret_is_ok|]. intros data m kid Hd Hp.
  destruct (ParseSigningKeysFromSecret_spec _ _ _ _ Hd Hp) as (Hm & _ & ts & Hinv). eauto.
Qed.
