(* ===== verification/Rotator.v ===== *)
(** * Rotator: signing-key rotation, internal/rotator/rotator.go

    One rotation adds a key named after the current Unix second to the Secret
    and prunes the oldest keys beyond [numberOfKeys].  The Kubernetes client is
    a parameter; the rotation of the [Data] map is pure. *)

From S2P Require Import Prelude JwtKeys.

(** The part of [client.Client] the rotator uses, over a cluster state [W]. *)
Record SecretClient (W : Type) := {
  secret_Get : string -> string -> ST W Secret;
  secret_Update : Secret -> ST W unit;
}.
Arguments secret_Get {W} _ _ _ _.
Arguments secret_Update {W} _ _ _.

(** GenerateKey generates a cryptographically random signing key; [randRead n]
    is the outcome of [rand.Read] on an [n]-byte buffer. *)
Definition GenerateKey (randRead : nat -> result string) : result bytes :=
  match randRead KeySizeBytes with
  | Fail err => Fail (Wrapf "failed to generate random key: %w" [] err)
  | Ok key => Ok (Some key)
  end.

(** keyEntry represents a signing key with its timestamp. *)
Record keyEntry := mkKeyEntry {
  ke_name : string;
  ke_timestamp : Z;
  ke_value : bytes;
}.

(** Parse existing keys: names without the prefix and malformed names are skipped. *)
Fixpoint collect_keys (entries : list (string * bytes)) : list keyEntry :=
  match entries with
  | [] => []
  | (name, value) :: rest =>
      if negb (HasPrefix name KeyPrefix) then collect_keys rest
      else match ParseKeyTimestamp name with
           | Fail _ => collect_keys rest
           | Ok timestamp => mkKeyEntry name timestamp value :: collect_keys rest
           end
  end.

(** The rotation of [secret.Data]: refuse an existing timestamp, insert the new
    key, re-sort, delete all but the latest [numberOfKeys]. *)
Definition rotate_data `{GoRuntime} (data : gmap string bytes) (newKey : bytes)
    (now numberOfKeys : Z) : result (gmap string bytes) :=
  let keys := sort_by ke_timestamp (collect_keys (range data)) in
  let newKeyName := BuildKeyName now in
  if existsb (fun k => bool_decide (ke_name k = newKeyName)) keys then
    Fail (Errorf "key with timestamp %d already exists, refusing to overwrite" [Sprint_int now])
  else
    let data := <[newKeyName := newKey]> data in
    let keys := sort_by ke_timestamp (keys ++ [mkKeyEntry newKeyName now newKey]) in
    if numberOfKeys <? Z.of_nat (length keys) then
      let keysToRemove := take (Z.to_nat (Z.of_nat (length keys) - numberOfKeys)) keys in
      Ok (foldl (fun d k => delete (ke_name k) d) data keysToRemove)
    else Ok data.

(** RotateSecret performs key rotation on a Kubernetes secret. *)
Definition RotateSecret `{GoRuntime} {W} (k8sClient : SecretClient W)
    (randRead : nat -> result string) (clock : Time)
    (secretName namespace : string) (numberOfKeys : Z) : ST W unit :=
  (if numberOfKeys <? 1 then
     st_fail (Errorf "numberOfKeys must be at least 1, got %d" [Sprint_int numberOfKeys])
   else
     secret <- st_wrap "failed to get secret %s: %w" [secretName]
                 (secret_Get k8sClient secretName namespace) ;;
     let data := default ∅ (secret_Data secret) in
     newKey <- st_lift (wrap_err "failed to generate new key: %w" [] (GenerateKey randRead)) ;;
     let now := time_Unix clock in
     data' <- st_lift (rotate_data data newKey now numberOfKeys) ;;
     st_wrap "failed to update secret %s: %w" [secretName]
       (secret_Update k8sClient
          (mkSecret (secret_Name secret) (secret_Namespace secret) (Some data'))))%go.

(** The loop of ValidateSecret: the number of keys, or the first invalid one. *)
Fixpoint validate_keys_loop (names : list string) (keyCount : Z) : result Z :=
  match names with
  | [] => Ok keyCount
  | name :: rest =>
      if HasPrefix name KeyPrefix then
        match ParseKeyTimestamp name with
        | Fail err => Fail (Wrapf "invalid key %s: %w" [name] err)
        | Ok _ => validate_keys_loop rest (keyCount + 1)
        end
      else validate_keys_loop rest keyCount
  end.

(** ValidateSecret checks if a secret has valid JWT signing keys. *)
Definition ValidateSecret `{GoRuntime} {W} (k8sClient : SecretClient W)
    (secretName namespace : string) : ST W unit :=
  (secret <- st_wrap "failed to get secret: %w" [] (secret_Get k8sClient secretName namespace) ;;
   match secret_Data secret with
   | None => st_fail (Errorf "secret has no data" [])
   | Some data =>
       keyCount <- st_lift (validate_keys_loop (range data).*1 0) ;;
       if keyCount =? 0 then st_fail (Errorf "secret has no valid JWT signing keys" [])
       else st_ret tt
   end)%go.

(** The loop of GetLatestKeyID. *)
Fixpoint latest_key_loop (names : list string) (latestTimestamp : Z) (latestKid : string) : string :=
  match names with
  | [] => latestKid
  | name :: rest =>
      if negb (HasPrefix name KeyPrefix) then latest_key_loop rest latestTimestamp latestKid
      else match ParseKeyTimestamp name with
           | Fail _ => latest_key_loop rest latestTimestamp latestKid
           | Ok timestamp =>
               if latestTimestamp <? timestamp
               then latest_key_loop rest timestamp (TrimPrefix name KeyPrefix)
               else latest_key_loop rest latestTimestamp latestKid
           end
  end.

(** GetLatestKeyID returns the kid (timestamp) of the most recent key in the secret. *)
Definition GetLatestKeyID `{GoRuntime} (secret : Secret) : result string :=
  match secret_Data secret with
  | None => Fail (Errorf "secret has no data" [])
  | Some data =>
      let latestKid := latest_key_loop (range data).*1 0 "" in
      if bool_decide (latestKid = "") then Fail (Errorf "no valid JWT signing keys found" [])
      else Ok latestKid
  end.

(** ** deriveNumberOfKeys (cmd/rotator/main.go)

    The binary computes [ceil(float64(ttl) / float64(interval)) + 1].  Both
    operands are 64-bit integers, so the IEEE-754 binary64 operations involved
    are the rounding of an integer to 53 bits and the correctly rounded quotient
    of two integers; both round to nearest, ties to even. *)

(** [num / den] rounded to the nearest integer, ties to even ([0 < den]). *)
Definition rne_quot (num den : Z) : Z :=
  let q := num / den in
  let r := num mod den in
  if 2 * r <? den then q
  else if den <? 2 * r then q + 1
  else if Z.even q then q else q + 1.

(** float64(x) for a non-negative int64: its value, an integer. *)
Definition float64_of_int (x : Z) : Z :=
  let e := Z.max 0 (Z.log2 x - 52) in rne_quot x (2 ^ e) * 2 ^ e.

(** The binary exponent [e] of the quotient: [2^52 <= num / (den * 2^e) < 2^53]. *)
Definition div_exponent (num den : Z) : Z :=
  let e := Z.log2 num - Z.log2 den - 52 in
  if num * 2 ^ Z.max 0 (- e) <? den * 2 ^ Z.max 0 e * 2 ^ 52 then e - 1 else e.

(** The binary64 quotient of two positive integers, as mantissa and exponent. *)
Definition float64_div (num den : Z) : Z * Z :=
  let e := div_exponent num den in
  (rne_quot (num * 2 ^ Z.max 0 (- e)) (den * 2 ^ Z.max 0 e), e).

Definition ceil_div (num den : Z) : Z := - ((- num) / den).

(** math.Ceil of a binary64 value [m * 2^e]. *)
Definition float64_ceil (f : Z * Z) : Z :=
  let '(m, e) := f in ceil_div (m * 2 ^ Z.max 0 e) (2 ^ Z.max 0 (- e)).

(** deriveNumberOfKeys computes ceil(ttl / interval) + 1; [None] is log.Fatalf. *)
Definition deriveNumberOfKeys (ttl interval : Duration) : option Z :=
  if interval <=? 0 then None
  else
    let quotient :=
      if ttl =? 0 then (0, 0)
      else
        let '(m, e) := float64_div (float64_of_int (Z.abs ttl)) (float64_of_int interval) in
        (Z.sgn ttl * m, e) in
    Some (float64_ceil quotient + 1).

(** ** Collected keys *)

Definition is_key_name (name : string) : bool := is_ok (ParseKeyTimestamp name).

(** The timestamp of a key name, zero for other names. *)
Definition key_ts (name : string) : Z :=
  match ParseKeyTimestamp name with Ok t => t | Fail _ => 0 end.

Lemma collect_keys_elem entries n t v :
  mkKeyEntry n t v ∈ collect_keys entries <-> (n, v) ∈ entries /\ ParseKeyTimestamp n = Ok t.
Proof.
  induction entries as [|[name w] rest IH]; cbn; [set_solver|].
  destruct (HasPrefix name KeyPrefix) eqn:Hp; cbn; last first.
  { rewrite IH, elem_of_cons. split; [naive_solver|]. intros [[E|?] Hn]; [|done].
    simplify_eq. apply ParseKeyTimestamp_prefix in Hn. congruence. }
  destruct (ParseKeyTimestamp name) as [u|] eqn:Hu; rewrite ?elem_of_cons, IH.
  - split; [intros [[= -> -> ->]|[? ?]]; eauto|]. intros [[E|?] Hn]; [left|by right].
    injection E as -> ->. congruence.
  - split; [intros [? ?]; eauto|]. intros [[E|?] Hn]; [injection E as -> ->; congruence|done].
Qed.

Lemma collect_keys_names entries :
  (ke_name <$> collect_keys entries) = filter (fun n => is_key_name n = true) entries.*1.
Proof.
  induction entries as [|[name w] rest IH]; [done|].
  rewrite fmap_cons, filter_cons. cbn [fst collect_keys]. rewrite <- IH. clear IH.
  unfold is_key_name. destruct (ParseKeyTimestamp name) as [u|] eqn:Hu.
  - apply ParseKeyTimestamp_prefix in Hu. by rewrite Hu.
  - by destruct (HasPrefix name KeyPrefix).
Qed.

Lemma foldl_delete_lookup (ks : list keyEntry) (m : gmap string bytes) n :
  foldl (fun d k => delete (ke_name k) d) m ks !! n =
  if decide (n ∈ ke_name <$> ks) then None else m !! n.
Proof.
  revert m. induction ks as [|k ks IH]; intros m; cbn.
  - case_decide; [set_solver|done].
  - rewrite IH. repeat case_decide; try (exfalso; set_solver); [done|..].
    + assert (ke_name k = n) as <- by set_solver. apply lookup_delete_eq.
    + apply lookup_delete_ne. set_solver.
Qed.

Section rotation.
Context `{GoRuntime}.
Implicit Types (data : gmap string bytes).

(** The key names of a data map. *)
Definition key_names data : gset string :=
  filter (fun n => is_key_name n = true) (dom data).

Lemma elem_of_key_names data n :
  n ∈ key_names data <-> is_key_name n = true /\ is_Some (data !! n).
Proof. unfold key_names. by rewrite elem_of_filter, elem_of_dom. Qed.

Lemma collect_range_names data :
  NoDup (ke_name <$> collect_keys (range data)) /\
  forall n, n ∈ (ke_name <$> collect_keys (range data)) <-> n ∈ key_names data.
Proof.
  rewrite collect_keys_names. split; [apply NoDup_filter, range_keys_NoDup|].
  intros n. rewrite list_elem_of_filter, elem_of_key_names, list_elem_of_fmap.
  split; (intros [Hn He]; split; [done|]).
  - destruct He as ([n' v] & -> & Hin). apply elem_of_range in Hin. eauto.
  - destruct He as [v Hv]. exists (n, v). by rewrite elem_of_range.
Qed.

Lemma names_to_set (l : list string) (X : gset string) :
  NoDup l -> (forall n, n ∈ l <-> n ∈ X) -> length l = size X.
Proof.
  intros Hnd Heq. rewrite <- (size_list_to_set (C := gset string) l Hnd).
  f_equal. set_solver.
Qed.

Lemma existsb_key_name ks n :
  existsb (fun k => bool_decide (ke_name k = n)) ks = true <-> n ∈ (ke_name <$> ks).
Proof.
  rewrite existsb_exists, list_elem_of_fmap. setoid_rewrite list_elem_of_In.
  setoid_rewrite bool_decide_eq_true. naive_solver.
Qed.

(** The keys RotateSecret works on after the insertion. *)
Definition rotated_keys data newKey now : list keyEntry :=
  sort_by ke_timestamp (sort_by ke_timestamp (collect_keys (range data))
                        ++ [mkKeyEntry (BuildKeyName now) now newKey]).

Lemma rotated_keys_perm data newKey now :
  rotated_keys data newKey now ≡ₚ
  collect_keys (range data) ++ [mkKeyEntry (BuildKeyName now) now newKey].
Proof. unfold rotated_keys. by rewrite !sort_by_perm. Qed.

Lemma rotated_keys_ts data newKey now e :
  int64_ok now = true -> e ∈ rotated_keys data newKey now ->
  ke_timestamp e = key_ts (ke_name e).
Proof.
  intros Hnow. rewrite rotated_keys_perm, elem_of_app, list_elem_of_singleton.
  unfold key_ts. destruct e as [n t v]; cbn. intros [Hin|[= -> -> ->]].
  - apply collect_keys_elem in Hin as [_ ->]. done.
  - by rewrite ParseKeyTimestamp_BuildKeyName.
Qed.

Lemma is_key_name_Build now : int64_ok now = true -> is_key_name (BuildKeyName now) = true.
Proof. intros Hn. unfold is_key_name. by rewrite ParseKeyTimestamp_BuildKeyName. Qed.

Lemma rotated_keys_names data newKey now :
  int64_ok now = true -> data !! BuildKeyName now = None ->
  NoDup (ke_name <$> rotated_keys data newKey now) /\
  forall n, n ∈ (ke_name <$> rotated_keys data newKey now) <->
    n ∈ key_names (<[BuildKeyName now := newKey]> data).
Proof.
  intros Hnow Hfresh. destruct (collect_range_names data) as [Hnd Hin].
  split.
  - rewrite rotated_keys_perm, fmap_app. apply NoDup_app. split_and!; [done| |apply NoDup_singleton].
    intros n Hn. cbn. rewrite list_elem_of_singleton. intros ->.
    apply Hin, elem_of_key_names in Hn as [_ Hs]. rewrite Hfresh in Hs. by destruct Hs.
  - intros n. rewrite rotated_keys_perm, fmap_app, elem_of_app, Hin. cbn.
    rewrite list_elem_of_singleton, !elem_of_key_names, lookup_insert.
    case_decide as E; [subst n|naive_solver].
    split; [|by right]. intros _. split; [by apply is_key_name_Build|done].
Qed.

(** A successful rotation splits the keys into pruned and kept names. *)
Lemma rotate_data_split data newKey now numberOfKeys data' :
  int64_ok now = true -> 0 <= numberOfKeys ->
  rotate_data data newKey now numberOfKeys = Ok data' ->
  data !! BuildKeyName now = None /\
  exists pruned kept : list string,
    NoDup (pruned ++ kept) /\
    (forall n, n ∈ pruned ++ kept <-> n ∈ key_names (<[BuildKeyName now := newKey]> data)) /\
    (forall r k, r ∈ pruned -> k ∈ kept -> key_ts r <= key_ts k) /\
    Z.of_nat (length kept) = Z.min numberOfKeys (Z.of_nat (length (pruned ++ kept))) /\
    (forall n, data' !! n =
       if decide (n ∈ pruned) then None else <[BuildKeyName now := newKey]> data !! n).
Proof.
  intros Hnow HN. unfold rotate_data.
  destruct (existsb _ _) eqn:Hex; [done|]. fold (rotated_keys data newKey now).
  assert (Hfresh : data !! BuildKeyName now = None).
  { apply eq_None_not_Some. intros Hs. apply not_true_iff_false in Hex. apply Hex.
    apply existsb_key_name. rewrite sort_by_perm.
    apply collect_range_names, elem_of_key_names. eauto using is_key_name_Build. }
  intros Hok. split; [done|].
  set (L := rotated_keys data newKey now) in *.
  set (d := if numberOfKeys <? Z.of_nat (length L)
            then Z.to_nat (Z.of_nat (length L) - numberOfKeys) else O).
  destruct (rotated_keys_names data newKey now Hnow Hfresh) as [Hnd Hin]. fold L in Hnd, Hin.
  exists (ke_name <$> take d L), (ke_name <$> drop d L).
  rewrite <- fmap_app, take_drop. split_and!; [done|done| | |].
  - intros r k (e1 & -> & H1)%list_elem_of_fmap (e2 & -> & H2)%list_elem_of_fmap.
    assert (ke_timestamp e1 <= ke_timestamp e2).
    { eapply (StronglySorted_take_drop (fun a b => ke_timestamp a <= ke_timestamp b));
        [apply sort_by_sorted|exact H1|exact H2]. }
    rewrite <- (rotated_keys_ts data newKey now e1 Hnow), <- (rotated_keys_ts data newKey now e2 Hnow).
    + done.
    + fold L. rewrite <- (take_drop d L). set_solver.
    + fold L. rewrite <- (take_drop d L). set_solver.
  - rewrite !length_fmap, length_drop. subst d. destruct (Z.ltb_spec numberOfKeys (Z.of_nat (length L))); lia.
  - intros n. subst d. destruct (numberOfKeys <? _); injection Hok as <-.
    + apply foldl_delete_lookup.
    + rewrite decide_False; [done|]. rewrite take_0. apply not_elem_of_nil.
Qed.
End rotation.

(** ** The number of retained keys *)

Lemma rne_quot_bounds num den :
  0 < den -> 2 * num - den <= 2 * den * rne_quot num den <= 2 * num + den.
Proof.
  intros Hd. unfold rne_quot.
  pose proof (Z.div_mod num den ltac:(lia)) as E. pose proof (Z.mod_pos_bound num den Hd) as B.
  set (q := num / den) in *. set (r := num mod den) in *.
  destruct (Z.ltb_spec (2 * r) den); [nia|].
  destruct (Z.ltb_spec den (2 * r)); [nia|]. destruct (Z.even q); nia.
Qed.

Lemma rne_quot_1 num : rne_quot num 1 = num.
Proof. pose proof (rne_quot_bounds num 1 ltac:(lia)). lia. Qed.

Lemma float64_of_int_exact x : 0 < x < 2 ^ 53 -> float64_of_int x = x.
Proof.
  intros [H0 H1]. unfold float64_of_int. assert (Z.log2 x < 53) by (by apply Z.log2_lt_pow2).
  rewrite Z.max_l by lia. rewrite rne_quot_1. lia.
Qed.

Lemma ceil_div_spec num den c :
  0 < den -> ceil_div num den = c <-> den * (c - 1) < num <= den * c.
Proof.
  intros Hd. unfold ceil_div. pose proof (Z.div_mod (- num) den ltac:(lia)) as E.
  pose proof (Z.mod_pos_bound (- num) den Hd) as B. split; [intros <-; nia|].
  intros ?. set (q := - num / den) in *. set (r := - num mod den) in *. nia.
Qed.

(** The quotient's scaled numerator lies in the mantissa range. *)
Lemma div_exponent_spec num den (e := div_exponent num den) :
  0 < num -> 0 < den ->
  den * 2 ^ Z.max 0 e * 2 ^ 52 <= num * 2 ^ Z.max 0 (- e).
Proof.
  intros Hn Hd. unfold div_exponent in e.
  set (k := Z.log2 num - Z.log2 den - 52) in *.
  destruct (Z.ltb_spec (num * 2 ^ Z.max 0 (- k)) (den * 2 ^ Z.max 0 k * 2 ^ 52)) as [Hlt|Hge];
    [|exact Hge]. clear Hlt. subst e.
  pose proof (Z.log2_spec num Hn) as [Hn1 _]. pose proof (Z.log2_spec den Hd) as [_ Hd2].
  assert (0 <= Z.log2 num) by apply Z.log2_nonneg.
  assert (0 <= Z.log2 den) by apply Z.log2_nonneg.
  assert (Hp : 2 ^ (Z.succ (Z.log2 den)) * 2 ^ Z.max 0 (k - 1) * 2 ^ 52
               = 2 ^ Z.log2 num * 2 ^ Z.max 0 (- (k - 1))).
  { rewrite <- !Z.pow_add_r by lia. f_equal. subst k. lia. }
  assert (0 < 2 ^ Z.max 0 (k - 1)) by (apply Z.pow_pos_nonneg; lia).
  assert (0 < 2 ^ Z.max 0 (- (k - 1))) by (apply Z.pow_pos_nonneg; lia).
  nia.
Qed.

Lemma float64_ceil_div num den :
  0 < num < 2 ^ 53 -> 0 < den -> float64_ceil (float64_div num den) = ceil_div num den.
Proof.
  intros [Hn HN] Hd. unfold float64_ceil, float64_div. set (e := div_exponent num den).
  pose proof (div_exponent_spec num den Hn Hd) as Hm. fold e in Hm. cbn in Hm.
  set (P := 2 ^ Z.max 0 e) in *. set (Q := 2 ^ Z.max 0 (- e)) in *.
  assert (HP : 0 < P) by (apply Z.pow_pos_nonneg; lia).
  assert (HQ : 0 < Q) by (apply Z.pow_pos_nonneg; lia).
  assert (HPQ : P = 1 \/ Q = 1).
  { destruct (Z.le_ge_cases e 0); [left|right]; unfold P, Q; rewrite Z.max_l by lia; done. }
  pose proof (rne_quot_bounds (num * Q) (den * P) ltac:(nia)) as Hb.
  set (m := rne_quot (num * Q) (den * P)) in *.
  set (c := ceil_div num den).
  destruct (proj1 (ceil_div_spec num den c Hd) eq_refl) as [Hc1 Hc2].
  apply ceil_div_spec; [done|].
  assert (2 ^ 53 = 2 * 2 ^ 52) by done. set (T := 2 ^ 52) in *.
  assert (HT : 0 < T) by done.
  assert (Hk : den * P < 2 * Q) by nia.
  destruct HPQ as [HP1|HQ1].
  - rewrite HP1 in *. split; [|nia].
    assert (den * (Q * (c - 1)) + Q <= num * Q) by nia. nia.
  - rewrite HQ1 in *. assert (den = 1) by nia. assert (P = 1) by nia. subst. nia.
Qed.

Lemma deriveNumberOfKeys_exact ttl interval :
  0 <= ttl < 2 ^ 53 -> 0 < interval < 2 ^ 53 ->
  deriveNumberOfKeys ttl interval = Some (ceil_div ttl interval + 1).
Proof.
  intros Ht Hi. unfold deriveNumberOfKeys.
  destruct (Z.leb_spec interval 0); [lia|]. destruct (Z.eqb_spec ttl 0) as [->|Hne].
  - by rewrite (proj2 (ceil_div_spec 0 interval 0 ltac:(lia))) by lia.
  - rewrite Z.abs_eq, !float64_of_int_exact by lia.
    rewrite <- (float64_ceil_div ttl interval) by lia.
    destruct (float64_div ttl interval) as [m e]. rewrite Z.sgn_pos, Z.mul_1_l by lia. done.
Qed.

(** ** What one rotation does *)

(** An in-memory API server holding at most one Secret, to run the rotator on. *)
Definition mem_client : SecretClient (option Secret) := {|
  secret_Get := fun _ _ w =>
    (match w with Some s => Ok s | None => Fail (ApiError ReasonNotFound) end, w);
  secret_Update := fun s _ => (Ok tt, Some s);
|}.

Section rotation_theorems.
Context `{GoRuntime}.
Implicit Types (data : gmap string bytes).

Lemma RotateSecret_Ok {W} (c : SecretClient W) rand clock name ns N w w' :
  RotateSecret c rand clock name ns N w = (Ok tt, w') ->
  1 <= N /\ exists secret w1 newKey data',
    secret_Get c name ns w = (Ok secret, w1) /\
    GenerateKey rand = Ok newKey /\
    rotate_data (default ∅ (secret_Data secret)) newKey (time_Unix clock) N = Ok data' /\
    secret_Update c (mkSecret (secret_Name secret) (secret_Namespace secret) (Some data')) w1
      = (Ok tt, w').
Proof.
  unfold RotateSecret. destruct (Z.ltb_spec N 1); [done|].
  unfold st_bind, st_wrap, st_lift. destruct (secret_Get c name ns w) as [[secret|] w1] eqn:E1; [|done].
  cbn. destruct (GenerateKey rand) as [k|] eqn:E2; [|done]. cbn.
  destruct (rotate_data _ _ _ _) as [d|] eqn:E3; [|done].
  destruct (secret_Update _ _ _) as [[[]|] w2] eqn:E4; [|done]. cbn.
  intros [= <-]. split; [lia|]. by exists secret, w1, k, d.
Qed.

(** The size and frame facts of a rotated map. *)
Lemma rotate_data_size data newKey now N data' :
  int64_ok now = true -> 0 <= N -> rotate_data data newKey now N = Ok data' ->
  Z.of_nat (size (key_names data')) = Z.min N (Z.of_nat (size (key_names data)) + 1).
Proof.
  intros Hnow HN Hr.
  destruct (rotate_data_split _ _ _ _ _ Hnow HN Hr) as (Hf & pruned & kept & Hnd & Hin & _ & Hlen & Hlk).
  assert (Hk : length kept = size (key_names data')).
  { apply names_to_set; [by apply NoDup_app in Hnd as (_ & _ & ?)|]. intros n.
    rewrite elem_of_key_names, Hlk. apply NoDup_app in Hnd as (_ & Hdis & _).
    pose proof (Hin n) as Hi. rewrite elem_of_app, elem_of_key_names in Hi.
    case_decide; [|tauto]. split; [by intros ?%(Hdis n)|by intros [_ []]]. }
  assert (Hall : length (pruned ++ kept) = S (size (key_names data))).
  { rewrite (names_to_set _ _ Hnd Hin).
    replace (key_names (<[BuildKeyName now:=newKey]> data)) with
      ({[BuildKeyName now]} ∪ key_names data).
    - rewrite size_union, size_singleton; [done|].
      apply disjoint_singleton_l. rewrite elem_of_key_names, Hf. by intros [_ []].
    - apply set_eq. intros n. rewrite elem_of_union, elem_of_singleton, !elem_of_key_names, lookup_insert.
      case_decide; [subst|naive_solver]. split; [|by left]. intros _.
      split; [by apply is_key_name_Build|done]. }
  rewrite <- Hk, Hlen, Hall. lia.
Qed.

(** Every entry of the rotated map is an entry of the map with the new key,
    and entries that are not well-formed keys are never touched. *)
Lemma rotate_data_frame data newKey now N data' n :
  int64_ok now = true -> 0 <= N -> rotate_data data newKey now N = Ok data' ->
  (is_Some (data' !! n) -> data' !! n = <[BuildKeyName now := newKey]> data !! n) /\
  (is_key_name n = false -> data' !! n = data !! n).
Proof.
  intros Hnow HN Hr.
  destruct (rotate_data_split _ _ _ _ _ Hnow HN Hr) as (Hf & pruned & kept & Hnd & Hin & _ & _ & Hlk).
  rewrite Hlk. split; [case_decide; [by intros []|done]|]. intros Hn.
  rewrite decide_False.
  - apply lookup_insert_ne. intros <-. rewrite is_key_name_Build in Hn; done.
  - intros Hp. assert (Hi : n ∈ pruned ++ kept) by (apply elem_of_app; by left).
    apply Hin, elem_of_key_names in Hi as [Hi _]. congruence.
Qed.

Lemma rotate_data_oldest data newKey now N data' n k :
  int64_ok now = true -> 0 <= N -> rotate_data data newKey now N = Ok data' ->
  n ∈ key_names (<[BuildKeyName now := newKey]> data) -> data' !! n = None ->
  k ∈ key_names data' -> key_ts n <= key_ts k.
Proof.
  intros Hnow HN Hr Hn Hgone Hk.
  destruct (rotate_data_split _ _ _ _ _ Hnow HN Hr) as (Hf & pruned & kept & Hnd & Hin & Hts & _ & Hlk).
  apply elem_of_key_names in Hn as [Hn1 Hn2]. apply elem_of_key_names in Hk as [Hk1 Hk2].
  rewrite Hlk in Hgone, Hk2.
  destruct (decide (n ∈ pruned)) as [Hp|]; [|rewrite Hgone in Hn2; by destruct Hn2].
  destruct (decide (k ∈ pruned)) as [|Hkp]; [by destruct Hk2|].
  apply Hts; [done|]. assert (Hi : k ∈ pruned ++ kept) by (apply Hin, elem_of_key_names; done).
  apply elem_of_app in Hi as [?|?]; done.
Qed.

(** With a clock ahead of every stored key, the new key is kept. *)
Lemma rotate_data_new_key data newKey now N data' :
  int64_ok now = true -> 1 <= N -> rotate_data data newKey now N = Ok data' ->
  (forall n, n ∈ key_names data -> key_ts n < now) ->
  data' !! BuildKeyName now = Some newKey.
Proof.
  intros Hnow HN Hr Hlt. assert (HN' : 0 <= N) by lia.
  destruct (rotate_data_split _ _ _ _ _ Hnow HN' Hr)
    as (Hf & pruned & kept & Hnd & Hin & Hts & Hlen & Hlk).
  assert (Hnew : BuildKeyName now ∈ pruned ++ kept).
  { apply Hin, elem_of_key_names. rewrite lookup_insert_eq. eauto using is_key_name_Build. }
  rewrite Hlk, lookup_insert_eq. rewrite decide_False; [done|]. intros Hp.
  destruct kept as [|k kept].
  { rewrite app_nil_r in *. destruct pruned; [by apply elem_of_nil in Hp|]. cbn in Hlen. lia. }
  assert (Hk : k ∈ pruned ++ k :: kept) by (apply elem_of_app; right; apply elem_of_cons; by left).
  pose proof (Hts _ k Hp ltac:(apply elem_of_cons; by left)) as Hle.
  unfold key_ts in Hle at 1. rewrite ParseKeyTimestamp_BuildKeyName in Hle by done.
  apply Hin, elem_of_key_names in Hk as [Hk1 Hk2]. rewrite lookup_insert in Hk2.
  case_decide as E.
  - subst k. apply NoDup_app in Hnd as (_ & Hdis & _). apply (Hdis _ Hp). apply elem_of_cons; by left.
  - specialize (Hlt k ltac:(by apply elem_of_key_names)). lia.
Qed.
End rotation_theorems.

(** ** Sequences of rotations *)

Section retention.
Context `{GoRuntime}.
Implicit Types (data : gmap string bytes).

(** [rotations N d l d']: successive rotations at the times of [l]. *)
Inductive rotations (N : Z) : gmap string bytes -> list (Z * bytes) -> gmap string bytes -> Prop :=
| rotations_nil d : rotations N d [] d
| rotations_cons d t k d' l d'' :
    rotate_data d k t N = Ok d' -> rotations N d' l d'' -> rotations N d ((t, k) :: l) d''.

(** 64-bit times, strictly increasing from [lo]. *)
Fixpoint increasing (lo : Z) (l : list (Z * bytes)) : Prop :=
  match l with
  | [] => True
  | (t, _) :: l => lo < t /\ int64_ok t = true /\ increasing t l
  end.

Definition keys_below data (lo : Z) : Prop := forall n, n ∈ key_names data -> key_ts n <= lo.

Lemma key_ts_Build t : int64_ok t = true -> key_ts (BuildKeyName t) = t.
Proof. intros Ht. unfold key_ts. by rewrite ParseKeyTimestamp_BuildKeyName. Qed.

(** Keys of the rotated map come from the old map or are the new key. *)
Lemma rotate_data_names data newKey now N data' n :
  int64_ok now = true -> 0 <= N -> rotate_data data newKey now N = Ok data' ->
  n ∈ key_names data' -> n = BuildKeyName now \/ n ∈ key_names data.
Proof.
  intros Hnow HN Hr [Hk Hs]%elem_of_key_names.
  destruct (rotate_data_frame data newKey now N data' n Hnow HN Hr) as [Hfr _].
  rewrite (Hfr Hs), lookup_insert in Hs. case_decide; [by left|right].
  by apply elem_of_key_names.
Qed.

Lemma rotate_data_below data newKey now N data' lo :
  int64_ok now = true -> 0 <= N -> rotate_data data newKey now N = Ok data' ->
  keys_below data lo -> lo < now -> keys_below data' now.
Proof.
  intros Hnow HN Hr Hb Hlt n Hn.
  destruct (rotate_data_names _ _ _ _ _ _ Hnow HN Hr Hn) as [->|?].
  - rewrite key_ts_Build by done. lia.
  - specialize (Hb n ltac:(done)). lia.
Qed.

(** The keys, other than [n], that pruning ranks at least as new as [n]. *)
Definition rank data (n : string) : gset string :=
  filter (fun m => m <> n /\ key_ts n <= key_ts m) (key_names data).

Lemma rank_step data newKey now N data' n :
  int64_ok now = true -> 0 <= N -> rotate_data data newKey now N = Ok data' ->
  (size (rank data' n) <= S (size (rank data n)))%nat.
Proof.
  intros Hnow HN Hr.
  assert (Hsub : rank data' n ⊆ {[BuildKeyName now]} ∪ rank data n).
  { intros m [Hm Hin]%elem_of_filter. apply elem_of_union.
    destruct (rotate_data_names _ _ _ _ _ _ Hnow HN Hr Hin) as [->|?]; [left|right].
    - by apply elem_of_singleton.
    - by apply elem_of_filter. }
  apply subseteq_size in Hsub. rewrite size_union_alt, size_singleton in Hsub.
  pose proof (subseteq_size (rank data n ∖ {[BuildKeyName now]}) (rank data n)) as Hd. set_solver by lia.
Qed.

(** A key with fewer than [N] competitors after the insertion is kept. *)
Lemma rotate_data_keeps data newKey now N data' n v :
  int64_ok now = true -> 0 <= N -> rotate_data data newKey now N = Ok data' ->
  is_key_name n = true -> data !! n = Some v -> n <> BuildKeyName now ->
  Z.of_nat (size (rank data n)) + 1 < N -> data' !! n = Some v.
Proof.
  intros Hnow HN Hr Hn Hv Hne Hlt.
  destruct (rotate_data_split _ _ _ _ _ Hnow HN Hr)
    as (Hf & pruned & kept & Hnd & Hin & Hts & Hlen & Hlk).
  rewrite Hlk, lookup_insert_ne by done. rewrite decide_False; [done|]. intros Hp.
  apply NoDup_app in Hnd as (Hnd1 & Hdis & Hnd2).
  assert (Hsub : list_to_set kept ⊆ {[BuildKeyName now]} ∪ rank data n).
  { intros m Hm%elem_of_list_to_set. apply elem_of_union.
    destruct (decide (m = BuildKeyName now)) as [->|Hmn]; [left; by apply elem_of_singleton|right].
    apply elem_of_filter. split; [split; [intros ->; by apply (Hdis n)|by apply Hts]|].
    assert (Hi : m ∈ pruned ++ kept) by (apply elem_of_app; by right).
    apply Hin, elem_of_key_names in Hi as [? Hi]. rewrite lookup_insert_ne in Hi by done.
    by apply elem_of_key_names. }
  apply subseteq_size in Hsub. rewrite size_list_to_set in Hsub by done.
  rewrite size_union_alt, size_singleton in Hsub.
  pose proof (subseteq_size (rank data n ∖ {[BuildKeyName now]}) (rank data n) ltac:(set_solver)).
  rewrite length_app in Hlen. destruct pruned; [by apply elem_of_nil in Hp|]. cbn in Hlen. lia.
Qed.

Lemma rotations_keep N d l d' lo n v :
  0 <= N -> rotations N d l d' -> increasing lo l -> is_key_name n = true -> key_ts n <= lo ->
  d !! n = Some v -> Z.of_nat (size (rank d n) + length l) < N -> d' !! n = Some v.
Proof.
  intros HN Hr. revert lo. induction Hr as [|d t k d1 l d2 Hstep Hr IH]; intros lo; [done|].
  intros (Hlo & Ht & Hinc) Hn Hts Hv Hlen. cbn [length] in Hlen.
  pose proof (rank_step _ _ _ _ _ n Ht HN Hstep).
  apply (IH t); [done|done|lia| |lia].
  eapply rotate_data_keeps; [exact Ht|exact HN|exact Hstep|done..| |lia].
  intros ->. rewrite key_ts_Build in Hts by done. lia.
Qed.

(** While an old key survives, so does every key added after it. *)
Lemma rotations_newer_survive N d l d' lo n :
  0 <= N -> rotations N d l d' -> increasing lo l -> keys_below d lo ->
  is_key_name n = true -> key_ts n <= lo -> is_Some (d' !! n) ->
  is_Some (d !! n) /\
  forall m, (m ∈ key_names d /\ key_ts n < key_ts m) \/ m ∈ (BuildKeyName <$> l.*1) -> m ∈ key_names d'.
Proof.
  intros HN Hr. revert lo. induction Hr as [d|d t k d1 l d2 Hstep Hr IH]; intros lo.
  { intros _ _ Hn _ Hs. split; [done|]. cbn. intros m [[? _]|?%elem_of_nil]; done. }
  intros (Hlo & Ht & Hinc) Hb Hn Hts Hs.
  destruct (IH t Hinc (rotate_data_below _ _ _ _ _ _ Ht HN Hstep Hb Hlo) Hn ltac:(lia) Hs)
    as [Hs1 Hall].
  destruct (rotate_data_frame d k t N d1 n Ht HN Hstep) as [Hfr _].
  assert (Hne : n <> BuildKeyName t).
  { intros ->. rewrite key_ts_Build in Hts by done. lia. }
  pose proof Hs1 as Hs0. rewrite (Hfr Hs1), lookup_insert_ne in Hs0 by done. split; [done|].
  assert (Hkeep : forall m, m ∈ key_names (<[BuildKeyName t := k]> d) -> key_ts n < key_ts m ->
            m ∈ key_names d1).
  { intros m Hm Hgt. apply elem_of_key_names. pose proof Hm as [? _]%elem_of_key_names.
    split; [done|]. destruct (d1 !! m) eqn:E; [done|].
    pose proof (rotate_data_oldest d k t N d1 m n Ht HN Hstep Hm E
                  ltac:(by apply elem_of_key_names)). lia. }
  intros m Hm. cbn in Hm. rewrite elem_of_cons in Hm.
  destruct Hm as [[Hm Hgt]|[->|Hm]]; [apply Hall; left..|apply Hall; by right].
  - split; [|done]. apply Hkeep; [|done]. apply elem_of_key_names in Hm as [? Hm].
    apply elem_of_key_names. split; [done|]. rewrite lookup_insert. case_decide; [done|exact Hm].
  - rewrite key_ts_Build by done. split; [|lia]. apply Hkeep; [|rewrite key_ts_Build by done; lia].
    apply elem_of_key_names. rewrite lookup_insert_eq. split; [by apply is_key_name_Build|done].
Qed.
End retention.

Section retention_theorems.
Context `{GoRuntime}.

Lemma rotations_app_inv N d l1 l2 d' :
  rotations N d (l1 ++ l2) d' -> exists d1, rotations N d l1 d1 /\ rotations N d1 l2 d'.
Proof.
  revert d. induction l1 as [|[t k] l1 IH]; intros d; cbn; intros Hr.
  - exists d. split; [constructor|done].
  - inversion Hr as [|? ? ? d1 ? ? Hs Hr']; subst.
    destruct (IH _ Hr') as (d2 & ? & ?). exists d2. split; [by econstructor|done].
Qed.

Lemma increasing_below_app N d lo l1 l2 d1 :
  0 <= N -> rotations N d l1 d1 -> keys_below d lo -> increasing lo (l1 ++ l2) ->
  exists lo', keys_below d1 lo' /\ increasing lo' l2.
Proof.
  intros HN. revert d lo. induction l1 as [|[t k] l1 IH]; intros d lo Hr Hb; cbn.
  - inversion Hr; subst. eauto.
  - inversion Hr as [|? ? ? dm ? ? Hs Hr']; subst. intros (Hlo & Ht & Hinc).
    eapply IH; [exact Hr'| |exact Hinc]. by eapply rotate_data_below.
Qed.

Lemma increasing_mono lo lo' l : lo' <= lo -> increasing lo l -> increasing lo' l.
Proof. destruct l as [|[t k] l]; cbn; [done|]. intros ? (? & ? & ?). split_and!; [lia|done..]. Qed.

Lemma increasing_times lo l t : increasing lo l -> t ∈ l.*1 -> lo < t /\ int64_ok t = true.
Proof.
  revert lo. induction l as [|[t' k] l IH]; intros lo; cbn; [by intros _ ?%elem_of_nil|].
  intros (? & ? & Hinc) [->|Hin]%elem_of_cons; [done|].
  destruct (IH t' Hinc Hin). split; [lia|done].
Qed.

Lemma increasing_names_NoDup lo l : increasing lo l -> NoDup (BuildKeyName <$> l.*1).
Proof.
  revert lo. induction l as [|[t k] l IH]; intros lo; cbn; [constructor|].
  intros (? & Ht & Hinc). constructor; [|by eapply IH].
  intros (t' & E & Hin)%list_elem_of_fmap. destruct (increasing_times _ _ _ Hinc Hin) as [? Ht'].
  apply (f_equal key_ts) in E. rewrite !key_ts_Build in E by done. lia.
Qed.

Lemma rotations_size N d l d' lo :
  0 <= N -> rotations N d l d' -> increasing lo l -> l <> [] ->
  Z.of_nat (size (key_names d')) <= N.
Proof.
  intros HN Hr. revert lo. induction Hr as [d|d t k d1 l d2 Hs Hr IH]; intros lo; [done|].
  intros (_ & Ht & Hinc) _. destruct l as [|tk l].
  - inversion Hr; subst. rewrite (rotate_data_size _ _ _ _ _ Ht HN Hs). lia.
  - eapply IH; [exact Hinc|done].
Qed.

(** The retention window, exactly: the key of a rotation is in the Secret
    until the [N]-th rotation after it. *)
Lemma rotation_retention_exact N d lo l1 t k l2 d' :
  1 <= N -> keys_below d lo -> increasing lo (l1 ++ (t, k) :: l2) ->
  rotations N d (l1 ++ (t, k) :: l2) d' ->
  d' !! BuildKeyName t = if Z.of_nat (length l2) <? N then Some k else None.
Proof.
  intros HN Hb Hinc (d1 & Hr1 & Hr2)%rotations_app_inv. assert (HN0 : 0 <= N) by lia.
  destruct (increasing_below_app N d lo l1 _ d1 HN0 Hr1 Hb Hinc) as (lo' & Hb' & Hlo & Ht & Hinc2).
  inversion Hr2 as [|? ? ? d2 ? ? Hstep Hr3]; subst.
  assert (Hk : is_key_name (BuildKeyName t) = true) by (by apply is_key_name_Build).
  assert (Hts : key_ts (BuildKeyName t) <= t) by (rewrite key_ts_Build by done; lia).
  destruct (Z.ltb_spec (Z.of_nat (length l2)) N) as [Hlt|Hge].
  - assert (Hnew : d2 !! BuildKeyName t = Some k).
    { eapply rotate_data_new_key; [exact Ht|exact HN|exact Hstep|].
      intros n Hn. specialize (Hb' n Hn). lia. }
    eapply rotations_keep; [exact HN0|exact Hr3|exact Hinc2|done..|exact Hnew|].
    assert (rank d2 (BuildKeyName t) = ∅) as ->; [|by rewrite size_empty].
    apply set_eq. intros m. split; [|set_solver].
    intros [[Hne Hge] Hm]%elem_of_filter.
    destruct (rotate_data_names _ _ _ _ _ _ Ht HN0 Hstep Hm) as [->|Hd]; [done|].
    specialize (Hb' m Hd). rewrite key_ts_Build in Hge by done. lia.
  - apply eq_None_not_Some. intros Hs.
    destruct (rotations_newer_survive N d2 l2 d' t (BuildKeyName t) HN0 Hr3 Hinc2) as [_ Hall];
      [by eapply rotate_data_below|done..|].
    assert (Hne : l2 <> []) by (intros ->; cbn in Hge; lia).
    pose proof (rotations_size _ _ _ _ _ HN0 Hr3 Hinc2 Hne).
    assert (Hsub : list_to_set (BuildKeyName t :: (BuildKeyName <$> l2.*1)) ⊆ key_names d').
    { intros m [->|Hm]%elem_of_list_to_set%elem_of_cons; [|apply Hall; by right].
      by apply elem_of_key_names. }
    apply subseteq_size in Hsub. rewrite size_list_to_set in Hsub.
    + cbn in Hsub. rewrite !length_fmap in Hsub. lia.
    + constructor; [|by eapply increasing_names_NoDup].
      intros (t' & E & Hin)%list_elem_of_fmap.
      destruct (increasing_times _ _ _ Hinc2 Hin) as [? Ht'].
      apply (f_equal key_ts) in E. rewrite !key_ts_Build in E by done. lia.
Qed.

(** Rotations at least [interval] apart (timestamps are seconds). *)
Fixpoint spaced (interval : Duration) (t : Z) (l : list (Z * bytes)) : Prop :=
  match l with
  | [] => True
  | (t', _) :: l => interval <= (t' - t) * Second /\ spaced interval t' l
  end.

Lemma spaced_last interval t l u :
  0 <= interval -> spaced interval t l -> t * Second <= u ->
  (forall t', t' ∈ l.*1 -> t' * Second <= u) ->
  t * Second + interval * Z.of_nat (length l) <= u.
Proof.
  intros HI. revert t. induction l as [|[t' k] l IH]; intros t; cbn [spaced length]; [lia|].
  intros [Hsp Hrest] _ Hall.
  assert (t' * Second <= u) by (apply Hall; cbn; apply elem_of_cons; by left).
  assert (Hrec : t' * Second + interval * Z.of_nat (length l) <= u).
  { apply IH; [done..|]. intros t'' Hin. apply Hall. cbn. apply elem_of_cons. by right. }
  lia.
Qed.
End retention_theorems.

#[local] Existing Instance canonical_runtime.

(** A Secret with two keys, a malformed key name and an unrelated entry. *)
Definition demo_data : gmap string bytes :=
  {[ "jwt-signing-key-100" := Some "k1"; "jwt-signing-key-200" := Some "k2";
     "jwt-signing-key-old" := Some "bad"; "ca.crt" := Some "pem" ]}.
Definition demo_secret : Secret := mkSecret "jwt" "system" (Some demo_data).
Definition demo_rand (n : nat) : result string := Ok "fresh".

(** [C8] One successful RotateSecret, for any API server, iteration order and
    unstable sort: it writes back the fetched Secret with data in which the
    number of well-formed keys is [min numberOfKeys (old + 1)]; entries that are
    not well-formed keys are untouched; no kept value changes; every pruned key
    is no newer than any kept one; and the new key is stored when the clock is
    ahead of every stored key. *)
Theorem RotateSecret_correct `{GoRuntime} {W} (c : SecretClient W) rand clock name ns N w w' :
  int64_ok (time_Unix clock) = true ->
  RotateSecret c rand clock name ns N w = (Ok tt, w') ->
  exists secret w1 newKey data',
    secret_Get c name ns w = (Ok secret, w1) /\
    GenerateKey rand = Ok newKey /\
    secret_Update c (mkSecret (secret_Name secret) (secret_Namespace secret) (Some data')) w1
      = (Ok tt, w') /\
    let data := default ∅ (secret_Data secret) in
    let newName := BuildKeyName (time_Unix clock) in
    data !! newName = None /\
    Z.of_nat (size (key_names data')) = Z.min N (Z.of_nat (size (key_names data)) + 1) /\
    (forall n, is_Some (data' !! n) -> data' !! n = <[newName := newKey]> data !! n) /\
    (forall n, is_key_name n = false -> data' !! n = data !! n) /\
    (forall n k, n ∈ key_names (<[newName := newKey]> data) -> data' !! n = None ->
       k ∈ key_names data' -> key_ts n <= key_ts k) /\
    ((forall n, n ∈ key_names data -> key_ts n < time_Unix clock) -> data' !! newName = Some newKey).
Proof.
  intros Hnow (HN & secret & w1 & newKey & data' & Hg & Hk & Hr & Hu)%RotateSecret_Ok.
  assert (HN0 : 0 <= N) by lia. exists secret, w1, newKey, data'. split_and!; [done..|].
  split_and!.
  - by destruct (rotate_data_split _ _ _ _ _ Hnow HN0 Hr).
  - by eapply rotate_data_size.
  - intros n. by apply (rotate_data_frame _ _ _ _ _ _ Hnow HN0 Hr).
  - intros n. by apply (rotate_data_frame _ _ _ _ _ _ Hnow HN0 Hr).
  - intros n k. by eapply rotate_data_oldest.
  - by eapply rotate_data_new_key.
Qed.

Lemma RotateSecret_correct_witness :
  exists secret w1 newKey data',
    secret_Get mem_client "jwt" "system" (Some demo_secret) = (Ok secret, w1) /\
    GenerateKey demo_rand = Ok newKey /\
    data' !! "jwt-signing-key-old" = Some (Some "bad") /\
    Z.of_nat (size (key_names data')) = 2.
Proof.
  destruct (RotateSecret_correct mem_client demo_rand (300 * Second) "jwt" "system" 2
    (Some demo_secret) (RotateSecret mem_client demo_rand (300 * Second) "jwt" "system" 2
    (Some demo_secret)).2) as (secret & w1 & newKey & data' & Hg & Hk & _ & _ & Hsz & _ & Hfr & _);
    [vm_compute; reflexivity|vm_compute; reflexivity|].
  injection Hg as <- <-. exists demo_secret, (Some demo_secret), newKey, data'.
  repeat split; [exact Hk| |].
  - rewrite Hfr; vm_compute; reflexivity.
  - rewrite Hsz. vm_compute. reflexivity.
Defined.

(** [C32] RotateSecret never overwrites: when the Secret already holds a key of
    the current second, it fails and performs no Update, leaving the cluster as
    the read left it; and a [numberOfKeys] below one is rejected before any
    request. *)
Theorem RotateSecret_refuses `{GoRuntime} {W} (c : SecretClient W) rand clock name ns N w secret w1 :
  int64_ok (time_Unix clock) = true ->
  secret_Get c name ns w = (Ok secret, w1) ->
  is_Some (default ∅ (secret_Data secret) !! BuildKeyName (time_Unix clock)) ->
  is_ok (RotateSecret c rand clock name ns N w).1 = false /\
  (RotateSecret c rand clock name ns N w).2 = (if N <? 1 then w else w1).
Proof.
  intros Hnow Hg Hs. unfold RotateSecret. destruct (N <? 1); [done|].
  unfold st_bind, st_wrap, st_lift. rewrite Hg. cbn.
  destruct (GenerateKey rand) as [k|]; [|done]. cbn.
  assert (Hex : existsb (fun e => bool_decide (ke_name e = BuildKeyName (time_Unix clock)))
     (sort_by ke_timestamp (collect_keys (range (default ∅ (secret_Data secret))))) = true).
  { apply existsb_key_name. rewrite sort_by_perm.
    apply collect_range_names, elem_of_key_names. split; [by apply is_key_name_Build|done]. }
  unfold rotate_data. by rewrite Hex.
Qed.

Lemma RotateSecret_refuses_witness :
  is_ok (RotateSecret mem_client demo_rand (200 * Second) "jwt" "system" 3 (Some demo_secret)).1 = false /\
  (RotateSecret mem_client demo_rand (200 * Second) "jwt" "system" 3 (Some demo_secret)).2
    = Some demo_secret.
Proof.
  apply (RotateSecret_refuses mem_client demo_rand (200 * Second) "jwt" "system" 3
    (Some demo_secret) demo_secret (Some demo_secret)); [vm_compute; reflexivity..|].
  exists (Some "k2"). vm_compute. reflexivity.
Defined.

(** Retention over any sequence of rotations at increasing times: the key
    added by a rotation is in the Secret, with its value, as long as fewer than
    [numberOfKeys] rotations followed it, and is gone from then on. *)
Theorem rotation_retention `{GoRuntime} N d lo l1 t k l2 d' :
  1 <= N -> keys_below d lo -> increasing lo (l1 ++ (t, k) :: l2) ->
  rotations N d (l1 ++ (t, k) :: l2) d' ->
  d' !! BuildKeyName t = if Z.of_nat (length l2) <? N then Some k else None.
Proof. apply rotation_retention_exact. Qed.

(** Running a list of rotations on a data map. *)
Fixpoint run_rotations (N : Z) (d : gmap string bytes) (l : list (Z * bytes)) : result (gmap string bytes) :=
  match l with
  | [] => Ok d
  | (t, k) :: l => match rotate_data d k t N with Ok d' => run_rotations N d' l | Fail e => Fail e end
  end.

Lemma run_rotations_sound N d l d' : run_rotations N d l = Ok d' -> rotations N d l d'.
Proof.
  revert d. induction l as [|[t k] l IH]; intros d; cbn; [intros [= <-]; constructor|].
  destruct (rotate_data d k t N) eqn:E; [|done]. intros ?. econstructor; eauto.
Qed.

Definition demo_rotations : list (Z * bytes) :=
  [(300, Some "a"); (400, Some "b"); (500, Some "c")].
Definition demo_rotated : gmap string bytes :=
  match run_rotations 2 ∅ demo_rotations with Ok d => d | Fail _ => ∅ end.

Lemma demo_rotated_run : rotations 2 ∅ demo_rotations demo_rotated.
Proof. apply run_rotations_sound. vm_compute. reflexivity. Qed.

Lemma keys_below_empty lo : keys_below ∅ lo.
Proof. intros n [_ [? Hn]]%elem_of_key_names. by rewrite lookup_empty in Hn. Qed.

Lemma rotation_retention_witness :
  demo_rotated !! BuildKeyName 300 = None /\ demo_rotated !! BuildKeyName 400 = Some (Some "b").
Proof.
  split.
  - apply (rotation_retention 2 ∅ 0 [] 300 (Some "a") [(400, Some "b"); (500, Some "c")] demo_rotated).
    + lia.
    + apply keys_below_empty.
    + cbn. repeat split; lia.
    + apply demo_rotated_run.
  - apply (rotation_retention 2 ∅ 0 [(300, Some "a")] 400 (Some "b") [(500, Some "c")] demo_rotated).
    + lia.
    + apply keys_below_empty.
    + cbn. repeat split; lia.
    + apply demo_rotated_run.
Defined.

(** [C31] deriveNumberOfKeys, for durations below 2^53 nanoseconds, is exactly
    [ceil (ttl / interval) + 1] despite the float64 division, and that many keys
    keep a token verifiable: a key that signed until [delay] past the next
    rotation is still stored at every instant up to the expiry of those tokens,
    provided the count covers [ttl + delay]. *)
Theorem derived_keys_cover_ttl `{GoRuntime} ttl delay interval N d lo l1 t k l2 d' u :
  0 <= ttl -> 0 <= delay -> ttl + delay < 2 ^ 53 -> 0 < interval < 2 ^ 53 ->
  deriveNumberOfKeys (ttl + delay) interval = Some N ->
  keys_below d lo -> increasing lo (l1 ++ (t, k) :: l2) -> spaced interval t l2 ->
  rotations N d (l1 ++ (t, k) :: l2) d' ->
  (forall t', t' ∈ l2.*1 -> t' * Second <= u) ->
  t * Second <= u < t * Second + interval + delay + ttl ->
  N = ceil_div (ttl + delay) interval + 1 /\ d' !! BuildKeyName t = Some k.
Proof.
  intros Ht Hd Hs Hi HN Hb Hinc Hsp Hr Hall Hu.
  rewrite deriveNumberOfKeys_exact in HN by lia. injection HN as <-. split; [done|].
  destruct (proj1 (ceil_div_spec (ttl + delay) interval _ ltac:(lia)) eq_refl) as [Hc1 Hc2].
  set (c := ceil_div (ttl + delay) interval) in *.
  pose proof (spaced_last interval t l2 u ltac:(lia) Hsp ltac:(lia) Hall) as Hlast.
  assert (0 <= c) by nia.
  rewrite (rotation_retention_exact (c + 1) d lo l1 t k l2 d') by (done || lia).
  destruct (Z.ltb_spec (Z.of_nat (length l2)) (c + 1)); [done|]. nia.
Qed.

Lemma derived_keys_cover_ttl_witness :
  demo_rotated !! BuildKeyName 400 = Some (Some "b").
Proof.
  apply (derived_keys_cover_ttl (100 * Second) 0 (100 * Second) 2 ∅ 0 [(300, Some "a")]
    400 (Some "b") [(500, Some "c")] demo_rotated (550 * Second)).
  - unfold Second; lia.
  - lia.
  - unfold Second; lia.
  - unfold Second; lia.
  - vm_compute. reflexivity.
  - apply keys_below_empty.
  - cbn. repeat split; lia.
  - cbn. unfold Second. lia.
  - apply demo_rotated_run.
  - cbn. intros t' [->|?%elem_of_nil]%elem_of_cons; [unfold Second; lia|done].
  - unfold Second. lia.
Defined.
