(* ===== verification/RotatorCommand.v ===== *)
(** * RotatorCommand: the rotator job (cmd/rotator/main.go)

    The environment of the job, the number of keys it resolves to, and main: the
    checks, the validation of the Secret, the dry run and the rotation.  log.Fatalf is
    a failure, exit status 0 a success; in-cluster configuration and the client are
    the argument [connect]. *)

From S2P Require Import Prelude JwtKeys Rotator Timestamps Durations.

Definition EnvSecretName : string := "SECRET_NAME".
Definition EnvSecretNamespace : string := "SECRET_NAMESPACE".
Definition EnvNumberOfKeys : string := "NUMBER_OF_KEYS".
Definition EnvDryRun : string := "DRY_RUN".
Definition EnvTokenTTL : string := "TOKEN_TTL".
Definition EnvRotationInterval : string := "ROTATION_INTERVAL".

Definition DefaultSecretName : string := "authmiddleware-secrets".
Definition DefaultNumberOfKeys : Z := 6.

Section command.
Context `{GoRuntime} (Getenv : string -> string).

(** getEnv retrieves an environment variable or returns a default value. *)
Definition getEnv (key defaultValue : string) : string :=
  if bool_decide (Getenv key = "") then defaultValue else Getenv key.

Definition getEnvInt (key : string) (defaultValue : Z) : result Z :=
  let value := Getenv key in
  if bool_decide (value = "") then Ok defaultValue
  else match Atoi value with
       | Ok intValue => Ok intValue
       | Fail _ => Fail (Errorf "Invalid value for %s: %s (must be an integer)" [key; value])
       end.

Definition getEnvBool (key : string) (defaultValue : bool) : result bool :=
  let value := Getenv key in
  if bool_decide (value = "") then Ok defaultValue
  else match ParseBool value with
       | Ok boolValue => Ok boolValue
       | Fail _ => Fail (Errorf "Invalid value for %s: %s (must be true or false)" [key; value])
       end.

(** A duration of the environment. *)
Definition getEnvDuration (key : string) : result Duration :=
  match ParseDuration (Getenv key) with
  | Ok d => Ok d
  | Fail err => Fail (Errorf "Invalid %s value %q: %v" [key; Getenv key; Error err])
  end.

(** resolveNumberOfKeys: explicit NUMBER_OF_KEYS takes precedence, otherwise the
    number is derived from TOKEN_TTL and ROTATION_INTERVAL. *)
Definition resolveNumberOfKeys : result Z :=
  if negb (bool_decide (Getenv EnvNumberOfKeys = "")) then
    getEnvInt EnvNumberOfKeys DefaultNumberOfKeys
  else if negb (bool_decide (Getenv EnvTokenTTL = "")) &&
          negb (bool_decide (Getenv EnvRotationInterval = "")) then
    tokenTTL ← getEnvDuration EnvTokenTTL;
    rotationInterval ← getEnvDuration EnvRotationInterval;
    match deriveNumberOfKeys tokenTTL rotationInterval with
    | Some n => Ok n
    | None => Fail (Errorf "ROTATION_INTERVAL must be > 0" [])
    end
  else Ok DefaultNumberOfKeys.

(** main. *)
Definition main {W} (connect : result (SecretClient W)) (randRead : nat -> result string)
    (clock : Time) : ST W unit :=
  (let secretName := getEnv EnvSecretName DefaultSecretName in
   let secretNamespace := Getenv EnvSecretNamespace in
   dryRun <- st_lift (getEnvBool EnvDryRun false) ;;
   numberOfKeys <- st_lift resolveNumberOfKeys ;;
   if bool_decide (secretNamespace = "") then
     st_fail (Errorf "SECRET_NAMESPACE environment variable must be set" [])
   else if numberOfKeys <? 1 then
     st_fail (Errorf "NUMBER_OF_KEYS must be >= 1, got: %d" [Sprint_int numberOfKeys])
   else
     k8sClient <- st_lift (wrap_err "Failed to create Kubernetes client: %v" [] connect) ;;
     st_try (ValidateSecret k8sClient secretName secretNamespace) ;;
     if (dryRun : bool) then st_ret tt
     else st_wrap "Failed to rotate keys: %v" []
            (RotateSecret k8sClient randRead clock secretName secretNamespace numberOfKeys))%go.
End command.

(** A client that reads without writing. *)
Class SecretReads {W} (c : SecretClient W) : Prop :=
  secret_Get_pure : forall name ns w, (secret_Get c name ns w).2 = w.

Lemma ValidateSecret_pure `{GoRuntime} {W} (c : SecretClient W) `{!SecretReads c} name ns w :
  (ValidateSecret c name ns w).2 = w.
Proof.
  unfold ValidateSecret, st_bind, st_wrap. pose proof (secret_Get_pure name ns w) as Hg.
  destruct (secret_Get c name ns w) as [[s|e] w1]; cbn in Hg; subst; [|done].
  cbn. destruct (secret_Data s) as [data|]; [|done]. unfold st_lift.
  destruct (validate_keys_loop _ _); [|done]. by destruct (_ =? 0).
Qed.

(** What a run of the job does: it ends well exactly when its environment is
    readable, names a namespace and asks for at least one key, the client can be made
    and, unless it is a dry run, the rotation succeeds; a dry run leaves the cluster
    as it is, and any other run is that one rotation of the Secret named. *)
Lemma main_run `{GoRuntime} {W} env (c : SecretClient W) `{!SecretReads c} rand clock w w' :
  main env (Ok c) rand clock w = (Ok tt, w') <->
  exists dryRun n,
    getEnvBool env EnvDryRun false = Ok dryRun /\ resolveNumberOfKeys env = Ok n /\
    env EnvSecretNamespace <> "" /\ 1 <= n /\
    if dryRun : bool then w' = w
    else RotateSecret c rand clock (getEnv env EnvSecretName DefaultSecretName)
           (env EnvSecretNamespace) n w = (Ok tt, w').
Proof.
  unfold main, st_bind, st_lift, st_try.
  destruct (getEnvBool env EnvDryRun false) as [dry|e]; [|split; [done|naive_solver]].
  destruct (resolveNumberOfKeys env) as [n|e]; [|split; [done|naive_solver]].
  case_bool_decide as Hns; [split; [done|naive_solver]|].
  destruct (n <? 1) eqn:Hn.
  { apply Z.ltb_lt in Hn. split; [done|]. intros (? & ? & ? & [= <-] & ? & ? & _). lia. }
  apply Z.ltb_ge in Hn. cbn [wrap_err].
  pose proof (ValidateSecret_pure c (getEnv env EnvSecretName DefaultSecretName)
                (env EnvSecretNamespace) w) as Hv.
  destruct (ValidateSecret _ _ _ _) as [r w1]. cbn in Hv. subst w1.
  split.
  - intros Hm. exists dry, n. split_and!; try done.
    destruct dry; [by injection Hm as <-|].
    unfold st_wrap in Hm. destruct (RotateSecret _ _ _ _ _ _ w) as [[[]|] ?]; naive_solver.
  - intros (d & m & [= <-] & [= <-] & _ & _ & Hm). destruct dry; [by subst|].
    unfold st_wrap. by rewrite Hm.
Qed.

(** The derived number: the token's life in rotation intervals, rounded up, plus
    one. *)
Lemma resolveNumberOfKeys_derived env ttl interval :
  env EnvNumberOfKeys = "" ->
  ParseDuration (env EnvTokenTTL) = Ok ttl -> ParseDuration (env EnvRotationInterval) = Ok interval ->
  0 <= ttl < 2 ^ 53 -> 0 < interval < 2 ^ 53 ->
  resolveNumberOfKeys env = Ok (ceil_div ttl interval + 1).
Proof.
  intros Hn Ht Hi Hb1 Hb2. unfold resolveNumberOfKeys, getEnvDuration.
  rewrite bool_decide_true, !bool_decide_false
    by (done || by eapply ParseDuration_nonempty). cbn [negb andb].
  rewrite Ht, Hi. cbn [mbind result_bind]. by rewrite deriveNumberOfKeys_exact.
Qed.

Example eight_hours_hourly :
  resolveNumberOfKeys (fun key => if String.eqb key EnvTokenTTL then "8h"
                                  else if String.eqb key EnvRotationInterval then "1h" else "")
  = Ok 9.
Proof. vm_compute. reflexivity. Qed.
