(* ===== verification/JwtSigner.v ===== *)
(** * JwtSigner: token signing and validation, internal/jwt

    [StandardSigner] (the key ring, the cool-off before a new key signs,
    generation and validation of tokens, the Secret watch), [Manager] (refresh
    window and horizon) and the signer factories.  The golang-jwt library is a
    parameter with its documented behaviour as laws; wall-clock readings are
    inputs. *)

From S2P Require Import Prelude JwtKeys Rotator.

(** ** Claims *)

(** Claims represents the JWT claims for our auth token: the registered claims
    of golang-jwt ([NumericDate] pointers as options) and the fields added. *)
Record Claims := mkClaims {
  ExpiresAt : option Time;
  IssuedAt : option Time;
  NotBefore : option Time;
  Issuer : string;
  Audience : list string;
  Subject : string;
  User : string;
  Groups : list string;
  UID : string;
  Extra : gmap string (list string);
  Path : string;
  Domain : string;
  TokenType : string;
  SkipRefresh : bool;
}.

#[global] Instance Claims_eq_dec : EqDecision Claims.
Proof. solve_decision. Defined.

Definition TokenTypeBootstrap : string := "bootstrap".
Definition TokenTypeSession : string := "session".

Definition ErrInvalidToken : error := Sentinel "invalid token".
Definition ErrTokenExpired : error := Sentinel "token expired".
Definition ErrInvalidSignature : error := Sentinel "invalid token signature".
Definition ErrInvalidClaims : error := Sentinel "invalid token claims".

(** A nil-pointer dereference: the goroutine panics. *)
Definition panic_nil : error := Sentinel "panic: nil pointer dereference".

(** ** The golang-jwt library *)

(** The header fields the code sets or reads; [kid] is absent or a string. *)
Record Header := mkHeader { hdr_alg : string; hdr_kid : option string }.

(** The parser options ValidateToken passes. *)
Record ParserOptions := mkParserOptions {
  opt_issuer : string;
  opt_audience : string;
  opt_methods : list string;
  opt_leeway : Duration;
}.

(** The outcome of a parse: [Token.Valid] and the type assertion on the claims. *)
Record ParsedToken := mkParsedToken { tok_Valid : bool; tok_Claims : option Claims }.

(** Tokens are opaque strings to this code. *)
Class JwtLib := {
  Tok : Type;
  NewNumericDate : Time -> Time;
  SignedString : Header -> Claims -> bytes -> result Tok;
  ParseWithClaims : Tok -> (Header -> result bytes) -> ParserOptions -> Time -> result ParsedToken;
  (** [Signed tok h c k]: the bytes of [tok] are header [h] and claims [c] with a
      valid MAC under [k]. *)
  Signed : Tok -> Header -> Claims -> bytes -> Prop;
}.

(** The time checks of the default validator, with leeway. *)
Definition times_ok (c : Claims) (leeway : Duration) (now : Time) : Prop :=
  (forall e, ExpiresAt c = Some e -> now < e + leeway) /\
  (forall b, NotBefore c = Some b -> b - leeway <= now).

(** Documented behaviour of golang-jwt v5 that the code relies on: an empty
    expected issuer is not checked, an empty audience never matches.  Claims are taken
    as text that JSON carries unchanged: encoding/json writes bytes that are not UTF-8
    as U+FFFD, which [signed_content] leaves out. *)
Class JwtLaws (L : JwtLib) : Prop := {
  numeric_date_second : forall t, NewNumericDate t = t - t mod Second;
  signed_string_signs : forall h c k tok, SignedString h c k = Ok tok -> Signed tok h c k;
  signed_string_total : forall h c key, exists tok, SignedString h c (Some key) = Ok tok;
  signed_content : forall tok h c k h' c' k',
    Signed tok h c k -> Signed tok h' c' k' -> h = h' /\ c = c';
  parse_sound : forall tok kf o now p, ParseWithClaims tok kf o now = Ok p ->
    tok_Valid p = true /\
    exists h c k, tok_Claims p = Some c /\ Signed tok h c k /\ kf h = Ok k /\
      hdr_alg h ∈ opt_methods o /\
      (opt_issuer o <> "" -> Issuer c = opt_issuer o) /\
      (opt_audience o <> "" -> opt_audience o ∈ Audience c) /\
      times_ok c (opt_leeway o) now;
  parse_complete : forall tok kf o now h c k,
    Signed tok h c k -> kf h = Ok k -> hdr_alg h ∈ opt_methods o ->
    Issuer c = opt_issuer o -> opt_audience o ∈ Audience c -> opt_audience o <> "" ->
    times_ok c (opt_leeway o) now ->
    ParseWithClaims tok kf o now = Ok (mkParsedToken true (Some c));
}.

(** ** StandardSigner *)

Definition algHS384 : string := "HS384".

(** StandardSigner; its RWMutex makes each method below atomic on this state. *)
Record StandardSigner := mkStandardSigner {
  signingKeys : gmap string bytes;
  keyAddedTimes : gmap string Time;
  latestKid : string;
  newKeyUseDelay : Duration;
  issuer : string;
  audience : string;
  expiration : Duration;
}.

(** Successive readings of [time.Now()] within one call. *)
Definition Clock := nat -> Time.
Definition clock_next (clk : Clock) : Clock := fun n => clk (S n).

(** NewStandardSigner creates a new StandardSigner without initial keys. *)
Definition NewStandardSigner (issuer audience : string) (expiration newKeyUseDelay : Duration)
    : StandardSigner :=
  mkStandardSigner ∅ ∅ "" newKeyUseDelay issuer audience expiration.

Section signer.
Context `{GoRuntime}.

(** The loop choosing the latest usable kid. *)
Fixpoint usable_kid_loop (now : Time) (delay : Duration)
    (entries : list (string * Time)) (usableKid : string) : string :=
  match entries with
  | [] => usableKid
  | (kid, addedTime) :: rest =>
      let timeSinceAdded := time_Sub now addedTime in
      usable_kid_loop now delay rest
        (if delay <=? timeSinceAdded then
           if bool_decide (usableKid = "") || string_gt kid usableKid then kid else usableKid
         else usableKid)
  end.

(** getLatestKidAndKeyWithCoolOff returns the latest key ID and signing key
    that have passed the cooloff period. *)
Definition getLatestKidAndKeyWithCoolOff (s : StandardSigner) (now : Time) : string * bytes :=
  let usableKid := usable_kid_loop now (newKeyUseDelay s) (range (keyAddedTimes s)) "" in
  if bool_decide (usableKid = "") then ("", None)
  else (usableKid, default None (signingKeys s !! usableKid)).

Context `{JwtLib}.

(** generateTokenWithIssuedAt is the internal token generation method. *)
Definition generateTokenWithIssuedAt (s : StandardSigner) (clk : Clock)
    (username : string) (groups : list string) (uid : string)
    (extra : gmap string (list string)) (path domain tokenType : string)
    (skipRefresh : bool) (issuedAt : Time) : result Tok :=
  let '(usableKid, signingKey) := getLatestKidAndKeyWithCoolOff s (clk 0%nat) in
  if bool_decide (usableKid = "") || bool_decide (signingKey = None) then
    Fail (Errorf "no signing key available beyond cooloff period (%v)"
            [Sprint_int (newKeyUseDelay s)])
  else
    let now := clk 1%nat in
    let claims := {|
      ExpiresAt := Some (NewNumericDate (time_Add now (expiration s)));
      IssuedAt := Some (NewNumericDate issuedAt);
      NotBefore := Some (NewNumericDate now);
      Issuer := issuer s;
      Audience := [audience s];
      Subject := username;
      User := username;
      Groups := groups;
      UID := uid;
      Extra := extra;
      Path := path;
      Domain := domain;
      TokenType := tokenType;
      SkipRefresh := skipRefresh |} in
    SignedString (mkHeader algHS384 (Some usableKid)) claims signingKey.

(** GenerateToken creates a new JWT token for the given user and groups. *)
Definition GenerateToken (s : StandardSigner) (clk : Clock)
    (username : string) (groups : list string) (uid : string)
    (extra : gmap string (list string)) (path domain tokenType : string)
    (skipRefresh : bool) : result Tok :=
  let now := clk 0%nat in
  generateTokenWithIssuedAt s (clock_next clk) username groups uid extra path domain
    tokenType skipRefresh now.

(** GenerateRefreshToken creates a new JWT token preserving the original IssuedAt. *)
Definition GenerateRefreshToken (s : StandardSigner) (clk : Clock) (claims : option Claims)
    : result Tok :=
  match claims with
  | None => Fail (Errorf "claims cannot be nil" [])
  | Some claims =>
      match IssuedAt claims with
      | None => Fail (Errorf "claims.IssuedAt cannot be nil" [])
      | Some iat =>
          generateTokenWithIssuedAt s clk (User claims) (Groups claims) (UID claims)
            (Extra claims) (Path claims) (Domain claims) (TokenType claims) false iat
      end
  end.

(** The key function ValidateToken gives the parser. *)
Definition keyfunc (s : StandardSigner) (h : Header) : result bytes :=
  if negb (bool_decide (hdr_alg h ∈ ["HS256"; "HS384"; "HS512"])) then
    Fail (Errorf "unexpected signing method: %v" [hdr_alg h])
  else if negb (bool_decide (hdr_alg h = algHS384)) then
    Fail (Errorf "unexpected algorithm: %v, expected HS384" [hdr_alg h])
  else
    match hdr_kid h with
    | None => Fail (Errorf "missing or invalid kid in token header" [])
    | Some kid =>
        if bool_decide (kid = "") then
          Fail (Errorf "missing or invalid kid in token header" [])
        else
          match default None (signingKeys s !! kid) with
          | None => Fail (Errorf "unknown key ID: %s" [kid])
          | Some key => Ok (Some key)
          end
    end.

Definition validation_options (s : StandardSigner) : ParserOptions :=
  mkParserOptions (issuer s) (audience s) [algHS384] (5 * Second).

(** ValidateToken validates and parses the token. *)
Definition ValidateToken (s : StandardSigner) (now : Time) (tokenString : Tok) : result Claims :=
  match ParseWithClaims tokenString (keyfunc s) (validation_options s) now with
  | Fail err =>
      if ErrorIs err "jwt5.ErrTokenExpired" then Fail ErrTokenExpired
      else if ErrorIs err "jwt5.ErrTokenSignatureInvalid" then Fail ErrInvalidSignature
      else Fail (Wrapf "%w: %v" [] ErrInvalidToken)
  | Ok token =>
      if negb (tok_Valid token) then Fail ErrInvalidToken
      else match tok_Claims token with
           | None => Fail ErrInvalidClaims
           | Some claims => Ok claims
           end
  end.

(** UpdateKeys atomically updates the signing keys; known kids keep the time
    they were first seen, new ones are stamped with [now]. *)
Definition UpdateKeys (s : StandardSigner) (now : Time) (keys : gmap string bytes)
    (latest : string) : result StandardSigner :=
  if bool_decide (keys = ∅) then Fail (Errorf "signingKeys cannot be empty" [])
  else match keys !! latest with
  | None => Fail (Errorf "latestKid %s not found in signingKeys" [latest])
  | Some _ =>
      let newKeyAddedTimes :=
        map_imap (fun kid _ => Some (default now (keyAddedTimes s !! kid))) keys in
      Ok (mkStandardSigner keys newKeyAddedTimes latest
            (newKeyUseDelay s) (issuer s) (audience s) (expiration s))
  end.

(** RetrieveInitialSecret loads the initial JWT signing keys from the secret. *)
Definition RetrieveInitialSecret {W} (runtimeClient : SecretClient W) (now : Time)
    (secretName namespace : string) (s : StandardSigner) : ST W StandardSigner :=
  (secret <- st_wrap "failed to get JWT signing secret %s: %w" [secretName]
               (secret_Get runtimeClient secretName namespace) ;;
   keys <- st_lift (wrap_err "failed to parse signing keys from secret: %w" []
                      (ParseSigningKeysFromSecret secret)) ;;
   st_lift (wrap_err "failed to update signing keys: %w" []
              (UpdateKeys s now keys.1 keys.2)))%go.

(** updateSignerFromSecret of RegisterSecretWatch: failures are logged and the
    signer keeps its keys. *)
Definition updateSignerFromSecret (now : Time) (secret : Secret) (s : StandardSigner)
    : StandardSigner :=
  match ParseSigningKeysFromSecret secret with
  | Fail _ => s
  | Ok (keys, latest) =>
      match UpdateKeys s now keys latest with
      | Fail _ => s
      | Ok s' => s'
      end
  end.

(** The informer events of the watched Secrets. *)
Inductive SecretEvent :=
| SecretAdded (secret : Secret)
| SecretUpdated (secret : Secret)
| SecretDeleted (secret : Secret).

(** The event handlers RegisterSecretWatch installs: only the configured
    Secret is processed, and its deletion only logs. *)
Definition handleSecretEvent (secretName namespace : string) (now : Time)
    (ev : SecretEvent) (s : StandardSigner) : StandardSigner :=
  match ev with
  | SecretAdded secret | SecretUpdated secret =>
      if bool_decide (secret_Name secret = secretName) &&
         bool_decide (secret_Namespace secret = namespace)
      then updateSignerFromSecret now secret s else s
  | SecretDeleted _ => s
  end.
End signer.

(** ** The key ring *)

(** The transitions of a signer's key ring: the initial load from the Secret and
    the informer events, each at its own time. *)
Inductive ring_step `{GoRuntime} {W} (client : SecretClient W) (secretName namespace : string)
    : StandardSigner -> StandardSigner -> Prop :=
| step_initial now w w' s s' :
    RetrieveInitialSecret client now secretName namespace s w = (Ok s', w') ->
    ring_step client secretName namespace s s'
| step_event now ev s :
    ring_step client secretName namespace s (handleSecretEvent secretName namespace now ev s).

(** [ring_ok]: each key of the ring carries the time it was first seen, each kid
    is a decimal timestamp, and the latest kid is in the ring with the greatest
    timestamp, a positive one. *)
Definition ring_ok (s : StandardSigner) : Prop :=
  dom (keyAddedTimes s) = dom (signingKeys s) /\
  ((signingKeys s = ∅ /\ latestKid s = "") \/
   exists latest, 0 < latest /\ ParseInt64 (latestKid s) = Ok latest /\
     is_Some (signingKeys s !! latestKid s) /\
     forall kid, is_Some (signingKeys s !! kid) -> exists t, ParseInt64 kid = Ok t /\ t <= latest).

Lemma UpdateKeys_Ok s now keys latest s' :
  UpdateKeys s now keys latest = Ok s' ->
  signingKeys s' = keys /\ latestKid s' = latest /\ is_Some (keys !! latest) /\
  (forall kid, keyAddedTimes s' !! kid =
     if keys !! kid then Some (default now (keyAddedTimes s !! kid)) else None) /\
  issuer s' = issuer s /\ audience s' = audience s /\ expiration s' = expiration s /\
  newKeyUseDelay s' = newKeyUseDelay s.
Proof.
  unfold UpdateKeys. case_bool_decide; [done|].
  destruct (keys !! latest) eqn:E; [|done]. intros [= <-]. cbn. split_and!; eauto.
  intros kid. rewrite map_lookup_imap. by destruct (keys !! kid).
Qed.

Lemma UpdateKeys_dom s now keys latest s' :
  UpdateKeys s now keys latest = Ok s' -> dom (keyAddedTimes s') = dom (signingKeys s').
Proof.
  intros (-> & _ & _ & Ht & _)%UpdateKeys_Ok. apply set_eq. intros kid.
  rewrite !elem_of_dom, Ht. by destruct (keys !! kid).
Qed.

(** The configuration of a signer, which key updates do not touch. *)
Definition signer_config (s : StandardSigner) : string * string * Duration * Duration :=
  (issuer s, audience s, expiration s, newKeyUseDelay s).

Section ring.
Context `{GoRuntime}.

(** Keys parsed from a Secret and accepted by UpdateKeys make a sound ring. *)
Lemma UpdateKeys_parsed_ok s now secret keys latest s' :
  ParseSigningKeysFromSecret secret = Ok (keys, latest) ->
  UpdateKeys s now keys latest = Ok s' -> ring_ok s'.
Proof.
  intros Hp Hu. split; [by eapply UpdateKeys_dom|right].
  destruct (ParseSigningKeysFromSecret_Ok _ _ _ Hp) as (data & Hd & _ & _).
  destruct (ParseSigningKeysFromSecret_spec _ _ _ _ Hd Hp) as (_ & _ & ts & H0 & Hall & Hl).
  destruct (UpdateKeys_Ok _ _ _ _ _ Hu) as (-> & -> & Hin & _).
  destruct Hl as [[-> ->]|(_ & Hk & Hpos)]; [|by exists ts].
  destruct (Hall _ Hin) as (t & Ht & _). by apply ParseInt64_nonempty in Ht.
Qed.

Lemma RetrieveInitialSecret_Ok {W} (client : SecretClient W) now name ns s w s' w' :
  RetrieveInitialSecret client now name ns s w = (Ok s', w') ->
  exists secret keys latest, secret_Get client name ns w = (Ok secret, w') /\
    ParseSigningKeysFromSecret secret = Ok (keys, latest) /\
    UpdateKeys s now keys latest = Ok s'.
Proof.
  unfold RetrieveInitialSecret, st_bind, st_wrap, st_lift.
  destruct (secret_Get client name ns w) as [[secret|e] w1]; cbn; [|done].
  destruct (ParseSigningKeysFromSecret secret) as [[keys latest]|] eqn:Hp; cbn; [|done].
  intros [= E <-]. apply wrap_err_Ok in E. eauto 10.
Qed.

(** A step either keeps the signer or installs keys parsed from a Secret. *)
Lemma ring_step_cases {W} (client : SecretClient W) name ns s s' :
  ring_step client name ns s s' ->
  s' = s \/ exists now secret keys latest,
    ParseSigningKeysFromSecret secret = Ok (keys, latest) /\
    UpdateKeys s now keys latest = Ok s'.
Proof.
  intros [now w w' s0 s1 (secret & keys & latest & _ & Hp & Hu)%RetrieveInitialSecret_Ok
         |now ev s0]; [by right; eauto 10|].
  unfold handleSecretEvent, updateSignerFromSecret.
  destruct ev; try case_match; try (by left);
    (destruct (ParseSigningKeysFromSecret secret) as [[keys latest]|] eqn:Hp; [|by left];
     destruct (UpdateKeys s0 now keys latest) eqn:Hu; [right; eauto 10|by left]).
Qed.

(** Every step keeps the ring sound and the configuration unchanged. *)
Lemma ring_step_ok {W} (client : SecretClient W) name ns iss aud exp delay s s' :
  ring_step client name ns s s' ->
  ring_ok s /\ signer_config s = (iss, aud, exp, delay) ->
  ring_ok s' /\ signer_config s' = (iss, aud, exp, delay).
Proof.
  intros [->|(now & secret & keys & latest & Hp & Hu)]%ring_step_cases Hs; [exact Hs|].
  destruct Hs as [_ Hc]. split; [by eapply UpdateKeys_parsed_ok|].
  apply UpdateKeys_Ok in Hu as (_ & _ & _ & _ & E1 & E2 & E3 & E4).
  unfold signer_config in *. congruence.
Qed.
End ring.

(** ** The cool-off *)

Section cooloff.
Context `{GoRuntime}.

(** A key may sign once it has been in the ring for the delay. *)
Definition usable (s : StandardSigner) (now : Time) (kid : string) : Prop :=
  exists t, keyAddedTimes s !! kid = Some t /\ newKeyUseDelay s <= time_Sub now t.

Lemma usable_kid_loop_spec now delay entries acc :
  let kid := usable_kid_loop now delay entries acc in
  (kid = acc \/ exists t, (kid, t) ∈ entries /\ delay <= time_Sub now t) /\
  string_gt acc kid = false /\ (acc <> "" -> kid <> "") /\
  forall k t, (k, t) ∈ entries -> delay <= time_Sub now t ->
    string_gt k kid = false /\ (k <> "" -> kid <> "").
Proof.
  revert acc. induction entries as [|[k t] rest IH]; intros acc; cbn [usable_kid_loop].
  { split_and!; [by left|apply string_gt_irrefl|done|by intros ? ? ?%elem_of_nil]. }
  set (acc' := if delay <=? time_Sub now t then _ else acc).
  destruct (IH acc') as (Hor & Hgt & Hne & Hall).
  set (r := usable_kid_loop now delay rest acc') in *.
  assert (Hacc : (acc' = acc \/ acc' = k /\ delay <= time_Sub now t) /\
    (string_gt acc acc' = false) /\ (acc <> "" -> acc' <> "") /\
    (delay <= time_Sub now t -> string_gt k acc' = false /\ (k <> "" -> acc' <> ""))).
  { unfold acc'. destruct (Z.leb_spec delay (time_Sub now t)); cycle 1.
    { split_and!; [by left|apply string_gt_irrefl|done|lia]. }
    case_bool_decide as He; cbn [orb].
    { subst. split_and!; [by right| |done|by rewrite string_gt_irrefl].
      by destruct k. }
    destruct (string_gt k acc) eqn:Hk.
    - split_and!; [by right| | |by rewrite string_gt_irrefl].
      + by apply string_gt_asym.
      + intros _ ->. by destruct acc.
    - split_and!; [by left|apply string_gt_irrefl|done|done]. }
  destruct Hacc as (Ha1 & Ha2 & Ha3 & Ha4).
  split_and!.
  - destruct Hor as [->|(u & Hu & ?)].
    + destruct Ha1 as [->|[-> ?]]; [by left|right; exists t; split; [left|]; done].
    + right. exists u. split; [by right|done].
  - by eapply string_ngt_trans.
  - auto.
  - intros k' t' [[= -> ->]|Hin]%elem_of_cons Hd; [|by eapply Hall].
    destruct (Ha4 Hd). split; [by eapply string_ngt_trans|auto].
Qed.

(** The key chosen for signing, when each key of the ring has its time. *)
Lemma getLatestKidAndKeyWithCoolOff_spec s now :
  dom (keyAddedTimes s) = dom (signingKeys s) ->
  let '(kid, key) := getLatestKidAndKeyWithCoolOff s now in
  (kid = "" /\ key = None /\ forall k, usable s now k -> k = "") \/
  (kid <> "" /\ usable s now kid /\ signingKeys s !! kid = Some key /\
   forall k, usable s now k -> string_gt k kid = false).
Proof.
  intros Hdom. unfold getLatestKidAndKeyWithCoolOff.
  destruct (usable_kid_loop_spec now (newKeyUseDelay s) (range (keyAddedTimes s)) "")
    as (Hor & _ & _ & Hall).
  set (kid := usable_kid_loop _ _ _ _) in *.
  assert (Hmax : forall k, usable s now k -> string_gt k kid = false /\ (k <> "" -> kid <> "")).
  { intros k (t & Ht & Hd). eapply Hall; [by apply elem_of_range|done]. }
  case_bool_decide as He; cbn.
  - left. split_and!; [done..|]. intros k Hk. destruct (Hmax k Hk) as [_ Hne].
    destruct (decide (k = "")); [done|tauto].
  - right. destruct Hor as [?|(t & Ht%elem_of_range & Hd)]; [done|].
    assert (Hin : kid ∈ dom (signingKeys s)) by (rewrite <- Hdom; by apply elem_of_dom_2 in Ht).
    apply elem_of_dom in Hin as [key Hkey]. rewrite Hkey. cbn.
    split_and!; [done|by exists t|done|]. intros k Hk. by apply Hmax.
Qed.
End cooloff.

(** ** Generation and validation *)

Section tokens.
Context `{GoRuntime} {L : JwtLib} {LW : JwtLaws L}.

(** The claims a signer puts in a token at time [now]. *)
Definition issued_claims (s : StandardSigner) (now iat : Time) (username : string)
    (groups : list string) (uid : string) (extra : gmap string (list string))
    (path domain tokenType : string) (skipRefresh : bool) (c : Claims) : Prop :=
  ExpiresAt c = Some (NewNumericDate (now + expiration s)) /\
  IssuedAt c = Some (NewNumericDate iat) /\ NotBefore c = Some (NewNumericDate now) /\
  Issuer c = issuer s /\ Audience c = [audience s] /\ Subject c = username /\
  User c = username /\ Groups c = groups /\ UID c = uid /\ Extra c = extra /\
  Path c = path /\ Domain c = domain /\ TokenType c = tokenType /\ SkipRefresh c = skipRefresh.

(** What the internal generator signs, and when it refuses. *)
Lemma generateTokenWithIssuedAt_spec s clk u g uid e pa d ty sk iat :
  match generateTokenWithIssuedAt s clk u g uid e pa d ty sk iat with
  | Ok tok => exists kid key c,
      getLatestKidAndKeyWithCoolOff s (clk 0%nat) = (kid, Some key) /\ kid <> "" /\
      Signed tok (mkHeader algHS384 (Some kid)) c (Some key) /\
      issued_claims s (clk 1%nat) iat u g uid e pa d ty sk c
  | Fail _ => let '(kid, key) := getLatestKidAndKeyWithCoolOff s (clk 0%nat) in
      kid = "" \/ key = None
  end.
Proof.
  unfold generateTokenWithIssuedAt.
  destruct (getLatestKidAndKeyWithCoolOff s (clk 0%nat)) as [kid key].
  case_bool_decide as Hk; cbn [orb]; [by left|].
  case_bool_decide as Hkey; cbn [orb]; [by right|].
  destruct key as [key|]; [|done].
  match goal with |- context [SignedString ?h ?c (Some key)] =>
    destruct (signed_string_total h c key) as [tok Htok]; rewrite Htok;
    exists kid, key, c end.
  split_and!; [done|done|by apply signed_string_signs|]. by unfold issued_claims.
Qed.

Lemma keyfunc_Ok s h k :
  keyfunc s h = Ok k <->
  hdr_alg h = algHS384 /\ exists kid key, hdr_kid h = Some kid /\ kid <> "" /\
    signingKeys s !! kid = Some (Some key) /\ k = Some key.
Proof.
  unfold keyfunc. destruct h as [alg kid]. cbn [hdr_alg hdr_kid].
  destruct (decide (alg = algHS384)) as [->|Ha]; cycle 1.
  { rewrite (bool_decide_false (alg = algHS384)) by done. cbn.
    split; [by case_bool_decide|by intros [? _]]. }
  rewrite (bool_decide_true (algHS384 = algHS384)) by done.
  rewrite bool_decide_true by (right; left). cbn.
  destruct kid as [kid|]; [|by split; [|intros (_ & ? & ? & ? & _)]].
  case_bool_decide; [by split; [|intros (_ & ? & ? & [= <-] & ? & _)]|].
  destruct (signingKeys s !! kid) as [[key|]|] eqn:E; cbn; split; intros Hh.
  all: try (by destruct Hh as (_ & ? & ? & [= <-] & _ & ? & ?); congruence).
  - injection Hh as <-. split; [done|]. by exists kid, key.
  - done.
  - done.
Qed.

(** Everything a token that validates is known to satisfy. *)
Lemma ValidateToken_Ok s now tok c :
  ValidateToken s now tok = Ok c ->
  exists kid key, kid <> "" /\ signingKeys s !! kid = Some (Some key) /\
    Signed tok (mkHeader algHS384 (Some kid)) c (Some key) /\
    (issuer s <> "" -> Issuer c = issuer s) /\
    (audience s <> "" -> audience s ∈ Audience c) /\ times_ok c (5 * Second) now.
Proof.
  unfold ValidateToken.
  destruct (ParseWithClaims _ _ _ _) as [p|err] eqn:Hp; [|by repeat case_match].
  destruct (parse_sound _ _ _ _ _ Hp)
    as (Hv & h & c' & k & Hc & Hs & Hk & _ & Hi & Ha & Ht).
  rewrite Hv, Hc. cbn. intros [= <-].
  apply keyfunc_Ok in Hk as (Halg & kid & key & Hkid & Hne & Hin & ->).
  exists kid, key. split_and!; try done. destruct h as [alg kd]; cbn in *. by subst.
Qed.

(** A token signed under a key of the ring, with this signer's issuer and
    audience and within its validity, is accepted with the claims it carries. *)
Lemma ValidateToken_complete s now tok kid key c :
  Signed tok (mkHeader algHS384 (Some kid)) c (Some key) ->
  kid <> "" -> signingKeys s !! kid = Some (Some key) ->
  Issuer c = issuer s -> audience s ∈ Audience c -> audience s <> "" ->
  times_ok c (5 * Second) now -> ValidateToken s now tok = Ok c.
Proof.
  intros Hs Hne Hin Hi Ha Hna Ht. unfold ValidateToken.
  erewrite parse_complete; [reflexivity|exact Hs| |by left|done..].
  apply keyfunc_Ok. split; [done|]. by exists kid, key.
Qed.

Lemma numeric_date_bounds t : t - Second < NewNumericDate t <= t.
Proof.
  rewrite numeric_date_second. pose proof (Z.mod_pos_bound t Second). unfold Second in *. lia.
Qed.

(** Tokens are within their validity from five seconds before issuance until
    they expire. *)
Lemma issued_times_ok s now iat u g uid e pa d ty sk c t :
  issued_claims s now iat u g uid e pa d ty sk c ->
  now - 5 * Second <= t <= now + expiration s -> times_ok c (5 * Second) t.
Proof.
  intros (He & _ & Hn & _) Ht. split.
  - intros e'. rewrite He. intros [= <-].
    pose proof (numeric_date_bounds (now + expiration s)). unfold Second in *. lia.
  - intros b. rewrite Hn. intros [= <-].
    pose proof (numeric_date_bounds now). unfold Second in *. lia.
Qed.
(** A generated token, who signed it, and who accepts it until when. *)
Lemma GenerateToken_valid s clk u g uid e pa d ty sk tok :
  GenerateToken s clk u g uid e pa d ty sk = Ok tok ->
  exists kid key c, getLatestKidAndKeyWithCoolOff s (clk 1%nat) = (kid, Some key) /\ kid <> "" /\
    Signed tok (mkHeader algHS384 (Some kid)) c (Some key) /\
    issued_claims s (clk 2%nat) (clk 0%nat) u g uid e pa d ty sk c /\
    forall s' now, issuer s' = issuer s -> audience s' = audience s -> audience s <> "" ->
      signingKeys s' !! kid = Some (Some key) ->
      clk 2%nat - 5 * Second <= now <= clk 2%nat + expiration s ->
      ValidateToken s' now tok = Ok c.
Proof.
  unfold GenerateToken. intros Hg.
  pose proof (generateTokenWithIssuedAt_spec s (clock_next clk) u g uid e pa d ty sk (clk 0%nat))
    as Hspec. rewrite Hg in Hspec. destruct Hspec as (kid & key & c & Hget & Hne & Hs & Hc).
  exists kid, key, c. split_and!; try done. intros s' now Hi Ha Hna Hin Hnow.
  pose proof Hc as (_ & _ & _ & Ci & Ca & _).
  eapply ValidateToken_complete; try done; [congruence| |congruence|by eapply issued_times_ok].
  rewrite Ca, Ha. by left.
Qed.
End tokens.

(** ** A concrete token library, for evaluating the definitions *)

(** Tokens that carry their header, claims and MAC key in the clear. *)
Definition toy_times_ok (c : Claims) (leeway : Duration) (now : Time) : bool :=
  match ExpiresAt c with Some e => now <? e + leeway | None => true end &&
  match NotBefore c with Some b => b - leeway <=? now | None => true end.

Definition toy_parse (tok : Header * Claims * bytes) (kf : Header -> result bytes)
    (o : ParserOptions) (now : Time) : result ParsedToken :=
  let '(h, c, k) := tok in
  match kf h with
  | Fail e => Fail e
  | Ok k' =>
      if negb (bool_decide (k = k')) then Fail (Sentinel "jwt5.ErrTokenSignatureInvalid")
      else if negb (bool_decide (hdr_alg h ∈ opt_methods o)) then
        Fail (Sentinel "jwt5.ErrTokenSignatureInvalid")
      else if negb (toy_times_ok c (opt_leeway o) now) then Fail (Sentinel "jwt5.ErrTokenExpired")
      else if bool_decide (opt_issuer o = "" \/ Issuer c = opt_issuer o) &&
              bool_decide (opt_audience o <> "" /\ opt_audience o ∈ Audience c)
      then Ok (mkParsedToken true (Some c))
      else Fail (Sentinel "jwt5.ErrTokenInvalidClaims")
  end.

Definition toy_jwt : JwtLib := {|
  Tok := Header * Claims * bytes;
  NewNumericDate := fun t => t - t mod Second;
  SignedString := fun h c k => Ok (h, c, k);
  ParseWithClaims := toy_parse;
  Signed := fun tok h c k => tok = (h, c, k);
|}.

Lemma toy_times_ok_spec c leeway now : toy_times_ok c leeway now = true <-> times_ok c leeway now.
Proof.
  unfold toy_times_ok, times_ok. rewrite andb_true_iff.
  destruct (ExpiresAt c), (NotBefore c); rewrite ?Z.ltb_lt, ?Z.leb_le; naive_solver.
Qed.

#[export] Instance toy_laws : JwtLaws toy_jwt.
Proof.
  split; cbn.
  - done.
  - by intros ? ? ? ? [= ->].
  - eauto.
  - by intros tok ? ? ? ? ? ? -> [= -> ->].
  - intros [[h c] k] kf o now p. unfold toy_parse.
    destruct (kf h) as [k'|] eqn:Hk; [|done].
    case_bool_decide as E1; [subst|done]. case_bool_decide as E2; [|done]. cbn.
    destruct (toy_times_ok c (opt_leeway o) now) eqn:Ht; [|done]. cbn.
    case_bool_decide as E3; [|done]. case_bool_decide as E4; [|done].
    intros [= <-]. split; [done|]. exists h, c, k'. apply toy_times_ok_spec in Ht.
    destruct E4. split_and!; try done. by intros; destruct E3.
  - intros tok kf o now h c k -> Hk Hm Hi Ha Hne Ht. unfold toy_parse.
    apply toy_times_ok_spec in Ht. rewrite Hk, Ht.
    rewrite !bool_decide_true by naive_solver. done.
Qed.

(** A ring of one key, seen at time 0, and a clock stopped at [t]. *)
Definition demo_signer : StandardSigner :=
  mkStandardSigner {["1700000000" := Some "k"]} {["1700000000" := 0]} "1700000000"
    (5 * Second) "iss" "aud" (60 * Second).
Definition demo_clock (t : Time) : Clock := fun _ => t.

(** ** Properties *)

(** [C30] From an empty signer, through any sequence of initial loads and Secret
    events at any times: every key of the ring has the time it was first seen
    and no other does; every kid is a decimal timestamp; the latest kid is a
    member of the ring with the greatest timestamp; issuer, audience, token
    lifetime and cool-off never change; and a key present before and after one
    more step keeps its first-seen time, so its cool-off never restarts. *)
Theorem signer_ring_invariant `{GoRuntime} {W} (client : SecretClient W)
    (secretName namespace iss aud : string) (exp delay : Duration) (s : StandardSigner) :
  rtc (ring_step client secretName namespace) (NewStandardSigner iss aud exp delay) s ->
  ring_ok s /\ issuer s = iss /\ audience s = aud /\ expiration s = exp /\
  newKeyUseDelay s = delay /\
  (forall s' kid t, ring_step client secretName namespace s s' ->
    keyAddedTimes s !! kid = Some t -> is_Some (signingKeys s' !! kid) ->
    keyAddedTimes s' !! kid = Some t).
Proof.
  intros Hr. assert (Hinv : ring_ok s /\ signer_config s = (iss, aud, exp, delay)).
  { revert s Hr. apply rtc_ind_r; [|eauto using ring_step_ok].
    split; [split; [done|by left]|done]. }
  destruct Hinv as [Hok [= -> -> -> ->]]. split_and!; try done.
  intros s' kid t [->|(now & secret & keys & latest & _ & Hu)]%ring_step_cases Ht Hin; [done|].
  destruct (UpdateKeys_Ok _ _ _ _ _ Hu) as (E & _ & _ & Hk & _).
  rewrite E in Hin. destruct Hin as [v Hv]. by rewrite Hk, Hv, Ht.
Qed.

(** A Secret with one key, delivered as an informer event. *)
Definition demo_secret : Secret :=
  mkSecret "jwt" "default" (Some {[BuildKeyName 1700000000 := Some "k"]}).

Lemma signer_ring_invariant_witness :
  ring_ok (@handleSecretEvent canonical_runtime "jwt" "default" 7 (SecretAdded demo_secret)
    (NewStandardSigner "iss" "aud" 60 5)).
Proof.
  apply (@signer_ring_invariant canonical_runtime _ mem_client "jwt" "default" "iss" "aud" 60 5).
  eapply rtc_l; [apply step_event|apply rtc_refl].
Defined.

(** The cool-off: for every map order, the key chosen for signing has been
    in the ring for at least newKeyUseDelay and no usable kid is greater in
    string order; when none is returned, no key of the ring is usable. *)
Theorem cooloff_selection `{GoRuntime} (s : StandardSigner) (now : Time) :
  ring_ok s ->
  let '(kid, key) := getLatestKidAndKeyWithCoolOff s now in
  (kid = "" /\ key = None /\ forall k, ~ usable s now k) \/
  (kid <> "" /\ usable s now kid /\ signingKeys s !! kid = Some key /\
   forall k, usable s now k -> string_gt k kid = false).
Proof.
  intros [Hdom Hring]. pose proof (getLatestKidAndKeyWithCoolOff_spec s now Hdom) as Hspec.
  destruct (getLatestKidAndKeyWithCoolOff s now) as [kid key].
  destruct Hspec as [(? & ? & He)|?]; [left|by right]. split_and!; try done.
  intros k Hk. rewrite (He k Hk) in Hk. destruct Hk as (t & Ht%elem_of_dom_2 & _).
  rewrite Hdom in Ht. apply elem_of_dom in Ht.
  destruct Hring as [[E _]|(latest & _ & _ & _ & Hall)].
  - rewrite E, lookup_empty in Ht. by destruct Ht.
  - by destruct (Hall _ Ht) as (? & ?%ParseInt64_nonempty & _).
Qed.

Lemma demo_signer_ok : ring_ok demo_signer.
Proof.
  split; [reflexivity|right]. exists 1700000000. split_and!; [done|reflexivity|by eexists|].
  intros kid [v Hv]. cbn in Hv. apply lookup_singleton_Some in Hv as [<- _].
  by exists 1700000000.
Qed.

Lemma cooloff_selection_witness :
  string_gt "1700000000" (@getLatestKidAndKeyWithCoolOff canonical_runtime demo_signer (9 * Second)).1
  = false.
Proof.
  pose proof (@cooloff_selection canonical_runtime demo_signer (9 * Second) demo_signer_ok) as Hc.
  change (@getLatestKidAndKeyWithCoolOff canonical_runtime demo_signer (9 * Second))
    with ("1700000000", Some "k") in *.
  destruct Hc as [[? _]|(_ & _ & _ & Hm)]; [discriminate|].
  apply Hm. exists 0. split; [reflexivity|]. vm_compute. discriminate.
Defined.

(** The newest usable key signs: when the kids of the ring are decimal
    timestamps of one length (every rotation between 2001 and 2286), the key
    chosen has the greatest timestamp among those past the cool-off, although
    the code compares kids as strings. *)
Theorem newest_usable_key_signs `{GoRuntime} (s : StandardSigner) (now : Time) (n : nat)
    (kid : string) (key : bytes) :
  dom (keyAddedTimes s) = dom (signingKeys s) ->
  (forall k, is_Some (signingKeys s !! k) ->
     exists ts, 0 < ts /\ k = Sprint_int ts /\ String.length k = n) ->
  getLatestKidAndKeyWithCoolOff s now = (kid, key) -> kid <> "" ->
  exists ts, kid = Sprint_int ts /\ usable s now kid /\
    forall ts', usable s now (Sprint_int ts') -> 0 < ts' -> ts' <= ts.
Proof.
  intros Hdom Hkids E Hne. pose proof (getLatestKidAndKeyWithCoolOff_spec s now Hdom) as Hspec.
  rewrite E in Hspec. destruct Hspec as [[? _]|(_ & Hu & Hin & Hmax)]; [done|].
  destruct (Hkids kid) as (ts & Hpos & -> & Hlen); [by eexists|].
  exists ts. split_and!; try done. intros ts' Hu' Hpos'.
  pose proof (Hmax _ Hu') as Hgt. destruct Hu' as (t & Ht%elem_of_dom_2 & _).
  rewrite Hdom in Ht. apply elem_of_dom in Ht. destruct (Hkids _ Ht) as (_ & _ & _ & Hlen').
  rewrite Sprint_int_gt in Hgt by congruence. apply Z.ltb_ge in Hgt. lia.
Qed.

Definition two_key_signer : StandardSigner :=
  mkStandardSigner {["1700000000" := Some "k"; "1800000000" := Some "l"]}
    {["1700000000" := 0; "1800000000" := 0]} "1800000000" 5 "iss" "aud" 60.

Lemma newest_usable_key_signs_witness :
  exists ts, "1800000000" = Sprint_int ts /\ 1700000000 <= ts.
Proof.
  destruct (@newest_usable_key_signs canonical_runtime two_key_signer 9 10 "1800000000" (Some "l"))
    as (ts & E & _ & Hm); [reflexivity| |reflexivity|discriminate|].
  - intros k [v Hv]. cbn in Hv. apply lookup_insert_Some in Hv as [[<- _]|[_ Hv]].
    + by exists 1700000000.
    + apply lookup_singleton_Some in Hv as [<- _]. by exists 1800000000.
  - exists ts. split; [done|]. apply Hm; [|lia]. exists 0. split; [reflexivity|].
    vm_compute. discriminate.
Defined.

(** The string comparison is not the numeric one across lengths: of the kids 9
    and 10, both usable, 9 signs although 10 is the latest key. *)
Lemma shorter_kid_signs :
  let s := mkStandardSigner {["9" := Some "k"; "10" := Some "l"]} {["9" := 0; "10" := 0]}
             "10" 5 "iss" "aud" 60 in
  getLatestKidAndKeyWithCoolOff (H := canonical_runtime) s 9 = ("9", Some "k").
Proof. reflexivity. Qed.

(** [C1] Generate then validate: when a key past the cool-off is chosen,
    GenerateToken returns a token carrying exactly the given identity, path,
    domain, type and flag; and every signer with the same issuer and audience
    that holds that key under the same kid, this one or another pod's, accepts
    it from five seconds before its issuance until it expires, and returns
    those claims. *)
Theorem generate_validate_roundtrip `{GoRuntime} {L : JwtLib} {LW : JwtLaws L}
    (s : StandardSigner) (clk : Clock) (kid key : string)
    (u : string) (g : list string) (uid : string) (e : gmap string (list string))
    (pa d ty : string) (sk : bool) :
  getLatestKidAndKeyWithCoolOff s (clk 1%nat) = (kid, Some key) -> kid <> "" ->
  exists tok c, GenerateToken s clk u g uid e pa d ty sk = Ok tok /\
    issued_claims s (clk 2%nat) (clk 0%nat) u g uid e pa d ty sk c /\
    forall s' now, issuer s' = issuer s -> audience s' = audience s -> audience s <> "" ->
      signingKeys s' !! kid = Some (Some key) ->
      clk 2%nat - 5 * Second <= now <= clk 2%nat + expiration s ->
      ValidateToken s' now tok = Ok c.
Proof.
  intros Hget Hne. destruct (GenerateToken s clk u g uid e pa d ty sk) as [tok|err] eqn:Hg.
  - destruct (GenerateToken_valid _ _ _ _ _ _ _ _ _ _ _ Hg) as (kid' & key' & c & Hget' & _ & _ & Hc & Hv).
    rewrite Hget in Hget'. simplify_eq. by exists tok, c.
  - pose proof (generateTokenWithIssuedAt_spec s (clock_next clk) u g uid e pa d ty sk (clk 0%nat))
      as Hspec. change (generateTokenWithIssuedAt _ _ _ _ _ _ _ _ _ _ _) with
      (GenerateToken s clk u g uid e pa d ty sk) in Hspec. rewrite Hg in Hspec.
    change (clock_next clk 0%nat) with (clk 1%nat) in Hspec. rewrite Hget in Hspec.
    by destruct Hspec.
Qed.

Lemma generate_validate_roundtrip_witness :
  exists tok c, @GenerateToken canonical_runtime toy_jwt demo_signer (demo_clock (9 * Second))
      "alice" ["dev"] "u1" ∅ "/workspaces/ns/w" "example.com" TokenTypeSession false = Ok tok /\
    @ValidateToken toy_jwt demo_signer (60 * Second) tok = Ok c.
Proof.
  destruct (@generate_validate_roundtrip canonical_runtime toy_jwt toy_laws demo_signer
    (demo_clock (9 * Second)) "1700000000" "k" "alice" ["dev"] "u1" ∅ "/workspaces/ns/w"
    "example.com" TokenTypeSession false) as (tok & c & Hg & _ & Hv);
    [reflexivity|discriminate|].
  exists tok, c. split; [exact Hg|]. apply Hv; try reflexivity; [discriminate|].
  vm_compute. split; discriminate.
Defined.

(** [C2] Validation is sound: an accepted token is an HS384 token whose header
    names a non-empty kid, whose MAC is valid under the key this signer holds
    now under that kid, whose issuer and audience are the signer's, and which is
    neither expired nor premature by more than five seconds. *)
Theorem ValidateToken_sound {L : JwtLib} {LW : JwtLaws L}
    (s : StandardSigner) (now : Time) (tok : Tok) (c : Claims) :
  ValidateToken s now tok = Ok c -> issuer s <> "" -> audience s <> "" ->
  exists kid key, kid <> "" /\ signingKeys s !! kid = Some (Some key) /\
    Signed tok (mkHeader algHS384 (Some kid)) c (Some key) /\
    Issuer c = issuer s /\ audience s ∈ Audience c /\
    (forall t, ExpiresAt c = Some t -> now < t + 5 * Second) /\
    (forall t, NotBefore c = Some t -> t - 5 * Second <= now).
Proof.
  intros (kid & key & Hne & Hin & Hs & Hi & Ha & He & Hn)%ValidateToken_Ok Hni Hna.
  exists kid, key. split_and!; auto.
Qed.

Definition demo_claims : Claims :=
  mkClaims (Some (69 * Second)) (Some (9 * Second)) (Some (9 * Second)) "iss" ["aud"]
    "alice" "alice" [] "u1" ∅ "/workspaces/ns/w" "example.com" TokenTypeSession false.

Lemma ValidateToken_sound_witness :
  @ValidateToken toy_jwt demo_signer (60 * Second)
    (mkHeader algHS384 (Some "1700000000"), demo_claims, Some "k") = Ok demo_claims /\
  "aud" ∈ Audience demo_claims.
Proof.
  split; [reflexivity|].
  destruct (@ValidateToken_sound toy_jwt toy_laws demo_signer (60 * Second)
    (mkHeader algHS384 (Some "1700000000"), demo_claims, Some "k") demo_claims)
    as (kid & key & _ & _ & _ & _ & Ha & _); [reflexivity|discriminate|discriminate|exact Ha].
Defined.

(** Revocation: once the Secret's keys no longer contain the kid a token
    was signed with, the signer that has processed that update rejects the
    token, at any time and whatever the token claims. *)
Theorem rotated_out_key_rejected `{GoRuntime} {L : JwtLib} {LW : JwtLaws L}
    (secretName namespace : string) (t now : Time) (secret : Secret) (s : StandardSigner)
    (keys : gmap string bytes) (latest kid : string) (tok : Tok) (c : Claims) (key : bytes) :
  secret_Name secret = secretName -> secret_Namespace secret = namespace ->
  ParseSigningKeysFromSecret secret = Ok (keys, latest) -> latest <> "" ->
  keys !! kid = None -> Signed tok (mkHeader algHS384 (Some kid)) c key ->
  is_ok (ValidateToken (handleSecretEvent secretName namespace t (SecretUpdated secret) s) now tok)
  = false.
Proof.
  intros Hn Hns Hp Hl Hkid Hs. cbn. rewrite !bool_decide_true by done. cbn.
  unfold updateSignerFromSecret. rewrite Hp.
  destruct (ParseSigningKeysFromSecret_Ok _ _ _ Hp) as (data & Hd & _ & Hne).
  destruct (ParseSigningKeysFromSecret_spec _ _ _ _ Hd Hp) as (_ & _ & ts & _ & _ & Hlt).
  destruct Hlt as [[? _]|([v Hv] & _)]; [done|].
  destruct (UpdateKeys s t keys latest) as [s'|] eqn:Hu; cycle 1.
  { unfold UpdateKeys in Hu. rewrite bool_decide_false, Hv in Hu by done. done. }
  destruct (ValidateToken s' now tok) as [c'|] eqn:Hval; [|done].
  destruct (ValidateToken_Ok _ _ _ _ Hval) as (kid' & key' & _ & Hin & Hs' & _).
  destruct (signed_content _ _ _ _ _ _ _ Hs Hs') as [[= <-] _].
  apply UpdateKeys_Ok in Hu as (E & _). congruence.
Qed.

Lemma rotated_out_key_rejected_witness :
  is_ok (@ValidateToken toy_jwt
    (@handleSecretEvent canonical_runtime "jwt" "default" 7 (SecretUpdated demo_secret)
       (mkStandardSigner {["5" := Some "k"]} {["5" := 0]} "5" 5 "iss" "aud" 60))
    (60 * Second) (mkHeader algHS384 (Some "5"), demo_claims, Some "k")) = false.
Proof.
  refine (@rotated_out_key_rejected canonical_runtime toy_jwt toy_laws "jwt" "default" 7
    (60 * Second) demo_secret _ {["1700000000" := Some "k"]} "1700000000" "5" _ demo_claims
    (Some "k") _ _ _ _ _ _); try reflexivity. discriminate.
Defined.
