(* ===== verification/JwtManager.v ===== *)
(** * JwtManager: the token lifecycle, internal/jwt handler and signer factories

    The [Signer] interface, [Manager] (refresh window and horizon), the standard
    and composite signer factories, the contract a signer owes its clients and
    its proof for [StandardSigner]. *)

From S2P Require Import Prelude Api JwtKeys Rotator JwtSigner.

(** ** The Signer interface *)

(** Signer handles core JWT operations; each call reads the clock. *)
Record Signer {L : JwtLib} := mkSigner {
  signer_GenerateToken : Clock -> string -> list string -> string -> gmap string (list string) ->
    string -> string -> string -> bool -> result Tok;
  signer_GenerateRefreshToken : Clock -> option Claims -> result Tok;
  signer_ValidateToken : Time -> Tok -> result Claims;
}.

(** StandardSigner implements Signer. *)
Definition StandardSigner_Signer `{GoRuntime} {L : JwtLib} (s : StandardSigner) : Signer := {|
  signer_GenerateToken := GenerateToken s;
  signer_GenerateRefreshToken := GenerateRefreshToken s;
  signer_ValidateToken := ValidateToken s;
|}.

(** What the manager and its handlers rely on: a token's claims are those asked
    for, issued now or at the original issuance, for the signer's lifetime. *)
Class SignerContract {L : JwtLib} (sg : Signer) (lifetime : Duration) : Prop := {
  generated_claims : forall clk u g uid e pa d ty sk tok,
    signer_GenerateToken sg clk u g uid e pa d ty sk = Ok tok ->
    exists h c k, Signed tok h c k /\
      ExpiresAt c = Some (NewNumericDate (clk 2%nat + lifetime)) /\
      IssuedAt c = Some (NewNumericDate (clk 0%nat)) /\
      User c = u /\ Groups c = g /\ UID c = uid /\ Extra c = e /\
      Path c = pa /\ Domain c = d /\ TokenType c = ty /\ SkipRefresh c = sk;
  refreshed_claims : forall clk c0 tok,
    signer_GenerateRefreshToken sg clk c0 = Ok tok ->
    exists h c k old iat, Signed tok h c k /\ c0 = Some old /\ IssuedAt old = Some iat /\
      ExpiresAt c = Some (NewNumericDate (clk 1%nat + lifetime)) /\
      IssuedAt c = Some (NewNumericDate iat) /\
      User c = User old /\ Groups c = Groups old /\ UID c = UID old /\ Extra c = Extra old /\
      Path c = Path old /\ Domain c = Domain old /\ TokenType c = TokenType old /\
      SkipRefresh c = false;
  validated_signed : forall now tok c,
    signer_ValidateToken sg now tok = Ok c -> exists h k, Signed tok h c k;
  validated_unexpired : forall now tok c exp,
    signer_ValidateToken sg now tok = Ok c -> ExpiresAt c = Some exp -> now < exp + 5 * Second;
}.

#[export] Instance StandardSigner_contract `{GoRuntime} {L : JwtLib} {LW : JwtLaws L}
    (s : StandardSigner) : SignerContract (StandardSigner_Signer s) (expiration s).
Proof.
  split; cbn.
  - intros clk u g uid e pa d ty sk tok Hg. unfold GenerateToken in Hg.
    pose proof (generateTokenWithIssuedAt_spec s (clock_next clk) u g uid e pa d ty sk (clk 0%nat))
      as Hspec. rewrite Hg in Hspec. destruct Hspec as (kid & key & c & _ & _ & Hs & Hc).
    destruct Hc as (? & ? & _ & _ & _ & _ & ?). eexists _, c, _. by split.
  - intros clk [old|] tok; [|done]. unfold GenerateRefreshToken.
    destruct (IssuedAt old) as [iat|] eqn:Hiat; [|done]. intros Hg.
    pose proof (generateTokenWithIssuedAt_spec s clk (User old) (Groups old) (UID old) (Extra old)
      (Path old) (Domain old) (TokenType old) false iat) as Hspec.
    rewrite Hg in Hspec. destruct Hspec as (kid & key & c & _ & _ & Hs & Hc).
    destruct Hc as (? & ? & _ & _ & _ & _ & ?). eexists _, c, _, old, iat. by split.
  - intros now tok c (kid & key & _ & _ & Hs & _)%ValidateToken_Ok. eauto.
  - intros now tok c exp (kid & key & _ & _ & _ & _ & _ & He & _)%ValidateToken_Ok. eauto.
Qed.

(** ** Manager *)

Module Manager.
Record t {L : JwtLib} := mk {
  signer : Signer;
  enableRefresh : bool;
  refreshWindow : Duration;
  refreshHorizon : Duration;
}.

(** NewManager creates a new Manager. *)
Definition NewManager {L : JwtLib} (signer : Signer) (enableRefresh : bool)
    (refreshWindow refreshHorizon : Duration) : t :=
  mk L signer enableRefresh refreshWindow refreshHorizon.

Section manager.
Context {L : JwtLib}.

(** GenerateToken delegates to the signer. *)
Definition GenerateToken (m : t) (clk : Clock) (user : string) (groups : list string)
    (uid : string) (extra : gmap string (list string)) (path domain tokenType : string)
    : result Tok :=
  signer_GenerateToken (signer m) clk user groups uid extra path domain tokenType false.

(** ValidateToken delegates to the signer. *)
Definition ValidateToken (m : t) (now : Time) (tokenString : Tok) : result Claims :=
  signer_ValidateToken (signer m) now tokenString.

(** RefreshToken creates a new token preserving the original IssuedAt; a
    token beyond the horizon is refused. *)
Definition RefreshToken (m : t) (clk : Clock) (claims : option Claims) : result Tok :=
  match claims with
  | None => Fail (Errorf "claims cannot be nil" [])
  | Some c =>
      let now := clk 0%nat in
      match IssuedAt c with
      | None => Fail panic_nil
      | Some iat =>
          let timeSinceOriginalIssuance := time_Sub now iat in
          if refreshHorizon m <=? timeSinceOriginalIssuance then
            Fail (Errorf "token beyond refresh horizon (%v since issuance, limit %v)"
                    [Sprint_int timeSinceOriginalIssuance; Sprint_int (refreshHorizon m)])
          else signer_GenerateRefreshToken (signer m) (clock_next clk) (Some c)
      end
  end.

(** UpdateSkipRefreshToken creates a new token with skipRefresh=true. *)
Definition UpdateSkipRefreshToken (m : t) (clk : Clock) (claims : option Claims) : result Tok :=
  match claims with
  | None => Fail (Errorf "claims cannot be nil" [])
  | Some c =>
      signer_GenerateToken (signer m) clk (User c) (Groups c) (UID c) (Extra c)
        (Path c) (Domain c) (TokenType c) true
  end.

(** ShouldRefreshToken determines if a token should be refreshed. *)
Definition ShouldRefreshToken (m : t) (now : Time) (claims : option Claims) : bool :=
  if negb (enableRefresh m) then false
  else match claims with
  | None => false
  | Some c =>
      match ExpiresAt c, IssuedAt c with
      | Some expiryTime, Some _ =>
          if SkipRefresh c then false
          else
            let remainingTime := time_Sub expiryTime now in
            (0 <? remainingTime) && (remainingTime <=? refreshWindow m)
      | _, _ => false
      end
  end.
End manager.
End Manager.

(** ** Signer factories *)

(** handlerK8sNative is the handler value of the built-in signer. *)
Definition handlerK8sNative : string := "k8s-native".

(** SignerFactory creates JWT signers based on access strategy configuration. *)
Definition SignerFactory {L : JwtLib} := option WorkspaceAccessStrategy -> result Signer.

Section factories.
Context `{GoRuntime} {L : JwtLib}.

(** StandardSignerFactory.CreateSigner returns the shared StandardSigner for
    compatible access strategies. *)
Definition StandardSignerFactory_CreateSigner (shared : StandardSigner) : SignerFactory :=
  fun accessStrategy =>
    match accessStrategy with
    | None => Ok (StandardSigner_Signer shared)
    | Some a =>
        let handler := asps_CreateConnectionHandler (was_Spec a) in
        if bool_decide (handler = "") || bool_decide (handler = handlerK8sNative) then
          Ok (StandardSigner_Signer shared)
        else Fail (Errorf "unsupported connection handler: %s" [handler])
    end.

(** CompositeSignerFactory dispatches on the strategy's handler. *)
Record CompositeSignerFactory := mkCompositeSignerFactory {
  factories : gmap string SignerFactory;
  defaultFactory : SignerFactory;
}.

Definition NewCompositeSignerFactory (factories : gmap string SignerFactory)
    (defaultFactory : SignerFactory) : CompositeSignerFactory :=
  mkCompositeSignerFactory factories defaultFactory.

(** CreateSigner delegates to the child factory matching the handler. *)
Definition CreateSigner (c : CompositeSignerFactory)
    (accessStrategy : option WorkspaceAccessStrategy) : result Signer :=
  match accessStrategy with
  | None => defaultFactory c accessStrategy
  | Some a =>
      let handler := asps_CreateConnectionHandler (was_Spec a) in
      if bool_decide (handler = "") then defaultFactory c accessStrategy
      else match factories c !! handler with
      | None =>
          let supported := (range (factories c)).*1 in
          Fail (Errorf "unsupported connection handler %q (available: %v)" (handler :: supported))
      | Some factory => factory accessStrategy
      end
  end.

(** GetFactory returns the child factory registered for the handler. *)
Definition GetFactory (c : CompositeSignerFactory) (handler : string) : option SignerFactory :=
  factories c !! handler.

(** The loop of ValidateToken: the first signer that accepts wins, the last
    error is kept. *)
Fixpoint validate_loop (now : Time) (tokenString : Tok)
    (entries : list (string * SignerFactory)) (lastErr : option error) : result Claims :=
  match entries with
  | [] =>
      match lastErr with
      | Some err => Fail (Wrapf "token validation failed: %w" [] err)
      | None => Fail (Errorf "no signer factories configured" [])
      end
  | (name, factory) :: rest =>
      match factory None with
      | Fail err => validate_loop now tokenString rest (Some (Wrapf "factory %q: %w" [name] err))
      | Ok signer =>
          match signer_ValidateToken signer now tokenString with
          | Ok claims => Ok claims
          | Fail err =>
              validate_loop now tokenString rest (Some (Wrapf "factory %q: %w" [name] err))
          end
      end
  end.

(** ValidateToken tries to validate the token against all configured signers. *)
Definition CompositeSignerFactory_ValidateToken (c : CompositeSignerFactory) (now : Time)
    (tokenString : Tok) : result Claims :=
  validate_loop now tokenString (range (factories c)) None.

(** A factory accepts a token when the signer it creates without a strategy does. *)
Definition factory_accepts (f : SignerFactory) (now : Time) (tok : Tok) (c : Claims) : Prop :=
  exists sg, f None = Ok sg /\ signer_ValidateToken sg now tok = Ok c.

Lemma validate_loop_spec now tok entries lastErr :
  match validate_loop now tok entries lastErr with
  | Ok c => exists name f, (name, f) ∈ entries /\ factory_accepts f now tok c
  | Fail e => (forall name f c, (name, f) ∈ entries -> ~ factory_accepts f now tok c) /\
      (e = Errorf "no signer factories configured" [] <-> entries = [] /\ lastErr = None)
  end.
Proof.
  revert lastErr. induction entries as [|[name f] rest IH]; intros lastErr; cbn [validate_loop].
  { destruct lastErr; (split; [by intros ? ? ? ?%elem_of_nil|naive_solver]). }
  destruct (f None) as [sg|err] eqn:Hf; [destruct (signer_ValidateToken sg now tok) as [c|err] eqn:Hv|].
  { exists name, f. split; [left|by exists sg]. }
  all: specialize (IH (Some (Wrapf "factory %q: %w" [name] err)));
    destruct (validate_loop _ _ _ _) as [c|e];
    [destruct IH as (n & f' & ? & ?); exists n, f'; split; [by right|done]
    |destruct IH as [Hno He]; split; [|split; [by intros [_ ?]%He|by intros [? _]]]];
    intros n f' c [[= -> ->]|Hin]%elem_of_cons; [|by eapply Hno];
    intros (sg' & ? & ?); congruence.
Qed.
End factories.

(** ** Properties *)

(** [C33] Validation across signers: when every configured signer honours the
    Signer contract, the composite accepts a token with claims [c] exactly when
    some configured factory's signer does, in every iteration order of the
    factory map; so the outcome does not depend on that order. *)
Theorem composite_ValidateToken_correct `{GoRuntime} {L : JwtLib} {LW : JwtLaws L}
    (c : CompositeSignerFactory) (now : Time) (tok : Tok) (claims : Claims) :
  (forall name f sg, factories c !! name = Some f -> f None = Ok sg ->
     exists lifetime, SignerContract sg lifetime) ->
  CompositeSignerFactory_ValidateToken c now tok = Ok claims <->
  exists name f, factories c !! name = Some f /\ factory_accepts f now tok claims.
Proof.
  intros Hcontract. unfold CompositeSignerFactory_ValidateToken.
  pose proof (validate_loop_spec now tok (range (factories c)) None) as Hspec.
  split.
  - intros E. rewrite E in Hspec. destruct Hspec as (name & f & Hin%elem_of_range & Ha). eauto.
  - intros (name & f & Hin & sg & Hsg & Hv).
    destruct (validate_loop _ _ _ _) as [claims'|e].
    + destruct Hspec as (name' & f' & Hin'%elem_of_range & sg' & Hsg' & Hv').
      destruct (Hcontract _ _ _ Hin Hsg) as [l Hc], (Hcontract _ _ _ Hin' Hsg') as [l' Hc'].
      destruct (validated_signed _ _ _ Hv) as (h & k & Hs).
      destruct (validated_signed _ _ _ Hv') as (h' & k' & Hs').
      destruct (signed_content _ _ _ _ _ _ _ Hs Hs') as [_ <-]. done.
    + destruct Hspec as [Hno _]. exfalso. eapply (Hno name f claims); [by apply elem_of_range|].
      by exists sg.
Qed.

Definition demo_factories `{GoRuntime} : CompositeSignerFactory (L := toy_jwt) :=
  NewCompositeSignerFactory
    {["aws" := (fun _ => Fail (Errorf "kms unavailable" []));
      handlerK8sNative := StandardSignerFactory_CreateSigner demo_signer]}
    (StandardSignerFactory_CreateSigner demo_signer).

Definition demo_token : @Tok toy_jwt :=
  (mkHeader algHS384 (Some "1700000000"), demo_claims, Some "k").

Lemma composite_ValidateToken_correct_witness :
  @CompositeSignerFactory_ValidateToken canonical_runtime toy_jwt
    (@demo_factories canonical_runtime) (60 * Second) demo_token = Ok demo_claims.
Proof.
  apply (@composite_ValidateToken_correct canonical_runtime toy_jwt toy_laws).
  - intros name f sg Hf Hsg. unfold demo_factories in Hf. cbn in Hf.
    apply lookup_insert_Some in Hf as [[_ <-]|[_ Hf]]; [done|].
    apply lookup_singleton_Some in Hf as [_ <-]. injection Hsg as <-.
    exists (expiration demo_signer). apply _.
  - exists handlerK8sNative. eexists. split; [reflexivity|]. eexists. split; reflexivity.
Defined.
