(* ===== verification/AuthUtils.v ===== *)
(** * AuthUtils: header parsing of the auth middleware

    internal/authmiddleware utils.go, headers.go and oidc_utils.go: the group
    lists of the proxy headers, bearer tokens, subdomains, OIDC prefixes. *)

From S2P Require Import Prelude.

(** ** Group lists *)

Definition quote : ascii := "034"%char.
Definition comma : ascii := ","%char.
Definition space : ascii := " "%char.
Definition is_sep (c : ascii) : bool := Ascii.eqb c comma || Ascii.eqb c space.

(** The index search for the closing quote: the text before it and after it. *)
Fixpoint cut_quote (l : list ascii) : option (list ascii * list ascii) :=
  match l with
  | [] => None
  | c :: rest =>
      if Ascii.eqb c quote then Some ([], rest)
      else match cut_quote rest with
           | Some (q, rest') => Some (c :: q, rest')
           | None => None
           end
  end.

(** [string(current)] for a rune slice whose runes are bytes: a byte above 127
    becomes the two-byte encoding of that code point. *)
Definition rune_bytes (c : ascii) : list ascii :=
  let n := nat_of_ascii c in
  if (n <? 128)%nat then [c]
  else [ascii_of_nat (192 + n / 64); ascii_of_nat (128 + n mod 64)].
Definition runes_string (current : list ascii) : string :=
  String.string_of_list_ascii (concat (rune_bytes <$> current)).

(** The loop of splitGroups; [prev] is [groups[i-1]], absent at the start.
    Each iteration consumes a character, so the length is enough fuel. *)
Fixpoint splitGroups_loop (fuel : nat) (prev : option ascii) (l : list ascii)
    (current : list ascii) (acc : list string) : list string :=
  let finish :=
    if bool_decide (current = []) then acc else acc ++ [runes_string current] in
  match fuel, l with
  | O, _ | _, [] => finish
  | S fuel, char :: rest =>
      let at_start := match prev with None => true | Some p => is_sep p end in
      match (if Ascii.eqb char quote && at_start then cut_quote rest else None) with
      | Some (quoted, rest') =>
          splitGroups_loop fuel (Some quote) rest' current
            (acc ++ [String.string_of_list_ascii quoted])
      | None =>
          if is_sep char then
            if bool_decide (current = []) then
              splitGroups_loop fuel (Some char) rest current acc
            else splitGroups_loop fuel (Some char) rest [] (acc ++ [runes_string current])
          else splitGroups_loop fuel (Some char) rest (current ++ [char]) acc
      end
  end.

(** splitGroups splits a comma-separated or space-separated list of groups. *)
Definition splitGroups (groups : string) : list string :=
  if bool_decide (groups = "") then []
  else
    let l := String.list_ascii_of_string groups in
    splitGroups_loop (length l) None l [] [].

(** containsSpecialChars checks if a string contains commas or spaces. *)
Definition containsSpecialChars (s : string) : bool :=
  existsb is_sep (String.list_ascii_of_string s).

(** JoinGroups joins a slice of groups into a comma-separated string. *)
Definition join_one (g : string) : string :=
  if containsSpecialChars g then String quote (g +:+ String quote "") else g.
Fixpoint JoinGroups (groups : list string) : string :=
  match groups with
  | [] => ""
  | [g] => join_one g
  | g :: rest => join_one g +:+ "," +:+ JoinGroups rest
  end.

(** splitString splits a string by the first character of the separator. *)
Fixpoint splitString_loop (sep : ascii) (l : list ascii) (current : list ascii) : list string :=
  match l with
  | [] => [String.string_of_list_ascii current]
  | c :: rest =>
      if Ascii.eqb c sep then
        String.string_of_list_ascii current :: splitString_loop sep rest []
      else splitString_loop sep rest (current ++ [c])
  end.
Definition splitString (s : string) (sep : ascii) : list string :=
  splitString_loop sep (String.list_ascii_of_string s) [].

(** splitAndTrim drops the empty parts. *)
Definition splitAndTrim (s : string) (sep : ascii) : list string :=
  filter (fun p => p <> "") (splitString s sep).

(** EnsureSubsetOf returns whether the small array is a subset of the large one,
    and the missing entries. *)
Definition EnsureSubsetOf (smallArray largeArray : list string) : bool * list string :=
  if bool_decide (largeArray = []) && negb (bool_decide (smallArray = [])) then (false, smallArray)
  else if bool_decide (smallArray = []) then (true, [])
  else
    let set := fold_left (fun m v => <[v := true]> m) largeArray (∅ : gmap string bool) in
    let missingEntries := List.filter (fun v => negb (default false (set !! v))) smallArray in
    (bool_decide (missingEntries = []), missingEntries).

(** ** Headers *)

Definition HeaderAuthRequestUser : string := "X-Auth-Request-User".
Definition HeaderAuthRequestGroups : string := "X-Auth-Request-Groups".
Definition HeaderAuthRequestPreferredUsername : string := "X-Auth-Request-Preferred-Username".
Definition HeaderAuthorization : string := "Authorization".
Definition HeaderForwardedURI : string := "X-Forwarded-Uri".
Definition HeaderForwardedHost : string := "X-Forwarded-Host".
Definition SystemAuthenticatedGroup : string := "system:authenticated".
Definition RoutingModeSubdomain : string := "subdomain".
Definition RoutingModePath : string := "path".
Definition OIDCAuthHeaderPrefix : string := "Bearer ".

(** [r.Header.Get]: absent headers read as the empty string. *)
Definition Headers := gmap string string.
Definition Header_Get (h : Headers) (name : string) : string := default "" (h !! name).

(** GetForwardedHost extracts the X-Forwarded-Host header from the request. *)
Definition GetForwardedHost (h : Headers) : result string :=
  let host := Header_Get h HeaderForwardedHost in
  if bool_decide (host = "") then Fail (Errorf "missing %s header" [HeaderForwardedHost])
  else Ok host.

(** GetForwardedURI extracts the X-Forwarded-URI header from the request. *)
Definition GetForwardedURI (h : Headers) : result string :=
  let uri := Header_Get h HeaderForwardedURI in
  if bool_decide (uri = "") then Fail (Errorf "missing %s header" [HeaderForwardedURI])
  else Ok uri.

(** ExtractSubdomain extracts the subdomain part from a host (before first dot). *)
Fixpoint ExtractSubdomain (host : string) : string :=
  match host with
  | EmptyString => EmptyString
  | String c rest => if Ascii.eqb c "." then EmptyString else String c (ExtractSubdomain rest)
  end.

(** ExtractBearerToken extracts a bearer token from an Authorization header. *)
Definition ExtractBearerToken (authHeader : string) : result string :=
  if bool_decide (authHeader = "") then Fail (Errorf "authorization header is empty" [])
  else if negb (HasPrefix authHeader OIDCAuthHeaderPrefix) then
    Fail (Errorf "authorization header is not a bearer token" [])
  else
    let token := TrimPrefix authHeader OIDCAuthHeaderPrefix in
    if bool_decide (token = "") then Fail (Errorf "bearer token is empty" []) else Ok token.

(** ** OIDC names *)

(** GetOidcUsername returns the k8s username with OIDC prefix applied. *)
Definition GetOidcUsername (oidcUsernamePrefix preferredUsername : string) : string :=
  if negb (bool_decide (preferredUsername = "")) then oidcUsernamePrefix +:+ preferredUsername
  else "".

(** GetOidcGroups returns the k8s groups with OIDC prefix applied. *)
Definition GetOidcGroups (oidcGroupsPrefix : string) (groups : list string) : list string :=
  (fun group =>
     if bool_decide (group = SystemAuthenticatedGroup) then group
     else oidcGroupsPrefix +:+ group) <$> groups.

(** ** Splitting undoes joining *)

(** Groups the two functions agree on: not empty, no quote character, and, when
    written without quotes, ASCII. *)
Definition no_quote (l : list ascii) : bool := forallb (fun c => negb (Ascii.eqb c quote)) l.
Definition all_ascii (l : list ascii) : bool := forallb (fun c => (nat_of_ascii c <? 128)%nat) l.
Definition group_ok (g : string) : bool :=
  let l := String.list_ascii_of_string g in
  negb (bool_decide (g = "")) && no_quote l && (containsSpecialChars g || all_ascii l).

Lemma cut_quote_app g rest : no_quote g = true -> cut_quote (g ++ quote :: rest) = Some (g, rest).
Proof.
  induction g as [|c g IH]; cbn; [done|]. intros [Hc Hg]%andb_true_iff.
  apply negb_true_iff in Hc. by rewrite Hc, IH.
Qed.

Lemma runes_string_ascii l : all_ascii l = true -> runes_string l = String.string_of_list_ascii l.
Proof.
  intros Hl. unfold runes_string. f_equal.
  unfold all_ascii in *. induction l as [|c l IH]; [done|].
  cbn [forallb] in Hl. apply andb_true_iff in Hl as [Hc Hl].
  cbn [fmap list_fmap concat]. unfold rune_bytes at 1. rewrite Hc. cbn [app]. by rewrite IH.
Qed.

(** A run of plain characters is accumulated. *)
Lemma splitGroups_loop_plain g rest fuel prev cur acc :
  no_quote g = true -> existsb is_sep g = false -> (length (g ++ rest) <= fuel)%nat ->
  exists fuel' prev', (length rest <= fuel')%nat /\
    splitGroups_loop fuel prev (g ++ rest) cur acc =
    splitGroups_loop fuel' prev' rest (cur ++ g) acc.
Proof.
  revert fuel prev cur. induction g as [|c g IH]; intros fuel prev cur Hq Hs Hf; cbn in *.
  { exists fuel, prev. by rewrite app_nil_r. }
  apply andb_true_iff in Hq as [Hc%negb_true_iff Hq]. apply orb_false_iff in Hs as [Hsc Hs].
  destruct fuel as [|fuel]; [lia|]. cbn [splitGroups_loop]. rewrite Hc, Hsc. cbn.
  destruct (IH fuel (Some c) (cur ++ [c]) Hq Hs) as (f & p & ? & ->); [lia|].
  exists f, p. split; [done|]. by rewrite <- app_assoc.
Qed.

(** One joined group followed by the end or a comma. *)
Lemma splitGroups_loop_group g rest fuel prev acc :
  group_ok g = true -> rest = [] \/ (exists r, rest = comma :: r) ->
  (prev = None \/ prev = Some comma) ->
  (length (String.list_ascii_of_string (join_one g) ++ rest) <= fuel)%nat ->
  exists fuel', (length (tail rest) <= fuel')%nat /\
    splitGroups_loop fuel prev (String.list_ascii_of_string (join_one g) ++ rest) [] acc =
    splitGroups_loop fuel' (Some comma) (tail rest) [] (acc ++ [g]).
Proof.
  unfold group_ok, join_one. intros [[Hne%negb_true_iff Hq]%andb_true_iff Ha]%andb_true_iff Hr Hp.
  apply bool_decide_eq_false in Hne. set (l := String.list_ascii_of_string g) in *.
  assert (El : String.string_of_list_ascii l = g) by apply String.string_of_list_ascii_of_string.
  destruct (containsSpecialChars g) eqn:Hs.
  - assert (Ej : String.list_ascii_of_string (String quote (g +:+ String quote "")) =
                 quote :: l ++ [quote]).
    { cbn. f_equal. unfold l. generalize g. intros x.
      induction x as [|c x IH]; [done|]. rewrite append_cons. cbn. by rewrite IH. }
    rewrite Ej. cbn [app length]. intros Hf. destruct fuel as [|fuel]; [lia|].
    cbn [splitGroups_loop]. rewrite Ascii.eqb_refl, <- app_assoc. cbn [app].
    rewrite (cut_quote_app l rest Hq). replace (match prev with None => true | Some p => is_sep p end)
      with true by (by destruct Hp as [->| ->]). cbn [andb]. rewrite El.
    rewrite !length_app in Hf. cbn in Hf.
    destruct Hr as [->|(r & ->)]; [exists fuel; split; [cbn; lia|by destruct fuel]|].
    destruct fuel as [|fuel]; [cbn in Hf; lia|]. exists fuel. cbn in *. split; [lia|done].
  - cbn in Ha. fold l. intros Hf.
    destruct (splitGroups_loop_plain l rest fuel prev [] acc Hq Hs Hf) as (f & p & Hl & ->).
    cbn [app]. assert (Hcur : l <> []) by (intros E; rewrite E in El; by subst).
    assert (Er : runes_string l = g) by (by rewrite runes_string_ascii).
    destruct Hr as [->|(r & ->)].
    + exists f. split; [cbn; lia|]. destruct f; cbn; rewrite bool_decide_false by done;
        by rewrite Er, app_nil_r || rewrite Er.
    + destruct f as [|f]; [cbn in Hl; lia|]. exists f. cbn in *. split; [lia|].
      rewrite bool_decide_false by done. by rewrite Er.
Qed.

Lemma list_ascii_app a b :
  String.list_ascii_of_string (a +:+ b) =
  String.list_ascii_of_string a ++ String.list_ascii_of_string b.
Proof. induction a as [|c a IH]; [done|]. rewrite append_cons. cbn. by rewrite IH. Qed.

Lemma splitGroups_loop_join gs fuel prev acc :
  forallb group_ok gs = true -> gs <> [] -> (prev = None \/ prev = Some comma) ->
  (length (String.list_ascii_of_string (JoinGroups gs)) <= fuel)%nat ->
  splitGroups_loop fuel prev (String.list_ascii_of_string (JoinGroups gs)) [] acc = acc ++ gs.
Proof.
  revert fuel prev acc. induction gs as [|g gs IH]; intros fuel prev acc Hok Hne Hp Hf; [done|].
  cbn [forallb] in Hok. apply andb_true_iff in Hok as [Hg Hok].
  destruct gs as [|g' gs].
  - cbn [JoinGroups] in *. rewrite <- (app_nil_r (String.list_ascii_of_string _)) in *.
    destruct (splitGroups_loop_group g [] fuel prev acc Hg (or_introl eq_refl) Hp Hf)
      as (f & _ & ->). by destruct f.
  - remember (g' :: gs) as gs'. assert (E : String.list_ascii_of_string (JoinGroups (g :: gs')) =
      String.list_ascii_of_string (join_one g) ++ comma :: String.list_ascii_of_string (JoinGroups gs')).
    { subst gs'. cbn [JoinGroups]. by rewrite !list_ascii_app. }
    rewrite E in *.
    destruct (splitGroups_loop_group g _ fuel prev acc Hg
      (or_intror (ex_intro _ _ eq_refl)) Hp Hf) as (f & Hl & ->).
    cbn [tail] in *. rewrite IH; [by rewrite <- app_assoc|done|by subst|by right|done].
Qed.

(** Group headers survive the proxy: splitting a joined list gives the list
    back, whenever no group is empty or has a quote character and the groups
    written bare are ASCII; commas and spaces inside a group are kept. *)
Theorem groups_roundtrip (gs : list string) :
  forallb group_ok gs = true -> splitGroups (JoinGroups gs) = gs.
Proof.
  intros Hok. unfold splitGroups. destruct gs as [|g gs]; [done|].
  case_bool_decide as He; cycle 1.
  { cbv zeta. by rewrite splitGroups_loop_join by (done || by left). }
  exfalso. cbn [forallb] in Hok. apply andb_true_iff in Hok as [Hg _].
  unfold group_ok in Hg. apply andb_true_iff in Hg as [[Hne _]%andb_true_iff _].
  apply negb_true_iff, bool_decide_eq_false in Hne. apply Hne.
  assert (Hj : join_one g = "") by (destruct gs; cbn in He; [done|by destruct (join_one g)]).
  unfold join_one in Hj. by destruct (containsSpecialChars g).
Qed.

Lemma groups_roundtrip_witness :
  splitGroups (JoinGroups ["dev"; "team a,b"; "ops"]) = ["dev"; "team a,b"; "ops"].
Proof. apply groups_roundtrip. vm_compute. reflexivity. Defined.

(** A bare group outside ASCII is not preserved: each byte is re-encoded as a
    code point, so the two bytes of U+00E9 come back as four. *)
Lemma splitGroups_mangles_utf8 :
  let e_acute := String "195" (String "169" "") in
  splitGroups e_acute = [String "195" (String "131" (String "194" (String "169" "")))].
Proof. reflexivity. Qed.

Lemma subset_set_spec l v (m : gmap string bool) :
  fold_left (fun m v => <[v := true]> m) l m !! v =
  if bool_decide (v ∈ l) then Some true else m !! v.
Proof.
  revert m. induction l as [|x l IH]; intros m; cbn [fold_left]; [done|].
  rewrite IH. destruct (decide (v ∈ l)) as [Hin|Hin].
  - rewrite !bool_decide_true by (by repeat constructor). done.
  - rewrite (bool_decide_false (v ∈ l)) by done. destruct (decide (x = v)) as [->|Hne].
    + rewrite lookup_insert_eq, bool_decide_true by constructor. done.
    + rewrite lookup_insert_ne by done.
      rewrite bool_decide_false; [done|]. by intros [?|?]%elem_of_cons.
Qed.

(** The group check of the auth route: the flag holds exactly when every
    header group is a group of the token, and the list returned is the header
    groups missing from the token. *)
Theorem EnsureSubsetOf_correct (smallArray largeArray : list string) :
  EnsureSubsetOf smallArray largeArray =
  (bool_decide (smallArray ⊆ largeArray), filter (fun v => v ∉ largeArray) smallArray).
Proof.
  unfold EnsureSubsetOf.
  destruct (decide (smallArray = [])) as [->|Hs].
  { rewrite (bool_decide_true ([] = [])) by done. cbn. rewrite andb_false_r.
    rewrite bool_decide_true by set_solver. done. }
  rewrite (bool_decide_false (smallArray = [])) by done. cbn [negb]. rewrite andb_true_r.
  assert (Hm : forall l, (bool_decide (filter (fun v => v ∉ largeArray) l = [])) =
                          bool_decide (l ⊆ largeArray)).
  { intros l. apply bool_decide_ext. induction l as [|x l IH].
    - by split; [intros _ ? ?%elem_of_nil|].
    - rewrite filter_cons. destruct (decide (x ∉ largeArray)) as [Hx|Hx]; [by set_solver|].
      apply dec_stable in Hx. rewrite IH. set_solver. }
  assert (Hf : forall l, List.filter (fun v => negb (default false
      (fold_left (fun m v => <[v := true]> m) largeArray (∅ : gmap string bool) !! v))) l =
      filter (fun v => v ∉ largeArray) l).
  { intros l. induction l as [|x l IH]; [done|]. cbn [List.filter].
    rewrite IH, filter_cons, subset_set_spec.
    destruct (decide (x ∈ largeArray)) as [Hx|Hx].
    - rewrite bool_decide_true by done. cbn. by rewrite decide_False by tauto.
    - rewrite bool_decide_false, lookup_empty by done. cbn. by rewrite decide_True. }
  destruct (decide (largeArray = [])) as [->|Hl].
  - rewrite (bool_decide_true ([] = [])) by done. rewrite <- Hm.
    assert (filter (fun v => v ∉ []) smallArray = smallArray) as ->.
    { induction smallArray as [|x l IH]; [done|]. rewrite filter_cons, decide_True by set_solver.
      destruct l; [done|]. by rewrite IH. }
    by rewrite bool_decide_false.
  - rewrite (bool_decide_false (largeArray = [])) by done. by rewrite Hf, Hm.
Qed.
