(* ===== verification/AuthMiddleware.v ===== *)
(** * AuthMiddleware: the authentication routes, internal/authmiddleware

    Cookies, extraction of the workspace from a request, and the handlers of
    [/auth], [/bearer-auth], [/verify] as functions from a request to the list of
    actions on the response writer.  The cluster's review APIs, the OIDC provider,
    [net/url] and [regexp] are parameters. *)

From S2P Require Import Prelude Api Encoding JwtKeys Rotator JwtSigner JwtManager AuthUtils.

(** ** Configuration *)

Record Config := mkConfig {
  cfg_Port : Z;
  cfg_ReadTimeout : Duration;
  cfg_WriteTimeout : Duration;
  cfg_ShutdownTimeout : Duration;
  cfg_TrustedProxies : list string;
  cfg_MetricsAddr : string;
  cfg_ProbeAddr : string;
  cfg_Namespace : string;
  cfg_JWTSigningType : string;
  cfg_JWTIssuer : string;
  cfg_JWTAudience : string;
  cfg_JWTExpiration : Duration;
  cfg_JWTRefreshEnable : bool;
  cfg_JWTRefreshWindow : Duration;
  cfg_JWTRefreshHorizon : Duration;
  cfg_JwtSecretName : string;
  cfg_JwtNewKeyUseDelay : Duration;
  cfg_EnableOAuth : bool;
  cfg_EnableBearerAuth : bool;
  cfg_CookieName : string;
  cfg_CookieSecure : bool;
  cfg_CookieDomain : string;
  cfg_CookiePath : string;
  cfg_CookieMaxAge : Duration;
  cfg_CookieHTTPOnly : bool;
  cfg_CookieSameSite : string;
  cfg_PathRegexPattern : string;
  cfg_WorkspaceNamespacePathRegex : string;
  cfg_WorkspaceNamePathRegex : string;
  cfg_RoutingMode : string;
  cfg_WorkspaceNamespaceSubdomainRegex : string;
  cfg_WorkspaceNameSubdomainRegex : string;
  cfg_OidcUsernamePrefix : string;
  cfg_OidcGroupsPrefix : string;
  cfg_OIDCIssuerURL : string;
  cfg_OIDCClientID : string;
  cfg_OIDCInitTimeoutSecs : Z;
}.

(** ** Requests, responses and the services behind the server *)

(** HTTP status codes. *)
Definition StatusOK : Z := 200.
Definition StatusBadRequest : Z := 400.
Definition StatusUnauthorized : Z := 401.
Definition StatusForbidden : Z := 403.
Definition StatusMethodNotAllowed : Z := 405.
Definition StatusInternalServerError : Z := 500.

Inductive SameSite := SameSiteStrictMode | SameSiteNoneMode | SameSiteLaxMode.

(** [http.Cookie]; an empty value is [None]. *)
Record Cookie {L : JwtLib} := mkCookie {
  cookie_Name : string;
  cookie_Value : option Tok;
  cookie_Path : string;
  cookie_Domain : string;
  cookie_MaxAge : Z;
  cookie_HttpOnly : bool;
  cookie_Secure : bool;
  cookie_SameSite : SameSite;
}.

(** The request fields the handlers read: [req_Cookies] are the readable cookies. *)
Record Request {L : JwtLib} := mkRequest {
  req_Method : string;
  req_Header : Headers;
  req_Cookies : gmap string Tok;
}.

(** What a handler does to its response writer, in order. *)
Inductive HttpAction {L : JwtLib} :=
| HttpError (msg : string) (code : Z)
| HttpSetCookie (c : Cookie)
| HttpSetHeader (name value : string)
| HttpWriteHeader (code : Z)
| HttpWriteBody (body : string).

(** OIDCClaims represents the claims we extract from an OIDC ID token. *)
Record OIDCClaims := mkOIDCClaims {
  oidc_Username : string;
  oidc_Email : string;
  oidc_Groups : list string;
  oidc_Subject : string;
}.

(** The REST client: the answers of the extension API server. *)
Record RestClient := mkRestClient {
  post_connectionaccessreview :
    string -> ConnectionAccessReviewSpec -> result ConnectionAccessReviewStatus;
  post_bearertokenreview : string -> string -> result BearerTokenReviewStatus;
}.

(** ** Cookies *)

Section cookies.
Context `{GoRegexp} {L : JwtLib}.

(** ExtractAppPath extracts the application path from a full URL path. *)
Definition ExtractAppPath (fullPath regexPattern : string) : string :=
  if bool_decide (fullPath = "") || bool_decide (regexPattern = "") then fullPath
  else if negb (re_compiles regexPattern) then fullPath
  else match re_FindStringSubmatch regexPattern fullPath with
       | _ :: m :: _ => m
       | _ => fullPath
       end.

(** CookieManager handles cookie operations. *)
Record CookieManager := mkCookieManager {
  cm_cookieName : string;
  cm_cookieSecure : bool;
  cm_cookieDomain : string;
  cm_cookiePath : string;
  cm_cookieMaxAge : Duration;
  cm_cookieHTTPOnly : bool;
  cm_cookieSameSiteHttp : SameSite;
  cm_pathRegexPattern : string;
}.

(** NewCookieManager creates a new CookieManager; the site mode is compared in
    lower case, which is ASCII. *)
Definition lower (s : string) : string :=
  String.string_of_list_ascii (ascii_ToLower <$> String.list_ascii_of_string s).
Definition NewCookieManager (cfg : Config) : result CookieManager :=
  let mk sameSite := Ok (mkCookieManager (cfg_CookieName cfg) (cfg_CookieSecure cfg)
    (cfg_CookieDomain cfg) (cfg_CookiePath cfg) (cfg_CookieMaxAge cfg) (cfg_CookieHTTPOnly cfg)
    sameSite (cfg_PathRegexPattern cfg)) in
  let mode := lower (cfg_CookieSameSite cfg) in
  if bool_decide (mode = "strict") then mk SameSiteStrictMode
  else if bool_decide (mode = "none") then mk SameSiteNoneMode
  else if bool_decide (mode = "lax") then mk SameSiteLaxMode
  else Fail (Errorf "invalid same site value: %s" [cfg_CookieSameSite cfg]).

(** The path a cookie is scoped to. *)
Definition cookie_scope (m : CookieManager) (path : string) : string :=
  if negb (bool_decide (path = "")) then
    let appPath :=
      if negb (bool_decide (cm_pathRegexPattern m = ""))
      then ExtractAppPath path (cm_pathRegexPattern m) else path in
    if negb (bool_decide (appPath = "")) && negb (bool_decide (appPath = "/"))
    then appPath else cm_cookiePath m
  else cm_cookiePath m.

(** SetCookie sets an auth cookie with the given token; [int(d.Seconds())] is
    the whole seconds of the configured age. *)
Definition SetCookie (m : CookieManager) (token : Tok) (path domain : string) : HttpAction :=
  HttpSetCookie (mkCookie L (cm_cookieName m) (Some token) (cookie_scope m path) domain
    (Z.quot (cm_cookieMaxAge m) Second) (cm_cookieHTTPOnly m) (cm_cookieSecure m)
    (cm_cookieSameSiteHttp m)).

(** GetCookie retrieves the auth token from the cookie. *)
Definition GetCookie (m : CookieManager) (r : Request) : result Tok :=
  match req_Cookies r !! cm_cookieName m with
  | None => Fail (Sentinel "cookie not found")
  | Some v => Ok v
  end.

(** ClearCookie removes the auth cookie. *)
Definition ClearCookie (m : CookieManager) (path domain : string) : HttpAction :=
  HttpSetCookie (mkCookie L (cm_cookieName m) None (cookie_scope m path) domain (-1)
    (cm_cookieHTTPOnly m) (cm_cookieSecure m) (cm_cookieSameSiteHttp m)).
End cookies.

(** ** The server *)

Record Server {L : JwtLib} := mkServer {
  srv_config : Config;
  srv_jwtManager : Manager.t;
  srv_cookieManager : CookieManager;
  srv_restClient : option RestClient;
  (** VerifyToken of the OIDC verifier: the claims, or the error and whether it
      is a fault of the provider. *)
  srv_oidcVerifier : option (string -> OIDCClaims + (bool * error));
}.

(** WorkspaceInfo holds extracted workspace information. *)
Record WorkspaceInfo := mkWorkspaceInfo { wi_Namespace : string; wi_Name : string }.

(** Readings of the clock after the first [n]. *)
Definition clock_skip (n : nat) (clk : Clock) : Clock := fun k => clk (n + k)%nat.

Section server.
Context `{GoRegexp} {L : JwtLib}.

(** The regular expression of one extraction: exactly one capture group.  A pattern
    that does not compile panics in MustCompile; net/http recovers and drops the
    connection.  Here, as for every panic, it is a failure with a value of its own, so a
    handler of the model refuses the request where the code sends no answer. *)
Definition find_one (pattern text what from : string) : result string :=
  if negb (re_compiles pattern) then Fail (Sentinel "panic: regexp: Compile")
  else match re_FindStringSubmatch pattern text with
       | [_; m] => Ok m
       | _ => Fail (Errorf ("failed to extract " +:+ what +:+ " from " +:+ from +:+ ": %s") [text])
       end.

(** extractWorkspaceInfoFromPath extracts workspace info from URL path. *)
Definition extractWorkspaceInfoFromPath (s : Server) (r : Request) : result WorkspaceInfo :=
  path ← GetForwardedURI (req_Header r);
  namespace ← find_one (cfg_WorkspaceNamespacePathRegex (srv_config s)) path "namespace" "path";
  name ← find_one (cfg_WorkspaceNamePathRegex (srv_config s)) path "workspace name" "path";
  Ok (mkWorkspaceInfo namespace name).

(** extractWorkspaceInfoFromSubdomain extracts workspace info from subdomain. *)
Definition extractWorkspaceInfoFromSubdomain (s : Server) (r : Request) : result WorkspaceInfo :=
  host ← GetForwardedHost (req_Header r);
  let subdomain := ExtractSubdomain host in
  name ← find_one (cfg_WorkspaceNameSubdomainRegex (srv_config s)) subdomain
           "workspace name" "subdomain";
  encoded ← find_one (cfg_WorkspaceNamespaceSubdomainRegex (srv_config s)) subdomain
           "namespace" "subdomain";
  namespace ← wrap_err "failed to decode namespace from base32: %w" []
                (DecodeNamespaceB32 encoded);
  Ok (mkWorkspaceInfo namespace name).

(** ExtractWorkspaceInfo extracts workspace namespace and name from request. *)
Definition ExtractWorkspaceInfo (s : Server) (r : Request) : result WorkspaceInfo :=
  let mode := cfg_RoutingMode (srv_config s) in
  if bool_decide (mode = RoutingModeSubdomain) then extractWorkspaceInfoFromSubdomain s r
  else if bool_decide (mode = RoutingModePath) then extractWorkspaceInfoFromPath s r
  else Fail (Errorf "unsupported routing mode: %s" [mode]).

(** createConnectionAccessReview asks the extension API whether the user may
    connect to the workspace. *)
Definition createConnectionAccessReview (s : Server) (username : string) (groups : list string)
    (namespace workspaceName uid : string) (extra : gmap string (list string))
    : result ConnectionAccessReviewStatus :=
  match srv_restClient s with
  | None => Fail (Errorf "kubernetes REST client not initialized" [])
  | Some c =>
      wrap_err "failed to create ConnectionAccessReview: %w" []
        (post_connectionaccessreview c namespace
           (mkConnectionAccessReviewSpec workspaceName groups uid username extra))
  end.

(** createBearerTokenReview delegates the verification of a bearer token. *)
Definition createBearerTokenReview (s : Server) (token namespace : string)
    : result BearerTokenReviewStatus :=
  match srv_restClient s with
  | None => Fail (Errorf "kubernetes REST client not initialized" [])
  | Some c =>
      wrap_err "failed to create BearerTokenReview: %w" []
        (post_bearertokenreview c namespace token)
  end.

(** VerifyWorkspaceAccess checks if the user has access to the workspace of the
    request. *)
Definition VerifyWorkspaceAccess (s : Server) (r : Request) (username : string)
    (groups : list string) (uid : string) (extra : gmap string (list string))
    : result (ConnectionAccessReviewStatus * WorkspaceInfo) :=
  workspaceInfo ← ExtractWorkspaceInfo s r;
  review ← wrap_err "failed to check workspace permission: %w" []
    (createConnectionAccessReview s username groups (wi_Namespace workspaceInfo)
       (wi_Name workspaceInfo) uid extra);
  Ok (review, workspaceInfo).

(** VerifyWorkspaceAccessFromJwt does so for the user recorded in the JWT. *)
Definition VerifyWorkspaceAccessFromJwt (s : Server) (r : Request) (claims : Claims)
    : result (ConnectionAccessReviewStatus * WorkspaceInfo) :=
  workspaceInfo ← ExtractWorkspaceInfo s r;
  review ← wrap_err "failed to check workspace permission: %w" []
    (createConnectionAccessReview s (User claims) (Groups claims) (wi_Namespace workspaceInfo)
       (wi_Name workspaceInfo) (UID claims) (Extra claims));
  Ok (review, workspaceInfo).

(** GetOIDCUsernameFromToken and GetOIDCGroupsFromToken. *)
Definition GetOIDCUsernameFromToken (cfg : Config) (claims : option OIDCClaims) : string :=
  match claims with
  | None => ""
  | Some c =>
      if bool_decide (oidc_Username c = "") then ""
      else GetOidcUsername (cfg_OidcUsernamePrefix cfg) (oidc_Username c)
  end.
Definition GetOIDCGroupsFromToken (cfg : Config) (claims : option OIDCClaims) : list string :=
  match claims with
  | None => []
  | Some c =>
      if bool_decide (oidc_Groups c = []) then []
      else GetOidcGroups (cfg_OidcGroupsPrefix cfg) (oidc_Groups c)
  end.

Definition missing (header : string) : string := "Missing " +:+ header +:+ " header".

(** handleVerify handles token verification requests. *)
Definition handleVerify (s : Server) (clk : Clock) (r : Request) : list HttpAction :=
  let requestPath := Header_Get (req_Header r) HeaderForwardedURI in
  let requestDomain := Header_Get (req_Header r) HeaderForwardedHost in
  if bool_decide (requestPath = "") then
    [HttpError (missing HeaderForwardedURI) StatusBadRequest]
  else if bool_decide (requestDomain = "") then
    [HttpError (missing HeaderForwardedHost) StatusBadRequest]
  else match GetCookie (srv_cookieManager s) r with
  | Fail _ => [HttpError "Unauthorized" StatusUnauthorized]
  | Ok token =>
      match Manager.ValidateToken (srv_jwtManager s) (clk 0%nat) token with
      | Fail _ => [HttpError "Unauthorized" StatusUnauthorized]
      | Ok claims =>
          if negb (bool_decide (TokenType claims = TokenTypeSession)) then
            [HttpError "Unauthorized" StatusUnauthorized]
          else if negb (bool_decide (Path claims = "")) &&
                  negb (bool_decide (requestPath = "")) &&
                  negb (HasPrefix requestPath (Path claims)) then
            [HttpError "Path not authorized" StatusForbidden]
          else if negb (bool_decide (Domain claims = requestDomain)) then
            [HttpError "Domain not authorized" StatusForbidden]
          else if Manager.ShouldRefreshToken (srv_jwtManager s) (clk 1%nat) (Some claims) then
            match VerifyWorkspaceAccessFromJwt s r claims with
            | Fail _ =>
                match Manager.UpdateSkipRefreshToken (srv_jwtManager s) (clock_skip 2 clk)
                        (Some claims) with
                | Fail _ => [HttpWriteHeader StatusOK]
                | Ok newToken =>
                    [SetCookie (srv_cookieManager s) newToken (Path claims) (Domain claims);
                     HttpWriteHeader StatusOK]
                end
            | Ok (review, _) =>
                if negb (cast_Allowed review) then
                  [ClearCookie (srv_cookieManager s) (Path claims) (Domain claims);
                   HttpError "Access denied: you are no longer authorized to access this workspace"
                     StatusForbidden]
                else
                  match Manager.RefreshToken (srv_jwtManager s) (clock_skip 2 clk)
                          (Some claims) with
                  | Fail _ => [HttpWriteHeader StatusOK]
                  | Ok newToken =>
                      [SetCookie (srv_cookieManager s) newToken (Path claims) (Domain claims);
                       HttpWriteHeader StatusOK]
                  end
            end
          else [HttpWriteHeader StatusOK]
      end
  end.

(** handleAuth handles authentication requests. *)
Definition handleAuth (s : Server) (clk : Clock) (r : Request) : list HttpAction :=
  let h := req_Header r in
  let cfg := srv_config s in
  if negb (bool_decide (req_Method r = "GET")) then
    [HttpError "Method not allowed" StatusMethodNotAllowed]
  else
  let fullPath := Header_Get h HeaderForwardedURI in
  let host := Header_Get h HeaderForwardedHost in
  let authHeader := Header_Get h HeaderAuthorization in
  let headerUID := Header_Get h HeaderAuthRequestUser in
  let headerPreferredUsername :=
    GetOidcUsername (cfg_OidcUsernamePrefix cfg)
      (Header_Get h HeaderAuthRequestPreferredUsername) in
  let headerGroups :=
    GetOidcGroups (cfg_OidcGroupsPrefix cfg) (splitGroups (Header_Get h HeaderAuthRequestGroups)) in
  let appPath := ExtractAppPath fullPath (cfg_PathRegexPattern cfg) in
  if bool_decide (fullPath = "") then [HttpError (missing HeaderForwardedURI) StatusBadRequest]
  else if bool_decide (host = "") then [HttpError (missing HeaderForwardedHost) StatusBadRequest]
  else if bool_decide (authHeader = "") then
    [HttpError "Missing Authorization header" StatusUnauthorized]
  else match srv_oidcVerifier s with
  | None => [HttpError "Internal server error: OIDC verifier not initialized"
               StatusInternalServerError]
  | Some verifyToken =>
    match ExtractBearerToken authHeader with
    | Fail _ => [HttpError "Invalid Authorization header" StatusBadRequest]
    | Ok token =>
      match verifyToken token with
      | inr (true, _) =>
          [HttpError "Internal server error: OIDC provider not available"
             StatusInternalServerError]
      | inr (false, _) => [HttpError "Invalid or expired OIDC token" StatusForbidden]
      | inl oidcClaims =>
          let k8sUID := oidc_Subject oidcClaims in
          let k8sUsername := GetOIDCUsernameFromToken cfg (Some oidcClaims) in
          let k8sGroups := GetOIDCGroupsFromToken cfg (Some oidcClaims) in
          if negb (bool_decide (headerPreferredUsername = "")) &&
             negb (bool_decide (k8sUsername = headerPreferredUsername)) then
            [HttpError "Username mismatch between token and headers" StatusUnauthorized]
          else if negb (bool_decide (headerUID = "")) &&
                  negb (bool_decide (k8sUID = headerUID)) then
            [HttpError "UID verification failed" StatusUnauthorized]
          else if negb (bool_decide (headerGroups = [])) &&
                  negb (EnsureSubsetOf headerGroups k8sGroups).1 then
            [HttpError "Groups verification failed" StatusUnauthorized]
          else match srv_restClient s with
          | None => [HttpError "Internal server error" StatusInternalServerError]
          | Some _ =>
            match VerifyWorkspaceAccess s r k8sUsername k8sGroups k8sUID ∅ with
            | Fail _ => [HttpError "Failed to verify workspace access" StatusInternalServerError]
            | Ok (review, _) =>
              if negb (cast_Allowed review) || cast_NotFound review then
                [HttpError "Access denied: you are not authorized to connect to this workspace"
                   StatusForbidden]
              else
              match Manager.GenerateToken (srv_jwtManager s) clk k8sUsername k8sGroups k8sUID ∅
                      appPath host TokenTypeSession with
              | Fail _ => [HttpError "Internal server error" StatusInternalServerError]
              | Ok jwtToken =>
                  [SetCookie (srv_cookieManager s) jwtToken appPath host;
                   HttpSetHeader "Content-Type" "application/json";
                   HttpWriteHeader StatusOK; HttpWriteBody "{}"]
              end
            end
          end
      end
    end
  end.

(** handleBearerAuth exchanges a short-lived bearer token for a session cookie;
    [url_query_token] is [url.Parse] of a URI followed by
    [Query().Get("token")]. *)
Definition handleBearerAuth (url_query_token : string -> result string)
    (s : Server) (clk : Clock) (r : Request) : list HttpAction :=
  let h := req_Header r in
  if negb (bool_decide (req_Method r = "GET")) then
    [HttpError "Method not allowed" StatusMethodNotAllowed]
  else
  let forwardedURI := Header_Get h HeaderForwardedURI in
  if bool_decide (forwardedURI = "") then
    [HttpError (missing HeaderForwardedURI) StatusBadRequest]
  else match url_query_token forwardedURI with
  | Fail _ => [HttpError "Invalid forwarded URI" StatusBadRequest]
  | Ok queryToken =>
    let authHeader := Header_Get h HeaderAuthorization in
    match (if negb (bool_decide (authHeader = "")) then ExtractBearerToken authHeader
           else Ok queryToken) with
    | Fail _ => [HttpError "Invalid Authorization header" StatusBadRequest]
    | Ok token =>
      if bool_decide (token = "") then [HttpError "Missing token parameter" StatusBadRequest]
      else
      let host := Header_Get h HeaderForwardedHost in
      if bool_decide (host = "") then [HttpError (missing HeaderForwardedHost) StatusBadRequest]
      else
      let pattern := cfg_PathRegexPattern (srv_config s) in
      let appPath := ExtractAppPath forwardedURI pattern in
      match ExtractWorkspaceInfo s r with
      | Fail _ => [HttpError "Failed to extract workspace info" StatusBadRequest]
      | Ok wsInfo =>
        match createBearerTokenReview s token (wi_Namespace wsInfo) with
        | Fail _ => [HttpError "Token verification failed" StatusInternalServerError]
        | Ok reviewStatus =>
          if negb (bts_Authenticated reviewStatus) then
            [HttpError "Invalid token" StatusUnauthorized]
          else if negb (bool_decide (ExtractAppPath (bts_Path reviewStatus) pattern = appPath)) then
            [HttpError "Token path mismatch" StatusForbidden]
          else
          let user := bts_User reviewStatus in
          match Manager.GenerateToken (srv_jwtManager s) clk (btu_Username user) (btu_Groups user)
                  (btu_UID user) (btu_Extra user) appPath host TokenTypeSession with
          | Fail _ => [HttpError "Internal server error" StatusInternalServerError]
          | Ok sessionToken =>
              [SetCookie (srv_cookieManager s) sessionToken appPath host;
               HttpWriteHeader StatusOK]
          end
        end
      end
    end
  end.
End server.

(** ** Properties *)

(** The status code a response carries: the first one written. *)
Fixpoint response_code {L : JwtLib} (actions : list HttpAction) : option Z :=
  match actions with
  | [] => None
  | HttpError _ code :: _ | HttpWriteHeader code :: _ => Some code
  | _ :: rest => response_code rest
  end.

(** The token a response hands to the browser. *)
Definition sets_token {L : JwtLib} (actions : list HttpAction) (tok : Tok) : Prop :=
  exists c, HttpSetCookie c ∈ actions /\ cookie_Value c = Some tok.

Lemma sets_token_nil {L : JwtLib} tok : ~ sets_token [] tok.
Proof. by intros (c & ?%elem_of_nil & _). Qed.

Lemma sets_token_cons {L : JwtLib} a l tok :
  sets_token (a :: l) tok <->
  match a with HttpSetCookie c => cookie_Value c = Some tok | _ => False end \/ sets_token l tok.
Proof.
  unfold sets_token. split.
  - intros (c & [<-|Hin]%elem_of_cons & Hv); [by left|right; eauto].
  - intros [Ha|(c & ? & ?)]; [|exists c; split; [by right|done]].
    destruct a; try done. exists c. split; [left|done].
Qed.

(** Discharge the branches of a handler that hand out no token. *)
Ltac no_token :=
  repeat match goal with
  | H : sets_token (_ :: _) _ |- _ => apply sets_token_cons in H; destruct H as [H|H]; cbn in H
  | H : sets_token [] _ |- _ => by apply sets_token_nil in H
  | H : False |- _ => destruct H
  | H : None = Some _ |- _ => discriminate H
  end.

Section verify.
Context `{GoRegexp} {L : JwtLib}.

(** What the verify route requires of a request before any refresh. *)
Definition verified (s : Server) (now : Time) (r : Request) (claims : Claims) : Prop :=
  Header_Get (req_Header r) HeaderForwardedURI <> "" /\
  Header_Get (req_Header r) HeaderForwardedHost <> "" /\
  (exists tok, req_Cookies r !! cm_cookieName (srv_cookieManager s) = Some tok /\
     Manager.ValidateToken (srv_jwtManager s) now tok = Ok claims) /\
  TokenType claims = TokenTypeSession /\
  HasPrefix (Header_Get (req_Header r) HeaderForwardedURI) (Path claims) = true /\
  Domain claims = Header_Get (req_Header r) HeaderForwardedHost.

(** The refresh decision for verified claims. *)
Definition refresh_actions (s : Server) (clk : Clock) (r : Request) (claims : Claims)
    : list HttpAction :=
  if Manager.ShouldRefreshToken (srv_jwtManager s) (clk 1%nat) (Some claims) then
    match VerifyWorkspaceAccessFromJwt s r claims with
    | Fail _ =>
        match Manager.UpdateSkipRefreshToken (srv_jwtManager s) (clock_skip 2 clk)
                (Some claims) with
        | Fail _ => [HttpWriteHeader StatusOK]
        | Ok newToken =>
            [SetCookie (srv_cookieManager s) newToken (Path claims) (Domain claims);
             HttpWriteHeader StatusOK]
        end
    | Ok (review, _) =>
        if negb (cast_Allowed review) then
          [ClearCookie (srv_cookieManager s) (Path claims) (Domain claims);
           HttpError "Access denied: you are no longer authorized to access this workspace"
             StatusForbidden]
        else
          match Manager.RefreshToken (srv_jwtManager s) (clock_skip 2 clk) (Some claims) with
          | Fail _ => [HttpWriteHeader StatusOK]
          | Ok newToken =>
              [SetCookie (srv_cookieManager s) newToken (Path claims) (Domain claims);
               HttpWriteHeader StatusOK]
          end
    end
  else [HttpWriteHeader StatusOK].

(** The handler either refuses with one error or has verified claims. *)
Lemma handleVerify_cases s clk r :
  (exists msg code, handleVerify s clk r = [HttpError msg code] /\ code <> StatusOK /\
     forall claims, ~ verified s (clk 0%nat) r claims) \/
  (exists claims, verified s (clk 0%nat) r claims /\
     handleVerify s clk r = refresh_actions s clk r claims).
Proof.
  unfold handleVerify, verified, GetCookie.
  set (path := Header_Get (req_Header r) HeaderForwardedURI).
  set (host := Header_Get (req_Header r) HeaderForwardedHost).
  case_bool_decide as Hp; [by left; eexists _, _; split_and!; [done..|intros ? [? _]]|].
  case_bool_decide as Hh; [by left; eexists _, _; split_and!; [done..|intros ? (_ & ? & _)]|].
  destruct (req_Cookies r !! _) as [tok|] eqn:Hc;
    [|left; eexists _, _; split_and!; [done..|by intros ? (_ & _ & (? & ? & _) & _)]].
  destruct (Manager.ValidateToken _ _ tok) as [c|e] eqn:Hv;
    [|left; eexists _, _; split_and!; [done..|intros ? (_ & _ & (? & ? & ?) & _); congruence]].
  assert (Huniq : forall claims, (exists tok0, Some tok = Some tok0 /\
    Manager.ValidateToken (srv_jwtManager s) (clk 0%nat) tok0 = Ok claims) -> claims = c).
  { intros claims (? & [= <-] & E). congruence. }
  case_bool_decide as Ht;
    [|left; eexists _, _; split_and!; [done..|intros ? (_ & _ & ->%Huniq & ? & _); congruence]].
  cbn [negb]. rewrite andb_true_r.
  destruct (HasPrefix path (Path c)) eqn:Hpre; cycle 1.
  { rewrite bool_decide_false by (intros E; rewrite E in Hpre; by destruct path).
    left; eexists _, _; split_and!; [done..|intros ? (_ & _ & ->%Huniq & _ & ? & _); congruence]. }
  rewrite andb_false_r. case_bool_decide as Hd; cycle 1.
  { left; eexists _, _; split_and!; [done..|intros ? (_ & _ & ->%Huniq & _ & _ & ?); congruence]. }
  right. exists c. split; [|done]. split_and!; try done. by exists tok.
Qed.
End verify.

(** [C3] The verify route grants exactly what the claims allow: it answers 200
    if and only if both forwarded headers are present, the cookie holds a token
    that validates, of session type, whose path is a prefix of the requested URI
    and whose domain is the requested host, and, when the token is due for
    refresh and the access review answers, the review still allows the user. *)
Theorem handleVerify_grants `{GoRegexp} {L : JwtLib} (s : Server) (clk : Clock) (r : Request) :
  response_code (handleVerify s clk r) = Some StatusOK <->
  exists claims, verified s (clk 0%nat) r claims /\
    (Manager.ShouldRefreshToken (srv_jwtManager s) (clk 1%nat) (Some claims) = true ->
     forall review info, VerifyWorkspaceAccessFromJwt s r claims = Ok (review, info) ->
       cast_Allowed review = true).
Proof.
  destruct (handleVerify_cases s clk r) as [(msg & code & -> & Hne & Hno)|(c & Hv & ->)].
  { cbn. split; [congruence|]. by intros (c & ?%Hno & _). }
  assert (Huniq : forall c', verified s (clk 0%nat) r c' -> c' = c).
  { destruct Hv as (_ & _ & (tok & Hc & Ht) & _). intros c' (_ & _ & (tok' & Hc' & Ht') & _).
    congruence. }
  unfold refresh_actions.
  destruct (Manager.ShouldRefreshToken _ _ _) eqn:Hs;
    [destruct (VerifyWorkspaceAccessFromJwt s r c) as [[review info]|e] eqn:Ha;
     [destruct (cast_Allowed review) eqn:Hr; cbn [negb]|]|].
  - split; [intros _; exists c; split; [done|intros _ ? ? E; congruence]|intros _].
    by destruct (Manager.RefreshToken _ _ _).
  - cbn. split; [done|]. intros (c' & ->%Huniq & Hal). specialize (Hal Hs _ _ Ha). congruence.
  - split; [intros _; exists c; split; [done|intros _ ? ? E; congruence]|intros _].
    by destruct (Manager.UpdateSkipRefreshToken _ _ _).
  - split; [intros _; exists c; split; [done|congruence]|done].
Qed.

(** The path test is a prefix test without a boundary: a token for workspace
    [app] also passes for workspace [app2] of the namespace. *)
Lemma path_prefix_crosses_workspaces :
  HasPrefix "/workspaces/ns/app2/lab" "/workspaces/ns/app" = true.
Proof. reflexivity. Qed.

(** ** Sessions *)

(** Pass the guards of a handler that reply with an error. *)
Ltac pass_guards H :=
  repeat match type of H with
  | sets_token (if ?b then _ else _) _ =>
      lazymatch type of b with bool => destruct b eqn:?; [no_token|] end
  end.

Section sessions.
Context `{GoRegexp} {L : JwtLib} {LW : JwtLaws L}.
(** The deployment's token lifetime and refresh horizon, and the longest a
    request takes: all readings of the clock in one request are at most
    [delta] after its first. *)
Variables (lifetime horizon delta : Duration).

Definition request_clock (clk : Clock) : Prop :=
  forall n, clk 0%nat <= clk n <= clk 0%nat + delta.

(** A server of the deployment, at any moment: its signer may hold any keys. *)
Definition deployed (s : Server) : Prop :=
  Manager.refreshHorizon (srv_jwtManager s) = horizon /\
  SignerContract (Manager.signer (srv_jwtManager s)) lifetime.

(** The tokens of one login: the first, issued by some server, and those the
    verify route puts in the cookie when the browser sends one back. *)
Inductive session (t0 : Time) (u : string) (g : list string) (uid : string)
    (e : gmap string (list string)) (pa d : string) : Tok -> Prop :=
| session_login s clk tok :
    deployed s -> request_clock clk -> clk 0%nat = t0 ->
    Manager.GenerateToken (srv_jwtManager s) clk u g uid e pa d TokenTypeSession = Ok tok ->
    session t0 u g uid e pa d tok
| session_verify s clk r tok tok' :
    session t0 u g uid e pa d tok -> deployed s -> request_clock clk ->
    req_Cookies r !! cm_cookieName (srv_cookieManager s) = Some tok ->
    sets_token (handleVerify s clk r) tok' ->
    session t0 u g uid e pa d tok'.

(** What is known of the claims of every token of the session: identity and
    scope are those of the login; a token that may still be refreshed keeps the
    original issuance and expires within the horizon. *)
Definition session_claims (t0 : Time) (u : string) (g : list string) (uid : string)
    (e : gmap string (list string)) (pa d : string) (c : Claims) : Prop :=
  User c = u /\ Groups c = g /\ UID c = uid /\ Extra c = e /\ Path c = pa /\ Domain c = d /\
  TokenType c = TokenTypeSession /\
  exists exp, ExpiresAt c = Some exp /\
    (SkipRefresh c = false ->
       IssuedAt c = Some (NewNumericDate t0) /\ exp <= t0 + horizon + delta + lifetime) /\
    (SkipRefresh c = true -> exp <= t0 + horizon + 2 * delta + 2 * lifetime).

Lemma NewNumericDate_idem t : NewNumericDate (NewNumericDate t) = NewNumericDate t.
Proof.
  rewrite !numeric_date_second. pose proof (Z.div_mod t Second).
  rewrite (Z.mod_eq t Second) by done.
  replace (t - (t - Second * (t / Second))) with ((t / Second) * Second) by lia.
  rewrite Z.mod_mul by done. lia.
Qed.

Lemma time_Sub_lt_horizon now iat :
  horizon <= maxInt64 -> time_Sub now iat < horizon -> now - iat < horizon.
Proof. unfold time_Sub, minInt64, maxInt64. lia. Qed.

Lemma time_Sub_pos a b : 0 < time_Sub a b -> b < a.
Proof. unfold time_Sub, minInt64, maxInt64. lia. Qed.

(** One refresh keeps the invariant. *)
Lemma refresh_session t0 u g uid e pa d s clk c tok :
  horizon <= maxInt64 -> deployed s -> request_clock clk ->
  session_claims t0 u g uid e pa d c -> SkipRefresh c = false ->
  Manager.RefreshToken (srv_jwtManager s) (clock_skip 2 clk) (Some c) = Ok tok ->
  exists h c' k, Signed tok h c' k /\ session_claims t0 u g uid e pa d c'.
Proof.
  intros Hmax [Hh Hct] Hclk (E1 & E2 & E3 & E4 & E5 & E6 & E7 & exp & _ & Hr & _) Hsk.
  destruct (Hr Hsk) as [Hiat _]. unfold Manager.RefreshToken. rewrite Hiat, Hh.
  destruct (Z.leb_spec horizon (time_Sub (clock_skip 2 clk 0%nat) (NewNumericDate t0)))
    as [|Hlt]; [done|].
  apply (time_Sub_lt_horizon _ _ Hmax) in Hlt. intros Hg.
  destruct (refreshed_claims _ _ _ Hg)
    as (h & c' & k & old & iat & Hs & [= <-] & Ho & Hx & Hi & ? & ? & ? & ? & ? & ? & ? & Hs').
  rewrite Hiat in Ho. injection Ho as <-. exists h, c', k. split; [done|].
  unfold session_claims. split_and!; try congruence.
  eexists. split; [exact Hx|]. rewrite Hs'. split; [intros _|done].
  rewrite Hi, NewNumericDate_idem. split; [done|].
  unfold clock_next, clock_skip in *.
  pose proof (numeric_date_bounds (clk (2 + 2)%nat + lifetime)).
  pose proof (numeric_date_bounds t0).
  pose proof (Hclk 2%nat). pose proof (Hclk 4%nat). cbn in *. lia.
Qed.

(** So does giving up on refreshing. *)
Lemma skip_session t0 u g uid e pa d s clk c tok :
  deployed s -> request_clock clk -> session_claims t0 u g uid e pa d c ->
  Manager.ShouldRefreshToken (srv_jwtManager s) (clk 1%nat) (Some c) = true ->
  Manager.UpdateSkipRefreshToken (srv_jwtManager s) (clock_skip 2 clk) (Some c) = Ok tok ->
  exists h c' k, Signed tok h c' k /\ session_claims t0 u g uid e pa d c'.
Proof.
  intros [_ Hct] Hclk (E1 & E2 & E3 & E4 & E5 & E6 & E7 & exp & Hexp & Hr & _) Hs Hg.
  destruct (generated_claims _ _ _ _ _ _ _ _ _ _ Hg)
    as (h & c' & k & Hsig & Hx & _ & ? & ? & ? & ? & ? & ? & ? & Hsk).
  exists h, c', k. split; [done|]. unfold session_claims. split_and!; try congruence.
  eexists. split; [exact Hx|]. rewrite Hsk. split; [done|intros _].
  unfold Manager.ShouldRefreshToken in Hs. rewrite Hexp in Hs.
  destruct (Manager.enableRefresh _); [|done]. cbn [negb] in Hs.
  destruct (IssuedAt c); [|done]. destruct (SkipRefresh c) eqn:Hsc; [done|].
  destruct (Hr eq_refl) as [_ Hle]. apply andb_true_iff in Hs as [Hpos%Z.ltb_lt _].
  apply time_Sub_pos in Hpos. unfold clock_skip in *.
  pose proof (numeric_date_bounds (clk (2 + 2)%nat + lifetime)).
  pose proof (Hclk 1%nat). pose proof (Hclk 4%nat). cbn in *. lia.
Qed.

Lemma session_invariant t0 u g uid e pa d tok :
  0 <= horizon <= maxInt64 -> session t0 u g uid e pa d tok ->
  exists h c k, Signed tok h c k /\ session_claims t0 u g uid e pa d c.
Proof.
  intros Hh. induction 1 as [s clk tok [_ Hct] Hclk E Hg
                            |s clk r tok tok' _ (h & c & k & Hsig & Hc) Hdep Hclk Hck Hset].
  - destruct (generated_claims _ _ _ _ _ _ _ _ _ _ Hg)
      as (h & c & k & Hsig & Hx & Hi & ? & ? & ? & ? & ? & ? & ? & Hsk).
    exists h, c, k. split; [done|]. unfold session_claims. split_and!; try done.
    eexists. split; [exact Hx|]. rewrite Hsk, Hi, E. split; [intros _; split; [done|]|done].
    pose proof (numeric_date_bounds (clk 2%nat + lifetime)). pose proof (Hclk 2%nat). lia.
  - destruct (handleVerify_cases s clk r) as [(msg & code & E & _)|(c1 & Hv & E)];
      rewrite E in Hset; [no_token|].
    destruct Hv as (_ & _ & (tok1 & Hck1 & Hval) & _). rewrite Hck in Hck1.
    injection Hck1 as <-. destruct Hdep as [Hhz Hct].
    destruct (validated_signed _ _ _ Hval) as (h1 & k1 & Hsig1).
    destruct (signed_content _ _ _ _ _ _ _ Hsig Hsig1) as [_ <-].
    unfold refresh_actions in Hset.
    destruct (Manager.ShouldRefreshToken _ _ _) eqn:Hsh; [|no_token].
    destruct (VerifyWorkspaceAccessFromJwt s r c) as [[review info]|err];
      [destruct (cast_Allowed review); cbn [negb] in Hset; [|no_token];
       destruct (Manager.RefreshToken _ _ _) as [tok1|] eqn:Hrf; [|no_token]
      |destruct (Manager.UpdateSkipRefreshToken _ _ _) as [tok1|] eqn:Hup; [|no_token]];
      no_token; injection Hset as ->.
    + eapply refresh_session; [lia|by split|exact Hclk|exact Hc| |exact Hrf].
      unfold Manager.ShouldRefreshToken in Hsh. destruct (SkipRefresh c); [|done].
      by destruct (Manager.enableRefresh _), (ExpiresAt c), (IssuedAt c).
    + eapply skip_session; [by split|exact Hclk|exact Hc|exact Hsh|exact Hup].
Qed.
End sessions.

(** [C34] Sessions are bounded: through any number of verify requests, on servers
    of the deployment whose signing keys may rotate in between, every token
    derived from a login at [t0] carries the identity, path and domain of that
    login; and no such token is accepted later than the refresh horizon plus two
    token lifetimes after the login (plus twice the duration of a request and the
    five seconds of leeway), so the user must authenticate again. *)
Theorem session_bounded `{GoRegexp} {L : JwtLib} {LW : JwtLaws L}
    (lifetime horizon delta : Duration) (t0 : Time) (u : string) (g : list string) (uid : string)
    (e : gmap string (list string)) (pa d : string) (tok : Tok)
    (s : Server) (clk : Clock) (r : Request) :
  0 <= horizon <= maxInt64 -> session lifetime horizon delta t0 u g uid e pa d tok ->
  0 <= delta -> 0 <= lifetime -> deployed lifetime horizon s ->
  req_Cookies r !! cm_cookieName (srv_cookieManager s) = Some tok ->
  (forall c, verified s (clk 0%nat) r c ->
     User c = u /\ Groups c = g /\ UID c = uid /\ Path c = pa /\ Domain c = d) /\
  (t0 + horizon + 2 * delta + 2 * lifetime + 5 * Second <= clk 0%nat ->
     response_code (handleVerify s clk r) <> Some StatusOK).
Proof.
  intros Hh Hs Hd Hl [_ Hct] Hck.
  destruct (session_invariant _ _ _ _ _ _ _ _ _ _ _ Hh Hs) as (h & c & k & Hsig & Hc).
  assert (Hv : forall c', verified s (clk 0%nat) r c' -> c' = c /\
    forall exp, ExpiresAt c = Some exp -> clk 0%nat < exp + 5 * Second).
  { intros c' (_ & _ & (tok' & Hck' & Hval) & _). rewrite Hck in Hck'. injection Hck' as <-.
    destruct (validated_signed _ _ _ Hval) as (h' & k' & Hsig').
    destruct (signed_content _ _ _ _ _ _ _ Hsig Hsig') as [_ <-]. split; [done|].
    intros exp. by eapply validated_unexpired. }
  destruct Hc as (? & ? & ? & _ & ? & ? & _ & exp & He & Hr & Hsk). split.
  - intros c' [-> _]%Hv. done.
  - intros Hlate. destruct (handleVerify_cases s clk r) as [(msg & code & -> & Hne & _)|(c' & Hc' & _)].
    + cbn. congruence.
    + destruct (Hv _ Hc') as [_ Hx]. specialize (Hx _ He).
      destruct (SkipRefresh c); [specialize (Hsk eq_refl)|destruct (Hr eq_refl)]; lia.
Qed.

(** A pattern engine without matches, and a server of one key. *)

Definition demo_config : Config :=
  mkConfig 8080 0 0 0 [] "" "" "default" "standard" "iss" "aud" (60 * Second) true (30 * Second)
    (600 * Second) "jwt" (5 * Second) true true "auth" true "" "/" 3600 true "lax" "" "" ""
    "path" "" "" "github:" "github:" "" "" 30.

Definition demo_server : Server (L := toy_jwt) :=
  mkServer toy_jwt demo_config
    (Manager.NewManager (@StandardSigner_Signer canonical_runtime toy_jwt demo_signer) true
       (30 * Second) (600 * Second))
    (mkCookieManager "auth" true "" "/" 3600 true SameSiteLaxMode "") None None.

Definition demo_request : Request (L := toy_jwt) :=
  mkRequest toy_jwt "GET"
    {[HeaderForwardedURI := "/workspaces/ns/w/lab"; HeaderForwardedHost := "example.com"]}
    {["auth" := demo_token]}.

Lemma session_bounded_witness :
  response_code (@handleVerify no_regexp toy_jwt demo_server (demo_clock (60 * Second))
    demo_request) = Some StatusOK /\
  response_code (@handleVerify no_regexp toy_jwt demo_server (demo_clock (1000 * Second))
    demo_request) <> Some StatusOK.
Proof.
  split; [vm_compute; reflexivity|].
  refine (proj2 (@session_bounded no_regexp toy_jwt toy_laws (60 * Second) (600 * Second) 0
    (9 * Second) "alice" [] "u1" ∅ "/workspaces/ns/w" "example.com" demo_token demo_server
    (demo_clock (1000 * Second)) demo_request _ _ _ _ _ _) _).
  - vm_compute. split; discriminate.
  - apply (@session_login no_regexp toy_jwt (60 * Second) (600 * Second) 0 (9 * Second) "alice" []
      "u1" ∅ "/workspaces/ns/w" "example.com" demo_server (demo_clock (9 * Second))).
    + split; [reflexivity|]. exact (@StandardSigner_contract canonical_runtime _ _ demo_signer).
    + intros n. unfold demo_clock. lia.
    + reflexivity.
    + reflexivity.
  - lia.
  - vm_compute. discriminate.
  - split; [reflexivity|]. exact (@StandardSigner_contract canonical_runtime _ _ demo_signer).
  - reflexivity.
  - vm_compute. discriminate.
Defined.

(** The auth route sets a cookie only after the review of the workspace. *)
Lemma handleAuth_sets_token `{GoRegexp} {L : JwtLib} (s : Server) (clk : Clock) (r : Request) (tok : Tok) :
  sets_token (handleAuth s clk r) tok ->
  exists verify bearer oidc review info,
    srv_oidcVerifier s = Some verify /\ verify bearer = inl oidc /\
    ExtractBearerToken (Header_Get (req_Header r) HeaderAuthorization) = Ok bearer /\
    VerifyWorkspaceAccess s r (GetOIDCUsernameFromToken (srv_config s) (Some oidc))
      (GetOIDCGroupsFromToken (srv_config s) (Some oidc)) (oidc_Subject oidc) ∅
      = Ok (review, info) /\
    cast_Allowed review = true /\ cast_NotFound review = false /\
    Manager.GenerateToken (srv_jwtManager s) clk
      (GetOIDCUsernameFromToken (srv_config s) (Some oidc))
      (GetOIDCGroupsFromToken (srv_config s) (Some oidc)) (oidc_Subject oidc) ∅
      (ExtractAppPath (Header_Get (req_Header r) HeaderForwardedURI)
         (cfg_PathRegexPattern (srv_config s)))
      (Header_Get (req_Header r) HeaderForwardedHost) TokenTypeSession = Ok tok.
Proof.
  intros Hset. unfold handleAuth in Hset.
  pass_guards Hset.
  destruct (srv_oidcVerifier s) as [verify|] eqn:Ev; [|no_token].
  destruct (ExtractBearerToken _) as [bearer|] eqn:Eb; [|no_token].
  destruct (verify bearer) as [oidc|[[] err]] eqn:Eo; [|no_token|no_token].
  pass_guards Hset.
  destruct (srv_restClient s) as [rest|]; [|no_token].
  destruct (VerifyWorkspaceAccess _ _ _ _ _ _) as [[review info]|] eqn:Ea; [|no_token].
  destruct (negb (cast_Allowed review) || cast_NotFound review) eqn:Er; [no_token|].
  apply orb_false_iff in Er as [Er1%negb_false_iff Er2].
  destruct (Manager.GenerateToken _ _ _ _ _ _ _ _ _) as [t|] eqn:Eg; [|no_token].
  no_token. injection Hset as ->. exists verify, bearer, oidc, review, info. done.
Qed.

(** [C35] A session cookie is handed out only after authorization: the auth route
    sets one only when the OIDC provider vouches for the bearer token and the
    connection access review of the requested workspace allows that user and
    finds the workspace; the bearer route only when the extension API
    authenticates the token for the application path of the request.  The token
    is then a session token for exactly that user, path and host. *)
Theorem session_cookie_authorized `{GoRegexp} {L : JwtLib}
    (url_query_token : string -> result string) (s : Server) (clk : Clock) (r : Request) (tok : Tok) :
  let appPath := ExtractAppPath (Header_Get (req_Header r) HeaderForwardedURI)
                   (cfg_PathRegexPattern (srv_config s)) in
  let host := Header_Get (req_Header r) HeaderForwardedHost in
  (sets_token (handleAuth s clk r) tok ->
   exists verify bearer oidc review info,
     srv_oidcVerifier s = Some verify /\ verify bearer = inl oidc /\
     ExtractBearerToken (Header_Get (req_Header r) HeaderAuthorization) = Ok bearer /\
     VerifyWorkspaceAccess s r (GetOIDCUsernameFromToken (srv_config s) (Some oidc))
       (GetOIDCGroupsFromToken (srv_config s) (Some oidc)) (oidc_Subject oidc) ∅
       = Ok (review, info) /\
     cast_Allowed review = true /\ cast_NotFound review = false /\
     Manager.GenerateToken (srv_jwtManager s) clk
       (GetOIDCUsernameFromToken (srv_config s) (Some oidc))
       (GetOIDCGroupsFromToken (srv_config s) (Some oidc)) (oidc_Subject oidc) ∅ appPath host
       TokenTypeSession = Ok tok) /\
  (sets_token (handleBearerAuth url_query_token s clk r) tok ->
   exists token info review,
     ExtractWorkspaceInfo s r = Ok info /\
     createBearerTokenReview s token (wi_Namespace info) = Ok review /\
     bts_Authenticated review = true /\
     ExtractAppPath (bts_Path review) (cfg_PathRegexPattern (srv_config s)) = appPath /\
     Manager.GenerateToken (srv_jwtManager s) clk (btu_Username (bts_User review))
       (btu_Groups (bts_User review)) (btu_UID (bts_User review)) (btu_Extra (bts_User review))
       appPath host TokenTypeSession = Ok tok).
Proof.
  cbv zeta. split; intros Hset.
  - by apply handleAuth_sets_token.
  - unfold handleBearerAuth in Hset.
    pass_guards Hset.
    destruct (url_query_token _) as [q|]; [|no_token].
    destruct (if negb _ then _ else _) as [token|]; [|no_token].
    pass_guards Hset.
    destruct (ExtractWorkspaceInfo s r) as [info|] eqn:Ei; [|no_token].
    destruct (createBearerTokenReview _ _ _) as [review|] eqn:Er; [|no_token].
    destruct (bts_Authenticated review) eqn:Ea; cbn [negb] in Hset; [|no_token].
    destruct (bool_decide (ExtractAppPath (bts_Path review) _ = _)) eqn:Hp; cbn [negb] in Hset; [|no_token].
    apply bool_decide_eq_true in Hp.
    destruct (Manager.GenerateToken _ _ _ _ _ _ _ _ _) as [t|] eqn:Eg; [|no_token].
    no_token. injection Hset as ->. exists token, info, review. done.
Qed.
