(* ===== verification/AuthConfig.v ===== *)
(** * AuthConfig: the configuration of the auth middleware

    internal/authmiddleware/config.go and the environment part of config_utils.go:
    the defaults, and the overrides read from the environment.  os.Getenv is a
    function of the name, empty where a variable is not set.  A configuration is
    described field by field by [configured], which [NewConfig] decides; every
    configuration within its bounds has an environment that yields it. *)

From S2P Require Import Prelude StringUtil Timestamps Durations AuthUtils AuthMiddleware.

(** ** Names of the environment *)

Definition EnvPort : string := "PORT".
Definition EnvReadTimeout : string := "READ_TIMEOUT".
Definition EnvWriteTimeout : string := "WRITE_TIMEOUT".
Definition EnvShutdownTimeout : string := "SHUTDOWN_TIMEOUT".
Definition EnvTrustedProxies : string := "TRUSTED_PROXIES".
Definition EnvMetricsAddr : string := "METRICS_ADDR".
Definition EnvProbeAddr : string := "PROBE_ADDR".
Definition EnvNamespace : string := "NAMESPACE".
Definition EnvJwtSigningType : string := "JWT_SIGNING_TYPE".
Definition EnvJwtIssuer : string := "JWT_ISSUER".
Definition EnvJwtAudience : string := "JWT_AUDIENCE".
Definition EnvJwtExpiration : string := "JWT_EXPIRATION".
Definition EnvEnableJwtRefresh : string := "JWT_REFRESH_ENABLE".
Definition EnvJwtRefreshWindow : string := "JWT_REFRESH_WINDOW".
Definition EnvJwtRefreshHorizon : string := "JWT_REFRESH_HORIZON".
Definition EnvJwtSecretName : string := "JWT_SECRET_NAME".
Definition EnvJwtNewKeyUseDelay : string := "NEW_KEY_USE_DELAY".
Definition EnvEnableOAuth : string := "ENABLE_OAUTH".
Definition EnvEnableBearerAuth : string := "ENABLE_BEARER_URL_AUTH".
Definition EnvRoutingMode : string := "ROUTING_MODE".
Definition EnvWorkspaceNamespaceSubdomainRegex : string := "WORKSPACE_NAMESPACE_SUBDOMAIN_REGEX".
Definition EnvWorkspaceNameSubdomainRegex : string := "WORKSPACE_NAME_SUBDOMAIN_REGEX".
Definition EnvCookieName : string := "COOKIE_NAME".
Definition EnvCookieSecure : string := "COOKIE_SECURE".
Definition EnvCookieDomain : string := "COOKIE_DOMAIN".
Definition EnvCookiePath : string := "COOKIE_PATH".
Definition EnvCookieMaxAge : string := "COOKIE_MAX_AGE".
Definition EnvCookieHttpOnly : string := "COOKIE_HTTP_ONLY".
Definition EnvCookieSameSite : string := "COOKIE_SAME_SITE".
Definition EnvPathRegexPattern : string := "PATH_REGEX_PATTERN".
Definition EnvWorkspaceNamespacePathRegex : string := "WORKSPACE_NAMESPACE_PATH_REGEX".
Definition EnvWorkspaceNamePathRegex : string := "WORKSPACE_NAME_PATH_REGEX".
Definition EnvOidcUsernamePrefix : string := "OIDC_USERNAME_PREFIX".
Definition EnvOidcGroupsPrefix : string := "OIDC_GROUPS_PREFIX".
Definition EnvOIDCIssuerURL : string := "OIDC_ISSUER_URL".
Definition EnvOIDCClientID : string := "OIDC_CLIENT_ID".
Definition EnvOIDCInitTimeoutSecs : string := "OIDC_INIT_TIMEOUT_SECONDS".

Definition JWTSigningTypeStandard : string := "standard".
Definition SameSiteLax : string := "lax".

(** ** Defaults *)

Definition DefaultPort : Z := 8080.
Definition DefaultReadTimeout : Duration := 10 * Second.
Definition DefaultWriteTimeout : Duration := 10 * Second.
Definition DefaultShutdownTimeout : Duration := 30 * Second.
Definition DefaultMetricsAddr : string := ":9090".
Definition DefaultProbeAddr : string := ":9091".
Definition DefaultJwtSigningType : string := JWTSigningTypeStandard.
Definition DefaultJwtIssuer : string := "workspaces-auth".
Definition DefaultJwtAudience : string := "workspace-users".
Definition DefaultJwtExpiration : Duration := 1 * Hour.
Definition DefaultJwtRefreshEnable : bool := true.
Definition DefaultJwtRefreshWindow : Duration := 15 * Minute.
Definition DefaultJwtRefreshHorizon : Duration := 12 * Hour.
Definition DefaultJwtSecretName : string := "authmiddleware-secrets".
Definition DefaultJwtNewKeyUseDelay : Duration := 5 * Second.
Definition DefaultEnableOAuth : bool := true.
Definition DefaultEnableBearerAuth : bool := false.
Definition DefaultCookieName : string := "workspace_auth".
Definition DefaultCookieSecure : bool := true.
Definition DefaultCookiePath : string := "/".
Definition DefaultCookieMaxAge : Duration := 24 * Hour.
Definition DefaultCookieHttpOnly : bool := true.
Definition DefaultCookieSameSite : string := SameSiteLax.
Definition DefaultPathRegexPattern : string := "^(/workspaces/[^/]+/[^/]+)(?:/.*)?$".
Definition DefaultWorkspaceNamespacePathRegex : string := "^/workspaces/([^/]+)/[^/]+".
Definition DefaultWorkspaceNamePathRegex : string := "^/workspaces/[^/]+/([^/]+)".
Definition DefaultRoutingMode : string := RoutingModePath.
Definition DefaultWorkspaceNamespaceSubdomainRegex : string := "^([^-]+)-.*".
Definition DefaultWorkspaceNameSubdomainRegex : string := "^[^-]+-(.*)$".
Definition DefaultOidcUsernamePrefix : string := "github:".
Definition DefaultOidcGroupsPrefix : string := "github:".
Definition DefaultOIDCInitTimeoutSecs : Z := 30.

(** createDefaultConfig creates a new Config with default values. *)
Definition createDefaultConfig : Config := {|
  cfg_Port := DefaultPort;
  cfg_ReadTimeout := DefaultReadTimeout;
  cfg_WriteTimeout := DefaultWriteTimeout;
  cfg_ShutdownTimeout := DefaultShutdownTimeout;
  cfg_TrustedProxies := ["127.0.0.1"; "::1"];
  cfg_MetricsAddr := DefaultMetricsAddr;
  cfg_ProbeAddr := DefaultProbeAddr;
  cfg_Namespace := "";
  cfg_JWTSigningType := DefaultJwtSigningType;
  cfg_JWTIssuer := DefaultJwtIssuer;
  cfg_JWTAudience := DefaultJwtAudience;
  cfg_JWTExpiration := DefaultJwtExpiration;
  cfg_JWTRefreshEnable := DefaultJwtRefreshEnable;
  cfg_JWTRefreshWindow := DefaultJwtRefreshWindow;
  cfg_JWTRefreshHorizon := DefaultJwtRefreshHorizon;
  cfg_JwtSecretName := DefaultJwtSecretName;
  cfg_JwtNewKeyUseDelay := DefaultJwtNewKeyUseDelay;
  cfg_EnableOAuth := DefaultEnableOAuth;
  cfg_EnableBearerAuth := DefaultEnableBearerAuth;
  cfg_CookieName := DefaultCookieName;
  cfg_CookieSecure := DefaultCookieSecure;
  cfg_CookieDomain := "";
  cfg_CookiePath := DefaultCookiePath;
  cfg_CookieMaxAge := DefaultCookieMaxAge;
  cfg_CookieHTTPOnly := DefaultCookieHttpOnly;
  cfg_CookieSameSite := DefaultCookieSameSite;
  cfg_PathRegexPattern := DefaultPathRegexPattern;
  cfg_WorkspaceNamespacePathRegex := DefaultWorkspaceNamespacePathRegex;
  cfg_WorkspaceNamePathRegex := DefaultWorkspaceNamePathRegex;
  cfg_RoutingMode := DefaultRoutingMode;
  cfg_WorkspaceNamespaceSubdomainRegex := DefaultWorkspaceNamespaceSubdomainRegex;
  cfg_WorkspaceNameSubdomainRegex := DefaultWorkspaceNameSubdomainRegex;
  cfg_OidcUsernamePrefix := DefaultOidcUsernamePrefix;
  cfg_OidcGroupsPrefix := DefaultOidcGroupsPrefix;
  cfg_OIDCIssuerURL := "";
  cfg_OIDCClientID := "";
  cfg_OIDCInitTimeoutSecs := DefaultOIDCInitTimeoutSecs;
|}.

(** ** Reading the environment *)

Section config.
Context `{GoRegexp} (Getenv : string -> string).

(** A field keeps its value while the variable is empty, and is parsed otherwise;
    [label] is what the error calls it. *)
Definition override_as {A} (label name : string) (parse : string -> result A) (current : A)
    : result A :=
  if bool_decide (Getenv name = "") then Ok current
  else wrap_err "invalid %s: %w" [label] (parse (Getenv name)).
Definition override {A} (name : string) (parse : string -> result A) (current : A) : result A :=
  override_as name name parse current.

Definition plain (s : string) : result string := Ok s.
Definition proxies (s : string) : result (list string) := Ok (splitAndTrim s ",").

(** regexp.Compile, of which only the verdict is used. *)
Definition pattern (s : string) : result string :=
  if re_compiles s then Ok s else Fail (Errorf "%s" [re_error s]).

(** applyServerConfig applies server-related environment variable overrides. *)
Definition applyServerConfig (c : Config) : result Config :=
  port ← override EnvPort Atoi (cfg_Port c);
  readTimeout ← override EnvReadTimeout ParseDuration (cfg_ReadTimeout c);
  writeTimeout ← override EnvWriteTimeout ParseDuration (cfg_WriteTimeout c);
  shutdownTimeout ← override EnvShutdownTimeout ParseDuration (cfg_ShutdownTimeout c);
  trustedProxies ← override EnvTrustedProxies proxies (cfg_TrustedProxies c);
  metricsAddr ← override EnvMetricsAddr plain (cfg_MetricsAddr c);
  probeAddr ← override EnvProbeAddr plain (cfg_ProbeAddr c);
  namespace ← override EnvNamespace plain (cfg_Namespace c);
  Ok (mkConfig port readTimeout writeTimeout shutdownTimeout trustedProxies metricsAddr
    probeAddr namespace (cfg_JWTSigningType c) (cfg_JWTIssuer c) (cfg_JWTAudience c)
    (cfg_JWTExpiration c) (cfg_JWTRefreshEnable c) (cfg_JWTRefreshWindow c)
    (cfg_JWTRefreshHorizon c) (cfg_JwtSecretName c) (cfg_JwtNewKeyUseDelay c)
    (cfg_EnableOAuth c) (cfg_EnableBearerAuth c) (cfg_CookieName c) (cfg_CookieSecure c)
    (cfg_CookieDomain c) (cfg_CookiePath c) (cfg_CookieMaxAge c) (cfg_CookieHTTPOnly c)
    (cfg_CookieSameSite c) (cfg_PathRegexPattern c) (cfg_WorkspaceNamespacePathRegex c)
    (cfg_WorkspaceNamePathRegex c) (cfg_RoutingMode c) (cfg_WorkspaceNamespaceSubdomainRegex
    c) (cfg_WorkspaceNameSubdomainRegex c) (cfg_OidcUsernamePrefix c) (cfg_OidcGroupsPrefix
    c) (cfg_OIDCIssuerURL c) (cfg_OIDCClientID c) (cfg_OIDCInitTimeoutSecs c)).

(** applyJWTConfig applies JWT-related environment variable overrides, and relates
    the three durations of a session. *)
Definition applyJWTConfig (c : Config) : result Config :=
  signingType ← override EnvJwtSigningType plain (cfg_JWTSigningType c);
  issuer ← override EnvJwtIssuer plain (cfg_JWTIssuer c);
  audience ← override EnvJwtAudience plain (cfg_JWTAudience c);
  expiration ← override EnvJwtExpiration ParseDuration (cfg_JWTExpiration c);
  enable ← override_as (Getenv EnvEnableJwtRefresh) EnvEnableJwtRefresh ParseBool
    (cfg_JWTRefreshEnable c);
  refreshWindow ← override EnvJwtRefreshWindow ParseDuration (cfg_JWTRefreshWindow c);
  refreshHorizon ← override EnvJwtRefreshHorizon ParseDuration (cfg_JWTRefreshHorizon c);
  jwtNewKeyUseDelay ← override EnvJwtNewKeyUseDelay ParseDuration (cfg_JwtNewKeyUseDelay c);
  enableOAuth ← override EnvEnableOAuth ParseBool (cfg_EnableOAuth c);
  enableBearerAuth ← override EnvEnableBearerAuth ParseBool (cfg_EnableBearerAuth c);
  routingMode ← override EnvRoutingMode plain (cfg_RoutingMode c);
  namespaceSubdomainRegex ← override EnvWorkspaceNamespaceSubdomainRegex plain
    (cfg_WorkspaceNamespaceSubdomainRegex c);
  nameSubdomainRegex ← override EnvWorkspaceNameSubdomainRegex plain
    (cfg_WorkspaceNameSubdomainRegex c);
  jwtSecretName ← override EnvJwtSecretName plain (cfg_JwtSecretName c);
  if expiration <? refreshWindow then
    Fail (Errorf
      "JWT refresh window (%s) must be less than or equal to JWT expiration (%s)"
      [Duration_String refreshWindow; Duration_String expiration])
  else if refreshHorizon <? expiration then
    Fail (Errorf
      "JWT refresh horizon (%s) must be greater or equal to JWT expiration (%s)"
      [Duration_String refreshWindow; Duration_String expiration])
  else
  Ok (mkConfig (cfg_Port c) (cfg_ReadTimeout c) (cfg_WriteTimeout c) (cfg_ShutdownTimeout c)
    (cfg_TrustedProxies c) (cfg_MetricsAddr c) (cfg_ProbeAddr c) (cfg_Namespace c)
    signingType issuer audience expiration enable refreshWindow refreshHorizon jwtSecretName
    jwtNewKeyUseDelay enableOAuth enableBearerAuth (cfg_CookieName c) (cfg_CookieSecure c)
    (cfg_CookieDomain c) (cfg_CookiePath c) (cfg_CookieMaxAge c) (cfg_CookieHTTPOnly c)
    (cfg_CookieSameSite c) (cfg_PathRegexPattern c) (cfg_WorkspaceNamespacePathRegex c)
    (cfg_WorkspaceNamePathRegex c) routingMode namespaceSubdomainRegex
    nameSubdomainRegex (cfg_OidcUsernamePrefix c) (cfg_OidcGroupsPrefix c)
    (cfg_OIDCIssuerURL c) (cfg_OIDCClientID c) (cfg_OIDCInitTimeoutSecs c)).

(** applyCookieConfig applies cookie-related environment variable overrides. *)
Definition applyCookieConfig (c : Config) : result Config :=
  cookieName ← override EnvCookieName plain (cfg_CookieName c);
  cookieSecure ← override EnvCookieSecure ParseBool (cfg_CookieSecure c);
  cookieDomain ← override EnvCookieDomain plain (cfg_CookieDomain c);
  cookiePath ← override EnvCookiePath plain (cfg_CookiePath c);
  cookieMaxAge ← override EnvCookieMaxAge ParseDuration (cfg_CookieMaxAge c);
  cookieHTTPOnly ← override EnvCookieHttpOnly ParseBool (cfg_CookieHTTPOnly c);
  cookieSameSite ← override EnvCookieSameSite plain (cfg_CookieSameSite c);
  Ok (mkConfig (cfg_Port c) (cfg_ReadTimeout c) (cfg_WriteTimeout c) (cfg_ShutdownTimeout c)
    (cfg_TrustedProxies c) (cfg_MetricsAddr c) (cfg_ProbeAddr c) (cfg_Namespace c)
    (cfg_JWTSigningType c) (cfg_JWTIssuer c) (cfg_JWTAudience c) (cfg_JWTExpiration c)
    (cfg_JWTRefreshEnable c) (cfg_JWTRefreshWindow c) (cfg_JWTRefreshHorizon c)
    (cfg_JwtSecretName c) (cfg_JwtNewKeyUseDelay c) (cfg_EnableOAuth c) (cfg_EnableBearerAuth
    c) cookieName cookieSecure cookieDomain cookiePath cookieMaxAge cookieHTTPOnly
    cookieSameSite (cfg_PathRegexPattern c) (cfg_WorkspaceNamespacePathRegex c)
    (cfg_WorkspaceNamePathRegex c) (cfg_RoutingMode c) (cfg_WorkspaceNamespaceSubdomainRegex
    c) (cfg_WorkspaceNameSubdomainRegex c) (cfg_OidcUsernamePrefix c) (cfg_OidcGroupsPrefix
    c) (cfg_OIDCIssuerURL c) (cfg_OIDCClientID c) (cfg_OIDCInitTimeoutSecs c)).

(** applyPathConfig sets the patterns that are still empty to their defaults, and
    overrides them by patterns that compile. *)
Definition or_default (value dflt : string) : string :=
  if bool_decide (value = "") then dflt else value.
Definition applyPathConfig (c : Config) : result Config :=
  pathRegex ← override EnvPathRegexPattern pattern
    (or_default (cfg_PathRegexPattern c) DefaultPathRegexPattern);
  namespaceRegex ← override EnvWorkspaceNamespacePathRegex pattern
    (or_default (cfg_WorkspaceNamespacePathRegex c) DefaultWorkspaceNamespacePathRegex);
  nameRegex ← override EnvWorkspaceNamePathRegex pattern
    (or_default (cfg_WorkspaceNamePathRegex c) DefaultWorkspaceNamePathRegex);
  Ok (mkConfig (cfg_Port c) (cfg_ReadTimeout c) (cfg_WriteTimeout c) (cfg_ShutdownTimeout c)
    (cfg_TrustedProxies c) (cfg_MetricsAddr c) (cfg_ProbeAddr c) (cfg_Namespace c)
    (cfg_JWTSigningType c) (cfg_JWTIssuer c) (cfg_JWTAudience c) (cfg_JWTExpiration c)
    (cfg_JWTRefreshEnable c) (cfg_JWTRefreshWindow c) (cfg_JWTRefreshHorizon c)
    (cfg_JwtSecretName c) (cfg_JwtNewKeyUseDelay c) (cfg_EnableOAuth c) (cfg_EnableBearerAuth
    c) (cfg_CookieName c) (cfg_CookieSecure c) (cfg_CookieDomain c) (cfg_CookiePath c)
    (cfg_CookieMaxAge c) (cfg_CookieHTTPOnly c) (cfg_CookieSameSite c) pathRegex
    namespaceRegex nameRegex (cfg_RoutingMode c) (cfg_WorkspaceNamespaceSubdomainRegex c)
    (cfg_WorkspaceNameSubdomainRegex c) (cfg_OidcUsernamePrefix c) (cfg_OidcGroupsPrefix c)
    (cfg_OIDCIssuerURL c) (cfg_OIDCClientID c) (cfg_OIDCInitTimeoutSecs c)).

(** applyOidcConfig applies OIDC-related environment variable overrides; the
    initialisation timeout is kept positive. *)
Definition positive_secs (s : string) : result Z :=
  timeoutSecs ← wrap_err "invalid %s: %w" [EnvOIDCInitTimeoutSecs] (Atoi s);
  if timeoutSecs <=? 0 then
    Fail (Errorf "%s must be a positive integer, got %d"
            [EnvOIDCInitTimeoutSecs; Sprint_int timeoutSecs])
  else Ok timeoutSecs.
Definition applyOidcConfig (c : Config) : result Config :=
  oidcUsernamePrefix ← override EnvOidcUsernamePrefix plain (cfg_OidcUsernamePrefix c);
  oidcGroupsPrefix ← override EnvOidcGroupsPrefix plain (cfg_OidcGroupsPrefix c);
  issuerURL ← override EnvOIDCIssuerURL plain (cfg_OIDCIssuerURL c);
  clientID ← override EnvOIDCClientID plain (cfg_OIDCClientID c);
  timeoutSecs ←
    (if bool_decide (Getenv EnvOIDCInitTimeoutSecs = "") then Ok (cfg_OIDCInitTimeoutSecs c)
     else positive_secs (Getenv EnvOIDCInitTimeoutSecs));
  let timeoutSecs := if timeoutSecs <=? 0 then 30 else timeoutSecs in
  Ok (mkConfig (cfg_Port c) (cfg_ReadTimeout c) (cfg_WriteTimeout c) (cfg_ShutdownTimeout c)
    (cfg_TrustedProxies c) (cfg_MetricsAddr c) (cfg_ProbeAddr c) (cfg_Namespace c)
    (cfg_JWTSigningType c) (cfg_JWTIssuer c) (cfg_JWTAudience c) (cfg_JWTExpiration c)
    (cfg_JWTRefreshEnable c) (cfg_JWTRefreshWindow c) (cfg_JWTRefreshHorizon c)
    (cfg_JwtSecretName c) (cfg_JwtNewKeyUseDelay c) (cfg_EnableOAuth c) (cfg_EnableBearerAuth
    c) (cfg_CookieName c) (cfg_CookieSecure c) (cfg_CookieDomain c) (cfg_CookiePath c)
    (cfg_CookieMaxAge c) (cfg_CookieHTTPOnly c) (cfg_CookieSameSite c) (cfg_PathRegexPattern
    c) (cfg_WorkspaceNamespacePathRegex c) (cfg_WorkspaceNamePathRegex c) (cfg_RoutingMode c)
    (cfg_WorkspaceNamespaceSubdomainRegex c) (cfg_WorkspaceNameSubdomainRegex c)
    oidcUsernamePrefix oidcGroupsPrefix issuerURL clientID timeoutSecs).

(** NewConfig creates a Config with values from environment variables or defaults. *)
Definition NewConfig : result Config :=
  c ← applyServerConfig createDefaultConfig;
  c ← applyJWTConfig c;
  c ← applyCookieConfig c;
  c ← applyPathConfig c;
  applyOidcConfig c.

(** ** What a configuration is *)

(** A field's value is its default while the variable is empty, and what the variable
    says otherwise. *)
Definition reads {A} (name : string) (parse : string -> result A) (dflt v : A) : Prop :=
  (Getenv name = "" /\ v = dflt) \/ (Getenv name <> "" /\ parse (Getenv name) = Ok v).

Record configured (c : Config) : Prop := mkConfigured {
  is_Port : reads EnvPort Atoi DefaultPort (cfg_Port c);
  is_ReadTimeout : reads EnvReadTimeout ParseDuration DefaultReadTimeout (cfg_ReadTimeout c);
  is_WriteTimeout : reads EnvWriteTimeout ParseDuration DefaultWriteTimeout (cfg_WriteTimeout c);
  is_ShutdownTimeout : reads EnvShutdownTimeout ParseDuration DefaultShutdownTimeout (cfg_ShutdownTimeout c);
  is_TrustedProxies : reads EnvTrustedProxies proxies ["127.0.0.1"; "::1"] (cfg_TrustedProxies c);
  is_MetricsAddr : reads EnvMetricsAddr plain DefaultMetricsAddr (cfg_MetricsAddr c);
  is_ProbeAddr : reads EnvProbeAddr plain DefaultProbeAddr (cfg_ProbeAddr c);
  is_Namespace : reads EnvNamespace plain "" (cfg_Namespace c);
  is_JWTSigningType : reads EnvJwtSigningType plain DefaultJwtSigningType (cfg_JWTSigningType c);
  is_JWTIssuer : reads EnvJwtIssuer plain DefaultJwtIssuer (cfg_JWTIssuer c);
  is_JWTAudience : reads EnvJwtAudience plain DefaultJwtAudience (cfg_JWTAudience c);
  is_JWTExpiration : reads EnvJwtExpiration ParseDuration DefaultJwtExpiration (cfg_JWTExpiration c);
  is_JWTRefreshEnable : reads EnvEnableJwtRefresh ParseBool DefaultJwtRefreshEnable (cfg_JWTRefreshEnable c);
  is_JWTRefreshWindow : reads EnvJwtRefreshWindow ParseDuration DefaultJwtRefreshWindow (cfg_JWTRefreshWindow c);
  is_JWTRefreshHorizon : reads EnvJwtRefreshHorizon ParseDuration DefaultJwtRefreshHorizon (cfg_JWTRefreshHorizon c);
  is_JwtNewKeyUseDelay : reads EnvJwtNewKeyUseDelay ParseDuration DefaultJwtNewKeyUseDelay (cfg_JwtNewKeyUseDelay c);
  is_EnableOAuth : reads EnvEnableOAuth ParseBool DefaultEnableOAuth (cfg_EnableOAuth c);
  is_EnableBearerAuth : reads EnvEnableBearerAuth ParseBool DefaultEnableBearerAuth (cfg_EnableBearerAuth c);
  is_RoutingMode : reads EnvRoutingMode plain DefaultRoutingMode (cfg_RoutingMode c);
  is_WorkspaceNamespaceSubdomainRegex : reads EnvWorkspaceNamespaceSubdomainRegex plain DefaultWorkspaceNamespaceSubdomainRegex (cfg_WorkspaceNamespaceSubdomainRegex c);
  is_WorkspaceNameSubdomainRegex : reads EnvWorkspaceNameSubdomainRegex plain DefaultWorkspaceNameSubdomainRegex (cfg_WorkspaceNameSubdomainRegex c);
  is_JwtSecretName : reads EnvJwtSecretName plain DefaultJwtSecretName (cfg_JwtSecretName c);
  is_CookieName : reads EnvCookieName plain DefaultCookieName (cfg_CookieName c);
  is_CookieSecure : reads EnvCookieSecure ParseBool DefaultCookieSecure (cfg_CookieSecure c);
  is_CookieDomain : reads EnvCookieDomain plain "" (cfg_CookieDomain c);
  is_CookiePath : reads EnvCookiePath plain DefaultCookiePath (cfg_CookiePath c);
  is_CookieMaxAge : reads EnvCookieMaxAge ParseDuration DefaultCookieMaxAge (cfg_CookieMaxAge c);
  is_CookieHTTPOnly : reads EnvCookieHttpOnly ParseBool DefaultCookieHttpOnly (cfg_CookieHTTPOnly c);
  is_CookieSameSite : reads EnvCookieSameSite plain DefaultCookieSameSite (cfg_CookieSameSite c);
  is_PathRegexPattern : reads EnvPathRegexPattern pattern DefaultPathRegexPattern (cfg_PathRegexPattern c);
  is_WorkspaceNamespacePathRegex : reads EnvWorkspaceNamespacePathRegex pattern DefaultWorkspaceNamespacePathRegex (cfg_WorkspaceNamespacePathRegex c);
  is_WorkspaceNamePathRegex : reads EnvWorkspaceNamePathRegex pattern DefaultWorkspaceNamePathRegex (cfg_WorkspaceNamePathRegex c);
  is_OidcUsernamePrefix : reads EnvOidcUsernamePrefix plain DefaultOidcUsernamePrefix (cfg_OidcUsernamePrefix c);
  is_OidcGroupsPrefix : reads EnvOidcGroupsPrefix plain DefaultOidcGroupsPrefix (cfg_OidcGroupsPrefix c);
  is_OIDCIssuerURL : reads EnvOIDCIssuerURL plain "" (cfg_OIDCIssuerURL c);
  is_OIDCClientID : reads EnvOIDCClientID plain "" (cfg_OIDCClientID c);
  is_OIDCInitTimeoutSecs : reads EnvOIDCInitTimeoutSecs Atoi DefaultOIDCInitTimeoutSecs (cfg_OIDCInitTimeoutSecs c);
  is_window : cfg_JWTRefreshWindow c <= cfg_JWTExpiration c;
  is_horizon : cfg_JWTExpiration c <= cfg_JWTRefreshHorizon c;
  is_timeout : 0 < cfg_OIDCInitTimeoutSecs c;
}.

Lemma override_reads {A} label name (parse : string -> result A) d v :
  override_as label name parse d = Ok v <-> reads name parse d v.
Proof.
  unfold override_as, reads. case_bool_decide as Hn.
  - split; [intros [= <-]; by left|]. intros [[_ ->]|[? _]]; done.
  - rewrite wrap_err_Ok. split; [by right|]. by intros [[? _]|[_ ?]].
Qed.

(** The timeout is read like the others, and positive. *)
Lemma timeout_reads c v :
  (if bool_decide (Getenv EnvOIDCInitTimeoutSecs = "") then Ok c
   else positive_secs (Getenv EnvOIDCInitTimeoutSecs)) = Ok v -> 0 < c ->
  reads EnvOIDCInitTimeoutSecs Atoi c v /\ 0 < v.
Proof.
  unfold reads, positive_secs. case_bool_decide as Hn; [intros [= <-]; auto|].
  intros (n & Hp%wrap_err_Ok & Hv)%result_bind_Ok _.
  destruct (n <=? 0) eqn:Hle; [done|]. apply Z.leb_gt in Hle. injection Hv as <-. auto.
Qed.

Lemma reads_timeout c v :
  reads EnvOIDCInitTimeoutSecs Atoi c v -> 0 < v ->
  (if bool_decide (Getenv EnvOIDCInitTimeoutSecs = "") then Ok c
   else positive_secs (Getenv EnvOIDCInitTimeoutSecs)) = Ok v.
Proof.
  intros [[Hn ->]|[Hn Hp]] Hv; [by rewrite bool_decide_true|].
  rewrite bool_decide_false by done. unfold positive_secs. rewrite Hp. cbn.
  by assert (v <=? 0 = false) as -> by (apply Z.leb_gt; lia).
Qed.

(** The steps of a successful reading, one variable at a time. *)
Ltac read_step :=
  match goal with
  | H : mbind _ _ = Ok _ |- _ =>
      let v := fresh "v" in let Hv := fresh "Hv" in
      apply result_bind_Ok in H as (v & Hv & H); try apply override_reads in Hv
  end.

Lemma NewConfig_sound c : NewConfig = Ok c -> configured c.
Proof.
  unfold NewConfig. intros Hc.
  apply result_bind_Ok in Hc as (c1 & H1 & Hc).
  apply result_bind_Ok in Hc as (c2 & H2 & Hc).
  apply result_bind_Ok in Hc as (c3 & H3 & Hc).
  apply result_bind_Ok in Hc as (c4 & H4 & H5).
  unfold applyServerConfig in H1. repeat read_step. injection H1 as <-.
  unfold applyJWTConfig in H2. repeat read_step.
  destruct (_ <? _) eqn:Hw in H2; [done|]. destruct (_ <? _) eqn:Hh in H2; [done|].
  injection H2 as <-.
  unfold applyCookieConfig in H3. repeat read_step. injection H3 as <-.
  unfold applyPathConfig in H4. repeat read_step. injection H4 as <-.
  unfold applyOidcConfig in H5. repeat read_step.
  apply timeout_reads in Hv35 as [Hv35 Hpos]; [|done].
  assert (v35 <=? 0 = false) as E by (apply Z.leb_gt; lia). rewrite E in H5.
  injection H5 as <-. apply Z.ltb_ge in Hw, Hh. by constructor.
Qed.

Ltac project := cbn [cfg_Port cfg_ReadTimeout cfg_WriteTimeout cfg_ShutdownTimeout
  cfg_TrustedProxies cfg_MetricsAddr cfg_ProbeAddr cfg_Namespace cfg_JWTSigningType
  cfg_JWTIssuer cfg_JWTAudience cfg_JWTExpiration cfg_JWTRefreshEnable cfg_JWTRefreshWindow
  cfg_JWTRefreshHorizon cfg_JwtSecretName cfg_JwtNewKeyUseDelay cfg_EnableOAuth
  cfg_EnableBearerAuth cfg_CookieName cfg_CookieSecure cfg_CookieDomain cfg_CookiePath
  cfg_CookieMaxAge cfg_CookieHTTPOnly cfg_CookieSameSite cfg_PathRegexPattern
  cfg_WorkspaceNamespacePathRegex cfg_WorkspaceNamePathRegex cfg_RoutingMode
  cfg_WorkspaceNamespaceSubdomainRegex cfg_WorkspaceNameSubdomainRegex cfg_OidcUsernamePrefix
  cfg_OidcGroupsPrefix cfg_OIDCIssuerURL cfg_OIDCClientID cfg_OIDCInitTimeoutSecs
  createDefaultConfig].

(** The steps of a reading that is bound to succeed. *)
Ltac reading :=
  repeat match goal with
  | H : reads ?n ?p ?d ?v |- context [override_as ?l ?n ?p ?d'] =>
      unify d d'; rewrite (proj2 (override_reads l n p d' v) H)
  end.

Lemma NewConfig_complete c : configured c -> NewConfig = Ok c.
Proof.
  intros []. unfold NewConfig.
  assert (forall A B (a : A) (f : A -> result B), (Ok a ≫= f) = f a) as Hb by done.
  unfold applyServerConfig, override. project. reading. rewrite !Hb.
  unfold applyJWTConfig, override. project. reading. rewrite !Hb.
  assert (cfg_JWTExpiration c <? cfg_JWTRefreshWindow c = false) as -> by (apply Z.ltb_ge; lia).
  assert (cfg_JWTRefreshHorizon c <? cfg_JWTExpiration c = false) as -> by (apply Z.ltb_ge; lia).
  rewrite !Hb. unfold applyCookieConfig, override. project. reading. rewrite !Hb.
  unfold applyPathConfig, override. project. reading. rewrite !Hb.
  unfold applyOidcConfig, override. project. reading. rewrite !Hb.
  rewrite (reads_timeout _ (cfg_OIDCInitTimeoutSecs c)) by done. rewrite !Hb. cbv zeta.
  assert (cfg_OIDCInitTimeoutSecs c <=? 0 = false) as -> by (apply Z.leb_gt; lia).
  by destruct c.
Qed.
End config.

(** ** Writing a configuration down *)

Definition Sprint_bool (b : bool) : string := if b then "true" else "false".

Definition join_proxies (l : list string) : string :=
  if bool_decide (l = []) then "," else Join l ",".

Fixpoint assoc (l : list (string * string)) (name : string) : string :=
  match l with
  | [] => ""
  | (n, v) :: rest => if String.eqb n name then v else assoc rest name
  end.

(** An environment for a configuration. *)
Definition environment (c : Config) : string -> string := assoc
  [(EnvPort, Sprint_int (cfg_Port c));
   (EnvReadTimeout, in_nanoseconds (cfg_ReadTimeout c));
   (EnvWriteTimeout, in_nanoseconds (cfg_WriteTimeout c));
   (EnvShutdownTimeout, in_nanoseconds (cfg_ShutdownTimeout c));
   (EnvTrustedProxies, join_proxies (cfg_TrustedProxies c));
   (EnvMetricsAddr, cfg_MetricsAddr c);
   (EnvProbeAddr, cfg_ProbeAddr c);
   (EnvNamespace, cfg_Namespace c);
   (EnvJwtSigningType, cfg_JWTSigningType c);
   (EnvJwtIssuer, cfg_JWTIssuer c);
   (EnvJwtAudience, cfg_JWTAudience c);
   (EnvJwtExpiration, in_nanoseconds (cfg_JWTExpiration c));
   (EnvEnableJwtRefresh, Sprint_bool (cfg_JWTRefreshEnable c));
   (EnvJwtRefreshWindow, in_nanoseconds (cfg_JWTRefreshWindow c));
   (EnvJwtRefreshHorizon, in_nanoseconds (cfg_JWTRefreshHorizon c));
   (EnvJwtNewKeyUseDelay, in_nanoseconds (cfg_JwtNewKeyUseDelay c));
   (EnvEnableOAuth, Sprint_bool (cfg_EnableOAuth c));
   (EnvEnableBearerAuth, Sprint_bool (cfg_EnableBearerAuth c));
   (EnvRoutingMode, cfg_RoutingMode c);
   (EnvWorkspaceNamespaceSubdomainRegex, cfg_WorkspaceNamespaceSubdomainRegex c);
   (EnvWorkspaceNameSubdomainRegex, cfg_WorkspaceNameSubdomainRegex c);
   (EnvJwtSecretName, cfg_JwtSecretName c);
   (EnvCookieName, cfg_CookieName c);
   (EnvCookieSecure, Sprint_bool (cfg_CookieSecure c));
   (EnvCookieDomain, cfg_CookieDomain c);
   (EnvCookiePath, cfg_CookiePath c);
   (EnvCookieMaxAge, in_nanoseconds (cfg_CookieMaxAge c));
   (EnvCookieHttpOnly, Sprint_bool (cfg_CookieHTTPOnly c));
   (EnvCookieSameSite, cfg_CookieSameSite c);
   (EnvPathRegexPattern, cfg_PathRegexPattern c);
   (EnvWorkspaceNamespacePathRegex, cfg_WorkspaceNamespacePathRegex c);
   (EnvWorkspaceNamePathRegex, cfg_WorkspaceNamePathRegex c);
   (EnvOidcUsernamePrefix, cfg_OidcUsernamePrefix c);
   (EnvOidcGroupsPrefix, cfg_OidcGroupsPrefix c);
   (EnvOIDCIssuerURL, cfg_OIDCIssuerURL c);
   (EnvOIDCClientID, cfg_OIDCClientID c);
   (EnvOIDCInitTimeoutSecs, Sprint_int (cfg_OIDCInitTimeoutSecs c))].

Fixpoint comma_free (s : string) : bool :=
  match s with
  | EmptyString => true
  | String c rest => negb (Ascii.eqb c ",") && comma_free rest
  end.

(** The bounds of a configuration: 64-bit numbers, no empty text where the default is
    not empty, proxies that are neither empty nor contain a comma, patterns that
    compile, and the rules the reading enforces. *)
Record representable `{GoRegexp} (c : Config) : Prop := mkRepresentable {
  rep_numbers : Forall (fun n => int64_ok n = true)
    [cfg_Port c; cfg_ReadTimeout c; cfg_WriteTimeout c; cfg_ShutdownTimeout c;
     cfg_JWTExpiration c; cfg_JWTRefreshWindow c; cfg_JWTRefreshHorizon c;
     cfg_JwtNewKeyUseDelay c; cfg_CookieMaxAge c; cfg_OIDCInitTimeoutSecs c];
  rep_texts : Forall (fun s => s <> "")
    [cfg_MetricsAddr c; cfg_ProbeAddr c; cfg_JWTSigningType c; cfg_JWTIssuer c;
     cfg_JWTAudience c; cfg_RoutingMode c; cfg_WorkspaceNamespaceSubdomainRegex c;
     cfg_WorkspaceNameSubdomainRegex c; cfg_JwtSecretName c; cfg_CookieName c;
     cfg_CookiePath c; cfg_CookieSameSite c; cfg_PathRegexPattern c;
     cfg_WorkspaceNamespacePathRegex c; cfg_WorkspaceNamePathRegex c;
     cfg_OidcUsernamePrefix c; cfg_OidcGroupsPrefix c];
  rep_patterns : Forall (fun s => re_compiles s = true)
    [cfg_PathRegexPattern c; cfg_WorkspaceNamespacePathRegex c;
     cfg_WorkspaceNamePathRegex c];
  rep_proxies : Forall (fun s => s <> "" /\ comma_free s = true) (cfg_TrustedProxies c);
  rep_window : cfg_JWTRefreshWindow c <= cfg_JWTExpiration c;
  rep_horizon : cfg_JWTExpiration c <= cfg_JWTRefreshHorizon c;
  rep_timeout : 0 < cfg_OIDCInitTimeoutSecs c;
}.

Lemma splitString_loop_free s rest cur :
  comma_free s = true ->
  splitString_loop "," (String.list_ascii_of_string (s +:+ String "," rest)) cur
  = String.string_of_list_ascii (cur ++ String.list_ascii_of_string s)
    :: splitString_loop "," (String.list_ascii_of_string rest) [].
Proof.
  revert cur. induction s as [|c s IH]; intros cur; [by rewrite app_nil_r|].
  cbn [comma_free]. intros [Hc Hs]%andb_true_iff. apply negb_true_iff in Hc.
  rewrite append_cons. cbn [String.list_ascii_of_string splitString_loop]. rewrite Hc.
  rewrite IH by done. by rewrite <- app_assoc.
Qed.

Lemma splitString_loop_last s cur :
  comma_free s = true ->
  splitString_loop "," (String.list_ascii_of_string s) cur
  = [String.string_of_list_ascii (cur ++ String.list_ascii_of_string s)].
Proof.
  revert cur. induction s as [|c s IH]; intros cur; [by rewrite app_nil_r|].
  cbn [comma_free]. intros [Hc Hs]%andb_true_iff. apply negb_true_iff in Hc.
  cbn [String.list_ascii_of_string splitString_loop]. rewrite Hc, IH by done.
  by rewrite <- app_assoc.
Qed.

Lemma splitString_join l :
  l <> [] -> Forall (fun s => comma_free s = true) l -> splitString (Join l ",") "," = l.
Proof.
  intros Hl Hf. unfold splitString. induction Hf as [|p rest Hp Hf IH]; [done|].
  cbn [Join]. destruct rest as [|q rest].
  - rewrite splitString_loop_last by done. cbn [app]. by rewrite String.string_of_list_ascii_of_string.
  - change ("," +:+ ?s) with (String "," s). rewrite splitString_loop_free by done.
    rewrite IH by done. cbn [app]. by rewrite String.string_of_list_ascii_of_string.
Qed.

Lemma proxies_join l :
  Forall (fun s => s <> "" /\ comma_free s = true) l -> proxies (join_proxies l) = Ok l.
Proof.
  intros Hl. unfold proxies, join_proxies, splitAndTrim. f_equal. case_bool_decide as Hn.
  { by subst. }
  rewrite splitString_join; [|done|by eapply Forall_impl; [done|intros ? []]].
  clear Hn. induction Hl as [|p rest [Hp _] Hf IH]; [done|].
  by rewrite filter_cons_True, IH.
Qed.

Lemma join_proxies_nonempty l :
  Forall (fun s => s <> "" /\ comma_free s = true) l -> join_proxies l <> "".
Proof.
  unfold join_proxies. case_bool_decide; [done|]. destruct l as [|p rest]; [done|].
  intros [[Hp _] _]%Forall_cons. destruct p; [done|]. by destruct rest.
Qed.

(** A variable that says the field's value. *)
Lemma reads_says {A} env name (parse : string -> result A) d v text :
  env name = text -> text <> "" -> parse text = Ok v -> reads env name parse d v.
Proof. intros <- Hne Hp. by right. Qed.

(** A variable that may be empty, where the default is empty. *)
Lemma reads_text env name v : env name = v -> reads env name plain "" v.
Proof.
  intros <-. unfold reads, plain. destruct (decide (env name = "")); [left|right]; done.
Qed.

Lemma Sprint_int_nonempty n : int64_ok n = true -> Sprint_int n <> "".
Proof. intros Hn. eapply ParseInt64_nonempty, ParseInt64_Sprint, Hn. Qed.

Lemma reads_int env name d v :
  env name = Sprint_int v -> int64_ok v = true -> reads env name Atoi d v.
Proof.
  intros He Hv. eapply reads_says; [exact He|by apply Sprint_int_nonempty|].
  unfold Atoi. by rewrite ParseInt64_Sprint.
Qed.

Lemma reads_duration env name d v :
  env name = in_nanoseconds v -> int64_ok v = true -> reads env name ParseDuration d v.
Proof.
  intros He Hv. pose proof (ParseDuration_nanoseconds v Hv) as Hp.
  eapply reads_says; [exact He|by eapply ParseDuration_nonempty|done].
Qed.

Lemma reads_bool env name d v : env name = Sprint_bool v -> reads env name ParseBool d v.
Proof. intros He. eapply reads_says; [exact He|by destruct v|by destruct v]. Qed.

Lemma reads_pattern `{GoRegexp} env name d v :
  env name = v -> v <> "" -> re_compiles v = true -> reads env name pattern d v.
Proof. intros He Hne Hc. eapply reads_says; [exact He|done|]. unfold pattern. by rewrite Hc. Qed.

Lemma environment_configured `{GoRegexp} c : representable c -> configured (environment c) c.
Proof.
  intros [Hn Ht Hp Hx Hw Hh Hs]. decompose_Forall_hyps.
  constructor; try done;
    first [ apply reads_int | apply reads_duration | apply reads_bool | apply reads_pattern
          | by apply reads_text
          | eapply (reads_says _ EnvTrustedProxies);
              [reflexivity|by apply join_proxies_nonempty|by apply proxies_join]
          | eapply reads_says; [reflexivity|..] ]; done.
Qed.

(** [C28] The configuration is what the environment says: NewConfig succeeds with
    exactly the configuration in which every field is its default where its variable
    is empty and the parsed value of its own variable otherwise, provided every
    variable parses, the patterns compile, the refresh window is within the token's
    life, the life within the refresh horizon, and the OIDC timeout positive; in every
    other case it fails. *)
Theorem NewConfig_correct `{GoRegexp} (env : string -> string) :
  (forall c, NewConfig env = Ok c <-> configured env c) /\
  ((forall c, ~ configured env c) -> exists e, NewConfig env = Fail e).
Proof.
  split.
  - intros c. split; [apply NewConfig_sound|apply NewConfig_complete].
  - intros Hno. destruct (NewConfig env) as [c|e] eqn:Hc; [|by exists e].
    by apply NewConfig_sound, Hno in Hc.
Qed.

(** Every configuration can be written down: for a configuration within its
    bounds there is an environment, each variable printing one field, that NewConfig
    reads back as that configuration. *)
Theorem config_roundtrip `{GoRegexp} (c : Config) :
  representable c -> NewConfig (environment c) = Ok c.
Proof. intros Hc. by apply NewConfig_complete, environment_configured. Qed.

Lemma config_roundtrip_witness :
  let engine := no_regexp in
  representable createDefaultConfig /\
  NewConfig (environment createDefaultConfig) = Ok createDefaultConfig.
Proof.
  intros engine. assert (representable createDefaultConfig).
  { constructor; try (repeat constructor; done); done. }
  split; [done|]. by apply (config_roundtrip createDefaultConfig).
Defined.

(** The messages name the wrong values: a life beyond the horizon is reported with
    the refresh window in the horizon's place, and a refresh flag that does not parse
    with its value in place of the variable's name. *)
Lemma config_messages_mislead :
  let engine := no_regexp in
  let env name :=
    if String.eqb name EnvJwtExpiration then "13h" else "" in
  NewConfig env
  = Fail (Errorf "JWT refresh horizon (%s) must be greater or equal to JWT expiration (%s)"
            ["15m0s"; "13h0m0s"]) /\
  NewConfig (fun name => if String.eqb name EnvEnableJwtRefresh then "yes" else "")
  = Fail (Wrapf "invalid %s: %w" ["yes"]
            (Errorf "strconv.ParseBool: parsing %q: invalid syntax" ["yes"])).
Proof. split; vm_compute; reflexivity. Qed.

(** Nothing keeps a token's life positive: a negative one is accepted when the window
    is. *)
Lemma negative_life_accepted :
  let engine := no_regexp in
  exists c,
    NewConfig (fun name => if String.eqb name EnvJwtExpiration then "-1h"
                           else if String.eqb name EnvJwtRefreshWindow then "-2h" else "") = Ok c /\
    cfg_JWTExpiration c = - Hour.
Proof. eexists. split; [vm_compute; reflexivity|reflexivity]. Qed.
