(* ===== verification/AuthServer.v ===== *)
(** * AuthServer: start-up, routing and shutdown of the auth middleware

    internal/authmiddleware/oidc_verifier.go, server.go, http_server.go, setup.go,
    jwt_factory.go, serverroute_health.go and cmd/authmiddleware/main.go.  The parts
    modelled elsewhere are put together here: main reads the configuration and sets
    up signer, secret watch, cookies and server; HTTPServerRunnable.Start loads the
    keys, starts the server in a goroutine and waits for cancellation or an error.
    The two goroutines, the informer that delivers Secret events and the requests are
    the steps of a transition system over [Process]; its invariant is what a request
    finds when it is served.

    Parameters: the OIDC library ([OidcLib]), the in-cluster client and the manager of
    controller-runtime (values of type [result]), the URL parsing of the bearer
    route. *)

From S2P Require Import Prelude Api Encoding StringUtil JwtKeys Rotator JwtSigner JwtManager.
From S2P Require Import Timestamps Durations AuthUtils AuthMiddleware AuthConfig.

(** ** The OIDC verifier *)

(** oidc.Config. *)
Record OidcConfig := mkOidcConfig { oc_ClientID : string; oc_SkipClientIDCheck : bool }.

(** github.com/coreos/go-oidc: a provider is found at its issuer URL within a timeout,
    its verifier checks tokens and yields the claims. *)
Class OidcLib := mkOidcLib {
  Provider : Type;
  IDTokenVerifier : Type;
  IDToken : Type;
  oidc_NewProvider : Duration -> string -> result Provider;
  provider_Verifier : Provider -> OidcConfig -> IDTokenVerifier;
  verifier_Verify : IDTokenVerifier -> string -> result IDToken;
  token_Claims : IDToken -> result OIDCClaims;
}.

(** OIDCVerifier handles verification of OIDC tokens. *)
Record OIDCVerifier `{O : OidcLib} := mkOIDCVerifier {
  ov_provider : option Provider;
  ov_verifier : option IDTokenVerifier;
  ov_clientID : string;
  ov_issuerURL : string;
  ov_timeoutSeconds : Z;
  ov_oidcConfig : OidcConfig;
}.

Section oidc.
Context {O : OidcLib}.

(** NewOIDCVerifier creates a new OIDC verifier without initializing connections. *)
Definition NewOIDCVerifier (config : Config) : result OIDCVerifier :=
  if bool_decide (cfg_OIDCIssuerURL config = "") then
    Fail (Errorf "OIDC issuer URL is required" [])
  else if bool_decide (cfg_OIDCClientID config = "") then
    Fail (Errorf "OIDC client ID is required" [])
  else
    Ok (mkOIDCVerifier O None None (cfg_OIDCClientID config) (cfg_OIDCIssuerURL config)
          (cfg_OIDCInitTimeoutSecs config)
          (mkOidcConfig (cfg_OIDCClientID config) false)).

(** Start initializes the OIDC provider and verifier; the timeout is an int64 product. *)
Definition OIDCVerifier_Start (v : OIDCVerifier) : result OIDCVerifier :=
  match ov_provider v with
  | Some _ => Ok v
  | None =>
      provider ← wrap_err "failed to initialize OIDC provider: %w" []
        (oidc_NewProvider (wrap64 (ov_timeoutSeconds v * Second)) (ov_issuerURL v));
      Ok (mkOIDCVerifier O (Some provider) (Some (provider_Verifier provider (ov_oidcConfig v)))
            (ov_clientID v) (ov_issuerURL v) (ov_timeoutSeconds v) (ov_oidcConfig v))
  end.

(** VerifyToken verifies an OIDC token: the claims, or whether it is a fault of the
    provider and the error. *)
Definition OIDCVerifier_VerifyToken (v : OIDCVerifier) (tokenString : string)
    : OIDCClaims + (bool * error) :=
  match ov_verifier v with
  | None =>
      inr (true, Errorf "OIDC verifier is not initialized - call Start() first" [])
  | Some verifier =>
      match verifier_Verify verifier tokenString with
      | Fail err =>
          if Contains (Error err) "failed to get discovery document" ||
             ErrorIs err "context deadline exceeded" || ErrorIs err "context canceled"
          then inr (true, Wrapf "failed to connect to OIDC provider: %w" [] err)
          else inr (false, Wrapf "invalid ID token: %w" [] err)
      | Ok idToken =>
          match token_Claims idToken with
          | Fail err => inr (false, Wrapf "failed to parse claims: %w" [] err)
          | Ok claims => inl claims
          end
      end
  end.
End oidc.

(** ** Set-up *)

Section setup.
Context `{GoRuntime} {L : JwtLib} {O : OidcLib}.

(** NewJWTHandler creates the signer of the configured signing type, without keys;
    the handler around a signer is [jwt_handler]. *)
Definition NewJWTHandler (cfg : option Config) : result StandardSigner :=
  match cfg with
  | None => Fail (Errorf "config cannot be nil" [])
  | Some cfg =>
      if bool_decide (cfg_JWTSigningType cfg = JWTSigningTypeStandard) ||
         bool_decide (cfg_JWTSigningType cfg = "") then
        Ok (NewStandardSigner (cfg_JWTIssuer cfg) (cfg_JWTAudience cfg) (cfg_JWTExpiration cfg)
              (cfg_JwtNewKeyUseDelay cfg))
      else Fail (Errorf "unsupported JWT signing type %q" [cfg_JWTSigningType cfg])
  end.

Definition jwt_handler (cfg : Config) (signer : StandardSigner) : Manager.t :=
  Manager.NewManager (StandardSigner_Signer signer) (cfg_JWTRefreshEnable cfg)
    (cfg_JWTRefreshWindow cfg) (cfg_JWTRefreshHorizon cfg).

(** The in-cluster Kubernetes client. *)
Record InCluster := mkInCluster {
  RestConfig : Type;
  InClusterConfig : result RestConfig;
  NewForConfig : RestConfig -> result RestClient;
}.

(** The manager of controller-runtime: what its calls return. *)
Record CtrlManager := mkCtrlManager {
  mgr_GetInformer : result unit;
  mgr_AddEventHandler : result unit;
  mgr_Add : result unit;
  mgr_AddHealthzCheck : result unit;
  mgr_AddReadyzCheck : result unit;
}.

(** RegisterSecretWatch registers the handlers of JwtSigner ([handleSecretEvent]). *)
Definition RegisterSecretWatch (mgr : CtrlManager) : result unit :=
  wrap_err "failed to get secret informer: %w" [] (mgr_GetInformer mgr);;
  wrap_err "failed to add event handler to informer: %w" [] (mgr_AddEventHandler mgr).

(** The fields of Server that NewServer creates. *)
Definition new_rest_client (k8s : InCluster) : option RestClient :=
  match InClusterConfig k8s with
  | Fail _ => None
  | Ok k8sConfig =>
      match NewForConfig k8s k8sConfig with Fail _ => None | Ok c => Some c end
  end.
Definition new_oidc_verifier (config : Config) : option OIDCVerifier :=
  if cfg_EnableOAuth config then
    match NewOIDCVerifier config with Fail _ => None | Ok v => Some v end
  else None.

(** What SetupAuthMiddlewareWithManager hands to the manager: the server's parts and
    the signer whose keys are loaded on start. *)
Record HTTPServerRunnable := mkHTTPServerRunnable {
  run_config : Config;
  run_cookieManager : CookieManager;
  run_restClient : option RestClient;
  run_oidcVerifier : option OIDCVerifier;
  run_standardSigner : StandardSigner;
}.

Definition SetupAuthMiddlewareWithManager (mgr : CtrlManager) (k8s : InCluster)
    (cfg : option Config) : result HTTPServerRunnable :=
  match cfg with
  | None => Fail (Errorf "config cannot be nil" [])
  | Some config =>
      signer ← wrap_err "failed to create JWT handler: %w" [] (NewJWTHandler cfg);
      wrap_err "failed to register secret watch handlers: %w" [] (RegisterSecretWatch mgr);;
      cookieManager ← wrap_err "failed to create cookie manager: %w" [] (NewCookieManager config);
      wrap_err "failed to add HTTP server to manager: %w" [] (mgr_Add mgr);;
      Ok (mkHTTPServerRunnable config cookieManager (new_rest_client k8s)
            (new_oidc_verifier config) signer)
  end.

(** main, up to the start of the manager. *)
Definition main `{GoRegexp} (Getenv : string -> string) (k8s : InCluster)
    (NewManager : Config -> result CtrlManager) : result HTTPServerRunnable :=
  cfg ← wrap_err "Failed to load configuration" [] (NewConfig Getenv);
  _ ← wrap_err "Failed to get in-cluster config" [] (InClusterConfig k8s);
  if bool_decide (cfg_Namespace cfg = "") then
    Fail (Errorf "NAMESPACE environment variable must be set" [])
  else
    mgr ← wrap_err "Failed to create manager" [] (NewManager cfg);
    runnable ← wrap_err "Failed to setup authmiddleware" []
                 (SetupAuthMiddlewareWithManager mgr k8s (Some cfg));
    wrap_err "Failed to add health check" [] (mgr_AddHealthzCheck mgr);;
    wrap_err "Failed to add readiness check" [] (mgr_AddReadyzCheck mgr);;
    Ok runnable.
End setup.

(** ** Routing *)

(** cleanPath of net/http: path.Clean of a rooted path, with a trailing slash kept. *)
Fixpoint clean_segments (segs : list string) (kept : list string) : list string :=
  match segs with
  | [] => rev kept
  | seg :: rest =>
      if bool_decide (seg = "") || bool_decide (seg = ".") then clean_segments rest kept
      else if bool_decide (seg = "..") then clean_segments rest (tl kept)
      else clean_segments rest (seg :: kept)
  end.
Definition cleanPath (p : string) : string :=
  if bool_decide (p = "") then "/"
  else
    let segs := Split p "/" in
    let np := String "/" (Join (clean_segments segs []) "/") in
    if bool_decide (List.last segs "" = "") && negb (bool_decide (np = "/"))
    then np +:+ "/" else np.

(** A ServeMux whose patterns are plain paths without a trailing slash: the cleaned
    path is looked up exactly, and a path that is not clean is redirected. *)
Inductive MuxResult (A : Type) := MuxHandler (h : A) | MuxRedirect (to : string) | MuxNotFound.
Arguments MuxHandler {A}. Arguments MuxRedirect {A}. Arguments MuxNotFound {A}.

Fixpoint mux_find {A} (routes : list (string * A)) (path : string) : option A :=
  match routes with
  | [] => None
  | (pattern, h) :: rest =>
      if bool_decide (pattern = path) then Some h else mux_find rest path
  end.
Definition mux_Handler {A} (routes : list (string * A)) (path : string) : MuxResult A :=
  let clean := cleanPath path in
  if negb (bool_decide (clean = path)) then MuxRedirect clean
  else match mux_find routes clean with Some h => MuxHandler h | None => MuxNotFound end.

(** time.Time.Format(time.RFC3339) in UTC. *)
Definition year_of_day (n : Z) : Z :=
  let y := 400 * n / 146097 in
  if days_before_year (y + 1) <=? n then y + 1 else if n <? days_before_year y then y - 1 else y.
Definition month_of_day (year day : Z) : Z :=
  default 1 (List.find (fun m => days_before_month m year <=? day)
               [12; 11; 10; 9; 8; 7; 6; 5; 4; 3; 2]).
Definition civil_of_time (t : Time) : Civil :=
  let secs := t / Second in
  let n := secs / 86400 + 719528 in
  let year := year_of_day n in
  let day := n - days_before_year year in
  let month := month_of_day year day in
  mkCivil year month (day - days_before_month month year + 1)
    (secs mod 86400 / 3600) (secs mod 3600 / 60) (secs mod 60) (t mod Second).
Definition Format_RFC3339 (t : Time) : string := rfc3339_text (civil_of_time t) [].

Example formatted_times :
  map Format_RFC3339 [0; 951782400 * Second; 1735689599 * Second + 5]
  = ["1970-01-01T00:00:00Z"; "2000-02-29T00:00:00Z"; "2024-12-31T23:59:59Z"].
Proof. vm_compute. reflexivity. Qed.

Definition quoted (s : string) : string := String "034" (s +:+ String "034" "").

Section routes.
Context `{GoRegexp} {L : JwtLib} (url_query_token : string -> result string).

(** handleHealth handles health check requests. *)
Definition handleHealth (now : Time) : list HttpAction :=
  [HttpSetHeader "Content-Type" "application/json"; HttpWriteHeader StatusOK;
   HttpWriteBody ("{" +:+ quoted "status" +:+ ":" +:+ quoted "ok" +:+ "," +:+ quoted "time" +:+ ":" +:+
     quoted (Format_RFC3339 now) +:+ "}" +:+ String "010" "")].

(** The routes Start registers, with the handlers of a server. *)
Definition Handler : Type := Server -> Clock -> Request -> list HttpAction.
Definition server_routes (config : Config) : list (string * Handler) :=
  (if cfg_EnableOAuth config then [("/auth", handleAuth)] else []) ++
  (if cfg_EnableBearerAuth config then [("/bearer-auth", handleBearerAuth url_query_token)] else []) ++
  [("/verify", handleVerify); ("/health", fun _ clk _ => handleHealth (clk 0%nat))].

(** The answer to a request for [path]. *)
Definition StatusMovedPermanently : Z := 301.
Definition StatusNotFound : Z := 404.
Definition serve (s : Server) (clk : Clock) (path : string) (r : Request) : list HttpAction :=
  match mux_Handler (server_routes (srv_config s)) path with
  | MuxHandler h => h s clk r
  | MuxRedirect to => [HttpSetHeader "Location" to; HttpWriteHeader StatusMovedPermanently]
  | MuxNotFound => [HttpError "404 page not found" StatusNotFound]
  end.
End routes.

(** ** The running process *)

(** The goroutine of HTTPServerRunnable.Start, and the one in which Server.Start
    runs: not spawned, initialising OIDC, with its http.Server assigned, listening,
    or returned. *)
Inductive MainState := MainLoading | MainWaiting | MainReturned (r : result unit).
Inductive ServerState := SrvIdle | SrvStarting | SrvAssigned | SrvListening | SrvReturned.

(** What the goroutines share: the signer (also written by the informer), the OIDC
    verifier, the context, the field httpServer (set or nil) and whether its Shutdown
    was called, and the error channel, of capacity one. *)
Record Process `{O : OidcLib} := mkProcess {
  p_signer : StandardSigner;
  p_verifier : option OIDCVerifier;
  p_cancelled : bool;
  p_main : MainState;
  p_server : ServerState;
  p_httpServer : bool;
  p_shutdown : bool;
  p_errChan : option error;
}.

Section process.
Context `{GoRuntime} `{GoRegexp} {L : JwtLib} `{O : OidcLib} {W : Type}.
Context (runnable : HTTPServerRunnable) (client : SecretClient W).
Context (url_query_token : string -> result string).

Definition ErrServerClosed : string := "http: Server closed".

Definition start_process : Process :=
  mkProcess O (run_standardSigner runnable) (run_oidcVerifier runnable) false
    MainLoading SrvIdle false false None.

(** The OIDC part of Server.Start. *)
Definition start_oidc (verifier : option OIDCVerifier) : result (option OIDCVerifier) :=
  match verifier with
  | Some v =>
      if cfg_EnableOAuth (run_config runnable) then
        v' ← wrap_err "failed to start OIDC verifier: %w" [] (OIDCVerifier_Start v);
        Ok (Some v')
      else Ok verifier
  | None => Ok verifier
  end.

(** What Server.Start returns when ListenAndServe does: a closed server is no error. *)
Definition listen_error (err : error) : option error :=
  if ErrorIs err ErrServerClosed then None else Some (Wrapf "server error: %w" [] err).

(** Server.Shutdown: without an http.Server there is nothing to stop; otherwise a
    listening one stops and one that does not listen yet never will. *)
Definition server_Shutdown (httpServer : bool) (sv : ServerState) : ServerState :=
  match httpServer, sv with
  | true, SrvListening => SrvReturned
  | _, _ => sv
  end.

(** The server as a request finds it. *)
Definition server_of (p : Process) : Server :=
  mkServer L (run_config runnable) (jwt_handler (run_config runnable) (p_signer p))
    (run_cookieManager runnable) (run_restClient runnable)
    (OIDCVerifier_VerifyToken <$> p_verifier p).

(** The steps of the process; [None] is an internal step, [Some] a served request
    with its answer. *)
Inductive step : Process -> option (string * Request * list HttpAction) -> Process -> Prop :=
| step_cancel sg v c m sv h d e :
    step (mkProcess O sg v c m sv h d e) None (mkProcess O sg v true m sv h d e)
| step_secret now ev sg v c m sv h d e :
    step (mkProcess O sg v c m sv h d e) None
      (mkProcess O (handleSecretEvent (cfg_JwtSecretName (run_config runnable))
                      (cfg_Namespace (run_config runnable)) now ev sg) v c m sv h d e)
| step_load now w w' sg sg' v c sv h d e :
    RetrieveInitialSecret client now (cfg_JwtSecretName (run_config runnable))
      (cfg_Namespace (run_config runnable)) sg w = (Ok sg', w') ->
    step (mkProcess O sg v c MainLoading sv h d e) None
      (mkProcess O sg' v c MainWaiting SrvStarting h d e)
| step_load_fails now w w' err sg v c sv h d e :
    RetrieveInitialSecret client now (cfg_JwtSecretName (run_config runnable))
      (cfg_Namespace (run_config runnable)) sg w = (Fail err, w') ->
    step (mkProcess O sg v c MainLoading sv h d e) None
      (mkProcess O sg v c
         (MainReturned (Fail (Wrapf "failed to retrieve initial secret: %w" [] err))) sv h d e)
| step_oidc sg v v' c m h d e :
    start_oidc v = Ok v' ->
    step (mkProcess O sg v c m SrvStarting h d e) None
      (mkProcess O sg v' c m SrvAssigned true d e)
| step_oidc_fails err sg v c m h d e :
    start_oidc v = Fail err ->
    step (mkProcess O sg v c m SrvStarting h d e) None
      (mkProcess O sg v c m SrvReturned h d (Some err))
| step_listen sg v c m h e :
    step (mkProcess O sg v c m SrvAssigned h false e) None
      (mkProcess O sg v c m SrvListening h false e)
| step_listen_returns sv err sg v c m h d e :
    sv = SrvAssigned \/ sv = SrvListening -> (ErrorIs err ErrServerClosed = true -> d = true) ->
    step (mkProcess O sg v c m sv h d e) None
      (mkProcess O sg v c m SrvReturned h d
         (match listen_error err with Some e' => Some e' | None => e end))
| step_serve clk path r sg v c m h d e :
    let p := mkProcess O sg v c m SrvListening h d e in
    step p (Some (path, r, serve url_query_token (server_of p) clk path r)) p
| step_shutdown r sg v sv h d e :
    (h = false -> r = Ok tt) ->
    step (mkProcess O sg v true MainWaiting sv h d e) None
      (mkProcess O sg v true (MainReturned r) (server_Shutdown h sv) h (h || d) e)
| step_error err sg v c sv h d :
    step (mkProcess O sg v c MainWaiting sv h d (Some err)) None
      (mkProcess O sg v c (MainReturned (Fail err)) sv h d None).

Definition internal (p p' : Process) : Prop := exists l, step p l p'.

(** A verifier is ready once its provider was found, with the check of the client ID
    on. *)
Definition verifier_ready (v : OIDCVerifier) : Prop :=
  exists provider,
    oidc_NewProvider (wrap64 (cfg_OIDCInitTimeoutSecs (run_config runnable) * Second))
      (cfg_OIDCIssuerURL (run_config runnable)) = Ok provider /\
    ov_verifier v = Some (provider_Verifier provider
                            (mkOidcConfig (cfg_OIDCClientID (run_config runnable)) false)).

Definition cfg_signer : string * string * Duration * Duration :=
  let cfg := run_config runnable in
  (cfg_JWTIssuer cfg, cfg_JWTAudience cfg, cfg_JWTExpiration cfg, cfg_JwtNewKeyUseDelay cfg).

(** The invariant of the process: a sound ring of the configured signer, loaded
    before the server goroutine exists, and a verifier that is ready from the moment
    the server can listen. *)
Record process_ok (p : Process) : Prop := mkProcessOk {
  ok_ring : ring_ok (p_signer p);
  ok_signer : signer_config (p_signer p) = cfg_signer;
  ok_loading : p_main p = MainLoading -> p_server p = SrvIdle;
  ok_keys : p_server p <> SrvIdle -> signingKeys (p_signer p) <> ∅;
  ok_verifier :
    match p_server p with
    | SrvIdle | SrvStarting => p_verifier p = run_oidcVerifier runnable
    | SrvAssigned | SrvListening => forall v, p_verifier p = Some v -> verifier_ready v
    | SrvReturned => True
    end;
}.

(** What the runnable of a successful set-up is. *)
Definition set_up : Prop :=
  run_standardSigner runnable
    = NewStandardSigner (cfg_JWTIssuer (run_config runnable)) (cfg_JWTAudience (run_config runnable))
        (cfg_JWTExpiration (run_config runnable)) (cfg_JwtNewKeyUseDelay (run_config runnable)) /\
  run_oidcVerifier runnable = new_oidc_verifier (run_config runnable).

Lemma ring_step_keys name ns s s' :
  ring_step client name ns s s' -> signingKeys s <> ∅ -> signingKeys s' <> ∅.
Proof.
  intros [->|(now & secret & keys & latest & _ & Hu)]%ring_step_cases Hne; [done|].
  destruct (UpdateKeys_Ok _ _ _ _ _ Hu) as (-> & _ & [k Hk] & _). intros E.
  by rewrite E, lookup_empty in Hk.
Qed.

Lemma loaded_keys now name ns sg w sg' w' :
  RetrieveInitialSecret client now name ns sg w = (Ok sg', w') -> signingKeys sg' <> ∅.
Proof.
  intros (secret & keys & latest & _ & _ & Hu)%RetrieveInitialSecret_Ok.
  destruct (UpdateKeys_Ok _ _ _ _ _ Hu) as (-> & _ & [k Hk] & _). intros E.
  by rewrite E, lookup_empty in Hk.
Qed.

(** A verifier just created is ready when it was started. *)
Lemma started_ready v v' :
  new_oidc_verifier (run_config runnable) = v -> start_oidc v = Ok v' ->
  forall x, v' = Some x -> verifier_ready x.
Proof.
  unfold new_oidc_verifier, NewOIDCVerifier, start_oidc. intros Hn Hs x ->.
  destruct (cfg_EnableOAuth (run_config runnable)); [|by subst v].
  case_bool_decide; [by subst v|]. case_bool_decide; [by subst v|]. subst v.
  apply result_bind_Ok in Hs as (y & Hy%wrap_err_Ok & [= <-]).
  unfold OIDCVerifier_Start in Hy. cbn [ov_provider] in Hy.
  apply result_bind_Ok in Hy as (provider & Hp%wrap_err_Ok & [= <-]).
  exists provider. by split.
Qed.

Lemma event_ok now ev sg :
  ring_ok sg /\ signer_config sg = cfg_signer ->
  let sg' := handleSecretEvent (cfg_JwtSecretName (run_config runnable))
               (cfg_Namespace (run_config runnable)) now ev sg in
  (ring_ok sg' /\ signer_config sg' = cfg_signer) /\
  (signingKeys sg <> ∅ -> signingKeys sg' <> ∅).
Proof.
  intros Hsg sg'. assert (Hs := step_event client (cfg_JwtSecretName (run_config runnable))
    (cfg_Namespace (run_config runnable)) now ev sg).
  split; [by eapply ring_step_ok|by eapply ring_step_keys].
Qed.

Lemma step_ok p l p' : set_up -> process_ok p -> step p l p' -> process_ok p'.
Proof.
  intros [_ Hv0] [Hring Hcfg Hload Hkeys Hver] Hstep.
  destruct Hstep; cbn in *;
    try (constructor; cbn;
         first [ done | intros; apply Hkeys; first [done | destruct_or!; congruence]
               | let Hm := fresh in intros Hm; apply Hload in Hm;
                 first [done | destruct_or!; congruence] ]).
  - destruct (event_ok now ev sg) as ([? ?] & Hk); [done|]. constructor; cbn; auto.
  - destruct (ring_step_ok client (cfg_JwtSecretName (run_config runnable))
      (cfg_Namespace (run_config runnable)) (cfg_JWTIssuer (run_config runnable))
      (cfg_JWTAudience (run_config runnable)) (cfg_JWTExpiration (run_config runnable))
      (cfg_JwtNewKeyUseDelay (run_config runnable)) sg sg') as [? ?]; [by econstructor|done|].
    specialize (Hload eq_refl). subst sv. constructor; cbn; try done.
    intros _. by eapply loaded_keys.
  - constructor; cbn; try done; [intros Hm; by apply Hload in Hm|intros; by apply Hkeys|].
    eapply started_ready; [|done]. congruence.
  - destruct h, sv; constructor; cbn; try done; intros; by apply Hkeys.
Qed.
End process.

(** ** Properties *)

Section reachable.
Context `{GoRuntime} `{GoRegexp} {L : JwtLib} `{O : OidcLib} {W : Type}.
Context (runnable : HTTPServerRunnable) (client : SecretClient W).
Context (url_query_token : string -> result string).

Lemma start_process_ok : set_up runnable -> process_ok runnable (start_process runnable).
Proof.
  intros [Hs Hv]. constructor; cbn; try done; rewrite Hs; [|done].
  split; [done|by left].
Qed.

Lemma reachable_ok p :
  set_up runnable ->
  rtc (internal runnable client url_query_token) (start_process runnable) p ->
  process_ok runnable p.
Proof.
  intros Hs. revert p. apply rtc_ind_r; [by apply start_process_ok|].
  intros p p' _ [l Hstep] Hp. by eapply step_ok.
Qed.

Lemma server_deployed `{LW : !JwtLaws L} p :
  process_ok runnable p ->
  deployed (cfg_JWTExpiration (run_config runnable)) (cfg_JWTRefreshHorizon (run_config runnable))
    (server_of runnable p).
Proof.
  intros [_ Hc _ _ _]. split; [done|]. cbn.
  replace (cfg_JWTExpiration (run_config runnable)) with (expiration (p_signer p));
    [apply StandardSigner_contract|].
  unfold signer_config, cfg_signer in Hc. by injection Hc.
Qed.

Lemma main_set_up Getenv k8s NewManager :
  main Getenv k8s NewManager = Ok runnable ->
  set_up runnable /\ configured Getenv (run_config runnable) /\ cfg_Namespace (run_config runnable) <> "".
Proof.
  unfold main. intros (cfg & Hcfg%wrap_err_Ok & Hm)%result_bind_Ok.
  apply result_bind_Ok in Hm as (_ & _ & Hm). case_bool_decide as Hns; [done|].
  apply result_bind_Ok in Hm as (mgr & _ & Hm).
  apply result_bind_Ok in Hm as (r & Hr%wrap_err_Ok & Hm).
  apply result_bind_Ok in Hm as ([] & _ & Hm).
  apply result_bind_Ok in Hm as ([] & _ & [= <-]).
  unfold SetupAuthMiddlewareWithManager in Hr.
  apply result_bind_Ok in Hr as (signer & Hsg%wrap_err_Ok & Hr).
  apply result_bind_Ok in Hr as ([] & _ & Hr).
  apply result_bind_Ok in Hr as (cookies & _ & Hr).
  apply result_bind_Ok in Hr as ([] & _ & [= <-]).
  unfold NewJWTHandler in Hsg. case_match; [|done]. injection Hsg as <-.
  split_and!; [by split|by apply NewConfig_sound|done].
Qed.

(** Cancelled while the OIDC provider is being contacted, the runnable returns
    without an error and the server goroutine goes on to listen: Shutdown finds the
    field httpServer still nil. *)
Lemma early_cancel_leaves_server now w w' sg' v' :
  RetrieveInitialSecret client now (cfg_JwtSecretName (run_config runnable))
    (cfg_Namespace (run_config runnable)) (run_standardSigner runnable) w = (Ok sg', w') ->
  start_oidc runnable (run_oidcVerifier runnable) = Ok v' ->
  exists p, rtc (internal runnable client url_query_token) (start_process runnable) p /\
    p_main p = MainReturned (Ok tt) /\ p_server p = SrvListening.
Proof.
  intros Hl Ho. exists (mkProcess O sg' v' true (MainReturned (Ok tt)) SrvListening true false None).
  split; [|by split].
  eapply rtc_l; [eexists; by eapply step_load|].
  eapply rtc_l; [eexists; eapply step_cancel|].
  eapply rtc_l; [eexists; by eapply (step_shutdown _ _ _ (Ok tt))|].
  eapply rtc_l; [eexists; by eapply step_oidc|].
  eapply rtc_l; [eexists; eapply step_listen|]. apply rtc_refl.
Qed.
End reachable.

(** The timeout of the OIDC initialisation is an int64 product: the configuration
    accepts seconds for which it is negative, and the provider is then contacted with
    a context that has expired. *)
Lemma oidc_timeout_overflows :
  Atoi "9223372037" = Ok 9223372037 /\ wrap64 (9223372037 * Second) < 0.
Proof. split; vm_compute; reflexivity. Qed.

(** Routes that are switched off are not found. *)
Lemma disabled_routes `{GoRegexp} {L : JwtLib} url_query_token (s : Server) clk r :
  let not_found := [HttpError "404 page not found" StatusNotFound] in
  (cfg_EnableOAuth (srv_config s) = false -> serve url_query_token s clk "/auth" r = not_found) /\
  (cfg_EnableBearerAuth (srv_config s) = false ->
     serve url_query_token s clk "/bearer-auth" r = not_found).
Proof.
  unfold serve, server_routes. split; intros ->.
  - by destruct (cfg_EnableBearerAuth (srv_config s)).
  - by destruct (cfg_EnableOAuth (srv_config s)).
Qed.

(** [C29] A request is served only by a server that is ready.  Whatever the order in
    which keys are loaded, Secret events arrive, the OIDC provider answers, the
    context is cancelled and requests come in: when a process started from the
    environment serves a request, the signer holds a sound, non-empty key ring, its
    tokens live and refresh as configured, with the refresh window within the life
    and the life within the horizon; and an OIDC verifier, if the server has one, was
    found at the configured issuer and checks tokens for the configured client. *)
Theorem served_when_ready `{GoRuntime} `{GoRegexp} {L : JwtLib} `{LW : !JwtLaws L} `{O : OidcLib}
    {W : Type} Getenv k8s NewManager runnable (client : SecretClient W) url_query_token
    (p p' : Process) path r actions :
  main Getenv k8s NewManager = Ok runnable ->
  rtc (internal runnable client url_query_token) (start_process runnable) p ->
  step runnable client url_query_token p (Some (path, r, actions)) p' ->
  let cfg := run_config runnable in
  ring_ok (p_signer p) /\ signingKeys (p_signer p) <> ∅ /\
  deployed (cfg_JWTExpiration cfg) (cfg_JWTRefreshHorizon cfg) (server_of runnable p) /\
  cfg_JWTRefreshWindow cfg <= cfg_JWTExpiration cfg <= cfg_JWTRefreshHorizon cfg /\
  (exists clk, actions = serve url_query_token (server_of runnable p) clk path r) /\
  (forall verify, srv_oidcVerifier (server_of runnable p) = Some verify ->
     exists v, verify = OIDCVerifier_VerifyToken v /\ verifier_ready runnable v).
Proof.
  intros (Hs & Hcfg & _)%main_set_up Hr Hstep cfg.
  pose proof (reachable_ok _ _ _ _ Hs Hr) as Hp. pose proof (server_deployed _ _ Hp) as Hd.
  destruct Hp as [Hring _ _ Hk Hv], Hcfg.
  inversion Hstep; subst. cbn [p_signer p_server p_verifier] in *.
  split_and!; [done|by apply Hk|done|done|done|eexists; done|].
  intros verify. cbn. destruct v as [v|]; [|done]. intros [= <-]. eauto.
Qed.

(** A deployment: the environment, a provider that accepts every token, a cluster
    with the signing Secret. *)
Definition demo_env (name : string) : string :=
  if String.eqb name EnvNamespace then "default"
  else if String.eqb name EnvJwtSecretName then "jwt"
  else if String.eqb name EnvOIDCIssuerURL then "https://dex.example"
  else if String.eqb name EnvOIDCClientID then "workspaces" else "".
Definition demo_oidc : OidcLib :=
  mkOidcLib unit OidcConfig string (fun _ _ => Ok tt) (fun _ c => c) (fun _ t => Ok t)
    (fun t => Ok (mkOIDCClaims t "" [] t)).
Definition demo_manager : CtrlManager := mkCtrlManager (Ok tt) (Ok tt) (Ok tt) (Ok tt) (Ok tt).
Definition demo_in_cluster : InCluster := mkInCluster unit (Ok tt) (fun _ => Fail (Sentinel "no client")).
Definition demo_runnable : HTTPServerRunnable (O := demo_oidc) :=
  match @main demo_oidc no_regexp demo_env demo_in_cluster (fun _ => Ok demo_manager) with
  | Ok r => r
  | Fail _ => mkHTTPServerRunnable createDefaultConfig
                (mkCookieManager "" true "" "" 0 true SameSiteLaxMode "") None None
                (NewStandardSigner "" "" 0 0)
  end.

Definition demo_loaded : StandardSigner :=
  match @RetrieveInitialSecret canonical_runtime _ mem_client 0 "jwt" "default"
          (run_standardSigner demo_runnable) (Some demo_secret) with
  | (Ok sg, _) => sg
  | _ => run_standardSigner demo_runnable
  end.

Lemma demo_main :
  @main demo_oidc no_regexp demo_env demo_in_cluster (fun _ => Ok demo_manager) = Ok demo_runnable.
Proof. vm_compute. reflexivity. Qed.

Lemma demo_verifier :
  @start_oidc demo_oidc demo_runnable (run_oidcVerifier demo_runnable)
  = Ok (Some (mkOIDCVerifier demo_oidc (Some tt) (Some (mkOidcConfig "workspaces" false))
                "workspaces" "https://dex.example" 30 (mkOidcConfig "workspaces" false))).
Proof. vm_compute. reflexivity. Qed.

Lemma demo_loads :
  @RetrieveInitialSecret canonical_runtime _ mem_client 0
    (cfg_JwtSecretName (run_config demo_runnable)) (cfg_Namespace (run_config demo_runnable))
    (run_standardSigner demo_runnable) (Some demo_secret) = (Ok demo_loaded, Some demo_secret).
Proof. vm_compute. reflexivity. Qed.

Lemma served_when_ready_witness :
  cfg_JWTRefreshWindow (run_config demo_runnable) <= cfg_JWTExpiration (run_config demo_runnable)
  /\ signingKeys demo_loaded <> ∅.
Proof.
  set (verifier := mkOIDCVerifier demo_oidc (Some tt) (Some (mkOidcConfig "workspaces" false))
    "workspaces" "https://dex.example" 30 (mkOidcConfig "workspaces" false)).
  set (p := mkProcess demo_oidc demo_loaded (Some verifier) false MainWaiting SrvListening
    true false None).
  destruct (@served_when_ready canonical_runtime no_regexp toy_jwt toy_laws demo_oidc
    (option Secret) demo_env demo_in_cluster (fun _ => Ok demo_manager) demo_runnable mem_client
    (fun _ => Fail (Sentinel "no url")) p p "/verify"
    (mkRequest toy_jwt "GET" ∅ ∅) (@serve no_regexp toy_jwt (fun _ => Fail (Sentinel "no url"))
       (@server_of canonical_runtime toy_jwt demo_oidc demo_runnable p) (fun _ => 0) "/verify"
       (mkRequest toy_jwt "GET" ∅ ∅)))
    as (_ & Hk & _ & [Hw _] & _).
  - exact demo_main.
  - set (p1 := mkProcess demo_oidc demo_loaded (run_oidcVerifier demo_runnable) false MainWaiting
      SrvStarting false false None).
    set (p2 := mkProcess demo_oidc demo_loaded (Some verifier) false MainWaiting
      SrvAssigned true false None).
    apply (rtc_l _ _ p1); [exists None; by apply (step_load _ _ _ 0 _ _ _ _ _ _ _ _ _ _ demo_loads)|].
    apply (rtc_l _ _ p2); [exists None; apply (step_oidc _ _ _ _ _ _ _ _ _ _ _ demo_verifier)|].
    apply (rtc_l _ _ p); [exists None; by apply step_listen|]. apply rtc_refl.
  - apply step_serve.
  - done.
Defined.
