(* ===== verification/K8s.v ===== *)
(** * K8s: the cluster as the controllers see it

    The Kubernetes objects the controllers own, the client interface
    (controller-runtime's [client.Client]) as a record of operations on an
    abstract cluster state, the state threaded through one reconcile, finalizer
    helpers, and an in-memory cluster for evaluating the definitions. *)

From S2P Require Import Prelude Api JwtSigner.

(** ** Objects *)

(** [corev1.PodSpec]; [Rest] holds the fields the program does not set, among
    them those the API server defaults. *)
Record PodSpec := mkPodSpec {
  pod_Volumes : list Volume;
  pod_InitContainers : list Container;
  pod_Containers : list Container;
  pod_NodeSelector : gmap string string;
  pod_Affinity : option Opaque;
  pod_Tolerations : list Opaque;
  pod_ServiceAccountName : string;
  pod_SecurityContext : option Opaque;
  pod_ShareProcessNamespace : option bool;
  pod_Rest : option Opaque;
}.
#[global] Instance PodSpec_eq_dec : EqDecision PodSpec.
Proof. solve_decision. Defined.

(** [corev1.PodTemplateSpec]: labels, annotations and pod. *)
Record PodTemplateSpec := mkPodTemplateSpec {
  pts_Labels : gmap string string;
  pts_Annotations : gmap string string;
  pts_Spec : PodSpec;
}.
#[global] Instance PodTemplateSpec_eq_dec : EqDecision PodTemplateSpec.
Proof. solve_decision. Defined.

(** [appsv1.DeploymentSpec]; [Selector] holds the match labels. *)
Record DeploymentSpec := mkDeploymentSpec {
  ds_Replicas : option Z;
  ds_Strategy : string;
  ds_Selector : gmap string string;
  ds_Template : PodTemplateSpec;
  ds_Rest : option Opaque;
}.
#[global] Instance DeploymentSpec_eq_dec : EqDecision DeploymentSpec.
Proof. solve_decision. Defined.

(** [appsv1.Deployment]: its condition list carries types and statuses. *)
Record Deployment := mkDeployment {
  dep_ObjectMeta : ObjectMeta;
  dep_Spec : DeploymentSpec;
  dep_Conditions : list (string * string);
  dep_AvailableReplicas : Z;
  dep_ReadyReplicas : Z;
}.
#[global] Instance Deployment_eq_dec : EqDecision Deployment.
Proof. solve_decision. Defined.
Definition dep_Replicas (d : Deployment) : option Z := ds_Replicas (dep_Spec d).

(** [corev1.Pod]: what its status says of the phase and of the containers. *)
Record ContainerStatus := mkContainerStatus {
  cs_Name : string;
  cs_Running : bool;
  cs_RestartCount : Z;
}.
#[global] Instance ContainerStatus_eq_dec : EqDecision ContainerStatus.
Proof. solve_decision. Defined.
Record Pod := mkPod {
  pod_ObjectMeta : ObjectMeta;
  pod_Phase : string;
  pod_ContainerStatuses : list ContainerStatus;
}.
#[global] Instance Pod_eq_dec : EqDecision Pod.
Proof. solve_decision. Defined.
Definition PodRunning : string := "Running".

(** [intstr.IntOrString] and [corev1.ServicePort]. *)
Inductive IntOrString := FromInt (n : Z) | FromString (s : string).
#[global] Instance IntOrString_eq_dec : EqDecision IntOrString.
Proof. solve_decision. Defined.
Record ServicePort := mkServicePort {
  sport_Name : string;
  sport_Protocol : string;
  sport_Port : Z;
  sport_TargetPort : IntOrString;
  sport_Rest : option Opaque;
}.
#[global] Instance ServicePort_eq_dec : EqDecision ServicePort.
Proof. solve_decision. Defined.

(** [corev1.ServiceSpec] and [corev1.Service]; [Rest] and the cluster IP are the
    API server's. *)
Record ServiceSpec := mkServiceSpec {
  ssp_Type : string;
  ssp_Selector : gmap string string;
  ssp_Ports : list ServicePort;
  ssp_ClusterIP : string;
  ssp_Rest : option Opaque;
}.
#[global] Instance ServiceSpec_eq_dec : EqDecision ServiceSpec.
Proof. solve_decision. Defined.
Record Service := mkService {
  svc_ObjectMeta : ObjectMeta;
  svc_Spec : ServiceSpec;
  svc_LoadBalancerIngress : list Opaque;
}.
#[global] Instance Service_eq_dec : EqDecision Service.
Proof. solve_decision. Defined.
Definition svc_Type (s : Service) : string := ssp_Type (svc_Spec s).
Definition svc_ClusterIP (s : Service) : string := ssp_ClusterIP (svc_Spec s).

(** [corev1.PersistentVolumeClaimSpec] and [corev1.PersistentVolumeClaim]. *)
Record PersistentVolumeClaimSpec := mkPersistentVolumeClaimSpec {
  pvs_AccessModes : list string;
  pvs_Requests : gmap string Quantity;
  pvs_Limits : gmap string Quantity;
  pvs_StorageClassName : option string;
  pvs_Rest : option Opaque;
}.
#[global] Instance PersistentVolumeClaimSpec_eq_dec : EqDecision PersistentVolumeClaimSpec.
Proof. solve_decision. Defined.
Record PersistentVolumeClaim := mkPersistentVolumeClaim {
  pvc_ObjectMeta : ObjectMeta;
  pvc_Spec : PersistentVolumeClaimSpec;
}.
#[global] Instance PersistentVolumeClaim_eq_dec : EqDecision PersistentVolumeClaim.
Proof. solve_decision. Defined.

(** ** Semantic equality *)

(** equality.Semantic.DeepEqual compares quantities by value, and nil with empty
    as equal: values are brought to a normal form. *)
Definition sem_quantity (q : Quantity) : Quantity := mkQuantity (q_value q) "".
Definition sem_resources (r : ResourceRequirements) : ResourceRequirements :=
  mkResourceRequirements (sem_quantity <$> rr_Limits r) (Some (sem_quantity <$> rr_Requests r)) (rr_Claims r).
Definition sem_container (c : Container) : Container :=
  set_ctr_Resources (sem_resources (ctr_Resources c)) c.
Definition sem_pod (p : PodSpec) : PodSpec :=
  mkPodSpec (pod_Volumes p) (sem_container <$> pod_InitContainers p)
    (sem_container <$> pod_Containers p) (pod_NodeSelector p) (pod_Affinity p) (pod_Tolerations p)
    (pod_ServiceAccountName p) (pod_SecurityContext p) (pod_ShareProcessNamespace p) (pod_Rest p).

(** [unstructured.Unstructured]; [un_Spec] is the [spec] field, absent or not, and
    [un_Rest] the fields beside it. *)
Record Unstructured := mkUnstructured {
  un_APIVersion : string;
  un_Kind : string;
  un_ObjectMeta : ObjectMeta;
  un_Spec : option Opaque;
  un_Rest : option Opaque;
}.
#[global] Instance Unstructured_eq_dec : EqDecision Unstructured.
Proof. solve_decision. Defined.
Definition set_un_ObjectMeta (v : ObjectMeta) (x : Unstructured) : Unstructured :=
  mkUnstructured (un_APIVersion x) (un_Kind x) v (un_Spec x) (un_Rest x).

(** [schema.GroupVersionKind]. *)
Record GroupVersionKind := mkGVK { gvk_Group : string; gvk_Version : string; gvk_Kind : string }.
#[global] Instance GVK_eq_dec : EqDecision GroupVersionKind.
Proof. solve_decision. Defined.

(** An event of the EventRecorder. *)
Record Event := mkEvent { ev_Type : string; ev_Reason : string; ev_Message : string }.

(** Name and namespace of a workspace; [DeletionTimestamp.IsZero()] negated. *)
Definition ws_Name (w : Workspace) : string := om_Name (ws_ObjectMeta w).
Definition ws_Namespace (w : Workspace) : string := om_Namespace (ws_ObjectMeta w).

Definition is_deleting (m : ObjectMeta) : bool :=
  match om_DeletionTimestamp m with None => false | Some _ => true end.

(** ** The client interface *)

(** [Get] takes name and namespace; [Create] and [Update] return the object as
    the API server stored it. *)
Record Crud (W A : Type) := mkCrud {
  crud_Get : string -> string -> ST W A;
  crud_Create : A -> ST W A;
  crud_Update : A -> ST W A;
  crud_Delete : A -> ST W unit;
}.
Arguments crud_Get {W A}.
Arguments crud_Create {W A}.
Arguments crud_Update {W A}.
Arguments crud_Delete {W A}.

Record Client (W : Type) := mkClient {
  c_Workspace : Crud W Workspace;
  c_WorkspaceStatusUpdate : Workspace -> ST W Workspace;
  c_Deployment : Crud W Deployment;
  c_Service : Crud W Service;
  c_PVC : Crud W PersistentVolumeClaim;
  c_AccessStrategy : Crud W WorkspaceAccessStrategy;
  c_IntegrationTemplate : Crud W WorkspaceIntegrationTemplate;
  c_Unstructured : GroupVersionKind -> Crud W Unstructured;
}.
Arguments c_Workspace {W}.
Arguments c_WorkspaceStatusUpdate {W}.
Arguments c_Deployment {W}.
Arguments c_Service {W}.
Arguments c_PVC {W}.
Arguments c_AccessStrategy {W}.
Arguments c_IntegrationTemplate {W}.
Arguments c_Unstructured {W}.

(** ** One reconcile *)

(** The state of a reconcile: the cluster, the workspace object the handlers
    mutate in place, the clock readings still to come, and the events recorded. *)
Record Env (W : Type) := mkEnv {
  env_cluster : W;
  env_ws : Workspace;
  env_clock : Clock;
  env_events : list Event;
}.
Arguments mkEnv {W}.
Arguments env_cluster {W}.
Arguments env_ws {W}.
Arguments env_clock {W}.
Arguments env_events {W}.

Definition M (W A : Type) : Type := ST (Env W) A.

Section env.
Context {W : Type}.

Definition get_ws : M W Workspace := fun s => (Ok (env_ws s), s).
Definition modify_ws (f : Workspace -> Workspace) : M W unit := fun s =>
  (Ok tt, mkEnv (env_cluster s) (f (env_ws s)) (env_clock s) (env_events s)).
Definition modify_status (f : WorkspaceStatus -> WorkspaceStatus) : M W unit :=
  modify_ws (fun w => set_ws_Status (f (ws_Status w)) w).

(** [time.Now()]. *)
Definition time_Now : M W Time := fun s =>
  (Ok (env_clock s 0%nat),
   mkEnv (env_cluster s) (env_ws s) (clock_next (env_clock s)) (env_events s)).

(** A call on the cluster. *)
Definition on_cluster {A} (m : ST W A) : M W A := fun s =>
  let (r, w) := m (env_cluster s) in
  (r, mkEnv w (env_ws s) (env_clock s) (env_events s)).

(** A builder that may overwrite entries of the workspace's environment slice,
    which it shares: the environment it leaves is the object's from then on. *)
Definition on_workspace {A} (f : Workspace -> result A * list EnvVar) : M W A := fun s =>
  let w := env_ws s in
  let (r, env) := f w in
  (r, mkEnv (env_cluster s) (set_ws_Spec (set_sp_Env env (ws_Spec w)) w) (env_clock s)
        (env_events s)).

(** [recorder.Event]. *)
Definition record_event (ty reason message : string) : M W unit := fun s =>
  (Ok tt, mkEnv (env_cluster s) (env_ws s) (env_clock s)
            (env_events s ++ [mkEvent ty reason message])).
End env.

(** [ctrl.Result]: 0 means no requeue. *)
Record Result := mkResult { RequeueAfter : Duration }.
Definition no_requeue : Result := mkResult 0.

(** ** Finalizers (controllerutil) *)

Definition ContainsFinalizer (m : ObjectMeta) (finalizer : string) : bool :=
  bool_decide (finalizer ∈ om_Finalizers m).
Definition AddFinalizer (finalizer : string) (m : ObjectMeta) : ObjectMeta :=
  if ContainsFinalizer m finalizer then m
  else set_om_Finalizers (om_Finalizers m ++ [finalizer]) m.
Definition RemoveFinalizer (finalizer : string) (m : ObjectMeta) : ObjectMeta :=
  set_om_Finalizers (filter (fun f => f <> finalizer) (om_Finalizers m)) m.

Lemma ContainsFinalizer_Add f m : ContainsFinalizer (AddFinalizer f m) f = true.
Proof.
  unfold AddFinalizer. destruct (ContainsFinalizer m f) eqn:E; [done|].
  unfold ContainsFinalizer. cbn. apply bool_decide_eq_true. set_solver.
Qed.

Lemma ContainsFinalizer_Remove f m : ContainsFinalizer (RemoveFinalizer f m) f = false.
Proof.
  unfold ContainsFinalizer, RemoveFinalizer. cbn. apply bool_decide_eq_false.
  by intros [? _]%list_elem_of_filter.
Qed.

(** ** Reasoning about the monad *)

Lemma st_bind_Ok {S A B} (m : ST S A) (f : A -> ST S B) s b s' :
  st_bind m f s = (Ok b, s') <-> exists a s1, m s = (Ok a, s1) /\ f a s1 = (Ok b, s').
Proof.
  unfold st_bind. destruct (m s) as [[a|e] s1]; split.
  - eauto.
  - by intros (? & ? & [= <- <-] & ?).
  - done.
  - by intros (? & ? & ? & _).
Qed.

Lemma st_try_Ok {S A} (m : ST S A) s r s' : st_try m s = (Ok r, s') <-> m s = (r, s').
Proof. unfold st_try. destruct (m s). split; congruence. Qed.

Lemma st_ret_Ok {S A} (a b : A) (s s' : S) : st_ret a s = (Ok b, s') <-> a = b /\ s = s'.
Proof. unfold st_ret. split; [by intros [= -> ->]|by intros [-> ->]]. Qed.

Lemma st_wrap_Ok {S A} fmt args (m : ST S A) s a s' :
  st_wrap fmt args m s = (Ok a, s') <-> m s = (Ok a, s').
Proof. unfold st_wrap. destruct (m s) as [[]]; cbn; split; congruence. Qed.

Lemma st_lift_Ok {S A} (r : result A) (s s' : S) a :
  st_lift r s = (Ok a, s') <-> r = Ok a /\ s = s'.
Proof. unfold st_lift. split; [by intros [= -> ->]|by intros [-> ->]]. Qed.

Lemma get_ws_Ok {W} (s s' : Env W) w : get_ws s = (Ok w, s') <-> w = env_ws s /\ s = s'.
Proof. unfold get_ws. split; [by intros [= <- ->]|by intros [-> ->]]. Qed.

Lemma get_ws_run {W A} (k : Workspace -> M W A) s : (st_bind get_ws k) s = k (env_ws s) s.
Proof. reflexivity. Qed.

(** Decompose a successful run step by step. *)
Ltac inv_run H :=
  lazymatch type of H with
  | st_bind get_ws _ ?s = _ => rewrite get_ws_run in H; inv_run H
  | st_bind (st_ret ?a) ?f ?s = _ => change (f a s = _) in H; cbv beta in H; inv_run H
  | st_bind _ _ _ = (Ok _, _) =>
      let a := fresh "a" in let s1 := fresh "s" in let H1 := fresh "Hr" in
      apply st_bind_Ok in H; destruct H as (a & s1 & H1 & H); inv_run H1; inv_run H
  | st_try _ _ = (Ok _, _) => apply (proj1 (st_try_Ok _ _ _ _)) in H
  | st_wrap _ _ _ _ = (Ok _, _) => apply (proj1 (st_wrap_Ok _ _ _ _ _ _)) in H; inv_run H
  | st_lift _ _ = (Ok _, _) => apply st_lift_Ok in H; destruct H as [H ?]; subst
  | st_ret _ _ = (Ok _, _) => apply st_ret_Ok in H; destruct H as [? ?]; subst
  | st_fail _ _ = (Ok _, _) => discriminate H
  | _ => idtac
  end.

Ltac destruct_units := repeat match goal with x : unit |- _ => destruct x end.

(** Conversion unfolds the handlers before the monad they are written in. *)
Strategy 100 [st_bind st_try st_wrap st_ret st_fail st_lift].
Strategy 100 [get_ws modify_ws modify_status time_Now on_cluster on_workspace record_event].

(** ** What a computation leaves alone *)

(** [respects R m]: whatever [m] answers, the state after it is related to the
    state before it. *)
Definition respects {S A} (R : relation S) (m : ST S A) : Prop := forall s, R s (m s).2.

Section respects.
Context {S : Type} (R : relation S) `{!PreOrder R}.

Lemma respects_bind {A B} (m : ST S A) (f : A -> ST S B) :
  respects R m -> (forall a, respects R (f a)) -> respects R (st_bind m f).
Proof.
  intros Hm Hf s. specialize (Hm s). unfold st_bind.
  destruct (m s) as [[a|e] s1]; cbn in *; [|done]. etrans; [exact Hm|apply Hf].
Qed.

(** The continuation may use what the first call answered. *)
Lemma respects_bind_post {A B} (m : ST S A) (f : A -> ST S B) :
  respects R m -> (forall a s s', m s = (Ok a, s') -> respects R (f a)) -> respects R (st_bind m f).
Proof.
  intros Hm Hf s. specialize (Hm s). unfold st_bind.
  destruct (m s) as [[a|e] s1] eqn:E; cbn in *; [|done]. etrans; [exact Hm|by eapply Hf].
Qed.

Lemma respects_try {A} (m : ST S A) : respects R m -> respects R (st_try m).
Proof. intros Hm s. specialize (Hm s). unfold st_try. by destruct (m s). Qed.

Lemma respects_wrap {A} fmt args (m : ST S A) : respects R m -> respects R (st_wrap fmt args m).
Proof. intros Hm s. specialize (Hm s). unfold st_wrap. by destruct (m s) as [[]]. Qed.

Lemma respects_ret {A} (a : A) : respects R (st_ret a).
Proof. intros s. cbn. reflexivity. Qed.

Lemma respects_fail {A} e : respects R (@st_fail S A e).
Proof. intros s. cbn. reflexivity. Qed.

Lemma respects_lift {A} (r : result A) : respects R (st_lift r).
Proof. intros s. cbn. reflexivity. Qed.
End respects.

(** A read: it leaves the state as it is. *)
Notation reads m := (respects eq m).

(** The call succeeds. *)
Definition accepts {S A} (m : ST S A) (s : S) : Prop := is_ok (m s).1 = true.

Section accepts.
Context {S : Type}.

Lemma accepts_run {A} (m : ST S A) s : accepts m s <-> exists a s', m s = (Ok a, s').
Proof.
  unfold accepts. destruct (m s) as [[a|e] s1]; cbn; split; try done; [eauto|].
  by intros (? & ? & ?).
Qed.

Lemma accepts_unit (m : ST S unit) s : accepts m s <-> exists s', m s = (Ok tt, s').
Proof. rewrite accepts_run. split; [intros ([] & ?); eauto|eauto]. Qed.

Lemma accepts_bind {A B} (m : ST S A) (f : A -> ST S B) s :
  reads m -> accepts (st_bind m f) s <-> exists a, (m s).1 = Ok a /\ accepts (f a) s.
Proof.
  intros Hm. specialize (Hm s). unfold accepts, st_bind.
  destruct (m s) as [[a|e] s1]; cbn in *; subst; split; [eauto|by intros (? & [= <-] & ?)|done|].
  by intros (? & ? & _).
Qed.

Lemma accepts_then {B} (m : ST S unit) (k : ST S B) s :
  reads m -> accepts (st_bind m (fun _ => k)) s <-> accepts m s /\ accepts k s.
Proof.
  intros Hm. rewrite accepts_bind by done. unfold accepts.
  split; [by intros ([] & -> & ?)|]. intros [Ha Hk]. apply is_ok_true in Ha as [[] ->]. by exists tt.
Qed.

Lemma accepts_try {A B} (m : ST S A) (f : result A -> ST S B) s :
  reads m -> accepts (st_bind (st_try m) f) s <-> accepts (f (m s).1) s.
Proof.
  intros Hm. specialize (Hm s). unfold accepts, st_bind, st_try.
  destruct (m s) as [r s1]. cbn in *. by subst.
Qed.

Lemma accepts_lift {A} (r : result A) (s : S) : accepts (st_lift r) s <-> exists a, r = Ok a.
Proof. unfold accepts, st_lift. cbn. apply is_ok_true. Qed.

Lemma accepts_lift_unit (r : result unit) (s : S) : accepts (st_lift r) s <-> r = Ok tt.
Proof. rewrite accepts_lift. split; [by intros [[] ?]|eauto]. Qed.

Lemma accepts_ret {A} (a : A) (s : S) : accepts (st_ret a) s <-> True.
Proof. done. Qed.

Lemma accepts_fail {A} e (s : S) : accepts (@st_fail S A e) s <-> False.
Proof. done. Qed.
End accepts.

(** The object under reconciliation, the clock and the events are as before. *)
Definition same_object {W} (s s' : Env W) : Prop :=
  env_ws s' = env_ws s /\ env_clock s' = env_clock s /\ env_events s' = env_events s.
#[export] Instance same_object_preorder W : PreOrder (@same_object W).
Proof.
  split; [done|]. intros s1 s2 s3 (H1 & H2 & H3) (H4 & H5 & H6).
  unfold same_object. by rewrite H4, H5, H6.
Qed.

(** The same but for the environment variables of the spec. *)
Definition same_but_env {W} (s s' : Env W) : Prop :=
  (exists env, env_ws s' = set_ws_Spec (set_sp_Env env (ws_Spec (env_ws s))) (env_ws s)) /\
  env_clock s' = env_clock s /\ env_events s' = env_events s.
#[export] Instance same_but_env_preorder W : PreOrder (@same_but_env W).
Proof.
  split.
  - intros s. split; [|done]. exists (sp_Env (ws_Spec (env_ws s))). by destruct (env_ws s) as [? [] ?].
  - intros s1 s2 s3 ([e1 H1] & H2 & H3) ([e2 H4] & H5 & H6). unfold same_but_env.
    rewrite H5, H6, H2, H3. split; [|done]. exists e2. by rewrite H4, H1.
Qed.

(** A property of the cluster is kept. *)
Definition keeps {W} (P : W -> Prop) (s s' : Env W) : Prop := P (env_cluster s) -> P (env_cluster s').
#[export] Instance keeps_preorder W (P : W -> Prop) : PreOrder (keeps P).
Proof. split; [by intros s ?|]. intros s1 s2 s3 H1 H2 ?. by apply H2, H1. Qed.

(** A part of the status is as before. *)
Definition same_on {W B} (f : WorkspaceStatus -> B) (s s' : Env W) : Prop :=
  f (ws_Status (env_ws s')) = f (ws_Status (env_ws s)).
#[export] Instance same_on_preorder W {B} (f : WorkspaceStatus -> B) : PreOrder (@same_on W B f).
Proof. split; [done|]. intros s1 s2 s3. unfold same_on. by intros -> ->. Qed.

(** The identity and finalizers of the object are as before. *)
Definition meta_view (m : ObjectMeta) : string * string * list string :=
  (om_Name m, om_Namespace m, om_Finalizers m).
Definition same_meta {W} (s s' : Env W) : Prop :=
  meta_view (ws_ObjectMeta (env_ws s')) = meta_view (ws_ObjectMeta (env_ws s)).
#[export] Instance same_meta_preorder W : PreOrder (@same_meta W).
Proof. split; [done|]. intros s1 s2 s3. unfold same_meta. by intros -> ->. Qed.

Section respects_env.
Context {W : Type}.

Lemma same_object_on {A B} (f : WorkspaceStatus -> B) (m : M W A) :
  respects same_object m -> respects (same_on f) m.
Proof. intros Hm s. destruct (Hm s) as (E & _). unfold same_on. by rewrite E. Qed.

Lemma same_object_meta {A} (m : M W A) : respects same_object m -> respects same_meta m.
Proof. intros Hm s. destruct (Hm s) as (E & _). unfold same_meta. by rewrite E. Qed.

Lemma same_on_cluster_call {A B} (f : WorkspaceStatus -> B) (m : ST W A) :
  respects (same_on f) (on_cluster m).
Proof. intros s. unfold on_cluster, same_on. by destruct (m (env_cluster s)). Qed.

Lemma same_meta_cluster_call {A} (m : ST W A) : respects same_meta (on_cluster m).
Proof. intros s. unfold on_cluster, same_meta. by destruct (m (env_cluster s)). Qed.

Lemma same_on_modify_status {B} (f : WorkspaceStatus -> B) g :
  (forall st, f (g st) = f st) -> respects (same_on f) (@modify_status W g).
Proof. intros Hg s. apply Hg. Qed.

Lemma same_meta_modify_status g : respects same_meta (@modify_status W g).
Proof. by intros s. Qed.

Lemma same_on_time_Now {B} (f : WorkspaceStatus -> B) : respects (same_on f) (@time_Now W).
Proof. by intros s. Qed.
Lemma same_meta_time_Now : respects same_meta (@time_Now W).
Proof. by intros s. Qed.
Lemma keeps_time_Now (P : W -> Prop) : respects (keeps P) time_Now.
Proof. by intros s Hs. Qed.

Lemma same_on_record_event {B} (f : WorkspaceStatus -> B) ty re ms :
  respects (same_on f) (@record_event W ty re ms).
Proof. by intros s. Qed.
Lemma same_meta_record_event ty re ms : respects same_meta (@record_event W ty re ms).
Proof. by intros s. Qed.
Lemma keeps_record_event (P : W -> Prop) ty re ms : respects (keeps P) (record_event ty re ms).
Proof. by intros s Hs. Qed.

Lemma respects_get_ws (R : relation (Env W)) `{!PreOrder R} : respects R get_ws.
Proof. intros s. cbn. reflexivity. Qed.

Lemma same_object_on_cluster {A} (m : ST W A) : respects same_object (on_cluster m).
Proof. intros s. unfold on_cluster. by destruct (m (env_cluster s)). Qed.

Lemma same_object_but_env {A} (m : M W A) : respects same_object m -> respects same_but_env m.
Proof.
  intros Hm s. destruct (Hm s) as (E1 & E2 & E3). split; [|done].
  exists (sp_Env (ws_Spec (env_ws s))). rewrite E1. by destruct (env_ws s) as [? [] ?].
Qed.

Lemma same_but_env_on_cluster {A} (m : ST W A) : respects same_but_env (on_cluster m).
Proof. apply same_object_but_env, same_object_on_cluster. Qed.

Lemma same_but_env_on_workspace {A} (f : Workspace -> result A * list EnvVar) :
  respects same_but_env (@on_workspace W A f).
Proof.
  intros s. unfold on_workspace. destruct (f (env_ws s)) as [r env].
  split; [by exists env|done].
Qed.

Lemma keeps_on_workspace {A} (P : W -> Prop) (f : Workspace -> result A * list EnvVar) :
  respects (keeps P) (on_workspace f).
Proof. intros s Hs. unfold on_workspace. by destruct (f (env_ws s)). Qed.

Lemma keeps_on_cluster {A} (P : W -> Prop) (m : ST W A) :
  (forall c, P c -> P (m c).2) -> respects (keeps P) (on_cluster m).
Proof.
  intros Hm s Hs. specialize (Hm _ Hs). unfold on_cluster. by destruct (m (env_cluster s)).
Qed.

Lemma keeps_modify_ws (P : W -> Prop) f : respects (keeps P) (modify_ws f).
Proof. by intros s Hs. Qed.
End respects_env.

#[export] Hint Resolve respects_try respects_wrap respects_ret respects_fail respects_lift
  respects_get_ws same_object_on_cluster same_but_env_on_cluster same_but_env_on_workspace
  keeps_on_workspace keeps_modify_ws same_on_cluster_call
  same_meta_cluster_call same_meta_modify_status same_on_time_Now same_meta_time_Now
  keeps_time_Now same_on_record_event same_meta_record_event keeps_record_event : gok8s.
#[export] Hint Extern 3 (respects same_but_env _) => apply same_object_but_env : gok8s.
#[export] Hint Extern 2 (respects (same_on _) (modify_status _)) =>
  apply same_on_modify_status; intros []; reflexivity : gok8s.
#[export] Hint Extern 2 (respects (keeps _) (modify_status _)) =>
  apply keeps_modify_ws : gok8s.

(** Decompose a computation into its calls and close them with the lemmas of the
    database. *)
Ltac respects_step :=
  match goal with
  | |- respects _ (st_bind _ _) => apply respects_bind; [typeclasses eauto| |intros ?]
  | |- respects _ (st_try _) => apply respects_try
  | |- respects _ (st_wrap _ _ _) => apply respects_wrap
  | |- respects _ (if ?b then _ else _) => destruct b
  | |- respects _ (match ?x with _ => _ end) => destruct x
  end.
Ltac solve_respects := repeat respects_step; eauto with gok8s typeclass_instances.

(** ** An in-memory cluster *)

(** Maps keyed by namespace/name, with the API server's NotFound and
    AlreadyExists; a deleted object with finalizers, or one [slow] to go, stays
    with a deletion timestamp. *)
Definition obj_key (namespace name : string) : string := namespace +:+ "/" +:+ name.

Definition mem_crud {W A} (get : W -> gmap string A) (set : gmap string A -> W -> W)
    (meta : A -> ObjectMeta) (mark : A -> A) (slow : bool) : Crud W A :=
  let key a := obj_key (om_Namespace (meta a)) (om_Name (meta a)) in
  {| crud_Get := fun name ns w =>
       match get w !! obj_key ns name with
       | Some a => if bool_decide (key a = obj_key ns name) then (Ok a, w)
                   else (Fail (ApiError ReasonNotFound), w)
       | None => (Fail (ApiError ReasonNotFound), w)
       end;
     crud_Create := fun a w =>
       match get w !! key a with
       | Some _ => (Fail (ApiError ReasonAlreadyExists), w)
       | None => (Ok a, set (<[key a := a]> (get w)) w)
       end;
     crud_Update := fun a w =>
       match get w !! key a with
       | Some _ => (Ok a, set (<[key a := a]> (get w)) w)
       | None => (Fail (ApiError ReasonNotFound), w)
       end;
     crud_Delete := fun a w =>
       match get w !! key a with
       | Some b =>
           (Ok tt, set (if slow then <[key a := mark b]> (get w) else delete (key a) (get w)) w)
       | None => (Fail (ApiError ReasonNotFound), w)
       end |}.

Record Mem := mkMem {
  m_Workspaces : gmap string Workspace;
  m_Deployments : gmap string Deployment;
  m_Services : gmap string Service;
  m_PVCs : gmap string PersistentVolumeClaim;
  m_AccessStrategies : gmap string WorkspaceAccessStrategy;
  m_IntegrationTemplates : gmap string WorkspaceIntegrationTemplate;
  m_Unstructured : gmap string Unstructured;
  m_StatusWrites : nat;
}.

Definition mark_deleting (m : ObjectMeta) : ObjectMeta := set_om_DeletionTimestamp (Some 1) m.

(** The client of the in-memory cluster; [slow] deletions only mark objects. *)
Definition mem_k8s (slow : bool) : Client Mem := {|
  c_Workspace := mem_crud m_Workspaces
    (fun x m => mkMem x (m_Deployments m) (m_Services m) (m_PVCs m) (m_AccessStrategies m)
                  (m_IntegrationTemplates m) (m_Unstructured m) (m_StatusWrites m))
    ws_ObjectMeta (fun a => set_ws_ObjectMeta (mark_deleting (ws_ObjectMeta a)) a) slow;
  c_WorkspaceStatusUpdate := fun a m =>
    (Ok a, mkMem (<[obj_key (om_Namespace (ws_ObjectMeta a)) (om_Name (ws_ObjectMeta a)) := a]>
                    (m_Workspaces m)) (m_Deployments m) (m_Services m) (m_PVCs m)
             (m_AccessStrategies m) (m_IntegrationTemplates m) (m_Unstructured m)
             (S (m_StatusWrites m)));
  c_Deployment := mem_crud m_Deployments
    (fun x m => mkMem (m_Workspaces m) x (m_Services m) (m_PVCs m) (m_AccessStrategies m)
                  (m_IntegrationTemplates m) (m_Unstructured m) (m_StatusWrites m))
    dep_ObjectMeta (fun a => mkDeployment (mark_deleting (dep_ObjectMeta a)) (dep_Spec a)
      (dep_Conditions a) (dep_AvailableReplicas a) (dep_ReadyReplicas a)) slow;
  c_Service := mem_crud m_Services
    (fun x m => mkMem (m_Workspaces m) (m_Deployments m) x (m_PVCs m) (m_AccessStrategies m)
                  (m_IntegrationTemplates m) (m_Unstructured m) (m_StatusWrites m))
    svc_ObjectMeta (fun a => mkService (mark_deleting (svc_ObjectMeta a)) (svc_Spec a)
      (svc_LoadBalancerIngress a)) slow;
  c_PVC := mem_crud m_PVCs
    (fun x m => mkMem (m_Workspaces m) (m_Deployments m) (m_Services m) x (m_AccessStrategies m)
                  (m_IntegrationTemplates m) (m_Unstructured m) (m_StatusWrites m))
    pvc_ObjectMeta (fun a => mkPersistentVolumeClaim (mark_deleting (pvc_ObjectMeta a)) (pvc_Spec a))
    slow;
  c_AccessStrategy := mem_crud m_AccessStrategies
    (fun x m => mkMem (m_Workspaces m) (m_Deployments m) (m_Services m) (m_PVCs m) x
                  (m_IntegrationTemplates m) (m_Unstructured m) (m_StatusWrites m))
    was_ObjectMeta (fun a => set_was_ObjectMeta (mark_deleting (was_ObjectMeta a)) a) slow;
  c_IntegrationTemplate := mem_crud m_IntegrationTemplates
    (fun x m => mkMem (m_Workspaces m) (m_Deployments m) (m_Services m) (m_PVCs m)
                  (m_AccessStrategies m) x (m_Unstructured m) (m_StatusWrites m))
    wit_ObjectMeta (fun a => mkWorkspaceIntegrationTemplate (mark_deleting (wit_ObjectMeta a))
      (wit_Spec a)) slow;
  c_Unstructured := fun _ => mem_crud m_Unstructured
    (fun x m => mkMem (m_Workspaces m) (m_Deployments m) (m_Services m) (m_PVCs m)
                  (m_AccessStrategies m) (m_IntegrationTemplates m) x (m_StatusWrites m))
    un_ObjectMeta (fun a => set_un_ObjectMeta (mark_deleting (un_ObjectMeta a)) a) slow;
|}.

(** ** An in-memory store by namespace and name *)

Definition keyed_crud {W A} (get : W -> gmap (string * string) A)
    (set : gmap (string * string) A -> W -> W) (meta : A -> ObjectMeta) : Crud W A :=
  let key a := (om_Namespace (meta a), om_Name (meta a)) in
  {| crud_Get := fun name ns w =>
       match get w !! (ns, name) with
       | Some a => if bool_decide (key a = (ns, name)) then (Ok a, w)
                   else (Fail (ApiError ReasonNotFound), w)
       | None => (Fail (ApiError ReasonNotFound), w)
       end;
     crud_Create := fun a w =>
       match get w !! key a with
       | Some _ => (Fail (ApiError ReasonAlreadyExists), w)
       | None => (Ok a, set (<[key a := a]> (get w)) w)
       end;
     crud_Update := fun a w =>
       match get w !! key a with
       | Some _ => (Ok a, set (<[key a := a]> (get w)) w)
       | None => (Fail (ApiError ReasonNotFound), w)
       end;
     crud_Delete := fun a w => (Ok tt, set (delete (key a) (get w)) w) |}.
