(* ===== verification/Trace.v ===== *)
(** * Trace: the calls a computation makes

    A client whose calls are written down with their answers, and the rules to reason
    about what a computation calls, whatever the client answers.  The controllers'
    properties that hold for every client, with failures, conflicts and stale reads,
    are stated on such a trace. *)

From S2P Require Import Prelude K8s.

Section trace.
Context {W L : Type}.

(** [m] with what [note] says of its answer added to the log. *)
Definition recording {A} (note : result A -> list L) (m : ST W A) : ST (W * list L) A :=
  fun '(w, log) => let '(r, w') := m w in (r, (w', log ++ note r)).

(** ** Writing the calls down changes neither answers nor effects *)

Definition sim {A} (m' : ST (W * list L) A) (m : ST W A) : Prop :=
  forall w log, (m' (w, log)).1 = (m w).1 /\ (m' (w, log)).2.1 = (m w).2.

Lemma sim_recording {A} note (m : ST W A) : sim (recording note m) m.
Proof. intros w log. unfold recording. by destruct (m w). Qed.
Lemma sim_ret {A} (a : A) : sim (st_ret a) (st_ret a).
Proof. done. Qed.
Lemma sim_fail {A} e : sim (A := A) (st_fail e) (st_fail e).
Proof. done. Qed.
Lemma sim_lift {A} (x : result A) : sim (st_lift x) (st_lift x).
Proof. done. Qed.
Lemma sim_bind {A B} m' (m : ST W A) f' (f : A -> ST W B) :
  sim m' m -> (forall a, sim (f' a) (f a)) -> sim (st_bind m' f') (st_bind m f).
Proof.
  intros Hm Hf w log. destruct (Hm w log) as [H1 H2]. unfold st_bind.
  destruct (m' (w, log)) as [r' [w' log']], (m w) as [r w1]. cbn in *. subst r' w'.
  destruct r; [apply Hf|done].
Qed.
Lemma sim_try {A} m' (m : ST W A) : sim m' m -> sim (st_try m') (st_try m).
Proof.
  intros Hm w log. destruct (Hm w log) as [H1 H2]. unfold st_try.
  destruct (m' (w, log)) as [r' [w' log']], (m w) as [r w1]. cbn in *. by subst.
Qed.
Lemma sim_wrap {A} fmt args m' (m : ST W A) : sim m' m -> sim (st_wrap fmt args m') (st_wrap fmt args m).
Proof.
  intros Hm w log. destruct (Hm w log) as [H1 H2]. unfold st_wrap.
  destruct (m' (w, log)) as [r' [w' log']], (m w) as [r w1]. cbn in *. by subst.
Qed.

(** ** What a computation calls *)

(** Every call is justified by what was seen before it. *)
Fixpoint justified (P : list L -> L -> Prop) (seen calls : list L) : Prop :=
  match calls with
  | [] => True
  | c :: rest => P seen c /\ justified P (seen ++ [c]) rest
  end.

Lemma justified_app P seen calls more :
  justified P seen (calls ++ more) <-> justified P seen calls /\ justified P (seen ++ calls) more.
Proof.
  revert seen. induction calls as [|c calls IH]; intros seen; cbn; [rewrite app_nil_r; tauto|].
  rewrite IH, <- app_assoc. cbn. tauto.
Qed.

Section traces.
Context (P : list L -> L -> Prop).

(** Started when [seen] was seen, [m] makes only calls that [P] justifies, and what
    was seen in the end and the answer satisfy [D], whatever the client answers. *)
Definition traces {A} (seen : list L) (m : ST (W * list L) A) (D : list L -> result A -> Prop) : Prop :=
  forall w, exists r w' calls, m (w, seen) = (r, (w', seen ++ calls)) /\
    justified P seen calls /\ D (seen ++ calls) r.

Lemma traces_mono {A} seen (m : ST (W * list L) A) (D D' : list L -> result A -> Prop) :
  traces seen m D -> (forall calls r, D (seen ++ calls) r -> D' (seen ++ calls) r) -> traces seen m D'.
Proof. intros Hm HD w. destruct (Hm w) as (r & w' & calls & E & H & ?). exists r, w', calls. auto. Qed.

Lemma traces_recording {A} seen c (m : ST W A) (D : list L -> result A -> Prop) :
  (forall r, P seen (c r)) -> (forall r, D (seen ++ [c r]) r) ->
  traces seen (recording (fun r => [c r]) m) D.
Proof.
  intros HP HD w. unfold recording. destruct (m w) as [r w']. exists r, w', [c r]. cbn. auto.
Qed.

Lemma traces_ret {A} seen (a : A) (D : list L -> result A -> Prop) :
  D seen (Ok a) -> traces seen (st_ret a) D.
Proof. intros HD w. exists (Ok a), w, []. by rewrite app_nil_r. Qed.

Lemma traces_fail {A} seen e (D : list L -> result A -> Prop) : D seen (Fail e) -> traces seen (st_fail e) D.
Proof. intros HD w. exists (Fail e), w, []. by rewrite app_nil_r. Qed.

Lemma traces_bind {A B} seen (m : ST (W * list L) A) (f : A -> ST (W * list L) B) D :
  traces seen m (fun seen r =>
    match r with Ok a => traces seen (f a) D | Fail e => D seen (Fail e) end) ->
  traces seen (st_bind m f) D.
Proof.
  intros Hm w. destruct (Hm w) as (r & w1 & calls & E & Hj & HD). unfold st_bind. rewrite E.
  destruct r as [a|e]; [|by exists (Fail e), w1, calls].
  destruct (HD w1) as (r & w2 & more & -> & Hj' & HD'). exists r, w2, (calls ++ more).
  rewrite app_assoc. split; [done|]. by rewrite justified_app.
Qed.

Lemma traces_try {A} seen (m : ST (W * list L) A) D :
  traces seen m (fun seen r => D seen (Ok r)) -> traces seen (st_try m) D.
Proof.
  intros Hm w. destruct (Hm w) as (r & w1 & calls & E & H). unfold st_try. rewrite E.
  by exists (Ok r), w1, calls.
Qed.

Lemma traces_wrap {A} seen fmt args (m : ST (W * list L) A) D :
  traces seen m (fun seen r => D seen (match r with Ok a => Ok a | Fail e => Fail (Wrapf fmt args e) end)) ->
  traces seen (st_wrap fmt args m) D.
Proof.
  intros Hm w. destruct (Hm w) as (r & w1 & calls & E & H). unfold st_wrap. rewrite E.
  eexists _, w1, calls. split; [|exact H]. by destruct r.
Qed.
End traces.
End trace.

Ltac sim_step :=
  first [ apply sim_recording | apply sim_ret | apply sim_fail | apply sim_lift
        | apply sim_bind; [|intros ?] | apply sim_try | apply sim_wrap
        | match goal with |- sim (match ?x with _ => _ end) _ => destruct x end ].

(** One step of a computation whose calls are followed. *)
Ltac traces_step :=
  match goal with
  | |- traces _ _ (st_bind _ _) _ => apply traces_bind
  | |- traces _ _ (st_try _) _ => apply traces_try
  | |- traces _ _ (st_wrap _ _ _) _ => apply traces_wrap
  | |- traces _ _ (st_ret _) _ => apply traces_ret
  | |- traces _ _ (st_fail _) _ => apply traces_fail
  | |- traces _ _ _ _ => apply traces_recording; intros ?
  end.
