(* ===== verification/WorkspaceQueries.v ===== *)
(** * WorkspaceQueries: package workspace

    internal/workspace queries.go, finalizers.go, template_resolver.go and
    constants.go: who references a template or an access strategy, the labels and
    finalizers that protect a referenced object, and template resolution with the
    shared-namespace fallback. *)

From S2P Require Import Prelude Api K8s.

Definition LabelWorkspaceName : string := "workspace.jupyter.org/workspace-name".
Definition LabelWorkspaceTemplate : string := "workspace.jupyter.org/template-name".
Definition LabelWorkspaceTemplateNamespace : string := "workspace.jupyter.org/template-namespace".
Definition LabelAccessStrategyName : string := "workspace.jupyter.org/access-strategy-name".
Definition LabelAccessStrategyNamespace : string := "workspace.jupyter.org/access-strategy-namespace".

Definition TemplateFinalizerName : string := "workspace.jupyter.org/template-protection".
Definition AccessStrategyFinalizerName : string := "workspace.jupyter.org/accessstrategy-protection".
Definition AccessStrategyTemplateFinalizerName : string :=
  "workspace.jupyter.org/accessstrategy-template-protection".

(** The fields of [corev1.ServiceAccount] the webhooks read. *)
Record ServiceAccount := mkServiceAccount {
  sa_Name : string;
  sa_Annotations : gmap string string;
}.

(** The client calls of the webhooks and queries.  Lists take the label selector;
    [rc_ListWorkspaces] also the continue token and the limit (0: none), and
    returns the next token. *)
Record RefClient (W : Type) := mkRefClient {
  rc_ListWorkspaces : gmap string string -> string -> Z -> ST W (list Workspace * string);
  rc_ListTemplates : gmap string string -> option string -> ST W (list WorkspaceTemplate);
  rc_ListServiceAccounts : gmap string string -> string -> ST W (list ServiceAccount);
  rc_GetServiceAccount : string -> string -> ST W ServiceAccount;
  rc_Template : Crud W WorkspaceTemplate;
  rc_AccessStrategy : Crud W WorkspaceAccessStrategy;
  rc_IntegrationTemplate : Crud W WorkspaceIntegrationTemplate;
  rc_PVC : Crud W PersistentVolumeClaim;
}.
Arguments rc_ListWorkspaces {W}.
Arguments rc_ListTemplates {W}.
Arguments rc_ListServiceAccounts {W}.
Arguments rc_GetServiceAccount {W}.
Arguments rc_Template {W}.
Arguments rc_AccessStrategy {W}.
Arguments rc_IntegrationTemplate {W}.
Arguments rc_PVC {W}.

(** GetTemplateRefNamespace: the namespace of the reference, or the workspace's. *)
Definition GetTemplateRefNamespace (w : Workspace) : string :=
  match sp_TemplateRef (ws_Spec w) with
  | Some ref => if negb (bool_decide (tr_Namespace ref = "")) then tr_Namespace ref
                else ws_Namespace w
  | None => ws_Namespace w
  end.

(** GetAccessStrategyRefNamespace: the namespace of the reference, or the workspace's. *)
Definition GetAccessStrategyRefNamespace (w : Workspace) : string :=
  match sp_AccessStrategy (ws_Spec w) with
  | Some ref => if negb (bool_decide (asr_Namespace ref = "")) then asr_Namespace ref
                else ws_Namespace w
  | None => ws_Namespace w
  end.

(** The filter of the template queries: not being deleted, and the reference
    agrees with the label. *)
Definition uses_template (templateName templateNamespace : string) (w : Workspace) : bool :=
  negb (is_deleting (ws_ObjectMeta w)) &&
  match sp_TemplateRef (ws_Spec w) with
  | None => false
  | Some ref =>
      bool_decide (tr_Name ref = templateName) &&
      (bool_decide (templateNamespace = "") ||
       bool_decide (GetTemplateRefNamespace w = templateNamespace))
  end.

(** The filter of the list query on access strategies. *)
Definition uses_access_strategy (name namespace : string) (w : Workspace) : bool :=
  negb (is_deleting (ws_ObjectMeta w)) &&
  match sp_AccessStrategy (ws_Spec w) with
  | None => false
  | Some ref =>
      bool_decide (asr_Name ref = name) &&
      (bool_decide (namespace = "") || bool_decide (GetAccessStrategyRefNamespace w = namespace))
  end.

Definition template_selector (name namespace : string) : gmap string string :=
  {[ LabelWorkspaceTemplate := name; LabelWorkspaceTemplateNamespace := namespace ]}.
Definition strategy_selector (name namespace : string) : gmap string string :=
  {[ LabelAccessStrategyName := name; LabelAccessStrategyNamespace := namespace ]}.

Section queries.
Context {W : Type} (client : RefClient W).
Local Open Scope go_scope.

(** ListActiveWorkspacesByTemplate: one page, filtered; the filter comes after
    the limit. *)
Definition ListActiveWorkspacesByTemplate (templateName templateNamespace continueToken : string)
    (limit : Z) : ST W (list Workspace * string) :=
  out <- st_wrap "failed to list workspaces by template label: %w" []
    (rc_ListWorkspaces client (template_selector templateName templateNamespace) continueToken
       (Z.max 0 limit)) ;;
  st_ret (List.filter (uses_template templateName templateNamespace) out.1, out.2).

(** HasActiveWorkspacesWithTemplate: the whole list, first match. *)
Definition HasActiveWorkspacesWithTemplate (templateName templateNamespace : string) : ST W bool :=
  out <- st_wrap "failed to check workspaces by template label: %w" []
    (rc_ListWorkspaces client (template_selector templateName templateNamespace) "" 0) ;;
  st_ret (existsb (uses_template templateName templateNamespace) out.1).

Definition ListActiveWorkspacesByAccessStrategy (name namespace continueToken : string)
    (limit : Z) : ST W (list Workspace * string) :=
  out <- st_wrap "failed to list workspaces by AccessStrategy label: %w" []
    (rc_ListWorkspaces client (strategy_selector name namespace) continueToken (Z.max 0 limit)) ;;
  st_ret (List.filter (uses_access_strategy name namespace) out.1, out.2).

(** HasActiveWorkspacesWithAccessStrategy compares the namespace even when it is
    empty. *)
Definition HasActiveWorkspacesWithAccessStrategy (name namespace : string) : ST W bool :=
  out <- st_wrap "failed to check workspaces by access strategy label: %w" []
    (rc_ListWorkspaces client (strategy_selector name namespace) "" 0) ;;
  st_ret (existsb (fun w =>
    negb (is_deleting (ws_ObjectMeta w)) &&
    match sp_AccessStrategy (ws_Spec w) with
    | None => false
    | Some ref => bool_decide (asr_Name ref = name) &&
                  bool_decide (GetAccessStrategyRefNamespace w = namespace)
    end) out.1).

Definition HasActiveTemplatesWithAccessStrategy (name namespace : string) : ST W bool :=
  templates <- st_wrap "failed to check templates by access strategy label: %w" []
    (rc_ListTemplates client (strategy_selector name namespace) None) ;;
  st_ret (existsb (fun t => negb (is_deleting (wt_ObjectMeta t))) templates).

(** The workspaces to reconcile when a strategy changes, as (name, namespace). *)
Definition GetWorkspaceReconciliationRequestsForAccessStrategy (name namespace : string)
    : ST W (list (string * string)) :=
  out <- st_wrap "failed to list workspaces by access strategy: %w" []
    (ListActiveWorkspacesByAccessStrategy name namespace "" 0) ;;
  st_ret ((fun w => (ws_Name w, ws_Namespace w)) <$> out.1).

(** SafelyAddFinalizerToAccessStrategy: add and update; on a conflict accept a
    concurrent writer that added it. *)
Definition SafelyAddFinalizerToAccessStrategy (accessStrategy : WorkspaceAccessStrategy)
    (finalizerName : string) : ST W unit :=
  if ContainsFinalizer (was_ObjectMeta accessStrategy) finalizerName then st_ret tt
  else
  let updated := set_was_ObjectMeta (AddFinalizer finalizerName (was_ObjectMeta accessStrategy))
                   accessStrategy in
  r <- st_try (crud_Update (rc_AccessStrategy client) updated) ;;
  match r with
  | Ok _ => st_ret tt
  | Fail updateErr =>
      if negb (IsConflict updateErr) then st_fail updateErr
      else
      latest <- crud_Get (rc_AccessStrategy client) (om_Name (was_ObjectMeta accessStrategy))
                  (om_Namespace (was_ObjectMeta accessStrategy)) ;;
      if ContainsFinalizer (was_ObjectMeta latest) finalizerName then st_ret tt
      else st_fail updateErr
  end.

(** EnsureAccessStrategyFinalizerByRef: [mustExist] decides whether a missing
    strategy is an error. *)
Definition EnsureAccessStrategyFinalizerByRef (name namespace finalizerName : string)
    (mustExist : bool) : ST W unit :=
  if bool_decide (name = "") then st_ret tt
  else
  r <- st_try (crud_Get (rc_AccessStrategy client) name namespace) ;;
  match r with
  | Fail err =>
      if IsNotFound err then
        if mustExist then
          st_fail (Errorf "referenced AccessStrategy %s not found in namespace %s" [name; namespace])
        else st_ret tt
      else st_fail (Wrapf "failed to get AccessStrategy %s/%s: %w" [namespace; name] err)
  | Ok accessStrategy =>
      if ContainsFinalizer (was_ObjectMeta accessStrategy) finalizerName then st_ret tt
      else SafelyAddFinalizerToAccessStrategy accessStrategy finalizerName
  end.

Variable defaultTemplateNamespace : string.

(** ResolveTemplate: the reference's namespace or the workspace's, then the
    shared namespace when the template was not found there. *)
Definition ResolveTemplate (templateRef : option TemplateRef) (workspaceNamespace : string)
    : ST W WorkspaceTemplate :=
  match templateRef with
  | None => st_fail (Errorf "templateRef is nil" [])
  | Some ref =>
      let templateNamespace := if bool_decide (tr_Namespace ref = "") then workspaceNamespace
                               else tr_Namespace ref in
      r <- st_try (crud_Get (rc_Template client) (tr_Name ref) templateNamespace) ;;
      match r with
      | Ok t => st_ret t
      | Fail err =>
          if IsNotFound err && negb (bool_decide (defaultTemplateNamespace = "")) &&
             negb (bool_decide (templateNamespace = defaultTemplateNamespace)) then
            st_wrap "failed to get template %s from namespace %s or fallback namespace %s: %w"
              [tr_Name ref; templateNamespace; defaultTemplateNamespace]
              (crud_Get (rc_Template client) (tr_Name ref) defaultTemplateNamespace)
          else st_fail (Wrapf "failed to get template %s: %w" [tr_Name ref] err)
      end
  end.

Definition ResolveTemplateForWorkspace (w : Workspace) : ST W WorkspaceTemplate :=
  match sp_TemplateRef (ws_Spec w) with
  | None => st_fail (Errorf "workspace has no templateRef" [])
  | Some ref => ResolveTemplate (Some ref) (ws_Namespace w)
  end.
End queries.

(** ApplyAccessStrategyLabels sets or clears the lookup labels of a template and
    says whether anything changed. *)
Definition ApplyAccessStrategyLabels (t : WorkspaceTemplate) : WorkspaceTemplate * bool :=
  let '(desiredName, desiredNamespace) :=
    match ts_DefaultAccessStrategy (wt_Spec t) with
    | Some ref =>
        if negb (bool_decide (asr_Name ref = "")) then
          (asr_Name ref, if negb (bool_decide (asr_Namespace ref = "")) then asr_Namespace ref
                         else om_Namespace (wt_ObjectMeta t))
        else ("", "")
    | None => ("", "")
    end in
  let labels := om_Labels (wt_ObjectMeta t) in
  let currentName := default "" (labels !! LabelAccessStrategyName) in
  let currentNamespace := default "" (labels !! LabelAccessStrategyNamespace) in
  if bool_decide (currentName = desiredName) && bool_decide (currentNamespace = desiredNamespace)
  then (t, false)
  else
    let labels' :=
      if bool_decide (desiredName = "")
      then delete LabelAccessStrategyNamespace (delete LabelAccessStrategyName labels)
      else <[LabelAccessStrategyNamespace := desiredNamespace]>
             (<[LabelAccessStrategyName := desiredName]> labels) in
    (set_wt_ObjectMeta (set_om_Labels labels' (wt_ObjectMeta t)) t, true).

(** ** What the labels say *)

(** The strategy a template refers to, as name and namespace; both empty when it
    names none. *)
Definition strategy_ref (t : WorkspaceTemplate) : string * string :=
  match ts_DefaultAccessStrategy (wt_Spec t) with
  | Some ref =>
      if negb (bool_decide (asr_Name ref = "")) then
        (asr_Name ref, if negb (bool_decide (asr_Namespace ref = "")) then asr_Namespace ref
                       else om_Namespace (wt_ObjectMeta t))
      else ("", "")
  | None => ("", "")
  end.
(** [template.Labels[key]]. *)
Definition template_label (t : WorkspaceTemplate) (key : string) : string :=
  default "" (om_Labels (wt_ObjectMeta t) !! key).
Definition labels_reflect (t : WorkspaceTemplate) : Prop :=
  (template_label t LabelAccessStrategyName, template_label t LabelAccessStrategyNamespace)
  = strategy_ref t.
#[global] Instance labels_reflect_dec t : Decision (labels_reflect t).
Proof. unfold labels_reflect. apply _. Defined.

Lemma ApplyAccessStrategyLabels_eq t :
  ApplyAccessStrategyLabels t =
  if bool_decide (labels_reflect t) then (t, false)
  else (set_wt_ObjectMeta (set_om_Labels
          (if bool_decide ((strategy_ref t).1 = "")
           then delete LabelAccessStrategyNamespace
                  (delete LabelAccessStrategyName (om_Labels (wt_ObjectMeta t)))
           else <[LabelAccessStrategyNamespace := (strategy_ref t).2]>
                  (<[LabelAccessStrategyName := (strategy_ref t).1]> (om_Labels (wt_ObjectMeta t))))
          (wt_ObjectMeta t)) t, true).
Proof.
  destruct (decide (labels_reflect t)) as [Hr|Hr].
  - rewrite (bool_decide_true (labels_reflect t)) by done. unfold labels_reflect, template_label in Hr.
    unfold ApplyAccessStrategyLabels. fold (strategy_ref t). rewrite <- Hr. cbv zeta. by rewrite !bool_decide_true by done.
  - rewrite (bool_decide_false (labels_reflect t)) by done. unfold labels_reflect, template_label in Hr.
    unfold ApplyAccessStrategyLabels. fold (strategy_ref t). destruct (strategy_ref t) as [n ns].
    cbv zeta. cbn [fst snd]. destruct (bool_decide_reflect
      (default "" (om_Labels (wt_ObjectMeta t) !! LabelAccessStrategyName) = n)) as [<-|];
      cbn [andb]; [|done].
    rewrite bool_decide_false by congruence. done.
Qed.

Lemma ApplyAccessStrategyLabels_reflects t :
  labels_reflect (ApplyAccessStrategyLabels t).1 /\
  wt_Spec (ApplyAccessStrategyLabels t).1 = wt_Spec t /\
  wt_Status (ApplyAccessStrategyLabels t).1 = wt_Status t /\
  strategy_ref (ApplyAccessStrategyLabels t).1 = strategy_ref t /\
  (forall k, k <> LabelAccessStrategyName -> k <> LabelAccessStrategyNamespace ->
     om_Labels (wt_ObjectMeta (ApplyAccessStrategyLabels t).1) !! k
     = om_Labels (wt_ObjectMeta t) !! k).
Proof.
  rewrite ApplyAccessStrategyLabels_eq. case_bool_decide as Hr; [done|]. cbn [fst].
  split; [|split; [done|split; [done|split; [done|]]]].
  - unfold labels_reflect. unfold template_label. cbn.
    change (strategy_ref (set_wt_ObjectMeta _ t)) with (strategy_ref t).
    case_bool_decide as Hn.
    + rewrite lookup_delete_ne, lookup_delete_eq, lookup_delete_eq by done. cbn.
      unfold strategy_ref in Hn |- *. destruct (ts_DefaultAccessStrategy (wt_Spec t)) as [ref|]; [|done].
      case_bool_decide; [done|]. cbn in Hn. done.
    + rewrite lookup_insert_ne, !lookup_insert_eq by done. cbn. by destruct (strategy_ref t).
  - intros k H1 H2. cbn. case_bool_decide.
    + by rewrite !lookup_delete_ne by done.
    + by rewrite !lookup_insert_ne by done.
Qed.

(** ** The interface of the reads *)

(** What the webhooks rely on: reads change nothing in [R]'s eyes and a read answers
    with an object of the namespace it asked for. *)
Class RefReads {W} (R : relation W) (client : RefClient W) : Prop := {
  list_workspaces_reads : forall sel tok limit, respects R (rc_ListWorkspaces client sel tok limit);
  list_templates_reads : forall sel ns, respects R (rc_ListTemplates client sel ns);
  list_accounts_reads : forall sel ns, respects R (rc_ListServiceAccounts client sel ns);
  get_template_reads : forall name ns, respects R (crud_Get (rc_Template client) name ns);
  get_strategy_reads : forall name ns, respects R (crud_Get (rc_AccessStrategy client) name ns);
  get_template_ns : forall name ns s t s', crud_Get (rc_Template client) name ns s = (Ok t, s') ->
    om_Namespace (wt_ObjectMeta t) = ns;
  get_strategy_ns : forall name ns s a s', crud_Get (rc_AccessStrategy client) name ns s = (Ok a, s') ->
    om_Namespace (was_ObjectMeta a) = ns;
}.
#[export] Hint Resolve list_workspaces_reads list_templates_reads list_accounts_reads
  get_template_reads get_strategy_reads : gok8s.

(** ** A cluster of templates and access strategies *)

Definition empty_crud {W A} : Crud W A :=
  mkCrud W A (fun _ _ => st_fail (ApiError ReasonNotFound)) st_ret st_ret (fun _ => st_ret tt).

Record RefMem := mkRefMem {
  rm_Templates : gmap (string * string) WorkspaceTemplate;
  rm_Strategies : gmap (string * string) WorkspaceAccessStrategy;
  rm_Workspaces : list Workspace;
}.

(** Label selection, and at most [limit] objects when it is positive. *)
Definition select_ws (sel : gmap string string) (limit : Z) (l : list Workspace) : list Workspace :=
  let hits := List.filter (fun w => bool_decide (sel ⊆ om_Labels (ws_ObjectMeta w))) l in
  if 0 <? limit then take (Z.to_nat limit) hits else hits.

Definition mem_refs : RefClient RefMem := {|
  rc_ListWorkspaces := fun sel _ limit m => (Ok (select_ws sel limit (rm_Workspaces m), ""), m);
  rc_ListTemplates := fun sel ns m =>
    (Ok (List.filter (fun t => bool_decide (sel ⊆ om_Labels (wt_ObjectMeta t)) &&
           match ns with Some n => bool_decide (om_Namespace (wt_ObjectMeta t) = n) | None => true end)
       (map_to_list (rm_Templates m)).*2), m);
  rc_ListServiceAccounts := fun _ _ => st_ret [];
  rc_GetServiceAccount := fun name _ => st_ret (mkServiceAccount name ∅);
  rc_Template := keyed_crud rm_Templates
    (fun x m => mkRefMem x (rm_Strategies m) (rm_Workspaces m)) wt_ObjectMeta;
  rc_AccessStrategy := keyed_crud rm_Strategies
    (fun x m => mkRefMem (rm_Templates m) x (rm_Workspaces m)) was_ObjectMeta;
  rc_IntegrationTemplate := empty_crud;
  rc_PVC := empty_crud;
|}.

(** What is outside a set of namespaces is as before. *)
Definition same_outside (inside : string -> Prop) (m m' : RefMem) : Prop :=
  forall ns name, ~ inside ns ->
  rm_Templates m' !! (ns, name) = rm_Templates m !! (ns, name) /\
  rm_Strategies m' !! (ns, name) = rm_Strategies m !! (ns, name).
#[global] Instance same_outside_preorder inside : PreOrder (same_outside inside).
Proof.
  split; [by intros m ns name|]. intros m1 m2 m3 H1 H2 ns name Hn.
  destruct (H1 ns name Hn) as [<- <-]. by apply H2.
Qed.

Lemma keyed_get_ns {W A} get set (meta : A -> ObjectMeta) name ns (s s' : W) a :
  crud_Get (keyed_crud get set meta) name ns s = (Ok a, s') -> om_Namespace (meta a) = ns /\ s' = s.
Proof.
  cbn. destruct (get s !! (ns, name)); [|done]. case_bool_decide as Hk; [|done].
  intros [= -> ->]. by injection Hk.
Qed.

Lemma keyed_get_reads {W A} get set (meta : A -> ObjectMeta) name ns (R : relation W) `{!PreOrder R} :
  respects R (crud_Get (keyed_crud get set meta) name ns).
Proof. intros s. cbn. destruct (get s !! (ns, name)); [case_bool_decide|]; cbn; reflexivity. Qed.

#[global] Instance mem_refs_reads inside : RefReads (same_outside inside) mem_refs.
Proof.
  split; try (intros name ns; exact (keyed_get_reads _ _ _ name ns (same_outside inside))).
  - intros sel tok limit s. cbn. reflexivity.
  - intros sel ns s. cbn. reflexivity.
  - intros sel ns s. cbn. reflexivity.
  - intros name ns s t s' Hg. by apply keyed_get_ns in Hg as [? _].
  - intros name ns s t s' Hg. by apply keyed_get_ns in Hg as [? _].
Qed.

Lemma mem_template_stamp (inside : string -> Prop) t :
  inside (om_Namespace (wt_ObjectMeta t)) ->
  respects (same_outside inside) (crud_Update (rc_Template mem_refs) t).
Proof.
  intros Hin m ns name Hn. cbn. case_match; cbn; [|done].
  rewrite lookup_insert_ne; [done|]. intros [= <- _]. done.
Qed.

Lemma mem_strategy_stamp (inside : string -> Prop) a :
  inside (om_Namespace (was_ObjectMeta a)) ->
  respects (same_outside inside) (crud_Update (rc_AccessStrategy mem_refs) a).
Proof.
  intros Hin m ns name Hn. cbn. case_match; cbn; [|done].
  rewrite lookup_insert_ne; [done|]. intros [= <- _]. done.
Qed.

Lemma AddFinalizer_Namespace f m : om_Namespace (AddFinalizer f m) = om_Namespace m.
Proof. unfold AddFinalizer. by destruct (ContainsFinalizer m f). Qed.

Definition zero_template_spec : WorkspaceTemplateSpec :=
  mkWorkspaceTemplateSpec "" "" "img:1" [] None None None None None [] [] None [] None None None "" []
    [] None None "" None None None None None [] None "".
