(* ===== verification/Status.v ===== *)
(** * Status: conditions and the status manager

    internal/controller conditions.go, conditions_utils.go and
    status_manager.go: the five condition types of a workspace, the merge of
    requested conditions into the existing ones, and the status writes of each
    phase. *)

From S2P Require Import Prelude Api JwtSigner K8s.

(** ** Conditions *)

Definition ConditionTypeAvailable : string := "Available".
Definition ConditionTypeProgressing : string := "Progressing".
Definition ConditionTypeDegraded : string := "Degraded".
Definition ConditionTypeStopped : string := "Stopped".
Definition ConditionTypeDeleting : string := "Deleting".

Definition ConditionTrue : string := "True".
Definition ConditionFalse : string := "False".

Definition ReasonResourcesNotReady : string := "ResourcesNotReady".
Definition ReasonComputeNotReady : string := "ComputeNotReady".
Definition ReasonServiceNotReady : string := "ServiceNotReady".
Definition ReasonAccessNotReady : string := "AccessNotReady".
Definition ReasonResourcesReady : string := "ResourcesReady".
Definition ReasonDesiredStateStopped : string := "DesiredStateStopped".
Definition ReasonResourcesNotStopped : string := "ResourcesNotStopped".
Definition ReasonComputeNotStopped : string := "ComputeNotStopped".
Definition ReasonServiceNotStopped : string := "ServiceNotStopped".
Definition ReasonAccessNotStopped : string := "AccessNotStopped".
Definition ReasonResourcesStopped : string := "AllResourcesStopped".
Definition ReasonDesiredStateRunning : string := "DesiredStateRunning".
Definition ReasonDeploymentError : string := "ComputeError".
Definition ReasonServiceError : string := "ServiceError".
Definition ReasonAccessProbeThresholdExceeded : string := "AccessProbeThresholdExceeded".
Definition ReasonNoError : string := "NoError".
Definition ReasonPreempted : string := "Preempted".
Definition ReasonDeletionInProgress : string := "DeletionInProgress".

Definition PreemptedReason : string := "Workspace preempted due to resource contention".
Definition PreemptionReasonAnnotation : string := "workspace.jupyter.org/preemption-reason".

(** FindCondition returns the first condition matching the type. *)
Fixpoint FindCondition (conditions : list Condition) (conditionType : string) : option Condition :=
  match conditions with
  | [] => None
  | c :: rest =>
      if bool_decide (cond_Type c = conditionType) then Some c
      else FindCondition rest conditionType
  end.

(** Whether a requested condition differs from the existing one. *)
Definition condition_changed (existing : list Condition) (c : Condition) : bool :=
  match FindCondition existing (cond_Type c) with
  | None => true
  | Some e =>
      negb (bool_decide (cond_Status e = cond_Status c) &&
            bool_decide (cond_Reason e = cond_Reason c) &&
            bool_decide (cond_Message e = cond_Message c))
  end.

(** MergeConditionsIfChanged merges new conditions into the workspace's existing
    conditions: the merged list, or the empty list when nothing changed. *)
Definition MergeConditionsIfChanged (existing conditions : list Condition) : list Condition :=
  if bool_decide (conditions = []) then []
  else
    let updateTypes := cond_Type <$> conditions in
    let conditionsToUpdate :=
      filter (fun c => cond_Type c ∉ updateTypes) existing ++ conditions in
    if negb (existsb (condition_changed existing) conditions) then [] else conditionsToUpdate.

(** reflect.DeepEqual of a struct and a pointer to one: values of distinct types
    are never deeply equal. *)
Definition reflect_DeepEqual_struct_pointer {A} (_ : A) (_pointer : A) : bool := false.

(** ** StatusManager *)

(** WorkspaceRunningReadiness and WorkspaceStoppingReadiness. *)
Record WorkspaceRunningReadiness := mkRunningReadiness {
  computeReady : bool;
  serviceReady : bool;
  accessResourcesReady : bool;
}.
Record WorkspaceStoppingReadiness := mkStoppingReadiness {
  computeStopped : bool;
  serviceStopped : bool;
  accessResourcesStopped : bool;
}.

(** IsWorkspaceAvailable checks if the workspace is in Available=True state. *)
Fixpoint conditions_available (conditions : list Condition) : bool :=
  match conditions with
  | [] => false
  | c :: rest =>
      if bool_decide (cond_Type c = ConditionTypeAvailable)
      then bool_decide (cond_Status c = ConditionTrue)
      else conditions_available rest
  end.
Definition IsWorkspaceAvailable (w : Workspace) : bool :=
  conditions_available (st_Conditions (ws_Status w)).

Section status.
Context {W : Type} (client : Client W).
Local Open Scope go_scope.

(** NewCondition creates a new condition stamped with the current time. *)
Definition NewCondition (condType status reason message : string) : M W Condition :=
  now <- time_Now ;;
  st_ret (mkCondition condType status 0 now reason message).

(** updateStatus overwrites the conditions when any are given and writes the
    status subresource; the API server's answer replaces the object. *)
Definition updateStatus (conditionsToUpdate : list Condition) (snapshotStatus : WorkspaceStatus)
    : M W unit :=
  (if negb (bool_decide (conditionsToUpdate = []))
   then modify_status (set_st_Conditions conditionsToUpdate) else st_ret tt) ;;
  w <- get_ws ;;
  if reflect_DeepEqual_struct_pointer (ws_Status w) snapshotStatus then st_ret tt
  else
    w' <- st_wrap "failed to update Workspace.Status: %w" []
            (on_cluster (c_WorkspaceStatusUpdate client w)) ;;
    modify_ws (fun _ => w').

(** Merge into the conditions of the object and write. *)
Definition merge_and_update (conditions : list Condition) (snapshotStatus : WorkspaceStatus)
    : M W unit :=
  w <- get_ws ;;
  updateStatus (MergeConditionsIfChanged (st_Conditions (ws_Status w)) conditions) snapshotStatus.

(** UpdateStartingStatus sets Available to false and Progressing to true. *)
Definition UpdateStartingStatus (readiness : WorkspaceRunningReadiness)
    (snapshotStatus : WorkspaceStatus) : M W unit :=
  let '(mkRunningReadiness compute service access) := readiness in
  if compute && service && access then
    st_fail (Errorf
      "invalid call: not all resources should be ready in method UpdateStartingStatus" [])
  else
  let waitingForCompute := negb compute && service && access in
  let waitingForService := compute && negb service && access in
  let waitingForAccess := compute && service && negb access in
  let '(startingReason, startingMessage) :=
    if waitingForCompute then (ReasonComputeNotReady, "Compute is not ready")
    else if waitingForAccess then (ReasonAccessNotReady, "Access is not ready")
    else if waitingForService then (ReasonServiceNotReady, "Service is not ready")
    else (ReasonResourcesNotReady, "Workspace is starting") in
  available <- NewCondition ConditionTypeAvailable ConditionFalse startingReason startingMessage ;;
  progressing <- NewCondition ConditionTypeProgressing ConditionTrue startingReason startingMessage ;;
  degraded <- NewCondition ConditionTypeDegraded ConditionFalse ReasonNoError "No errors detected" ;;
  stopped <- NewCondition ConditionTypeStopped ConditionFalse ReasonDesiredStateRunning
               "Workspace is starting" ;;
  deleting <- NewCondition ConditionTypeDeleting ConditionFalse ReasonDesiredStateRunning
                "Workspace is starting" ;;
  merge_and_update [available; progressing; degraded; stopped; deleting] snapshotStatus.

(** UpdateErrorStatus sets the Degraded condition to true. *)
Definition UpdateErrorStatus (reason message : string) (snapshotStatus : WorkspaceStatus)
    : M W unit :=
  degraded <- NewCondition ConditionTypeDegraded ConditionTrue reason message ;;
  merge_and_update [degraded] snapshotStatus.

(** UpdatePermanentDegradedRunningStatus: the controller has given up. *)
Definition UpdatePermanentDegradedRunningStatus (degradedReason availableReason message : string)
    (snapshotStatus : WorkspaceStatus) : M W unit :=
  available <- NewCondition ConditionTypeAvailable ConditionFalse availableReason message ;;
  progressing <- NewCondition ConditionTypeProgressing ConditionFalse degradedReason message ;;
  degraded <- NewCondition ConditionTypeDegraded ConditionTrue degradedReason message ;;
  stopped <- NewCondition ConditionTypeStopped ConditionFalse ReasonDesiredStateRunning
               "Workspace desired state is Running" ;;
  deleting <- NewCondition ConditionTypeDeleting ConditionFalse ReasonDesiredStateRunning
                "Workspace desired state is Running" ;;
  merge_and_update [available; progressing; degraded; stopped; deleting] snapshotStatus.

(** UpdateRunningStatus sets the Available condition to true and Progressing to false. *)
Definition UpdateRunningStatus (snapshotStatus : WorkspaceStatus) : M W unit :=
  available <- NewCondition ConditionTypeAvailable ConditionTrue ReasonResourcesReady
                 "Workspace is ready" ;;
  progressing <- NewCondition ConditionTypeProgressing ConditionFalse ReasonResourcesReady
                   "Workspace is ready" ;;
  degraded <- NewCondition ConditionTypeDegraded ConditionFalse ReasonNoError "No errors detected" ;;
  stopped <- NewCondition ConditionTypeStopped ConditionFalse ReasonDesiredStateRunning
               "Workspace is running" ;;
  deleting <- NewCondition ConditionTypeDeleting ConditionFalse ReasonDesiredStateRunning
                "Workspace is running" ;;
  merge_and_update [available; progressing; degraded; stopped; deleting] snapshotStatus.

(** UpdateStoppingStatus sets Available to false and Progressing to true. *)
Definition UpdateStoppingStatus (readiness : WorkspaceStoppingReadiness)
    (snapshotStatus : WorkspaceStatus) : M W unit :=
  let '(mkStoppingReadiness compute service access) := readiness in
  if compute && service && access then
    st_fail (Errorf
      "invalid call: not all resources should be stopped in method UpdateStoppingStatus" [])
  else
  let waitingForCompute := negb compute && service && access in
  let waitingForService := compute && negb service && access in
  let waitingForAccess := compute && service && negb access in
  let '(stoppingReason, stoppingMessage) :=
    if waitingForCompute then (ReasonComputeNotStopped, "Compute is still running")
    else if waitingForAccess then (ReasonAccessNotStopped, "Access is still up")
    else if waitingForService then (ReasonServiceNotStopped, "Service is still up")
    else (ReasonResourcesNotStopped, "Resources are still running") in
  available <- NewCondition ConditionTypeAvailable ConditionFalse ReasonDesiredStateStopped
                 "Desired status is Stopped" ;;
  progressing <- NewCondition ConditionTypeProgressing ConditionTrue ReasonDesiredStateStopped
                   stoppingMessage ;;
  degraded <- NewCondition ConditionTypeDegraded ConditionFalse ReasonNoError "No errors detected" ;;
  stopped <- NewCondition ConditionTypeStopped ConditionFalse stoppingReason stoppingMessage ;;
  deleting <- NewCondition ConditionTypeDeleting ConditionFalse ReasonDesiredStateStopped
                "Workspace is stopping" ;;
  merge_and_update [available; progressing; degraded; stopped; deleting] snapshotStatus.

(** Whether the workspace was stopped due to preemption. *)
Definition preempted (w : Workspace) : bool :=
  bool_decide (default "" (om_Annotations (ws_ObjectMeta w) !! PreemptionReasonAnnotation)
               = PreemptedReason).

(** Merge, clear the resource names, and write. *)
Definition merge_clear_and_update (conditions : list Condition) (snapshotStatus : WorkspaceStatus)
    : M W unit :=
  w <- get_ws ;;
  let conditionsToUpdate := MergeConditionsIfChanged (st_Conditions (ws_Status w)) conditions in
  modify_status (fun s => set_st_ServiceName "" (set_st_DeploymentName "" s)) ;;
  updateStatus conditionsToUpdate snapshotStatus.

(** UpdateStoppedStatus sets Available and Progressing to false, Stopped to true. *)
Definition UpdateStoppedStatus (snapshotStatus : WorkspaceStatus) : M W unit :=
  w <- get_ws ;;
  available <- (if preempted w
                then NewCondition ConditionTypeAvailable ConditionFalse ReasonPreempted
                       PreemptedReason
                else NewCondition ConditionTypeAvailable ConditionFalse ReasonDesiredStateStopped
                       "Workspace is stopped") ;;
  progressing <- NewCondition ConditionTypeProgressing ConditionFalse ReasonDesiredStateStopped
                   "Workspace is stopped" ;;
  degraded <- NewCondition ConditionTypeDegraded ConditionFalse ReasonNoError "No errors detected" ;;
  stopped <- NewCondition ConditionTypeStopped ConditionTrue ReasonResourcesStopped
               "Workspace is stopped" ;;
  deleting <- NewCondition ConditionTypeDeleting ConditionFalse ReasonDesiredStateStopped
                "Workspace is stopped" ;;
  merge_clear_and_update [available; progressing; degraded; stopped; deleting] snapshotStatus.

(** UpdateDeletingStatus sets Deleting=True to signal deletion in progress. *)
Definition UpdateDeletingStatus (snapshotStatus : WorkspaceStatus) : M W unit :=
  available <- NewCondition ConditionTypeAvailable ConditionFalse ReasonDeletionInProgress
                 "Workspace is being deleted" ;;
  progressing <- NewCondition ConditionTypeProgressing ConditionFalse ReasonDeletionInProgress
                   "Workspace is being deleted" ;;
  degraded <- NewCondition ConditionTypeDegraded ConditionFalse ReasonNoError "No errors detected" ;;
  stopped <- NewCondition ConditionTypeStopped ConditionFalse ReasonDeletionInProgress
               "Workspace is being deleted" ;;
  deleting <- NewCondition ConditionTypeDeleting ConditionTrue ReasonDeletionInProgress
                "Workspace resources are being deleted" ;;
  merge_clear_and_update [available; progressing; degraded; stopped; deleting] snapshotStatus.
End status.

(** ** What the merge does *)

(** The part of a condition the merge compares. *)
Definition cond_view (c : Condition) : string * string * string :=
  (cond_Status c, cond_Reason c, cond_Message c).

(** The conditions in force after a merge: the merged list, or the existing one
    when the merge reports no change. *)
Definition merged (existing conditions : list Condition) : list Condition :=
  let r := MergeConditionsIfChanged existing conditions in
  if bool_decide (r = []) then existing else r.

Lemma FindCondition_app l1 l2 t :
  FindCondition (l1 ++ l2) t =
  match FindCondition l1 t with Some c => Some c | None => FindCondition l2 t end.
Proof. induction l1 as [|c l1 IH]; cbn; [done|]. by case_bool_decide. Qed.

Lemma FindCondition_filter (types : list string) (l : list Condition) (t : string) :
  FindCondition (filter (fun c => cond_Type c ∉ types) l) t =
  if decide (t ∈ types) then None else FindCondition l t.
Proof.
  induction l as [|c l IH]; [by case_decide|]. rewrite filter_cons. cbn [FindCondition].
  destruct (decide (cond_Type c ∉ types)) as [Hc|Hc]; cbn [FindCondition]; rewrite IH.
  - case_bool_decide as E; [subst|done]. by destruct (decide (_ ∈ types)).
  - case_bool_decide as E; [subst|done]. apply dec_stable in Hc.
    by destruct (decide (_ ∈ types)).
Qed.

Lemma FindCondition_None l t : FindCondition l t = None <-> t ∉ cond_Type <$> l.
Proof.
  induction l as [|c l IH]; cbn; [set_solver|].
  case_bool_decide as E; [subst; set_solver|]. rewrite IH. set_solver.
Qed.

Lemma FindCondition_Some_type l t c : FindCondition l t = Some c -> c ∈ l /\ cond_Type c = t.
Proof.
  induction l as [|d l IH]; cbn; [done|]. case_bool_decide as E.
  - intros [= <-]. split; [left|done].
  - intros [??]%IH. split; [by right|done].
Qed.

Lemma condition_unchanged existing c :
  condition_changed existing c = false ->
  exists e, FindCondition existing (cond_Type c) = Some e /\ cond_view e = cond_view c.
Proof.
  unfold condition_changed, cond_view. destruct (FindCondition _ _) as [e|]; [|done].
  intros Hn%negb_false_iff. rewrite !andb_true_iff, !bool_decide_eq_true in Hn.
  destruct Hn as [[E1 E2] E3]. exists e. by rewrite E1, E2, E3.
Qed.

(** The merge: each requested type has the requested status, reason and message,
    every other type keeps its condition. *)
Lemma merged_find existing conditions t :
  cond_view <$> FindCondition (merged existing conditions) t =
  cond_view <$> match FindCondition conditions t with
                | Some c => Some c
                | None => FindCondition existing t
                end.
Proof.
  unfold merged, MergeConditionsIfChanged. destruct (decide (conditions = [])) as [->|Hc]; [done|].
  rewrite (bool_decide_false (conditions = [])) by done.
  destruct (existsb (condition_changed existing) conditions) eqn:He; cbn [negb].
  - rewrite bool_decide_false by (by intros [_ E]%app_nil).
    rewrite FindCondition_app, FindCondition_filter.
    destruct (FindCondition conditions t) as [c|] eqn:Ef.
    + rewrite decide_True; [done|]. destruct (FindCondition_Some_type _ _ _ Ef) as [Hin <-].
      by apply list_elem_of_fmap_2.
    + apply FindCondition_None in Ef. rewrite decide_False by done.
      by destruct (FindCondition existing t).
  - rewrite bool_decide_true by done.
    destruct (FindCondition conditions t) as [c|] eqn:Ef; [|done].
    destruct (FindCondition_Some_type _ _ _ Ef) as [Hin <-].
    assert (Hu : condition_changed existing c = false).
    { destruct (condition_changed existing c) eqn:E; [|done].
      assert (existsb (condition_changed existing) conditions = true) as E'; [|congruence].
      apply existsb_exists. exists c. split; [by apply list_elem_of_In|done]. }
    destruct (condition_unchanged _ _ Hu) as (e & -> & Hv). cbn. by rewrite Hv.
Qed.

(** ** Running the status manager *)

(** A status without its times, which the API server cuts to seconds. *)
Definition cond_untimed (c : Condition) : Condition :=
  mkCondition (cond_Type c) (cond_Status c) (cond_ObservedGeneration c) 0 (cond_Reason c) (cond_Message c).
Definition untimed (st : WorkspaceStatus) : WorkspaceStatus :=
  set_st_Conditions (cond_untimed <$> st_Conditions st)
    (set_st_IntegrationStatuses
       ((fun i => mkIntegrationStatus (ist_Name i) (ist_State i) (cond_untimed <$> ist_Conditions i)) <$>
          st_IntegrationStatuses st)
       (set_st_EarliestNextProbeTime ((fun _ => 0) <$> st_EarliestNextProbeTime st) st)).

(** The API server stores the status it is given, its times aside (the documented
    behaviour of the status subresource). *)
Class StatusClient {W} (client : Client W) : Prop := {
  status_update_echo : forall w c w' c',
    c_WorkspaceStatusUpdate client w c = (Ok w', c') -> untimed (ws_Status w') = untimed (ws_Status w);
  status_update_meta : forall w c w' c',
    c_WorkspaceStatusUpdate client w c = (Ok w', c') ->
    meta_view (ws_ObjectMeta w') = meta_view (ws_ObjectMeta w);
}.

#[export] Instance mem_status_client slow : StatusClient (mem_k8s slow).
Proof. split; by intros w c w' c' [= <- <-]. Qed.

(** The conditions of the object under reconciliation. *)
Definition env_conditions {W} (s : Env W) : list Condition := st_Conditions (ws_Status (env_ws s)).

Section running.
Context {W : Type} (client : Client W) {SC : StatusClient client}.

(** [requests m conds]: when [m] succeeds, the conditions in force are those of
    some request [conds] merged into those before, times aside, with the given types
    and statuses. *)
Definition requests (m : M W unit) (statuses : list (string * string)) : Prop :=
  forall s s', m s = (Ok tt, s') ->
  exists conds, (fun c => (cond_Type c, cond_Status c)) <$> conds = statuses /\
    cond_untimed <$> env_conditions s' = cond_untimed <$> merged (env_conditions s) conds.

Lemma NewCondition_run ty st re ms (k : Condition -> M W unit) s :
  (st_bind (NewCondition ty st re ms) k) s =
  k (mkCondition ty st 0 (env_clock s 0%nat) re ms)
    (mkEnv (env_cluster s) (env_ws s) (clock_next (env_clock s)) (env_events s)).
Proof. reflexivity. Qed.

Lemma updateStatus_conditions conds snap s s' :
  updateStatus client conds snap s = (Ok tt, s') ->
  cond_untimed <$> env_conditions s' =
  cond_untimed <$> (if bool_decide (conds = []) then env_conditions s else conds).
Proof.
  unfold updateStatus, reflect_DeepEqual_struct_pointer, st_bind, st_wrap, on_cluster, get_ws,
    modify_status, modify_ws, st_ret, env_conditions.
  case_bool_decide as Hc; cbn;
    (destruct (c_WorkspaceStatusUpdate _ _ _) as [[w'|] c'] eqn:E; cbn; [|done]);
    apply status_update_echo, (f_equal st_Conditions) in E; intros [= <-]; exact E.
Qed.

Lemma merge_and_update_requests conds snap :
  requests (merge_and_update client conds snap)
    ((fun c => (cond_Type c, cond_Status c)) <$> conds).
Proof.
  intros s s' Hm. exists conds. split; [done|]. unfold merge_and_update in Hm.
  by apply updateStatus_conditions in Hm.
Qed.

Lemma merge_clear_and_update_requests conds snap :
  requests (merge_clear_and_update client conds snap)
    ((fun c => (cond_Type c, cond_Status c)) <$> conds).
Proof.
  intros s s' Hm. exists conds. split; [done|]. unfold merge_clear_and_update in Hm.
  by apply updateStatus_conditions in Hm.
Qed.
End running.

(** ** What status updates leave alone *)

Section status_frames.
Context {W : Type} (client : Client W) {SC : StatusClient client}.

Lemma updateStatus_same_on {B} (f : WorkspaceStatus -> B) conds snap :
  (forall conds st, f (set_st_Conditions conds st) = f st) -> (forall st, f (untimed st) = f st) ->
  respects (same_on f) (updateStatus client conds snap).
Proof.
  intros Hf Hu. unfold updateStatus. apply respects_bind; [typeclasses eauto| |intros _].
  { destruct (negb _); [by apply same_on_modify_status|solve_respects]. }
  intros s. rewrite get_ws_run. unfold reflect_DeepEqual_struct_pointer.
  unfold st_bind, st_wrap, on_cluster, modify_ws, same_on.
  destruct (c_WorkspaceStatusUpdate client (env_ws s) (env_cluster s)) as [[w'|e] c'] eqn:E; cbn;
    [|done]. apply status_update_echo in E. by rewrite <- (Hu (ws_Status w')), E, Hu.
Qed.

Lemma updateStatus_same_meta conds snap : respects same_meta (updateStatus client conds snap).
Proof.
  unfold updateStatus. apply respects_bind; [typeclasses eauto| |intros _]; [solve_respects|].
  intros s. rewrite get_ws_run. unfold reflect_DeepEqual_struct_pointer.
  unfold st_bind, st_wrap, on_cluster, modify_ws, same_meta.
  destruct (c_WorkspaceStatusUpdate client (env_ws s) (env_cluster s)) as [[w'|e] c'] eqn:E; cbn;
    [|done]. by apply status_update_meta in E.
Qed.

Lemma updateStatus_keeps (P : W -> Prop) conds snap :
  (forall w c, P c -> P (c_WorkspaceStatusUpdate client w c).2) ->
  respects (keeps P) (updateStatus client conds snap).
Proof.
  intros HP. unfold updateStatus, reflect_DeepEqual_struct_pointer. solve_respects.
  apply keeps_on_cluster. apply HP.
Qed.
End status_frames.

(** The operations of the status manager. *)
Inductive StatusOp :=
| OpStarting (readiness : WorkspaceRunningReadiness)
| OpError (reason message : string)
| OpPermanentDegraded (degradedReason availableReason message : string)
| OpRunning
| OpStopping (readiness : WorkspaceStoppingReadiness)
| OpStopped
| OpDeleting.

Definition run_op {W} (client : Client W) (op : StatusOp) (snap : WorkspaceStatus) : M W unit :=
  match op with
  | OpStarting r => UpdateStartingStatus client r snap
  | OpError reason message => UpdateErrorStatus client reason message snap
  | OpPermanentDegraded d a m => UpdatePermanentDegradedRunningStatus client d a m snap
  | OpRunning => UpdateRunningStatus client snap
  | OpStopping r => UpdateStoppingStatus client r snap
  | OpStopped => UpdateStoppedStatus client snap
  | OpDeleting => UpdateDeletingStatus client snap
  end.

(** The statuses each operation asks for. *)
Definition op_statuses (op : StatusOp) : list (string * string) :=
  let b (x : bool) := if x then ConditionTrue else ConditionFalse in
  let all av pr de st dl :=
    [(ConditionTypeAvailable, b av); (ConditionTypeProgressing, b pr);
     (ConditionTypeDegraded, b de); (ConditionTypeStopped, b st); (ConditionTypeDeleting, b dl)] in
  match op with
  | OpStarting _ | OpStopping _ => all false true false false false
  | OpError _ _ => [(ConditionTypeDegraded, b true)]
  | OpPermanentDegraded _ _ _ => all false false true false false
  | OpRunning => all true false false false false
  | OpStopped => all false false false true false
  | OpDeleting => all false false false false true
  end.

Lemma run_op_requests {W} (client : Client W) {SC : StatusClient client} op snap :
  requests (run_op client op snap) (op_statuses op).
Proof.
  intros s s' Hr. destruct op as [[c se ac]| | | |[c se ac]| |]; cbn [run_op] in Hr.
  - unfold UpdateStartingStatus in Hr. destruct c, se, ac; cbn [andb negb] in Hr; [done|..];
      rewrite !NewCondition_run in Hr;
      by destruct (merge_and_update_requests client _ _ _ _ Hr) as (conds & E1 & E2);
      exists conds.
  - unfold UpdateErrorStatus in Hr. rewrite !NewCondition_run in Hr.
    by destruct (merge_and_update_requests client _ _ _ _ Hr) as (conds & E1 & E2); exists conds.
  - unfold UpdatePermanentDegradedRunningStatus in Hr. rewrite !NewCondition_run in Hr.
    by destruct (merge_and_update_requests client _ _ _ _ Hr) as (conds & E1 & E2); exists conds.
  - unfold UpdateRunningStatus in Hr. rewrite !NewCondition_run in Hr.
    by destruct (merge_and_update_requests client _ _ _ _ Hr) as (conds & E1 & E2); exists conds.
  - unfold UpdateStoppingStatus in Hr. destruct c, se, ac; cbn [andb negb] in Hr; [done|..];
      rewrite !NewCondition_run in Hr;
      by destruct (merge_and_update_requests client _ _ _ _ Hr) as (conds & E1 & E2);
      exists conds.
  - unfold UpdateStoppedStatus in Hr. rewrite get_ws_run in Hr.
    destruct (preempted (env_ws s)); rewrite !NewCondition_run in Hr;
      by destruct (merge_clear_and_update_requests client _ _ _ _ Hr) as (conds & E1 & E2);
      exists conds.
  - unfold UpdateDeletingStatus in Hr. rewrite !NewCondition_run in Hr.
    by destruct (merge_clear_and_update_requests client _ _ _ _ Hr) as (conds & E1 & E2);
    exists conds.
Qed.

(** Every operation leaves alone the parts of the status other than conditions
    and resource names, the object's identity and finalizers, and whatever of the
    cluster a status write leaves alone. *)
Ltac run_op_frame op :=
  destruct op as [[[] [] []]| | | |[[] [] []]| |]; cbn [run_op];
  unfold UpdateStartingStatus, UpdateErrorStatus, UpdatePermanentDegradedRunningStatus,
    UpdateRunningStatus, UpdateStoppingStatus, UpdateStoppedStatus, UpdateDeletingStatus,
    merge_and_update, merge_clear_and_update, NewCondition; cbn [andb negb]; solve_respects.

Lemma run_op_same_on {W} (client : Client W) {SC : StatusClient client} {B}
    (f : WorkspaceStatus -> B) op snap :
  (forall conds st, f (set_st_Conditions conds st) = f st) -> (forall st, f (untimed st) = f st) ->
  (forall st, f (set_st_ServiceName "" (set_st_DeploymentName "" st)) = f st) ->
  respects (same_on f) (run_op client op snap).
Proof.
  intros H1 Hu H2. pose proof (fun conds => updateStatus_same_on client f conds snap H1 Hu).
  pose proof (same_on_modify_status (W := W) f _ H2). run_op_frame op.
Qed.

Lemma run_op_same_meta {W} (client : Client W) {SC : StatusClient client} op snap :
  respects same_meta (run_op client op snap).
Proof. pose proof (fun conds => updateStatus_same_meta client conds snap). run_op_frame op. Qed.

Lemma run_op_keeps {W} (client : Client W) (P : W -> Prop) op snap :
  (forall w c, P c -> P (c_WorkspaceStatusUpdate client w c).2) ->
  respects (keeps P) (run_op client op snap).
Proof. intros HP. pose proof (fun conds => updateStatus_keeps client P conds snap HP). run_op_frame op. Qed.

(** ** Phases *)

(** The status in force for a condition type. *)
Definition cond_is (conds : list Condition) (t status : string) : bool :=
  match FindCondition conds t with
  | Some c => bool_decide (cond_Status c = status)
  | None => false
  end.

(** At most one of Available, Progressing, Stopped and Deleting is true. *)
Definition phase_ok (conds : list Condition) : bool :=
  let holds t := cond_is conds t ConditionTrue in
  (length (List.filter holds [ConditionTypeAvailable; ConditionTypeProgressing;
     ConditionTypeStopped; ConditionTypeDeleting]) <=? 1)%nat.

(** The status requested for a type. *)
Definition asked (statuses : list (string * string)) (t : string) : option string :=
  snd <$> List.find (fun p => bool_decide (p.1 = t)) statuses.

Lemma FindCondition_asked conds t :
  cond_Status <$> FindCondition conds t =
  asked ((fun c => (cond_Type c, cond_Status c)) <$> conds) t.
Proof.
  unfold asked. induction conds as [|c conds IH]; cbn; [done|]. by case_bool_decide.
Qed.

Lemma cond_is_status conds t s :
  cond_is conds t s = match cond_Status <$> FindCondition conds t with
                      | Some s' => bool_decide (s' = s) | None => false end.
Proof. unfold cond_is. by destruct (FindCondition conds t). Qed.

Lemma merged_cond_is existing conds t s :
  cond_is (merged existing conds) t s =
  match asked ((fun c => (cond_Type c, cond_Status c)) <$> conds) t with
  | Some s' => bool_decide (s' = s)
  | None => cond_is existing t s
  end.
Proof.
  rewrite <- FindCondition_asked. unfold cond_is.
  pose proof (merged_find existing conds t) as Hm. unfold cond_view in Hm.
  destruct (FindCondition (merged existing conds) t), (FindCondition conds t),
    (FindCondition existing t); cbn in *; try done; injection Hm as E _ _; by rewrite E.
Qed.

(** Merging conditions: each requested type ends with the requested status,
    reason and message, every other type keeps its condition; and the merge
    reports a change exactly when some requested condition is new or differs. *)
Theorem MergeConditionsIfChanged_correct (existing conditions : list Condition) :
  (forall t, cond_view <$> FindCondition (merged existing conditions) t =
     cond_view <$> match FindCondition conditions t with
                   | Some c => Some c
                   | None => FindCondition existing t
                   end) /\
  (MergeConditionsIfChanged existing conditions <> [] <->
     exists c, c ∈ conditions /\
       cond_view <$> FindCondition existing (cond_Type c) <> Some (cond_view c)).
Proof.
  split; [intros t; apply merged_find|].
  assert (Hch : forall c, condition_changed existing c = true <->
    cond_view <$> FindCondition existing (cond_Type c) <> Some (cond_view c)).
  { intros c. unfold condition_changed, cond_view.
    destruct (FindCondition existing (cond_Type c)) as [e|]; [|done]. cbn.
    rewrite negb_true_iff, <- not_true_iff_false, !andb_true_iff, !bool_decide_eq_true.
    split; [intros Hn [= ? ? ?]; tauto|]. intros Hn [[E1 E2] E3]. apply Hn. congruence. }
  unfold MergeConditionsIfChanged. destruct (decide (conditions = [])) as [->|Hc].
  { rewrite bool_decide_true by done. split; [done|]. by intros (c & ?%elem_of_nil & _). }
  rewrite bool_decide_false by done.
  destruct (existsb (condition_changed existing) conditions) eqn:He; cbn [negb].
  - split; [intros _|intros _ [_ E]%app_nil; done].
    apply existsb_exists in He as (c & Hin & Hcc). exists c.
    split; [by apply list_elem_of_In|by apply Hch].
  - split; [done|]. intros (c & Hin & Hcc%Hch).
    assert (existsb (condition_changed existing) conditions = true) as E'; [|congruence].
    apply existsb_exists. exists c. split; [by apply list_elem_of_In|done].
Qed.

Lemma cond_is_untimed l t x : cond_is (cond_untimed <$> l) t x = cond_is l t x.
Proof.
  assert (E : FindCondition (cond_untimed <$> l) t = cond_untimed <$> FindCondition l t).
  { induction l as [|c l IH]; [done|]. cbn. by case_match. }
  unfold cond_is. rewrite E. by destruct (FindCondition l t).
Qed.

Lemma run_op_cond_is {W} (client : Client W) {SC : StatusClient client} op snap (s s' : Env W) :
  run_op client op snap s = (Ok tt, s') ->
  forall t x, cond_is (env_conditions s') t x =
    match asked (op_statuses op) t with
    | Some s'' => bool_decide (s'' = x) | None => cond_is (env_conditions s) t x end.
Proof.
  intros Hr t x. destruct (run_op_requests client op snap s s' Hr) as (conds & Hst & Heq).
  by rewrite <- cond_is_untimed, Heq, cond_is_untimed, merged_cond_is, Hst.
Qed.

Lemma run_op_statuses {W} (client : Client W) {SC : StatusClient client} op snap (s s' : Env W) :
  run_op client op snap s = (Ok tt, s') ->
  forall t status, (t, status) ∈ op_statuses op -> cond_is (env_conditions s') t status = true.
Proof.
  intros Hr t status Hin. rewrite (run_op_cond_is client op snap s s' Hr).
  destruct op; cbn in Hin |- *;
    repeat (apply elem_of_cons in Hin as [[= -> ->]|Hin]; [vm_compute; reflexivity|]);
    by apply elem_of_nil in Hin.
Qed.

(** Phases are exclusive: every successful status update leaves at most one
    of Available, Progressing, Stopped and Deleting true when that held before;
    and each update other than the error one puts all five condition types in
    the statuses of its phase, whatever they were. *)
Theorem status_phases_exclusive {W} (client : Client W) {SC : StatusClient client}
    (op : StatusOp) (snap : WorkspaceStatus) (s s' : Env W) :
  run_op client op snap s = (Ok tt, s') ->
  (phase_ok (env_conditions s) = true -> phase_ok (env_conditions s') = true) /\
  (forall t status, (t, status) ∈ op_statuses op -> cond_is (env_conditions s') t status = true).
Proof.
  intros Hr. split; [|by eapply run_op_statuses].
  unfold phase_ok. intros Hok. cbn [List.filter] in *.
  rewrite !(run_op_cond_is client op snap s s' Hr). destruct op; cbn in *; done.
Qed.

(** A workspace without conditions. *)
Definition zero_meta (name namespace : string) : ObjectMeta :=
  mkObjectMeta name namespace "" "" 1 0 None ∅ ∅ [] [].
Definition zero_status : WorkspaceStatus :=
  mkWorkspaceStatus "" "" "" "" "" [] "" false None None [] [] [].
Definition zero_spec : WorkspaceSpec :=
  mkWorkspaceSpec "demo" "" "" "" "" None None [] None [] None None None None None None None None "" ""
    None None [] [].
Definition demo_ws : Workspace := mkWorkspace (zero_meta "w" "ns") zero_spec zero_status.
Definition empty_mem : Mem := mkMem ∅ ∅ ∅ ∅ ∅ ∅ ∅ 0.
Definition demo_env (w : Workspace) (m : Mem) : Env Mem := mkEnv m w (fun n => Z.of_nat n) [].

Lemma status_phases_exclusive_witness :
  phase_ok (env_conditions (run_op (mem_k8s false) OpRunning zero_status
    (demo_env demo_ws empty_mem)).2) = true.
Proof.
  refine (proj1 (@status_phases_exclusive Mem (mem_k8s false) _ OpRunning zero_status
    (demo_env demo_ws empty_mem) _ _) _); [|reflexivity].
  vm_compute. reflexivity.
Defined.

(** The status is written even when nothing changed: a second identical update
    of a running workspace makes a second write. *)
Lemma unchanged_status_written_again :
  let s1 := (UpdateRunningStatus (mem_k8s false) zero_status (demo_env demo_ws empty_mem)).2 in
  let snapshot := ws_Status (env_ws s1) in
  let s2 := (UpdateRunningStatus (mem_k8s false) snapshot s1).2 in
  ws_Status (env_ws s2) = snapshot /\ m_StatusWrites (env_cluster s1) = 1%nat /\
  m_StatusWrites (env_cluster s2) = 2%nat.
Proof. vm_compute. split_and!; reflexivity. Qed.

(** When one condition of a request changes, the unchanged ones are given the
    new timestamp too, although they made no transition. *)
Lemma unchanged_condition_restamped :
  let old := mkCondition ConditionTypeStopped ConditionFalse 0 1 "R" "M" in
  let same := mkCondition ConditionTypeStopped ConditionFalse 0 9 "R" "M" in
  let new := mkCondition ConditionTypeAvailable ConditionTrue 0 9 "R" "M" in
  cond_LastTransitionTime <$> FindCondition (merged [old] [new; same]) ConditionTypeStopped = Some 9.
Proof. vm_compute. reflexivity. Qed.
