(* ===== verification/AccessProbe.v ===== *)
(** * AccessProbe: the access startup probe

    internal/controller state_machine_access.go (the probe cycle and its backoff)
    and access_startup_prober.go (the outcome of one HTTP probe and the defaults).
    Counters and seconds are [int32] with wrap-around. *)

From S2P Require Import Prelude Api JwtSigner K8s Status.

Definition DefaultAccessStartupProbePeriodSeconds : Z := 2.
Definition DefaultAccessStartupProbeTimeoutSeconds : Z := 5.
Definition DefaultAccessStartupProbeFailureThreshold : Z := 20.
Definition ProbeBackoffThreshold : Z := 10.
Definition ProbeBackoffMaxRetrySeconds : Z := 302.

(** ** One HTTP probe *)

Definition isProbeStatusSuccess (statusCode : Z) (additionalCodes : list Z) : bool :=
  ((200 <=? statusCode) && (statusCode <? 400)) || existsb (Z.eqb statusCode) additionalCodes.

Definition resolveTimeoutSeconds (probe : AccessStartupProbe) : Z :=
  if 0 <? asp_TimeoutSeconds probe then asp_TimeoutSeconds probe
  else DefaultAccessStartupProbeTimeoutSeconds.

Definition resolvePeriodSeconds (probe : AccessStartupProbe) : Z :=
  if 0 <? asp_PeriodSeconds probe then asp_PeriodSeconds probe
  else DefaultAccessStartupProbePeriodSeconds.

Definition resolveFailureThreshold (probe : AccessStartupProbe) : Z :=
  if 0 <? asp_FailureThreshold probe then asp_FailureThreshold probe
  else DefaultAccessStartupProbeFailureThreshold.

(** What the HTTP client answers: a status code, or a connection error. *)
Inductive HttpOutcome := HttpStatus (code : Z) | HttpConnectionError.

(** Probe performs a single HTTP GET and returns whether the access route is
    ready.  [resolve_url] is the template resolution, [new_request] whether
    http.NewRequest accepts the URL, [do] the answer to a GET with a timeout. *)
Definition AccessStartupProber_Probe {W}
    (resolve_url : string -> Workspace -> WorkspaceAccessStrategy -> Service -> result string)
    (new_request : string -> result unit) (do : Duration -> string -> ST W HttpOutcome)
    (workspace : Workspace) (accessStrategy : WorkspaceAccessStrategy) (service : Service)
    : ST W bool :=
  let required := st_fail (Errorf "accessStartupProbe.httpGet is required" []) in
  match asps_AccessStartupProbe (was_Spec accessStrategy) with
  | None => required
  | Some probe =>
      match asp_HTTPGet probe with
      | None => required
      | Some httpGet =>
          (url <- st_lift (wrap_err "failed to resolve probe URL: %w" []
                    (resolve_url (ahp_URLTemplate httpGet) workspace accessStrategy service)) ;;
           let timeout := resolveTimeoutSeconds probe * Second in
           (st_lift (wrap_err "failed to create probe request: %w" [] (new_request url)) ;;
            outcome <- do timeout url ;;
            st_ret (match outcome with
                    | HttpConnectionError => false
                    | HttpStatus code =>
                        isProbeStatusSuccess code (ahp_AdditionalSuccessStatusCodes httpGet)
                    end)))%go
      end
  end.

(** ** The probe cycle *)

Inductive ProbeStatus :=
| ProbeNotDefined
| ProbeSucceeded
| ProbeRetrying
| ProbePendingRetry
| ProbeFailureThresholdExceeded
| ProbeAlreadySucceeded.
#[global] Instance ProbeStatus_eq_dec : EqDecision ProbeStatus.
Proof. solve_decision. Defined.

(** ProbeResult carries the outcome and requeue delay. *)
Record ProbeResult := mkProbeResult { pr_Status : ProbeStatus; pr_RequeueAfter : Duration }.

Definition clearProbeState (s : WorkspaceStatus) : WorkspaceStatus :=
  set_st_EarliestNextProbeTime None (set_st_AccessStartupProbeFailures None s).

Definition versionedAccessStrategyID (a : WorkspaceAccessStrategy) : string :=
  om_UID (was_ObjectMeta a) +:+ "." +:+ Sprint_int (om_Generation (was_ObjectMeta a)).

(** The doubling loop of probeRetrySeconds: [n] iterations remain. *)
Fixpoint backoff_loop (n : nat) (backoff : Z) : Z :=
  match n with
  | O => backoff
  | S n =>
      let backoff := wrap32 (backoff * 2) in
      if ProbeBackoffMaxRetrySeconds <=? backoff then ProbeBackoffMaxRetrySeconds
      else backoff_loop n backoff
  end.

Definition probeRetrySeconds (periodSeconds failures failureThreshold : Z) : Z :=
  let backoffStart := Z.max (wrap32 (failureThreshold - ProbeBackoffThreshold)) 0 in
  if failures <=? backoffStart then periodSeconds
  else backoff_loop (Z.to_nat (wrap32 (failures - backoffStart))) periodSeconds.

Section probe.
Context {W : Type}.
Local Open Scope go_scope.

Definition timeUntilProbeDeadline : M W Duration :=
  w <- get_ws ;;
  match st_EarliestNextProbeTime (ws_Status w) with
  | None => st_ret 0
  | Some deadline =>
      now <- time_Now ;;
      let remaining := time_Sub deadline now in
      st_ret (if 0 <? remaining then remaining else 0)
  end.

(** The prober the state machine was given. *)
Variable prober : Workspace -> WorkspaceAccessStrategy -> Service -> ST W bool.

(** The end of ProbeAccessStartup: probe, and account for the answer. *)
Definition probe_once (a : WorkspaceAccessStrategy) (probe : AccessStartupProbe)
    (service : Service) : M W ProbeResult :=
  let failureThreshold := resolveFailureThreshold probe in
  w <- get_ws ;;
  ready <- st_wrap "access startup probe error: %w" [] (on_cluster (prober w a service)) ;;
  if (ready : bool) then
    modify_status (fun s => clearProbeState (set_st_AccessStartupProbeSucceeded true s)) ;;
    st_ret (mkProbeResult ProbeSucceeded 0)
  else
  w <- get_ws ;;
  let failures := wrap32 (default 0 (st_AccessStartupProbeFailures (ws_Status w)) + 1) in
  modify_status (set_st_AccessStartupProbeFailures (Some failures)) ;;
  if failureThreshold <=? failures then
    modify_status (set_st_EarliestNextProbeTime None) ;;
    st_ret (mkProbeResult ProbeFailureThresholdExceeded 0)
  else
    let retrySeconds :=
      probeRetrySeconds (resolvePeriodSeconds probe) failures failureThreshold in
    let delay := retrySeconds * Second in
    now <- time_Now ;;
    modify_status (set_st_EarliestNextProbeTime (Some (time_Add now delay))) ;;
    st_ret (mkProbeResult ProbeRetrying delay).

(** The middle of ProbeAccessStartup: probes are spaced by the deadline. *)
Definition probe_attempt (a : WorkspaceAccessStrategy) (probe : AccessStartupProbe)
    (service : Service) : M W ProbeResult :=
  remaining <- timeUntilProbeDeadline ;;
  if 0 <? remaining then st_ret (mkProbeResult ProbePendingRetry remaining)
  else probe_once a probe service.

(** ProbeAccessStartup performs the access startup probe cycle; it mutates the
    probe fields of the status in memory.  The counter starts at the first
    attempt, where an initial delay may apply. *)
Definition ProbeAccessStartup (accessStrategy : option WorkspaceAccessStrategy)
    (service : Service) : M W ProbeResult :=
  match accessStrategy with
  | None => st_ret (mkProbeResult ProbeNotDefined 0)
  | Some a =>
    match asps_AccessStartupProbe (was_Spec a) with
    | None => st_ret (mkProbeResult ProbeNotDefined 0)
    | Some probe =>
      let currentVersionedId := versionedAccessStrategyID a in
      w <- get_ws ;;
      (if negb (bool_decide (st_ObservedAccessStrategyVersion (ws_Status w) = currentVersionedId))
       then modify_status (fun s =>
              set_st_ObservedAccessStrategyVersion currentVersionedId
                (set_st_AccessStartupProbeSucceeded false (clearProbeState s)))
       else st_ret tt) ;;
      w <- get_ws ;;
      if st_AccessStartupProbeSucceeded (ws_Status w)
      then st_ret (mkProbeResult ProbeAlreadySucceeded 0)
      else
      match st_AccessStartupProbeFailures (ws_Status w) with
      | Some n =>
          if resolveFailureThreshold probe <=? n
          then st_ret (mkProbeResult ProbeFailureThresholdExceeded 0)
          else probe_attempt a probe service
      | None =>
          modify_status (set_st_AccessStartupProbeFailures (Some 0)) ;;
          if 0 <? asp_InitialDelaySeconds probe then
            let delay := asp_InitialDelaySeconds probe * Second in
            now <- time_Now ;;
            modify_status (set_st_EarliestNextProbeTime (Some (time_Add now delay))) ;;
            st_ret (mkProbeResult ProbeRetrying delay)
          else probe_attempt a probe service
      end
    end
  end.
End probe.

(** ** The cycle by cases *)

(** The status after the version check of a cycle. *)
Definition observe (a : WorkspaceAccessStrategy) (s : WorkspaceStatus) : WorkspaceStatus :=
  if bool_decide (st_ObservedAccessStrategyVersion s = versionedAccessStrategyID a) then s
  else set_st_ObservedAccessStrategyVersion (versionedAccessStrategyID a)
         (set_st_AccessStartupProbeSucceeded false (clearProbeState s)).

Definition failures_of (s : WorkspaceStatus) : Z := default 0 (st_AccessStartupProbeFailures s).

(** The counter is below the threshold, or not started. *)
Definition may_probe (thr : Z) (s : WorkspaceStatus) : Prop :=
  st_AccessStartupProbeSucceeded s = false /\
  forall n, st_AccessStartupProbeFailures s = Some n -> n < thr.

(** How one cycle ends, in terms of the observed status [st0], the cluster before
    and after, the status after and the result. *)
Inductive cycle {W} (prober : Workspace -> WorkspaceAccessStrategy -> Service -> ST W bool)
    (a : WorkspaceAccessStrategy) (svc : Service) (probe : AccessStartupProbe)
    (st0 : WorkspaceStatus) (clk : Clock) (c : W)
    : result ProbeResult -> WorkspaceStatus -> W -> Prop :=
| cycle_already :
    st_AccessStartupProbeSucceeded st0 = true ->
    cycle prober a svc probe st0 clk c (Ok (mkProbeResult ProbeAlreadySucceeded 0)) st0 c
| cycle_exceeded n :
    st_AccessStartupProbeSucceeded st0 = false -> st_AccessStartupProbeFailures st0 = Some n ->
    resolveFailureThreshold probe <= n ->
    cycle prober a svc probe st0 clk c (Ok (mkProbeResult ProbeFailureThresholdExceeded 0)) st0 c
| cycle_wait status delay st' :
    may_probe (resolveFailureThreshold probe) st0 ->
    (status = ProbeRetrying /\ st_AccessStartupProbeFailures st0 = None) \/
    (status = ProbePendingRetry /\ exists d, st_EarliestNextProbeTime st0 = Some d /\
       clk 0%nat < d /\ delay = time_Sub d (clk 0%nat)) ->
    0 < delay -> failures_of st' = failures_of st0 -> st_AccessStartupProbeFailures st' <> None ->
    st_AccessStartupProbeSucceeded st' = false ->
    st_ObservedAccessStrategyVersion st' = st_ObservedAccessStrategyVersion st0 ->
    cycle prober a svc probe st0 clk c (Ok (mkProbeResult status delay)) st' c
| cycle_probed w answer c' r st' :
    may_probe (resolveFailureThreshold probe) st0 ->
    prober w a svc c = (answer, c') ->
    (forall d, st_EarliestNextProbeTime st0 = Some d -> d <= clk 0%nat) ->
    st_ObservedAccessStrategyVersion st' = st_ObservedAccessStrategyVersion st0 ->
    match answer with
    | Fail e => r = Fail (Wrapf "access startup probe error: %w" [] e) /\
        failures_of st' = failures_of st0 /\ st_AccessStartupProbeSucceeded st' = false
    | Ok true => r = Ok (mkProbeResult ProbeSucceeded 0) /\
        st_AccessStartupProbeSucceeded st' = true /\ st_AccessStartupProbeFailures st' = None
    | Ok false =>
        let failures := wrap32 (failures_of st0 + 1) in
        st_AccessStartupProbeFailures st' = Some failures /\
        st_AccessStartupProbeSucceeded st' = false /\
        (if resolveFailureThreshold probe <=? failures
         then r = Ok (mkProbeResult ProbeFailureThresholdExceeded 0)
         else r = Ok (mkProbeResult ProbeRetrying
                (probeRetrySeconds (resolvePeriodSeconds probe) failures
                   (resolveFailureThreshold probe) * Second)))
    end ->
    cycle prober a svc probe st0 clk c r st' c'.

Ltac run_m := unfold st_bind, st_ret, st_fail, st_wrap, get_ws, modify_status, modify_ws, time_Now,
  on_cluster in *; cbn in *.

Lemma time_Sub_nonpos a b : (0 <? time_Sub a b) = false -> a <= b.
Proof. rewrite Z.ltb_ge. unfold time_Sub, minInt64, maxInt64. lia. Qed.

Lemma time_Sub_ahead a b : (0 <? time_Sub a b) = true -> b < a.
Proof. rewrite Z.ltb_lt. unfold time_Sub, minInt64, maxInt64. lia. Qed.

Lemma timeUntilProbeDeadline_run {W A} (k : Duration -> M W A) c ws clk evs :
  (st_bind timeUntilProbeDeadline k) (mkEnv c ws clk evs) =
  match st_EarliestNextProbeTime (ws_Status ws) with
  | None => k 0 (mkEnv c ws clk evs)
  | Some d =>
      k (if 0 <? time_Sub d (clk 0%nat) then time_Sub d (clk 0%nat) else 0)
        (mkEnv c ws (clock_next clk) evs)
  end.
Proof.
  unfold timeUntilProbeDeadline. unfold st_bind at 1. rewrite get_ws_run. cbn.
  by destruct (st_EarliestNextProbeTime (ws_Status ws)).
Qed.

(** One probe, from a status whose counter has started. *)
Lemma probe_once_cycle {W} prober a svc probe st0 c om spec st clk clk' evs r (s' : Env W) :
  may_probe (resolveFailureThreshold probe) st0 ->
  st_AccessStartupProbeFailures st = Some (failures_of st0) ->
  st_AccessStartupProbeSucceeded st = false ->
  st_ObservedAccessStrategyVersion st = st_ObservedAccessStrategyVersion st0 ->
  (forall d, st_EarliestNextProbeTime st0 = Some d -> d <= clk 0%nat) ->
  probe_once prober a probe svc (mkEnv c (mkWorkspace om spec st) clk' evs) = (r, s') ->
  cycle prober a svc probe st0 clk c r (ws_Status (env_ws s')) (env_cluster s').
Proof.
  intros Hmay Hf Hs Ho Hd. unfold probe_once. run_m.
  destruct (prober _ a svc c) as [ans c'] eqn:Hpr. destruct ans as [[]|e]; cbn.
  - intros [= <- <-]. eapply cycle_probed; try done.
  - rewrite Hf. cbn. case_match eqn:Ht; intros [= <- <-];
      (eapply cycle_probed; try done; cbn; rewrite Ht; done).
  - intros [= <- <-]. eapply cycle_probed; try done. cbn. unfold failures_of at 1.
    by rewrite Hf.
Qed.

Lemma probe_attempt_cycle {W} prober a svc probe st0 c om spec st clk evs r (s' : Env W) :
  may_probe (resolveFailureThreshold probe) st0 ->
  st_AccessStartupProbeFailures st = Some (failures_of st0) ->
  st_AccessStartupProbeSucceeded st = false ->
  st_EarliestNextProbeTime st = st_EarliestNextProbeTime st0 ->
  st_ObservedAccessStrategyVersion st = st_ObservedAccessStrategyVersion st0 ->
  probe_attempt prober a probe svc (mkEnv c (mkWorkspace om spec st) clk evs) = (r, s') ->
  cycle prober a svc probe st0 clk c r (ws_Status (env_ws s')) (env_cluster s').
Proof.
  intros Hmay Hf Hs He Ho. unfold probe_attempt. rewrite timeUntilProbeDeadline_run.
  cbn [ws_Status]. rewrite He. destruct (st_EarliestNextProbeTime st0) as [d|] eqn:Hd.
  - destruct (0 <? time_Sub d (clk 0%nat)) eqn:Hr; cbv beta.
    + rewrite Hr. intros [= <- <-]. apply cycle_wait; cbn; try done; try congruence.
      * right. split; [done|]. exists d. split_and!; [done|by apply time_Sub_ahead|done].
      * by apply Z.ltb_lt.
      * unfold failures_of at 1. by rewrite Hf.
    + apply probe_once_cycle; try done. intros d'. rewrite Hd. intros [= <-].
      by apply time_Sub_nonpos.
  - apply probe_once_cycle; try done. by rewrite Hd.
Qed.

Lemma ProbeAccessStartup_cycle {W} prober a svc probe (s s' : Env W) r :
  asps_AccessStartupProbe (was_Spec a) = Some probe ->
  ProbeAccessStartup prober (Some a) svc s = (r, s') ->
  cycle prober a svc probe (observe a (ws_Status (env_ws s))) (env_clock s) (env_cluster s)
    r (ws_Status (env_ws s')) (env_cluster s').
Proof.
  intros Hp. unfold ProbeAccessStartup. rewrite Hp.
  destruct s as [c [om spec st] clk evs].
  assert (Hobs : forall (k : Workspace -> M W ProbeResult),
    (st_bind (if negb (bool_decide (st_ObservedAccessStrategyVersion st = versionedAccessStrategyID a))
      then modify_status (fun s => set_st_ObservedAccessStrategyVersion (versionedAccessStrategyID a)
        (set_st_AccessStartupProbeSucceeded false (clearProbeState s))) else st_ret tt)
      (fun _ => st_bind get_ws k)) (mkEnv c (mkWorkspace om spec st) clk evs) =
    k (mkWorkspace om spec (observe a st)) (mkEnv c (mkWorkspace om spec (observe a st)) clk evs)).
  { intros k. unfold observe. by case_bool_decide. }
  unfold st_bind at 1. unfold get_ws at 1. cbn [env_ws ws_Status]. rewrite Hobs. clear Hobs.
  cbn [env_ws ws_Status env_clock env_cluster]. generalize (observe a st). clear st. intros st.
  destruct (st_AccessStartupProbeSucceeded st) eqn:Hs.
  { intros [= <- <-]. by apply cycle_already. }
  destruct (st_AccessStartupProbeFailures st) as [n|] eqn:Hf.
  - destruct (Z.leb_spec (resolveFailureThreshold probe) n).
    { intros [= <- <-]. by eapply cycle_exceeded. }
    intros Hx. eapply probe_attempt_cycle; try exact Hx; try done.
    + split; [done|]. intros n'. rewrite Hf. by intros [= <-].
    + unfold failures_of. by rewrite Hf.
  - assert (Hmay : may_probe (resolveFailureThreshold probe) st).
    { split; [done|]. by rewrite Hf. }
    assert (Hz : failures_of st = 0) by (unfold failures_of; by rewrite Hf).
    unfold st_bind at 1, modify_status at 1, modify_ws at 1. cbn [env_cluster env_ws env_clock
      env_events ws_Status set_ws_Status ws_ObjectMeta ws_Spec].
    destruct (0 <? asp_InitialDelaySeconds probe) eqn:Hi.
    + run_m. intros [= <- <-]. cbn. apply Z.ltb_lt in Hi.
      apply cycle_wait; try done; [by left|unfold Second; lia].
    + intros Hx. eapply probe_attempt_cycle; try exact Hx; try done. by rewrite Hz.
Qed.

Lemma resolveFailureThreshold_pos probe : 0 < resolveFailureThreshold probe.
Proof.
  unfold resolveFailureThreshold.
  destruct (0 <? asp_FailureThreshold probe) eqn:E; [by apply Z.ltb_lt|done].
Qed.

(** ** Backoff *)

Lemma backoff_loop_spec n b :
  0 < b < 2 ^ 30 ->
  backoff_loop n b =
  match n with O => b | S _ => Z.min ProbeBackoffMaxRetrySeconds (b * 2 ^ Z.of_nat n) end.
Proof.
  revert b. induction n as [|n IH]; intros b Hb; [done|]. cbn [backoff_loop].
  rewrite wrap32_id by lia. unfold ProbeBackoffMaxRetrySeconds in *.
  rewrite Nat2Z.inj_succ, Z.pow_succ_r by lia.
  assert (Hp : 0 < 2 ^ Z.of_nat n) by lia.
  destruct (Z.leb_spec 302 (b * 2)) as [Hle|Hlt]; [nia|].
  rewrite IH by lia. destruct n as [|n]; [cbn; lia|].
  replace (b * (2 * 2 ^ Z.of_nat (S n))) with (b * 2 * 2 ^ Z.of_nat (S n)) by ring. done.
Qed.

(** The retry delay: for a period below 2^30 seconds and counters of the
    32-bit range, the delay is the period while at least ten attempts remain, and
    then doubles with each failure up to 302 seconds; no operation overflows and
    the delay is positive. *)
Theorem probeRetrySeconds_correct (period failures threshold : Z) :
  0 < period < 2 ^ 30 -> 0 < failures <= threshold -> threshold < 2 ^ 31 ->
  let start := Z.max (threshold - ProbeBackoffThreshold) 0 in
  probeRetrySeconds period failures threshold =
    (if failures <=? start then period
     else Z.min ProbeBackoffMaxRetrySeconds (period * 2 ^ (failures - start))) /\
  0 < probeRetrySeconds period failures threshold <=
    Z.max period ProbeBackoffMaxRetrySeconds.
Proof.
  intros Hp Hf Ht. cbv zeta. unfold probeRetrySeconds, ProbeBackoffThreshold.
  rewrite (wrap32_id (threshold - 10)) by lia.
  set (start := Z.max (threshold - 10) 0).
  destruct (Z.leb_spec failures start) as [Hle|Hlt].
  { unfold ProbeBackoffMaxRetrySeconds. lia. }
  rewrite (wrap32_id (failures - start)) by lia.
  rewrite backoff_loop_spec by done.
  destruct (Z.to_nat (failures - start)) as [|n] eqn:En; [lia|].
  rewrite <- En, Z2Nat.id by lia. unfold ProbeBackoffMaxRetrySeconds.
  assert (0 < 2 ^ (failures - start)) by (apply Z.pow_pos_nonneg; lia). split; [done|nia].
Qed.

Lemma probeRetrySeconds_correct_witness : probeRetrySeconds 2 15 20 = 64.
Proof.
  destruct (probeRetrySeconds_correct 2 15 20) as [E _]; [lia|lia|lia|]. exact E.
Defined.

(** Beyond that range the doubling overflows: a period of 2^30 seconds gives a
    negative delay on the first backoff. *)
Lemma probeRetrySeconds_overflow : probeRetrySeconds (2 ^ 30) 1 1 = - 2 ^ 31.
Proof. vm_compute. reflexivity. Qed.

(** ** The cycle over many reconciles *)

(** The gate opens only on a successful probe: when the cycle reports
    success, the prober has just answered that the route is up, or it had
    answered so before under this very version of the strategy; and the prober is
    called only once its deadline has passed and the threshold is not reached. *)
Theorem probe_gate_sound {W} (prober : Workspace -> WorkspaceAccessStrategy -> Service -> ST W bool)
    (a : WorkspaceAccessStrategy) (svc : Service) (probe : AccessStartupProbe)
    (s s' : Env W) (r : ProbeResult) :
  asps_AccessStartupProbe (was_Spec a) = Some probe ->
  ProbeAccessStartup prober (Some a) svc s = (Ok r, s') ->
  let st := ws_Status (env_ws s) in
  let version := versionedAccessStrategyID a in
  st_ObservedAccessStrategyVersion (ws_Status (env_ws s')) = version /\
  (pr_Status r = ProbeSucceeded \/ pr_Status r = ProbeAlreadySucceeded ->
     (st_AccessStartupProbeSucceeded st = true /\ st_ObservedAccessStrategyVersion st = version) \/
     (exists w, prober w a svc (env_cluster s) = (Ok true, env_cluster s') /\
        (st_ObservedAccessStrategyVersion st = version ->
           failures_of st < resolveFailureThreshold probe /\
           forall d, st_EarliestNextProbeTime st = Some d -> d <= env_clock s 0%nat))).
Proof.
  intros Hp Hrun. apply (ProbeAccessStartup_cycle _ _ _ _ _ _ _ Hp) in Hrun.
  set (st := ws_Status (env_ws s)) in *. cbv zeta.
  assert (Hobs : st_ObservedAccessStrategyVersion (observe a st) = versionedAccessStrategyID a).
  { unfold observe. by case_bool_decide. }
  assert (Hkeep : st_ObservedAccessStrategyVersion st = versionedAccessStrategyID a ->
                  observe a st = st).
  { intros E. unfold observe. by rewrite bool_decide_true. }
  pose proof (resolveFailureThreshold_pos probe) as Hthr.
  inversion Hrun as [Hs|n Hs Hf Hn|status delay st' Hmay Hst Hd _ _ _ Ho
                    |w answer c' r' st' Hmay Hpr Hd Ho Hans]; subst.
  - split; [done|]. intros _. left. unfold observe in Hs |- *. by case_bool_decide.
  - split; [done|]. by intros [?|?].
  - split; [congruence|]. cbn. destruct Hst as [[-> _]|[-> _]]; by intros [?|?].
  - split; [congruence|]. destruct answer as [[]|e]; cbn in Hans.
    + destruct Hans as [[= ->] _]. intros _. right. exists w. split; [done|].
      intros E. rewrite (Hkeep E) in *. split; [|done].
      destruct Hmay as [_ Hlt]. unfold failures_of.
      destruct (st_AccessStartupProbeFailures st) as [n|]; [by apply Hlt|done].
    + destruct Hans as (_ & _ & Hr). case_match; simplify_eq; cbn; by intros [?|?].
    + by destruct Hans as [? _].
Qed.

(** Demonstration strategies: a probe that allows two failures. *)
Definition demo_probe : AccessStartupProbe :=
  mkAccessStartupProbe (Some (mkAccessHTTPGetProbe "http://x" [])) 0 1 1 2.
Definition demo_strategy : WorkspaceAccessStrategy :=
  mkWorkspaceAccessStrategy (zero_meta "as" "ns")
    (mkWorkspaceAccessStrategySpec "as" [] "" "" "" "" "" ∅ "" ∅ ∅ None (Some demo_probe))
    (mkWorkspaceAccessStrategyStatus []).
Definition demo_service : Service :=
  mkService (zero_meta "workspace-w-service" "ns") (mkServiceSpec "ClusterIP" ∅ [] "" None) [].

Lemma probe_gate_sound_witness :
  st_ObservedAccessStrategyVersion (ws_Status (env_ws
    (ProbeAccessStartup (fun _ _ _ => st_ret true) (Some demo_strategy) demo_service
       (demo_env demo_ws empty_mem)).2)) = versionedAccessStrategyID demo_strategy.
Proof.
  refine (proj1 (@probe_gate_sound Mem (fun _ _ _ => st_ret true) demo_strategy demo_service
    demo_probe (demo_env demo_ws empty_mem) _ (mkProbeResult ProbeSucceeded 0) _ _)).
  - reflexivity.
  - vm_compute. reflexivity.
Defined.

(** Reconciles in sequence, each with its own workspace metadata, clock and events but
    carrying the status and the cluster, and what they answered; the prober never
    errors. *)
Section attempts.
Context {W : Type} (prober : Workspace -> WorkspaceAccessStrategy -> Service -> ST W bool).
Variables (a : WorkspaceAccessStrategy) (probe : AccessStartupProbe) (svc : Service).
(** The number of probes made so far, as the cluster records it. *)
Variable probes : W -> Z.

Definition counting : Prop :=
  forall w c, exists b c', prober w a svc c = (Ok b, c') /\ probes c' = probes c + 1.

Inductive reconciles : Env W -> list ProbeStatus -> Env W -> Prop :=
| reconciles_refl s : reconciles s [] s
| reconciles_step s answers s1 s2 s3 r :
    reconciles s answers s1 -> ProbeAccessStartup prober (Some a) svc s1 = (Ok r, s2) ->
    env_cluster s3 = env_cluster s2 -> ws_Status (env_ws s3) = ws_Status (env_ws s2) ->
    reconciles s (answers ++ [pr_Status r]) s3.

(** The answers the gate turns into available or degraded. *)
Definition decided (x : ProbeStatus) : bool :=
  match x with
  | ProbeSucceeded | ProbeAlreadySucceeded | ProbeFailureThresholdExceeded => true
  | _ => false
  end.
Definition retries (answers : list ProbeStatus) : Z :=
  Z.of_nat (length (filter (fun x => x = ProbeRetrying) answers)).

(** The status of a decided cycle, under this version of the strategy. *)
Definition settled (st : WorkspaceStatus) : Prop :=
  st_ObservedAccessStrategyVersion st = versionedAccessStrategyID a /\
  (st_AccessStartupProbeSucceeded st = true \/
   exists n, st_AccessStartupProbeFailures st = Some n /\ resolveFailureThreshold probe <= n).

(** How many more probes a status allows, and how many more answers to retry. *)
Definition budget (st : WorkspaceStatus) : Z :=
  if st_AccessStartupProbeSucceeded st then 0
  else Z.max 0 (resolveFailureThreshold probe - failures_of st).
Definition retry_budget (st : WorkspaceStatus) : Z :=
  if st_AccessStartupProbeSucceeded st then 0
  else match st_AccessStartupProbeFailures st with
  | None => resolveFailureThreshold probe
  | Some n => Z.max 0 (resolveFailureThreshold probe - 1 - n)
  end.

(** The counter is not negative: it starts at zero and is only counted up. *)
Definition counter_ok (st : WorkspaceStatus) : Prop :=
  forall n, st_AccessStartupProbeFailures st = Some n -> 0 <= n.

Hypothesis Hcount : counting.
Hypothesis Hthr : resolveFailureThreshold probe < 2 ^ 31.

(** One cycle: its answer, and what it takes from the budgets. *)
Lemma cycle_budget st0 clk c r st' c' :
  counter_ok st0 -> cycle prober a svc probe st0 clk c r st' c' ->
  exists p, r = Ok p /\ counter_ok st' /\
  st_ObservedAccessStrategyVersion st' = st_ObservedAccessStrategyVersion st0 /\
  probes c' + budget st' <= probes c + budget st0 /\
  retries [pr_Status p] + retry_budget st' <= retry_budget st0 /\
  (decided (pr_Status p) = true ->
     st_AccessStartupProbeSucceeded st' = true \/
     exists n, st_AccessStartupProbeFailures st' = Some n /\ resolveFailureThreshold probe <= n) /\
  (decided (pr_Status p) = false -> 0 < budget st') /\
  (pr_Status p = ProbePendingRetry -> exists d, st_EarliestNextProbeTime st0 = Some d /\
     clk 0%nat < d /\ pr_RequeueAfter p = time_Sub d (clk 0%nat)) /\
  pr_Status p <> ProbeNotDefined.
Proof.
  intros Hok Hc. pose proof (resolveFailureThreshold_pos probe) as Hpos.
  inversion Hc as [Hs|n Hs Hf Hn|status delay st1 Hmay Hst Hd Hfs Hne Hs' Ho
                  |w answer c1 r' st1 Hmay Hpr Hd Ho Hans]; subst.
  - eexists. split; [reflexivity|]. split_and!; cbn; try done; try lia. by left.
  - eexists. split; [reflexivity|]. split_and!; cbn; try done; try lia. right. by exists n.
  - assert (Hf' : st_AccessStartupProbeFailures st' = Some (failures_of st0)).
    { unfold failures_of in Hfs at 1. destruct (st_AccessStartupProbeFailures st'); [|done].
      by rewrite <- Hfs. }
    assert (Hf0 : 0 <= failures_of st0 < resolveFailureThreshold probe).
    { destruct Hmay as [_ Hlt]. unfold failures_of.
      destruct (st_AccessStartupProbeFailures st0) eqn:E; cbn; [|lia]. split; [by apply Hok|by apply Hlt]. }
    eexists. split; [reflexivity|]. destruct Hmay as [Hs Hlt]. cbn [pr_Status pr_RequeueAfter].
    split_and!; try done.
    + intros n. rewrite Hf'. intros [= <-]. lia.
    + unfold budget. rewrite Hs, Hs', Hfs. lia.
    + unfold retry_budget. rewrite Hs, Hs', Hf'. unfold failures_of in *.
      destruct Hst as [[-> E]|[-> _]].
      * rewrite E. change (retries [ProbeRetrying]) with 1. cbn in *. lia.
      * change (retries [ProbePendingRetry]) with 0.
        destruct (st_AccessStartupProbeFailures st0); cbn in *; lia.
    + by destruct Hst as [[-> _]|[-> _]].
    + intros _. unfold budget. rewrite Hs', Hfs. lia.
    + destruct Hst as [[-> _]|[-> ?]]; done.
    + by destruct Hst as [[-> _]|[-> _]].
  - destruct (Hcount w c) as (b & c2 & Hpr' & Hpc). rewrite Hpr in Hpr'. injection Hpr' as -> ->.
    destruct Hmay as [Hs Hlt].
    assert (Hf : 0 <= failures_of st0 < resolveFailureThreshold probe).
    { unfold failures_of. destruct (st_AccessStartupProbeFailures st0) eqn:E; cbn; [|lia].
      split; [by apply Hok|by apply Hlt]. }
    destruct b; cbn in Hans.
    + destruct Hans as (-> & Hs1 & Hn1). eexists. split; [reflexivity|]. split_and!; try done.
      * intros n. by rewrite Hn1.
      * unfold budget. rewrite Hs, Hs1. lia.
      * unfold retry_budget. rewrite Hs, Hs1. cbn [pr_Status]. change (retries [ProbeSucceeded]) with 0.
        destruct (st_AccessStartupProbeFailures st0); lia.
      * by left.
    + destruct Hans as (Hf1 & Hs1 & Hr). rewrite wrap32_id in Hf1, Hr by lia.
      assert (Hb : budget st' = Z.max 0 (resolveFailureThreshold probe - (failures_of st0 + 1))).
      { unfold budget, failures_of at 1. by rewrite Hs1, Hf1. }
      assert (Hrb : retry_budget st' = Z.max 0 (resolveFailureThreshold probe - 1 - (failures_of st0 + 1))).
      { unfold retry_budget. by rewrite Hs1, Hf1. }
      assert (Hrb0 : resolveFailureThreshold probe - 1 - failures_of st0 <= retry_budget st0).
      { unfold retry_budget, failures_of. rewrite Hs. destruct (st_AccessStartupProbeFailures st0); cbn; lia. }
      assert (Hb0 : budget st0 = resolveFailureThreshold probe - failures_of st0).
      { unfold budget. rewrite Hs. lia. }
      destruct (Z.leb_spec (resolveFailureThreshold probe) (failures_of st0 + 1)); subst r;
        (eexists; split; [reflexivity|]); cbn [pr_Status decided]; split_and!; try done; try lia;
        try (intros n; rewrite Hf1; intros [= <-]; lia).
      * change (retries [ProbeFailureThresholdExceeded]) with 0. lia.
      * right. eauto.
      * change (retries [ProbeRetrying]) with 1. lia.
Qed.

(** A settled status stays so, without a probe. *)
Lemma settled_cycle s s' r :
  asps_AccessStartupProbe (was_Spec a) = Some probe ->
  settled (ws_Status (env_ws s)) -> ProbeAccessStartup prober (Some a) svc s = (r, s') ->
  exists p, r = Ok p /\ decided (pr_Status p) = true /\ env_cluster s' = env_cluster s /\
    settled (ws_Status (env_ws s')).
Proof.
  intros Hp [Hv Hset] Hrun. apply (ProbeAccessStartup_cycle _ _ _ _ _ _ _ Hp) in Hrun.
  assert (Hobs : observe a (ws_Status (env_ws s)) = ws_Status (env_ws s))
    by (unfold observe; by rewrite bool_decide_true).
  rewrite Hobs in Hrun.
  assert (Hno : may_probe (resolveFailureThreshold probe) (ws_Status (env_ws s)) -> False).
  { intros [Hs Hlt]. destruct Hset as [?|(n & Hn & Hle)]; [congruence|]. specialize (Hlt n Hn). lia. }
  inversion Hrun as [Hs|n Hs Hf Hn|? ? ? Hmay|? ? ? ? ? Hmay]; try (by destruct (Hno Hmay));
    (eexists; split; [done|]); split_and!; try done; congruence.
Qed.

(** What holds after any number of reconciles. *)
Lemma reconciles_inv s answers s' :
  asps_AccessStartupProbe (was_Spec a) = Some probe ->
  counter_ok (ws_Status (env_ws s)) -> reconciles s answers s' ->
  let st' := ws_Status (env_ws s') in
  counter_ok st' /\
  probes (env_cluster s') - probes (env_cluster s) + budget (observe a st') <= resolveFailureThreshold probe /\
  retries answers + retry_budget (observe a st') <= resolveFailureThreshold probe /\
  (existsb decided answers = true -> settled st').
Proof.
  intros Hp Hok Hrec. pose proof (resolveFailureThreshold_pos probe) as Hpos.
  assert (Hobs : forall st, counter_ok st -> counter_ok (observe a st)).
  { intros st Hst. unfold observe. case_bool_decide; [done|]. by intros n. }
  assert (Hidem : forall st, st_ObservedAccessStrategyVersion st = versionedAccessStrategyID a ->
                    observe a st = st) by (intros st E; unfold observe; by rewrite bool_decide_true).
  cbv zeta. induction Hrec as [s|s answers s1 s2 s3 r Hrec IH Hrun Hcl Hst].
  - split; [done|]. specialize (Hobs _ Hok). revert Hobs. generalize (observe a (ws_Status (env_ws s))).
    intros st Hst. change (retries []) with 0. unfold budget, retry_budget, failures_of.
    split_and!; [| |done]; (case_match; [lia|]);
      destruct (st_AccessStartupProbeFailures st) as [n|] eqn:E; cbn; try lia; specialize (Hst n E); lia.
  - destruct (IH Hok) as (Hok1 & Hb1 & Hr1 & Hset). rewrite Hcl, Hst. clear s3 Hcl Hst.
    pose proof (ProbeAccessStartup_cycle _ _ _ _ _ _ _ Hp Hrun) as Hc.
    destruct (cycle_budget _ _ _ _ _ _ (Hobs _ Hok1) Hc)
      as (p & [= <-] & Hok2 & Hv & Hb & Hr & Hdec & _ & _ & _).
    assert (Hv' : st_ObservedAccessStrategyVersion (ws_Status (env_ws s2)) = versionedAccessStrategyID a).
    { rewrite Hv. unfold observe. by case_bool_decide. }
    rewrite (Hidem _ Hv'). split_and!; [done|lia| |].
    + unfold retries in *. rewrite filter_app, length_app. lia.
    + rewrite existsb_app. intros [Hd|Hd]%orb_true_iff.
      * destruct (settled_cycle _ _ _ Hp (Hset Hd) Hrun) as (_ & _ & _ & _ & ?). done.
      * cbn in Hd. rewrite orb_false_r in Hd. split; [done|by apply Hdec].
Qed.
End attempts.

(** [C38] The probe gives up.  Take any number of reconciles of a workspace under one
    version of a strategy, from any status whose counter is not negative, with a prober
    that answers whatever it likes short of an error.  The prober is called at most as
    often as the failure threshold says (20 when the strategy sets none), and at most
    that many of the reconciles answer that they will retry.  The next reconcile always
    answers; when the calls are used up its answer is final, succeeded or threshold
    exceeded (which the gate of the state machine turns into available and degraded);
    when the retries are used up it is final or asks to wait for a deadline that lies
    ahead of its clock; and after a final answer every later one is final and made
    without calling the prober.  So reconciles that come after their deadlines reach a
    final answer within one more than the threshold. *)
Theorem probe_attempts_bounded {W}
    (prober : Workspace -> WorkspaceAccessStrategy -> Service -> ST W bool)
    (a : WorkspaceAccessStrategy) (probe : AccessStartupProbe) (svc : Service) (probes : W -> Z)
    (s s' : Env W) (answers : list ProbeStatus) :
  asps_AccessStartupProbe (was_Spec a) = Some probe ->
  counting prober a svc probes -> resolveFailureThreshold probe < 2 ^ 31 ->
  counter_ok (ws_Status (env_ws s)) -> reconciles prober a svc s answers s' ->
  let threshold := resolveFailureThreshold probe in
  probes (env_cluster s') - probes (env_cluster s) <= threshold /\ retries answers <= threshold /\
  exists p s2, ProbeAccessStartup prober (Some a) svc s' = (Ok p, s2) /\
    (probes (env_cluster s2) - probes (env_cluster s) = threshold -> decided (pr_Status p) = true) /\
    (retries answers = threshold -> decided (pr_Status p) = true \/ pr_Status p = ProbePendingRetry) /\
    (pr_Status p = ProbePendingRetry -> exists d,
       st_EarliestNextProbeTime (ws_Status (env_ws s')) = Some d /\ env_clock s' 0%nat < d /\
       pr_RequeueAfter p = time_Sub d (env_clock s' 0%nat)) /\
    (existsb decided answers = true ->
       decided (pr_Status p) = true /\ env_cluster s2 = env_cluster s').
Proof.
  intros Hp Hcount Hthr Hok Hrec threshold.
  destruct (reconciles_inv prober a probe svc probes Hcount Hthr _ _ _ Hp Hok Hrec)
    as (Hok' & Hb & Hr & Hset).
  assert (Hnn : forall st, 0 <= budget probe st) by (intros st; unfold budget; case_match; lia).
  assert (Hrn : forall st, 0 <= retry_budget probe st).
  { intros st. unfold retry_budget. pose proof (resolveFailureThreshold_pos probe).
    case_match; [lia|]. case_match; lia. }
  pose proof (Hnn (observe a (ws_Status (env_ws s')))). pose proof (Hrn (observe a (ws_Status (env_ws s')))).
  split; [lia|]. split; [lia|].
  destruct (ProbeAccessStartup prober (Some a) svc s') as [r s2] eqn:Hrun.
  assert (Hobs : counter_ok (observe a (ws_Status (env_ws s')))).
  { unfold observe. case_bool_decide; [done|]. by intros n. }
  destruct (cycle_budget _ a probe svc probes Hcount Hthr _ _ _ _ _ _ Hobs
    (ProbeAccessStartup_cycle _ _ _ _ _ _ _ Hp Hrun))
    as (p & -> & Hok2 & Hv & Hb2 & Hr2 & Hdec & Hund & Hpend & Hnd).
  exists p, s2. split; [done|]. pose proof (Hrn (ws_Status (env_ws s2))). split_and!.
  - intros E. destruct (decided (pr_Status p)) eqn:Ed; [done|]. specialize (Hund eq_refl). lia.
  - intros E. destruct (pr_Status p) eqn:Ep; try (by left); try (by right).
    change (retries [ProbeRetrying]) with 1 in Hr2. lia.
  - intros Ep. destruct (Hpend Ep) as (d & Hd & ? & ?). exists d. split; [|done].
    unfold observe in Hd. by case_bool_decide.
  - intros Hd. destruct (settled_cycle prober a probe svc _ _ _ Hp (Hset Hd) Hrun)
      as (q & [= <-] & ? & ? & _). done.
Qed.

Definition failing_prober : Workspace -> WorkspaceAccessStrategy -> Service -> ST Z bool :=
  fun _ _ _ n => (Ok false, n + 1).
Definition demo_failed_env : Env Z :=
  (ProbeAccessStartup failing_prober (Some demo_strategy) demo_service (mkEnv 0 demo_ws (fun _ => 0) [])).2.

Lemma probe_attempts_bounded_witness :
  env_cluster demo_failed_env - 0 <= 2 /\
  exists p s2, ProbeAccessStartup failing_prober (Some demo_strategy) demo_service
      (mkEnv (env_cluster demo_failed_env) (env_ws demo_failed_env) (fun _ => 10 * Second) []) = (Ok p, s2) /\
    decided (pr_Status p) = true.
Proof.
  destruct (@probe_attempts_bounded Z failing_prober demo_strategy demo_probe demo_service
    (fun n => n) (mkEnv 0 demo_ws (fun _ => 0) [])
    (mkEnv (env_cluster demo_failed_env) (env_ws demo_failed_env) (fun _ => 10 * Second) [])
    ([] ++ [ProbeRetrying])) as (Hb & _ & p & s2 & Hrun & Hdec & _).
  - reflexivity.
  - intros w c. by exists false, (c + 1).
  - vm_compute. reflexivity.
  - intros n. discriminate.
  - eapply (reconciles_step _ _ _ _ _ _ demo_failed_env _ (mkProbeResult ProbeRetrying (2 * Second)));
      [apply reconciles_refl|vm_compute; reflexivity|reflexivity|reflexivity].
  - split; [exact Hb|]. exists p, s2. split; [exact Hrun|]. apply Hdec.
    apply (f_equal snd) in Hrun. cbn [snd] in Hrun. rewrite <- Hrun. vm_compute. reflexivity.
Defined.

(** What a successful cycle leaves in the status. *)
Lemma ProbeAccessStartup_leaves {W}
    (prober : Workspace -> WorkspaceAccessStrategy -> Service -> ST W bool) a svc probe
    (s s' : Env W) r :
  asps_AccessStartupProbe (was_Spec a) = Some probe ->
  ProbeAccessStartup prober (Some a) svc s = (Ok r, s') ->
  let st' := ws_Status (env_ws s') in
  match pr_Status r with
  | ProbeNotDefined => False
  | ProbeSucceeded | ProbeAlreadySucceeded =>
      st_AccessStartupProbeSucceeded st' = true /\
      st_ObservedAccessStrategyVersion st' = versionedAccessStrategyID a
  | ProbeFailureThresholdExceeded => resolveFailureThreshold probe <= failures_of st'
  | ProbeRetrying | ProbePendingRetry => st_AccessStartupProbeSucceeded st' = false
  end.
Proof.
  intros Hp Hrun. apply (ProbeAccessStartup_cycle _ _ _ _ _ _ _ Hp) in Hrun.
  assert (Hobs : forall st, st_ObservedAccessStrategyVersion (observe a st) = versionedAccessStrategyID a).
  { intros st. unfold observe. by case_bool_decide. }
  cbv zeta.
  inversion Hrun as [Hs|n Hs Hf Hn|status delay st' Hmay Hst Hd _ _ Hs Ho
                    |w answer c' r' st' Hmay Hpr Hd Ho Hans]; subst; cbn [pr_Status].
  - by rewrite Hobs.
  - unfold failures_of. by rewrite Hf.
  - by destruct Hst as [[-> _]|[-> _]].
  - destruct answer as [[]|e]; cbn in Hans; [| |by destruct Hans].
    + destruct Hans as ([= ->] & Hs & _). cbn. by rewrite Ho, Hobs.
    + destruct Hans as (Hf & Hs & Hr). unfold failures_of. rewrite Hf.
      destruct (_ <=? _) eqn:E; injection Hr as ->; cbn; [by apply Z.leb_le|done].
Qed.

(** The cycle touches the probe fields of the status only. *)
Lemma ProbeAccessStartup_same_on {W} {B} (f : WorkspaceStatus -> B)
    (prober : Workspace -> WorkspaceAccessStrategy -> Service -> ST W bool) strategy svc :
  (forall st x, f (set_st_EarliestNextProbeTime x st) = f st) ->
  (forall st x, f (set_st_AccessStartupProbeFailures x st) = f st) ->
  (forall st x, f (set_st_AccessStartupProbeSucceeded x st) = f st) ->
  (forall st x, f (set_st_ObservedAccessStrategyVersion x st) = f st) ->
  respects (same_on f) (ProbeAccessStartup prober strategy svc).
Proof.
  intros H1 H2 H3 H4.
  unfold ProbeAccessStartup, probe_attempt, timeUntilProbeDeadline, probe_once. solve_respects;
    apply same_on_modify_status; intros st; unfold clearProbeState;
    repeat first [rewrite H1|rewrite H2|rewrite H3|rewrite H4]; done.
Qed.
