(* ===== verification/Resources.v ===== *)
(** * Resources: the resource manager

    internal/controller resource_manager.go, resource_manager_access.go and
    resource_manager_helper.go: creation, update and deletion of the deployment,
    service, volume claim and access resources of a workspace.  The builders,
    which compute the desired objects, are an interface of this component. *)

From S2P Require Import Prelude Api JwtSigner K8s Status.

(** ** Names *)

Definition ResourcePrefix : string := "workspace".
Definition GenerateDeploymentName (workspaceName : string) : string :=
  ResourcePrefix +:+ "-" +:+ workspaceName.
Definition GenerateServiceName (workspaceName : string) : string :=
  ResourcePrefix +:+ "-" +:+ workspaceName +:+ "-service".
Definition GeneratePVCName (workspaceName : string) : string :=
  ResourcePrefix +:+ "-" +:+ workspaceName +:+ "-pvc".

(** ** The builders *)

Definition Templates := gmap string WorkspaceIntegrationTemplate.

(** DeploymentBuilder, ServiceBuilder, PVCBuilder, AccessResourcesBuilder and
    SetControllerReference, as the resource manager calls them.  The deployment
    builder puts the workspace's own environment slice into the container it
    builds and may overwrite its entries: it also answers with the environment
    the workspace object is left with. *)
Record Builders := mkBuilders {
  BuildWorkspaceDeployment :
    option WorkspaceAccessStrategy -> Templates -> Workspace -> result Deployment * list EnvVar;
  Deployment_NeedsUpdate :
    Deployment -> option WorkspaceAccessStrategy -> Templates -> Workspace ->
    result bool * list EnvVar;
  BuildService : Workspace -> option WorkspaceAccessStrategy -> result Service;
  Service_NeedsUpdate : Service -> Workspace -> option WorkspaceAccessStrategy -> result bool;
  UpdateServiceSpec : Service -> Workspace -> option WorkspaceAccessStrategy -> result Service;
  BuildPVC : Workspace -> result (option PersistentVolumeClaim);
  PVC_NeedsUpdate : PersistentVolumeClaim -> Workspace -> result bool;
  UpdatePVCSpec : PersistentVolumeClaim -> Workspace -> result PersistentVolumeClaim;
  BuildUnstructuredResource :
    AccessResourceTemplate -> Workspace -> WorkspaceAccessStrategy -> Service -> result Unstructured;
  ResolveAccessURL : Workspace -> WorkspaceAccessStrategy -> Service -> result string;
  ResolveAccessResourceSelector : Workspace -> WorkspaceAccessStrategy -> string;
  ResolveApplicationBasePath : Workspace -> WorkspaceAccessStrategy -> Service -> string * option error;
  SetControllerReference : Workspace -> Unstructured -> result Unstructured;
}.

(** ** Readiness checks (resource_manager_helper.go) *)

(** The deployment's Available condition, first of its type. *)
Fixpoint deployment_available_condition (conditions : list (string * string)) : option bool :=
  match conditions with
  | [] => None
  | (ty, status) :: rest =>
      if bool_decide (ty = "Available") then Some (bool_decide (status = ConditionTrue))
      else deployment_available_condition rest
  end.

(** IsDeploymentAvailable: the condition, or the replica counts; reading a nil
    replica count panics only when some replica is available. *)
Definition IsDeploymentAvailable (deployment : option Deployment) : result bool :=
  match deployment with
  | None => Ok false
  | Some d =>
      match deployment_available_condition (dep_Conditions d) with
      | Some b => Ok b
      | None =>
          if 0 <? dep_AvailableReplicas d then
            match dep_Replicas d with
            | None => Fail panic_nil
            | Some replicas => Ok (replicas <=? dep_ReadyReplicas d)
            end
          else Ok false
      end
  end.

Definition IsDeploymentMissingOrDeleting (deployment : option Deployment) : bool :=
  match deployment with None => true | Some d => is_deleting (dep_ObjectMeta d) end.

Definition IsServiceAvailable (service : option Service) : bool :=
  match service with
  | None => false
  | Some s =>
      if bool_decide (svc_Type s = "LoadBalancer")
      then negb (bool_decide (svc_LoadBalancerIngress s = [])) else true
  end.

Definition IsServiceMissingOrDeleting (service : option Service) : bool :=
  match service with None => true | Some s => is_deleting (svc_ObjectMeta s) end.

Definition IsPVCMissingOrDeleting (pvc : option PersistentVolumeClaim) : bool :=
  match pvc with None => true | Some p => is_deleting (pvc_ObjectMeta p) end.

Definition AreAccessResourcesDeleted (w : Workspace) : bool :=
  bool_decide (st_AccessResources (ws_Status w) = []).

(** getGroupVersionKind parses the API version: [group/version] or [version]. *)
Fixpoint cut_slash (s : string) : option (string * string) :=
  match s with
  | EmptyString => None
  | String c rest =>
      if Ascii.eqb c "/" then Some ("", rest)
      else match cut_slash rest with
           | Some (a, b) => Some (String c a, b)
           | None => None
           end
  end.
Definition getGroupVersionKind (apiVersion kind : string) : GroupVersionKind :=
  match cut_slash apiVersion with
  | Some (group, version) =>
      match cut_slash version with
      | None => mkGVK group version kind
      | Some _ => mkGVK "" apiVersion kind
      end
  | None => mkGVK "" apiVersion kind
  end.

Section resources.
Context {W : Type} (client : Client W) (B : Builders).
Local Open Scope go_scope.

(** ** Reads *)
Definition getDeployment : M W Deployment :=
  w <- get_ws ;;
  on_cluster (crud_Get (c_Deployment client) (GenerateDeploymentName (ws_Name w)) (ws_Namespace w)).
Definition getService : M W Service :=
  w <- get_ws ;;
  on_cluster (crud_Get (c_Service client) (GenerateServiceName (ws_Name w)) (ws_Namespace w)).
Definition getPVC : M W PersistentVolumeClaim :=
  w <- get_ws ;;
  on_cluster (crud_Get (c_PVC client) (GeneratePVCName (ws_Name w)) (ws_Namespace w)).

(** GetAccessStrategyForWorkspace retrieves the AccessStrategy of the spec, or
    nil if none is specified. *)
Definition GetAccessStrategyForWorkspace : M W (option WorkspaceAccessStrategy) :=
  w <- get_ws ;;
  match sp_AccessStrategy (ws_Spec w) with
  | None => st_ret None
  | Some ref =>
      let ns := if negb (bool_decide (asr_Namespace ref = "")) then asr_Namespace ref
                else ws_Namespace w in
      r <- st_try (on_cluster (crud_Get (c_AccessStrategy client) (asr_Name ref) ns)) ;;
      match r with
      | Ok a => st_ret (Some a)
      | Fail err =>
          if IsNotFound err then
            st_fail (Errorf "access strategy %s not found in namespace %s" [asr_Name ref; ns])
          else st_fail (Wrapf "failed to get access strategy: %w" [] err)
      end
  end.

(** ** Creation and update *)
Definition createDeployment (accessStrategy : option WorkspaceAccessStrategy)
    (integrationTemplates : Templates) : M W Deployment :=
  deployment <- st_wrap "failed to build deployment: %w" []
    (on_workspace (BuildWorkspaceDeployment B accessStrategy integrationTemplates)) ;;
  st_wrap "failed to create deployment: %w" []
    (on_cluster (crud_Create (c_Deployment client) deployment)).

Definition createService (accessStrategy : option WorkspaceAccessStrategy) : M W Service :=
  w <- get_ws ;;
  service <- st_lift (wrap_err "failed to build service: %w" [] (BuildService B w accessStrategy)) ;;
  st_wrap "failed to create service: %w" []
    (on_cluster (crud_Create (c_Service client) service)).

Definition createPVC : M W (option PersistentVolumeClaim) :=
  w <- get_ws ;;
  pvc <- st_lift (wrap_err "failed to build PVC: %w" [] (BuildPVC B w)) ;;
  match pvc with
  | None => st_ret None
  | Some pvc =>
      p <- st_wrap "failed to create PVC: %w" []
             (on_cluster (crud_Create (c_PVC client) pvc)) ;;
      st_ret (Some p)
  end.

(** The strategy given, or fetched when the spec names one. *)
Definition provided_strategy (fmt : string) (accessStrategy : option WorkspaceAccessStrategy)
    : M W (option WorkspaceAccessStrategy) :=
  w <- get_ws ;;
  match accessStrategy, sp_AccessStrategy (ws_Spec w) with
  | None, Some _ => st_wrap fmt [] GetAccessStrategyForWorkspace
  | _, _ => st_ret accessStrategy
  end.

Definition updateDeployment (deployment : Deployment)
    (accessStrategy : option WorkspaceAccessStrategy) (integrationTemplates : Templates)
    : M W Deployment :=
  accessStrategy <- provided_strategy "failed to retrieve access strategy for deployment: %w"
                      accessStrategy ;;
  updated <- st_wrap "failed to build updated deployment: %w" []
    (on_workspace (BuildWorkspaceDeployment B accessStrategy integrationTemplates)) ;;
  let deployment := mkDeployment (dep_ObjectMeta deployment) (dep_Spec updated)
    (dep_Conditions deployment) (dep_AvailableReplicas deployment) (dep_ReadyReplicas deployment) in
  st_wrap "failed to update deployment: %w" []
    (on_cluster (crud_Update (c_Deployment client) deployment)).

(** ensureDeploymentUpToDate checks if deployment needs update and updates it;
    a failed replay of a frozen integration keeps the running deployment. *)
Definition ensureDeploymentUpToDate (deployment : Deployment)
    (accessStrategy : option WorkspaceAccessStrategy) (integrationTemplates : Templates)
    : M W Deployment :=
  w <- get_ws ;;
  if negb (IsWorkspaceAvailable w) then st_ret deployment
  else
  accessStrategy <- provided_strategy "failed to retrieve access strategy for comparison: %w"
                      accessStrategy ;;
  needsUpdate <- st_try (on_workspace
    (Deployment_NeedsUpdate B deployment accessStrategy integrationTemplates)) ;;
  match needsUpdate with
  | Fail err =>
      if ErrorIs err "errIntegrationReplayFailed" then st_ret deployment
      else st_fail (Wrapf "failed to check if deployment needs update: %w" [] err)
  | Ok true => updateDeployment deployment accessStrategy integrationTemplates
  | Ok false => st_ret deployment
  end.

(** EnsureDeploymentExists creates a deployment if it doesn't exist, or updates it. *)
Definition EnsureDeploymentExists (accessStrategy : option WorkspaceAccessStrategy)
    (integrationTemplates : Templates) : M W Deployment :=
  r <- st_try getDeployment ;;
  match r with
  | Fail err =>
      if IsNotFound err then createDeployment accessStrategy integrationTemplates
      else st_fail (Wrapf "failed to get deployment: %w" [] err)
  | Ok deployment => ensureDeploymentUpToDate deployment accessStrategy integrationTemplates
  end.

Definition updateService (service : Service) (accessStrategy : option WorkspaceAccessStrategy)
    : M W Service :=
  w <- get_ws ;;
  service <- st_lift (wrap_err "failed to update service spec: %w" []
               (UpdateServiceSpec B service w accessStrategy)) ;;
  st_wrap "failed to update service: %w" []
    (on_cluster (crud_Update (c_Service client) service)).

Definition ensureServiceUpToDate (service : Service)
    (accessStrategy : option WorkspaceAccessStrategy) : M W Service :=
  w <- get_ws ;;
  if negb (IsWorkspaceAvailable w) then st_ret service
  else
  accessStrategy <- provided_strategy "failed to retrieve access strategy for comparison: %w"
                      accessStrategy ;;
  needsUpdate <- st_lift (wrap_err "failed to check if service needs update: %w" []
                   (Service_NeedsUpdate B service w accessStrategy)) ;;
  if (needsUpdate : bool) then updateService service accessStrategy else st_ret service.

(** EnsureServiceExists creates a service if it doesn't exist, or updates it. *)
Definition EnsureServiceExists (accessStrategy : option WorkspaceAccessStrategy) : M W Service :=
  r <- st_try getService ;;
  match r with
  | Fail err =>
      if IsNotFound err then createService accessStrategy
      else st_fail (Wrapf "failed to get service: %w" [] err)
  | Ok service => ensureServiceUpToDate service accessStrategy
  end.

Definition updatePVC (pvc : PersistentVolumeClaim) : M W PersistentVolumeClaim :=
  w <- get_ws ;;
  pvc <- st_lift (wrap_err "failed to update PVC spec: %w" [] (UpdatePVCSpec B pvc w)) ;;
  st_wrap "failed to update PVC: %w" [] (on_cluster (crud_Update (c_PVC client) pvc)).

Definition ensurePVCUpToDate (pvc : PersistentVolumeClaim) : M W PersistentVolumeClaim :=
  w <- get_ws ;;
  if negb (IsWorkspaceAvailable w) then st_ret pvc
  else
  needsUpdate <- st_lift (wrap_err "failed to check if PVC needs update: %w" []
                   (PVC_NeedsUpdate B pvc w)) ;;
  if (needsUpdate : bool) then updatePVC pvc else st_ret pvc.

(** EnsurePVCExists creates a PVC if storage is configured, or updates it. *)
Definition EnsurePVCExists : M W (option PersistentVolumeClaim) :=
  w <- get_ws ;;
  match sp_Storage (ws_Spec w) with
  | None => st_ret None
  | Some _ =>
      r <- st_try getPVC ;;
      match r with
      | Fail err =>
          if IsNotFound err then createPVC
          else st_fail (Wrapf "failed to get PVC: %w" [] err)
      | Ok pvc => p <- ensurePVCUpToDate pvc ;; st_ret (Some p)
      end
  end.

(** ** Deletion *)

(** EnsureDeploymentDeleted initiates deletion, or returns the deployment if it
    is already being deleted; the object returned is the one read before. *)
Definition EnsureDeploymentDeleted : M W (option Deployment) :=
  r <- st_try getDeployment ;;
  match r with
  | Fail err =>
      if IsNotFound err then st_ret None
      else st_fail (Wrapf "failed to get deployment: %w" [] err)
  | Ok deployment =>
      if negb (IsDeploymentMissingOrDeleting (Some deployment)) then
        st_wrap "failed to delete deployment: %w" []
          (on_cluster (crud_Delete (c_Deployment client) deployment)) ;;
        st_ret (Some deployment)
      else st_ret (Some deployment)
  end.

(** EnsureServiceDeleted initiates deletion of the service. *)
Definition EnsureServiceDeleted : M W (option Service) :=
  r <- st_try getService ;;
  match r with
  | Fail err =>
      if IsNotFound err then st_ret None
      else st_fail (Wrapf "failed to get service: %w" [] err)
  | Ok service =>
      if negb (IsServiceMissingOrDeleting (Some service)) then
        st_wrap "failed to delete service: %w" []
          (on_cluster (crud_Delete (c_Service client) service)) ;;
        st_ret (Some service)
      else st_ret (Some service)
  end.

(** EnsurePVCDeleted initiates PVC deletion (workspace deletion, not stop). *)
Definition EnsurePVCDeleted : M W (option PersistentVolumeClaim) :=
  r <- st_try getPVC ;;
  match r with
  | Fail err =>
      if IsNotFound err then st_ret None
      else st_fail (Wrapf "failed to get PVC: %w" [] err)
  | Ok pvc =>
      if negb (is_deleting (pvc_ObjectMeta pvc)) then
        on_cluster (crud_Delete (c_PVC client) pvc) ;; st_ret (Some pvc)
      else st_ret (Some pvc)
  end.

(** ** Access resources *)

(** ensureAccessResourceDeleted queries and attempts to delete one access
    resource recorded in the status. *)
Definition ensureAccessResourceDeleted (accessResource : AccessResourceStatus) : M W bool :=
  let crud := c_Unstructured client
    (getGroupVersionKind (ars_APIVersion accessResource) (ars_Kind accessResource)) in
  r <- st_try (on_cluster
         (crud_Get crud (ars_Name accessResource) (ars_Namespace accessResource))) ;;
  match r with
  | Fail err =>
      if IsNotFound err then st_ret true
      else st_fail (Wrapf "failed to retrieve AccessResource: %w" [] err)
  | Ok existing =>
      d <- st_try (on_cluster (crud_Delete crud existing)) ;;
      match d with
      | Fail err =>
          if IsNotFound err then st_ret true
          else st_fail (Wrapf "failed to delete resource: %w" [] err)
      | Ok _ => st_ret true
      end
  end.

(** The loop of EnsureAccessResourcesDeleted: the resources not removed. *)
Fixpoint delete_access_loop (resources filteredResources : list AccessResourceStatus)
    : M W (list AccessResourceStatus) :=
  match resources with
  | [] => st_ret filteredResources
  | r :: rest =>
      removed <- ensureAccessResourceDeleted r ;;
      delete_access_loop rest
        (if (removed : bool) then filteredResources else filteredResources ++ [r])
  end.

(** EnsureAccessResourcesDeleted removes routing resources for the Workspace. *)
Definition EnsureAccessResourcesDeleted : M W unit :=
  w <- get_ws ;;
  if bool_decide (st_AccessResources (ws_Status w) = []) then st_ret tt
  else
    filteredResources <- delete_access_loop (st_AccessResources (ws_Status w)) [] ;;
    modify_status (set_st_AccessResources filteredResources).

(** The name and the key under which a template's resource is recorded. *)
Definition lookup_name (t : AccessResourceTemplate) (w : Workspace) : string :=
  art_NamePrefix t +:+ "-" +:+ ws_Name w.
Definition resource_key (kind name namespace : string) : string :=
  kind +:+ "/" +:+ name +:+ "/" +:+ namespace.

(** The index and entry of the first status entry of a template. *)
Fixpoint find_status (kind name namespace : string) (l : list AccessResourceStatus) (idx : nat)
    : option (nat * AccessResourceStatus) :=
  match l with
  | [] => None
  | r :: rest =>
      if bool_decide (ars_Kind r = kind) && bool_decide (ars_Name r = name) &&
         bool_decide (ars_Namespace r = namespace)
      then Some (idx, r) else find_status kind name namespace rest (S idx)
  end.

(** Create the object, or bring an existing one to it. *)
Definition create_or_update (obj : Unstructured) : M W Unstructured :=
  let crud := c_Unstructured client (getGroupVersionKind (un_APIVersion obj) (un_Kind obj)) in
  c <- st_try (on_cluster (crud_Create crud obj)) ;;
  match c with
  | Ok obj' => st_ret obj'
  | Fail err =>
      if IsAlreadyExists err then
        existing <- st_wrap "failed to get existing resource: %w" []
          (on_cluster (crud_Get crud (om_Name (un_ObjectMeta obj))
             (om_Namespace (un_ObjectMeta obj)))) ;;
        let obj := set_un_ObjectMeta (set_om_ResourceVersion
          (om_ResourceVersion (un_ObjectMeta existing)) (un_ObjectMeta obj)) obj in
        st_wrap "failed to update resource: %w" [] (on_cluster (crud_Update crud obj))
      else st_fail (Wrapf "failed to create resource: %w" [] err)
  end.

(** CASE 2 of ensureAccessResourceExists: build, own, apply and record. *)
Definition apply_access_resource (accessStrategy : WorkspaceAccessStrategy) (service : Service)
    (t : AccessResourceTemplate) (addToStatus : bool) : M W unit :=
  w <- get_ws ;;
  obj <- st_lift (wrap_err "failed to build resource: %w" []
           (BuildUnstructuredResource B t w accessStrategy service)) ;;
  obj <- st_lift (wrap_err "failed to set controller reference: %w" []
           (SetControllerReference B w obj)) ;;
  obj <- create_or_update obj ;;
  if addToStatus then
    modify_status (fun s => set_st_AccessResources (st_AccessResources s ++
      [mkAccessResourceStatus (un_Kind obj) (un_APIVersion obj) (om_Name (un_ObjectMeta obj))
         (om_Namespace (un_ObjectMeta obj))]) s)
  else st_ret tt.

(** ensureAccessResourceExists creates or updates one access resource. *)
Definition ensureAccessResourceExists (accessStrategy : WorkspaceAccessStrategy)
    (service : Service) (t : AccessResourceTemplate) (accessResourceNamespace : string)
    : M W unit :=
  w <- get_ws ;;
  match find_status (art_Kind t) (lookup_name t w) accessResourceNamespace
          (st_AccessResources (ws_Status w)) 0 with
  | None => apply_access_resource accessStrategy service t true
  | Some (statusIdx, entry) =>
      let crud := c_Unstructured client
        (getGroupVersionKind (ars_APIVersion entry) (ars_Kind entry)) in
      r <- st_try (on_cluster (crud_Get crud (ars_Name entry) (ars_Namespace entry))) ;;
      match r with
      | Ok existingObj =>
          expectedObj <- st_lift (wrap_err "failed to build expected resource: %w" []
            (BuildUnstructuredResource B t w accessStrategy service)) ;;
          match un_Spec existingObj, un_Spec expectedObj with
          | Some existingSpec, Some expectedSpec =>
              if negb (bool_decide (existingSpec = expectedSpec)) then
                let updated := set_un_ObjectMeta (set_om_ResourceVersion
                  (om_ResourceVersion (un_ObjectMeta existingObj)) (un_ObjectMeta expectedObj))
                  expectedObj in
                st_wrap "failed to update access resource: %w" []
                  (on_cluster (crud_Update (c_Unstructured client
                     (getGroupVersionKind (un_APIVersion updated) (un_Kind updated))) updated)) ;;
                st_ret tt
              else st_ret tt
          | _, _ => st_ret tt
          end
      | Fail err =>
          if negb (IsNotFound err) then
            st_fail (Wrapf "error getting access resource: %w" [] err)
          else
            modify_status (fun s => set_st_AccessResources
              (take statusIdx (st_AccessResources s) ++
               drop (S statusIdx) (st_AccessResources s)) s) ;;
            apply_access_resource accessStrategy service t true
      end
  end.

(** The first loop of EnsureAccessResourcesExist. *)
Fixpoint ensure_access_loop (accessStrategy : WorkspaceAccessStrategy) (service : Service)
    (accessResourceNamespace : string) (templates : list AccessResourceTemplate) : M W unit :=
  match templates with
  | [] => st_ret tt
  | t :: rest =>
      ensureAccessResourceExists accessStrategy service t accessResourceNamespace ;;
      ensure_access_loop accessStrategy service accessResourceNamespace rest
  end.

(** The deletion loop of EnsureAccessResourcesExist. *)
Fixpoint delete_removed_loop (resources : list AccessResourceStatus) (deleted : bool) : M W bool :=
  match resources with
  | [] => st_ret deleted
  | r :: rest =>
      removed <- st_wrap "failed to delete removed access resource: %w" []
                   (ensureAccessResourceDeleted r) ;;
      delete_removed_loop rest (deleted || (removed : bool))
  end.

(** EnsureAccessResourcesExist creates or updates routing resources for the
    Workspace and deletes those its strategy no longer lists. *)
Definition EnsureAccessResourcesExist (accessStrategy : WorkspaceAccessStrategy)
    (service : Service) : M W unit :=
  w <- get_ws ;;
  let accessResourceNamespace := ws_Namespace w in
  let templates := asps_AccessResourceTemplates (was_Spec accessStrategy) in
  let currentResources := (fun t =>
    resource_key (art_Kind t) (lookup_name t w) accessResourceNamespace) <$> templates in
  ensure_access_loop accessStrategy service accessResourceNamespace templates ;;
  w <- get_ws ;;
  let listed r :=
    bool_decide (resource_key (ars_Kind r) (ars_Name r) (ars_Namespace r) ∈ currentResources) in
  let resourcesToKeep := List.filter listed (st_AccessResources (ws_Status w)) in
  let resourcesToDelete :=
    List.filter (fun r => negb (listed r)) (st_AccessResources (ws_Status w)) in
  deleted <- delete_removed_loop resourcesToDelete false ;;
  if (deleted : bool) then modify_status (set_st_AccessResources resourcesToKeep) else st_ret tt.

(** ** Cleanup *)

(** [err == nil || !IsNotFound(err)]. *)
Definition still_there {A} (m : M W A) : M W bool :=
  r <- st_try m ;;
  st_ret (match r with Ok _ => true | Fail err => negb (IsNotFound err) end).

(** AreAllResourcesDeleted checks if all workspace resources are fully removed. *)
Definition AreAllResourcesDeleted : M W bool :=
  d <- still_there getDeployment ;;
  if (d : bool) then st_ret false else
  s <- still_there getService ;;
  if (s : bool) then st_ret false else
  p <- still_there getPVC ;;
  if (p : bool) then st_ret false else
  w <- get_ws ;;
  st_ret (AreAccessResourcesDeleted w).

(** CleanupAllResources deletes all resources; an error on the access
    resources does not stop the others. *)
Definition CleanupAllResources : M W bool :=
  st_try EnsureAccessResourcesDeleted ;;
  EnsureDeploymentDeleted ;;
  EnsureServiceDeleted ;;
  EnsurePVCDeleted ;;
  AreAllResourcesDeleted.
End resources.

(** ** What cleanup relies on *)

(** The API server as the cleanup sees it: reads change nothing; a resource that
    a read reports missing, or whose deletion was accepted (or found it gone), is
    [leaving], and no later read or deletion brings it back. *)
Class CleanupClient {W} (client : Client W)
    (leaving : GroupVersionKind -> string -> string -> W -> Prop) : Prop := {
  get_deployment_pure : forall n ns c, (crud_Get (c_Deployment client) n ns c).2 = c;
  get_service_pure : forall n ns c, (crud_Get (c_Service client) n ns c).2 = c;
  get_pvc_pure : forall n ns c, (crud_Get (c_PVC client) n ns c).2 = c;
  get_unstructured_pure : forall g n ns c, (crud_Get (c_Unstructured client g) n ns c).2 = c;
  leaving_missing : forall g n ns c e c',
    crud_Get (c_Unstructured client g) n ns c = (Fail e, c') -> IsNotFound e = true ->
    leaving g n ns c';
  leaving_deleted : forall g n ns c o c1 r c2,
    crud_Get (c_Unstructured client g) n ns c = (Ok o, c1) ->
    crud_Delete (c_Unstructured client g) o c1 = (r, c2) ->
    match r with Ok _ => True | Fail e => IsNotFound e = true end -> leaving g n ns c2;
  leaving_del_unstructured : forall g n ns g' o c,
    leaving g n ns c -> leaving g n ns (crud_Delete (c_Unstructured client g') o c).2;
  leaving_del_deployment : forall g n ns o c,
    leaving g n ns c -> leaving g n ns (crud_Delete (c_Deployment client) o c).2;
  leaving_del_service : forall g n ns o c,
    leaving g n ns c -> leaving g n ns (crud_Delete (c_Service client) o c).2;
  leaving_del_pvc : forall g n ns o c,
    leaving g n ns c -> leaving g n ns (crud_Delete (c_PVC client) o c).2;
}.

(** In the in-memory cluster: absent, or marked for deletion. *)
Definition un_key (o : Unstructured) : string :=
  obj_key (om_Namespace (un_ObjectMeta o)) (om_Name (un_ObjectMeta o)).
Definition mem_leaving (_ : GroupVersionKind) (name ns : string) (m : Mem) : Prop :=
  forall o, m_Unstructured m !! obj_key ns name = Some o -> un_key o = obj_key ns name ->
  is_deleting (un_ObjectMeta o) = true.

#[export] Instance mem_cleanup_client slow : CleanupClient (mem_k8s slow) mem_leaving.
Proof.
  assert (Hdel : forall n ns o c, mem_leaving (mkGVK "" "" "") n ns c ->
    mem_leaving (mkGVK "" "" "") n ns
      (crud_Delete (c_Unstructured (mem_k8s slow) (mkGVK "" "" "")) o c).2).
  { intros n ns o c Hl o'. cbn. fold (un_key o).
    destruct (m_Unstructured c !! un_key o) as [b|] eqn:E; cbn; [|by apply Hl].
    destruct slow; cbn.
    - intros [[_ <-]|[_ ?]]%lookup_insert_Some; [done|by apply Hl].
    - intros [_ ?]%lookup_delete_Some. by apply Hl. }
  split.
  - intros n ns c. cbn. repeat case_match; done.
  - intros n ns c. cbn. repeat case_match; done.
  - intros n ns c. cbn. repeat case_match; done.
  - intros ? n ns c. cbn. repeat case_match; done.
  - intros ? n ns c e c' Hg _ o Ho Hk. cbn in Hg. unfold un_key in Hk.
    destruct (m_Unstructured c !! obj_key ns n) as [o'|] eqn:E; cbn in Hg; [|congruence].
    case_bool_decide as Hk'; [done|]. injection Hg as <- <-. rewrite E in Ho.
    injection Ho as ->. done.
  - intros g n ns c o c1 r c2 Hg Hd _ o' Ho Hk. cbn in Hg, Hd. fold (un_key o) in Hd.
    destruct (m_Unstructured c !! obj_key ns n) as [o1|] eqn:E; [|done].
    case_bool_decide as Hk'; [|done]. injection Hg as -> ->.
    assert (Hko : un_key o = obj_key ns n) by exact Hk'. rewrite Hko, E in Hd.
    injection Hd as <- <-. destruct slow; cbn in Ho.
    + rewrite lookup_insert_eq in Ho. by injection Ho as <-.
    + by rewrite lookup_delete_eq in Ho.
  - intros ? n ns ? o c. exact (Hdel n ns o c).
  - intros ? n ns o c Hl. cbn. case_match; [|done]. exact Hl.
  - intros ? n ns o c Hl. cbn. case_match; [|done]. exact Hl.
  - intros ? n ns o c Hl. cbn. case_match; [|done]. exact Hl.
Qed.

(** ** What the operations leave alone *)

Section frames.
Context {W : Type} (client : Client W) (B : Builders).

Lemma GetAccessStrategyForWorkspace_frame :
  respects same_object (GetAccessStrategyForWorkspace client).
Proof. unfold GetAccessStrategyForWorkspace. solve_respects. Qed.
Local Hint Resolve GetAccessStrategyForWorkspace_frame : gok8s.

Lemma EnsureDeploymentExists_frame strategy templates :
  respects same_but_env (EnsureDeploymentExists client B strategy templates).
Proof.
  unfold EnsureDeploymentExists, getDeployment, createDeployment, ensureDeploymentUpToDate,
    updateDeployment, provided_strategy. solve_respects.
Qed.

Lemma EnsureServiceExists_frame strategy :
  respects same_object (EnsureServiceExists client B strategy).
Proof.
  unfold EnsureServiceExists, getService, createService, ensureServiceUpToDate,
    updateService, provided_strategy. solve_respects.
Qed.

Lemma EnsurePVCExists_frame : respects same_object (EnsurePVCExists client B).
Proof.
  unfold EnsurePVCExists, getPVC, createPVC, ensurePVCUpToDate, updatePVC. solve_respects.
Qed.

Lemma EnsureDeploymentDeleted_frame : respects same_object (EnsureDeploymentDeleted client).
Proof. unfold EnsureDeploymentDeleted, getDeployment. solve_respects. Qed.

Lemma EnsureServiceDeleted_frame : respects same_object (EnsureServiceDeleted client).
Proof. unfold EnsureServiceDeleted, getService. solve_respects. Qed.

Lemma EnsurePVCDeleted_frame : respects same_object (EnsurePVCDeleted client).
Proof. unfold EnsurePVCDeleted, getPVC. solve_respects. Qed.

Lemma ensureAccessResourceDeleted_frame r :
  respects same_object (ensureAccessResourceDeleted client r).
Proof. unfold ensureAccessResourceDeleted. solve_respects. Qed.
Local Hint Resolve ensureAccessResourceDeleted_frame : gok8s.

Lemma delete_access_loop_frame rs acc :
  respects same_object (delete_access_loop client rs acc).
Proof. revert acc. induction rs; intros acc; cbn; solve_respects. Qed.

(** Only the recorded access resources change, and only on success. *)
Lemma EnsureAccessResourcesDeleted_ok s s' :
  EnsureAccessResourcesDeleted client s = (Ok tt, s') ->
  env_ws s' = set_ws_Status (set_st_AccessResources [] (ws_Status (env_ws s))) (env_ws s) /\
  env_clock s' = env_clock s /\ env_events s' = env_events s.
Proof.
  assert (Hloop : forall rs acc s l s', delete_access_loop client rs acc s = (Ok l, s') -> l = acc).
  { induction rs as [|r rs IH]; intros acc s0 l s0' Hr; cbn in Hr; inv_run Hr; [done|].
    assert (a = true) as ->; [|by apply IH in Hr].
    unfold ensureAccessResourceDeleted in Hr0. inv_run Hr0.
    repeat (case_match; inv_run Hr0; try done). }
  unfold EnsureAccessResourcesDeleted. intros Hr. inv_run Hr.
  case_bool_decide as E; inv_run Hr.
  - split_and!; try done. rewrite <- E. by destruct (env_ws s') as [? ? []].
  - pose proof (delete_access_loop_frame (st_AccessResources (ws_Status (env_ws s))) [] s)
      as (E1 & E2 & E3). rewrite Hr0 in E1, E2, E3. cbn in E1, E2, E3.
    apply Hloop in Hr0 as ->. unfold modify_status, modify_ws in Hr.
    injection Hr as <-. cbn. by rewrite E1, E2, E3.
Qed.

Lemma EnsureAccessResourcesDeleted_fail s e s' :
  EnsureAccessResourcesDeleted client s = (Fail e, s') -> same_object s s'.
Proof.
  unfold EnsureAccessResourcesDeleted. rewrite get_ws_run. case_bool_decide; [done|].
  pose proof (delete_access_loop_frame (st_AccessResources (ws_Status (env_ws s))) [] s) as Hf.
  unfold st_bind. destruct (delete_access_loop _ _ _ _) as [[]]; cbn in *; [done|].
  by intros [= _ <-].
Qed.
End frames.
#[export] Hint Resolve GetAccessStrategyForWorkspace_frame EnsureDeploymentExists_frame
  EnsureServiceExists_frame EnsurePVCExists_frame EnsureDeploymentDeleted_frame
  EnsureServiceDeleted_frame EnsurePVCDeleted_frame ensureAccessResourceDeleted_frame : gok8s.

(** Parts of the status other than the recorded access resources are left alone
    by deletion. *)
Section deletion_frames.
Context {W : Type} (client : Client W) {B : Type} (f : WorkspaceStatus -> B).
Hypothesis Hf : forall l st, f (set_st_AccessResources l st) = f st.

Lemma EnsureAccessResourcesDeleted_same_on :
  respects (same_on f) (EnsureAccessResourcesDeleted client).
Proof.
  unfold EnsureAccessResourcesDeleted. solve_respects.
  - apply same_object_on, delete_access_loop_frame.
  - apply same_on_modify_status. intros st. apply Hf.
Qed.

Lemma CleanupAllResources_same_on : respects (same_on f) (CleanupAllResources client).
Proof.
  unfold CleanupAllResources. repeat respects_step.
  - apply EnsureAccessResourcesDeleted_same_on.
  - apply same_object_on, EnsureDeploymentDeleted_frame.
  - apply same_object_on, EnsureServiceDeleted_frame.
  - apply same_object_on, EnsurePVCDeleted_frame.
  - unfold AreAllResourcesDeleted, still_there, getDeployment, getService, getPVC. solve_respects.
Qed.
End deletion_frames.

(** ** Cleanup is complete *)

(** A read that reports the object missing. *)
Definition missing {W A} (read : result A * W) : Prop :=
  exists e, read.1 = Fail e /\ IsNotFound e = true.

Section cleanup.
Context {W : Type} (client : Client W)
  (leaving : GroupVersionKind -> string -> string -> W -> Prop)
  {CC : CleanupClient client leaving}.

Definition status_leaving (c : W) (r : AccessResourceStatus) : Prop :=
  leaving (getGroupVersionKind (ars_APIVersion r) (ars_Kind r)) (ars_Name r) (ars_Namespace r) c.

Lemma keeps_reads {A} (P : W -> Prop) (m : ST W A) :
  (forall c, (m c).2 = c) -> respects (keeps P) (on_cluster m).
Proof. intros Hm. apply keeps_on_cluster. intros c. by rewrite Hm. Qed.

Lemma deletions_keep_leaving g n ns :
  respects (keeps (leaving g n ns)) (EnsureDeploymentDeleted client) /\
  respects (keeps (leaving g n ns)) (EnsureServiceDeleted client) /\
  respects (keeps (leaving g n ns)) (EnsurePVCDeleted client) /\
  forall r, respects (keeps (leaving g n ns)) (ensureAccessResourceDeleted client r).
Proof.
  unfold EnsureDeploymentDeleted, EnsureServiceDeleted, EnsurePVCDeleted, getDeployment,
    getService, getPVC, ensureAccessResourceDeleted.
  split_and!; [| | |intros r]; solve_respects;
    first [apply keeps_reads; intros c;
           first [apply get_deployment_pure|apply get_service_pure|apply get_pvc_pure
                 |apply get_unstructured_pure]
          |apply keeps_on_cluster; intros c;
           first [apply leaving_del_deployment|apply leaving_del_service
                 |apply leaving_del_pvc|apply leaving_del_unstructured]].
Qed.

Lemma ensureAccessResourceDeleted_leaving r s b s' :
  ensureAccessResourceDeleted client r s = (Ok b, s') -> status_leaving (env_cluster s') r.
Proof.
  unfold ensureAccessResourceDeleted. intros Hr. inv_run Hr. unfold on_cluster in Hr0.
  destruct (crud_Get _ _ _ _) as [g c1] eqn:Eg. injection Hr0 as -> <-. destruct a as [o|e].
  - inv_run Hr. unfold on_cluster in Hr0. cbn in Hr0.
    destruct (crud_Delete _ _ _) as [d c2] eqn:Ed. injection Hr0 as -> <-.
    assert (Hd : match a with Ok _ => True | Fail e => IsNotFound e = true end).
    { destruct a as [|e]; [done|]. destruct (IsNotFound e); [done|inv_run Hr]. }
    assert (E : env_cluster s' = c2).
    { destruct a as [|e]; [|destruct (IsNotFound e)]; inv_run Hr; done. }
    unfold status_leaving. rewrite E. by eapply leaving_deleted.
  - destruct (IsNotFound e) eqn:En; inv_run Hr. cbn. unfold status_leaving.
    by eapply leaving_missing.
Qed.

Lemma EnsureAccessResourcesDeleted_leaving s s' :
  EnsureAccessResourcesDeleted client s = (Ok tt, s') ->
  forall r, r ∈ st_AccessResources (ws_Status (env_ws s)) -> status_leaving (env_cluster s') r.
Proof.
  assert (Hk : forall r rs acc, respects (keeps (fun c => status_leaving c r))
    (delete_access_loop client rs acc)).
  { intros r. induction rs as [|r' rs IH]; intros acc; cbn; solve_respects.
    apply deletions_keep_leaving. }
  assert (Hloop : forall rs acc s l s', delete_access_loop client rs acc s = (Ok l, s') ->
    forall r, r ∈ rs -> status_leaving (env_cluster s') r).
  { induction rs as [|r rs IH]; intros acc s0 l s0' Hr x; [by intros ?%elem_of_nil|].
    cbn in Hr. inv_run Hr. intros [->|Hx]%elem_of_cons; [|by eapply IH].
    apply ensureAccessResourceDeleted_leaving in Hr0.
    pose proof (Hk r rs (if a then acc else acc ++ [r]) s1 Hr0) as Hend. by rewrite Hr in Hend. }
  unfold EnsureAccessResourcesDeleted. intros Hr. inv_run Hr.
  case_bool_decide as E; inv_run Hr; [rewrite E; by intros r ?%elem_of_nil|].
  unfold modify_status, modify_ws in Hr. injection Hr as <-. cbn. by eapply Hloop.
Qed.

(** The last check, on the cluster and the object it is given. *)
Lemma AreAllResourcesDeleted_spec s b s' :
  AreAllResourcesDeleted client s = (Ok b, s') ->
  s' = s /\
  (b = true <->
    missing (crud_Get (c_Deployment client) (GenerateDeploymentName (ws_Name (env_ws s)))
      (ws_Namespace (env_ws s)) (env_cluster s)) /\
    missing (crud_Get (c_Service client) (GenerateServiceName (ws_Name (env_ws s)))
      (ws_Namespace (env_ws s)) (env_cluster s)) /\
    missing (crud_Get (c_PVC client) (GeneratePVCName (ws_Name (env_ws s)))
      (ws_Namespace (env_ws s)) (env_cluster s)) /\
    st_AccessResources (ws_Status (env_ws s)) = []).
Proof.
  assert (Hst : forall A (read : string -> string -> ST W A) n,
    (forall n ns c, (read n ns c).2 = c) ->
    forall b s0 s1, still_there (w0 <- get_ws ;; on_cluster (read (n (ws_Name w0)) (ws_Namespace w0)))%go s0
      = (Ok b, s1) -> s1 = s0 /\ (b = false <->
        missing (read (n (ws_Name (env_ws s0))) (ws_Namespace (env_ws s0)) (env_cluster s0)))).
  { intros A read n Hpure b0 s0 s1 Hr. unfold still_there in Hr. inv_run Hr.
    rewrite get_ws_run in Hr0. unfold on_cluster in Hr0.
    specialize (Hpure (n (ws_Name (env_ws s0))) (ws_Namespace (env_ws s0)) (env_cluster s0)).
    destruct (read _ _ _) as [r c1]; cbn in Hpure; subst c1. injection Hr0 as <- <-.
    split; [by destruct s0|]. unfold missing. cbn. destruct r as [x|e].
    - split; [done|]. by intros (? & ? & _).
    - rewrite negb_false_iff. split; [eauto|]. by intros (? & [= ->] & ?). }
  unfold AreAllResourcesDeleted. intros Hr. inv_run Hr.
  apply (Hst _ _ GenerateDeploymentName get_deployment_pure) in Hr0 as [-> Hd].
  destruct a; inv_run Hr; [split; [done|split; [done|]]; by intros (?%Hd & _)|].
  apply (Hst _ _ GenerateServiceName get_service_pure) in Hr0 as [-> Hs].
  destruct a; inv_run Hr; [split; [done|split; [done|]]; by intros (_ & ?%Hs & _)|].
  apply (Hst _ _ GeneratePVCName get_pvc_pure) in Hr0 as [-> Hp].
  destruct a; inv_run Hr; [split; [done|split; [done|]]; by intros (_ & _ & ?%Hp & _)|].
  split; [done|]. unfold AreAccessResourcesDeleted. rewrite bool_decide_eq_true. tauto.
Qed.
End cleanup.

Lemma CleanupAllResources_spec {W} (client : Client W)
    (leaving : GroupVersionKind -> string -> string -> W -> Prop)
    {CC : CleanupClient client leaving} (s s' : Env W) (b : bool) :
  CleanupAllResources client s = (Ok b, s') ->
  (b = true <->
     missing (crud_Get (c_Deployment client) (GenerateDeploymentName (ws_Name (env_ws s)))
       (ws_Namespace (env_ws s)) (env_cluster s')) /\
     missing (crud_Get (c_Service client) (GenerateServiceName (ws_Name (env_ws s)))
       (ws_Namespace (env_ws s)) (env_cluster s')) /\
     missing (crud_Get (c_PVC client) (GeneratePVCName (ws_Name (env_ws s)))
       (ws_Namespace (env_ws s)) (env_cluster s')) /\
     st_AccessResources (ws_Status (env_ws s')) = []) /\
  (b = true -> forall r, r ∈ st_AccessResources (ws_Status (env_ws s)) ->
     status_leaving leaving (env_cluster s') r) /\
  ws_ObjectMeta (env_ws s') = ws_ObjectMeta (env_ws s).
Proof.
  unfold CleanupAllResources. intros Hr. inv_run Hr.
  apply (AreAllResourcesDeleted_spec client leaving) in Hr as [-> Hb].
  pose proof (EnsureDeploymentDeleted_frame client s0) as (Ed & _).
  pose proof (EnsureServiceDeleted_frame client s1) as (Es & _).
  pose proof (EnsurePVCDeleted_frame client s2) as (Ep & _).
  rewrite Hr1 in Ed. rewrite Hr2 in Es. rewrite Hr3 in Ep. cbn in Ed, Es, Ep.
  assert (Ews : env_ws s3 = env_ws s0) by congruence.
  assert (Hmeta : ws_ObjectMeta (env_ws s0) = ws_ObjectMeta (env_ws s)).
  { destruct a as [[]|e].
    - by apply EnsureAccessResourcesDeleted_ok in Hr0 as (-> & _).
    - by apply EnsureAccessResourcesDeleted_fail in Hr0 as (-> & _). }
  unfold ws_Name, ws_Namespace in *. rewrite Ews in Hb |- *. rewrite Hmeta in Hb. split_and!; [done| |by rewrite Hmeta].
  intros (_ & _ & _ & Hnil)%Hb r Hin. destruct a as [[]|e].
  - pose proof (EnsureAccessResourcesDeleted_leaving client leaving _ _ Hr0 r Hin) as Hl.
    destruct (deletions_keep_leaving client leaving
      (getGroupVersionKind (ars_APIVersion r) (ars_Kind r)) (ars_Name r) (ars_Namespace r))
      as (Kd & Ks & Kp & _).
    specialize (Kd s0 Hl). rewrite Hr1 in Kd. specialize (Ks s1 Kd). rewrite Hr2 in Ks.
    specialize (Kp s2 Ks). by rewrite Hr3 in Kp.
  - apply EnsureAccessResourcesDeleted_fail in Hr0 as (E & _). rewrite E in Hnil.
    rewrite Hnil in Hin. by apply elem_of_nil in Hin.
Qed.

(** Cleanup is complete: CleanupAllResources answers true exactly when the
    deployment, the service and the volume claim are all reported missing by the
    API server and the status records no access resource any more; and in that
    case every access resource recorded at the start has been found missing or
    had its deletion accepted. *)
Theorem CleanupAllResources_complete {W} (client : Client W)
    (leaving : GroupVersionKind -> string -> string -> W -> Prop)
    {CC : CleanupClient client leaving} (s s' : Env W) (b : bool) :
  CleanupAllResources client s = (Ok b, s') ->
  (b = true <->
     missing (crud_Get (c_Deployment client) (GenerateDeploymentName (ws_Name (env_ws s)))
       (ws_Namespace (env_ws s)) (env_cluster s')) /\
     missing (crud_Get (c_Service client) (GenerateServiceName (ws_Name (env_ws s)))
       (ws_Namespace (env_ws s)) (env_cluster s')) /\
     missing (crud_Get (c_PVC client) (GeneratePVCName (ws_Name (env_ws s)))
       (ws_Namespace (env_ws s)) (env_cluster s')) /\
     st_AccessResources (ws_Status (env_ws s')) = []) /\
  (b = true -> forall r, r ∈ st_AccessResources (ws_Status (env_ws s)) ->
     status_leaving leaving (env_cluster s') r).
Proof.
  intros Hr. by destruct (CleanupAllResources_spec client leaving s s' b Hr) as (Hb & Hl & _).
Qed.

(** A workspace with one recorded route, and the cluster that holds it. *)
Definition demo_route : AccessResourceStatus :=
  mkAccessResourceStatus "IngressRoute" "traefik.io/v1" "route-w" "ns".
Definition demo_routed_ws : Workspace :=
  set_ws_Status (set_st_AccessResources [demo_route] zero_status) demo_ws.
Definition demo_routed_mem : Mem :=
  mkMem ∅ ∅ ∅ ∅ ∅ ∅ {[ "ns/route-w" := mkUnstructured "traefik.io/v1" "IngressRoute"
                        (zero_meta "route-w" "ns") None None ]} 0.

Lemma CleanupAllResources_complete_witness :
  status_leaving mem_leaving (env_cluster (CleanupAllResources (mem_k8s false)
    (demo_env demo_routed_ws demo_routed_mem)).2) demo_route.
Proof.
  refine (proj2 (@CleanupAllResources_complete Mem (mem_k8s false) mem_leaving _
    (demo_env demo_routed_ws demo_routed_mem) _ true _) _ _ _).
  - vm_compute. reflexivity.
  - reflexivity.
  - cbn. by apply list_elem_of_singleton.
Defined.

(** ** Access resources converge *)

(** The identity of a recorded access resource. *)
Definition ident (r : AccessResourceStatus) : string * string * string :=
  (ars_Kind r, ars_Name r, ars_Namespace r).
Definition un_ident (o : Unstructured) : string * string * string :=
  (un_Kind o, om_Name (un_ObjectMeta o), om_Namespace (un_ObjectMeta o)).
Definition template_ident (w : Workspace) (t : AccessResourceTemplate) : string * string * string :=
  (art_Kind t, lookup_name t w, ws_Namespace w).
Definition ident_key (i : string * string * string) : string := resource_key i.1.1 i.1.2 i.2.

(** What recording relies on: the builder names the resource after the template
    and the workspace, and neither ownership nor the API server renames it. *)
Class AccessBuilder {W} (client : Client W) (B : Builders) : Prop := {
  build_ident : forall t w a svc o,
    BuildUnstructuredResource B t w a svc = Ok o -> un_ident o = template_ident w t;
  own_ident : forall w o o', SetControllerReference B w o = Ok o' -> un_ident o' = un_ident o;
  create_ident : forall g o c o' c',
    crud_Create (c_Unstructured client g) o c = (Ok o', c') -> un_ident o' = un_ident o;
  update_ident : forall g o c o' c',
    crud_Update (c_Unstructured client g) o c = (Ok o', c') -> un_ident o' = un_ident o;
}.

Lemma find_status_spec kind name ns l : forall idx,
  match find_status kind name ns l idx with
  | None => (kind, name, ns) ∉ ident <$> l
  | Some (i, r) => exists l1 l2, l = l1 ++ r :: l2 /\ i = (idx + length l1)%nat /\
      ident r = (kind, name, ns) /\ (kind, name, ns) ∉ ident <$> l1
  end.
Proof.
  induction l as [|r l IH]; intros idx; cbn [find_status]; [by intros ?%elem_of_nil|].
  destruct (bool_decide _ && bool_decide _ && bool_decide _) eqn:E.
  - bool_to_prop. exists [], l. unfold ident. split_and!; [done|cbn; lia|congruence|].
    by intros ?%elem_of_nil.
  - assert (Hne : ident r <> (kind, name, ns)).
    { unfold ident. intros [= <- <- <-]. by rewrite !bool_decide_true in E. }
    specialize (IH (S idx)). destruct (find_status _ _ _ l (S idx)) as [[i r']|].
    + destruct IH as (l1 & l2 & -> & -> & Hr & Hn). exists (r :: l1), l2.
      split_and!; [done|cbn; lia|done|]. cbn. by intros [?|?]%elem_of_cons.
    + cbn. by intros [?|?]%elem_of_cons.
Qed.

Lemma drop_middle {A} (l1 : list A) (x : A) (l2 : list A) :
  drop (S (length l1)) (l1 ++ x :: l2) = l2.
Proof. induction l1; done. Qed.

Lemma filter_complement {A} (f : A -> bool) (l : list A) :
  List.filter (fun x => negb (f x)) l = [] -> List.filter f l = l.
Proof.
  induction l as [|x l IH]; [done|]. cbn. destruct (f x); cbn; [|done]. intros E. by rewrite IH.
Qed.

Section converge.
Context {W : Type} (client : Client W) (B : Builders) {AB : AccessBuilder client B}.

Definition routes (s : Env W) : list AccessResourceStatus := st_AccessResources (ws_Status (env_ws s)).
Definition with_routes (l : list AccessResourceStatus) (w : Workspace) : Workspace :=
  set_ws_Status (set_st_AccessResources l (ws_Status w)) w.

(** One resource recorded: it is in the list, nothing else came or went. *)
Definition recorded (i : string * string * string) (l l' : list AccessResourceStatus) : Prop :=
  (forall x, x ∈ ident <$> l' <-> x = i \/ x ∈ ident <$> l) /\
  (NoDup (ident <$> l) -> NoDup (ident <$> l')).

Lemma create_or_update_frame o : respects same_object (create_or_update client o).
Proof. unfold create_or_update. solve_respects. Qed.

Lemma create_or_update_ident o s o' s' :
  create_or_update client o s = (Ok o', s') -> un_ident o' = un_ident o.
Proof.
  unfold create_or_update. intros Hr. inv_run Hr. unfold on_cluster in Hr0.
  destruct (crud_Create _ _ _) as [c1 cl] eqn:Ec. injection Hr0 as -> <-. destruct a as [o1|e].
  - inv_run Hr. by eapply create_ident.
  - destruct (IsAlreadyExists e); inv_run Hr. unfold on_cluster in Hr.
    destruct (crud_Update _ _ _) as [r2 c2] eqn:Eu. injection Hr as -> <-.
    apply update_ident in Eu. exact Eu.
Qed.

Lemma apply_access_resource_ok a svc t s s' :
  apply_access_resource client B a svc t true s = (Ok tt, s') ->
  exists r, ident r = template_ident (env_ws s) t /\
    env_ws s' = with_routes (routes s ++ [r]) (env_ws s).
Proof.
  unfold apply_access_resource. intros Hr. inv_run Hr.
  pose proof (create_or_update_frame a1 s) as (Ews & _). rewrite Hr2 in Ews. cbn in Ews.
  unfold modify_status, modify_ws in Hr. injection Hr as <-.
  apply create_or_update_ident in Hr2.
  apply (proj1 (wrap_err_Ok _ _ _ _)), build_ident in Hr0.
  apply (proj1 (wrap_err_Ok _ _ _ _)), own_ident in Hr1.
  eexists. split; [|unfold routes; cbn; by rewrite Ews].
  change (un_ident a2 = template_ident (env_ws s) t). congruence.
Qed.

Lemma recorded_append i l r : ident r = i -> i ∉ ident <$> l -> recorded i l (l ++ [r]).
Proof.
  intros Hr Hn. unfold recorded. rewrite fmap_app. cbn. rewrite Hr. split.
  - intros x. rewrite elem_of_app, list_elem_of_singleton. tauto.
  - intros Hd. apply NoDup_app. split_and!; [done| |apply NoDup_singleton].
    intros x Hx ->%list_elem_of_singleton. done.
Qed.

Lemma recorded_move i l1 r l2 r' :
  ident r = i -> ident r' = i -> recorded i (l1 ++ r :: l2) ((l1 ++ l2) ++ [r']).
Proof.
  intros Hr Hr'. unfold recorded. rewrite !fmap_app, fmap_cons. cbn. rewrite Hr, Hr'.
  split.
  - intros x. rewrite !elem_of_app, !elem_of_cons, elem_of_nil. tauto.
  - intros Hd. rewrite (Permutation_app_comm _ [i]). cbn. by rewrite Permutation_middle.
Qed.

Lemma recorded_same i l : i ∈ ident <$> l -> recorded i l l.
Proof. intros Hi. split; [|done]. intros x. split; [by right|by intros [->|?]]. Qed.

Lemma ensureAccessResourceExists_ok a svc t s s' :
  ensureAccessResourceExists client B a svc t (ws_Namespace (env_ws s)) s = (Ok tt, s') ->
  exists l, recorded (template_ident (env_ws s) t) (routes s) l /\
    env_ws s' = with_routes l (env_ws s).
Proof.
  unfold ensureAccessResourceExists. intros Hr. rewrite get_ws_run in Hr.
  pose proof (find_status_spec (art_Kind t) (lookup_name t (env_ws s))
    (ws_Namespace (env_ws s)) (routes s) 0) as Hf.
  fold (routes s) in Hr. destruct (find_status _ _ _ _ _) as [[i r]|].
  - destruct Hf as (l1 & l2 & El & -> & Hid & Hn). inv_run Hr.
    match type of Hr0 with on_cluster ?m _ = _ =>
      pose proof (same_object_on_cluster m s) as (Ews & _) end.
    rewrite Hr0 in Ews. cbn in Ews. destruct a0 as [existing|e].
    + exists (routes s). split.
      { apply recorded_same. rewrite El, fmap_app. apply elem_of_app. right. cbn.
        rewrite Hid. apply elem_of_cons. by left. }
      assert (Hs : same_object s s').
      { etrans; [split_and!; [exact Ews|..]; by
          match type of Hr0 with on_cluster ?m _ = _ =>
            pose proof (same_object_on_cluster m s) as (_ & E1 & E2); rewrite Hr0 in E1, E2 end|].
        match type of Hr with ?m s0 = _ => assert (Hm : respects same_object m) by solve_respects end.
        specialize (Hm s0). by rewrite Hr in Hm. }
      destruct Hs as (-> & _). unfold with_routes, routes. by destruct (env_ws s) as [? ? []].
    + destruct (IsNotFound e); cbn [negb] in Hr; inv_run Hr.
      unfold modify_status, modify_ws in Hr1. injection Hr1 as _ <-.
      apply apply_access_resource_ok in Hr as (r' & Hr' & E').
      unfold routes in E'. cbn [env_ws] in Hr', E'. rewrite Ews in Hr', E'.
      change (st_AccessResources (ws_Status (env_ws s))) with (routes s) in Hr', E'.
      rewrite El in Hr', E'. cbn in E'.
      rewrite take_app_length, drop_middle in E'.
      exists ((l1 ++ l2) ++ [r']). split; [rewrite El; by apply recorded_move|].
      rewrite E'. cbn. unfold with_routes. cbn. f_equal.
  - apply apply_access_resource_ok in Hr as (r & Hr & E). exists (routes s ++ [r]).
    split; [by apply recorded_append|done].
Qed.

Lemma ensure_access_loop_ok a svc ts : forall s s',
  ensure_access_loop client B a svc (ws_Namespace (env_ws s)) ts s = (Ok tt, s') ->
  exists l, env_ws s' = with_routes l (env_ws s) /\
    (forall x, x ∈ ident <$> l <->
       x ∈ template_ident (env_ws s) <$> ts \/ x ∈ ident <$> routes s) /\
    (NoDup (ident <$> routes s) -> NoDup (ident <$> l)).
Proof.
  induction ts as [|t ts IH]; intros s s' Hr; cbn [ensure_access_loop] in Hr; inv_run Hr.
  - exists (routes s'). split_and!; [|cbn; set_solver|done].
    unfold with_routes, routes. by destruct (env_ws s') as [? ? []].
  - destruct a0. apply ensureAccessResourceExists_ok in Hr0 as (l1 & [Hin1 Hd1] & E1).
    assert (En : ws_Namespace (env_ws s) = ws_Namespace (env_ws s0)) by (by rewrite E1).
    rewrite En in Hr. apply IH in Hr as (l2 & E2 & Hin2 & Hd2).
    assert (Er : routes s0 = l1) by (unfold routes; by rewrite E1).
    rewrite Er in Hin2, Hd2. exists l2. split_and!; [by rewrite E2, E1| |tauto].
    intros x. rewrite Hin2, E1, Hin1, fmap_cons, elem_of_cons.
    change (template_ident (with_routes l1 (env_ws s))) with (template_ident (env_ws s)). tauto.
Qed.
End converge.

Section removed.
Context {W : Type} (client : Client W).

Lemma delete_removed_loop_ok rs : forall d s b s',
  delete_removed_loop client rs d s = (Ok b, s') ->
  same_object s s' /\ b = (d || negb (bool_decide (rs = []))).
Proof.
  induction rs as [|r rs IH]; intros d s b s' Hr; cbn [delete_removed_loop] in Hr; inv_run Hr.
  - split; [done|]. by rewrite orb_false_r.
  - pose proof (ensureAccessResourceDeleted_frame client r s) as Hf. rewrite Hr0 in Hf.
    assert (a = true) as ->.
    { unfold ensureAccessResourceDeleted in Hr0. inv_run Hr0.
      repeat (case_match; inv_run Hr0; try done). }
    apply IH in Hr as [Hs ->]. split; [by etrans|].
    rewrite (bool_decide_false (r :: rs = [])) by done. by rewrite !orb_true_r.
Qed.
End removed.

(** [C9] Access resources converge to the strategy: after a successful
    EnsureAccessResourcesExist the status records exactly the resources the
    strategy's templates name for this workspace, none twice if none was recorded
    twice before, and nothing else of the workspace has changed. *)
Theorem EnsureAccessResourcesExist_converges {W} (client : Client W) (B : Builders)
    {AB : AccessBuilder client B} (a : WorkspaceAccessStrategy) (svc : Service) (s s' : Env W) :
  EnsureAccessResourcesExist client B a svc s = (Ok tt, s') ->
  (forall k, k ∈ ident_key ∘ ident <$> routes s' <->
     k ∈ ident_key ∘ template_ident (env_ws s) <$> asps_AccessResourceTemplates (was_Spec a)) /\
  (NoDup (ident <$> routes s) -> NoDup (ident <$> routes s')) /\
  env_ws s' = with_routes (routes s') (env_ws s).
Proof.
  unfold EnsureAccessResourcesExist. intros Hr. inv_run Hr. destruct a0.
  set (ts := asps_AccessResourceTemplates (was_Spec a)) in *.
  apply (ensure_access_loop_ok client B) in Hr0 as (l & El & Hin & Hd).
  set (keys := (fun t => resource_key _ _ _) <$> ts) in Hr, Hr1.
  apply delete_removed_loop_ok in Hr1 as [(Ews & _) ->]. cbn [orb] in Hr.
  set (listed := fun r : AccessResourceStatus => bool_decide _) in Hr.
  assert (Eroutes : routes s0 = l) by (unfold routes; by rewrite El).
  unfold routes in Eroutes. rewrite Eroutes in Hr. clear Eroutes.
  assert (Hend : routes s' = List.filter listed l /\ env_ws s' = with_routes (routes s') (env_ws s)).
  { case_bool_decide as Hf; cbn [negb] in Hr; inv_run Hr.
    - assert (Hall : List.filter listed l = l).
      { by apply filter_complement. }
      rewrite Hall. unfold routes. rewrite Ews, El. done.
    - unfold modify_status, modify_ws in Hr. injection Hr as <-. unfold routes. cbn.
      by rewrite Ews, El. }
  destruct Hend as [-> Hws]. split_and!; [| |done].
  - intros k. split.
    + intros (r & -> & Hr')%list_elem_of_fmap. apply list_elem_of_In, List.filter_In in Hr' as [_ Hl].
      by apply bool_decide_eq_true in Hl.
    + intros (t & -> & Ht)%list_elem_of_fmap.
      assert (Hi : template_ident (env_ws s) t ∈ ident <$> l)
        by (apply Hin; left; by apply list_elem_of_fmap_2).
      apply list_elem_of_fmap in Hi as (r & E & Hr'). apply list_elem_of_fmap. exists r.
      split; [cbn; by rewrite E|]. apply list_elem_of_In, List.filter_In.
      split; [by apply list_elem_of_In|]. apply bool_decide_eq_true.
      apply list_elem_of_fmap. exists t. split; [|done].
      change (ident_key (ident r) = ident_key (template_ident (env_ws s) t)). by rewrite E.
  - intros Hnd. specialize (Hd Hnd). clear -Hd. induction l as [|r l IH]; [done|]. cbn in *.
    apply NoDup_cons in Hd as [Hn Hd]. destruct (listed r); [|by apply IH]. cbn.
    apply NoDup_cons. split; [|by apply IH].
    intros (r' & E & [Hr' _]%list_elem_of_In%List.filter_In)%list_elem_of_fmap.
    apply Hn. rewrite E. apply list_elem_of_fmap_2. by apply list_elem_of_In.
Qed.

(** Builders for evaluating the operations: fixed specs, the names of the code. *)
Definition demo_meta (w : Workspace) (name : string) : ObjectMeta :=
  zero_meta name (ws_Namespace w).
Definition demo_pod : PodSpec := mkPodSpec [] [] [] ∅ None [] "" None None None.
Definition demo_dep_spec : DeploymentSpec :=
  mkDeploymentSpec (Some 1) "Recreate" ∅ (mkPodTemplateSpec ∅ ∅ demo_pod) None.
Definition demo_svc_spec : ServiceSpec := mkServiceSpec "ClusterIP" ∅ [] "" None.
Definition demo_pvc_spec : PersistentVolumeClaimSpec :=
  mkPersistentVolumeClaimSpec ["ReadWriteOnce"] ∅ ∅ None None.
Definition demo_builders : Builders := {|
  BuildWorkspaceDeployment := fun _ _ w =>
    (Ok (mkDeployment (demo_meta w (GenerateDeploymentName (ws_Name w))) demo_dep_spec
      [("Available", ConditionTrue)] 1 1), sp_Env (ws_Spec w));
  Deployment_NeedsUpdate := fun _ _ _ w => (Ok false, sp_Env (ws_Spec w));
  BuildService := fun w _ =>
    Ok (mkService (demo_meta w (GenerateServiceName (ws_Name w))) demo_svc_spec []);
  Service_NeedsUpdate := fun _ _ _ => Ok false;
  UpdateServiceSpec := fun svc _ _ => Ok svc;
  BuildPVC := fun w =>
    Ok (Some (mkPersistentVolumeClaim (demo_meta w (GeneratePVCName (ws_Name w))) demo_pvc_spec));
  PVC_NeedsUpdate := fun _ _ => Ok false;
  UpdatePVCSpec := fun pvc _ => Ok pvc;
  BuildUnstructuredResource := fun t w _ _ =>
    Ok (mkUnstructured (art_ApiVersion t) (art_Kind t) (demo_meta w (lookup_name t w)) (Some "s") None);
  ResolveAccessURL := fun _ _ _ => Ok "https://x/w";
  ResolveAccessResourceSelector := fun _ _ => "";
  ResolveApplicationBasePath := fun _ _ _ => ("", None);
  SetControllerReference := fun _ o => Ok o;
|}.

#[export] Instance demo_access_builder slow : AccessBuilder (mem_k8s slow) demo_builders.
Proof.
  split.
  - by intros t w a svc o [= <-].
  - by intros w o o' [= <-].
  - intros g o c o' c'. cbn. case_match; [done|]. by intros [= <- <-].
  - intros g o c o' c'. cbn. case_match; [|done]. by intros [= <- <-].
Qed.

(** A strategy with one route, and a workspace that still records another. *)
Definition demo_template : AccessResourceTemplate :=
  mkAccessResourceTemplate "Ingress" "networking.k8s.io/v1" "in" "spec: {}".
Definition demo_routed_strategy : WorkspaceAccessStrategy :=
  mkWorkspaceAccessStrategy (zero_meta "as" "ns")
    (mkWorkspaceAccessStrategySpec "as" [demo_template] "" "" "" "" "" ∅ "" ∅ ∅ None None)
    (mkWorkspaceAccessStrategyStatus []).
Definition demo_svc : Service :=
  mkService (zero_meta "workspace-w-service" "ns") demo_svc_spec [].

Lemma EnsureAccessResourcesExist_converges_witness :
  let s' := (EnsureAccessResourcesExist (mem_k8s false) demo_builders demo_routed_strategy demo_svc
    (demo_env demo_routed_ws demo_routed_mem)).2 in
  NoDup (ident <$> routes s') /\ ident <$> routes s' = [("Ingress", "in-w", "ns")].
Proof.
  cbv zeta. split; [|vm_compute; reflexivity].
  refine (proj1 (proj2 (@EnsureAccessResourcesExist_converges Mem (mem_k8s false) demo_builders _
    demo_routed_strategy demo_svc (demo_env demo_routed_ws demo_routed_mem) _ _)) _).
  - vm_compute. reflexivity.
  - apply NoDup_singleton.
Defined.
