(* ===== verification/Integrations.v ===== *)
(** * Integrations: freezing and probing integrations

    internal/controller resource_manager_integration.go (the freeze of resolved
    values into the status), integration_helpers.go, integration_prober.go (the
    report-only verdicts) and the probe pass of state_machine.go.  The template
    engine, SHA-256 and pod exec are parameters. *)

From S2P Require Import Prelude Api JwtSigner K8s Status Resources.

Definition IntegrationStateReady : string := "Ready".
Definition IntegrationStateDegraded : string := "Degraded".
Definition IntegrationConditionTypeReady : string := "Ready".
Definition IntegrationReasonReady : string := "Ready".
Definition IntegrationReasonProbeFailed : string := "ProbeFailed".
Definition IntegrationReasonPodNotFound : string := "PodNotFound".
Definition IntegrationReasonProbeError : string := "ProbeError".
Definition IntegrationReasonNotResolved : string := "NotResolved".
Definition IntegrationEventDegraded : string := "IntegrationDegraded".
Definition IntegrationEventRecovered : string := "IntegrationRecovered".

Definition DefaultIntegrationProbePeriod : Duration := 5 * Minute.
Definition MinIntegrationProbePeriod : Duration := 1 * Second.
Definition DefaultIntegrationProbeTimeoutSeconds : Z := 5.

(** ** Helpers *)

(** findResolvedIntegration returns the frozen record for the named integration. *)
Fixpoint findResolvedIntegration (records : list ResolvedIntegration) (name : string)
    : option ResolvedIntegration :=
  match records with
  | [] => None
  | r :: rest =>
      if bool_decide (ri_Name r = name) then Some r else findResolvedIntegration rest name
  end.

Definition hasIntegrationTemplateRefs (w : Workspace) : bool :=
  negb (bool_decide (sp_IntegrationTemplateRefs (ws_Spec w) = [])).

(** hasIntegrationChanged is the recapture gate. *)
Definition hasIntegrationChanged (existing : option ResolvedIntegration)
    (currentParametersHash currentTemplateVersion : string) : bool :=
  match existing with
  | None => true
  | Some e =>
      negb (bool_decide (ri_ParametersHash e = currentParametersHash)) ||
      negb (bool_decide (ri_ObservedIntegrationTemplateVersion e = currentTemplateVersion))
  end.

Definition nul : string := String "000" "".

(** The bytes getIntegrationParametersHash writes to the digest. *)
Definition parameters_preimage `{GoRuntime} (ref : IntegrationTemplateRef) : string :=
  let params := ParametersMap ref in
  let keys := merge_sort string_le (range params).*1 in
  fold_left (fun acc k => acc +:+ "p" +:+ nul +:+ k +:+ nul +:+ default "" (params !! k) +:+ nul)
    keys ("ref" +:+ nul +:+ itr_Namespace ref +:+ nul +:+ itr_Name ref +:+ nul).

(** getIntegrationParametersHash: the first 32 hex digits of the digest. *)
Definition getIntegrationParametersHash `{GoRuntime} (sha256_hex : string -> string)
    (ref : IntegrationTemplateRef) : string :=
  String.substring 0 32 (sha256_hex (parameters_preimage ref)).

Definition getIntegrationTemplateVersion (t : WorkspaceIntegrationTemplate) : string :=
  om_UID (wit_ObjectMeta t) +:+ "." +:+ Sprint_int (om_Generation (wit_ObjectMeta t)).

(** ** Probe verdicts *)

Definition resolveIntegrationProbeTimeout (probe : IntegrationStatusProbe) : Z :=
  if 0 <? isp_TimeoutSeconds probe then isp_TimeoutSeconds probe
  else DefaultIntegrationProbeTimeoutSeconds.

(** NewIntegrationProber clamps the period. *)
Definition NewIntegrationProber_period (probePeriod : Duration) : Duration :=
  if probePeriod <=? 0 then DefaultIntegrationProbePeriod
  else if probePeriod <? MinIntegrationProbePeriod then MinIntegrationProbePeriod
  else probePeriod.

(** buildIntegrationStatus stamps one Ready condition with the current time. *)
Definition buildIntegrationStatus (now : Time) (name : string) (ready : bool)
    (reason message : string) : IntegrationStatus :=
  let condStatus := if ready then ConditionTrue else ConditionFalse in
  let state := if ready then IntegrationStateReady else IntegrationStateDegraded in
  mkIntegrationStatus name state
    [mkCondition IntegrationConditionTypeReady condStatus 0 now reason message].

(** preserveConditionTimestamp keeps the prior timestamp on an unchanged verdict. *)
Definition preserveConditionTimestamp (prior : option IntegrationStatus) (next : IntegrationStatus)
    : IntegrationStatus :=
  match prior with
  | None => next
  | Some prior =>
      match ist_Conditions prior, ist_Conditions next with
      | p :: _, n :: rest =>
          if bool_decide (cond_Status p = cond_Status n) && bool_decide (cond_Reason p = cond_Reason n)
          then mkIntegrationStatus (ist_Name next) (ist_State next)
                 (mkCondition (cond_Type n) (cond_Status n) (cond_ObservedGeneration n)
                    (cond_LastTransitionTime p) (cond_Reason n) (cond_Message n) :: rest)
          else next
      | _, _ => next
      end
  end.

(** getIntegrationStatusEvent: the event of a verdict transition, if any. *)
Definition getIntegrationStatusEvent (name : string) (prior : option IntegrationStatus)
    (next : IntegrationStatus) : option Event :=
  match ist_Conditions next with
  | [] => None
  | nextCond :: _ =>
      let nextReady := bool_decide (cond_Status nextCond = ConditionTrue) in
      let priorCond :=
        match prior with Some p => head (ist_Conditions p) | None => None end in
      let priorNotReady :=
        match priorCond with
        | Some c => negb (bool_decide (cond_Status c = ConditionTrue))
        | None => false
        end in
      if nextReady then
        if priorNotReady
        then Some (mkEvent "Normal" IntegrationEventRecovered
                     ("integration " +:+ name +:+ " is ready"))
        else None
      else
        if priorNotReady &&
           bool_decide (cond_Reason <$> priorCond = Some (cond_Reason nextCond)) then None
        else
          let msg := "integration " +:+ name +:+ " is not ready (" +:+ cond_Reason nextCond +:+ ")" in
          let msg := if negb (bool_decide (cond_Message nextCond = ""))
                     then msg +:+ ": " +:+ cond_Message nextCond else msg in
          Some (mkEvent "Warning" IntegrationEventDegraded msg)
  end.

(** resolveStatusProbeCommand renders each argument of the exec command; the
    renderer may record what it reads. *)
Section probe_command.
Context {S : Type} (render : string -> ST S string).
Local Open Scope go_scope.
Fixpoint resolve_args (args : list string) : ST S (list string) :=
  match args with
  | [] => st_ret []
  | a :: rest =>
      r <- st_wrap "failed to resolve statusProbe command: %w" [] (render a) ;;
      rs <- resolve_args rest ;;
      st_ret (r :: rs)
  end.
Definition resolveStatusProbeCommand (probe : option IntegrationStatusProbe)
    : ST S (option IntegrationStatusProbe) :=
  match probe with
  | None => st_ret None
  | Some p =>
      match isp_Exec p with
      | None | Some [] => st_ret (Some p)
      | Some args =>
          args' <- resolve_args args ;;
          st_ret (Some (mkIntegrationStatusProbe (Some args') (isp_TimeoutSeconds p)))
      end
  end.
End probe_command.

(** ** Freezing and probing *)

(** The integration prober: pod lookup, exec and verdict, base cadence. *)
Record IntegrationProber (W : Type) := mkIntegrationProber {
  FindRunningPod : Workspace -> ST W Pod;
  ip_Probe : Pod -> string -> IntegrationStatusProbe -> ST W IntegrationStatus;
  ProbePeriod : Duration;
}.
Arguments FindRunningPod {W}.
Arguments ip_Probe {W}.
Arguments ProbePeriod {W}.

Section integrations.
Context `{GoRuntime} {W : Type} (client : Client W).
(** SHA-256 in hexadecimal; the capture of the values a template reads from its
    referenced resources; and the rendering of an expression from frozen values. *)
Context (sha256_hex : string -> string)
  (captureIntegrationValues : Workspace -> IntegrationTemplateRef ->
     WorkspaceIntegrationTemplate -> ST W (gmap string string))
  (render_frozen : gmap string string -> Workspace -> IntegrationTemplateRef ->
     string -> result string).
Local Open Scope go_scope.

(** getIntegrationTemplate loads the referenced template, by default from the
    workspace's namespace. *)
Definition getIntegrationTemplate (w : Workspace) (ref : IntegrationTemplateRef)
    : ST W WorkspaceIntegrationTemplate :=
  let ns := if bool_decide (itr_Namespace ref = "") then ws_Namespace w else itr_Namespace ref in
  r <- st_try (crud_Get (c_IntegrationTemplate client) (itr_Name ref) ns) ;;
  match r with
  | Ok t => st_ret t
  | Fail err =>
      if IsNotFound err then
        st_fail (Errorf "integration template %q not found in namespace %q" [itr_Name ref; ns])
      else st_fail (Wrapf "failed to get integration template %q: %w" [itr_Name ref] err)
  end.

(** One iteration of reconcileIntegrations: the loaded template, the record
    kept or captured, and the error reported. *)
Definition freeze_one (w : Workspace) (ref : IntegrationTemplateRef)
    : ST W (option WorkspaceIntegrationTemplate * option ResolvedIntegration * option error) :=
  let currentParametersHash := getIntegrationParametersHash sha256_hex ref in
  let existing := findResolvedIntegration (st_ResolvedIntegrations (ws_Status w)) (itr_Name ref) in
  t <- st_try (getIntegrationTemplate w ref) ;;
  match t with
  | Fail err => st_ret (None, existing, Some err)
  | Ok template =>
      let currentTemplateVersion := getIntegrationTemplateVersion template in
      if negb (hasIntegrationChanged existing currentParametersHash currentTemplateVersion) then
        st_ret (Some template, existing, None)
      else
        v <- st_try (captureIntegrationValues w ref template) ;;
        match v with
        | Fail err => st_ret (Some template, existing, Some err)
        | Ok values =>
            st_ret (Some template,
              Some (mkResolvedIntegration (itr_Name ref) currentParametersHash
                      currentTemplateVersion values), None)
        end
  end.

(** The loop over the references. *)
Fixpoint freeze_loop (w : Workspace) (refs : list IntegrationTemplateRef)
    (templates : Templates) (resolved : list ResolvedIntegration) (firstErr : option error)
    : ST W (Templates * list ResolvedIntegration * option error) :=
  match refs with
  | [] => st_ret (templates, resolved, firstErr)
  | ref :: rest =>
      one <- freeze_one w ref ;;
      let '(template, record, err) := one in
      freeze_loop w rest
        (match template with Some t => <[itr_Name ref := t]> templates | None => templates end)
        (match record with Some r => resolved ++ [r] | None => resolved end)
        (match firstErr with Some _ => firstErr | None => err end)
  end.

(** reconcileIntegrations brings status.resolvedIntegrations up to date and
    returns the templates it loaded together with the first error, as the two values of
    the Go function, both present at once. *)
Definition reconcileIntegrations : M W (Templates * option error) :=
  w <- get_ws ;;
  out <- on_cluster (freeze_loop w (sp_IntegrationTemplateRefs (ws_Spec w)) ∅ [] None) ;;
  let '(templates, resolved, firstErr) := out in
  modify_status (set_st_ResolvedIntegrations resolved) ;;
  st_ret (templates, firstErr).

(** getIntegrationStatusProbeSpec returns the template's statusProbe with its
    command rendered from the frozen values, or nil. *)
Definition getIntegrationStatusProbeSpec (w : Workspace) (ref : IntegrationTemplateRef)
    : ST W (option IntegrationStatusProbe) :=
  template <- getIntegrationTemplate w ref ;;
  match wits_StatusProbe (wit_Spec template) with
  | None => st_ret None
  | Some probe =>
      match findResolvedIntegration (st_ResolvedIntegrations (ws_Status w)) (itr_Name ref) with
      | None => st_fail (Errorf
          "integration %q has no frozen values to resolve its statusProbe command" [itr_Name ref])
      | Some frozen =>
          resolved <- resolveStatusProbeCommand
                        (fun arg => st_lift (render_frozen (ri_Values frozen) w ref arg)) (Some probe) ;;
          st_ret (match resolved with
                  | Some p => match isp_Exec p with None | Some [] => None | _ => Some p end
                  | None => None
                  end)
      end
  end.

Variable integrationProber : option (IntegrationProber W).

(** One integration of the probe pass: its verdict, or none. *)
Definition probe_one (prober : IntegrationProber W) (pod : result Pod)
    (ref : IntegrationTemplateRef) : M W (option IntegrationStatus) :=
  w <- get_ws ;;
  match findResolvedIntegration (st_ResolvedIntegrations (ws_Status w)) (itr_Name ref) with
  | None =>
      now <- time_Now ;;
      st_ret (Some (buildIntegrationStatus now (itr_Name ref) false IntegrationReasonNotResolved
        "integration has not resolved yet (first-attach capture failed; see operator logs for the cause)"))
  | Some _ =>
      p <- st_try (on_cluster (getIntegrationStatusProbeSpec w ref)) ;;
      match p with
      | Fail err =>
          now <- time_Now ;;
          st_ret (Some (buildIntegrationStatus now (itr_Name ref) false
                          IntegrationReasonProbeError (Error err)))
      | Ok None => st_ret None
      | Ok (Some probe) =>
          match pod with
          | Fail err =>
              now <- time_Now ;;
              st_ret (Some (buildIntegrationStatus now (itr_Name ref) false
                              IntegrationReasonPodNotFound (Error err)))
          | Ok pod =>
              s <- on_cluster (ip_Probe prober pod (itr_Name ref) probe) ;;
              st_ret (Some s)
          end
      end
  end.

(** The prior verdict of a name: the last entry of that name. *)
Definition prior_status (statuses : list IntegrationStatus) (name : string)
    : option IntegrationStatus :=
  last (filter (fun s => ist_Name s = name) statuses).

Fixpoint probe_loop (prober : IntegrationProber W) (pod : result Pod)
    (prior : list IntegrationStatus) (refs : list IntegrationTemplateRef)
    (statuses : list IntegrationStatus) : M W (list IntegrationStatus) :=
  match refs with
  | [] => st_ret statuses
  | ref :: rest =>
      v <- probe_one prober pod ref ;;
      match v with
      | None => probe_loop prober pod prior rest statuses
      | Some s =>
          (match getIntegrationStatusEvent (ist_Name s) (prior_status prior (ist_Name s)) s with
           | Some ev => record_event (ev_Type ev) (ev_Reason ev) (ev_Message ev)
           | None => st_ret tt
           end) ;;
          probe_loop prober pod prior rest
            (statuses ++ [preserveConditionTimestamp (prior_status prior (ist_Name s)) s])
      end
  end.

(** probeIntegrationStatus runs each attached integration's statusProbe and
    writes the verdicts into the status; it returns the re-probe interval. *)
Definition probeIntegrationStatus : M W Duration :=
  w <- get_ws ;;
  match integrationProber with
  | None => modify_status (set_st_IntegrationStatuses []) ;; st_ret 0
  | Some prober =>
      if negb (hasIntegrationTemplateRefs w) then
        modify_status (set_st_IntegrationStatuses []) ;; st_ret 0
      else
        pod <- st_try (on_cluster (FindRunningPod prober w)) ;;
        statuses <- probe_loop prober pod (st_IntegrationStatuses (ws_Status w))
                      (sp_IntegrationTemplateRefs (ws_Spec w)) [] ;;
        modify_status (set_st_IntegrationStatuses statuses) ;;
        st_ret (if bool_decide (statuses = []) then 0 else ProbePeriod prober)
  end.
End integrations.

(** ** The freeze *)

Lemma findResolvedIntegration_name records name r :
  findResolvedIntegration records name = Some r -> r ∈ records /\ ri_Name r = name.
Proof.
  induction records as [|x records IH]; cbn; [done|]. case_bool_decide as E.
  - intros [= <-]. split; [left|done].
  - intros [??]%IH. split; [by right|done].
Qed.

Section freeze.
Context `{GoRuntime} {W : Type} (client : Client W) (sha256_hex : string -> string)
  (capture : Workspace -> IntegrationTemplateRef -> WorkspaceIntegrationTemplate ->
     ST W (gmap string string)).

(** A record captured at the turn of a reference: its template was read, the
    parameters or the version of that template had moved, and the capture from that
    template succeeded with these values. *)
Definition recaptured (w : Workspace) (ref : IntegrationTemplateRef) (r : ResolvedIntegration) : Prop :=
  let existing := findResolvedIntegration (st_ResolvedIntegrations (ws_Status w)) (itr_Name ref) in
  exists template values c c1 c2,
    getIntegrationTemplate client w ref c = (Ok template, c1) /\
    hasIntegrationChanged existing (getIntegrationParametersHash sha256_hex ref)
      (getIntegrationTemplateVersion template) = true /\
    capture w ref template c1 = (Ok values, c2) /\
    r = mkResolvedIntegration (itr_Name ref) (getIntegrationParametersHash sha256_hex ref)
          (getIntegrationTemplateVersion template) values.

(** What one iteration leaves for a reference: the frozen record unchanged, or
    a record captured because the gate was open. *)
Definition frozen_or_recaptured (w : Workspace) (ref : IntegrationTemplateRef)
    (r : ResolvedIntegration) : Prop :=
  findResolvedIntegration (st_ResolvedIntegrations (ws_Status w)) (itr_Name ref) = Some r \/
  recaptured w ref r.

(** The record is of the present parameters and of the template read. *)
Definition up_to_date (w : Workspace) (ref : IntegrationTemplateRef) (r : ResolvedIntegration) : Prop :=
  ri_ParametersHash r = getIntegrationParametersHash sha256_hex ref /\
  exists template c c1, getIntegrationTemplate client w ref c = (Ok template, c1) /\
    ri_ObservedIntegrationTemplateVersion r = getIntegrationTemplateVersion template.

Lemma freeze_one_spec w ref c :
  exists t r e c', freeze_one client sha256_hex capture w ref c = (Ok (t, r, e), c') /\
    (forall x, r = Some x -> frozen_or_recaptured w ref x) /\
    (is_Some (findResolvedIntegration (st_ResolvedIntegrations (ws_Status w)) (itr_Name ref)) ->
       is_Some r) /\
    (e = None -> exists x, r = Some x /\ up_to_date w ref x).
Proof.
  unfold freeze_one, st_bind, st_try.
  set (existing := findResolvedIntegration _ _).
  destruct (getIntegrationTemplate client w ref c) as [[t|err] c1] eqn:Ht; cbn.
  - destruct (hasIntegrationChanged existing _ _) eqn:Hg; cbn.
    + destruct (capture w ref t c1) as [[values|err] c2] eqn:Hc; cbn.
      * eexists _, _, _, _. split; [reflexivity|]. split_and!; [|by eauto|].
        -- intros x [= <-]. right. unfold recaptured. eauto 12.
        -- intros _. eexists. split; [done|]. unfold up_to_date. cbn. eauto 8.
      * eexists _, _, _, _. split; [reflexivity|]. split_and!; [by left|done|done].
    + eexists _, _, _, _. split; [reflexivity|]. split_and!; [by left|done|].
      intros _. unfold hasIntegrationChanged in Hg. destruct existing as [x|] eqn:Ex; [|done].
      exists x. split; [done|]. bool_to_prop. unfold up_to_date. eauto 8.
  - eexists _, _, _, _. split; [reflexivity|]. split_and!; [by left|done|done].
Qed.

Lemma freeze_loop_spec w refs templates resolved firstErr c :
  exists ts rs e c', freeze_loop client sha256_hex capture w refs templates resolved firstErr c
      = (Ok (ts, resolved ++ rs, e), c') /\
    (forall r, r ∈ rs -> exists ref, ref ∈ refs /\ frozen_or_recaptured w ref r) /\
    (forall ref, ref ∈ refs ->
       is_Some (findResolvedIntegration (st_ResolvedIntegrations (ws_Status w)) (itr_Name ref)) ->
       exists r, r ∈ rs /\ frozen_or_recaptured w ref r) /\
    (e = None -> firstErr = None /\
       forall ref, ref ∈ refs -> exists r, r ∈ rs /\ up_to_date w ref r).
Proof.
  revert templates resolved firstErr c.
  induction refs as [|ref refs IH]; intros templates resolved firstErr c.
  { exists templates, [], firstErr, c. rewrite app_nil_r.
    split_and!; [done|by intros ? ?%elem_of_nil|by intros ? ?%elem_of_nil|].
    intros ->. split; [done|by intros ? ?%elem_of_nil]. }
  cbn [freeze_loop]. unfold st_bind.
  destruct (freeze_one_spec w ref c) as (t & r & e & c1 & -> & Hr & Hs & Hu).
  destruct (IH (match t with Some t => <[itr_Name ref := t]> templates | None => templates end)
    (match r with Some r => resolved ++ [r] | None => resolved end)
    (match firstErr with Some _ => firstErr | None => e end) c1)
    as (ts & rs & e' & c' & -> & Hrs & Hrefs & Hfresh).
  exists ts, (match r with Some r => r :: rs | None => rs end), e', c'. split_and!.
  - f_equal. f_equal. f_equal. f_equal. destruct r; [by rewrite <- app_assoc|done].
  - intros x Hx. destruct r as [r|].
    + apply elem_of_cons in Hx as [->|Hx].
      * exists ref. split; [left|by apply Hr].
      * destruct (Hrs x Hx) as (ref' & ? & ?). exists ref'. split; [by right|done].
    + destruct (Hrs x Hx) as (ref' & ? & ?). exists ref'. split; [by right|done].
  - intros ref' [->|Hin]%elem_of_cons Hsome.
    + destruct (Hs Hsome) as [x ->]. exists x. split; [left|by apply Hr].
    + destruct (Hrefs ref' Hin Hsome) as (x & ? & ?). exists x. split; [|done].
      destruct r; [by right|done].
  - intros He. destruct (Hfresh He) as [Hf Hall]. destruct firstErr; [done|]. split; [done|].
    destruct (Hu Hf) as (x & -> & Hx). intros ref' [->|Hin]%elem_of_cons.
    + exists x. split; [left|done].
    + destruct (Hall ref' Hin) as (y & ? & ?). exists y. split; [by right|done].
Qed.
End freeze.

(** [C39] Frozen integrations.  Every record the reconcile of integrations leaves belongs
    to an attached reference, so records of detached ones are pruned, and it is either
    the frozen record of that reference, untouched, or a recaptured one: its template was
    read, the parameters or that template's version had moved, the capture succeeded,
    and the record holds exactly the captured values, the present parameters' hash and
    that version.  No attached reference that had a record loses it: when its template
    is unreadable or its capture fails, nothing but the frozen record can be left for it.
    When no error is reported, every attached reference has a record of its present
    parameters and of the version of its template. *)
Theorem integration_freeze `{GoRuntime} {W} (client : Client W) (sha256_hex : string -> string)
    (capture : Workspace -> IntegrationTemplateRef -> WorkspaceIntegrationTemplate ->
       ST W (gmap string string)) (s : Env W) :
  exists templates err s',
    reconcileIntegrations client sha256_hex capture s = (Ok (templates, err), s') /\
    let w := env_ws s in
    let before := st_ResolvedIntegrations (ws_Status w) in
    let after := st_ResolvedIntegrations (ws_Status (env_ws s')) in
    let refs := sp_IntegrationTemplateRefs (ws_Spec w) in
    (forall r, r ∈ after -> exists ref, ref ∈ refs /\ ri_Name r = itr_Name ref /\
       frozen_or_recaptured client sha256_hex capture w ref r) /\
    (forall ref, ref ∈ refs -> is_Some (findResolvedIntegration before (itr_Name ref)) ->
       exists r, r ∈ after /\ frozen_or_recaptured client sha256_hex capture w ref r) /\
    (err = None -> forall ref, ref ∈ refs -> exists r, r ∈ after /\ up_to_date client sha256_hex w ref r).
Proof.
  unfold reconcileIntegrations. unfold st_bind at 1, get_ws at 1. cbv beta iota.
  unfold st_bind at 1, on_cluster.
  destruct (freeze_loop_spec client sha256_hex capture (env_ws s)
    (sp_IntegrationTemplateRefs (ws_Spec (env_ws s))) ∅ [] None (env_cluster s))
    as (ts & rs & e & c' & -> & Hrs & Hrefs & Hfresh).
  eexists ts, e, _. split; [reflexivity|]. cbn. split_and!; [|exact Hrefs|by intros [_ ?]%Hfresh].
  intros r Hr. destruct (Hrs r Hr) as (ref & Hin & Hf). exists ref. split_and!; [done| |done].
  destruct Hf as [[_ Hn]%findResolvedIntegration_name|(t & vs & ? & ? & ? & _ & _ & _ & ->)]; done.
Qed.

(** ** Verdicts *)

(** The verdict of a status: its Ready condition's status and reason. *)
Definition verdict (s : IntegrationStatus) : option (string * string) :=
  (fun c => (cond_Status c, cond_Reason c)) <$> head (ist_Conditions s).

(** Statuses the prober writes. *)
Definition binary (c : Condition) : Prop :=
  cond_Status c = ConditionTrue \/ cond_Status c = ConditionFalse.

Lemma status_neq : ConditionFalse <> ConditionTrue.
Proof. done. Qed.

(** Integration verdicts are edge-triggered: an unchanged verdict keeps its
    transition time and records no event, whatever its message; a change to or
    between not-ready verdicts records a warning, a recovery records a normal
    event; and preserving the time changes no verdict. *)
Theorem integration_verdict_edges (prior next : IntegrationStatus) (p n : Condition)
    (pr nr : list Condition) :
  ist_Conditions prior = p :: pr -> ist_Conditions next = n :: nr -> binary p -> binary n ->
  let event := getIntegrationStatusEvent (ist_Name next) (Some prior) next in
  let kept := preserveConditionTimestamp (Some prior) next in
  verdict kept = verdict next /\
  (verdict prior = verdict next ->
     cond_LastTransitionTime <$> head (ist_Conditions kept) = Some (cond_LastTransitionTime p) /\
     event = None) /\
  (verdict prior <> verdict next ->
     (cond_Status n = ConditionFalse ->
        exists m, event = Some (mkEvent "Warning" IntegrationEventDegraded m)) /\
     (cond_Status n = ConditionTrue -> cond_Status p = ConditionFalse ->
        exists m, event = Some (mkEvent "Normal" IntegrationEventRecovered m))).
Proof.
  intros Hp Hn Bp Bn. unfold verdict, preserveConditionTimestamp, getIntegrationStatusEvent.
  rewrite Hp, Hn. cbn. split; [|split].
  - case_match; cbn; [done|by rewrite Hn].
  - intros [= E1 E2]. rewrite !E1, !E2. rewrite (bool_decide_true (cond_Status n = cond_Status n)),
      (bool_decide_true (cond_Reason n = cond_Reason n)) by done. cbn. split; [done|].
    destruct Bn as [-> | ->]; [by rewrite bool_decide_true|].
    rewrite (bool_decide_false _ status_neq). cbn. by rewrite bool_decide_true.
  - intros Hv. split.
    + intros Es. rewrite Es, (bool_decide_false _ status_neq) in *.
      destruct Bp as [Ep|Ep]; rewrite Ep.
      * rewrite (bool_decide_true (ConditionTrue = ConditionTrue)) by done. cbn. eauto.
      * rewrite (bool_decide_false _ status_neq). cbn. rewrite bool_decide_false; [eauto|].
        intros [= Er]. apply Hv. congruence.
    + intros -> ->. rewrite (bool_decide_true (ConditionTrue = ConditionTrue)) by done.
      rewrite (bool_decide_false _ status_neq). cbn. eauto.
Qed.

Lemma integration_verdict_edges_witness :
  exists m, getIntegrationStatusEvent "ray"
    (Some (buildIntegrationStatus 1 "ray" true IntegrationReasonReady ""))
    (buildIntegrationStatus 2 "ray" false IntegrationReasonProbeFailed "exit 1") =
  Some (mkEvent "Warning" IntegrationEventDegraded m).
Proof.
  refine (proj1 (proj2 (proj2 (@integration_verdict_edges
    (buildIntegrationStatus 1 "ray" true IntegrationReasonReady "")
    (buildIntegrationStatus 2 "ray" false IntegrationReasonProbeFailed "exit 1") _ _ _ _
    eq_refl eq_refl _ _)) _) _).
  - by left.
  - by right.
  - vm_compute. discriminate.
  - reflexivity.
Defined.

(** The probe pass touches the verdicts only. *)
Lemma probeIntegrationStatus_same_on {W B} (f : WorkspaceStatus -> B) (client : Client W)
    render_frozen prober :
  (forall l st, f (set_st_IntegrationStatuses l st) = f st) ->
  respects (same_on f) (probeIntegrationStatus client render_frozen prober).
Proof.
  intros Hf.
  assert (Hloop : forall p pod prior refs acc,
    respects (same_on f) (probe_loop client render_frozen p pod prior refs acc)).
  { intros p pod prior refs. induction refs as [|ref refs IH]; intros acc; cbn [probe_loop];
      unfold probe_one; solve_respects. }
  unfold probeIntegrationStatus. solve_respects; by apply same_on_modify_status.
Qed.

(** The freeze pass touches the frozen records only. *)
Lemma reconcileIntegrations_same_on `{GoRuntime} {W B} (f : WorkspaceStatus -> B) (client : Client W)
    sha256_hex capture :
  (forall l st, f (set_st_ResolvedIntegrations l st) = f st) ->
  respects (same_on f) (reconcileIntegrations client sha256_hex capture).
Proof. intros Hf. unfold reconcileIntegrations. solve_respects. by apply same_on_modify_status. Qed.
