(* ===== verification/IntegrationResolver.v ===== *)
(** * IntegrationResolver: rendering integration templates

    internal/controller integration_template_resolver.go, the capture of
    resource_manager_integration.go and the replay of
    deployment_builder_integration.go.  A parsed text/template is a computation
    that prints, fails, or asks its [resource] function for a value; the same
    computation is run by a provider that reads the cluster and records what it
    served, and by one that replays the record.  The parser of text/template and
    client-go's JSONPath are parameters. *)

From S2P Require Import Prelude Api K8s Status Resources Integrations.

Local Open Scope go_scope.

(** ** Template computations *)

(** [tmpl.Execute]: the text printed, an error, or a call of [resource] with the
    rest of the execution waiting for its answer. *)
Inductive Rendering :=
| Rendered (text : string)
| RenderFailed (err : error)
| AskResource (id jsonPath : string) (next : string -> Rendering).

(** IntegrationTemplateData and IntegrationWorkspaceData. *)
Record IntegrationWorkspaceData := mkIntegrationWorkspaceData {
  iwd_Name : string;
  iwd_Namespace : string;
}.
Record IntegrationTemplateData := mkIntegrationTemplateData {
  itd_Workspace : IntegrationWorkspaceData;
  itd_Parameters : gmap string string;
}.

(** buildIntegrationTemplateData builds the render context. *)
Definition buildIntegrationTemplateData (w : Workspace) (ref : IntegrationTemplateRef)
    : IntegrationTemplateData :=
  mkIntegrationTemplateData (mkIntegrationWorkspaceData (ws_Name w) (ws_Namespace w))
    (ParametersMap ref).

(** text/template's Parse with the [resource] function and missingkey=error, and
    jsonpath's Parse and Execute. *)
Record TemplateEngine := mkTemplateEngine {
  template_Parse : string -> result (IntegrationTemplateData -> Rendering);
  jsonpath_Parse : string -> result (Unstructured -> result string);
}.

(** ** Providers *)

(** The values captured so far. *)
Notation Captured := (gmap string string).

(** ResourceValueProvider. *)
Definition ResourceValueProvider : Type := string -> string -> ST Captured string.

Definition CaptureKey (id jsonPath : string) : string := id +:+ "|" +:+ jsonPath.

(** schema.FromAPIVersionAndKind: a version of more than two parts is dropped. *)
Definition FromAPIVersionAndKind (apiVersion kind : string) : GroupVersionKind :=
  match cut_slash apiVersion with
  | None => mkGVK "" apiVersion kind
  | Some (group, version) =>
      match cut_slash version with
      | None => mkGVK group version kind
      | Some _ => mkGVK "" "" kind
      end
  end.

(** One call after another over a list, with the index. *)
Fixpoint st_imap {S A B} (f : nat -> A -> ST S B) (i : nat) (l : list A) : ST S (list B) :=
  match l with
  | [] => st_ret []
  | x :: rest =>
      y <- f i x ;;
      ys <- st_imap f (1 + i) rest ;;
      st_ret (y :: ys)
  end.

Section resolver.
Context (engine : TemplateEngine).

(** evaluateJSONPathExpression: an empty result is an error. *)
Definition evaluateJSONPathExpression (obj : Unstructured) (expression : string) : result string :=
  match jsonpath_Parse engine expression with
  | Fail err => Fail (Wrapf "invalid JSONPath %q: %w" [expression] err)
  | Ok execute =>
      match execute obj with
      | Fail err => Fail (Wrapf "JSONPath %q evaluation failed: %w" [expression] err)
      | Ok text => if bool_decide (text = "")
                   then Fail (Errorf "JSONPath %q returned empty result" [expression])
                   else Ok text
      end
  end.

(** liveResourceValueProvider.Value reads the fetched resource and records it. *)
Definition liveResourceValueProvider (resources : gmap string Unstructured)
    : ResourceValueProvider := fun id jsonPath =>
  match resources !! id with
  | None => st_fail (Errorf "resource template references id %q but no such resource is available (id not declared in resourceRefs or not fetched)" [id])
  | Some res =>
      val <- st_lift (evaluateJSONPathExpression res jsonPath) ;;
      st_modify (insert (CaptureKey id jsonPath) val) ;;
      st_ret val
  end.

(** frozenResourceValueProvider.Value serves the frozen value; a missing one is
    an error. *)
Definition frozenResourceValueProvider (values : gmap string string) : ResourceValueProvider :=
  fun id jsonPath =>
  let key := CaptureKey id jsonPath in
  match values !! key with
  | Some val => st_ret val
  | None => st_fail (Errorf "frozen resolution has no value for %q; the template references an expression absent from the frozen set (a re-resolve trigger must change to re-resolve)" [key])
  end.

(** ** Resolution of the fields *)

Section provider.
Variable provider : option ResourceValueProvider.

Fixpoint execute (r : Rendering) : ST Captured string :=
  match r with
  | Rendered text => st_ret text
  | RenderFailed err => st_fail err
  | AskResource id jsonPath next =>
      match provider with
      | None => st_fail (Errorf "resource template references id %q but resolver has no value provider" [id])
      | Some value => val <- value id jsonPath ;; execute (next val)
      end
  end.

(** ResolveTemplateExpression renders one template-bearing string. *)
Definition ResolveTemplateExpression (data : IntegrationTemplateData) (templateExpression : string)
    : ST Captured string :=
  match template_Parse engine templateExpression with
  | Fail err => st_fail (Wrapf "invalid template syntax %q: %w" [templateExpression] err)
  | Ok tmpl =>
      st_wrap "failed to render template %q: %w" [templateExpression] (execute (tmpl data))
  end.

(** ResolveResourceRef renders the name of a referenced resource. *)
Definition ResolveResourceRef (data : IntegrationTemplateData) (ref : ResourceRef)
    : ST Captured string :=
  let name := rrm_Name (rref_Metadata ref) in
  resolvedName <- st_wrap "resourceRef %q metadata.name template: %w" [rref_Name ref]
                    (ResolveTemplateExpression data name) ;;
  if bool_decide (resolvedName = "") then
    st_fail (Errorf "resourceRef %q metadata.name resolved to empty string (template: %q)"
               [rref_Name ref; name])
  else st_ret resolvedName.

Variable data : IntegrationTemplateData.

(** A field that is left alone when empty. *)
Definition resolve_nonempty (fmt : string) (args : list string) (field : string)
    : ST Captured string :=
  if bool_decide (field = "") then st_ret field
  else st_wrap fmt args (ResolveTemplateExpression data field).

(** An element of a command or argument list. *)
Definition resolve_element (fmt : string) (i : nat) (element : string) : ST Captured string :=
  st_wrap fmt [Sprint_int (Z.of_nat i)] (ResolveTemplateExpression data element).

(** resolveVolumeMounts renders the paths of each mount. *)
Definition resolve_mount (i : nat) (m : VolumeMount) : ST Captured VolumeMount :=
  let args := [Sprint_int (Z.of_nat i); vm_Name m] in
  mountPath <- resolve_nonempty "volumeMounts[%d] (%q) mountPath: %w" args (vm_MountPath m) ;;
  subPath <- resolve_nonempty "volumeMounts[%d] (%q) subPath: %w" args (vm_SubPath m) ;;
  subPathExpr <- resolve_nonempty "volumeMounts[%d] (%q) subPathExpr: %w" args (vm_SubPathExpr m) ;;
  st_ret (mkVolumeMount (vm_Name m) mountPath subPath subPathExpr (vm_ReadOnly m) (vm_Rest m)).
Definition resolveVolumeMounts (mounts : list VolumeMount) : ST Captured (list VolumeMount) :=
  st_imap resolve_mount 0 mounts.

Definition resolve_env (e : EnvVar) : ST Captured EnvVar :=
  value <- resolve_nonempty "env %q value: %w" [env_Name e] (env_Value e) ;;
  st_ret (mkEnvVar (env_Name e) value (env_ValueFrom e)).

(** resolveContainerFields renders image, command, args, workingDir, env values
    and mount paths. *)
Definition resolveContainerFields (c : Container) : ST Captured Container :=
  image <- resolve_nonempty "image field: %w" [] (ctr_Image c) ;;
  command <- st_imap (resolve_element "command[%d]: %w") 0 (ctr_Command c) ;;
  args <- st_imap (resolve_element "args[%d]: %w") 0 (ctr_Args c) ;;
  workingDir <- resolve_nonempty "workingDir: %w" [] (ctr_WorkingDir c) ;;
  env <- st_imap (fun _ => resolve_env) 0 (ctr_Env c) ;;
  mounts <- resolveVolumeMounts (ctr_VolumeMounts c) ;;
  st_ret (set_ctr_Image image (set_ctr_Command command (set_ctr_Args args
    (set_ctr_WorkingDir workingDir (set_ctr_Env env (set_ctr_VolumeMounts mounts c)))))).

Definition resolve_containers (fmt : string) (cs : list Container) : ST Captured (list Container) :=
  st_imap (fun i c => st_wrap fmt [Sprint_int (Z.of_nat i); ctr_Name c] (resolveContainerFields c))
    0 cs.

Definition resolve_merge_env (e : AccessEnvTemplate) : ST Captured AccessEnvTemplate :=
  val <- st_wrap "primaryContainerModifications mergeEnv %q valueTemplate: %w" [aet_Name e]
           (ResolveTemplateExpression data (aet_ValueTemplate e)) ;;
  st_ret (mkAccessEnvTemplate (aet_Name e) val).

Definition resolve_primary (p : option PrimaryContainerModifications)
    : ST Captured (option PrimaryContainerModifications) :=
  match p with
  | None => st_ret None
  | Some p =>
      env <- st_imap (fun _ => resolve_merge_env) 0 (pcm_MergeEnv p) ;;
      mounts <- st_wrap "primaryContainerModifications %w" []
                  (resolveVolumeMounts (pcm_VolumeMounts p)) ;;
      st_ret (Some (mkPrimaryContainerModifications mounts env))
  end.

(** ResolvePodModifications renders the containers, init containers and primary
    container modifications; volumes are left as they are. *)
Definition ResolvePodModifications (mods : PodModifications) : ST Captured PodModifications :=
  additional <- resolve_containers "additionalContainers[%d] (container %q): %w"
                  (pm_AdditionalContainers mods) ;;
  init <- resolve_containers "initContainers[%d] (container %q): %w" (pm_InitContainers mods) ;;
  primary <- resolve_primary (pm_PrimaryContainerModifications mods) ;;
  st_ret (mkPodModifications additional (pm_ExposedPorts mods) (pm_Volumes mods) init primary).
End provider.

(** ** Capture *)

Section capture.
Context {W : Type} (client : Client W).

(** A renderer outside the capture: its record is dropped. *)
Definition render_ref (data : IntegrationTemplateData) (ref : ResourceRef) : ST W string :=
  st_lift (ResolveResourceRef None data ref ∅).1.

(** fetchReferencedResources reads each resourceRef's object in the workspace's
    own namespace. *)
Fixpoint fetch_loop (data : IntegrationTemplateData) (refs : list ResourceRef)
    (resources : gmap string Unstructured) : ST W (gmap string Unstructured) :=
  match refs with
  | [] => st_ret resources
  | ref :: rest =>
      resolvedName <- render_ref data ref ;;
      let ns := iwd_Namespace (itd_Workspace data) in
      r <- st_try (crud_Get (c_Unstructured client
             (FromAPIVersionAndKind (rref_APIVersion ref) (rref_Kind ref))) resolvedName ns) ;;
      match r with
      | Ok obj => fetch_loop data rest (<[rref_Name ref := obj]> resources)
      | Fail err =>
          if IsNotFound err then
            st_fail (Errorf "resourceRef %q: %s %q not found in namespace %q"
                       [rref_Name ref; rref_Kind ref; resolvedName; ns])
          else st_fail (Wrapf "resourceRef %q: failed to get %s %q in namespace %q: %w"
                          [rref_Name ref; rref_Kind ref; resolvedName; ns] err)
      end
  end.
Definition fetchReferencedResources (template : WorkspaceIntegrationTemplate)
    (data : IntegrationTemplateData) : ST W (gmap string Unstructured) :=
  fetch_loop data (wits_ResourceRefs (wit_Spec template)) ∅.

(** The pod modifications of a template, if any. *)
Definition pod_mods (template : WorkspaceIntegrationTemplate) : option PodModifications :=
  match wits_DeploymentModifications (wit_Spec template) with
  | Some d => dm_PodModifications d
  | None => None
  end.

(** The renderings of a capture: the pod modifications, then the probe command. *)
Definition capture_all (resources : gmap string Unstructured) (ref : IntegrationTemplateRef)
    (template : WorkspaceIntegrationTemplate) (data : IntegrationTemplateData) : ST Captured unit :=
  let provider := Some (liveResourceValueProvider resources) in
  (match pod_mods template with
   | Some mods =>
       st_wrap "failed to render pod modifications for integration %q: %w" [itr_Name ref]
         (ResolvePodModifications provider data mods) ;; st_ret tt
   | None => st_ret tt
   end) ;;
  st_wrap "integration %q: %w" [itr_Name ref]
    (resolveStatusProbeCommand (ResolveTemplateExpression provider data)
       (wits_StatusProbe (wit_Spec template))) ;;
  st_ret tt.

(** captureIntegrationValues renders with a recording provider and returns the
    values recorded. *)
Definition captureIntegrationValues (w : Workspace) (ref : IntegrationTemplateRef)
    (template : WorkspaceIntegrationTemplate) : ST W (gmap string string) :=
  match pod_mods template, wits_StatusProbe (wit_Spec template) with
  | None, None => st_ret ∅
  | _, _ =>
      let data := buildIntegrationTemplateData w ref in
      resources <- fetchReferencedResources template data ;;
      let '(r, captured) := capture_all resources ref template data ∅ in
      st_lift (_ ← r; Ok captured)
  end.
End capture.

(** ** Replay *)

(** buildIntegrationPodModifications renders the template's pod changes from the
    frozen values. *)
Definition empty_pod_modifications : PodModifications := mkPodModifications [] [] [] [] None.
Definition buildIntegrationPodModifications (w : Workspace) (ref : IntegrationTemplateRef)
    (frozen : ResolvedIntegration) (template : WorkspaceIntegrationTemplate)
    : result (PodModifications * option bool) :=
  let share := wits_ShareProcessNamespace (wit_Spec template) in
  match pod_mods template with
  | None => Ok (empty_pod_modifications, share)
  | Some mods =>
      match (ResolvePodModifications (Some (frozenResourceValueProvider (ri_Values frozen)))
               (buildIntegrationTemplateData w ref) mods ∅).1 with
      | Ok resolved => Ok (resolved, share)
      | Fail err =>
          Fail (Wrapf "could not apply the pod changes for integration %q: %w" [itr_Name ref]
                 (Wrapf "%w %s" [Error err] (Sentinel "errIntegrationReplayFailed")))
      end
  end.

(** The rendering of an expression from frozen values, for the status probe. *)
Definition render_frozen (values : gmap string string) (w : Workspace)
    (ref : IntegrationTemplateRef) (expression : string) : result string :=
  (ResolveTemplateExpression (Some (frozenResourceValueProvider values))
     (buildIntegrationTemplateData w ref) expression ∅).1.
End resolver.

(** ** A capture replays *)

(** No bar in a string: what the name pattern of resourceRefs guarantees. *)
Definition plain (id : string) : Prop := "|"%char ∉ String.list_ascii_of_string id.

Lemma CaptureKey_inj id1 path1 id2 path2 :
  plain id1 -> plain id2 -> CaptureKey id1 path1 = CaptureKey id2 path2 ->
  id1 = id2 /\ path1 = path2.
Proof.
  unfold CaptureKey, plain. revert id2. induction id1 as [|c id1 IH]; intros [|d id2]; cbn.
  - intros _ _ E. injection E as E. split; [done|exact E].
  - intros _ H2 [= <- _]. set_solver.
  - intros H1 _ [= -> _]. set_solver.
  - intros H1 H2 [= -> E]. destruct (IH id2) as [-> ->]; [set_solver..|done|done].
Qed.

Section replay.
Context (engine : TemplateEngine) (resources : gmap string Unstructured).
Hypothesis Hplain : forall id, id ∈ dom resources -> plain id.

(** Every recorded value is the one its resource has. *)
Definition faithful (c : Captured) : Prop := forall key v, c !! key = Some v ->
  exists id path res, key = CaptureKey id path /\ resources !! id = Some res /\
    evaluateJSONPathExpression engine res path = Ok v.

Lemma faithful_insert c id path res v :
  faithful c -> resources !! id = Some res -> evaluateJSONPathExpression engine res path = Ok v ->
  faithful (<[CaptureKey id path := v]> c) /\ c ⊆ <[CaptureKey id path := v]> c.
Proof.
  intros Hc Hid Hv. split.
  - intros key x. destruct (decide (key = CaptureKey id path)) as [->|Hne].
    + rewrite lookup_insert_eq. intros [= <-]. by exists id, path, res.
    + rewrite lookup_insert_ne by done. apply Hc.
  - apply map_subseteq_spec. intros key x Hx.
    destruct (decide (key = CaptureKey id path)) as [->|Hne]; [|by rewrite lookup_insert_ne].
    destruct (Hc _ _ Hx) as (id' & path' & res' & E & Hid' & Hx').
    apply CaptureKey_inj in E as [<- <-]; [|apply Hplain; by apply elem_of_dom_2 in Hid..
      |apply Hplain; by apply elem_of_dom_2 in Hid'].
    rewrite lookup_insert_eq. congruence.
Qed.

(** A computation that asks a provider replays: a live run only adds faithful
    records, and any record that contains them gives the same answer without
    the cluster. *)
Definition replays {A} (m : ResourceValueProvider -> ST Captured A) : Prop :=
  forall c a c', faithful c -> m (liveResourceValueProvider engine resources) c = (Ok a, c') ->
  faithful c' /\ c ⊆ c' /\
  forall values s, c' ⊆ values -> m (frozenResourceValueProvider values) s = (Ok a, s).

Lemma replays_ret {A} (a : A) : replays (fun _ => st_ret a).
Proof. intros c x c' Hc. by intros [= <- <-]. Qed.

Lemma replays_fail {A} e : replays (fun _ => @st_fail Captured A e).
Proof. by intros c x c' Hc. Qed.

Lemma replays_wrap {A} fmt args (m : ResourceValueProvider -> ST Captured A) :
  replays m -> replays (fun p => st_wrap fmt args (m p)).
Proof.
  intros Hm c a c' Hc Hr. apply (proj1 (st_wrap_Ok _ _ _ _ _ _)) in Hr.
  destruct (Hm c a c' Hc Hr) as (H1 & H2 & H3). split_and!; [done..|].
  intros values s Hv. apply st_wrap_Ok. by apply H3.
Qed.

Lemma replays_bind {A B} (m : ResourceValueProvider -> ST Captured A)
    (f : ResourceValueProvider -> A -> ST Captured B) :
  replays m -> (forall a, replays (fun p => f p a)) -> replays (fun p => st_bind (m p) (f p)).
Proof.
  intros Hm Hf c b c' Hc Hr. apply st_bind_Ok in Hr as (a & c1 & H1 & H2).
  destruct (Hm c a c1 Hc H1) as (F1 & S1 & R1). destruct (Hf a c1 b c' F1 H2) as (F2 & S2 & R2).
  split_and!; [done|by etrans|]. intros values s Hv. apply st_bind_Ok. exists a, s.
  split; [apply R1; by etrans|by apply R2].
Qed.

Lemma replays_imap {A B} (f : ResourceValueProvider -> nat -> A -> ST Captured B) i l :
  (forall i x, replays (fun p => f p i x)) -> replays (fun p => st_imap (f p) i l).
Proof.
  intros Hf. revert i. induction l as [|x l IH]; intros i; cbn; [apply replays_ret|].
  apply replays_bind; [done|]. intros y. apply replays_bind; [done|]. intros ys. apply replays_ret.
Qed.

Lemma replays_ask id path : replays (fun p => p id path).
Proof.
  intros c v c' Hc Hr. unfold liveResourceValueProvider in Hr.
  destruct (resources !! id) as [res|] eqn:Hid; [|done].
  apply st_bind_Ok in Hr as (v' & c1 & [Hv <-]%st_lift_Ok & Hr). injection Hr as <- <-.
  destruct (faithful_insert c id path res v' Hc Hid Hv) as [F S]. split_and!; [done..|].
  intros values s Hs. unfold frozenResourceValueProvider.
  by rewrite (lookup_weaken _ _ _ _ (lookup_insert_eq c (CaptureKey id path) v') Hs).
Qed.

Lemma replays_execute r : replays (fun p => execute (Some p) r).
Proof.
  induction r as [text|err|id path next IH]; cbn; [apply replays_ret|apply replays_fail|].
  apply replays_bind; [apply replays_ask|done].
Qed.

Lemma replays_expression data e :
  replays (fun p => ResolveTemplateExpression engine (Some p) data e).
Proof.
  unfold ResolveTemplateExpression. destruct (template_Parse engine e); [|apply replays_fail].
  apply replays_wrap, replays_execute.
Qed.
End replay.
Create HintDb replay.
#[export] Hint Resolve replays_ret replays_fail replays_wrap replays_imap replays_expression : replay.
Ltac replay_step :=
  lazymatch goal with
  | |- replays _ _ (fun p => st_bind _ _) => apply replays_bind; [|intros ?]
  | |- replays _ _ (fun p => st_imap _ _ _) => apply replays_imap; intros ? ?
  | |- replays _ _ (fun p => st_wrap _ _ _) => apply replays_wrap
  | |- replays _ _ (fun p => if ?b then _ else _) => destruct b
  | |- replays _ _ (fun p => match ?x with _ => _ end) => destruct x
  end.
Ltac solve_replays := repeat replay_step; eauto with replay.

Section replay_fields.
Context (engine : TemplateEngine) (resources : gmap string Unstructured).
Hypothesis Hplain : forall id, id ∈ dom resources -> plain id.
Context (data : IntegrationTemplateData).

Lemma replays_nonempty fmt args field :
  replays engine resources (fun p => resolve_nonempty engine (Some p) data fmt args field).
Proof. unfold resolve_nonempty. solve_replays. Qed.
Local Hint Resolve replays_nonempty : replay.

Lemma replays_mounts mounts :
  replays engine resources (fun p => resolveVolumeMounts engine (Some p) data mounts).
Proof. unfold resolveVolumeMounts, resolve_mount. solve_replays. Qed.
Local Hint Resolve replays_mounts : replay.

Lemma replays_container c :
  replays engine resources (fun p => resolveContainerFields engine (Some p) data c).
Proof. unfold resolveContainerFields, resolve_element, resolve_env. solve_replays. Qed.
Local Hint Resolve replays_container : replay.

Lemma replays_pod_modifications mods :
  replays engine resources (fun p => ResolvePodModifications engine (Some p) data mods).
Proof.
  unfold ResolvePodModifications, resolve_containers, resolve_primary, resolve_merge_env.
  solve_replays.
Qed.

Lemma replays_args args :
  replays engine resources
    (fun p => resolve_args (ResolveTemplateExpression engine (Some p) data) args).
Proof. induction args; cbn; solve_replays. Qed.
Local Hint Resolve replays_args : replay.

Lemma replays_probe probe :
  replays engine resources
    (fun p => resolveStatusProbeCommand (ResolveTemplateExpression engine (Some p) data) probe).
Proof. unfold resolveStatusProbeCommand. solve_replays. Qed.
End replay_fields.

(** The fetched resources are those the template names. *)
Lemma fetch_loop_dom {W} engine (client : Client W) data refs resources s out s' :
  fetch_loop engine client data refs resources s = (Ok out, s') ->
  forall id, id ∈ dom out -> id ∈ dom resources \/ id ∈ rref_Name <$> refs.
Proof.
  revert resources s. induction refs as [|ref refs IH]; intros resources s Hr id Hid;
    cbn [fetch_loop] in Hr; inv_run Hr; [by left|].
  destruct a0 as [obj|e]; [|by case_match].
  apply (IH _ _ Hr) in Hid as [Hid|Hid]; cbn; [|right; set_solver].
  rewrite dom_insert in Hid. set_solver.
Qed.

(** What a capture recorded: the fetched resources, the live renderings and the
    record they left. *)
Lemma captureIntegrationValues_runs {W} engine (client : Client W) w ref template s values s' :
  captureIntegrationValues engine client w ref template s = (Ok values, s') ->
  pod_mods template <> None \/ wits_StatusProbe (wit_Spec template) <> None ->
  exists resources,
    fetchReferencedResources engine client template (buildIntegrationTemplateData w ref) s
      = (Ok resources, s') /\
    capture_all engine resources ref template (buildIntegrationTemplateData w ref) ∅
      = (Ok tt, values).
Proof.
  intros Hr Hne. unfold captureIntegrationValues in Hr.
  assert (Hr' : (resources <- fetchReferencedResources engine client template
      (buildIntegrationTemplateData w ref) ;;
      let '(r, captured) := capture_all engine resources ref template
        (buildIntegrationTemplateData w ref) ∅ in
      st_lift (_ ← r; Ok captured)) s = (Ok values, s')).
  { destruct (pod_mods template), (wits_StatusProbe (wit_Spec template)); naive_solver. }
  clear Hr. inv_run Hr'. exists a.
  destruct (capture_all _ _ _ _ _ _) as [[[]|e] captured]; apply st_lift_Ok in Hr' as [Hr' <-];
    [|done]. by injection Hr' as <-.
Qed.

(** The renderings a successful capture made, each a live run from the record of
    the one before. *)
Lemma capture_all_runs engine resources ref template data values :
  capture_all engine resources ref template data ∅ = (Ok tt, values) ->
  let provider := Some (liveResourceValueProvider engine resources) in
  exists before probe,
    resolveStatusProbeCommand (ResolveTemplateExpression engine provider data)
      (wits_StatusProbe (wit_Spec template)) before = (Ok probe, values) /\
    match pod_mods template with
    | Some mods => exists resolved,
        ResolvePodModifications engine provider data mods ∅ = (Ok resolved, before)
    | None => before = ∅
    end.
Proof.
  intros Hr provider. unfold capture_all in Hr. inv_run Hr.
  exists s, a0. split; [done|].
  destruct (pod_mods template); inv_run Hr0; [|done]. eauto.
Qed.

(** Replaying needs no record of its own: frozen renderings are pure. *)
Lemma frozen_execute_pure values r s :
  execute (Some (frozenResourceValueProvider values)) r s =
  ((execute (Some (frozenResourceValueProvider values)) r ∅).1, s).
Proof.
  induction r as [text|err|id path next IH]; [done..|]. cbn.
  unfold frozenResourceValueProvider at 1 3. unfold st_bind.
  destruct (values !! CaptureKey id path); cbn; [apply IH|done].
Qed.

Lemma frozen_expression_pure engine values w ref e s :
  ResolveTemplateExpression engine (Some (frozenResourceValueProvider values))
    (buildIntegrationTemplateData w ref) e s = (render_frozen engine values w ref e, s).
Proof.
  unfold render_frozen, ResolveTemplateExpression. destruct (template_Parse engine e); [|done].
  unfold st_wrap. rewrite frozen_execute_pure. by destruct (execute _ _ ∅).
Qed.

Section pure_args.
Context {S1 S2 : Type} (r1 : string -> ST S1 string) (r2 : string -> result string).
Hypothesis Hpure : forall a s, r1 a s = (r2 a, s).

Lemma resolve_args_pure args (s1 : S1) (s2 : S2) : exists out,
  resolve_args r1 args s1 = (out, s1) /\ resolve_args (fun a => st_lift (r2 a)) args s2 = (out, s2).
Proof.
  induction args as [|a args (out & E1 & E2)]; [by exists (Ok [])|].
  cbn [resolve_args]. unfold st_bind, st_wrap. rewrite Hpure.
  change (st_lift (r2 a) s2) with (r2 a, s2). destruct (r2 a); cbn [wrap_err]; [|eauto].
  rewrite E1, E2. destruct out; eauto.
Qed.

Lemma resolveStatusProbeCommand_pure probe (s1 : S1) (s2 : S2) : exists out,
  resolveStatusProbeCommand r1 probe s1 = (out, s1) /\
  resolveStatusProbeCommand (fun a => st_lift (r2 a)) probe s2 = (out, s2).
Proof.
  unfold resolveStatusProbeCommand. destruct probe as [p|]; [|by eexists].
  destruct (isp_Exec p) as [[|a args]|]; [by eexists| |by eexists].
  destruct (resolve_args_pure (a :: args) s1 s2) as (out & E1 & E2).
  unfold st_bind. rewrite E1, E2. destruct out; eauto.
Qed.
End pure_args.

(** The resource names of a template carry no bar. *)
Definition plain_refs (template : WorkspaceIntegrationTemplate) : Prop :=
  forall id, id ∈ rref_Name <$> wits_ResourceRefs (wit_Spec template) -> plain id.

Lemma faithful_empty engine resources : faithful engine resources ∅.
Proof. by intros key v ?%lookup_empty_Some. Qed.

(** A successful capture, with the faithful record its probe rendering starts from. *)
Lemma capture_runs {W} engine (client : Client W) w ref template s values s' :
  let data := buildIntegrationTemplateData w ref in
  plain_refs template ->
  captureIntegrationValues engine client w ref template s = (Ok values, s') ->
  pod_mods template <> None \/ wits_StatusProbe (wit_Spec template) <> None ->
  exists resources before probe, let provider := Some (liveResourceValueProvider engine resources) in
    (forall id, id ∈ dom resources -> plain id) /\ faithful engine resources before /\
    fetchReferencedResources engine client template data s = (Ok resources, s') /\
    resolveStatusProbeCommand (ResolveTemplateExpression engine provider data)
      (wits_StatusProbe (wit_Spec template)) before = (Ok probe, values) /\
    forall mods, pod_mods template = Some mods -> exists resolved,
      ResolvePodModifications engine provider data mods ∅ = (Ok resolved, before).
Proof.
  intros data Hplain Hcap Hne.
  destruct (captureIntegrationValues_runs _ _ _ _ _ _ _ _ Hcap Hne) as (resources & Hf & Hall).
  destruct (capture_all_runs _ _ _ _ _ _ Hall) as (before & probe & Hp & Hm).
  assert (Hpl : forall id, id ∈ dom resources -> plain id).
  { intros id Hid. apply Hplain.
    destruct (fetch_loop_dom _ _ _ _ _ _ _ _ Hf id Hid) as [?|?]; [set_solver|done]. }
  exists resources, before, probe. cbv zeta.
  destruct (pod_mods template) as [mods|]; [destruct Hm as [resolved Hres]|subst before].
  - split_and!; [done| |done..|by intros ? [= <-]; eauto].
    by destruct (replays_pod_modifications engine resources Hpl data mods ∅ resolved before
      (faithful_empty _ _) Hres).
  - split_and!; [done|apply faithful_empty|done..].
Qed.

(** [C24] Freezing an integration loses nothing: what the capture recorded from the
    cluster is enough to render the template again without the cluster.  When a
    capture succeeds, the frozen record replays every pod change and the command
    of the status probe exactly as the live resources rendered them, whatever
    happens to those resources afterwards. *)
Theorem frozen_replay_roundtrip {W} (engine : TemplateEngine) (client : Client W)
    (w : Workspace) (ref : IntegrationTemplateRef) (template : WorkspaceIntegrationTemplate)
    (s s' : W) (values : gmap string string) (hash version : string) :
  plain_refs template ->
  captureIntegrationValues engine client w ref template s = (Ok values, s') ->
  let data := buildIntegrationTemplateData w ref in
  let frozen := mkResolvedIntegration (itr_Name ref) hash version values in
  (forall mods, pod_mods template = Some mods ->
     exists resources resolved captured,
       fetchReferencedResources engine client template data s = (Ok resources, s') /\
       ResolvePodModifications engine (Some (liveResourceValueProvider engine resources)) data mods ∅
         = (Ok resolved, captured) /\
       buildIntegrationPodModifications engine w ref frozen template
         = Ok (resolved, wits_ShareProcessNamespace (wit_Spec template))) /\
  (forall probe, wits_StatusProbe (wit_Spec template) = Some probe ->
     exists resources resolved before captured,
       fetchReferencedResources engine client template data s = (Ok resources, s') /\
       resolveStatusProbeCommand (ResolveTemplateExpression engine
         (Some (liveResourceValueProvider engine resources)) data) (Some probe) before
         = (Ok resolved, captured) /\
       forall s2 : W, resolveStatusProbeCommand
         (fun arg => st_lift (render_frozen engine values w ref arg)) (Some probe) s2
         = (Ok resolved, s2)).
Proof.
  intros Hplain Hcap data frozen.
  pose proof (capture_runs _ _ _ _ _ _ _ _ Hplain Hcap) as Hruns. fold data in Hruns. split.
  - intros mods Hm. destruct Hruns as (resources & before & probe & Hpl & Hfb & Hf & Hp & Hmods);
      [left; by rewrite Hm|]. destruct (Hmods _ Hm) as [resolved Hres].
    exists resources, resolved, before. split_and!; [done..|].
    destruct (replays_pod_modifications engine resources Hpl data mods ∅ resolved before
      (faithful_empty _ _) Hres) as (_ & _ & Hrep).
    destruct (replays_probe engine resources Hpl data _ before probe values Hfb Hp) as (_ & Hsub & _).
    unfold buildIntegrationPodModifications. rewrite Hm. cbn [ri_Values frozen].
    by rewrite (Hrep values ∅ Hsub).
  - intros probe0 Hp0. destruct Hruns as (resources & before & probe & Hpl & Hfb & Hf & Hp & _);
      [right; by rewrite Hp0|]. rewrite Hp0 in Hp.
    exists resources, probe, before, values. split_and!; [done..|]. intros s2.
    destruct (replays_probe engine resources Hpl data _ before probe values Hfb Hp) as (_ & _ & Hrep).
    specialize (Hrep values ∅ (reflexivity _)).
    destruct (resolveStatusProbeCommand_pure _ _ (frozen_expression_pure engine values w ref)
      (Some probe0) ∅ s2) as (out & E1 & E2).
    rewrite E2. fold data in E1. rewrite E1 in Hrep. by injection Hrep as ->.
Qed.

(** A toy engine: the expression [addr] asks for the address of [head]; any other
    is literal text; a JSONPath reads the spec. *)
Definition demo_engine : TemplateEngine := {|
  template_Parse := fun e => Ok (fun data =>
    if bool_decide (e = "addr") then AskResource "head" "{.spec}" (fun v => Rendered ("ray://" +:+ v))
    else Rendered e);
  jsonpath_Parse := fun _ => Ok (fun o => Ok (default "" (un_Spec o)));
|}.
Definition demo_integration_ref : IntegrationTemplateRef := mkIntegrationTemplateRef "ray" "" [].
Definition demo_integration : WorkspaceIntegrationTemplate :=
  mkWorkspaceIntegrationTemplate (zero_meta "ray" "ns") (mkWorkspaceIntegrationTemplateSpec "Ray" []
    [mkResourceRef "head" "ray.io/v1" "RayCluster" (mkResourceRefMetadata "cluster")] None
    (Some (mkDeploymentModifications (Some (mkPodModifications [] [] [] []
      (Some (mkPrimaryContainerModifications [] [mkAccessEnvTemplate "RAY_ADDRESS" "addr"]))))))
    (Some (mkIntegrationStatusProbe (Some ["check"; "addr"]) 0))).
Definition demo_ray_mem : Mem :=
  mkMem ∅ ∅ ∅ ∅ ∅ ∅ {[ "ns/cluster" := mkUnstructured "ray.io/v1" "RayCluster"
    (zero_meta "cluster" "ns") (Some "10.0.0.7") None ]} 0.

Lemma frozen_replay_roundtrip_witness :
  captureIntegrationValues demo_engine (mem_k8s false) demo_ws demo_integration_ref demo_integration
    demo_ray_mem = (Ok {[ "head|{.spec}" := "10.0.0.7" ]}, demo_ray_mem) /\
  exists resolved, buildIntegrationPodModifications demo_engine demo_ws demo_integration_ref
    (mkResolvedIntegration "ray" "" "" {[ "head|{.spec}" := "10.0.0.7" ]}) demo_integration
    = Ok (resolved, None).
Proof.
  assert (Hc : captureIntegrationValues demo_engine (mem_k8s false) demo_ws
    demo_integration_ref demo_integration demo_ray_mem
    = (Ok {[ "head|{.spec}" := "10.0.0.7" ]}, demo_ray_mem)) by (vm_compute; reflexivity).
  split; [exact Hc|].
  assert (Hp : plain_refs demo_integration).
  { intros id Hid. apply list_elem_of_singleton in Hid as ->. apply (bool_decide_unpack _).
    vm_compute. exact I. }
  destruct (frozen_replay_roundtrip demo_engine (mem_k8s false) demo_ws demo_integration_ref
    demo_integration demo_ray_mem demo_ray_mem {[ "head|{.spec}" := "10.0.0.7" ]} "" "" Hp Hc)
    as [Hm _].
  destruct (Hm _ eq_refl) as (resources & resolved & captured & _ & _ & Hb).
  exists resolved. exact Hb.
Defined.
