(* ===== verification/ObjectBuilders.v ===== *)
(** * ObjectBuilders: images, services, claims and access resources

    internal/controller image_resolver.go and images.go, service_builder.go,
    pvc_builder.go, access_resources_builder.go and the names and labels of
    constants.go.  text/template, the YAML decoder and controllerutil's
    SetControllerReference are parameters. *)

From S2P Require Import Prelude Api Encoding JwtSigner K8s WorkspaceQueries Status Resources.

Local Open Scope go_scope.

(** ** Constants *)

Definition JupyterPort : Z := 8888.
Definition DefaultMountPath : string := "/home/jovyan".
Definition AppLabel : string := "app".
Definition AppLabelValue : string := "jupyter".
Definition LabelComponent : string := "workspace.jupyter.org/component".
Definition LabelWorkspaceNamespace : string := "workspace.jupyter.org/workspace-namespace".
Definition PrimaryContainerName : string := "workspace".
Definition httpScheme : string := "http".
Definition volumeNameWorkspaceStorage : string := "workspace-storage".

(** The default requests: 100m of CPU and 128Mi of memory. *)
Definition DefaultCPURequest : Quantity := mkQuantity 100000000 "100m".
Definition DefaultMemoryRequest : Quantity := mkQuantity (134217728 * 1000000000) "128Mi".

(** GenerateLabels creates consistent labels for resources. *)
Definition GenerateLabels (workspaceName : string) : gmap string string :=
  <[AppLabel := AppLabelValue]> (<[LabelWorkspaceName := workspaceName]>
    {[LabelComponent := ResourcePrefix]}).

(** ** Images *)

Definition DefaultTag : string := "latest".
Definition ImageJupyterUV : string := "jk8s-application-jupyter-uv:latest".
Definition DefaultJupyterImage : string := ImageJupyterUV.
Definition jupyterImages : gmap string string := {[ "uv" := ImageJupyterUV ]}.

Definition IsBuiltInImage (imageName : string) : bool := bool_decide (is_Some (jupyterImages !! imageName)).
Definition GetImagePath (imageName : string) : string := default imageName (jupyterImages !! imageName).

(** strings.SplitN(s, sep, 2) for a one-byte separator: the part before the
    first one, and the rest if there is one. *)
Fixpoint cut (sep : ascii) (s : string) : string * option string :=
  match s with
  | EmptyString => ("", None)
  | String c rest =>
      if Ascii.eqb c sep then ("", Some rest)
      else let (a, b) := cut sep rest in (String c a, b)
  end.
Definition contains_char (c : ascii) (s : string) : bool :=
  match (cut c s).2 with Some _ => true | None => false end.

(** ResolveImage: shortcuts, the default, and the registry for a plain name. *)
Definition ResolveImage (Registry : string) (w : Workspace) : string :=
  let image := sp_Image (ws_Spec w) in
  let image := if IsBuiltInImage image then GetImagePath image else image in
  let image := if bool_decide (image = "") then DefaultJupyterImage else image in
  if bool_decide (Registry = "") then image
  else
    let '(repository, rest) := cut ":" image in
    let tag := default DefaultTag rest in
    if contains_char "/" repository then image
    else Registry +:+ "/" +:+ repository +:+ ":" +:+ tag.

(** ** Storage *)

(** ResolvedStorageConfig contains all resolved storage configuration. *)
Record ResolvedStorageConfig := mkResolvedStorageConfig {
  rsc_Size : Quantity;
  rsc_StorageClassName : option string;
  rsc_MountPath : string;
}.

Definition resolveStorageSize (w : Workspace) : Quantity :=
  match sp_Storage (ws_Spec w) with
  | Some st => if Quantity_IsZero (ss_Size st)
               then mkQuantity (10737418240 * 1000000000) "10Gi" else ss_Size st
  | None => mkQuantity (10737418240 * 1000000000) "10Gi"
  end.
Definition resolveStorageClassName (w : Workspace) : option string :=
  match sp_Storage (ws_Spec w) with Some st => ss_StorageClassName st | None => None end.
Definition resolveMountPath (w : Workspace) : string :=
  match sp_Storage (ws_Spec w) with
  | Some st => if bool_decide (ss_MountPath st = "") then DefaultMountPath else ss_MountPath st
  | None => DefaultMountPath
  end.

(** ResolveStorageConfig returns nil if no storage is requested. *)
Definition ResolveStorageConfig (w : Workspace) : option ResolvedStorageConfig :=
  match sp_Storage (ws_Spec w) with
  | None => None
  | Some _ => Some (mkResolvedStorageConfig (resolveStorageSize w) (resolveStorageClassName w)
                      (resolveMountPath w))
  end.

(** ** The libraries the builders call *)

(** text/template without functions (for environment variables) and with
    b32encode (for URLs and resources), each a parse that yields an execution;
    the YAML decoder; and SetControllerReference on the metadata of an object. *)
Record ObjectLibs := mkObjectLibs {
  env_template : string -> result (Workspace -> WorkspaceAccessStrategy -> result string);
  access_template : (string -> string) -> string ->
    result (Workspace -> WorkspaceAccessStrategy -> Service -> result string);
  yaml_Unmarshal : string -> result Unstructured;
  set_controller : Workspace -> ObjectMeta -> result ObjectMeta;
}.

(** The metadata of an object about to be created. *)
Definition new_meta (name namespace : string) (labels annotations : gmap string string)
    : ObjectMeta :=
  mkObjectMeta name namespace "" "" 0 0 None labels annotations [] [].

(** ** PVCBuilder (pvc_builder.go) *)
Module PVCBuilder.
Section builder.
Context (libs : ObjectLibs).

Definition buildObjectMeta (w : Workspace) : ObjectMeta :=
  new_meta (GeneratePVCName (ws_Name w)) (ws_Namespace w) (GenerateLabels (ws_Name w)) ∅.
Definition buildPVCSpecWithSize (size : Quantity) (storageClassName : option string)
    : PersistentVolumeClaimSpec :=
  mkPersistentVolumeClaimSpec ["ReadWriteOnce"] {[ "storage" := size ]} ∅ storageClassName None.

Definition BuildPVC (w : Workspace) : result (option PersistentVolumeClaim) :=
  match ResolveStorageConfig w with
  | None => Ok None
  | Some storageConfig =>
      let spec := buildPVCSpecWithSize (rsc_Size storageConfig) (rsc_StorageClassName storageConfig) in
      meta ← wrap_err "failed to set controller reference: %w" []
               (set_controller libs w (buildObjectMeta w));
      Ok (Some (mkPersistentVolumeClaim meta spec))
  end.

Definition storage_of (pvc : PersistentVolumeClaim) : Quantity :=
  default (mkQuantity 0 "0") (pvs_Requests (pvc_Spec pvc) !! "storage").

(** NeedsUpdate compares the access modes and the storage size only. *)
Definition NeedsUpdate (existingPVC : PersistentVolumeClaim) (w : Workspace) : result bool :=
  desired ← wrap_err "failed to build desired PVC: %w" [] (BuildPVC w);
  match desired with
  | None => Ok false
  | Some desiredPVC =>
      if negb (bool_decide (pvs_AccessModes (pvc_Spec existingPVC) =
                            pvs_AccessModes (pvc_Spec desiredPVC))) then Ok true
      else if negb (q_value (storage_of existingPVC) =? q_value (storage_of desiredPVC)) then Ok true
      else Ok false
  end.

(** UpdatePVCSpec leaves the immutable storage class alone. *)
Definition UpdatePVCSpec (existingPVC : PersistentVolumeClaim) (w : Workspace)
    : result PersistentVolumeClaim :=
  desired ← wrap_err "failed to build desired PVC: %w" [] (BuildPVC w);
  match desired with
  | None => Fail (Errorf "cannot update PVC to nil spec" [])
  | Some desiredPVC =>
      let e := pvc_Spec existingPVC in
      let d := pvc_Spec desiredPVC in
      Ok (mkPersistentVolumeClaim (pvc_ObjectMeta existingPVC)
            (mkPersistentVolumeClaimSpec (pvs_AccessModes d) (pvs_Requests d) (pvs_Limits d)
               (pvs_StorageClassName e) (pvs_Rest e)))
  end.
End builder.
End PVCBuilder.

(** ** ServiceBuilder (service_builder.go) *)
Module ServiceBuilder.

(** resolveContainerPort finds the single container port of a name. *)
Fixpoint port_loop (name : string) (ports : list ContainerPort) (found : option ContainerPort)
    : result (option ContainerPort) :=
  match ports with
  | [] => Ok found
  | p :: rest =>
      if negb (bool_decide (cp_Name p = name)) then port_loop name rest found
      else match found with
           | Some _ => Fail (Errorf "exposed port %q is declared by more than one additional container" [name])
           | None => port_loop name rest (Some p)
           end
  end.
Definition resolveContainerPort (containers : list Container) (name : string) : result ContainerPort :=
  found ← port_loop name (containers ≫= ctr_Ports) None;
  match found with
  | None => Fail (Errorf "exposed port %q matches no port declared by any additional container" [name])
  | Some p => Ok p
  end.

(** The loop of sidecarServicePorts; [usedNumbers] maps a port number to the
    name that took it. *)
Fixpoint exposed_loop (containers : list Container) (names : list string)
    (usedNumbers : gmap Z string) (ports : list ServicePort) : result (list ServicePort) :=
  match names with
  | [] => Ok ports
  | name :: rest =>
      if bool_decide (name = httpScheme) then
        Fail (Errorf "exposed port %q collides with the reserved application port name" [name])
      else
      containerPort ← resolveContainerPort containers name;
      let n := cp_ContainerPort containerPort in
      if n =? JupyterPort then
        Fail (Errorf "exposed port %q targets port %d, reserved for the application"
                [name; Sprint_int JupyterPort])
      else
      match usedNumbers !! n with
      | Some other => Fail (Errorf "exposed ports %q and %q both target port %d"
                              [other; name; Sprint_int n])
      | None =>
          let protocol := if bool_decide (cp_Protocol containerPort = "") then "TCP"
                          else cp_Protocol containerPort in
          exposed_loop containers rest (<[n := name]> usedNumbers)
            (ports ++ [mkServicePort name protocol n (FromInt n) None])
      end
  end.

(** The pod modifications of an access strategy, if any. *)
Definition strategy_mods (accessStrategy : option WorkspaceAccessStrategy) : option PodModifications :=
  match accessStrategy with
  | None => None
  | Some a => match asps_DeploymentModifications (was_Spec a) with
              | None => None
              | Some d => dm_PodModifications d
              end
  end.
Definition sidecarServicePorts (accessStrategy : option WorkspaceAccessStrategy)
    : result (list ServicePort) :=
  match strategy_mods accessStrategy with
  | None => Ok []
  | Some podMods =>
      exposed_loop (pm_AdditionalContainers podMods) (pm_ExposedPorts podMods) ∅ []
  end.

Definition application_port : ServicePort :=
  mkServicePort httpScheme "TCP" JupyterPort (FromInt JupyterPort) None.
Definition buildServiceSpec (w : Workspace) (accessStrategy : option WorkspaceAccessStrategy)
    : result ServiceSpec :=
  sidecarPorts ← sidecarServicePorts accessStrategy;
  Ok (mkServiceSpec "ClusterIP" (GenerateLabels (ws_Name w)) (application_port :: sidecarPorts)
        "" None).

Definition buildObjectMeta (w : Workspace) : ObjectMeta :=
  new_meta (GenerateServiceName (ws_Name w)) (ws_Namespace w) (GenerateLabels (ws_Name w)) ∅.

(** serviceSpecMatches and applyServiceSpec: the fields the operator owns. *)
Definition serviceSpecMatches (existing desired : ServiceSpec) : bool :=
  bool_decide (ssp_Type existing = ssp_Type desired) &&
  bool_decide (ssp_Selector existing = ssp_Selector desired) &&
  bool_decide (ssp_Ports existing = ssp_Ports desired).
Definition applyServiceSpec (existing desired : ServiceSpec) : ServiceSpec :=
  mkServiceSpec (ssp_Type desired) (ssp_Selector desired) (ssp_Ports desired)
    (ssp_ClusterIP existing) (ssp_Rest existing).

Section builder.
Context (libs : ObjectLibs).

Definition BuildService (w : Workspace) (accessStrategy : option WorkspaceAccessStrategy)
    : result Service :=
  spec ← buildServiceSpec w accessStrategy;
  meta ← wrap_err "failed to set controller reference: %w" []
           (set_controller libs w (buildObjectMeta w));
  Ok (mkService meta spec []).

Definition NeedsUpdate (existingService : Service) (w : Workspace)
    (accessStrategy : option WorkspaceAccessStrategy) : result bool :=
  desired ← wrap_err "failed to build desired service: %w" [] (BuildService w accessStrategy);
  Ok (negb (serviceSpecMatches (svc_Spec existingService) (svc_Spec desired))).

Definition UpdateServiceSpec (existingService : Service) (w : Workspace)
    (accessStrategy : option WorkspaceAccessStrategy) : result Service :=
  desired ← wrap_err "failed to build desired service: %w" [] (BuildService w accessStrategy);
  Ok (mkService (svc_ObjectMeta existingService)
        (applyServiceSpec (svc_Spec existingService) (svc_Spec desired))
        (svc_LoadBalancerIngress existingService)).
End builder.
End ServiceBuilder.

(** ** AccessResourcesBuilder (access_resources_builder.go) *)
Module AccessResourcesBuilder.
Section builder.
Context (libs : ObjectLibs).

(** GroupVersion.String, as SetGroupVersionKind writes the API version. *)
Definition GroupVersion_String (g : GroupVersionKind) : string :=
  if bool_decide (gvk_Group g = "") then gvk_Version g
  else gvk_Group g +:+ "/" +:+ gvk_Version g.

(** The labels that refer to the workspace and the access strategy. *)
Definition resource_labels (w : Workspace) (accessStrategy : WorkspaceAccessStrategy)
    (labels : gmap string string) : gmap string string :=
  let ns := om_Namespace (was_ObjectMeta accessStrategy) in
  <[LabelAccessStrategyNamespace := if bool_decide (ns = "") then ws_Namespace w else ns]>
    (<[LabelAccessStrategyName := om_Name (was_ObjectMeta accessStrategy)]>
      (<[LabelWorkspaceNamespace := ws_Namespace w]>
        (<[LabelWorkspaceName := ws_Name w]> labels))).

Definition newline : string := String "010" "".

(** BuildUnstructuredResource builds an unstructured resource from a template. *)
Definition BuildUnstructuredResource (t : AccessResourceTemplate) (w : Workspace)
    (accessStrategy : WorkspaceAccessStrategy) (service : Service) : result Unstructured :=
  let name := art_NamePrefix t +:+ "-" +:+ ws_Name w in
  resourceTmpl ← wrap_err "failed to parse resource template: %w" []
                   (access_template libs EncodeNamespaceB32 (art_Template t));
  resourceYAML ← wrap_err "failed to execute resource template: %w" []
                   (resourceTmpl w accessStrategy service);
  let yamlWithMeta := "apiVersion: " +:+ art_ApiVersion t +:+ newline +:+ "kind: " +:+ art_Kind t
                        +:+ newline +:+ resourceYAML in
  obj ← wrap_err "failed to unmarshal resource YAML: %w" [] (yaml_Unmarshal libs yamlWithMeta);
  let gvk := getGroupVersionKind (art_ApiVersion t) (art_Kind t) in
  let meta := set_om_Namespace (ws_Namespace w) (set_om_Name name (un_ObjectMeta obj)) in
  Ok (mkUnstructured (GroupVersion_String gvk) (gvk_Kind gvk)
        (set_om_Labels (resource_labels w accessStrategy (om_Labels meta)) meta)
        (un_Spec obj) (un_Rest obj)).

(** ResolveTemplateURL resolves a URL template. *)
Definition ResolveTemplateURL (urlTemplate : string) (w : Workspace)
    (accessStrategy : WorkspaceAccessStrategy) (service : Service) : result string :=
  tmpl ← wrap_err "failed to parse URL template: %w" []
           (access_template libs EncodeNamespaceB32 urlTemplate);
  wrap_err "failed to execute URL template: %w" [] (tmpl w accessStrategy service).

Definition ResolveAccessURL (w : Workspace) (accessStrategy : WorkspaceAccessStrategy)
    (service : Service) : result string :=
  let t := asps_AccessURLTemplate (was_Spec accessStrategy) in
  if bool_decide (t = "") then Ok "" else ResolveTemplateURL t w accessStrategy service.

(** ResolveApplicationBasePath: the empty path with the error, on an error. *)
Definition ResolveApplicationBasePath (w : Workspace) (accessStrategy : WorkspaceAccessStrategy)
    (service : Service) : string * option error :=
  let t := asps_ApplicationBasePathTemplate (was_Spec accessStrategy) in
  if bool_decide (t = "") then ("", None)
  else match ResolveTemplateURL t w accessStrategy service with
       | Ok resolved => (resolved, None)
       | Fail err => ("", Some err)
       end.

(** ResolveAccessResourceSelector: a label selector for the access resources. *)
Definition ResolveAccessResourceSelector (w : Workspace) (accessStrategy : WorkspaceAccessStrategy)
    : string :=
  if bool_decide (asps_AccessResourceTemplates (was_Spec accessStrategy) = []) then ""
  else LabelWorkspaceName +:+ "=" +:+ ws_Name w.
End builder.
End AccessResourcesBuilder.

(** ** The ports of a service *)

Section ports.
Import ServiceBuilder.

(** The ports some containers declare under a name, and the service port of one. *)
Definition declared (containers : list Container) (name : string) : list ContainerPort :=
  filter (fun p => cp_Name p = name) (containers ≫= ctr_Ports).
Definition service_port (name : string) (p : ContainerPort) : ServicePort :=
  mkServicePort name (if bool_decide (cp_Protocol p = "") then "TCP" else cp_Protocol p)
    (cp_ContainerPort p) (FromInt (cp_ContainerPort p)) None.

Lemma port_loop_spec name ports found out :
  port_loop name ports found = Ok out <->
  option_list found ++ filter (fun p => cp_Name p = name) ports = option_list out.
Proof.
  revert found. induction ports as [|p ports IH]; intros found; cbn [port_loop].
  - rewrite filter_nil, app_nil_r. destruct found, out; cbn; naive_solver.
  - rewrite filter_cons. destruct (decide (cp_Name p = name)) as [E|Hne].
    + rewrite bool_decide_true by done. cbn. destruct found as [q|]; [|apply IH]. cbn.
      split; [done|]. by destruct out.
    + rewrite bool_decide_false by done. cbn. apply IH.
Qed.

Lemma resolveContainerPort_spec containers name p :
  resolveContainerPort containers name = Ok p <-> declared containers name = [p].
Proof.
  unfold resolveContainerPort, declared. rewrite result_bind_Ok. split.
  - intros (out & Hl & Ho). apply port_loop_spec in Hl. cbn in Hl. rewrite Hl.
    destruct out; [|done]. by injection Ho as <-.
  - intros Hd. exists (Some p). split; [|done]. by apply port_loop_spec.
Qed.

Lemma exposed_loop_spec containers ns used ports out :
  exposed_loop containers ns used ports = Ok out <->
  exists cps, Forall2 (fun name p => name <> httpScheme /\ declared containers name = [p]) ns cps /\
    NoDup (JupyterPort :: (cp_ContainerPort <$> cps)) /\
    (forall p, p ∈ cps -> used !! cp_ContainerPort p = None) /\
    out = ports ++ zip_with service_port ns cps.
Proof.
  revert used ports. induction ns as [|name ns IH]; intros used ports.
  - cbn. split.
    + intros [= <-]. exists []. split_and!; [done| |by intros ? ?%elem_of_nil|by rewrite app_nil_r].
      apply NoDup_cons. split; [by intros ?%elem_of_nil|constructor].
    + intros (cps & Hf & _ & _ & ->). apply Forall2_nil_inv_l in Hf as ->. by rewrite app_nil_r.
  - cbn [exposed_loop]. case_bool_decide as Hn.
    { split; [done|]. intros (cps & Hf & _). inversion Hf; naive_solver. }
    rewrite result_bind_Ok. split.
    + intros (p & Hp & Hr). apply resolveContainerPort_spec in Hp.
      destruct (Z.eqb_spec (cp_ContainerPort p) JupyterPort) as [|Hj]; [done|].
      destruct (used !! cp_ContainerPort p) eqn:Hu; [done|].
      apply IH in Hr as (cps & Hf & Hnd & Hused & ->). apply NoDup_cons in Hnd as [Hj' Hnd].
      exists (p :: cps). split_and!; [by constructor| | |].
      * cbn. apply NoDup_cons. split; [by intros [?|?]%elem_of_cons|].
        apply NoDup_cons. split; [|done].
        intros (q & E & Hq)%list_elem_of_fmap. specialize (Hused q Hq). rewrite <- E in Hused.
        by rewrite lookup_insert_eq in Hused.
      * intros q [->|Hq]%elem_of_cons; [done|]. specialize (Hused q Hq).
        by apply lookup_insert_None in Hused as [? _].
      * cbn. by rewrite <- app_assoc.
    + intros (cps & Hf & Hnd & Hused & ->). inversion Hf as [|? p ? cps' [Hne Hp] Hf']; subst.
      exists p. split; [by apply resolveContainerPort_spec|].
      cbn in Hnd. apply NoDup_cons in Hnd as [Hj Hnd]. apply NoDup_cons in Hnd as [Hpn Hnd].
      destruct (Z.eqb_spec (cp_ContainerPort p) JupyterPort) as [E|_]; [rewrite E in Hj; set_solver|].
      rewrite (Hused p) by left. apply IH. exists cps'. split_and!; [done| | |].
      * apply NoDup_cons. split; [set_solver|done].
      * intros q Hq. rewrite lookup_insert_ne; [apply Hused; by right|].
        intros E. apply Hpn. rewrite E. by apply list_elem_of_fmap_2.
      * cbn. by rewrite <- app_assoc.
Qed.

Lemma service_ports_numbers ns cps : length ns = length cps ->
  sport_Port <$> zip_with service_port ns cps = cp_ContainerPort <$> cps.
Proof.
  revert cps. induction ns as [|n ns IH]; intros [|p cps] Hl; try done. cbn. f_equal. apply IH. by injection Hl.
Qed.

Lemma service_ports_names ns cps : length ns = length cps ->
  sport_Name <$> zip_with service_port ns cps = ns.
Proof.
  revert cps. induction ns as [|n ns IH]; intros [|p cps] Hl; try done. cbn. f_equal. apply IH. by injection Hl.
Qed.

(** Distinct ports come from distinct names. *)
Lemma exposed_names_distinct containers ns cps :
  Forall2 (fun name p => name <> httpScheme /\ declared containers name = [p]) ns cps ->
  NoDup (cp_ContainerPort <$> cps) -> NoDup (httpScheme :: ns).
Proof.
  induction 1 as [|name p ns cps [Hne Hp] Hf IH]; cbn; intros Hd.
  - apply NoDup_cons. split; [by intros ?%elem_of_nil|constructor].
  - apply NoDup_cons in Hd as [Hn Hd]. specialize (IH Hd). apply NoDup_cons in IH as [Hh IH].
    apply NoDup_cons. split; [by intros [?|?]%elem_of_cons|]. apply NoDup_cons. split; [|done].
    intros Hin. apply Hn. apply list_elem_of_lookup in Hin as [i Hi].
    destruct (Forall2_lookup_l _ _ _ _ _ Hf Hi) as (q & Hq & _ & Hq'). rewrite Hp in Hq'.
    injection Hq' as <-. apply list_elem_of_fmap_2. by eapply list_elem_of_lookup_2.
Qed.
End ports.

(** The service publishes what the access strategy exposes and nothing else:
    it is built exactly when every exposed name is declared by one port of the
    strategy's containers, none takes the name or the number of the application
    and no two share a number; its ports are then the application's and those, in
    order, and their names and numbers are all different. *)
Theorem service_ports_correct (w : Workspace) (strategy : option WorkspaceAccessStrategy)
    (spec : ServiceSpec) :
  let exposed := match ServiceBuilder.strategy_mods strategy with
    | Some mods => pm_ExposedPorts mods | None => [] end in
  let containers := match ServiceBuilder.strategy_mods strategy with
    | Some mods => pm_AdditionalContainers mods | None => [] end in
  (ServiceBuilder.buildServiceSpec w strategy = Ok spec <->
   exists cps,
     Forall2 (fun name p => name <> httpScheme /\ declared containers name = [p]) exposed cps /\
     NoDup (JupyterPort :: (cp_ContainerPort <$> cps)) /\
     spec = mkServiceSpec "ClusterIP" (GenerateLabels (ws_Name w))
       (ServiceBuilder.application_port :: zip_with service_port exposed cps) "" None) /\
  (ServiceBuilder.buildServiceSpec w strategy = Ok spec ->
   NoDup (sport_Port <$> ssp_Ports spec) /\ NoDup (sport_Name <$> ssp_Ports spec) /\
   sport_Name <$> ssp_Ports spec = httpScheme :: exposed).
Proof.
  intros exposed containers.
  assert (Hiff : ServiceBuilder.buildServiceSpec w strategy = Ok spec <-> exists cps,
     Forall2 (fun name p => name <> httpScheme /\ declared containers name = [p]) exposed cps /\
     NoDup (JupyterPort :: (cp_ContainerPort <$> cps)) /\
     spec = mkServiceSpec "ClusterIP" (GenerateLabels (ws_Name w))
       (ServiceBuilder.application_port :: zip_with service_port exposed cps) "" None).
  { unfold ServiceBuilder.buildServiceSpec. rewrite result_bind_Ok.
    assert (Hs : forall ports, ServiceBuilder.sidecarServicePorts strategy = Ok ports <->
      ServiceBuilder.exposed_loop containers exposed ∅ [] = Ok ports).
    { intros ports. unfold ServiceBuilder.sidecarServicePorts, containers, exposed.
      by destruct (ServiceBuilder.strategy_mods strategy). }
    setoid_rewrite Hs. setoid_rewrite exposed_loop_spec. split.
    - intros (ports & (cps & Hf & Hn & _ & ->) & [= <-]). by exists cps.
    - intros (cps & Hf & Hn & ->). eexists. split; [|done]. exists cps. split_and!; [done..| |done].
      intros p _. apply lookup_empty. }
  split; [exact Hiff|]. rewrite Hiff. intros (cps & Hf & Hn & ->). cbn [ssp_Ports fmap list_fmap].
  pose proof (Forall2_length _ _ _ Hf) as Hl.
  cbn. rewrite service_ports_numbers, service_ports_names by done.
  split_and!; [done| |done]. apply NoDup_cons in Hn as [_ Hn]. by eapply exposed_names_distinct.
Qed.
