(* ===== verification/Pods.v ===== *)
(** * Pods: pod lookup, pod exec and the integration probe

    internal/controller pod_exec_util.go, the pod lookups of idle_checker.go and
    integration_prober.go, the probe of integration_prober.go with the message it
    reports, and internal/pluginadapters (pods.go, pod_event_handler.go).  The exec
    stream of client-go is a parameter. *)

From S2P Require Import Prelude Api StringUtil K8s WorkspaceQueries Status Integrations.
From S2P Require Import ObjectBuilders.

Local Open Scope go_scope.

(** ** Exec errors *)

(** A layer of an error's Unwrap chain, as errors.Is and errors.As see it. *)
Inductive ErrKind :=
| ExitStatus (exited : bool) (code : Z)
| DeadlineExceeded
| Canceled
| NetError
| OtherError.
#[global] Instance ErrKind_eq_dec : EqDecision ErrKind.
Proof. solve_decision. Defined.

(** An error of the exec stream: its text and its chain, outermost first. *)
Record ExecError := mkExecError { ee_Error : string; ee_chain : list ErrKind }.
Definition exec_error (e : ExecError) : error := Errorf "%s" [ee_Error e].

(** isTransientProbeError: no verdict of the command was obtained. *)
Definition exit_status (chain : list ErrKind) : option bool :=
  head (omap (fun k => match k with ExitStatus exited _ => Some exited | _ => None end) chain).
Definition isTransientProbeError (err : ExecError) : bool :=
  if bool_decide (exit_status (ee_chain err) = Some true) then false
  else if bool_decide (DeadlineExceeded ∈ ee_chain err) || bool_decide (Canceled ∈ ee_chain err)
  then true
  else bool_decide (NetError ∈ ee_chain err).

(** ** Pod exec *)

(** corev1.PodExecOptions with the pod it is posted to. *)
Record ExecRequest := mkExecRequest {
  er_Name : string;
  er_Namespace : string;
  er_Container : string;
  er_Command : list string;
  er_Stdin : bool;
}.

(** Pods of the cluster, the exec stream and the clock: listing by namespace and
    labels, remotecommand's executor, and the stream with its context's timeout. *)
Record PodClient (W : Type) := mkPodClient {
  pc_Get : string -> string -> ST W Pod;
  pc_List : string -> gmap string string -> ST W (list Pod);
  newSPDYExecutor : ExecRequest -> ST W (option ExecError);
  StreamWithContext :
    option Duration -> ExecRequest -> option string -> ST W (string * string * option ExecError);
  pc_Now : ST W Time;
}.
Arguments pc_Get {W}.
Arguments pc_List {W}.
Arguments newSPDYExecutor {W}.
Arguments StreamWithContext {W}.
Arguments pc_Now {W}.

Section exec.
Context {W : Type} (client : PodClient W).

(** ExecInPodWithStderr returns stdout, stderr and the error separately. *)
Definition ExecInPodWithStderr (timeout : option Duration) (pod : Pod) (containerName : string)
    (cmd : list string) (stdin : string) : ST W (string * string * option ExecError) :=
  let hasStdin := negb (bool_decide (stdin = "")) in
  let req := mkExecRequest (om_Name (pod_ObjectMeta pod)) (om_Namespace (pod_ObjectMeta pod))
               containerName cmd hasStdin in
  err <- newSPDYExecutor client req ;;
  match err with
  | Some err =>
      st_ret ("", "", Some (mkExecError ("failed to create executor: " +:+ ee_Error err)
                              (OtherError :: ee_chain err)))
  | None =>
      out <- StreamWithContext client timeout req (if hasStdin then Some stdin else None) ;;
      let '(stdout, stderr, err) := out in
      st_ret (TrimSpace stdout, TrimSpace stderr, err)
  end.

(** ExecInPod discards stderr. *)
Definition ExecInPod (pod : Pod) (containerName : string) (cmd : list string) (stdin : string)
    : ST W (string * option ExecError) :=
  out <- ExecInPodWithStderr None pod containerName cmd stdin ;;
  let '(stdout, _, err) := out in
  st_ret (stdout, err).

(** ** Pod lookup *)

Definition is_running (pod : Pod) : bool := bool_decide (pod_Phase pod = PodRunning).

(** findWorkspacePod of the idle checker: the first running pod. *)
Definition findWorkspacePod (w : Workspace) : ST W Pod :=
  items <- st_wrap "failed to list pods: %w" []
             (pc_List client (ws_Namespace w) (GenerateLabels (ws_Name w))) ;;
  match List.find is_running items with
  | Some pod => st_ret pod
  | None => st_fail (Errorf "no running pod found for workspace" [])
  end.

(** FindRunningPod of the integration prober skips a pod that is terminating. *)
Definition findRunningPod (w : Workspace) : ST W Pod :=
  items <- st_wrap "failed to list pods: %w" []
             (pc_List client (ws_Namespace w) (GenerateLabels (ws_Name w))) ;;
  match List.find (fun pod => is_running pod && negb (is_deleting (pod_ObjectMeta pod))) items with
  | Some pod => st_ret pod
  | None => st_fail (Errorf "no running pod found for workspace" [])
  end.
End exec.

(** ** The probe's message *)

(** utf8.ValidString; [fuel] bounds the bytes left. *)
Fixpoint utf8_valid (fuel : nat) (s : list ascii) : bool :=
  match fuel, s with
  | _, [] => true
  | O, _ => false
  | S fuel, b :: rest =>
      if byte b <? 128 then utf8_valid fuel rest
      else let '(len, ok) := rune_len s in ok && utf8_valid fuel (drop (Z.to_nat len) s)
  end.
Definition ValidString (s : list ascii) : bool := utf8_valid (length s) s.

Definition maxProbeMessageBytes : nat := 2048.

(** The loop that backs off to a rune boundary. *)
Fixpoint clip (n : nat) (s : list ascii) : list ascii :=
  match n with
  | O => []
  | S m => if ValidString (take n s) then take n s else clip m s
  end.

Definition truncateProbeMessage (msg : string) : string :=
  if (String.length msg <=? maxProbeMessageBytes)%nat then msg
  else String.string_of_list_ascii (clip maxProbeMessageBytes (text msg)) +:+ " ...(truncated)".

Fixpoint firstNonEmpty (vals : list string) : string :=
  match vals with
  | [] => ""
  | v :: rest => if bool_decide (v = "") then firstNonEmpty rest else v
  end.

(** ** The probe *)

Section probe.
Context {W : Type} (client : PodClient W).

(** Probe execs the statusProbe command in the primary container and returns the
    verdict. *)
Definition IntegrationProber_Probe (pod : Pod) (integrationName : string)
    (probe : IntegrationStatusProbe) : ST W IntegrationStatus :=
  match isp_Exec probe with
  | None | Some [] =>
      now <- pc_Now client ;;
      st_ret (buildIntegrationStatus now integrationName false IntegrationReasonProbeError
                "integration statusProbe has no exec command to run")
  | Some command =>
      let timeout := resolveIntegrationProbeTimeout probe * Second in
      out <- ExecInPodWithStderr client (Some timeout) pod PrimaryContainerName command "" ;;
      let '(stdout, stderr, execErr) := out in
      now <- pc_Now client ;;
      match execErr with
      | Some execErr =>
          let msg := truncateProbeMessage (firstNonEmpty [stderr; stdout; ee_Error execErr]) in
          let reason := if isTransientProbeError execErr then IntegrationReasonProbeError
                        else IntegrationReasonProbeFailed in
          st_ret (buildIntegrationStatus now integrationName false reason msg)
      | None => st_ret (buildIntegrationStatus now integrationName true IntegrationReasonReady "")
      end
  end.

(** NewIntegrationProber: the prober the state machine is built with. *)
Definition NewIntegrationProber (probePeriod : Duration) : IntegrationProber W :=
  mkIntegrationProber W (findRunningPod client) IntegrationProber_Probe
    (NewIntegrationProber_period probePeriod).
End probe.

(** ** Containers of a pod, internal/pluginadapters/pods.go *)

Fixpoint container_status (statuses : list ContainerStatus) (containerName : string)
    : option ContainerStatus :=
  match statuses with
  | [] => None
  | cs :: rest =>
      if bool_decide (cs_Name cs = containerName) then Some cs
      else container_status rest containerName
  end.
Definition IsContainerRunning (pod : Pod) (containerName : string) : bool :=
  match container_status (pod_ContainerStatuses pod) containerName with
  | Some cs => cs_Running cs
  | None => false
  end.
Definition GetContainerRestartCount (pod : Pod) (containerName : string) : Z :=
  match container_status (pod_ContainerStatuses pod) containerName with
  | Some cs => cs_RestartCount cs
  | None => 0
  end.

(** ** The message stays within bounds and valid *)

Lemma rune_len_ok s len :
  rune_len s = (len, true) -> 2 <= len <= 4 /\ (Z.to_nat len <= length s)%nat /\
  forall t, rune_len (take (Z.to_nat len) s ++ t) = (len, true).
Proof.
  unfold rune_len. cbv zeta.
  destruct s as [|a [|b [|c [|d s]]]]; cbn; change (cont 128 191 0) with false;
    change (cont 160 191 0) with false; change (cont 128 159 0) with false;
    change (cont 144 191 0) with false; change (cont 128 143 0) with false;
    rewrite ?andb_false_r; try done;
    repeat match goal with
    | |- context [if ?x then _ else _] => destruct x eqn:?; cbn [andb orb]; rewrite ?andb_false_r
    end; intros [= <-]; (split; [lia|split; [cbn; lia|]]); intros t;
    [change (Z.to_nat 2) with 2%nat | change (Z.to_nat 2) with 2%nat | change (Z.to_nat 3) with 3%nat
    |change (Z.to_nat 2) with 2%nat | change (Z.to_nat 3) with 3%nat | change (Z.to_nat 4) with 4%nat];
    cbn; repeat match goal with H : ?x = _ |- context [if ?x then _ else _] => rewrite H end; try done.
Qed.

Lemma rune_len_app s len t : rune_len s = (len, true) -> rune_len (s ++ t) = (len, true).
Proof.
  intros (_ & _ & Ht)%rune_len_ok. rewrite <- (take_drop (Z.to_nat len) s), <- app_assoc. apply Ht.
Qed.

Lemma rune_len_take s len :
  rune_len s = (len, true) -> rune_len (take (Z.to_nat len) s) = (len, true).
Proof. intros (_ & _ & Ht)%rune_len_ok. rewrite <- (app_nil_r (take _ _)). apply Ht. Qed.

(** The fuel is enough when it covers the bytes. *)
Lemma utf8_valid_fuel f1 f2 s :
  (length s <= f1)%nat -> (length s <= f2)%nat -> utf8_valid f1 s = utf8_valid f2 s.
Proof.
  revert f2 s. induction f1 as [|f1 IH]; intros [|f2] [|b s] H1 H2; cbn [length] in *; try done; try lia.
  cbn [utf8_valid]. destruct (byte b <? 128); [apply IH; lia|].
  destruct (rune_len (b :: s)) as [len []] eqn:Er; [|done].
  apply rune_len_ok in Er as (Hl & _). cbn [andb]. apply IH; rewrite length_drop; cbn [length]; lia.
Qed.

(** The valid strings, rune by rune. *)
Lemma ValidString_ind (P : list ascii -> Prop) :
  P [] ->
  (forall b s, byte b <? 128 = true -> ValidString s = true -> P s -> P (b :: s)) ->
  (forall b s len, byte b <? 128 = false -> rune_len (b :: s) = (len, true) ->
     ValidString (drop (Z.to_nat len) (b :: s)) = true -> P (drop (Z.to_nat len) (b :: s)) ->
     P (b :: s)) ->
  forall s, ValidString s = true -> P s.
Proof.
  intros Hnil Hascii Hrune s. unfold ValidString.
  enough (Hf : forall fuel s, (length s <= fuel)%nat -> utf8_valid fuel s = true -> P s) by eauto.
  clear s. induction fuel as [|fuel IH]; intros [|b s] Hl Hv; [done|cbn in Hl; lia|done|].
  cbn [length utf8_valid] in *.
  destruct (byte b <? 128) eqn:Eb.
  - apply Hascii; [done| |apply IH; [lia|done]].
    unfold ValidString. by rewrite (utf8_valid_fuel _ fuel) by lia.
  - destruct (rune_len (b :: s)) as [len []] eqn:Er; [|done]. cbn [andb] in Hv.
    pose proof (rune_len_ok _ _ Er) as (H2 & H3 & _).
    assert (Hd : (length (drop (Z.to_nat len) (b :: s)) <= fuel)%nat)
      by (rewrite length_drop; cbn [length]; lia).
    apply (Hrune _ _ _ Eb Er); [unfold ValidString; by rewrite (utf8_valid_fuel _ fuel)|by apply IH].
Qed.

Lemma ValidString_ascii b s :
  byte b <? 128 = true -> ValidString s = true -> ValidString (b :: s) = true.
Proof. intros Hb Hs. unfold ValidString. cbn [length utf8_valid]. by rewrite Hb. Qed.

Lemma ValidString_rune b s len :
  byte b <? 128 = false -> rune_len (b :: s) = (len, true) ->
  ValidString (drop (Z.to_nat len) (b :: s)) = true -> ValidString (b :: s) = true.
Proof.
  intros Hb Hr Hs. unfold ValidString in *. cbn [length utf8_valid]. rewrite Hb, Hr. cbn [andb].
  pose proof (rune_len_ok _ _ Hr) as (H2 & _).
  rewrite <- Hs. apply utf8_valid_fuel; rewrite length_drop; cbn [length]; lia.
Qed.

Lemma ValidString_app s t :
  ValidString s = true -> ValidString t = true -> ValidString (s ++ t) = true.
Proof.
  intros Hs Ht. revert s Hs. apply (ValidString_ind (fun s => ValidString (s ++ t) = true));
    [done|intros b s Hb _ IH|intros b s len Hb Hr _ IH].
  - by apply ValidString_ascii.
  - pose proof (rune_len_ok _ _ Hr) as (H2 & H3 & _).
    apply (ValidString_rune _ _ len); [done|by apply (rune_len_app (b :: s))|].
    rewrite app_comm_cons, drop_app_le by done. exact IH.
Qed.

(** A valid string has a rune boundary at most three bytes before any position. *)
Lemma ValidString_boundary s n :
  ValidString s = true -> (n <= length s)%nat ->
  exists k, (k <= n <= k + 3)%nat /\ ValidString (take k s) = true.
Proof.
  intros Hs. revert s Hs n. apply (ValidString_ind (fun s => forall n, (n <= length s)%nat ->
    exists k, (k <= n <= k + 3)%nat /\ ValidString (take k s) = true));
    [intros n Hn|intros b s Hb _ IH n Hn|intros b s len Hb Hr _ IH n Hn].
  - exists 0%nat. cbn in Hn. split; [lia|done].
  - destruct n as [|n]; [by exists 0%nat; split; [lia|]|]. cbn [length] in Hn.
    destruct (IH n) as (k & Hk & Hv); [lia|]. exists (S k). split; [lia|]. by apply ValidString_ascii.
  - pose proof (rune_len_ok _ _ Hr) as (H2 & H3 & _).
    destruct (decide (n <= 3)%nat) as [Hle|Hgt]; [by exists 0%nat; split; [lia|]|].
    destruct (IH (n - Z.to_nat len)%nat) as (k & Hk & Hv); [rewrite length_drop; lia|].
    exists (Z.to_nat len + k)%nat. split; [lia|].
    assert (Ht : take (Z.to_nat len + k) (b :: s)
      = take (Z.to_nat len) (b :: s) ++ take k (drop (Z.to_nat len) (b :: s)))
      by (by rewrite take_take_drop).
    rewrite Ht. apply ValidString_app; [|done].
    destruct (Z.to_nat len) as [|m] eqn:Em; [lia|]. cbn [take].
    apply (ValidString_rune _ _ len); [done| |rewrite Em; cbn [drop]; rewrite drop_ge; [done|]].
    + pose proof (rune_len_take _ _ Hr) as Ht'. by rewrite Em in Ht'.
    + rewrite length_take. lia.
Qed.

(** The loop keeps the longest valid prefix of at most [n] bytes. *)
Lemma clip_longest n s :
  exists k, (k <= n)%nat /\ clip n s = take k s /\ ValidString (take k s) = true /\
  forall j, (j <= n)%nat -> ValidString (take j s) = true -> (j <= k)%nat.
Proof.
  induction n as [|n (k & Hk & E & Hv & Hmax)]; cbn [clip].
  { exists 0%nat. split_and!; [done..|]. intros j Hj. lia. }
  destruct (ValidString (take (S n) s)) eqn:Ev; [exists (S n); split_and!; [done..|intros; lia]|].
  exists k. split_and!; [lia|done..|]. intros j Hj Hvj.
  destruct (decide (j = S n)) as [->|Hne]; [congruence|]. apply Hmax; [lia|done].
Qed.

(** What truncateProbeMessage keeps. *)
Lemma truncateProbeMessage_spec msg :
  (truncateProbeMessage msg = msg /\ (String.length msg <= maxProbeMessageBytes)%nat) \/
  exists k, truncateProbeMessage msg
      = String.string_of_list_ascii (take k (text msg)) +:+ " ...(truncated)" /\
    (k <= maxProbeMessageBytes < String.length msg)%nat /\
    ValidString (take k (text msg)) = true /\
    (ValidString (text msg) = true -> (maxProbeMessageBytes <= k + 3)%nat).
Proof.
  unfold truncateProbeMessage. destruct (Nat.leb_spec (String.length msg) maxProbeMessageBytes) as [Hl|Hl];
    [by left|right].
  destruct (clip_longest maxProbeMessageBytes (text msg)) as (k & Hk & -> & Hv & Hmax).
  exists k. split_and!; [done..|]. intros Hmsg.
  destruct (ValidString_boundary (text msg) maxProbeMessageBytes Hmsg) as (j & Hj & Hvj).
  { rewrite text_length. lia. }
  specialize (Hmax j (proj1 Hj) Hvj). lia.
Qed.

(** Binary output is lost: from a message whose first byte is not UTF-8, nothing
    is kept. *)
Lemma truncate_loses_binary b rest :
  byte b <? 128 = false -> (maxProbeMessageBytes <= length rest)%nat ->
  (forall n, (rune_len (b :: take n rest)).2 = false) ->
  truncateProbeMessage (String.string_of_list_ascii (b :: rest)) = " ...(truncated)".
Proof.
  intros Hb Hl Hn.
  destruct (truncateProbeMessage_spec (String.string_of_list_ascii (b :: rest)))
    as [[_ Hle]|(k & -> & _ & Hv & _)].
  { rewrite string_of_text_length in Hle. cbn [length] in Hle. lia. }
  unfold text in *. rewrite String.list_ascii_of_string_of_list_ascii in *.
  destruct k as [|k]; [done|]. exfalso. unfold ValidString in Hv. cbn [take length utf8_valid] in Hv.
  rewrite Hb in Hv. specialize (Hn k). destruct (rune_len (b :: take k rest)) as [len []]; done.
Qed.

(** The probe's report: the one condition it leaves is true exactly when the
    command ran and exited with zero; a command that ran and failed, or an error
    nobody recognises, is ProbeFailed, while a timeout, a cancellation or a broken
    connection without an exit status is ProbeError; and the message, taken from
    stderr, else stdout, else the error, is at most 2063 bytes: the message itself,
    or its longest prefix of whole characters within 2048 bytes, which loses at most
    three bytes of room. *)
Theorem probe_report {W} (client : PodClient W) (pod : Pod) (name : string)
    (probe : IntegrationStatusProbe) (command : list string) (s s1 s2 : W)
    (stdout stderr : string) (execErr : option ExecError) (now : Time) :
  isp_Exec probe = Some command -> command <> [] ->
  ExecInPodWithStderr client (Some (resolveIntegrationProbeTimeout probe * Second)) pod
    PrimaryContainerName command "" s = (Ok (stdout, stderr, execErr), s1) ->
  pc_Now client s1 = (Ok now, s2) ->
  exists c state, IntegrationProber_Probe client pod name probe s
      = (Ok (mkIntegrationStatus name state [c]), s2) /\
    (cond_Status c = ConditionTrue <-> execErr = None) /\
    (forall e, execErr = Some e ->
       let kinds := ee_chain e in
       let full := firstNonEmpty [stderr; stdout; ee_Error e] in
       (exit_status kinds = Some true -> cond_Reason c = IntegrationReasonProbeFailed) /\
       (exit_status kinds <> Some true ->
          cond_Reason c = IntegrationReasonProbeError <->
          DeadlineExceeded ∈ kinds \/ Canceled ∈ kinds \/ NetError ∈ kinds) /\
       (cond_Message c = full \/
        exists k, cond_Message c
            = String.string_of_list_ascii (take k (text full)) +:+ " ...(truncated)" /\
          ValidString (take k (text full)) = true /\
          (ValidString (text full) = true -> (2045 <= k)%nat))) /\
    (String.length (cond_Message c) <= 2063)%nat.
Proof.
  intros Hc Hne Hexec Hnow. unfold IntegrationProber_Probe. rewrite Hc.
  destruct command as [|a args]; [done|]. unfold st_bind. rewrite Hexec.
  cbv beta iota. rewrite Hnow. cbv beta iota.
  destruct execErr as [e|].
  2:{ eexists _, _. split; [done|]. cbn. split_and!; [done..|lia]. }
  set (full := firstNonEmpty [stderr; stdout; ee_Error e]).
  eexists _, _. split; [done|]. cbn [cond_Status cond_Reason cond_Message]. split_and!; [done| |].
  - intros e' [= <-]. cbv zeta. fold full. unfold isTransientProbeError. split_and!.
    + intros Hx. by rewrite bool_decide_true.
    + intros Hx. rewrite bool_decide_false by done.
      repeat case_bool_decide; cbn; split; try done; intuition.
    + destruct (truncateProbeMessage_spec full) as [[-> _]|(k & -> & Hk & Hv & Hk')]; [by left|right].
      exists k. split_and!; [done..|]. intros Hf. specialize (Hk' Hf). unfold maxProbeMessageBytes in *. lia.
  - destruct (truncateProbeMessage_spec full) as [[-> Hl]|(k & -> & Hk & _ & _)];
      unfold maxProbeMessageBytes in *; [lia|].
    rewrite string_length_app, string_of_text_length, length_take. cbn. lia.
Qed.

(** A running pod whose commands end as given, at a fixed time. *)
Definition demo_running_pod : Pod :=
  mkPod (zero_meta "workspace-w-1" "ns") PodRunning
    [mkContainerStatus "workspace" true 0; mkContainerStatus "ssm-agent" true 1].
Definition demo_pods {W} (stdout stderr : string) (err : option ExecError) (now : Time)
    : PodClient W := {|
  pc_Get := fun _ _ => st_ret demo_running_pod;
  pc_List := fun _ _ => st_ret [demo_running_pod];
  newSPDYExecutor := fun _ => st_ret None;
  StreamWithContext := fun _ _ _ => st_ret (stdout, stderr, err);
  pc_Now := st_ret now;
|}.
Definition demo_failing_pods : PodClient unit :=
  demo_pods "" "no route" (Some (mkExecError "command terminated with exit code 1" [ExitStatus true 1])) 0.
Definition demo_exec_probe : IntegrationStatusProbe := mkIntegrationStatusProbe (Some ["check"]) 0.

Lemma probe_report_witness :
  exists c state, IntegrationProber_Probe demo_failing_pods demo_running_pod "ray" demo_exec_probe tt
      = (Ok (mkIntegrationStatus "ray" state [c]), tt) /\
    cond_Status c <> ConditionTrue /\ cond_Reason c = IntegrationReasonProbeFailed.
Proof.
  destruct (probe_report demo_failing_pods demo_running_pod "ray" demo_exec_probe ["check"] tt tt tt
    "" "no route" (Some (mkExecError "command terminated with exit code 1" [ExitStatus true 1])) 0)
    as (c & state & Hr & Hs & He & _); [reflexivity|discriminate|vm_compute; reflexivity|reflexivity|].
  exists c, state. split; [exact Hr|]. split; [intros Hc; apply Hs in Hc; discriminate|].
  apply (He _ eq_refl). reflexivity.
Defined.
