(* ===== verification/SsmAdapter.v ===== *)
(** * SsmAdapter: registering pods for remote access

    internal/awsadapter/ssm_pod_event_adapter.go, context_entries.go and the context
    of internal/pluginadapters/pod_event_handler.go.  A pod-running event sets up the
    agent in the sidecar and the server in the workspace container; a state file on
    their shared volume remembers the restart counts it did so for.  The plugin's
    remote calls, its context look-up and encoding/json are parameters. *)

From stdpp Require Import fin_sets.
From S2P Require Import Prelude Api StringUtil K8s Trace Status Pods.

Local Open Scope go_scope.

(** ** The context of pod events *)

Definition controllerFuncPrefix : string := "controller::".
Definition funcPodUID : string := "PodUid()".

Definition resolvePodControllerFunc (funcName : string) (pod : Pod) : result string :=
  if bool_decide (funcName = funcPodUID) then Ok (om_UID (pod_ObjectMeta pod))
  else Fail (Errorf "unknown controller function: %q" [funcName]).

(** The loop of ResolvePodContext, in the iteration order of the map. *)
Fixpoint resolve_context_loop (pod : Pod) (entries : list (string * string))
    (resolved : gmap string string) : result (gmap string string) :=
  match entries with
  | [] => Ok resolved
  | (k, v) :: rest =>
      if HasPrefix v controllerFuncPrefix then
        match resolvePodControllerFunc (TrimPrefix v controllerFuncPrefix) pod with
        | Ok val => resolve_context_loop pod rest (<[k := val]> resolved)
        | Fail err => Fail (Wrapf "failed to resolve %q for key %q: %w" [v; k] err)
        end
      else resolve_context_loop pod rest (<[k := v]> resolved)
  end.
Definition ResolvePodContext `{GoRuntime} (contextMap : gmap string string) (pod : Pod)
    : result (gmap string string) :=
  if bool_decide (contextMap = ∅) then Ok contextMap
  else resolve_context_loop pod (range contextMap) ∅.

Definition ContextKeySidecarContainerName : string := "sidecarContainerName".
Definition ContextKeyWorkspaceContainerName : string := "workspaceContainerName".
Definition ContextKeyRegistrationStateFile : string := "registrationStateFile".
Definition ContextKeyRegistrationMarkerFile : string := "registrationMarkerFile".
Definition ContextKeyRegistrationScript : string := "registrationScript".
Definition ContextKeyRemoteAccessServerScript : string := "remoteAccessServerScript".
Definition ContextKeyRemoteAccessServerPort : string := "remoteAccessServerPort".
Definition ContextKeyRegion : string := "region".

(** ** The adapter *)

(** RegistrationState tracks the registration across container restarts. *)
Record RegistrationState := mkRegistrationState {
  SidecarRestartCount : Z;
  WorkspaceRestartCount : Z;
  SetupInProgress : bool;
  SetupStartedAt : option Time;
}.

Record RegisterNodeAgentRequest := mkRegisterNodeAgentRequest {
  rna_PodUID : string;
  rna_WorkspaceName : string;
  rna_Namespace : string;
  rna_PodEventsContext : gmap string string;
}.
Record RegisterNodeAgentResponse := mkRegisterNodeAgentResponse {
  ActivationID : string;
  ActivationCode : string;
}.

(** plugin.RemoteAccessPluginApis, the plugin's context look-up, the codec of the
    state, the exec of the pod and the clock. *)
Record PluginApis (W : Type) := mkPluginApis {
  RegisterNodeAgent : RegisterNodeAgentRequest -> ST W RegisterNodeAgentResponse;
  DeregisterNodeAgent : string -> ST W unit;
}.
Arguments RegisterNodeAgent {W}.
Arguments DeregisterNodeAgent {W}.
Record AwsSsmPodEventAdapter (W : Type) := mkAwsSsmPodEventAdapter {
  pluginClient : option (PluginApis W);
  podExec : Pod -> string -> list string -> string -> ST W (string * option ExecError);
  ResolveStr : string -> gmap string string -> string;
  state_Marshal : RegistrationState -> result string;
  state_Unmarshal : string -> result RegistrationState;
  adapter_Now : ST W Time;
}.
Arguments pluginClient {W}.
Arguments podExec {W}.
Arguments ResolveStr {W}.
Arguments state_Marshal {W}.
Arguments state_Unmarshal {W}.
Arguments adapter_Now {W}.

Section adapter.
Context {W : Type} (s : AwsSsmPodEventAdapter W).

(** An exec whose output is dropped; the exec error is wrapped. *)
Definition exec_step (fmt : string) (pod : Pod) (container : string) (cmd : list string)
    (stdin : string) : ST W unit :=
  out <- podExec s pod container cmd stdin ;;
  match out.2 with
  | None => st_ret tt
  | Some err => st_fail (Wrapf fmt [] (exec_error err))
  end.

Definition cat_command (stateFile : string) : list string := ["cat"; stateFile].
Definition write_command (stateFile stateJSON : string) : list string :=
  ["bash"; "-c"; "echo '" +:+ stateJSON +:+ "' > " +:+ stateFile +:+ ".tmp && mv " +:+ stateFile
     +:+ ".tmp " +:+ stateFile].

(** readRegistrationState: the state, nothing when the file cannot be read, or an
    error when it does not parse. *)
Definition readRegistrationState (pod : Pod) (sidecarContainer stateFile : string)
    : ST W (result (option RegistrationState)) :=
  out <- podExec s pod sidecarContainer (cat_command stateFile) "" ;;
  match out with
  | (_, Some _) => st_ret (Ok None)
  | (output, None) =>
      st_ret (match state_Unmarshal s output with
              | Ok state => Ok (Some state)
              | Fail err => Fail err
              end)
  end.

(** writeRegistrationState writes a temporary file, then moves it. *)
Definition writeRegistrationState (pod : Pod) (sidecarContainer stateFile : string)
    (state : RegistrationState) : ST W unit :=
  stateJSON <- st_lift (wrap_err "failed to marshal state: %w" [] (state_Marshal s state)) ;;
  exec_step "failed to write state file: %w" pod sidecarContainer
    (write_command stateFile stateJSON) "".

Definition registerNodeAgent (api : PluginApis W) (pod : Pod) (workspaceName namespace : string)
    (podEventsContext : gmap string string) : ST W RegisterNodeAgentResponse :=
  RegisterNodeAgent api (mkRegisterNodeAgentRequest (om_UID (pod_ObjectMeta pod)) workspaceName
    namespace podEventsContext).

(** A double quote; Go writes it escaped in the script. *)
Definition dq : string := String "034" "".
Definition registration_command (region registrationScript : string) : list string :=
  ["bash"; "-c"; "read ACTIVATION_ID && read ACTIVATION_CODE && env ACTIVATION_ID=" +:+ dq +:+
     "$ACTIVATION_ID" +:+ dq +:+ " ACTIVATION_CODE=" +:+ dq +:+ "$ACTIVATION_CODE" +:+ dq +:+
     " REGION=" +:+ region +:+ " " +:+ registrationScript].

(** setupSidecarContainer registers the agent. *)
Definition setupSidecarContainer (api : PluginApis W) (pod : Pod) (workspaceName namespace : string)
    (podEventsContext : gmap string string) (cleanupNeeded : bool) : ST W unit :=
  let sidecarContainer := ResolveStr s ContextKeySidecarContainerName podEventsContext in
  (if cleanupNeeded
   then st_try (DeregisterNodeAgent api (om_UID (pod_ObjectMeta pod))) ;; st_ret tt
   else st_ret tt) ;;
  resp <- st_wrap "failed to register node agent: %w" []
            (registerNodeAgent api pod workspaceName namespace podEventsContext) ;;
  let registrationScript := ResolveStr s ContextKeyRegistrationScript podEventsContext in
  let region := ResolveStr s ContextKeyRegion podEventsContext in
  let newline := String "010" "" in
  let stdinData := ActivationID resp +:+ newline +:+ ActivationCode resp +:+ newline in
  exec_step "failed to execute SSM registration script: %w" pod sidecarContainer
    (registration_command region registrationScript) stdinData ;;
  let markerFile := ResolveStr s ContextKeyRegistrationMarkerFile podEventsContext in
  exec_step "failed to create marker file: %w" pod sidecarContainer ["touch"; markerFile] "".

(** setupWorkspaceContainer starts the server, when the container runs. *)
Definition setupWorkspaceContainer (pod : Pod) (podEventsContext : gmap string string) : ST W unit :=
  let workspaceContainer := ResolveStr s ContextKeyWorkspaceContainerName podEventsContext in
  if negb (IsContainerRunning pod workspaceContainer) then st_ret tt
  else
  exec_step "failed to start remote access server: %w" pod workspaceContainer
    [ResolveStr s ContextKeyRemoteAccessServerScript podEventsContext; "--port";
     ResolveStr s ContextKeyRemoteAccessServerPort podEventsContext] "".

(** What there is to set up: the sidecar, the workspace container, and whether to
    clean up first; nothing when the record is current. *)
Definition needed_setup (state : result (option RegistrationState)) (sidecar workspace : Z)
    : option (bool * bool * bool) :=
  match state with
  | Fail _ => Some (true, true, true)
  | Ok None => Some (true, true, false)
  | Ok (Some st) =>
      if SetupInProgress st then None
      else
      let sidecarRestarted := SidecarRestartCount st <? sidecar in
      let workspaceRestarted := WorkspaceRestartCount st <? workspace in
      if negb sidecarRestarted && negb workspaceRestarted then None
      else Some (sidecarRestarted, workspaceRestarted, sidecarRestarted)
  end.

(** The setup proper: mark it in progress, set up what is needed, mark it complete;
    a failure to write the mark is only logged. *)
Definition run_setup (api : PluginApis W) (pod : Pod) (workspaceName namespace : string)
    (podEventsContext : gmap string string) (sidecar workspace : Z) (needs : bool * bool * bool)
    : ST W unit :=
  let '(needSidecarSetup, needWorkspaceSetup, needCleanup) := needs in
  let sidecarContainer := ResolveStr s ContextKeySidecarContainerName podEventsContext in
  let stateFile := ResolveStr s ContextKeyRegistrationStateFile podEventsContext in
  now <- adapter_Now s ;;
  st_try (writeRegistrationState pod sidecarContainer stateFile
    (mkRegistrationState sidecar workspace true (Some now))) ;;
  sidecarErr <- (if needSidecarSetup
    then st_try (setupSidecarContainer api pod workspaceName namespace podEventsContext needCleanup)
    else st_ret (Ok tt)) ;;
  setupErr <- (match sidecarErr with
    | Ok _ => if needWorkspaceSetup then st_try (setupWorkspaceContainer pod podEventsContext)
              else st_ret (Ok tt)
    | Fail err => st_ret (Fail err)
    end) ;;
  st_try (writeRegistrationState pod sidecarContainer stateFile
    (mkRegistrationState sidecar workspace false None)) ;;
  st_lift setupErr.

(** HandlePodRunning; the random delay only shifts the event in time. *)
Definition HandlePodRunning (pod : Pod) (workspaceName namespace : string)
    (podEventsContext : gmap string string) : ST W unit :=
  match pluginClient s with
  | None => st_fail (Errorf "plugin client not available" [])
  | Some api =>
      let sidecarContainer := ResolveStr s ContextKeySidecarContainerName podEventsContext in
      if negb (IsContainerRunning pod sidecarContainer) then st_ret tt
      else
      let workspaceContainer := ResolveStr s ContextKeyWorkspaceContainerName podEventsContext in
      let sidecar := GetContainerRestartCount pod sidecarContainer in
      let workspace := GetContainerRestartCount pod workspaceContainer in
      let stateFile := ResolveStr s ContextKeyRegistrationStateFile podEventsContext in
      state <- readRegistrationState pod sidecarContainer stateFile ;;
      match needed_setup state sidecar workspace with
      | None => st_ret tt
      | Some needs => run_setup api pod workspaceName namespace podEventsContext sidecar workspace needs
      end
  end.

(** HandlePodDeleted delegates the cleanup to the plugin. *)
Definition HandlePodDeleted (pod : Pod) (podEventsContext : gmap string string) : ST W unit :=
  match pluginClient s with
  | None => st_fail (Errorf "plugin client not available" [])
  | Some api => DeregisterNodeAgent api (om_UID (pod_ObjectMeta pod))
  end.
End adapter.

(** ** The calls of an event *)

(** What the adapter asks of the pod and of the plugin. *)
Inductive Call :=
| CallExec (container : string) (cmd : list string)
| CallRegister (req : RegisterNodeAgentRequest)
| CallDeregister (uid : string).

Definition is_register (c : Call) : bool := match c with CallRegister _ => true | _ => false end.
Definition is_exec (c : Call) : bool := match c with CallExec _ _ => true | _ => false end.
Definition registrations (calls : list Call) : nat := length (List.filter is_register calls).

(** The same adapter, its calls written down; it answers what the other answers. *)
Definition logging {W A} (call : list Call) (m : ST W A) : ST (W * list Call) A :=
  recording (fun _ => call) m.
Definition logged_api {W} (api : PluginApis W) : PluginApis (W * list Call) := {|
  RegisterNodeAgent := fun req => logging [CallRegister req] (RegisterNodeAgent api req);
  DeregisterNodeAgent := fun uid => logging [CallDeregister uid] (DeregisterNodeAgent api uid);
|}.
Definition logged {W} (s : AwsSsmPodEventAdapter W) : AwsSsmPodEventAdapter (W * list Call) := {|
  pluginClient := logged_api <$> pluginClient s;
  podExec := fun pod container cmd stdin =>
    logging [CallExec container cmd] (podExec s pod container cmd stdin);
  ResolveStr := ResolveStr s;
  state_Marshal := state_Marshal s;
  state_Unmarshal := state_Unmarshal s;
  adapter_Now := logging [] (adapter_Now s);
|}.

Lemma registrations_app a b : registrations (a ++ b) = (registrations a + registrations b)%nat.
Proof. unfold registrations. by rewrite List.filter_app, length_app. Qed.
Lemma registrations_execs l : forallb is_exec l = true -> registrations l = O.
Proof. unfold registrations. induction l as [|[] l IH]; cbn; auto; done. Qed.

Lemma HandlePodRunning_logged {W} (s : AwsSsmPodEventAdapter W) pod name ns ctx :
  sim (HandlePodRunning (logged s) pod name ns ctx) (HandlePodRunning s pod name ns ctx).
Proof.
  assert (Hx : forall fmt pod c cmd stdin,
    sim (exec_step (logged s) fmt pod c cmd stdin) (exec_step s fmt pod c cmd stdin))
    by (intros; unfold exec_step; repeat sim_step).
  assert (Hw : forall pod c f st,
    sim (writeRegistrationState (logged s) pod c f st) (writeRegistrationState s pod c f st))
    by (intros; unfold writeRegistrationState; cbn [state_Marshal logged]; repeat first [apply Hx|sim_step]).
  unfold HandlePodRunning. cbn [pluginClient logged ResolveStr]. destruct (pluginClient s) as [api|]; [|done].
  cbn [fmap option_fmap option_map]. cbv zeta. destruct (IsContainerRunning pod _); cbn [negb]; [|done].
  apply sim_bind.
  { unfold readRegistrationState. cbn [podExec state_Unmarshal logged]. repeat sim_step. }
  intros state. destruct (needed_setup state _ _) as [[[needS needW] cleanup]|]; [|done].
  unfold run_setup, setupSidecarContainer, setupWorkspaceContainer, registerNodeAgent.
  cbn [adapter_Now ResolveStr logged RegisterNodeAgent DeregisterNodeAgent logged_api]. cbv zeta.
  repeat first [apply Hx|apply Hw|sim_step].
Qed.

(** An exec and a clock that answer: an error of the exec is part of the answer. *)
Definition answers {W} (s : AwsSsmPodEventAdapter W) : Prop :=
  (forall pod container cmd stdin w, is_ok (podExec s pod container cmd stdin w).1 = true) /\
  forall w, is_ok (adapter_Now s w).1 = true.

Lemma size_add_new (x : Z) (X : gset Z) : size ({[ x ]} ∪ X ∖ {[ x ]}) = S (size (X ∖ {[ x ]})).
Proof. rewrite size_union by set_solver. by rewrite size_singleton. Qed.

Section calls.
Context {W : Type} (s : AwsSsmPodEventAdapter W) (api : PluginApis W) (ctx : gmap string string).
Let stateFile := ResolveStr s ContextKeyRegistrationStateFile ctx.
Let sidecarContainer := ResolveStr s ContextKeySidecarContainerName ctx.
Let workspaceContainer := ResolveStr s ContextKeyWorkspaceContainerName ctx.
Hypothesis Hanswers : answers s.

(** [m], whatever its answer, makes some calls. *)
Definition makes {A} (P : list Call -> Prop) (m : ST (W * list Call) A) : Prop :=
  forall w log, exists r w' calls, m (w, log) = (r, (w', log ++ calls)) /\ P calls.

Lemma makes_try {A} P (m : ST (W * list Call) A) w log : makes P m ->
  exists r w' calls, st_try m (w, log) = (Ok r, (w', log ++ calls)) /\ P calls.
Proof. intros Hm. destruct (Hm w log) as (r & w' & c & E & HP). unfold st_try. rewrite E. eauto 6. Qed.

(** The exec that writes a state; none when it cannot be encoded. *)
Definition write_calls (st : RegistrationState) : list Call :=
  match state_Marshal s st with
  | Ok json => [CallExec sidecarContainer (write_command stateFile json)]
  | Fail _ => []
  end.

Lemma exec_step_makes fmt pod container cmd stdin :
  makes (fun calls => calls = [CallExec container cmd]) (exec_step (logged s) fmt pod container cmd stdin).
Proof.
  intros w log. unfold exec_step, st_bind. cbn [podExec logged]. unfold logging, recording.
  destruct (podExec s pod container cmd stdin w) as [[out|e] w']; [|eauto 6]. destruct out.2; eauto 6.
Qed.

Lemma write_makes pod st :
  makes (fun calls => calls = write_calls st)
    (writeRegistrationState (logged s) pod sidecarContainer stateFile st).
Proof.
  intros w log. unfold writeRegistrationState, write_calls. cbn [state_Marshal logged].
  unfold st_bind, st_lift. destruct (state_Marshal s st) as [json|e]; cbn [wrap_err].
  - apply exec_step_makes.
  - eexists _, w, []. by rewrite app_nil_r.
Qed.

Lemma workspace_setup_makes pod :
  makes (fun calls => forallb is_exec calls = true) (setupWorkspaceContainer (logged s) pod ctx).
Proof.
  intros w log. unfold setupWorkspaceContainer. cbv zeta. destruct (IsContainerRunning pod _); cbn [negb].
  - destruct (exec_step_makes "failed to start remote access server: %w" pod
      (ResolveStr s ContextKeyWorkspaceContainerName ctx)
      [ResolveStr s ContextKeyRemoteAccessServerScript ctx; "--port";
       ResolveStr s ContextKeyRemoteAccessServerPort ctx] "" w log) as (r & w' & c & E & ->).
    cbn [ResolveStr logged]. eauto 6.
  - eexists _, w, []. by rewrite app_nil_r.
Qed.

(** Setting up the sidecar: the clean-up when it is needed, one registration, and
    then execs only. *)
Definition sidecar_calls (pod : Pod) (name ns : string) (cleanup : bool) (calls : list Call) : Prop :=
  exists execs, forallb is_exec execs = true /\
  calls = (if cleanup then [CallDeregister (om_UID (pod_ObjectMeta pod))] else []) ++
    CallRegister (mkRegisterNodeAgentRequest (om_UID (pod_ObjectMeta pod)) name ns ctx) :: execs.

Lemma sidecar_setup_makes pod name ns cleanup :
  makes (sidecar_calls pod name ns cleanup)
    (setupSidecarContainer (logged s) (logged_api api) pod name ns ctx cleanup).
Proof.
  intros w log. unfold setupSidecarContainer. cbv zeta.
  assert (Hclean : exists w1, (if cleanup then st_try (DeregisterNodeAgent (logged_api api)
      (om_UID (pod_ObjectMeta pod))) ;; st_ret tt else st_ret tt) (w, log)
    = (Ok tt, (w1, log ++ if cleanup then [CallDeregister (om_UID (pod_ObjectMeta pod))] else []))).
  { destruct cleanup; [|exists w; by rewrite app_nil_r]. unfold st_bind, st_try. cbn.
    destruct (DeregisterNodeAgent api _ w) as [r w1]. by exists w1. }
  destruct Hclean as [w1 Hc]. unfold st_bind at 1. rewrite Hc. clear Hc.
  set (log1 := log ++ _). unfold st_bind at 1, st_wrap, registerNodeAgent. cbn [RegisterNodeAgent logged_api].
  unfold logging at 1, recording at 1. destruct (RegisterNodeAgent api _ w1) as [[resp|e] w2]; cbn [wrap_err].
  2:{ eexists _, w2, _. split; [unfold log1; rewrite <- app_assoc; reflexivity|]. by exists []. }
  set (log2 := log1 ++ _). unfold st_bind at 1.
  match goal with |- context [exec_step (logged s) ?fmt pod ?c ?cmd ?stdin (w2, log2)] =>
    destruct (exec_step_makes fmt pod c cmd stdin w2 log2) as (r3 & w3 & c3 & -> & ->) end.
  destruct r3 as [[]|e].
  - match goal with |- context [exec_step (logged s) ?fmt pod ?c ?cmd ?stdin (w3, ?log3)] =>
      destruct (exec_step_makes fmt pod c cmd stdin w3 log3) as (r4 & w4 & c4 & -> & ->) end.
    eexists r4, w4, _. split; [unfold log2, log1; rewrite <- !app_assoc; reflexivity|].
    unfold sidecar_calls. cbn [app]. eexists. split; [|reflexivity]. done.
  - eexists _, w3, _. split; [unfold log2, log1; rewrite <- !app_assoc; reflexivity|].
    unfold sidecar_calls. cbn [app]. eexists. split; [|reflexivity]. done.
Qed.

(** Between the two marks of a set-up. *)
Definition setup_calls (pod : Pod) (name ns : string) (needs : bool * bool * bool) (calls : list Call)
    : Prop :=
  let '(needSidecar, needWorkspace, cleanup) := needs in
  exists first second, calls = first ++ second /\
    (if needSidecar then sidecar_calls pod name ns cleanup first else first = []) /\
    forallb is_exec second = true /\ (needWorkspace = false -> second = []).

Lemma setup_calls_registrations pod name ns needs calls :
  setup_calls pod name ns needs calls -> registrations calls = if needs.1.1 then 1%nat else O.
Proof.
  destruct needs as [[needS needW] cleanup]. intros (first & second & -> & Hf & Hs & _). cbn [fst].
  rewrite registrations_app, (registrations_execs second) by done. destruct needS; [|by subst].
  destruct Hf as (execs & He & ->). rewrite registrations_app.
  change (CallRegister ?q :: execs) with ([CallRegister q] ++ execs).
  rewrite registrations_app, (registrations_execs execs) by done. by destruct cleanup.
Qed.

Lemma run_setup_makes pod name ns sidecar workspace needs :
  makes (fun calls => exists now setup, setup_calls pod name ns needs setup /\
    calls = write_calls (mkRegistrationState sidecar workspace true (Some now)) ++ setup ++
            write_calls (mkRegistrationState sidecar workspace false None))
    (run_setup (logged s) (logged_api api) pod name ns ctx sidecar workspace needs).
Proof.
  intros w log. destruct needs as [[needS needW] cleanup]. unfold run_setup. cbn [ResolveStr logged].
  fold sidecarContainer stateFile. unfold st_bind at 1. unfold adapter_Now at 1. cbn [logged]. unfold logging at 1, recording at 1.
  destruct Hanswers as [_ Hnow]. specialize (Hnow w). destruct (adapter_Now s w) as [[now|e] w0]; [|done].
  rewrite app_nil_r. clear Hnow.
  destruct (makes_try _ _ w0 log (write_makes pod (mkRegistrationState sidecar workspace true (Some now))))
    as (r1 & w1 & c1 & E1 & ->). unfold st_bind at 1. fold (logged s). rewrite E1. cbv beta iota.
  set (log1 := log ++ _) in *.
  assert (Hs : exists r2 w2 c2, (if needS then st_try (setupSidecarContainer (logged s) (logged_api api)
        pod name ns ctx cleanup) else st_ret (Ok tt)) (w1, log1) = (Ok r2, (w2, log1 ++ c2)) /\
      (if needS then sidecar_calls pod name ns cleanup c2 else c2 = [])).
  { destruct needS; [apply makes_try, sidecar_setup_makes|].
    exists (Ok tt), w1, []. by rewrite app_nil_r. }
  destruct Hs as (r2 & w2 & c2 & E2 & H2). unfold st_bind at 1. rewrite E2. cbv beta iota.
  assert (Hw : exists r3 w3 c3, (match r2 with
      | Ok _ => if needW then st_try (setupWorkspaceContainer (logged s) pod ctx) else st_ret (Ok tt)
      | Fail err => st_ret (Fail err)
      end) (w2, log1 ++ c2) = (Ok r3, (w3, (log1 ++ c2) ++ c3)) /\ forallb is_exec c3 = true /\
      (needW = false -> c3 = [])).
  { destruct r2 as [?|e]; [|by exists (Fail e), w2, []; rewrite app_nil_r].
    destruct needW; [|by exists (Ok tt), w2, []; rewrite app_nil_r].
    destruct (makes_try _ _ w2 (log1 ++ c2) (workspace_setup_makes pod)) as (r3 & w3 & c3 & E3 & H3).
    by exists r3, w3, c3. }
  destruct Hw as (r3 & w3 & c3 & E3 & H3 & H3'). unfold st_bind at 1. rewrite E3. cbv beta iota.
  destruct (makes_try _ _ w3 ((log1 ++ c2) ++ c3)
    (write_makes pod (mkRegistrationState sidecar workspace false None))) as (r4 & w4 & c4 & E4 & ->).
  unfold st_bind at 1. rewrite E4. cbv beta iota.
  eexists _, w4, _. split; [unfold log1, st_lift; rewrite <- !app_assoc; reflexivity|].
  exists now, (c2 ++ c3). split; [by exists c2, c3|]. by rewrite <- app_assoc.
Qed.

(** The state an event reads. *)
Definition read_state (pod : Pod) (w : W) : result (option RegistrationState) :=
  match (podExec s pod sidecarContainer (cat_command stateFile) "" w).1 with
  | Ok (output, None) => match state_Unmarshal s output with Ok st => Ok (Some st) | Fail err => Fail err end
  | _ => Ok None
  end.
Definition sidecar_count (pod : Pod) : Z := GetContainerRestartCount pod sidecarContainer.
Definition workspace_count (pod : Pod) : Z := GetContainerRestartCount pod workspaceContainer.

(** The calls of an event that reads [state]. *)
Definition event_calls (pod : Pod) (name ns : string) (state : result (option RegistrationState))
    (calls : list Call) : Prop :=
  exists rest, calls = CallExec sidecarContainer (cat_command stateFile) :: rest /\
  match needed_setup state (sidecar_count pod) (workspace_count pod) with
  | None => rest = []
  | Some needs => exists now setup, setup_calls pod name ns needs setup /\
      rest = write_calls (mkRegistrationState (sidecar_count pod) (workspace_count pod) true (Some now)) ++
        setup ++ write_calls (mkRegistrationState (sidecar_count pod) (workspace_count pod) false None)
  end.

Lemma event_makes pod name ns w log :
  pluginClient s = Some api -> IsContainerRunning pod sidecarContainer = true ->
  exists r w' calls, HandlePodRunning (logged s) pod name ns ctx (w, log) = (r, (w', log ++ calls)) /\
    event_calls pod name ns (read_state pod w) calls.
Proof.
  intros Hapi Hrun. unfold HandlePodRunning. cbn [pluginClient logged ResolveStr]. rewrite Hapi.
  cbn [fmap option_fmap option_map]. cbv zeta. fold sidecarContainer workspaceContainer stateFile.
  rewrite Hrun. cbn [negb].
  assert (Hread : exists w1, readRegistrationState (logged s) pod sidecarContainer stateFile (w, log)
    = (Ok (read_state pod w), (w1, log ++ [CallExec sidecarContainer (cat_command stateFile)]))).
  { unfold readRegistrationState, read_state, st_bind. cbn [podExec logged state_Unmarshal]. unfold logging, recording.
    destruct Hanswers as [Hx _]. specialize (Hx pod sidecarContainer (cat_command stateFile) "" w).
    destruct (podExec s _ _ _ _ w) as [[[output [e|]]|e] w1]; cbn [fst] in *; [by exists w1..|done]. }
  destruct Hread as [w1 Hread]. unfold st_bind at 1. fold (logged s). rewrite Hread. cbv beta iota.
  fold (sidecar_count pod) (workspace_count pod). unfold event_calls.
  destruct (needed_setup (read_state pod w) (sidecar_count pod) (workspace_count pod)) as [needs|].
  - destruct (run_setup_makes pod name ns (sidecar_count pod) (workspace_count pod) needs w1
      (log ++ [CallExec sidecarContainer (cat_command stateFile)])) as (r & w2 & c & E & H).
    rewrite E. eexists r, w2, _. rewrite <- app_assoc. split; [reflexivity|]. eexists. split; [reflexivity|done].
  - eexists _, w1, _. split; [reflexivity|]. by exists [].
Qed.

(** ** Sequences of events *)

(** Events handled one after another; their errors are logged and dropped. *)
Definition handle_events (name ns : string) (pods : list Pod) (w : W * list Call) : W * list Call :=
  fold_left (fun w pod => (HandlePodRunning (logged s) pod name ns ctx w).2) pods w.

(** Restart counts only grow, as the kubelet counts them. *)
Fixpoint restarts_grow (a b : Z) (pods : list Pod) : Prop :=
  match pods with
  | [] => True
  | pod :: rest => a <= sidecar_count pod /\ b <= workspace_count pod /\
                   restarts_grow (sidecar_count pod) (workspace_count pod) rest
  end.

Definition sidecar_counts (pods : list Pod) : gset Z := list_to_set (sidecar_count <$> pods).

Definition done_for (a b : Z) : result (option RegistrationState) :=
  Ok (Some (mkRegistrationState a b false None)).

(** The volume remembers: each event reads what the one before it wrote last. *)
Fixpoint remembers (name ns : string) (last : result (option RegistrationState)) (pods : list Pod)
    (w : W * list Call) : Prop :=
  match pods with
  | [] => True
  | pod :: rest =>
      read_state pod w.1 = last /\
      remembers name ns (done_for (sidecar_count pod) (workspace_count pod)) rest
        (HandlePodRunning (logged s) pod name ns ctx w).2
  end.

Lemma restarts_grow_le a b pods c : restarts_grow a b pods -> c ∈ sidecar_counts pods -> a <= c.
Proof.
  unfold sidecar_counts. revert a b. induction pods as [|pod pods IH]; intros a b; cbn; [set_solver|].
  intros (Ha & _ & Hg) [->%elem_of_singleton|Hc]%elem_of_union; [done|].
  specialize (IH _ _ Hg Hc). lia.
Qed.

(** The registrations of one event. *)
Lemma event_registers pod name ns w log :
  pluginClient s = Some api -> IsContainerRunning pod sidecarContainer = true ->
  registrations (HandlePodRunning (logged s) pod name ns ctx (w, log)).2.2 =
  (registrations log + match needed_setup (read_state pod w) (sidecar_count pod) (workspace_count pod) with
                       | Some (true, _, _) => 1 | _ => 0 end)%nat.
Proof.
  intros Hapi Hrun. destruct (event_makes pod name ns w log Hapi Hrun) as (r & w' & c & -> & rest & -> & Hn).
  cbn [snd]. rewrite registrations_app. f_equal.
  change (CallExec ?x ?y :: rest) with ([CallExec x y] ++ rest). rewrite registrations_app.
  assert (Hwr : forall st, registrations (write_calls st) = O)
    by (intros st; unfold write_calls; by destruct (state_Marshal s st)).
  destruct (needed_setup _ _ _) as [needs|]; [|by subst].
  destruct Hn as (now & setup & Hset & ->). rewrite !registrations_app, !Hwr.
  rewrite (setup_calls_registrations _ _ _ _ _ Hset). by destruct needs as [[[] ?] ?].
Qed.

Lemma events_after name ns pods a b w :
  pluginClient s = Some api ->
  Forall (fun pod => IsContainerRunning pod sidecarContainer = true) pods ->
  restarts_grow a b pods -> remembers name ns (done_for a b) pods w ->
  registrations (handle_events name ns pods w).2 = (registrations w.2 + size (sidecar_counts pods ∖ {[ a ]}))%nat.
Proof.
  intros Hapi Hrun. revert a b w. induction Hrun as [|pod pods Hpod _ IH]; intros a b [w log] Hg Hrem.
  { assert (Hs : sidecar_counts [] ∖ {[ a ]} = ∅) by (unfold sidecar_counts; set_solver).
    by rewrite Hs, size_empty, Nat.add_0_r. }
  destruct Hg as (Ha & Hb & Hg), Hrem as [Hread Hrem]. cbn [fst] in Hread.
  change (handle_events name ns (pod :: pods) (w, log))
    with (handle_events name ns pods (HandlePodRunning (logged s) pod name ns ctx (w, log)).2).
  rewrite (IH _ _ _ Hg Hrem), event_registers, Hread by done.
  cbn [needed_setup done_for SetupInProgress SidecarRestartCount WorkspaceRestartCount snd].
  set (a' := sidecar_count pod) in *. set (b' := workspace_count pod) in *.
  assert (Hset : sidecar_counts (pod :: pods) = {[ a' ]} ∪ sidecar_counts pods) by done.
  rewrite Hset. destruct (Z.ltb_spec a a') as [Hlt|Hge]; cbn [negb andb].
  - assert (Hs : ({[ a' ]} ∪ sidecar_counts pods) ∖ {[ a ]} = {[ a' ]} ∪ sidecar_counts pods ∖ {[ a' ]}).
    { apply set_eq. intros c. pose proof (restarts_grow_le _ _ _ c Hg) as Hc.
      destruct (decide (c = a')); [set_solver by lia|].
      rewrite !elem_of_difference, !elem_of_union, !elem_of_difference, !elem_of_singleton.
      split; [intuition|]. intros [?|[Hin _]]; [done|]. specialize (Hc Hin). split; [auto|lia]. }
    rewrite Hs, size_add_new. lia.
  - assert (a' = a) as -> by lia.
    assert (Hs : ({[ a ]} ∪ sidecar_counts pods) ∖ {[ a ]} = sidecar_counts pods ∖ {[ a ]}) by set_solver.
    rewrite Hs. destruct (b <? b'); cbn [negb]; lia.
Qed.

(** ** What is not set up again *)

(** After a record of the present counts, complete, an event only reads: also when
    the set-up it stands for failed. *)
Lemma complete_record_blocks pod name ns w log :
  pluginClient s = Some api -> IsContainerRunning pod sidecarContainer = true ->
  read_state pod w = done_for (sidecar_count pod) (workspace_count pod) ->
  (HandlePodRunning (logged s) pod name ns ctx (w, log)).2.2
    = log ++ [CallExec sidecarContainer (cat_command stateFile)].
Proof.
  intros Hapi Hrun Hread. destruct (event_makes pod name ns w log Hapi Hrun) as (r & w' & c & -> & rest & -> & Hn).
  rewrite Hread in Hn. cbn in Hn. rewrite !Z.ltb_irrefl in Hn. cbn in Hn. by subst.
Qed.

(** A set-up interrupted between its two marks blocks every later event that reads it. *)
Lemma in_progress_blocks pod name ns w log st :
  pluginClient s = Some api -> IsContainerRunning pod sidecarContainer = true ->
  read_state pod w = Ok (Some st) -> SetupInProgress st = true ->
  (HandlePodRunning (logged s) pod name ns ctx (w, log)).2.2
    = log ++ [CallExec sidecarContainer (cat_command stateFile)].
Proof.
  intros Hapi Hrun Hread Hp. destruct (event_makes pod name ns w log Hapi Hrun) as (r & w' & c & -> & rest & -> & Hn).
  rewrite Hread in Hn. cbn in Hn. rewrite Hp in Hn. by subst.
Qed.

(** Two events that both read the file before either writes it both register: the
    mark is not a lock. *)
Lemma concurrent_events_register_twice pod name ns w log :
  let setup := run_setup (logged s) (logged_api api) pod name ns ctx (sidecar_count pod)
                 (workspace_count pod) (true, true, false) in
  needed_setup (Ok None) (sidecar_count pod) (workspace_count pod) = Some (true, true, false) /\
  registrations (setup (setup (w, log)).2).2.2 = (2 + registrations log)%nat.
Proof.
  intros setup. split; [done|].
  assert (Hone : forall w log, exists r w' log', setup (w, log) = (r, (w', log')) /\
    registrations log' = S (registrations log)).
  { intros w0 log0. destruct (run_setup_makes pod name ns (sidecar_count pod) (workspace_count pod)
      (true, true, false) w0 log0) as (r & w' & c & E & now & st & Hset & ->).
    eexists r, w', _. split; [exact E|].
    assert (Hwr : forall st, registrations (write_calls st) = O)
      by (intros x; unfold write_calls; by destruct (state_Marshal s x)).
    rewrite !registrations_app, !Hwr, (setup_calls_registrations _ _ _ _ _ Hset). cbn. lia. }
  destruct (Hone w log) as (r1 & w1 & log1 & E1 & H1). rewrite E1. cbn [snd].
  destruct (Hone w1 log1) as (r2 & w2 & log2 & E2 & H2). rewrite E2. cbn [snd]. lia.
Qed.
End calls.

(** [C27] What a pod-running event does, whatever the exec (its errors are answers), the
    scripts and the plugin answer, failing reads and writes of the state file included.
    With the sidecar
    running it reads the state file, and nothing more when that holds a set-up in
    progress or the present restart counts.  Otherwise it writes an in-progress mark,
    sets up what restarted, and last, also after a failure, writes a complete mark of
    the present counts.  It asks the plugin for one registration, after a clean-up if
    needed, exactly when the file could not be read, did not parse, or held a lower
    count of the sidecar.  So over events of a pod whose restart counts do not fall,
    where each reads what the one before wrote last and the first finds no file, there
    is exactly one registration per restart count of the sidecar.  (A state file that
    fails to be read or written makes it register again.) *)
Theorem registers_once_per_incarnation {W} (s : AwsSsmPodEventAdapter W) (api : PluginApis W)
    (ctx : gmap string string) (name ns : string) (pod : Pod) (pods : list Pod) (w : W) (log : list Call) :
  answers s -> pluginClient s = Some api ->
  Forall (fun pod => IsContainerRunning pod (ResolveStr s ContextKeySidecarContainerName ctx) = true)
    (pod :: pods) ->
  (exists r w' calls, HandlePodRunning s pod name ns ctx w = (r, w') /\
     HandlePodRunning (logged s) pod name ns ctx (w, log) = (r, (w', log ++ calls)) /\
     event_calls s ctx pod name ns (read_state s ctx pod w) calls /\
     registrations calls =
       match read_state s ctx pod w with
       | Fail _ | Ok None => 1
       | Ok (Some st) => if SetupInProgress st then 0
                         else if (SidecarRestartCount st <? sidecar_count s ctx pod)%Z then 1 else 0
       end%nat) /\
  (restarts_grow s ctx (sidecar_count s ctx pod) (workspace_count s ctx pod) pods ->
   remembers s ctx name ns (Ok None) (pod :: pods) (w, log) ->
   registrations (handle_events s ctx name ns (pod :: pods) (w, log)).2
     = (registrations log + size (sidecar_counts s ctx (pod :: pods)))%nat).
Proof.
  rewrite Forall_cons. intros Hans Hapi [Hpod Hpods]. split.
  - destruct (event_makes s api ctx Hans pod name ns w log Hapi Hpod) as (r & w' & calls & E & Hc).
    exists r, w', calls. split_and!; [|done..|].
    { destruct (HandlePodRunning_logged s pod name ns ctx w log) as [H1 H2]. rewrite E in H1, H2.
      cbn in H1, H2. rewrite H1, H2. apply surjective_pairing. }
    pose proof (event_registers s api ctx Hans pod name ns w log Hapi Hpod) as Hr.
    rewrite E in Hr. cbn [snd] in Hr. rewrite registrations_app in Hr. apply Nat.add_cancel_l in Hr.
    rewrite Hr. destruct (read_state s ctx pod w) as [[st|]|e]; [|done..]. cbn.
    destruct (SetupInProgress st); [done|]. destruct (SidecarRestartCount st <? _); cbn; [done|].
    by destruct (_ <? _).
  - intros Hg [Hread Hrem].
    change (handle_events s ctx name ns (pod :: pods) (w, log))
      with (handle_events s ctx name ns pods (HandlePodRunning (logged s) pod name ns ctx (w, log)).2).
    rewrite (events_after s api ctx Hans name ns pods _ _ _ Hapi Hpods Hg Hrem).
    cbn [fst] in Hread. rewrite (event_registers s api ctx Hans) by done. rewrite Hread. cbn [needed_setup snd].
    assert (Hs : sidecar_counts s ctx (pod :: pods)
      = {[ sidecar_count s ctx pod ]} ∪ sidecar_counts s ctx pods ∖ {[ sidecar_count s ctx pod ]}).
    { change (sidecar_counts s ctx (pod :: pods))
        with ({[ sidecar_count s ctx pod ]} ∪ sidecar_counts s ctx pods : gset Z).
      apply set_eq. intros c. destruct (decide (c = sidecar_count s ctx pod)); set_solver. }
    rewrite Hs, size_add_new. lia.
Qed.

(** ** A sidecar in memory *)

#[global] Instance RegistrationState_eq_dec : EqDecision RegistrationState.
Proof. solve_decision. Defined.
#[global] Instance RegistrationState_countable : Countable RegistrationState.
Proof.
  refine (inj_countable'
    (fun st => (SidecarRestartCount st, WorkspaceRestartCount st, SetupInProgress st, SetupStartedAt st))
    (fun '(a, b, p, t) => mkRegistrationState a b p t) _). by intros [].
Defined.

(** The state as a decimal number. *)
Definition toy_Marshal (st : RegistrationState) : result string := Ok (Sprint_int (Z.pos (encode st))).
Definition toy_Unmarshal (json : string) : result RegistrationState :=
  match DecimalString.NilZero.int_of_string json with
  | Some d =>
      match Z.of_int d with
      | Z.pos p => match decode p with Some st => Ok st | None => Fail (Errorf "invalid state" []) end
      | _ => Fail (Errorf "invalid state" [])
      end
  | None => Fail (Errorf "invalid character" [])
  end.

Lemma toy_codec st : toy_Unmarshal (Sprint_int (Z.pos (encode st))) = Ok st.
Proof.
  unfold toy_Unmarshal, Sprint_int. rewrite DecimalString.NilZero.isi.
  - rewrite DecimalZ.of_to. by rewrite decode_encode.
  - cbn. pose proof (to_uint_nonnil (encode st)) as Hn. intros [= E]. by rewrite E in Hn.
  - by cbn.
Qed.

(** The volume; the registration script fails as told. *)
Record Sidecar := mkSidecar { sc_file : option string }.

(** The document a write command carries. *)
Definition written (stateFile : string) (cmd : list string) : string :=
  match cmd with
  | [_; _; script] =>
      let rest := TrimPrefix script "echo '" in
      let tail := "' > " +:+ stateFile +:+ ".tmp && mv " +:+ stateFile +:+ ".tmp " +:+ stateFile in
      String.substring 0 (String.length rest - String.length tail) rest
  | _ => ""
  end.
Definition toy_exec (stateFile : string) (fails : bool) (cmd : list string)
    : ST Sidecar (string * option ExecError) := fun w =>
  if bool_decide (cmd = write_command stateFile (written stateFile cmd)) then
    (Ok ("", None), mkSidecar (Some (written stateFile cmd)))
  else if bool_decide (cmd = cat_command stateFile) then
    (Ok (match sc_file w with
         | Some c => (c, None)
         | None => ("", Some (mkExecError "command terminated with exit code 1" [ExitStatus true 1]))
         end), w)
  else (Ok ("", if fails then Some (mkExecError "command terminated with exit code 2" [ExitStatus true 2])
                else None), w).
Definition toy_api : PluginApis Sidecar := {|
  RegisterNodeAgent := fun _ => st_ret (mkRegisterNodeAgentResponse "id" "code");
  DeregisterNodeAgent := fun _ => st_ret tt;
|}.
Definition toy_adapter (stateFile : string) (fails : bool) : AwsSsmPodEventAdapter Sidecar := {|
  pluginClient := Some toy_api;
  podExec := fun _ _ cmd _ => toy_exec stateFile fails cmd;
  ResolveStr := fun key ctx => default "" (ctx !! key);
  state_Marshal := toy_Marshal;
  state_Unmarshal := toy_Unmarshal;
  adapter_Now := st_ret 0;
|}.

Lemma substring_app a b : String.substring 0 (String.length a) (a +:+ b) = a.
Proof.
  induction a as [|c a IH]; [by destruct b|].
  change (String c a +:+ b) with (String c (a +:+ b)). cbn. by rewrite IH.
Qed.

Lemma written_write stateFile json : written stateFile (write_command stateFile json) = json.
Proof.
  unfold written, write_command. cbv zeta.
  set (tail := "' > " +:+ stateFile +:+ ".tmp && mv " +:+ stateFile +:+ ".tmp " +:+ stateFile).
  rewrite TrimPrefix_app, string_length_app, Nat.add_sub. apply substring_app.
Qed.

(** A pod whose sidecar restarts once; the registration script always fails. *)
Definition demo_ssm_pod (sidecar : Z) : Pod :=
  mkPod (zero_meta "workspace-w-1" "ns") PodRunning
    [mkContainerStatus "workspace" true 0; mkContainerStatus "ssm" true sidecar].
Definition demo_ssm_context : gmap string string :=
  <[ContextKeySidecarContainerName := "ssm"]> (<[ContextKeyWorkspaceContainerName := "workspace"]>
    {[ ContextKeyRegistrationStateFile := "/state" ]}).

Lemma registers_once_per_incarnation_witness :
  registrations (handle_events (toy_adapter "/state" true) demo_ssm_context "w" "ns"
    [demo_ssm_pod 0; demo_ssm_pod 0; demo_ssm_pod 1; demo_ssm_pod 1] (mkSidecar None, [])).2 = 2%nat.
Proof.
  destruct (registers_once_per_incarnation (toy_adapter "/state" true) toy_api demo_ssm_context
    "w" "ns" (demo_ssm_pod 0) [demo_ssm_pod 0; demo_ssm_pod 1; demo_ssm_pod 1]
    (mkSidecar None) []) as [_ Hn].
  - split; [|reflexivity]. intros pod container cmd stdin w. cbn. unfold toy_exec. by repeat case_match.
  - reflexivity.
  - repeat constructor; vm_compute; reflexivity.
  - rewrite Hn; [vm_compute; reflexivity|vm_compute; repeat split; discriminate|].
    repeat (split; [vm_compute; reflexivity|]). exact I.
Defined.
