(* ===== verification/EnvOverlay.v ===== *)
(** * EnvOverlay: environment variables set in place

    The environment slice of deployment_builder_integration.go (setEnv) and
    deployment_builder_access.go (addAccessStrategyEnvToContainer), with the array
    it shares with the workspace, and the theory of a sequence of assignments:
    which variables it changes, what it appends, and that repeating it on what it
    left in the shared array gives the same variables. *)

From S2P Require Import Prelude Api.

(** ** The slice *)

(** A slice of environment variables that may still share its array with the
    workspace's: its items, the workspace's items, and the room left in the
    shared array, or none once the array is its own. *)
Record EnvSlice := mkEnvSlice {
  es_items : list EnvVar;
  es_owner : list EnvVar;
  es_room : option nat;
}.

(** [s[i] = e]. *)
Definition slice_set (i : nat) (e : EnvVar) (s : EnvSlice) : EnvSlice :=
  mkEnvSlice (<[i := e]> (es_items s))
    (match es_room s with Some _ => <[i := e]> (es_owner s) | None => es_owner s end) (es_room s).
(** [append(s, e)]. *)
Definition slice_append (e : EnvVar) (s : EnvSlice) : EnvSlice :=
  mkEnvSlice (es_items s ++ [e]) (es_owner s)
    (match es_room s with Some (S n) => Some n | _ => None end).

(** The first variable of a name is replaced by what [f] makes of it, or a new
    one is appended. *)
Definition slice_assign (f : EnvVar -> EnvVar) (name value : string) (s : EnvSlice) : EnvSlice :=
  match list_find (fun e => env_Name e = name) (es_items s) with
  | Some (i, e) => slice_set i (f e) s
  | None => slice_append (mkEnvVar name value None) s
  end.

(** setEnv assigns a fresh variable; the access strategy keeps the source. *)
Definition setEnv (name value : string) : EnvSlice -> EnvSlice :=
  slice_assign (fun _ => mkEnvVar name value None) name value.
Definition setAccessEnv (name value : string) : EnvSlice -> EnvSlice :=
  slice_assign (fun e => mkEnvVar (env_Name e) value (env_ValueFrom e)) name value.

(** ** Sequences of assignments *)

(** An assignment: its name and value, and whether it replaces the variable
    outright (setEnv) or keeps its source (the access strategy). *)
Record Assign := mkAssign { as_name : string; as_value : string; as_fresh : bool }.

Definition assign (a : Assign) : EnvSlice -> EnvSlice :=
  if as_fresh a then setEnv (as_name a) (as_value a) else setAccessEnv (as_name a) (as_value a).

(** What an assignment makes of the variable it finds. *)
Definition effect (a : Assign) (e : EnvVar) : EnvVar :=
  mkEnvVar (as_name a) (as_value a) (if as_fresh a then None else env_ValueFrom e).

(** An assignment on a plain list of variables. *)
Definition assign_list (a : Assign) (l : list EnvVar) : list EnvVar :=
  match list_find (fun e => env_Name e = as_name a) l with
  | Some (i, e) => <[i := effect a e]> l
  | None => l ++ [mkEnvVar (as_name a) (as_value a) None]
  end.
Definition assign_all (ops : list Assign) (l : list EnvVar) : list EnvVar :=
  fold_left (fun l a => assign_list a l) ops l.

(** The effect of a sequence on one variable. *)
Definition effects (ops : list Assign) (e : EnvVar) : EnvVar :=
  fold_left (fun e a => if decide (as_name a = env_Name e) then effect a e else e) ops e.

(** A variable has no source, or that of a variable of its name. *)
Lemma assign_all_source ops l e :
  e ∈ assign_all ops l ->
  env_ValueFrom e = None \/
  exists own, own ∈ l /\ env_Name own = env_Name e /\ env_ValueFrom e = env_ValueFrom own.
Proof.
  revert l. induction ops as [|a ops IH]; intros l; cbn; [eauto|].
  intros [|(own & Hown & Hn & Hv)]%IH; [by left|]. unfold assign_list in Hown.
  destruct (list_find _ l) as [[i x]|] eqn:Hf.
  - apply list_find_Some in Hf as (Hi & Hx & _). apply list_elem_of_lookup in Hown as [k Hk].
    apply list_lookup_insert_Some in Hk as [(-> & <- & _)|[_ Hk]].
    + cbn in Hn, Hv. destruct (as_fresh a); [by left|right]. exists x.
      split; [by eapply list_elem_of_lookup_2|]. split; congruence.
    + right. exists own. split; [by eapply list_elem_of_lookup_2|done].
  - apply elem_of_app in Hown as [Hown| ->%list_elem_of_singleton]; [right; by exists own|by left].
Qed.

Lemma effects_name ops e : env_Name (effects ops e) = env_Name e.
Proof.
  revert e. induction ops as [|a ops IH]; intros e; [done|]. cbn. rewrite IH.
  by destruct (decide _).
Qed.

Lemma effects_app ops1 ops2 e : effects (ops1 ++ ops2) e = effects ops2 (effects ops1 e).
Proof. apply fold_left_app. Qed.

(** The last value given to a name, and whether some assignment dropped its source. *)
Definition last_value (ops : list Assign) (name : string) : option string :=
  last (as_value <$> filter (fun a => as_name a = name) ops).
Definition refreshed (ops : list Assign) (name : string) : bool :=
  existsb (fun a => bool_decide (as_name a = name) && as_fresh a) ops.

Lemma effects_closed ops e :
  effects ops e = mkEnvVar (env_Name e) (default (env_Value e) (last_value ops (env_Name e)))
    (if refreshed ops (env_Name e) then None else env_ValueFrom e).
Proof.
  unfold last_value. induction ops as [|a ops IH] using rev_ind; [by destruct e|].
  rewrite effects_app, IH, filter_app, fmap_app, last_app. unfold refreshed.
  rewrite existsb_app, filter_cons, filter_nil. unfold effects, effect. cbn.
  destruct (decide (as_name a = env_Name e)) as [<-|Hne]; cbn.
  - rewrite bool_decide_true by done. cbn. rewrite orb_false_r.
    by destruct (existsb _ ops), (as_fresh a).
  - rewrite bool_decide_false by done. cbn. by rewrite orb_false_r.
Qed.

(** A sequence undoes what a part of it did before. *)
Lemma effects_absorb ops P e : P `prefix_of` ops -> effects ops (effects P e) = effects ops e.
Proof.
  intros [rest ->]. rewrite !effects_closed. cbn.
  unfold last_value, refreshed. rewrite filter_app, fmap_app, !last_app, !existsb_app.
  f_equal.
  - destruct (last (as_value <$> filter _ rest)); [done|]. cbn.
    by destruct (last (as_value <$> filter _ P)).
  - by destruct (existsb _ P).
Qed.

(** ** Normal form *)

Definition names (l : list EnvVar) : gset string := list_to_set (env_Name <$> l).

(** Map the first variable of each name that is not in [seen]. *)
Fixpoint firsts (f : EnvVar -> EnvVar) (seen : gset string) (l : list EnvVar) : list EnvVar :=
  match l with
  | [] => []
  | e :: l =>
      (if decide (env_Name e ∈ seen) then e else f e) :: firsts f ({[env_Name e]} ∪ seen) l
  end.

Lemma firsts_app f seen l1 l2 :
  firsts f seen (l1 ++ l2) = firsts f seen l1 ++ firsts f (names l1 ∪ seen) l2.
Proof.
  revert seen. induction l1 as [|e l1 IH]; intros seen; cbn; [f_equal; set_solver|].
  rewrite IH. do 3 f_equal. set_solver.
Qed.

Lemma firsts_length f seen l : length (firsts f seen l) = length l.
Proof. revert seen. induction l; intros seen; cbn; by f_equal. Qed.

Lemma firsts_names f seen l : (forall e, env_Name (f e) = env_Name e) ->
  env_Name <$> firsts f seen l = env_Name <$> l.
Proof.
  intros Hf. revert seen. induction l as [|e l IH]; intros seen; cbn; [done|]. rewrite IH.
  destruct (decide _); [done|]. by rewrite Hf.
Qed.

Lemma firsts_compose f g seen l : (forall e, env_Name (g e) = env_Name e) ->
  firsts f seen (firsts g seen l) = firsts (f ∘ g) seen l.
Proof.
  intros Hg. revert seen. induction l as [|e l IH]; intros seen; cbn; [done|].
  destruct (decide (env_Name e ∈ seen)).
  - rewrite decide_True by done. by rewrite IH.
  - rewrite Hg, decide_False by done. by rewrite IH.
Qed.

Lemma firsts_ext f g seen l : (forall e, e ∈ l -> env_Name e ∉ seen -> f e = g e) ->
  firsts f seen l = firsts g seen l.
Proof.
  revert seen. induction l as [|e l IH]; intros seen He; cbn; [done|]. f_equal.
  - destruct (decide _); [done|]. apply He; [left|done].
  - apply IH. intros e' ? ?. apply He; [by right|set_solver].
Qed.

Lemma firsts_other a seen l : as_name a ∈ seen -> firsts (effects [a]) seen l = l.
Proof.
  revert seen. induction l as [|e l IH]; intros seen Ha; cbn; [done|]. rewrite IH by set_solver.
  destruct (decide (env_Name e ∈ seen)) as [|He]; [done|]. by rewrite decide_False by congruence.
Qed.

(** The names a sequence adds to the known ones, in order. *)
Fixpoint new_names (ops : list Assign) (known : gset string) : list string :=
  match ops with
  | [] => []
  | a :: ops =>
      if decide (as_name a ∈ known) then new_names ops known
      else as_name a :: new_names ops ({[as_name a]} ∪ known)
  end.
Definition blank (name : string) : EnvVar := mkEnvVar name "" None.

Lemma new_names_fresh ops known n : n ∈ new_names ops known -> n ∉ known.
Proof.
  revert known. induction ops as [|a ops IH]; intros known; cbn; [by intros ?%elem_of_nil|].
  destruct (decide _); [apply IH|]. intros [->|Hn]%elem_of_cons; [done|]. apply IH in Hn. set_solver.
Qed.

Lemma assign_list_firsts a seen l : as_name a ∉ seen ->
  assign_list a l = firsts (effects [a]) seen (l ++ (blank <$> new_names [a] (names l))).
Proof.
  revert seen. induction l as [|e l IH]; intros seen Ha.
  - cbn. rewrite decide_False by set_solver. cbn. rewrite decide_False by done.
    rewrite decide_True by done. unfold effect. cbn. by destruct (as_fresh a).
  - unfold assign_list in *. cbn [list_find]. cbn [new_names].
    destruct (decide (env_Name e = as_name a)) as [E|Hne].
    + rewrite decide_True by (unfold names; set_solver). cbn. rewrite app_nil_r.
      rewrite E, decide_False by done. rewrite decide_True by done. f_equal.
      symmetry. apply firsts_other. set_solver.
    + specialize (IH ({[env_Name e]} ∪ seen)). cbn [new_names] in IH.
      assert (En : as_name a ∈ names (e :: l) <-> as_name a ∈ names l)
        by (unfold names; set_solver).
      rewrite (decide_ext _ _ _ _ En). cbn [app firsts].
      rewrite <- IH by set_solver.
      assert (Ee : effects [a] e = e) by (cbn; by rewrite decide_False).
      rewrite Ee. by destruct (decide (env_Name e ∈ seen)), (list_find _ l) as [[i x]|].
Qed.

Lemma firsts_id seen l : firsts (fun e => e) seen l = l.
Proof.
  revert seen. induction l as [|e l IH]; intros seen; cbn; [done|]. rewrite IH. by destruct (decide _).
Qed.

Lemma effects_skip a ops e : as_name a <> env_Name e -> effects (a :: ops) e = effects ops e.
Proof. intros Ha. cbn. by rewrite decide_False. Qed.

Lemma assign_all_firsts ops l :
  assign_all ops l = firsts (effects ops) ∅ (l ++ (blank <$> new_names ops (names l))).
Proof.
  revert l. induction ops as [|a ops IH]; intros l.
  - cbn [new_names fmap list_fmap]. rewrite app_nil_r. symmetry. apply firsts_id.
  - set (l1 := l ++ (blank <$> new_names [a] (names l))).
    assert (En : names (assign_list a l) = names l1).
    { unfold names. rewrite (assign_list_firsts a ∅ l) by set_solver.
      by rewrite firsts_names by apply effects_name. }
    assert (El : names l1 = {[as_name a]} ∪ names l).
    { unfold l1, names. rewrite fmap_app, list_to_set_app_L. cbn. fold (names l).
      destruct (decide (as_name a ∈ names l)); cbn; set_solver. }
    change (assign_all (a :: ops) l) with (assign_all ops (assign_list a l)).
    rewrite IH, En, El. rewrite (assign_list_firsts a ∅ l) at 1 by set_solver. fold l1.
    assert (Ea : l ++ (blank <$> new_names (a :: ops) (names l)) =
                 l1 ++ (blank <$> new_names ops ({[as_name a]} ∪ names l))).
    { unfold l1. cbn. destruct (decide (as_name a ∈ names l)) as [Ha|]; cbn.
      - rewrite app_nil_r. do 2 f_equal. f_equal. set_solver.
      - by rewrite <- app_assoc. }
    rewrite Ea, !firsts_app, firsts_compose by apply effects_name. f_equal.
    assert (Ef : names (firsts (effects [a]) ∅ l1) = names l1)
      by (unfold names; by rewrite firsts_names by apply effects_name).
    rewrite Ef. apply firsts_ext. intros e (n & -> & Hn)%list_elem_of_fmap _.
    apply new_names_fresh in Hn. rewrite effects_skip; [done|]. cbn. set_solver.
Qed.

(** ** Repetition *)

Lemma names_firsts f seen l : (forall e, env_Name (f e) = env_Name e) ->
  names (firsts f seen l) = names l.
Proof. intros Hf. unfold names. by rewrite firsts_names. Qed.

(** What the assignments left in the places of the given list. *)
Lemma take_assign_all ops l : take (length l) (assign_all ops l) = firsts (effects ops) ∅ l.
Proof.
  rewrite assign_all_firsts, firsts_app, take_app_length'; [done|]. by rewrite firsts_length.
Qed.

Lemma assign_all_length ops l : (length l <= length (assign_all ops l))%nat.
Proof. rewrite assign_all_firsts, firsts_length, length_app. lia. Qed.

(** Repeating the assignments on what a part of them left gives the same list. *)
Lemma assign_all_again ops P l : P `prefix_of` ops ->
  assign_all ops (firsts (effects P) ∅ l) = assign_all ops l.
Proof.
  intros HP. rewrite !assign_all_firsts, names_firsts by apply effects_name.
  rewrite !firsts_app, names_firsts, firsts_compose by apply effects_name. f_equal.
  apply firsts_ext. intros e _ _. by apply effects_absorb.
Qed.

(** The slice after a sequence of assignments: its items are those of the list,
    and the workspace's items are what a first part of the sequence left there,
    all of it as long as the array is shared. *)
Record overlaid (l : list EnvVar) (ops : list Assign) (s : EnvSlice) : Prop := mkOverlaid {
  ov_items : es_items s = assign_all ops l;
  ov_owner : exists P, P `prefix_of` ops /\ es_owner s = firsts (effects P) ∅ l /\
    (es_room s <> None -> P = ops);
}.

Lemma overlaid_start l room : overlaid l [] (mkEnvSlice l l room).
Proof.
  split; [done|]. exists []. split_and!; [done| |done]. cbn.
  symmetry. apply firsts_id.
Qed.

Lemma assign_items a s : es_items (assign a s) = assign_list a (es_items s).
Proof.
  unfold assign, setEnv, setAccessEnv, slice_assign, assign_list, effect.
  destruct (as_fresh a); destruct (list_find _ _) as [[i e]|] eqn:E; cbn; try done.
  by apply list_find_Some in E as (_ & -> & _).
Qed.

Lemma insert_take {A} n i (x : A) l : <[i := x]> (take n l) = take n (<[i := x]> l).
Proof.
  destruct (decide (n <= i)%nat).
  - rewrite take_insert_ge by done. apply list_insert_ge. rewrite length_take. lia.
  - by rewrite take_insert_lt by lia.
Qed.

Lemma assign_owner a s n : es_room s <> None -> es_owner s = take n (es_items s) ->
  (n <= length (es_items s))%nat ->
  es_owner (assign a s) = take n (es_items (assign a s)).
Proof.
  intros Hr Ho Hn. unfold assign, setEnv, setAccessEnv, slice_assign.
  destruct (as_fresh a); destruct (list_find _ _) as [[i e]|]; cbn; rewrite Ho;
    try (by rewrite take_app_le); destruct (es_room s); try done; apply insert_take.
Qed.

Lemma assign_unshared a s : es_room s = None ->
  es_room (assign a s) = None /\ es_owner (assign a s) = es_owner s.
Proof.
  intros E. unfold assign, setEnv, setAccessEnv, slice_assign.
  destruct (as_fresh a); destruct (list_find _ _) as [[i e]|]; cbn; by rewrite E.
Qed.

Lemma overlaid_assign l ops a s : overlaid l ops s -> overlaid l (ops ++ [a]) (assign a s).
Proof.
  intros [Hi (P & HP & Ho & Hr)].
  assert (Hi' : es_items (assign a s) = assign_all (ops ++ [a]) l).
  { rewrite assign_items, Hi. unfold assign_all. by rewrite fold_left_app. }
  split; [done|]. destruct (es_room s) as [room|] eqn:E.
  - specialize (Hr ltac:(done)) as ->. exists (ops ++ [a]). split_and!; [done| |done].
    rewrite (assign_owner a s (length l)); [by rewrite Hi', take_assign_all|by rewrite E| |].
    + by rewrite Ho, Hi, take_assign_all.
    + rewrite Hi. apply assign_all_length.
  - exists P. destruct (assign_unshared a s E) as [-> ->].
    split_and!; [by apply prefix_app_r|done|done].
Qed.

(** ** Distinct names *)

Lemma firsts_NoDup f seen l : NoDup (env_Name <$> l) -> (forall e, e ∈ l -> env_Name e ∉ seen) ->
  firsts f seen l = f <$> l.
Proof.
  revert seen. induction l as [|e l IH]; intros seen Hd Hs; cbn; [done|].
  apply NoDup_cons in Hd as [Hn Hd]. rewrite decide_False by (apply Hs; left). f_equal.
  apply IH; [done|]. intros e' He'. pose proof (Hs e' ltac:(by right)).
  apply not_elem_of_union. split; [|done]. intros E%elem_of_singleton. apply Hn. rewrite <- E.
  by apply list_elem_of_fmap_2.
Qed.

Lemma new_names_NoDup ops known : NoDup (new_names ops known).
Proof.
  revert known. induction ops as [|a ops IH]; intros known; cbn; [constructor|].
  destruct (decide _); [done|]. constructor; [|done].
  intros Hn%new_names_fresh. set_solver.
Qed.

Section distinct.
Context (ops : list Assign) (l : list EnvVar).
Hypothesis Hd : NoDup (env_Name <$> l).

Lemma extended_NoDup : NoDup (env_Name <$> l ++ (blank <$> new_names ops (names l))).
Proof.
  rewrite fmap_app. apply NoDup_app. split_and!; [done| |].
  - intros n Hn Hb. rewrite <- list_fmap_compose in Hb. apply list_elem_of_fmap in Hb as (m & -> & Hm).
    apply new_names_fresh in Hm. apply Hm. unfold names. by apply elem_of_list_to_set.
  - rewrite <- list_fmap_compose. replace (env_Name ∘ blank) with (@id string) by done.
    rewrite list_fmap_id. apply new_names_NoDup.
Qed.

Lemma assign_all_map :
  assign_all ops l = effects ops <$> (l ++ (blank <$> new_names ops (names l))).
Proof. rewrite assign_all_firsts. apply firsts_NoDup; [apply extended_NoDup|set_solver]. Qed.

(** The names stay distinct; a variable the assignments do not name is kept; one
    they name has the last value they give it. *)
Lemma assign_all_NoDup : NoDup (env_Name <$> assign_all ops l).
Proof.
  rewrite assign_all_map, <- list_fmap_compose.
  erewrite list_fmap_ext; [apply extended_NoDup|]. intros i e _. apply effects_name.
Qed.

Lemma assign_all_kept e : e ∈ l -> last_value ops (env_Name e) = None -> e ∈ assign_all ops l.
Proof.
  intros He Hl. rewrite assign_all_map. apply list_elem_of_fmap. exists e.
  split; [|set_solver]. rewrite effects_closed, Hl. cbn.
  assert (Hr : refreshed ops (env_Name e) = false).
  { apply not_true_is_false. intros (a & Ha & [E _]%andb_true_iff)%existsb_exists.
    apply bool_decide_eq_true in E. unfold last_value in Hl. apply last_None in Hl.
    apply fmap_nil_inv in Hl. apply list_elem_of_In in Ha.
    assert (Hf : a ∈ filter (fun a => as_name a = env_Name e) ops) by (by apply list_elem_of_filter).
    rewrite Hl in Hf. by apply elem_of_nil in Hf. }
  rewrite Hr. by destruct e.
Qed.

Lemma assign_all_value e v :
  e ∈ assign_all ops l -> last_value ops (env_Name e) = Some v -> env_Value e = v.
Proof.
  rewrite assign_all_map. intros (e0 & -> & _)%list_elem_of_fmap.
  rewrite effects_name, effects_closed. by intros ->.
Qed.

Lemma assign_all_present name v :
  last_value ops name = Some v -> exists e, e ∈ assign_all ops l /\ env_Name e = name /\ env_Value e = v.
Proof.
  intros Hv. assert (Hin : name ∈ names l \/ name ∈ new_names ops (names l)).
  { destruct (decide (name ∈ names l)) as [|Hn]; [by left|right].
    unfold last_value in Hv. apply last_Some_elem_of, list_elem_of_fmap in Hv
      as (a & _ & [<- Ha]%list_elem_of_filter).
    revert Hn Ha. generalize (names l). clear Hd. induction ops as [|b ops' IH]; intros known Hn;
      [by intros ?%elem_of_nil|]. cbn. intros [->|Ha]%elem_of_cons.
    - rewrite decide_False by done. left.
    - destruct (decide _); [by apply IH|]. destruct (decide (as_name a = as_name b)) as [->|Hne]; [left|].
      right. apply IH; [set_solver|done]. }
  assert (exists e0, e0 ∈ l ++ (blank <$> new_names ops (names l)) /\ env_Name e0 = name)
    as (e0 & He0 & <-).
  { destruct Hin as [Hin|Hin].
    - unfold names in Hin. apply elem_of_list_to_set, list_elem_of_fmap in Hin as (e & -> & He).
      exists e. set_solver.
    - exists (blank name). split; [|done]. apply elem_of_app. right. by apply list_elem_of_fmap_2. }
  exists (effects ops e0). split_and!; [rewrite assign_all_map; by apply list_elem_of_fmap_2
    |apply effects_name|]. by rewrite effects_closed, Hv.
Qed.
End distinct.
