(* ===== verification/DeploymentBuilder.v ===== *)
(** * DeploymentBuilder: the deployment of a workspace

    internal/controller deployment_builder.go, deployment_builder_integration.go
    and deployment_builder_access.go: the base pod, the integration overlays
    replayed from frozen values, and the access strategy on top.

    The primary container is built around the environment slice of the workspace
    object itself, so that an overlay that sets a variable in place also changes
    the workspace in memory, until an append moves the container's environment to
    an array of its own.  The overlays are computations on the pod under
    construction together with that shared slice. *)

From S2P Require Import Prelude Api JwtSigner K8s WorkspaceQueries Status Resources Integrations.
From S2P Require Import IntegrationResolver ObjectBuilders EnvOverlay.

Local Open Scope go_scope.

(** GVKWatch represents a Group-Version-Kind to watch. *)
Record GVKWatch := mkGVKWatch { gw_Group : string; gw_Version : string; gw_Kind : string }.

(** WorkspaceControllerOptions: the configuration of the workspace controller. *)
Record WorkspaceControllerOptions := mkWorkspaceControllerOptions {
  ApplicationImagesPullPolicy : string;
  ApplicationImagesRegistry : string;
  WatchTraefik : bool;
  ResourceWatches : list GVKWatch;
  EnableWorkspacePodWatching : bool;
  DefaultTemplateNamespace : string;
  PluginEndpoints : gmap string string;
  IdleCheckInterval : Duration;
  IntegrationProbePeriod : Duration;
}.

(** An index out of range: the goroutine panics. *)
Definition panic_index : error := Sentinel "panic: index out of range".

(** ** The base pod *)

(** parseResourceRequirements: the workspace's resources, or the defaults. *)
Definition default_requests : gmap string Quantity :=
  <["cpu" := DefaultCPURequest]> {[ "memory" := DefaultMemoryRequest ]}.
Definition parseResourceRequirements (w : Workspace) : ResourceRequirements :=
  match sp_Resources (ws_Spec w) with
  | Some r => match rr_RequestList r with
              | None => set_rr_Requests default_requests r
              | Some _ => r
              end
  | None => mkResourceRequirements default_requests (Some default_requests) []
  end.

(** Workspace labels override the generated ones. *)
Definition buildPodLabels (w : Workspace) : gmap string string :=
  om_Labels (ws_ObjectMeta w) ∪ GenerateLabels (ws_Name w).
Definition buildPodAnnotations (w : Workspace) : gmap string string :=
  om_Annotations (ws_ObjectMeta w).
Definition buildObjectMeta (w : Workspace) : ObjectMeta :=
  new_meta (GenerateDeploymentName (ws_Name w)) (ws_Namespace w) (buildPodLabels w)
    (buildPodAnnotations w).

(** The volumes of the spec that do not take the name of the primary storage. *)
Definition extra_volumes (w : Workspace) : list VolumeSpec :=
  filter (fun v => vs_Name v <> volumeNameWorkspaceStorage) (sp_Volumes (ws_Spec w)).

(** buildPrimaryContainer creates the container specification. *)
Definition buildPrimaryContainer (options : WorkspaceControllerOptions) (w : Workspace)
    (resources : ResourceRequirements) : Container :=
  let config := sp_ContainerConfig (ws_Spec w) in
  let storage := match ResolveStorageConfig w with
    | Some sc => [mkVolumeMount volumeNameWorkspaceStorage (rsc_MountPath sc) "" "" false None]
    | None => [] end in
  let mounts := (fun v => mkVolumeMount (vs_Name v) (vs_MountPath v) "" "" false None)
                  <$> extra_volumes w in
  mkContainer PrimaryContainerName (ResolveImage (ApplicationImagesRegistry options) w)
    (match config with Some c => cc_Command c | None => [] end)
    (match config with Some c => cc_Args c | None => [] end) ""
    (sp_Env (ws_Spec w)) [mkContainerPort httpScheme JupyterPort "TCP" None] (storage ++ mounts)
    resources (ApplicationImagesPullPolicy options) (sp_Lifecycle (ws_Spec w))
    (sp_ReadinessProbe (ws_Spec w)) (sp_ContainerSecurityContext (ws_Spec w)) None.

(** buildPodSpec creates the pod specification. *)
Definition pod_volume (v : VolumeSpec) : Volume :=
  mkVolume (vs_Name v)
    (match vs_EmptyDir v with
     | Some emptyDir => EmptyDirSource emptyDir
     | None => PersistentVolumeClaimSource (vs_PersistentVolumeClaimName v) false
     end).
Definition buildPodSpec (options : WorkspaceControllerOptions) (w : Workspace)
    (resources : ResourceRequirements) : PodSpec :=
  let storage := match ResolveStorageConfig w with
    | Some _ => [mkVolume volumeNameWorkspaceStorage
                   (PersistentVolumeClaimSource (GeneratePVCName (ws_Name w)) false)]
    | None => [] end in
  let spec := ws_Spec w in
  mkPodSpec (storage ++ (pod_volume <$> extra_volumes w)) (sp_InitContainers spec)
    [buildPrimaryContainer options w resources] (default ∅ (sp_NodeSelector spec))
    (sp_Affinity spec) (default [] (sp_Tolerations spec)) (sp_ServiceAccountName spec)
    (sp_PodSecurityContext spec) None None.

(** buildDeploymentSpec creates the deployment specification. *)
Definition buildDeploymentSpec (options : WorkspaceControllerOptions) (w : Workspace)
    (resources : ResourceRequirements) : DeploymentSpec :=
  mkDeploymentSpec (Some 1) "Recreate" (GenerateLabels (ws_Name w))
    (mkPodTemplateSpec (buildPodLabels w) (buildPodAnnotations w)
       (buildPodSpec options w resources)) None.

(** BuildDeployment creates a Deployment resource for the given Workspace. *)
Definition BuildDeployment (libs : ObjectLibs) (options : WorkspaceControllerOptions)
    (w : Workspace) : result Deployment :=
  let resources := parseResourceRequirements w in
  meta ← wrap_err "failed to set controller reference: %w" []
           (set_controller libs w (buildObjectMeta w));
  Ok (mkDeployment meta (buildDeploymentSpec options w resources) [] 0 0).

(** ** The pod under construction *)

(** The pod, the environment of the workspace and the room they still share. *)
Record Building := mkBuilding {
  bld_Pod : PodSpec;
  bld_Env : list EnvVar;
  bld_Room : option nat;
}.
Definition set_pod_Containers (v : list Container) (p : PodSpec) : PodSpec :=
  mkPodSpec (pod_Volumes p) (pod_InitContainers p) v (pod_NodeSelector p) (pod_Affinity p)
    (pod_Tolerations p) (pod_ServiceAccountName p) (pod_SecurityContext p)
    (pod_ShareProcessNamespace p) (pod_Rest p).
Definition add_to_pod (vols : list Volume) (init cs : list Container) (p : PodSpec) : PodSpec :=
  mkPodSpec (pod_Volumes p ++ vols) (pod_InitContainers p ++ init) (pod_Containers p ++ cs)
    (pod_NodeSelector p) (pod_Affinity p) (pod_Tolerations p) (pod_ServiceAccountName p)
    (pod_SecurityContext p) (pod_ShareProcessNamespace p) (pod_Rest p).
Definition set_pod_Share (v : option bool) (p : PodSpec) : PodSpec :=
  mkPodSpec (pod_Volumes p) (pod_InitContainers p) (pod_Containers p) (pod_NodeSelector p)
    (pod_Affinity p) (pod_Tolerations p) (pod_ServiceAccountName p) (pod_SecurityContext p)
    v (pod_Rest p).
Definition of_pod {A} (f : PodSpec -> result A) : ST Building A :=
  fun b => (f (bld_Pod b), b).
Definition on_pod (f : PodSpec -> PodSpec) : ST Building unit :=
  st_modify (fun b => mkBuilding (f (bld_Pod b)) (bld_Env b) (bld_Room b)).

(** Change container [i]; only the first one was built on the workspace's slice. *)
Definition on_env (i : nat) (f : EnvSlice -> EnvSlice) : ST Building unit :=
  st_modify (fun b =>
    match pod_Containers (bld_Pod b) !! i with
    | None => b
    | Some c =>
        let room := match i with O => bld_Room b | S _ => None end in
        let s := f (mkEnvSlice (ctr_Env c) (bld_Env b) room) in
        mkBuilding (set_pod_Containers (<[i := set_ctr_Env (es_items s) c]>
                      (pod_Containers (bld_Pod b))) (bld_Pod b))
          (es_owner s) (match i with O => es_room s | S _ => bld_Room b end)
    end).
Definition add_mounts (i : nat) (mounts : list VolumeMount) : ST Building unit :=
  on_pod (fun p => set_pod_Containers
    (alter (fun c => set_ctr_VolumeMounts (ctr_VolumeMounts c ++ mounts) c) i (pod_Containers p)) p).

(** ** Integrations *)

(** The names taken so far; a name taken twice is refused. *)
Fixpoint fresh_names (fmt : string) (existing : gset string) (names : list string) : result unit :=
  match names with
  | [] => Ok tt
  | n :: rest =>
      if bool_decide (n ∈ existing)
      then Fail (Wrapf fmt [n] (Sentinel "errIntegrationReplayFailed"))
      else fresh_names fmt ({[n]} ∪ existing) rest
  end.

(** findPrimaryContainer by its well-known name. *)
Definition findPrimaryContainer (p : PodSpec) : option nat :=
  fst <$> list_find (fun c => ctr_Name c = PrimaryContainerName) (pod_Containers p).

Fixpoint merge_env_loop (set : string -> string -> EnvSlice -> EnvSlice) (i : nat)
    (env : list (string * string)) : ST Building unit :=
  match env with
  | [] => st_ret tt
  | (name, value) :: rest => on_env i (set name value) ;; merge_env_loop set i rest
  end.

(** applyPodModifications appends containers and volumes whose names are free and
    merges the environment and mounts of the primary container. *)
Definition name_clashes (pm : PodModifications) (ps : PodSpec) : result unit :=
  _ ← fresh_names "%w: integration container name %q collides with an existing container"
    (list_to_set (ctr_Name <$> pod_Containers ps) ∪ list_to_set (ctr_Name <$> pod_InitContainers ps))
    (ctr_Name <$> pm_AdditionalContainers pm ++ pm_InitContainers pm);
  fresh_names "%w: integration volume name %q collides with an existing volume"
    (list_to_set (vol_Name <$> pod_Volumes ps)) (vol_Name <$> pm_Volumes pm).
Definition applyPodModifications (pm : PodModifications) : ST Building unit :=
  of_pod (name_clashes pm) ;;
  on_pod (add_to_pod (pm_Volumes pm) (pm_InitContainers pm) (pm_AdditionalContainers pm)) ;;
  match pm_PrimaryContainerModifications pm with
  | None => st_ret tt
  | Some primary =>
      found <- of_pod (fun ps => Ok (findPrimaryContainer ps)) ;;
      match found with
      | None => st_ret tt
      | Some i =>
          merge_env_loop setEnv i
            ((fun e => (aet_Name e, aet_ValueTemplate e)) <$> pcm_MergeEnv primary) ;;
          add_mounts i (pcm_VolumeMounts primary)
      end
  end.

Section builder.
Context (engine : TemplateEngine) (libs : ObjectLibs) (options : WorkspaceControllerOptions).
(** The room in the array behind a workspace's environment slice. *)
Context (room : Workspace -> nat).

(** applyIntegrationsToDeployment overlays each attached integration. *)
Fixpoint applyIntegrationsToDeployment (w : Workspace) (templates : Templates)
    (refs : list IntegrationTemplateRef) : ST Building unit :=
  match refs with
  | [] => st_ret tt
  | ref :: rest =>
      (match findResolvedIntegration (st_ResolvedIntegrations (ws_Status w)) (itr_Name ref) with
       | None => st_ret tt
       | Some frozen =>
           match templates !! itr_Name ref with
           | None => st_fail (Wrapf "integration %q overlay failed: could not load the template: %w"
                       [itr_Name ref] (Sentinel "errIntegrationReplayFailed"))
           | Some template =>
               mods <- st_wrap "integration %q overlay failed: %w" [itr_Name ref]
                 (st_lift (buildIntegrationPodModifications engine w ref frozen template)) ;;
               st_wrap "integration %q overlay failed: %w" [itr_Name ref]
                 (applyPodModifications mods.1) ;;
               if bool_decide (mods.2 = Some true) then on_pod (set_pod_Share (Some true))
               else st_ret tt
           end
       end) ;;
      applyIntegrationsToDeployment w templates rest
  end.

(** ** The access strategy *)

(** getPrimaryContainerMergeEnv, and resolveAccessStrategyPrimaryContainerEnv. *)
Definition getPrimaryContainerMergeEnv (accessStrategy : WorkspaceAccessStrategy)
    : list AccessEnvTemplate :=
  match ServiceBuilder.strategy_mods (Some accessStrategy) with
  | Some mods => match pm_PrimaryContainerModifications mods with
                 | Some p => pcm_MergeEnv p
                 | None => []
                 end
  | None => []
  end.
Fixpoint resolve_access_env (accessStrategy : WorkspaceAccessStrategy) (w : Workspace)
    (env : list AccessEnvTemplate) : result (list (string * string)) :=
  match env with
  | [] => Ok []
  | e :: rest =>
      tmpl ← wrap_err "failed to parse env template for %s: %w" [aet_Name e]
               (env_template libs (aet_ValueTemplate e));
      value ← wrap_err "failed to execute env template for %s: %w" [aet_Name e]
                (tmpl w accessStrategy);
      vars ← resolve_access_env accessStrategy w rest;
      Ok ((aet_Name e, value) :: vars)
  end.
Definition resolveAccessStrategyPrimaryContainerEnv (accessStrategy : WorkspaceAccessStrategy)
    (w : Workspace) : result (list (string * string)) :=
  resolve_access_env accessStrategy w (getPrimaryContainerMergeEnv accessStrategy).

(** addAccessStrategyEnvToContainer sets the strategy's variables on the first
    container; its templates see the workspace as it is by now. *)
Definition addAccessStrategyEnvToContainer (w : Workspace)
    (accessStrategy : WorkspaceAccessStrategy) : ST Building unit :=
  b <- st_get ;;
  vars <- st_lift (resolveAccessStrategyPrimaryContainerEnv accessStrategy
                     (set_ws_Spec (set_sp_Env (bld_Env b) (ws_Spec w)) w)) ;;
  merge_env_loop setAccessEnv 0 vars.

(** applyDeploymentSpecModifications adds volumes, mounts, init containers and
    containers. *)
Definition applyDeploymentSpecModifications (accessStrategy : WorkspaceAccessStrategy)
    : ST Building unit :=
  match ServiceBuilder.strategy_mods (Some accessStrategy) with
  | None => st_ret tt
  | Some mods =>
      on_pod (add_to_pod (pm_Volumes mods) [] []) ;;
      (match pm_PrimaryContainerModifications mods with
       | Some primary =>
           if bool_decide (pcm_VolumeMounts primary = []) then st_ret tt
           else
             of_pod (fun ps => match pod_Containers ps with
               | [] => Fail (Errorf "no containers found in deployment to add volume mounts" [])
               | _ => Ok tt end) ;;
             add_mounts 0 (pcm_VolumeMounts primary)
       | None => st_ret tt
       end) ;;
      on_pod (add_to_pod [] (pm_InitContainers mods) (pm_AdditionalContainers mods))
  end.

(** ApplyAccessStrategyToDeployment applies access strategy settings. *)
Definition ApplyAccessStrategyToDeployment (w : Workspace)
    (accessStrategy : WorkspaceAccessStrategy) : ST Building unit :=
  of_pod (fun ps => match pod_Containers ps with [] => Fail panic_index | _ => Ok tt end) ;;
  st_wrap "failed to add environment variables to container: %w" []
    (addAccessStrategyEnvToContainer w accessStrategy) ;;
  st_wrap "failed to apply deployment spec modifications: %w" []
    (applyDeploymentSpecModifications accessStrategy).

(** ** The desired deployment *)

Definition overlays (accessStrategy : option WorkspaceAccessStrategy) (templates : Templates)
    (w : Workspace) : ST Building unit :=
  applyIntegrationsToDeployment w templates (sp_IntegrationTemplateRefs (ws_Spec w)) ;;
  match accessStrategy with
  | None => st_ret tt
  | Some a => st_wrap "failed to apply access strategy to deployment: %w" []
                (ApplyAccessStrategyToDeployment w a)
  end.

Definition with_pod (p : PodSpec) (d : Deployment) : Deployment :=
  let s := dep_Spec d in
  let t := ds_Template s in
  mkDeployment (dep_ObjectMeta d)
    (mkDeploymentSpec (ds_Replicas s) (ds_Strategy s) (ds_Selector s)
       (mkPodTemplateSpec (pts_Labels t) (pts_Annotations t) p) (ds_Rest s))
    (dep_Conditions d) (dep_AvailableReplicas d) (dep_ReadyReplicas d).
Definition pod_of (d : Deployment) : PodSpec := pts_Spec (ds_Template (dep_Spec d)).

(** BuildWorkspaceDeployment layers the integrations and the access strategy on
    the base deployment; it also answers with the workspace's environment. *)
Definition BuildWorkspaceDeployment (accessStrategy : option WorkspaceAccessStrategy)
    (templates : Templates) (w : Workspace) : result Deployment * list EnvVar :=
  match BuildDeployment libs options w with
  | Fail err => (Fail err, sp_Env (ws_Spec w))
  | Ok deployment =>
      let (r, b) := overlays accessStrategy templates w
        (mkBuilding (pod_of deployment) (sp_Env (ws_Spec w)) (Some (room w))) in
      (_ ← r; Ok (with_pod (bld_Pod b) deployment), bld_Env b)
  end.

(** NeedsUpdate compares the pod template with the desired one. *)
Definition deployment_differs (existing desired : Deployment) : bool :=
  let e := ds_Template (dep_Spec existing) in
  let d := ds_Template (dep_Spec desired) in
  if negb (bool_decide (sem_pod (pts_Spec e) = sem_pod (pts_Spec d))) then true
  else if negb (bool_decide (pts_Labels e = pts_Labels d)) then true
  else negb (bool_decide (pts_Annotations e = pts_Annotations d)).
Definition NeedsUpdate (existingDeployment : Deployment)
    (accessStrategy : option WorkspaceAccessStrategy) (templates : Templates) (w : Workspace)
    : result bool * list EnvVar :=
  let (r, env) := BuildWorkspaceDeployment accessStrategy templates w in
  (desired ← wrap_err "failed to build desired deployment: %w" [] r;
   Ok (deployment_differs existingDeployment desired), env).
End builder.

(** ** What an overlay depends on *)

(** The workspace with another environment. *)
Definition with_env (env : list EnvVar) (w : Workspace) : Workspace :=
  set_ws_Spec (set_sp_Env env (ws_Spec w)) w.

(** A pod with the environment of its first container replaced. *)
Definition fill (env : list EnvVar) (p : PodSpec) : PodSpec :=
  set_pod_Containers (alter (set_ctr_Env env) 0%nat (pod_Containers p)) p.

(** The first container is the primary one. *)
Definition primary_first (p : PodSpec) : Prop :=
  exists c cs, pod_Containers p = c :: cs /\ ctr_Name c = PrimaryContainerName.

(** The building that has the shape of [p], started from the variables [l] and
    made the assignments [ops] so far. *)
Record holds (l : list EnvVar) (ops : list Assign) (p : PodSpec) (b : Building) : Prop := mkHolds {
  ho_pod : bld_Pod b = fill (assign_all ops l) p;
  ho_env : overlaid l ops (mkEnvSlice (assign_all ops l) (bld_Env b) (bld_Room b));
}.

(** [m] on a pod of shape [p] answers [r], makes the assignments [ops'] and leaves
    the shape [p'], whatever the environment. *)
Definition runs {A} (m : ST Building A) (p : PodSpec) (r : result A) (ops' : list Assign)
    (p' : PodSpec) : Prop :=
  forall l ops b, holds l ops p b -> (m b).1 = r /\ holds l (ops ++ ops') p' (m b).2.

Lemma fill_twice env1 env2 p : fill env1 (fill env2 p) = fill env1 p.
Proof. destruct p as [vs inits [|c cs]]; done. Qed.

Lemma fill_own p c cs : pod_Containers p = c :: cs -> fill (ctr_Env c) p = p.
Proof. destruct p as [vs inits cs']. cbn. intros ->. unfold fill, set_pod_Containers. cbn. by destruct c. Qed.

Section runs.
Context {A B : Type}.

Lemma runs_ret (a : A) p : runs (st_ret a) p (Ok a) [] p.
Proof. intros l ops b Hb. by rewrite app_nil_r. Qed.

Lemma runs_lift (r : result A) p : runs (st_lift r) p r [] p.
Proof. intros l ops b Hb. by rewrite app_nil_r. Qed.

Lemma runs_wrap fmt args (m : ST Building A) p r ops' p' :
  runs m p r ops' p' -> runs (st_wrap fmt args m) p (wrap_err fmt args r) ops' p'.
Proof.
  intros Hm l ops b Hb. destruct (Hm l ops b Hb) as [E Hh]. unfold st_wrap.
  destruct (m b) as [r0 b0]. cbn in *. by subst.
Qed.

Lemma runs_bind (m : ST Building A) (f : A -> ST Building B) p a ops1 p1 r ops2 p2 :
  runs m p (Ok a) ops1 p1 -> runs (f a) p1 r ops2 p2 ->
  runs (st_bind m f) p r (ops1 ++ ops2) p2.
Proof.
  intros Hm Hf l ops b Hb. destruct (Hm l ops b Hb) as [E Hh]. unfold st_bind.
  destruct (m b) as [r0 b0]. cbn in *. subst r0.
  destruct (Hf l (ops ++ ops1) b0 Hh) as [E2 Hh2]. by rewrite app_assoc.
Qed.

Lemma runs_bind_fail (m : ST Building A) (f : A -> ST Building B) p e ops1 p1 :
  runs m p (Fail e) ops1 p1 -> runs (st_bind m f) p (Fail e) ops1 p1.
Proof.
  intros Hm l ops b Hb. destruct (Hm l ops b Hb) as [E Hh]. unfold st_bind.
  destruct (m b) as [r0 b0]. cbn in *. by subst r0.
Qed.

End runs.

Lemma runs_on_pod f p : (forall env, f (fill env p) = fill env (f p)) ->
  runs (on_pod f) p (Ok tt) [] (f p).
Proof.
  intros Hf l ops b [Hp He]. split; [done|]. rewrite app_nil_r. split; cbn; [|done].
  by rewrite Hp.
Qed.

Lemma runs_on_env a p : primary_first p -> runs (on_env 0 (assign a)) p (Ok tt) [a] p.
Proof.
  intros (c & cs & Hc & _) l ops b [Hp He]. split; [done|]. cbn. rewrite Hp.
  unfold fill at 1. rewrite Hc. cbn.
  pose proof (overlaid_assign l ops a _ He) as [Hi Ho].
  split; cbn; [|split; [done|by rewrite <- Hi in *]].
  rewrite Hi. unfold fill, set_pod_Containers. rewrite Hc. cbn. done.
Qed.

(** Some answer, some assignments of a kind and some shape, and the primary
    container stays first. *)
Definition oblivious {A} (Q : list Assign -> Prop) (m : ST Building A) : Prop :=
  forall p, primary_first p -> exists r ops' p', runs m p r ops' p' /\ Q ops' /\ primary_first p'.

(** A kind of assignments that holds of none and of one sequence after another. *)
Class OpKind (Q : list Assign -> Prop) : Prop := {
  op_nil : Q [];
  op_app : forall ops1 ops2, Q ops1 -> Q ops2 -> Q (ops1 ++ ops2);
}.
#[export] Instance no_ops : OpKind (fun ops => ops = []).
Proof. split; [done|]. by intros ? ? -> ->. Qed.
#[export] Instance any_ops : OpKind (fun _ => True).
Proof. done. Qed.

Lemma findPrimaryContainer_first p : primary_first p -> findPrimaryContainer p = Some 0%nat.
Proof.
  intros (c & cs & Hc & Hn). unfold findPrimaryContainer. rewrite Hc. cbn.
  by rewrite decide_True.
Qed.

Lemma fill_first env p : primary_first p -> primary_first (fill env p).
Proof. intros (c & cs & Hc & Hn). unfold primary_first, fill. cbn. rewrite Hc. by eexists _, _. Qed.

(** A read of the pod whose use does not depend on the environment. *)
Lemma runs_of_pod {A} (f : PodSpec -> result A) p :
  (forall env, f (fill env p) = f p) -> runs (of_pod f) p (f p) [] p.
Proof.
  intros Hf l ops b Hb. rewrite app_nil_r. split; [|done]. destruct Hb as [Hp _].
  unfold of_pod. cbn. by rewrite Hp.
Qed.

Section oblivious.
Context (Q : list Assign -> Prop) `{HQ : !OpKind Q}.

Lemma oblivious_lift {A} (r : result A) : oblivious Q (st_lift r).
Proof. intros p Hp. eexists _, _, _. split_and!; [apply runs_lift|apply op_nil|done]. Qed.
Lemma oblivious_ret {A} (a : A) : oblivious Q (st_ret a).
Proof. apply (oblivious_lift (Ok a)). Qed.
Lemma oblivious_fail {A} e : oblivious Q (@st_fail Building A e).
Proof. apply oblivious_lift. Qed.
Lemma oblivious_wrap {A} fmt args (m : ST Building A) :
  oblivious Q m -> oblivious Q (st_wrap fmt args m).
Proof.
  intros Hm p Hp. destruct (Hm p Hp) as (r & ops & p' & H1 & H2 & H3).
  eexists _, _, _. split_and!; [by apply runs_wrap|done..].
Qed.
Lemma oblivious_bind {A B} (m : ST Building A) (f : A -> ST Building B) :
  oblivious Q m -> (forall a, oblivious Q (f a)) -> oblivious Q (st_bind m f).
Proof.
  intros Hm Hf p Hp. destruct (Hm p Hp) as ([a|e] & ops & p' & H1 & H2 & H3).
  - destruct (Hf a p' H3) as (r & ops2 & p2 & H4 & H5 & H6).
    eexists _, _, _. split_and!; [by eapply runs_bind|by apply op_app|done].
  - eexists _, _, _. split_and!; [by eapply runs_bind_fail|done..].
Qed.
Lemma oblivious_read {A B} (f : PodSpec -> result A) (k : A -> ST Building B) :
  (forall env p, primary_first p -> f (fill env p) = f p) ->
  (forall p a, primary_first p -> f p = Ok a -> oblivious Q (k a)) ->
  oblivious Q (st_bind (of_pod f) k).
Proof.
  intros Hf Hk p Hp. pose proof (runs_of_pod f p (fun env => Hf env p Hp)) as Hr.
  destruct (f p) as [a|e] eqn:E.
  - destruct (Hk p a Hp E p Hp) as (r & ops' & p' & H1 & H2 & H3).
    eexists _, _, _. split_and!; [by eapply runs_bind|done..].
  - eexists _, _, _. split_and!; [by eapply runs_bind_fail|apply op_nil|done].
Qed.

Lemma oblivious_on_pod f :
  (forall env p, primary_first p -> f (fill env p) = fill env (f p)) ->
  (forall p, primary_first p -> primary_first (f p)) -> oblivious Q (on_pod f).
Proof.
  intros Hf Hp p Hfirst. exists (Ok tt), [], (f p). split_and!; [|apply op_nil|by apply Hp].
  apply runs_on_pod. intros env. by apply Hf.
Qed.
Lemma oblivious_add_to_pod vols init cs : oblivious Q (on_pod (add_to_pod vols init cs)).
Proof.
  apply oblivious_on_pod.
  - intros env p (c & cs' & Hc & _). unfold fill, add_to_pod, set_pod_Containers. cbn.
    by rewrite Hc.
  - intros p (c & cs' & Hc & Hn). exists c, (cs' ++ cs). unfold add_to_pod. cbn. by rewrite Hc.
Qed.
Lemma oblivious_share v : oblivious Q (on_pod (set_pod_Share v)).
Proof. by apply oblivious_on_pod. Qed.
Lemma oblivious_add_mounts mounts : oblivious Q (add_mounts 0 mounts).
Proof.
  apply oblivious_on_pod.
  - intros env p (c & cs' & Hc & _). unfold fill, set_pod_Containers. cbn. by rewrite Hc.
  - intros p (c & cs' & Hc & Hn). unfold primary_first. cbn. rewrite Hc. cbn. by eexists _, _.
Qed.
End oblivious.
Create HintDb overlay.
#[export] Hint Resolve oblivious_lift oblivious_ret oblivious_fail oblivious_add_to_pod
  oblivious_share oblivious_add_mounts : overlay.
Ltac overlay_step :=
  lazymatch goal with
  | |- oblivious _ (st_bind (of_pod _) _) => fail
  | |- oblivious _ (st_bind _ _) => apply oblivious_bind; [apply _| |intros ?]
  | |- oblivious _ (st_wrap _ _ _) => apply oblivious_wrap
  | |- oblivious _ (if ?b then _ else _) => destruct b
  | |- oblivious _ (match ?x with _ => _ end) => destruct x
  end.
Ltac solve_oblivious := repeat overlay_step; eauto with overlay typeclass_instances.

(** ** The overlays *)

(** The assignments of a merge. *)
Definition merge_ops (fresh : bool) (env : list (string * string)) : list Assign :=
  (fun x => mkAssign x.1 x.2 fresh) <$> env.

Lemma runs_merge_env (fresh : bool) env p : primary_first p ->
  runs (merge_env_loop (if fresh then setEnv else setAccessEnv) 0 env) p (Ok tt)
    (merge_ops fresh env) p.
Proof.
  intros Hp. induction env as [|[name value] env IH]; [apply runs_ret|]. cbn [merge_env_loop].
  change (merge_ops fresh ((name, value) :: env))
    with ([mkAssign name value fresh] ++ merge_ops fresh env).
  eapply runs_bind; [|done]. pose proof (runs_on_env (mkAssign name value fresh) p Hp) as Ha.
  by destruct fresh.
Qed.

Lemma name_clashes_fill pm env p : primary_first p -> name_clashes pm (fill env p) = name_clashes pm p.
Proof. intros (c & cs & Hc & _). unfold name_clashes, fill. cbn. by rewrite Hc. Qed.

Lemma oblivious_applyPodModifications pm : oblivious (fun _ => True) (applyPodModifications pm).
Proof.
  apply oblivious_read; [apply _|intros env p Hp; by apply name_clashes_fill|intros _ _ _ _].
  apply oblivious_bind; [apply _|apply oblivious_add_to_pod, _|intros _].
  destruct (pm_PrimaryContainerModifications pm) as [primary|]; [|apply oblivious_ret, _].
  apply oblivious_read; [apply _| |].
  - intros env p Hp. rewrite !findPrimaryContainer_first; [done..|by apply fill_first].
  - intros p i Hp. rewrite findPrimaryContainer_first by done. intros [= <-].
    apply oblivious_bind; [apply _| |intros _; apply oblivious_add_mounts, _].
    intros p1 Hp1. eexists _, _, _. split_and!; [by apply (runs_merge_env true)|done..].
Qed.
#[export] Hint Resolve oblivious_applyPodModifications : overlay.

Section overlays.
Context (engine : TemplateEngine) (libs : ObjectLibs).

Lemma oblivious_integrations w templates refs :
  oblivious (fun _ => True) (applyIntegrationsToDeployment engine w templates refs).
Proof. induction refs as [|ref refs IH]; cbn; solve_oblivious. Qed.

Lemma quiet_modifications a :
  oblivious (fun ops => ops = []) (applyDeploymentSpecModifications a).
Proof.
  unfold applyDeploymentSpecModifications. solve_oblivious.
  apply oblivious_read; [apply _| |intros; apply oblivious_add_mounts, _].
  intros env q (c & cs & Hc & _). unfold fill. cbn. by rewrite Hc.
Qed.

(** The strategy's variables do not read the environment of the workspace. *)
Definition env_blind (a : WorkspaceAccessStrategy) (w : Workspace) : Prop := forall env,
  resolveAccessStrategyPrimaryContainerEnv libs a (with_env env w) =
  resolveAccessStrategyPrimaryContainerEnv libs a w.

Lemma runs_access_env w a p : env_blind a w -> primary_first p ->
  match resolveAccessStrategyPrimaryContainerEnv libs a w with
  | Ok vars => runs (addAccessStrategyEnvToContainer libs w a) p (Ok tt) (merge_ops false vars) p
  | Fail e => runs (addAccessStrategyEnvToContainer libs w a) p (Fail e) [] p
  end.
Proof.
  intros Hb Hp. unfold addAccessStrategyEnvToContainer.
  destruct (resolveAccessStrategyPrimaryContainerEnv libs a w) as [vars|e] eqn:E;
    intros l ops b Hh; unfold st_bind, st_get;
    pose proof (Hb (bld_Env b)) as Hv; unfold with_env in Hv; rewrite Hv, E.
  - apply (runs_merge_env false vars p Hp l ops b Hh).
  - by rewrite app_nil_r.
Qed.

(** The access strategy makes its own assignments, after everything else. *)
Lemma runs_ApplyAccessStrategy w a p : env_blind a w -> primary_first p ->
  exists r ops' p', runs (ApplyAccessStrategyToDeployment libs w a) p r ops' p' /\ primary_first p' /\
    (r = Ok tt -> exists vars,
       resolveAccessStrategyPrimaryContainerEnv libs a w = Ok vars /\ ops' = merge_ops false vars).
Proof.
  intros Hb Hp. unfold ApplyAccessStrategyToDeployment.
  set (check := fun ps => match pod_Containers ps with [] => Fail panic_index | _ => Ok tt end).
  assert (Hck : runs (of_pod check) p (Ok tt) [] p).
  { replace (Ok tt) with (check p) by (unfold check; by destruct Hp as (c & cs & -> & _)).
    apply runs_of_pod. intros env. unfold check, fill. cbn. by destruct Hp as (c & cs & -> & _). }
  pose proof (runs_access_env w a p Hb Hp) as Ha.
  destruct (resolveAccessStrategyPrimaryContainerEnv libs a w) as [vars|e].
  - destruct (quiet_modifications a p Hp) as (r & ops & p' & Hr & -> & Hp').
    eexists _, _, p'. split_and!; [|done|intros _; by exists vars].
    replace (merge_ops false vars) with ([] ++ merge_ops false vars ++ []) by apply app_nil_r.
    eapply runs_bind; [exact Hck|]. eapply runs_bind; [exact (runs_wrap _ _ _ _ _ _ _ Ha)|].
    by apply runs_wrap.
  - eexists _, _, p. split_and!; [|done|].
    + eapply runs_bind; [exact Hck|]. eapply runs_bind_fail. exact (runs_wrap _ _ _ _ _ _ _ Ha).
    + done.
Qed.
End overlays.

(** What the builder relies on of SetControllerReference: it looks at the
    metadata of the owner, and changes only the owner references. *)
Class OwnerLaws (libs : ObjectLibs) : Prop := {
  owner_meta : forall w w' m, ws_ObjectMeta w = ws_ObjectMeta w' ->
    set_controller libs w m = set_controller libs w' m;
  owner_keeps : forall w m m', set_controller libs w m = Ok m' ->
    exists refs, m' = set_om_OwnerReferences refs m;
}.

Section desired.
Context (engine : TemplateEngine) (libs : ObjectLibs) (options : WorkspaceControllerOptions)
  (room : Workspace -> nat).

Definition strategy_blind (strategy : option WorkspaceAccessStrategy) (w : Workspace) : Prop :=
  match strategy with Some a => env_blind libs a w | None => True end.

Lemma applyIntegrations_with_env env w templates refs :
  applyIntegrationsToDeployment engine (with_env env w) templates refs =
  applyIntegrationsToDeployment engine w templates refs.
Proof. induction refs as [|ref refs IH]; [done|]. cbn. by rewrite IH. Qed.

Lemma overlays_with_env strategy templates env w :
  overlays engine libs strategy templates (with_env env w) = overlays engine libs strategy templates w.
Proof. unfold overlays. by rewrite applyIntegrations_with_env. Qed.

Lemma runs_overlays strategy templates w p : strategy_blind strategy w -> primary_first p ->
  exists r ops' p', runs (overlays engine libs strategy templates w) p r ops' p' /\ primary_first p' /\
    forall a, strategy = Some a -> r = Ok tt -> exists ops1 vars,
      resolveAccessStrategyPrimaryContainerEnv libs a w = Ok vars /\
      ops' = ops1 ++ merge_ops false vars.
Proof.
  intros Hb Hp. unfold overlays.
  destruct (oblivious_integrations engine w templates (sp_IntegrationTemplateRefs (ws_Spec w)) p Hp)
    as ([[]|e] & ops1 & p1 & H1 & _ & Hp1).
  - destruct strategy as [a|].
    + destruct (runs_ApplyAccessStrategy libs w a p1 Hb Hp1) as (r & ops2 & p2 & H2 & Hp2 & Hv).
      eexists _, _, p2. split_and!; [eapply runs_bind; [exact H1|by apply runs_wrap]|done|].
      intros a' [= <-] Hr. apply wrap_err_Ok in Hr. destruct (Hv Hr) as (vars & E & ->). eauto.
    + eexists _, _, p1. split_and!; [eapply runs_bind; [exact H1|apply runs_ret]|done|done].
  - eexists _, _, p1. split_and!; [by eapply runs_bind_fail|done|done].
Qed.

Definition base_pod (w : Workspace) : PodSpec := buildPodSpec options w (parseResourceRequirements w).

Lemma base_pod_first w : primary_first (base_pod w).
Proof. by eexists _, []. Qed.

Lemma base_pod_with_env env w : base_pod (with_env env w) = fill env (base_pod w).
Proof. reflexivity. Qed.

Lemma base_holds env w : holds env [] (base_pod w)
  (mkBuilding (base_pod (with_env env w)) env (Some (room (with_env env w)))).
Proof. split; cbn [bld_Pod bld_Env bld_Room]; [apply base_pod_with_env|apply overlaid_start]. Qed.

Lemma with_own_env w : with_env (sp_Env (ws_Spec w)) w = w.
Proof. by destruct w as [? [] ?]. Qed.

(** The build on any environment: one answer, one sequence of assignments, one
    shape. *)
Lemma BuildWorkspaceDeployment_spec strategy templates w :
  strategy_blind strategy w ->
  exists r ops p', primary_first p' /\
    (forall a, strategy = Some a -> r = Ok tt -> exists ops1 vars,
      resolveAccessStrategyPrimaryContainerEnv libs a w = Ok vars /\
      ops = ops1 ++ merge_ops false vars) /\
    forall env d0, BuildDeployment libs options (with_env env w) = Ok d0 ->
      exists P, P `prefix_of` ops /\
        BuildWorkspaceDeployment engine libs options room strategy templates (with_env env w) =
        (_ ← r; Ok (with_pod (fill (assign_all ops env) p') d0), firsts (effects P) ∅ env).
Proof.
  intros Hb. destruct (runs_overlays strategy templates w (base_pod w) Hb (base_pod_first w))
    as (r & ops & p' & Hr & Hp' & Hv).
  exists r, ops, p'. split_and!; [done..|]. intros env d0 Hd.
  destruct (Hr env [] _ (base_holds env w)) as [E [Hpod [_ (P & HP & Ho & _)]]].
  exists P. split; [done|]. unfold BuildWorkspaceDeployment. rewrite Hd.
  assert (Ed : pod_of d0 = base_pod (with_env env w)).
  { unfold BuildDeployment in Hd. apply result_bind_Ok in Hd as (m & _ & [= <-]). reflexivity. }
  rewrite Ed, overlays_with_env. cbn [with_env ws_Spec set_ws_Spec sp_Env set_sp_Env].
  fold (with_env env w). destruct (overlays engine libs strategy templates w _) as [r0 b]. cbn in E, Hpod, Ho.
  subst r0. by rewrite Hpod, Ho.
Qed.
End desired.

(** A deployment after updateDeployment has put the desired spec into it. *)
Definition with_spec (existing desired : Deployment) : Deployment :=
  mkDeployment (dep_ObjectMeta existing) (dep_Spec desired) (dep_Conditions existing)
    (dep_AvailableReplicas existing) (dep_ReadyReplicas existing).

Lemma BuildDeployment_with_env libs options `{!OwnerLaws libs} env w d :
  BuildDeployment libs options w = Ok d ->
  BuildDeployment libs options (with_env env w) =
    Ok (with_pod (base_pod options (with_env env w)) d).
Proof.
  unfold BuildDeployment. intros (m & Hm & [= <-])%result_bind_Ok.
  rewrite (owner_meta (with_env env w) w) by done.
  change (buildObjectMeta (with_env env w)) with (buildObjectMeta w). by rewrite Hm.
Qed.

Lemma with_pod_twice p1 p2 d : with_pod p1 (with_pod p2 d) = with_pod p1 d.
Proof. done. Qed.

Lemma strategy_blind_with_env libs strategy env w :
  strategy_blind libs strategy w -> strategy_blind libs strategy (with_env env w).
Proof.
  destruct strategy as [a|]; [|done]. intros Hb env'. unfold strategy_blind, env_blind in Hb.
  transitivity (resolveAccessStrategyPrimaryContainerEnv libs a w); [apply Hb|symmetry; apply Hb].
Qed.

(** A build from the workspace a build has left answers the same. *)
Lemma rebuild_same engine libs options room `{!OwnerLaws libs} strategy templates w r env :
  strategy_blind libs strategy w ->
  BuildWorkspaceDeployment engine libs options room strategy templates w = (r, env) ->
  (BuildWorkspaceDeployment engine libs options room strategy templates (with_env env w)).1 = r.
Proof.
  intros Hb Hd.
  destruct (BuildWorkspaceDeployment_spec engine libs options room strategy templates w Hb)
    as (r0 & ops & p' & _ & _ & Hbuild).
  destruct (BuildDeployment libs options w) as [d0|e] eqn:E0.
  - pose proof (Hbuild (sp_Env (ws_Spec w)) d0) as H1. rewrite with_own_env in H1.
    destruct (H1 E0) as (P & HP & E1). rewrite E1 in Hd. injection Hd as <- <-.
    destruct (Hbuild _ _ (BuildDeployment_with_env libs options
      (firsts (effects P) ∅ (sp_Env (ws_Spec w))) w d0 E0)) as (P' & _ & E2).
    by rewrite E2, with_pod_twice, (assign_all_again ops P).
  - unfold BuildWorkspaceDeployment in Hd. rewrite E0 in Hd. injection Hd as <- <-.
    rewrite with_own_env. unfold BuildWorkspaceDeployment. by rewrite E0.
Qed.

(** [C22] The access strategy's variables: when the deployment of a workspace with an access
    strategy is built, its first container is the primary one and has every variable of
    the strategy, exactly once and with the last value the strategy gives it, whatever
    values the workspace and its integrations ask for; no variable name appears twice.
    Such a variable has no value source, with one exception: a workspace that itself
    declares a variable of that name by a source (valueFrom) may keep the source beside
    the strategy's value, a pair the API server refuses.  Assumed: the workspace names
    each of its variables once, and the strategy's templates do not read the
    workspace's variables. *)
Theorem access_env_wins (engine : TemplateEngine) (libs : ObjectLibs)
    (options : WorkspaceControllerOptions) (room : Workspace -> nat)
    (a : WorkspaceAccessStrategy) (templates : Templates) (w : Workspace) (d : Deployment)
    (env : list EnvVar) :
  env_blind libs a w -> NoDup (env_Name <$> sp_Env (ws_Spec w)) ->
  BuildWorkspaceDeployment engine libs options room (Some a) templates w = (Ok d, env) ->
  exists vars primary,
    resolveAccessStrategyPrimaryContainerEnv libs a w = Ok vars /\
    head (pod_Containers (pod_of d)) = Some primary /\ ctr_Name primary = PrimaryContainerName /\
    NoDup (env_Name <$> ctr_Env primary) /\
    forall name value, last_value (merge_ops false vars) name = Some value ->
      (exists e, e ∈ ctr_Env primary /\ env_Name e = name) /\
      (forall e, e ∈ ctr_Env primary -> env_Name e = name -> env_Value e = value /\
         (env_ValueFrom e = None \/
          exists own, own ∈ sp_Env (ws_Spec w) /\ env_Name own = name /\
            env_ValueFrom e = env_ValueFrom own)).
Proof.
  intros Hb Hnd Hd.
  destruct (BuildWorkspaceDeployment_spec engine libs options room (Some a) templates w Hb)
    as (r & ops & p' & (c & cs & Hc & Hn) & Hv & Hbuild).
  destruct (BuildDeployment libs options w) as [d0|e] eqn:E0;
    [|unfold BuildWorkspaceDeployment in Hd; by rewrite E0 in Hd].
  pose proof (Hbuild (sp_Env (ws_Spec w)) d0) as H1. rewrite with_own_env in H1.
  destruct (H1 E0) as (P & _ & E1). rewrite E1 in Hd. injection Hd as Hd _.
  apply result_bind_Ok in Hd as ([] & -> & [= <-]).
  destruct (Hv a eq_refl eq_refl) as (ops1 & vars & Hvars & ->).
  exists vars. eexists. split_and!; [done|cbn; by rewrite Hc|done|by apply assign_all_NoDup|].
  intros name value Hl. cbn [ctr_Env set_ctr_Env].
  assert (Hl' : last_value (ops1 ++ merge_ops false vars) name = Some value).
  { unfold last_value in *. by rewrite filter_app, fmap_app, last_app, Hl. }
  split.
  - destruct (assign_all_present (ops1 ++ merge_ops false vars) (sp_Env (ws_Spec w)) Hnd name value Hl')
      as (e & He & Hname & _). eauto.
  - intros e He <-. split; [by eapply assign_all_value|by eapply assign_all_source].
Qed.

(** ** Names *)

(** The names of the containers, init containers and volumes of a pod. *)
Definition pod_names (p : PodSpec) : list string * list string * list string :=
  (ctr_Name <$> pod_Containers p, ctr_Name <$> pod_InitContainers p, vol_Name <$> pod_Volumes p).
Definition distinct_names (x : list string * list string * list string) : Prop :=
  NoDup (x.1.1 ++ x.1.2) /\ NoDup x.2.
Definition add_names (vols : list Volume) (init cs : list Container)
    (x : list string * list string * list string) : list string * list string * list string :=
  (x.1.1 ++ (ctr_Name <$> cs), x.1.2 ++ (ctr_Name <$> init), x.2 ++ (vol_Name <$> vols)).

(** Steps that name nothing new. *)
Definition same_names (b b' : Building) : Prop := pod_names (bld_Pod b') = pod_names (bld_Pod b).
#[export] Instance same_names_preorder : PreOrder same_names.
Proof. split; [done|]. unfold same_names. intros b1 b2 b3. congruence. Qed.

Lemma fmap_name_insert (i : nat) (c c' : Container) (cs : list Container) : cs !! i = Some c -> ctr_Name c' = ctr_Name c ->
  ctr_Name <$> <[i := c']> cs = ctr_Name <$> cs.
Proof.
  intros Hc Hn. rewrite list_fmap_insert, Hn. apply list_insert_id. by rewrite list_lookup_fmap, Hc.
Qed.

Lemma on_env_names i f : respects same_names (on_env i f).
Proof.
  intros b. unfold on_env, st_modify, same_names. cbn.
  destruct (pod_Containers (bld_Pod b) !! i) as [c|] eqn:E; [|done].
  unfold pod_names. cbn. by rewrite (fmap_name_insert i c).
Qed.

Lemma merge_env_names set i env : respects same_names (merge_env_loop set i env).
Proof.
  induction env as [|[n v] env IH]; cbn; [apply respects_ret, _|].
  apply respects_bind; [apply _|apply on_env_names|done].
Qed.

Lemma add_mounts_names i mounts : respects same_names (add_mounts i mounts).
Proof.
  intros b. unfold same_names, pod_names. cbn. f_equal. f_equal.
  generalize (pod_Containers (bld_Pod b)). intros cs. revert i.
  induction cs as [|c cs IH]; intros [|i]; cbn; [done..|]. f_equal. apply IH.
Qed.

Lemma fresh_names_Ok fmt existing ns :
  fresh_names fmt existing ns = Ok tt <-> NoDup ns /\ (forall n, n ∈ ns -> n ∉ existing).
Proof.
  revert existing. induction ns as [|n ns IH]; intros existing; cbn.
  - split; [|done]. intros _. split; [constructor|]. by intros n ?%elem_of_nil.
  - rewrite NoDup_cons. case_bool_decide as Hn; [split; [done|]; set_solver|].
    rewrite IH. split.
    + intros [H1 H2]. split_and!; [|done|]; [|intros m [->|Hm]%elem_of_cons; [done|]];
        [intros Hin; apply H2 in Hin; set_solver|apply H2 in Hm; set_solver].
    + intros [[H1 H2] H3]. split; [done|]. intros m Hm.
      assert (m <> n) by (intros ->; done). assert (m ∉ existing) by (apply H3; by right). set_solver.
Qed.

(** Distinct names survive additions that pass the check. *)
Lemma name_clashes_distinct pm p :
  name_clashes pm p = Ok tt -> distinct_names (pod_names p) ->
  distinct_names (add_names (pm_Volumes pm) (pm_InitContainers pm) (pm_AdditionalContainers pm)
    (pod_names p)).
Proof.
  unfold name_clashes. intros ([] & Hc & Hv)%result_bind_Ok [H1 H2].
  apply fresh_names_Ok in Hc as [Hc1 Hc2]. apply fresh_names_Ok in Hv as [Hv1 Hv2].
  unfold distinct_names, add_names, pod_names in *. cbn in *. split.
  - rewrite fmap_app in Hc1, Hc2.
    rewrite (Permutation_app_comm _ (ctr_Name <$> pm_AdditionalContainers pm)), <- app_assoc.
    rewrite (app_assoc _ (ctr_Name <$> pod_InitContainers p)).
    rewrite (Permutation_app_comm _ (ctr_Name <$> pm_InitContainers pm)), app_assoc.
    apply NoDup_app. split_and!; [done| |done].
    intros n Hn Hx. apply (Hc2 n Hn). set_solver.
  - apply NoDup_app. split_and!; [done| |done]. intros n Hn Hx. apply (Hv2 n Hx). set_solver.
Qed.

Lemma applyPodModifications_names pm b b' :
  applyPodModifications pm b = (Ok tt, b') ->
  name_clashes pm (bld_Pod b) = Ok tt /\
  pod_names (bld_Pod b') = add_names (pm_Volumes pm) (pm_InitContainers pm)
    (pm_AdditionalContainers pm) (pod_names (bld_Pod b)).
Proof.
  unfold applyPodModifications. intros Hr. apply st_bind_Ok in Hr as ([] & b1 & H1 & Hr).
  injection H1 as H1 <-. split; [done|].
  apply st_bind_Ok in Hr as ([] & b2 & H2 & Hr). apply (f_equal snd) in H2. cbn in H2.
  assert (Hs : respects same_names
    (match pm_PrimaryContainerModifications pm with
     | None => st_ret tt
     | Some primary =>
         found <- of_pod (fun ps => Ok (findPrimaryContainer ps)) ;;
         match found with
         | None => st_ret tt
         | Some i => merge_env_loop setEnv i
             ((fun e => (aet_Name e, aet_ValueTemplate e)) <$> pcm_MergeEnv primary) ;;
             add_mounts i (pcm_VolumeMounts primary)
         end
     end)).
  { destruct (pm_PrimaryContainerModifications pm); [|apply respects_ret, _].
    apply respects_bind; [apply _|by intros ?|intros [i|]; [|apply respects_ret, _]].
    apply respects_bind; [apply _|apply merge_env_names|intros _; apply add_mounts_names]. }
  specialize (Hs b2). rewrite Hr in Hs. unfold same_names in Hs. cbn in Hs. rewrite Hs, <- H2.
  unfold pod_names, add_names. cbn. by rewrite !fmap_app.
Qed.

Lemma add_names_distinct vols init cs x : distinct_names (add_names vols init cs x) -> distinct_names x.
Proof.
  unfold distinct_names, add_names. cbn. intros [H1 H2]. split.
  - eapply sublist_NoDup; [exact H1|]. apply sublist_app; by apply sublist_inserts_r.
  - eapply sublist_NoDup; [exact H2|]. by apply sublist_inserts_r.
Qed.

(** The pod modifications of the attached integrations that have a frozen record, each
    rendered from its record. *)
Fixpoint integration_mods (engine : TemplateEngine) (w : Workspace) (templates : Templates)
    (refs : list IntegrationTemplateRef) : option (list PodModifications) :=
  match refs with
  | [] => Some []
  | ref :: rest =>
      match findResolvedIntegration (st_ResolvedIntegrations (ws_Status w)) (itr_Name ref) with
      | None => integration_mods engine w templates rest
      | Some frozen =>
          template ← templates !! itr_Name ref;
          match buildIntegrationPodModifications engine w ref frozen template with
          | Ok mods => (cons mods.1) <$> integration_mods engine w templates rest
          | Fail _ => None
          end
      end
  end.
Definition add_mods_names (x : list string * list string * list string) (pm : PodModifications)
    : list string * list string * list string :=
  add_names (pm_Volumes pm) (pm_InitContainers pm) (pm_AdditionalContainers pm) x.

Lemma applyIntegrations_names engine w templates refs b b' :
  applyIntegrationsToDeployment engine w templates refs b = (Ok tt, b') ->
  exists mods, integration_mods engine w templates refs = Some mods /\
    pod_names (bld_Pod b') = fold_left add_mods_names mods (pod_names (bld_Pod b)) /\
    (distinct_names (pod_names (bld_Pod b')) <-> distinct_names (pod_names (bld_Pod b))).
Proof.
  revert b. induction refs as [|ref refs IH]; intros b Hr; cbn [applyIntegrationsToDeployment] in Hr.
  - injection Hr as <-. by exists [].
  - apply st_bind_Ok in Hr as ([] & b1 & H1 & Hr). cbn [integration_mods].
    destruct (findResolvedIntegration _ _) as [frozen|]; [|injection H1 as <-; by apply IH].
    destruct (templates !! itr_Name ref) as [template|]; [|done]. cbn [mbind option_bind].
    apply st_bind_Ok in H1 as (mods & b2 & H2 & H1). apply (proj1 (st_wrap_Ok _ _ _ _ _ _)) in H2.
    apply st_lift_Ok in H2 as [Hm <-]. rewrite Hm.
    apply st_bind_Ok in H1 as ([] & b3 & H3 & H1). apply (proj1 (st_wrap_Ok _ _ _ _ _ _)) in H3.
    apply applyPodModifications_names in H3 as [Hc Hn].
    assert (Hb1 : pod_names (bld_Pod b1) = pod_names (bld_Pod b3)).
    { case_bool_decide; [apply (f_equal snd) in H1; cbn in H1; by subst b1|by injection H1 as <-]. }
    destruct (IH b1 Hr) as (rest & -> & Hnames & Hd). exists (mods.1 :: rest). split; [done|].
    rewrite Hnames, Hb1, Hn. split; [done|]. rewrite Hnames, Hb1, Hn in Hd. rewrite Hd.
    split; [apply add_names_distinct|by apply name_clashes_distinct].
Qed.

(** What the access strategy names. *)
Definition strategy_names (strategy : option WorkspaceAccessStrategy)
    (x : list string * list string * list string) : list string * list string * list string :=
  match ServiceBuilder.strategy_mods strategy with
  | Some mods => add_names (pm_Volumes mods) (pm_InitContainers mods) (pm_AdditionalContainers mods) x
  | None => x
  end.

Lemma applyDeploymentSpecModifications_names a b b' :
  applyDeploymentSpecModifications a b = (Ok tt, b') ->
  pod_names (bld_Pod b') = strategy_names (Some a) (pod_names (bld_Pod b)).
Proof.
  unfold applyDeploymentSpecModifications, strategy_names. intros Hr.
  destruct (ServiceBuilder.strategy_mods (Some a)) as [mods|]; [|by injection Hr as <-].
  apply st_bind_Ok in Hr as ([] & b1 & H1 & Hr). apply (f_equal snd) in H1. cbn in H1.
  apply st_bind_Ok in Hr as ([] & b2 & H2 & Hr). apply (f_equal snd) in Hr. cbn in Hr.
  assert (Hs : same_names b1 b2).
  { destruct (pm_PrimaryContainerModifications mods) as [primary|]; [|by injection H2 as <-].
    case_bool_decide; [by injection H2 as <-|].
    apply st_bind_Ok in H2 as ([] & b3 & H3 & H2). apply (f_equal snd) in H3. cbn in H3. subst b3.
    pose proof (add_mounts_names 0 (pcm_VolumeMounts primary) b1) as Hm. by rewrite H2 in Hm. }
  unfold same_names in Hs. subst b'. revert Hs. subst b1. unfold pod_names, add_names. cbn.
  rewrite !app_nil_r, !fmap_app. by intros [= -> -> ->].
Qed.

Lemma ApplyAccessStrategy_names libs w a b b' :
  ApplyAccessStrategyToDeployment libs w a b = (Ok tt, b') ->
  pod_names (bld_Pod b') = strategy_names (Some a) (pod_names (bld_Pod b)).
Proof.
  unfold ApplyAccessStrategyToDeployment, addAccessStrategyEnvToContainer. intros Hr.
  apply st_bind_Ok in Hr as ([] & b1 & H1 & Hr). apply (f_equal snd) in H1. cbn in H1. subst b1.
  apply st_bind_Ok in Hr as ([] & b2 & H2 & Hr).
  apply (proj1 (st_wrap_Ok _ _ _ _ _ _)) in H2, Hr.
  apply applyDeploymentSpecModifications_names in Hr. rewrite Hr. f_equal.
  apply st_bind_Ok in H2 as (b3 & b4 & H3 & H2). injection H3 as <- <-.
  apply st_bind_Ok in H2 as (vars & b5 & H4 & H2). apply st_lift_Ok in H4 as [_ <-].
  pose proof (merge_env_names setAccessEnv 0 vars b) as Hm. rewrite H2 in Hm. exact Hm.
Qed.

(** The names a workspace itself brings in: the primary container, its init containers,
    the storage volume if it has one, and its volumes other than that. *)
Definition own_names (w : Workspace) : list string * list string * list string :=
  ([PrimaryContainerName], ctr_Name <$> sp_InitContainers (ws_Spec w),
   match ResolveStorageConfig w with Some _ => [volumeNameWorkspaceStorage] | None => [] end ++
   (vs_Name <$> extra_volumes w)).

Lemma base_pod_names options w : pod_names (base_pod options w) = own_names w.
Proof.
  unfold pod_names, own_names, base_pod. cbn. f_equal. rewrite fmap_app. f_equal.
  - by destruct (ResolveStorageConfig w).
  - by rewrite <- list_fmap_compose.
Qed.

(** [C23] The pod is well formed.  In a deployment that is built, the pod has exactly the
    names of the workspace (the primary container, its init containers and volumes),
    then those of the containers and volumes of each attached integration with a frozen
    record, as rendered from that record, then those the access strategy adds.  The
    integrations bring in no clash: up to the strategy's, no two containers and no two
    volumes have one name exactly when the workspace's own do not; so a clash the API
    server would refuse comes from the workspace's own lists or from the strategy.  The
    deployment selects its own pods exactly when the labels of the workspace leave the
    generated ones alone. *)
Theorem deployment_well_formed (engine : TemplateEngine) (libs : ObjectLibs)
    (options : WorkspaceControllerOptions) (room : Workspace -> nat)
    (strategy : option WorkspaceAccessStrategy) (templates : Templates) (w : Workspace)
    (d : Deployment) (env : list EnvVar) :
  BuildWorkspaceDeployment engine libs options room strategy templates w = (Ok d, env) ->
  (exists mods, integration_mods engine w templates (sp_IntegrationTemplateRefs (ws_Spec w)) = Some mods /\
     let x := fold_left add_mods_names mods (own_names w) in
     pod_names (pod_of d) = strategy_names strategy x /\
     (distinct_names x <-> distinct_names (own_names w))) /\
  (ds_Selector (dep_Spec d) ⊆ pts_Labels (ds_Template (dep_Spec d)) <->
   forall key v, GenerateLabels (ws_Name w) !! key = Some v ->
     default v (om_Labels (ws_ObjectMeta w) !! key) = v).
Proof.
  intros Hd. unfold BuildWorkspaceDeployment in Hd.
  destruct (BuildDeployment libs options w) as [d0|e] eqn:E0; [|done].
  apply result_bind_Ok in E0 as (m & _ & [= <-]).
  destruct (overlays _ _ _ _ _ _) as [r b] eqn:Ho. injection Hd as Hd _.
  apply result_bind_Ok in Hd as ([] & -> & [= <-]). cbn. split.
  - unfold overlays in Ho. apply st_bind_Ok in Ho as ([] & b1 & H1 & Ho).
    apply applyIntegrations_names in H1 as (mods & Hm & Hn & Hdist). cbn [bld_Pod] in Hn, Hdist.
    change (pod_names (pod_of _)) with (pod_names (base_pod options w)) in Hn, Hdist. rewrite base_pod_names in Hn, Hdist.
    exists mods. split; [done|]. rewrite <- Hn. split; [|done].
    destruct strategy as [a|]; [|by injection Ho as <-].
    apply (proj1 (st_wrap_Ok _ _ _ _ _ _)) in Ho. by eapply ApplyAccessStrategy_names.
  - rewrite map_subseteq_spec. unfold buildPodLabels. split; intros Hs key v Hv.
    + specialize (Hs key v Hv). apply lookup_union_Some_raw in Hs as [->|[-> _]]; done.
    + specialize (Hs key v Hv). apply lookup_union_Some_raw.
      destruct (om_Labels (ws_ObjectMeta w) !! key) eqn:E; cbn in Hs; [subst; by left|by right].
Qed.

(** ** Concrete builders *)

(** Templates that print themselves, a decoder that yields one object, and an
    owner reference. *)
Definition demo_libs : ObjectLibs := {|
  env_template := fun t => Ok (fun _ _ => Ok t);
  access_template := fun _ t => Ok (fun _ _ _ => Ok t);
  yaml_Unmarshal := fun _ => Ok (mkUnstructured "" "" (zero_meta "" "") (Some "spec") None);
  set_controller := fun w m => Ok (set_om_OwnerReferences
    [mkOwnerReference "workspace.jupyter.org/v1alpha1" "Workspace" (ws_Name w)
       (om_UID (ws_ObjectMeta w)) (Some true) (Some true)] m);
|}.
#[export] Instance demo_owner_laws : OwnerLaws demo_libs.
Proof.
  split.
  - intros w w' m E. cbn. unfold ws_Name. by rewrite E.
  - intros w m m' [= <-]. by eexists.
Qed.
Definition demo_options : WorkspaceControllerOptions :=
  mkWorkspaceControllerOptions "IfNotPresent" "reg.io" false [] false "" ∅ 0 0.

(** A strategy that sets a variable and exposes a sidecar. *)
Definition demo_sidecar : Container :=
  mkContainer "proxy" "proxy:1" [] [] "" [] [mkContainerPort "metrics" 9090 "" None] []
    (mkResourceRequirements ∅ None []) "" None None None None.
Definition demo_mods : PodModifications :=
  mkPodModifications [demo_sidecar] ["metrics"] [] []
    (Some (mkPrimaryContainerModifications [] [mkAccessEnvTemplate "BASE_URL" "/ws"])).
Definition demo_sidecar_strategy : WorkspaceAccessStrategy :=
  mkWorkspaceAccessStrategy (zero_meta "as" "ns")
    (mkWorkspaceAccessStrategySpec "as" [] "" "" "" "" "" ∅ "" ∅ ∅
       (Some (mkDeploymentModifications (Some demo_mods))) None)
    (mkWorkspaceAccessStrategyStatus []).
Definition demo_env_ws : Workspace :=
  with_env [mkEnvVar "HOME" "/home" None; mkEnvVar "BASE_URL" "/" None] demo_ws.

Lemma demo_blind a w : env_blind demo_libs a w.
Proof.
  intros env. unfold resolveAccessStrategyPrimaryContainerEnv.
  induction (getPrimaryContainerMergeEnv a) as [|e es IH]; [done|]. cbn. by rewrite IH.
Qed.

Definition demo_built : result Deployment * list EnvVar :=
  BuildWorkspaceDeployment demo_engine demo_libs demo_options (fun _ => 0%nat)
    (Some demo_sidecar_strategy) ∅ demo_env_ws.

Lemma access_env_wins_witness :
  exists d primary, demo_built.1 = Ok d /\ head (pod_Containers (pod_of d)) = Some primary /\
    NoDup (env_Name <$> ctr_Env primary) /\
    (forall e, e ∈ ctr_Env primary -> env_Name e = "BASE_URL" -> env_Value e = "/ws").
Proof.
  destruct demo_built as [[d|e] env] eqn:E; [|exfalso; vm_compute in E; discriminate E].
  destruct (access_env_wins demo_engine demo_libs demo_options (fun _ => 0%nat)
    demo_sidecar_strategy ∅ demo_env_ws d env (demo_blind _ _)) as (vars & primary & Hv & Hh & _ & Hn & Hl).
  - apply (bool_decide_unpack _). vm_compute. exact I.
  - exact E.
  - exists d, primary. vm_compute in Hv. injection Hv as <-. split_and!; [done..|].
    intros e He Hname. exact (proj1 (proj2 (Hl "BASE_URL" "/ws" eq_refl) e He Hname)).
Defined.

Lemma deployment_well_formed_witness :
  exists d mods, demo_built.1 = Ok d /\
    pod_names (pod_of d) = strategy_names (Some demo_sidecar_strategy)
      (fold_left add_mods_names mods (own_names demo_env_ws)).
Proof.
  destruct demo_built as [[d|e] env] eqn:E; [|exfalso; vm_compute in E; discriminate E].
  destruct (deployment_well_formed demo_engine demo_libs demo_options (fun _ => 0%nat)
    (Some demo_sidecar_strategy) ∅ demo_env_ws d env E) as [(mods & _ & Hn & _) _].
  by exists d, mods.
Defined.

(** ** Limits *)

(** The build changes the workspace it is given: its own variable now has the
    strategy's value. *)
Lemma build_overwrites_workspace :
  sp_Env (ws_Spec demo_env_ws) = [mkEnvVar "HOME" "/home" None; mkEnvVar "BASE_URL" "/" None] /\
  demo_built.2 = [mkEnvVar "HOME" "/home" None; mkEnvVar "BASE_URL" "/ws" None].
Proof. split; vm_compute; reflexivity. Qed.

(** A variable listed twice keeps its second value, which the container sees. *)
Lemma duplicate_env_survives :
  let w := with_env [mkEnvVar "BASE_URL" "/" None; mkEnvVar "BASE_URL" "/mine" None] demo_ws in
  (d ← (BuildWorkspaceDeployment demo_engine demo_libs demo_options (fun _ => 0%nat)
          (Some demo_sidecar_strategy) ∅ w).1;
   Ok (ctr_Env <$> head (pod_Containers (pod_of d)))) =
  Ok (Some [mkEnvVar "BASE_URL" "/ws" None; mkEnvVar "BASE_URL" "/mine" None]).
Proof. vm_compute. reflexivity. Qed.

(** A variable with a source keeps it next to the strategy's value, which the API
    server refuses. *)
Lemma access_env_keeps_source :
  let w := with_env [mkEnvVar "BASE_URL" "" (Some "secretKeyRef")] demo_ws in
  (d ← (BuildWorkspaceDeployment demo_engine demo_libs demo_options (fun _ => 0%nat)
          (Some demo_sidecar_strategy) ∅ w).1;
   Ok (ctr_Env <$> head (pod_Containers (pod_of d)))) =
  Ok (Some [mkEnvVar "BASE_URL" "/ws" (Some "secretKeyRef")]).
Proof. vm_compute. reflexivity. Qed.

(** The overlays never set a field outside those of the model. *)
Definition same_rest (b b' : Building) : Prop := pod_Rest (bld_Pod b') = pod_Rest (bld_Pod b).
#[export] Instance same_rest_preorder : PreOrder same_rest.
Proof. split; [done|]. unfold same_rest. intros b1 b2 b3. congruence. Qed.

Lemma on_env_rest i f : respects same_rest (on_env i f).
Proof. intros b. unfold on_env, st_modify, same_rest. cbn. by case_match. Qed.
Lemma merge_env_rest set i env : respects same_rest (merge_env_loop set i env).
Proof.
  induction env as [|[n v] env IH]; cbn; [apply respects_ret, _|].
  apply respects_bind; [apply _|apply on_env_rest|done].
Qed.
Lemma of_pod_rest {A} (f : PodSpec -> result A) : respects same_rest (of_pod f).
Proof. by intros b. Qed.
Lemma add_to_pod_rest vols init cs : respects same_rest (on_pod (add_to_pod vols init cs)).
Proof. by intros b. Qed.
Lemma share_rest v : respects same_rest (on_pod (set_pod_Share v)).
Proof. by intros b. Qed.
Lemma add_mounts_rest i mounts : respects same_rest (add_mounts i mounts).
Proof. by intros b. Qed.
Lemma get_rest : respects same_rest (@st_get Building).
Proof. by intros b. Qed.
#[local] Hint Resolve merge_env_rest of_pod_rest add_to_pod_rest share_rest add_mounts_rest get_rest
  : gok8s.

Lemma overlays_rest engine libs strategy templates w :
  respects same_rest (overlays engine libs strategy templates w).
Proof.
  assert (Hi : forall refs, respects same_rest (applyIntegrationsToDeployment engine w templates refs)).
  { induction refs; cbn; [apply respects_ret, _|]. unfold applyPodModifications. solve_respects. }
  unfold overlays, ApplyAccessStrategyToDeployment, addAccessStrategyEnvToContainer,
    applyDeploymentSpecModifications. solve_respects.
Qed.

(** A field the API server fills in makes every comparison fail. *)
Lemma defaulted_pod_differs engine libs options room strategy templates w d env existing :
  BuildWorkspaceDeployment engine libs options room strategy templates w = (Ok d, env) ->
  pod_Rest (pod_of existing) <> None ->
  (NeedsUpdate engine libs options room existing strategy templates w).1 = Ok true.
Proof.
  intros Hd He. unfold NeedsUpdate. rewrite Hd. cbn. f_equal.
  assert (Hr : pod_Rest (pod_of d) = None).
  { unfold BuildWorkspaceDeployment in Hd. destruct (BuildDeployment _ _ w) as [d0|] eqn:E0; [|done].
    apply result_bind_Ok in E0 as (m & _ & [= <-]).
    pose proof (overlays_rest engine libs strategy templates w) as Ho.
    match type of Hd with (let (_, _) := _ ?b0 in _) = _ => specialize (Ho b0) end.
    destruct (overlays _ _ _ _ _ _) as [[[]|e] b]; [|done]. injection Hd as <- _. exact Ho. }
  unfold deployment_differs. rewrite bool_decide_false; [done|].
  intros E%(f_equal pod_Rest). cbn in E. unfold pod_of in *. congruence.
Qed.

(** A workspace labelled [app] gets pods its deployment does not select. *)
Lemma app_label_breaks_selector :
  let w := set_ws_ObjectMeta (set_om_Labels {[ "app" := "mine" ]} (ws_ObjectMeta demo_ws)) demo_ws in
  (d ← BuildDeployment demo_libs demo_options w;
   Ok (bool_decide (ds_Selector (dep_Spec d) ⊆ pts_Labels (ds_Template (dep_Spec d))))) = Ok false.
Proof. vm_compute. reflexivity. Qed.
