(* ===== verification/ControllerBuilders.v ===== *)
(** * ControllerBuilders: the resource manager with its builders

    The builders of DeploymentBuilder and ObjectBuilders put into the interface
    the resource manager calls (resource_manager.go, NewResourceManager), and what
    the two make together: the resources of an unchanged workspace settle. *)

From S2P Require Import Prelude Api JwtSigner K8s WorkspaceQueries Status Resources Integrations.
From S2P Require Import IntegrationResolver ObjectBuilders EnvOverlay DeploymentBuilder.

Section wiring.
Context (engine : TemplateEngine) (libs : ObjectLibs) (options : WorkspaceControllerOptions)
  (room : Workspace -> nat).

Definition controller_builders : Builders := {|
  Resources.BuildWorkspaceDeployment :=
    DeploymentBuilder.BuildWorkspaceDeployment engine libs options room;
  Deployment_NeedsUpdate := DeploymentBuilder.NeedsUpdate engine libs options room;
  BuildService := ServiceBuilder.BuildService libs;
  Service_NeedsUpdate := ServiceBuilder.NeedsUpdate libs;
  UpdateServiceSpec := ServiceBuilder.UpdateServiceSpec libs;
  BuildPVC := PVCBuilder.BuildPVC libs;
  PVC_NeedsUpdate := PVCBuilder.NeedsUpdate libs;
  UpdatePVCSpec := PVCBuilder.UpdatePVCSpec libs;
  BuildUnstructuredResource := AccessResourcesBuilder.BuildUnstructuredResource libs;
  ResolveAccessURL := AccessResourcesBuilder.ResolveAccessURL libs;
  ResolveAccessResourceSelector := AccessResourcesBuilder.ResolveAccessResourceSelector;
  ResolveApplicationBasePath := AccessResourcesBuilder.ResolveApplicationBasePath libs;
  SetControllerReference := fun w o =>
    m ← set_controller libs w (un_ObjectMeta o); Ok (set_un_ObjectMeta m o);
|}.
End wiring.

(** ** Objects at rest *)

(** What settling relies on of the API server: a read changes nothing, and what a write
    answers is what is read back.  The answer may differ from what was sent: the API
    server fills in defaults. *)
Class Stores {W A} (crud : Crud W A) (meta : A -> ObjectMeta) : Prop := {
  get_reads : forall n ns c, (crud_Get crud n ns c).2 = c;
  create_stores : forall a c a' c', crud_Create crud a c = (Ok a', c') ->
    crud_Get crud (om_Name (meta a)) (om_Namespace (meta a)) c' = (Ok a', c');
  update_stores : forall n ns a0 a c a' c', crud_Get crud n ns c = (Ok a0, c) ->
    crud_Update crud a c = (Ok a', c') -> meta a = meta a0 ->
    crud_Get crud n ns c' = (Ok a', c');
}.

(** [a] is what the API server answered to a write of an object that agrees with
    [desired] in the part compared. *)
Definition written_as {W A B} (crud : Crud W A) (view : A -> B) (a desired : A) : Prop :=
  exists sent c c', (crud_Create crud sent c = (Ok a, c') \/ crud_Update crud sent c = (Ok a, c')) /\
    view sent = view desired.

(** [a] is as built, or as the API server made it of what was built. *)
Definition as_written {W A B} (crud : Crud W A) (view : A -> B) (a desired : A) : Prop :=
  view a = view desired \/ written_as crud view a desired.

(** The API server changed the part compared. *)
Definition changed_by_server {W A B} (crud : Crud W A) (view : A -> B) (a desired : A) : Prop :=
  view a <> view desired /\ written_as crud view a desired.

Lemma as_written_cases {W A B} (crud : Crud W A) (view : A -> B) `{!EqDecision B} a desired :
  as_written crud view a desired -> view a = view desired \/ changed_by_server crud view a desired.
Proof. intros [H|H]; [by left|]. destruct (decide (view a = view desired)); [by left|by right]. Qed.

(** The parts compared: the pod template up to semantic equality; type, selector
    and ports; access modes and size. *)
Definition template_view (d : Deployment) : PodSpec * gmap string string * gmap string string :=
  let t := ds_Template (dep_Spec d) in (sem_pod (pts_Spec t), pts_Labels t, pts_Annotations t).
Definition service_view (s : Service) : string * gmap string string * list ServicePort :=
  (ssp_Type (svc_Spec s), ssp_Selector (svc_Spec s), ssp_Ports (svc_Spec s)).
Definition pvc_view (p : PersistentVolumeClaim) : list string * Z :=
  (pvs_AccessModes (pvc_Spec p), q_value (PVCBuilder.storage_of p)).

Lemma deployment_differs_view existing desired :
  deployment_differs existing desired = negb (bool_decide (template_view existing = template_view desired)).
Proof.
  unfold deployment_differs, template_view. cbv zeta. 
  repeat case_bool_decide; cbn; try done; congruence.
Qed.

Lemma mem_crud_stores {W A} (get : W -> gmap string A) (set : gmap string A -> W -> W)
    (meta : A -> ObjectMeta) mark slow :
  (forall x w, get (set x w) = x) -> Stores (mem_crud get set meta mark slow) meta.
Proof.
  intros Hgs. split; cbn.
  - intros n ns c. destruct (get c !! _); [case_bool_decide|]; done.
  - intros a c a' c'. case_match; [done|]. intros [= <- <-].
    rewrite Hgs, lookup_insert_eq. by rewrite bool_decide_true.
  - intros n ns a0 a c a' c' Hg Hu Hm.
    destruct (get c !! obj_key ns n) as [x|] eqn:E; [|done]. case_bool_decide as Hk; [|done].
    injection Hg as ->. rewrite Hm, Hk, E in Hu. injection Hu as <- <-.
    rewrite Hgs, lookup_insert_eq. by rewrite bool_decide_true by (by rewrite Hm).
Qed.

#[export] Instance mem_deployments slow :
  Stores (c_Deployment (mem_k8s slow)) dep_ObjectMeta.
Proof. by apply mem_crud_stores. Qed.
#[export] Instance mem_services slow : Stores (c_Service (mem_k8s slow)) svc_ObjectMeta.
Proof. by apply mem_crud_stores. Qed.
#[export] Instance mem_claims slow : Stores (c_PVC (mem_k8s slow)) pvc_ObjectMeta.
Proof. by apply mem_crud_stores. Qed.

(** A read in a reconcile. *)
Lemma on_get_run {W A} (crud : Crud W A) meta (S : Stores crud meta) n ns
    (s : Env W) :
  on_cluster (crud_Get crud n ns) s = ((crud_Get crud n ns (env_cluster s)).1, s).
Proof.
  unfold on_cluster. pose proof (get_reads n ns (env_cluster s)) as Hr.
  destruct (crud_Get crud n ns (env_cluster s)) as [r c]. cbn in *. subst. by destruct s.
Qed.

Section settle.
Context {W : Type} (client : Client W) (engine : TemplateEngine) (libs : ObjectLibs)
  (options : WorkspaceControllerOptions) (room : Workspace -> nat) {OL : OwnerLaws libs}.
Context {SD : Stores (c_Deployment client) dep_ObjectMeta}
  {SS : Stores (c_Service client) svc_ObjectMeta}
  {SP : Stores (c_PVC client) pvc_ObjectMeta}.
Notation B := (controller_builders engine libs options room).
Notation build := (DeploymentBuilder.BuildWorkspaceDeployment engine libs options room).

(** A strategy the spec names has been fetched. *)
Definition strategy_given (strategy : option WorkspaceAccessStrategy) (w : Workspace) : Prop :=
  strategy = None -> sp_AccessStrategy (ws_Spec w) = None.

Lemma provided_strategy_given fmt strategy (s : Env W) :
  strategy_given strategy (env_ws s) -> provided_strategy client fmt strategy s = (Ok strategy, s).
Proof.
  intros Hs. unfold provided_strategy. rewrite get_ws_run.
  destruct strategy; [done|]. by rewrite Hs.
Qed.

(** The state with another workspace environment; the cluster is as it was. *)
Definition env_with (env : list EnvVar) (s : Env W) : Env W :=
  mkEnv (env_cluster s) (with_env env (env_ws s)) (env_clock s) (env_events s).

Lemma on_workspace_run {A} (f : Workspace -> result A * list EnvVar) (s : Env W) :
  on_workspace f s = ((f (env_ws s)).1, env_with (f (env_ws s)).2 s).
Proof. unfold on_workspace. by destruct (f (env_ws s)). Qed.

(** The deployment a workspace's reconcile reads. *)
Definition stored_deployment (s : Env W) : result Deployment :=
  (crud_Get (c_Deployment client) (GenerateDeploymentName (ws_Name (env_ws s)))
     (ws_Namespace (env_ws s)) (env_cluster s)).1.

Lemma getDeployment_run (s : Env W) : getDeployment client s = (stored_deployment s, s).
Proof. unfold getDeployment, stored_deployment. rewrite get_ws_run. apply (on_get_run _ _ SD). Qed.

(** The deployment is there, as built or as the API server made it of what was built. *)
Definition at_rest (strategy : option WorkspaceAccessStrategy) (templates : Templates)
    (d : Deployment) (s : Env W) : Prop :=
  stored_deployment s = Ok d /\
  (IsWorkspaceAvailable (env_ws s) = true ->
   match (build strategy templates (env_ws s)).1 with
   | Ok desired => as_written (c_Deployment client) template_view d desired
   | Fail err => ErrorIs err "errIntegrationReplayFailed" = true
   end).

Lemma at_rest_noop strategy templates d s :
  strategy_given strategy (env_ws s) -> at_rest strategy templates d s ->
  (exists s2, EnsureDeploymentExists client B strategy templates s = (Ok d, s2) /\
     env_cluster s2 = env_cluster s) \/
  exists desired, (build strategy templates (env_ws s)).1 = Ok desired /\
    changed_by_server (c_Deployment client) template_view d desired.
Proof.
  intros Hg [Hd Hb]. unfold EnsureDeploymentExists, st_bind at 1, st_try at 1.
  rewrite getDeployment_run, Hd. unfold ensureDeploymentUpToDate. rewrite get_ws_run.
  destruct (IsWorkspaceAvailable (env_ws s)); cbn [negb]; [|left; by exists s].
  unfold st_bind at 1. rewrite provided_strategy_given by done.
  unfold st_bind, st_try. rewrite on_workspace_run.
  cbn [Deployment_NeedsUpdate controller_builders]. unfold DeploymentBuilder.NeedsUpdate.
  specialize (Hb eq_refl). destruct (build strategy templates (env_ws s)) as [[desired|err] env];
    cbn in Hb |- *.
  - destruct (as_written_cases _ _ _ _ Hb) as [Hv|Hv]; [left|right; by exists desired].
    rewrite deployment_differs_view, bool_decide_true by done. cbn. by eexists.
  - left. rewrite Hb. by eexists.
Qed.

Lemma build_named strategy templates w desired env :
  build strategy templates w = (Ok desired, env) ->
  om_Name (dep_ObjectMeta desired) = GenerateDeploymentName (ws_Name w) /\
  om_Namespace (dep_ObjectMeta desired) = ws_Namespace w.
Proof.
  unfold DeploymentBuilder.BuildWorkspaceDeployment, BuildDeployment.
  destruct (set_controller libs w (buildObjectMeta w)) as [m|e] eqn:E; [|done]. cbn.
  destruct (overlays _ _ _ _ _ _) as [[[]|e] b]; [|done]. cbn. intros [= <- _]. cbn.
  by apply owner_keeps in E as [refs ->].
Qed.

(** An update leaves the desired deployment at rest. *)
Lemma updateDeployment_rest strategy templates d0 d s s1 :
  strategy_blind libs strategy (env_ws s) -> strategy_given strategy (env_ws s) ->
  stored_deployment s = Ok d0 ->
  updateDeployment client B d0 strategy templates s = (Ok d, s1) ->
  at_rest strategy templates d s1 /\ exists env, env_ws s1 = with_env env (env_ws s).
Proof.
  intros Hb Hg Hd Hr. unfold updateDeployment in Hr.
  unfold st_bind at 1 in Hr. rewrite provided_strategy_given in Hr by done.
  apply st_bind_Ok in Hr as (updated & s2 & H1 & Hr). apply (proj1 (st_wrap_Ok _ _ _ _ _ _)) in H1.
  rewrite on_workspace_run in H1. injection H1 as E <-.
  apply (proj1 (st_wrap_Ok _ _ _ _ _ _)) in Hr. unfold on_cluster in Hr. cbn in Hr, E.
  destruct (crud_Update _ _ _) as [r c] eqn:Hu. injection Hr as -> <-.
  destruct (build strategy templates (env_ws s)) as [rb env] eqn:Eb. cbn in E. subst rb.
  assert (Hget : crud_Get (c_Deployment client) (GenerateDeploymentName (ws_Name (env_ws s)))
    (ws_Namespace (env_ws s)) (env_cluster s) = (Ok d0, env_cluster s)).
  { pose proof (get_reads (Stores := SD) (GenerateDeploymentName (ws_Name (env_ws s)))
      (ws_Namespace (env_ws s)) (env_cluster s)) as Hc. unfold stored_deployment in Hd.
    destruct (crud_Get _ _ _ _). cbn in *. by subst. }
  pose proof (update_stores (Stores := SD) _ _ d0 _ _ _ _ Hget Hu eq_refl) as Hget'.
  split; [|by exists env]. split.
  - exact (f_equal fst Hget').
  - intros _. cbn. rewrite (rebuild_same engine libs options room strategy templates (env_ws s)
      (Ok updated) env Hb Eb). right. eexists _, _, _. split; [right; exact Hu|done].
Qed.

Lemma createDeployment_rest strategy templates d s s1 :
  strategy_blind libs strategy (env_ws s) ->
  createDeployment client B strategy templates s = (Ok d, s1) ->
  at_rest strategy templates d s1 /\ exists env, env_ws s1 = with_env env (env_ws s).
Proof.
  intros Hb Hr. unfold createDeployment in Hr.
  apply st_bind_Ok in Hr as (desired & s2 & H1 & Hr). apply (proj1 (st_wrap_Ok _ _ _ _ _ _)) in H1.
  rewrite on_workspace_run in H1. injection H1 as E <-.
  apply (proj1 (st_wrap_Ok _ _ _ _ _ _)) in Hr. unfold on_cluster in Hr. cbn in Hr, E.
  destruct (crud_Create _ _ _) as [r c] eqn:Hc. injection Hr as -> <-.
  destruct (build strategy templates (env_ws s)) as [rb env] eqn:Eb. cbn in E. subst rb.
  destruct (build_named _ _ _ _ _ Eb) as [Hn1 Hn2].
  pose proof (create_stores (Stores := SD) _ _ _ _ Hc) as Hget. rewrite Hn1, Hn2 in Hget.
  split; [|by exists env]. split.
  - exact (f_equal fst Hget).
  - intros _. cbn. rewrite (rebuild_same engine libs options room strategy templates (env_ws s)
      (Ok desired) env Hb Eb). right. eexists _, _, _. split; [left; exact Hc|done].
Qed.

(** However it ends, ensuring the deployment leaves it at rest. *)
Lemma EnsureDeploymentExists_rest strategy templates d s s1 :
  strategy_blind libs strategy (env_ws s) -> strategy_given strategy (env_ws s) ->
  EnsureDeploymentExists client B strategy templates s = (Ok d, s1) ->
  at_rest strategy templates d s1 /\ exists env, env_ws s1 = with_env env (env_ws s).
Proof.
  intros Hb Hg Hr. unfold EnsureDeploymentExists, st_bind at 1, st_try at 1 in Hr.
  rewrite getDeployment_run in Hr. destruct (stored_deployment s) as [d0|e] eqn:Hd;
    [|destruct (IsNotFound e); [by apply createDeployment_rest in Hr|done]].
  unfold ensureDeploymentUpToDate in Hr. rewrite get_ws_run in Hr.
  destruct (IsWorkspaceAvailable (env_ws s)) eqn:Ha; cbn [negb] in Hr.
  2: { injection Hr as <- <-. split; [split; [done|congruence]|].
       exists (sp_Env (ws_Spec (env_ws s))). by rewrite with_own_env. }
  unfold st_bind at 1 in Hr. rewrite provided_strategy_given in Hr by done.
  unfold st_bind, st_try in Hr. rewrite on_workspace_run in Hr.
  cbn [Deployment_NeedsUpdate controller_builders] in Hr. unfold DeploymentBuilder.NeedsUpdate in Hr.
  destruct (build strategy templates (env_ws s)) as [rb env] eqn:Eb. cbn in Hr.
  pose proof (rebuild_same engine libs options room strategy templates (env_ws s) rb env Hb Eb) as Hsame.
  destruct rb as [desired|err]; cbn in Hr.
  - rewrite deployment_differs_view in Hr. case_bool_decide as Hv; cbn in Hr.
    + injection Hr as <- <-. split; [split; [done|]|by exists env]. intros _. cbn. rewrite Hsame. by left.
    + destruct (updateDeployment_rest strategy templates d0 d (env_with env s) s1
        (strategy_blind_with_env libs strategy env (env_ws s) Hb) Hg Hd Hr) as [Hrest [env' Hw]].
      split; [done|]. exists env'. by rewrite Hw.
  - destruct (ErrorIs err _) eqn:He; [|done]. injection Hr as <- <-.
    split; [split; [done|]|by exists env]. intros _. cbn. by rewrite Hsame.
Qed.

(** ** Service and claim *)

Lemma serviceSpecMatches_view e d :
  ServiceBuilder.serviceSpecMatches (svc_Spec e) (svc_Spec d) =
  bool_decide (service_view e = service_view d).
Proof.
  unfold ServiceBuilder.serviceSpecMatches, service_view.
  repeat case_bool_decide; cbn; try done; congruence.
Qed.

Lemma service_get_create strategy w svc :
  ServiceBuilder.BuildService libs w strategy = Ok svc ->
  om_Name (svc_ObjectMeta svc) = GenerateServiceName (ws_Name w) /\
  om_Namespace (svc_ObjectMeta svc) = ws_Namespace w.
Proof.
  unfold ServiceBuilder.BuildService. intros (spec & _ & (m & Hm & [= <-])%result_bind_Ok)%result_bind_Ok.
  apply wrap_err_Ok in Hm. by apply owner_keeps in Hm as [refs ->].
Qed.

(** The service is there, as built or as the API server made it of what was built. *)
Definition service_at_rest (strategy : option WorkspaceAccessStrategy) (svc : Service) (s : Env W)
    : Prop :=
  (crud_Get (c_Service client) (GenerateServiceName (ws_Name (env_ws s))) (ws_Namespace (env_ws s))
     (env_cluster s)).1 = Ok svc /\
  (IsWorkspaceAvailable (env_ws s) = true -> exists desired,
     ServiceBuilder.BuildService libs (env_ws s) strategy = Ok desired /\
     as_written (c_Service client) service_view svc desired).

Lemma service_at_rest_noop strategy svc s :
  strategy_given strategy (env_ws s) -> service_at_rest strategy svc s ->
  EnsureServiceExists client B strategy s = (Ok svc, s) \/
  exists desired, ServiceBuilder.BuildService libs (env_ws s) strategy = Ok desired /\
    changed_by_server (c_Service client) service_view svc desired.
Proof.
  intros Hg [Hs Hb]. unfold EnsureServiceExists, st_bind at 1, st_try, getService.
  rewrite get_ws_run, (on_get_run _ _ SS), Hs. unfold ensureServiceUpToDate. rewrite get_ws_run.
  destruct (IsWorkspaceAvailable (env_ws s)); cbn [negb]; [|by left].
  destruct (Hb eq_refl) as (desired & Ed & Ha). destruct (as_written_cases _ _ _ _ Ha) as [Ev|Ev];
    [left|right; by exists desired].
  unfold st_bind. rewrite provided_strategy_given by done. unfold st_lift. cbn.
  unfold ServiceBuilder.NeedsUpdate. rewrite Ed. cbn.
  by rewrite serviceSpecMatches_view, bool_decide_true.
Qed.

Lemma EnsureServiceExists_rest strategy svc s s1 :
  strategy_given strategy (env_ws s) ->
  EnsureServiceExists client B strategy s = (Ok svc, s1) ->
  service_at_rest strategy svc s1 /\ env_ws s1 = env_ws s.
Proof.
  intros Hg Hr. unfold EnsureServiceExists, st_bind at 1, st_try, getService in Hr.
  rewrite get_ws_run, (on_get_run _ _ SS) in Hr.
  destruct (crud_Get (c_Service client) _ _ _) as [r c0] eqn:Hget. cbn in Hr.
  assert (c0 = env_cluster s) as -> by (pose proof (get_reads (Stores := SS)
    (GenerateServiceName (ws_Name (env_ws s))) (ws_Namespace (env_ws s)) (env_cluster s)) as Hc;
    by rewrite Hget in Hc).
  destruct r as [svc0|e]; [|destruct (IsNotFound e); [|done]].
  - unfold ensureServiceUpToDate in Hr. rewrite get_ws_run in Hr.
    destruct (IsWorkspaceAvailable (env_ws s)) eqn:Ha; cbn [negb] in Hr.
    2: { injection Hr as <- <-. split; [split; [by rewrite Hget|congruence]|done]. }
    unfold st_bind at 1 in Hr. rewrite provided_strategy_given in Hr by done.
    apply st_bind_Ok in Hr as (needs & s2 & [Hn <-]%st_lift_Ok & Hr). apply wrap_err_Ok in Hn.
    cbn in Hn. unfold ServiceBuilder.NeedsUpdate in Hn.
    apply result_bind_Ok in Hn as (desired & Hd & [= <-]). apply wrap_err_Ok in Hd.
    rewrite serviceSpecMatches_view in Hr. case_bool_decide as Hv; cbn [negb] in Hr.
    + injection Hr as <- <-. split; [|done]. split; [by rewrite Hget|]. exists desired. split; [done|by left].
    + unfold updateService in Hr. rewrite get_ws_run in Hr.
      apply st_bind_Ok in Hr as (upd & s2 & [Hu <-]%st_lift_Ok & Hr). apply wrap_err_Ok in Hu.
      cbn in Hu. unfold ServiceBuilder.UpdateServiceSpec in Hu. rewrite Hd in Hu. cbn in Hu.
      injection Hu as <-. apply (proj1 (st_wrap_Ok _ _ _ _ _ _)) in Hr. unfold on_cluster in Hr.
      destruct (crud_Update _ _ _) as [r c] eqn:Hup. injection Hr as -> <-.
      pose proof (update_stores (Stores := SS) _ _ svc0 _ _ _ _ Hget Hup eq_refl) as Hget'.
      split; [|done]. split; [exact (f_equal fst Hget')|]. intros _. exists desired. split; [done|right].
      eexists _, _, _. split; [right; exact Hup|done].
  - unfold createService in Hr. rewrite get_ws_run in Hr.
    apply st_bind_Ok in Hr as (desired & s2 & [Hd <-]%st_lift_Ok & Hr). apply wrap_err_Ok in Hd.
    apply (proj1 (st_wrap_Ok _ _ _ _ _ _)) in Hr. unfold on_cluster in Hr.
    destruct (crud_Create _ _ _) as [r c] eqn:Hc. injection Hr as -> <-.
    pose proof (create_stores (Stores := SS) _ _ _ _ Hc) as Hget'.
    destruct (service_get_create _ _ _ Hd) as [Hn1 Hn2]. rewrite Hn1, Hn2 in Hget'.
    split; [|done]. split; [exact (f_equal fst Hget')|]. exists desired. split; [done|right].
    eexists _, _, _. split; [left; exact Hc|done].
Qed.

Lemma pvc_get_create w p : PVCBuilder.BuildPVC libs w = Ok (Some p) ->
  om_Name (pvc_ObjectMeta p) = GeneratePVCName (ws_Name w) /\
  om_Namespace (pvc_ObjectMeta p) = ws_Namespace w.
Proof.
  unfold PVCBuilder.BuildPVC. destruct (ResolveStorageConfig w); [|done].
  intros (m & Hm & [= <-])%result_bind_Ok.
  apply wrap_err_Ok in Hm. by apply owner_keeps in Hm as [refs ->].
Qed.

Lemma BuildPVC_storage w p : PVCBuilder.BuildPVC libs w = Ok p ->
  sp_Storage (ws_Spec w) <> None -> exists p', p = Some p'.
Proof.
  unfold PVCBuilder.BuildPVC, ResolveStorageConfig. destruct (sp_Storage (ws_Spec w)); [|done].
  intros (m & _ & [= <-])%result_bind_Ok _. by eexists.
Qed.

Lemma pvc_NeedsUpdate_view p w desired :
  PVCBuilder.BuildPVC libs w = Ok (Some desired) ->
  PVCBuilder.NeedsUpdate libs p w = Ok (negb (bool_decide (pvc_view p = pvc_view desired))).
Proof.
  intros E. unfold PVCBuilder.NeedsUpdate. rewrite E. cbn. unfold pvc_view.
  destruct (Z.eqb_spec (q_value (PVCBuilder.storage_of p)) (q_value (PVCBuilder.storage_of desired)));
    repeat case_bool_decide; cbn; try done; congruence.
Qed.

(** The claim is there, as built or as the API server made it of what was built. *)
Definition pvc_at_rest (p : PersistentVolumeClaim) (s : Env W) : Prop :=
  (crud_Get (c_PVC client) (GeneratePVCName (ws_Name (env_ws s))) (ws_Namespace (env_ws s))
     (env_cluster s)).1 = Ok p /\
  (IsWorkspaceAvailable (env_ws s) = true -> exists desired,
     PVCBuilder.BuildPVC libs (env_ws s) = Ok (Some desired) /\
     as_written (c_PVC client) pvc_view p desired).

Lemma EnsurePVCExists_rest p s s1 :
  EnsurePVCExists client B s = (Ok (Some p), s1) -> pvc_at_rest p s1 /\ env_ws s1 = env_ws s.
Proof.
  unfold EnsurePVCExists. rewrite get_ws_run.
  destruct (sp_Storage (ws_Spec (env_ws s))) eqn:Hst; [|done].
  unfold st_bind at 1, st_try, getPVC. rewrite get_ws_run, (on_get_run _ _ SP).
  destruct (crud_Get (c_PVC client) _ _ _) as [r c0] eqn:Hget. cbn [fst].
  assert (c0 = env_cluster s) as -> by (pose proof (get_reads (Stores := SP)
    (GeneratePVCName (ws_Name (env_ws s))) (ws_Namespace (env_ws s)) (env_cluster s)) as Hc;
    by rewrite Hget in Hc).
  destruct r as [p0|e]; [|destruct (IsNotFound e); [|done]]; intros Hr.
  - apply st_bind_Ok in Hr as (p' & s2 & Hr & [[= ->] ->]%st_ret_Ok).
    unfold ensurePVCUpToDate in Hr. rewrite get_ws_run in Hr.
    destruct (IsWorkspaceAvailable (env_ws s)) eqn:Ha; cbn [negb] in Hr.
    2: { injection Hr as <- <-. split; [split; [by rewrite Hget|congruence]|done]. }
    apply st_bind_Ok in Hr as (needs & s3 & [Hn <-]%st_lift_Ok & Hr). apply wrap_err_Ok in Hn.
    cbn in Hn. assert (Hn' := Hn). unfold PVCBuilder.NeedsUpdate in Hn.
    apply result_bind_Ok in Hn as (desired & Hd & _). apply wrap_err_Ok in Hd.
    destruct (BuildPVC_storage _ _ Hd) as [q ->]; [by rewrite Hst|].
    rewrite (pvc_NeedsUpdate_view p0 _ q Hd) in Hn'. injection Hn' as <-.
    case_bool_decide as Hv; cbn [negb] in Hr.
    + injection Hr as <- <-. split; [|done]. split; [by rewrite Hget|]. exists q. split; [done|by left].
    + unfold updatePVC in Hr. rewrite get_ws_run in Hr.
      apply st_bind_Ok in Hr as (upd & s3 & [Hu <-]%st_lift_Ok & Hr). apply wrap_err_Ok in Hu.
      cbn in Hu. unfold PVCBuilder.UpdatePVCSpec in Hu. rewrite Hd in Hu. cbn in Hu.
      injection Hu as <-. apply (proj1 (st_wrap_Ok _ _ _ _ _ _)) in Hr. unfold on_cluster in Hr.
      destruct (crud_Update _ _ _) as [r c] eqn:Hup. injection Hr as -> <-.
      pose proof (update_stores (Stores := SP) _ _ p0 _ _ _ _ Hget Hup eq_refl) as Hget'.
      split; [|done]. split; [exact (f_equal fst Hget')|]. intros _. exists q. split; [done|right].
      eexists _, _, _. split; [right; exact Hup|done].
  - unfold createPVC in Hr. rewrite get_ws_run in Hr.
    apply st_bind_Ok in Hr as (built & s2 & [Hd <-]%st_lift_Ok & Hr). apply wrap_err_Ok in Hd.
    destruct (BuildPVC_storage _ _ Hd) as [q ->]; [by rewrite Hst|].
    apply st_bind_Ok in Hr as (p' & s3 & Hr & [[= ->] ->]%st_ret_Ok).
    apply (proj1 (st_wrap_Ok _ _ _ _ _ _)) in Hr. unfold on_cluster in Hr.
    destruct (crud_Create _ _ _) as [r c] eqn:Hc. injection Hr as -> <-.
    pose proof (create_stores (Stores := SP) _ _ _ _ Hc) as Hget'.
    destruct (pvc_get_create _ _ Hd) as [Hn1 Hn2]. rewrite Hn1, Hn2 in Hget'.
    split; [|done]. split; [exact (f_equal fst Hget')|]. exists q. split; [done|right].
    eexists _, _, _. split; [left; exact Hc|done].
Qed.

Lemma pvc_at_rest_noop p s :
  sp_Storage (ws_Spec (env_ws s)) <> None -> pvc_at_rest p s ->
  EnsurePVCExists client B s = (Ok (Some p), s) \/
  exists desired, PVCBuilder.BuildPVC libs (env_ws s) = Ok (Some desired) /\
    changed_by_server (c_PVC client) pvc_view p desired.
Proof.
  intros Hst [Hp Hb]. unfold EnsurePVCExists. rewrite get_ws_run.
  destruct (sp_Storage (ws_Spec (env_ws s))); [|done].
  unfold st_bind at 1, st_try, getPVC. rewrite get_ws_run, (on_get_run _ _ SP), Hp.
  unfold st_bind at 1, ensurePVCUpToDate. rewrite get_ws_run.
  destruct (IsWorkspaceAvailable (env_ws s)); cbn [negb]; [|by left].
  destruct (Hb eq_refl) as (desired & Ed & Ha). destruct (as_written_cases _ _ _ _ Ha) as [Ev|Ev];
    [left|right; by exists desired].
  unfold st_bind, st_lift. cbn.
  by rewrite (pvc_NeedsUpdate_view p _ desired Ed), bool_decide_true.
Qed.
End settle.

(** [C21] The resources of a workspace settle as far as the API server lets them.  Once
    the controller has ensured the deployment, the service or the volume claim of a
    workspace (created it, updated it, found it up to date, or kept it because an
    integration could not be replayed), ensuring it again returns it and writes nothing,
    unless what the API server answered to a write differs, in the part the controller
    compares, from the object sent: then that part of the object sent was exactly what
    the controller builds again, and the difference is the server's (defaults it fills
    into a pod template, say).  Assumed: reads change nothing and return what a write
    answered, the owner reference is all SetControllerReference sets, the strategy the
    spec names has been fetched, and its templates for variables do not read the
    workspace's own variables. *)
Theorem resources_settle {W} (client : Client W) (engine : TemplateEngine) (libs : ObjectLibs)
    (options : WorkspaceControllerOptions) (room : Workspace -> nat) {OL : OwnerLaws libs}
    {SD : Stores (c_Deployment client) dep_ObjectMeta}
    {SS : Stores (c_Service client) svc_ObjectMeta}
    {SP : Stores (c_PVC client) pvc_ObjectMeta}
    (strategy : option WorkspaceAccessStrategy) (templates : Templates) (s s1 : Env W) :
  let B := controller_builders engine libs options room in
  strategy_blind libs strategy (env_ws s) -> strategy_given strategy (env_ws s) ->
  (forall d, EnsureDeploymentExists client B strategy templates s = (Ok d, s1) ->
     (exists s2, EnsureDeploymentExists client B strategy templates s1 = (Ok d, s2) /\
        env_cluster s2 = env_cluster s1) \/
     exists desired,
       (DeploymentBuilder.BuildWorkspaceDeployment engine libs options room strategy templates
          (env_ws s1)).1 = Ok desired /\
       changed_by_server (c_Deployment client) template_view d desired) /\
  (forall svc, EnsureServiceExists client B strategy s = (Ok svc, s1) ->
     EnsureServiceExists client B strategy s1 = (Ok svc, s1) \/
     exists desired, ServiceBuilder.BuildService libs (env_ws s1) strategy = Ok desired /\
       changed_by_server (c_Service client) service_view svc desired) /\
  (forall p, EnsurePVCExists client B s = (Ok (Some p), s1) ->
     EnsurePVCExists client B s1 = (Ok (Some p), s1) \/
     exists desired, PVCBuilder.BuildPVC libs (env_ws s1) = Ok (Some desired) /\
       changed_by_server (c_PVC client) pvc_view p desired).
Proof.
  intros B Hb Hg. split_and!.
  - intros d Hr. destruct (EnsureDeploymentExists_rest client engine libs options room
      strategy templates d s s1 Hb Hg Hr) as [Hrest [env Hw]].
    apply at_rest_noop; [done|rewrite Hw; exact Hg|done].
  - intros svc Hr. destruct (EnsureServiceExists_rest client engine libs options room
      strategy svc s s1 Hg Hr) as [Hrest Hw].
    apply service_at_rest_noop; [done|by rewrite Hw|done].
  - intros p Hr.
    destruct (EnsurePVCExists_rest client engine libs options room p s s1 Hr) as [Hrest Hw].
    apply pvc_at_rest_noop; [done| |done]. rewrite Hw. intros Hs. unfold EnsurePVCExists in Hr.
    by rewrite get_ws_run, Hs in Hr.
Qed.

(** ** The interface of the resource manager is met *)

(** The built access resource has the identity the resource manager records, as
    long as the API server does not rename objects. *)
#[export] Instance controller_access_builder {W} (client : Client W) engine libs options room
    {OL : OwnerLaws libs} :
  (forall g o c o' c', crud_Create (c_Unstructured client g) o c = (Ok o', c') -> un_ident o' = un_ident o) ->
  (forall g o c o' c', crud_Update (c_Unstructured client g) o c = (Ok o', c') -> un_ident o' = un_ident o) ->
  AccessBuilder client (controller_builders engine libs options room).
Proof.
  intros Hc Hu. split; [| |done|done].
  - intros t w a svc o. cbn. unfold AccessResourcesBuilder.BuildUnstructuredResource.
    intros (tmpl & _ & (yaml & _ & (obj & _ & [= <-])%result_bind_Ok)%result_bind_Ok)%result_bind_Ok.
    unfold un_ident, template_ident, lookup_name. cbn.
    assert (Hk : gvk_Kind (getGroupVersionKind (art_ApiVersion t) (art_Kind t)) = art_Kind t)
      by (unfold getGroupVersionKind; by repeat case_match).
    by rewrite Hk.
  - intros w o o'. cbn. intros (m & Hm & [= <-])%result_bind_Ok.
    apply owner_keeps in Hm as [refs ->]. done.
Qed.

(** ** A concrete cluster *)

Definition demo_ensured : result Deployment * Env Mem :=
  EnsureDeploymentExists (mem_k8s false)
    (controller_builders demo_engine demo_libs demo_options (fun _ => 0%nat))
    (Some demo_sidecar_strategy) ∅ (demo_env demo_env_ws empty_mem).

(** The cluster in memory keeps what it is sent. *)
Lemma mem_unchanged {W A B} (get : W -> gmap string A) set meta mark slow (view : A -> B) a desired :
  ~ changed_by_server (mem_crud get set meta mark slow) view a desired.
Proof.
  intros [Hne (sent & c & c' & Hw & Hv)]. apply Hne. rewrite <- Hv. f_equal.
  destruct Hw as [Hw|Hw]; cbn in Hw; repeat case_match; by simplify_eq.
Qed.

Lemma resources_settle_witness :
  exists d s2, demo_ensured.1 = Ok d /\
    EnsureDeploymentExists (mem_k8s false)
      (controller_builders demo_engine demo_libs demo_options (fun _ => 0%nat))
      (Some demo_sidecar_strategy) ∅ demo_ensured.2 = (Ok d, s2) /\
    env_cluster s2 = env_cluster demo_ensured.2.
Proof.
  destruct demo_ensured as [[d|e] s1] eqn:E; [|exfalso; vm_compute in E; discriminate E].
  assert (Hg : strategy_given (Some demo_sidecar_strategy) demo_env_ws) by (intros H; discriminate H).
  destruct (resources_settle (mem_k8s false) demo_engine demo_libs demo_options (fun _ => 0%nat)
    (Some demo_sidecar_strategy) ∅ (demo_env demo_env_ws empty_mem) s1 (demo_blind _ _) Hg) as [Hd _].
  destruct (Hd d E) as [(s2 & H2 & H3)|(desired & _ & Hc)]; [by exists d, s2|].
  by apply mem_unchanged in Hc.
Defined.

(** ** Limits *)

(** An access resource that drifted is overwritten without its owner reference:
    the builder sets none and only the creation adds it. *)
Definition demo_owned_ingress : Unstructured :=
  mkUnstructured "networking.k8s.io/v1" "Ingress"
    (set_om_OwnerReferences [mkOwnerReference "workspace.jupyter.org/v1alpha1" "Workspace" "w" ""
       (Some true) (Some true)] (zero_meta "in-w" "ns")) (Some "edited") None.
Lemma drift_drops_owner :
  let w := set_ws_Status (set_st_AccessResources
    [mkAccessResourceStatus "Ingress" "networking.k8s.io/v1" "in-w" "ns"] zero_status) demo_ws in
  let mem := mkMem ∅ ∅ ∅ ∅ ∅ ∅ {[ "ns/in-w" := demo_owned_ingress ]} 0 in
  let s' := (ensureAccessResourceExists (mem_k8s false)
    (controller_builders demo_engine demo_libs demo_options (fun _ => 0%nat))
    demo_routed_strategy demo_svc demo_template "ns" (demo_env w mem)).2 in
  (fun o => om_OwnerReferences (un_ObjectMeta o)) <$> m_Unstructured (env_cluster s') !! "ns/in-w"
  = Some [].
Proof. vm_compute. reflexivity. Qed.
