(* ===== verification/StateMachine.v ===== *)
(** * StateMachine: bringing a workspace to its desired state

    internal/controller state_machine.go, state_machine_access.go (access
    reconciliation) and the Reconcile entry point of workspace_controller.go,
    over the resource manager, the status manager and the probes. *)

From S2P Require Import Prelude Api JwtSigner K8s WorkspaceQueries Status AccessProbe Resources.
From S2P Require Import Integrations.

Definition DesiredStateRunning : string := "Running".
Definition DesiredStateStopped : string := "Stopped".
Definition DefaultDesiredStatus : string := "Running".
Definition WorkspaceFinalizerName : string := "workspace.jupyter.org/workspace-protection".
Definition MinimalRequeueDelay : Duration := 10 * Millisecond.
Definition PollRequeueDelay : Duration := 200 * Millisecond.
Definition LongRequeueDelay : Duration := 60 * Second.
Definition DefaultIdleCheckInterval : Duration := 5 * Minute.
Definition MinIdleCheckInterval : Duration := 1 * Second.

(** IdleCheckResult represents the result of an idle check operation. *)
Record IdleCheckResult := mkIdleCheckResult { IsIdle : bool; ShouldRetry : bool }.

(** The idle checker: its verdict, with an error or not, and its cadence. *)
Record IdleChecker (W : Type) := mkIdleChecker {
  CheckWorkspaceIdle :
    Workspace -> Service -> IdleShutdownSpec -> ST W (IdleCheckResult * option error);
  CheckInterval : Duration;
}.
Arguments CheckWorkspaceIdle {W}.
Arguments CheckInterval {W}.

(** NewWorkspaceIdleChecker clamps the interval. *)
Definition NewWorkspaceIdleChecker_interval (checkInterval : Duration) : Duration :=
  if checkInterval <=? 0 then DefaultIdleCheckInterval
  else if checkInterval <? MinIdleCheckInterval then MinIdleCheckInterval
  else checkInterval.

(** StateMachine handles the state transitions for Workspace: the components it
    was built from. *)
Record StateMachine (W : Type) := mkStateMachine {
  sm_client : Client W;
  sm_builders : Builders;
  sm_idleChecker : IdleChecker W;
  sm_accessStartupProber : Workspace -> WorkspaceAccessStrategy -> Service -> ST W bool;
  sm_integrationProber : option (IntegrationProber W);
  sm_sha256_hex : string -> string;
  sm_capture : Workspace -> IntegrationTemplateRef -> WorkspaceIntegrationTemplate ->
    ST W (gmap string string);
  sm_render_frozen : gmap string string -> Workspace -> IntegrationTemplateRef -> string ->
    result string;
}.
Arguments sm_client {W}.
Arguments sm_builders {W}.
Arguments sm_idleChecker {W}.
Arguments sm_accessStartupProber {W}.
Arguments sm_integrationProber {W}.
Arguments sm_sha256_hex {W}.
Arguments sm_capture {W}.
Arguments sm_render_frozen {W}.

(** getDesiredStatus returns the desired status with default fallback. *)
Definition getDesiredStatus (w : Workspace) : string :=
  if bool_decide (sp_DesiredStatus (ws_Spec w) = "") then DefaultDesiredStatus
  else sp_DesiredStatus (ws_Spec w).

(** getShorterInterval returns the shorter of two requeue delays; 0 is no timer. *)
Definition getShorterInterval (a b : Duration) : Duration :=
  if a =? 0 then b else if b =? 0 then a else Z.min a b.

Section machine.
Context `{GoRuntime} {W : Type} (sm : StateMachine W).
Local Open Scope go_scope.

(** Status fields cleared when access goes away. *)
Definition clear_access (s : WorkspaceStatus) : WorkspaceStatus :=
  clearProbeState (set_st_ObservedAccessStrategyVersion ""
    (set_st_AccessStartupProbeSucceeded false (set_st_AccessResourceSelector ""
      (set_st_ApplicationBasePath "" (set_st_AccessURL "" s))))).

(** ReconcileAccessForDesiredStoppedStatus removes the access resources. *)
Definition ReconcileAccessForDesiredStoppedStatus : M W unit :=
  modify_status clear_access ;;
  EnsureAccessResourcesDeleted (sm_client sm).

(** ReconcileAccessForDesiredRunningStatus ensures the access resources exist,
    or removes them when the strategy is gone. *)
Definition ReconcileAccessForDesiredRunningStatus (service : Service)
    (accessStrategy : option WorkspaceAccessStrategy) : M W unit :=
  w <- get_ws ;;
  match sp_AccessStrategy (ws_Spec w) with
  | Some _ =>
      match accessStrategy with
      | None => st_fail panic_nil
      | Some a =>
          EnsureAccessResourcesExist (sm_client sm) (sm_builders sm) a service ;;
          w <- get_ws ;;
          accessUrl <- st_lift (ResolveAccessURL (sm_builders sm) w a service) ;;
          modify_status (set_st_AccessURL accessUrl) ;;
          w <- get_ws ;;
          modify_status (set_st_AccessResourceSelector
            (ResolveAccessResourceSelector (sm_builders sm) w a)) ;;
          w <- get_ws ;;
          modify_status (set_st_ApplicationBasePath
            (ResolveApplicationBasePath (sm_builders sm) w a service).1)
      end
  | None =>
      modify_status clear_access ;;
      EnsureAccessResourcesDeleted (sm_client sm)
  end.

(** Record an error in the status, best effort, and return it. *)
Definition fail_with_status {A} (reason : string) (err : error) (snapshot : WorkspaceStatus)
    : M W A :=
  st_try (UpdateErrorStatus (sm_client sm) reason (Error err) snapshot) ;;
  st_fail err.

(** reconcileDesiredStoppedStatus deletes the access resources, the deployment
    and the service, and reports Stopping or Stopped. *)
Definition reconcileDesiredStoppedStatus (snapshotStatus : WorkspaceStatus) : M W Result :=
  accessError <- st_try ReconcileAccessForDesiredStoppedStatus ;;
  d <- st_try (EnsureDeploymentDeleted (sm_client sm)) ;;
  match d with
  | Fail e => fail_with_status ReasonDeploymentError (Wrapf "failed to get deployment: %w" [] e)
                snapshotStatus
  | Ok deployment =>
  s <- st_try (EnsureServiceDeleted (sm_client sm)) ;;
  match s with
  | Fail e => fail_with_status ReasonServiceError (Wrapf "failed to get service: %w" [] e)
                snapshotStatus
  | Ok service =>
  w <- get_ws ;;
  let deploymentDeleted := IsDeploymentMissingOrDeleting deployment in
  let serviceDeleted := IsServiceMissingOrDeleting service in
  let accessResourcesDeleted := AreAccessResourcesDeleted w in
  let readiness :=
    mkStoppingReadiness deploymentDeleted serviceDeleted accessResourcesDeleted in
  if deploymentDeleted && serviceDeleted then
    match accessError with
    | Fail e => fail_with_status ReasonServiceError e snapshotStatus
    | Ok _ =>
        if negb accessResourcesDeleted then
          UpdateStoppingStatus (sm_client sm) readiness snapshotStatus ;;
          st_ret (mkResult PollRequeueDelay)
        else
          record_event "Normal" "WorkspaceStopped"
            (if preempted w then PreemptedReason else "Workspace has been stopped") ;;
          UpdateStoppedStatus (sm_client sm) snapshotStatus ;;
          st_ret no_requeue
    end
  else if deploymentDeleted || serviceDeleted then
    UpdateStoppingStatus (sm_client sm) readiness snapshotStatus ;;
    st_ret (mkResult PollRequeueDelay)
  else
    fail_with_status ReasonDeploymentError
      (Errorf "unexpected state: both deployment and service should be in deletion process" [])
      snapshotStatus
  end
  end.

(** stopWorkspaceDueToIdle sets the desired status to Stopped. *)
Definition stopWorkspaceDueToIdle (idleConfig : IdleShutdownSpec) : M W Result :=
  record_event "Normal" "IdleShutdown"
    ("Stopping workspace due to idle timeout of " +:+
     Sprint_int (is_IdleTimeoutInMinutes idleConfig) +:+ " minutes") ;;
  modify_ws (fun w => set_ws_Spec (set_sp_DesiredStatus DesiredStateStopped (ws_Spec w)) w) ;;
  w <- get_ws ;;
  w' <- on_cluster (crud_Update (c_Workspace (sm_client sm)) w) ;;
  modify_ws (fun _ => w') ;;
  st_ret (mkResult MinimalRequeueDelay).

(** handleIdleShutdownForRunningWorkspace checks for idleness. *)
Definition handleIdleShutdownForRunningWorkspace (service : Service) : M W Result :=
  w <- get_ws ;;
  match sp_IdleShutdown (ws_Spec w) with
  | None => st_ret no_requeue
  | Some idleConfig =>
      if negb (is_Enabled idleConfig) then st_ret no_requeue
      else
      out <- on_cluster (CheckWorkspaceIdle (sm_idleChecker sm) w service idleConfig) ;;
      let requeue := st_ret (mkResult (CheckInterval (sm_idleChecker sm))) in
      match out with
      | (result, Some _) => if negb (ShouldRetry result) then st_ret no_requeue else requeue
      | (result, None) => if IsIdle result then stopWorkspaceDueToIdle idleConfig else requeue
      end
  end.

(** The readiness of the access route: ready or not, with the requeue delay, or
    the probe has given up. *)
Definition access_gate (service : Service) (accessStrategy : option WorkspaceAccessStrategy)
    : M W (option (bool * Duration)) :=
  ReconcileAccessForDesiredRunningStatus service accessStrategy ;;
  probeResult <- ProbeAccessStartup (sm_accessStartupProber sm) accessStrategy service ;;
  st_ret (match pr_Status probeResult with
          | ProbeNotDefined | ProbeSucceeded | ProbeAlreadySucceeded =>
              Some (true, PollRequeueDelay)
          | ProbeFailureThresholdExceeded => None
          | ProbeRetrying | ProbePendingRetry => Some (false, pr_RequeueAfter probeResult)
          end).

(** The end of reconcileDesiredRunningStatus: report Running and look for
    idleness, or report Starting and requeue. *)
Definition report_running (snapshotStatus : WorkspaceStatus) (service : Service) : M W Result :=
  record_event "Normal" "WorkspaceRunning" "Workspace is now running" ;;
  integrationProbeInterval <- probeIntegrationStatus (sm_client sm) (sm_render_frozen sm)
                                (sm_integrationProber sm) ;;
  UpdateRunningStatus (sm_client sm) snapshotStatus ;;
  result <- handleIdleShutdownForRunningWorkspace service ;;
  st_ret (mkResult (getShorterInterval (RequeueAfter result) integrationProbeInterval)).

Definition report_starting (snapshotStatus : WorkspaceStatus) (deployment : Deployment)
    (service : Service) (readiness : WorkspaceRunningReadiness) (requeueDelay : Duration)
    : M W Result :=
  modify_status (fun s => set_st_ServiceName (om_Name (svc_ObjectMeta service))
    (set_st_DeploymentName (om_Name (dep_ObjectMeta deployment)) s)) ;;
  UpdateStartingStatus (sm_client sm) readiness snapshotStatus ;;
  st_ret (mkResult requeueDelay).

(** reconcileDesiredRunningStatus creates or updates the resources, gates on
    the access probe, and reports Starting, Running or Degraded. *)
Definition reconcileDesiredRunningStatus (snapshotStatus : WorkspaceStatus)
    (accessStrategy : option WorkspaceAccessStrategy) : M W Result :=
  p <- st_try (EnsurePVCExists (sm_client sm) (sm_builders sm)) ;;
  match p with
  | Fail e => fail_with_status ReasonDeploymentError
                (Wrapf "failed to ensure PVC exists: %w" [] e) snapshotStatus
  | Ok _ =>
  integrations <- reconcileIntegrations (sm_client sm) (sm_sha256_hex sm) (sm_capture sm) ;;
  d <- st_try (EnsureDeploymentExists (sm_client sm) (sm_builders sm) accessStrategy
                 integrations.1) ;;
  match d with
  | Fail e => fail_with_status ReasonDeploymentError
                (Wrapf "failed to ensure deployment exists: %w" [] e) snapshotStatus
  | Ok deployment =>
  s <- st_try (EnsureServiceExists (sm_client sm) (sm_builders sm) accessStrategy) ;;
  match s with
  | Fail e => fail_with_status ReasonServiceError
                (Wrapf "failed to ensure service exists: %w" [] e) snapshotStatus
  | Ok service =>
  deploymentReady <- st_lift (IsDeploymentAvailable (Some deployment)) ;;
  let serviceReady := IsServiceAvailable (Some service) in
  gate <- (if (deploymentReady : bool) && serviceReady then access_gate service accessStrategy
           else st_ret (Some (false, PollRequeueDelay))) ;;
  match gate with
  | None =>
      UpdatePermanentDegradedRunningStatus (sm_client sm) ReasonAccessProbeThresholdExceeded
        ReasonAccessNotReady "Access startup probe failed: threshold exceeded" snapshotStatus ;;
      st_ret no_requeue
  | Some (accessReady, requeueDelay) =>
      if deploymentReady && serviceReady && accessReady then report_running snapshotStatus service
      else report_starting snapshotStatus deployment service
             (mkRunningReadiness deploymentReady serviceReady accessReady) requeueDelay
  end
  end
  end
  end.

(** ReconcileDesiredState handles the state machine logic for Workspace. *)
Definition ReconcileDesiredState (accessStrategy : option WorkspaceAccessStrategy) : M W Result :=
  w <- get_ws ;;
  let desiredStatus := getDesiredStatus w in
  let snapshotStatus := ws_Status w in
  if bool_decide (desiredStatus = DesiredStateStopped) then
    reconcileDesiredStoppedStatus snapshotStatus
  else if bool_decide (desiredStatus = DesiredStateRunning) then
    reconcileDesiredRunningStatus snapshotStatus accessStrategy
  else
    fail_with_status ReasonDeploymentError
      (Errorf "unknown desired status: %s" [desiredStatus]) snapshotStatus.

(** ReconcileDeletion handles workspace deletion with finalizer management. *)
Definition ReconcileDeletion : M W Result :=
  w <- get_ws ;;
  if negb (ContainsFinalizer (ws_ObjectMeta w) WorkspaceFinalizerName) then st_ret no_requeue
  else
    UpdateDeletingStatus (sm_client sm) (ws_Status w) ;;
    allDeleted <- CleanupAllResources (sm_client sm) ;;
    if negb (allDeleted : bool) then st_ret (mkResult PollRequeueDelay)
    else
      modify_ws (fun w =>
        set_ws_ObjectMeta (RemoveFinalizer WorkspaceFinalizerName (ws_ObjectMeta w)) w) ;;
      w <- get_ws ;;
      w' <- on_cluster (crud_Update (c_Workspace (sm_client sm)) w) ;;
      modify_ws (fun _ => w') ;;
      st_ret no_requeue.
End machine.

(** ** Reconcile *)

(** Set a label, or report that it is already right. *)
Definition ensure_label (key value : string) (acc : gmap string string * bool)
    : gmap string string * bool :=
  let '(labels, needsUpdate) := acc in
  if bool_decide (default "" (labels !! key) = value) then (labels, needsUpdate)
  else (<[key := value]> labels, true).

(** Remove a label when present. *)
Definition remove_label (key : string) (acc : gmap string string * bool)
    : gmap string string * bool :=
  let '(labels, needsUpdate) := acc in
  match labels !! key with
  | None => (labels, needsUpdate)
  | Some _ => (delete key labels, true)
  end.

(** The finalizer and label part of Reconcile: the workspace to write, and
    whether a write is needed. *)
Definition sync_labels (w : Workspace) : Workspace * bool :=
  let m := ws_ObjectMeta w in
  let hasFinalizer := ContainsFinalizer m WorkspaceFinalizerName in
  let m := AddFinalizer WorkspaceFinalizerName m in
  let acc := (om_Labels m, negb hasFinalizer) in
  let acc :=
    match sp_TemplateRef (ws_Spec w) with
    | Some ref =>
        if negb (bool_decide (tr_Name ref = "")) then
          ensure_label LabelWorkspaceTemplateNamespace (GetTemplateRefNamespace w)
            (ensure_label LabelWorkspaceTemplate (tr_Name ref) acc)
        else remove_label LabelWorkspaceTemplateNamespace (remove_label LabelWorkspaceTemplate acc)
    | None => remove_label LabelWorkspaceTemplateNamespace (remove_label LabelWorkspaceTemplate acc)
    end in
  let acc :=
    match sp_AccessStrategy (ws_Spec w) with
    | Some ref =>
        if negb (bool_decide (asr_Name ref = "")) then
          let ns := if negb (bool_decide (asr_Namespace ref = "")) then asr_Namespace ref
                    else ws_Namespace w in
          ensure_label LabelAccessStrategyNamespace ns
            (ensure_label LabelAccessStrategyName (asr_Name ref) acc)
        else remove_label LabelAccessStrategyNamespace (remove_label LabelAccessStrategyName acc)
    | None => remove_label LabelAccessStrategyNamespace (remove_label LabelAccessStrategyName acc)
    end in
  (set_ws_ObjectMeta (set_om_Labels acc.1 m) w, acc.2).

Section reconcile.
Context `{GoRuntime} {W : Type} (sm : StateMachine W).
Local Open Scope go_scope.

(** Reconcile fetches the workspace, handles deletion, brings finalizer and
    labels up to date with at most one write, and otherwise delegates to the
    state machine. *)
Definition Reconcile (name namespace : string) : M W Result :=
  r <- st_try (on_cluster (crud_Get (c_Workspace (sm_client sm)) name namespace)) ;;
  match r with
  | Fail err => if IsNotFound err then st_ret no_requeue else st_fail err
  | Ok workspace =>
      modify_ws (fun _ => workspace) ;;
      if is_deleting (ws_ObjectMeta workspace) then ReconcileDeletion sm
      else
      let '(synced, needsUpdate) := sync_labels workspace in
      modify_ws (fun _ => synced) ;;
      if (needsUpdate : bool) then
        w' <- on_cluster (crud_Update (c_Workspace (sm_client sm)) synced) ;;
        modify_ws (fun _ => w') ;;
        st_ret (mkResult PollRequeueDelay)
      else
      accessStrategy <- (if negb (bool_decide (getDesiredStatus synced = DesiredStateStopped)) &&
                            match sp_AccessStrategy (ws_Spec synced) with
                            | Some _ => true | None => false end
                         then GetAccessStrategyForWorkspace (sm_client sm)
                         else st_ret None) ;;
      ReconcileDesiredState sm accessStrategy
  end.
End reconcile.

(** ** Deletion *)

(** What deletion relies on beyond cleanup: an update of the workspace returns
    the identity and finalizers sent, and touches no other object. *)
Class DeletionClient {W} (client : Client W) : Prop := {
  ws_update_meta : forall w c w' c',
    crud_Update (c_Workspace client) w c = (Ok w', c') ->
    meta_view (ws_ObjectMeta w') = meta_view (ws_ObjectMeta w);
  ws_update_deployments : forall w c n ns,
    (crud_Get (c_Deployment client) n ns (crud_Update (c_Workspace client) w c).2).1 =
    (crud_Get (c_Deployment client) n ns c).1;
  ws_update_services : forall w c n ns,
    (crud_Get (c_Service client) n ns (crud_Update (c_Workspace client) w c).2).1 =
    (crud_Get (c_Service client) n ns c).1;
  ws_update_pvcs : forall w c n ns,
    (crud_Get (c_PVC client) n ns (crud_Update (c_Workspace client) w c).2).1 =
    (crud_Get (c_PVC client) n ns c).1;
}.

#[export] Instance mem_deletion_client slow : DeletionClient (mem_k8s slow).
Proof.
  split.
  - intros w c w' c'. cbn. case_match; [|done]. by intros [= <- <-].
  - intros w c n ns. cbn. destruct (m_Workspaces c !! _); [|done]. cbn. by repeat case_match.
  - intros w c n ns. cbn. destruct (m_Workspaces c !! _); [|done]. cbn. by repeat case_match.
  - intros w c n ns. cbn. destruct (m_Workspaces c !! _); [|done]. cbn. by repeat case_match.
Qed.

(** The deployment, service and volume claim of a workspace, as the API server
    reports them, are all gone. *)
Definition all_gone {W} (client : Client W) (w : Workspace) (c : W) : Prop :=
  missing (crud_Get (c_Deployment client) (GenerateDeploymentName (ws_Name w)) (ws_Namespace w) c) /\
  missing (crud_Get (c_Service client) (GenerateServiceName (ws_Name w)) (ws_Namespace w) c) /\
  missing (crud_Get (c_PVC client) (GeneratePVCName (ws_Name w)) (ws_Namespace w) c).

Definition has_finalizer (w : Workspace) : bool :=
  ContainsFinalizer (ws_ObjectMeta w) WorkspaceFinalizerName.

Lemma meta_view_finalizer m m' f :
  meta_view m = meta_view m' -> ContainsFinalizer m f = ContainsFinalizer m' f.
Proof. intros [= _ _ E]. unfold ContainsFinalizer. by rewrite E. Qed.

Lemma meta_view_names (w w' : Workspace) :
  meta_view (ws_ObjectMeta w) = meta_view (ws_ObjectMeta w') ->
  ws_Name w = ws_Name w' /\ ws_Namespace w = ws_Namespace w'.
Proof. by intros [= E1 E2 _]. Qed.

(** [C4] The finalizer protects the resources: a successful deletion reconcile of
    a workspace that carries the finalizer either gives it up, and then the API
    server reports deployment, service and volume claim all missing, or keeps it,
    with the Deleting condition set, and asks to be called again. *)
Theorem ReconcileDeletion_finalizer {W} (sm : StateMachine W)
    (leaving : GroupVersionKind -> string -> string -> W -> Prop)
    {SC : StatusClient (sm_client sm)} {CC : CleanupClient (sm_client sm) leaving}
    {DC : DeletionClient (sm_client sm)} (s s' : Env W) (r : Result) :
  has_finalizer (env_ws s) = true ->
  ReconcileDeletion sm s = (Ok r, s') ->
  if has_finalizer (env_ws s')
  then r = mkResult PollRequeueDelay /\
       cond_is (env_conditions s') ConditionTypeDeleting ConditionTrue = true
  else r = no_requeue /\ all_gone (sm_client sm) (env_ws s) (env_cluster s').
Proof.
  intros Hf. unfold ReconcileDeletion. rewrite get_ws_run. fold (has_finalizer (env_ws s)).
  rewrite Hf. cbn [negb]. intros Hr. inv_run Hr. destruct a.
  pose proof (run_op_same_meta (sm_client sm) OpDeleting (ws_Status (env_ws s)) s) as Hm.
  cbn [run_op] in Hm. rewrite Hr0 in Hm. cbn in Hm. unfold same_meta in Hm.
  assert (Hdel : cond_is (env_conditions s0) ConditionTypeDeleting ConditionTrue = true).
  { eapply (run_op_statuses (sm_client sm) OpDeleting); [exact Hr0|]. cbn. do 4 right. left. }
  pose proof (CleanupAllResources_same_on (sm_client sm) st_Conditions (fun _ _ => eq_refl) s0) as Hcond.
  rewrite Hr1 in Hcond. cbn in Hcond. unfold same_on in Hcond.
  destruct (CleanupAllResources_spec (sm_client sm) leaving _ _ _ Hr1) as (Hb & _ & Hmeta).
  assert (Hfin : has_finalizer (env_ws s1) = true).
  { unfold has_finalizer in *. rewrite Hmeta. by rewrite (meta_view_finalizer _ _ _ Hm). }
  destruct a0; cbn [negb] in Hr; inv_run Hr.
  - destruct Hb as [Hb _]. destruct (Hb eq_refl) as (Hd & Hs & Hp & _).
    unfold modify_ws in Hr2, Hr4. injection Hr2 as _ <-. injection Hr4 as _ <-.
    unfold on_cluster in Hr3. cbn in Hr3.
    destruct (crud_Update (c_Workspace (sm_client sm)) _ (env_cluster s1)) as [w' c'] eqn:Eu.
    injection Hr3 as -> <-. cbn.
    pose proof (ws_update_meta _ _ _ _ Eu) as Hm'.
    unfold has_finalizer. rewrite (meta_view_finalizer _ _ _ Hm').
    cbn [ws_ObjectMeta set_ws_ObjectMeta]. rewrite ContainsFinalizer_Remove. split; [done|].
    apply meta_view_names in Hm as [En Ens]. rewrite En, Ens in Hd, Hs, Hp.
    assert (Ec : c' = (crud_Update (c_Workspace (sm_client sm)) _ (env_cluster s1)).2)
      by (rewrite Eu; reflexivity).
    unfold all_gone, missing in *. rewrite Ec.
    by rewrite ws_update_deployments, ws_update_services, ws_update_pvcs.
  - rewrite Hfin. split; [done|]. unfold env_conditions in *. by rewrite Hcond.
Qed.

(** A state machine over the in-memory cluster: never idle, the route always up. *)
Definition demo_sm (slow : bool) : StateMachine Mem := {|
  sm_client := mem_k8s slow;
  sm_builders := demo_builders;
  sm_idleChecker := mkIdleChecker Mem (fun _ _ _ => st_ret (mkIdleCheckResult false true, None)) Minute;
  sm_accessStartupProber := fun _ _ _ => st_ret true;
  sm_integrationProber := None;
  sm_sha256_hex := fun x => x;
  sm_capture := fun _ _ _ => st_ret ∅;
  sm_render_frozen := fun _ _ _ t => Ok t;
|}.

Definition demo_deleted_ws : Workspace :=
  set_ws_ObjectMeta (AddFinalizer WorkspaceFinalizerName (mark_deleting (zero_meta "w" "ns")))
    demo_routed_ws.
Definition demo_deployment : Deployment :=
  mkDeployment (zero_meta "workspace-w" "ns") demo_dep_spec [("Available", ConditionTrue)] 1 1.
(** A running workspace's cluster. *)
Definition demo_full_mem : Mem :=
  mkMem ∅ {[ "ns/workspace-w" := demo_deployment ]} {[ "ns/workspace-w-service" := demo_svc ]}
    {[ "ns/workspace-w-pvc" := mkPersistentVolumeClaim (zero_meta "workspace-w-pvc" "ns") demo_pvc_spec ]} ∅ ∅
    {[ "ns/route-w" := mkUnstructured "traefik.io/v1" "IngressRoute" (zero_meta "route-w" "ns") None None ]} 0.

Lemma ReconcileDeletion_finalizer_witness :
  all_gone (mem_k8s false) demo_deleted_ws
    (env_cluster (ReconcileDeletion (demo_sm false) (demo_env demo_deleted_ws demo_full_mem)).2).
Proof.
  pose proof (@ReconcileDeletion_finalizer Mem (demo_sm false) mem_leaving _ _ _
    (demo_env demo_deleted_ws demo_full_mem)
    (ReconcileDeletion (demo_sm false) (demo_env demo_deleted_ws demo_full_mem)).2
    no_requeue) as Ht.
  assert (E : has_finalizer (env_ws (ReconcileDeletion (demo_sm false)
    (demo_env demo_deleted_ws demo_full_mem)).2) = false) by (vm_compute; reflexivity).
  rewrite E in Ht. apply Ht; vm_compute; reflexivity.
Defined.

(** ** Stopping *)

(** How a successful stop reconcile ends, given the deployment and service its
    deletions returned: stopped, with every trace of the resources cleared from
    the status, or still stopping, with exactly one of the two on its way out. *)
Inductive stop_outcome {W} (d : option Deployment) (svc : option Service) (s' : Env W)
    : Result -> Prop :=
| outcome_stopped :
    IsDeploymentMissingOrDeleting d = true -> IsServiceMissingOrDeleting svc = true ->
    (forall t status, (t, status) ∈ op_statuses OpStopped ->
       cond_is (env_conditions s') t status = true) ->
    st_AccessResources (ws_Status (env_ws s')) = [] ->
    st_AccessURL (ws_Status (env_ws s')) = "" ->
    st_DeploymentName (ws_Status (env_ws s')) = "" ->
    st_ServiceName (ws_Status (env_ws s')) = "" ->
    stop_outcome d svc s' no_requeue
| outcome_stopping readiness :
    xorb (IsDeploymentMissingOrDeleting d) (IsServiceMissingOrDeleting svc) = true ->
    (forall t status, (t, status) ∈ op_statuses (OpStopping readiness) ->
       cond_is (env_conditions s') t status = true) ->
    stop_outcome d svc s' (mkResult PollRequeueDelay).

Lemma UpdateStoppedStatus_names {W} (client : Client W) {SC : StatusClient client} snap s s' :
  UpdateStoppedStatus client snap s = (Ok tt, s') ->
  st_DeploymentName (ws_Status (env_ws s')) = "" /\ st_ServiceName (ws_Status (env_ws s')) = "".
Proof.
  assert (Hm : forall conds s s', merge_clear_and_update client conds snap s = (Ok tt, s') ->
    st_DeploymentName (ws_Status (env_ws s')) = "" /\ st_ServiceName (ws_Status (env_ws s')) = "").
  { intros conds s0 s0' Hr. unfold merge_clear_and_update in Hr. rewrite get_ws_run in Hr. inv_run Hr.
    unfold modify_status, modify_ws in Hr0. injection Hr0 as _ <-.
    pose proof (updateStatus_same_on client (fun st => (st_DeploymentName st, st_ServiceName st))
      (MergeConditionsIfChanged (st_Conditions (ws_Status (env_ws s0))) conds) snap
      (fun _ _ => eq_refl) (fun _ => eq_refl)) as Hs.
    match type of Hr with updateStatus _ _ _ ?s = _ => specialize (Hs s) end.
    rewrite Hr in Hs. unfold same_on in Hs. cbn in Hs. by injection Hs. }
  unfold UpdateStoppedStatus. rewrite get_ws_run.
  destruct (preempted (env_ws s)); rewrite !NewCondition_run; apply Hm.
Qed.

(** [C36] Stopping: a successful stop reconcile has asked for the deletion of the
    deployment and the service, and reports Stopped, without requeue, exactly
    when both are missing or being deleted; then no access resource, access URL
    or resource name is left in the status.  Otherwise one of the two was still
    to be deleted, and it reports Stopping and comes back. *)
Theorem reconcileDesiredStoppedStatus_outcome {W} (sm : StateMachine W)
    {SC : StatusClient (sm_client sm)} (snap : WorkspaceStatus) (s s' : Env W) (r : Result) :
  reconcileDesiredStoppedStatus sm snap s = (Ok r, s') ->
  exists s1 s2 s3 d svc,
    EnsureDeploymentDeleted (sm_client sm) s1 = (Ok d, s2) /\
    EnsureServiceDeleted (sm_client sm) s2 = (Ok svc, s3) /\
    stop_outcome d svc s' r.
Proof.
  unfold reconcileDesiredStoppedStatus, fail_with_status. intros Hr. inv_run Hr.
  destruct a0 as [d|e]; [|inv_run Hr]. inv_run Hr. destruct a0 as [svc|e]; [|inv_run Hr].
  rewrite get_ws_run in Hr.
  exists s0, s1, s2, d, svc. split_and!; [done|done|].
  pose proof (EnsureDeploymentDeleted_frame (sm_client sm) s0) as (Ed & _).
  pose proof (EnsureServiceDeleted_frame (sm_client sm) s1) as (Es & _).
  rewrite Hr1 in Ed. rewrite Hr2 in Es. cbn in Ed, Es.
  destruct (IsDeploymentMissingOrDeleting d) eqn:Hd, (IsServiceMissingOrDeleting svc) eqn:Hs;
    cbn [andb orb] in Hr.
  - destruct a as [[]|e]; [|inv_run Hr].
    unfold ReconcileAccessForDesiredStoppedStatus in Hr0. inv_run Hr0.
    unfold modify_status, modify_ws in Hr3. injection Hr3 as _ <-.
    apply EnsureAccessResourcesDeleted_ok in Hr0 as (Ews & _).
    assert (Hr0 : st_AccessResources (ws_Status (env_ws s2)) = [] /\
                  st_AccessURL (ws_Status (env_ws s2)) = "") by (by rewrite Es, Ed, Ews).
    unfold AreAccessResourcesDeleted in Hr.
    rewrite bool_decide_true in Hr by apply Hr0. cbn [negb] in Hr. inv_run Hr. destruct_units.
    unfold record_event in Hr3. apply (f_equal snd) in Hr3. cbn [snd] in Hr3. subst.
    match type of Hr4 with UpdateStoppedStatus _ _ ?st = _ => set (sx := st) in * end.
    pose proof (run_op_same_on (sm_client sm) (fun st => (st_AccessResources st, st_AccessURL st))
      OpStopped snap (fun _ _ => eq_refl) (fun _ => eq_refl) (fun _ => eq_refl) sx) as Hv.
    cbn [run_op] in Hv. rewrite Hr4 in Hv. unfold same_on in Hv. cbn in Hv. injection Hv as Ea Eu.
    destruct Hr0 as [Ha Hu]. destruct (UpdateStoppedStatus_names _ _ _ _ Hr4).
    apply outcome_stopped; try done; try congruence.
    by eapply (run_op_statuses (sm_client sm) OpStopped).
  - inv_run Hr. destruct_units. eapply outcome_stopping; [by rewrite Hd, Hs|].
    by eapply (run_op_statuses (sm_client sm) (OpStopping _)).
  - inv_run Hr. destruct_units. eapply outcome_stopping; [by rewrite Hd, Hs|].
    by eapply (run_op_statuses (sm_client sm) (OpStopping _)).
  - inv_run Hr.
Qed.

Lemma reconcileDesiredStoppedStatus_outcome_witness :
  exists s1 s2 s3 d svc,
    EnsureDeploymentDeleted (mem_k8s false) s1 = (Ok d, s2) /\
    EnsureServiceDeleted (mem_k8s false) s2 = (Ok svc, s3) /\
    stop_outcome d svc (reconcileDesiredStoppedStatus (demo_sm false) zero_status
      (demo_env demo_routed_ws demo_routed_mem)).2 no_requeue.
Proof.
  apply (@reconcileDesiredStoppedStatus_outcome Mem (demo_sm false) _ zero_status
    (demo_env demo_routed_ws demo_routed_mem)).
  vm_compute. reflexivity.
Defined.

(** The first stop of a running workspace: the objects read before their deletion
    carry no deletion timestamp, so the handler takes the branch its message
    calls unexpected: it returns an error and the workspace is marked Degraded,
    although both deletions were accepted. *)
Lemma first_stop_reports_error :
  let out := reconcileDesiredStoppedStatus (demo_sm false) zero_status
               (demo_env demo_routed_ws demo_full_mem) in
  is_ok out.1 = false /\
  cond_is (env_conditions out.2) ConditionTypeDegraded ConditionTrue = true /\
  m_Deployments (env_cluster out.2) = ∅ /\ m_Services (env_cluster out.2) = ∅.
Proof. vm_compute. split_and!; reflexivity. Qed.

(** ** Stopping keeps the volume *)

(** The group, version and kind under which the API server has volume claims. *)
Definition claim_gvk : GroupVersionKind := mkGVK "" "v1" "PersistentVolumeClaim".

(** Deleting or writing an object of another kind leaves the volume claims as they are. *)
Class VolumesAside {W} (client : Client W) : Prop := {
  del_deployment_pvcs : forall o c n ns,
    (crud_Get (c_PVC client) n ns (crud_Delete (c_Deployment client) o c).2).1 =
    (crud_Get (c_PVC client) n ns c).1;
  del_service_pvcs : forall o c n ns,
    (crud_Get (c_PVC client) n ns (crud_Delete (c_Service client) o c).2).1 =
    (crud_Get (c_PVC client) n ns c).1;
  del_unstructured_pvcs : forall g o c n ns, g <> claim_gvk ->
    (crud_Get (c_PVC client) n ns (crud_Delete (c_Unstructured client g) o c).2).1 =
    (crud_Get (c_PVC client) n ns c).1;
  status_update_pvcs : forall w c n ns,
    (crud_Get (c_PVC client) n ns (c_WorkspaceStatusUpdate client w c).2).1 =
    (crud_Get (c_PVC client) n ns c).1;
}.

#[export] Instance mem_volumes_aside slow : VolumesAside (mem_k8s slow).
Proof.
  split.
  - intros o c n ns. cbn. destruct (m_Deployments c !! _); [|done]. cbn. by repeat case_match.
  - intros o c n ns. cbn. destruct (m_Services c !! _); [|done]. cbn. by repeat case_match.
  - intros g o c n ns _. cbn. destruct (m_Unstructured c !! _); [|done]. cbn. by repeat case_match.
  - intros w c n ns. cbn. by repeat case_match.
Qed.

(** The recorded access resources are no volume claims; the kinds a strategy may name
    are free. *)
Definition no_claims_recorded (w : Workspace) : Prop :=
  forall r, r ∈ st_AccessResources (ws_Status w) ->
    getGroupVersionKind (ars_APIVersion r) (ars_Kind r) <> claim_gvk.

(** The state machine with other operations on volume claims. *)
Definition with_pvc {W} (pvc : Crud W PersistentVolumeClaim) (sm : StateMachine W) : StateMachine W :=
  let c := sm_client sm in
  mkStateMachine W
    (mkClient W (c_Workspace c) (c_WorkspaceStatusUpdate c) (c_Deployment c) (c_Service c) pvc
       (c_AccessStrategy c) (c_IntegrationTemplate c) (c_Unstructured c))
    (sm_builders sm) (sm_idleChecker sm) (sm_accessStartupProber sm) (sm_integrationProber sm)
    (sm_sha256_hex sm) (sm_capture sm) (sm_render_frozen sm).

Section volumes.
Context {W : Type} (sm : StateMachine W)
  (leaving : GroupVersionKind -> string -> string -> W -> Prop)
  {CC : CleanupClient (sm_client sm) leaving} {VA : VolumesAside (sm_client sm)}.
Variables (n ns : string) (x : result PersistentVolumeClaim).

Definition pvc_is (c : W) : Prop := (crud_Get (c_PVC (sm_client sm)) n ns c).1 = x.

Lemma delete_access_loop_keeps_pvc l acc :
  (forall r, r ∈ l -> getGroupVersionKind (ars_APIVersion r) (ars_Kind r) <> claim_gvk) ->
  respects (keeps pvc_is) (delete_access_loop (sm_client sm) l acc).
Proof.
  revert acc. induction l as [|r l IH]; intros acc Hl; cbn; [solve_respects|].
  assert (Hone : respects (keeps pvc_is) (ensureAccessResourceDeleted (sm_client sm) r)).
  { unfold ensureAccessResourceDeleted. solve_respects.
    - apply keeps_reads. intros c. apply get_unstructured_pure.
    - apply keeps_on_cluster. intros c Hc. unfold pvc_is. rewrite del_unstructured_pvcs; [done|].
      apply Hl. by left. }
  assert (Hrest : forall acc, respects (keeps pvc_is) (delete_access_loop (sm_client sm) l acc))
    by (intros; apply IH; intros ? ?; apply Hl; by right).
  solve_respects.
Qed.

Lemma access_removal_keeps_pvc s :
  no_claims_recorded (env_ws s) -> pvc_is (env_cluster s) ->
  pvc_is (env_cluster (ReconcileAccessForDesiredStoppedStatus sm s).2).
Proof.
  intros Hn Hs. unfold ReconcileAccessForDesiredStoppedStatus.
  change ((modify_status clear_access ;; ?m)%go s) with (m (modify_status clear_access s).2).
  set (s1 := (modify_status clear_access s).2).
  assert (Hn1 : no_claims_recorded (env_ws s1)) by done. assert (Hs1 : pvc_is (env_cluster s1)) by done.
  clearbody s1. unfold EnsureAccessResourcesDeleted. rewrite get_ws_run. case_bool_decide; [done|].
  match goal with |- pvc_is (env_cluster (?m s1).2) => assert (Hm : respects (keeps pvc_is) m) end;
    [|by apply Hm].
  pose proof (delete_access_loop_keeps_pvc _ [] Hn1). solve_respects.
Qed.

Lemma stop_calls_keep_pvc :
  respects (keeps pvc_is) (EnsureDeploymentDeleted (sm_client sm)) /\
  respects (keeps pvc_is) (EnsureServiceDeleted (sm_client sm)) /\
  forall op snap, respects (keeps pvc_is) (run_op (sm_client sm) op snap).
Proof.
  unfold EnsureDeploymentDeleted, EnsureServiceDeleted, getDeployment, getService. split_and!.
  - solve_respects; [apply keeps_reads; intros c; apply get_deployment_pure|].
    apply keeps_on_cluster. intros c Hc. unfold pvc_is. by rewrite del_deployment_pvcs.
  - solve_respects; [apply keeps_reads; intros c; apply get_service_pure|].
    apply keeps_on_cluster. intros c Hc. unfold pvc_is. by rewrite del_service_pvcs.
  - intros op snap. apply run_op_keeps. intros w c Hc. unfold pvc_is. by rewrite status_update_pvcs.
Qed.

Lemma reconcileDesiredStoppedStatus_keeps_pvc snap s :
  no_claims_recorded (env_ws s) -> pvc_is (env_cluster s) ->
  pvc_is (env_cluster (reconcileDesiredStoppedStatus sm snap s).2).
Proof.
  intros Hn Hs. destruct stop_calls_keep_pvc as (Hd & Hsv & Hop).
  pose proof (fun re ms => Hop (OpError re ms)) as He. pose proof (fun rd => Hop (OpStopping rd)) as Hst.
  pose proof (Hop OpStopped) as Hsd. cbn [run_op] in He, Hst, Hsd.
  pose proof (access_removal_keeps_pvc s Hn Hs) as Ha.
  unfold reconcileDesiredStoppedStatus. unfold st_bind at 1, st_try at 1.
  destruct (ReconcileAccessForDesiredStoppedStatus sm s) as [accessError s1]. cbn [fst snd] in Ha |- *.
  match goal with |- pvc_is (env_cluster (?m s1).2) => assert (Hm : respects (keeps pvc_is) m) end;
    [|by apply Hm].
  unfold fail_with_status. solve_respects.
Qed.
End volumes.

(** [C37] Stopping keeps the data.  Reconciling a workspace whose desired state is
    Stopped makes no call on volume claims: whatever these calls would do, the result
    and everything written are the same.  The only objects it deletes by a free kind
    are the access resources recorded in the status; so when none of them is itself a
    volume claim, and deleting or writing an object of another kind leaves claims alone,
    every volume claim is as it was, whatever else happens on the way. *)
Theorem stop_keeps_volumes `{GoRuntime} {W} (sm : StateMachine W)
    (leaving : GroupVersionKind -> string -> string -> W -> Prop)
    {CC : CleanupClient (sm_client sm) leaving} {VA : VolumesAside (sm_client sm)}
    (strategy : option WorkspaceAccessStrategy) (s : Env W) (n ns : string) :
  getDesiredStatus (env_ws s) = DesiredStateStopped ->
  (forall pvc, ReconcileDesiredState (with_pvc pvc sm) strategy s = ReconcileDesiredState sm strategy s) /\
  (no_claims_recorded (env_ws s) ->
   (crud_Get (c_PVC (sm_client sm)) n ns
      (env_cluster (ReconcileDesiredState sm strategy s).2)).1 =
   (crud_Get (c_PVC (sm_client sm)) n ns (env_cluster s)).1).
Proof.
  intros Hs. unfold ReconcileDesiredState. rewrite get_ws_run, bool_decide_true by done. split.
  - intros pvc. rewrite get_ws_run, bool_decide_true by done. reflexivity.
  - intros Hn. by apply (reconcileDesiredStoppedStatus_keeps_pvc sm leaving n ns).
Qed.

Lemma stop_keeps_volumes_witness :
  let w := set_ws_Spec (set_sp_DesiredStatus DesiredStateStopped zero_spec) demo_routed_ws in
  is_ok (crud_Get (c_PVC (mem_k8s false)) "workspace-w-pvc" "ns"
    (env_cluster (@ReconcileDesiredState canonical_runtime Mem (demo_sm false) None
       (demo_env w demo_full_mem)).2)).1 = true.
Proof.
  intros w. assert (Hn : no_claims_recorded w).
  { intros r Hr. apply list_elem_of_In in Hr. cbn in Hr. intuition (subst; discriminate). }
  destruct (@stop_keeps_volumes canonical_runtime Mem (demo_sm false) mem_leaving _ _ None
    (demo_env w demo_full_mem) "workspace-w-pvc" "ns" eq_refl) as [_ Hk].
  transitivity (is_ok (crud_Get (c_PVC (mem_k8s false)) "workspace-w-pvc" "ns" demo_full_mem).1);
    [exact (f_equal is_ok (Hk Hn))|reflexivity].
Defined.

(** ** Running *)

(** The startup probe of a strategy has succeeded under its present version, as
    the status records it. *)
Definition probe_passed (strategy : option WorkspaceAccessStrategy) (st : WorkspaceStatus) : Prop :=
  forall a p, strategy = Some a -> asps_AccessStartupProbe (was_Spec a) = Some p ->
  st_AccessStartupProbeSucceeded st = true /\
  st_ObservedAccessStrategyVersion st = versionedAccessStrategyID a.

(** It has used up its attempts. *)
Definition probe_exhausted (strategy : option WorkspaceAccessStrategy) (st : WorkspaceStatus) : Prop :=
  exists a p, strategy = Some a /\ asps_AccessStartupProbe (was_Spec a) = Some p /\
  resolveFailureThreshold p <= failures_of st.

(** How a successful run reconcile ends: the status written last ([s2]) says
    Running, Starting or Degraded, with the evidence for it. *)
Inductive run_outcome {W} (strategy : option WorkspaceAccessStrategy) (d : Deployment)
    (svc : Service) (s2 s' : Env W) : StatusOp -> Result -> Prop :=
| outcome_running r :
    IsDeploymentAvailable (Some d) = Ok true -> IsServiceAvailable (Some svc) = true ->
    probe_passed strategy (ws_Status (env_ws s2)) ->
    run_outcome strategy d svc s2 s' OpRunning r
| outcome_starting dr sr ar r :
    IsDeploymentAvailable (Some d) = Ok dr -> IsServiceAvailable (Some svc) = sr ->
    dr && sr && ar = false ->
    st_DeploymentName (ws_Status (env_ws s2)) = om_Name (dep_ObjectMeta d) ->
    st_ServiceName (ws_Status (env_ws s2)) = om_Name (svc_ObjectMeta svc) ->
    s2 = s' ->
    run_outcome strategy d svc s2 s' (OpStarting (mkRunningReadiness dr sr ar)) r
| outcome_degraded reason areason msg :
    IsDeploymentAvailable (Some d) = Ok true -> IsServiceAvailable (Some svc) = true ->
    probe_exhausted strategy (ws_Status (env_ws s2)) -> s2 = s' ->
    run_outcome strategy d svc s2 s' (OpPermanentDegraded reason areason msg) no_requeue.

Section running.
Context `{GoRuntime} {W : Type} (sm : StateMachine W) {SC : StatusClient (sm_client sm)}.

Lemma access_gate_spec svc strategy s g s' :
  access_gate sm svc strategy s = (Ok g, s') ->
  match g with
  | Some (true, _) => probe_passed strategy (ws_Status (env_ws s'))
  | Some (false, _) => True
  | None => probe_exhausted strategy (ws_Status (env_ws s'))
  end.
Proof.
  unfold access_gate. intros Hr. inv_run Hr.
  destruct strategy as [st|]; [destruct (asps_AccessStartupProbe (was_Spec st)) as [p|] eqn:Hp|].
  - pose proof (ProbeAccessStartup_leaves _ _ _ _ _ _ _ Hp Hr1) as Hl. cbv zeta in Hl.
    destruct (pr_Status a0); try done;
      try (intros a' p' [= <-] _; exact Hl). by exists st, p.
  - unfold ProbeAccessStartup in Hr1. rewrite Hp in Hr1. inv_run Hr1. cbn.
    intros a' p' [= <-]. congruence.
  - unfold ProbeAccessStartup in Hr1. inv_run Hr1. cbn. by intros a' p'.
Qed.

(** The part of the status the evidence is about. *)
Definition probe_fields (st : WorkspaceStatus) : bool * option Z * string :=
  (st_AccessStartupProbeSucceeded st, st_AccessStartupProbeFailures st,
   st_ObservedAccessStrategyVersion st).

Lemma probe_passed_fields strategy st st' :
  probe_fields st' = probe_fields st -> probe_passed strategy st -> probe_passed strategy st'.
Proof. intros [= E1 _ E3] Hp a p Ha Hap. rewrite E1, E3. by apply (Hp a p). Qed.

Lemma probe_exhausted_fields strategy st st' :
  probe_fields st' = probe_fields st -> probe_exhausted strategy st -> probe_exhausted strategy st'.
Proof.
  intros [= _ E2 _] (a & p & Ha & Hp & Hle). exists a, p. split_and!; [done..|].
  unfold failures_of in *. by rewrite E2.
Qed.

Lemma run_op_probe_fields op snap s s' r :
  run_op (sm_client sm) op snap s = (r, s') ->
  probe_fields (ws_Status (env_ws s')) = probe_fields (ws_Status (env_ws s)).
Proof.
  intros Hr. pose proof (run_op_same_on (sm_client sm) probe_fields op snap
    (fun _ _ => eq_refl) (fun _ => eq_refl) (fun _ => eq_refl) s) as Hs. by rewrite Hr in Hs.
Qed.

Lemma report_running_spec snap svc s r s' :
  report_running sm snap svc s = (Ok r, s') ->
  exists s1 s2, run_op (sm_client sm) OpRunning snap s1 = (Ok tt, s2) /\
    probe_fields (ws_Status (env_ws s2)) = probe_fields (ws_Status (env_ws s)).
Proof.
  unfold report_running. intros Hr. inv_run Hr. destruct_units.
  pose proof (probeIntegrationStatus_same_on probe_fields (sm_client sm) (sm_render_frozen sm)
    (sm_integrationProber sm) (fun _ _ => eq_refl) s0) as Hi. rewrite Hr1 in Hi.
  unfold record_event in Hr0. apply (f_equal snd) in Hr0. cbn in Hr0. subst s0.
  exists s1, s2. split; [done|].
  rewrite (run_op_probe_fields OpRunning snap s1 s2 _ Hr2). exact Hi.
Qed.

Lemma report_starting_spec snap d svc rd delay s r s' :
  report_starting sm snap d svc rd delay s = (Ok r, s') ->
  exists s1, run_op (sm_client sm) (OpStarting rd) snap s1 = (Ok tt, s') /\
    st_DeploymentName (ws_Status (env_ws s')) = om_Name (dep_ObjectMeta d) /\
    st_ServiceName (ws_Status (env_ws s')) = om_Name (svc_ObjectMeta svc).
Proof.
  unfold report_starting. intros Hr. inv_run Hr. destruct_units.
  unfold modify_status, modify_ws in Hr0. apply (f_equal snd) in Hr0. cbn in Hr0.
  exists s0. split; [done|].
  assert (Hs : respects (same_on (fun st => (st_DeploymentName st, st_ServiceName st)))
    (UpdateStartingStatus (sm_client sm) rd snap)).
  { pose proof (fun conds => updateStatus_same_on (sm_client sm)
      (fun st => (st_DeploymentName st, st_ServiceName st)) conds snap (fun _ _ => eq_refl)
      (fun _ => eq_refl)).
    unfold UpdateStartingStatus, merge_and_update, NewCondition. destruct rd as [[] [] []];
      cbn [andb negb]; solve_respects. }
  specialize (Hs s0). rewrite Hr1 in Hs. unfold same_on in Hs. cbn in Hs. subst s0.
  injection Hs as -> ->. done.
Qed.
End running.

(** [C5] Running: a successful run reconcile has ensured a deployment and a
    service, and what it last wrote to the status follows from them: Available
    only when both are available and the startup probe of the access strategy, if
    it has one, is recorded as passed under the strategy's present version;
    Degraded, for good, only when they are available and the probe has used up
    its attempts; and otherwise Starting, with the resource names recorded. *)
Theorem reconcileDesiredRunningStatus_outcome `{GoRuntime} {W} (sm : StateMachine W)
    {SC : StatusClient (sm_client sm)} (snap : WorkspaceStatus)
    (strategy : option WorkspaceAccessStrategy) (s s' : Env W) (r : Result) :
  reconcileDesiredRunningStatus sm snap strategy s = (Ok r, s') ->
  exists templates s1 s2 s3 d svc op s4 s5,
    EnsureDeploymentExists (sm_client sm) (sm_builders sm) strategy templates s1 = (Ok d, s2) /\
    EnsureServiceExists (sm_client sm) (sm_builders sm) strategy s2 = (Ok svc, s3) /\
    run_op (sm_client sm) op snap s4 = (Ok tt, s5) /\
    (forall t status, (t, status) ∈ op_statuses op ->
       cond_is (env_conditions s5) t status = true) /\
    run_outcome strategy d svc s5 s' op r.
Proof.
  unfold reconcileDesiredRunningStatus, fail_with_status. intros Hr. inv_run Hr.
  destruct a as [pvc|e]; [|inv_run Hr]. inv_run Hr. destruct a0 as [d|e]; [|inv_run Hr].
  inv_run Hr. destruct a0 as [svc|e]; [|inv_run Hr]. inv_run Hr.
  exists a.1, s1, s2, s4, d, svc.
  assert (Hgate : match a1 with
    | Some (true, _) => a0 = true /\ IsServiceAvailable (Some svc) = true /\
        probe_passed strategy (ws_Status (env_ws s3))
    | Some (false, _) => True
    | None => a0 = true /\ IsServiceAvailable (Some svc) = true /\
        probe_exhausted strategy (ws_Status (env_ws s3))
    end).
  { destruct a0, (IsServiceAvailable (Some svc)); cbn [andb] in Hr5; inv_run Hr5; try done.
    apply access_gate_spec in Hr5. destruct a1 as [[[] ?]|]; done. }
  destruct a1 as [[ar delay]|].
  - destruct (a0 && IsServiceAvailable (Some svc) && ar) eqn:Hall.
    + apply andb_true_iff in Hall as [[-> Hs]%andb_true_iff ->].
      destruct Hgate as (_ & _ & Hp). destruct (report_running_spec _ _ _ _ _ _ Hr) as (s5 & s6 & Hop & Hf).
      exists OpRunning, s5, s6. split_and!; [done..|by eapply run_op_statuses|].
      apply outcome_running; [done..|]. by eapply probe_passed_fields.
    + destruct (report_starting_spec _ _ _ _ _ _ _ _ _ Hr) as (s5 & Hop & Hd & Hs).
      eexists _, s5, s'. split_and!; [done..|exact Hop|by eapply run_op_statuses|].
      by apply outcome_starting.
  - destruct Hgate as (-> & Hs & Hx). inv_run Hr. destruct_units.
    eexists (OpPermanentDegraded _ _ _), s3, s'. split_and!; [done..|exact Hr6| |].
    + by eapply (run_op_statuses (sm_client sm) (OpPermanentDegraded _ _ _)).
    + apply outcome_degraded; [done..| |done].
      eapply probe_exhausted_fields; [|exact Hx].
      by eapply (run_op_probe_fields sm (OpPermanentDegraded _ _ _)).
Qed.

Lemma reconcileDesiredRunningStatus_outcome_witness :
  exists templates s1 s2 s3 d svc op s4 s5,
    EnsureDeploymentExists (mem_k8s false) demo_builders (Some demo_strategy) templates s1
      = (Ok d, s2) /\
    EnsureServiceExists (mem_k8s false) demo_builders (Some demo_strategy) s2 = (Ok svc, s3) /\
    run_op (mem_k8s false) op zero_status s4 = (Ok tt, s5) /\
    (forall t status, (t, status) ∈ op_statuses op ->
       cond_is (env_conditions s5) t status = true) /\
    run_outcome (Some demo_strategy) d svc s5
      (@reconcileDesiredRunningStatus canonical_runtime Mem (demo_sm false) zero_status
        (Some demo_strategy) (demo_env demo_ws empty_mem)).2 op no_requeue.
Proof.
  apply (@reconcileDesiredRunningStatus_outcome canonical_runtime Mem (demo_sm false) _ zero_status
    (Some demo_strategy) (demo_env demo_ws empty_mem)).
  vm_compute. reflexivity.
Defined.

(** ** Labels *)

(** The labels a workspace should carry for its references: the value of each of
    the four managed keys, absent when the reference is. *)
Definition wanted_label (w : Workspace) (key : string) : option string :=
  let template f := match sp_TemplateRef (ws_Spec w) with
    | Some ref => if decide (tr_Name ref = "") then None else Some (f ref) | None => None end in
  let strategy f := match sp_AccessStrategy (ws_Spec w) with
    | Some ref => if decide (asr_Name ref = "") then None else Some (f ref) | None => None end in
  if decide (key = LabelWorkspaceTemplate) then template tr_Name
  else if decide (key = LabelWorkspaceTemplateNamespace) then template (fun _ => GetTemplateRefNamespace w)
  else if decide (key = LabelAccessStrategyName) then strategy asr_Name
  else if decide (key = LabelAccessStrategyNamespace) then
    strategy (fun ref => if decide (asr_Namespace ref = "") then ws_Namespace w else asr_Namespace ref)
  else om_Labels (ws_ObjectMeta w) !! key.

Lemma ensure_label_spec key value acc :
  value <> "" ->
  (ensure_label key value acc).1 = <[key := value]> acc.1 /\
  ((ensure_label key value acc).2 = false <-> acc.2 = false /\ acc.1 !! key = Some value).
Proof.
  intros Hv. destruct acc as [l n]. unfold ensure_label. cbn.
  destruct (l !! key) as [v|] eqn:E; cbn; case_bool_decide as Hb; cbn.
  - subst. split; [by rewrite insert_id|]. tauto.
  - split; [done|]. split; [done|]. intros [_ [= ->]]. done.
  - by subst.
  - split; [done|]. split; [done|]. by intros [_ ?].
Qed.

Lemma remove_label_spec key acc :
  (remove_label key acc).1 = delete key acc.1 /\
  ((remove_label key acc).2 = false <-> acc.2 = false /\ acc.1 !! key = None).
Proof.
  destruct acc as [l n]. unfold remove_label. cbn. destruct (l !! key) eqn:E; cbn.
  - split; [done|]. split; [done|]. by intros [_ ?].
  - split; [by rewrite delete_id|]. tauto.
Qed.

(** Two labels set together or removed together. *)
Definition sync_pair (k1 k2 : string) (v : option (string * string))
    (acc : gmap string string * bool) : gmap string string * bool :=
  match v with
  | Some (v1, v2) => ensure_label k2 v2 (ensure_label k1 v1 acc)
  | None => remove_label k2 (remove_label k1 acc)
  end.

Lemma sync_pair_spec k1 k2 v acc :
  k1 <> k2 -> (forall v1 v2, v = Some (v1, v2) -> v1 <> "" /\ v2 <> "") ->
  (forall key, (sync_pair k1 k2 v acc).1 !! key =
     if decide (key = k1) then fst <$> v
     else if decide (key = k2) then snd <$> v else acc.1 !! key) /\
  ((sync_pair k1 k2 v acc).2 = false <->
     acc.2 = false /\ acc.1 !! k1 = fst <$> v /\ acc.1 !! k2 = snd <$> v).
Proof.
  intros Hk Hv. unfold sync_pair. destruct v as [[v1 v2]|].
  - destruct (Hv v1 v2 eq_refl) as [H1 H2].
    destruct (ensure_label_spec k1 v1 acc H1) as [E1 N1].
    destruct (ensure_label_spec k2 v2 (ensure_label k1 v1 acc) H2) as [E2 N2].
    rewrite E2, N2, N1, E1, lookup_insert_ne by done. split; [|cbn; tauto].
    intros key. cbn. destruct (decide (key = k1)) as [->|]; [by rewrite lookup_insert_ne, lookup_insert_eq|].
    destruct (decide (key = k2)) as [->|]; [by rewrite lookup_insert_eq|].
    by rewrite !lookup_insert_ne.
  - destruct (remove_label_spec k1 acc) as [E1 N1].
    destruct (remove_label_spec k2 (remove_label k1 acc)) as [E2 N2].
    rewrite E2, N2, N1, E1, lookup_delete_ne by done. split; [|cbn; tauto].
    intros key. cbn. destruct (decide (key = k1)) as [->|]; [by rewrite lookup_delete_ne, lookup_delete_eq|].
    destruct (decide (key = k2)) as [->|]; [by rewrite lookup_delete_eq|].
    by rewrite !lookup_delete_ne.
Qed.

Definition template_labels (w : Workspace) : option (string * string) :=
  match sp_TemplateRef (ws_Spec w) with
  | Some ref => if decide (tr_Name ref = "") then None
                else Some (tr_Name ref, GetTemplateRefNamespace w)
  | None => None
  end.
Definition strategy_labels (w : Workspace) : option (string * string) :=
  match sp_AccessStrategy (ws_Spec w) with
  | Some ref => if decide (asr_Name ref = "") then None
                else Some (asr_Name ref, if decide (asr_Namespace ref = "") then ws_Namespace w
                                         else asr_Namespace ref)
  | None => None
  end.

Lemma sync_labels_pairs w :
  let acc := sync_pair LabelAccessStrategyName LabelAccessStrategyNamespace (strategy_labels w)
    (sync_pair LabelWorkspaceTemplate LabelWorkspaceTemplateNamespace (template_labels w)
       (om_Labels (ws_ObjectMeta w), negb (has_finalizer w))) in
  sync_labels w = (set_ws_ObjectMeta (set_om_Labels acc.1
    (AddFinalizer WorkspaceFinalizerName (ws_ObjectMeta w))) w, acc.2).
Proof.
  assert (El : om_Labels (AddFinalizer WorkspaceFinalizerName (ws_ObjectMeta w)) =
               om_Labels (ws_ObjectMeta w)) by (unfold AddFinalizer; by case_match).
  unfold sync_labels, template_labels, strategy_labels, has_finalizer. rewrite El. cbv zeta.
  destruct (sp_TemplateRef (ws_Spec w)) as [t|], (sp_AccessStrategy (ws_Spec w)) as [a|];
    try (destruct (decide (tr_Name t = "")); [rewrite (bool_decide_true (tr_Name t = "")) by done
                                             |rewrite (bool_decide_false (tr_Name t = "")) by done]);
    try (destruct (decide (asr_Name a = "")); [rewrite (bool_decide_true (asr_Name a = "")) by done
                                              |rewrite (bool_decide_false (asr_Name a = "")) by done]);
    try (destruct (decide (asr_Namespace a = ""));
         [rewrite (bool_decide_true (asr_Namespace a = "")) by done
         |rewrite (bool_decide_false (asr_Namespace a = "")) by done]); reflexivity.
Qed.

Lemma sync_labels_spec w :
  ws_Namespace w <> "" ->
  (forall key, om_Labels (ws_ObjectMeta (sync_labels w).1) !! key = wanted_label w key) /\
  ((sync_labels w).2 = false <-> has_finalizer w = true /\
     forall key, om_Labels (ws_ObjectMeta w) !! key = wanted_label w key).
Proof.
  intros Hns. rewrite sync_labels_pairs. cbn [fst snd].
  set (acc0 := (om_Labels (ws_ObjectMeta w), negb (has_finalizer w))).
  assert (Ht : forall v1 v2, template_labels w = Some (v1, v2) -> v1 <> "" /\ v2 <> "").
  { intros v1 v2. unfold template_labels, GetTemplateRefNamespace.
    destruct (sp_TemplateRef (ws_Spec w)); [|done]. case_decide; [done|]. intros [= <- <-].
    split; [done|]. case_bool_decide; cbn; done. }
  assert (Ha : forall v1 v2, strategy_labels w = Some (v1, v2) -> v1 <> "" /\ v2 <> "").
  { intros v1 v2. unfold strategy_labels.
    destruct (sp_AccessStrategy (ws_Spec w)); [|done]. case_decide; [done|]. intros [= <- <-].
    split; [done|]. by case_decide. }
  destruct (sync_pair_spec LabelWorkspaceTemplate LabelWorkspaceTemplateNamespace
    (template_labels w) acc0 ltac:(done) Ht) as [L1 N1].
  destruct (sync_pair_spec LabelAccessStrategyName LabelAccessStrategyNamespace (strategy_labels w)
    (sync_pair LabelWorkspaceTemplate LabelWorkspaceTemplateNamespace (template_labels w) acc0)
    ltac:(done) Ha) as [L2 N2].
  assert (Hw : forall key, wanted_label w key =
    if decide (key = LabelAccessStrategyName) then fst <$> strategy_labels w
    else if decide (key = LabelAccessStrategyNamespace) then snd <$> strategy_labels w
    else if decide (key = LabelWorkspaceTemplate) then fst <$> template_labels w
    else if decide (key = LabelWorkspaceTemplateNamespace) then snd <$> template_labels w
    else om_Labels (ws_ObjectMeta w) !! key).
  { intros key. unfold wanted_label, template_labels, strategy_labels.
    destruct (decide (key = LabelWorkspaceTemplate)) as [->|]; [by repeat case_match|].
    destruct (decide (key = LabelWorkspaceTemplateNamespace)) as [->|]; [by repeat case_match|].
    destruct (decide (key = LabelAccessStrategyName)); [by repeat case_match|].
    destruct (decide (key = LabelAccessStrategyNamespace)); [by repeat case_match|done]. }
  split.
  - intros key. cbn. rewrite L2, L1, Hw. done.
  - rewrite N2, N1, !L1. cbn [acc0 fst snd].
    rewrite !(decide_False (P := LabelAccessStrategyName = _)) by done.
    rewrite !(decide_False (P := LabelAccessStrategyNamespace = _)) by done.
    rewrite negb_false_iff. split.
    + intros [[Hf [E1 E2]] [E3 E4]]. split; [done|]. intros key. rewrite Hw.
      repeat (case_decide; [by subst|]). done.
    + intros [Hf Hall]. split_and!; [done|..]; rewrite Hall, Hw; reflexivity.
Qed.

(** Labels and finalizer: what Reconcile writes carries the finalizer and,
    for every key, exactly the label the workspace's references call for, other
    labels untouched; a write is skipped only when it would change nothing; and
    one write is enough, the next reconcile finds nothing to do. *)
Theorem sync_labels_correct (w : Workspace) :
  ws_Namespace w <> "" ->
  has_finalizer (sync_labels w).1 = true /\
  (forall key, om_Labels (ws_ObjectMeta (sync_labels w).1) !! key = wanted_label w key) /\
  ((sync_labels w).2 = false -> (sync_labels w).1 = w) /\
  sync_labels (sync_labels w).1 = ((sync_labels w).1, false).
Proof.
  intros Hns. destruct (sync_labels_spec w Hns) as [Hl Hn].
  assert (Hfin : has_finalizer (sync_labels w).1 = true).
  { rewrite sync_labels_pairs. unfold has_finalizer. cbn.
    pose proof (ContainsFinalizer_Add WorkspaceFinalizerName (ws_ObjectMeta w)) as Hc.
    unfold ContainsFinalizer in *. exact Hc. }
  assert (Hskip : forall v, ws_Namespace v <> "" -> (sync_labels v).2 = false -> (sync_labels v).1 = v).
  { intros v Hv H0. destruct (sync_labels_spec v Hv) as [Hl' Hn'].
    apply Hn' in H0 as [Hf Hall].
    assert (El : om_Labels (ws_ObjectMeta (sync_labels v).1) = om_Labels (ws_ObjectMeta v))
      by (apply map_eq; intros key; by rewrite Hl', Hall).
    rewrite sync_labels_pairs in El |- *. cbn in El |- *. unfold has_finalizer in Hf.
    unfold AddFinalizer in *. rewrite Hf in *. cbn in El. rewrite El.
    by destruct v as [[] ? ?]. }
  split_and!; [done..|by apply Hskip|].
  set (w' := (sync_labels w).1) in *.
  assert (Hns' : ws_Namespace w' <> "").
  { unfold w'. rewrite sync_labels_pairs. cbn. unfold AddFinalizer. by case_match. }
  assert (H2 : (sync_labels w').2 = false).
  { apply sync_labels_spec; [done|]. split; [done|]. intros key. rewrite Hl.
    unfold wanted_label. rewrite (Hl key). unfold w'. rewrite sync_labels_pairs. 
    unfold wanted_label. cbn. unfold GetTemplateRefNamespace, ws_Namespace. cbn.
    unfold AddFinalizer. destruct (ContainsFinalizer _ _); cbn; by repeat case_decide. }
  rewrite (surjective_pairing (sync_labels w')). by rewrite H2, (Hskip w' Hns' H2).
Qed.

Lemma sync_labels_correct_witness :
  sync_labels (sync_labels demo_ws).1 = ((sync_labels demo_ws).1, false).
Proof. apply (sync_labels_correct demo_ws). discriminate. Defined.
