(* ===== verification/IdleDetection.v ===== *)
(** * IdleDetection: when a workspace is idle

    internal/controller idle_checker.go and idle_detectors.go: the endpoint is asked
    for the time of the last activity, over the network or by curl in the pod; the
    answer is parsed and compared with the timeout.  The HTTP client, encoding/json
    and the decimal syntax of float64 are parameters; RFC 3339, URLs and the binary64
    arithmetic are definitions. *)

From Stdlib Require Import SpecFloat.
From S2P Require Import Prelude Api Encoding StringUtil K8s Status AccessProbe Resources Integrations.
From S2P Require Import ObjectBuilders StateMachine Pods Timestamps Durations.

Local Open Scope go_scope.

Definition defaultResponseBodyPath : string := "lastActiveTimestamp".
Definition defaultTimestampFormat : string := "RFC3339".
Definition transportPodExec : string := "podExec".
Definition transportNetwork : string := "network".
Definition timestampFormatUnix : string := "unix".
Definition httpScheme : string := "http".
Definition IdleProbeTimeout : Duration := 10 * Second.

(** ** URLs *)

(** net/url's shouldEscape in the modes encodePath and encodeHost. *)
Inductive encoding := encodePath | encodeHost.
Definition alphanum (c : ascii) : bool :=
  let n := byte c in
  cont 97 122 n || cont 65 90 n || cont 48 57 n.
Definition one_of (cs : string) (c : ascii) : bool := bool_decide (c ∈ text cs).
Definition shouldEscape (c : ascii) (mode : encoding) : bool :=
  if alphanum c then false
  else match mode with
       | encodeHost =>
           negb (one_of "!$&'()*+,;=:[]<>" c || Ascii.eqb c "034" || one_of "-_.~" c)
       | encodePath => negb (one_of "-_.~" c || one_of "$&+,/:;=@" c)
       end.

Definition upperhex (n : Z) : ascii := if n <? 10 then chr (48 + n) else chr (55 + n).
Definition escape_char (mode : encoding) (c : ascii) : list ascii :=
  if shouldEscape c mode then ["%"%char; upperhex (byte c / 16); upperhex (byte c mod 16)] else [c].
Definition escape (s : string) (mode : encoding) : string :=
  String.string_of_list_ascii (text s ≫= escape_char mode).

(** net.JoinHostPort. *)
Definition JoinHostPort (host port : string) : string :=
  if bool_decide (":"%char ∈ text host) then "[" +:+ host +:+ "]:" +:+ port
  else host +:+ ":" +:+ port.

(** url.URL.String for a URL of a scheme, a host and a path that starts with a
    slash. *)
Definition URL_String (scheme host path : string) : string :=
  scheme +:+ "://" +:+ escape host encodeHost +:+ escape path encodePath.

(** strings.ToLower on an ASCII scheme. *)
Definition ToLower (s : string) : string :=
  String.string_of_list_ascii (ascii_ToLower <$> text s).

Definition resolveIdlePath (basePath httpGetPath : string) : string :=
  if bool_decide (basePath = "") || bool_decide (basePath = "/") then httpGetPath
  else TrimRight basePath "/" +:+ "/" +:+ TrimLeft httpGetPath "/".

Definition buildIdleProbeURL (httpGetConfig : IdleHTTPGetAction) (host fullPath : string) : string :=
  let action := ihga_HTTPGetAction httpGetConfig in
  let scheme := ToLower (hga_Scheme action) in
  let scheme := if bool_decide (scheme = "") then httpScheme else scheme in
  let fullPath := if HasPrefix fullPath "/" then fullPath else "/" +:+ fullPath in
  URL_String scheme (JoinHostPort host (hga_Port action)) fullPath.

(** ** The answer of the endpoint *)

(** What json.Unmarshal makes of a document: the dynamic type of [any]. *)
Inductive Json :=
| JNull
| JBool (b : bool)
| JNumber (f : spec_float)
| JString (s : string)
| JArray (items : list Json)
| JObject (fields : list (string * Json)).
Definition json_type (j : Json) : string :=
  match j with
  | JNull => "<nil>"
  | JBool _ => "bool"
  | JNumber _ => "float64"
  | JString _ => "string"
  | JArray _ => "[]interface {}"
  | JObject _ => "map[string]interface {}"
  end.

(** encoding/json, strconv.ParseFloat and FormatFloat, fmt.Sprintf of the other
    types, and the conversion of a float64 outside int64, which the language leaves
    to the implementation. *)
Record IdleLibs := mkIdleLibs {
  json_Unmarshal : string -> result Json;
  ParseFloat : string -> result spec_float;
  FormatFloat : spec_float -> string;
  Sprint_any : Json -> string;
  int64_wild : spec_float -> Z;
}.

Definition json_field (m : list (string * Json)) (part : string) : option Json :=
  snd <$> List.find (fun kv => bool_decide (kv.1 = part)) m.

(** The walk of extractJSONField along a dot-separated path. *)
Fixpoint json_walk (current : Json) (parts : list string) : result Json :=
  match parts with
  | [] => Ok current
  | part :: rest =>
      match current with
      | JObject m =>
          match json_field m part with
          | Some next => json_walk next rest
          | None => Fail (Errorf "field %q not found" [part])
          end
      | _ => Fail (Errorf "field %q: expected object, got %T" [part; json_type current])
      end
  end.

Notation Verdict := (IdleCheckResult * option error)%type.

Section detector.
Context (libs : IdleLibs).

Definition extractJSONField (body path : string) : result string :=
  match json_Unmarshal libs body with
  | Fail err => Fail (Wrapf "invalid JSON: %w" [] err)
  | Ok data =>
      current ← json_walk data (Split path ".");
      Ok (match current with
          | JString v => v
          | JNumber v => FormatFloat libs v
          | v => Sprint_any libs v
          end)
  end.

(** int64(f) of a binary64 value. *)
Definition int64_of_float (f : spec_float) : Z :=
  match float_trunc f with
  | Some n => if (minInt64 <=? n) && (n <=? maxInt64) then n else int64_wild libs f
  | None => int64_wild libs f
  end.
Definition float64_1e9 : spec_float := float64_of_int64 1000000000.

(** time.Unix(sec, nsec): normalised nanoseconds. *)
Definition unix_time (epoch : spec_float) : Time :=
  let sec := int64_of_float epoch in
  let nsec := int64_of_float
    (SFmul 53 1024 (SFsub 53 1024 epoch (float64_of_int64 sec)) float64_1e9) in
  sec * Second + nsec.

(** strings.ToUpper, up to the non-ASCII letters time.Parse refuses anyway. *)
Definition to_upper (s : string) : string :=
  String.string_of_list_ascii (ascii_ToUpper <$> text s).

Definition parseTimestamp (value format : string) : result Time :=
  if bool_decide (format = timestampFormatUnix) then
    match ParseFloat libs value with
    | Fail err => Fail (Wrapf "invalid unix timestamp %q: %w" [value] err)
    | Ok epoch => Ok (unix_time epoch)
    end
  else
    match parse_RFC3339 (to_upper value) with
    | Some t => Ok t
    | None => Fail (Wrapf "invalid RFC3339 timestamp %q: %w" [value] (Sentinel "time.ParseError"))
    end.

(** checkIdleTimeout: both durations are int64, the timeout with wrap-around. *)
Definition idle_timeout (idleConfig : IdleShutdownSpec) : Duration :=
  wrap64 (is_IdleTimeoutInMinutes idleConfig * Minute).
Definition checkIdleTimeout (now lastActivity : Time) (idleConfig : IdleShutdownSpec) : bool :=
  idle_timeout idleConfig <? time_Sub now lastActivity.

Definition field_path (httpGetConfig : IdleHTTPGetAction) : string :=
  match ihga_LastActivityTimestamp httpGetConfig with
  | Some l => if bool_decide (ilat_ResponseBodyPath l = "") then defaultResponseBodyPath
              else ilat_ResponseBodyPath l
  | None => defaultResponseBodyPath
  end.
Definition timestamp_format (httpGetConfig : IdleHTTPGetAction) : string :=
  match ihga_LastActivityTimestamp httpGetConfig with
  | Some l => if bool_decide (ilat_Format l = "") then defaultTimestampFormat else ilat_Format l
  | None => defaultTimestampFormat
  end.

(** The last activity a 200 response reports. *)
Definition reported_activity (body : string) (httpGetConfig : IdleHTTPGetAction) : result Time :=
  let fieldPath := field_path httpGetConfig in
  timestampStr ← wrap_err "failed to extract timestamp field %q: %w" [fieldPath]
                   (extractJSONField body fieldPath);
  if bool_decide (timestampStr = "") then Fail (Errorf "empty timestamp value at %q" [fieldPath])
  else wrap_err "failed to parse timestamp: %w" []
         (parseTimestamp timestampStr (timestamp_format httpGetConfig)).

Context {W : Type} (client : PodClient W).

Definition failed (retry : bool) (err : error) : ST W Verdict :=
  st_ret (mkIdleCheckResult false retry, Some err).

(** handleHTTPResponseCommon: 404 is permanent, everything else is retried. *)
Definition handleHTTPResponseCommon (statusCode body : string) (httpGetConfig : IdleHTTPGetAction)
    (idleConfig : IdleShutdownSpec) : ST W Verdict :=
  if bool_decide (statusCode = "404") then failed false (Errorf "endpoint not found" [])
  else if bool_decide (statusCode = "200") then
    match reported_activity body httpGetConfig with
    | Fail err => failed true err
    | Ok lastActivity =>
        now <- pc_Now client ;;
        st_ret (mkIdleCheckResult (checkIdleTimeout now lastActivity idleConfig) true, None)
    end
  else failed true (Errorf "unexpected HTTP status: %s" [statusCode]).

(** ** curl in the pod *)

Definition newline : ascii := "010".
Definition status_prefix : string := "HTTP Status: ".

(** The loop over the output lines: the status and the body gathered so far. *)
Fixpoint read_output (lines : list string) (statusCode body : string) : string * string :=
  match lines with
  | [] => (statusCode, body)
  | line :: rest =>
      if HasPrefix line status_prefix then read_output rest (TrimPrefix line status_prefix) body
      else if bool_decide (line = "") then read_output rest statusCode body
      else read_output rest statusCode
             (if bool_decide (body = "") then line else body +:+ String newline line)
  end.

(** The command: curl prints the body, a new line and the status. *)
Definition curl_command (probeURL : string) : list string :=
  ["curl"; "-s"; "-w"; "\nHTTP Status: %{http_code}\n"; probeURL].

(** PodExecHTTPGetDetector.CheckIdle. *)
Definition PodExecHTTPGetDetector_CheckIdle (pod : Pod) (w : Workspace)
    (idleConfig : IdleShutdownSpec) : ST W Verdict :=
  match ids_HTTPGet (is_Detection idleConfig) with
  | None => failed false (Errorf "httpGet config is nil" [])
  | Some httpGetConfig =>
      let fullPath := resolveIdlePath (st_ApplicationBasePath (ws_Status w))
                        (hga_Path (ihga_HTTPGetAction httpGetConfig)) in
      let probeURL := buildIdleProbeURL httpGetConfig "localhost" fullPath in
      out <- ExecInPod client pod PrimaryContainerName (curl_command probeURL) "" ;;
      match out with
      | (_, Some err) =>
          if Contains (ee_Error err) "exit code 7" then failed true (Errorf "connection refused" [])
          else failed true (Wrapf "curl execution failed: %w" [] (exec_error err))
      | (output, None) =>
          let '(statusCode, body) := read_output (Split output newline) "" "" in
          handleHTTPResponseCommon statusCode body httpGetConfig idleConfig
      end
  end.

(** ** The network *)

(** http.NewRequestWithContext, and the answer of the client to a GET: an error, or
    a status with the body or the error of reading it. *)
Record HttpClient := mkHttpClient {
  http_NewRequest : string -> result unit;
  http_Do : Duration -> string -> ST W (result (Z * result string));
}.
Variable http : HttpClient.

(** io.LimitReader(resp.Body, 1<<20). *)
Definition limit_body (body : string) : string :=
  if Z.of_nat (String.length body) <=? 2 ^ 20 then body
  else String.substring 0 (Z.to_nat (2 ^ 20)) body.

(** NetworkHTTPGetDetector.CheckIdle. *)
Definition NetworkHTTPGetDetector_CheckIdle (w : Workspace) (host : string)
    (idleConfig : IdleShutdownSpec) : ST W Verdict :=
  match ids_HTTPGet (is_Detection idleConfig) with
  | None => failed false (Errorf "httpGet config is nil" [])
  | Some httpGetConfig =>
      let fullPath := resolveIdlePath (st_ApplicationBasePath (ws_Status w))
                        (hga_Path (ihga_HTTPGetAction httpGetConfig)) in
      let probeURL := buildIdleProbeURL httpGetConfig host fullPath in
      match http_NewRequest http probeURL with
      | Fail err => failed false (Wrapf "failed to create request: %w" [] err)
      | Ok _ =>
          resp <- http_Do http IdleProbeTimeout probeURL ;;
          match resp with
          | Fail err => failed true (Wrapf "HTTP request failed: %w" [] err)
          | Ok (_, Fail err) => failed true (Wrapf "failed to read response body: %w" [] err)
          | Ok (StatusCode, Ok body) =>
              handleHTTPResponseCommon (Sprint_int StatusCode) (limit_body body)
                httpGetConfig idleConfig
          end
      end
  end.

(** ** The checker *)

Definition checkViaNetwork (w : Workspace) (service : Service) (idleConfig : IdleShutdownSpec)
    : ST W Verdict :=
  let host := svc_ClusterIP service in
  if bool_decide (host = "") || bool_decide (host = "None")
  then failed true (Errorf "service has no ClusterIP" [])
  else match ids_HTTPGet (is_Detection idleConfig) with
       | None => failed false (Wrapf "failed to create idle detector: %w" []
                                 (Errorf "no detection method configured" []))
       | Some _ => NetworkHTTPGetDetector_CheckIdle w host idleConfig
       end.

(** NewPodExecHTTPGetDetectorForPod panics when no client configuration is found;
    the manager could not have been built without one. *)
Definition checkViaPodExec (w : Workspace) (idleConfig : IdleShutdownSpec) : ST W Verdict :=
  found <- st_try (findWorkspacePod client w) ;;
  match found with
  | Fail err => failed true (Wrapf "failed to find workspace pod: %w" [] err)
  | Ok pod => PodExecHTTPGetDetector_CheckIdle pod w idleConfig
  end.

Definition idle_transport (idleConfig : IdleShutdownSpec) : string :=
  match ids_HTTPGet (is_Detection idleConfig) with
  | Some h => if bool_decide (ihga_Transport h = "") then transportPodExec else ihga_Transport h
  | None => transportPodExec
  end.

Definition WorkspaceIdleChecker_CheckWorkspaceIdle (w : Workspace) (service : Service)
    (idleConfig : IdleShutdownSpec) : ST W Verdict :=
  if bool_decide (idle_transport idleConfig = transportNetwork)
  then checkViaNetwork w service idleConfig
  else checkViaPodExec w idleConfig.

(** NewWorkspaceIdleChecker: the checker the state machine is built with. *)
Definition NewWorkspaceIdleChecker (checkInterval : Duration) : IdleChecker W :=
  mkIdleChecker W WorkspaceIdleChecker_CheckWorkspaceIdle
    (NewWorkspaceIdleChecker_interval checkInterval).
End detector.

(** ** The probe goes to the pinned host *)

(** How a URL is read (RFC 3986): the scheme up to the first colon, then, after two
    slashes, the authority up to the first slash, question mark or hash. *)
Fixpoint upto (stop : ascii -> bool) (l : list ascii) : list ascii * list ascii :=
  match l with
  | [] => ([], [])
  | c :: rest => if stop c then ([], l) else let '(a, b) := upto stop rest in (c :: a, b)
  end.
Definition url_split (url : string) : option (string * string * string) :=
  let '(scheme, rest) := upto (Ascii.eqb ":") (text url) in
  match rest with
  | _ :: "/"%char :: "/"%char :: rest =>
      let '(authority, path) := upto (one_of "/?#") rest in
      Some (String.string_of_list_ascii scheme, String.string_of_list_ascii authority,
            String.string_of_list_ascii path)
  | _ => None
  end.

(** Percent decoding. *)
Definition unhex (c : ascii) : Z :=
  let n := byte c in if n <? 58 then n - 48 else n - 55.
Fixpoint unescape (l : list ascii) : list ascii :=
  match l with
  | "%"%char :: a :: b :: rest => chr (16 * unhex a + unhex b) :: unescape rest
  | c :: rest => c :: unescape rest
  | [] => []
  end.

Lemma upto_app stop l rest :
  Forall (fun c => stop c = false) l ->
  match rest with c :: _ => stop c = true | [] => True end ->
  upto stop (l ++ rest) = (l, rest).
Proof.
  intros Hl Hr. induction Hl as [|c l Hc _ IH]; cbn [app upto].
  - destruct rest as [|c rest]; [done|]. cbn. by rewrite Hr.
  - by rewrite Hc, IH.
Qed.

(** A property of every byte, by evaluation. *)
Lemma ascii_forall (P : ascii -> bool) :
  forallb (fun n => P (Ascii.ascii_of_nat n)) (seq 0 256) = true -> forall c, P c = true.
Proof.
  intros Hall c. rewrite forallb_forall in Hall.
  rewrite <- (Ascii.ascii_nat_embedding c). apply Hall, in_seq.
  pose proof (Ascii.nat_ascii_bounded c). lia.
Qed.

(** What a character of a path may become, and of a host. *)
Lemma escape_path_safe c : Forall (fun d => one_of "?#" d = false) (escape_char encodePath c).
Proof.
  apply List.Forall_forall. intros d Hd. apply negb_true_iff. revert d Hd.
  rewrite <- forallb_forall. revert c. apply ascii_forall. vm_compute. reflexivity.
Qed.
Lemma escape_host_safe c : Forall (fun d => one_of "/?#@" d = false) (escape_char encodeHost c).
Proof.
  apply List.Forall_forall. intros d Hd. apply negb_true_iff. revert d Hd.
  rewrite <- forallb_forall. revert c. apply ascii_forall. vm_compute. reflexivity.
Qed.
Lemma escape_char_unescape c rest :
  unescape (escape_char encodePath c ++ rest) = c :: unescape rest.
Proof.
  assert (Hc : match escape_char encodePath c with
    | [d] => Ascii.eqb d c && negb (Ascii.eqb d "%")
    | [p; a; b] => Ascii.eqb p "%" && Ascii.eqb (chr (16 * unhex a + unhex b)) c
    | _ => false
    end = true).
  { revert c. apply ascii_forall. vm_compute. reflexivity. }
  destruct (escape_char encodePath c) as [|p [|a [|b [|? ?]]]]; try done;
    apply andb_true_iff in Hc as [H1 H2].
  - apply Ascii.eqb_eq in H1 as ->. apply negb_true_iff, Ascii.eqb_neq in H2. cbn.
    destruct c as [[] [] [] [] [] [] [] []]; done.
  - apply Ascii.eqb_eq in H1 as ->. apply Ascii.eqb_eq in H2. cbn. by rewrite H2.
Qed.
Lemma escape_unescape s : unescape (text (escape s encodePath)) = text s.
Proof.
  unfold escape. rewrite text_of_list. induction (text s) as [|c l IH]; [done|].
  cbn [mbind list_bind]. by rewrite escape_char_unescape, IH.
Qed.

(** Characters of an address: none is escaped in a host. *)
Definition address_char (c : ascii) : bool := alphanum c || one_of ".:-" c.
Lemma escape_address c : address_char c || one_of "[]" c = true -> escape_char encodeHost c = [c].
Proof.
  assert (Hc : negb (address_char c || one_of "[]" c) ||
    match escape_char encodeHost c with [d] => Ascii.eqb d c | _ => false end = true).
  { revert c. apply ascii_forall. vm_compute. reflexivity. }
  intros Ha. rewrite Ha in Hc. cbn in Hc.
  destruct (escape_char encodeHost c) as [|d [|? ?]]; try done. by apply Ascii.eqb_eq in Hc as ->.
Qed.
Lemma escape_addresses s :
  forallb (fun c => address_char c || one_of "[]" c) (text s) = true -> escape s encodeHost = s.
Proof.
  intros Hs. unfold escape. rewrite <- (string_of_text s) at 2. f_equal.
  induction (text s) as [|c l IH]; [done|]. cbn [forallb mbind list_bind] in *.
  apply andb_true_iff in Hs as [Hc Hl]. by rewrite escape_address, IH.
Qed.

Lemma Forall_escape (P : ascii -> Prop) mode s :
  (forall c, Forall P (escape_char mode c)) -> Forall P (text (escape s mode)).
Proof.
  intros Hc. unfold escape. rewrite text_of_list. apply Forall_bind, List.Forall_forall.
  intros c _. apply Hc.
Qed.

Lemma escape_slash rest : text (escape (String "/" rest) encodePath) = "/"%char :: text (escape rest encodePath).
Proof. unfold escape. by rewrite !text_of_list. Qed.

(** How a reader splits the URL of a scheme, a host and a path. *)
Lemma url_split_String scheme host rest :
  Forall (fun c => Ascii.eqb ":" c = false) (text scheme) ->
  url_split (URL_String scheme host (String "/" rest))
  = Some (scheme, escape host encodeHost, escape (String "/" rest) encodePath).
Proof.
  intros Hs. unfold url_split, URL_String. rewrite !text_app.
  rewrite (upto_app _ (text scheme)) by done. cbn [text String.list_ascii_of_string app].
  rewrite upto_app; [by rewrite !string_of_text| |by rewrite escape_slash].
  apply Forall_escape. intros c. eapply Forall_impl; [apply escape_host_safe|].
  intros d Hd. unfold one_of in *. rewrite bool_decide_eq_false in Hd |- *. set_solver.
Qed.

Definition scheme_of (httpGetConfig : IdleHTTPGetAction) : string :=
  let scheme := ToLower (hga_Scheme (ihga_HTTPGetAction httpGetConfig)) in
  if bool_decide (scheme = "") then httpScheme else scheme.
Definition rooted (path : string) : string := if HasPrefix path "/" then path else "/" +:+ path.

Lemma rooted_slash path : exists rest, rooted path = String "/" rest.
Proof.
  unfold rooted, HasPrefix. destruct path as [|c path]; [by exists ""|].
  destruct (String.prefix "/" (String c path)) eqn:E; [|by exists (String c path)].
  cbn [String.prefix] in E. destruct (ascii_dec "/" c) as [<-|Hc]; [by exists path|done].
Qed.

Lemma JoinHostPort_address host port :
  forallb address_char (text host) = true -> forallb address_char (text port) = true ->
  forallb (fun c => address_char c || one_of "[]" c) (text (JoinHostPort host port)) = true.
Proof.
  intros Hh Hp. unfold JoinHostPort.
  assert (Hw : forall s, forallb address_char (text s) = true ->
    forallb (fun c => address_char c || one_of "[]" c) (text s) = true).
  { intros s. rewrite !forallb_forall. intros Hs c Hc. by rewrite Hs. }
  case_bool_decide; rewrite !text_app, !forallb_app, (Hw host), (Hw port) by done; reflexivity.
Qed.

(** The idle probe stays on its host: whatever path the workspace configures,
    and whatever its port says, the URL has the configured scheme and an authority
    made only of the host and the port, without user information; for an address and
    a port it is exactly their join.  The path is rooted, has no query and no
    fragment, and the server decodes it to the configured path. *)
Theorem probe_url_pinned (httpGetConfig : IdleHTTPGetAction) (host fullPath : string) :
  Forall (fun c => Ascii.eqb ":" c = false) (text (scheme_of httpGetConfig)) ->
  let port := hga_Port (ihga_HTTPGetAction httpGetConfig) in
  exists authority path,
    url_split (buildIdleProbeURL httpGetConfig host fullPath)
      = Some (scheme_of httpGetConfig, authority, path) /\
    authority = escape (JoinHostPort host port) encodeHost /\
    Forall (fun c => one_of "/?#@" c = false) (text authority) /\
    (forallb address_char (text host) = true -> forallb address_char (text port) = true ->
     authority = JoinHostPort host port) /\
    Forall (fun c => one_of "?#" c = false) (text path) /\
    unescape (text path) = text (rooted fullPath).
Proof.
  intros Hs port. destruct (rooted_slash fullPath) as [rest Hrest].
  exists (escape (JoinHostPort host port) encodeHost), (escape (rooted fullPath) encodePath).
  split_and!; [|done|apply Forall_escape, escape_host_safe| |apply Forall_escape, escape_path_safe
              |apply escape_unescape].
  - unfold buildIdleProbeURL. cbv zeta. fold (scheme_of httpGetConfig). fold (rooted fullPath).
    rewrite Hrest. by apply url_split_String.
  - intros Hh Hp. by apply escape_addresses, JoinHostPort_address.
Qed.

Definition demo_http_get : IdleHTTPGetAction :=
  mkIdleHTTPGetAction (mkHTTPGetAction "@evil-host/x?y#z" "8888" "" "HTTP" []) "network" None.
Lemma probe_url_pinned_witness :
  exists path, url_split (buildIdleProbeURL demo_http_get "fd00::7" "@evil-host/x?y#z")
    = Some ("http", "[fd00::7]:8888", path) /\
  unescape (text path) = text "/@evil-host/x?y#z".
Proof.
  destruct (probe_url_pinned demo_http_get "fd00::7" "@evil-host/x?y#z")
    as (authority & path & Hu & _ & _ & Ha & _ & Hp).
  - apply List.Forall_forall. intros c Hc. apply negb_true_iff. revert c Hc. rewrite <- forallb_forall.
    vm_compute. reflexivity.
  - exists path. rewrite Ha in Hu by (vm_compute; reflexivity). split; [exact Hu|exact Hp].
Defined.

(** ** curl's status line cannot be forged *)

(** What curl prints for a response: the body, then the line of the -w format. *)
Definition curl_output (body code : string) : string :=
  body +:+ String newline (status_prefix +:+ code +:+ String newline "").

Lemma leading_space_bound t r n :
  leading_space (t ++ "H"%char :: r) = Some n -> (n <= length t)%nat.
Proof.
  unfold leading_space. destruct (List.find _ spaces) as [sp|] eqn:E; [|done]. intros [= <-].
  apply List.find_some in E as [Hin Htake%bool_decide_eq_true].
  destruct (Nat.le_gt_cases (length sp) (length t)) as [?|Hgt]; [done|exfalso].
  assert (H72 : 72 ∈ sp).
  { rewrite <- Htake, fmap_app. apply list_elem_of_lookup. exists (length t).
    rewrite lookup_take_lt by done. rewrite lookup_app_r by (by rewrite length_fmap).
    by rewrite length_fmap, Nat.sub_diag. }
  assert (Hno : forallb (fun sp => bool_decide (72 ∉ sp)) spaces = true) by reflexivity.
  rewrite forallb_forall in Hno. by apply Hno, bool_decide_eq_true in Hin.
Qed.

(** Nothing, or whole lines. *)
Definition whole_lines (t : list ascii) : Prop := t = [] \/ exists u, t = u ++ [newline].

Lemma whole_lines_drop n t : whole_lines t -> whole_lines (drop n t).
Proof.
  intros [->|[u ->]]; [left; apply drop_nil|].
  destruct (Nat.le_gt_cases n (length u)).
  - right. exists (drop n u). by rewrite drop_app_le.
  - left. rewrite drop_ge; [done|]. rewrite length_app. cbn. lia.
Qed.

Lemma trim_left_lines fuel t r :
  whole_lines t -> exists t', trim_left fuel (t ++ "H"%char :: r) = t' ++ "H"%char :: r /\ whole_lines t'.
Proof.
  revert t. induction fuel as [|fuel IH]; intros t Ht; cbn [trim_left]; [by exists t|].
  destruct (leading_space (t ++ "H"%char :: r)) as [n|] eqn:E; [|by exists t].
  rewrite drop_app_le by (by eapply leading_space_bound). by apply IH, whole_lines_drop.
Qed.

Lemma trailing_space_digit u d : cont 48 57 (byte d) = true -> trailing_space (u ++ [d]) = None.
Proof.
  intros Hd. unfold trailing_space. destruct (List.find _ spaces) as [sp|] eqn:E; [exfalso|done].
  apply List.find_some in E as [Hin [Hl Hdrop]%andb_true_iff].
  apply Nat.leb_le in Hl. apply bool_decide_eq_true in Hdrop.
  assert (Hno : forallb (fun sp => match last sp with Some b => negb (cont 48 57 b) | None => false end)
    spaces = true) by reflexivity.
  rewrite forallb_forall in Hno. apply Hno in Hin.
  assert (Hsp : sp <> []) by (by intros ->).
  assert (Hlast : last sp = Some (byte d)).
  { rewrite <- Hdrop, fmap_app, drop_app_le; [cbn [fmap list_fmap]; by rewrite last_snoc|].
    rewrite length_fmap, length_app. destruct sp; [done|]. cbn. lia. }
  rewrite Hlast in Hin. by rewrite Hd in Hin.
Qed.

Lemma trailing_space_newline u : trailing_space (u ++ [newline]) = Some 1%nat.
Proof.
  unfold trailing_space, spaces. cbn [List.find length].
  rewrite length_app. cbn [length]. rewrite Nat.add_sub.
  rewrite fmap_app, drop_app_length' by (by rewrite length_fmap).
  rewrite (proj2 (Nat.leb_le 1 (length u + 1))) by lia. reflexivity.
Qed.

Lemma trim_right_line fuel u d :
  cont 48 57 (byte d) = true -> trim_right (S (S fuel)) (u ++ [d; newline]) = u ++ [d].
Proof.
  intros Hd. change [d; newline] with ([d] ++ [newline]). rewrite app_assoc. cbn [trim_right].
  rewrite trailing_space_newline. rewrite take_app_le by (rewrite !length_app; cbn; lia).
  rewrite take_ge by (rewrite !length_app; cbn; lia). by rewrite trailing_space_digit.
Qed.

Lemma read_output_app l1 l2 st b :
  read_output (l1 ++ l2) st b = let '(st', b') := read_output l1 st b in read_output l2 st' b'.
Proof.
  revert st b. induction l1 as [|line l1 IH]; intros st b; [done|].
  cbn [app read_output]. destruct (HasPrefix line status_prefix); [apply IH|].
  case_bool_decide; apply IH.
Qed.

Lemma read_status_line lines code st b :
  exists body, read_output (lines ++ [status_prefix +:+ code]) st b = (code, body).
Proof.
  rewrite read_output_app. destruct (read_output lines st b) as [st' b'].
  exists b'. cbn [read_output]. by rewrite HasPrefix_app, TrimPrefix_app.
Qed.

(** Whatever the body contains, a line that looks like curl's included, the status
    read is the one curl printed. *)
Lemma curl_status_read body code u d :
  text code = u ++ [d] -> cont 48 57 (byte d) = true ->
  Forall (fun c => Ascii.eqb c newline = false) (text code) ->
  exists rest, read_output (Split (TrimSpace (curl_output body code)) newline) "" "" = (code, rest).
Proof.
  intros Hcode Hd Hnl.
  set (line := "H"%char :: text "TTP Status: " ++ text code).
  assert (Hco : text (curl_output body code) = (text body ++ [newline]) ++ line ++ [newline]).
  { unfold curl_output, line. rewrite text_app.
    change (text (String newline (status_prefix +:+ code +:+ String newline "")))
      with (newline :: text (status_prefix +:+ code +:+ String newline "")).
    rewrite !text_app, <- !app_assoc. reflexivity. }
  destruct (trim_left_lines (length (text (curl_output body code))) (text body ++ [newline])
    (text "TTP Status: " ++ text code ++ [newline])) as (t & Et & Ht); [right; by eexists|].
  assert (Hout : TrimSpace (curl_output body code) = String.string_of_list_ascii (t ++ line)).
  { unfold TrimSpace. cbv zeta. rewrite Hco in Et |- *.
    assert (Hl : "H"%char :: text "TTP Status: " ++ text code ++ [newline] = line ++ [newline])
      by (unfold line; rewrite <- app_comm_cons, <- app_assoc; done).
    rewrite Hl in Et.
    rewrite Et. f_equal.
    replace (t ++ line ++ [newline])
      with ((t ++ "H"%char :: text "TTP Status: " ++ u) ++ [d; newline])
      by (rewrite <- Hl, Hcode, <- !app_assoc, <- app_comm_cons, <- !app_assoc; done).
    rewrite length_app. rewrite Nat.add_comm. cbn [length Nat.add]. rewrite trim_right_line by done.
    unfold line. by rewrite Hcode, <- !app_assoc, <- app_comm_cons, <- !app_assoc. }
  assert (Hline : String.string_of_list_ascii line = status_prefix +:+ code).
  { rewrite <- (string_of_text (status_prefix +:+ code)). by rewrite text_app. }
  assert (Hone : Split (status_prefix +:+ code) newline = [status_prefix +:+ code]).
  { apply Split_none. rewrite text_app. apply Forall_app. split; [|done].
    repeat constructor. }
  rewrite Hout. destruct Ht as [->|[v ->]].
  - cbn [app]. rewrite Hline, Hone. apply (read_status_line []).
  - rewrite <- app_assoc. cbn [app].
    replace (String.string_of_list_ascii (v ++ newline :: line))
      with (String.string_of_list_ascii v +:+ String newline (status_prefix +:+ code)).
    { rewrite Split_app, Hone. apply read_status_line. }
    rewrite <- Hline, <- (string_of_text (_ +:+ _)). f_equal. rewrite text_app, text_of_list.
    change (text (String newline ?x)) with (newline :: text x). by rewrite text_of_list.
Qed.

(** ** A workspace is stopped on evidence *)

(** A day of activity as a server prints it, in either case, is read as that time. *)
Lemma reported_rfc3339 libs body h c fraction v :
  extractJSONField libs body (field_path h) = Ok v -> timestamp_format h = "RFC3339" ->
  to_upper v = rfc3339_text c fraction ->
  valid_civil c -> Forall (fun d => 0 <= d <= 9) fraction -> cv_nanosecond c = nanoseconds 9 fraction ->
  reported_activity libs body h = Ok (time_Date c).
Proof.
  intros Hv Hf Hu Hc Hd Hn. unfold reported_activity. rewrite Hv, Hf. cbn [wrap_err mbind result_bind].
  rewrite bool_decide_false; [|intros ->; by destruct c].
  unfold parseTimestamp. rewrite bool_decide_false by done. rewrite Hu.
  by rewrite (parse_RFC3339_text c fraction).
Qed.

(** Timeouts of up to 292 years are what they say. *)
Lemma idle_timeout_exact cfg :
  0 <= is_IdleTimeoutInMinutes cfg <= 153722867 ->
  idle_timeout cfg = is_IdleTimeoutInMinutes cfg * Minute /\
  forall now last, checkIdleTimeout now last cfg = true <->
    last + is_IdleTimeoutInMinutes cfg * Minute < now.
Proof.
  intros Hm. assert (Ht : idle_timeout cfg = is_IdleTimeoutInMinutes cfg * Minute).
  { unfold idle_timeout. rewrite wrap64_id; [done|]. unfold int64_ok, minInt64, maxInt64, Minute, Second. lia. }
  split; [done|]. intros now last. unfold checkIdleTimeout. rewrite Ht, Z.ltb_lt.
  unfold time_Sub, minInt64, maxInt64, Minute, Second in *. lia.
Qed.

(** One minute more and the product overflows: activity this instant is idle. *)
Lemma idle_timeout_overflows cfg now :
  is_IdleTimeoutInMinutes cfg = 153722868 -> checkIdleTimeout now now cfg = true.
Proof. intros Hm. unfold checkIdleTimeout, idle_timeout. rewrite Hm. unfold time_Sub. by rewrite Z.sub_diag. Qed.

Section evidence.
Context {W : Type} (libs : IdleLibs) (client : PodClient W) (http : @HttpClient W).

(** The endpoint answered 200 with a body: over the network to the cluster IP, to a
    request net/http lets be made, or to curl in the first running pod. *)
Inductive answered (w : Workspace) (service : Service) (cfg : IdleShutdownSpec)
    (h : IdleHTTPGetAction) (s : W) : string -> W -> Prop :=
| answered_network body s1 :
    idle_transport cfg = transportNetwork ->
    svc_ClusterIP service <> "" -> svc_ClusterIP service <> "None" ->
    is_ok (http_NewRequest http (buildIdleProbeURL h (svc_ClusterIP service)
      (resolveIdlePath (st_ApplicationBasePath (ws_Status w)) (hga_Path (ihga_HTTPGetAction h))))) = true ->
    http_Do http IdleProbeTimeout (buildIdleProbeURL h (svc_ClusterIP service)
      (resolveIdlePath (st_ApplicationBasePath (ws_Status w)) (hga_Path (ihga_HTTPGetAction h)))) s
      = (Ok (Ok (200, Ok body)), s1) ->
    answered w service cfg h s (limit_body body) s1
| answered_exec pod s0 output body s1 :
    idle_transport cfg <> transportNetwork ->
    findWorkspacePod client w s = (Ok pod, s0) ->
    ExecInPod client pod PrimaryContainerName (curl_command (buildIdleProbeURL h "localhost"
      (resolveIdlePath (st_ApplicationBasePath (ws_Status w)) (hga_Path (ihga_HTTPGetAction h))))) "" s0
      = (Ok (output, None), s1) ->
    read_output (Split output newline) "" "" = ("200", body) ->
    answered w service cfg h s body s1.

(** The evidence of idleness: the configured endpoint reported a last activity
    longer ago than the timeout. *)
Definition idle_evidence (w : Workspace) (service : Service) (cfg : IdleShutdownSpec) (s s2 : W)
    : Prop :=
  exists h body last now s1, ids_HTTPGet (is_Detection cfg) = Some h /\
    answered w service cfg h s body s1 /\ reported_activity libs body h = Ok last /\
    pc_Now client s1 = (Ok now, s2) /\ checkIdleTimeout now last cfg = true.

Lemma handle_idle status body h cfg s v s' :
  handleHTTPResponseCommon libs client status body h cfg s = (Ok v, s') -> IsIdle v.1 = true ->
  v.2 = None /\ status = "200" /\ exists last now,
    reported_activity libs body h = Ok last /\ pc_Now client s = (Ok now, s') /\
    checkIdleTimeout now last cfg = true.
Proof.
  unfold handleHTTPResponseCommon. intros Hr Hi.
  case_bool_decide; [injection Hr as <- <-; done|]. case_bool_decide; [|injection Hr as <- <-; done].
  destruct (reported_activity libs body h) as [last|e]; [|injection Hr as <- <-; done].
  apply st_bind_Ok in Hr as (now & s1 & Hn & Hr). injection Hr as <- <-. naive_solver.
Qed.

Lemma Sprint_int_200 code : Sprint_int code = "200" -> code = 200.
Proof.
  intros H. destruct code as [|p|p]; [done| |done].
  assert (E : forall a b, string_gt a b = true -> a <> b).
  { intros a b Hab ->. pose proof (string_gt_asym _ _ Hab). congruence. }
  destruct (Z.lt_trichotomy (Z.pos p) 200) as [Hlt|[Heq|Hgt]]; [exfalso|done|exfalso].
  - apply (E (Sprint_int 200) (Sprint_int (Z.pos p))); [|done].
    rewrite Sprint_int_gt by (done || by rewrite H). by apply Z.ltb_lt.
  - apply (E (Sprint_int (Z.pos p)) (Sprint_int 200)); [|done].
    rewrite Sprint_int_gt by (done || by rewrite H). by apply Z.ltb_lt.
Qed.

(** The checker calls a workspace idle on evidence only, and then without error. *)
Lemma checker_idle w service cfg s v s' :
  WorkspaceIdleChecker_CheckWorkspaceIdle libs client http w service cfg s = (Ok v, s') ->
  IsIdle v.1 = true -> v.2 = None /\ idle_evidence w service cfg s s'.
Proof.
  unfold WorkspaceIdleChecker_CheckWorkspaceIdle. intros Hr Hi. case_bool_decide as Ht.
  - unfold checkViaNetwork in Hr. cbv zeta in Hr.
    destruct (bool_decide (svc_ClusterIP service = "") || _) eqn:Eh; [injection Hr as <- <-; done|].
    apply orb_false_iff in Eh as [H1%bool_decide_eq_false H2%bool_decide_eq_false].
    unfold NetworkHTTPGetDetector_CheckIdle in Hr. cbv zeta in Hr.
    destruct (ids_HTTPGet (is_Detection cfg)) as [h|] eqn:Ehttp; [|injection Hr as <- <-; done].
    destruct (http_NewRequest http _) eqn:Hnr; [|injection Hr as <- <-; done].
    apply st_bind_Ok in Hr as ([[code [body|e]]|e] & s1 & Hdo & Hr);
      [|injection Hr as <- <-; done..].
    apply handle_idle in Hr as (Hn & Hc & last & now & Hl & Hnow & Hto); [|done].
    split; [done|]. apply Sprint_int_200 in Hc as ->.
    exists h, (limit_body body), last, now, s1. split_and!; try done. apply answered_network; try done. by rewrite Hnr.
  - unfold checkViaPodExec in Hr. apply st_bind_Ok in Hr as (found & s0 & Hf & Hr).
    unfold st_try in Hf. destruct (findWorkspacePod client w s) as [r sf] eqn:Ef.
    injection Hf as <- <-. destruct r as [pod|e]; [|injection Hr as <- <-; done].
    unfold PodExecHTTPGetDetector_CheckIdle in Hr. cbv zeta in Hr.
    destruct (ids_HTTPGet (is_Detection cfg)) as [h|] eqn:Ehttp; [|injection Hr as <- <-; done].
    apply st_bind_Ok in Hr as ([output [err|]] & s1 & He & Hr).
    { destruct (Contains (ee_Error err) "exit code 7"); injection Hr as <- <-; done. }
    destruct (read_output (Split output newline) "" "") as [status body] eqn:Eo.
    apply handle_idle in Hr as (Hn & -> & last & now & Hl & Hnow & Hto); [|done].
    split; [done|]. exists h, body, last, now, s1. split_and!; try done. by eapply answered_exec.
Qed.

(** Conversely evidence is never missed. *)
Lemma evidence_idle w service cfg s v s' s2 :
  WorkspaceIdleChecker_CheckWorkspaceIdle libs client http w service cfg s = (Ok v, s') ->
  idle_evidence w service cfg s s2 -> v = (mkIdleCheckResult true true, None) /\ s' = s2.
Proof.
  intros Hr (h & body & last & now & s1 & Hh & Ha & Hl & Hn & Hto).
  assert (Hhandle : handleHTTPResponseCommon libs client "200" body h cfg s1
    = (Ok (mkIdleCheckResult true true, None), s2)).
  { unfold handleHTTPResponseCommon. rewrite bool_decide_false, bool_decide_true by done.
    rewrite Hl. apply st_bind_Ok. exists now, s2. by rewrite Hto. }
  unfold WorkspaceIdleChecker_CheckWorkspaceIdle in Hr.
  destruct Ha as [body s1 Ht H1 H2 Hreq Hdo|pod s0 output body s1 Ht Hf He Ho].
  - rewrite bool_decide_true in Hr by done. unfold checkViaNetwork in Hr. cbv zeta in Hr.
    rewrite !bool_decide_false in Hr by done. cbn [orb] in Hr.
    unfold NetworkHTTPGetDetector_CheckIdle in Hr. cbv zeta in Hr. rewrite Hh in Hr.
    destruct (http_NewRequest http _); [|done]. unfold st_bind in Hr. rewrite Hdo in Hr.
    change (Sprint_int 200) with "200" in Hr. rewrite Hhandle in Hr. by injection Hr as <- <-.
  - rewrite bool_decide_false in Hr by done. unfold checkViaPodExec, st_bind, st_try in Hr.
    rewrite Hf in Hr. unfold PodExecHTTPGetDetector_CheckIdle in Hr. cbv zeta in Hr. rewrite Hh in Hr.
    unfold st_bind in Hr. rewrite He, Ho, Hhandle in Hr. by injection Hr as <- <-.
Qed.
End evidence.

(** [C26] Idle shutdown acts on evidence.  When the state machine looks for idleness with
    the real checker, it either leaves the workspace and its events alone, and then
    there was no evidence to miss, or it stops the workspace, and then idle shutdown is
    enabled and the configured endpoint of this workspace answered 200, at its cluster
    IP or inside its running pod, with a last activity that the clock's reading exceeds
    by more than the timeout as the code computes it.  Up to 153722867 minutes that
    timeout is the configured number of minutes; for larger numbers, which are accepted,
    the int64 product overflows and nothing is claimed beyond that. *)
Theorem idle_stop_justified {W} (sm : StateMachine W) (libs : IdleLibs) (client : PodClient W)
    (http : @HttpClient W) (interval : Duration) (service : Service) (e e' : Env W) (r : Result) :
  sm_idleChecker sm = NewWorkspaceIdleChecker libs client http interval ->
  handleIdleShutdownForRunningWorkspace sm service e = (Ok r, e') ->
  (env_ws e' = env_ws e /\ env_events e' = env_events e /\
   forall cfg s2, sp_IdleShutdown (ws_Spec (env_ws e)) = Some cfg -> is_Enabled cfg = true ->
     ~ idle_evidence libs client http (env_ws e) service cfg (env_cluster e) s2) \/
  exists cfg s2, sp_IdleShutdown (ws_Spec (env_ws e)) = Some cfg /\ is_Enabled cfg = true /\
    stopWorkspaceDueToIdle sm cfg (mkEnv s2 (env_ws e) (env_clock e) (env_events e)) = (Ok r, e') /\
    exists h body last now s1, ids_HTTPGet (is_Detection cfg) = Some h /\
      answered client http (env_ws e) service cfg h (env_cluster e) body s1 /\
      reported_activity libs body h = Ok last /\ pc_Now client s1 = (Ok now, s2) /\
      idle_timeout cfg < time_Sub now last /\
      (0 <= is_IdleTimeoutInMinutes cfg <= 153722867 ->
       last + is_IdleTimeoutInMinutes cfg * Minute < now).
Proof.
  intros Hck Hr. unfold handleIdleShutdownForRunningWorkspace in Hr.
  apply st_bind_Ok in Hr as (w & e0 & Hw & Hr). injection Hw as <- <-.
  destruct (sp_IdleShutdown (ws_Spec (env_ws e))) as [cfg|];
    [|injection Hr as <- <-; left; split_and!; [done..|by intros ? ? [=]]].
  destruct (is_Enabled cfg) eqn:Een; cbn [negb] in Hr;
    [|injection Hr as <- <-; left; split_and!; [done..|intros ? ? [= <-]; congruence]].
  apply st_bind_Ok in Hr as (v & e1 & Hv & Hr). rewrite Hck in Hv, Hr.
  unfold on_cluster in Hv. cbn [CheckWorkspaceIdle NewWorkspaceIdleChecker] in Hv.
  destruct (WorkspaceIdleChecker_CheckWorkspaceIdle _ _ _ _ _ _ _) as [vr s'] eqn:Ec.
  injection Hv as -> <-.
  destruct (IsIdle v.1) eqn:Ei.
  - right. destruct (checker_idle _ _ _ _ _ _ _ _ _ Ec Ei) as (Hnone & h & body & last & now & s1 &
      Hh & Ha & Hl & Hn & Hto).
    destruct v as [res err]. cbn [fst snd] in *. subst err. rewrite Ei in Hr.
    exists cfg, s'. split_and!; [done..|]. exists h, body, last, now, s1. split_and!; [done..|by apply Z.ltb_lt|].
    intros Hb. by apply (idle_timeout_exact cfg Hb).
  - left. assert (He : env_ws e' = env_ws e /\ env_events e' = env_events e).
    { destruct v as [res [err|]]; cbn [fst snd] in *; [destruct (ShouldRetry res)|rewrite Ei in Hr];
        injection Hr as <- <-; done. }
    destruct He as [He1 He2]. split_and!; [done..|]. intros cfg' s2 [= <-] _ Hev.
    destruct (evidence_idle _ _ _ _ _ _ _ _ _ _ Ec Hev) as [-> _]. done.
Qed.

(** A workspace whose server reports activity at the epoch, checked two hours later. *)
Definition demo_idle_config : IdleShutdownSpec :=
  mkIdleShutdownSpec true 60 (mkIdleDetectionSpec (Some
    (mkIdleHTTPGetAction (mkHTTPGetAction "/api/idle" "8888" "" "" []) "network" None))).
Definition demo_idle_libs : IdleLibs := {|
  json_Unmarshal := fun body => Ok (JObject [("lastActiveTimestamp", JString body)]);
  ParseFloat := fun _ => Ok (S754_zero false);
  FormatFloat := fun _ => "0";
  Sprint_any := fun _ => "";
  int64_wild := fun _ => minInt64;
|}.
Definition demo_http {W} : @HttpClient W :=
  mkHttpClient (fun _ => Ok tt) (fun _ _ => st_ret (Ok (200, Ok "1970-01-01t00:00:00z"))).
Definition demo_idle_sm : StateMachine Mem := {|
  sm_client := mem_k8s false;
  sm_builders := demo_builders;
  sm_idleChecker := NewWorkspaceIdleChecker demo_idle_libs (demo_pods "" "" None (120 * Minute)) demo_http 0;
  sm_accessStartupProber := fun _ _ _ => st_ret true;
  sm_integrationProber := None;
  sm_sha256_hex := fun x => x;
  sm_capture := fun _ _ _ => st_ret ∅;
  sm_render_frozen := fun _ _ _ t => Ok t;
|}.
Definition demo_idle_ws : Workspace :=
  set_ws_Spec (set_sp_IdleShutdown (Some demo_idle_config) (ws_Spec demo_ws)) demo_ws.
Definition demo_idle_mem : Mem :=
  (crud_Create (c_Workspace (mem_k8s false)) demo_idle_ws empty_mem).2.
Definition demo_idle_service : Service :=
  mkService (zero_meta "workspace-w-service" "ns") (mkServiceSpec "ClusterIP" ∅ [] "10.0.0.9" None) [].
Definition demo_idle_run : result Result * Env Mem :=
  handleIdleShutdownForRunningWorkspace demo_idle_sm demo_idle_service
    (demo_env demo_idle_ws demo_idle_mem).

Lemma idle_stop_justified_witness :
  sp_DesiredStatus (ws_Spec (env_ws demo_idle_run.2)) = DesiredStateStopped /\
  exists last now, parse_RFC3339 "1970-01-01T00:00:00Z" = Some last /\ last + 60 * Minute < now.
Proof.
  assert (Hs : sp_DesiredStatus (ws_Spec (env_ws demo_idle_run.2)) = DesiredStateStopped)
    by (vm_compute; reflexivity).
  split; [exact Hs|].
  assert (Hrun : exists r, demo_idle_run = (Ok r, demo_idle_run.2)) by (eexists; vm_compute; reflexivity).
  destruct Hrun as [r Hrun].
  destruct (idle_stop_justified demo_idle_sm demo_idle_libs (demo_pods "" "" None (120 * Minute))
    demo_http 0 demo_idle_service (demo_env demo_idle_ws demo_idle_mem) demo_idle_run.2 r eq_refl Hrun)
    as [(Hw & _)|(cfg & s2 & Hcfg & _ & _ & h & body & last & now & s1 & Hh & Ha & Hl & _ & _ & Hto)].
  - rewrite Hw in Hs. vm_compute in Hs. discriminate.
  - injection Hcfg as <-. injection Hh as <-. exists last, now. split.
    + destruct Ha as [body s1 _ _ _ _ Hdo|pod s0 output body s1 Ht]; [|by destruct Ht].
      injection Hdo as <- _. vm_compute in Hl |- *. by injection Hl as <-.
    + apply Hto. vm_compute. split; discriminate.
Defined.
