(* ===== verification/PodEvents.v ===== *)
(** * PodEvents: reacting to pods and to preemption

    internal/controller/pod_event_handler.go, the watches and their predicates in
    workspace_controller.go, and internal/webhook/v1alpha1/pod_exec_webhook.go.  Pod
    events go to the adapter of the plugin the access strategy names; a preemption
    event is meant to stop the workspace whose pod was preempted. *)

From S2P Require Import Prelude Api StringUtil K8s WorkspaceQueries Status Resources StateMachine.
From S2P Require Import ObjectBuilders Pods SsmAdapter.

Local Open Scope go_scope.

Definition KindPod : string := "Pod".
Definition pluginNameAWS : string := "aws".

(** corev1.Event: what the handlers read. *)
Record KubeEvent := mkKubeEvent {
  ke_Kind : string;
  ke_Name : string;
  ke_Namespace : string;
  ke_Reason : string;
  ke_Message : string;
}.

(** pluginadapters.PodEventPluginAdapter. *)
Record PodEventAdapter (W : Type) := mkPodEventAdapter {
  pea_HandlePodRunning : Pod -> string -> string -> gmap string string -> ST W unit;
  pea_HandlePodDeleted : Pod -> gmap string string -> ST W unit;
}.
Arguments pea_HandlePodRunning {W}.
Arguments pea_HandlePodDeleted {W}.

(** The SSM adapter as such an adapter. *)
Definition ssm_adapter {W} (s : AwsSsmPodEventAdapter W) : PodEventAdapter W :=
  mkPodEventAdapter W (HandlePodRunning s) (HandlePodDeleted s).

(** PodEventHandler, with plugin.ParseHandlerRef. *)
Record PodEventHandler (W : Type) := mkPodEventHandler {
  peh_client : Client W;
  podEventAdapters : gmap string (PodEventAdapter W);
  ParseHandlerRef : string -> string * string;
}.
Arguments peh_client {W}.
Arguments podEventAdapters {W}.
Arguments ParseHandlerRef {W}.

(** NewPodEventHandler: of the configured plugins only aws has an adapter; without
    plugins or without pod exec there is none. *)
Definition NewPodEventHandler {W} (client : Client W) (parse : string -> string * string)
    (podExecUtil : option (PluginApis W -> AwsSsmPodEventAdapter W))
    (pluginClients : gmap string (PluginApis W)) : PodEventHandler W :=
  mkPodEventHandler W client
    (match podExecUtil with
     | Some build =>
         match pluginClients !! pluginNameAWS with
         | Some api => {[ pluginNameAWS := ssm_adapter (build api) ]}
         | None => ∅
         end
     | None => ∅
     end) parse.

Definition reconcile_request : Type := string * string.

(** A computation of a reconcile, on a workspace just fetched. *)
Definition with_workspace {W A} (w : Workspace) (m : M W A) : ST W A := fun s =>
  let (r, e) := m (mkEnv s w (fun _ => 0) []) in (r, env_cluster e).

(** An error that is logged. *)
Definition logged {W A} (m : ST W A) : ST W unit := st_try m ;; st_ret tt.

Section handler.
Context `{GoRuntime} {W : Type} (h : PodEventHandler W).

(** The dispatch to the adapter of the strategy's plugin. *)
Definition dispatch (accessStrategy : WorkspaceAccessStrategy) (pod : Pod)
    (call : PodEventAdapter W -> gmap string string -> ST W unit) : ST W unit :=
  let spec := was_Spec accessStrategy in
  if bool_decide (asps_PodEventsHandler spec = "") then st_ret tt
  else
  let '(pluginName, _) := ParseHandlerRef h (asps_PodEventsHandler spec) in
  match podEventAdapters h !! pluginName with
  | None => st_ret tt
  | Some adapter =>
      match ResolvePodContext (asps_PodEventsContext spec) pod with
      | Fail _ => st_ret tt
      | Ok resolvedCtx => logged (call adapter resolvedCtx)
      end
  end.

Definition handlePodRunning (pod : Pod) (workspaceName : string) : ST W unit :=
  let ns := om_Namespace (pod_ObjectMeta pod) in
  r <- st_try (crud_Get (c_Workspace (peh_client h)) workspaceName ns) ;;
  match r with
  | Fail _ => st_ret tt
  | Ok workspace =>
      a <- st_try (with_workspace workspace (GetAccessStrategyForWorkspace (peh_client h))) ;;
      match a with
      | Ok (Some accessStrategy) =>
          dispatch accessStrategy pod
            (fun adapter ctx => pea_HandlePodRunning adapter pod workspaceName ns ctx)
      | _ => st_ret tt
      end
  end.

Definition handlePodDeleted (pod : Pod) : ST W unit :=
  let label key := default "" (om_Labels (pod_ObjectMeta pod) !! key) in
  let accessStrategyName := label LabelAccessStrategyName in
  let accessStrategyNamespace := label LabelAccessStrategyNamespace in
  if bool_decide (accessStrategyName = "") then st_ret tt
  else if bool_decide (accessStrategyNamespace = "") then st_ret tt
  else
  a <- st_try (crud_Get (c_AccessStrategy (peh_client h)) accessStrategyName accessStrategyNamespace) ;;
  match a with
  | Fail _ => st_ret tt
  | Ok accessStrategy =>
      dispatch accessStrategy pod (fun adapter ctx => pea_HandlePodDeleted adapter pod ctx)
  end.

(** HandleWorkspacePodEvents never asks for a reconcile. *)
Definition HandleWorkspacePodEvents (pod : Pod) : ST W (list reconcile_request) :=
  let workspaceName := default "" (om_Labels (pod_ObjectMeta pod) !! LabelWorkspaceName) in
  if is_deleting (pod_ObjectMeta pod) then handlePodDeleted pod ;; st_ret []
  else
  (if bool_decide (pod_Phase pod = PodRunning) then handlePodRunning pod workspaceName
   else st_ret tt) ;;
  st_ret [].

(** updateWorkspaceDesiredStatus, called with Stopped. *)
Definition with_desired_status (desiredStatus : string) (w : Workspace) : Workspace :=
  let meta := ws_ObjectMeta w in
  let meta := if bool_decide (desiredStatus = DesiredStateStopped)
    then set_om_Annotations
           (<[PreemptionReasonAnnotation := PreemptedReason]> (om_Annotations meta)) meta
    else meta in
  set_ws_Spec (set_sp_DesiredStatus desiredStatus (ws_Spec w)) (set_ws_ObjectMeta meta w).
Definition updateWorkspaceDesiredStatus (workspaceName namespace desiredStatus : string) : ST W unit :=
  r <- st_try (crud_Get (c_Workspace (peh_client h)) workspaceName namespace) ;;
  match r with
  | Fail _ => st_ret tt
  | Ok workspace =>
      logged (crud_Update (c_Workspace (peh_client h)) (with_desired_status desiredStatus workspace))
  end.

(** The workspace a pod name stands for: what is between the prefix and the last
    two dash-separated parts. *)
Definition preempted_workspace (podName : string) : option string :=
  if negb (HasPrefix podName "jupyter-") then None
  else
  let parts := Split podName "-" in
  if (length parts <? 4)%nat then None
  else Some (Join (take (length parts - 3) (drop 1 parts)) "-").

Definition is_preemption (event : KubeEvent) : bool :=
  bool_decide (ke_Kind event = KindPod) && bool_decide (ke_Reason event = DesiredStateStopped) &&
  Contains (ke_Message event) "Preempted".

(** HandleKubernetesEvents processes events for preemption detection. *)
Definition HandleKubernetesEvents (event : KubeEvent) : ST W (list reconcile_request) :=
  if is_preemption event then
    match preempted_workspace (ke_Name event) with
    | None => st_ret []
    | Some workspaceName =>
        updateWorkspaceDesiredStatus workspaceName (ke_Namespace event) DesiredStateStopped ;;
        st_ret [(workspaceName, ke_Namespace event)]
    end
  else st_ret [].
End handler.

(** ** The watches of SetupWithManager *)

(** The predicates of the pod and event watches. *)
Definition watches_pod (pod : Pod) : bool :=
  bool_decide (is_Some (om_Labels (pod_ObjectMeta pod) !! LabelWorkspaceName)).
Definition watches_event (event : KubeEvent) : bool :=
  (bool_decide (ke_Kind event = KindPod) && bool_decide (ke_Reason event = ConditionTypeStopped) &&
   Contains (ke_Message event) "Preempted") ||
  bool_decide (ke_Reason event = "Preempted").

(** ** The pod-exec webhook *)

Inductive AdmissionResponse :=
| Allowed (reason : string)
| Denied (reason : string)
| Errored (code : Z) (err : error).

Definition controller_user (namespace serviceAccount : string) : string :=
  "system:serviceaccount:" +:+ namespace +:+ ":" +:+ serviceAccount.

(** PodExecValidator.Handle: the controller's account may only exec into workspace
    pods; nobody else is looked at. *)
Definition PodExecValidator_Handle {W} (pods : PodClient W)
    (controllerNamespace controllerServiceAccount username name namespace : string)
    : ST W AdmissionResponse :=
  if negb (bool_decide (username = controller_user controllerNamespace controllerServiceAccount))
  then st_ret (Allowed "exec request allowed")
  else
  r <- st_try (pc_Get pods name namespace) ;;
  match r with
  | Fail err => st_ret (Errored 500 (Wrapf "failed to get pod: %w" [] err))
  | Ok pod =>
      if watches_pod pod then st_ret (Allowed "exec request allowed")
      else st_ret (Denied "controller service account can only exec into workspace pods")
  end.

(** SetupPodExecWebhookWithManager requires both environment variables. *)
Definition SetupPodExecWebhookWithManager (controllerNamespace controllerServiceAccount : string)
    : result unit :=
  if bool_decide (controllerNamespace = "")
  then Fail (Errorf "required environment variable %s not set" ["CONTROLLER_POD_NAMESPACE"])
  else if bool_decide (controllerServiceAccount = "")
  then Fail (Errorf "required environment variable %s not set" ["CONTROLLER_POD_SERVICE_ACCOUNT"])
  else Ok tt.

(** ** Preemption *)

Definition dash_free (s : string) : Prop := Forall (fun c => Ascii.eqb c "-" = false) (text s).

(** The name is recovered between the prefix and the two suffixes, dashes included. *)
Lemma preempted_workspace_name w a b :
  dash_free a -> dash_free b ->
  preempted_workspace ("jupyter" +:+ String "-" (w +:+ String "-" (a +:+ String "-" b))) = Some w.
Proof.
  intros Ha Hb. unfold preempted_workspace.
  change ("jupyter" +:+ String "-" ?x) with ("jupyter-" +:+ x) at 1. rewrite HasPrefix_app.
  cbn [negb]. rewrite !Split_app. change (Split "jupyter" "-") with ["jupyter"].
  rewrite (Split_none a), (Split_none b) by done. cbv zeta.
  assert (Hlen : (1 <= length (Split w "-"))%nat).
  { destruct w; cbn [Split]; [done|]. repeat case_match; cbn; lia. }
  assert (Hl : length (["jupyter"] ++ Split w "-" ++ [a] ++ [b]) = (length (Split w "-") + 3)%nat)
    by (rewrite !length_app; cbn; lia).
  rewrite Hl. destruct (Nat.ltb_spec (length (Split w "-") + 3) 4) as [?|_]; [lia|].
  rewrite Nat.add_sub. change (drop 1 (["jupyter"] ++ ?l)) with l. rewrite take_app_length.
  by rewrite Join_Split.
Qed.

Lemma deployment_prefix w suffix :
  HasPrefix (GenerateDeploymentName w +:+ suffix) "jupyter-" = false.
Proof. reflexivity. Qed.

(** Preemption: a preemption event stops the workspace exactly when the pod's
    name is the prefix jupyter-, the workspace's name and two dash-free suffixes: the
    workspace is then found whatever dashes its own name has, updated, and enqueued.
    The pods of the controller's own deployments are named after the deployment,
    with the prefix workspace-: their preemption is never recognised, and nothing
    happens. *)
Theorem preemption_recognised {W} (h : PodEventHandler W) (event : KubeEvent) (s : W) :
  is_preemption event = true ->
  (forall w a b, dash_free a -> dash_free b ->
     ke_Name event = "jupyter" +:+ String "-" (w +:+ String "-" (a +:+ String "-" b)) ->
     HandleKubernetesEvents h event s
     = (Ok [(w, ke_Namespace event)],
        (updateWorkspaceDesiredStatus h w (ke_Namespace event) DesiredStateStopped s).2)) /\
  (forall w suffix, ke_Name event = GenerateDeploymentName w +:+ suffix ->
     HandleKubernetesEvents h event s = (Ok [], s)).
Proof.
  intros Hp. split.
  - intros w a b Ha Hb Hn. unfold HandleKubernetesEvents. rewrite Hp, Hn, preempted_workspace_name by done.
    unfold st_bind. destruct (updateWorkspaceDesiredStatus h w (ke_Namespace event) DesiredStateStopped s)
      as [[[]|e] s'] eqn:E; [done|]. exfalso.
    unfold updateWorkspaceDesiredStatus, logged, st_bind, st_try, st_ret in E.
    repeat case_match; congruence.
  - intros w suffix Hn. unfold HandleKubernetesEvents. rewrite Hp, Hn.
    unfold preempted_workspace. by rewrite deployment_prefix.
Qed.

Definition demo_handler : PodEventHandler Mem :=
  mkPodEventHandler Mem (mem_k8s false) ∅ (fun r => (r, "")).
Definition demo_preemption (pod : string) : KubeEvent :=
  mkKubeEvent "Pod" pod "ns" "Stopped" "Preempted by ns/other".
Definition demo_running_mem : Mem :=
  (crud_Create (c_Workspace (mem_k8s false)) demo_ws empty_mem).2.

Lemma preemption_recognised_witness :
  HandleKubernetesEvents demo_handler
    (demo_preemption "workspace-w-6d8f-x2x9z") demo_running_mem
  = (Ok [], demo_running_mem).
Proof.
  apply (proj2 (preemption_recognised demo_handler
    (demo_preemption "workspace-w-6d8f-x2x9z") demo_running_mem eq_refl) "w" "-6d8f-x2x9z").
  reflexivity.
Defined.

(** The watch lets through events the handler then ignores: those whose reason is
    Preempted. *)
Lemma watched_but_ignored {W} (h : PodEventHandler W) (event : KubeEvent) (s : W) :
  ke_Reason event = "Preempted" ->
  watches_event event = true /\ HandleKubernetesEvents h event s = (Ok [], s).
Proof.
  intros Hr. unfold watches_event, HandleKubernetesEvents, is_preemption. rewrite Hr.
  split; [by apply orb_true_r|].
  rewrite (bool_decide_false ("Preempted" = DesiredStateStopped)) by done. by rewrite andb_false_r.
Qed.

(** ** Exec stays within workspace pods *)

Lemma exec_confined {W} (pods : PodClient W) ns sa username name namespace s r s' :
  PodExecValidator_Handle pods ns sa username name namespace s = (Ok r, s') ->
  (r = Allowed "exec request allowed" <->
   username <> controller_user ns sa \/
   exists pod, pc_Get pods name namespace s = (Ok pod, s') /\ watches_pod pod = true).
Proof.
  unfold PodExecValidator_Handle. intros Hr. case_bool_decide as Hu; cbn [negb] in Hr.
  - apply st_bind_Ok in Hr as (g & s1 & Hg & Hr). unfold st_try in Hg.
    destruct (pc_Get pods name namespace s) as [[pod|e] s2] eqn:E; injection Hg as <- <-.
    + destruct (watches_pod pod) eqn:Ew; injection Hr as <- <-.
      * split; [|done]. intros _. right. by exists pod.
      * split; [done|]. intros [?|(p & [= <-] & ?)]; congruence.
    + injection Hr as <- <-. split; [done|]. by intros [?|(p & ? & _)].
  - injection Hr as <- <-. split; [by left|done].
Qed.

(** The API server's promises on pods: a list holds the pods of the namespace that
    carry the labels, and a pod it lists is the one Get returns. *)
Class PodReads {W} (pods : PodClient W) : Prop :=
  listed_pod ns labels s items s' pod :
    pc_List pods ns labels s = (Ok items, s') -> pod ∈ items ->
    labels ⊆ om_Labels (pod_ObjectMeta pod) /\ om_Namespace (pod_ObjectMeta pod) = ns /\
    pc_Get pods (om_Name (pod_ObjectMeta pod)) ns s' = (Ok pod, s').

(** The controller's own probes pass its webhook. *)
Lemma own_exec_allowed {W} (pods : PodClient W) `{!PodReads pods} ns sa w s pod s' :
  findRunningPod pods w s = (Ok pod, s') ->
  PodExecValidator_Handle pods ns sa (controller_user ns sa) (om_Name (pod_ObjectMeta pod))
    (ws_Namespace w) s' = (Ok (Allowed "exec request allowed"), s').
Proof.
  intros Hf. unfold findRunningPod in Hf. apply st_bind_Ok in Hf as (items & s1 & Hl & Hf).
  apply st_wrap_Ok in Hl. destruct (List.find _ items) as [p|] eqn:E; [|done]. injection Hf as -> ->.
  apply List.find_some in E as [Hin%list_elem_of_In _].
  destruct (listed_pod _ _ _ _ _ _ Hl Hin) as (Hlab & _ & Hget).
  unfold PodExecValidator_Handle. rewrite bool_decide_true by done. cbn [negb].
  unfold st_bind, st_try. rewrite Hget.
  assert (Hw : watches_pod pod = true).
  { unfold watches_pod. apply bool_decide_eq_true. exists (ws_Name w).
    eapply lookup_weaken; [|exact Hlab]. unfold GenerateLabels. reflexivity. }
  by rewrite Hw.
Qed.
