(* ===== verification/ControllerSetup.v ===== *)
(** * ControllerSetup: the workspace controller put together

    internal/controller/workspace_controller.go, SetupWorkspaceController,
    SetupWithManager and accessStrategyEventHandler: the state machine built from the
    parts modelled elsewhere, the resources the controller watches, and the
    workspaces it reconciles when an access strategy changes.  The template engines,
    the clients and the digest are parameters. *)

From S2P Require Import Prelude Api JwtSigner K8s WorkspaceQueries Status AccessProbe Resources.
From S2P Require Import Integrations IntegrationResolver ObjectBuilders DeploymentBuilder.
From S2P Require Import ControllerBuilders StateMachine Pods SsmAdapter IdleDetection PodEvents.

(** ** The parts, wired *)

(** What the controller is given: clients, libraries and, when pod exec is available,
    the adapter of the AWS plugin. *)
Record ControllerEnv (W : Type) := mkControllerEnv {
  ce_client : Client W;
  ce_refs : RefClient W;
  ce_pods : PodClient W;
  ce_engine : TemplateEngine;
  ce_libs : ObjectLibs;
  ce_idle : IdleLibs;
  ce_http : @HttpClient W;
  ce_new_request : string -> result unit;
  ce_do : Duration -> string -> ST W HttpOutcome;
  ce_sha256_hex : string -> string;
  ce_ParseHandlerRef : string -> string * string;
  ce_exec_available : bool;
  ce_ssm : PluginApis W -> AwsSsmPodEventAdapter W;
  ce_NewPluginClient : string -> PluginApis W;
  (** Spare capacity of the environment slice of a workspace read from the API. *)
  ce_room : Workspace -> nat;
}.
Arguments ce_client {W}. Arguments ce_refs {W}. Arguments ce_pods {W}. Arguments ce_engine {W}.
Arguments ce_libs {W}. Arguments ce_idle {W}. Arguments ce_http {W}.
Arguments ce_new_request {W}. Arguments ce_do {W}. Arguments ce_sha256_hex {W}.
Arguments ce_ParseHandlerRef {W}. Arguments ce_exec_available {W}. Arguments ce_ssm {W}.
Arguments ce_NewPluginClient {W}. Arguments ce_room {W}.

(** WorkspaceReconciler reconciles a Workspace object. *)
Record WorkspaceReconciler (W : Type) := mkWorkspaceReconciler {
  wr_stateMachine : StateMachine W;
  wr_podEventHandler : PodEventHandler W;
  wr_refs : RefClient W;
  wr_options : WorkspaceControllerOptions;
}.
Arguments wr_stateMachine {W}. Arguments wr_podEventHandler {W}. Arguments wr_refs {W}.
Arguments wr_options {W}.

Section setup.
Context {W : Type} (env : ControllerEnv W).

(** SetupWorkspaceController, up to the registration with the manager. *)
Definition SetupWorkspaceController (options : WorkspaceControllerOptions) : WorkspaceReconciler W :=
  let integrationProber :=
    if ce_exec_available env
    then Some (NewIntegrationProber (ce_pods env) (IntegrationProbePeriod options)) else None in
  let stateMachine :=
    mkStateMachine W (ce_client env)
      (controller_builders (ce_engine env) (ce_libs env) options (ce_room env))
      (NewWorkspaceIdleChecker (ce_idle env) (ce_pods env) (ce_http env) (IdleCheckInterval options))
      (AccessStartupProber_Probe (AccessResourcesBuilder.ResolveTemplateURL (ce_libs env))
         (ce_new_request env) (ce_do env))
      integrationProber (ce_sha256_hex env)
      (captureIntegrationValues (ce_engine env) (ce_client env)) (render_frozen (ce_engine env)) in
  let pluginClients := ce_NewPluginClient env <$> PluginEndpoints options in
  let podEventHandler :=
    NewPodEventHandler (ce_client env) (ce_ParseHandlerRef env)
      (if ce_exec_available env then Some (ce_ssm env) else None) pluginClients in
  mkWorkspaceReconciler W stateMachine podEventHandler (ce_refs env) options.
End setup.

(** ** Watches *)

(** The sources SetupWithManager registers: the controller's own kind, owned kinds by
    API version, and mapped kinds. *)
Inductive Watch :=
| WatchFor (kind : string)
| WatchOwns (apiVersion kind : string)
| WatchAccessStrategies
| WatchPods
| WatchEvents.

(** The API version of a group and version; the core group has no name. *)
Definition gvk_apiVersion (gvk : GVKWatch) : string :=
  if bool_decide (gw_Group gvk = "") then gw_Version gvk
  else gw_Group gvk +:+ "/" +:+ gw_Version gvk.

Definition traefikAPIVersion : string := "traefik.io/v1alpha1".
Definition kindIngressRoute : string := "IngressRoute".
Definition kindMiddleware : string := "Middleware".

Definition SetupWithManager (options : WorkspaceControllerOptions) : list Watch :=
  [WatchFor "Workspace"; WatchOwns "apps/v1" "Deployment"; WatchOwns "v1" "Service";
   WatchOwns "v1" "PersistentVolumeClaim"; WatchAccessStrategies] ++
  (if EnableWorkspacePodWatching options then [WatchPods; WatchEvents] else []) ++
  (if WatchTraefik options then
     [WatchOwns "networking.k8s.io/v1" "NetworkPolicy"; WatchOwns traefikAPIVersion kindIngressRoute;
      WatchOwns traefikAPIVersion kindMiddleware]
   else []) ++
  ((fun gvk => WatchOwns (gvk_apiVersion gvk) (gw_Kind gvk)) <$> ResourceWatches options).

(** accessStrategyEventHandler maps AccessStrategy events to Workspace reconciliation
    requests; an error is logged and maps to none. *)
Definition accessStrategyEventHandler {W} (client : RefClient W)
    (accessStrategy : WorkspaceAccessStrategy) : ST W (list reconcile_request) :=
  (requests <- st_try (GetWorkspaceReconciliationRequestsForAccessStrategy client
                         (om_Name (was_ObjectMeta accessStrategy))
                         (om_Namespace (was_ObjectMeta accessStrategy))) ;;
   st_ret (match requests with Ok l => l | Fail _ => [] end))%go.

(** ** An access strategy changes *)

(** A list of the workspaces that carry the labels asked for. *)
Class ListsWorkspaces {W} (client : RefClient W) (stored : W -> list Workspace) : Prop :=
  lists_workspaces : forall sel s,
    rc_ListWorkspaces client sel "" 0 s
    = (Ok (List.filter (fun w => bool_decide (sel ⊆ om_Labels (ws_ObjectMeta w))) (stored s), ""), s).

(** A workspace names the strategy. *)
Definition names_strategy (a : WorkspaceAccessStrategy) (w : Workspace) : Prop :=
  exists ref, sp_AccessStrategy (ws_Spec w) = Some ref /\
    asr_Name ref = om_Name (was_ObjectMeta a) /\
    GetAccessStrategyRefNamespace w = om_Namespace (was_ObjectMeta a).

Lemma uses_access_strategy_names a w :
  om_Namespace (was_ObjectMeta a) <> "" ->
  uses_access_strategy (om_Name (was_ObjectMeta a)) (om_Namespace (was_ObjectMeta a)) w = true <->
  is_deleting (ws_ObjectMeta w) = false /\ names_strategy a w.
Proof.
  intros Hns. unfold uses_access_strategy, names_strategy.
  rewrite andb_true_iff, negb_true_iff. apply and_iff_compat_l.
  destruct (sp_AccessStrategy (ws_Spec w)) as [ref|]; [|naive_solver].
  rewrite (bool_decide_false (om_Namespace (was_ObjectMeta a) = "")) by done. cbn [orb].
  rewrite andb_true_iff, !bool_decide_eq_true. naive_solver.
Qed.

(** Once Reconcile has nothing to write, the labels select the workspace. *)
Lemma settled_selected a w :
  ws_Namespace w <> "" -> (sync_labels w).2 = false -> om_Name (was_ObjectMeta a) <> "" ->
  names_strategy a w ->
  strategy_selector (om_Name (was_ObjectMeta a)) (om_Namespace (was_ObjectMeta a))
    ⊆ om_Labels (ws_ObjectMeta w).
Proof.
  intros Hns Hs Hname (ref & Hr & Hn & Hg).
  destruct (sync_labels_spec w Hns) as [_ [Hl _]]. destruct (Hl Hs) as [_ Hall].
  apply map_subseteq_spec. intros k v. unfold strategy_selector.
  rewrite lookup_insert_Some, lookup_singleton_Some.
  intros [[<- <-]|[_ [<- <-]]]; rewrite Hall; unfold wanted_label.
  - repeat (rewrite decide_False by done). rewrite decide_True by done.
    rewrite Hr. by rewrite decide_False by congruence; rewrite Hn.
  - repeat (rewrite decide_False by done). rewrite decide_True by done.
    rewrite Hr. rewrite decide_False by congruence. rewrite <- Hg.
    unfold GetAccessStrategyRefNamespace. rewrite Hr.
    case_decide as He; [by rewrite bool_decide_true|by rewrite bool_decide_false].
Qed.

(** A change of an access strategy reaches its workspaces: the event maps to a
    request for every workspace that names the strategy, is not being deleted and
    carries the finalizer and labels its reconcile gives it, whatever the other
    workspaces are; and to no request for any other workspace. *)
Theorem strategy_change_reaches {W} (client : RefClient W) stored `{!ListsWorkspaces client stored}
    (a : WorkspaceAccessStrategy) (s : W) :
  om_Name (was_ObjectMeta a) <> "" -> om_Namespace (was_ObjectMeta a) <> "" ->
  exists requests, accessStrategyEventHandler client a s = (Ok requests, s) /\
    (forall w, w ∈ stored s -> ws_Namespace w <> "" -> names_strategy a w ->
       is_deleting (ws_ObjectMeta w) = false -> (sync_labels w).2 = false ->
       (ws_Name w, ws_Namespace w) ∈ requests) /\
    (forall k, k ∈ requests -> exists w, w ∈ stored s /\ k = (ws_Name w, ws_Namespace w) /\
       names_strategy a w /\ is_deleting (ws_ObjectMeta w) = false).
Proof.
  intros Hn Hns. unfold accessStrategyEventHandler, GetWorkspaceReconciliationRequestsForAccessStrategy,
    ListActiveWorkspacesByAccessStrategy, st_bind, st_try, st_wrap.
  change (Z.max 0 0) with 0. rewrite lists_workspaces. cbn [wrap_err fst snd st_ret].
  eexists. split; [reflexivity|]. cbn [fst]. split.
  - intros w Hw Hwns Hnm Hd Hs. apply list_elem_of_fmap. exists w. split; [done|].
    apply list_elem_of_In, List.filter_In. split; [|by apply uses_access_strategy_names].
    apply List.filter_In. split; [by apply list_elem_of_In|].
    by apply bool_decide_eq_true, settled_selected.
  - intros k (w & -> & Hw)%list_elem_of_fmap.
    apply list_elem_of_In, List.filter_In in Hw as [Hw Hu].
    apply List.filter_In in Hw as [Hw _]. apply uses_access_strategy_names in Hu as [Hd Hnm]; [|done].
    exists w. by rewrite list_elem_of_In.
Qed.

#[export] Instance mem_refs_lists : ListsWorkspaces mem_refs rm_Workspaces.
Proof. by intros sel s. Qed.

(** A workspace that names the strategy "open" of its namespace, as its reconcile
    leaves it. *)
Definition demo_named : Workspace :=
  (sync_labels (set_ws_Spec (set_sp_AccessStrategy (Some (mkAccessStrategyRef "open" "")) zero_spec)
     demo_ws)).1.
Definition demo_open : WorkspaceAccessStrategy :=
  set_was_ObjectMeta (zero_meta "open" "ns") demo_strategy.

Lemma strategy_change_reaches_witness :
  exists requests,
    accessStrategyEventHandler mem_refs demo_open (mkRefMem ∅ ∅ [demo_ws; demo_named])
    = (Ok requests, mkRefMem ∅ ∅ [demo_ws; demo_named]) /\ ("w", "ns") ∈ requests.
Proof.
  destruct (strategy_change_reaches mem_refs rm_Workspaces demo_open
    (mkRefMem ∅ ∅ [demo_ws; demo_named])) as (requests & Hr & Hall & _); [done..|].
  exists requests. split; [exact Hr|].
  apply (Hall demo_named).
  - right. by left.
  - vm_compute. discriminate.
  - eexists. split_and!; vm_compute; reflexivity.
  - vm_compute. reflexivity.
  - vm_compute. reflexivity.
Defined.
