(* ===== verification/Defaulters.v ===== *)
(** * Defaulters: template defaults of the mutating webhook

    internal/webhook/v1alpha1 *_defaulter.go and template_getter.go: what a
    workspace receives from its template, and how its template and service
    account are chosen when it names none. *)

From S2P Require Import Prelude Api K8s WorkspaceQueries.

Definition labelValueTrue : string := "true".
Definition DefaultTemplateLabel : string := "workspace.jupyter.org/default-template".
Definition DefaultServiceAccountLabel : string := "workspace.jupyter.org/default-service-account".
Definition OwnershipTypeOwnerOnly : string := "OwnerOnly".
Definition OwnershipTypePublic : string := "Public".

(** [if x == "" && d != "" { x = d }] and [if x == nil && d != nil { x = copy(d) }]. *)
Definition or_string (x d : string) : string :=
  if bool_decide (x = "") && negb (bool_decide (d = "")) then d else x.
Definition or_pointer {A} (x d : option A) : option A :=
  match x with None => d | Some _ => x end.

Definition on_spec (f : WorkspaceSpec -> WorkspaceSpec) (w : Workspace) : Workspace :=
  set_ws_Spec (f (ws_Spec w)) w.
Definition set_labels (labels : gmap string string) (w : Workspace) : Workspace :=
  set_ws_ObjectMeta (set_om_Labels labels (ws_ObjectMeta w)) w.

(** ** The applicators *)

(** One iteration of baseLabels. *)
Definition add_label (labels : gmap string string) (l : TemplateLabel) : gmap string string :=
  match labels !! tl_Key l with
  | Some _ => labels
  | None => <[tl_Key l := tl_Value l]> labels
  end.

Section applicators.
Variable template : WorkspaceTemplate.
Let t : WorkspaceTemplateSpec := wt_Spec template.

Definition applyCoreDefaults : Workspace -> Workspace := on_spec (fun s =>
  let s := set_sp_Image (or_string (sp_Image s) (ts_DefaultImage t)) s in
  let s := set_sp_OwnershipType (or_string (sp_OwnershipType s) (ts_DefaultOwnershipType t)) s in
  let s := set_sp_ContainerConfig
             (or_pointer (sp_ContainerConfig s) (ts_DefaultContainerConfig t)) s in
  let s := set_sp_AccessType (or_string (sp_AccessType s) (ts_DefaultAccessType t)) s in
  set_sp_AppType (or_string (sp_AppType s) (ts_AppType t)) s).

Definition applyResourceDefaults : Workspace -> Workspace := on_spec (fun s =>
  set_sp_Resources (or_pointer (sp_Resources s) (ts_DefaultResources t)) s).

(** The fields of an existing storage spec. *)
Definition default_storage (config : StorageConfig) (st : StorageSpec) : StorageSpec :=
  let st := if Quantity_IsZero (ss_Size st) && negb (Quantity_IsZero (sc_DefaultSize config))
            then set_ss_Size (sc_DefaultSize config) st else st in
  let st := set_ss_StorageClassName
              (or_pointer (ss_StorageClassName st) (sc_DefaultStorageClassName config)) st in
  set_ss_MountPath (or_string (ss_MountPath st) (sc_DefaultMountPath config)) st.

Definition zero_quantity : Quantity := mkQuantity 0 "0".

Definition applyStorageDefaults : Workspace -> Workspace := on_spec (fun s =>
  match ts_PrimaryStorage t with
  | None => s
  | Some config =>
      let storage :=
        match sp_Storage s with
        | None => if negb (Quantity_IsZero (sc_DefaultSize config))
                  then Some (mkStorageSpec None zero_quantity "") else None
        | some => some
        end in
      set_sp_Storage (default_storage config <$> storage) s
  end).

Definition applyVolumeDefaults : Workspace -> Workspace := on_spec (fun s =>
  match sp_Volumes s, ts_DefaultVolumes t with
  | [], _ :: _ => set_sp_Volumes (ts_DefaultVolumes t) s
  | _, _ => s
  end).

Definition applySchedulingDefaults : Workspace -> Workspace := on_spec (fun s =>
  let s := set_sp_NodeSelector (or_pointer (sp_NodeSelector s) (ts_DefaultNodeSelector t)) s in
  let s := set_sp_Affinity (or_pointer (sp_Affinity s) (ts_DefaultAffinity t)) s in
  set_sp_Tolerations (or_pointer (sp_Tolerations s) (ts_DefaultTolerations t)) s).

(** baseLabels adds template labels whose key does not exist yet. *)
Definition baseLabels (labels : gmap string string) : gmap string string :=
  fold_left add_label (ts_BaseLabels t) labels.

Definition applyMetadataDefaults (w : Workspace) : Workspace :=
  let labels := <[LabelWorkspaceTemplate := om_Name (wt_ObjectMeta template)]>
                  (om_Labels (ws_ObjectMeta w)) in
  let labels := <[LabelWorkspaceTemplateNamespace := GetTemplateRefNamespace w]> labels in
  set_labels (baseLabels labels) w.

Definition applyAccessStrategyDefaults : Workspace -> Workspace := on_spec (fun s =>
  set_sp_AccessStrategy (or_pointer (sp_AccessStrategy s) (ts_DefaultAccessStrategy t)) s).

Definition applyLifecycleDefaults : Workspace -> Workspace := on_spec (fun s =>
  let s := set_sp_Lifecycle (or_pointer (sp_Lifecycle s) (ts_DefaultLifecycle t)) s in
  set_sp_IdleShutdown (or_pointer (sp_IdleShutdown s) (ts_DefaultIdleShutdown t)) s).

Definition applyReadinessProbeDefaults : Workspace -> Workspace := on_spec (fun s =>
  set_sp_ReadinessProbe (or_pointer (sp_ReadinessProbe s) (ts_DefaultReadinessProbe t)) s).

Definition applySecurityDefaults : Workspace -> Workspace := on_spec (fun s =>
  let s := set_sp_PodSecurityContext
             (or_pointer (sp_PodSecurityContext s) (ts_DefaultPodSecurityContext t)) s in
  set_sp_ContainerSecurityContext
    (or_pointer (sp_ContainerSecurityContext s) (ts_DefaultContainerSecurityContext t)) s).

(** The names are those of the workspace before anything is added. *)
Definition merge_env (env : list EnvVar) : list EnvVar :=
  env ++ List.filter (fun e => negb (bool_decide (env_Name e ∈ env_Name <$> env))) (ts_BaseEnv t).

Definition applyEnvDefaults : Workspace -> Workspace := on_spec (fun s =>
  set_sp_Env (merge_env (sp_Env s)) s).

Definition applyInitContainerDefaults : Workspace -> Workspace := on_spec (fun s =>
  match sp_InitContainers s, ts_DefaultInitContainers t with
  | [], _ :: _ => set_sp_InitContainers (ts_DefaultInitContainers t) s
  | _, _ => s
  end).

(** The registry, in its order. *)
Definition defaultApplicators : list (Workspace -> Workspace) :=
  [applyCoreDefaults; applyResourceDefaults; applyStorageDefaults; applyVolumeDefaults;
   applySchedulingDefaults; applyMetadataDefaults; applyAccessStrategyDefaults;
   applyLifecycleDefaults; applyReadinessProbeDefaults; applySecurityDefaults;
   applyEnvDefaults; applyInitContainerDefaults].

Definition apply_defaults (w : Workspace) : Workspace :=
  fold_left (fun w f => f w) defaultApplicators w.
End applicators.

(** ** Choosing template, service account and sharing *)

Definition setWorkspaceSharingDefaults (w : Workspace) : Workspace :=
  on_spec (fun s =>
    let s := if bool_decide (sp_OwnershipType s = "")
             then set_sp_OwnershipType OwnershipTypePublic s else s in
    if bool_decide (sp_AccessType s = "") then set_sp_AccessType (sp_OwnershipType s) s else s) w.

(** [templateRef != nil && templateRef.Name != ""]. *)
Definition has_template (w : Workspace) : bool :=
  match sp_TemplateRef (ws_Spec w) with
  | Some ref => negb (bool_decide (tr_Name ref = ""))
  | None => false
  end.

Section defaulting.
Context {W : Type} (client : RefClient W) (defaultTemplateNamespace : string).
Local Open Scope go_scope.

(** ApplyTemplateDefaults fetches the template and runs the applicators. *)
Definition ApplyTemplateDefaults (w : Workspace) : ST W Workspace :=
  if negb (has_template w) then st_ret w
  else
    template <- ResolveTemplate client defaultTemplateNamespace (sp_TemplateRef (ws_Spec w))
                  (ws_Namespace w) ;;
    st_ret (apply_defaults template w).

(** findDefaultTemplate: the one default-labelled template of a namespace. *)
Definition findDefaultTemplate (namespace : string) : ST W (option WorkspaceTemplate) :=
  templates <- st_wrap "failed to list default templates in namespace %s: %w" [namespace]
    (rc_ListTemplates client {[ DefaultTemplateLabel := labelValueTrue ]} (Some namespace)) ;;
  match templates with
  | [] => st_ret None
  | [t] => st_ret (Some t)
  | _ => st_fail (Errorf
      "multiple templates found with default-template label in namespace %s: %v, expected exactly one"
      [namespace; "[" +:+ String.concat " " ((fun t => om_Name (wt_ObjectMeta t)) <$> templates)
                  +:+ "]"])
  end.

(** ApplyTemplateName sets the default template: the local one first, then the
    shared namespace's. *)
Definition ApplyTemplateName (w : Workspace) : ST W Workspace :=
  if has_template w then st_ret w
  else
    local <- findDefaultTemplate (ws_Namespace w) ;;
    found <- (if match local with None => true | Some _ => false end &&
                 negb (bool_decide (defaultTemplateNamespace = "")) &&
                 negb (bool_decide (defaultTemplateNamespace = ws_Namespace w))
              then findDefaultTemplate defaultTemplateNamespace else st_ret local) ;;
    st_ret (match found with
            | None => w
            | Some t => on_spec (set_sp_TemplateRef (Some (mkTemplateRef
                          (om_Name (wt_ObjectMeta t)) (om_Namespace (wt_ObjectMeta t))))) w
            end).

(** GetDefaultServiceAccount: the labelled one, or "default". *)
Definition GetDefaultServiceAccount (namespace : string) : ST W string :=
  accounts <- st_wrap "failed to list service accounts: %w" []
    (rc_ListServiceAccounts client {[ DefaultServiceAccountLabel := labelValueTrue ]} namespace) ;;
  match accounts with
  | [] => st_ret "default"
  | [sa] => st_ret (sa_Name sa)
  | _ => st_fail (Errorf "multiple service accounts found with default label in namespace %s"
           [namespace])
  end.

Definition ApplyServiceAccountDefaults (w : Workspace) : ST W Workspace :=
  if negb (bool_decide (sp_ServiceAccountName (ws_Spec w) = "")) then st_ret w
  else
    defaultSA <- GetDefaultServiceAccount (ws_Namespace w) ;;
    st_ret (on_spec (set_sp_ServiceAccountName defaultSA) w).
End defaulting.

(** ** What defaulting does, field by field *)

Definition list_or {A} (x d : list A) : list A := match x with [] => d | _ => x end.

Definition storage_or (config : option StorageConfig) (st : option StorageSpec) : option StorageSpec :=
  match config with
  | None => st
  | Some c =>
      default_storage c <$>
      match st with
      | None => if negb (Quantity_IsZero (sc_DefaultSize c))
                then Some (mkStorageSpec None zero_quantity "") else None
      | some => some
      end
  end.

Definition tracking_labels (template : WorkspaceTemplate) (w : Workspace) : gmap string string :=
  <[LabelWorkspaceTemplateNamespace := GetTemplateRefNamespace w]>
    (<[LabelWorkspaceTemplate := om_Name (wt_ObjectMeta template)]> (om_Labels (ws_ObjectMeta w))).

(** The defaulted workspace as one record. *)
Definition defaulted (template : WorkspaceTemplate) (w : Workspace) : Workspace :=
  let t := wt_Spec template in
  let s := ws_Spec w in
  mkWorkspace
    (set_om_Labels (baseLabels template (tracking_labels template w)) (ws_ObjectMeta w))
    (mkWorkspaceSpec (sp_DisplayName s) (or_string (sp_Image s) (ts_DefaultImage t))
       (sp_DesiredStatus s) (or_string (sp_OwnershipType s) (ts_DefaultOwnershipType t))
       (or_string (sp_AccessType s) (ts_DefaultAccessType t))
       (or_pointer (sp_Resources s) (ts_DefaultResources t))
       (storage_or (ts_PrimaryStorage t) (sp_Storage s))
       (list_or (sp_Volumes s) (ts_DefaultVolumes t))
       (or_pointer (sp_ContainerConfig s) (ts_DefaultContainerConfig t))
       (merge_env template (sp_Env s))
       (or_pointer (sp_NodeSelector s) (ts_DefaultNodeSelector t))
       (or_pointer (sp_Affinity s) (ts_DefaultAffinity t))
       (or_pointer (sp_Tolerations s) (ts_DefaultTolerations t))
       (or_pointer (sp_Lifecycle s) (ts_DefaultLifecycle t))
       (or_pointer (sp_ReadinessProbe s) (ts_DefaultReadinessProbe t))
       (or_pointer (sp_AccessStrategy s) (ts_DefaultAccessStrategy t))
       (sp_TemplateRef s) (or_pointer (sp_IdleShutdown s) (ts_DefaultIdleShutdown t))
       (or_string (sp_AppType s) (ts_AppType t)) (sp_ServiceAccountName s)
       (or_pointer (sp_PodSecurityContext s) (ts_DefaultPodSecurityContext t))
       (or_pointer (sp_ContainerSecurityContext s) (ts_DefaultContainerSecurityContext t))
       (list_or (sp_InitContainers s) (ts_DefaultInitContainers t))
       (sp_IntegrationTemplateRefs s))
    (ws_Status w).

Lemma apply_defaults_eq template w : apply_defaults template w = defaulted template w.
Proof.
  destruct w as [m s st]. destruct template as [tm t tst].
  unfold apply_defaults, defaultApplicators, defaulted. cbn [fold_left].
  unfold applyVolumeDefaults, applyInitContainerDefaults, applyStorageDefaults.
  destruct s, t; cbn.
  destruct sp_Volumes, ts_DefaultVolumes; destruct sp_InitContainers, ts_DefaultInitContainers;
    destruct ts_PrimaryStorage, sp_Storage; reflexivity.
Qed.

(** ** Idempotence *)

#[local] Arguments or_pointer : simpl never.
#[local] Arguments or_string : simpl never.

Lemma or_string_idem x d : or_string (or_string x d) d = or_string x d.
Proof.
  unfold or_string. destruct (bool_decide (x = "")) eqn:Ex, (bool_decide (d = "")) eqn:Ed; cbn;
    rewrite ?Ex, ?Ed; done.
Qed.

Lemma or_string_set x d : x <> "" -> or_string x d = x.
Proof. intros Hx. unfold or_string. by rewrite bool_decide_false. Qed.

Lemma or_pointer_idem {A} (x d : option A) : or_pointer (or_pointer x d) d = or_pointer x d.
Proof. by destruct x, d. Qed.

Lemma list_or_idem {A} (x d : list A) : list_or (list_or x d) d = list_or x d.
Proof. by destruct x, d. Qed.

Lemma default_storage_idem c st : default_storage c (default_storage c st) = default_storage c st.
Proof.
  destruct st as [cl sz mp]. unfold default_storage. cbn [ss_Size ss_StorageClassName ss_MountPath].
  destruct (Quantity_IsZero sz) eqn:E1, (Quantity_IsZero (sc_DefaultSize c)) eqn:E2;
    unfold set_ss_Size, set_ss_StorageClassName, set_ss_MountPath; cbn [andb negb ss_Size
      ss_StorageClassName ss_MountPath]; rewrite ?E1, ?E2;
    cbn [andb negb ss_Size ss_StorageClassName ss_MountPath];
    by rewrite or_pointer_idem, or_string_idem.
Qed.

Lemma storage_or_idem c st : storage_or c (storage_or c st) = storage_or c st.
Proof.
  destruct c as [c|]; [|done]. unfold storage_or.
  destruct st as [st|]; cbn [fmap option_fmap option_map]; [by rewrite default_storage_idem|].
  destruct (Quantity_IsZero (sc_DefaultSize c)) eqn:E; cbn [negb fmap option_fmap option_map].
  - done.
  - by rewrite default_storage_idem.
Qed.

Lemma merge_env_idem t env : merge_env t (merge_env t env) = merge_env t env.
Proof.
  unfold merge_env at 1. set (env' := merge_env t env).
  assert (Hall : forall e, e ∈ ts_BaseEnv (wt_Spec t) -> env_Name e ∈ env_Name <$> env').
  { intros e He. unfold env', merge_env. rewrite fmap_app, elem_of_app.
    destruct (decide (env_Name e ∈ env_Name <$> env)) as [|Hn]; [by left|right].
    apply list_elem_of_fmap_2, list_elem_of_In, List.filter_In. split; [by apply list_elem_of_In|].
    by rewrite bool_decide_false. }
  assert (Hnil : List.filter (fun e => negb (bool_decide (env_Name e ∈ env_Name <$> env')))
                   (ts_BaseEnv (wt_Spec t)) = []).
  { revert Hall. generalize (ts_BaseEnv (wt_Spec t)). induction l as [|e l IH]; intros Hall; [done|].
    cbn. rewrite bool_decide_true by (apply Hall; left). cbn. apply IH. intros e' He'.
    apply Hall. by right. }
  rewrite Hnil. by rewrite app_nil_r.
Qed.

(** baseLabels keeps what is there, has every key of the template, and does
    nothing when they are all there. *)
Lemma add_labels_keep ls labels k v :
  labels !! k = Some v -> fold_left add_label ls labels !! k = Some v.
Proof.
  revert labels. induction ls as [|l ls IH]; intros labels Hk; cbn; [done|]. apply IH.
  unfold add_label. destruct (labels !! tl_Key l) eqn:E; [done|].
  rewrite lookup_insert_ne; [done|]. congruence.
Qed.

Lemma baseLabels_keeps t labels k v : labels !! k = Some v -> baseLabels t labels !! k = Some v.
Proof. apply add_labels_keep. Qed.

Lemma baseLabels_all t labels :
  (forall l, l ∈ ts_BaseLabels (wt_Spec t) -> is_Some (labels !! tl_Key l)) ->
  baseLabels t labels = labels.
Proof.
  unfold baseLabels. generalize (ts_BaseLabels (wt_Spec t)).
  induction l as [|l ls IH]; intros Hall; cbn; [done|].
  unfold add_label at 2. destruct (Hall l) as [v ->]; [left|]. apply IH.
  intros l' Hl'. apply Hall. by right.
Qed.

Lemma baseLabels_has t labels l :
  l ∈ ts_BaseLabels (wt_Spec t) -> is_Some (baseLabels t labels !! tl_Key l).
Proof.
  unfold baseLabels. generalize (ts_BaseLabels (wt_Spec t)). intros ls. revert labels.
  induction ls as [|l' ls IH]; intros labels; [by intros ?%elem_of_nil|]. cbn.
  intros [->|Hl]%elem_of_cons; [|by apply IH].
  assert (Hl : is_Some (add_label labels l' !! tl_Key l')).
  { unfold add_label. destruct (labels !! tl_Key l') eqn:E; [by rewrite E|].
    rewrite lookup_insert_eq. by eexists. }
  destruct Hl as [v Hv]. exists v. by apply add_labels_keep.
Qed.

Lemma defaulted_labels_idem t w :
  baseLabels t (tracking_labels t (defaulted t w)) = baseLabels t (tracking_labels t w).
Proof.
  set (labels := baseLabels t (tracking_labels t w)).
  assert (E : tracking_labels t (defaulted t w) = labels).
  { unfold tracking_labels at 1. cbn. fold labels.
    change (GetTemplateRefNamespace (defaulted t w)) with (GetTemplateRefNamespace w).
    rewrite (insert_id labels LabelWorkspaceTemplate).
    - apply insert_id, baseLabels_keeps, lookup_insert_eq.
    - apply baseLabels_keeps. unfold tracking_labels. rewrite lookup_insert_ne by done.
      apply lookup_insert_eq. }
  rewrite E. apply baseLabels_all. intros l Hl. by apply baseLabels_has.
Qed.

(** What the user chose stays: a set field keeps its value, and the lists and
    maps that are merged keep their entries, the two tracking labels apart. *)
Definition keeps_choices (w w' : Workspace) : Prop :=
  let s := ws_Spec w in let s' := ws_Spec w' in
  let str (f : WorkspaceSpec -> string) := f s = "" \/ f s' = f s in
  let ptr {A} (f : WorkspaceSpec -> option A) := f s = None \/ f s' = f s in
  let lst {A} (f : WorkspaceSpec -> list A) := f s = [] \/ f s' = f s in
  str sp_Image /\ str sp_OwnershipType /\ str sp_AccessType /\ str sp_AppType /\
  ptr sp_Resources /\ ptr sp_ContainerConfig /\ ptr sp_NodeSelector /\ ptr sp_Affinity /\
  ptr sp_Tolerations /\ ptr sp_Lifecycle /\ ptr sp_ReadinessProbe /\ ptr sp_AccessStrategy /\
  ptr sp_IdleShutdown /\ ptr sp_PodSecurityContext /\ ptr sp_ContainerSecurityContext /\
  lst sp_Volumes /\ lst sp_InitContainers /\
  (forall st, sp_Storage s = Some st -> exists st', sp_Storage s' = Some st' /\
     (Quantity_IsZero (ss_Size st) = false -> ss_Size st' = ss_Size st) /\
     (ss_MountPath st <> "" -> ss_MountPath st' = ss_MountPath st) /\
     (ss_StorageClassName st <> None -> ss_StorageClassName st' = ss_StorageClassName st)) /\
  (exists added, sp_Env s' = sp_Env s ++ added) /\
  (forall k v, k <> LabelWorkspaceTemplate -> k <> LabelWorkspaceTemplateNamespace ->
     om_Labels (ws_ObjectMeta w) !! k = Some v -> om_Labels (ws_ObjectMeta w') !! k = Some v) /\
  sp_DesiredStatus s' = sp_DesiredStatus s /\ sp_TemplateRef s' = sp_TemplateRef s /\
  sp_ServiceAccountName s' = sp_ServiceAccountName s /\
  sp_IntegrationTemplateRefs s' = sp_IntegrationTemplateRefs s /\
  om_Annotations (ws_ObjectMeta w') = om_Annotations (ws_ObjectMeta w) /\ ws_Status w' = ws_Status w.

Lemma storage_or_keeps c st :
  exists st', storage_or c (Some st) = Some st' /\
    (Quantity_IsZero (ss_Size st) = false -> ss_Size st' = ss_Size st) /\
    (ss_MountPath st <> "" -> ss_MountPath st' = ss_MountPath st) /\
    (ss_StorageClassName st <> None -> ss_StorageClassName st' = ss_StorageClassName st).
Proof.
  destruct c as [c|]; [|by exists st]. eexists. split; [reflexivity|].
  destruct st as [cl sz mp]. unfold default_storage. split_and!.
  - intros E. cbn in *. by rewrite E.
  - intros E. cbn in *. case_match; cbn; by rewrite or_string_set.
  - intros E. cbn in *. destruct cl; [|done]. by case_match.
Qed.

(** [C40] Template defaults: the applicators of the registry, run in their order,
    never change what the user chose, and running them again changes nothing, so
    that an update that repeats the stored object is left as it is. *)
Theorem apply_defaults_conservative_idempotent (template : WorkspaceTemplate) (w : Workspace) :
  apply_defaults template (apply_defaults template w) = apply_defaults template w /\
  keeps_choices w (apply_defaults template w).
Proof.
  rewrite !apply_defaults_eq. split.
  - unfold defaulted at 1. rewrite defaulted_labels_idem.
    unfold defaulted. cbn -[merge_env storage_or].
    by rewrite !or_string_idem, !or_pointer_idem, !list_or_idem, storage_or_idem, merge_env_idem.
  - unfold keeps_choices, defaulted. cbn.
    assert (Hs : forall x d, x = "" \/ or_string x d = x).
    { intros x d. destruct (decide (x = "")); [by left|right]. by apply or_string_set. }
    assert (Hp : forall A (x d : option A), x = None \/ or_pointer x d = x)
      by (intros A [] d; [by right|by left]).
    assert (Hl : forall A (x d : list A), x = [] \/ list_or x d = x)
      by (intros A [] d; [by left|by right]).
    split_and!; try done; try apply Hs; try apply Hp; try apply Hl.
    + intros st ->. apply storage_or_keeps.
    + by eexists.
    + intros k v H1 H2 Hk. apply baseLabels_keeps. unfold tracking_labels.
      by rewrite !lookup_insert_ne.
Qed.
