(* ===== verification/Validators.v ===== *)
(** * Validators: the admission rules

    internal/webhook/v1alpha1 *_validator.go, spec_comparator.go and
    validation_types.go: what a workspace must satisfy with respect to its
    template, its namespace, its volumes, its service account and the reserved
    metadata keys, and what makes a template consistent. *)

From S2P Require Import Prelude Api K8s WorkspaceQueries Resources Integrations Defaulters.

(** ** Violations *)

Record TemplateViolation := mkTemplateViolation {
  tv_Type : string;
  tv_Field : string;
  tv_Message : string;
  tv_Allowed : string;
  tv_Actual : string;
}.

Definition ViolationTypeImageNotAllowed : string := "ImageNotAllowed".
Definition ViolationTypeResourceExceeded : string := "ResourceExceeded".
Definition ViolationTypeStorageExceeded : string := "StorageExceeded".
Definition ViolationTypeSecondaryStorageNotAllowed : string := "SecondaryStorageNotAllowed".
Definition ViolationTypeVolumeOwnedByAnotherWorkspace : string := "VolumeOwnedByAnotherWorkspace".
Definition ViolationTypeIdleShutdownOverrideNotAllowed : string := "IdleShutdownOverrideNotAllowed".
Definition ViolationTypeIdleShutdownTimeoutOutOfBounds : string := "IdleShutdownTimeoutOutOfBounds".
Definition ViolationTypeLabelRequired : string := "LabelRequired".
Definition ViolationTypeLabelRegexMismatch : string := "LabelRegexMismatch".
Definition ViolationTypeEnvRequired : string := "EnvRequired".
Definition ViolationTypeEnvRegexMismatch : string := "EnvRegexMismatch".
Definition ViolationTypeInitContainersNotAllowed : string := "InitContainersNotAllowed".
Definition fieldStorageSize : string := "spec.storage.size".

Definition Sprintf (fmt : string) (args : list string) : string := format fmt args "".
(** [%v] of a string slice. *)
Definition slice_text (l : list string) : string := "[" +:+ String.concat " " l +:+ "]".
Definition tmpl_name (t : WorkspaceTemplate) : string := om_Name (wt_ObjectMeta t).
(** [p != nil && *p]. *)
Definition is_true (b : option bool) : bool := default false b.
(** [q.Cmp(p) < 0] and [q.Cmp(p) > 0]. *)
Definition q_lt (a b : Quantity) : bool := match Quantity_Cmp a b with Lt => true | _ => false end.
Definition q_gt (a b : Quantity) : bool := match Quantity_Cmp a b with Gt => true | _ => false end.

(** ** Images *)

Definition effectiveAllowedImages (t : WorkspaceTemplate) : list string :=
  match ts_AllowedImages (wt_Spec t) with
  | [] => [ts_DefaultImage (wt_Spec t)]
  | images => images
  end.

Definition validateImageAllowed (image : string) (t : WorkspaceTemplate) : option TemplateViolation :=
  if is_true (ts_AllowCustomImages (wt_Spec t)) then None
  else if bool_decide (image ∈ effectiveAllowedImages t) then None
  else Some (mkTemplateViolation ViolationTypeImageNotAllowed "spec.image"
         (Sprintf "Image '%s' is not allowed by template '%s'. Allowed images: %v"
            [image; tmpl_name t; slice_text (effectiveAllowedImages t)])
         (slice_text (effectiveAllowedImages t)) image).

Definition validateTemplateImageConsistency (t : WorkspaceTemplate) : result unit :=
  if is_true (ts_AllowCustomImages (wt_Spec t)) then Ok tt
  else match ts_AllowedImages (wt_Spec t) with
  | [] => Ok tt
  | images =>
      if bool_decide (ts_DefaultImage (wt_Spec t) ∈ images) then Ok tt
      else Fail (Errorf
        "defaultImage %q is not in allowedImages %v: the template default would be rejected by its own image policy, making it un-creatable (template %q)"
        [ts_DefaultImage (wt_Spec t); slice_text images; tmpl_name t])
  end.

(** ** Resources *)

Definition ResourceCPU : string := "cpu".
Definition ResourceMemory : string := "memory".

(** The limit of one resource is not below its request, when both are given. *)
Definition limit_violation (resources : ResourceRequirements) (name field message : string)
    : list TemplateViolation :=
  match rr_Requests resources !! name, rr_Limits resources !! name with
  | Some request, Some limit =>
      if q_lt limit request
      then [mkTemplateViolation ViolationTypeResourceExceeded field message (q_text request)
              (q_text limit)]
      else []
  | _, _ => []
  end.

(** One bound of validateResourceListBounds. *)
Definition bound_violations (resourceList : gmap string Quantity) (kind templateName : string)
    (bound : string * ResourceRange) : list TemplateViolation :=
  let '(resourceName, resourceRange) := bound in
  match resourceList !! resourceName with
  | None => []
  | Some value =>
      let field := Sprintf "spec.resources.%ss.%s" [kind; resourceName] in
      (if q_lt value (rg_Min resourceRange)
       then [mkTemplateViolation ViolationTypeResourceExceeded field
              (Sprintf "%s %s %s is below minimum %s required by template '%s'"
                 [resourceName; kind; q_text value; q_text (rg_Min resourceRange); templateName])
              (Sprintf "min: %s" [q_text (rg_Min resourceRange)]) (q_text value)]
       else []) ++
      (if q_gt value (rg_Max resourceRange)
       then [mkTemplateViolation ViolationTypeResourceExceeded field
              (Sprintf "%s %s %s exceeds maximum %s allowed by template '%s'"
                 [resourceName; kind; q_text value; q_text (rg_Max resourceRange); templateName])
              (Sprintf "max: %s" [q_text (rg_Max resourceRange)]) (q_text value)]
       else [])
  end.

Section bounds.
Context `{GoRuntime}.

Definition validateResourceListBounds (resourceList : gmap string Quantity) (kind : string)
    (bounds : gmap string ResourceRange) (templateName : string) : list TemplateViolation :=
  concat (bound_violations resourceList kind templateName <$> range bounds).

(** validateResourceBounds: limits not below requests, and both within bounds. *)
Definition validateResourceBounds (resources : ResourceRequirements) (t : WorkspaceTemplate)
    : list TemplateViolation :=
  limit_violation resources ResourceCPU "spec.resources.limits.cpu"
    "CPU limit must be greater than or equal to CPU request" ++
  limit_violation resources ResourceMemory "spec.resources.limits.memory"
    "Memory limit must be greater than or equal to memory request" ++
  match ts_ResourceBounds (wt_Spec t) with
  | None => []
  | Some bounds =>
      validateResourceListBounds (rr_Requests resources) "request" (rb_Resources bounds)
        (tmpl_name t) ++
      validateResourceListBounds (rr_Limits resources) "limit" (rb_Resources bounds) (tmpl_name t)
  end.

(** The loop of validateTemplateResourceBoundsConsistency. *)
Fixpoint bounds_consistent_loop (templateName : string) (bounds : list (string * ResourceRange))
    : result unit :=
  match bounds with
  | [] => Ok tt
  | (resourceName, r) :: rest =>
      if q_gt (rg_Min r) (rg_Max r) then
        Fail (Errorf
          "resourceBounds for %q has min %s greater than max %s: no value can satisfy these bounds (template %q)"
          [resourceName; q_text (rg_Min r); q_text (rg_Max r); templateName])
      else bounds_consistent_loop templateName rest
  end.

Definition validateTemplateResourceBoundsConsistency (t : WorkspaceTemplate) : result unit :=
  match ts_ResourceBounds (wt_Spec t) with
  | None => Ok tt
  | Some bounds => bounds_consistent_loop (tmpl_name t) (range (rb_Resources bounds))
  end.
End bounds.

(** ** Storage *)

Definition validateStorageSize (size : Quantity) (t : WorkspaceTemplate) : option TemplateViolation :=
  match ts_PrimaryStorage (wt_Spec t) with
  | None => None
  | Some config =>
      let above :=
        match sc_MaxSize config with
        | Some m =>
            if q_gt size m then Some (mkTemplateViolation ViolationTypeStorageExceeded fieldStorageSize
              (Sprintf "Storage size %s exceeds maximum %s allowed by template '%s'"
                 [q_text size; q_text m; tmpl_name t]) (Sprintf "max: %s" [q_text m]) (q_text size))
            else None
        | None => None
        end in
      match sc_MinSize config with
      | Some m =>
          if q_lt size m then Some (mkTemplateViolation ViolationTypeStorageExceeded fieldStorageSize
            (Sprintf "Storage size %s is below minimum %s required by template '%s'"
               [q_text size; q_text m; tmpl_name t]) (Sprintf "min: %s" [q_text m]) (q_text size))
          else above
      | None => above
      end
  end.

Definition validateTemplateStorageConsistency (t : WorkspaceTemplate) : result unit :=
  match ts_PrimaryStorage (wt_Spec t) with
  | Some config =>
      match sc_MinSize config, sc_MaxSize config with
      | Some lo, Some hi =>
          if q_gt lo hi then Fail (Errorf
            "primaryStorage.minSize %s is greater than primaryStorage.maxSize %s: no storage size can satisfy these bounds (template %q)"
            [q_text lo; q_text hi; tmpl_name t])
          else Ok tt
      | _, _ => Ok tt
      end
  | None => Ok tt
  end.

(** validateStorageSizeNotBelowProvisioned, on the storage request of the claim. *)
Definition validateStorageSizeNotBelowProvisioned (newSize : Quantity)
    (provisioned : option Quantity) : option TemplateViolation :=
  match provisioned with
  | None => None
  | Some p =>
      if Quantity_IsZero p then None
      else if q_lt newSize p then Some (mkTemplateViolation ViolationTypeStorageExceeded fieldStorageSize
        (Sprintf "Storage size cannot be decreased from %s to %s: Kubernetes does not support shrinking a volume below its current size"
           [q_text p; q_text newSize]) (Sprintf "size >= %s" [q_text p]) (q_text newSize))
      else None
  end.

(** ** Idle shutdown *)

(** validateIdleTimeoutBounds: the declared bounds, an unset one pinned to the
    default when overrides are locked. *)
Definition idle_bounds (policy : IdleShutdownOverridePolicy) (def : option IdleShutdownSpec)
    (allowOverride : bool) : option Z * option Z :=
  let pin (b : option Z) :=
    match b with
    | Some _ => b
    | None => if negb allowOverride then is_IdleTimeoutInMinutes <$> def else None
    end in
  (pin (isop_MinIdleTimeoutInMinutes policy), pin (isop_MaxIdleTimeoutInMinutes policy)).

Definition bound_text (b : option Z) : string :=
  match b with Some n => Sprint_int n | None => "unbounded" end.

Definition validateIdleTimeoutBounds (timeout : Z) (policy : IdleShutdownOverridePolicy)
    (def : option IdleShutdownSpec) (allowOverride : bool) (templateName : string)
    : option TemplateViolation :=
  let '(minTimeout, maxTimeout) := idle_bounds policy def allowOverride in
  let belowMin := match minTimeout with Some m => timeout <? m | None => false end in
  let aboveMax := match maxTimeout with Some m => m <? timeout | None => false end in
  if negb belowMin && negb aboveMax then None
  else Some (mkTemplateViolation ViolationTypeIdleShutdownTimeoutOutOfBounds
    "spec.idleShutdown.idleTimeoutInMinutes"
    (Sprintf "Idle timeout %d minutes is outside the range [%s, %s] allowed by template '%s'"
       [Sprint_int timeout; bound_text minTimeout; bound_text maxTimeout; templateName])
    (Sprintf "min: %s, max: %s" [bound_text minTimeout; bound_text maxTimeout]) (Sprint_int timeout)).

(** The spec with its timeout zeroed. *)
Definition zero_timeout (i : IdleShutdownSpec) : IdleShutdownSpec :=
  mkIdleShutdownSpec (is_Enabled i) 0 (is_Detection i).

(** The timeout part of validateIdleShutdownOverrides. *)
Definition timeout_violations (ws : option IdleShutdownSpec) (policy : IdleShutdownOverridePolicy)
    (def : option IdleShutdownSpec) (allowOverride : bool) (templateName : string)
    : list TemplateViolation :=
  match ws with
  | Some i =>
      if is_Enabled i then
        match validateIdleTimeoutBounds (is_IdleTimeoutInMinutes i) policy def allowOverride
                templateName with
        | Some v => [v] | None => []
        end
      else []
  | None => []
  end.

Definition validateIdleShutdownOverrides (w : Workspace) (t : WorkspaceTemplate)
    : list TemplateViolation :=
  match ts_IdleShutdownOverrides (wt_Spec t) with
  | None => []
  | Some policy =>
      let allowOverride := default true (isop_Allow policy) in
      let def := ts_DefaultIdleShutdown (wt_Spec t) in
      let ws := sp_IdleShutdown (ws_Spec w) in
      let timeouts := timeout_violations ws policy def allowOverride (tmpl_name t) in
      match (if allowOverride then None else def) with
      | Some d =>
          match ws with
          | None => [mkTemplateViolation ViolationTypeIdleShutdownOverrideNotAllowed
              "spec.idleShutdown"
              (Sprintf "Template '%s' does not allow overriding idle shutdown; idleShutdown must match the template default"
                 [tmpl_name t]) "match template defaultIdleShutdown" "unset"]
          | Some i =>
              (if bool_decide (zero_timeout i = zero_timeout d) then []
               else [mkTemplateViolation ViolationTypeIdleShutdownOverrideNotAllowed
                 "spec.idleShutdown"
                 (Sprintf "Template '%s' does not allow overriding idle shutdown; only idleTimeoutInMinutes may differ from the template default"
                    [tmpl_name t])
                 "match template defaultIdleShutdown (except idleTimeoutInMinutes)"
                 "differs from template default"]) ++ timeouts
          end
      | None => timeouts
      end
  end.

(** ** Labels and environment *)

Section regexes.
Context `{GoRegexp}.

(** One requirement on a value: required, and matching when present.  [what]
    is "Label" or "Environment variable". *)
Definition requirement_violation (typeRequired typeRegex field what name : string)
    (required : option bool) (regex : string) (value : option string)
    : list TemplateViolation :=
  match value with
  | None =>
      if is_true required
      then [mkTemplateViolation typeRequired field
              (Sprintf "%s '%s' is required by template" [what; name]) "" ""]
      else []
  | Some v =>
      if bool_decide (regex = "") then []
      else if negb (re_compiles regex)
      then [mkTemplateViolation typeRegex field
              (Sprintf "%s '%s' has invalid regex in template: %s" [what; name; re_error regex]) "" ""]
      else if re_MatchString regex v then []
      else [mkTemplateViolation typeRegex field
              (Sprintf "%s '%s' value does not match required pattern" [what; name]) regex v]
  end.

Definition validateLabelRequirements (w : Workspace) (t : WorkspaceTemplate)
    : list TemplateViolation :=
  concat ((fun req => requirement_violation ViolationTypeLabelRequired
    ViolationTypeLabelRegexMismatch (Sprintf "metadata.labels[%s]" [lr_Key req]) "Label"
    (lr_Key req) (lr_Required req) (lr_Regex req) (om_Labels (ws_ObjectMeta w) !! lr_Key req))
    <$> ts_LabelRequirements (wt_Spec t)).

(** The lookup by name: the last variable of a name wins. *)
Definition env_map (env : list EnvVar) : gmap string string :=
  fold_left (fun m e => <[env_Name e := env_Value e]> m) env ∅.

Definition validateEnvRequirements (w : Workspace) (t : WorkspaceTemplate)
    : list TemplateViolation :=
  concat ((fun req => requirement_violation ViolationTypeEnvRequired
    ViolationTypeEnvRegexMismatch (Sprintf "spec.env[%s]" [er_Name req]) "Environment variable"
    (er_Name req) (er_Required req) (er_Regex req) (env_map (sp_Env (ws_Spec w)) !! er_Name req))
    <$> ts_EnvRequirements (wt_Spec t)).
End regexes.

(** ** Semantic equality *)

(** The workspace spec in the normal form of equality.Semantic.DeepEqual. *)
Definition sem_storage (s : StorageSpec) : StorageSpec :=
  mkStorageSpec (ss_StorageClassName s) (sem_quantity (ss_Size s)) (ss_MountPath s).
Definition sem_nonempty {A} `{EqDecision A} (empty : A) (x : option A) : option A :=
  match x with Some a => if decide (a = empty) then None else Some a | None => None end.
Definition sem_spec (s : WorkspaceSpec) : WorkspaceSpec :=
  set_sp_InitContainers (sem_container <$> sp_InitContainers s)
    (set_sp_Resources (sem_resources <$> sp_Resources s)
      (set_sp_Storage (sem_storage <$> sp_Storage s)
        (set_sp_NodeSelector (sem_nonempty ∅ (sp_NodeSelector s))
          (set_sp_Tolerations (sem_nonempty [] (sp_Tolerations s)) s)))).

Definition specChanged (oldSpec newSpec : WorkspaceSpec) : bool :=
  negb (bool_decide (sem_spec oldSpec = sem_spec newSpec)).

Definition integrationRefsChanged (oldSpec newSpec : WorkspaceSpec) : bool :=
  negb (bool_decide (sp_IntegrationTemplateRefs oldSpec = sp_IntegrationTemplateRefs newSpec)).

Definition onlyDesiredStatusChanged (oldSpec newSpec : WorkspaceSpec) : bool :=
  if bool_decide (sp_DesiredStatus oldSpec = sp_DesiredStatus newSpec) then false
  else bool_decide (sem_spec (set_sp_DesiredStatus (sp_DesiredStatus newSpec) oldSpec)
                    = sem_spec newSpec).

(** ** Containers and volumes *)

Definition validateInitContainers (initContainers : list Container) (t : WorkspaceTemplate)
    : option TemplateViolation :=
  match initContainers with
  | [] => None
  | _ =>
      if is_true (ts_AllowCustomInitContainers (wt_Spec t)) then None
      else if bool_decide (sem_container <$> initContainers =
                           sem_container <$> ts_DefaultInitContainers (wt_Spec t)) then None
      else Some (mkTemplateViolation ViolationTypeInitContainersNotAllowed "spec.initContainers"
        (Sprintf "Template '%s' does not allow custom init containers (set allowCustomInitContainers: true to enable)"
           [tmpl_name t]) "no custom init containers"
        (Sprintf "%d init container(s)" [Sprint_int (Z.of_nat (length initContainers))]))
  end.

Definition validateSecondaryStorages (volumes : list VolumeSpec) (t : WorkspaceTemplate)
    : option TemplateViolation :=
  match volumes with
  | [] => None
  | _ =>
      if bool_decide (ts_AllowSecondaryStorages (wt_Spec t) = Some false) then
        Some (mkTemplateViolation ViolationTypeSecondaryStorageNotAllowed "spec.volumes"
          (Sprintf "Template '%s' does not allow secondary storage volumes, but workspace specifies %d volume(s)"
             [tmpl_name t; Sprint_int (Z.of_nat (length volumes))]) "no secondary volumes"
          (Sprintf "%d volume(s)" [Sprint_int (Z.of_nat (length volumes))]))
      else None
  end.

(** ** Namespace scope *)

(** validateNamespaceScope: an access strategy may live in the referrer's
    namespace or in the shared one. *)
Definition validateNamespaceScope (sharedNamespace asNamespace referrerNamespace referrerKind : string)
    : result unit :=
  if bool_decide (asNamespace = "") || bool_decide (asNamespace = referrerNamespace) then Ok tt
  else if bool_decide (sharedNamespace = "") then
    Fail (Errorf
      "accessStrategy.namespace %q is not allowed: access strategies must be in the %s namespace %q"
      [asNamespace; referrerKind; referrerNamespace])
  else if bool_decide (asNamespace = sharedNamespace) then Ok tt
  else Fail (Errorf
    "accessStrategy.namespace %q is not allowed: access strategies must be in the %s namespace %q or the shared namespace %q"
    [asNamespace; referrerKind; referrerNamespace; sharedNamespace]).

Definition validateAccessStrategyNamespace (sharedNamespace : string) (w : Workspace) : result unit :=
  match sp_AccessStrategy (ws_Spec w) with
  | None => Ok tt
  | Some ref => validateNamespaceScope sharedNamespace (asr_Namespace ref) (ws_Namespace w) "workspace"
  end.

Definition validateTemplateAccessStrategyNamespace (sharedNamespace : string) (t : WorkspaceTemplate)
    : result unit :=
  match ts_DefaultAccessStrategy (wt_Spec t) with
  | None => Ok tt
  | Some ref => validateNamespaceScope sharedNamespace (asr_Namespace ref)
                  (om_Namespace (wt_ObjectMeta t)) "template"
  end.

(** validateTemplateNamespace, for the reference of the workspace. *)
Definition validateTemplateNamespace (sharedNamespace : string) (ref : TemplateRef) (w : Workspace)
    : result unit :=
  let templateNamespace := tr_Namespace ref in
  if bool_decide (templateNamespace = "") || bool_decide (templateNamespace = ws_Namespace w)
  then Ok tt
  else if bool_decide (sharedNamespace = "") then
    Fail (Errorf
      "templateRef.namespace %q is not allowed: templates must be in the workspace namespace %q"
      [templateNamespace; ws_Namespace w])
  else if bool_decide (templateNamespace = sharedNamespace) then Ok tt
  else Fail (Errorf
    "templateRef.namespace %q is not allowed: templates must be in the workspace namespace %q or the shared namespace %q"
    [templateNamespace; ws_Namespace w; sharedNamespace]).

Definition TemplateValidator_ValidateNamespaceScope (sharedNamespace : string) (w : Workspace)
    : result unit :=
  match sp_TemplateRef (ws_Spec w) with
  | None => Ok tt
  | Some ref => validateTemplateNamespace sharedNamespace ref w
  end.

(** ** Reserved metadata keys *)

Definition ReservedMetadataPrefix : string := "workspace.jupyter.org/".
Definition AnnotationCreatedBy : string := "workspace.jupyter.org/created-by".
Definition AnnotationLastUpdatedBy : string := "workspace.jupyter.org/last-updated-by".
Definition PreemptionAnnotation : string := Status.PreemptionReasonAnnotation.

Inductive MetadataKeyPolicy := SetOnCreateOnly | SetAlways.
#[global] Instance MetadataKeyPolicy_eq_dec : EqDecision MetadataKeyPolicy.
Proof. solve_decision. Defined.

Definition SystemManagedMetadataKeys : gmap string MetadataKeyPolicy :=
  {[ AnnotationCreatedBy := SetOnCreateOnly; AnnotationLastUpdatedBy := SetAlways;
     PreemptionAnnotation := SetAlways; LabelWorkspaceTemplate := SetAlways;
     LabelWorkspaceTemplateNamespace := SetAlways; LabelAccessStrategyName := SetAlways;
     LabelAccessStrategyNamespace := SetAlways ]}.

Definition reserved (key : string) : bool := HasPrefix key ReservedMetadataPrefix.

(** The loops of checkReservedKeys and checkReservedKeyChanges. *)
Fixpoint reserved_keys_loop (kind : string) (metadata : list (string * string)) : result unit :=
  match metadata with
  | [] => Ok tt
  | (key, _) :: rest =>
      if reserved key &&
         match SystemManagedMetadataKeys !! key with None => true | Some _ => false end
      then Fail (Errorf "%s '%s' uses reserved prefix %s" [kind; key; ReservedMetadataPrefix])
      else reserved_keys_loop kind rest
  end.

Fixpoint added_keys_loop (kind : string) (oldMeta : gmap string string)
    (newMeta : list (string * string)) : result unit :=
  match newMeta with
  | [] => Ok tt
  | (key, newVal) :: rest =>
      if negb (reserved key) then added_keys_loop kind oldMeta rest
      else
      match SystemManagedMetadataKeys !! key with
      | None => Fail (Errorf "%s '%s' uses reserved prefix %s" [kind; key; ReservedMetadataPrefix])
      | Some policy =>
          match oldMeta !! key with
          | Some oldVal =>
              if negb (bool_decide (oldVal = newVal)) && bool_decide (policy = SetOnCreateOnly)
              then Fail (Errorf "%s '%s' is immutable" [kind; key])
              else added_keys_loop kind oldMeta rest
          | None => added_keys_loop kind oldMeta rest
          end
      end
  end.

Fixpoint removed_keys_loop (kind : string) (newMeta : gmap string string)
    (oldMeta : list (string * string)) : result unit :=
  match oldMeta with
  | [] => Ok tt
  | (key, _) :: rest =>
      if reserved key && match newMeta !! key with None => true | Some _ => false end &&
         match SystemManagedMetadataKeys !! key with
         | None => true
         | Some policy => bool_decide (policy = SetOnCreateOnly)
         end
      then Fail (Errorf "%s '%s' cannot be removed" [kind; key])
      else removed_keys_loop kind newMeta rest
  end.

Section reserved.
Context `{GoRuntime}.

Definition checkReservedKeys (metadata : gmap string string) (kind : string) : result unit :=
  reserved_keys_loop kind (range metadata).

Definition validateReservedPrefixOnCreate (w : Workspace) : result unit :=
  _ ← checkReservedKeys (om_Labels (ws_ObjectMeta w)) "label";
  checkReservedKeys (om_Annotations (ws_ObjectMeta w)) "annotation".

Definition checkReservedKeyChanges (oldMeta newMeta : gmap string string) (kind : string)
    : result unit :=
  _ ← added_keys_loop kind oldMeta (range newMeta);
  removed_keys_loop kind newMeta (range oldMeta).

Definition validateReservedPrefixOnUpdate (oldWorkspace newWorkspace : Workspace) : result unit :=
  _ ← checkReservedKeyChanges (om_Labels (ws_ObjectMeta oldWorkspace))
        (om_Labels (ws_ObjectMeta newWorkspace)) "label";
  checkReservedKeyChanges (om_Annotations (ws_ObjectMeta oldWorkspace))
    (om_Annotations (ws_ObjectMeta newWorkspace)) "annotation".
End reserved.

(** ** Template constraints *)

(** formatViolations: the message alone, or the count and the messages. *)
Definition formatViolations (violations : list TemplateViolation) : string :=
  match violations with
  | [] => ""
  | [v] => tv_Message v
  | _ => Sprintf "%d violations: " [Sprint_int (Z.of_nat (length violations))] +:+
         String.concat "; " (tv_Message <$> violations)
  end.

Definition from_option_list {A} (x : option A) : list A :=
  match x with Some a => [a] | None => [] end.

Section template_validator.
Context `{GoRuntime} `{GoRegexp} {W : Type} (client : RefClient W) (sharedNamespace : string).
Local Open Scope go_scope.

(** The violations ValidateCreateWorkspace collects, in its order. *)
Definition template_violations (w : Workspace) (t : WorkspaceTemplate) : list TemplateViolation :=
  let s := ws_Spec w in
  (if negb (bool_decide (sp_Image s = ""))
   then from_option_list (validateImageAllowed (sp_Image s) t) else []) ++
  (match sp_Resources s with Some r => validateResourceBounds r t | None => [] end) ++
  (match sp_Storage s with
   | Some st => if negb (Quantity_IsZero (ss_Size st))
                then from_option_list (validateStorageSize (ss_Size st) t) else []
   | None => [] end) ++
  from_option_list (validateSecondaryStorages (sp_Volumes s) t) ++
  from_option_list (validateInitContainers (sp_InitContainers s) t) ++
  validateLabelRequirements w t ++ validateEnvRequirements w t ++
  validateIdleShutdownOverrides w t.

(** ValidateCreateWorkspace validates workspace against template constraints. *)
Definition ValidateCreateWorkspace (w : Workspace) : ST W unit :=
  match sp_TemplateRef (ws_Spec w) with
  | None => st_ret tt
  | Some ref =>
      st_lift (validateTemplateNamespace sharedNamespace ref w) ;;
      template <- ResolveTemplate client sharedNamespace (Some ref) (ws_Namespace w) ;;
      match template_violations w template with
      | [] => st_ret tt
      | violations => st_fail (Errorf "workspace violates template '%s' constraints: %s"
                        [tr_Name ref; formatViolations violations])
      end
  end.

(** ValidateUpdateWorkspace validates the entire spec when any field changes,
    except for a bare stop. *)
Definition ValidateUpdateWorkspace (oldWorkspace newWorkspace : Workspace) : ST W unit :=
  let oldSpec := ws_Spec oldWorkspace in
  let newSpec := ws_Spec newWorkspace in
  match sp_TemplateRef oldSpec, sp_TemplateRef newSpec with
  | Some _, None => st_ret tt
  | None, Some _ => ValidateCreateWorkspace newWorkspace
  | None, None => st_ret tt
  | Some oldRef, Some newRef =>
      if negb (bool_decide (tr_Name oldRef = tr_Name newRef))
      then ValidateCreateWorkspace newWorkspace
      else if negb (specChanged oldSpec newSpec) then st_ret tt
      else if bool_decide (sp_DesiredStatus newSpec = "Stopped") &&
              negb (bool_decide (sp_DesiredStatus oldSpec = "Stopped")) &&
              onlyDesiredStatusChanged oldSpec newSpec then st_ret tt
      else ValidateCreateWorkspace newWorkspace
  end.

(** ** Checks that read the cluster *)

(** The storage request of a claim. *)
Definition pvc_storage_request (pvc : PersistentVolumeClaim) : option Quantity :=
  pvs_Requests (pvc_Spec pvc) !! "storage".

Definition ValidateStorageSizeNotShrinking (w : Workspace) : ST W unit :=
  match sp_Storage (ws_Spec w) with
  | None => st_ret tt
  | Some st =>
      if Quantity_IsZero (ss_Size st) then st_ret tt
      else
      r <- st_try (crud_Get (rc_PVC client) (GeneratePVCName (ws_Name w)) (ws_Namespace w)) ;;
      match r with
      | Fail err =>
          if IsNotFound err then st_ret tt
          else st_fail (Wrapf "unable to validate storage size against existing volume: %w" [] err)
      | Ok pvc =>
          match validateStorageSizeNotBelowProvisioned (ss_Size st) (pvc_storage_request pvc) with
          | Some v => st_fail (Errorf "workspace violates storage constraints: %s" [tv_Message v])
          | None => st_ret tt
          end
      end
  end.

(** A claim owned by another workspace: the first such owner. *)
Definition foreign_owner (w : Workspace) (pvc : PersistentVolumeClaim) : option OwnerReference :=
  List.find (fun o => bool_decide (or_APIVersion o = "workspace.jupyter.org/v1alpha1") &&
                      bool_decide (or_Kind o = "Workspace") &&
                      negb (bool_decide (or_UID o = om_UID (ws_ObjectMeta w))))
    (om_OwnerReferences (pvc_ObjectMeta pvc)).

(** The loop of validateVolumeOwnership. *)
Fixpoint volume_ownership_loop (w : Workspace) (volumes : list VolumeSpec)
    : ST W (option TemplateViolation) :=
  match volumes with
  | [] => st_ret None
  | v :: rest =>
      if bool_decide (vs_PersistentVolumeClaimName v = "") then volume_ownership_loop w rest
      else
      r <- st_try (crud_Get (rc_PVC client) (vs_PersistentVolumeClaimName v) (ws_Namespace w)) ;;
      match r with
      | Fail _ => volume_ownership_loop w rest
      | Ok pvc =>
          match foreign_owner w pvc with
          | Some o => st_ret (Some (mkTemplateViolation ViolationTypeVolumeOwnedByAnotherWorkspace
              (Sprintf "spec.volumes[%s].persistentVolumeClaimName" [vs_Name v])
              (Sprintf "Volume '%s' references PVC '%s' which is owned by another workspace '%s'"
                 [vs_Name v; vs_PersistentVolumeClaimName v; or_Name o])
              "PVCs not owned by other workspaces"
              (Sprintf "PVC owned by workspace '%s'" [or_Name o])))
          | None => volume_ownership_loop w rest
          end
      end
  end.

Definition ValidateVolumeOwnership (w : Workspace) : ST W unit :=
  violation <- volume_ownership_loop w (sp_Volumes (ws_Spec w)) ;;
  match violation with
  | Some v => st_fail (Errorf "workspace violates volume ownership constraints: %s" [tv_Message v])
  | None => st_ret tt
  end.
End template_validator.

(** ** What a template demands, declaratively *)

Definition image_conforms (image : string) (t : WorkspaceTemplate) : Prop :=
  image = "" \/ ts_AllowCustomImages (wt_Spec t) = Some true \/ image ∈ effectiveAllowedImages t.

Definition within (r : ResourceRange) (v : Quantity) : Prop :=
  q_value (rg_Min r) <= q_value v <= q_value (rg_Max r).

Definition resources_conform (r : ResourceRequirements) (t : WorkspaceTemplate) : Prop :=
  (forall name request limit, name ∈ [ResourceCPU; ResourceMemory] ->
     rr_Requests r !! name = Some request -> rr_Limits r !! name = Some limit ->
     q_value request <= q_value limit) /\
  (forall bounds name rng v, ts_ResourceBounds (wt_Spec t) = Some bounds ->
     rb_Resources bounds !! name = Some rng ->
     rr_Requests r !! name = Some v \/ rr_Limits r !! name = Some v -> within rng v).

Definition storage_conforms (size : Quantity) (t : WorkspaceTemplate) : Prop :=
  forall config, ts_PrimaryStorage (wt_Spec t) = Some config ->
  (forall m, sc_MinSize config = Some m -> q_value m <= q_value size) /\
  (forall m, sc_MaxSize config = Some m -> q_value size <= q_value m).

Definition requirement_met `{GoRegexp} (required : option bool) (regex : string)
    (value : option string) : Prop :=
  (required = Some true -> is_Some value) /\
  (forall v, value = Some v -> regex = "" \/ (re_compiles regex = true /\ re_MatchString regex v = true)).

(** A bound of the policy, or the default timeout when overrides are locked and
    the policy leaves the bound open. *)
Definition effective_bound (policy : IdleShutdownOverridePolicy) (def : option IdleShutdownSpec)
    (declared : option Z) (m : Z) : Prop :=
  declared = Some m \/
  (declared = None /\ isop_Allow policy = Some false /\
   exists d, def = Some d /\ is_IdleTimeoutInMinutes d = m).

Definition idle_conforms (ws : option IdleShutdownSpec) (t : WorkspaceTemplate) : Prop :=
  forall policy, ts_IdleShutdownOverrides (wt_Spec t) = Some policy ->
  let def := ts_DefaultIdleShutdown (wt_Spec t) in
  (forall d, isop_Allow policy = Some false -> def = Some d ->
     exists i, ws = Some i /\ is_Enabled i = is_Enabled d /\ is_Detection i = is_Detection d) /\
  (forall i, ws = Some i -> is_Enabled i = true ->
     (forall m, effective_bound policy def (isop_MinIdleTimeoutInMinutes policy) m ->
        m <= is_IdleTimeoutInMinutes i) /\
     (forall m, effective_bound policy def (isop_MaxIdleTimeoutInMinutes policy) m ->
        is_IdleTimeoutInMinutes i <= m)).

(** The workspace is within everything its template allows. *)
Record conforms `{GoRegexp} (w : Workspace) (t : WorkspaceTemplate) : Prop := mkConforms {
  cf_image : image_conforms (sp_Image (ws_Spec w)) t;
  cf_resources : forall r, sp_Resources (ws_Spec w) = Some r -> resources_conform r t;
  cf_storage : forall st, sp_Storage (ws_Spec w) = Some st -> q_value (ss_Size st) <> 0 ->
    storage_conforms (ss_Size st) t;
  cf_volumes : sp_Volumes (ws_Spec w) = [] \/ ts_AllowSecondaryStorages (wt_Spec t) <> Some false;
  cf_init : sp_InitContainers (ws_Spec w) = [] \/
    ts_AllowCustomInitContainers (wt_Spec t) = Some true \/
    sem_container <$> sp_InitContainers (ws_Spec w) =
    sem_container <$> ts_DefaultInitContainers (wt_Spec t);
  cf_labels : forall req, req ∈ ts_LabelRequirements (wt_Spec t) ->
    requirement_met (lr_Required req) (lr_Regex req) (om_Labels (ws_ObjectMeta w) !! lr_Key req);
  cf_env : forall req, req ∈ ts_EnvRequirements (wt_Spec t) ->
    requirement_met (er_Required req) (er_Regex req) (env_map (sp_Env (ws_Spec w)) !! er_Name req);
  cf_idle : idle_conforms (sp_IdleShutdown (ws_Spec w)) t;
}.

(** ** The validators decide it *)

Lemma q_lt_false a b : q_lt a b = false <-> q_value b <= q_value a.
Proof. unfold q_lt, Quantity_Cmp. destruct (Z.compare_spec (q_value a) (q_value b)); split; (done || lia). Qed.

Lemma q_gt_false a b : q_gt a b = false <-> q_value a <= q_value b.
Proof. unfold q_gt, Quantity_Cmp. destruct (Z.compare_spec (q_value a) (q_value b)); split; (done || lia). Qed.

Lemma is_true_spec b : is_true b = true <-> b = Some true.
Proof. destruct b as [[]|]; split; done. Qed.

Lemma from_option_list_nil {A} (x : option A) : from_option_list x = [] <-> x = None.
Proof. by destruct x. Qed.

Lemma app_nil_iff {A} (l k : list A) : l ++ k = [] <-> l = [] /\ k = [].
Proof. split; [apply app_nil|by intros [-> ->]]. Qed.

Lemma concat_nil {A B} (f : A -> list B) (l : list A) :
  concat (f <$> l) = [] <-> forall x, x ∈ l -> f x = [].
Proof.
  induction l as [|a l IH]; cbn; [split; [by intros _ ? ?%elem_of_nil|done]|].
  rewrite app_nil_iff, IH. split.
  - intros [Ha Hl] x [->|Hx]%elem_of_cons; auto.
  - intros Hall. split; [apply Hall; left|]. intros x Hx. apply Hall. by right.
Qed.

Lemma if_nil {A} (b : bool) (x : A) : (if b then [x] else []) = [] <-> b = false.
Proof. by destruct b. Qed.

Lemma validateImageAllowed_spec image t :
  (if negb (bool_decide (image = "")) then from_option_list (validateImageAllowed image t) else []) = []
  <-> image_conforms image t.
Proof.
  unfold image_conforms. case_bool_decide as Hi; cbn [negb]; [by split; [left|]|].
  rewrite from_option_list_nil. unfold validateImageAllowed.
  destruct (is_true (ts_AllowCustomImages (wt_Spec t))) eqn:E.
  - apply is_true_spec in E. rewrite E. split; [by right; left|done].
  - case_bool_decide as Hin; [split; [by right; right|done]|].
    split; [done|]. intros [?|[Hc|?]]; [done| |done]. apply is_true_spec in Hc. congruence.
Qed.

Lemma limit_violation_nil r name field message :
  limit_violation r name field message = [] <->
  forall request limit, rr_Requests r !! name = Some request -> rr_Limits r !! name = Some limit ->
    q_value request <= q_value limit.
Proof.
  unfold limit_violation.
  destruct (rr_Requests r !! name) as [a|]; [|split; [by intros _ ? ? [=]|done]].
  destruct (rr_Limits r !! name) as [b|]; [|split; [by intros _ ? ? _ [=]|done]].
  rewrite if_nil, q_lt_false. split; [by intros ? ? ? [= <-] [= <-]|by intros Hq; apply Hq].
Qed.

Section decides.
Context `{GoRuntime}.

Lemma validateResourceListBounds_nil l kind bounds tn :
  validateResourceListBounds l kind bounds tn = [] <->
  forall name rng v, bounds !! name = Some rng -> l !! name = Some v -> within rng v.
Proof.
  unfold validateResourceListBounds. rewrite concat_nil. split.
  - intros Hall name rng v Hb Hv. specialize (Hall (name, rng)). rewrite elem_of_range in Hall.
    specialize (Hall Hb). unfold bound_violations in Hall. rewrite Hv in Hall.
    rewrite app_nil_iff, !if_nil, q_lt_false, q_gt_false in Hall. exact Hall.
  - intros Hall [name rng] Hb%elem_of_range. unfold bound_violations.
    destruct (l !! name) as [v|] eqn:Hv; [|done].
    rewrite app_nil_iff, !if_nil, q_lt_false, q_gt_false. by apply (Hall name).
Qed.

Lemma validateResourceBounds_nil r t : validateResourceBounds r t = [] <-> resources_conform r t.
Proof.
  unfold validateResourceBounds, resources_conform. rewrite !app_nil_iff, !limit_violation_nil.
  split.
  - intros (Hc & Hm & Hb). split.
    + intros name a b Hn. revert a b. set_unfold. destruct_or?; subst; try done; intuition (subst; eauto).
    + intros bounds name rng v Eb. rewrite Eb in Hb.
      rewrite app_nil_iff, !validateResourceListBounds_nil in Hb. destruct Hb as [H1 H2].
      intros Hn [Hv|Hv]; eauto.
  - intros [Hl Hb]. split_and!; [intros a b; apply Hl; set_solver..|].
    destruct (ts_ResourceBounds (wt_Spec t)) as [bounds|]; [|done].
    rewrite app_nil_iff, !validateResourceListBounds_nil. split; intros; eapply Hb; eauto.
Qed.
End decides.

Lemma validateStorageSize_None size t : validateStorageSize size t = None <-> storage_conforms size t.
Proof.
  unfold validateStorageSize, storage_conforms.
  destruct (ts_PrimaryStorage (wt_Spec t)) as [c|]; [|split; [by intros _ ? [=]|done]].
  split.
  - intros Hv c' [= <-]. destruct (sc_MinSize c) as [lo|], (sc_MaxSize c) as [hi|]; cbn in Hv;
      repeat match type of Hv with (if ?b then _ else _) = _ => destruct b eqn:?; try discriminate end;
      rewrite ?q_lt_false, ?q_gt_false in *; split; intros ? [=]; subst; lia.
  - intros Hall. destruct (Hall c eq_refl) as [Hlo Hhi].
    destruct (sc_MinSize c) as [lo|], (sc_MaxSize c) as [hi|]; cbn;
      rewrite ?(proj2 (q_lt_false size lo)), ?(proj2 (q_gt_false size hi)) by auto; done.
Qed.

Lemma requirement_violation_nil `{GoRegexp} tr tx f what name required regex value :
  requirement_violation tr tx f what name required regex value = [] <->
  requirement_met required regex value.
Proof.
  unfold requirement_violation, requirement_met. destruct value as [v|].
  - case_bool_decide as Hr; [split; [|done]; intros _; split; [by eexists|by left]|].
    destruct (re_compiles regex) eqn:Ec; cbn [negb].
    + destruct (re_MatchString regex v) eqn:Em.
      * split; [|done]. intros _. split; [by eexists|]. intros ? [= <-]. by right.
      * split; [done|]. intros [_ Hv]. destruct (Hv v eq_refl) as [|[_ ?]]; congruence.
    + split; [done|]. intros [_ Hv]. destruct (Hv v eq_refl) as [|[? _]]; congruence.
  - rewrite if_nil. split.
    + intros Hf. split; [|by intros ? [=]]. intros Ht%is_true_spec. congruence.
    + intros [Hf _]. destruct (is_true required) eqn:E; [|done].
      apply is_true_spec in E. by destruct (Hf E).
Qed.

Lemma validateSecondaryStorages_None volumes t :
  validateSecondaryStorages volumes t = None <->
  volumes = [] \/ ts_AllowSecondaryStorages (wt_Spec t) <> Some false.
Proof.
  unfold validateSecondaryStorages. destruct volumes as [|v vs]; [by split; [left|]|].
  case_bool_decide; split; try done; [by intros []|by right].
Qed.

Lemma validateInitContainers_None cs t :
  validateInitContainers cs t = None <->
  cs = [] \/ ts_AllowCustomInitContainers (wt_Spec t) = Some true \/
  sem_container <$> cs = sem_container <$> ts_DefaultInitContainers (wt_Spec t).
Proof.
  unfold validateInitContainers. destruct cs as [|c cs]; [by split; [left|]|].
  rewrite <- is_true_spec. destruct (is_true _); [by split; [right; left|]|].
  case_bool_decide; split; try done; [by right; right|]. by intros [|[|]].
Qed.

Lemma not_allowed_spec b : default true b = false <-> b = Some false.
Proof. destruct b as [[]|]; split; done. Qed.

(** The bound the code computes is the effective one. *)
Lemma pinned_bound policy def declared m :
  match declared with
  | Some _ => declared
  | None => if negb (default true (isop_Allow policy)) then is_IdleTimeoutInMinutes <$> def else None
  end = Some m <-> effective_bound policy def declared m.
Proof.
  unfold effective_bound. destruct declared as [k|]; [split; [by left|by intros [|(? & _)]]|].
  destruct (default true (isop_Allow policy)) eqn:E; cbn [negb].
  - split; [done|]. intros [|(_ & Hf & _)]; [done|]. apply not_allowed_spec in Hf. congruence.
  - apply not_allowed_spec in E. destruct def as [d|]; cbn.
    + split; [intros [= <-]; right; eauto|]. intros [|(_ & _ & ? & [= <-] & <-)]; done.
    + split; [done|]. by intros [|(_ & _ & ? & ? & _)].
Qed.

Lemma validateIdleTimeoutBounds_None timeout policy def tn :
  validateIdleTimeoutBounds timeout policy def (default true (isop_Allow policy)) tn = None <->
  (forall m, effective_bound policy def (isop_MinIdleTimeoutInMinutes policy) m -> m <= timeout) /\
  (forall m, effective_bound policy def (isop_MaxIdleTimeoutInMinutes policy) m -> timeout <= m).
Proof.
  unfold validateIdleTimeoutBounds, idle_bounds. setoid_rewrite <- pinned_bound.
  match goal with |- context [match ?a with Some m => timeout <? m | None => _ end] => destruct a as [lo|] end;
  match goal with |- context [match ?a with Some m => m <? timeout | None => _ end] => destruct a as [hi|] end;
    cbn; repeat match goal with |- context [?a <? ?b] => destruct (Z.ltb_spec a b) end; cbn;
    (split; [intros; try discriminate; split; intros ? [=]; subst; lia|]); try done;
    intros [H1 H2]; try specialize (H1 _ eq_refl); try specialize (H2 _ eq_refl); lia.
Qed.

Lemma timeout_violations_nil ws policy def tn :
  timeout_violations ws policy def (default true (isop_Allow policy)) tn = [] <->
  forall i, ws = Some i -> is_Enabled i = true ->
    (forall m, effective_bound policy def (isop_MinIdleTimeoutInMinutes policy) m ->
       m <= is_IdleTimeoutInMinutes i) /\
    (forall m, effective_bound policy def (isop_MaxIdleTimeoutInMinutes policy) m ->
       is_IdleTimeoutInMinutes i <= m).
Proof.
  unfold timeout_violations. destruct ws as [i|]; [|split; [by intros _ ? [=]|done]].
  destruct (is_Enabled i) eqn:Ee; [|split; [intros _ ? [= <-]; congruence|done]].
  change (match ?x with Some v => [v] | None => [] end) with (from_option_list x).
  rewrite from_option_list_nil, validateIdleTimeoutBounds_None.
  split; [by intros ? ? [= <-]|]. intros Hall. by apply Hall.
Qed.

Lemma zero_timeout_eq i d :
  zero_timeout i = zero_timeout d <-> is_Enabled i = is_Enabled d /\ is_Detection i = is_Detection d.
Proof. destruct i, d. unfold zero_timeout. cbn. split; [by intros [= -> ->]|by intros [-> ->]]. Qed.

Lemma validateIdleShutdownOverrides_nil w t :
  validateIdleShutdownOverrides w t = [] <-> idle_conforms (sp_IdleShutdown (ws_Spec w)) t.
Proof.
  unfold validateIdleShutdownOverrides, idle_conforms.
  destruct (ts_IdleShutdownOverrides (wt_Spec t)) as [policy|]; [|split; [by intros _ ? [=]|done]].
  cbv zeta. set (def := ts_DefaultIdleShutdown (wt_Spec t)). set (ws := sp_IdleShutdown (ws_Spec w)).
  match goal with |- _ <-> forall p, Some policy = Some p -> @?P p => transitivity (P policy) end;
    [cbv beta|split; [by intros ? ? [= <-]|intros Hall; by apply Hall]].
  rewrite <- (timeout_violations_nil ws policy def (tmpl_name t)).
  destruct (default true (isop_Allow policy)) eqn:Ea.
  - split; [|by intros []]. intros ->. split; [|done]. intros d Hf%not_allowed_spec. congruence.
  - apply not_allowed_spec in Ea. destruct def as [d|].
    + destruct ws as [i|].
      * rewrite app_nil_iff. apply and_iff_compat_r.
        case_bool_decide as Hz; rewrite zero_timeout_eq in Hz.
        -- split; [|done]. intros _ ? _ [= <-]. by exists i.
        -- split; [done|]. intros Hall. destruct (Hall d Ea eq_refl) as (? & [= <-] & ?). done.
      * split; [done|]. intros [Hall _]. by destruct (Hall d Ea eq_refl) as (? & ? & _).
    + split; [|by intros []]. intros ->. split; [|done]. by intros ? _ [=].
Qed.

Section conformance.
Context `{GoRuntime} `{GoRegexp}.

Lemma template_violations_nil w t : template_violations w t = [] <-> conforms w t.
Proof.
  unfold template_violations. rewrite !app_nil_iff, validateImageAllowed_spec, !from_option_list_nil,
    validateSecondaryStorages_None, validateInitContainers_None, validateIdleShutdownOverrides_nil.
  unfold validateLabelRequirements, validateEnvRequirements. rewrite !concat_nil.
  setoid_rewrite requirement_violation_nil.
  assert (Hr : match sp_Resources (ws_Spec w) with Some r => validateResourceBounds r t | None => [] end
               = [] <-> forall r, sp_Resources (ws_Spec w) = Some r -> resources_conform r t).
  { destruct (sp_Resources (ws_Spec w)) as [r|]; [|split; [by intros _ ? [=]|done]].
    rewrite validateResourceBounds_nil. split; [by intros ? ? [= <-]|auto]. }
  assert (Hs : match sp_Storage (ws_Spec w) with
               | Some st => if negb (Quantity_IsZero (ss_Size st))
                            then from_option_list (validateStorageSize (ss_Size st) t) else []
               | None => [] end = [] <->
               forall st, sp_Storage (ws_Spec w) = Some st -> q_value (ss_Size st) <> 0 ->
               storage_conforms (ss_Size st) t).
  { destruct (sp_Storage (ws_Spec w)) as [st|]; [|split; [by intros _ ? [=]|done]].
    unfold Quantity_IsZero. destruct (Z.eqb_spec (q_value (ss_Size st)) 0); cbn [negb].
    - split; [|done]. by intros _ ? [= <-].
    - rewrite from_option_list_nil, validateStorageSize_None. split; [by intros ? ? [= <-]|auto]. }
  rewrite Hr, Hs. split; [by intros (? & ? & ? & ? & ? & ? & ? & ?)|].
  intros []. by split_and!.
Qed.
End conformance.

(** ** Admission against the template *)

(** A reference may name the referrer's own namespace, or the shared one. *)
Definition namespace_allowed (sharedNamespace ns own : string) : Prop :=
  ns = "" \/ ns = own \/ (sharedNamespace <> "" /\ ns = sharedNamespace).

Lemma validateTemplateNamespace_Ok shared ref w :
  validateTemplateNamespace shared ref w = Ok tt <->
  namespace_allowed shared (tr_Namespace ref) (ws_Namespace w).
Proof.
  unfold validateTemplateNamespace, namespace_allowed. cbv zeta.
  repeat case_bool_decide; cbn; split; try done; intuition congruence.
Qed.

Lemma validateNamespaceScope_Ok shared ns own kind :
  validateNamespaceScope shared ns own kind = Ok tt <-> namespace_allowed shared ns own.
Proof.
  unfold validateNamespaceScope, namespace_allowed.
  repeat case_bool_decide; cbn; split; try done; intuition congruence.
Qed.

(** The change is only [desiredStatus] going to Stopped. *)
Definition bare_stop (old new : WorkspaceSpec) : Prop :=
  sp_DesiredStatus old <> "Stopped" /\
  sem_spec (set_sp_DesiredStatus "Stopped" old) = sem_spec new /\ sp_DesiredStatus new = "Stopped".

(** The two exemptions of an update, as the code computes them. *)
Definition stop_or_same (old new : WorkspaceSpec) : bool :=
  negb (specChanged old new) ||
  (bool_decide (sp_DesiredStatus new = "Stopped") && negb (bool_decide (sp_DesiredStatus old = "Stopped"))
   && onlyDesiredStatusChanged old new).

Lemma stop_branch old new :
  stop_or_same old new = true <-> sem_spec old = sem_spec new \/ bare_stop old new.
Proof.
  unfold stop_or_same, specChanged, onlyDesiredStatusChanged, bare_stop.
  rewrite negb_involutive, orb_true_iff, !andb_true_iff, negb_true_iff, !bool_decide_eq_true,
    bool_decide_eq_false.
  split; intros [Hs|Hs]; [by left| |by left|]; right; destruct_and!.
  - split; [done|]. destruct (bool_decide (sp_DesiredStatus old = _)) eqn:E; [done|].
    match goal with H : bool_decide _ = true |- _ => apply bool_decide_eq_true in H; rename H into Hb end.
    split; [|done]. rewrite <- Hb. f_equal. congruence.
  - split; [split; [done|done]|]. rewrite bool_decide_false by congruence.
    apply bool_decide_eq_true. congruence.
Qed.

Section admission.
Context `{GoRuntime} `{GoRegexp} {W : Type} (client : RefClient W) (shared : string).

(** What the template asks of a workspace that names one. *)
Definition admits (s : W) (w : Workspace) : Prop :=
  forall ref, sp_TemplateRef (ws_Spec w) = Some ref ->
  namespace_allowed shared (tr_Namespace ref) (ws_Namespace w) /\
  exists t s', ResolveTemplate client shared (Some ref) (ws_Namespace w) s = (Ok t, s') /\
    conforms w t.

Lemma ValidateCreateWorkspace_Ok w s :
  (exists s', ValidateCreateWorkspace client shared w s = (Ok tt, s')) <-> admits s w.
Proof.
  unfold ValidateCreateWorkspace, admits.
  destruct (sp_TemplateRef (ws_Spec w)) as [ref|];
    [|split; [by intros _ ? [=]|intros _; by exists s]].
  split.
  - intros [s' Hr] ? [= <-]. inv_run Hr. destruct_units.
    apply validateTemplateNamespace_Ok in Hr0. split; [done|]. eexists _, _. split; [exact Hr1|].
    apply template_violations_nil. by destruct (template_violations w _).
  - intros Hall. destruct (Hall ref eq_refl) as (Hn & t & s' & Hres & Hc).
    exists s'. apply validateTemplateNamespace_Ok in Hn. unfold st_bind, st_lift. rewrite Hn, Hres.
    apply template_violations_nil in Hc. by rewrite Hc.
Qed.

Lemma ValidateUpdateWorkspace_eq old new :
  ValidateUpdateWorkspace client shared old new =
  match sp_TemplateRef (ws_Spec new) with
  | None => st_ret tt
  | Some newRef =>
      match sp_TemplateRef (ws_Spec old) with
      | None => ValidateCreateWorkspace client shared new
      | Some oldRef =>
          if bool_decide (tr_Name oldRef = tr_Name newRef) && stop_or_same (ws_Spec old) (ws_Spec new)
          then st_ret tt else ValidateCreateWorkspace client shared new
      end
  end.
Proof.
  unfold ValidateUpdateWorkspace, stop_or_same. cbv zeta.
  destruct (sp_TemplateRef (ws_Spec old)) as [oldRef|], (sp_TemplateRef (ws_Spec new)) as [newRef|];
    try reflexivity.
  destruct (bool_decide (tr_Name oldRef = tr_Name newRef)); [|reflexivity].
  generalize (specChanged (ws_Spec old) (ws_Spec new)). intros b. cbn [negb andb].
  destruct b; reflexivity.
Qed.

(** [C7] Template admission: a new workspace is accepted exactly when it names no
    template, or the reference stays in its own or the shared namespace, the
    template resolves, and image, resources, storage, volumes, init containers,
    labels, environment and idle shutdown are all within what it allows; an
    update is held to the same unless it drops the template, changes nothing but
    representation, or only stops the workspace. *)
Theorem template_admission (old new : Workspace) (s : W) :
  ((exists s', ValidateCreateWorkspace client shared new s = (Ok tt, s')) <-> admits s new) /\
  ((exists s', ValidateUpdateWorkspace client shared old new s = (Ok tt, s')) <->
   (exists oldRef newRef, sp_TemplateRef (ws_Spec old) = Some oldRef /\
      sp_TemplateRef (ws_Spec new) = Some newRef /\ tr_Name oldRef = tr_Name newRef /\
      (sem_spec (ws_Spec old) = sem_spec (ws_Spec new) \/ bare_stop (ws_Spec old) (ws_Spec new)))
   \/ admits s new).
Proof.
  split; [apply ValidateCreateWorkspace_Ok|]. rewrite ValidateUpdateWorkspace_eq.
  destruct (sp_TemplateRef (ws_Spec new)) as [newRef|] eqn:En.
  2:{ transitivity True; [split; [done|by eexists]|].
      split; [|done]. intros _. right. unfold admits. rewrite En. by intros ? [=]. }
  destruct (sp_TemplateRef (ws_Spec old)) as [oldRef|].
  2:{ rewrite ValidateCreateWorkspace_Ok. split; [by right|]. by intros [(? & ? & ? & _)|]. }
  setoid_rewrite <- stop_branch.
  case_bool_decide as Ename; cbn [andb].
  - destruct (stop_or_same (ws_Spec old) (ws_Spec new)).
    + split; [intros _; left; eauto 8|by eexists].
    + rewrite ValidateCreateWorkspace_Ok. split; [by right|].
      by intros [(? & ? & _ & _ & _ & ?)|].
  - rewrite ValidateCreateWorkspace_Ok. split; [by right|].
    by intros [(? & ? & [= <-] & [= <-] & ? & _)|].
Qed.
End admission.
