(* ===== verification/WorkspaceWebhook.v ===== *)
(** * WorkspaceWebhook: admission of workspaces

    internal/webhook/v1alpha1 workspace_webhook.go, with the validators of
    service accounts (service_account_validator.go) and of integration references
    (integration_template_ref_validator.go): the mutating Default and the
    validating ValidateCreate, ValidateUpdate and ValidateDelete. *)

From S2P Require Import Prelude Api K8s WorkspaceQueries Integrations StringUtil Defaulters.
From S2P Require Import Validators.

Definition DefaultAdminGroup : string := "system:masters".
Definition AnnotationServiceAccountUsers : string := "workspace.jupyter.org/service-account-users".
Definition AnnotationServiceAccountUserPatterns : string :=
  "workspace.jupyter.org/service-account-user-patterns".
Definition AnnotationServiceAccountGroups : string := "workspace.jupyter.org/service-account-groups".

(** The admission request of a context, as the webhooks read it. *)
Record AdmissionRequest := mkAdmissionRequest {
  req_Username : string;
  req_Groups : list string;
  req_Operation : string;
}.

(** The environment variables the webhooks read. *)
Record WebhookEnv := mkWebhookEnv {
  CONTROLLER_POD_SERVICE_ACCOUNT : string;
  CONTROLLER_POD_NAMESPACE : string;
  CLUSTER_ADMIN_GROUP : string;
}.

(** getEffectiveOwnershipType treats empty as Public. *)
Definition getEffectiveOwnershipType (ownershipType : string) : string :=
  if bool_decide (ownershipType = "") then OwnershipTypePublic else ownershipType.

(** isControllerOrAdminUser: the controller's service account, or an admin group. *)
Definition isControllerOrAdminUser (env : WebhookEnv) (ctx : option AdmissionRequest) : bool :=
  match ctx with
  | None => false
  | Some req =>
      let isController :=
        negb (bool_decide (CONTROLLER_POD_SERVICE_ACCOUNT env = "")) &&
        negb (bool_decide (CONTROLLER_POD_NAMESPACE env = "")) &&
        bool_decide (req_Username req = "system:serviceaccount:" +:+ CONTROLLER_POD_NAMESPACE env
                                        +:+ ":" +:+ CONTROLLER_POD_SERVICE_ACCOUNT env) in
      let adminGroups := DefaultAdminGroup ::
        (if negb (bool_decide (CLUSTER_ADMIN_GROUP env = "")) then [CLUSTER_ADMIN_GROUP env] else []) in
      isController || existsb (fun g => bool_decide (g ∈ adminGroups)) (req_Groups req)
  end.

Definition no_request : error := Errorf "admission.Request not found in context" [].

(** validateOwnershipPermission: only the recorded creator may go on. *)
Definition validateOwnershipPermission (ctx : option AdmissionRequest) (w : Workspace) : result unit :=
  match ctx with
  | None => Fail (Wrapf "unable to extract user information from request context: %w" [] no_request)
  | Some req =>
      let currentUser := SanitizeUsername (req_Username req) in
      let createdBy := default "" (om_Annotations (ws_ObjectMeta w) !! AnnotationCreatedBy) in
      if negb (bool_decide (createdBy = "")) && bool_decide (createdBy = currentUser) then Ok tt
      else Fail (Errorf "access denied: only workspace owner can modify OwnerOnly workspaces" [])
  end.

(** ** Service accounts *)

(** regexp.QuoteMeta. *)
Definition is_meta (c : ascii) : bool :=
  bool_decide (c ∈ String.list_ascii_of_string "\.+*?()|[]{}^$").
Fixpoint QuoteMeta (s : string) : string :=
  match s with
  | EmptyString => EmptyString
  | String c rest => if is_meta c then String "\" (String c (QuoteMeta rest)) else String c (QuoteMeta rest)
  end.

(** strings.ReplaceAll of a backslash followed by [c]. *)
Fixpoint replace_escaped (c : ascii) (new s : string) : string :=
  match s with
  | String a (String b rest as tail) =>
      if Ascii.eqb a "\" && Ascii.eqb b c then new +:+ replace_escaped c new rest
      else String a (replace_escaped c new tail)
  | _ => s
  end.

Section service_accounts.
Context `{GoRegexp}.
(** yaml.Unmarshal into a string slice. *)
Variable yaml_strings : string -> option (list string).

(** matchPattern: [*] and [?] wildcards, anchored. *)
Definition matchPattern (pattern str : string) : bool :=
  let escaped := replace_escaped "?" "." (replace_escaped "*" ".*" (QuoteMeta pattern)) in
  let regex := "^" +:+ escaped +:+ "$" in
  re_compiles regex && re_MatchString regex str.

(** The names an annotation of the account lists; none when absent or broken. *)
Definition listed (annotation : string) (sa : ServiceAccount) : list string :=
  match sa_Annotations sa !! annotation with
  | None => []
  | Some y => default [] (yaml_strings y)
  end.

Definition checkUsernameAccess (username : string) (sa : ServiceAccount) : bool :=
  bool_decide (username ∈ listed AnnotationServiceAccountUsers sa).
Definition checkUsernamePatternAccess (username : string) (sa : ServiceAccount) : bool :=
  existsb (fun p => matchPattern p username) (listed AnnotationServiceAccountUserPatterns sa).
Definition checkGroupAccess (userGroups : list string) (sa : ServiceAccount) : bool :=
  existsb (fun g => bool_decide (g ∈ userGroups)) (listed AnnotationServiceAccountGroups sa).
Definition hasServiceAccountAccess (req : AdmissionRequest) (sa : ServiceAccount) : bool :=
  checkUsernameAccess (req_Username req) sa || checkUsernamePatternAccess (req_Username req) sa ||
  checkGroupAccess (req_Groups req) sa.

Context {W : Type} (client : RefClient W).
Local Open Scope go_scope.

Definition ValidateServiceAccountAccess (ctx : option AdmissionRequest) (w : Workspace) : ST W unit :=
  let name := sp_ServiceAccountName (ws_Spec w) in
  if bool_decide (name = "") then st_ret tt
  else
  match ctx with
  | None => st_fail (Wrapf "unable to extract user information: %w" [] no_request)
  | Some req =>
      sa <- st_wrap "failed to get service account %s: %w" [name]
              (rc_GetServiceAccount client name (ws_Namespace w)) ;;
      defaultSA <- st_try (GetDefaultServiceAccount client (ws_Namespace w)) ;;
      if match defaultSA with Ok d => bool_decide (name = d) | Fail _ => false end then st_ret tt
      else if hasServiceAccountAccess req sa then st_ret tt
      else st_fail (Errorf "access denied: user does not have access to service account %s" [name])
  end.
End service_accounts.

(** ** Integration references *)

(** [strings.TrimSpace(v) == ""]. *)
Fixpoint blank_bytes (fuel : nat) (s : list Z) : bool :=
  match fuel, s with
  | _, [] => true
  | O, _ => false
  | S fuel, _ =>
      match List.find (fun sp => bool_decide (take (length sp) s = sp)) spaces with
      | Some sp => blank_bytes fuel (drop (length sp) s)
      | None => false
      end
  end.
Definition blank (v : string) : bool :=
  let s := byte <$> text v in blank_bytes (length s) s.

(** validateWorkspaceIntegrationParameters: every declared parameter, not blank. *)
Fixpoint parameters_loop (refName : string) (supplied : gmap string string)
    (params : list IntegrationTemplateParameter) : result unit :=
  match params with
  | [] => Ok tt
  | p :: rest =>
      match supplied !! itp_Name p with
      | None => Fail (Errorf
          "integration %q requires parameter %q but the workspace does not supply it"
          [refName; itp_Name p])
      | Some v =>
          if blank v then Fail (Errorf "integration %q parameter %q must not be empty"
                                 [refName; itp_Name p])
          else parameters_loop refName supplied rest
      end
  end.
Definition validateWorkspaceIntegrationParameters (ref : IntegrationTemplateRef)
    (tmpl : WorkspaceIntegrationTemplate) : result unit :=
  parameters_loop (itr_Name ref) (ParametersMap ref) (wits_Parameters (wit_Spec tmpl)).

(** validateNamespaceScope of the integration references. *)
Definition validateIntegrationNamespaceScope (sharedNamespace : string) (ref : IntegrationTemplateRef)
    (workspaceNamespace : string) : result unit :=
  let ns := itr_Namespace ref in
  if bool_decide (ns = "") || bool_decide (ns = workspaceNamespace) ||
     (negb (bool_decide (sharedNamespace = "")) && bool_decide (ns = sharedNamespace)) then Ok tt
  else if bool_decide (sharedNamespace = "") then
    Fail (Errorf "integrationTemplateRefs[%q].namespace %q is not allowed: integration templates must be in the workspace namespace %q"
      [itr_Name ref; ns; workspaceNamespace])
  else Fail (Errorf "integrationTemplateRefs[%q].namespace %q is not allowed: integration templates must be in the workspace namespace %q or the shared namespace %q"
      [itr_Name ref; ns; workspaceNamespace; sharedNamespace]).

Section integration_refs.
Context `{GoRuntime} {W : Type} (client : RefClient W) (sharedNamespace : string).
Local Open Scope go_scope.

Definition unusedParameterWarnings (ref : IntegrationTemplateRef)
    (tmpl : WorkspaceIntegrationTemplate) : list string :=
  let declared := itp_Name <$> wits_Parameters (wit_Spec tmpl) in
  let unused := List.filter (fun name => negb (bool_decide (name ∈ declared)))
                  (range (ParametersMap ref)).*1 in
  (fun name => Sprintf
    "integrationTemplateRefs[%q]: parameter %q is not declared by the template and will be ignored (typo?)"
    [itr_Name ref; name]) <$> merge_sort string_le unused.

(** validateRef: namespace scope before any read, existence, parameters. *)
Definition validateRef (w : Workspace) (ref : IntegrationTemplateRef) : ST W (list string) :=
  st_lift (validateIntegrationNamespaceScope sharedNamespace ref (ws_Namespace w)) ;;
  let ns := if bool_decide (itr_Namespace ref = "") then ws_Namespace w else itr_Namespace ref in
  r <- st_try (crud_Get (rc_IntegrationTemplate client) (itr_Name ref) ns) ;;
  match r with
  | Fail err =>
      if IsNotFound err then st_fail (Errorf
        "integrationTemplateRefs[%q]: WorkspaceIntegrationTemplate %q not found in namespace %q"
        [itr_Name ref; itr_Name ref; ns])
      else st_fail (Wrapf "failed to load integration template %q: %w" [itr_Name ref] err)
  | Ok tmpl =>
      st_lift (validateWorkspaceIntegrationParameters ref tmpl) ;;
      st_ret (unusedParameterWarnings ref tmpl)
  end.

(** The loop of Validate. *)
Fixpoint refs_loop (w : Workspace) (refs : list IntegrationTemplateRef) (warnings : list string)
    : ST W (list string) :=
  match refs with
  | [] => st_ret warnings
  | ref :: rest =>
      refWarnings <- validateRef w ref ;;
      refs_loop w rest (warnings ++ refWarnings)
  end.

Definition IntegrationTemplateRefValidator_Validate (w : Workspace) : ST W (list string) :=
  refs_loop w (sp_IntegrationTemplateRefs (ws_Spec w)) [].
End integration_refs.

(** ** The webhook *)

Section webhook.
Context `{GoRuntime} `{GoRegexp} {W : Type} (client : RefClient W) (env : WebhookEnv)
  (defaultTemplateNamespace : string) (yaml_strings : string -> option (list string)).
Local Open Scope go_scope.

(** ensureTemplateFinalizer: when an active workspace uses the template, put the
    protection finalizer on it; a template that cannot be read is skipped. *)
Definition ensureTemplateFinalizer (templateName templateNamespace : string) : ST W unit :=
  if bool_decide (templateName = "") then st_ret tt
  else
  out <- st_wrap "failed to check workspace usage for template %s/%s: %w"
           [templateNamespace; templateName]
           (ListActiveWorkspacesByTemplate client templateName templateNamespace "" 1) ;;
  if bool_decide (out.1 = []) then st_ret tt
  else
  r <- st_try (crud_Get (rc_Template client) templateName templateNamespace) ;;
  match r with
  | Fail _ => st_ret tt
  | Ok template =>
      if ContainsFinalizer (wt_ObjectMeta template) TemplateFinalizerName then st_ret tt
      else
        st_wrap "failed to add finalizer to template %s/%s: %w" [templateNamespace; templateName]
          (crud_Update (rc_Template client) (set_wt_ObjectMeta
             (AddFinalizer TemplateFinalizerName (wt_ObjectMeta template)) template)) ;;
        st_ret tt
  end.

(** ensureAccessStrategyFinalizer: the strategy must exist, and gets the finalizer. *)
Definition ensureAccessStrategyFinalizer (w : Workspace) : ST W unit :=
  match sp_AccessStrategy (ws_Spec w) with
  | None => st_ret tt
  | Some ref =>
      if bool_decide (asr_Name ref = "") then st_ret tt
      else if is_deleting (ws_ObjectMeta w) then st_ret tt
      else
      let ns := if negb (bool_decide (asr_Namespace ref = "")) then asr_Namespace ref
                else ws_Namespace w in
      r <- st_try (crud_Get (rc_AccessStrategy client) (asr_Name ref) ns) ;;
      match r with
      | Fail err =>
          if IsNotFound err then
            st_fail (Errorf "referenced AccessStrategy %s not found in namespace %s"
                       [asr_Name ref; ns])
          else st_fail (Wrapf "failed to get AccessStrategy %s in namespace %s: %w"
                          [asr_Name ref; ns] err)
      | Ok accessStrategy =>
          if ContainsFinalizer (was_ObjectMeta accessStrategy) AccessStrategyFinalizerName
          then st_ret tt
          else st_wrap "failed to add finalizer to AccessStrategy %s/%s: %w"
                 [om_Namespace (was_ObjectMeta accessStrategy);
                  om_Name (was_ObjectMeta accessStrategy)]
                 (SafelyAddFinalizerToAccessStrategy client accessStrategy
                    AccessStrategyFinalizerName)
      end
  end.

(** The ownership annotations of Default. *)
Definition track_owner (ctx : option AdmissionRequest) (w : Workspace) : Workspace :=
  match ctx with
  | None => w
  | Some req =>
      let user := SanitizeUsername (req_Username req) in
      let a := om_Annotations (ws_ObjectMeta w) in
      let a := if bool_decide (req_Operation req = "CREATE")
               then <[AnnotationCreatedBy := user]> a else a in
      set_ws_ObjectMeta (set_om_Annotations (<[AnnotationLastUpdatedBy := user]> a)
        (ws_ObjectMeta w)) w
  end.

(** Default: desired status, ownership, template, defaults, service account and
    sharing; then the namespace checks, and only then the finalizers. *)
Definition Default (ctx : option AdmissionRequest) (w : Workspace) : ST W Workspace :=
  if is_deleting (ws_ObjectMeta w) then st_ret w
  else
  let w := if bool_decide (sp_DesiredStatus (ws_Spec w) = "")
           then on_spec (set_sp_DesiredStatus "Running") w else w in
  let w := track_owner ctx w in
  w <- st_wrap "failed to apply template reference: %w" []
         (ApplyTemplateName client defaultTemplateNamespace w) ;;
  w <- st_wrap "failed to apply template defaults: %w" []
         (ApplyTemplateDefaults client defaultTemplateNamespace w) ;;
  w <- st_wrap "failed to apply service account defaults: %w" []
         (ApplyServiceAccountDefaults client w) ;;
  let w := setWorkspaceSharingDefaults w in
  (if has_template w
   then st_lift (TemplateValidator_ValidateNamespaceScope defaultTemplateNamespace w)
   else st_ret tt) ;;
  st_lift (validateAccessStrategyNamespace defaultTemplateNamespace w) ;;
  (match sp_TemplateRef (ws_Spec w) with
   | Some ref =>
       if bool_decide (tr_Name ref = "") then st_ret tt
       else st_wrap "failed to add finalizer to template: %w" []
              (ensureTemplateFinalizer (tr_Name ref) (GetTemplateRefNamespace w))
   | None => st_ret tt
   end) ;;
  st_wrap "failed to add finalizer to AccessStrategy: %w" [] (ensureAccessStrategyFinalizer w) ;;
  st_ret w.

Definition ValidateCreate (ctx : option AdmissionRequest) (w : Workspace) : ST W (list string) :=
  ValidateCreateWorkspace client defaultTemplateNamespace w ;;
  st_lift (validateAccessStrategyNamespace defaultTemplateNamespace w) ;;
  warnings <- IntegrationTemplateRefValidator_Validate client defaultTemplateNamespace w ;;
  ValidateVolumeOwnership client w ;;
  if isControllerOrAdminUser env ctx then st_ret warnings
  else
  st_lift (validateReservedPrefixOnCreate w) ;;
  ValidateServiceAccountAccess yaml_strings client ctx w ;;
  st_ret warnings.

(** The ownership check of ValidateUpdate. *)
Definition ownership_check (ctx : option AdmissionRequest) (oldWorkspace newWorkspace : Workspace)
    : result unit :=
  let originalOwnershipType := getEffectiveOwnershipType (sp_OwnershipType (ws_Spec oldWorkspace)) in
  let newOwnershipType := getEffectiveOwnershipType (sp_OwnershipType (ws_Spec newWorkspace)) in
  if bool_decide (originalOwnershipType = OwnershipTypeOwnerOnly)
  then validateOwnershipPermission ctx oldWorkspace
  else if bool_decide (newOwnershipType = OwnershipTypeOwnerOnly)
  then validateOwnershipPermission ctx oldWorkspace
  else Ok tt.

Definition ValidateUpdate (ctx : option AdmissionRequest) (oldWorkspace newWorkspace : Workspace)
    : ST W (list string) :=
  if is_deleting (ws_ObjectMeta newWorkspace) then st_ret []
  else if isControllerOrAdminUser env ctx then st_ret []
  else
  warnings <- (if integrationRefsChanged (ws_Spec oldWorkspace) (ws_Spec newWorkspace)
               then IntegrationTemplateRefValidator_Validate client defaultTemplateNamespace newWorkspace
               else st_ret []) ;;
  st_lift (validateReservedPrefixOnUpdate oldWorkspace newWorkspace) ;;
  ValidateServiceAccountAccess yaml_strings client ctx newWorkspace ;;
  st_lift (ownership_check ctx oldWorkspace newWorkspace) ;;
  ValidateUpdateWorkspace client defaultTemplateNamespace oldWorkspace newWorkspace ;;
  ValidateStorageSizeNotShrinking client newWorkspace ;;
  st_lift (validateAccessStrategyNamespace defaultTemplateNamespace newWorkspace) ;;
  ValidateVolumeOwnership client newWorkspace ;;
  st_ret warnings.

Definition ValidateDelete (ctx : option AdmissionRequest) (w : Workspace) : result unit :=
  if isControllerOrAdminUser env ctx then Ok tt
  else if bool_decide (getEffectiveOwnershipType (sp_OwnershipType (ws_Spec w))
                       = OwnershipTypeOwnerOnly)
  then validateOwnershipPermission ctx w
  else Ok tt.
End webhook.

(** ** Reserved keys *)

Lemma reserved_added kind old new_ :
  added_keys_loop kind old new_ = Ok tt <->
  forall k v, (k, v) ∈ new_ -> reserved k = true ->
  exists p, SystemManagedMetadataKeys !! k = Some p /\
    (p = SetOnCreateOnly -> forall ov, old !! k = Some ov -> ov = v).
Proof.
  induction new_ as [|[k v] rest IH]; cbn [added_keys_loop];
    [split; [by intros _ ? ? ?%elem_of_nil|done]|].
  transitivity ((reserved k = true -> exists p, SystemManagedMetadataKeys !! k = Some p /\
      (p = SetOnCreateOnly -> forall ov, old !! k = Some ov -> ov = v)) /\
      added_keys_loop kind old rest = Ok tt).
  - destruct (reserved k); cbn [negb]; [|split; [by split|by intros []]].
    destruct (SystemManagedMetadataKeys !! k) as [p|];
      [|split; [done|intros [Hk _]; by destruct (Hk eq_refl) as (? & ? & _)]].
    destruct (old !! k) as [ov|].
    + destruct (decide (ov = v)) as [->|Hv];
        [rewrite bool_decide_true by done; cbn [negb andb]
        |rewrite bool_decide_false by done; cbn [negb andb]].
      * split; [|by intros []]. intros Hr. split; [|done]. intros _. exists p. split; [done|].
        by intros _ ? [= <-].
      * case_bool_decide as Hp.
        -- split; [done|]. intros [Hk _]. destruct (Hk eq_refl) as (? & [= <-] & Ho).
           by destruct Hv; apply Ho.
        -- split; [|by intros []]. intros Hr. split; [|done]. intros _. by exists p.
    + split; [|by intros []]. intros Hr. split; [|done]. intros _. exists p. split; [done|].
      by intros _ ? [=].
  - rewrite IH. split.
    + intros [Hk Hr] k' v' [[= -> ->]|Hin]%elem_of_cons; [done|]. by apply Hr.
    + intros Hall. split; [apply Hall; left|]. intros k' v' Hin. apply Hall. by right.
Qed.

Lemma reserved_removed kind new_ old :
  removed_keys_loop kind new_ old = Ok tt ->
  forall k v, (k, v) ∈ old -> reserved k = true -> new_ !! k = None ->
  SystemManagedMetadataKeys !! k = Some SetAlways.
Proof.
  induction old as [|[k v] rest IH]; cbn [removed_keys_loop]; [by intros _ ? ? ?%elem_of_nil|].
  intros Hr k' v' [[= -> ->]|Hin]%elem_of_cons Hk Hn; [|].
  - rewrite Hk, Hn in Hr. cbn [andb] in Hr.
    destruct (SystemManagedMetadataKeys !! k) as [[]|]; done.
  - destruct (_ && _); [done|]. by eapply IH.
Qed.

Section ownership.
Context `{GoRuntime} `{GoRegexp} {W : Type} (client : RefClient W) (env : WebhookEnv)
  (defaultTemplateNamespace : string) (yaml_strings : string -> option (list string)).

Definition created_by (w : Workspace) : option string :=
  om_Annotations (ws_ObjectMeta w) !! AnnotationCreatedBy.

(** An accepted change of annotations keeps a recorded creator. *)
Lemma created_by_immutable old new c :
  validateReservedPrefixOnUpdate old new = Ok tt -> created_by old = Some c -> created_by new = Some c.
Proof.
  unfold validateReservedPrefixOnUpdate, checkReservedKeyChanges, created_by.
  rewrite !result_bind_Ok. intros ([] & _ & ([] & Ha & Hr)%result_bind_Ok) Hc.
  assert (Hres : reserved AnnotationCreatedBy = true) by reflexivity.
  destruct (om_Annotations (ws_ObjectMeta new) !! AnnotationCreatedBy) as [v|] eqn:Hn.
  - pose proof (proj1 (reserved_added _ _ _) Ha AnnotationCreatedBy v) as Hx.
    rewrite elem_of_range in Hx. destruct (Hx Hn Hres) as (p & Hp & Ho).
    f_equal. symmetry. apply Ho; [|done]. vm_compute in Hp. congruence.
  - pose proof (reserved_removed _ _ _ Hr AnnotationCreatedBy c) as Hx.
    rewrite elem_of_range in Hx. specialize (Hx Hc Hres Hn). vm_compute in Hx. discriminate.
Qed.

(** *** What Default leaves of the metadata *)

(** All but the labels. *)
Definition unlabelled (w : Workspace) : ObjectMeta := set_om_Labels ∅ (ws_ObjectMeta w).

Lemma ApplyTemplateName_meta w w' s s' :
  ApplyTemplateName client defaultTemplateNamespace w s = (Ok w', s') -> unlabelled w' = unlabelled w.
Proof.
  unfold ApplyTemplateName. destruct (has_template w); intros Hr; inv_run Hr; [done|].
  by destruct a0.
Qed.

Lemma ApplyTemplateDefaults_meta w w' s s' :
  ApplyTemplateDefaults client defaultTemplateNamespace w s = (Ok w', s') ->
  unlabelled w' = unlabelled w.
Proof.
  unfold ApplyTemplateDefaults. destruct (negb (has_template w)); intros Hr; inv_run Hr; [done|].
  by rewrite apply_defaults_eq.
Qed.

Lemma ApplyServiceAccountDefaults_meta w w' s s' :
  ApplyServiceAccountDefaults client w s = (Ok w', s') -> unlabelled w' = unlabelled w.
Proof.
  unfold ApplyServiceAccountDefaults. destruct (negb _); intros Hr; inv_run Hr; done.
Qed.

Lemma Default_meta ctx w w' s s' :
  is_deleting (ws_ObjectMeta w) = false ->
  Default client defaultTemplateNamespace ctx w s = (Ok w', s') ->
  unlabelled w' = unlabelled (track_owner ctx w).
Proof.
  intros Hd. unfold Default. rewrite Hd. cbv zeta. intros Hr. inv_run Hr.
  apply ApplyTemplateName_meta in Hr0. apply ApplyTemplateDefaults_meta in Hr1.
  apply ApplyServiceAccountDefaults_meta in Hr2.
  transitivity (unlabelled a1); [reflexivity|]. rewrite Hr2, Hr1, Hr0.
  destruct ctx, (bool_decide (sp_DesiredStatus (ws_Spec w) = "")); reflexivity.
Qed.

Lemma unlabelled_created_by w w' : unlabelled w' = unlabelled w -> created_by w' = created_by w.
Proof. intros E. apply (f_equal om_Annotations) in E. unfold created_by. cbn in E. by rewrite E. Qed.

Lemma Default_created_by req w w' s s' :
  is_deleting (ws_ObjectMeta w) = false ->
  Default client defaultTemplateNamespace (Some req) w s = (Ok w', s') ->
  created_by w' = if bool_decide (req_Operation req = "CREATE")
                  then Some (SanitizeUsername (req_Username req)) else created_by w.
Proof.
  intros Hd Hr. apply Default_meta, unlabelled_created_by in Hr; [|done]. rewrite Hr.
  unfold created_by, track_owner. cbn. rewrite lookup_insert_ne by done.
  case_bool_decide; [by rewrite lookup_insert_eq|done].
Qed.

(** *** Histories *)

Definition deletion_kept (old new : Workspace) : Prop :=
  is_deleting (ws_ObjectMeta old) = true -> is_deleting (ws_ObjectMeta new) = true.

(** The objects stored for a workspace: every request the API server makes passes the
    mutating and then the validating webhook, of whatever user, on a live workspace
    or on one being deleted.  [recorded] is who is on record: the user of the creating
    request, until a request of the controller or an administrator, whom the webhook
    lets write anything, puts another value there.  The API server makes no workspace
    that is being deleted, and never takes the deletion mark back. *)
Inductive history : option string -> Workspace -> Prop :=
| history_created req w w' warnings s s1 s2 :
    req_Operation req = "CREATE" -> is_deleting (ws_ObjectMeta w) = false ->
    Default client defaultTemplateNamespace (Some req) w s = (Ok w', s1) ->
    ValidateCreate client env defaultTemplateNamespace yaml_strings (Some req) w' s1
      = (Ok warnings, s2) ->
    history (Some (SanitizeUsername (req_Username req))) w'
| history_updated recorded req old w w' warnings s s1 s2 :
    history recorded old ->
    req_Operation req = "UPDATE" -> deletion_kept old w ->
    Default client defaultTemplateNamespace (Some req) w s = (Ok w', s1) ->
    ValidateUpdate client env defaultTemplateNamespace yaml_strings (Some req)
      old w' s1 = (Ok warnings, s2) ->
    history (if isControllerOrAdminUser env (Some req) then created_by w' else recorded) w'
| history_deleted recorded old w :
    history recorded old -> is_deleting (ws_ObjectMeta w) = true -> history recorded w.

(** What an accepted update of an unprivileged user has passed. *)
Lemma ValidateUpdate_checks ctx old new warnings s s' :
  is_deleting (ws_ObjectMeta new) = false -> isControllerOrAdminUser env ctx = false ->
  ValidateUpdate client env defaultTemplateNamespace yaml_strings ctx old new s
    = (Ok warnings, s') ->
  validateReservedPrefixOnUpdate old new = Ok tt /\ ownership_check ctx old new = Ok tt.
Proof.
  intros Hd Ha. unfold ValidateUpdate. rewrite Hd, Ha. intros Hr. inv_run Hr. destruct_units.
  by split.
Qed.

Lemma Default_not_deleting ctx w w' s s' :
  is_deleting (ws_ObjectMeta w) = false ->
  Default client defaultTemplateNamespace ctx w s = (Ok w', s') ->
  is_deleting (ws_ObjectMeta w') = false.
Proof.
  intros Hd Hr. apply Default_meta in Hr; [|done]. rewrite <- Hd.
  apply (f_equal om_DeletionTimestamp) in Hr. cbn in Hr. unfold is_deleting. rewrite Hr.
  by destruct ctx.
Qed.

Lemma Default_deleting ctx w w' s s' :
  is_deleting (ws_ObjectMeta w) = true ->
  Default client defaultTemplateNamespace ctx w s = (Ok w', s') -> w' = w.
Proof. intros Hd. unfold Default. rewrite Hd. intros Hr. by inv_run Hr. Qed.

Lemma history_creator recorded w creator :
  history recorded w -> is_deleting (ws_ObjectMeta w) = false -> recorded = Some creator ->
  created_by w = Some creator.
Proof.
  intros Hh. revert creator.
  induction Hh as [req w w' warnings s s1 s2 Hop Hd Hdef Hval
                  |recorded req old w w' warnings s s1 s2 _ IH Hop Hk Hdef Hval
                  |recorded old w _ _ Hdel]; intros creator Hlive Hc; [| |congruence].
  - apply Default_created_by in Hdef as ->; [|done]. by rewrite bool_decide_true.
  - destruct (isControllerOrAdminUser env (Some req)) eqn:Ha; [done|].
    assert (Hd : is_deleting (ws_ObjectMeta w) = false).
    { destruct (is_deleting (ws_ObjectMeta w)) eqn:E; [|done].
      apply Default_deleting in Hdef; [|done]. congruence. }
    apply ValidateUpdate_checks in Hval as [Hres _]; [|done..].
    apply (created_by_immutable _ _ _ Hres). apply IH; [|done].
    destruct (is_deleting (ws_ObjectMeta old)) eqn:E; [|done]. by rewrite Hk in Hd.
Qed.

Definition owner_only (w : Workspace) : Prop := sp_OwnershipType (ws_Spec w) = OwnershipTypeOwnerOnly.

Lemma getEffectiveOwnershipType_OwnerOnly o :
  getEffectiveOwnershipType o = OwnershipTypeOwnerOnly <-> o = OwnershipTypeOwnerOnly.
Proof. unfold getEffectiveOwnershipType. case_bool_decide; [subst; done|done]. Qed.

Lemma validateOwnershipPermission_Ok ctx w c :
  created_by w = Some c ->
  validateOwnershipPermission ctx w = Ok tt <->
  c <> "" /\ exists req, ctx = Some req /\ SanitizeUsername (req_Username req) = c.
Proof.
  unfold created_by, validateOwnershipPermission. intros ->. cbn.
  destruct ctx as [req|]; [|split; [done|]; by intros (_ & ? & ? & _)].
  split.
  - destruct (negb _ && _) eqn:E; [|done]. intros _. bool_to_prop. split; [done|]. eauto.
  - intros (Hc & ? & [= <-] & ->). rewrite bool_decide_false, bool_decide_true by done. done.
Qed.

(** [C6] Ownership of a live workspace: whatever requests the webhooks have let through
    since its creation, its created-by annotation names the user who created it, unless
    the controller or an administrator, whom the webhook lets write anything, put
    another name there, and then it names that one (if they take the annotation away
    nothing is claimed).  While the workspace is owner-only,
    or a request would make it so, an unprivileged update that is accepted and does not
    come after the deletion mark comes from the user named, and an unprivileged
    deletion is accepted exactly from that user.  (Updates of a workspace that is being
    deleted are accepted from anyone; nothing is claimed of them.) *)
Theorem ownership_enforced (creator : string) (w : Workspace) :
  history (Some creator) w -> is_deleting (ws_ObjectMeta w) = false ->
  created_by w = Some creator /\
  (forall ctx new warnings s s',
     isControllerOrAdminUser env ctx = false -> is_deleting (ws_ObjectMeta new) = false ->
     owner_only w \/ owner_only new ->
     ValidateUpdate client env defaultTemplateNamespace yaml_strings ctx w new s
       = (Ok warnings, s') ->
     created_by new = Some creator /\
     exists req, ctx = Some req /\ SanitizeUsername (req_Username req) = creator) /\
  (forall ctx, isControllerOrAdminUser env ctx = false -> owner_only w ->
     ValidateDelete env ctx w = Ok tt <->
     creator <> "" /\ exists req, ctx = Some req /\ SanitizeUsername (req_Username req) = creator).
Proof.
  intros Hh Hlive. apply (history_creator _ _ creator) in Hh; [|done..]. split; [done|]. split.
  - intros ctx new warnings s s' Ha Hd Ho Hr.
    apply ValidateUpdate_checks in Hr as [Hres Hown]; [|done..].
    split; [by eapply created_by_immutable|].
    unfold ownership_check in Hown. cbv zeta in Hown.
    destruct (validateOwnershipPermission ctx w) as [[]|] eqn:Ep.
    + apply (validateOwnershipPermission_Ok _ _ _ Hh) in Ep. by destruct Ep.
    + repeat case_bool_decide; try discriminate.
      rewrite getEffectiveOwnershipType_OwnerOnly in *. by destruct Ho.
  - intros ctx Ha Ho. unfold ValidateDelete. rewrite Ha.
    rewrite bool_decide_true by by apply getEffectiveOwnershipType_OwnerOnly.
    by apply validateOwnershipPermission_Ok.
Qed.
End ownership.

(** ** A cluster with nothing but default service accounts, and its users *)

Definition empty_refs : RefClient unit := {|
  rc_ListWorkspaces := fun _ _ _ => st_ret ([], "");
  rc_ListTemplates := fun _ _ => st_ret [];
  rc_ListServiceAccounts := fun _ _ => st_ret [];
  rc_GetServiceAccount := fun name _ => st_ret (mkServiceAccount name ∅);
  rc_Template := empty_crud;
  rc_AccessStrategy := empty_crud;
  rc_IntegrationTemplate := empty_crud;
  rc_PVC := empty_crud;
|}.
Definition demo_env : WebhookEnv := mkWebhookEnv "controller" "system" "".
Definition request_of (user operation : string) : option AdmissionRequest :=
  Some (mkAdmissionRequest user ["users"] operation).
Definition demo_private : Workspace :=
  on_spec (set_sp_OwnershipType OwnershipTypeOwnerOnly) Status.demo_ws.
Definition demo_default (user operation : string) (w : Workspace) : Workspace :=
  match (Default empty_refs "shared" (request_of user operation) w tt).1 with
  | Ok w' => w' | Fail _ => w end.
Definition demo_created : Workspace := demo_default "alice" "CREATE" demo_private.
Definition demo_updated : Workspace :=
  demo_default "alice" "UPDATE" (on_spec (set_sp_Image "img:2") demo_created).

Lemma demo_history :
  history (H := canonical_runtime) (H0 := no_regexp) empty_refs demo_env "shared" (fun _ => None)
    (Some "alice") demo_updated.
Proof.
  change (Some "alice") with (if isControllerOrAdminUser demo_env (request_of "alice" "UPDATE")
    then created_by demo_updated else Some "alice").
  apply (history_updated (H := canonical_runtime) (H0 := no_regexp) empty_refs demo_env "shared"
    (fun _ => None) (Some "alice")
    (mkAdmissionRequest "alice" ["users"] "UPDATE") demo_created
    (on_spec (set_sp_Image "img:2") demo_created) _ [] tt tt tt); try (vm_compute; reflexivity);
    [|vm_compute; done].
  apply (history_created (H := canonical_runtime) (H0 := no_regexp) _ _ _ _
    (mkAdmissionRequest "alice" ["users"] "CREATE") demo_private _ [] tt tt tt);
    vm_compute; reflexivity.
Qed.

Lemma ownership_enforced_witness :
  created_by demo_updated = Some "alice" /\
  ValidateDelete demo_env (request_of "alice" "DELETE") demo_updated = Ok tt /\
  ValidateDelete demo_env (request_of "bob" "DELETE") demo_updated <> Ok tt.
Proof.
  destruct (ownership_enforced (H := canonical_runtime) (H0 := no_regexp) empty_refs demo_env "shared"
    (fun _ => None) "alice" demo_updated demo_history eq_refl) as (Hc & _ & Hd).
  split; [exact Hc|]. split.
  - apply Hd; [vm_compute; reflexivity..|]. split; [discriminate|]. eexists. split; reflexivity.
  - intros Hb. apply Hd in Hb; [|vm_compute; reflexivity..].
    destruct Hb as (_ & req & E & Hu). injection E as <-. vm_compute in Hu. discriminate.
Defined.

(** ** What the mutating webhook may write *)

(** The workspace's own namespace and the shared one. *)
Definition within_scope (shared own ns : string) : Prop :=
  ns = own \/ (shared <> "" /\ ns = shared).

Lemma namespace_allowed_scope shared ns own :
  namespace_allowed shared ns own ->
  within_scope shared own (if negb (bool_decide (ns = "")) then ns else own).
Proof.
  unfold namespace_allowed, within_scope. case_bool_decide as Hn; cbn [negb]; [by left|].
  intros [|[|]]; [done|by left|by right].
Qed.

Section confinement.
Context {W : Type} (R : relation W) `{!PreOrder R} (client : RefClient W) `{!RefReads R client}.
Variables (shared own : string).
(** Adding a protection finalizer in scope is among what [R] allows. *)
Hypothesis template_stamp : forall t, within_scope shared own (om_Namespace (wt_ObjectMeta t)) ->
  respects R (crud_Update (rc_Template client)
    (set_wt_ObjectMeta (AddFinalizer TemplateFinalizerName (wt_ObjectMeta t)) t)).
Hypothesis strategy_stamp : forall a, within_scope shared own (om_Namespace (was_ObjectMeta a)) ->
  respects R (crud_Update (rc_AccessStrategy client)
    (set_was_ObjectMeta (AddFinalizer AccessStrategyFinalizerName (was_ObjectMeta a)) a)).

Lemma ensureTemplateFinalizer_confined name ns :
  within_scope shared own ns -> respects R (ensureTemplateFinalizer client name ns).
Proof.
  intros Hns. unfold ensureTemplateFinalizer, ListActiveWorkspacesByTemplate.
  case_match; [solve_respects|]. apply respects_bind; [done|solve_respects|intros out].
  case_match; [solve_respects|].
  apply respects_bind_post; [done|solve_respects|]. intros r s s' Hr.
  apply (proj1 (st_try_Ok _ _ _ _)) in Hr.
  destruct r as [t|]; [|solve_respects]. apply get_template_ns in Hr.
  destruct (ContainsFinalizer _ _); [solve_respects|].
  apply respects_bind; [done| |intros ?; solve_respects].
  apply respects_wrap, template_stamp. by rewrite Hr.
Qed.

Lemma SafelyAddFinalizer_confined a :
  within_scope shared own (om_Namespace (was_ObjectMeta a)) ->
  respects R (SafelyAddFinalizerToAccessStrategy client a AccessStrategyFinalizerName).
Proof. intros Hns. unfold SafelyAddFinalizerToAccessStrategy. solve_respects. Qed.

Lemma ensureAccessStrategyFinalizer_confined w :
  ws_Namespace w = own -> validateAccessStrategyNamespace shared w = Ok tt ->
  respects R (ensureAccessStrategyFinalizer client w).
Proof.
  intros How Hv. unfold ensureAccessStrategyFinalizer, validateAccessStrategyNamespace in *.
  destruct (sp_AccessStrategy (ws_Spec w)) as [ref|]; [|solve_respects].
  apply validateNamespaceScope_Ok, namespace_allowed_scope in Hv. rewrite How in *.
  destruct (bool_decide (asr_Name ref = "")); [solve_respects|].
  destruct (is_deleting _); [solve_respects|]. cbv zeta.
  apply respects_bind_post; [done|solve_respects|]. intros r s s' Hr.
  apply (proj1 (st_try_Ok _ _ _ _)) in Hr.
  destruct r as [a|e]; [|solve_respects]. apply get_strategy_ns in Hr. cbv zeta.
  destruct (ContainsFinalizer _ _); [solve_respects|].
  apply respects_wrap, SafelyAddFinalizer_confined. by rewrite Hr.
Qed.

Lemma template_scope w :
  ws_Namespace w = own -> has_template w = true ->
  TemplateValidator_ValidateNamespaceScope shared w = Ok tt ->
  within_scope shared own (GetTemplateRefNamespace w).
Proof.
  unfold has_template, TemplateValidator_ValidateNamespaceScope, GetTemplateRefNamespace.
  intros How. destruct (sp_TemplateRef (ws_Spec w)) as [ref|]; [|done]. intros _ Hv.
  apply validateTemplateNamespace_Ok, namespace_allowed_scope in Hv. by rewrite How in *.
Qed.

(** The part of Default after the defaults are in place. *)
Lemma stamping_confined w :
  ws_Namespace w = own ->
  respects R (st_bind (if has_template w
                       then st_lift (TemplateValidator_ValidateNamespaceScope shared w)
                       else st_ret tt) (fun _ =>
    st_bind (st_lift (validateAccessStrategyNamespace shared w)) (fun _ =>
    st_bind (match sp_TemplateRef (ws_Spec w) with
     | Some ref =>
         if bool_decide (tr_Name ref = "") then st_ret tt
         else st_wrap "failed to add finalizer to template: %w" []
                (ensureTemplateFinalizer client (tr_Name ref) (GetTemplateRefNamespace w))
     | None => st_ret tt
     end) (fun _ =>
    st_bind (st_wrap "failed to add finalizer to AccessStrategy: %w" []
               (ensureAccessStrategyFinalizer client w)) (fun _ => st_ret w))))).
Proof.
  intros How. apply respects_bind_post; [done|solve_respects|]. intros [] s0 s0' Ht.
  apply respects_bind_post; [done|solve_respects|]. intros [] s1 s1' Ha.
  apply st_lift_Ok in Ha as [Ha _].
  apply respects_bind; [done| |intros _].
  - destruct (has_template w) eqn:Eh; unfold has_template in Eh;
      destruct (sp_TemplateRef (ws_Spec w)) as [ref|] eqn:Er; try discriminate;
      try (apply respects_ret; typeclasses eauto).
    + apply st_lift_Ok in Ht as [Ht _]. apply negb_true_iff in Eh. rewrite Eh. apply respects_wrap.
      apply ensureTemplateFinalizer_confined. apply template_scope; [done| |done].
      unfold has_template. by rewrite Er, Eh.
    + apply negb_false_iff in Eh. rewrite Eh. apply respects_ret. typeclasses eauto.
  - apply respects_bind; [done| |intros _; apply respects_ret; typeclasses eauto].
    by apply respects_wrap, ensureAccessStrategyFinalizer_confined.
Qed.
End confinement.

Lemma unlabelled_Namespace w w' : unlabelled w' = unlabelled w -> ws_Namespace w' = ws_Namespace w.
Proof. intros E. by apply (f_equal om_Namespace) in E. Qed.

(** Confinement of the mutating webhook: whatever the request says, and
    whether it is accepted or refused, Default changes nothing in the cluster but
    the protection finalizers of templates and access strategies of the
    workspace's own namespace or of the shared one. *)
Theorem Default_writes_confined {W} (R : relation W) `{!PreOrder R} (client : RefClient W)
    `{!RefReads R client} (shared : string) (ctx : option AdmissionRequest) (w : Workspace) :
  (forall t, within_scope shared (ws_Namespace w) (om_Namespace (wt_ObjectMeta t)) ->
     respects R (crud_Update (rc_Template client)
       (set_wt_ObjectMeta (AddFinalizer TemplateFinalizerName (wt_ObjectMeta t)) t))) ->
  (forall a, within_scope shared (ws_Namespace w) (om_Namespace (was_ObjectMeta a)) ->
     respects R (crud_Update (rc_AccessStrategy client)
       (set_was_ObjectMeta (AddFinalizer AccessStrategyFinalizerName (was_ObjectMeta a)) a))) ->
  respects R (Default client shared ctx w).
Proof.
  intros Ht Ha. unfold Default. destruct (is_deleting _); [solve_respects|]. cbv zeta.
  set (w0 := track_owner _ _). assert (Hw0 : ws_Namespace w0 = ws_Namespace w)
    by (unfold w0; destruct ctx; by case_bool_decide).
  apply respects_bind_post; [done| |intros w1 s s' H1].
  { unfold ApplyTemplateName, findDefaultTemplate. solve_respects. }
  inv_run H1. apply ApplyTemplateName_meta, unlabelled_Namespace in H1.
  apply respects_bind_post; [done| |intros w2 s2 s2' H2].
  { unfold ApplyTemplateDefaults, ResolveTemplate. solve_respects. }
  inv_run H2. apply ApplyTemplateDefaults_meta, unlabelled_Namespace in H2.
  apply respects_bind_post; [done| |intros w3 s3 s3' H3].
  { unfold ApplyServiceAccountDefaults, GetDefaultServiceAccount. solve_respects. }
  inv_run H3. apply ApplyServiceAccountDefaults_meta, unlabelled_Namespace in H3.
  apply (stamping_confined R client shared (ws_Namespace w)); [done|done|].
  transitivity (ws_Namespace w3); [done|congruence].
Qed.

Definition demo_tmpl (ns : string) : WorkspaceTemplate :=
  mkWorkspaceTemplate (Status.zero_meta "t" ns) zero_template_spec (mkWorkspaceTemplateStatus 0).
(** A workspace of namespace "ns" that names template t of [ns']. *)
Definition demo_templated (ns' : string) : Workspace :=
  set_labels {[ LabelWorkspaceTemplate := "t"; LabelWorkspaceTemplateNamespace := ns' ]}
    (on_spec (set_sp_TemplateRef (Some (mkTemplateRef "t" ns'))) Status.demo_ws).
Definition demo_refs : RefMem :=
  mkRefMem {[ ("other", "t") := demo_tmpl "other"; ("shared", "t") := demo_tmpl "shared" ]} ∅
    [demo_templated "other"; demo_templated "shared"].

(** A reference into another namespace is refused and leaves its template alone;
    one into the shared namespace stamps the template there. *)
Lemma Default_writes_confined_witness :
  (forall ctx, rm_Templates (Default mem_refs "shared" ctx (demo_templated "other") demo_refs).2
     !! ("other", "t") = Some (demo_tmpl "other")) /\
  is_ok (Default mem_refs "shared" None (demo_templated "other") demo_refs).1 = false /\
  is_ok (Default mem_refs "shared" None (demo_templated "shared") demo_refs).1 = true /\
  (fun t => ContainsFinalizer (wt_ObjectMeta t) TemplateFinalizerName) <$>
    (rm_Templates (Default mem_refs "shared" None (demo_templated "shared") demo_refs).2
     !! ("shared", "t")) = Some true.
Proof.
  split; [|vm_compute; done]. intros ctx.
  destruct (Default_writes_confined (same_outside (within_scope "shared" "ns")) mem_refs "shared" ctx
    (demo_templated "other")
    (fun t Ht => mem_template_stamp _ (set_wt_ObjectMeta
       (AddFinalizer TemplateFinalizerName (wt_ObjectMeta t)) t)
       (eq_ind_r _ Ht (AddFinalizer_Namespace _ _)))
    (fun a Ha => mem_strategy_stamp _ (set_was_ObjectMeta
       (AddFinalizer AccessStrategyFinalizerName (was_ObjectMeta a)) a)
       (eq_ind_r _ Ha (AddFinalizer_Namespace _ _)))
    demo_refs "other" "t") as [-> _].
  - intros [|[_ ?]]; discriminate.
  - reflexivity.
Defined.

(** The usage query of the finalizer filters one object after the limit of one: a
    workspace being deleted hides an active one, and the template stays without its
    protection. *)
Lemma limit_hides_active_workspace :
  let deleting := set_ws_ObjectMeta (mark_deleting (ws_ObjectMeta (demo_templated "shared")))
                    (demo_templated "shared") in
  let m := mkRefMem (rm_Templates demo_refs) ∅ [deleting; demo_templated "shared"] in
  uses_template "t" "shared" (demo_templated "shared") = true /\
  ensureTemplateFinalizer mem_refs "t" "shared" m = (Ok tt, m) /\
  (HasActiveWorkspacesWithTemplate mem_refs "t" "shared" m).1 = Ok true.
Proof. vm_compute. done. Qed.

(** ** What an accepted creation has passed *)

(** Reads leave the cluster as it is. *)
Class PureReads {W} (client : RefClient W) : Prop := {
  pure_refs :: RefReads eq client;
  get_account_reads : forall name ns, reads (rc_GetServiceAccount client name ns);
  get_integration_reads : forall name ns, reads (crud_Get (rc_IntegrationTemplate client) name ns);
  get_pvc_reads : forall name ns, reads (crud_Get (rc_PVC client) name ns);
}.
#[export] Hint Resolve get_account_reads get_integration_reads get_pvc_reads : gok8s.

(** A reserved key of a new workspace is one the system manages. *)
Definition reserved_ok (meta : gmap string string) : Prop :=
  forall k, is_Some (meta !! k) -> reserved k = true -> is_Some (SystemManagedMetadataKeys !! k).

Lemma reserved_keys_loop_Ok kind l :
  reserved_keys_loop kind l = Ok tt <->
  forall k v, (k, v) ∈ l -> reserved k = true -> is_Some (SystemManagedMetadataKeys !! k).
Proof.
  induction l as [|[k v] l IH]; cbn [reserved_keys_loop];
    [split; [by intros _ ? ? ?%elem_of_nil|done]|].
  transitivity ((reserved k = true -> is_Some (SystemManagedMetadataKeys !! k)) /\
                reserved_keys_loop kind l = Ok tt).
  - destruct (reserved k), (SystemManagedMetadataKeys !! k); cbn [andb]; split; try done;
      try (by intros []); intros [Hs _]; by destruct (Hs eq_refl).
  - rewrite IH. split.
    + intros [Hk Hl] k' v' [[= -> ->]|Hin]%elem_of_cons; eauto.
    + intros Hall. split; [apply (Hall k v); left|]. intros k' v' Hin. apply (Hall k' v'). by right.
Qed.

Lemma checkReservedKeys_Ok `{GoRuntime} meta kind :
  checkReservedKeys meta kind = Ok tt <-> reserved_ok meta.
Proof.
  unfold checkReservedKeys, reserved_ok. rewrite reserved_keys_loop_Ok.
  setoid_rewrite elem_of_range. split.
  - intros Hall k [v Hv]. eauto.
  - intros Hall k v Hv. apply Hall. by eexists.
Qed.

Section creation.
Context `{GoRuntime} `{GoRegexp} {W : Type} (client : RefClient W) `{!PureReads client}
  (env : WebhookEnv) (shared : string) (yaml_strings : string -> option (list string)).

(** No claim the volumes name is owned by another workspace. *)
Definition volumes_free (s : W) (w : Workspace) (volumes : list VolumeSpec) : Prop :=
  forall v pvc o, v ∈ volumes -> vs_PersistentVolumeClaimName v <> "" ->
  (crud_Get (rc_PVC client) (vs_PersistentVolumeClaimName v) (ws_Namespace w) s).1 = Ok pvc ->
  o ∈ om_OwnerReferences (pvc_ObjectMeta pvc) ->
  or_APIVersion o = "workspace.jupyter.org/v1alpha1" -> or_Kind o = "Workspace" ->
  or_UID o = om_UID (ws_ObjectMeta w).

Lemma foreign_owner_None w pvc :
  foreign_owner w pvc = None <->
  forall o, o ∈ om_OwnerReferences (pvc_ObjectMeta pvc) ->
  or_APIVersion o = "workspace.jupyter.org/v1alpha1" -> or_Kind o = "Workspace" ->
  or_UID o = om_UID (ws_ObjectMeta w).
Proof.
  unfold foreign_owner. split.
  - intros Hf o Hin Ha Hk. apply list_elem_of_In in Hin. pose proof (List.find_none _ _ Hf o Hin) as Hn.
    cbn in Hn. rewrite Ha, Hk, !(bool_decide_true (_ = _)) in Hn by done. cbn [andb] in Hn.
    by apply negb_false_iff, bool_decide_eq_true in Hn.
  - intros Hall. destruct (List.find _ _) as [o|] eqn:Ef; [|done].
    apply List.find_some in Ef as [Hin Hb]. bool_to_prop. apply list_elem_of_In in Hin.
    exfalso. eauto.
Qed.

Lemma volume_ownership_loop_spec w volumes s :
  exists r, (volume_ownership_loop client w volumes s).1 = Ok r /\
  (r = None <-> volumes_free s w volumes).
Proof.
  unfold volumes_free. induction volumes as [|v vs IH]; cbn [volume_ownership_loop].
  { eexists. split; [reflexivity|]. split; [|done]. by intros _ ? ? ? ?%elem_of_nil. }
  case_bool_decide as Hn.
  { destruct IH as (r & Hr & IH). exists r. split; [done|]. rewrite IH. split.
    - intros Hall v' pvc o [->|Hin]%elem_of_cons; [done|eauto].
    - intros Hall v' pvc o Hin. apply Hall. by right. }
  pose proof (get_pvc_reads (vs_PersistentVolumeClaimName v) (ws_Namespace w) s) as Hp.
  unfold st_bind, st_try. unfold volumes_free in IH.
  destruct (crud_Get (rc_PVC client) (vs_PersistentVolumeClaimName v) (ws_Namespace w) s)
    as [[pvc|e] s1] eqn:Eg; cbn in Hp; subst s1.
  - destruct (foreign_owner w pvc) as [o|] eqn:Ef.
    + eexists. split; [reflexivity|]. split; [done|]. intros Hall.
      assert (Hf : foreign_owner w pvc = None); [|congruence].
      apply foreign_owner_None. intros o' Hin. apply (Hall v pvc o'); [left|done|by rewrite Eg|done].
    + rewrite foreign_owner_None in Ef. destruct IH as (r & Hr & IH). exists r. split; [done|].
      rewrite IH. split.
      * intros Hall v' pvc' o [->|Hin]%elem_of_cons; [|eauto]. rewrite Eg. cbn. intros _ [= <-]. eauto.
      * intros Hall v' pvc' o Hin. apply Hall. by right.
  - destruct IH as (r & Hr & IH). exists r. split; [done|]. rewrite IH. split.
    + intros Hall v' pvc' o [->|Hin]%elem_of_cons; [|eauto]. by rewrite Eg.
    + intros Hall v' pvc' o Hin. apply Hall. by right.
Qed.

Lemma volume_ownership_loop_reads w volumes : reads (volume_ownership_loop client w volumes).
Proof. induction volumes as [|v vs IH]; cbn [volume_ownership_loop]; solve_respects. Qed.

Lemma ValidateVolumeOwnership_accepts w s :
  accepts (ValidateVolumeOwnership client w) s <-> volumes_free s w (sp_Volumes (ws_Spec w)).
Proof.
  unfold ValidateVolumeOwnership. rewrite accepts_bind by apply volume_ownership_loop_reads.
  destruct (volume_ownership_loop_spec w (sp_Volumes (ws_Spec w)) s) as (r & -> & Hr).
  rewrite <- Hr. split.
  - intros (? & [= <-] & Hv). by destruct r.
  - intros ->. by exists None.
Qed.

(** An integration reference in scope, to an existing template, with a value that
    is not blank for every parameter the template declares. *)
Definition integration_ref_ok (s : W) (w : Workspace) (ref : IntegrationTemplateRef) : Prop :=
  namespace_allowed shared (itr_Namespace ref) (ws_Namespace w) /\
  exists tmpl, (crud_Get (rc_IntegrationTemplate client) (itr_Name ref)
      (if bool_decide (itr_Namespace ref = "") then ws_Namespace w else itr_Namespace ref) s).1
    = Ok tmpl /\
  forall p, p ∈ wits_Parameters (wit_Spec tmpl) ->
    exists v, ParametersMap ref !! itp_Name p = Some v /\ blank v = false.

Lemma validateIntegrationNamespaceScope_Ok ref ns :
  validateIntegrationNamespaceScope shared ref ns = Ok tt <->
  namespace_allowed shared (itr_Namespace ref) ns.
Proof.
  unfold validateIntegrationNamespaceScope, namespace_allowed. cbv zeta.
  repeat case_bool_decide; cbn; split; try done; intuition congruence.
Qed.

Lemma parameters_loop_Ok name supplied params :
  parameters_loop name supplied params = Ok tt <->
  forall p, p ∈ params -> exists v, supplied !! itp_Name p = Some v /\ blank v = false.
Proof.
  induction params as [|p ps IH]; cbn [parameters_loop];
    [split; [by intros _ ? ?%elem_of_nil|done]|].
  transitivity ((exists v, supplied !! itp_Name p = Some v /\ blank v = false) /\
                parameters_loop name supplied ps = Ok tt).
  - destruct (supplied !! itp_Name p) as [v|]; [|split; [done|by intros [(? & ? & _) _]]].
    destruct (blank v) eqn:Eb; [split; [done|]; intros [(? & [= <-] & ?) _]; congruence|].
    split; [|by intros []]. intros Hr. split; [by exists v|done].
  - rewrite IH. split.
    + intros [Hp Hps] q [->|Hin]%elem_of_cons; auto.
    + intros Hall. split; [apply Hall; left|]. intros q Hq. apply Hall. by right.
Qed.

Lemma validateRef_reads w ref : reads (validateRef client shared w ref).
Proof. unfold validateRef. solve_respects. Qed.

Lemma validateRef_accepts w ref s :
  accepts (validateRef client shared w ref) s <-> integration_ref_ok s w ref.
Proof.
  unfold validateRef, integration_ref_ok. cbv zeta.
  rewrite accepts_then, accepts_lift_unit, validateIntegrationNamespaceScope_Ok by solve_respects.
  apply and_iff_compat_l. rewrite accepts_try by solve_respects.
  destruct (crud_Get _ _ _ s).1 as [tmpl|e] eqn:Eg.
  - rewrite accepts_then, accepts_lift_unit by solve_respects.
    unfold validateWorkspaceIntegrationParameters. rewrite parameters_loop_Ok, accepts_ret.
    split; [intros [Hp _]; by exists tmpl|by intros (? & [= <-] & ?)].
  - split; [by destruct (IsNotFound e)|by intros (? & ? & _)].
Qed.

Lemma refs_loop_accepts w refs warnings s :
  accepts (refs_loop client shared w refs warnings) s <->
  forall ref, ref ∈ refs -> integration_ref_ok s w ref.
Proof.
  revert warnings. induction refs as [|ref refs IH]; intros warnings; cbn [refs_loop];
    [split; [by intros _ ? ?%elem_of_nil|done]|].
  rewrite accepts_bind by apply validateRef_reads.
  transitivity (accepts (validateRef client shared w ref) s /\
                forall r, r ∈ refs -> integration_ref_ok s w r).
  - setoid_rewrite IH. unfold accepts. rewrite is_ok_true.
    split; [intros (a & ? & ?); eauto|]. intros [[a ?] ?]. eauto.
  - rewrite validateRef_accepts. split.
    + intros [Hr Hall] r [->|Hin]%elem_of_cons; auto.
    + intros Hall. split; [apply Hall; left|]. intros r Hin. apply Hall. by right.
Qed.

Lemma refs_loop_reads w refs warnings : reads (refs_loop client shared w refs warnings).
Proof.
  revert warnings. induction refs as [|ref refs IH]; intros warnings; cbn [refs_loop];
    [solve_respects|]. apply respects_bind; [typeclasses eauto|apply validateRef_reads|auto].
Qed.

(** The account is the namespace's default, or lists the user, a pattern of the
    user's name, or one of the user's groups. *)
Definition account_granted (s : W) (ctx : option AdmissionRequest) (w : Workspace) : Prop :=
  let name := sp_ServiceAccountName (ws_Spec w) in
  name = "" \/
  exists req sa, ctx = Some req /\
    (rc_GetServiceAccount client name (ws_Namespace w) s).1 = Ok sa /\
    ((GetDefaultServiceAccount client (ws_Namespace w) s).1 = Ok name \/
     req_Username req ∈ listed yaml_strings AnnotationServiceAccountUsers sa \/
     (exists p, p ∈ listed yaml_strings AnnotationServiceAccountUserPatterns sa /\
        matchPattern p (req_Username req) = true) \/
     (exists g, g ∈ listed yaml_strings AnnotationServiceAccountGroups sa /\ g ∈ req_Groups req)).

Lemma existsb_elem {A} (f : A -> bool) l : existsb f l = true <-> exists x, x ∈ l /\ f x = true.
Proof. rewrite List.existsb_exists. by setoid_rewrite <- list_elem_of_In. Qed.

Lemma hasServiceAccountAccess_spec req sa :
  hasServiceAccountAccess yaml_strings req sa = true <->
  req_Username req ∈ listed yaml_strings AnnotationServiceAccountUsers sa \/
  (exists p, p ∈ listed yaml_strings AnnotationServiceAccountUserPatterns sa /\
     matchPattern p (req_Username req) = true) \/
  (exists g, g ∈ listed yaml_strings AnnotationServiceAccountGroups sa /\ g ∈ req_Groups req).
Proof.
  unfold hasServiceAccountAccess, checkUsernameAccess, checkUsernamePatternAccess, checkGroupAccess.
  rewrite !orb_true_iff, bool_decide_eq_true, !existsb_elem. setoid_rewrite bool_decide_eq_true.
  tauto.
Qed.

Lemma GetDefaultServiceAccount_reads ns : reads (GetDefaultServiceAccount client ns).
Proof. unfold GetDefaultServiceAccount. solve_respects. Qed.

Lemma ValidateServiceAccountAccess_accepts ctx w s :
  accepts (ValidateServiceAccountAccess yaml_strings client ctx w) s <-> account_granted s ctx w.
Proof.
  unfold ValidateServiceAccountAccess, account_granted. cbv zeta.
  case_bool_decide as Hn; [split; [by left|done]|].
  destruct ctx as [req|]; [|split; [done|by intros [|(? & ? & ? & _)]]].
  rewrite accepts_bind by solve_respects.
  transitivity (exists sa, (rc_GetServiceAccount client (sp_ServiceAccountName (ws_Spec w))
      (ws_Namespace w) s).1 = Ok sa /\
    ((GetDefaultServiceAccount client (ws_Namespace w) s).1 = Ok (sp_ServiceAccountName (ws_Spec w)) \/
     hasServiceAccountAccess yaml_strings req sa = true)).
  - apply exist_proper. intros sa. unfold st_wrap at 1.
    destruct (rc_GetServiceAccount _ _ _ s) as [r s1]. cbn. rewrite wrap_err_Ok.
    apply and_iff_compat_l. rewrite accepts_try by apply GetDefaultServiceAccount_reads.
    destruct (GetDefaultServiceAccount client (ws_Namespace w) s).1 as [d|e].
    + case_bool_decide as Hd; [subst; split; [by left|done]|].
      destruct (hasServiceAccountAccess yaml_strings req sa); split; try done; [by right|].
      intros [|]; congruence.
    + destruct (hasServiceAccountAccess yaml_strings req sa); split; try done; [by right|].
      intros [|]; congruence.
  - setoid_rewrite hasServiceAccountAccess_spec. split.
    + intros (sa & Hg & Hor). right. exists req, sa. by split_and!.
    + intros [|(? & sa & [= <-] & Hg & Hor)]; [done|]. by exists sa.
Qed.

Lemma ValidateCreateWorkspace_reads w : reads (ValidateCreateWorkspace client shared w).
Proof. unfold ValidateCreateWorkspace, ResolveTemplate. solve_respects. Qed.

Lemma ValidateServiceAccountAccess_reads ctx w :
  reads (ValidateServiceAccountAccess yaml_strings client ctx w).
Proof.
  pose proof GetDefaultServiceAccount_reads. unfold ValidateServiceAccountAccess. solve_respects.
Qed.

Lemma validateAccessStrategyNamespace_Ok w :
  validateAccessStrategyNamespace shared w = Ok tt <->
  forall ref, sp_AccessStrategy (ws_Spec w) = Some ref ->
  namespace_allowed shared (asr_Namespace ref) (ws_Namespace w).
Proof.
  unfold validateAccessStrategyNamespace.
  destruct (sp_AccessStrategy (ws_Spec w)) as [ref|]; [|split; [by intros _ ? [=]|done]].
  rewrite validateNamespaceScope_Ok. split; [by intros ? ? [= <-]|auto].
Qed.

Lemma validateReservedPrefixOnCreate_Ok w :
  validateReservedPrefixOnCreate w = Ok tt <->
  reserved_ok (om_Labels (ws_ObjectMeta w)) /\ reserved_ok (om_Annotations (ws_ObjectMeta w)).
Proof.
  unfold validateReservedPrefixOnCreate. split.
  - intros ([] & Hl & Ha)%result_bind_Ok. apply checkReservedKeys_Ok in Hl, Ha. by split.
  - intros [Hl Ha]. apply result_bind_Ok. exists tt. by split; apply checkReservedKeys_Ok.
Qed.

(** [C10] Creation: the validating webhook accepts a new workspace exactly when it
    conforms to its template, its access strategy and integrations stay in scope
    and resolve with every parameter supplied, no volume names a claim of another
    workspace, and - unless the controller or an admin asks - it uses no reserved
    key of its own and a service account open to the requester. *)
Theorem ValidateCreate_correct (ctx : option AdmissionRequest) (w : Workspace) (s : W) :
  accepts (ValidateCreate client env shared yaml_strings ctx w) s <->
  admits client shared s w /\
  (forall ref, sp_AccessStrategy (ws_Spec w) = Some ref ->
     namespace_allowed shared (asr_Namespace ref) (ws_Namespace w)) /\
  (forall ref, ref ∈ sp_IntegrationTemplateRefs (ws_Spec w) -> integration_ref_ok s w ref) /\
  volumes_free s w (sp_Volumes (ws_Spec w)) /\
  (isControllerOrAdminUser env ctx = true \/
   reserved_ok (om_Labels (ws_ObjectMeta w)) /\ reserved_ok (om_Annotations (ws_ObjectMeta w)) /\
   account_granted s ctx w).
Proof.
  unfold ValidateCreate. rewrite accepts_then by apply ValidateCreateWorkspace_reads.
  rewrite accepts_unit, ValidateCreateWorkspace_Ok. apply and_iff_compat_l.
  rewrite accepts_then, accepts_lift_unit, validateAccessStrategyNamespace_Ok by solve_respects.
  apply and_iff_compat_l. rewrite accepts_bind by apply refs_loop_reads.
  rewrite <- (refs_loop_accepts w _ [] s).
  setoid_rewrite (accepts_then (ValidateVolumeOwnership client w)).
  2:{ unfold ValidateVolumeOwnership. pose proof volume_ownership_loop_reads. solve_respects. }
  setoid_rewrite ValidateVolumeOwnership_accepts.
  assert (Hrest : forall warnings : list string, accepts (if isControllerOrAdminUser env ctx
      then st_ret warnings else
      st_bind (st_lift (validateReservedPrefixOnCreate w)) (fun _ =>
      st_bind (ValidateServiceAccountAccess yaml_strings client ctx w) (fun _ => st_ret warnings))) s <->
    (isControllerOrAdminUser env ctx = true \/
     reserved_ok (om_Labels (ws_ObjectMeta w)) /\ reserved_ok (om_Annotations (ws_ObjectMeta w)) /\
     account_granted s ctx w)).
  { intros warnings. destruct (isControllerOrAdminUser env ctx); [split; [by left|done]|].
    rewrite accepts_then, accepts_lift_unit, validateReservedPrefixOnCreate_Ok by solve_respects.
    rewrite accepts_then, ValidateServiceAccountAccess_accepts, accepts_ret
      by apply ValidateServiceAccountAccess_reads.
    split; [intros [[] []]; by right|intros [|(? & ? & ?)]; done]. }
  setoid_rewrite Hrest. unfold accepts. rewrite is_ok_true.
  split; [intros (a & ? & ? & ?); eauto|intros ([a ?] & ? & ?); eauto].
Qed.
End creation.

#[global] Instance empty_refs_reads : PureReads empty_refs.
Proof. repeat split; try (intros; reflexivity); done. Qed.

(** A user may not bring a reserved key; the controller may. *)
Definition demo_reserved : Workspace :=
  set_labels {[ "workspace.jupyter.org/mine" := "x" ]} demo_created.

Lemma ValidateCreate_correct_witness :
  accepts (ValidateCreate (H := canonical_runtime) (H0 := no_regexp) empty_refs demo_env "shared"
    (fun _ => None) (request_of "alice" "CREATE") demo_created) tt /\
  ~ accepts (ValidateCreate (H := canonical_runtime) (H0 := no_regexp) empty_refs demo_env "shared"
    (fun _ => None) (request_of "alice" "CREATE") demo_reserved) tt /\
  account_granted (H0 := no_regexp) empty_refs (fun _ => None) tt (request_of "alice" "CREATE")
    demo_created.
Proof.
  pose proof (ValidateCreate_correct (H := canonical_runtime) (H0 := no_regexp) empty_refs demo_env
    "shared" (fun _ => None) (request_of "alice" "CREATE")) as Hc.
  assert (Ha : accepts (ValidateCreate (H := canonical_runtime) (H0 := no_regexp) empty_refs demo_env
    "shared" (fun _ => None) (request_of "alice" "CREATE") demo_created) tt) by (vm_compute; done).
  split; [exact Ha|]. split.
  - intros Hr. apply Hc in Hr as (_ & _ & _ & _ & [Hadm|(Hl & _)]); [vm_compute in Hadm; discriminate|].
    destruct (Hl "workspace.jupyter.org/mine") as [p Hp]; [by exists "x"|reflexivity|].
    vm_compute in Hp. discriminate.
  - apply Hc in Ha as (_ & _ & _ & _ & [Hadm|(_ & _ & Hg)]); [vm_compute in Hadm; discriminate|exact Hg].
Defined.
