(* ===== verification/ExtensionApi.v ===== *)
(** * ExtensionApi: who may connect to a workspace, internal/extensionapi

    The aggregated API server: the connection route that hands out a URL with a
    bootstrap token, the access review the auth middleware asks, the bearer token
    review, and the checks they share.  Kubernetes reads and the
    SubjectAccessReview, the plugins, text/template and net/url are parameters; a
    panic is an error of the computation. *)

From S2P Require Import Prelude Api Encoding JwtKeys Rotator JwtSigner JwtManager AuthUtils.
From S2P Require Import AuthMiddleware K8s WorkspaceQueries Status StringUtil.

Definition AccessTypePrivate : string := "Private".
Definition AccessTypePublic : string := "Public".
Definition OwnerAnnotation : string := "workspace.jupyter.org/created-by".
Definition HeaderUser : string := "X-User".
Definition HeaderRemoteUser : string := "X-Remote-User".
Definition conditionTypeAvailable : string := "Available".
Definition extensionapiFuncPrefix : string := "extensionapi::".
Definition funcPodUID : string := "PodUid()".

(** ** Requests and answers *)

(** [user.Info] of the authenticated request. *)
Record UserInfo := mkUserInfo {
  ui_Name : string;
  ui_Groups : list string;
  ui_Extra : gmap string (list string);
}.

(** What io.ReadAll and json.Unmarshal make of a request body. *)
Inductive Body (A : Type) :=
| BodyUnreadable
| BodyMalformed
| BodyParsed (a : A).
Arguments BodyUnreadable {A}.
Arguments BodyMalformed {A}.
Arguments BodyParsed {A}.

Record ExtRequest (A : Type) := mkExtRequest {
  xr_Method : string;
  xr_Path : string;
  xr_Header : Headers;
  xr_User : option UserInfo;
  xr_Body : Body A;
}.
Arguments xr_Method {A}.
Arguments xr_Path {A}.
Arguments xr_Header {A}.
Arguments xr_User {A}.
Arguments xr_Body {A}.

(** A connection URL: [TokenURL u t] is [u?token=t]. *)
Inductive ConnectionURL {L : JwtLib} :=
| TokenURL (url : string) (token : Tok)
| PluginURL (url : string).

(** The answer a handler writes: an error with its status code, or 200/201 with a body. *)
Inductive Answer (A : Type) :=
| AnswerError (code : Z) (message : string)
| AnswerBody (a : A).
Arguments AnswerError {A}.
Arguments AnswerBody {A}.

(** [authorizationv1.SubjectAccessReviewSpec] as the server fills it. *)
Record SubjectAccessReviewSpec := mkSubjectAccessReviewSpec {
  sar_Namespace : string;
  sar_Verb : string;
  sar_Group : string;
  sar_Resource : string;
  sar_User : string;
  sar_Groups : list string;
  sar_UID : string;
  sar_Extra : gmap string (list string);
}.

(** [url.URL]: scheme, host, path, and what else the text holds. *)
Record ParsedURL := mkParsedURL {
  u_Scheme : string;
  u_Host : string;
  u_Path : string;
  u_Rest : Opaque;
}.

(** The calls of the server on the cluster; pods are their UIDs. *)
Record ExtClient (W : Type) := mkExtClient {
  ec_GetWorkspace : string -> string -> ST W Workspace;
  ec_GetAccessStrategy : string -> string -> ST W WorkspaceAccessStrategy;
  ec_ListPods : gmap string string -> ST W (list string);
  ec_CreateSAR : SubjectAccessReviewSpec -> ST W (bool * string);
}.
Arguments ec_GetWorkspace {W}.
Arguments ec_GetAccessStrategy {W}.
Arguments ec_ListPods {W}.
Arguments ec_CreateSAR {W}.

(** [pluginapi.CreateSessionRequest]. *)
Record CreateSessionRequest := mkCreateSessionRequest {
  csr_PodUID : string;
  csr_WorkspaceName : string;
  csr_Namespace : string;
  csr_ConnectionType : string;
  csr_ConnectionContext : gmap string string;
}.

(** The server and what it is built from. *)
Record ExtensionServer {L : JwtLib} (W : Type) := mkExtensionServer {
  xs_client : ExtClient W;
  xs_signerFactory : SignerFactory;
  xs_tokenValidator : Time -> Tok -> result Claims;
  xs_pluginClients : gmap string (CreateSessionRequest -> ST W string);
  (** plugin.ParseHandlerRef: plugin name and action of a handler reference. *)
  xs_ParseHandlerRef : string -> string * string;
  (** text/template on the workspace and its strategy. *)
  xs_render : string -> Workspace -> option WorkspaceAccessStrategy -> result string;
  xs_url_Parse : string -> result ParsedURL;
  xs_url_String : ParsedURL -> string;
}.
Arguments xs_client {L W}.
Arguments xs_signerFactory {L W}.
Arguments xs_tokenValidator {L W}.
Arguments xs_pluginClients {L W}.
Arguments xs_ParseHandlerRef {L W}.
Arguments xs_render {L W}.
Arguments xs_url_Parse {L W}.
Arguments xs_url_String {L W}.

(** ** Parsing *)

(** The text before the next slash; none when there is no slash. *)
Fixpoint upto_slash (s : string) : option string :=
  match s with
  | EmptyString => None
  | String c rest => if Ascii.eqb c "/" then Some "" else String c <$> upto_slash rest
  end.

(** The first match of [/namespaces/([^/]+)/]. *)
Definition namespace_here (s : string) : option string :=
  if HasPrefix s "/namespaces/" then
    match upto_slash (drop_chars 12 s) with
    | Some EmptyString | None => None
    | found => found
    end
  else None.
Fixpoint find_namespace (s : string) : option string :=
  match namespace_here s with
  | Some ns => Some ns
  | None => match s with EmptyString => None | String _ rest => find_namespace rest end
  end.

(** GetNamespaceFromPath extracts the namespace from a URL path. *)
Definition GetNamespaceFromPath (path : string) : result string :=
  match find_namespace path with
  | Some ns => Ok ns
  | None => Fail (Errorf "cannot find the namespace in URL" [])
  end.

(** The segments of a string between hyphens, read from the left. *)
Fixpoint segments (s : list ascii) (current : list ascii) : list (list ascii) :=
  match s with
  | [] => [rev current]
  | c :: rest => if Ascii.eqb c "-" then rev current :: segments rest []
                 else segments rest (c :: current)
  end.
Definition alphanumeric (c : ascii) : bool :=
  let n := byte c in
  ((48 <=? n) && (n <=? 57)) || ((65 <=? n) && (n <=? 90)) || ((97 <=? n) && (n <=? 122)).

(** remoteConnectionTypeRegex: alphanumeric segments separated by single hyphens,
    two or more, the last one "remote". *)
Definition isRemoteConnectionType (connectionType : string) : bool :=
  let segs := segments (text connectionType) [] in
  (1 <? Z.of_nat (length segs)) &&
  forallb (fun seg => negb (bool_decide (seg = [])) && forallb alphanumeric seg) segs &&
  bool_decide (last segs = Some (text "remote")).

(** validateWorkspaceConnectionRequest validates the workspace connection request. *)
Definition validateWorkspaceConnectionRequest (spec : WorkspaceConnectionRequestSpec) : result unit :=
  let connectionType := wcr_WorkspaceConnectionType spec in
  if bool_decide (wcr_WorkspaceName spec = "") then Fail (Errorf "workspaceName is required" [])
  else if bool_decide (connectionType = "") then
    Fail (Errorf "workspaceConnectionType is required" [])
  else if bool_decide (connectionType = ConnectionTypeWebUI) then Ok tt
  else if bool_decide (connectionType = ConnectionTypeWebSocket) then Ok tt
  else if isRemoteConnectionType connectionType then Ok tt
  else Fail (Errorf "invalid workspaceConnectionType: '%s'. Must be 'web-ui', 'ssh-over-websocket', or follow the '{ide}-remote' pattern (e.g. 'vscode-remote', 'kiro-remote', 'cursor-remote')"
         [connectionType]).

(** GetUser: the authenticated user, or the headers. *)
Definition GetUser {A} (r : ExtRequest A) : string :=
  let from_headers :=
    let user := Header_Get (xr_Header r) HeaderUser in
    if negb (bool_decide (user = "")) then SanitizeUsername user
    else
    let user := Header_Get (xr_Header r) HeaderRemoteUser in
    if negb (bool_decide (user = "")) then SanitizeUsername user else "" in
  match xr_User r with
  | Some info => if negb (bool_decide (ui_Name info = "")) then SanitizeUsername (ui_Name info)
                 else from_headers
  | None => from_headers
  end.
Definition GetGroups {A} (r : ExtRequest A) : list string :=
  match xr_User r with Some info => ui_Groups info | None => [] end.
Definition GetExtra {A} (r : ExtRequest A) : gmap string (list string) :=
  match xr_User r with Some info => ui_Extra info | None => ∅ end.

(** ** Workspace access *)

Record WorkspaceAdmissionResult := mkWorkspaceAdmissionResult {
  war_Allowed : bool;
  war_NotFound : bool;
  war_Reason : string;
  war_AccessType : string;
  war_OwnerUsername : string;
  war_Conditions : list Condition;
}.

Record PermissionCheckResult := mkPermissionCheckResult {
  pcr_Allowed : bool;
  pcr_NotFound : bool;
  pcr_Reason : string;
}.

(** getWorkspaceAccessType: empty counts as public, anything unknown as private. *)
Definition getWorkspaceAccessType (w : Workspace) : string :=
  let accessType := sp_AccessType (ws_Spec w) in
  if bool_decide (accessType = "") || bool_decide (accessType = AccessTypePublic)
  then AccessTypePublic else AccessTypePrivate.

(** getWorkspaceOwner gets the username of the workspace owner. *)
Definition getWorkspaceOwner (w : Workspace) : string :=
  default "" (om_Annotations (ws_ObjectMeta w) !! OwnerAnnotation).

(** isWorkspaceAvailable checks for the Available condition set to True. *)
Definition isWorkspaceAvailable (w : Workspace) : bool :=
  existsb (fun c => bool_decide (cond_Type c = conditionTypeAvailable) &&
                    bool_decide (cond_Status c = ConditionTrue)) (st_Conditions (ws_Status w)).

Section server.
Context `{GoRuntime} {L : JwtLib} {W : Type} (s : ExtensionServer W).
Local Open Scope go_scope.

(** CheckWorkspaceAccess: public, or the user is the owner. *)
Definition CheckWorkspaceAccess (namespace workspaceName username : string)
    : ST W (option Workspace * WorkspaceAdmissionResult) :=
  r <- st_try (ec_GetWorkspace (xs_client s) workspaceName namespace) ;;
  match r with
  | Fail err =>
      if IsNotFound err then
        st_ret (None, mkWorkspaceAdmissionResult false true "Workspace not found" "unknown" "" [])
      else st_fail (Errorf "internal server error" [])
  | Ok w =>
      let accessType := getWorkspaceAccessType w in
      let owner := getWorkspaceOwner w in
      let verdict allowed reason :=
        (Some w, mkWorkspaceAdmissionResult allowed false reason accessType owner
                   (st_Conditions (ws_Status w))) in
      if bool_decide (accessType = AccessTypePublic) then st_ret (verdict true "Workspace is public")
      else if bool_decide (owner = username) then st_ret (verdict true "User is the workspace owner")
      else st_ret (verdict false "User is not the workspace owner")
  end.

(** CheckRBACPermission asks the API server whether the user may create
    workspaceconnections in the namespace. *)
Definition CheckRBACPermission (namespace username : string) (groups : list string) (uid : string)
    (extra : gmap string (list string)) : ST W (bool * string) :=
  st_wrap "failed to create SubjectAccessReview: %w" []
    (ec_CreateSAR (xs_client s) (mkSubjectAccessReviewSpec namespace "create"
       "connection.workspace.jupyter.org" "workspaceconnections" username groups uid extra)).

(** CheckWorkspaceConnectionPermission: RBAC, then the workspace. *)
Definition CheckWorkspaceConnectionPermission (namespace workspaceName username : string)
    (groups : list string) (uid : string) (extra : gmap string (list string))
    : ST W PermissionCheckResult :=
  rbac <- CheckRBACPermission namespace username groups uid extra ;;
  if negb (fst rbac) then st_ret (mkPermissionCheckResult false false "RBAC permission denied")
  else
  out <- CheckWorkspaceAccess namespace workspaceName username ;;
  let result := snd out in
  if war_NotFound result then st_ret (mkPermissionCheckResult false true "Workspace not found")
  else if negb (war_Allowed result) then
    st_ret (mkPermissionCheckResult (war_Allowed result) (war_NotFound result)
      "User is not the owner of the private Workspace")
  else
    let reason := if bool_decide (war_AccessType result = AccessTypePublic)
                  then "Valid RBAC and the subject Workspace is public"
                  else "Valid RBAC and user is the owner of the private Workspace" in
    st_ret (mkPermissionCheckResult (war_Allowed result) (war_NotFound result) reason).

(** handleConnectionAccessReview handles requests to the connectionaccessreview
    resource. *)
Definition handleConnectionAccessReview (r : ExtRequest ConnectionAccessReviewSpec)
    : ST W (Answer ConnectionAccessReviewStatus) :=
  if negb (bool_decide (xr_Method r = "POST")) then
    st_ret (AnswerError 400 "ConnectionAccessReview must use POST method")
  else
  match GetNamespaceFromPath (xr_Path r) with
  | Fail _ => st_ret (AnswerError 400 "ConnectionAccessReview must be namespaced")
  | Ok namespace =>
    match xr_Body r with
    | BodyUnreadable => st_ret (AnswerError 400 "Failed to read request body")
    | BodyMalformed => st_ret (AnswerError 400 "Invalid ConnectionAccessReview format")
    | BodyParsed spec =>
      if bool_decide (cars_WorkspaceName spec = "") then
        st_ret (AnswerError 400 "WorkspaceName is required in the spec")
      else
      result <- st_try (CheckWorkspaceConnectionPermission namespace (cars_WorkspaceName spec)
                  (cars_User spec) (cars_Groups spec) (cars_UID spec) (cars_Extra spec)) ;;
      match result with
      | Fail _ => st_ret (AnswerError 500 "Failed to verify access permission")
      | Ok p => st_ret (AnswerBody (mkConnectionAccessReviewStatus (pcr_Allowed p) (pcr_NotFound p)
                  (pcr_Reason p)))
      end
    end
  end.

(** handleBearerTokenReview verifies a bearer token; [None] is the empty token. *)
Definition bearer_rejected (errMsg : string) : BearerTokenReviewStatus :=
  mkBearerTokenReviewStatus false "" "" (mkBearerTokenReviewUser "" "" [] ∅) errMsg.
Definition handleBearerTokenReview (now : Time) (r : ExtRequest (option Tok))
    : Answer BearerTokenReviewStatus :=
  if negb (bool_decide (xr_Method r = "POST")) then
    AnswerError 400 "BearerTokenReview must use POST method"
  else
  match xr_Body r with
  | BodyUnreadable => AnswerError 400 "Failed to read request body"
  | BodyMalformed => AnswerError 400 "Invalid BearerTokenReview format"
  | BodyParsed None => AnswerBody (bearer_rejected "token is required")
  | BodyParsed (Some token) =>
      match xs_tokenValidator s now token with
      | Fail _ => AnswerBody (bearer_rejected "invalid or expired token")
      | Ok claims =>
          if negb (bool_decide (TokenType claims = TokenTypeBootstrap)) then
            AnswerBody (bearer_rejected "invalid token type")
          else AnswerBody (mkBearerTokenReviewStatus true (Path claims) (Domain claims)
                 (mkBearerTokenReviewUser (User claims) (UID claims) (Groups claims) (Extra claims)) "")
      end
  end.

(** ** Connections *)

(** getAccessStrategy fetches the AccessStrategy for the workspace. *)
Definition getAccessStrategy (w : Workspace) : ST W (option WorkspaceAccessStrategy) :=
  match sp_AccessStrategy (ws_Spec w) with
  | None => st_ret None
  | Some ref =>
      let ns := if negb (bool_decide (asr_Namespace ref = "")) then asr_Namespace ref
                else ws_Namespace w in
      a <- ec_GetAccessStrategy (xs_client s) (asr_Name ref) ns ;;
      st_ret (Some a)
  end.

(** GetPodUIDFromWorkspaceName: the first pod with the label, in any namespace. *)
Definition GetPodUIDFromWorkspaceName (workspaceName : string) : ST W string :=
  pods <- ec_ListPods (xs_client s) {[ LabelWorkspaceName := workspaceName ]} ;;
  match pods with
  | [] => st_fail (Errorf "no pod found for workspace: %s" [workspaceName])
  | uid :: _ => st_ret uid
  end.

Definition resolveExtensionapiFunc (funcName workspaceName : string) : ST W string :=
  if bool_decide (funcName = funcPodUID) then GetPodUIDFromWorkspaceName workspaceName
  else st_fail (Errorf "unknown extensionapi function: %q" [funcName]).

(** The loop of ResolveConnectionContext. *)
Fixpoint resolve_loop (workspaceName : string) (entries : list (string * string))
    (resolved : gmap string string) : ST W (gmap string string) :=
  match entries with
  | [] => st_ret resolved
  | (k, v) :: rest =>
      if HasPrefix v extensionapiFuncPrefix then
        val <- st_wrap "failed to resolve %q for key %q: %w" [v; k]
                 (resolveExtensionapiFunc (TrimPrefix v extensionapiFuncPrefix) workspaceName) ;;
        resolve_loop workspaceName rest (<[k := val]> resolved)
      else resolve_loop workspaceName rest (<[k := v]> resolved)
  end.
Definition ResolveConnectionContext (contextMap : gmap string string) (workspaceName : string)
    : ST W (gmap string string) :=
  if bool_decide (contextMap = ∅) then st_ret contextMap
  else resolve_loop workspaceName (range contextMap) ∅.

(** validateConnection: the strategy, availability and the resolved context, or a
    status code with its message. The context is read through the strategy without
    a test for nil. *)
Definition validateConnection (w : Workspace)
    : ST W (option WorkspaceAccessStrategy * gmap string string + Z * error) :=
  r <- st_try (getAccessStrategy w) ;;
  match r with
  | Fail err =>
      st_ret (inr (if IsNotFound err then (404, Errorf "access strategy not found" [])
                   else (500, Errorf "internal server error" [])))
  | Ok accessStrategy =>
      if negb (isWorkspaceAvailable w) then
        st_ret (inr (400, Errorf "workspace is not available. Check workspace status for details" []))
      else
      match accessStrategy with
      | None => st_fail panic_nil
      | Some a =>
          ctx <- st_try (ResolveConnectionContext (asps_CreateConnectionContext (was_Spec a))
                           (ws_Name w)) ;;
          st_ret (match ctx with
                  | Fail err => inr (500, Wrapf "failed to resolve connection context: %w" [] err)
                  | Ok resolved => inl (accessStrategy, resolved)
                  end)
      end
  end.

Definition hasWebUIEnabled (accessStrategy : option WorkspaceAccessStrategy) : bool :=
  match accessStrategy with
  | None => false
  | Some a => negb (bool_decide (asps_BearerAuthURLTemplate (was_Spec a) = ""))
  end.
Definition hasWebSocketEnabled (accessStrategy : option WorkspaceAccessStrategy) : bool :=
  match accessStrategy with
  | None => false
  | Some a => negb (bool_decide (asps_WebSocketURLTemplate (was_Spec a) = ""))
  end.

(** resolveConnectionHandler: the handler map first, then the default handler. *)
Definition resolveConnectionHandler (accessStrategy : option WorkspaceAccessStrategy)
    (connectionType : string) : option (string * string) :=
  match accessStrategy with
  | None => None
  | Some a =>
      match asps_CreateConnectionHandlerMap (was_Spec a) !! connectionType with
      | Some ref => Some (xs_ParseHandlerRef s ref)
      | None =>
          if negb (bool_decide (asps_CreateConnectionHandler (was_Spec a) = ""))
          then Some (xs_ParseHandlerRef s (asps_CreateConnectionHandler (was_Spec a)))
          else None
      end
  end.

(** strings.HasSuffix and TrimSuffix, by reversal. *)
Definition rev_string (x : string) : string := String.string_of_list_ascii (rev (text x)).
Definition HasSuffix (x suffix : string) : bool := HasPrefix (rev_string x) (rev_string suffix).
Definition TrimSuffix (x suffix : string) : string :=
  if HasSuffix x suffix then rev_string (TrimPrefix (rev_string x) (rev_string suffix)) else x.

(** The path of the claims: without a trailing [/bearer-auth]. *)
Definition claims_path (path : string) : string :=
  if HasSuffix path "/bearer-auth" then
    let path := TrimSuffix path "/bearer-auth" in
    if bool_decide (path = "") then "/" else path
  else path.

(** generateBearerTokenURL generates a connection URL with a bootstrap token. *)
Definition generateBearerTokenURL {A} (clk : Clock) (r : ExtRequest A) (w : Workspace)
    (accessStrategy : option WorkspaceAccessStrategy) : result ConnectionURL :=
  let user := GetUser r in
  if bool_decide (user = "") then Fail (Errorf "user information not found in request headers" [])
  else
  match accessStrategy with
  | None => Fail (Errorf "no AccessStrategy configured for workspace" [])
  | Some a =>
    if bool_decide (asps_BearerAuthURLTemplate (was_Spec a) = "") then
      Fail (Errorf "BearerAuthURLTemplate not configured in AccessStrategy" [])
    else
    signer ← wrap_err "failed to create signer: %w" [] (xs_signerFactory s accessStrategy);
    bearerURL ← wrap_err "failed to render bearer auth URL: %w" []
      (xs_render s (asps_BearerAuthURLTemplate (was_Spec a)) w accessStrategy);
    parsedURL ← wrap_err "failed to parse generated URL: %w" [] (xs_url_Parse s bearerURL);
    token ← wrap_err "failed to generate JWT token: %w" []
      (signer_GenerateToken signer clk user (GetGroups r) user (GetExtra r)
         (claims_path (u_Path parsedURL)) (u_Host parsedURL) TokenTypeBootstrap true);
    Ok (TokenURL bearerURL token)
  end.

(** generateWebSocketConnectionURL generates a wss:// URL with a bootstrap token. *)
Definition generateWebSocketConnectionURL {A} (clk : Clock) (r : ExtRequest A) (w : Workspace)
    (accessStrategy : option WorkspaceAccessStrategy) : result ConnectionURL :=
  let user := GetUser r in
  if bool_decide (user = "") then Fail (Errorf "user information not found in request headers" [])
  else
  match accessStrategy with
  | None => Fail (Errorf "no AccessStrategy configured for workspace" [])
  | Some a =>
    if bool_decide (asps_WebSocketURLTemplate (was_Spec a) = "") then
      Fail (Errorf "WebSocketURLTemplate not configured in AccessStrategy" [])
    else
    signer ← wrap_err "failed to create signer: %w" [] (xs_signerFactory s accessStrategy);
    renderedURL ← wrap_err "failed to render WebSocket URL: %w" []
      (xs_render s (asps_WebSocketURLTemplate (was_Spec a)) w accessStrategy);
    parsedURL ← wrap_err "failed to parse generated URL: %w" [] (xs_url_Parse s renderedURL);
    token ← wrap_err "failed to generate JWT token: %w" []
      (signer_GenerateToken signer clk user (GetGroups r) user (GetExtra r)
         (u_Path parsedURL) (u_Host parsedURL) TokenTypeBootstrap true);
    Ok (TokenURL (xs_url_String s (mkParsedURL "wss" (u_Host parsedURL) (u_Path parsedURL)
                    (u_Rest parsedURL))) token)
  end.

(** generatePluginConnectionURL delegates connection URL generation to a plugin. *)
Definition generatePluginConnectionURL (w : Workspace)
    (pluginName action connectionType : string) (resolvedContext : gmap string string)
    (namespace : string) : ST W ConnectionURL :=
  match xs_pluginClients s !! pluginName with
  | None => st_fail (Errorf "no plugin endpoint configured for handler %q" [pluginName])
  | Some createSession =>
      if bool_decide (action = "createSession") || bool_decide (action = "") then
        url <- createSession (mkCreateSessionRequest (default "" (resolvedContext !! "podUid"))
                 (ws_Name w) namespace connectionType resolvedContext) ;;
        st_ret (PluginURL url)
      else st_fail (Errorf "unsupported plugin action %q for handler %q" [action; pluginName])
  end.

(** checkWorkspaceAuthorization checks if the user is authorized to access the
    workspace. *)
Definition checkWorkspaceAuthorization {A} (r : ExtRequest A) (workspaceName namespace : string)
    : ST W (option Workspace * WorkspaceAdmissionResult) :=
  let user := GetUser r in
  if bool_decide (user = "") then st_fail (Errorf "user not found in request headers" [])
  else CheckWorkspaceAccess namespace workspaceName user.

(** A generated URL, or 500 with the text of the error. *)
Definition generated (m : ST W ConnectionURL) : ST W (Answer ConnectionURL) :=
  u <- st_try m ;;
  st_ret (match u with Ok url => AnswerBody url | Fail err => AnswerError 500 (Error err) end).

(** The two branches that answer with a WebSocket URL. *)
Definition websocket_answer {A} (clk : Clock) (r : ExtRequest A) (w : Workspace)
    (accessStrategy : option WorkspaceAccessStrategy) : ST W (Answer ConnectionURL) :=
  if negb (hasWebSocketEnabled accessStrategy) then
    st_ret (AnswerError 400 "WebSocket access is not enabled for this workspace")
  else generated (st_lift (generateWebSocketConnectionURL clk r w accessStrategy)).

(** The URL for the connection type asked for, or an error answer. *)
Definition connection_url {A} (clk : Clock) (r : ExtRequest A) (w : Workspace)
    (accessStrategy : option WorkspaceAccessStrategy) (resolvedContext : gmap string string)
    (connectionType namespace : string) : ST W (Answer ConnectionURL) :=
  if bool_decide (connectionType = ConnectionTypeWebUI) then
    if negb (hasWebUIEnabled accessStrategy) then
      st_ret (AnswerError 400 "web browser access is not enabled for this workspace")
    else generated (st_lift (generateBearerTokenURL clk r w accessStrategy))
  else if bool_decide (connectionType = ConnectionTypeWebSocket)
  then websocket_answer clk r w accessStrategy
  else
  match resolveConnectionHandler accessStrategy connectionType with
  | None => st_ret (AnswerError 400 (format
      "connection type %q is not configured for this workspace" [connectionType] ""))
  | Some (pluginName, action) =>
      if bool_decide (pluginName = handlerK8sNative) then websocket_answer clk r w accessStrategy
      else match xs_pluginClients s !! pluginName with
      | None => st_ret (AnswerError 400
          "plugin endpoints not configured. Please configure controller.plugins in helm values")
      | Some _ => generated (generatePluginConnectionURL w pluginName action connectionType
                    resolvedContext namespace)
      end
  end.

(** HandleConnectionCreate handles POST requests to create a connection. *)
Definition HandleConnectionCreate (clk : Clock) (r : ExtRequest WorkspaceConnectionRequestSpec)
    : ST W (Answer (string * ConnectionURL)) :=
  if negb (bool_decide (xr_Method r = "POST")) then
    st_ret (AnswerError 400 "Connection must use POST method")
  else
  match GetNamespaceFromPath (xr_Path r) with
  | Fail _ => st_ret (AnswerError 400 "Invalid URL path")
  | Ok namespace =>
    match xr_Body r with
    | BodyUnreadable => st_ret (AnswerError 400 "Failed to read request body")
    | BodyMalformed => st_ret (AnswerError 400 "Invalid JSON")
    | BodyParsed spec =>
      match validateWorkspaceConnectionRequest spec with
      | Fail err => st_ret (AnswerError 400 (Error err))
      | Ok _ =>
        let connectionType := wcr_WorkspaceConnectionType spec in
        auth <- st_try (checkWorkspaceAuthorization r (wcr_WorkspaceName spec) namespace) ;;
        match auth with
        | Fail err => st_ret (AnswerError 500 (Error err))
        | Ok (ws, result) =>
          if war_NotFound result then st_ret (AnswerError 404 (war_Reason result))
          else if negb (war_Allowed result) then st_ret (AnswerError 403 (war_Reason result))
          else
          match ws with
          | None => st_fail panic_nil
          | Some w =>
            ready <- validateConnection w ;;
            match ready with
            | inr (statusCode, err) => st_ret (AnswerError statusCode (Error err))
            | inl (accessStrategy, resolvedContext) =>
                answer <- connection_url clk r w accessStrategy resolvedContext connectionType
                            namespace ;;
                st_ret (match answer with
                        | AnswerError code message => AnswerError code message
                        | AnswerBody url => AnswerBody (connectionType, url)
                        end)
            end
          end
        end
      end
    end
  end.
End server.

(** ** Who may connect *)

(** The workspace is public, or the user is its recorded creator. *)
Definition may_connect (w : Workspace) (user : string) : Prop :=
  sp_AccessType (ws_Spec w) = "" \/ sp_AccessType (ws_Spec w) = AccessTypePublic \/
  getWorkspaceOwner w = user.

Section properties.
Context `{GoRuntime} {L : JwtLib} {W : Type} (s : ExtensionServer W).

Lemma getWorkspaceAccessType_public w :
  getWorkspaceAccessType w = AccessTypePublic <->
  sp_AccessType (ws_Spec w) = "" \/ sp_AccessType (ws_Spec w) = AccessTypePublic.
Proof.
  unfold getWorkspaceAccessType. cbv zeta.
  repeat case_bool_decide; cbn; split; try done; intros; try (by left); try (by right); by destruct_or!.
Qed.

(** The verdict on an existing workspace. *)
Lemma CheckWorkspaceAccess_found ns name user σ w σ1 :
  ec_GetWorkspace (xs_client s) name ns σ = (Ok w, σ1) ->
  exists result, CheckWorkspaceAccess s ns name user σ = (Ok (Some w, result), σ1) /\
    war_NotFound result = false /\ (war_Allowed result = true <-> may_connect w user) /\
    (~ may_connect w user -> war_Reason result = "User is not the workspace owner").
Proof.
  intros Hg. unfold CheckWorkspaceAccess, st_bind, st_try. rewrite Hg. cbv zeta.
  pose proof (getWorkspaceAccessType_public w) as Hp. unfold may_connect.
  case_bool_decide as Ht; [|case_bool_decide as Ho]; (eexists; split; [reflexivity|]);
    cbn [war_NotFound war_Allowed war_Reason]; intuition congruence.
Qed.

Lemma CheckWorkspaceAccess_inv ns name user σ ws result σ' :
  CheckWorkspaceAccess s ns name user σ = (Ok (ws, result), σ') ->
  (exists w, ec_GetWorkspace (xs_client s) name ns σ = (Ok w, σ') /\ ws = Some w /\
     war_NotFound result = false /\ (war_Allowed result = true <-> may_connect w user)) \/
  (exists e, ec_GetWorkspace (xs_client s) name ns σ = (Fail e, σ') /\ IsNotFound e = true /\
     ws = None /\ war_NotFound result = true /\ war_Allowed result = false).
Proof.
  destruct (ec_GetWorkspace (xs_client s) name ns σ) as [[w|e] σ1] eqn:Hg.
  - destruct (CheckWorkspaceAccess_found ns name user σ w σ1 Hg) as (res & Hr & Hn & Ha & _).
    rewrite Hr. intros [= <- <- <-]. left. eauto.
  - unfold CheckWorkspaceAccess, st_bind, st_try. rewrite Hg.
    destruct (IsNotFound e) eqn:He; [|done]. intros [= <- <- <-]. right. eauto 8.
Qed.

(** The URL and token of a connection, from the strategy. *)
Definition token_scope (a : WorkspaceAccessStrategy) (w : Workspace) (ty path host : string) : Prop :=
  exists rendered u, xs_url_Parse s rendered = Ok u /\ host = u_Host u /\
  ((ty = ConnectionTypeWebUI /\ asps_BearerAuthURLTemplate (was_Spec a) <> "" /\
    xs_render s (asps_BearerAuthURLTemplate (was_Spec a)) w (Some a) = Ok rendered /\
    path = claims_path (u_Path u)) \/
   (ty <> ConnectionTypeWebUI /\ asps_WebSocketURLTemplate (was_Spec a) <> "" /\
    xs_render s (asps_WebSocketURLTemplate (was_Spec a)) w (Some a) = Ok rendered /\
    path = u_Path u)).

(** A token generated for this user, workspace and strategy. *)
Definition token_for {A} (clk : Clock) (r : ExtRequest A) (a : WorkspaceAccessStrategy) (w : Workspace)
    (ty : string) (tok : Tok) : Prop :=
  GetUser r <> "" /\
  exists signer path host, xs_signerFactory s (Some a) = Ok signer /\ token_scope a w ty path host /\
    signer_GenerateToken signer clk (GetUser r) (GetGroups r) (GetUser r) (GetExtra r) path host
      TokenTypeBootstrap true = Ok tok.

Lemma generateBearerTokenURL_Ok {A} clk (r : ExtRequest A) w a url tok :
  generateBearerTokenURL s clk r w (Some a) = Ok (TokenURL url tok) ->
  token_for clk r a w ConnectionTypeWebUI tok.
Proof.
  unfold generateBearerTokenURL, token_for, token_scope. cbv zeta.
  case_bool_decide as Hu; [done|]. case_bool_decide as Ht; [done|].
  intros (sg & Hs%wrap_err_Ok & (ren & Hr%wrap_err_Ok & (u & Hp%wrap_err_Ok & (t & Hg%wrap_err_Ok &
    [= _ <-])%result_bind_Ok)%result_bind_Ok)%result_bind_Ok)%result_bind_Ok.
  split; [done|]. exists sg, (claims_path (u_Path u)), (u_Host u). split; [done|]. split; [|done].
  exists ren, u. split; [done|]. split; [done|]. by left.
Qed.

Lemma generateWebSocketConnectionURL_Ok {A} clk (r : ExtRequest A) w a url tok ty :
  ty <> ConnectionTypeWebUI ->
  generateWebSocketConnectionURL s clk r w (Some a) = Ok (TokenURL url tok) ->
  token_for clk r a w ty tok.
Proof.
  intros Hty. unfold generateWebSocketConnectionURL, token_for, token_scope. cbv zeta.
  case_bool_decide as Hu; [done|]. case_bool_decide as Ht; [done|].
  intros (sg & Hs%wrap_err_Ok & (ren & Hr%wrap_err_Ok & (u & Hp%wrap_err_Ok & (t & Hg%wrap_err_Ok &
    [= _ <-])%result_bind_Ok)%result_bind_Ok)%result_bind_Ok)%result_bind_Ok.
  split; [done|]. exists sg, (u_Path u), (u_Host u). split; [done|]. split; [|done].
  exists ren, u. split; [done|]. split; [done|]. by right.
Qed.

Lemma generated_Ok (m : ST W ConnectionURL) u σ σ' :
  generated m σ = (Ok (AnswerBody u), σ') -> m σ = (Ok u, σ').
Proof.
  unfold generated, st_bind, st_try, st_ret. destruct (m σ) as [[v|e] σ1]; by intros [= -> ->].
Qed.

Lemma websocket_answer_token {A} clk (r : ExtRequest A) w a ty url tok σ σ' :
  ty <> ConnectionTypeWebUI ->
  websocket_answer s clk r w (Some a) σ = (Ok (AnswerBody (TokenURL url tok)), σ') ->
  token_for clk r a w ty tok.
Proof.
  intros Hty. unfold websocket_answer. destruct (negb _); [done|].
  intros Hr%generated_Ok. inv_run Hr. by eapply generateWebSocketConnectionURL_Ok.
Qed.

Lemma connection_url_token {A} clk (r : ExtRequest A) w a ctx ty ns url tok σ σ' :
  connection_url s clk r w (Some a) ctx ty ns σ = (Ok (AnswerBody (TokenURL url tok)), σ') ->
  token_for clk r a w ty tok.
Proof.
  unfold connection_url. case_bool_decide as Hty; [subst|].
  { destruct (negb _); [done|]. intros Hr%generated_Ok. inv_run Hr.
    by eapply generateBearerTokenURL_Ok. }
  case_bool_decide as Hty2; [by apply websocket_answer_token|].
  destruct (resolveConnectionHandler s (Some a) ty) as [[plugin action]|]; [|done].
  case_bool_decide; [by apply websocket_answer_token|].
  destruct (xs_pluginClients s !! plugin) as [create|] eqn:Hc; [|done]. intros Hr%generated_Ok.
  unfold generatePluginConnectionURL in Hr. rewrite Hc in Hr.
  destruct (_ || _); [|done]. inv_run Hr. congruence.
Qed.

Lemma validateConnection_Ok w a ctx σ σ' :
  validateConnection s w σ = (Ok (inl (a, ctx)), σ') ->
  isWorkspaceAvailable w = true /\
  exists strategy σ1, a = Some strategy /\ getAccessStrategy s w σ = (Ok (Some strategy), σ1).
Proof.
  unfold validateConnection. intros Hr. inv_run Hr.
  destruct a0 as [strategy|e]; [|by destruct (IsNotFound e)].
  destruct (isWorkspaceAvailable w); cbn [negb] in Hr; [|done].
  destruct strategy as [strategy|]; [|done]. inv_run Hr.
  destruct a0 as [resolved|]; [|done]. simplify_eq. eauto.
Qed.

Lemma HandleConnectionCreate_token clk r σ ty url tok σ' :
  HandleConnectionCreate s clk r σ = (Ok (AnswerBody (ty, TokenURL url tok)), σ') ->
  exists ns spec w σ1 a σ2,
    GetNamespaceFromPath (xr_Path r) = Ok ns /\ xr_Body r = BodyParsed spec /\
    ty = wcr_WorkspaceConnectionType spec /\
    ec_GetWorkspace (xs_client s) (wcr_WorkspaceName spec) ns σ = (Ok w, σ1) /\
    may_connect w (GetUser r) /\ isWorkspaceAvailable w = true /\
    getAccessStrategy s w σ1 = (Ok (Some a), σ2) /\ token_for clk r a w ty tok.
Proof.
  unfold HandleConnectionCreate. destruct (negb _); [done|].
  destruct (GetNamespaceFromPath (xr_Path r)) as [ns|]; [|done].
  destruct (xr_Body r) as [| |spec]; [done..|].
  destruct (validateWorkspaceConnectionRequest spec) as [[]|]; [|done]. cbv zeta. intros Hr. inv_run Hr.
  destruct a as [[ws result]|]; [|done].
  unfold checkWorkspaceAuthorization in Hr0. case_bool_decide as Hu; [done|].
  apply CheckWorkspaceAccess_inv in Hr0.
  destruct Hr0 as [(w & Hg & -> & Hn & Ha)|(e & _ & _ & _ & Hn & _)]; rewrite Hn in Hr; [|done].
  destruct (war_Allowed result); cbn [negb] in Hr; [|done]. inv_run Hr.
  destruct a as [[a ctx]|[code err]]; [|done]. inv_run Hr.
  apply validateConnection_Ok in Hr0 as (Hav & strategy & σ2 & -> & Hst).
  destruct a0 as [code msg|u]; simplify_eq.
  exists ns, spec, w, s0, strategy, σ2. split_and!; try done; [by apply Ha|].
  by eapply connection_url_token.
Qed.

(** [C11] Connections: a connection URL with a token is only given out for an
    existing workspace of the namespace in the URL that is available and that the
    caller may connect to; the token is a bootstrap token for that caller, for the
    path and host the workspace's access strategy renders to; and a caller who may
    not connect is always answered 403. *)
Theorem connection_token_scoped (clk : Clock) (r : ExtRequest WorkspaceConnectionRequestSpec) (σ : W) :
  (forall ty url tok σ',
     HandleConnectionCreate s clk r σ = (Ok (AnswerBody (ty, TokenURL url tok)), σ') ->
     exists ns spec w σ1 a σ2,
       GetNamespaceFromPath (xr_Path r) = Ok ns /\ xr_Body r = BodyParsed spec /\
       ty = wcr_WorkspaceConnectionType spec /\
       ec_GetWorkspace (xs_client s) (wcr_WorkspaceName spec) ns σ = (Ok w, σ1) /\
       may_connect w (GetUser r) /\ isWorkspaceAvailable w = true /\
       getAccessStrategy s w σ1 = (Ok (Some a), σ2) /\ token_for clk r a w ty tok) /\
  (forall ns spec w σ1,
     xr_Method r = "POST" -> GetNamespaceFromPath (xr_Path r) = Ok ns -> xr_Body r = BodyParsed spec ->
     validateWorkspaceConnectionRequest spec = Ok tt -> GetUser r <> "" ->
     ec_GetWorkspace (xs_client s) (wcr_WorkspaceName spec) ns σ = (Ok w, σ1) ->
     ~ may_connect w (GetUser r) ->
     HandleConnectionCreate s clk r σ = (Ok (AnswerError 403 "User is not the workspace owner"), σ1)).
Proof.
  split.
  - intros ty url tok σ'. apply HandleConnectionCreate_token.
  - intros ns spec w σ1 Hm Hns Hb Hv Hu Hg Hc. unfold HandleConnectionCreate.
    rewrite Hm, bool_decide_true by done. cbn [negb]. rewrite Hns, Hb, Hv. cbv zeta.
    unfold checkWorkspaceAuthorization. rewrite bool_decide_false by done.
    destruct (CheckWorkspaceAccess_found ns (wcr_WorkspaceName spec) (GetUser r) σ w σ1 Hg)
      as (result & Hr & Hn & Ha & Hreason).
    unfold st_bind, st_try. rewrite Hr, Hn, (Hreason Hc).
    destruct (war_Allowed result); [by destruct Hc; apply Ha|done].
Qed.

(** [C12] Access reviews: the review the auth middleware relies on allows a user
    exactly when RBAC lets the user create connections in the namespace and the
    workspace exists and the user may connect to it; it reports the workspace missing
    only when RBAC allowed and the API server says so. *)
Theorem access_review_correct (r : ExtRequest ConnectionAccessReviewSpec)
    (status : ConnectionAccessReviewStatus) (σ σ' : W) :
  handleConnectionAccessReview s r σ = (Ok (AnswerBody status), σ') ->
  exists ns spec rbac reason σ1,
    GetNamespaceFromPath (xr_Path r) = Ok ns /\ xr_Body r = BodyParsed spec /\
    CheckRBACPermission s ns (cars_User spec) (cars_Groups spec) (cars_UID spec) (cars_Extra spec) σ
      = (Ok (rbac, reason), σ1) /\
    (cast_Allowed status = true <-> rbac = true /\ exists w,
       ec_GetWorkspace (xs_client s) (cars_WorkspaceName spec) ns σ1 = (Ok w, σ') /\
       may_connect w (cars_User spec)) /\
    (cast_NotFound status = true <-> rbac = true /\ exists e,
       ec_GetWorkspace (xs_client s) (cars_WorkspaceName spec) ns σ1 = (Fail e, σ') /\
       IsNotFound e = true).
Proof.
  unfold handleConnectionAccessReview. destruct (negb _); [done|].
  destruct (GetNamespaceFromPath (xr_Path r)) as [ns|]; [|done].
  destruct (xr_Body r) as [| |spec]; [done..|]. case_bool_decide; [done|]. intros Hr. inv_run Hr.
  destruct a as [p|]; [|done]. unfold st_ret in Hr. injection Hr as <- <-.
  unfold CheckWorkspaceConnectionPermission in Hr0. inv_run Hr0. destruct a as [rbac reason].
  exists ns, spec, rbac, reason, s1. split; [done|]. split; [done|]. split; [done|].
  destruct rbac; cbn [fst negb] in Hr0.
  2:{ unfold st_ret in Hr0. injection Hr0 as <- <-. cbn. split; split; (done || by intros []). }
  inv_run Hr0. destruct a as [ws result]. cbv zeta in Hr0. cbn [snd] in Hr0.
  apply CheckWorkspaceAccess_inv in Hr1.
  destruct Hr1 as [(w & Hg & _ & Hn & Ha)|(e & Hg & He & _ & Hn & Ha)]; rewrite Hn in Hr0.
  - destruct (war_Allowed result); cbn [negb] in Hr0; unfold st_ret in Hr0; injection Hr0 as <- <-;
      cbn; rewrite ?Hn; split.
    + split; [|done]. intros _. split; [done|]. exists w. split; [done|by apply Ha].
    + split; [done|]. intros (_ & e & He & _). congruence.
    + split; [done|]. intros (_ & w' & Hw & Hm). assert (w' = w) as -> by congruence. by apply Ha.
    + split; [done|]. intros (_ & e & He & _). congruence.
  - unfold st_ret in Hr0. injection Hr0 as <- <-. cbn. split; split; try done.
    + intros (_ & w & Hw & _). congruence.
    + intros _. eauto.
Qed.
End properties.

(** ** From connection to session *)

(** A review request for a token. *)
Definition review_of {L : JwtLib} (tok : Tok) : ExtRequest (option Tok) :=
  mkExtRequest _ "POST" "" ∅ None (BodyParsed (Some tok)).

(** [C13] Bootstrap tokens: the token of a connection URL, signed by the shared
    standard signer, is accepted by the bearer token review of every replica that
    holds the key it was signed with, until it expires, and names the caller and
    the path and host of the workspace; no verify route of the deployment ever
    takes it for a session. *)
Theorem bootstrap_token_exchange `{GoRuntime} `{GoRegexp} {L : JwtLib} {LW : JwtLaws L} {W : Type}
    (s : ExtensionServer W) (shared : StandardSigner) (clk : Clock)
    (r : ExtRequest WorkspaceConnectionRequestSpec) (ty url : string) (tok : Tok) (σ σ' : W) :
  xs_signerFactory s = StandardSignerFactory_CreateSigner shared ->
  HandleConnectionCreate s clk r σ = (Ok (AnswerBody (ty, TokenURL url tok)), σ') ->
  exists w a path host kid key,
    may_connect w (GetUser r) /\ token_scope s a w ty path host /\
    getLatestKidAndKeyWithCoolOff shared (clk 1%nat) = (kid, Some key) /\
    (forall (s' : ExtensionServer W) replica now,
       xs_tokenValidator s' = ValidateToken replica ->
       issuer replica = issuer shared -> audience replica = audience shared -> audience shared <> "" ->
       signingKeys replica !! kid = Some (Some key) ->
       clk 2%nat - 5 * Second <= now <= clk 2%nat + expiration shared ->
       handleBearerTokenReview s' now (review_of tok) = AnswerBody (mkBearerTokenReviewStatus true
         path host (mkBearerTokenReviewUser (GetUser r) (GetUser r) (GetGroups r) (GetExtra r)) "")) /\
    (forall srv lifetime clk' req, SignerContract (Manager.signer (srv_jwtManager srv)) lifetime ->
       req_Cookies req !! cm_cookieName (srv_cookieManager srv) = Some tok ->
       response_code (handleVerify srv clk' req) <> Some StatusOK).
Proof.
  intros Hf Hr.
  destruct (HandleConnectionCreate_token _ _ _ _ _ _ _ _ Hr)
    as (ns & spec & w & σ1 & a & σ2 & _ & _ & _ & _ & Hm & _ & _ & Hu & sg & path & host & Hs & Hsc & Hg).
  rewrite Hf in Hs. unfold StandardSignerFactory_CreateSigner in Hs.
  destruct (_ || _); [|done]. injection Hs as <-.
  destruct (GenerateToken_valid _ _ _ _ _ _ _ _ _ _ _ Hg) as (kid & key & c & Hget & _ & Hsig & Hc & Hv).
  destruct Hc as (_ & _ & _ & _ & _ & _ & Cu & Cg & Cuid & Ce & Cp & Cd & Ct & _).
  exists w, a, path, host, kid, key. split_and!; try done.
  - intros s' replica now Hval Hi Ha Hna Hk Hnow. unfold handleBearerTokenReview, review_of. cbn.
    rewrite Hval, (Hv replica now) by done. rewrite Ct. cbn. by rewrite Cu, Cg, Cuid, Ce, Cp, Cd.
  - intros srv lifetime clk' req HC Hcookie Hok.
    destruct (handleVerify_cases srv clk' req) as [(m & code & E & Hne & _)|(c' & Hver & _)].
    + rewrite E in Hok. cbn in Hok. congruence.
    + destruct Hver as (_ & _ & (tok' & Htok & Hvt) & Hty & _).
      rewrite Hcookie in Htok. injection Htok as <-.
      destruct (validated_signed _ _ _ Hvt) as (h & k & Hsig').
      destruct (signed_content _ _ _ _ _ _ _ Hsig Hsig') as [_ ->]. rewrite Ct in Hty. discriminate.
Qed.

(** ** A server with one private workspace *)

(** Workspace w of namespace ns, owned by alice and available, with the strategy
    as. *)
Definition demo_connectable : Workspace :=
  mkWorkspace (set_om_Annotations {[ OwnerAnnotation := "alice" ]} (zero_meta "w" "ns"))
    (set_sp_AccessStrategy (Some (mkAccessStrategyRef "as" "")) (set_sp_AccessType "Private" zero_spec))
    (set_st_Conditions [mkCondition conditionTypeAvailable ConditionTrue 1 0 "" ""] zero_status).
Definition demo_web_strategy : WorkspaceAccessStrategy :=
  mkWorkspaceAccessStrategy (zero_meta "as" "ns")
    (mkWorkspaceAccessStrategySpec "as" [] "" "" "T" "" "" ∅ "" ∅ ∅ None None)
    (mkWorkspaceAccessStrategyStatus []).
Definition demo_ext_client (w : Workspace) : ExtClient unit :=
  mkExtClient unit (fun _ _ => st_ret w) (fun _ _ => st_ret demo_web_strategy) (fun _ => st_ret [])
    (fun _ => st_ret (true, "")).
Definition demo_ext_server (w : Workspace) : ExtensionServer (L := toy_jwt) unit :=
  mkExtensionServer toy_jwt unit (demo_ext_client w)
    (@StandardSignerFactory_CreateSigner canonical_runtime toy_jwt demo_signer)
    (@ValidateToken toy_jwt demo_signer) ∅ (fun ref => (ref, ""))
    (fun _ _ _ => Ok "https://example.com/workspaces/ns/w/bearer-auth")
    (fun _ => Ok (mkParsedURL "https" "example.com" "/workspaces/ns/w/bearer-auth" ""))
    (fun u => u_Path u).
Definition demo_connect (user : string) : ExtRequest WorkspaceConnectionRequestSpec :=
  mkExtRequest _ "POST"
    "/apis/connection.workspace.jupyter.org/v1alpha1/namespaces/ns/workspaceconnections" ∅
    (Some (mkUserInfo user [] ∅))
    (BodyParsed (mkWorkspaceConnectionRequestSpec "w" ConnectionTypeWebUI)).
Definition demo_review (user : string) : ExtRequest ConnectionAccessReviewSpec :=
  mkExtRequest _ "POST"
    "/apis/connection.workspace.jupyter.org/v1alpha1/namespaces/ns/connectionaccessreviews" ∅ None
    (BodyParsed (mkConnectionAccessReviewSpec "w" [] "" user ∅)).

Definition demo_ext_run (user : string) :=
  @HandleConnectionCreate canonical_runtime toy_jwt unit (demo_ext_server demo_connectable)
    (demo_clock (9 * Second)) (demo_connect user) tt.
Definition demo_url_token (out : result (Answer (string * @ConnectionURL toy_jwt)) * unit)
    : option (@Tok toy_jwt) :=
  match out with (Ok (AnswerBody (_, TokenURL _ tok)), _) => Some tok | _ => None end.

Lemma access_review_correct_witness :
  exists status, handleConnectionAccessReview (demo_ext_server demo_connectable) (demo_review "bob") tt
                 = (Ok (AnswerBody status), tt) /\
  exists ns spec rbac reason σ1,
    GetNamespaceFromPath (xr_Path (demo_review "bob")) = Ok ns /\
    xr_Body (demo_review "bob") = BodyParsed spec /\
    CheckRBACPermission (demo_ext_server demo_connectable) ns (cars_User spec) (cars_Groups spec)
      (cars_UID spec) (cars_Extra spec) tt = (Ok (rbac, reason), σ1) /\
    (cast_Allowed status = true <-> rbac = true /\ exists w,
       ec_GetWorkspace (xs_client (demo_ext_server demo_connectable)) (cars_WorkspaceName spec) ns σ1
       = (Ok w, tt) /\ may_connect w (cars_User spec)) /\
    (cast_NotFound status = true <-> rbac = true /\ exists e,
       ec_GetWorkspace (xs_client (demo_ext_server demo_connectable)) (cars_WorkspaceName spec) ns σ1
       = (Fail e, tt) /\ IsNotFound e = true).
Proof.
  eexists. split; [vm_compute; reflexivity|].
  apply access_review_correct. vm_compute. reflexivity.
Defined.

Lemma bootstrap_token_exchange_witness :
  exists tok w path host,
    demo_url_token (demo_ext_run "alice") = Some tok /\ may_connect w "alice" /\
    handleBearerTokenReview (demo_ext_server demo_connectable) (60 * Second) (review_of tok)
    = AnswerBody (mkBearerTokenReviewStatus true path host
        (mkBearerTokenReviewUser "alice" "alice" [] ∅) "").
Proof.
  assert (bool_decide (is_Some (demo_url_token (demo_ext_run "alice"))) = true) as Hsome by (vm_compute; reflexivity).
  destruct (demo_ext_run "alice") as [[[|[ty [url tok|]]]|] []] eqn:Hrun; try discriminate Hsome.
  destruct (@bootstrap_token_exchange canonical_runtime no_regexp toy_jwt toy_laws unit
    (demo_ext_server demo_connectable) demo_signer (demo_clock (9 * Second)) (demo_connect "alice")
    ty url tok tt tt eq_refl Hrun) as (w & a & path & host & kid & key & Hm & _ & Hk & Hv & _).
  exists tok, w, path, host. split; [reflexivity|]. split; [exact Hm|].
  vm_compute in Hk. injection Hk as <- <-.
  apply (Hv (demo_ext_server demo_connectable) demo_signer (60 * Second)); [reflexivity..|discriminate| |].
  - vm_compute. reflexivity.
  - split; discriminate.
Defined.

(** ** What the routes leave open *)

(** A workspace that may be connected to but has no access strategy: the handler
    reads the connection context through a nil pointer. *)
Lemma connection_without_strategy_panics `{GoRuntime} {L : JwtLib} {W} (s : ExtensionServer W) w σ :
  sp_AccessStrategy (ws_Spec w) = None -> isWorkspaceAvailable w = true ->
  validateConnection s w σ = (Fail panic_nil, σ).
Proof.
  intros Hs Ha. unfold validateConnection, getAccessStrategy. rewrite Hs, Ha. done.
Qed.

(** A private workspace that records no creator is open to a review for the empty
    user name. *)
Lemma review_of_nobody {L : JwtLib} {W} (s : ExtensionServer W) w ns name σ σ' :
  ec_GetWorkspace (xs_client s) name ns σ = (Ok w, σ') ->
  om_Annotations (ws_ObjectMeta w) !! OwnerAnnotation = None ->
  exists result, CheckWorkspaceAccess s ns name "" σ = (Ok (Some w, result), σ') /\
    war_Allowed result = true.
Proof.
  intros Hg Ho. destruct (CheckWorkspaceAccess_found s ns name "" σ w σ' Hg) as (res & Hr & _ & Ha & _).
  exists res. split; [done|]. apply Ha. right; right. unfold getWorkspaceOwner. by rewrite Ho.
Qed.
