(* ===== verification/ExtensionServer.v ===== *)
(** * ExtensionServer: configuration, routing and set-up of the extension API server

    internal/extensionapi/config.go, server.go and serverroute_health.go, and
    internal/jwt/secret_initializer.go.  The routes' handlers are in ExtensionApi; here
    are the options, the choice of a handler by the path of a request, the signer
    factory built from the configuration, and SetupExtensionAPIServerWithManager with
    its error paths.  The generic API server, its path multiplexer, the clients and
    the manager are parameters. *)

From S2P Require Import Prelude Api StringUtil JwtKeys Rotator JwtSigner JwtManager.
From S2P Require Import Durations AuthMiddleware AuthServer ExtensionApi.

(** ** Configuration *)

Definition DefaultApiPath : string := "/apis/connection.workspace.jupyter.org/v1alpha1".
Definition DefaultServerPort : Z := 7443.
Definition DefaultCertPath : string := "/tmp/extension-server/serving-certs/tls.crt".
Definition DefaultKeyPath : string := "/tmp/extension-server/serving-certs/tls.key".
Definition DefaultLogLevel : string := "info".
Definition DefaultDisableTLS : bool := false.
Definition DefaultReadTimeoutSeconds : Z := 30.
Definition DefaultWriteTimeoutSeconds : Z := 120.
Definition DefaultAllowedOrigin : string := "*".
Definition DefaultJwtIssuer : string := "workspaces-controller".
Definition DefaultJwtAudience : string := "workspaces-controller".
Definition DefaultJwtTTL : Duration := 5 * Minute.
Definition DefaultNewKeyUseDelay : Duration := 5 * Second.

(** ExtensionConfig contains the configuration for the extension API server. *)
Record ExtensionConfig := mkExtensionConfig {
  xc_ApiPath : string;
  xc_ServerPort : Z;
  xc_CertPath : string;
  xc_KeyPath : string;
  xc_LogLevel : string;
  xc_DisableTLS : bool;
  xc_ReadTimeoutSeconds : Z;
  xc_WriteTimeoutSeconds : Z;
  xc_AllowedOrigin : string;
  xc_PluginEndpoints : gmap string string;
  xc_ControllerNamespace : string;
  xc_JwtIssuer : string;
  xc_JwtAudience : string;
  xc_JwtSecretName : string;
  xc_JwtTTL : Duration;
  xc_NewKeyUseDelay : Duration;
}.

(** ConfigOption is a function that modifies an ExtensionConfig. *)
Definition ConfigOption : Type := ExtensionConfig -> ExtensionConfig.

Definition WithDefaultApiPath (v : string) : ConfigOption := fun c => mkExtensionConfig v
  (xc_ServerPort c) (xc_CertPath c) (xc_KeyPath c) (xc_LogLevel c) (xc_DisableTLS c)
  (xc_ReadTimeoutSeconds c) (xc_WriteTimeoutSeconds c) (xc_AllowedOrigin c) (xc_PluginEndpoints
  c) (xc_ControllerNamespace c) (xc_JwtIssuer c) (xc_JwtAudience c) (xc_JwtSecretName c)
  (xc_JwtTTL c) (xc_NewKeyUseDelay c).
Definition WithServerPort (v : Z) : ConfigOption := fun c => mkExtensionConfig (xc_ApiPath c) v
  (xc_CertPath c) (xc_KeyPath c) (xc_LogLevel c) (xc_DisableTLS c) (xc_ReadTimeoutSeconds c)
  (xc_WriteTimeoutSeconds c) (xc_AllowedOrigin c) (xc_PluginEndpoints c)
  (xc_ControllerNamespace c) (xc_JwtIssuer c) (xc_JwtAudience c) (xc_JwtSecretName c)
  (xc_JwtTTL c) (xc_NewKeyUseDelay c).
Definition WithCertPath (v : string) : ConfigOption := fun c => mkExtensionConfig (xc_ApiPath
  c) (xc_ServerPort c) v (xc_KeyPath c) (xc_LogLevel c) (xc_DisableTLS c)
  (xc_ReadTimeoutSeconds c) (xc_WriteTimeoutSeconds c) (xc_AllowedOrigin c) (xc_PluginEndpoints
  c) (xc_ControllerNamespace c) (xc_JwtIssuer c) (xc_JwtAudience c) (xc_JwtSecretName c)
  (xc_JwtTTL c) (xc_NewKeyUseDelay c).
Definition WithKeyPath (v : string) : ConfigOption := fun c => mkExtensionConfig (xc_ApiPath c)
  (xc_ServerPort c) (xc_CertPath c) v (xc_LogLevel c) (xc_DisableTLS c) (xc_ReadTimeoutSeconds
  c) (xc_WriteTimeoutSeconds c) (xc_AllowedOrigin c) (xc_PluginEndpoints c)
  (xc_ControllerNamespace c) (xc_JwtIssuer c) (xc_JwtAudience c) (xc_JwtSecretName c)
  (xc_JwtTTL c) (xc_NewKeyUseDelay c).
Definition WithLogLevel (v : string) : ConfigOption := fun c => mkExtensionConfig (xc_ApiPath
  c) (xc_ServerPort c) (xc_CertPath c) (xc_KeyPath c) v (xc_DisableTLS c)
  (xc_ReadTimeoutSeconds c) (xc_WriteTimeoutSeconds c) (xc_AllowedOrigin c) (xc_PluginEndpoints
  c) (xc_ControllerNamespace c) (xc_JwtIssuer c) (xc_JwtAudience c) (xc_JwtSecretName c)
  (xc_JwtTTL c) (xc_NewKeyUseDelay c).
Definition WithDisableTLS (v : bool) : ConfigOption := fun c => mkExtensionConfig (xc_ApiPath
  c) (xc_ServerPort c) (xc_CertPath c) (xc_KeyPath c) (xc_LogLevel c) v (xc_ReadTimeoutSeconds
  c) (xc_WriteTimeoutSeconds c) (xc_AllowedOrigin c) (xc_PluginEndpoints c)
  (xc_ControllerNamespace c) (xc_JwtIssuer c) (xc_JwtAudience c) (xc_JwtSecretName c)
  (xc_JwtTTL c) (xc_NewKeyUseDelay c).
Definition WithReadTimeoutSeconds (v : Z) : ConfigOption := fun c => mkExtensionConfig
  (xc_ApiPath c) (xc_ServerPort c) (xc_CertPath c) (xc_KeyPath c) (xc_LogLevel c)
  (xc_DisableTLS c) v (xc_WriteTimeoutSeconds c) (xc_AllowedOrigin c) (xc_PluginEndpoints c)
  (xc_ControllerNamespace c) (xc_JwtIssuer c) (xc_JwtAudience c) (xc_JwtSecretName c)
  (xc_JwtTTL c) (xc_NewKeyUseDelay c).
Definition WithWriteTimeoutSeconds (v : Z) : ConfigOption := fun c => mkExtensionConfig
  (xc_ApiPath c) (xc_ServerPort c) (xc_CertPath c) (xc_KeyPath c) (xc_LogLevel c)
  (xc_DisableTLS c) (xc_ReadTimeoutSeconds c) v (xc_AllowedOrigin c) (xc_PluginEndpoints c)
  (xc_ControllerNamespace c) (xc_JwtIssuer c) (xc_JwtAudience c) (xc_JwtSecretName c)
  (xc_JwtTTL c) (xc_NewKeyUseDelay c).
Definition WithAllowedOrigin (v : string) : ConfigOption := fun c => mkExtensionConfig
  (xc_ApiPath c) (xc_ServerPort c) (xc_CertPath c) (xc_KeyPath c) (xc_LogLevel c)
  (xc_DisableTLS c) (xc_ReadTimeoutSeconds c) (xc_WriteTimeoutSeconds c) v (xc_PluginEndpoints
  c) (xc_ControllerNamespace c) (xc_JwtIssuer c) (xc_JwtAudience c) (xc_JwtSecretName c)
  (xc_JwtTTL c) (xc_NewKeyUseDelay c).
Definition WithPluginEndpoints (v : gmap string string) : ConfigOption := fun c =>
  mkExtensionConfig (xc_ApiPath c) (xc_ServerPort c) (xc_CertPath c) (xc_KeyPath c)
  (xc_LogLevel c) (xc_DisableTLS c) (xc_ReadTimeoutSeconds c) (xc_WriteTimeoutSeconds c)
  (xc_AllowedOrigin c) v (xc_ControllerNamespace c) (xc_JwtIssuer c) (xc_JwtAudience c)
  (xc_JwtSecretName c) (xc_JwtTTL c) (xc_NewKeyUseDelay c).
Definition WithControllerNamespace (v : string) : ConfigOption := fun c => mkExtensionConfig
  (xc_ApiPath c) (xc_ServerPort c) (xc_CertPath c) (xc_KeyPath c) (xc_LogLevel c)
  (xc_DisableTLS c) (xc_ReadTimeoutSeconds c) (xc_WriteTimeoutSeconds c) (xc_AllowedOrigin c)
  (xc_PluginEndpoints c) v (xc_JwtIssuer c) (xc_JwtAudience c) (xc_JwtSecretName c) (xc_JwtTTL
  c) (xc_NewKeyUseDelay c).
Definition WithJwtIssuer (v : string) : ConfigOption := fun c => mkExtensionConfig (xc_ApiPath
  c) (xc_ServerPort c) (xc_CertPath c) (xc_KeyPath c) (xc_LogLevel c) (xc_DisableTLS c)
  (xc_ReadTimeoutSeconds c) (xc_WriteTimeoutSeconds c) (xc_AllowedOrigin c) (xc_PluginEndpoints
  c) (xc_ControllerNamespace c) v (xc_JwtAudience c) (xc_JwtSecretName c) (xc_JwtTTL c)
  (xc_NewKeyUseDelay c).
Definition WithJwtAudience (v : string) : ConfigOption := fun c => mkExtensionConfig
  (xc_ApiPath c) (xc_ServerPort c) (xc_CertPath c) (xc_KeyPath c) (xc_LogLevel c)
  (xc_DisableTLS c) (xc_ReadTimeoutSeconds c) (xc_WriteTimeoutSeconds c) (xc_AllowedOrigin c)
  (xc_PluginEndpoints c) (xc_ControllerNamespace c) (xc_JwtIssuer c) v (xc_JwtSecretName c)
  (xc_JwtTTL c) (xc_NewKeyUseDelay c).
Definition WithJwtSecretName (v : string) : ConfigOption := fun c => mkExtensionConfig
  (xc_ApiPath c) (xc_ServerPort c) (xc_CertPath c) (xc_KeyPath c) (xc_LogLevel c)
  (xc_DisableTLS c) (xc_ReadTimeoutSeconds c) (xc_WriteTimeoutSeconds c) (xc_AllowedOrigin c)
  (xc_PluginEndpoints c) (xc_ControllerNamespace c) (xc_JwtIssuer c) (xc_JwtAudience c) v
  (xc_JwtTTL c) (xc_NewKeyUseDelay c).
Definition WithJwtTTL (v : Duration) : ConfigOption := fun c => mkExtensionConfig (xc_ApiPath
  c) (xc_ServerPort c) (xc_CertPath c) (xc_KeyPath c) (xc_LogLevel c) (xc_DisableTLS c)
  (xc_ReadTimeoutSeconds c) (xc_WriteTimeoutSeconds c) (xc_AllowedOrigin c) (xc_PluginEndpoints
  c) (xc_ControllerNamespace c) (xc_JwtIssuer c) (xc_JwtAudience c) (xc_JwtSecretName c) v
  (xc_NewKeyUseDelay c).
Definition WithNewKeyUseDelay (v : Duration) : ConfigOption := fun c => mkExtensionConfig
  (xc_ApiPath c) (xc_ServerPort c) (xc_CertPath c) (xc_KeyPath c) (xc_LogLevel c)
  (xc_DisableTLS c) (xc_ReadTimeoutSeconds c) (xc_WriteTimeoutSeconds c) (xc_AllowedOrigin c)
  (xc_PluginEndpoints c) (xc_ControllerNamespace c) (xc_JwtIssuer c) (xc_JwtAudience c)
  (xc_JwtSecretName c) (xc_JwtTTL c) v.

(** NewConfig creates an ExtensionConfig with default values and applies the options in
    their order. *)
Definition default_config : ExtensionConfig :=
  mkExtensionConfig DefaultApiPath DefaultServerPort DefaultCertPath DefaultKeyPath DefaultLogLevel
    DefaultDisableTLS DefaultReadTimeoutSeconds DefaultWriteTimeoutSeconds DefaultAllowedOrigin
    ∅ "" "" "" "" 0 0.
Definition NewConfig (opts : list ConfigOption) : ExtensionConfig :=
  fold_left (fun config opt => opt config) opts default_config.

(** ** Routing *)

(** The handlers behind the namespaced resources. *)
Inductive ExtHandler := ConnectionCreate | ConnectionAccessReview | BearerTokenReview.

(** What the server answers without a resource handler. *)
Inductive Routing := RoutedTo (h : ExtHandler) | RoutedError (code : Z) (msg : string).

Definition resourceHandlers : gmap string ExtHandler :=
  <["workspaceconnections" := ConnectionCreate]>
  (<["connectionaccessreviews" := ConnectionAccessReview]>
   (<["bearertokenreviews" := BearerTokenReview]> ∅)).

(** The handler registerNamespacedRoutes puts behind the namespaced prefix. *)
Definition namespaced_handler (handlers : gmap string ExtHandler) (path : string) : Routing :=
  match GetNamespaceFromPath path with
  | Fail _ => RoutedError 400 "Invalid or missing namespace in path"
  | Ok _ =>
      let parts := Split path "/" in
      if (length parts <? 6)%nat then RoutedError 404 "404 page not found"
      else
        match handlers !! List.last parts "" with
        | Some handler => RoutedTo handler
        | None => RoutedError 404 "404 page not found"
        end
  end.

(** What the server registers with its multiplexer: exact paths and prefixes. *)
Inductive Registered := Health | Discovery | Namespaced.
Record Registrations := mkRegistrations {
  reg_paths : list (string * Registered);
  reg_prefixes : list (string * Registered);
}.
Definition registerRoute (name : string) (h : Registered) (r : Registrations) : Registrations :=
  let path := if HasPrefix name "/" then name else String "/" name in
  mkRegistrations (reg_paths r ++ [(path, h)]) (reg_prefixes r).
Definition registerNamespacedRoutes (config : ExtensionConfig) (r : Registrations) : Registrations :=
  mkRegistrations (reg_paths r)
    (reg_prefixes r ++ [(xc_ApiPath config +:+ "/namespaces/", Namespaced)]).
Definition registerAllRoutes (config : ExtensionConfig) : Registrations :=
  registerNamespacedRoutes config
    (registerRoute (xc_ApiPath config) Discovery
       (registerRoute "/health" Health (mkRegistrations [] []))).

(** A request as the three handlers read it. *)
Record ExtBodies {L : JwtLib} := mkExtBodies {
  as_connection : Body WorkspaceConnectionRequestSpec;
  as_review : Body ConnectionAccessReviewSpec;
  as_bearer : Body (option Tok);
}.
Inductive ExtResponse {L : JwtLib} :=
| RespConnection (a : Answer (string * ConnectionURL))
| RespReview (a : Answer ConnectionAccessReviewStatus)
| RespBearer (a : Answer BearerTokenReviewStatus)
| RespError (code : Z) (msg : string).

Section serving.
Context `{GoRuntime} {L : JwtLib} {W : Type} (s : ExtensionServer W).

Definition with_body {A B} (b : Body B) (r : ExtRequest A) : ExtRequest B :=
  mkExtRequest B (xr_Method r) (xr_Path r) (xr_Header r) (xr_User r) b.

(** A request that reaches the namespaced prefix. *)
Definition serve_namespaced (clk : Clock) (r : ExtRequest unit) (b : ExtBodies) : ST W ExtResponse :=
  (match namespaced_handler resourceHandlers (xr_Path r) with
   | RoutedError code msg => st_ret (RespError code msg)
   | RoutedTo ConnectionCreate =>
       a <- HandleConnectionCreate s clk (with_body (as_connection b) r) ;; st_ret (RespConnection a)
   | RoutedTo ConnectionAccessReview =>
       a <- handleConnectionAccessReview s (with_body (as_review b) r) ;; st_ret (RespReview a)
   | RoutedTo BearerTokenReview =>
       st_ret (RespBearer (handleBearerTokenReview s (clk 0%nat) (with_body (as_bearer b) r)))
   end)%go.
End serving.

(** ** Set-up *)

Section setup.
Context `{GoRuntime} {L : JwtLib}.

(** The signer createJWTCompositeSignerFactory creates when a Secret is configured. *)
Definition new_signer (config : ExtensionConfig) : option StandardSigner :=
  if bool_decide (xc_JwtSecretName config = "") then None
  else
    let ttl := if xc_JwtTTL config =? 0 then DefaultJwtTTL else xc_JwtTTL config in
    let newKeyDelay :=
      if xc_NewKeyUseDelay config =? 0 then DefaultNewKeyUseDelay else xc_NewKeyUseDelay config in
    let issuer :=
      if bool_decide (xc_JwtIssuer config = "") then DefaultJwtIssuer else xc_JwtIssuer config in
    let audience :=
      if bool_decide (xc_JwtAudience config = "") then DefaultJwtAudience
      else xc_JwtAudience config in
    Some (NewStandardSigner issuer audience ttl newKeyDelay).

(** The factory around the signer; without one the default factory is a nil interface,
    whose call panics. *)
Definition composite_of (signer : option StandardSigner) : CompositeSignerFactory :=
  match signer with
  | Some signer =>
      let stdFactory := StandardSignerFactory_CreateSigner signer in
      NewCompositeSignerFactory {["k8s-native" := stdFactory]} stdFactory
  | None =>
      NewCompositeSignerFactory ∅ (fun _ => Fail (Sentinel "panic: nil pointer dereference"))
  end.
Definition createJWTCompositeSignerFactory (config : ExtensionConfig) : CompositeSignerFactory :=
  composite_of (new_signer config).

(** createPluginClients builds one client per plugin endpoint. *)
Definition createPluginClients {C} (NewPluginClient : string -> string -> C)
    (endpoints : gmap string string) : gmap string C :=
  map_imap (fun name endpoint => Some (NewPluginClient endpoint ("plugin-" +:+ name))) endpoints.

(** The rest of the set-up: the authorization client, the generic server, and the two
    additions to the manager. *)
Record ExtEnvironment := mkExtEnvironment {
  env_manager : CtrlManager;
  env_SARClient : result unit;
  env_ApplyTo : result unit;
  env_NewServer : result unit;
  env_AddServer : result unit;
}.
Definition createSARClient (env : ExtEnvironment) : result unit :=
  wrap_err "failed to instantiate the sar client: %w" [] (env_SARClient env).
Definition createGenericAPIServer (env : ExtEnvironment) : result unit :=
  _ ← wrap_err "failed to apply recommended options: %w" [] (env_ApplyTo env);
  wrap_err "failed to create generic API server: %w" [] (env_NewServer env).

(** What SetupExtensionAPIServerWithManager leaves with the manager: the watched Secret
    and the signer it feeds, and the routes. *)
Record ExtSetup := mkExtSetup {
  su_config : ExtensionConfig;
  su_signer : option StandardSigner;
  su_watch : option (string * string);
  su_routes : Registrations;
}.

Definition SetupExtensionAPIServerWithManager (env : ExtEnvironment)
    (config : option ExtensionConfig) : result ExtSetup :=
  let config := default (NewConfig []) config in
  let signer := new_signer config in
  watch ←
    (if bool_decide (xc_JwtSecretName config = "") then Ok None
     else
       let namespace := xc_ControllerNamespace config in
       if bool_decide (namespace = "") then
         Fail (Errorf "ControllerNamespace must be set when using JWT secret" [])
       else
         _ ← wrap_err "failed to register JWT secret watch handlers: %w" []
               (RegisterSecretWatch (env_manager env));
         _ ← wrap_err "failed to add k8s secret JWT initializer: %w" [] (mgr_Add (env_manager env));
         Ok (Some (xc_JwtSecretName config, namespace)));
  _ ← createSARClient env;
  _ ← createGenericAPIServer env;
  _ ← wrap_err "failed to add extension API server to manager: %w" [] (env_AddServer env);
  Ok (mkExtSetup config signer watch (registerAllRoutes config)).

(** SecretInitializer.Start loads the initial keys through a client of its own. *)
Definition SecretInitializer_Start {W} (GetConfig : result unit) (NewClient : result (SecretClient W))
    (now : Time) (secretName namespace : string) (signer : StandardSigner)
    : ST W StandardSigner :=
  (_ <- st_lift (wrap_err "failed to get rest config: %w" [] GetConfig) ;;
   directClient <- st_lift (wrap_err "failed to create direct client: %w" [] NewClient) ;;
   st_wrap "failed to load initial JWT signing keys: %w" []
     (RetrieveInitialSecret directClient now secretName namespace signer))%go.
End setup.

(** ** What the paths mean *)

Definition slash_free (x : string) : bool := forallb (fun c => negb (Ascii.eqb c "/")) (text x).

Lemma upto_slash_free ns rest :
  slash_free ns = true -> upto_slash (ns +:+ String "/" rest) = Some ns.
Proof.
  induction ns as [|c ns IH]; [done|]. unfold slash_free. cbn. intros [Hc Hn]%andb_true_iff.
  rewrite append_cons. cbn [upto_slash]. apply negb_true_iff in Hc. rewrite Hc.
  by rewrite IH.
Qed.

Lemma Split_slash_free x : slash_free x = true -> Split x "/" = [x].
Proof.
  intros Hx. apply Split_none. rewrite Forall_forall. intros c Hc. apply negb_true_iff.
  unfold slash_free in Hx. rewrite forallb_forall in Hx. apply Hx. by apply list_elem_of_In.
Qed.

Lemma namespace_of_path ns resource :
  slash_free ns = true -> ns <> "" ->
  GetNamespaceFromPath (DefaultApiPath +:+ "/namespaces/" +:+ ns +:+ String "/" resource) = Ok ns.
Proof.
  intros Hs Hne. pose proof (upto_slash_free ns resource Hs) as Hu.
  unfold GetNamespaceFromPath, DefaultApiPath.
  set (rest := ns +:+ String "/" resource) in *.
  assert (find_namespace ("/namespaces/" +:+ rest) = Some ns) as Hf.
  { change ("/namespaces/" +:+ rest) with (String "/" ("namespaces/" +:+ rest)).
    cbn [find_namespace]. unfold namespace_here.
    change (HasPrefix (String "/" ("namespaces/" +:+ rest)) "/namespaces/") with
      (HasPrefix ("/namespaces/" +:+ rest) "/namespaces/"). rewrite HasPrefix_app.
    change (drop_chars 12 (String "/" ("namespaces/" +:+ rest))) with rest.
    rewrite Hu. by destruct ns. }
  set (tail := "/namespaces/" +:+ rest) in *.
  repeat (rewrite append_cons; cbn [find_namespace];
          match goal with |- context [namespace_here ?s] =>
            change (namespace_here s) with (@None string) end; cbv iota).
  change ("" +:+ tail) with tail. by rewrite Hf.
Qed.

(** Routing: a request for a resource of a namespace, under the API path, is
    answered by the handler registered for exactly that resource, on that namespace;
    every other resource name is not found. *)
Theorem namespaced_routing ns resource :
  slash_free ns = true -> ns <> "" -> slash_free resource = true ->
  let path := DefaultApiPath +:+ "/namespaces/" +:+ ns +:+ String "/" resource in
  GetNamespaceFromPath path = Ok ns /\
  namespaced_handler resourceHandlers path
  = match resourceHandlers !! resource with
    | Some h => RoutedTo h
    | None => RoutedError 404 "404 page not found"
    end.
Proof.
  intros Hs Hne Hr path. pose proof (namespace_of_path ns resource Hs Hne) as Hn.
  split; [done|]. unfold namespaced_handler, path. rewrite Hn.
  assert (Split (DefaultApiPath +:+ "/namespaces/" +:+ ns +:+ String "/" resource) "/"
    = ["";"apis"; "connection.workspace.jupyter.org"; "v1alpha1"; "namespaces"; ns; resource]) as ->;
    [|done].
  change ("/namespaces/" +:+ ns +:+ String "/" resource)
    with (String "/" ("namespaces" +:+ String "/" (ns +:+ String "/" resource))).
  rewrite !Split_app, (Split_slash_free ns), (Split_slash_free resource) by done. reflexivity.
Qed.

Lemma namespaced_routing_witness :
  namespaced_handler resourceHandlers
    "/apis/connection.workspace.jupyter.org/v1alpha1/namespaces/team/bearertokenreviews"
  = RoutedTo BearerTokenReview.
Proof. apply (namespaced_routing "team" "bearertokenreviews"); done. Defined.

(** Only the last segment counts: the same handler answers under a longer path, which
    the API server authorizes as a subresource of something else. *)
Lemma deep_path_routed :
  let path := DefaultApiPath +:+ "/namespaces/team/pods/p/workspaceconnections" in
  GetNamespaceFromPath path = Ok "team" /\
  namespaced_handler resourceHandlers path = RoutedTo ConnectionCreate.
Proof. by vm_compute. Qed.

(** ** Signing, once set up *)

Section signing.
Context `{GoRuntime} {L : JwtLib}.

Lemma range_one {V} k (v : V) : range {[k := v]} = [(k, v)].
Proof.
  apply Permutation_singleton_r. rewrite range_spec. by rewrite map_to_list_singleton.
Qed.
Lemma range_none {V} : range (∅ : gmap string V) = [].
Proof. apply Permutation_nil. symmetry. rewrite range_spec. by rewrite map_to_list_empty. Qed.

(** The handlers the built-in signer stands for. *)
Definition native (a : option WorkspaceAccessStrategy) : Prop :=
  match a with
  | None => True
  | Some a => asps_CreateConnectionHandler (was_Spec a) = "" \/
              asps_CreateConnectionHandler (was_Spec a) = "k8s-native"
  end.

Lemma composite_native signer a :
  native a -> CreateSigner (composite_of (Some signer)) a = Ok (StandardSigner_Signer signer).
Proof.
  unfold CreateSigner, composite_of, NewCompositeSignerFactory, StandardSignerFactory_CreateSigner.
  destruct a as [a|]; [|done]. intros [E|E]; cbn; rewrite E; [done|].
  rewrite bool_decide_false by done. rewrite lookup_singleton_eq. by rewrite E.
Qed.

Lemma composite_foreign signer a :
  ~ native (Some a) -> exists e, CreateSigner (composite_of signer) (Some a) = Fail e.
Proof.
  intros Hn. unfold CreateSigner. rewrite bool_decide_false; [|intros E; apply Hn; by left].
  destruct signer; cbn.
  - rewrite lookup_singleton_ne; [by eexists|]. intros E. apply Hn. by right.
  - rewrite lookup_empty. by eexists.
Qed.

Lemma composite_validates signer now tok c :
  CompositeSignerFactory_ValidateToken (composite_of (Some signer)) now tok = Ok c <->
  ValidateToken signer now tok = Ok c.
Proof.
  unfold CompositeSignerFactory_ValidateToken. cbn [composite_of NewCompositeSignerFactory factories].
  rewrite range_one. cbn [validate_loop]. cbn.
  destruct (ValidateToken signer now tok); naive_solver.
Qed.

Lemma SetupExtensionAPIServerWithManager_Ok env config su :
  SetupExtensionAPIServerWithManager env (Some config) = Ok su ->
  su = mkExtSetup config (new_signer config)
         (if bool_decide (xc_JwtSecretName config = "") then None
          else Some (xc_JwtSecretName config, xc_ControllerNamespace config))
         (registerAllRoutes config) /\
  (xc_JwtSecretName config <> "" -> xc_ControllerNamespace config <> "").
Proof.
  unfold SetupExtensionAPIServerWithManager. cbn [default].
  intros (watch & Hw & Hs)%result_bind_Ok.
  apply result_bind_Ok in Hs as (_ & _ & Hs). apply result_bind_Ok in Hs as (_ & _ & Hs).
  apply result_bind_Ok in Hs as (_ & _ & [= <-]).
  destruct (decide (xc_JwtSecretName config = "")) as [Hn|Hn];
    [rewrite bool_decide_true in Hw |- * by done; by injection Hw as <-|].
  rewrite bool_decide_false in Hw |- * by done. case_bool_decide as Hns; [done|].
  apply result_bind_Ok in Hw as (_ & _ & Hw). apply result_bind_Ok in Hw as (_ & _ & [= <-]).
  done.
Qed.
End signing.

(** Signing after set-up.  With a signing Secret configured, set-up demands the
    controller's namespace and watches that Secret there; from then on, through any
    sequence of key loads and Secret events, the built-in signer carries the
    configured issuer, audience, life and cool-off, or the defaults for those left
    empty, it serves exactly the strategies without a handler or with the built-in
    one, and a token is accepted exactly when that signer accepts it.  Without a
    Secret no signer is handed out and no token is accepted. *)
Theorem signing_set_up `{GoRuntime} {L : JwtLib} `{LW : !JwtLaws L} {W : Type}
    (client : SecretClient W) env config su :
  SetupExtensionAPIServerWithManager env (Some config) = Ok su ->
  let secretName := xc_JwtSecretName config in
  let or_default (x d : string) := if bool_decide (x = "") then d else x in
  let or_zero (x d : Duration) := if x =? 0 then d else x in
  if bool_decide (secretName = "") then
    su_watch su = None /\ su_signer su = None /\
    (forall a, exists e, CreateSigner (composite_of (su_signer su)) a = Fail e) /\
    (forall now tok, exists e,
       CompositeSignerFactory_ValidateToken (composite_of (su_signer su)) now tok = Fail e)
  else
    let ns := xc_ControllerNamespace config in
    ns <> "" /\ su_watch su = Some (secretName, ns) /\
    exists signer0, su_signer su = Some signer0 /\
    forall signer, rtc (ring_step client secretName ns) signer0 signer ->
      ring_ok signer /\
      signer_config signer = (or_default (xc_JwtIssuer config) DefaultJwtIssuer,
        or_default (xc_JwtAudience config) DefaultJwtAudience,
        or_zero (xc_JwtTTL config) DefaultJwtTTL,
        or_zero (xc_NewKeyUseDelay config) DefaultNewKeyUseDelay) /\
      (forall a, native a ->
         CreateSigner (composite_of (Some signer)) a = Ok (StandardSigner_Signer signer)) /\
      (forall a, ~ native (Some a) ->
         exists e, CreateSigner (composite_of (Some signer)) (Some a) = Fail e) /\
      (forall now tok c,
         CompositeSignerFactory_ValidateToken (composite_of (Some signer)) now tok = Ok c <->
         ValidateToken signer now tok = Ok c).
Proof.
  intros [-> Hns]%SetupExtensionAPIServerWithManager_Ok secretName or_default or_zero.
  cbn [su_watch su_signer]. unfold new_signer, secretName in *. case_bool_decide as Hn.
  - split_and!; [done..| |].
    + intros [a|]; [|by eexists]. unfold CreateSigner. cbn. case_bool_decide; [by eexists|].
      rewrite lookup_empty. by eexists.
    + intros now tok. unfold CompositeSignerFactory_ValidateToken. cbn. rewrite range_none.
      by eexists.
  - split_and!; [by apply Hns|done|]. eexists. split; [done|]. intros signer Hr.
    assert (ring_ok signer /\ signer_config signer = (or_default (xc_JwtIssuer config) DefaultJwtIssuer,
        or_default (xc_JwtAudience config) DefaultJwtAudience,
        or_zero (xc_JwtTTL config) DefaultJwtTTL,
        or_zero (xc_NewKeyUseDelay config) DefaultNewKeyUseDelay)) as [Hok Hcfg].
    { revert signer Hr. apply rtc_ind_r; [|eauto using ring_step_ok].
      split; [split; [done|by left]|done]. }
    split_and!; [done|done|apply composite_native|apply composite_foreign|apply composite_validates].
Qed.

Definition demo_ext_environment : ExtEnvironment :=
  mkExtEnvironment demo_manager (Ok tt) (Ok tt) (Ok tt) (Ok tt).
Definition demo_ext_config : ExtensionConfig :=
  NewConfig [WithJwtSecretName "jwt"; WithControllerNamespace "system"; WithJwtTTL (2 * Minute)].

Lemma signing_set_up_witness :
  exists signer0, new_signer demo_ext_config = Some signer0 /\
    signer_config signer0 = (DefaultJwtIssuer, DefaultJwtAudience, 2 * Minute, 5 * Second).
Proof.
  pose proof (@signing_set_up canonical_runtime toy_jwt toy_laws (option Secret) mem_client
    demo_ext_environment demo_ext_config
    (mkExtSetup demo_ext_config (new_signer demo_ext_config) (Some ("jwt", "system"))
       (registerAllRoutes demo_ext_config)) eq_refl) as (_ & _ & signer0 & Hs & Hall).
  exists signer0. split; [exact Hs|]. by destruct (Hall signer0 (rtc_refl _ _)) as (_ & -> & _).
Defined.

(** Without a signing Secret the default factory is nil, and a connection request of a
    strategy without a handler panics instead of being refused. *)
Lemma no_secret_panics `{GoRuntime} {L : JwtLib} :
  CreateSigner (createJWTCompositeSignerFactory (NewConfig [])) None
  = Fail (Sentinel "panic: nil pointer dereference").
Proof. reflexivity. Qed.
