(* ===== verification/ControllerCommand.v ===== *)
(** * ControllerCommand: the operator's command (cmd/main.go)

    The flags, the lists they carry, the options of the workspace controller and of
    the extension API server made from them, and the sequence of set-ups main
    performs.  flag.Parse is represented by its outcome, a value of [Flags]; each
    set-up is a call that may fail. *)

From S2P Require Import Prelude StringUtil Integrations DeploymentBuilder StateMachine IdleDetection.
From S2P Require Import ExtensionServer.

(** ** Lists of the command line *)

(** parseGVKWatches parses a comma-separated list of group/version/kind. *)
Fixpoint gvk_loop (items : list string) : result (list GVKWatch) :=
  match items with
  | [] => Ok []
  | item :: rest =>
      match Split item "/" with
      | [group; version; kind] =>
          watches ← gvk_loop rest;
          Ok (mkGVKWatch group version kind :: watches)
      | _ =>
          Fail (Errorf "invalid GVK format: %s. Expected format: group/version/kind" [item])
      end
  end.
Definition parseGVKWatches (gvkList : string) : result (list GVKWatch) :=
  if bool_decide (gvkList = "") then Ok [] else gvk_loop (Split gvkList ",").

(** strings.SplitN(item, "=", 2) with two parts: before and after the first "=". *)
Fixpoint cut_equals (s : string) : option (string * string) :=
  match s with
  | EmptyString => None
  | String c rest =>
      if Ascii.eqb c "=" then Some ("", rest)
      else '(name, value) ← cut_equals rest; Some (String c name, value)
  end.

(** parsePluginEndpoints parses a comma-separated list of name=endpoint pairs. *)
Fixpoint endpoints_loop (items : list string) (endpoints : gmap string string)
    : result (gmap string string) :=
  match items with
  | [] => Ok endpoints
  | item :: rest =>
      let invalid :=
        Fail (Errorf "invalid plugin endpoint format: %q. Expected format: name=endpoint" [item]) in
      match cut_equals item with
      | Some (name, endpoint) =>
          if bool_decide (name = "") || bool_decide (endpoint = "") then invalid
          else endpoints_loop rest (<[name := endpoint]> endpoints)
      | None => invalid
      end
  end.
Definition parsePluginEndpoints (raw : string) : result (gmap string string) :=
  if bool_decide (raw = "") then Ok ∅ else endpoints_loop (Split raw ",") ∅.

(** getImagePullPolicy converts a string pull policy to a Kubernetes PullPolicy. *)
Definition getImagePullPolicy (policyStr : string) : string :=
  let policy := ToLower policyStr in
  if bool_decide (policy = "always") then "Always"
  else if bool_decide (policy = "never") then "Never"
  else if bool_decide (policy = "ifnotpresent") then "IfNotPresent"
  else "IfNotPresent".

(** ** Flags *)

Record Flags := mkFlags {
  fl_metricsAddr : string;
  fl_probeAddr : string;
  fl_enableLeaderElection : bool;
  fl_secureMetrics : bool;
  fl_webhookCertPath : string;
  fl_webhookCertName : string;
  fl_webhookCertKey : string;
  fl_metricsCertPath : string;
  fl_metricsCertName : string;
  fl_metricsCertKey : string;
  fl_enableHTTP2 : bool;
  fl_applicationImagesPullPolicy : string;
  fl_applicationImagesRegistry : string;
  fl_watchTraefik : bool;
  fl_enableExtensionAPI : bool;
  fl_watchResourcesGVK : string;
  fl_enableWorkspacePodWatching : bool;
  fl_defaultTemplateNamespace : string;
  fl_jwtIssuer : string;
  fl_jwtAudience : string;
  fl_jwtSecretName : string;
  fl_jwtTTL : Duration;
  fl_newKeyUseDelay : Duration;
  fl_pluginEndpoints : string;
  fl_idleCheckInterval : Duration;
  fl_integrationProbePeriod : Duration;
}.

(** The values of the flags that are not given. *)
Definition default_flags : Flags :=
  mkFlags "0" ":8081" false true "" "tls.crt" "tls.key" "" "tls.crt" "tls.key" false "" "" false
    false "" false "" "" "" "" 0 0 "" DefaultIdleCheckInterval DefaultIntegrationProbePeriod.

(** The options of the manager that depend on flags and environment. *)
Record ManagerOptions := mkManagerOptions {
  mo_webhookCert : option (string * string * string);
  mo_metricsAddr : string;
  mo_secureMetrics : bool;
  mo_metricsAuthorized : bool;
  mo_metricsCert : option (string * string * string);
  mo_http1Only : bool;
  mo_probeAddr : string;
  mo_leaderElection : bool;
  mo_leaderElectionID : string;
  mo_secretNamespace : option string;
}.
Definition given (path name key : string) : option (string * string * string) :=
  if bool_decide (path = "") then None else Some (path, name, key).
Definition manager_options (Getenv : string -> string) (f : Flags) : ManagerOptions :=
  mkManagerOptions
    (given (fl_webhookCertPath f) (fl_webhookCertName f) (fl_webhookCertKey f))
    (fl_metricsAddr f) (fl_secureMetrics f) (fl_secureMetrics f)
    (given (fl_metricsCertPath f) (fl_metricsCertName f) (fl_metricsCertKey f))
    (negb (fl_enableHTTP2 f)) (fl_probeAddr f) (fl_enableLeaderElection f) "a446807b.jupyter.org"
    (let podNamespace := Getenv "CONTROLLER_POD_NAMESPACE" in
     if bool_decide (podNamespace = "") then None else Some podNamespace).

(** The options of the workspace controller. *)
Definition controller_options (f : Flags) (watches : list GVKWatch) (endpoints : gmap string string)
    : WorkspaceControllerOptions :=
  mkWorkspaceControllerOptions (getImagePullPolicy (fl_applicationImagesPullPolicy f))
    (fl_applicationImagesRegistry f) (fl_watchTraefik f) watches (fl_enableWorkspacePodWatching f)
    (fl_defaultTemplateNamespace f) endpoints (fl_idleCheckInterval f)
    (fl_integrationProbePeriod f).

(** The options of the extension API server: a flag left at its zero value adds none. *)
Definition extension_options (Getenv : string -> string) (f : Flags) (endpoints : gmap string string)
    : list ConfigOption :=
  [WithServerPort 7443;
   WithControllerNamespace (Getenv "CONTROLLER_POD_NAMESPACE")] ++
  (if bool_decide (endpoints = ∅) then [] else [WithPluginEndpoints endpoints]) ++
  (if bool_decide (fl_jwtIssuer f = "") then [] else [WithJwtIssuer (fl_jwtIssuer f)]) ++
  (if bool_decide (fl_jwtAudience f = "") then []
   else [WithJwtAudience (fl_jwtAudience f)]) ++
  (if bool_decide (fl_jwtSecretName f = "") then []
   else [WithJwtSecretName (fl_jwtSecretName f)]) ++
  (if 0 <? fl_jwtTTL f then [WithJwtTTL (fl_jwtTTL f)] else []) ++
  (if 0 <? fl_newKeyUseDelay f then [WithNewKeyUseDelay (fl_newKeyUseDelay f)] else []).

(** ** main *)

(** The set-ups main performs, with what it passes to them. *)
Inductive Setup :=
| NewManager (o : ManagerOptions)
| WorkspaceController (o : WorkspaceControllerOptions)
| TemplateController
| AccessStrategyController
| WorkspaceWebhook (defaultTemplateNamespace : string)
| PodExecWebhook
| TemplateWebhook (defaultTemplateNamespace : string)
| IntegrationTemplateWebhook
| ExtensionAPIServer (c : ExtensionConfig)
| HealthzCheck
| ReadyzCheck
| StartManager.

Definition enabled (Getenv : string -> string) (variable : string) : bool :=
  negb (bool_decide (Getenv variable = "false")).

(** The set-ups after the manager and the lists, with the message of each failure. *)
Definition set_ups (Getenv : string -> string) (f : Flags) (watches : list GVKWatch)
    (endpoints : gmap string string) : list (Setup * string) :=
  [(WorkspaceController (controller_options f watches endpoints), "unable to create controller");
   (TemplateController, "unable to create controller");
   (AccessStrategyController, "unable to create controller")] ++
  (if enabled Getenv "ENABLE_WORKSPACE_WEBHOOK" then
     [(WorkspaceWebhook (fl_defaultTemplateNamespace f), "unable to create webhook");
      (PodExecWebhook, "unable to create webhook")] else []) ++
  (if enabled Getenv "ENABLE_WORKSPACE_TEMPLATE_WEBHOOK" then
     [(TemplateWebhook (fl_defaultTemplateNamespace f), "unable to create webhook")] else []) ++
  (if enabled Getenv "ENABLE_WORKSPACE_INTEGRATION_TEMPLATE_WEBHOOK" then
     [(IntegrationTemplateWebhook, "unable to create webhook")] else []) ++
  (if fl_enableExtensionAPI f then
     [(ExtensionAPIServer (NewConfig (extension_options Getenv f endpoints)),
       "unable to create extension API server")] else []) ++
  [(HealthzCheck, "unable to set up health check"); (ReadyzCheck, "unable to set up ready check");
   (StartManager, "problem running manager")].

Section main.
Context (Getenv : string -> string) (call : Setup -> result unit).

(** One call after another; the first failure ends the process. *)
Fixpoint perform (steps : list (Setup * string)) : result unit :=
  match steps with
  | [] => Ok tt
  | (step, message) :: rest => _ ← wrap_err message [] (call step); perform rest
  end.

Definition main (f : Flags) : result unit :=
  _ ← wrap_err "unable to start manager" [] (call (NewManager (manager_options Getenv f)));
  watches ← wrap_err "Error parsing GVK watches" [] (parseGVKWatches (fl_watchResourcesGVK f));
  endpoints ← wrap_err "Error parsing plugin endpoints" [] (parsePluginEndpoints (fl_pluginEndpoints f));
  perform (set_ups Getenv f watches endpoints).

Lemma perform_Ok steps : perform steps = Ok tt <-> Forall (fun s => call s.1 = Ok tt) steps.
Proof.
  induction steps as [|[s m] rest IH]; [done|]. cbn [perform]. rewrite Forall_cons, <- IH. cbn.
  destruct (call s) as [[]|]; cbn; naive_solver.
Qed.

(** main runs to its end exactly when the manager can be made, both lists parse, and
    every set-up the flags and the environment ask for succeeds. *)
Lemma main_Ok f :
  main f = Ok tt <->
  call (NewManager (manager_options Getenv f)) = Ok tt /\
  exists watches endpoints,
    parseGVKWatches (fl_watchResourcesGVK f) = Ok watches /\
    parsePluginEndpoints (fl_pluginEndpoints f) = Ok endpoints /\
    Forall (fun s => call s.1 = Ok tt) (set_ups Getenv f watches endpoints).
Proof.
  unfold main. destruct (call _) as [[]|e]; cbn [wrap_err mbind result_bind]; [|naive_solver].
  destruct (parseGVKWatches _) as [ws|e]; cbn [wrap_err mbind result_bind]; [|naive_solver].
  destruct (parsePluginEndpoints _) as [es|e]; cbn [wrap_err mbind result_bind]; [|naive_solver].
  rewrite perform_Ok. naive_solver.
Qed.
End main.

(** The webhook that confines pod exec has no switch of its own: it goes when the
    workspace webhook is switched off. *)
Lemma pod_exec_webhook_follows Getenv f watches endpoints :
  PodExecWebhook ∈ (set_ups Getenv f watches endpoints).*1 <->
  WorkspaceWebhook (fl_defaultTemplateNamespace f) ∈ (set_ups Getenv f watches endpoints).*1.
Proof.
  unfold set_ups. rewrite !fmap_app, !elem_of_app.
  destruct (enabled Getenv "ENABLE_WORKSPACE_WEBHOOK"), (enabled Getenv "ENABLE_WORKSPACE_TEMPLATE_WEBHOOK"),
    (enabled Getenv "ENABLE_WORKSPACE_INTEGRATION_TEMPLATE_WEBHOOK"), (fl_enableExtensionAPI f);
    set_solver.
Qed.

(** ** Round trips *)

Definition free_of (c : ascii) (s : string) : bool := forallb (fun x => negb (Ascii.eqb x c)) (text s).

Lemma Split_free c s : free_of c s = true -> Split s c = [s].
Proof.
  intros Hs. apply Split_none. rewrite Forall_forall. intros x Hx. apply negb_true_iff.
  unfold free_of in Hs. rewrite forallb_forall in Hs. apply Hs. by apply list_elem_of_In.
Qed.

Lemma free_of_app c s t : free_of c (s +:+ t) = free_of c s && free_of c t.
Proof. unfold free_of. by rewrite text_app, forallb_app. Qed.

(** A list of items free of commas is split into its items. *)
Lemma Split_Join items :
  items <> [] -> Forall (fun s => free_of "," s = true) items -> Split (Join items ",") "," = items.
Proof.
  intros Hne Hf. induction Hf as [|s rest Hs Hf IH]; [done|]. destruct rest as [|t rest].
  - by apply Split_free.
  - change (Join (s :: t :: rest) ",") with (s +:+ String "," (Join (t :: rest) ",")).
    by rewrite Split_app, Split_free, IH.
Qed.

Definition show_gvk (w : GVKWatch) : string :=
  gw_Group w +:+ String "/" (gw_Version w +:+ String "/" (gw_Kind w)).
Definition gvk_ok (w : GVKWatch) : Prop :=
  Forall (fun s => free_of "/" s = true /\ free_of "," s = true) [gw_Group w; gw_Version w; gw_Kind w].

Definition show_endpoint (e : string * string) : string := e.1 +:+ String "=" e.2.
Definition endpoint_ok (e : string * string) : Prop :=
  e.1 <> "" /\ e.2 <> "" /\ free_of "=" e.1 = true /\ free_of "," e.1 = true /\ free_of "," e.2 = true.

Lemma gvk_loop_shown ws : Forall gvk_ok ws -> gvk_loop (show_gvk <$> ws) = Ok ws.
Proof.
  induction 1 as [|[g v k] rest Hw Hf IH]; [done|]. cbn [fmap list_fmap gvk_loop].
  unfold gvk_ok in Hw. decompose_Forall_hyps. destruct_and?.
  unfold show_gvk at 1. cbn [gw_Group gw_Version gw_Kind].
  rewrite !Split_app, !Split_free by done. cbn [app]. by rewrite IH.
Qed.

Lemma cut_equals_shown e : free_of "=" e.1 = true -> cut_equals (show_endpoint e) = Some e.
Proof.
  destruct e as [n v]. unfold show_endpoint. cbn [fst snd].
  induction n as [|c n IH]; [done|]. unfold free_of. cbn [text String.list_ascii_of_string forallb].
  intros [Hc Hn]%andb_true_iff. apply negb_true_iff in Hc.
  rewrite append_cons. cbn [cut_equals]. rewrite Hc. by rewrite IH.
Qed.

Lemma endpoints_loop_shown es m :
  Forall endpoint_ok es -> NoDup es.*1 -> (forall e, e ∈ es -> m !! e.1 = None) ->
  endpoints_loop (show_endpoint <$> es) m = Ok (list_to_map es ∪ m).
Proof.
  intros Hf. revert m. induction Hf as [|e rest (Hn & Hv & He & _) Hf IH]; intros m Hd Hm.
  { cbn. by rewrite map_empty_union. }
  cbn [fmap list_fmap endpoints_loop]. rewrite cut_equals_shown by done. destruct e as [n v].
  cbn [fst snd] in *. rewrite !bool_decide_false by done. cbn [orb].
  apply NoDup_cons in Hd as [Hnot Hd]. rewrite IH; [|done|].
  - f_equal. rewrite list_to_map_cons, <- insert_union_l. symmetry. apply insert_union_r.
    by apply not_elem_of_list_to_map_1.
  - intros e He'. rewrite lookup_insert_ne; [apply Hm; by right|].
    intros ->. apply Hnot, list_elem_of_fmap. by exists e.
Qed.

Lemma show_gvk_commas w : gvk_ok w -> free_of "," (show_gvk w) = true.
Proof.
  unfold gvk_ok, show_gvk. intros Hw. decompose_Forall_hyps. destruct_and?.
  change (String "/" ?s) with ("/" +:+ s). rewrite !free_of_app.
  repeat (apply andb_true_iff; split); done.
Qed.

Lemma show_endpoint_commas e : endpoint_ok e -> free_of "," (show_endpoint e) = true.
Proof.
  unfold show_endpoint. intros (_ & _ & _ & Hn & Hv).
  change (String "=" ?s) with ("=" +:+ s). rewrite !free_of_app, Hn, Hv. done.
Qed.

Lemma Join_nonempty items : (exists s, s ∈ items /\ s <> "") -> Join items "," <> "".
Proof.
  destruct items as [|s [|t rest]]; intros (x & Hx & Hne).
  - by apply elem_of_nil in Hx.
  - apply list_elem_of_singleton in Hx as ->. done.
  - change (Join (s :: t :: rest) ",") with (s +:+ String "," (Join (t :: rest) ",")). by destruct s.
Qed.

(** The lists of the command line round-trip: any list of kinds whose parts have
    no slash or comma, and any plugin endpoints whose names have no equals sign or
    comma and whose addresses have no comma, written in the documented format, are
    read back exactly. *)
Theorem command_line_roundtrip ws es :
  Forall gvk_ok ws -> Forall endpoint_ok es -> NoDup es.*1 ->
  parseGVKWatches (Join (show_gvk <$> ws) ",") = Ok ws /\
  parsePluginEndpoints (Join (show_endpoint <$> es) ",") = Ok (list_to_map es).
Proof.
  intros Hw He Hd. split.
  - unfold parseGVKWatches. destruct ws as [|w rest]; [done|].
    rewrite bool_decide_false, Split_Join, gvk_loop_shown; try done.
    + by eapply Forall_fmap, Forall_impl; [done|apply show_gvk_commas].
    + apply Join_nonempty. exists (show_gvk w). split; [by left|]. unfold show_gvk. by destruct (gw_Group w).
  - unfold parsePluginEndpoints. destruct es as [|e rest]; [done|].
    rewrite bool_decide_false, Split_Join, endpoints_loop_shown; try done.
    + by rewrite map_union_empty.
    + by eapply Forall_fmap, Forall_impl; [done|apply show_endpoint_commas].
    + apply Join_nonempty. exists (show_endpoint e). split; [by left|]. unfold show_endpoint. by destruct (e.1).
Qed.

Lemma command_line_roundtrip_witness :
  parseGVKWatches "gateway.networking.k8s.io/v1/HTTPRoute,/v1/ConfigMap"
  = Ok [mkGVKWatch "gateway.networking.k8s.io" "v1" "HTTPRoute"; mkGVKWatch "" "v1" "ConfigMap"] /\
  parsePluginEndpoints "aws=http://localhost:8080" = Ok (list_to_map [("aws", "http://localhost:8080")]).
Proof.
  apply (command_line_roundtrip
    [mkGVKWatch "gateway.networking.k8s.io" "v1" "HTTPRoute"; mkGVKWatch "" "v1" "ConfigMap"]
    [("aws", "http://localhost:8080")]).
  - repeat constructor.
  - repeat constructor; done.
  - apply NoDup_singleton.
Defined.
