(* ===== verification/TemplateWebhook.v ===== *)
(** * TemplateWebhook: admission of workspace templates

    internal/webhook/v1alpha1 template_webhook.go: the defaulter that stamps the
    access strategy labels and protects the strategy, the consistency rules of a
    template, and the warning when its constraints change. *)

From S2P Require Import Prelude Api K8s WorkspaceQueries Defaulters Validators.

(** ** Consistency *)

(** The bounds no timeout satisfies. *)
Definition idle_bounds_crossed (policy : IdleShutdownOverridePolicy) : bool :=
  match isop_MinIdleTimeoutInMinutes policy, isop_MaxIdleTimeoutInMinutes policy with
  | Some lo, Some hi => hi <? lo
  | _, _ => false
  end.

(** validateIdleShutdownPolicyConsistency rejects a self-defeating idle policy. *)
Definition validateIdleShutdownPolicyConsistency (t : WorkspaceTemplate) : result unit :=
  match ts_IdleShutdownOverrides (wt_Spec t) with
  | None => Ok tt
  | Some policy =>
      if idle_bounds_crossed policy then
        Fail (Errorf
          "idleShutdownOverrides.minIdleTimeoutInMinutes %d is greater than maxIdleTimeoutInMinutes %d: no idle timeout can satisfy these bounds (template %q)"
          [bound_text (isop_MinIdleTimeoutInMinutes policy);
           bound_text (isop_MaxIdleTimeoutInMinutes policy); tmpl_name t])
      else if bool_decide (isop_Allow policy = Some false) &&
              match ts_DefaultIdleShutdown (wt_Spec t) with None => true | Some _ => false end then
        Fail (Errorf
          "idleShutdownOverrides.allow is false but defaultIdleShutdown is not set: a locked idle shutdown policy requires a defaultIdleShutdown for workspaces to match (template %q)"
          [tmpl_name t])
      else
      match ts_DefaultIdleShutdown (wt_Spec t) with
      | None => Ok tt
      | Some def =>
          if negb (is_Enabled def) then Ok tt
          else if match isop_MinIdleTimeoutInMinutes policy with
                  | Some m => is_IdleTimeoutInMinutes def <? m | None => false end then
            Fail (Errorf
              "defaultIdleShutdown.idleTimeoutInMinutes %d is below idleShutdownOverrides.minIdleTimeoutInMinutes %d: the template default would be rejected by its own bounds (template %q)"
              [Sprint_int (is_IdleTimeoutInMinutes def);
               bound_text (isop_MinIdleTimeoutInMinutes policy); tmpl_name t])
          else if match isop_MaxIdleTimeoutInMinutes policy with
                  | Some m => m <? is_IdleTimeoutInMinutes def | None => false end then
            Fail (Errorf
              "defaultIdleShutdown.idleTimeoutInMinutes %d is above idleShutdownOverrides.maxIdleTimeoutInMinutes %d: the template default would be rejected by its own bounds (template %q)"
              [Sprint_int (is_IdleTimeoutInMinutes def);
               bound_text (isop_MaxIdleTimeoutInMinutes policy); tmpl_name t])
          else Ok tt
      end
  end.

(** validateTemplateConsistency rejects a template whose own constraints contradict
    each other. *)
Definition validateTemplateConsistency `{GoRuntime} (t : WorkspaceTemplate) : result unit :=
  _ ← validateTemplateImageConsistency t;
  _ ← validateTemplateStorageConsistency t;
  _ ← validateTemplateResourceBoundsConsistency t;
  validateIdleShutdownPolicyConsistency t.

(** ** Changes of constraints *)

(** [(a == nil) != (b == nil)], and otherwise a comparison of what they point to. *)
Definition pointer_changed {A} (changed : A -> A -> bool) (old new : option A) : bool :=
  match old, new with
  | None, None => false
  | Some a, Some b => changed a b
  | _, _ => true
  end.
(** [!a.Equal(b)] on quantities. *)
Definition quantity_changed (a b : Quantity) : bool :=
  match Quantity_Cmp a b with Eq => false | _ => true end.
Definition z_changed (a b : Z) : bool := negb (a =? b).

(** Semantic.DeepEqual compares the bounds by value. *)
Definition sem_range (r : ResourceRange) : ResourceRange :=
  mkResourceRange (sem_quantity (rg_Min r)) (sem_quantity (rg_Max r)).
Definition resourceBoundsChanged (oldBounds newBounds : option ResourceBounds) : bool :=
  pointer_changed (fun a b => negb (bool_decide
    (sem_range <$> rb_Resources a = sem_range <$> rb_Resources b))) oldBounds newBounds.

Definition maxStorageSizeChanged (oldStorage newStorage : option StorageConfig) : bool :=
  pointer_changed (fun a b =>
    if pointer_changed quantity_changed (sc_MaxSize a) (sc_MaxSize b) then true
    else pointer_changed quantity_changed (sc_MinSize a) (sc_MinSize b)) oldStorage newStorage.

Definition idleShutdownAllowOverrideChanged (oldOverrides newOverrides : option IdleShutdownOverridePolicy)
    : bool :=
  pointer_changed (fun a b => pointer_changed (fun x y => negb (Bool.eqb x y)) (isop_Allow a) (isop_Allow b))
    oldOverrides newOverrides.

Definition idleShutdownTimeoutBoundsChanged (oldOverrides newOverrides : option IdleShutdownOverridePolicy)
    : bool :=
  pointer_changed (fun a b =>
    if pointer_changed z_changed (isop_MinIdleTimeoutInMinutes a) (isop_MinIdleTimeoutInMinutes b)
    then true
    else pointer_changed z_changed (isop_MaxIdleTimeoutInMinutes a) (isop_MaxIdleTimeoutInMinutes b))
    oldOverrides newOverrides.

(** constraintsChanged, its tests in their order. *)
Definition constraintsChanged (oldTemplate newTemplate : WorkspaceTemplate) : bool :=
  let oldSpec := wt_Spec oldTemplate in
  let newSpec := wt_Spec newTemplate in
  if negb (bool_decide (ts_AllowedImages oldSpec = ts_AllowedImages newSpec)) then true
  else if resourceBoundsChanged (ts_ResourceBounds oldSpec) (ts_ResourceBounds newSpec) then true
  else if maxStorageSizeChanged (ts_PrimaryStorage oldSpec) (ts_PrimaryStorage newSpec) then true
  else if idleShutdownAllowOverrideChanged (ts_IdleShutdownOverrides oldSpec)
            (ts_IdleShutdownOverrides newSpec) then true
  else if idleShutdownTimeoutBoundsChanged (ts_IdleShutdownOverrides oldSpec)
            (ts_IdleShutdownOverrides newSpec) then true
  else negb (bool_decide (ts_EnvRequirements oldSpec = ts_EnvRequirements newSpec)).

(** ** The webhook *)

Module TemplateWebhook.

Section webhook.
Context `{GoRuntime} {W : Type} (client : RefClient W) (sharedNamespace : string).
Local Open Scope go_scope.

(** Default stamps the lookup labels and adds the protection finalizer to the
    referenced strategy, after the namespace check. *)
Definition Default (template : WorkspaceTemplate) : ST W WorkspaceTemplate :=
  if is_deleting (wt_ObjectMeta template) then st_ret template
  else
  let template := fst (ApplyAccessStrategyLabels template) in
  match ts_DefaultAccessStrategy (wt_Spec template) with
  | None => st_ret template
  | Some ref =>
      if bool_decide (asr_Name ref = "") then st_ret template
      else
      st_lift (validateTemplateAccessStrategyNamespace sharedNamespace template) ;;
      st_wrap "failed to add finalizer to AccessStrategy referenced by template: %w" []
        (EnsureAccessStrategyFinalizerByRef client (template_label template LabelAccessStrategyName)
           (template_label template LabelAccessStrategyNamespace) AccessStrategyTemplateFinalizerName true) ;;
      st_ret template
  end.



(** Deletion is left to the finalizers. *)
Definition ValidateDelete (template : WorkspaceTemplate) : result (list string) := Ok [].
End webhook.
End TemplateWebhook.

(** ** What consistency means *)










(** ** Templates and their own defaults *)







Section defaults.
Context `{GoRuntime} `{GoRegexp}.




End defaults.

(** ** Protection of the strategy a template names *)

Section protection.
Context `{GoRuntime} (shared : string).

(** Adding the finalizer on the in-memory cluster: the strategy carries it, and
    nothing else changes. *)
Lemma mem_ensure_finalizer name ns fin mustExist m m' :
  name <> "" ->
  EnsureAccessStrategyFinalizerByRef mem_refs name ns fin mustExist m = (Ok tt, m') ->
  (rm_Templates m' = rm_Templates m /\ rm_Workspaces m' = rm_Workspaces m) /\
  ((exists a, rm_Strategies m' !! (ns, name) = Some a /\ ContainsFinalizer (was_ObjectMeta a) fin = true /\
      forall k, k <> (ns, name) -> rm_Strategies m' !! k = rm_Strategies m !! k) \/
   (mustExist = false /\ m' = m)).
Proof.
  intros Hn. unfold EnsureAccessStrategyFinalizerByRef. rewrite bool_decide_false by done.
  unfold st_bind at 1, st_try at 1.
  destruct (crud_Get (rc_AccessStrategy mem_refs) name ns m) as [[a|e] m1] eqn:Hg.
  2:{ assert (m1 = m) as -> by (cbn in Hg; repeat case_match; by simplify_eq).
      destruct (IsNotFound e); [|done]. destruct mustExist; [done|]. intros [= <-]. auto. }
  assert (Ha : rm_Strategies m !! (ns, name) = Some a /\ om_Namespace (was_ObjectMeta a) = ns /\
               om_Name (was_ObjectMeta a) = name /\ m1 = m).
  { cbn in Hg. destruct (rm_Strategies m !! (ns, name)) as [a'|]; [|done].
    case_bool_decide as Hk; [|done]. injection Hg as <- <-. by injection Hk as ? ?. }
  destruct Ha as (Ha & Hns & Hnm & ->).
  destruct (ContainsFinalizer (was_ObjectMeta a) fin) eqn:Hc; [intros [= <-]; eauto 8|].
  unfold SafelyAddFinalizerToAccessStrategy. rewrite Hc. unfold st_bind, st_try. cbn.
  unfold AddFinalizer. rewrite Hc. cbn. rewrite Hns, Hnm, Ha. intros [= <-]. cbn.
  split; [done|]. left. eexists. split; [apply lookup_insert_eq|]. split.
  - unfold ContainsFinalizer. cbn. apply bool_decide_eq_true. set_solver.
  - intros k Hk. by rewrite lookup_insert_ne.
Qed.

(** The strategy of [t] is there and carries the template protection. *)
Definition strategy_protected (m : RefMem) (t : WorkspaceTemplate) : Prop :=
  exists a, rm_Strategies m !! ((strategy_ref t).2, (strategy_ref t).1) = Some a /\
  ContainsFinalizer (was_ObjectMeta a) AccessStrategyTemplateFinalizerName = true.

Lemma strategy_ref_named t ref :
  ts_DefaultAccessStrategy (wt_Spec t) = Some ref -> asr_Name ref <> "" ->
  strategy_ref t = (asr_Name ref, if negb (bool_decide (asr_Namespace ref = "")) then asr_Namespace ref
                                  else om_Namespace (wt_ObjectMeta t)).
Proof. intros E Hn. unfold strategy_ref. by rewrite E, bool_decide_false by done. Qed.

(** Template protection: whatever the cluster holds, a template the defaulter
    accepts carries labels that say exactly which strategy it refers to, that
    strategy is in the template's or the shared namespace, exists and carries the
    template protection finalizer; nothing else of the cluster changes, and a
    refused template leaves strategies of other namespaces alone. *)
Theorem template_default_protects (t : WorkspaceTemplate) (m : RefMem) :
  is_deleting (wt_ObjectMeta t) = false ->
  (forall t' m', TemplateWebhook.Default mem_refs shared t m = (Ok t', m') ->
     labels_reflect t' /\ wt_Spec t' = wt_Spec t /\
     rm_Templates m' = rm_Templates m /\ rm_Workspaces m' = rm_Workspaces m /\
     (forall ref, ts_DefaultAccessStrategy (wt_Spec t) = Some ref -> asr_Name ref <> "" ->
        namespace_allowed shared (asr_Namespace ref) (om_Namespace (wt_ObjectMeta t)) /\
        strategy_protected m' t) /\
     (forall k, k <> ((strategy_ref t).2, (strategy_ref t).1) ->
        rm_Strategies m' !! k = rm_Strategies m !! k)) /\
  (forall ref, ts_DefaultAccessStrategy (wt_Spec t) = Some ref -> asr_Name ref <> "" ->
     ~ namespace_allowed shared (asr_Namespace ref) (om_Namespace (wt_ObjectMeta t)) ->
     exists e, TemplateWebhook.Default mem_refs shared t m = (Fail e, m)).
Proof.
  intros Hd. destruct (ApplyAccessStrategyLabels_reflects t) as (Hl & Hs & _ & Href & _).
  assert (Hns : om_Namespace (wt_ObjectMeta (ApplyAccessStrategyLabels t).1)
                = om_Namespace (wt_ObjectMeta t)).
  { rewrite ApplyAccessStrategyLabels_eq. by case_bool_decide. }
  unfold TemplateWebhook.Default. rewrite Hd. cbv zeta. rewrite Hs.
  generalize dependent (ApplyAccessStrategyLabels t).1. intros t1 Hl Hs Href Hns.
  destruct (ts_DefaultAccessStrategy (wt_Spec t)) as [ref|] eqn:E.
  2:{ split; [intros t' m' [= <- <-]; by split_and!|done]. }
  case_bool_decide as Hn.
  { split; [intros t' m' [= <- <-]; split_and!; try done; by intros ? [= <-]|by intros ? [= <-]]. }
  assert (Hv : validateTemplateAccessStrategyNamespace shared t1 = Ok tt <->
               namespace_allowed shared (asr_Namespace ref) (om_Namespace (wt_ObjectMeta t))).
  { unfold validateTemplateAccessStrategyNamespace. rewrite Hs, E, Hns. apply validateNamespaceScope_Ok. }
  split.
  - intros t' m' Hrun. inv_run Hrun. destruct_units. apply Hv in Hr.
    unfold labels_reflect in Hl. rewrite Href in Hl.
    pose proof (strategy_ref_named t ref E Hn) as Hnm. pose proof (f_equal fst Hl) as Hl1.
    pose proof (f_equal snd Hl) as Hl2. cbn [fst snd] in Hl1, Hl2. rewrite Hl1, Hl2 in Hr0.
    apply mem_ensure_finalizer in Hr0; [|by rewrite Hnm].
    destruct Hr0 as ((Ht & Hw) & [(a & Ha & Hc & Hk)|[? _]]); [|done].
    split_and!; try done.
    + unfold labels_reflect. by rewrite Href.
    + intros ? [= <-] _. split; [done|]. by exists a.
  - intros ? [= <-] _ Hna. destruct (validateTemplateAccessStrategyNamespace shared t1) as [[]|e];
      [by destruct Hna; apply Hv|]. by exists e.
Qed.
End protection.

(** ** A template and its strategy *)

Definition demo_shared_strategy : WorkspaceAccessStrategy :=
  mkWorkspaceAccessStrategy (mkObjectMeta "as" "shared" "" "" 1 0 None ∅ ∅ [] [])
    (mkWorkspaceAccessStrategySpec "as" [] "" "" "" "" "" ∅ "" ∅ ∅ None None)
    (mkWorkspaceAccessStrategyStatus []).
(** A template spec with an image, primary storage and default strategy only. *)
Definition demo_spec (image : string) (storage : option StorageConfig) (ref : option AccessStrategyRef)
    : WorkspaceTemplateSpec :=
  mkWorkspaceTemplateSpec "" "" image [] None None None storage None [] [] None [] None None None "" []
    [] None None "" ref None None None None [] None "".
Definition demo_referring (ns : string) : WorkspaceTemplate :=
  mkWorkspaceTemplate (mkObjectMeta "t" "team" "" "" 1 0 None ∅ ∅ [] [])
    (demo_spec "img:1" None (Some (mkAccessStrategyRef "as" ns)))
    (mkWorkspaceTemplateStatus 0).
Definition demo_strategies : RefMem :=
  mkRefMem ∅ {[ ("shared", "as") := demo_shared_strategy ]} [].

Lemma template_default_protects_witness :
  strategy_protected (TemplateWebhook.Default mem_refs "shared" (demo_referring "shared")
    demo_strategies).2 (demo_referring "shared") /\
  (exists e, TemplateWebhook.Default mem_refs "shared" (demo_referring "other") demo_strategies
             = (Fail e, demo_strategies)).
Proof.
  split.
  - destruct (TemplateWebhook.Default mem_refs "shared" (demo_referring "shared") demo_strategies)
      as [r m'] eqn:Hrun.
    assert (is_ok r = true) as Hok.
    { change r with (r, m').1. rewrite <- Hrun. vm_compute. reflexivity. }
    destruct r as [t'|]; [|discriminate].
    apply (proj1 (template_default_protects "shared" (demo_referring "shared") demo_strategies eq_refl)
      t' m' Hrun) with (ref := mkAccessStrategyRef "as" "shared"); [reflexivity|discriminate].
  - apply (proj2 (template_default_protects "shared" (demo_referring "other") demo_strategies eq_refl)
      (mkAccessStrategyRef "as" "other")); [reflexivity|discriminate|].
    intros [|[|[_ ?]]]; discriminate.
Defined.

(** ** What a change of a template is told *)

(** No warning means the fields it compares agree, quantities by value. *)
Lemma constraintsChanged_false old new :
  constraintsChanged old new = false <->
  ts_AllowedImages (wt_Spec old) = ts_AllowedImages (wt_Spec new) /\
  resourceBoundsChanged (ts_ResourceBounds (wt_Spec old)) (ts_ResourceBounds (wt_Spec new)) = false /\
  maxStorageSizeChanged (ts_PrimaryStorage (wt_Spec old)) (ts_PrimaryStorage (wt_Spec new)) = false /\
  ts_IdleShutdownOverrides (wt_Spec old) = ts_IdleShutdownOverrides (wt_Spec new) /\
  ts_EnvRequirements (wt_Spec old) = ts_EnvRequirements (wt_Spec new).
Proof.
  assert (Hz : forall a b, pointer_changed z_changed a b = false <-> a = b).
  { intros [a|] [b|]; cbn; try done. unfold z_changed. rewrite negb_false_iff, Z.eqb_eq. split; congruence. }
  assert (Hp : forall a b, idleShutdownAllowOverrideChanged a b = false /\
    idleShutdownTimeoutBoundsChanged a b = false <-> a = b).
  { intros [[a1 a2 a3]|] [[b1 b2 b3]|]; cbn; try (split; [by intros []|done]).
    split.
    - intros [H1 H2]. destruct (pointer_changed z_changed a2 b2) eqn:E; [done|].
      apply Hz in E, H2. destruct a1 as [[]|], b1 as [[]|]; try done; congruence.
    - intros [= <- <- <-]. rewrite !(proj2 (Hz _ _)) by done. by destruct a1 as [[]|]. }
  unfold constraintsChanged. cbv zeta. rewrite <- Hp.
  repeat (case_bool_decide; cbn [negb]); repeat match goal with |- context [if ?b then _ else _] =>
    destruct b end; intuition congruence.
Qed.

Section gaps.
Local Existing Instance canonical_runtime.
Local Existing Instance no_regexp.

Definition template_of (s : WorkspaceTemplateSpec) : WorkspaceTemplate :=
  mkWorkspaceTemplate (wt_ObjectMeta (demo_referring "shared")) s (mkWorkspaceTemplateStatus 0).

(** A change of the default image, which is the allowed image of a template that
    lists none, gives no warning though it turns a conforming workspace into one that
    does not conform. *)
Lemma unwarned_change :
  let old := template_of (demo_spec "img:1" None None) in
  let new := template_of (demo_spec "img:2" None None) in
  let w := on_spec (set_sp_Image "img:1") Status.demo_ws in
  constraintsChanged old new = false /\ template_violations w old = [] /\
  template_violations w new <> [].
Proof. vm_compute. done. Qed.

(** A default storage size above the template's own maximum passes the consistency
    rules, and every workspace that takes the default is then refused. *)
Lemma default_storage_unchecked :
  let t := template_of (demo_spec "img:1" (Some (mkStorageConfig (mkQuantity 20 "20Gi") None
             (Some (mkQuantity 10 "10Gi")) None "")) None) in
  validateTemplateConsistency t = Ok tt /\
  template_violations (apply_defaults t Status.demo_ws) t <> [].
Proof. vm_compute. done. Qed.
End gaps.
