(* ===== verification/IntegrationTemplateWebhook.v ===== *)
(** * IntegrationTemplateWebhook: what an integration template may say

    internal/webhook/v1alpha1 integration_template_validation.go and
    workspaceintegrationtemplate_webhook.go.  The webhook renders every templated
    field once, with empty values for the declared parameters and a [resource]
    function that only checks its arguments.  The theorem relates that rendering to
    the controller's: a template the webhook admits is one the controller can
    resolve, in every workspace the workspace webhook admits for it. *)

From S2P Require Import Prelude Api K8s Status Resources Integrations IntegrationResolver.
From S2P Require Import WorkspaceWebhook.

(** ** Static validation *)

(** The parameters declared, each with an empty value, and the resource handles. *)
Definition allowedParamNames (tmpl : WorkspaceIntegrationTemplate) : gmap string string :=
  list_to_map ((fun p => (itp_Name p, "")) <$> wits_Parameters (wit_Spec tmpl)).
Definition allowedResourceRefIDs (tmpl : WorkspaceIntegrationTemplate) : gset string :=
  list_to_set (rref_Name <$> wits_ResourceRefs (wit_Spec tmpl)).

(** templateValidationData: the shape of the controller's data, names left empty. *)
Definition templateValidationData (params : gmap string string) : IntegrationTemplateData :=
  mkIntegrationTemplateData (mkIntegrationWorkspaceData "" "") params.

(** One call after another over a list, with the index, stopping at an error. *)
Fixpoint check_all {A} (f : nat -> A -> result unit) (i : nat) (l : list A) : result unit :=
  match l with
  | [] => Ok tt
  | x :: rest => _ ← f i x; check_all f (1 + i) rest
  end.

Section validation.
Context (engine : TemplateEngine) (params : gmap string string).

(** The [resource] function of the validation. *)
Definition validation_resource (ids : gset string) (allowResourceRefs : bool)
    : ResourceValueProvider := fun id jsonPath =>
  if negb allowResourceRefs then st_fail (Errorf
    "may not reference resources via {{ resource }} here (only .Workspace and .Parameters are allowed)" [])
  else if negb (bool_decide (id ∈ ids)) then st_fail (Errorf
    "references undeclared resourceRef %q (add it to resourceRefs)" [id])
  else match jsonpath_Parse engine jsonPath with
       | Fail perr => st_fail (Wrapf "invalid JSONPath %q: %w" [jsonPath] perr)
       | Ok _ => st_ret ""
       end.

(** validateTemplateExpression renders one field and keeps only the error. *)
Definition validateTemplateExpression (ids : gset string) (allowResourceRefs : bool)
    (field : string) : result unit :=
  if bool_decide (field = "") then Ok tt
  else match template_Parse engine field with
       | Fail err => Fail (Wrapf "invalid template %q: %w" [field] err)
       | Ok tmpl =>
           match (execute (Some (validation_resource ids allowResourceRefs))
                    (tmpl (templateValidationData params)) ∅).1 with
           | Fail err => Fail (Wrapf "invalid template %q: %w" [field] err)
           | Ok _ => Ok tt
           end
       end.

Definition validateMetadataExpression (field : string) : result unit :=
  validateTemplateExpression ∅ false field.

Variable ids : gset string.

Definition validatePodFieldExpression (field : string) : result unit :=
  validateTemplateExpression ids true field.

(** validateVolumeMountTemplates checks the paths of each mount. *)
Definition validate_mount (_ : nat) (m : VolumeMount) : result unit :=
  _ ← wrap_err "volumeMounts[%q].mountPath: %w" [vm_Name m]
        (validatePodFieldExpression (vm_MountPath m));
  _ ← wrap_err "volumeMounts[%q].subPath: %w" [vm_Name m]
        (validatePodFieldExpression (vm_SubPath m));
  wrap_err "volumeMounts[%q].subPathExpr: %w" [vm_Name m]
    (validatePodFieldExpression (vm_SubPathExpr m)).
Definition validateVolumeMountTemplates (mounts : list VolumeMount) : result unit :=
  check_all validate_mount 0 mounts.

(** An element of a command or argument list. *)
Definition validate_element (fmt : string) (j : nat) (element : string) : result unit :=
  wrap_err fmt [Sprint_int (Z.of_nat j)] (validatePodFieldExpression element).

(** validateContainerTemplates checks every templated field of a container. *)
Definition validateContainerTemplates (c : Container) : result unit :=
  _ ← wrap_err "image: %w" [] (validatePodFieldExpression (ctr_Image c));
  _ ← check_all (validate_element "command[%d]: %w") 0 (ctr_Command c);
  _ ← check_all (validate_element "args[%d]: %w") 0 (ctr_Args c);
  _ ← wrap_err "workingDir: %w" [] (validatePodFieldExpression (ctr_WorkingDir c));
  _ ← check_all (fun _ e => wrap_err "env[%q]: %w" [env_Name e]
                              (validatePodFieldExpression (env_Value e))) 0 (ctr_Env c);
  validateVolumeMountTemplates (ctr_VolumeMounts c).

Definition validate_containers (fmt : string) (cs : list Container) : result unit :=
  check_all (fun i c => wrap_err fmt [Sprint_int (Z.of_nat i); ctr_Name c]
                          (validateContainerTemplates c)) 0 cs.

Definition validate_primary (p : option PrimaryContainerModifications) : result unit :=
  match p with
  | None => Ok tt
  | Some p =>
      _ ← check_all (fun _ e => wrap_err "primaryContainerModifications.mergeEnv[%q]: %w" [aet_Name e]
                                  (validatePodFieldExpression (aet_ValueTemplate e)))
            0 (pcm_MergeEnv p);
      wrap_err "primaryContainerModifications.%w" []
        (validateVolumeMountTemplates (pcm_VolumeMounts p))
  end.

(** The name of a referenced resource. *)
Definition validate_ref (_ : nat) (ref : ResourceRef) : result unit :=
  wrap_err "resourceRef %q metadata.name: %w" [rref_Name ref]
    (validateMetadataExpression (rrm_Name (rref_Metadata ref))).

Definition probe_command (tmpl : WorkspaceIntegrationTemplate) : list string :=
  match wits_StatusProbe (wit_Spec tmpl) with
  | Some p => default [] (isp_Exec p)
  | None => []
  end.
End validation.

(** validateIntegrationTemplate: the resource names, the probe command, then the
    pod modifications; the first problem is the answer. *)
Definition validateIntegrationTemplate (engine : TemplateEngine)
    (tmpl : WorkspaceIntegrationTemplate) : result unit :=
  let params := allowedParamNames tmpl in
  let ids := allowedResourceRefIDs tmpl in
  _ ← check_all (validate_ref engine params) 0 (wits_ResourceRefs (wit_Spec tmpl));
  _ ← check_all (validate_element engine params ids "statusProbe.exec.command[%d]: %w") 0
        (probe_command tmpl);
  match pod_mods tmpl with
  | None => Ok tt
  | Some pm =>
      _ ← validate_containers engine params ids "additionalContainers[%d] (%q): %w"
            (pm_AdditionalContainers pm);
      _ ← validate_containers engine params ids "initContainers[%d] (%q): %w"
            (pm_InitContainers pm);
      validate_primary engine params ids (pm_PrimaryContainerModifications pm)
  end.

(** ** The webhook *)

Module IntegrationTemplateValidator.
Section validator.
Context (engine : TemplateEngine).

Definition validate (tmpl : WorkspaceIntegrationTemplate) : result unit :=
  wrap_err "invalid WorkspaceIntegrationTemplate %q: %w" [om_Name (wit_ObjectMeta tmpl)]
    (validateIntegrationTemplate engine tmpl).
Definition ValidateCreate (tmpl : WorkspaceIntegrationTemplate) : result unit := validate tmpl.
Definition ValidateUpdate (_ newTmpl : WorkspaceIntegrationTemplate) : result unit :=
  validate newTmpl.
Definition ValidateDelete (_ : WorkspaceIntegrationTemplate) : result unit := Ok tt.
End validator.
End IntegrationTemplateValidator.

(** ** What the fields are *)

Definition mount_exprs (m : VolumeMount) : list string :=
  [vm_MountPath m; vm_SubPath m; vm_SubPathExpr m].
Definition container_exprs (c : Container) : list string :=
  ctr_Image c :: ctr_Command c ++ ctr_Args c ++ ctr_WorkingDir c ::
  (env_Value <$> ctr_Env c) ++ (ctr_VolumeMounts c ≫= mount_exprs).
Definition primary_exprs (p : option PrimaryContainerModifications) : list string :=
  match p with
  | None => []
  | Some p => (aet_ValueTemplate <$> pcm_MergeEnv p) ++ (pcm_VolumeMounts p ≫= mount_exprs)
  end.
Definition mods_exprs (pm : PodModifications) : list string :=
  (pm_AdditionalContainers pm ≫= container_exprs) ++ (pm_InitContainers pm ≫= container_exprs) ++
  primary_exprs (pm_PrimaryContainerModifications pm).

(** Every templated field that may ask for a resource, and the resource names. *)
Definition template_exprs (tmpl : WorkspaceIntegrationTemplate) : list string :=
  probe_command tmpl ++ match pod_mods tmpl with Some pm => mods_exprs pm | None => [] end.
Definition name_exprs (tmpl : WorkspaceIntegrationTemplate) : list string :=
  (fun r => rrm_Name (rref_Metadata r)) <$> wits_ResourceRefs (wit_Spec tmpl).

Lemma check_all_Ok {A} (f : nat -> A -> result unit) (P : A -> Prop) i l :
  (forall i x, f i x = Ok tt <-> P x) -> check_all f i l = Ok tt <-> Forall P l.
Proof.
  intros Hf. revert i. induction l as [|x l IH]; intros i; cbn [check_all];
    [split; constructor|].
  rewrite result_bind_Ok, Forall_cons. split.
  - intros ([] & Hx & Hl). split; [by apply (Hf i)|by apply (IH (1 + i)%nat)].
  - intros [Hx Hl]. exists tt. split; [by apply Hf|by apply IH].
Qed.

Lemma then_Ok {B} (r : result unit) (k : result B) b :
  (_ ← r; k) = Ok b <-> r = Ok tt /\ k = Ok b.
Proof. rewrite result_bind_Ok. split; [by intros ([] & ? & ?)|intros []; by exists tt]. Qed.

Section accepted.
Context (engine : TemplateEngine) (params : gmap string string) (ids : gset string).
Local Notation ok := (fun e => validatePodFieldExpression engine params ids e = Ok tt).

Lemma validateVolumeMountTemplates_Ok mounts :
  validateVolumeMountTemplates engine params ids mounts = Ok tt <->
  Forall ok (mounts ≫= mount_exprs).
Proof.
  unfold validateVolumeMountTemplates.
  rewrite (check_all_Ok _ (fun m => Forall ok (mount_exprs m))), Forall_bind; [done|].
  intros i m. unfold validate_mount, mount_exprs.
  rewrite !then_Ok, !wrap_err_Ok, !Forall_cons, Forall_nil. tauto.
Qed.

Lemma validateContainerTemplates_Ok c :
  validateContainerTemplates engine params ids c = Ok tt <-> Forall ok (container_exprs c).
Proof.
  unfold validateContainerTemplates, container_exprs.
  rewrite !then_Ok, validateVolumeMountTemplates_Ok.
  rewrite !(check_all_Ok (validate_element _ _ _ _) ok)
    by (intros; unfold validate_element; apply wrap_err_Ok).
  rewrite (check_all_Ok _ (fun e => ok (env_Value e))) by (intros; apply wrap_err_Ok).
  rewrite !wrap_err_Ok, Forall_cons, !Forall_app, Forall_cons, Forall_app, Forall_fmap.
  unfold compose. tauto.
Qed.

Lemma validate_containers_Ok fmt cs :
  validate_containers engine params ids fmt cs = Ok tt <-> Forall ok (cs ≫= container_exprs).
Proof.
  unfold validate_containers. rewrite Forall_bind. apply check_all_Ok. intros i c.
  rewrite wrap_err_Ok. apply validateContainerTemplates_Ok.
Qed.

Lemma validate_primary_Ok p :
  validate_primary engine params ids p = Ok tt <-> Forall ok (primary_exprs p).
Proof.
  destruct p as [p|]; cbn [validate_primary primary_exprs]; [|by rewrite Forall_nil].
  rewrite then_Ok, wrap_err_Ok, validateVolumeMountTemplates_Ok, Forall_app, Forall_fmap.
  rewrite (check_all_Ok _ (fun e => ok (aet_ValueTemplate e))) by (intros; apply wrap_err_Ok).
  done.
Qed.
End accepted.

(** The webhook accepts a template exactly when every resource name and every
    templated field renders under the declared names alone. *)
Lemma validateIntegrationTemplate_Ok engine tmpl :
  let params := allowedParamNames tmpl in
  let ids := allowedResourceRefIDs tmpl in
  validateIntegrationTemplate engine tmpl = Ok tt <->
  Forall (fun e => validateMetadataExpression engine params e = Ok tt) (name_exprs tmpl) /\
  Forall (fun e => validatePodFieldExpression engine params ids e = Ok tt) (template_exprs tmpl).
Proof.
  intros params ids. unfold validateIntegrationTemplate, name_exprs, template_exprs. cbv zeta.
  rewrite !then_Ok, Forall_fmap, Forall_app. fold params ids.
  rewrite (check_all_Ok (validate_ref _ _) (fun r =>
    validateMetadataExpression engine params (rrm_Name (rref_Metadata r)) = Ok tt))
    by (intros; apply wrap_err_Ok).
  rewrite (check_all_Ok (validate_element _ _ _ _)
    (fun e => validatePodFieldExpression engine params ids e = Ok tt)) by (intros; apply wrap_err_Ok).
  unfold compose. destruct (pod_mods tmpl) as [pm|]; [|rewrite Forall_nil; tauto].
  unfold mods_exprs. rewrite !then_Ok, !Forall_app, !validate_containers_Ok, validate_primary_Ok.
  tauto.
Qed.

(** ** Computations that succeed *)

(** Whatever was captured before, the computation gives an answer. *)
Definition succeeds {S A} (m : ST S A) : Prop := forall s, exists a s', m s = (Ok a, s').

Lemma succeeds_ret {S A} (a : A) : succeeds (@st_ret S A a).
Proof. intros s. by exists a, s. Qed.
Lemma succeeds_wrap {S A} fmt args (m : ST S A) : succeeds m -> succeeds (st_wrap fmt args m).
Proof. intros Hm s. destruct (Hm s) as (a & s' & E). exists a, s'. by apply st_wrap_Ok. Qed.
Lemma succeeds_bind {S A B} (m : ST S A) (f : A -> ST S B) :
  succeeds m -> (forall a, succeeds (f a)) -> succeeds (st_bind m f).
Proof.
  intros Hm Hf s. destruct (Hm s) as (a & s1 & E1). destruct (Hf a s1) as (b & s2 & E2).
  exists b, s2. apply st_bind_Ok. by exists a, s1.
Qed.
Lemma succeeds_imap {S A B} (f : nat -> A -> ST S B) i l :
  (forall i x, x ∈ l -> succeeds (f i x)) -> succeeds (st_imap f i l).
Proof.
  revert i. induction l as [|x l IH]; intros i Hf; cbn; [apply succeeds_ret|].
  apply succeeds_bind; [apply Hf; left|]. intros y. apply succeeds_bind.
  - apply IH. intros j z Hz. apply Hf. by right.
  - intros ys. apply succeeds_ret.
Qed.
Create HintDb succeed.
#[export] Hint Resolve succeeds_ret succeeds_wrap succeeds_bind succeeds_imap : succeed.

(** The fields the controller renders are the fields the webhook validates. *)
Section resolved.
Context (engine : TemplateEngine) (p : option ResourceValueProvider)
  (data : IntegrationTemplateData).
Local Notation renders := (fun e => succeeds (ResolveTemplateExpression engine p data e)).

Lemma nonempty_succeeds fmt args e : renders e -> succeeds (resolve_nonempty engine p data fmt args e).
Proof. intros He. unfold resolve_nonempty. case_bool_decide; auto with succeed. Qed.

Lemma mounts_succeed mounts :
  Forall renders (mounts ≫= mount_exprs) -> succeeds (resolveVolumeMounts engine p data mounts).
Proof.
  rewrite Forall_bind. intros Hm. apply succeeds_imap. intros i m Hin.
  apply (proj1 (Forall_forall _ _) Hm) in Hin. unfold mount_exprs, compose in Hin.
  rewrite !Forall_cons in Hin. destruct Hin as (H1 & H2 & H3 & _). unfold resolve_mount. cbv zeta.
  repeat (apply succeeds_bind; [by apply nonempty_succeeds|intros ?]). apply succeeds_ret.
Qed.

Lemma elements_succeed fmt l : Forall renders l -> succeeds (st_imap (resolve_element engine p data fmt) 0 l).
Proof.
  intros Hl. apply succeeds_imap. intros i x Hx. apply succeeds_wrap.
  by apply (proj1 (Forall_forall _ _) Hl).
Qed.

Lemma container_succeeds c :
  Forall renders (container_exprs c) -> succeeds (resolveContainerFields engine p data c).
Proof.
  unfold container_exprs. rewrite Forall_cons, !Forall_app, Forall_cons, Forall_app, Forall_fmap.
  intros (Hi & Hc & Ha & Hw & He & Hm). unfold resolveContainerFields.
  apply succeeds_bind; [by apply nonempty_succeeds|intros ?].
  apply succeeds_bind; [by apply elements_succeed|intros ?].
  apply succeeds_bind; [by apply elements_succeed|intros ?].
  apply succeeds_bind; [by apply nonempty_succeeds|intros ?].
  apply succeeds_bind; [|intros ?; apply succeeds_bind; [by apply mounts_succeed|auto with succeed]].
  apply succeeds_imap. intros _ e Hin. apply succeeds_bind; [|auto with succeed].
  apply nonempty_succeeds. by apply (proj1 (Forall_forall _ _) He).
Qed.

Lemma containers_succeed fmt cs :
  Forall renders (cs ≫= container_exprs) -> succeeds (resolve_containers engine p data fmt cs).
Proof.
  rewrite Forall_bind. intros Hcs. apply succeeds_imap. intros i c Hin.
  apply succeeds_wrap, container_succeeds. by apply (proj1 (Forall_forall _ _) Hcs).
Qed.

Lemma mods_succeed pm :
  Forall renders (mods_exprs pm) -> succeeds (ResolvePodModifications engine p data pm).
Proof.
  unfold mods_exprs. rewrite !Forall_app. intros (Ha & Hi & Hp). unfold ResolvePodModifications.
  apply succeeds_bind; [by apply containers_succeed|intros ?].
  apply succeeds_bind; [by apply containers_succeed|intros ?].
  apply succeeds_bind; [|auto with succeed]. unfold resolve_primary.
  destruct (pm_PrimaryContainerModifications pm) as [pc|]; [|auto with succeed].
  cbn [primary_exprs] in Hp. rewrite Forall_app, Forall_fmap in Hp. destruct Hp as [He Hm].
  apply succeeds_bind; [|intros ?; apply succeeds_bind;
    [by apply succeeds_wrap, mounts_succeed|auto with succeed]].
  apply succeeds_imap. intros _ e Hin. apply succeeds_bind; [|auto with succeed].
  apply succeeds_wrap. by apply (proj1 (Forall_forall _ _) He).
Qed.

Lemma args_succeed args :
  Forall renders args -> succeeds (resolve_args (ResolveTemplateExpression engine p data) args).
Proof. induction 1; cbn; auto 6 with succeed. Qed.

Lemma probe_succeeds tmpl :
  Forall renders (probe_command tmpl) ->
  succeeds (resolveStatusProbeCommand (ResolveTemplateExpression engine p data)
              (wits_StatusProbe (wit_Spec tmpl))).
Proof.
  unfold probe_command, resolveStatusProbeCommand. intros Hp.
  destruct (wits_StatusProbe _) as [pr|]; [|auto with succeed].
  destruct (isp_Exec pr) as [[|a args]|]; [auto with succeed| |auto with succeed].
  apply succeeds_bind; [by apply args_succeed|auto with succeed].
Qed.
End resolved.

(** ** From the validation's rendering to the controller's *)

(** The resource values a rendering may ask for. *)
Inductive asks : Rendering -> string -> string -> Prop :=
| asks_here id path next : asks (AskResource id path next) id path
| asks_later id path next v id' path' :
    asks (next v) id' path' -> asks (AskResource id path next) id' path'.
Definition expr_asks (engine : TemplateEngine) (data : IntegrationTemplateData)
    (e id path : string) : Prop :=
  exists t, template_Parse engine e = Ok t /\ asks (t data) id path.

(** The second rendering gets as far as the first, by the same questions,
    whatever the answers. *)
Inductive follows : Rendering -> Rendering -> Prop :=
| follows_failed err r : follows (RenderFailed err) r
| follows_rendered text text' : follows (Rendered text) (Rendered text')
| follows_ask id path next next' :
    (forall v v', follows (next v) (next' v')) ->
    follows (AskResource id path next) (AskResource id path next').

(** An expression without branches on values: other values, or more parameters,
    change what it prints but not what it asks for, nor make it fail. *)
Definition static (engine : TemplateEngine) (e : string) : Prop :=
  forall t, template_Parse engine e = Ok t -> forall data data',
  dom (itd_Parameters data) ⊆ dom (itd_Parameters data') -> follows (t data) (t data').

(** The empty template prints nothing. *)
Class EmptyTemplate (engine : TemplateEngine) : Prop :=
  parse_empty : exists t, template_Parse engine "" = Ok t /\ forall data, t data = Rendered "".

Section admitted.
Context (engine : TemplateEngine) `{EmptyTemplate engine}.

(** A rendering that follows a validated one succeeds when the provider answers
    what it asks. *)
Lemma follows_execute ids b p r r' c x c' :
  follows r r' ->
  execute (Some (validation_resource engine ids b)) r c = (Ok x, c') ->
  (forall id path, asks r' id path -> b = true -> id ∈ ids ->
     exists value, p = Some value /\ succeeds (value id path)) ->
  succeeds (execute p r').
Proof.
  intros Hf. revert x c c'. induction Hf as [err r'|text text'|id path next next' Hn IH];
    intros x c c' Hr Hask; cbn [execute] in *; [done|auto with succeed|].
  apply st_bind_Ok in Hr as (v & c1 & Hv & Hr). unfold validation_resource in Hv.
  destruct b; [|done]. cbn [negb] in Hv. case_bool_decide as Hid; [|done]. cbn [negb] in Hv.
  destruct (Hask id path (asks_here _ _ _) eq_refl Hid) as (value & -> & Hs).
  apply succeeds_bind; [done|]. intros v'. apply (IH v v' x c1 c' Hr).
  intros id' path' Ha. apply Hask. by apply (asks_later _ _ _ v').
Qed.

Lemma admitted_expression params ids b p data e :
  validateTemplateExpression engine params ids b e = Ok tt -> static engine e ->
  dom params ⊆ dom (itd_Parameters data) ->
  (forall id path, expr_asks engine data e id path -> b = true -> id ∈ ids ->
     exists value, p = Some value /\ succeeds (value id path)) ->
  succeeds (ResolveTemplateExpression engine p data e).
Proof.
  intros Hv Hst Hdom Hask. unfold validateTemplateExpression in Hv. unfold ResolveTemplateExpression.
  case_bool_decide as He.
  - destruct parse_empty as (t & Ht & Hr). subst e. rewrite Ht, Hr. apply succeeds_wrap, succeeds_ret.
  - destruct (template_Parse engine e) as [t|err] eqn:Ht; [|done]. apply succeeds_wrap.
    destruct (execute _ _ _) as [[x|err] c'] eqn:Hr; [|done].
    eapply follows_execute; [by apply (Hst t Ht (templateValidationData params) data)|exact Hr|].
    intros id path Ha. apply Hask. by exists t.
Qed.

Lemma allowedParamNames_dom tmpl ref :
  validateWorkspaceIntegrationParameters ref tmpl = Ok tt ->
  dom (allowedParamNames tmpl) ⊆ dom (ParametersMap ref).
Proof.
  unfold validateWorkspaceIntegrationParameters. rewrite parameters_loop_Ok. intros Hall name Hn.
  unfold allowedParamNames in Hn. rewrite dom_list_to_map_L, elem_of_list_to_set in Hn.
  apply list_elem_of_fmap in Hn as ([k x] & -> & Hn).
  apply list_elem_of_fmap in Hn as (q & [= -> ->] & Hq).
  destruct (Hall q Hq) as (v & Hv & _). by apply elem_of_dom_2 in Hv.
Qed.

(** The cluster holds what the template refers to: each resource has a name that
    does not render empty, exists, and has a value at every path the template
    asks of it. *)
Definition present {W} (client : Client W) (tmpl : WorkspaceIntegrationTemplate)
    (data : IntegrationTemplateData) (s : W) (r : ResourceRef) : Prop :=
  forall name, (ResolveTemplateExpression engine None data (rrm_Name (rref_Metadata r)) ∅).1 = Ok name ->
  name <> "" /\
  exists obj, crud_Get (c_Unstructured client
      (FromAPIVersionAndKind (rref_APIVersion r) (rref_Kind r))) name
      (iwd_Namespace (itd_Workspace data)) s = (Ok obj, s) /\
    forall e path, e ∈ template_exprs tmpl -> expr_asks engine data e (rref_Name r) path ->
    exists v, evaluateJSONPathExpression engine obj path = Ok v.

Section capture.
Context {W : Type} (client : Client W) (tmpl : WorkspaceIntegrationTemplate)
  (data : IntegrationTemplateData) (s : W).

(** The fetched resources, with a value at every path asked for. *)
Definition answers (resources : gmap string Unstructured) : Prop :=
  forall id obj, resources !! id = Some obj -> forall e path,
  e ∈ template_exprs tmpl -> expr_asks engine data e id path ->
  exists v, evaluateJSONPathExpression engine obj path = Ok v.

Lemma fetch_loop_succeeds refs resources :
  Forall (fun r => succeeds (ResolveTemplateExpression engine None data (rrm_Name (rref_Metadata r)))) refs ->
  Forall (present client tmpl data s) refs -> answers resources ->
  exists out, fetch_loop engine client data refs resources s = (Ok out, s) /\ answers out /\
    dom out = dom resources ∪ list_to_set (rref_Name <$> refs).
Proof.
  intros Hs. revert resources. induction Hs as [|r refs Hn _ IH]; intros resources Hp Hans.
  { exists resources. split_and!; [done..|]. cbn. set_solver. }
  rewrite Forall_cons in Hp. destruct Hp as [Hr Hp].
  destruct (Hn ∅) as (name & c' & En). unfold present in Hr. rewrite En in Hr.
  destruct (Hr name eq_refl) as (Hne & obj & Hget & Hobj).
  destruct (IH (<[rref_Name r := obj]> resources) Hp) as (out & Eo & Ho & Hd).
  { intros id o. rewrite lookup_insert_Some. intros [[<- <-]|[_ Hid]]; [done|by apply Hans]. }
  exists out. split_and!; [|done|rewrite Hd, dom_insert_L; cbn; set_solver].
  cbn [fetch_loop]. apply st_bind_Ok. exists name, s. split.
  - unfold render_ref, ResolveResourceRef. unfold st_lift, st_bind, st_wrap. rewrite En. cbn.
    by rewrite bool_decide_false.
  - apply st_bind_Ok. exists (Ok obj), s. split; [unfold st_try; by rewrite Hget|done].
Qed.

Lemma live_answers resources e id path :
  answers resources -> id ∈ dom resources ->
  e ∈ template_exprs tmpl -> expr_asks engine data e id path ->
  succeeds (liveResourceValueProvider engine resources id path).
Proof.
  intros Hans [obj Hid]%elem_of_dom He Ha c. unfold liveResourceValueProvider. rewrite Hid.
  destruct (Hans id obj Hid e path He Ha) as [v Hv].
  exists v, (<[CaptureKey id path := v]> c). unfold st_bind, st_lift. by rewrite Hv.
Qed.

Lemma capture_all_succeeds resources ref :
  Forall (fun e => succeeds (ResolveTemplateExpression engine
    (Some (liveResourceValueProvider engine resources)) data e)) (template_exprs tmpl) ->
  succeeds (capture_all engine resources ref tmpl data).
Proof.
  unfold template_exprs. rewrite Forall_app. intros [Hp Hm]. unfold capture_all. cbv zeta.
  apply succeeds_bind; [|intros _; apply succeeds_bind;
    [by apply succeeds_wrap, probe_succeeds|auto with succeed]].
  destruct (pod_mods tmpl) as [pm|]; [|auto with succeed].
  apply succeeds_bind; [by apply succeeds_wrap, mods_succeed|auto with succeed].
Qed.
End capture.
End admitted.

(** Admission covers resolution: a template the webhook admits resolves.  In a
    workspace that supplies the declared parameters, when no expression branches on
    values and the cluster holds the resources the template refers to, with values
    at the paths it asks for, the controller's capture of the template's pod changes
    and probe command succeeds: no field it renders was left unchecked. *)
Theorem admitted_template_resolves {W} (engine : TemplateEngine) `{!EmptyTemplate engine}
    (client : Client W) (w : Workspace) (ref : IntegrationTemplateRef)
    (tmpl : WorkspaceIntegrationTemplate) (s : W) :
  IntegrationTemplateValidator.ValidateCreate engine tmpl = Ok tt ->
  validateWorkspaceIntegrationParameters ref tmpl = Ok tt ->
  (forall e, e ∈ name_exprs tmpl ++ template_exprs tmpl -> static engine e) ->
  (forall r, r ∈ wits_ResourceRefs (wit_Spec tmpl) ->
     present engine client tmpl (buildIntegrationTemplateData w ref) s r) ->
  exists values, captureIntegrationValues engine client w ref tmpl s = (Ok values, s).
Proof.
  intros Hv Hpar Hst Hpres. set (data := buildIntegrationTemplateData w ref) in *.
  apply wrap_err_Ok, validateIntegrationTemplate_Ok in Hv as [Hnames Hfields].
  pose proof (allowedParamNames_dom _ _ Hpar) as Hdom.
  assert (Hn : Forall (fun r => succeeds (ResolveTemplateExpression engine None data
    (rrm_Name (rref_Metadata r)))) (wits_ResourceRefs (wit_Spec tmpl))).
  { unfold name_exprs in *. rewrite Forall_fmap, Forall_forall in Hnames. apply Forall_forall.
    intros r Hr. eapply (admitted_expression engine _ ∅ false); [by apply Hnames| |exact Hdom|done].
    apply Hst, elem_of_app. left. apply list_elem_of_fmap. by exists r. }
  destruct (fetch_loop_succeeds engine client tmpl data s _ ∅ Hn) as (resources & Ef & Hans & Hd);
    [by apply Forall_forall|by intros ? ? ?%lookup_empty_Some|].
  destruct (capture_all_succeeds engine tmpl data resources ref) with (s := (∅ : Captured))
    as ([] & values & Ec).
  { rewrite Forall_forall in Hfields |- *. intros e He.
    eapply (admitted_expression engine _ (allowedResourceRefIDs tmpl) true);
      [by apply Hfields|apply Hst; set_solver|exact Hdom|].
    intros id path Ha _ Hid. eexists. split; [done|].
    apply (live_answers engine tmpl data resources e); [done| |done..].
    rewrite Hd. unfold allowedResourceRefIDs in Hid. set_solver. }
  unfold captureIntegrationValues. fold data.
  destruct (pod_mods tmpl), (wits_StatusProbe (wit_Spec tmpl)); [..|by exists ∅];
    exists values; apply st_bind_Ok; exists resources, s; (split; [exact Ef|]);
    by rewrite Ec.
Qed.

#[global] Instance demo_engine_empty : EmptyTemplate demo_engine.
Proof. by eexists. Qed.

Lemma demo_engine_static e : static demo_engine e.
Proof.
  intros t [= <-] data data' _. cbn. case_bool_decide; repeat constructor.
Qed.

Lemma admitted_template_resolves_witness :
  IntegrationTemplateValidator.ValidateCreate demo_engine demo_integration = Ok tt /\
  exists values, captureIntegrationValues demo_engine (mem_k8s false) demo_ws demo_integration_ref
    demo_integration demo_ray_mem = (Ok values, demo_ray_mem).
Proof.
  assert (Hv : IntegrationTemplateValidator.ValidateCreate demo_engine demo_integration = Ok tt)
    by (vm_compute; reflexivity).
  split; [exact Hv|].
  apply (admitted_template_resolves demo_engine (mem_k8s false) demo_ws demo_integration_ref
    demo_integration demo_ray_mem); [exact Hv|reflexivity|intros; apply demo_engine_static|].
  intros r Hr. apply list_elem_of_singleton in Hr as ->. intros name [= <-].
  split; [discriminate|]. eexists. split; [vm_compute; reflexivity|].
  intros e path _ _. eexists. vm_compute. reflexivity.
Defined.
