(* ===== verification/TextTemplates.v ===== *)
(** * TextTemplates: the templates of integrations and access strategies, as text

    The engine of IntegrationResolver, the template functions of ObjectBuilders and
    renderBearerAuthURL of internal/extensionapi/serverroute_connection.go, with
    text/template as GoTemplate.v models it.  A template outside the fragment goes to
    the given engine, so that the theorems hold whatever it does.  What admission
    promises about integration templates and what the documented expressions stand
    for become statements about the text a user writes. *)

From S2P Require Import Prelude Api Encoding K8s Status Resources Integrations IntegrationResolver.
From S2P Require Import ObjectBuilders WorkspaceWebhook IntegrationTemplateWebhook GoTemplate.
From S2P Require Import JwtSigner JwtManager ExtensionApi.

Local Open Scope go_scope.

(** ** Integration templates *)

(** Option missingkey=error, and the function [resource] of two arguments. *)
Definition integration_dialect : Dialect := mkDialect [("resource", 2%nat)] true (fun _ => true).

(** IntegrationTemplateData as the template sees it. *)
Definition integration_value (data : IntegrationTemplateData) : gval :=
  VStruct [("Workspace", VStruct [("Name", VString (iwd_Name (itd_Workspace data)));
                                  ("Namespace", VString (iwd_Namespace (itd_Workspace data)))]);
           ("Parameters", VMap (itd_Parameters data))].

(** A call of [resource] asks its provider. *)
Fixpoint rendering (m : Eval string) : Rendering :=
  match m with
  | Done text => Rendered text
  | Failed err => RenderFailed err
  | Call f args next =>
      match args with
      | [id; jsonPath] => AskResource id jsonPath (fun v => rendering (next v))
      | _ => RenderFailed (wrong_number f)
      end
  end.

Definition go_engine (other : TemplateEngine) : TemplateEngine := {|
  template_Parse := fun e =>
    match Parse integration_dialect e with
    | Some t => Ok (fun data => rendering (Execute integration_dialect (integration_value data) t))
    | None => template_Parse other e
    end;
  jsonpath_Parse := jsonpath_Parse other;
|}.

(** An expression of the fragment that does not branch. *)
Definition straight_text (e : string) : bool :=
  match Parse integration_dialect e with
  | Some t => straight integration_dialect t
  | None => false
  end.


Lemma integration_agrees data data' :
  dom (itd_Parameters data) ⊆ dom (itd_Parameters data') ->
  agrees (integration_value data) (integration_value data').
Proof. intros Hd. constructor. repeat constructor; done. Qed.

Lemma evals_follows (R : string -> string -> Prop) m m' :
  evals R m m' -> follows (rendering m) (rendering m').
Proof.
  induction 1 as [err m|a a' _|f args next next' _ IH]; cbn; [constructor..|].
  destruct args as [|id [|path []]]; by constructor.
Qed.

Lemma straight_static other e : straight_text e = true -> static (go_engine other) e.
Proof.
  unfold straight_text, static, go_engine. cbn. destruct (Parse _ e) as [t|]; [|done].
  intros Hs r [= <-] data data' Hd. eapply evals_follows, Execute_agrees; [done| |done].
  by apply integration_agrees.
Qed.

#[global] Instance go_engine_empty other : EmptyTemplate (go_engine other).
Proof. eexists. split; [reflexivity|]. done. Qed.

(** ** The documented expressions *)

(** The function [resource] over a provider. *)
Definition resource_call (provider : option ResourceValueProvider) (f : string) (args : list string)
    : ST Captured string :=
  match args with
  | [id; jsonPath] =>
      match provider with
      | None => st_fail (Errorf "resource template references id %q but resolver has no value provider" [id])
      | Some value => value id jsonPath
      end
  | _ => st_fail (wrong_number f)
  end.

Lemma execute_rendering provider m c :
  execute provider (rendering m) c = run (resource_call provider) m c.
Proof.
  revert c. induction m as [a|err|f args next IH]; intros c; [done..|].
  cbn. destruct args as [|id [|path [|]]]; try done.
  cbn. destruct provider as [value|]; [|done]. unfold st_bind.
  destruct (value id path c) as [[v|err] c']; [|done]. apply IH.
Qed.

Section documented.
Context (other : TemplateEngine) (ps : list piece)
  (Hok : forallb (piece_ok integration_dialect) ps = true).

Lemma go_engine_print :
  template_Parse (go_engine other) (print_pieces ps) =
    Ok (fun data => rendering (Execute integration_dialect (integration_value data) (print_tree [] ps))).
Proof. cbn. by rewrite Parse_print. Qed.

Lemma execute_print provider data c :
  execute provider (rendering (Execute integration_dialect (integration_value data)
                                 (print_tree [] ps))) c =
  render_pieces (resource_call provider) integration_dialect (integration_value data) ps c.
Proof.
  rewrite execute_rendering, run_print_tree by done. unfold st_bind, st_ret.
  by destruct (render_pieces _ _ _ _ _) as [[]].
Qed.
End documented.

(** What a field path stands for: the names of the workspace, a parameter, or one
    of the two structures as a whole. *)
Definition field_value (data : IntegrationTemplateData) (path : list string) : option gval :=
  if bool_decide (path = ["Workspace"; "Name"]) then Some (VString (iwd_Name (itd_Workspace data)))
  else if bool_decide (path = ["Workspace"; "Namespace"])
  then Some (VString (iwd_Namespace (itd_Workspace data)))
  else match path with
       | [root] => assoc root [("Workspace", VStruct [("Name", VString (iwd_Name (itd_Workspace data)));
                                  ("Namespace", VString (iwd_Namespace (itd_Workspace data)))]);
                                ("Parameters", VMap (itd_Parameters data))]
       | [root; key] => if bool_decide (root = "Parameters")
                        then VString <$> itd_Parameters data !! key else None
       | _ => None
       end.

(** The chain on a struct, a string and a map. *)
Lemma chain_struct fs name path :
  evalFieldChain integration_dialect (VStruct fs) (name :: path) false =
  match assoc name fs with
  | Some v => evalFieldChain integration_dialect v path false
  | None => Failed (exec_error ("cannot evaluate field " +:+ name))
  end.
Proof. destruct path; cbn; by destruct (assoc name fs). Qed.
Lemma chain_string s name path :
  evalFieldChain integration_dialect (VString s) (name :: path) false =
    Failed (exec_error ("cannot evaluate field " +:+ name)).
Proof. by destruct path. Qed.
Lemma chain_map m name path :
  match m !! name, path with
  | Some s, [] => evalFieldChain integration_dialect (VMap m) (name :: path) false = Done (VString s)
  | _, _ => exists err,
      evalFieldChain integration_dialect (VMap m) (name :: path) false = Failed err
  end.
Proof.
  destruct path as [|name' path]; cbn; destruct (m !! name); cbn; eauto.
  destruct path; by eexists.
Qed.

Lemma evalFieldChain_value data path :
  path <> [] ->
  match field_value data path with
  | Some v => evalFieldChain integration_dialect (integration_value data) path false = Done v
  | None => exists err,
      evalFieldChain integration_dialect (integration_value data) path false = Failed err
  end.
Proof.
  intros Hne. unfold integration_value. destruct path as [|root path]; [done|].
  rewrite chain_struct. unfold field_value. cbn [assoc].
  destruct (decide (root = "Workspace")) as [->|Hw]; [|destruct (decide (root = "Parameters")) as [->|Hp]].
  - rewrite (bool_decide_true ("Workspace" = "Workspace")) by done.
    destruct path as [|key rest]; [done|]. rewrite chain_struct. cbn [assoc].
    destruct (decide (key = "Name")) as [->|Hn]; [|destruct (decide (key = "Namespace")) as [->|Hs]].
    + rewrite (bool_decide_true ("Name" = "Name")) by done.
      destruct rest as [|k rest]; [done|]. rewrite !bool_decide_false by done. rewrite chain_string. eauto.
    + rewrite (bool_decide_false ("Name" = _)), (bool_decide_true ("Namespace" = "Namespace")) by done.
      destruct rest as [|k rest]; [done|]. rewrite !bool_decide_false by done. rewrite chain_string. eauto.
    + rewrite !bool_decide_false by congruence. destruct rest; eauto.
  - rewrite (bool_decide_false ("Workspace" = _)), (bool_decide_true ("Parameters" = "Parameters")) by done.
    rewrite !(bool_decide_false (_ = ["Workspace"; _])) by done.
    destruct path as [|key rest]; [done|].
    pose proof (chain_map (itd_Parameters data) key rest) as Hm.
    destruct (itd_Parameters data !! key), rest; cbn; eauto.
  - rewrite !bool_decide_false by congruence. destruct path as [|key []]; eauto.
Qed.

(** The text a documented template stands for: its pieces one after the other, a
    field by its value, a call by the answer of the provider. *)
Fixpoint resolved_text (provider : option ResourceValueProvider) (data : IntegrationTemplateData)
    (ps : list piece) : ST Captured string :=
  match ps with
  | [] => st_ret ""
  | p :: ps =>
      v <- match p with
           | PText s => st_ret s
           | PField path =>
               match field_value data path with
               | Some v => st_ret (print_value v)
               | None => st_fail (exec_error "unknown reference")
               end
           | PCall f args => resource_call provider f args
           end ;;
      rest <- resolved_text provider data ps ;;
      st_ret (v +:+ rest)
  end.

(** Two runs that agree on the outcome, up to the error. *)
Definition same_outcome {S A} (m m' : ST S A) : Prop :=
  forall c, match m c, m' c with
            | (Ok a, c1), (Ok a', c1') => a = a' /\ c1 = c1'
            | (Fail _, c1), (Fail _, c1') => c1 = c1'
            | _, _ => False
            end.

Lemma same_outcome_refl {S A} (m : ST S A) : same_outcome m m.
Proof. intros c. by destruct (m c) as [[] c']. Qed.
Lemma same_outcome_bind {S A B} (m m' : ST S A) (k k' : A -> ST S B) :
  same_outcome m m' -> (forall a, same_outcome (k a) (k' a)) ->
  same_outcome (x <- m ;; k x) (x <- m' ;; k' x).
Proof.
  intros Hm Hk c. specialize (Hm c). unfold st_bind.
  destruct (m c) as [[a|] c1], (m' c) as [[a'|] c1']; try done. destruct Hm as [-> ->]. apply Hk.
Qed.
Lemma same_outcome_wrap {S A} fmt args fmt' args' (m m' : ST S A) :
  same_outcome m m' -> same_outcome (st_wrap fmt args m) (st_wrap fmt' args' m').
Proof.
  intros Hm c. specialize (Hm c). unfold st_wrap.
  by destruct (m c) as [[] c1], (m' c) as [[] c1'].
Qed.

Lemma piece_ok_path d path : piece_ok d (PField path) = true -> path <> [].
Proof. by destruct path. Qed.

Lemma render_resolved provider data ps :
  forallb (piece_ok integration_dialect) ps = true ->
  same_outcome (render_pieces (resource_call provider) integration_dialect (integration_value data) ps)
    (resolved_text provider data ps).
Proof.
  induction ps as [|p ps IH]; intros Hok; [apply same_outcome_refl|].
  cbn [forallb] in Hok. apply andb_true_iff in Hok as [Hp Hok].
  assert (Hrest : forall s, same_outcome
    (rest <- render_pieces (resource_call provider) integration_dialect (integration_value data) ps ;;
     st_ret (s +:+ rest))
    (rest <- resolved_text provider data ps ;; st_ret (s +:+ rest))).
  { intros s. apply same_outcome_bind; [by apply IH|]. intros ?. apply same_outcome_refl. }
  destruct p as [s|path|f args]; cbn [render_pieces resolved_text].
  - exact (Hrest s).
  - pose proof (evalFieldChain_value data path (piece_ok_path _ _ Hp)) as Hv.
    destruct (field_value data path) as [v|].
    + rewrite Hv. exact (Hrest (print_value v)).
    + destruct Hv as [err ->]. intros c. done.
  - apply same_outcome_bind; [apply same_outcome_refl|done].
Qed.

(** The references a field path may make when the parameters [params] are declared. *)
Definition path_allowed (params : gmap string string) (path : list string) : Prop :=
  path ∈ [["Workspace"]; ["Workspace"; "Name"]; ["Workspace"; "Namespace"]; ["Parameters"]] \/
  exists x, path = ["Parameters"; x] /\ x ∈ dom params.

(** What the webhook lets a piece of a template refer to. *)
Definition piece_allowed (engine : TemplateEngine) (params : gmap string string) (ids : gset string)
    (allowResourceRefs : bool) (p : piece) : Prop :=
  match p with
  | PText _ => True
  | PField path => path_allowed params path
  | PCall _ args => exists id jsonPath, args = [id; jsonPath] /\ allowResourceRefs = true /\
      id ∈ ids /\ is_ok (jsonpath_Parse engine jsonPath) = true
  end.

Lemma path_allowed_value params path :
  path_allowed params path <-> is_Some (field_value (templateValidationData params) path).
Proof.
  unfold path_allowed, field_value. rewrite !list_elem_of_In. cbn [In]. split.
  - intros [[<-|[<-|[<-|[<-|[]]]]]|(x & -> & [v Hv]%elem_of_dom)]; try by eexists.
    rewrite !(bool_decide_false (_ = ["Workspace"; _])) by done. cbn. rewrite Hv. by eexists.
  - case_bool_decide; [auto|]. case_bool_decide; [auto 6|].
    destruct path as [|root [|key []]]; try by intros [].
    + cbn. repeat case_bool_decide; subst; [auto|auto 6|by intros []].
    + case_bool_decide as Hr; [subst|by intros []]. intros Hs. right. exists key. split; [done|].
      apply elem_of_dom. by rewrite fmap_is_Some in Hs.
Qed.

Section validated.
Context (other : TemplateEngine) (params : gmap string string) (ids : gset string)
  (allowResourceRefs : bool).

Let provider := Some (validation_resource (go_engine other) ids allowResourceRefs).

Lemma resource_checked f args c :
  is_ok (resource_call provider f args c).1 = true <->
  piece_allowed other params ids allowResourceRefs (PCall f args).
Proof.
  unfold resource_call, provider, validation_resource. cbn -[jsonpath_Parse].
  split.
  - destruct args as [|id [|path [|]]]; try done. destruct allowResourceRefs; [|done].
    cbn -[jsonpath_Parse]. case_bool_decide as Hid; [|done]. cbn. intros Hp. exists id, path.
    split_and!; [done..|]. by destruct (jsonpath_Parse other path).
  - intros (id & path & -> & -> & Hid & Hp). cbn. rewrite bool_decide_true by done. cbn.
    by destruct (jsonpath_Parse other path).
Qed.

(** The validation's rendering goes through exactly when every piece is allowed. *)
Lemma resolved_allowed ps c :
  is_ok (resolved_text provider (templateValidationData params) ps c).1 = true <->
  Forall (piece_allowed other params ids allowResourceRefs) ps.
Proof.
  revert c. induction ps as [|p ps IH]; intros c; [by split|]. rewrite Forall_cons.
  cbn [resolved_text]. unfold st_bind at 1.
  assert (Hrest : forall v c, is_ok ((rest <- resolved_text provider (templateValidationData params) ps ;;
      st_ret (v +:+ rest)) c).1 = true <-> Forall (piece_allowed other params ids allowResourceRefs) ps).
  { intros v c1. rewrite <- (IH c1). unfold st_bind, st_ret.
    by destruct (resolved_text _ _ _ _) as [[]]. }
  destruct p as [s|path|f args].
  - cbn. rewrite Hrest. cbn. tauto.
  - cbn [piece_allowed]. rewrite path_allowed_value.
    destruct (field_value _ path) as [v|]; cbn; [rewrite Hrest|]; split; [eauto|tauto|done|].
    intros [[] _]; done.
  - rewrite <- (resource_checked f args c).
    destruct (resource_call provider f args c) as [[v|err] c1]; cbn; [rewrite Hrest|]; naive_solver.
Qed.
End validated.

(** The documented expressions mean what the documentation says.  For any text
    written with them, and whatever text/template makes of other texts: rendering it
    gives the text with each reference replaced by the name or parameter it names and
    each [resource] call by the provider's answer, or fails when one of those does;
    and the webhook accepts it exactly when every parameter it names is declared,
    every workspace field exists, and every resource is declared, allowed in this
    place and addressed by a JSONPath that parses. *)
Theorem documented_expressions (other : TemplateEngine) (ps : list piece) :
  forallb (piece_ok integration_dialect) ps = true ->
  (forall provider data,
     same_outcome (ResolveTemplateExpression (go_engine other) provider data (print_pieces ps))
       (resolved_text provider data ps)) /\
  (forall params ids allowResourceRefs,
     is_ok (validateTemplateExpression (go_engine other) params ids allowResourceRefs (print_pieces ps))
       = true <->
     Forall (piece_allowed other params ids allowResourceRefs) ps).
Proof.
  intros Hok. split.
  - intros provider data. unfold ResolveTemplateExpression. rewrite go_engine_print by done.
    intros c. pose proof (render_resolved provider data ps Hok c) as Hr.
    unfold st_wrap. rewrite execute_print by done.
    by destruct (render_pieces _ _ _ _ _) as [[] ?], (resolved_text _ _ _ _) as [[] ?].
  - intros params ids allow. rewrite <- (resolved_allowed other params ids allow ps ∅).
    unfold validateTemplateExpression. rewrite go_engine_print by done. rewrite execute_print by done.
    pose proof (render_resolved (Some (validation_resource (go_engine other) ids allow))
      (templateValidationData params) ps Hok ∅) as Hr.
    case_bool_decide as He.
    + pose proof (Parse_print integration_dialect ps Hok) as Hp. rewrite He in Hp.
      injection Hp as Ht. rewrite <- (execute_print ps Hok), <- Ht in Hr. cbn in Hr.
      by destruct (resolved_text _ _ _ _) as [[] ?].
    + by destruct (render_pieces _ _ _ _ _) as [[] ?], (resolved_text _ _ _ _) as [[] ?].
Qed.

(** A template over the documented expressions, for the witnesses: [q] is the quoted
    string of the template language. *)
Definition demo_pieces : list piece :=
  [PText "ray://"; PCall "resource" ["head"; "{.spec}"]; PText ":"; PField ["Parameters"; "port"]].

Lemma documented_expressions_witness :
  Forall (piece_allowed demo_engine {[ "port" := "" ]} {[ "head" ]} true) demo_pieces /\
  is_ok (validateTemplateExpression (go_engine demo_engine) ∅ {[ "head" ]} true
           (print_pieces demo_pieces)) = false.
Proof.
  destruct (documented_expressions demo_engine demo_pieces) as [_ Hv]; [vm_compute; reflexivity|].
  split; [apply Hv; vm_compute; reflexivity|].
  destruct (is_ok _) eqn:E; [|reflexivity]. apply Hv in E.
  apply Forall_cons in E as [_ E]. apply Forall_cons in E as [_ E]. apply Forall_cons in E as [_ E].
  apply Forall_cons in E as [[Hp|(x & [= <-] & Hx)] _]; [|by rewrite dom_empty_L in Hx].
  by repeat (apply elem_of_cons in Hp as [[=]|Hp]); apply not_elem_of_nil in Hp.
Defined.

(** [C25] Admission covers resolution, on the texts themselves: an integration template
    the webhook admits, whose expressions are straight (text, fields, literals,
    [index], [not] and [resource] on literals, with any spacing, comments and trim
    markers, but no branches), resolves in every workspace that supplies the declared
    parameters, when the cluster holds the resources it refers to, with values at the
    paths it asks for: no field the controller renders was left unchecked. *)
Theorem admitted_text_resolves {W} (other : TemplateEngine) (client : Client W) (w : Workspace)
    (ref : IntegrationTemplateRef) (tmpl : WorkspaceIntegrationTemplate) (s : W) :
  IntegrationTemplateValidator.ValidateCreate (go_engine other) tmpl = Ok tt ->
  validateWorkspaceIntegrationParameters ref tmpl = Ok tt ->
  forallb straight_text (name_exprs tmpl ++ template_exprs tmpl) = true ->
  (forall r, r ∈ wits_ResourceRefs (wit_Spec tmpl) ->
     present (go_engine other) client tmpl (buildIntegrationTemplateData w ref) s r) ->
  exists values, captureIntegrationValues (go_engine other) client w ref tmpl s = (Ok values, s).
Proof.
  intros Hv Hp Hst Hpres. apply admitted_template_resolves; [apply _|done..| |done].
  intros e He. apply straight_static. rewrite forallb_forall in Hst. by apply Hst, list_elem_of_In.
Qed.

Definition demo_text_template : WorkspaceIntegrationTemplate :=
  mkWorkspaceIntegrationTemplate (zero_meta "ray" "ns") (mkWorkspaceIntegrationTemplateSpec "Ray"
    [mkIntegrationTemplateParameter "cluster"; mkIntegrationTemplateParameter "port"]
    [mkResourceRef "head" "ray.io/v1" "RayCluster"
       (mkResourceRefMetadata "{{ .Parameters.cluster }}{{/* in this namespace */}}")] None
    (Some (mkDeploymentModifications (Some (mkPodModifications [] [] [] []
      (Some (mkPrimaryContainerModifications [] [mkAccessEnvTemplate "RAY_ADDRESS"
        "ray://{{- resource `head` `{.spec}` -}} : {{ .Parameters.port }}"]))))))
    (Some (mkIntegrationStatusProbe (Some ["check"; "{{ .Workspace.Name }}"]) 0))).
Definition demo_text_ref : IntegrationTemplateRef :=
  mkIntegrationTemplateRef "ray" ""
    [mkIntegrationParameter "cluster" "cluster"; mkIntegrationParameter "port" "10001"].

Lemma admitted_text_resolves_witness :
  exists values, captureIntegrationValues (go_engine demo_engine) (mem_k8s false) demo_ws demo_text_ref
    demo_text_template demo_ray_mem = (Ok values, demo_ray_mem).
Proof.
  apply (admitted_text_resolves demo_engine (mem_k8s false) demo_ws demo_text_ref
    demo_text_template demo_ray_mem); [vm_compute; reflexivity..|].
  intros r Hr. apply list_elem_of_singleton in Hr as ->. intros name Hn. vm_compute in Hn.
  injection Hn as <-. split; [discriminate|]. eexists. split; [vm_compute; reflexivity|].
  intros e path _ _. eexists. vm_compute. reflexivity.
Defined.

(** The same texts, rendered. *)
Example demo_text_rendered :
  (x ← (ResolveTemplateExpression (go_engine demo_engine)
     (Some (frozenResourceValueProvider {[ "head|{.spec}" := "10.0.0.7" ]}))
     (buildIntegrationTemplateData demo_ws demo_text_ref)
     "ray://{{- resource `head` `{.spec}` -}} : {{ .Parameters.port }}" ∅).1; Ok x)
  = Ok "ray://10.0.0.7: 10001".
Proof. vm_compute. reflexivity. Qed.

(** The two limits the validation's comment names: an unknown key read by [index] is
    accepted and renders empty; a branch that empty parameters leave untaken is not
    looked at, so that a template can be admitted that no cluster resolves. *)
Lemma unknown_index_key_admitted other ids provider data c :
  let e := "{{ index .Parameters `typo` }}" in
  validateTemplateExpression (go_engine other) ∅ ids true e = Ok tt /\
  (itd_Parameters data !! "typo" = None ->
   ResolveTemplateExpression (go_engine other) provider data e c = (Ok "", c)).
Proof.
  intros e. assert (He : Parse integration_dialect e =
    Some (TAction [[OFunc "index"; OField ["Parameters"]; OString "typo"]] TDone))
    by (vm_compute; reflexivity).
  split; [vm_compute; reflexivity|]. intros Hm. unfold ResolveTemplateExpression, go_engine.
  cbn [template_Parse]. rewrite He. unfold st_wrap. rewrite execute_rendering.
  assert (Hx : evalFunction integration_dialect (integration_value data) "index"
    [OField ["Parameters"]; OString "typo"] None =
    Done (VString (default "" (itd_Parameters data !! "typo")))) by reflexivity.
  rewrite Hm in Hx. cbn -[evalFunction integration_value]. by rewrite Hx.
Qed.

Definition branching_template : WorkspaceIntegrationTemplate :=
  mkWorkspaceIntegrationTemplate (zero_meta "b" "ns") (mkWorkspaceIntegrationTemplateSpec ""
    [mkIntegrationTemplateParameter "x"] [] None None
    (Some (mkIntegrationStatusProbe
      (Some ["{{ if .Parameters.x }}{{ resource `ghost` `{.spec}` }}{{ end }}"]) 0))).
Definition branching_ref : IntegrationTemplateRef :=
  mkIntegrationTemplateRef "b" "" [mkIntegrationParameter "x" "1"].
Lemma branching_template_escapes {W} other (client : Client W) w s :
  IntegrationTemplateValidator.ValidateCreate (go_engine other) branching_template = Ok tt /\
  validateWorkspaceIntegrationParameters branching_ref branching_template = Ok tt /\
  exists err, captureIntegrationValues (go_engine other) client w branching_ref branching_template s
    = (Fail err, s).
Proof.
  split_and!; [vm_compute; reflexivity..|]. unfold captureIntegrationValues. eexists.
  cbn [pod_mods branching_template wit_Spec wits_StatusProbe wits_DeploymentModifications].
  vm_compute. reflexivity.
Qed.
