(* ===== verification/AccessTemplates.v ===== *)
(** * AccessTemplates: the URL templates of access strategies

    The template functions of access_resources_builder.go and
    deployment_builder_access.go (the fields [env_template] and [access_template] of
    [ObjectLibs]) and renderBearerAuthURL of
    internal/extensionapi/serverroute_connection.go, with text/template as GoTemplate.v
    models it, and net/url's Parse for plain https URLs.  A text outside the fragment
    goes to the given functions.  The theorems follow the path template of the
    bearer route from the text to the scope of the tokens. *)

From S2P Require Import Prelude Api Encoding StringUtil K8s Status Resources ObjectBuilders GoTemplate.
From S2P Require Import JwtKeys JwtSigner JwtManager AuthMiddleware ExtensionApi.

Local Open Scope go_scope.

(** ** The data *)

(** Of a Kubernetes object the fragment sees the promoted fields Name and Namespace. *)
Definition object_value (name namespace : string) : gval :=
  VStruct [("Name", VString name); ("Namespace", VString namespace)].
Definition workspace_value (w : Workspace) : gval := object_value (ws_Name w) (ws_Namespace w).
Definition strategy_value (a : WorkspaceAccessStrategy) : gval :=
  object_value (om_Name (was_ObjectMeta a)) (om_Namespace (was_ObjectMeta a)).

(** partialAccessResourceData and fullAccessResourceData. *)
Definition partialAccessResourceData (w : Workspace) (a : WorkspaceAccessStrategy)
    : list (string * gval) :=
  [("Workspace", workspace_value w); ("AccessStrategy", strategy_value a)].
Definition fullAccessResourceData (w : Workspace) (a : WorkspaceAccessStrategy) (s : Service)
    : list (string * gval) :=
  partialAccessResourceData w a ++
  [("Service", object_value (om_Name (svc_ObjectMeta s)) (om_Namespace (svc_ObjectMeta s)))].

(** A reference to the name or the namespace of one of the objects, or a literal. *)
Definition refers_to (objects : list string) (o : operand) : bool :=
  match o with
  | OField [object; field] =>
      bool_decide (object ∈ objects) && bool_decide (field ∈ ["Name"; "Namespace"])
  | OString _ | OBool _ => true
  | _ => false
  end.
Definition env_dialect : Dialect := mkDialect [] false (refers_to ["Workspace"; "AccessStrategy"]).
Definition access_dialect : Dialect :=
  mkDialect [("b32encode", 1%nat)] false (refers_to ["Workspace"; "AccessStrategy"; "Service"]).

(** The FuncMap of one function. *)
Definition b32_call (b32encode : string -> string) (f : string) (args : list string) : ST unit string :=
  match args with [x] => st_ret (b32encode x) | _ => st_fail (wrong_number f) end.
Definition execute_text (b32encode : string -> string) (d : Dialect) (t : tmpl) (data : gval)
    : result string := (run (b32_call b32encode) (Execute d data t) tt).1.

Definition go_libs (other : ObjectLibs) : ObjectLibs := {|
  env_template := fun text =>
    match Parse env_dialect text with
    | Some t => Ok (fun w a => execute_text id env_dialect t (VStruct (partialAccessResourceData w a)))
    | None => env_template other text
    end;
  access_template := fun b32encode text =>
    match Parse access_dialect text with
    | Some t => Ok (fun w a s =>
        execute_text b32encode access_dialect t (VStruct (fullAccessResourceData w a s)))
    | None => access_template other b32encode text
    end;
  yaml_Unmarshal := yaml_Unmarshal other;
  set_controller := set_controller other;
|}.

(** ** renderBearerAuthURL *)

(** Its data is a map with the keys Workspace and AccessStrategy.  In the fragment:
    the name and namespace of the workspace, and keys the map does not have. *)
Definition bearer_refers (o : operand) : bool :=
  match o with
  | OField [key] => negb (bool_decide (key ∈ ["Workspace"; "AccessStrategy"]))
  | o => refers_to ["Workspace"] o
  end.
Definition bearer_dialect : Dialect := mkDialect [("b32encode", 1%nat)] false bearer_refers.
Definition bearer_value (w : Workspace) : gval := VAny [("Workspace", workspace_value w)].

Notation UrlTemplates := (string -> result (Workspace -> option WorkspaceAccessStrategy -> result string)).

Definition bearer_template (other : UrlTemplates) : UrlTemplates := fun text =>
  match Parse bearer_dialect text with
  | Some t => Ok (fun w _ => execute_text EncodeNamespaceB32 bearer_dialect t (bearer_value w))
  | None => other text
  end.

(** renderBearerAuthURL renders the template with the workspace's variables. *)
Definition renderBearerAuthURL (other : UrlTemplates) (templateStr : string) (ws : Workspace)
    (accessStrategy : option WorkspaceAccessStrategy) : result string :=
  tmpl ← wrap_err "failed to parse template: %w" [] (bearer_template other templateStr);
  wrap_err "failed to execute template: %w" [] (tmpl ws accessStrategy).

(** ** What a path template renders to *)

(** The text with the fields replaced: an object is named by its name and namespace. *)
Fixpoint filled (objects : string -> option (string * string)) (ps : list piece) : option string :=
  match ps with
  | [] => Some ""
  | PText s :: ps => (fun rest => s +:+ rest) <$> filled objects ps
  | PField [object; field] :: ps =>
      '(name, namespace) ← objects object;
      rest ← filled objects ps;
      Some ((if bool_decide (field = "Name") then name else namespace) +:+ rest)
  | _ => None
  end.

Lemma evalField_object d name namespace field :
  field ∈ ["Name"; "Namespace"] ->
  evalField d (object_value name namespace) field false =
    Done (VString (if bool_decide (field = "Name") then name else namespace)).
Proof. by intros [->|[->|[]%not_elem_of_nil]%elem_of_cons]%elem_of_cons. Qed.

Lemma render_filled d dot objects ps text call (c : unit) :
  (forall object name namespace, objects object = Some (name, namespace) ->
     evalField d dot object false = Done (object_value name namespace)) ->
  (forall object field, PField [object; field] ∈ ps -> field ∈ ["Name"; "Namespace"]) ->
  filled objects ps = Some text ->
  render_pieces call d dot ps c = (Ok text, c).
Proof.
  intros Hobj Hf. revert text. induction ps as [|p ps IH]; intros text; [by intros [= <-]|].
  assert (Hf' : forall object field, PField [object; field] ∈ ps -> field ∈ ["Name"; "Namespace"])
    by (intros; eapply Hf; by apply list_elem_of_further).
  destruct p as [s|[|object [|field []]]|]; try done; cbn [filled render_pieces].
  - intros (rest & Hr & ->)%fmap_Some. unfold st_bind. by rewrite (IH Hf' _ Hr).
  - intros ([name namespace] & Ho & (rest & Hr & [= <-])%bind_Some)%bind_Some.
    specialize (Hf object field (list_elem_of_here _ _)). cbn [evalFieldChain].
    rewrite (Hobj _ _ _ Ho). cbn [ebind]. rewrite evalField_object by done.
    unfold st_bind. cbn. by rewrite (IH Hf' _ Hr).
Qed.

Lemma fields_named d ps :
  (forall object field, d_refers d (OField [object; field]) = true -> field ∈ ["Name"; "Namespace"]) ->
  forallb (piece_ok d) ps = true ->
  forall object field, PField [object; field] ∈ ps -> field ∈ ["Name"; "Namespace"].
Proof.
  intros Hd Hok object field Hin. rewrite forallb_forall in Hok.
  apply list_elem_of_In, Hok in Hin. cbn [piece_ok] in Hin. apply andb_true_iff in Hin as [_ Hin].
  by eapply Hd.
Qed.

Lemma refers_to_named objects object field :
  refers_to objects (OField [object; field]) = true -> field ∈ ["Name"; "Namespace"].
Proof. cbn. by intros [_ H%bool_decide_eq_true]%andb_true_iff. Qed.

(** The execution of a printed template whose fields are filled. *)
Lemma execute_text_filled b32encode d dot objects ps text :
  forallb (piece_ok d) ps = true ->
  (forall object field, d_refers d (OField [object; field]) = true -> field ∈ ["Name"; "Namespace"]) ->
  (forall object name namespace, objects object = Some (name, namespace) ->
     evalField d dot object false = Done (object_value name namespace)) ->
  filled objects ps = Some text ->
  execute_text b32encode d (print_tree [] ps) dot = Ok text.
Proof.
  intros Hok Hd Hobj Ht. unfold execute_text. rewrite run_print_tree by done. unfold st_bind.
  rewrite (render_filled d dot objects ps text (b32_call b32encode) tt); [done|done| |done].
  by apply (fields_named d).
Qed.

Definition access_objects (w : Workspace) (a : WorkspaceAccessStrategy) (s : Service) (object : string)
    : option (string * string) :=
  if bool_decide (object = "Workspace") then Some (ws_Name w, ws_Namespace w)
  else if bool_decide (object = "AccessStrategy")
  then Some (om_Name (was_ObjectMeta a), om_Namespace (was_ObjectMeta a))
  else if bool_decide (object = "Service")
  then Some (om_Name (svc_ObjectMeta s), om_Namespace (svc_ObjectMeta s))
  else None.

(** A URL template over the names of the objects resolves to the text with the names
    filled in. *)
Theorem ResolveTemplateURL_filled (other : ObjectLibs) (ps : list piece) (w : Workspace)
    (a : WorkspaceAccessStrategy) (s : Service) (text : string) :
  forallb (piece_ok access_dialect) ps = true ->
  filled (access_objects w a s) ps = Some text ->
  AccessResourcesBuilder.ResolveTemplateURL (go_libs other) (print_pieces ps) w a s = Ok text.
Proof.
  intros Hok Ht. unfold AccessResourcesBuilder.ResolveTemplateURL. cbn [access_template go_libs].
  rewrite Parse_print by done. cbn [wrap_err mbind result_bind].
  rewrite (execute_text_filled _ _ _ (access_objects w a s) ps text Hok);
    [done|intros ? ?; apply refers_to_named| |done].
  intros object name namespace. unfold access_objects.
  case_bool_decide as H1; [by intros [= <- <-]; subst|].
  case_bool_decide as H2; [by intros [= <- <-]; subst|].
  case_bool_decide as H3; [by intros [= <- <-]; subst|done].
Qed.

Lemma renderBearerAuthURL_filled other ps w accessStrategy text :
  forallb (piece_ok bearer_dialect) ps = true ->
  filled (fun object => if bool_decide (object = "Workspace") then Some (ws_Name w, ws_Namespace w)
                        else None) ps = Some text ->
  renderBearerAuthURL other (print_pieces ps) w accessStrategy = Ok text.
Proof.
  intros Hok Ht. unfold renderBearerAuthURL, bearer_template.
  rewrite Parse_print by done. cbn [wrap_err mbind result_bind].
  rewrite (execute_text_filled _ _ _ (fun object => if bool_decide (object = "Workspace")
    then Some (ws_Name w, ws_Namespace w) else None) ps text Hok); [done| | |done].
  - intros object field. apply refers_to_named.
  - intros object name namespace. case_bool_decide as Ho; [|done]. intros [= <- <-]. by subst.
Qed.

(** ** net/url.Parse on plain URLs *)

Definition isLower (c : ascii) : bool := between 97 122 c.
Definition host_char (c : ascii) : bool :=
  between 65 90 c || isLower c || isDigit c || Ascii.eqb c "." || Ascii.eqb c "-".
Definition path_char (c : ascii) : bool :=
  host_char c || Ascii.eqb c "_" || Ascii.eqb c "~" || Ascii.eqb c "/".
(** A scheme, [://], a host without port and a path, none with an escape: Parse
    takes the parts as they stand.  The given function answers for other texts. *)
Definition go_url_Parse (other : string -> result ParsedURL) (u : string) : result ParsedURL :=
  let '(scheme, r) := span isLower (text u) in
  let '(host, path) := span host_char (drop 3 r) in
  if negb (bool_decide (scheme = [])) && starts (text "://") r && negb (bool_decide (host = [])) &&
     starts (text "/") path && forallb path_char path
  then Ok (mkParsedURL (String.string_of_list_ascii scheme) (String.string_of_list_ascii host)
             (String.string_of_list_ascii path) "")
  else other u.

Definition plain_host (host : string) : bool :=
  negb (bool_decide (host = "")) && forallb host_char (text host).
Lemma go_url_Parse_plain other host path :
  plain_host host = true -> forallb path_char (text path) = true ->
  go_url_Parse other ("https://" +:+ host +:+ "/" +:+ path) =
    Ok (mkParsedURL "https" host ("/" +:+ path) "").
Proof.
  intros [Hne%negb_true_iff%bool_decide_eq_false Hh]%andb_true_iff Hp. unfold go_url_Parse.
  rewrite !text_app.
  change (text "https://") with (text "https" ++ text "://"). rewrite <- app_assoc.
  rewrite (span_app isLower (text "https")) by done. change (drop 3 (text "://" ++ text host ++ text "/" ++ text path)) with
    (text host ++ text "/" ++ text path).
  rewrite (span_app host_char (text host)) by done.
  rewrite (bool_decide_false (text host = [])); [|by destruct host].
  cbn. rewrite Hp. unfold text. by rewrite !String.string_of_list_ascii_of_string.
Qed.

(** ** The path template of the bearer route *)

(** [https://<host>/workspaces/{{ .Workspace.Namespace }}/{{ .Workspace.Name }}/bearer-auth],
    the template of the access strategies under test/e2e/static/extension-api: its path
    ends in the route /bearer-auth of the middleware, the suffix
    generateBearerTokenURL cuts off.  The page access-url.md of the documentation shows
    another one, ending in [/auth?token={{ .Token }}]; what becomes of it is lemma
    [documented_token_variable_unfilled] below. *)
Definition path_template (host : string) : list piece :=
  [PText ("https://" +:+ host +:+ "/workspaces/"); PField ["Workspace"; "Namespace"]; PText "/";
   PField ["Workspace"; "Name"]; PText "/bearer-auth"].
Definition workspace_path (w : Workspace) : string :=
  "/workspaces/" +:+ ws_Namespace w +:+ "/" +:+ ws_Name w.

(** The characters of Kubernetes names. *)
Definition k8s_name (s : string) : bool := forallb host_char (text s).

Lemma no_open_plain l : forallb (fun c => negb (Ascii.eqb "{" c)) l = true -> no_open l = true.
Proof.
  induction l as [|c l IH]; [done|]. cbn [forallb no_open]. intros [Hc Hl]%andb_true_iff.
  apply negb_true_iff in Hc. unfold leftDelim. cbn [starts]. by rewrite Hc, IH.
Qed.

Lemma host_char_no_brace c : host_char c = true -> negb (Ascii.eqb "{" c) = true.
Proof. by destruct c as [[] [] [] [] [] [] [] []]. Qed.
Lemma host_char_path c : host_char c = true -> path_char c = true.
Proof. unfold path_char. by intros ->. Qed.
Lemma k8s_name_path s : k8s_name s = true -> forallb path_char (text s) = true.
Proof. unfold k8s_name. rewrite !forallb_forall. intros H c Hc. by apply host_char_path, H. Qed.
Lemma host_char_no_slash c : host_char c = true -> c <> "/"%char.
Proof. by intros H ->. Qed.

Lemma path_template_ok host :
  plain_host host = true -> forallb (piece_ok bearer_dialect) (path_template host) = true.
Proof.
  intros [_ Hh]%andb_true_iff. cbn [path_template forallb]. rewrite andb_true_iff. split; [|done].
  apply no_open_plain. rewrite !text_app, !forallb_app, !andb_true_iff. split; [done|]. split; [|done].
  rewrite forallb_forall in Hh |- *. intros c Hc. by apply host_char_no_brace, Hh.
Qed.

Lemma render_path_template other host w accessStrategy :
  plain_host host = true ->
  renderBearerAuthURL other (print_pieces (path_template host)) w accessStrategy =
    Ok ("https://" +:+ host +:+ workspace_path w +:+ "/bearer-auth").
Proof.
  intros Hh. apply renderBearerAuthURL_filled; [by apply path_template_ok|].
  unfold workspace_path. cbn [filled path_template].
  rewrite (bool_decide_true ("Workspace" = "Workspace")) by done. cbn.
  by rewrite !string_app_assoc.
Qed.

Lemma rev_string_app a b : rev_string (a +:+ b) = rev_string b +:+ rev_string a.
Proof.
  unfold rev_string. rewrite text_app, rev_app_distr.
  induction (rev (text b)) as [|c l IH]; [done|]. cbn. by rewrite IH.
Qed.
Lemma rev_string_involutive a : rev_string (rev_string a) = a.
Proof.
  unfold rev_string, text. rewrite String.list_ascii_of_string_of_list_ascii, rev_involutive.
  apply String.string_of_list_ascii_of_string.
Qed.

Lemma claims_path_bearer path : path <> "" -> claims_path (path +:+ "/bearer-auth") = path.
Proof.
  intros Hp. unfold claims_path, TrimSuffix, HasSuffix.
  rewrite rev_string_app, HasPrefix_app, TrimPrefix_app, rev_string_involutive.
  by rewrite bool_decide_false.
Qed.

(** The part before the first slash decides. *)
Lemma slash_split a b a' b' :
  forallb host_char (text a) = true -> forallb host_char (text a') = true ->
  a +:+ "/" +:+ b = a' +:+ "/" +:+ b' -> a = a' /\ b = b'.
Proof.
  revert a'. induction a as [|c a IH]; intros [|c' a'] Ha Ha'; cbn in Ha, Ha';
    rewrite ?andb_true_iff in Ha; rewrite ?andb_true_iff in Ha'.
  - intros E. injection E as E. split; [done|exact E].
  - destruct Ha' as [Hc _]. intros [= <- _]. by apply host_char_no_slash in Hc.
  - destruct Ha as [Hc _]. intros [= -> _]. by apply host_char_no_slash in Hc.
  - destruct Ha as [_ Ha], Ha' as [_ Ha']. rewrite !append_cons. intros [= -> E].
    by destruct (IH a' Ha Ha' E) as [-> ->].
Qed.

Lemma workspace_path_inj w w' :
  k8s_name (ws_Namespace w) = true -> k8s_name (ws_Namespace w') = true ->
  workspace_path w = workspace_path w' -> ws_Namespace w = ws_Namespace w' /\ ws_Name w = ws_Name w'.
Proof.
  intros H1 H2 E. apply (slash_split _ _ _ _ H1 H2). unfold workspace_path in E.
  apply (f_equal (fun s => TrimPrefix s "/workspaces/")) in E. by rewrite !TrimPrefix_app in E.
Qed.

(** The scope of a web connection under the path template. *)
Lemma path_template_scope `{GoRuntime} {L : JwtLib} {W} (s : ExtensionServer W) other other_url host a w
    path domain :
  plain_host host = true ->
  xs_render s = renderBearerAuthURL other -> xs_url_Parse s = go_url_Parse other_url ->
  asps_BearerAuthURLTemplate (was_Spec a) = print_pieces (path_template host) ->
  k8s_name (ws_Namespace w) = true -> k8s_name (ws_Name w) = true ->
  token_scope s a w ConnectionTypeWebUI path domain -> path = workspace_path w /\ domain = host.
Proof.
  intros Hh Hr Hu Ht Hns Hn (rendered & u & Hp & -> & [(_ & _ & Hren & ->)|(Hne & _)]); [|done].
  rewrite Hr, Ht, render_path_template in Hren by done. injection Hren as <-.
  rewrite Hu in Hp. unfold workspace_path in Hp. rewrite !string_app_assoc in Hp.
  change ("/workspaces/" +:+ ws_Namespace w +:+ "/" +:+ ws_Name w +:+ "/bearer-auth")
    with ("/" +:+ ("workspaces/" +:+ ws_Namespace w +:+ "/" +:+ ws_Name w +:+ "/bearer-auth")) in Hp.
  rewrite go_url_Parse_plain in Hp; [|done|].
  - injection Hp as <-. cbn [u_Path u_Host]. split; [|done].
    transitivity (claims_path (workspace_path w +:+ "/bearer-auth")).
    + f_equal. unfold workspace_path. by rewrite !string_app_assoc.
    + by apply claims_path_bearer.
  - by rewrite !text_app, !forallb_app, (k8s_name_path (ws_Namespace w)), (k8s_name_path (ws_Name w)).
Qed.

(** [C14] Connection tokens stay with their workspace.  A web connection is only given
    to a caller who may connect to the workspace asked for.  When the strategy's
    template is [https://<host>/workspaces/{{ .Workspace.Namespace }}/{{ .Workspace.Name }}/bearer-auth]
    (the one of the end-to-end strategies, not the one access-url.md shows), rendered by
    text/template and parsed by net/url as modelled, and the two names are made of
    letters, digits, dots and dashes, then the token, signed by the shared signer,
    names the caller, the host of the template and the path
    [/workspaces/<namespace>/<name>] of that workspace, which no other workspace has. *)
Theorem connection_token_of_workspace `{GoRuntime} {L : JwtLib} {LW : JwtLaws L} {W : Type}
    (s : ExtensionServer W) (shared : StandardSigner) (clk : Clock)
    (r : ExtRequest WorkspaceConnectionRequestSpec) (url : string) (tok : Tok) (σ σ' : W)
    (other : UrlTemplates) (other_url : string -> result ParsedURL) (host : string) :
  plain_host host = true ->
  xs_render s = renderBearerAuthURL other -> xs_url_Parse s = go_url_Parse other_url ->
  xs_signerFactory s = StandardSignerFactory_CreateSigner shared ->
  HandleConnectionCreate s clk r σ = (Ok (AnswerBody (ConnectionTypeWebUI, TokenURL url tok)), σ') ->
  exists ns spec w a σ1 σ2,
    GetNamespaceFromPath (xr_Path r) = Ok ns /\ xr_Body r = BodyParsed spec /\
    ec_GetWorkspace (xs_client s) (wcr_WorkspaceName spec) ns σ = (Ok w, σ1) /\
    may_connect w (GetUser r) /\ getAccessStrategy s w σ1 = (Ok (Some a), σ2) /\
    (asps_BearerAuthURLTemplate (was_Spec a) = print_pieces (path_template host) ->
     k8s_name (ws_Namespace w) = true -> k8s_name (ws_Name w) = true ->
     (exists header key c, Signed tok header c key /\ User c = GetUser r /\
        Path c = workspace_path w /\ Domain c = host /\ TokenType c = TokenTypeBootstrap) /\
     (forall w', k8s_name (ws_Namespace w') = true -> workspace_path w' = workspace_path w ->
        ws_Namespace w' = ws_Namespace w /\ ws_Name w' = ws_Name w)).
Proof.
  intros Hh Hr Hu Hf Hc.
  destruct (HandleConnectionCreate_token _ _ _ _ _ _ _ _ Hc)
    as (ns & spec & w & σ1 & a & σ2 & Hns & Hb & _ & Hg & Hm & _ & Ha & _ & sg & path & dom & Hs & Hsc & Ht).
  exists ns, spec, w, a, σ1, σ2. split_and!; try done. intros Htmpl Hwns Hwn.
  destruct (path_template_scope s other other_url host a w path dom Hh Hr Hu Htmpl Hwns Hwn Hsc)
    as [-> ->].
  split; [|intros w' Hns' E; by apply workspace_path_inj].
  rewrite Hf in Hs. unfold StandardSignerFactory_CreateSigner in Hs.
  destruct (_ || _); [|done]. injection Hs as <-.
  destruct (GenerateToken_valid _ _ _ _ _ _ _ _ _ _ _ Ht) as (kid & key & c & _ & _ & Hsig & Hcl & _).
  destruct Hcl as (_ & _ & _ & _ & _ & _ & Cu & _ & _ & _ & Cp & Cd & Ct & _).
  by exists (mkHeader algHS384 (Some kid)), (Some key), c.
Qed.

Definition demo_path_strategy : WorkspaceAccessStrategy :=
  mkWorkspaceAccessStrategy (zero_meta "as" "ns")
    (mkWorkspaceAccessStrategySpec "as" [] "" "" (print_pieces (path_template "example.com")) "" "" ∅ ""
       ∅ ∅ None None)
    (mkWorkspaceAccessStrategyStatus []).
Definition no_url_templates : UrlTemplates := fun _ => Fail (Errorf "unexpected template" []).
Definition no_url_parse : string -> result ParsedURL := fun _ => Fail (Errorf "unexpected URL" []).
Definition demo_path_server : ExtensionServer (L := toy_jwt) unit :=
  mkExtensionServer toy_jwt unit
    (mkExtClient unit (fun _ _ => st_ret demo_connectable) (fun _ _ => st_ret demo_path_strategy)
       (fun _ => st_ret []) (fun _ => st_ret (true, "")))
    (@StandardSignerFactory_CreateSigner canonical_runtime toy_jwt demo_signer)
    (@ValidateToken toy_jwt demo_signer) ∅ (fun ref => (ref, ""))
    (renderBearerAuthURL no_url_templates) (go_url_Parse no_url_parse) (fun u => u_Path u).
Definition demo_path_run :=
  @HandleConnectionCreate canonical_runtime toy_jwt unit demo_path_server
    (demo_clock (9 * Second)) (demo_connect "alice") tt.

Lemma connection_token_of_workspace_witness :
  exists url tok, demo_path_run = (Ok (AnswerBody (ConnectionTypeWebUI, TokenURL url tok)), tt) /\
  exists header key c, @Signed toy_jwt tok header c key /\ User c = "alice" /\
    Path c = "/workspaces/ns/w" /\ Domain c = "example.com".
Proof.
  assert (bool_decide (is_Some (demo_url_token demo_path_run)) = true) as Hsome by (vm_compute; reflexivity).
  destruct demo_path_run as [[[|[ty [url tok|]]]|] []] eqn:Hrun; try discriminate Hsome.
  assert (ty = ConnectionTypeWebUI) as ->.
  { apply (f_equal (fun x => match x with (Ok (AnswerBody (t, _)), _) => t | _ => "" end)) in Hrun.
    vm_compute in Hrun. symmetry. exact Hrun. }
  exists url, tok. split; [reflexivity|].
  destruct (@connection_token_of_workspace canonical_runtime toy_jwt toy_laws unit demo_path_server
    demo_signer (demo_clock (9 * Second)) (demo_connect "alice") url tok tt tt no_url_templates
    no_url_parse "example.com") as (ns & spec & w & a & σ1 & σ2 & _ & _ & Hg & _ & Ha & Hall);
    [vm_compute; reflexivity|reflexivity..|exact Hrun|].
  injection Hg as <- <-. vm_compute in Ha. injection Ha as <- <-.
  destruct Hall as [(header & key & c & Hs & Hu & Hp & Hd & _) _]; [vm_compute; reflexivity..|].
  exists header, key, c. split; [exact Hs|]. split; [exact Hu|]. split; [exact Hp|exact Hd].
Defined.

(** The documentation's bearer template ends in [/auth?token={{ .Token }}] and says the
    extension API fills the variable in.  The data has no such key: the URL reads
    [<no value>] there, and the token is appended after a second question mark. *)
Lemma documented_token_variable_unfilled other w accessStrategy :
  renderBearerAuthURL other
    "https://jupyter.example.com/workspaces/{{ .Workspace.Namespace }}/{{ .Workspace.Name }}/auth?token={{ .Token }}"
    w accessStrategy =
  Ok ("https://jupyter.example.com/workspaces/" +:+ ws_Namespace w +:+ "/" +:+ ws_Name w +:+
      "/auth?token=<no value>").
Proof.
  change ("https://jupyter.example.com/workspaces/{{ .Workspace.Namespace }}/{{ .Workspace.Name }}/auth?token={{ .Token }}")
    with (print_pieces [PText "https://jupyter.example.com/workspaces/"; PField ["Workspace"; "Namespace"];
      PText "/"; PField ["Workspace"; "Name"]; PText "/auth?token="; PField ["Token"]]).
  unfold renderBearerAuthURL, bearer_template. rewrite Parse_print by (vm_compute; reflexivity).
  cbn [wrap_err mbind result_bind]. unfold execute_text. rewrite run_print_tree by (vm_compute; reflexivity).
  reflexivity.
Qed.
