(* ===== verification/ExtensionPatterns.v ===== *)
(** * ExtensionPatterns: the regular expressions of the extension API

    GetNamespaceFromPath (internal/extensionapi/utils.go) and isRemoteConnectionType
    (serverroute_connection.go) are modelled in ExtensionApi.v by scans of the text.
    Here the scans are shown to compute what the expressions of the source match, with
    package regexp as GoRegex.v models it. *)

From S2P Require Import Prelude StringUtil GoRegex ExtensionApi Routing.

(** ** The namespace of an extension API path *)

(** The expression of GetNamespaceFromPath, of internal/extensionapi/utils.go. *)
Definition namespace_expression : string := "/namespaces/([^/]+)/".
Definition namespace_regex : regex :=
  lits "/namespaces/" (RSeq (RCap 1 segment) (RSeq (lit "/") REmpty)).
Lemma parse_namespace_expression : parse_regex namespace_expression = Some (namespace_regex, 1%nat).
Proof. reflexivity. Qed.

Lemma strip_prefix p s :
  strip (text p) (text s) =
    if HasPrefix s p then Some (text (drop_chars (String.length p) s)) else None.
Proof.
  revert s. induction p as [|c p IH]; intros s; [by destruct s|]. destruct s as [|d s]; [done|].
  unfold HasPrefix. rewrite prefix_cons. cbn [text String.list_ascii_of_string strip String.length drop_chars].
  destruct (ascii_dec c d) as [->|Hn]; [rewrite Ascii.eqb_refl; apply IH|].
  by rewrite (proj2 (Ascii.eqb_neq _ _)).
Qed.

Lemma upto_slash_span s :
  upto_slash s = let '(seg, rest) := span not_slash (text s) in
    match rest with _ :: _ => Some (String.string_of_list_ascii seg) | [] => None end.
Proof.
  induction s as [|c s IH]; [done|]. cbn [upto_slash text String.list_ascii_of_string span].
  unfold not_char at 1. rewrite orb_false_r, Ascii.eqb_sym. destruct (Ascii.eqb "/" c); [done|].
  cbn [negb]. rewrite IH. unfold text. destruct (span not_slash _) as [seg [|]]; done.
Qed.

Lemma namespace_here_matches total s :
  match_here total namespace_regex (text s) =
  match namespace_here s with
  | Some ns => Some (<[0%nat := "/namespaces/" +:+ ns +:+ "/"]> {[1%nat := ns]})
  | None => None
  end.
Proof.
  unfold match_here, namespace_here. cbn [matches]. unfold namespace_regex.
  rewrite matches_lits, strip_prefix. destruct (HasPrefix s "/namespaces/") eqn:Hp; [|done].
  apply HasPrefix_spec in Hp as [t ->].
  change (drop_chars 12 ("/namespaces/" +:+ t)) with t.
  change (drop_chars (String.length "/namespaces/") ("/namespaces/" +:+ t)) with t.
  unfold segment. rewrite (segment_cap_sep _ "/"), upto_slash_span.
  pose proof (span_spec not_slash (text t)) as Hs. destruct (span not_slash (text t)) as [seg [|c rest]]; [done|].
  destruct Hs as (Ht & _ & ->%not_char_false).
  destruct seg as [|d seg]; [done|]. rewrite bool_decide_false by done. cbn [matches].
  set (ns := String.string_of_list_ascii (d :: seg)).
  change (String.string_of_list_ascii (d :: seg)) with ns. cbv iota beta.
  assert (Htaken : taken (text ("/namespaces/" +:+ t)) rest = "/namespaces/" +:+ ns +:+ "/").
  { rewrite text_app, Ht. change (?a ++ ?b ++ "/"%char :: rest) with (a ++ b ++ ["/"%char] ++ rest).
    rewrite !app_assoc, taken_app. rewrite <- (string_of_text ("/namespaces/" +:+ ns +:+ "/")).
    unfold ns. by rewrite !text_app, text_of_list, <- !app_assoc. }
  by rewrite Htaken.
Qed.

Lemma namespace_search total s :
  search total namespace_regex (text s) =
  match find_namespace s with
  | Some ns => Some (<[0%nat := "/namespaces/" +:+ ns +:+ "/"]> {[1%nat := ns]})
  | None => None
  end.
Proof.
  induction s as [|c s IH]; cbn [find_namespace text String.list_ascii_of_string search].
  - change (@nil ascii) with (text ""). rewrite namespace_here_matches. reflexivity.
  - change (c :: String.list_ascii_of_string s) with (text (String c s)).
    rewrite namespace_here_matches. destruct (namespace_here (String c s)); [done|]. apply IH.
Qed.

(** GetNamespaceFromPath, modelled as a scan, is what its expression computes: the
    first [/namespaces/<namespace>/] of the path with a non-empty namespace. *)
Lemma GetNamespaceFromPath_expression (other : GoRegexp) (path : string) :
  is_ascii path = true ->
  GetNamespaceFromPath path =
  match @re_FindStringSubmatch (go_regexp other) namespace_expression path with
  | _ :: namespace :: _ => Ok namespace
  | _ => Fail (Errorf "cannot find the namespace in URL" [])
  end.
Proof.
  intros Ha. unfold GetNamespaceFromPath, re_FindStringSubmatch, go_regexp.
  rewrite parse_namespace_expression, Ha. unfold submatches. rewrite namespace_search.
  destruct (find_namespace path); [|done]. by cbn; simplify_map_eq.
Qed.

(** ** The remote connection types *)

(** remoteConnectionTypeRegex of internal/extensionapi/serverroute_connection.go. *)
Definition remote_expression : string := "^[a-zA-Z0-9]+(?:-[a-zA-Z0-9]+)*-remote$".
Definition letters_digits (x : ascii) : bool :=
  ((97 <=? nat_of_ascii x) && (nat_of_ascii x <=? 122))%nat ||
  (((65 <=? nat_of_ascii x) && (nat_of_ascii x <=? 90))%nat ||
   (((48 <=? nat_of_ascii x) && (nat_of_ascii x <=? 57))%nat || false)).
Definition dash_segment : regex := RSeq (lit "-") (RSeq (plus (RClass letters_digits)) REmpty).
Definition remote_regex : regex :=
  RSeq RBegin (RSeq (plus (RClass letters_digits)) (RSeq (RStar dash_segment)
    (lits "-remote" (RSeq REnd REmpty)))).
Lemma parse_remote_expression : parse_regex remote_expression = Some (remote_regex, 0%nat).
Proof. reflexivity. Qed.

Lemma letters_digits_alphanumeric c : letters_digits c = alphanumeric c.
Proof. by destruct c as [[] [] [] [] [] [] [] []]. Qed.
Lemma alphanumeric_no_dash c : alphanumeric c = true -> Ascii.eqb c "-" = false.
Proof. by destruct c as [[] [] [] [] [] [] [] []]. Qed.

Lemma leads_star_class total has l l' :
  rtc (leads total (RClass has)) l l' <-> exists w, l = w ++ l' /\ forallb has w = true.
Proof.
  split.
  - induction 1 as [l|l m l' (c & -> & Hc) _ (w & -> & Hw)]; [by exists []|].
    exists (c :: w). cbn. by rewrite Hc.
  - intros (w & -> & Hw). induction w as [|c w IH]; [apply rtc_refl|].
    cbn in Hw. apply andb_true_iff in Hw as [Hc Hw]. eapply rtc_l; [|by apply IH]. by exists c.
Qed.
Lemma leads_plus_class total has l l' :
  leads total (plus (RClass has)) l l' <-> exists w, l = w ++ l' /\ w <> [] /\ forallb has w = true.
Proof.
  cbn. setoid_rewrite (leads_star_class total has). split.
  - intros (m & (c & -> & Hc) & w & -> & Hw). exists (c :: w). cbn. by rewrite Hc.
  - intros ([|c w] & -> & Hne & Hw); [done|]. cbn in Hw. apply andb_true_iff in Hw as [Hc Hw].
    exists (w ++ l'). split; [by exists c|by exists w].
Qed.

(** A segment of letters and digits. *)
Definition good_segment (seg : list ascii) : bool :=
  negb (bool_decide (seg = [])) && forallb alphanumeric seg.
Definition dashed (segs : list (list ascii)) : list ascii := concat (cons "-"%char <$> segs).

Lemma good_segment_spec seg :
  good_segment seg = true <-> seg <> [] /\ forallb letters_digits seg = true.
Proof.
  unfold good_segment. rewrite andb_true_iff, negb_true_iff, bool_decide_eq_false.
  assert (forallb letters_digits seg = forallb alphanumeric seg) as ->; [|done].
  induction seg as [|c seg IH]; [done|]. cbn. by rewrite letters_digits_alphanumeric, IH.
Qed.

Lemma leads_segment total l l' :
  leads total (plus (RClass letters_digits)) l l' <-> exists seg, l = seg ++ l' /\ good_segment seg = true.
Proof. rewrite leads_plus_class. by setoid_rewrite good_segment_spec. Qed.

Lemma leads_dash_segment total l l' :
  leads total dash_segment l l' <-> exists seg, l = "-"%char :: seg ++ l' /\ good_segment seg = true.
Proof.
  change (leads total dash_segment l l') with
    (exists m, (exists c, l = c :: m /\ Ascii.eqb "-" c = true) /\
       exists m', leads total (plus (RClass letters_digits)) m m' /\ l' = m').
  setoid_rewrite leads_segment. split.
  - intros (m & (c & -> & <-%Ascii.eqb_eq) & m' & (seg & -> & Hs) & ->). by exists seg.
  - intros (seg & -> & Hs). exists (seg ++ l'). split; [by exists "-"%char|]. exists l'. by eauto.
Qed.

Lemma leads_dashed total l l' :
  rtc (leads total dash_segment) l l' <->
  exists segs, l = dashed segs ++ l' /\ forallb good_segment segs = true.
Proof.
  split.
  - induction 1 as [l|l m l' (seg & -> & Hs)%leads_dash_segment _ (segs & -> & Hss)]; [by exists []|].
    exists (seg :: segs). unfold dashed. cbn. rewrite Hs, <- app_assoc. done.
  - intros (segs & -> & Hs). induction segs as [|seg segs IH]; [apply rtc_refl|].
    cbn in Hs. apply andb_true_iff in Hs as [Hg Hs]. eapply rtc_l; [|by apply IH].
    apply leads_dash_segment. exists seg. split; [|done]. unfold dashed. cbn. by rewrite <- app_assoc.
Qed.

Lemma leads_lits total s r l l' :
  leads total (lits s r) l l' <-> exists m, l = text s ++ m /\ leads total r m l'.
Proof.
  unfold lits. revert l. induction (text s) as [|c p IH]; intros l; cbn [foldr app].
  - split; [by exists l|]. by intros (m & -> & ?).
  - change (leads total (RSeq (lit c) ?r) l l') with
      (exists m, (exists d, l = d :: m /\ Ascii.eqb c d = true) /\ leads total r m l').
    setoid_rewrite IH. split.
    + intros (m & (d & -> & <-%Ascii.eqb_eq) & m' & -> & H). by exists m'.
    + intros (m & -> & H). exists (p ++ m). split; [exists c; by rewrite Ascii.eqb_refl|by exists m].
Qed.

(** The texts of the expression. *)
Lemma remote_matches (other : GoRegexp) s :
  is_ascii s = true ->
  @re_MatchString (go_regexp other) remote_expression s = true <->
  exists seg segs, text s = seg ++ dashed (segs ++ [text "remote"]) /\
    good_segment seg = true /\ forallb good_segment segs = true.
Proof.
  intros Ha. rewrite (MatchString_leads other _ _ _ _ parse_remote_expression Ha).
  assert (Hd : forall segs, dashed (segs ++ [text "remote"]) = dashed segs ++ text "-remote").
  { intros segs. unfold dashed. by rewrite fmap_app, concat_app. }
  split.
  - intros (pre & m & m' & Hs & (m1 & [-> Hl] & m2 & (seg & -> & Hg)%leads_segment & m3 &
      (segs & -> & Hgs)%leads_dashed & (m4 & -> & (m5 & [-> ->] & ->))%leads_lits)).
    rewrite <- text_length, Hs, (length_app pre) in Hl. destruct pre; [|cbn in Hl; lia].
    exists seg, segs. by rewrite Hd, Hs, app_nil_r.
  - intros (seg & segs & Hs & Hg & Hgs). exists [], (text s), []. split; [done|].
    exists (text s). split; [split; [done|apply text_length]|]. rewrite Hs, Hd.
    exists (dashed segs ++ text "-remote"). split; [apply leads_segment; by eauto|].
    exists (text "-remote"). split; [apply leads_dashed; by eauto|].
    apply leads_lits. exists []. split; [by rewrite app_nil_r|]. by exists [].
Qed.

(** The segments between the dashes. *)
Lemma segments_dashed segs seg acc :
  forallb good_segment segs = true -> forallb alphanumeric seg = true ->
  segments (seg ++ dashed segs) acc = (rev acc ++ seg) :: segs.
Proof.
  revert seg acc. induction segs as [|seg' segs IH]; intros seg acc Hs; revert acc;
    induction seg as [|c seg IHs]; intros acc Hg.
  - cbn. by rewrite app_nil_r.
  - cbn in *. apply andb_true_iff in Hg as [Hc Hg]. rewrite (alphanumeric_no_dash _ Hc).
    rewrite IHs by done. cbn. by rewrite <- app_assoc.
  - cbn [forallb] in Hs. apply andb_true_iff in Hs as [[_ Hs']%andb_true_iff Hs].
    unfold dashed. cbn. rewrite IH by done. by rewrite app_nil_r.
  - cbn [forallb app segments] in *. apply andb_true_iff in Hg as [Hc Hg].
    rewrite (alphanumeric_no_dash _ Hc), IHs by done. cbn. by rewrite <- app_assoc.
Qed.
Lemma segments_join l acc :
  exists seg segs, segments l acc = (rev acc ++ seg) :: segs /\ l = seg ++ dashed segs.
Proof.
  revert acc. induction l as [|c l IH]; intros acc; cbn [segments].
  - exists [], []. by rewrite app_nil_r.
  - destruct (Ascii.eqb_spec c "-") as [->|_].
    + destruct (IH []) as (seg & segs & -> & ->). exists [], (seg :: segs). by rewrite app_nil_r.
    + destruct (IH (c :: acc)) as (seg & segs & -> & ->). exists (c :: seg), segs.
      cbn. by rewrite <- app_assoc.
Qed.

(** isRemoteConnectionType, modelled as a split at the dashes, is what its expression
    computes. *)
Lemma isRemoteConnectionType_expression (other : GoRegexp) connectionType :
  is_ascii connectionType = true ->
  isRemoteConnectionType connectionType =
    @re_MatchString (go_regexp other) remote_expression connectionType.
Proof.
  intros Ha. apply eq_true_iff_eq. rewrite (remote_matches other _ Ha).
  unfold isRemoteConnectionType. change (fun seg => _ && _) with good_segment.
  rewrite !andb_true_iff, bool_decide_eq_true. split.
  - destruct (segments_join (text connectionType) []) as (seg & segs & -> & ->).
    cbn [rev app]. intros [[Hl Hg] Hlast]. exists seg.
    destruct (exists_last (l := segs)) as (segs' & x & ->); [by intros ->|].
    rewrite app_comm_cons, last_snoc in Hlast. injection Hlast as ->. exists segs'. split; [done|].
    cbn [forallb] in Hg. rewrite forallb_app, !andb_true_iff in Hg. tauto.
  - intros (seg & segs & -> & Hg & Hgs).
    pose proof Hg as [_ Ha']%andb_true_iff.
    rewrite segments_dashed; [|by rewrite forallb_app, Hgs|done]. cbn [rev app].
    split; [split|].
    + apply Z.ltb_lt. cbn. rewrite length_app. cbn. lia.
    + cbn [forallb]. by rewrite Hg, forallb_app, Hgs.
    + by rewrite app_comm_cons, last_snoc.
Qed.
