(* ===== verification/RefControllers.v ===== *)
(** * RefControllers: the template and access strategy controllers

    internal/controller workspacetemplate_controller.go and
    workspaceaccessstrategy_controller.go: lookup labels and protection finalizers
    of templates and strategies, and which objects a change of another object
    enqueues. *)

From S2P Require Import Prelude Api K8s Trace WorkspaceQueries Status TemplateWebhook.

Definition templateFinalizerName : string := "workspace.jupyter.org/template-protection".

(** A reconcile request, or the key of a stored object: namespace and name. *)
Notation Key := (string * string)%type.

(** [object.Labels[key]] of a workspace. *)
Definition ws_label (w : Workspace) (key : string) : string :=
  default "" (om_Labels (ws_ObjectMeta w) !! key).

Definition set_tst_ObservedGeneration (generation : Z) (t : WorkspaceTemplate) : WorkspaceTemplate :=
  set_wt_Status (mkWorkspaceTemplateStatus generation) t.

(** ** Templates *)

Module TemplateReconciler.
(** The reconciler: its client, the status subresource, and the recorder, which
    may be nil. *)
Record t (W : Type) := mk {
  client : RefClient W;
  StatusUpdate : WorkspaceTemplate -> ST W WorkspaceTemplate;
  recorder : option (WorkspaceTemplate -> Event -> ST W unit);
}.
Arguments client {W}.
Arguments StatusUpdate {W}.
Arguments recorder {W}.

(** findTemplatesForWorkspace maps a workspace to the template its labels name. *)
Definition findTemplatesForWorkspace (w : Workspace) : list Key :=
  let templateName := ws_label w LabelWorkspaceTemplate in
  let templateNamespace := ws_label w LabelWorkspaceTemplateNamespace in
  if bool_decide (templateName = "") || bool_decide (templateNamespace = "") then []
  else [(templateNamespace, templateName)].

(** handleSpecChanges: whether to write the status, and the generation to write. *)
Definition handleSpecChanges (template : WorkspaceTemplate) : bool * Z :=
  let currentGeneration := om_Generation (wt_ObjectMeta template) in
  let observedGeneration := tst_ObservedGeneration (wt_Status template) in
  if currentGeneration <=? observedGeneration then (false, 0)
  else if (currentGeneration =? 1) && (observedGeneration =? 0) then (true, 1)
  else (true, currentGeneration).

Section reconcile.
Context {W : Type} (r : t W).
Local Open Scope go_scope.

(** manageFinalizer: the finalizer is there exactly when workspaces use the
    template.  The template is returned as the update left it. *)
Definition manageFinalizer (template : WorkspaceTemplate) : ST W WorkspaceTemplate :=
  let hasFinalizer := ContainsFinalizer (wt_ObjectMeta template) templateFinalizerName in
  hasWorkspaces <- HasActiveWorkspacesWithTemplate (client r) (om_Name (wt_ObjectMeta template))
                     (om_Namespace (wt_ObjectMeta template)) ;;
  if (hasWorkspaces : bool) && negb hasFinalizer then
    crud_Update (rc_Template (client r))
      (set_wt_ObjectMeta (AddFinalizer templateFinalizerName (wt_ObjectMeta template)) template)
  else if negb hasWorkspaces && hasFinalizer then
    crud_Update (rc_Template (client r))
      (set_wt_ObjectMeta (RemoveFinalizer templateFinalizerName (wt_ObjectMeta template)) template)
  else st_ret template.

(** reconcileAccessStrategyLabels writes the labels when they are out of date. *)
Definition reconcileAccessStrategyLabels (template : WorkspaceTemplate)
    : ST W (WorkspaceTemplate * bool) :=
  let '(labelled, changed) := ApplyAccessStrategyLabels template in
  if negb changed then st_ret (labelled, false)
  else
  stored <- st_wrap "failed to update access strategy labels on template %s/%s: %w"
              [om_Namespace (wt_ObjectMeta template); om_Name (wt_ObjectMeta template)]
              (crud_Update (rc_Template (client r)) labelled) ;;
  st_ret (stored, true).

(** ensureAccessStrategyFinalizer backfills the protection of the strategy. *)
Definition ensureAccessStrategyFinalizer (template : WorkspaceTemplate) : ST W unit :=
  match ts_DefaultAccessStrategy (wt_Spec template) with
  | None => st_ret tt
  | Some ref =>
      if bool_decide (asr_Name ref = "") then st_ret tt
      else EnsureAccessStrategyFinalizerByRef (client r)
             (template_label template LabelAccessStrategyName)
             (template_label template LabelAccessStrategyNamespace)
             AccessStrategyTemplateFinalizerName false
  end.

(** handleDeletion blocks while workspaces use the template, with an event. *)
Definition handleDeletion (template : WorkspaceTemplate) : ST W unit :=
  if negb (ContainsFinalizer (wt_ObjectMeta template) templateFinalizerName) then st_ret tt
  else
  hasWorkspaces <- HasActiveWorkspacesWithTemplate (client r) (om_Name (wt_ObjectMeta template))
                     (om_Namespace (wt_ObjectMeta template)) ;;
  if (hasWorkspaces : bool) then
    match recorder r with
    | Some emit => emit template (mkEvent "Warning" "TemplateInUse"
                     "Cannot delete template: in use by workspace(s)")
    | None => st_ret tt
    end
  else
  crud_Update (rc_Template (client r))
    (set_wt_ObjectMeta (RemoveFinalizer templateFinalizerName (wt_ObjectMeta template)) template) ;;
  st_ret tt.

Definition updateStatusObservedGeneration (template : WorkspaceTemplate) (generation : Z) : ST W unit :=
  st_wrap "failed to update status: %w" []
    (StatusUpdate r (set_tst_ObservedGeneration generation template)) ;;
  st_ret tt.

(** Reconcile; it never asks for a requeue. *)
Definition Reconcile (req : Key) : ST W unit :=
  got <- st_try (crud_Get (rc_Template (client r)) req.2 req.1) ;;
  match got with
  | Fail err => if IsNotFound err then st_ret tt else st_fail err
  | Ok template =>
      if is_deleting (wt_ObjectMeta template) then handleDeletion template
      else
      labelled <- reconcileAccessStrategyLabels template ;;
      if (snd labelled : bool) then st_ret tt
      else
      let template := fst labelled in
      ensureAccessStrategyFinalizer template ;;
      let '(shouldUpdateStatus, newGeneration) := handleSpecChanges template in
      template <- manageFinalizer template ;;
      if (shouldUpdateStatus : bool) then updateStatusObservedGeneration template newGeneration
      else st_ret tt
  end.
End reconcile.
End TemplateReconciler.

(** ** Access strategies *)

Module AccessStrategyReconciler.

(** setFinalizer, and whether it changed the finalizers. *)
Definition setFinalizer (finalizerName : string) (present : bool) (a : WorkspaceAccessStrategy)
    : WorkspaceAccessStrategy * bool :=
  let had := ContainsFinalizer (was_ObjectMeta a) finalizerName in
  if present then (set_was_ObjectMeta (AddFinalizer finalizerName (was_ObjectMeta a)) a, negb had)
  else (set_was_ObjectMeta (RemoveFinalizer finalizerName (was_ObjectMeta a)) a, had).

(** applyDesired: both finalizers, and whether anything changed. *)
Definition applyDesired (hasWorkspaces hasTemplates : bool) (a : WorkspaceAccessStrategy)
    : WorkspaceAccessStrategy * bool :=
  let '(a, changed1) := setFinalizer AccessStrategyFinalizerName hasWorkspaces a in
  let '(a, changed2) := setFinalizer AccessStrategyTemplateFinalizerName hasTemplates a in
  (a, changed2 || changed1).

(** findAccessStrategiesForWorkspace and findAccessStrategiesForTemplate map an
    object to the strategy its labels name. *)
Definition findAccessStrategiesForWorkspace (w : Workspace) : list Key :=
  let name := ws_label w LabelAccessStrategyName in
  let namespace := ws_label w LabelAccessStrategyNamespace in
  if bool_decide (name = "") || bool_decide (namespace = "") then [] else [(namespace, name)].
Definition findAccessStrategiesForTemplate (t : WorkspaceTemplate) : list Key :=
  let name := template_label t LabelAccessStrategyName in
  let namespace := template_label t LabelAccessStrategyNamespace in
  if bool_decide (name = "") || bool_decide (namespace = "") then [] else [(namespace, name)].

(** The attempts of retry.DefaultRetry. *)
Definition retry_steps : nat := 5.

Section reconcile.
Context {W : Type} (client : RefClient W).
Local Open Scope go_scope.

(** retry.RetryOnConflict: again while the error is a conflict and steps remain;
    the last conflict is returned. *)
Fixpoint RetryOnConflict (steps : nat) (lastErr : error) (fn : ST W unit) : ST W unit :=
  match steps with
  | O => st_fail lastErr
  | S steps =>
      out <- st_try fn ;;
      match out with
      | Ok _ => st_ret tt
      | Fail err => if IsConflict err then RetryOnConflict steps err fn else st_fail err
      end
  end.

(** One attempt on the latest version. *)
Definition retry_latest (name namespace : string) (hasWorkspaces hasTemplates : bool) : ST W unit :=
  latest <- crud_Get (rc_AccessStrategy client) name namespace ;;
  let '(desired, changed) := applyDesired hasWorkspaces hasTemplates latest in
  if negb changed then st_ret tt
  else crud_Update (rc_AccessStrategy client) desired ;; st_ret tt.

(** reconcileFinalizers brings both finalizers in line in one update. *)
Definition reconcileFinalizers (accessStrategy : WorkspaceAccessStrategy)
    (hasWorkspaces hasTemplates : bool) : ST W bool :=
  let '(desired, changed) := applyDesired hasWorkspaces hasTemplates accessStrategy in
  if negb changed then st_ret false
  else
  out <- st_try (crud_Update (rc_AccessStrategy client) desired) ;;
  match out with
  | Ok _ => st_ret true
  | Fail err =>
      if negb (IsConflict err) then st_fail err
      else
      RetryOnConflict retry_steps err
        (retry_latest (om_Name (was_ObjectMeta accessStrategy))
           (om_Namespace (was_ObjectMeta accessStrategy)) hasWorkspaces hasTemplates) ;;
      st_ret true
  end.

Definition Reconcile (req : Key) : ST W unit :=
  got <- st_try (crud_Get (rc_AccessStrategy client) req.2 req.1) ;;
  match got with
  | Fail err => if IsNotFound err then st_ret tt else st_fail err
  | Ok accessStrategy =>
      let name := om_Name (was_ObjectMeta accessStrategy) in
      let namespace := om_Namespace (was_ObjectMeta accessStrategy) in
      hasWorkspaces <- HasActiveWorkspacesWithAccessStrategy client name namespace ;;
      hasTemplates <- HasActiveTemplatesWithAccessStrategy client name namespace ;;
      _changed <- reconcileFinalizers accessStrategy hasWorkspaces hasTemplates ;;
      st_ret tt
  end.
End reconcile.
End AccessStrategyReconciler.

(** ** The calls of a reconcile *)

Definition has_fin (meta : ObjectMeta) (fin : string) : bool := ContainsFinalizer meta fin.

(** What a reconcile asks of the cluster, with the answer. *)
Inductive RefCall :=
| ListedWorkspaces (sel : gmap string string) (token : string) (limit : Z)
    (answer : result (list Workspace * string))
| ListedTemplates (sel : gmap string string) (ns : option string)
    (answer : result (list WorkspaceTemplate))
| GotTemplate (k : Key) (answer : result WorkspaceTemplate)
| GotStrategy (k : Key) (answer : result WorkspaceAccessStrategy)
| UpdatedTemplate (t : WorkspaceTemplate) (answer : result WorkspaceTemplate)
| UpdatedStrategy (a : WorkspaceAccessStrategy) (answer : result WorkspaceAccessStrategy)
| UpdatedTemplateStatus (t : WorkspaceTemplate) (answer : result WorkspaceTemplate)
| Emitted (t : WorkspaceTemplate) (e : Event) (answer : result unit)
| OtherCall (ok : bool).

Definition failed (c : RefCall) : bool :=
  match c with
  | ListedWorkspaces _ _ _ r => negb (is_ok r)
  | ListedTemplates _ _ r => negb (is_ok r)
  | GotTemplate _ r | UpdatedTemplate _ r | UpdatedTemplateStatus _ r => negb (is_ok r)
  | GotStrategy _ r | UpdatedStrategy _ r => negb (is_ok r)
  | Emitted _ _ r => negb (is_ok r)
  | OtherCall ok => negb ok
  end.
Definition is_strategy_update (c : RefCall) : bool :=
  match c with UpdatedStrategy _ _ => true | _ => false end.
Definition strategy_updates (calls : list RefCall) : nat := length (List.filter is_strategy_update calls).

(** The same client, its calls written down with their answers. *)
Definition other {W A} (m : ST W A) : ST (W * list RefCall) A :=
  recording (fun r => [OtherCall (is_ok r)]) m.
Definition traced_crud {W A} (got : Key -> result A -> RefCall) (updated : A -> result A -> RefCall)
    (c : Crud W A) : Crud (W * list RefCall) A := {|
  crud_Get := fun name ns => recording (fun r => [got (ns, name) r]) (crud_Get c name ns);
  crud_Create := fun a => other (crud_Create c a);
  crud_Update := fun a => recording (fun r => [updated a r]) (crud_Update c a);
  crud_Delete := fun a => other (crud_Delete c a);
|}.
Definition traced {W} (client : RefClient W) : RefClient (W * list RefCall) := {|
  rc_ListWorkspaces := fun sel token limit =>
    recording (fun r => [ListedWorkspaces sel token limit r]) (rc_ListWorkspaces client sel token limit);
  rc_ListTemplates := fun sel ns =>
    recording (fun r => [ListedTemplates sel ns r]) (rc_ListTemplates client sel ns);
  rc_ListServiceAccounts := fun sel ns => other (rc_ListServiceAccounts client sel ns);
  rc_GetServiceAccount := fun name ns => other (rc_GetServiceAccount client name ns);
  rc_Template := traced_crud GotTemplate UpdatedTemplate (rc_Template client);
  rc_AccessStrategy := traced_crud GotStrategy UpdatedStrategy (rc_AccessStrategy client);
  rc_IntegrationTemplate := traced_crud (fun _ r => OtherCall (is_ok r)) (fun _ r => OtherCall (is_ok r))
    (rc_IntegrationTemplate client);
  rc_PVC := traced_crud (fun _ r => OtherCall (is_ok r)) (fun _ r => OtherCall (is_ok r)) (rc_PVC client);
|}.
Definition traced_templates {W} (r : TemplateReconciler.t W) : TemplateReconciler.t (W * list RefCall) :=
  TemplateReconciler.mk _ (traced (TemplateReconciler.client r))
    (fun t => recording (fun a => [UpdatedTemplateStatus t a]) (TemplateReconciler.StatusUpdate r t))
    ((fun emit t e => recording (fun a => [Emitted t e a]) (emit t e)) <$> TemplateReconciler.recorder r).

(** ** Templates: what justifies a call, and what a reconcile achieves *)

(** The workspaces the label query answered with that refer to template [t]. *)
Definition template_in_use (t : WorkspaceTemplate) (answer : list Workspace * string) : bool :=
  existsb (uses_template (om_Name (wt_ObjectMeta t)) (om_Namespace (wt_ObjectMeta t))) answer.1.
Definition template_listed (t : WorkspaceTemplate) (answer : list Workspace * string) (seen : list RefCall)
    : Prop :=
  ListedWorkspaces (template_selector (om_Name (wt_ObjectMeta t)) (om_Namespace (wt_ObjectMeta t))) "" 0
    (Ok answer) ∈ seen.

(** [t'] is [t] with its protection as [used] asks, and nothing else changed. *)
Definition template_set (used : bool) (t t' : WorkspaceTemplate) : Prop :=
  exists fs, t' = set_wt_ObjectMeta (set_om_Finalizers fs (wt_ObjectMeta t)) t /\
    forall f, f ∈ fs <-> if decide (f = templateFinalizerName) then used = true
                         else f ∈ om_Finalizers (wt_ObjectMeta t).
(** [t'] is [t] with labels that say what it refers to, and nothing else changed. *)
Definition template_labelled (t t' : WorkspaceTemplate) : Prop :=
  exists labels, t' = set_wt_ObjectMeta (set_om_Labels labels (wt_ObjectMeta t)) t /\ labels_reflect t'.

(** The protection of [t] agrees with a list of its users: as it was read, or by a
    write that was accepted. *)
Definition template_in_line (t : WorkspaceTemplate) (seen : list RefCall) : Prop :=
  exists answer, template_listed t answer seen /\
    (has_fin (wt_ObjectMeta t) templateFinalizerName = template_in_use t answer \/
     exists t' stored, UpdatedTemplate t' (Ok stored) ∈ seen /\ template_set (template_in_use t answer) t t').

Definition strategy_key (t : WorkspaceTemplate) : Key := ((strategy_ref t).2, (strategy_ref t).1).
Definition add_template_protection (a : WorkspaceAccessStrategy) : WorkspaceAccessStrategy :=
  set_was_ObjectMeta (AddFinalizer AccessStrategyTemplateFinalizerName (was_ObjectMeta a)) a.

Definition template_call (k : Key) (seen : list RefCall) (c : RefCall) : Prop :=
  match c with
  | UpdatedTemplate t' _ => exists t, GotTemplate k (Ok t) ∈ seen /\
      ((is_deleting (wt_ObjectMeta t) = false /\ ~ labels_reflect t /\ template_labelled t t') \/
       exists answer, template_listed t answer seen /\ template_set (template_in_use t answer) t t')
  | UpdatedStrategy a' _ => exists t a, GotTemplate k (Ok t) ∈ seen /\
      is_deleting (wt_ObjectMeta t) = false /\ (strategy_ref t).1 <> "" /\
      GotStrategy (strategy_key t) (Ok a) ∈ seen /\ a' = add_template_protection a
  | UpdatedTemplateStatus t' _ => exists t, GotTemplate k (Ok t) ∈ seen /\ template_in_line t seen /\
      tst_ObservedGeneration (wt_Status t') = om_Generation (wt_ObjectMeta t)
  | OtherCall _ => False
  | _ => True
  end.



(** ** Access strategies *)

Definition strategy_in_use (a : WorkspaceAccessStrategy) (answer : list Workspace * string) : bool :=
  existsb (fun w =>
    negb (is_deleting (ws_ObjectMeta w)) &&
    match sp_AccessStrategy (ws_Spec w) with
    | None => false
    | Some ref => bool_decide (asr_Name ref = om_Name (was_ObjectMeta a)) &&
                  bool_decide (GetAccessStrategyRefNamespace w = om_Namespace (was_ObjectMeta a))
    end) answer.1.
Definition strategy_templated (ts : list WorkspaceTemplate) : bool :=
  existsb (fun t => negb (is_deleting (wt_ObjectMeta t))) ts.
(** The workspaces and the templates the two label queries on [a] answered with. *)
Definition strategy_listed (a : WorkspaceAccessStrategy) (answer : list Workspace * string)
    (ts : list WorkspaceTemplate) (seen : list RefCall) : Prop :=
  let sel := strategy_selector (om_Name (was_ObjectMeta a)) (om_Namespace (was_ObjectMeta a)) in
  ListedWorkspaces sel "" 0 (Ok answer) ∈ seen /\ ListedTemplates sel None (Ok ts) ∈ seen.

(** [a'] is [a] with its two protections as [u] and [v] ask, and nothing else changed. *)
Definition strategy_set (u v : bool) (a a' : WorkspaceAccessStrategy) : Prop :=
  exists fs, a' = set_was_ObjectMeta (set_om_Finalizers fs (was_ObjectMeta a)) a /\
    forall f, f ∈ fs <-> if decide (f = AccessStrategyFinalizerName) then u = true
                         else if decide (f = AccessStrategyTemplateFinalizerName) then v = true
                         else f ∈ om_Finalizers (was_ObjectMeta a).
(** A version of the strategy: the one read first, or one read again by its name. *)
Definition strategy_version (a0 a : WorkspaceAccessStrategy) (seen : list RefCall) : Prop :=
  a = a0 \/ GotStrategy (om_Namespace (was_ObjectMeta a0), om_Name (was_ObjectMeta a0)) (Ok a) ∈ seen.

Definition strategy_call (k : Key) (seen : list RefCall) (c : RefCall) : Prop :=
  match c with
  | UpdatedStrategy a' _ =>
      (exists a0 a answer ts, GotStrategy k (Ok a0) ∈ seen /\ strategy_listed a0 answer ts seen /\
         strategy_version a0 a seen /\
         strategy_set (strategy_in_use a0 answer) (strategy_templated ts) a a') /\
      (strategy_updates seen <= AccessStrategyReconciler.retry_steps)%nat /\
      forall b r, UpdatedStrategy b r ∈ seen -> exists e, r = Fail e /\ IsConflict e = true
  | UpdatedTemplate _ _ | UpdatedTemplateStatus _ _ | Emitted _ _ _ | OtherCall _ => False
  | _ => True
  end.

Definition strategy_reconciled (k : Key) (seen : list RefCall) (res : result unit) : Prop :=
  match res with
  | Fail _ => exists c, c ∈ seen /\ failed c = true
  | Ok _ =>
      (exists e, GotStrategy k (Fail e) ∈ seen /\ IsNotFound e = true) \/
      exists a0 answer ts, GotStrategy k (Ok a0) ∈ seen /\ strategy_listed a0 answer ts seen /\
        exists a, strategy_version a0 a seen /\
          ((has_fin (was_ObjectMeta a) AccessStrategyFinalizerName = strategy_in_use a0 answer /\
            has_fin (was_ObjectMeta a) AccessStrategyTemplateFinalizerName = strategy_templated ts) \/
           exists a' stored, UpdatedStrategy a' (Ok stored) ∈ seen /\
             strategy_set (strategy_in_use a0 answer) (strategy_templated ts) a a')
  end.

(** ** Following the calls *)

#[local] Hint Extern 1 (_ ∈ _ ++ [_]) => apply elem_of_app; right; by apply list_elem_of_singleton : seen.
#[local] Hint Extern 2 (_ ∈ _ ++ _) => apply elem_of_app; left : seen.
Ltac in_seen := eauto 12 with seen.

Section traced.
Context {W : Type}.



Lemma RetryOnConflict_traced (m' : ST (W * list RefCall) unit) (m : ST W unit) steps err :
  sim m' m -> sim (AccessStrategyReconciler.RetryOnConflict steps err m')
                  (AccessStrategyReconciler.RetryOnConflict steps err m).
Proof.
  intros Hm. revert err. induction steps as [|steps IH]; intros err; [done|]. cbn.
  apply sim_bind; [by apply sim_try|]. intros [?|e]; [done|]. destruct (IsConflict e); [apply IH|done].
Qed.

Lemma strategy_Reconcile_traced (c : RefClient W) k :
  sim (AccessStrategyReconciler.Reconcile (traced c) k) (AccessStrategyReconciler.Reconcile c k).
Proof.
  unfold AccessStrategyReconciler.Reconcile, AccessStrategyReconciler.reconcileFinalizers,
    HasActiveWorkspacesWithAccessStrategy, HasActiveTemplatesWithAccessStrategy.
  apply sim_bind; [repeat sim_step|]. intros [a|e]; [|repeat sim_step].
  apply sim_bind; [repeat sim_step|]. intros u. apply sim_bind; [repeat sim_step|]. intros v.
  apply sim_bind; [|done]. destruct (AccessStrategyReconciler.applyDesired u v a) as [d []]; [|done].
  cbn [negb]. apply sim_bind; [repeat sim_step|]. intros [?|e]; [done|]. destruct (IsConflict e); [|done].
  cbn [negb]. apply sim_bind; [|done]. apply RetryOnConflict_traced.
  unfold AccessStrategyReconciler.retry_latest. apply sim_bind; [apply sim_recording|]. intros latest.
  destruct (AccessStrategyReconciler.applyDesired u v latest) as [d' []]; cbn [negb]; [|done].
  repeat sim_step.
Qed.
End traced.

(** ** What is written *)



(** One finalizer set or cleared. *)
Lemma finalizer_set (fin : string) (present : bool) (m : ObjectMeta) :
  exists fs, (if present then AddFinalizer else RemoveFinalizer) fin m = set_om_Finalizers fs m /\
    forall f, f ∈ fs <-> if decide (f = fin) then present = true else f ∈ om_Finalizers m.
Proof.
  destruct present; unfold AddFinalizer, RemoveFinalizer, ContainsFinalizer.
  - case_bool_decide as Hc.
    + exists (om_Finalizers m). split; [by destruct m|]. intros f. by destruct (decide (f = fin)) as [->|].
    + eexists. split; [done|]. intros f. rewrite elem_of_app, list_elem_of_singleton.
      destruct (decide (f = fin)); tauto.
  - eexists. split; [done|]. intros f. rewrite list_elem_of_filter. destruct (decide (f = fin)); naive_solver.
Qed.


Lemma setFinalizer_eq f u a :
  AccessStrategyReconciler.setFinalizer f u a =
  (set_was_ObjectMeta ((if u then AddFinalizer else RemoveFinalizer) f (was_ObjectMeta a)) a,
   negb (Bool.eqb u (has_fin (was_ObjectMeta a) f))).
Proof. unfold AccessStrategyReconciler.setFinalizer, has_fin. by destruct u, (ContainsFinalizer _ _). Qed.

Lemma has_fin_set f g u (m : ObjectMeta) :
  f <> g -> has_fin ((if u : bool then AddFinalizer else RemoveFinalizer) g m) f = has_fin m f.
Proof.
  intros Hne. destruct (finalizer_set g u m) as (fs & -> & Hfs). unfold has_fin, ContainsFinalizer. cbn.
  apply bool_decide_ext. rewrite Hfs. by destruct (decide (f = g)).
Qed.

(** The finalizers a strategy is meant to have, nothing else of it changed, and no
    change reported exactly when it has them already. *)
Lemma applyDesired_spec u v a :
  let d := AccessStrategyReconciler.applyDesired u v a in
  strategy_set u v a d.1 /\
  (d.2 = false -> has_fin (was_ObjectMeta a) AccessStrategyFinalizerName = u /\
                  has_fin (was_ObjectMeta a) AccessStrategyTemplateFinalizerName = v).
Proof.
  unfold AccessStrategyReconciler.applyDesired. rewrite setFinalizer_eq, setFinalizer_eq. cbn.
  rewrite has_fin_set by done. split.
  - destruct (finalizer_set AccessStrategyFinalizerName u (was_ObjectMeta a)) as (fs & -> & Hfs).
    destruct (finalizer_set AccessStrategyTemplateFinalizerName v (set_om_Finalizers fs (was_ObjectMeta a)))
      as (fs' & -> & Hfs'). exists fs'. split; [done|]. intros f. rewrite Hfs'. specialize (Hfs f). cbn.
    destruct (decide (f = AccessStrategyTemplateFinalizerName)) as [->|]; [by rewrite decide_False by done|].
    by destruct (decide (f = AccessStrategyFinalizerName)).
  - destruct u, v, (has_fin (was_ObjectMeta a) AccessStrategyFinalizerName),
      (has_fin (was_ObjectMeta a) AccessStrategyTemplateFinalizerName); done.
Qed.

(** ** The template controller *)

Section template.
Context {W : Type} (r : TemplateReconciler.t W) (k : Key).
Let P := template_call k.

(** A failure comes from a call that failed. *)
Definition blames {A} (D : list RefCall -> A -> Prop) (seen : list RefCall) (res : result A) : Prop :=
  match res with Ok a => D seen a | Fail _ => exists c, c ∈ seen /\ failed c = true end.








End template.





(** ** Watches *)

(** A selector of two labels. *)
Lemma selects_two (labels : gmap string string) k1 k2 v1 v2 :
  k1 <> k2 -> {[ k1 := v1; k2 := v2 ]} ⊆ labels ->
  default "" (labels !! k1) = v1 /\ default "" (labels !! k2) = v2.
Proof.
  intros Hne Hs. assert (H1 : labels !! k1 = Some v1).
  { eapply lookup_weaken; [|done]. apply lookup_insert_eq. }
  assert (H2 : labels !! k2 = Some v2).
  { eapply lookup_weaken; [|done]. rewrite lookup_insert_ne by done. apply lookup_singleton_eq. }
  by rewrite H1, H2.
Qed.

(** A change of an object that a label query of a reconcile finds enqueues that
    reconcile. *)
Lemma watches_cover_queries (k : Key) (w : Workspace) (t : WorkspaceTemplate) :
  k.1 <> "" -> k.2 <> "" ->
  (template_selector k.2 k.1 ⊆ om_Labels (ws_ObjectMeta w) ->
   k ∈ TemplateReconciler.findTemplatesForWorkspace w) /\
  (strategy_selector k.2 k.1 ⊆ om_Labels (ws_ObjectMeta w) ->
   k ∈ AccessStrategyReconciler.findAccessStrategiesForWorkspace w) /\
  (strategy_selector k.2 k.1 ⊆ om_Labels (wt_ObjectMeta t) ->
   k ∈ AccessStrategyReconciler.findAccessStrategiesForTemplate t).
Proof.
  intros H1 H2. unfold TemplateReconciler.findTemplatesForWorkspace,
    AccessStrategyReconciler.findAccessStrategiesForWorkspace,
    AccessStrategyReconciler.findAccessStrategiesForTemplate, ws_label, template_label.
  split_and!; intros [Hn Hns]%selects_two; try done; cbv zeta;
    rewrite Hn, Hns, !bool_decide_false by done; cbn; rewrite <- surjective_pairing; by left.
Qed.

(** ** The access strategy controller *)

Section strategy.
Context {W : Type} (client : RefClient W) (k : Key) (a0 : WorkspaceAccessStrategy)
  (answer : list Workspace * string) (ts : list WorkspaceTemplate).
Let P := strategy_call k.
Let u := strategy_in_use a0 answer.
Let v := strategy_templated ts.

(** Reads made, and every write so far lost to a conflict. *)
Record writing (n : nat) (seen : list RefCall) : Prop := mkWriting {
  wr_got : GotStrategy k (Ok a0) ∈ seen;
  wr_listed : strategy_listed a0 answer ts seen;
  wr_updates : strategy_updates seen = n;
  wr_conflicts : forall b r, UpdatedStrategy b r ∈ seen -> exists e, r = Fail e /\ IsConflict e = true;
}.

(** The strategy ends as the queries say: as some version already was, or by a write. *)
Definition strategy_in_line (seen : list RefCall) : Prop :=
  GotStrategy k (Ok a0) ∈ seen /\ strategy_listed a0 answer ts seen /\
  exists a, strategy_version a0 a seen /\
    ((has_fin (was_ObjectMeta a) AccessStrategyFinalizerName = u /\
      has_fin (was_ObjectMeta a) AccessStrategyTemplateFinalizerName = v) \/
     exists a' stored, UpdatedStrategy a' (Ok stored) ∈ seen /\ strategy_set u v a a').

Lemma listed_mono seen calls : strategy_listed a0 answer ts seen -> strategy_listed a0 answer ts (seen ++ calls).
Proof. intros [? ?]. split; in_seen. Qed.

Lemma strategy_updates_app a b : strategy_updates (a ++ b) = (strategy_updates a + strategy_updates b)%nat.
Proof. unfold strategy_updates. by rewrite List.filter_app, length_app. Qed.

Lemma writing_read n seen c :
  is_strategy_update c = false -> writing n seen -> writing n (seen ++ [c]).
Proof.
  intros Hc [? ? Hn Hw]. split; [in_seen|by apply listed_mono| |].
  - rewrite strategy_updates_app, Hn. unfold strategy_updates. cbn. rewrite Hc. cbn. lia.
  - intros b r [?|E%list_elem_of_singleton]%elem_of_app; [by eapply Hw|]. by subst c.
Qed.

Lemma writing_conflict n seen b e :
  IsConflict e = true -> writing n seen -> writing (S n) (seen ++ [UpdatedStrategy b (Fail e)]).
Proof.
  intros He [? ? Hn Hw]. split; [in_seen|by apply listed_mono| |].
  - rewrite strategy_updates_app, Hn. cbn. lia.
  - intros b' r [?|E%list_elem_of_singleton]%elem_of_app; [by eapply Hw|]. injection E as -> ->. eauto.
Qed.

(** One write of a version's finalizers: accepted, or refused. *)
Lemma write_traces n seen a d :
  writing n seen -> (n <= AccessStrategyReconciler.retry_steps)%nat -> strategy_version a0 a seen ->
  strategy_set u v a d ->
  traces P seen (crud_Update (rc_AccessStrategy (traced client)) d)
    (fun seen' r => match r with
       | Ok _ => strategy_in_line seen'
       | Fail e => seen' = seen ++ [UpdatedStrategy d (Fail e)]
       end).
Proof.
  intros Hw Hle Hv Hset. pose proof Hw as [Hg Hl Hn Hc]. traces_step.
  - split; [by exists a0, a, answer, ts|]. split; [lia|done].
  - destruct r as [stored|e]; [|done]. split; [in_seen|]. split; [by apply listed_mono|]. exists a.
    split; [destruct Hv; [by left|right; in_seen]|]. right. exists d, stored. split; [in_seen|done].
Qed.

Lemma retry_traces steps n seen err :
  writing n seen -> (n + steps <= S AccessStrategyReconciler.retry_steps)%nat ->
  (exists c, c ∈ seen /\ failed c = true) ->
  traces P seen (AccessStrategyReconciler.RetryOnConflict steps err
      (AccessStrategyReconciler.retry_latest (traced client) (om_Name (was_ObjectMeta a0))
         (om_Namespace (was_ObjectMeta a0)) u v))
    (blames (fun seen _ => strategy_in_line seen)).
Proof.
  revert n seen err. induction steps as [|steps IH]; intros n seen err Hw Hn Hf;
    cbn [AccessStrategyReconciler.RetryOnConflict]; [by traces_step|].
  do 2 traces_step. unfold AccessStrategyReconciler.retry_latest. do 2 traces_step; [done|].
  set (c := GotStrategy _ r). assert (Hw' : writing n (seen ++ [c])) by by apply writing_read.
  destruct r as [latest|e].
  2:{ assert (Hf' : exists x, x ∈ seen ++ [c] /\ failed x = true) by (exists c; split; [in_seen|done]).
      destruct (IsConflict e); [|by traces_step]. eapply IH; [exact Hw'|lia|done]. }
  assert (Hv : strategy_version a0 latest (seen ++ [c])) by (right; in_seen).
  destruct (applyDesired_spec u v latest) as [Hset Hsame].
  destruct (AccessStrategyReconciler.applyDesired u v latest) as [d changed]. cbn [fst snd] in *.
  destruct changed; cbn [negb].
  - traces_step. eapply traces_mono; [by apply (write_traces n _ latest); [|lia|..]|]. intros calls [stored|e]; intros H.
    + do 2 traces_step. exact H.
    + rewrite H. assert (Hf' : exists x, x ∈ (seen ++ [c]) ++ [UpdatedStrategy d (Fail e)] /\ failed x = true)
        by (eexists; split; [in_seen|done]).
      destruct (IsConflict e) eqn:He; [|by traces_step].
      eapply IH; [by apply writing_conflict|lia|done].
  - do 2 traces_step. split; [apply Hw'|]. split; [apply Hw'|]. exists latest. split; [done|]. left. by apply Hsame.
Qed.
End strategy.

Lemma strategy_Reconcile_traces {W} (client : RefClient W) k :
  traces (strategy_call k) [] (AccessStrategyReconciler.Reconcile (traced client) k) (strategy_reconciled k).
Proof.
  destruct k as [ns name]. unfold AccessStrategyReconciler.Reconcile. do 3 traces_step; [done|].
  cbn [app fst snd]. set (k := (ns, name)). destruct r as [a|e].
  2:{ destruct (IsNotFound e) eqn:He; traces_step; cbn.
      - left. exists e. split; [by left|done].
      - eexists. split; [by left|done]. }
  unfold HasActiveWorkspacesWithAccessStrategy, HasActiveTemplatesWithAccessStrategy.
  do 4 traces_step; [done|]. destruct r as [answer|e]; cbn [wrap_err].
  2:{ cbn. eexists. split; [right; left|done]. }
  traces_step. do 4 traces_step; [done|]. destruct r as [ts|e].
  2:{ cbn. eexists. split; [right; right; left|done]. }
  traces_step. cbn [app]. set (seen := [_; _; _]).
  assert (Hw : writing k a answer ts 0 seen).
  { split; [by left|split; [right; left|right; right; left]|done|].
    intros b r H. apply list_elem_of_In in H. cbn in H. by destruct H as [|[|[|]]]. }
  clearbody seen. fold (strategy_in_use a answer). fold (strategy_templated ts).
  set (u := strategy_in_use a answer). set (v := strategy_templated ts).
  assert (Hdone : forall seen', strategy_in_line k a answer ts seen' -> strategy_reconciled k seen' (Ok tt))
    by (intros seen' H; right; by exists a, answer, ts).
  unfold AccessStrategyReconciler.reconcileFinalizers. traces_step.
  destruct (applyDesired_spec u v a) as [Hset Hsame].
  destruct (AccessStrategyReconciler.applyDesired u v a) as [d changed]. cbn [fst snd] in *.
  destruct changed; cbn [negb].
  2:{ do 2 traces_step. apply Hdone. split; [apply Hw|]. split; [apply Hw|]. exists a. split; [by left|].
      left. by apply Hsame. }
  do 2 traces_step. eapply traces_mono; [apply (write_traces client k a answer ts 0 seen a d);
    [done|unfold AccessStrategyReconciler.retry_steps; lia|by left|done]|].
  intros calls [stored|e] H; [do 2 traces_step; by apply Hdone|]. rewrite H.
  assert (Hf : exists x, x ∈ seen ++ [UpdatedStrategy d (Fail e)] /\ failed x = true)
    by (eexists; split; [in_seen|done]).
  destruct (IsConflict e) eqn:He; cbn [negb]; [|by traces_step].
  traces_step. eapply traces_mono; [eapply (retry_traces client k a answer ts _ 1); [by apply writing_conflict|done|done]|].
  intros more [[]|e'] H'; [|exact H']. do 2 traces_step. by apply Hdone.
Qed.

(** [C19] Access strategy protection, for any client: calls may fail, conflict or answer
    with stale objects.  The strategy controller writes nothing but the strategy, from a
    version it read in that reconcile, after listing by label the workspaces and the
    templates that name it, and changes nothing but its two protection finalizers: each
    is there in what is written exactly when its query showed an active referrer, so
    neither goes while its query shows one.  It writes again only after every write so
    far lost to a conflict, six times at most.  A reconcile fails only if a call failed;
    one that succeeds leaves the strategy gone, or with both finalizers in line with the
    queries, in a version it read or by a write that was accepted. *)
Theorem strategy_protection {W} (client : RefClient W) (k : Key) (s : W) :
  exists res s' calls,
    AccessStrategyReconciler.Reconcile client k s = (res, s') /\
    AccessStrategyReconciler.Reconcile (traced client) k (s, []) = (res, (s', calls)) /\
    justified (strategy_call k) [] calls /\ strategy_reconciled k calls res.
Proof.
  destruct (strategy_Reconcile_traces client k s) as (res & s' & calls & E & Hj & Hd).
  exists res, s', calls. split; [|done]. destruct (strategy_Reconcile_traced client k s []) as [H1 H2].
  rewrite E in H1, H2. cbn in H1, H2. subst. by apply surjective_pairing.
Qed.

(** ** Concrete reconciles *)

Definition ref_meta (name : string) (deleted : option Time) (finalizers : list string) : ObjectMeta :=
  mkObjectMeta name "team" "" "" 1 0 deleted ∅ ∅ [] finalizers.
(** Template t is being deleted; template u refers to strategy as. *)
Definition demo_t : WorkspaceTemplate :=
  mkWorkspaceTemplate (ref_meta "t" (Some 1) [templateFinalizerName]) zero_template_spec
    (mkWorkspaceTemplateStatus 1).
Definition demo_u : WorkspaceTemplate :=
  mkWorkspaceTemplate (ref_meta "u" None [])
    (mkWorkspaceTemplateSpec "" "" "img:1" [] None None None None None [] [] None [] None None None "" []
       [] None None "" (Some (mkAccessStrategyRef "as" "")) None None None None [] None "")
    (mkWorkspaceTemplateStatus 0).
Definition demo_as : WorkspaceAccessStrategy :=
  mkWorkspaceAccessStrategy (ref_meta "as" None [])
    (mkWorkspaceAccessStrategySpec "as" [] "" "" "" "" "" ∅ "" ∅ ∅ None None)
    (mkWorkspaceAccessStrategyStatus []).
Definition demo_user : Workspace :=
  mkWorkspace (set_om_Labels (template_selector "t" "team") (ref_meta "w" None []))
    (set_sp_TemplateRef (Some (mkTemplateRef "t" "team")) Status.zero_spec) Status.zero_status.

Definition demo_reconciler : TemplateReconciler.t RefMem :=
  TemplateReconciler.mk RefMem mem_refs st_ret (Some (fun _ _ => st_ret tt)).
Definition demo_calls (users : list Workspace) : list RefCall :=
  (TemplateReconciler.Reconcile (traced_templates demo_reconciler) ("team", "t")
     (mkRefMem {[ ("team", "t") := demo_t ]} ∅ users, [])).2.2.

(** A template in use is reported and not written; one that is not used is released. *)
Example deletion_calls :
  match demo_calls [demo_user] with
  | [GotTemplate _ (Ok _); ListedWorkspaces _ _ _ (Ok ([_], _)); Emitted _ _ (Ok tt)] => true
  | _ => false
  end = true /\
  match demo_calls [] with
  | [GotTemplate _ (Ok _); ListedWorkspaces _ _ _ (Ok ([], _)); UpdatedTemplate t (Ok _)] =>
      negb (has_fin (wt_ObjectMeta t) templateFinalizerName)
  | _ => false
  end = true.
Proof. vm_compute. done. Qed.

(** A cluster that refuses the next [n] writes with a conflict. *)
Definition conflicting : RefClient nat := {|
  rc_ListWorkspaces := fun _ _ _ => st_ret ([], "");
  rc_ListTemplates := fun _ _ => st_ret [demo_u];
  rc_ListServiceAccounts := fun _ _ => st_ret [];
  rc_GetServiceAccount := fun name _ => st_ret (mkServiceAccount name ∅);
  rc_Template := empty_crud;
  rc_AccessStrategy := mkCrud nat _ (fun _ _ => st_ret demo_as) st_ret
    (fun a n => match n with O => (Ok a, O) | S n => (Fail (ApiError ReasonConflict), n) end)
    (fun _ => st_ret tt);
  rc_IntegrationTemplate := empty_crud;
  rc_PVC := empty_crud;
|}.
(** Five conflicts are overcome; after six writes the conflict is returned. *)
Example conflict_calls :
  let run n := AccessStrategyReconciler.Reconcile (traced conflicting) ("team", "as") (n, []) in
  (run 5%nat).1 = Ok tt /\ strategy_updates (run 5%nat).2.2 = 6%nat /\
  (run 6%nat).1 = Fail (ApiError ReasonConflict) /\ strategy_updates (run 6%nat).2.2 = 6%nat.
Proof. vm_compute. done. Qed.

(** The protection the template webhook adds is gone again when the strategy
    controller runs before the template is stored. *)
Lemma admission_window :
  let m0 := mkRefMem ∅ {[ ("team", "as") := demo_as ]} [] in
  let m1 := (TemplateWebhook.Default mem_refs "" demo_u m0).2 in
  let m2 := (AccessStrategyReconciler.Reconcile mem_refs ("team", "as") m1).2 in
  (fun a => has_fin (was_ObjectMeta a) AccessStrategyTemplateFinalizerName) <$>
    (rm_Strategies m1 !! ("team", "as")) = Some true /\
  rm_Strategies m2 !! ("team", "as") = Some demo_as.
Proof. vm_compute. done. Qed.
